(* ===== verification/_CoqProject ===== *)
-Q . S2P
Prelude.v
Sorting.v
JsString.v
JsDate.v
JsValue.v
JsJson.v
Redaction.v
ContextModel.v
ContextIntegrity.v
DecisionPolicy.v
ActivationLifecycle.v
EvidenceSupport.v
SupportDelegation.v
PolicyGrant.v
EndpointCertification.v
ResourceGraph.v
ShadowParity.v
ExecutionCapsule.v
UnifiedDiff.v
KernelSupport.v
ExecutionEnvelope.v
ApprovalLog.v
ConcurrencyControl.v
ApplicationSupport.v
ExecutionPlan.v
OutcomeReconciliation.v
ContextResolution.v
ContextPins.v
ContextSwitch.v
CapsuleService.v
DispatchGate.v
CapabilityPolicy.v
SecurityDecision.v
GrowthControl.v
GrowthConfig.v
ActivityPack.v
WorkflowGraph.v
WorkflowPlan.v
ActivityBinding.v
GrowthInput.v
PolicyCompiler.v
PolicyDemands.v
EffectReconciliation.v
ProviderApproval.v
AdapterResolver.v
AuthorityScope.v
PlatformTopology.v
