(* ===== verification/Prelude.v ===== *)
(** * Context kernel and execution control of the Growth Intelligence platform

    The repository is a JavaScript platform (src/http-generic-api) whose
    decisions about context, authority, endpoints, execution and recovery are
    taken by pure modules; routes and services around them load records from
    SQL, call these modules and store or dispatch what they return.  This
    development is a library about those modules.

    ** Layers

    Shared vocabulary:
    - Prelude: results of fallible code ([outcome], with its bind), boolean
      membership and filters, the tactics and hints the other files use.
    - Sorting: [Array.prototype.sort] with a comparator as a stable insertion
      sort, [CmpOrder] for comparators that are consistent orders, [new Set]
      and its sorted spread.
    - JsString, JsDate, JsValue, JsJson: the parts of the language's standard
      library that the code uses: [trim], [slice], case folding, the regular
      expressions of the code (matched by derivatives), [toISOString] and
      [Date.parse] of that format, untyped values with their coercions, and
      the canonical JSON text that is hashed.  What the host decides
      ([localeCompare], other date formats, the clock, SHA-256) is the class
      [JsHost]; [JsHostLaws] states what ECMA-402 and SHA-256 document.  Every
      theorem is about an arbitrary host, and [demo_host] is one host that
      satisfies the laws.

    Context kernel (contextKernel/domain):
    - ContextModel: model.js, the validating constructors of principals,
      subjects, candidates and pins.
    - ContextIntegrity: contextIntegrity.js, redaction, canonical text, hash,
      revision check and the invalidation of dimensions.
    - DecisionPolicy: decisionPolicy.js, which candidate a request resolves to.
    - EvidenceSupport: what the evidence evaluators share.
    - SupportDelegation: supportDelegationPolicy.js.
    - PolicyGrant: policyGrantDecision.js.
    - EndpointCertification: endpointCertificationDecision.js.
    - ResourceGraph: resourceGraphPolicy.js.
    - ShadowParity: shadowAuthorityParityDecision.js.
    - ExecutionCapsule: executionCapsule.js.

    Activation operations:
    - ActivationLifecycle: activationLifecycleStateMachine.js and
      activationRetryReconciliationPolicy.js.

    Execution kernels:
    - KernelSupport: the helpers the three kernels repeat.
    - ExecutionEnvelope: platformExecutionEnvelopeKernel.js.
    - ApprovalLog: platformScopedApprovalKernel.js.
    - ConcurrencyControl: platformExecutionConcurrencyKernel.js, which calls
      the two kernels before it.

    Patches:
    - UnifiedDiff: unifiedDiff.js, parsing, locating and applying hunks.

    Context kernel services (contextKernel/application):
    - Redaction: the redaction that domain and application share, for an
      arbitrary notion of sensitive key.
    - ApplicationSupport: applicationSupport.js; the repository ports as a
      class ([Ports]: what a port answers after the calls made before), async
      functions as computations that extend the trace of calls ([app]), and the
      contract of a resolution service ([ResolutionService]).
    - ContextResolution: contextResolutionService.js, which composes the
      repositories with DecisionPolicy and implements that contract.
    - ContextPins: contextPinService.js.
    - ContextSwitch: contextSwitchService.js, against the contract only.
    - ExecutionPlan: executionPlanService.js.
    - OutcomeReconciliation: unknownOutcomeReconciliationService.js.
    - CapsuleService: executionCapsuleService.js, which makes a capsule from a
      resolved context and validates it again before it is used.
    - DispatchGate: integration/executionCapsuleMutationDispatchGate.js, the
      last check before a mutation: a computation ([gate]) that threads the
      variables its report reads, over CapsuleService and the functions it is
      given (evidence, dispatch, telemetry), which are calls of the trace too.

    Capabilities and growth control plane (src/domain, src/application):
    - CapabilityPolicy: canonicalCapability.js, capabilityAlias.js and
      policyComposition.js.
    - SecurityDecision: securityDecision.js, securityEvaluators.js and
      platformPluginSecurityDecisionUseCase.js, over the text helpers of
      CapabilityPolicy.
    - GrowthControl, GrowthConfig, ActivityPack: growthControlPlane.js; keys,
      scopes, the lifecycle and approvals; schemas, merging and the effective
      configuration; and the manifests of activity packs, over both.
    - WorkflowGraph, WorkflowPlan: workflowPlanCompiler.js; the graph of a
      workflow with its order, then extension points, composition and the
      compiled plan, over ActivityPack.
    - ActivityBinding: activityBindingSelection.js and
      activityBindingLifecycle.js, over GrowthControl.
    - GrowthInput: the checks of untrusted input that the compilers of the
      growth control plane each repeat (size, secrets, keys, identifiers,
      hashes, bounded numbers and lists), for the messages and limits of a
      file ([InputContract]).
    - PolicyCompiler, PolicyDemands: growthControlPolicyCompiler.js; its
      definitions, and what its decisions demand.
    - EffectReconciliation: growthControlProviderEffectReconciliation.js.
    - ProviderApproval: growthControlProviderApproval.js, which makes steps
      with approvals from a plan of WorkflowPlan.
    - AdapterResolver: growthControlProviderAdapterResolver.js.

    Authority scopes (src/domain/authorityScope, src/application/authorityScope):
    - AuthorityScope: authorityScope.js and authorityScopeService.js, whose
      registry and audit writer are calls of the trace of ApplicationSupport.
    - PlatformTopology: platformTopologyVerification.js and its service.

    Each operation is one definition under the source's name; a handler that is
    long in the source is cut at its own phases (for example
    [evaluateBoundedResourceGraph] into [parseRequest], [addNode], [addEdge],
    [addRestriction] and the walk).  A JavaScript function that can throw is a
    function into [js A]; an early [return] inside a loop or a phase is the
    [Throw] of a local result type.

    ** What the theorems show

    - Refinement of a stated policy: PolicyGrant ([snapshot_permits]),
      EndpointCertification ([resolves]), SupportDelegation
      ([delegation_permits]) and UnifiedDiff ([patches]) are related to a
      declarative specification that does not follow the code's control flow,
      in both directions where the code decides.
    - Functional results: the traversal of ResourceGraph is the bounded closure
      at shortest distance; the comparison of capsule dependencies; the
      selection of DecisionPolicy and its independence of listing order.
    - State machines: the runs of an activation operation (no blind replay, no
      step out of a terminal status, reachability of [active]); the single use
      of an envelope; the closed, hash-chained approval log; the mutual
      exclusion of concurrency tokens.
    - Round trips: a created capsule, delegation evidence and principals are
      accepted unchanged by their own validators.
    - Hashes: what an equal hash implies, up to a collision of SHA-256 (never
      assumed impossible).
    - Services: which calls a run makes, in which order, and what its result
      says of the ports' answers: a resolution only reads, a switch writes only
      the invalidation of the old pin, a reconciliation never retries and asks
      the provider only when the ledger is silent; a plan or a pin is accepted
      later exactly in the context, and before the expiry, it was made for.
    - Parity: the comparison of a legacy and a new resolver is a match exactly
      when both snapshots are sound and say the same.
    - Capsules in use: a resolved capsule validates in its own context exactly
      until it expires, and a mutation is dispatched at most once, only when
      contract, capsule, evidence, input and governance decision agree.
    - Capabilities: a surface policy only narrows the canonical one; a security
      decision allows exactly when no required gate is denied or unevaluated,
      and a plugin action is dispatched exactly when all its gates are cleared.
    - Growth configuration: what every merge operator yields, in whatever order
      the candidates come; versions of other scopes have no influence; a scope
      key identifies its scope when no part has a colon; an approval covers one
      operation on one version; an activity pack that is accepted has workflows
      without cycles, the search for one being exact and bounded in depth by
      the number of nodes, which is the fuel it is given.
    - Workflows and bindings: a graph is accepted exactly when it can be
      ordered, its order is the least-first one whatever the listing of the
      nodes, with one unit of fuel per node proved enough; a compiled plan keeps
      the nodes, dependencies and required checkpoints of its workflow; a
      selection is the only binding that meets scope and intent; activation
      needs a readiness of the same revision; a revision has one status along
      the life of a binding.
    - Growth policies: a decision is the strictest reading of the policies that
      match ([demands], stated without the code's accumulator), and does not
      depend on the order they are listed in.
    - Provider effects: a plan for approval has its steps in topological order
      and a provider effect only under a required checkpoint, with an approval
      bound to its own request; a readback is classified exactly when it
      reports every requested action, a new request is offered only when
      nothing was applied, and a rollback undoes exactly what was applied.
    - Adapters: an adapter is selected exactly when one candidate can serve the
      request, stated without the code's blockers, and outranks every other one
      that can; the order of the registry plays no part.
    - Authority scopes: the key of a scope names its owner; a scope is resolved
      exactly for those it belongs to, and a platform principal that resolves the
      scope of a tenant leaves an accepted record first; a topology is verified
      exactly when the evidence describes it.
    - Termination: the invalidation worklist and the graph walk are run with a
      fuel that is proved enough.

    ** Bounds and fuel

    [walk] has one unit of fuel per edge plus one, since each edge is queued at
    most once; [collectHunks] has the number of lines, since each iteration
    consumes one; [invalidation_loop] has a number of units computed from the
    graph's edges.  Running out is a separate result in each, excluded by a
    theorem.  Numbers are integers (or NaN) as [Z]; the bounds of the code (TTL
    of at most 3600 s, 512-character fields, 128 dependencies, time values
    within 8.64e15 ms) are kept.

    ** Limits of the model

    Strings are sequences of bytes read as Latin-1 code units: a length in the
    code is a length here, but text outside that range is not represented.
    Numbers that are not integral are not represented, nor is object identity;
    [deepFreeze] is the identity because values are immutable, and property
    getters, proxies and prototypes are not modelled.  [crypto.randomUUID()] is
    an argument of the function that calls it.

    ** Not modelled

    Routes, controllers and SQL repositories, provider calls (WordPress,
    consent adapters), the local connector and edge worker, the C# and
    PowerShell applications, migrations, canonical documents and scripts: they
    are I/O around the modules above, or not JavaScript.  Of the context
    kernel, the resolvers that only load evidence for the modelled evaluators,
    the provider consent flows, the read gate and the shadow rollout are left;
    then the analytics, lifecycle events, observability and projections of the
    growth control plane, the governed policy and resource catalogue domains and
    the activation operation service.  The engine that tests the pattern of a
    configuration schema ([new RegExp]) is the class [RegExpEngine].  That an
    object lists its array-index keys first is modelled where it is serialized
    for a hash in GrowthControl; elsewhere properties come in the order of their
    definition. *)
From stdpp Require Export base list strings sets.
From Stdlib Require Export ZArith Lia.

#[global] Open Scope stdpp_scope.

(** * Results of fallible code

    A JavaScript function that may throw is a function into [outcome E A]:
    [Ok a] is a normal return of [a], [Throw e] is the exception [e]. *)

Inductive outcome (E A : Type) : Type :=
| Ok (a : A)
| Throw (e : E).
Arguments Ok {E A} a.
Arguments Throw {E A} e.

#[global] Instance outcome_ret E : MRet (outcome E) := fun A a => Ok a.
#[global] Instance outcome_bind E : MBind (outcome E) := fun A B k m =>
  match m with Ok a => k a | Throw e => Throw e end.

(** [if (c) throw e;] *)
Definition throw_if {E} (c : bool) (e : E) : outcome E unit :=
  if c then Throw e else Ok tt.

(** [try { return m } catch { return d }] *)
Definition catch {E A} (m : outcome E A) (d : A) : A :=
  match m with Ok a => a | Throw _ => d end.

(** [l.map(f)] for an [f] that may throw: the first exception wins. *)
Fixpoint mapM_js {E A B} (f : A -> outcome E B) (l : list A) : outcome E (list B) :=
  match l with
  | [] => Ok []
  | x :: l => y ← f x; ys ← mapM_js f l; Ok (y :: ys)
  end.

(** [l.forEach((x) => { acc = f(acc, x) })] for an [f] that may throw. *)
Fixpoint foldM_js {E A S} (f : S -> A -> outcome E S) (s : S) (l : list A) : outcome E S :=
  match l with
  | [] => Ok s
  | x :: l => s' ← f s x; foldM_js f s' l
  end.

(** [l.map((item, index) => f(index, item))] *)
Fixpoint map_index {E A B} (f : nat -> A -> outcome E B) (index : nat) (l : list A) : outcome E (list B) :=
  match l with
  | [] => Ok []
  | item :: rest => b ← f index item; bs ← map_index f (S index) rest; Ok (b :: bs)
  end.

Section Outcome.
Context {E : Type}.

Lemma bind_Ok {A B} (m : outcome E A) (k : A -> outcome E B) (b : B) :
  (m ≫= k) = Ok b <-> exists a, m = Ok a /\ k a = Ok b.
Proof. unfold mbind, outcome_bind. destruct m; naive_solver. Qed.

Lemma bind_Throw {A B} (m : outcome E A) (k : A -> outcome E B) (e : E) :
  (m ≫= k) = Throw e <-> m = Throw e \/ exists a, m = Ok a /\ k a = Throw e.
Proof. unfold mbind, outcome_bind. destruct m; naive_solver. Qed.

Lemma Ok_inj {A} (a b : A) : @Ok E A a = Ok b -> a = b.
Proof. by intros [= ->]. Qed.

(** One step of a chain of binds, forwards. *)
Lemma bind_step {A B} (m : outcome E A) (k : A -> outcome E B) (a : A) :
  m = Ok a -> (m ≫= k) = k a.
Proof. by intros ->. Qed.

Lemma throw_if_false (c : bool) (e : E) : c = false -> throw_if c e = Ok tt.
Proof. by intros ->. Qed.

Lemma throw_if_Ok (c : bool) (e : E) u : throw_if c e = Ok u <-> c = false.
Proof. destruct c, u; unfold throw_if; naive_solver. Qed.

Lemma mapM_js_Ok {A B} (f : A -> outcome E B) l k :
  mapM_js f l = Ok k <-> Forall2 (fun x y => f x = Ok y) l k.
Proof.
  revert k; induction l as [|x l IH]; intros k; simpl.
  - split; [intros [= <-]; constructor | by inversion 1].
  - rewrite bind_Ok. setoid_rewrite bind_Ok. split.
    + intros (y & Hy & ys & Hys & [= <-]). constructor; [done|]. by apply IH.
    + inversion 1 as [|? y ? ys ? ?]; subst. exists y. split; [done|].
      exists ys. split; [by apply IH | done].
Qed.

Lemma mapM_js_length {A B} (f : A -> outcome E B) l k :
  mapM_js f l = Ok k -> length k = length l.
Proof. rewrite mapM_js_Ok. intros H. symmetry. by eapply Forall2_length. Qed.

Lemma mapM_js_app {A B} (f : A -> outcome E B) l1 l2 k1 k2 :
  mapM_js f l1 = Ok k1 -> mapM_js f l2 = Ok k2 -> mapM_js f (l1 ++ l2) = Ok (k1 ++ k2).
Proof. rewrite !mapM_js_Ok. apply Forall2_app. Qed.

Lemma foldM_js_app {A S} (f : S -> A -> outcome E S) s l1 l2 :
  foldM_js f s (l1 ++ l2) = (s' ← foldM_js f s l1; foldM_js f s' l2).
Proof.
  revert s; induction l1 as [|x l1 IH]; intros s; simpl; [done|].
  unfold mbind, outcome_bind in *. destruct (f s x); [apply IH | done].
Qed.

(** An invariant of the loop state is an invariant of the loop. *)
Lemma foldM_js_inv {A S} (I : S -> Prop) (f : S -> A -> outcome E S) s l s' :
  I s -> (forall s x s', x ∈ l -> I s -> f s x = Ok s' -> I s') ->
  foldM_js f s l = Ok s' -> I s'.
Proof.
  revert s; induction l as [|x l IH]; intros s Hs Hstep; simpl.
  - by intros [= <-].
  - rewrite bind_Ok. intros (s1 & H1 & H2). eapply IH; [| |exact H2].
    + eapply Hstep; [|done|done]. apply list_elem_of_here.
    + intros ??? Hin. apply Hstep. by apply list_elem_of_further.
Qed.

Lemma foldM_js_Throw {A S} (f : S -> A -> outcome E S) s l e :
  foldM_js f s l = Throw e -> exists s' x, f s' x = Throw e.
Proof.
  revert s; induction l as [|x l IH]; intros s; simpl; [done|].
  intros [Hf|(s' & _ & Hf)]%bind_Throw; [by exists s, x | by eapply IH].
Qed.

(** ** Agreement up to the exception

    Two results agree when one is a normal return of [a] exactly when the other
    one is: what is thrown, a message with the name of a field, may differ. *)

Definition same_results {A} (m m' : outcome E A) : Prop := forall a, m = Ok a <-> m' = Ok a.

#[global] Instance same_results_equivalence {A} : Equivalence (@same_results A).
Proof.
  split; [by intros m a|intros m m' H a; by rewrite (H a)|intros m1 m2 m3 H1 H2 a; by rewrite (H1 a), (H2 a)].
Qed.

Lemma same_results_bind {A B} (m m' : outcome E A) (k k' : A -> outcome E B) :
  same_results m m' -> (forall a, same_results (k a) (k' a)) -> same_results (m ≫= k) (m' ≫= k').
Proof. intros Hm Hk b. rewrite !bind_Ok. setoid_rewrite (Hm _). by setoid_rewrite (Hk _ b). Qed.

Lemma same_results_throw_if c (e e' : E) : same_results (throw_if c e) (throw_if c e').
Proof. intros u. by rewrite !throw_if_Ok. Qed.

Lemma same_results_Throw {A} (e e' : E) : same_results (A:=A) (Throw e) (Throw e').
Proof. by intros a. Qed.

Lemma map_index_Ok {A B} (f : nat -> A -> outcome E B) l k :
  (forall i j x, same_results (f i x) (f j x)) ->
  forall i, map_index f i l = Ok k <-> Forall2 (fun x y => f 0 x = Ok y) l k.
Proof.
  intros Hf. revert k. induction l as [|x l IH]; intros k i; simpl.
  - split; [intros [= <-]; constructor | by inversion 1].
  - rewrite bind_Ok. setoid_rewrite bind_Ok. split.
    + intros (y & Hy & ys & Hys & [= <-]). constructor; [by apply (Hf i 0)|]. by eapply IH.
    + inversion 1 as [|? y ? ys Hy ?]; subst. exists y. split; [by apply (Hf i 0)|].
      exists ys. split; [by apply IH | done].
Qed.

Lemma map_index_same {A B} (f g : nat -> A -> outcome E B) l :
  (forall i x, same_results (f i x) (g i x)) -> forall i, same_results (map_index f i l) (map_index g i l).
Proof.
  intros Hf. induction l as [|x l IH]; intros i; simpl; [done|].
  apply same_results_bind; [done|]. intros y. apply same_results_bind; [apply IH|]. done.
Qed.
End Outcome.

Infix "≃" := same_results (at level 70, no associativity).

Create HintDb same_results.
#[export] Hint Resolve same_results_throw_if same_results_Throw : same_results.

(** Two functions that differ in what they throw agree. *)
Ltac same_results :=
  repeat first
    [ reflexivity
    | solve [eauto with same_results]
    | apply same_results_bind; [|intros ?]
    | case_match ].

(** * Automation *)

Create Rewrite HintDb outcome_db.
#[export] Hint Rewrite @bind_Ok @throw_if_Ok : outcome_db.

(** Turns a hypothesis [m = Ok b] on a chain of binds into the equations of
    its steps. *)
Ltac inv_outcome :=
  repeat match goal with
  | H : (_ ≫= _) = Ok _ |- _ =>
      let a := fresh "a" in let Ha := fresh "H" in
      apply bind_Ok in H as (a & Ha & H)
  | H : throw_if _ _ = Ok ?u |- _ =>
      apply throw_if_Ok in H; try (is_var u; destruct u)
  | H : Ok _ = Ok _ |- _ => injection H as H; subst
  | H : Throw _ = Ok _ |- _ => discriminate H
  | H : Ok _ = Throw _ |- _ => discriminate H
  | H : mret _ = Ok _ |- _ => unfold mret, outcome_ret in H
  end.

(** Runs the first statement of a chain of binds. *)
Ltac ok_step tac := erewrite bind_step by tac; cbv beta.

(** Splits the boolean tests of a hypothesis or of the goal. *)
Ltac split_bool :=
  repeat match goal with
  | H : (_ && _) = true |- _ => apply andb_true_iff in H as [? ?]
  | H : (_ || _) = false |- _ => apply orb_false_iff in H as [? ?]
  | H : negb _ = true |- _ => apply negb_true_iff in H
  | H : negb _ = false |- _ => apply negb_false_iff in H
  | |- (_ && _) = true => apply andb_true_iff; split
  | |- (_ || _) = false => apply orb_false_iff; split
  | |- negb _ = true => apply negb_true_iff
  | |- negb _ = false => apply negb_false_iff
  end.

(** * Sets of strings used as JavaScript [Set]s and [includes] tests *)

Definition sin (s : string) (l : list string) : bool := existsb (String.eqb s) l.
#[global] Arguments sin : simpl never.

Lemma sin_true s l : sin s l = true <-> s ∈ l.
Proof.
  unfold sin. rewrite existsb_exists. setoid_rewrite String.eqb_eq.
  rewrite list_elem_of_In. naive_solver.
Qed.

Lemma sin_false s l : sin s l = false <-> s ∉ l.
Proof. rewrite <- sin_true. destruct (sin s l); naive_solver. Qed.

Lemma sin_app s l1 l2 : sin s (l1 ++ l2) = sin s l1 || sin s l2.
Proof. apply existsb_app. Qed.

Lemma sin_singleton s a : sin s [a] = String.eqb s a.
Proof. apply orb_false_r. Qed.

Lemma sin_Permutation s l1 l2 : l1 ≡ₚ l2 -> sin s l1 = sin s l2.
Proof.
  intros HP. destruct (sin s l1) eqn:H1; symmetry.
  - apply sin_true. rewrite <- HP. by apply sin_true.
  - apply sin_false. rewrite <- HP. by apply sin_false.
Qed.

Lemma string_eqb_false s t : String.eqb s t = false <-> s <> t.
Proof. apply String.eqb_neq. Qed.

(** Equality of optional strings, as [===] compares a string or [null]. *)
Definition ostr_eqb (a b : option string) : bool :=
  match a, b with
  | Some x, Some y => String.eqb x y
  | None, None => true
  | _, _ => false
  end.

Lemma ostr_eqb_true a b : ostr_eqb a b = true <-> a = b.
Proof. destruct a, b; simpl; rewrite ?String.eqb_eq; naive_solver. Qed.

Lemma ostr_eqb_false a b : ostr_eqb a b = false <-> a <> b.
Proof. rewrite <- ostr_eqb_true. destruct (ostr_eqb a b); naive_solver. Qed.

Create Rewrite HintDb str_db.
#[export] Hint Rewrite sin_true sin_false String.eqb_eq string_eqb_false
  ostr_eqb_true ostr_eqb_false String.eqb_refl : str_db.

(** * Generic list lemmas *)

(** The boolean filter of the code ([l.filter(p)]). *)
Definition bfilter {A} (p : A -> bool) (l : list A) : list A := List.filter p l.

Section ListLemmas.
Context {A : Type}.
Implicit Types l : list A.

Lemma elem_of_bfilter (p : A -> bool) l x : x ∈ bfilter p l <-> p x = true /\ x ∈ l.
Proof. unfold bfilter. rewrite !list_elem_of_In, filter_In. tauto. Qed.

Lemma bfilter_app (p : A -> bool) l1 l2 :
  bfilter p (l1 ++ l2) = bfilter p l1 ++ bfilter p l2.
Proof. apply List.filter_app. Qed.

Lemma bfilter_Permutation (p : A -> bool) l1 l2 :
  l1 ≡ₚ l2 -> bfilter p l1 ≡ₚ bfilter p l2.
Proof.
  induction 1; simpl; repeat case_match; eauto using Permutation.
Qed.

Lemma bfilter_nil (p : A -> bool) l :
  bfilter p l = [] <-> forall x, x ∈ l -> p x = false.
Proof.
  induction l as [|a l IH]; simpl.
  - split; [intros _ x H; by apply not_elem_of_nil in H | done].
  - destruct (p a) eqn:Hp.
    + split; [done|]. intros H. specialize (H a (list_elem_of_here _ _)). congruence.
    + rewrite IH. split; intros H x Hx.
      * apply elem_of_cons in Hx as [-> | Hx]; auto.
      * apply H. by apply list_elem_of_further.
Qed.

Lemma bfilter_ext (p q : A -> bool) l :
  (forall x, x ∈ l -> p x = q x) -> bfilter p l = bfilter q l.
Proof.
  intros H. apply List.filter_ext_in. intros a Ha. apply H. by apply list_elem_of_In.
Qed.

Lemma bfilter_all (p : A -> bool) l :
  (forall x, x ∈ l -> p x = true) -> bfilter p l = l.
Proof.
  induction l as [|a l IH]; simpl; intros H; [done|].
  rewrite (H a (list_elem_of_here _ _)). f_equal. apply IH.
  intros x Hx. apply H. by apply list_elem_of_further.
Qed.

Lemma bfilter_bfilter (p q : A -> bool) l :
  bfilter p (bfilter q l) = bfilter (fun x => q x && p x) l.
Proof.
  induction l as [|a l IH]; simpl; [done|].
  destruct (q a); simpl; [destruct (p a)|]; rewrite ?IH; done.
Qed.

Lemma bfilter_length (p : A -> bool) l : length (bfilter p l) <= length l.
Proof. apply List.filter_length_le. Qed.

Lemma existsb_elem_of (p : A -> bool) l :
  existsb p l = true <-> exists x, x ∈ l /\ p x = true.
Proof. rewrite existsb_exists. by setoid_rewrite list_elem_of_In. Qed.

Lemma existsb_false (p : A -> bool) l :
  existsb p l = false <-> forall x, x ∈ l -> p x = false.
Proof.
  rewrite <- not_true_iff_false, existsb_elem_of. split.
  - intros H x Hx. apply not_true_iff_false. eauto.
  - intros H (x & Hx & Hp). rewrite H in Hp; done.
Qed.

Lemma forallb_elem_of (p : A -> bool) l :
  forallb p l = true <-> forall x, x ∈ l -> p x = true.
Proof. rewrite forallb_forall. by setoid_rewrite list_elem_of_In. Qed.

Lemma existsb_Permutation (p : A -> bool) l1 l2 : l1 ≡ₚ l2 -> existsb p l1 = existsb p l2.
Proof.
  intros HP. apply eq_true_iff_eq. rewrite !existsb_elem_of. split; intros (x & Hx & Hp); exists x.
  - by rewrite <- HP.
  - by rewrite HP.
Qed.

Lemma forallb_Permutation (p : A -> bool) l1 l2 : l1 ≡ₚ l2 -> forallb p l1 = forallb p l2.
Proof.
  intros HP. apply eq_true_iff_eq. rewrite !forallb_elem_of. split; intros Ha x Hx; apply Ha.
  - by rewrite HP.
  - by rewrite <- HP.
Qed.

Lemma bfilter_partition (p : A -> bool) l : bfilter p l ++ bfilter (fun x => negb (p x)) l ≡ₚ l.
Proof.
  induction l as [|x l IH]; simpl; [done|]. destruct (p x); simpl; [by rewrite IH|].
  rewrite <- Permutation_middle. by rewrite IH.
Qed.

(** [x] is the only element of [l] that satisfies [p]. *)
Definition only (p : A -> bool) l (x : A) : Prop :=
  x ∈ l /\ p x = true /\ forall y, y ∈ l -> p y = true -> y = x.

Lemma bfilter_singleton (p : A -> bool) l x : NoDup l -> bfilter p l = [x] <-> only p l x.
Proof.
  intros Hnd. split.
  - intros Hf. assert (x ∈ bfilter p l) as [Hp Hx]%elem_of_bfilter by (rewrite Hf; apply list_elem_of_here).
    split; [done|]. split; [done|]. intros y Hy Hpy.
    assert (y ∈ bfilter p l) as Hin by (by apply elem_of_bfilter).
    rewrite Hf in Hin. by apply list_elem_of_singleton in Hin.
  - intros (Hx & Hp & Hu). symmetry. apply Permutation_singleton_l. symmetry.
    apply NoDup_Permutation.
    + by apply NoDup_ListNoDup, List.NoDup_filter, NoDup_ListNoDup.
    + apply NoDup_singleton.
    + intros y. rewrite elem_of_bfilter, list_elem_of_singleton. naive_solver.
Qed.

Lemma NoDup_of_map {B} (f : A -> B) l : NoDup (List.map f l) -> NoDup l.
Proof. rewrite !NoDup_ListNoDup. apply List.NoDup_map_inv. Qed.

(** A key that is not repeated tells the elements apart. *)
Lemma NoDup_map_inj {B} (f : A -> B) l x y : NoDup (List.map f l) -> x ∈ l -> y ∈ l -> f x = f y -> x = y.
Proof.
  induction l as [|z l IH]; intros Hnd Hx Hy Heq; [by apply not_elem_of_nil in Hx|]. simpl in Hnd.
  apply NoDup_cons in Hnd as [Hz Hnd].
  apply elem_of_cons in Hx as [->|Hx], Hy as [->|Hy]; [done| | |by apply IH]; exfalso; apply Hz.
  - rewrite Heq. by apply list_elem_of_fmap_2.
  - rewrite <- Heq. by apply list_elem_of_fmap_2.
Qed.

(** A list of length one, as the [length === 1] tests of the code see it. *)
Lemma length_one_inv l : length l = 1 -> exists x, l = [x].
Proof. destruct l as [|x [|]]; simpl; naive_solver. Qed.

Lemma Permutation_singleton_eq x l : l ≡ₚ [x] -> l = [x].
Proof. intros H. symmetry in H. by apply Permutation_singleton_l in H. Qed.
End ListLemmas.

(** A relation between two lists follows a permutation of the first. *)
Lemma Forall2_Permutation_l {A B} (P : A -> B -> Prop) l l' k :
  Forall2 P l k -> l ≡ₚ l' -> exists k', k ≡ₚ k' /\ Forall2 P l' k'.
Proof.
  intros Hf Hp. revert k Hf. induction Hp as [|x l l' Hp IH|x y l|l l1 l2 _ IH1 _ IH2]; intros k Hf.
  - by exists k.
  - inversion Hf as [|? y ? k0 Hy Hf']; subst. destruct (IH k0 Hf') as (k' & Hk & Hf2).
    exists (y :: k'). by split; [apply Permutation_skip | constructor].
  - inversion Hf as [|? b ? k0 Hb Hf']; subst. inversion Hf' as [|? a ? k1 Ha Hf'']; subst.
    exists (a :: b :: k1). split; [apply Permutation_swap|]. by repeat constructor.
  - destruct (IH1 k Hf) as (k1 & Hk1 & Hf1). destruct (IH2 k1 Hf1) as (k2 & Hk2 & Hf2).
    exists k2. split; [by etransitivity | done].
Qed.

Lemma map_injective {A B} (f : A -> B) l1 l2 :
  (forall a b, f a = f b -> a = b) -> List.map f l1 = List.map f l2 -> l1 = l2.
Proof.
  intros Hf. revert l2. induction l1 as [|a l1 IH]; intros [|b l2]; simpl; try done.
  intros [= Ha Hl]. f_equal; auto.
Qed.
