(* ===== verification/Sorting.v ===== *)
(** * Sorting and de-duplication

    [Array.prototype.sort] is a stable sort by a comparator; [[...new Set(l)]]
    keeps the first occurrence of each value.  Both are defined here, with the
    lemmas the components use: a sort is a sorted permutation, it commutes with
    [filter], it is insensitive to a previous sort of a suffix, and two
    permutations sort to the same list when the comparator separates their
    elements. *)
From stdpp Require Export sorting.
From S2P Require Import Prelude.

(** ** Comparators *)

(** A JavaScript comparator [cmp(a, b)] is negative, zero or positive. *)
Class CmpOrder {A} (cmp : A -> A -> comparison) : Prop := {
  cmp_opp : forall x y, cmp y x = CompOpp (cmp x y);
  cmp_trans : forall x y z, cmp x y <> Gt -> cmp y z <> Gt -> cmp x z <> Gt;
}.

(** [c || d]: the second comparator decides when the first one is zero. *)
Definition cmp_or (c d : comparison) : comparison :=
  match c with Eq => d | _ => c end.

Definition leb_of {A} (cmp : A -> A -> comparison) (x y : A) : bool :=
  match cmp x y with Gt => false | _ => true end.

(** ** Stable sort *)

Fixpoint insert_by {A} (leb : A -> A -> bool) (x : A) (l : list A) : list A :=
  match l with
  | [] => [x]
  | y :: l' => if leb x y then x :: y :: l' else y :: insert_by leb x l'
  end.

Fixpoint sort_by {A} (leb : A -> A -> bool) (l : list A) : list A :=
  match l with
  | [] => []
  | x :: l' => insert_by leb x (sort_by leb l')
  end.

(** [l.sort(cmp)] *)
Definition js_sort {A} (cmp : A -> A -> comparison) (l : list A) : list A :=
  sort_by (leb_of cmp) l.

(** [l.sort()] on strings: by code units. *)
Definition sort_strings (l : list string) : list string := js_sort String.compare l.

(** [[...new Set(l)]] *)
Fixpoint dedup_from (seen : list string) (l : list string) : list string :=
  match l with
  | [] => []
  | x :: l' => if sin x seen then dedup_from seen l' else x :: dedup_from (x :: seen) l'
  end.

Definition dedup (l : list string) : list string := dedup_from [] l.

(** [[...new Set(l)].sort()] *)
Definition unique_sorted (l : list string) : list string := sort_strings (dedup l).

(** ** Order lemmas *)

Section CmpFacts.
Context {A : Type} (cmp : A -> A -> comparison) `{!CmpOrder cmp}.

Lemma cmp_refl x : cmp x x = Eq.
Proof. pose proof (cmp_opp (cmp := cmp) x x) as H. by destruct (cmp x x). Qed.

Lemma cmp_Gt_swap x y : cmp x y = Gt -> cmp y x = Lt.
Proof. intros H. by rewrite cmp_opp, H. Qed.

Lemma leb_of_total x y : leb_of cmp x y = false -> leb_of cmp y x = true.
Proof. unfold leb_of. rewrite (cmp_opp x y). by destruct (cmp x y). Qed.

Lemma leb_of_true x y : leb_of cmp x y = true <-> cmp x y <> Gt.
Proof. unfold leb_of. destruct (cmp x y); naive_solver. Qed.

Lemma leb_of_trans x y z :
  leb_of cmp x y = true -> leb_of cmp y z = true -> leb_of cmp x z = true.
Proof. rewrite !leb_of_true. apply cmp_trans. Qed.

Lemma leb_of_refl x : leb_of cmp x x = true.
Proof. unfold leb_of. by rewrite cmp_refl. Qed.

Lemma cmp_Eq_trans_l x y z :
  cmp x y <> Gt -> cmp y z <> Gt -> cmp x z = Eq -> cmp x y = Eq.
Proof.
  intros Hxy Hyz Hxz.
  assert (cmp z x <> Gt) as Hzx by (rewrite cmp_opp, Hxz; done).
  pose proof (cmp_trans y z x Hyz Hzx) as Hyx. rewrite cmp_opp in Hyx.
  by destruct (cmp x y).
Qed.

Lemma cmp_Eq_trans_r x y z :
  cmp x y <> Gt -> cmp y z <> Gt -> cmp x z = Eq -> cmp y z = Eq.
Proof.
  intros Hxy Hyz Hxz.
  assert (cmp z x <> Gt) as Hzx by (rewrite cmp_opp, Hxz; done).
  pose proof (cmp_trans z x y Hzx Hxy) as Hzy. rewrite cmp_opp in Hzy.
  by destruct (cmp y z).
Qed.
End CmpFacts.

#[export] Instance cmp_by_key {A B} (f : A -> B) (cmp : B -> B -> comparison)
  `{!CmpOrder cmp} : CmpOrder (fun x y => cmp (f x) (f y)).
Proof. split; intros; [apply cmp_opp | by eapply cmp_trans]. Qed.

#[export] Instance cmp_lex {A} (c d : A -> A -> comparison)
  `{!CmpOrder c, !CmpOrder d} : CmpOrder (fun x y => cmp_or (c x y) (d x y)).
Proof.
  split.
  - intros x y. rewrite (cmp_opp x y), (cmp_opp (cmp := d) x y). by destruct (c x y).
  - intros x y z. unfold cmp_or. intros Hxy Hyz.
    assert (c x y <> Gt) as Hcxy by (by destruct (c x y)).
    assert (c y z <> Gt) as Hcyz by (by destruct (c y z)).
    pose proof (cmp_trans x y z Hcxy Hcyz) as Hcxz.
    destruct (c x z) eqn:Hxz; [|done|done].
    rewrite (cmp_Eq_trans_l c x y z) in Hxy by done.
    rewrite (cmp_Eq_trans_r c x y z) in Hyz by done.
    by eapply cmp_trans.
Qed.

Lemma ascii_compare_opp a b : Ascii.compare b a = CompOpp (Ascii.compare a b).
Proof. apply Ascii.compare_antisym. Qed.

Lemma string_compare_opp s t : String.compare t s = CompOpp (String.compare s t).
Proof. apply String.compare_antisym. Qed.

Lemma string_compare_trans s t u :
  String.compare s t <> Gt -> String.compare t u <> Gt -> String.compare s u <> Gt.
Proof.
  revert t u; induction s as [|a s IH]; intros [|b t] [|c u]; simpl; try done.
  destruct (Ascii.compare a b) eqn:Hab; [| |done].
  - apply Ascii.compare_eq_iff in Hab as ->.
    destruct (Ascii.compare b c); [apply IH|done|done].
  - intros _. destruct (Ascii.compare b c) eqn:Hbc; [| |done].
    + apply Ascii.compare_eq_iff in Hbc as ->. by rewrite Hab.
    + assert (Ascii.compare a c = Lt) as ->; [|done].
      unfold Ascii.compare in *. apply N.compare_lt_iff in Hab, Hbc.
      apply N.compare_lt_iff. by eapply N.lt_trans.
Qed.

#[export] Instance string_CmpOrder : CmpOrder String.compare.
Proof. split; [apply string_compare_opp | apply string_compare_trans]. Qed.

(** ** Sort lemmas *)

Section SortPerm.
Context {A : Type} (leb : A -> A -> bool).

Lemma insert_by_Permutation x l : insert_by leb x l ≡ₚ x :: l.
Proof.
  induction l as [|y l IH]; simpl; [done|].
  destruct (leb x y); [done|]. rewrite IH. apply Permutation_swap.
Qed.

Lemma sort_by_Permutation l : sort_by leb l ≡ₚ l.
Proof. induction l as [|x l IH]; simpl; [done|]. by rewrite insert_by_Permutation, IH. Qed.
End SortPerm.

Section Sort.
Context {A : Type} (cmp : A -> A -> comparison) `{!CmpOrder cmp}.
Abbreviation le := (fun x y => leb_of cmp x y = true).

Lemma js_sort_Permutation l : js_sort cmp l ≡ₚ l.
Proof. apply sort_by_Permutation. Qed.

Lemma elem_of_js_sort x l : x ∈ js_sort cmp l <-> x ∈ l.
Proof. by rewrite js_sort_Permutation. Qed.

Lemma js_sort_length l : length (js_sort cmp l) = length l.
Proof. apply Permutation_length, js_sort_Permutation. Qed.

Lemma insert_by_sorted x l :
  StronglySorted le l -> StronglySorted le (insert_by (leb_of cmp) x l).
Proof.
  induction l as [|y l IH]; simpl; intros Hl.
  - repeat constructor.
  - apply StronglySorted_cons in Hl as [Hy Hl].
    destruct (leb_of cmp x y) eqn:Hxy; apply StronglySorted_cons; split.
    + constructor; [done|]. eapply Forall_impl; [exact Hy|].
      intros z. by apply leb_of_trans.
    + by apply StronglySorted_cons.
    + rewrite (insert_by_Permutation _ x l). constructor; [by apply leb_of_total | done].
    + by apply IH.
Qed.

Lemma js_sort_sorted l : StronglySorted le (js_sort cmp l).
Proof. induction l; simpl; [constructor | by apply insert_by_sorted]. Qed.

Lemma insert_by_head x l :
  Forall (fun y => leb_of cmp x y = true) l -> insert_by (leb_of cmp) x l = x :: l.
Proof. destruct l; simpl; [done|]. intros [-> _]%Forall_cons. done. Qed.

(** Sorting a sorted list changes nothing. *)
Lemma js_sort_id l : StronglySorted le l -> js_sort cmp l = l.
Proof.
  induction 1 as [|x l Hl IH Hx]; [done|]. unfold js_sort in *. simpl.
  rewrite IH. by apply insert_by_head.
Qed.

Lemma js_sort_idemp l : js_sort cmp (js_sort cmp l) = js_sort cmp l.
Proof. apply js_sort_id, js_sort_sorted. Qed.

Lemma js_sort_app_sort_r l1 l2 : js_sort cmp (l1 ++ js_sort cmp l2) = js_sort cmp (l1 ++ l2).
Proof.
  unfold js_sort. induction l1 as [|x l1 IH]; simpl; [apply js_sort_idemp | by rewrite IH].
Qed.

Lemma bfilter_insert_by p x l :
  StronglySorted le l ->
  bfilter p (insert_by (leb_of cmp) x l) =
  (if p x then insert_by (leb_of cmp) x (bfilter p l) else bfilter p l).
Proof.
  induction 1 as [|y l Hl IH Hy]; simpl; [by destruct (p x)|].
  destruct (leb_of cmp x y) eqn:Hxy; simpl.
  - destruct (p x) eqn:Hx; simpl; [|done]. rewrite insert_by_head; [done|].
    apply Forall_forall. intros z Hz.
    destruct (p y); [apply elem_of_cons in Hz as [-> | Hz]; [done|]|];
      apply elem_of_bfilter in Hz as [_ Hz];
      (eapply leb_of_trans; [done|exact Hxy|]); by eapply Forall_forall in Hy.
  - rewrite IH. destruct (p x), (p y); simpl; rewrite ?Hxy; done.
Qed.

(** Stability, as the code relies on it: filtering commutes with sorting. *)
Lemma bfilter_js_sort p l : bfilter p (js_sort cmp l) = js_sort cmp (bfilter p l).
Proof.
  unfold js_sort. induction l as [|x l IH]; simpl; [done|].
  rewrite bfilter_insert_by by apply js_sort_sorted.
  rewrite IH. by destruct (p x).
Qed.

Lemma js_sort_ext_perm l1 l2 :
  (forall x y, x ∈ l1 -> y ∈ l1 -> cmp x y = Eq -> x = y) ->
  l1 ≡ₚ l2 -> js_sort cmp l1 = js_sort cmp l2.
Proof.
  intros Heq HP. apply (StronglySorted_unique_strong le).
  - intros x y Hx Hy Hxy Hyx. rewrite elem_of_js_sort in Hx, Hy. rewrite <- HP in Hy.
    apply Heq; [done|done|]. apply leb_of_true in Hxy, Hyx.
    rewrite cmp_opp in Hyx. by destruct (cmp x y).
  - apply js_sort_sorted.
  - apply js_sort_sorted.
  - by rewrite !js_sort_Permutation.
Qed.
End Sort.

(** Comparators that agree on the elements of a list sort it alike. *)
Lemma insert_by_ext_in {A} (la lb : A -> A -> bool) x l :
  (forall y, y ∈ l -> la x y = lb x y) -> insert_by la x l = insert_by lb x l.
Proof.
  induction l as [|y l IH]; simpl; intros He; [done|].
  rewrite He by apply list_elem_of_here. rewrite IH; [done|]. intros z Hz. by apply He, list_elem_of_further.
Qed.

Lemma js_sort_ext_in {A} (c d : A -> A -> comparison) l :
  (forall x y, x ∈ l -> y ∈ l -> c x y = d x y) -> js_sort c l = js_sort d l.
Proof.
  unfold js_sort. induction l as [|x l IH]; simpl; intros He; [done|].
  rewrite IH by (intros; apply He; by apply list_elem_of_further).
  apply insert_by_ext_in. intros y Hy. unfold leb_of. rewrite He; [done|apply list_elem_of_here|].
  rewrite sort_by_Permutation in Hy. by apply list_elem_of_further.
Qed.

Lemma sort_strings_Permutation l1 l2 : l1 ≡ₚ l2 -> sort_strings l1 = sort_strings l2.
Proof.
  apply js_sort_ext_perm; [apply _|]. intros x y _ _. by apply String.compare_eq_iff.
Qed.

Lemma elem_of_sort_strings s l : s ∈ sort_strings l <-> s ∈ l.
Proof. apply elem_of_js_sort. Qed.

(** ** De-duplication lemmas *)

Lemma elem_of_dedup_from seen l s : s ∈ dedup_from seen l <-> s ∈ l /\ s ∉ seen.
Proof.
  revert seen; induction l as [|x l IH]; intros seen; simpl.
  - split; [intros H; by apply not_elem_of_nil in H | intros [H _]; by apply not_elem_of_nil in H].
  - destruct (sin x seen) eqn:Hx; rewrite ?elem_of_cons, IH.
    + apply sin_true in Hx. naive_solver.
    + apply sin_false in Hx. rewrite not_elem_of_cons.
      destruct (decide (s = x)) as [->|]; naive_solver.
Qed.

Lemma NoDup_dedup_from seen l : NoDup (dedup_from seen l).
Proof.
  revert seen; induction l as [|x l IH]; intros seen; simpl; [constructor|].
  destruct (sin x seen); [done|]. constructor; [|done].
  rewrite elem_of_dedup_from, not_elem_of_cons. naive_solver.
Qed.

Lemma dedup_from_id seen l :
  NoDup l -> (forall x, x ∈ l -> x ∉ seen) -> dedup_from seen l = l.
Proof.
  revert seen; induction l as [|x l IH]; intros seen; simpl; [done|].
  rewrite NoDup_cons. intros [Hx Hl] Hs.
  assert (sin x seen = false) as ->.
  { apply sin_false, Hs, list_elem_of_here. }
  f_equal. apply IH; [done|]. intros y Hy. apply not_elem_of_cons. split.
  - by intros ->.
  - apply Hs. by apply list_elem_of_further.
Qed.

Lemma elem_of_dedup l s : s ∈ dedup l <-> s ∈ l.
Proof. unfold dedup. rewrite elem_of_dedup_from. pose proof (not_elem_of_nil s). tauto. Qed.

Lemma NoDup_dedup l : NoDup (dedup l).
Proof. apply NoDup_dedup_from. Qed.

Lemma dedup_id l : NoDup l -> dedup l = l.
Proof. intros H. apply dedup_from_id; [done|]. intros x _. apply not_elem_of_nil. Qed.

Lemma dedup_nil l : dedup l = [] <-> l = [].
Proof. destruct l; [done|]. split; [|done]. unfold dedup; simpl. done. Qed.

Lemma dedup_length_le l : length (dedup l) <= length l.
Proof.
  unfold dedup. generalize (@nil string). induction l as [|x l IH]; intros seen; simpl; [lia|].
  destruct (sin x seen); simpl; [specialize (IH seen) | specialize (IH (x :: seen))]; lia.
Qed.

Lemma elem_of_unique_sorted l s : s ∈ unique_sorted l <-> s ∈ l.
Proof. unfold unique_sorted. by rewrite elem_of_sort_strings, elem_of_dedup. Qed.

Lemma NoDup_unique_sorted l : NoDup (unique_sorted l).
Proof.
  unfold unique_sorted, sort_strings. rewrite js_sort_Permutation. apply NoDup_dedup.
Qed.

Lemma unique_sorted_nil l : unique_sorted l = [] <-> l = [].
Proof.
  split; [|by intros ->]. intros H. destruct l as [|x l]; [done|].
  assert (x ∈ unique_sorted (x :: l)) as Hx
    by apply elem_of_unique_sorted, list_elem_of_here.
  rewrite H in Hx. by apply not_elem_of_nil in Hx.
Qed.

(** The result depends on the set of values only. *)
Lemma unique_sorted_ext l1 l2 :
  (forall s, s ∈ l1 <-> s ∈ l2) -> unique_sorted l1 = unique_sorted l2.
Proof.
  intros H. apply sort_strings_Permutation, NoDup_Permutation; try apply NoDup_dedup.
  intros s. by rewrite !elem_of_dedup.
Qed.

(** Normalising twice is normalising once. *)
Lemma unique_sorted_idemp l : unique_sorted (unique_sorted l) = unique_sorted l.
Proof. apply unique_sorted_ext. intros s. apply elem_of_unique_sorted. Qed.
