(* ===== verification/JsString.v ===== *)
(** * JavaScript strings

    A string is a sequence of 8-bit code units ([String.string]); the program's
    references, keys and reason codes are ASCII text.  [trim] removes the white
    space of ECMAScript that lies in this range, the case mappings are those of
    ASCII and of the Latin-1 letters (an upper-cased sharp s is two letters; the two letters
    whose capital lies outside the range are left alone).  The file also holds
    the regular expressions of the program: a matcher by derivatives for the
    patterns that search a text, and direct predicates for the anchored
    identifier patterns. *)
From Stdlib Require Import DecimalString DecimalZ DecimalFacts.
From Stdlib Require Export Ascii.
From S2P Require Import Prelude Sorting.

(** ** Characters *)

Definition in_range (lo hi : N) (c : ascii) : bool :=
  (N.leb lo (N_of_ascii c) && N.leb (N_of_ascii c) hi)%N.

Definition is_upper (c : ascii) : bool := in_range 65 90 c.
Definition is_lower (c : ascii) : bool := in_range 97 122 c.
Definition is_digit (c : ascii) : bool := in_range 48 57 c.
Definition is_alnum (c : ascii) : bool := is_upper c || is_lower c || is_digit c.

(** WhiteSpace and LineTerminator of ECMAScript within the range: tab, line
    feed, vertical tab, form feed, carriage return, space, no-break space. *)
Definition is_ws (c : ascii) : bool :=
  in_range 9 13 c || in_range 32 32 c || in_range 160 160 c.

Definition char_in (cs : string) (c : ascii) : bool :=
  existsb (Ascii.eqb c) (String.list_ascii_of_string cs).

Definition chr (n : N) : ascii := ascii_of_N n.

(** ** Whole strings *)

Fixpoint str_forallb (p : ascii -> bool) (s : string) : bool :=
  match s with
  | EmptyString => true
  | String c s' => p c && str_forallb p s'
  end.

Fixpoint trim_start (s : string) : string :=
  match s with
  | EmptyString => EmptyString
  | String c s' => if is_ws c then trim_start s' else s
  end.

Fixpoint trim_end (s : string) : string :=
  match s with
  | EmptyString => EmptyString
  | String c s' =>
      match trim_end s' with
      | EmptyString => if is_ws c then EmptyString else String c EmptyString
      | r => String c r
      end
  end.

(** [s.trim()] *)
Definition js_trim (s : string) : string := trim_end (trim_start s).

Definition lower_char (c : ascii) : ascii :=
  if is_upper c || (in_range 192 222 c && negb (in_range 215 215 c))
  then chr (N_of_ascii c + 32) else c.

Fixpoint js_toLowerCase (s : string) : string :=
  match s with
  | EmptyString => EmptyString
  | String c s' => String (lower_char c) (js_toLowerCase s')
  end.

Definition upper_char (c : ascii) : string :=
  if in_range 223 223 c then "SS"
  else if is_lower c || (in_range 224 254 c && negb (in_range 247 247 c))
  then String (chr (N_of_ascii c - 32)) EmptyString
  else String c EmptyString.

Fixpoint js_toUpperCase (s : string) : string :=
  match s with
  | EmptyString => EmptyString
  | String c s' => upper_char c +:+ js_toUpperCase s'
  end.

(** [s.startsWith(p)], [s.endsWith(p)], [s.includes(p)] *)
Definition js_startsWith (s p : string) : bool := String.prefix p s.

Fixpoint js_includes (s p : string) : bool :=
  String.prefix p s ||
  match s with
  | EmptyString => false
  | String _ s' => js_includes s' p
  end.

Fixpoint js_endsWith (s p : string) : bool :=
  String.eqb s p ||
  match s with
  | EmptyString => false
  | String _ s' => js_endsWith s' p
  end.

(** [s.slice(0, n)] *)
Definition js_slice0 (s : string) (n : nat) : string := String.substring 0 n s.

(** [s.replace(p, r)] for a string pattern: the first occurrence. *)
Fixpoint js_replace (s p r : string) : string :=
  if String.prefix p s then r +:+ String.substring (String.length p) (String.length s) s
  else match s with
       | EmptyString => EmptyString
       | String c s' => String c (js_replace s' p r)
       end.

(** [l.join(sep)] *)
Fixpoint js_join (sep : string) (l : list string) : string :=
  match l with
  | [] => ""
  | [x] => x
  | x :: l' => x +:+ sep +:+ js_join sep l'
  end.

(** [String(n)] for an integral number. *)
Definition string_of_Z (z : Z) : string := NilEmpty.string_of_int (Z.to_int z).

Definition is_empty (s : string) : bool :=
  match s with EmptyString => true | _ => false end.

(** ** Anchored patterns *)

(** [/^[A-Za-z0-9][A-Za-z0-9_.:/-]{0,190}$/] *)
Definition identifier_char (c : ascii) : bool := is_alnum c || char_in "_.:/-" c.

Definition is_identifier (s : string) : bool :=
  match s with
  | EmptyString => false
  | String c s' =>
      is_alnum c && str_forallb identifier_char s' && (String.length s' <=? 190)
  end.

(** [/^[A-Z][A-Z0-9_]{2,190}$/] *)
Definition reason_char (c : ascii) : bool := is_upper c || is_digit c || char_in "_" c.

Definition is_reason_code (s : string) : bool :=
  match s with
  | EmptyString => false
  | String c s' =>
      is_upper c && str_forallb reason_char s'
      && (2 <=? String.length s') && (String.length s' <=? 190)
  end.

(** [/^[0-9a-f]{64}$/] *)
Definition is_hex64 (s : string) : bool :=
  str_forallb (fun c => is_digit c || in_range 97 102 c) s && (String.length s =? 64).

(** ** Regular expressions by derivatives *)

Inductive regex : Type :=
| RVoid
| REps
| RChar (p : ascii -> bool)
| RSeq (a b : regex)
| RAlt (a b : regex)
| RStar (a : regex).

Fixpoint nullable (r : regex) : bool :=
  match r with
  | RVoid => false
  | REps => true
  | RChar _ => false
  | RSeq a b => nullable a && nullable b
  | RAlt a b => nullable a || nullable b
  | RStar _ => true
  end.

(** Constructors that drop what cannot match, so that derivatives stay small. *)
Definition mk_seq (a b : regex) : regex :=
  match a, b with
  | RVoid, _ => RVoid
  | _, RVoid => RVoid
  | REps, _ => b
  | _, _ => RSeq a b
  end.

Definition mk_alt (a b : regex) : regex :=
  match a, b with
  | RVoid, _ => b
  | _, RVoid => a
  | _, _ => RAlt a b
  end.

Fixpoint deriv (c : ascii) (r : regex) : regex :=
  match r with
  | RVoid | REps => RVoid
  | RChar p => if p c then REps else RVoid
  | RSeq a b =>
      if nullable a then mk_alt (mk_seq (deriv c a) b) (deriv c b)
      else mk_seq (deriv c a) b
  | RAlt a b => mk_alt (deriv c a) (deriv c b)
  | RStar a => mk_seq (deriv c a) (RStar a)
  end.

(** [^r$] *)
Fixpoint re_full (r : regex) (s : string) : bool :=
  match s with
  | EmptyString => nullable r
  | String c s' => re_full (deriv c r) s'
  end.

(** [^r]: some prefix matches. *)
Fixpoint re_prefix (r : regex) (s : string) : bool :=
  nullable r ||
  match s with
  | EmptyString => false
  | String c s' => re_prefix (deriv c r) s'
  end.

(** [r] anywhere in the text, as [RegExp.prototype.test] searches it. *)
Fixpoint re_search (r : regex) (s : string) : bool :=
  re_prefix r s ||
  match s with
  | EmptyString => false
  | String _ s' => re_search r s'
  end.

Fixpoint re_lit (s : string) : regex :=
  match s with
  | EmptyString => REps
  | String c s' => RSeq (RChar (Ascii.eqb c)) (re_lit s')
  end.

(** A literal under the [i] flag. *)
Fixpoint re_lit_i (s : string) : regex :=
  match s with
  | EmptyString => REps
  | String c s' => RSeq (RChar (fun d => Ascii.eqb (lower_char c) (lower_char d))) (re_lit_i s')
  end.

Definition re_plus (r : regex) : regex := RSeq r (RStar r).
Definition re_opt (r : regex) : regex := RAlt REps r.
Fixpoint re_alts (l : list regex) : regex :=
  match l with [] => RVoid | r :: l' => RAlt r (re_alts l') end.

(** ** Lemmas on [trim] *)

Lemma trim_start_head c s : is_ws c = false -> trim_start (String c s) = String c s.
Proof. intros H. simpl. by rewrite H. Qed.

Lemma trim_start_spec s :
  trim_start s = "" \/ exists c r, trim_start s = String c r /\ is_ws c = false.
Proof.
  induction s as [|c s IH]; simpl; [by left|].
  destruct (is_ws c) eqn:Hc; [done|]. right. eauto.
Qed.

Lemma trim_end_idemp s : trim_end (trim_end s) = trim_end s.
Proof.
  induction s as [|c s IH]; simpl; [done|].
  destruct (trim_end s) as [|d r] eqn:Hs.
  - destruct (is_ws c) eqn:Hc; simpl; [done|]. by rewrite Hc.
  - rewrite <- Hs in IH |- *. simpl. rewrite IH, Hs. done.
Qed.

Lemma trim_end_head c s :
  is_ws c = false -> exists r, trim_end (String c s) = String c r.
Proof.
  intros Hc. simpl. destruct (trim_end s); [rewrite Hc|]; eauto.
Qed.

Lemma js_trim_idemp s : js_trim (js_trim s) = js_trim s.
Proof.
  unfold js_trim. destruct (trim_start_spec s) as [-> | (c & r & -> & Hc)]; [done|].
  destruct (trim_end_head c r Hc) as [r' Hr']. rewrite Hr', trim_start_head by done.
  rewrite <- Hr'. apply trim_end_idemp.
Qed.

Lemma trim_end_app s t d r :
  trim_end t = String d r -> trim_end (s +:+ t) = s +:+ String d r.
Proof.
  intros Ht. induction s as [|c s IH]; [done|]. simpl. rewrite IH. by destruct s.
Qed.

Lemma trimmed_start c s : js_trim (String c s) = String c s -> is_ws c = false.
Proof.
  unfold js_trim. intros H. destruct (is_ws c) eqn:Hc; [|done].
  assert (forall x, String.length (trim_end x) <= String.length x) as Hle.
  { induction x as [|d x IH]; simpl; [lia|].
    destruct (trim_end x); [destruct (is_ws d)|]; simpl in *; lia. }
  assert (forall x, String.length (trim_start x) <= String.length x) as Hls.
  { induction x as [|d x IH]; simpl; [lia|]. destruct (is_ws d); simpl; lia. }
  apply (f_equal String.length) in H. simpl in H. rewrite Hc in H.
  specialize (Hle (trim_start s)). specialize (Hls s). lia.
Qed.

(** Gluing two trimmed texts with a separator leaves nothing to trim. *)
Lemma js_trim_glue a b c :
  js_trim a = a -> js_trim b = b -> a <> "" -> b <> "" ->
  js_trim (a +:+ String c b) = a +:+ String c b.
Proof.
  intros Ha Hb Ha0 Hb0. destruct a as [|x a]; [done|].
  apply trimmed_start in Ha as Hx. unfold js_trim.
  change (String x a +:+ String c b) with (String x (a +:+ String c b)).
  rewrite trim_start_head by done.
  change (String x (a +:+ String c b)) with (String x a +:+ String c b).
  destruct b as [|y b]; [done|]. apply trimmed_start in Hb as Hy.
  unfold js_trim in Hb. rewrite trim_start_head in Hb by done.
  apply trim_end_app with (d := c). simpl. simpl in Hb. by rewrite Hb.
Qed.

Lemma is_empty_true s : is_empty s = true <-> s = "".
Proof. by destruct s. Qed.

Lemma is_empty_false s : is_empty s = false <-> s <> "".
Proof. by destruct s. Qed.

#[export] Hint Rewrite js_trim_idemp is_empty_true is_empty_false : str_db.

(** ** Lemmas on identifiers *)

Lemma str_forallb_app p s t : str_forallb p (s +:+ t) = str_forallb p s && str_forallb p t.
Proof. induction s as [|c s IH]; simpl; [done|]. by rewrite IH, andb_assoc. Qed.

Lemma str_forallb_impl (p q : ascii -> bool) s :
  (forall c, p c = true -> q c = true) -> str_forallb p s = true -> str_forallb q s = true.
Proof.
  intros H. induction s as [|c s IH]; simpl; [done|]. rewrite !andb_true_iff. naive_solver.
Qed.

Lemma identifier_not_ws c : identifier_char c = true -> is_ws c = false.
Proof. by destruct c as [[] [] [] [] [] [] [] []]; vm_compute. Qed.

Lemma is_alnum_identifier_char c : is_alnum c = true -> identifier_char c = true.
Proof. unfold identifier_char. by intros ->. Qed.

Lemma trim_end_no_ws s : str_forallb (fun c => negb (is_ws c)) s = true -> trim_end s = s.
Proof.
  induction s as [|c s IH]; simpl; [done|]. intros [Hc Hs]%andb_true_iff.
  rewrite IH by done. apply negb_true_iff in Hc. destruct s; [by rewrite Hc | done].
Qed.

Lemma js_trim_no_ws s : str_forallb (fun c => negb (is_ws c)) s = true -> js_trim s = s.
Proof.
  intros H. unfold js_trim.
  assert (trim_start s = s) as ->; [|by apply trim_end_no_ws].
  destruct s as [|c s]; [done|]. simpl in *. apply andb_true_iff in H as [Hc _].
  apply negb_true_iff in Hc. by rewrite Hc.
Qed.

Lemma is_identifier_chars s :
  is_identifier s = true -> str_forallb identifier_char s = true /\ s <> "" /\ String.length s <= 191.
Proof.
  destruct s as [|c s]; simpl; [done|]. intros H.
  apply andb_true_iff in H as [H Hl]. apply andb_true_iff in H as [Hc Hs].
  apply Nat.leb_le in Hl. rewrite is_alnum_identifier_char, Hs by done. repeat split; [done|lia].
Qed.

Lemma is_identifier_trim s : is_identifier s = true -> js_trim s = s.
Proof.
  intros (H & _ & _)%is_identifier_chars. apply js_trim_no_ws.
  eapply str_forallb_impl; [|exact H]. intros c Hc. by rewrite identifier_not_ws.
Qed.

Lemma upper_reason_char c : reason_char c = true -> upper_char c = String c "".
Proof. by destruct c as [[] [] [] [] [] [] [] []]; vm_compute. Qed.

Lemma js_toUpperCase_id s : str_forallb reason_char s = true -> js_toUpperCase s = s.
Proof.
  induction s as [|c s IH]; simpl; [done|]. intros [Hc Hs]%andb_true_iff.
  by rewrite upper_reason_char, IH.
Qed.

Lemma is_reason_code_chars s : is_reason_code s = true ->
  str_forallb reason_char s = true /\ s <> "" /\ String.length s <= 191.
Proof.
  destruct s as [|c s]; simpl; [done|]. intros Hs. split_bool.
  apply Nat.leb_le in H0. unfold reason_char at 1. rewrite H. split; [done|]. split; [done|lia].
Qed.

Lemma reason_not_ws c : reason_char c = true -> is_ws c = false.
Proof. by destruct c as [[] [] [] [] [] [] [] []]; vm_compute. Qed.

(** A reason code is already trimmed and upper case. *)
Lemma is_reason_code_normal s : is_reason_code s = true -> js_trim s = s /\ js_toUpperCase s = s.
Proof.
  intros (Hs & _ & _)%is_reason_code_chars. split; [|by apply js_toUpperCase_id].
  apply js_trim_no_ws. eapply str_forallb_impl; [|exact Hs]. intros c Hc. by rewrite reason_not_ws.
Qed.

(** ** Lemmas on [slice] and on digests *)

Lemma js_slice0_all s n : String.length s <= n -> js_slice0 s n = s.
Proof.
  unfold js_slice0. revert n. induction s as [|c s IH]; intros [|n]; simpl; try done; [lia|].
  intros Hn. by rewrite IH by lia.
Qed.

Lemma hex_not_ws c : is_digit c || in_range 97 102 c = true -> is_ws c = false.
Proof. destruct c as [[] [] [] [] [] [] [] []]; vm_compute; done. Qed.

Lemma is_hex64_length s : is_hex64 s = true -> String.length s = 64.
Proof. unfold is_hex64. intros [_ Hl]%andb_true_iff. by apply Nat.eqb_eq in Hl. Qed.

Lemma is_hex64_trim s : is_hex64 s = true -> js_trim s = s.
Proof.
  unfold is_hex64. intros [Hc _]%andb_true_iff. apply js_trim_no_ws.
  revert Hc. apply str_forallb_impl. intros c Hc. by rewrite hex_not_ws.
Qed.

(** ** Lemmas on the matcher *)

(** [r] has no match at all. *)
Fixpoint re_void (r : regex) : bool :=
  match r with
  | RVoid => true
  | REps | RChar _ | RStar _ => false
  | RSeq a b => re_void a || re_void b
  | RAlt a b => re_void a && re_void b
  end.

(** No character class of [r] contains [c]. *)
Fixpoint re_avoids (c : ascii) (r : regex) : bool :=
  match r with
  | RVoid | REps => true
  | RChar p => negb (p c)
  | RSeq a b | RAlt a b => re_avoids c a && re_avoids c b
  | RStar a => re_avoids c a
  end.

Lemma nullable_mk_seq a b : nullable (mk_seq a b) = nullable a && nullable b.
Proof. destruct a, b; simpl; rewrite ?andb_false_r; done. Qed.

Lemma nullable_mk_alt a b : nullable (mk_alt a b) = nullable a || nullable b.
Proof. destruct a, b; simpl; rewrite ?orb_false_r; done. Qed.

Lemma re_void_mk_seq a b : re_void (mk_seq a b) = re_void a || re_void b.
Proof. destruct a, b; simpl; rewrite ?orb_true_r; done. Qed.

Lemma re_void_mk_alt a b : re_void (mk_alt a b) = re_void a && re_void b.
Proof. destruct a, b; simpl; rewrite ?andb_true_r; done. Qed.

Lemma re_void_not_nullable r : re_void r = true -> nullable r = false.
Proof.
  induction r; simpl; try done.
  - rewrite orb_true_iff, andb_false_iff. naive_solver.
  - rewrite andb_true_iff, orb_false_iff. naive_solver.
Qed.

Lemma re_void_deriv c r : re_void r = true -> re_void (deriv c r) = true.
Proof.
  induction r as [| | |a IHa b IHb|a IHa b IHb|]; simpl; try done.
  - intros [H|H]%orb_true_iff.
    + rewrite (re_void_not_nullable a) by done. rewrite re_void_mk_seq, IHa by done. done.
    + destruct (nullable a); rewrite ?re_void_mk_alt, ?re_void_mk_seq, H, ?IHb, ?orb_true_r; done.
  - rewrite re_void_mk_alt, !andb_true_iff. naive_solver.
Qed.

Lemma re_avoids_deriv c r : re_avoids c r = true -> re_void (deriv c r) = true.
Proof.
  induction r as [| |p|a IHa b IHb|a IHa b IHb|a IHa]; simpl; try done.
  - destruct (p c); [done|]. done.
  - rewrite andb_true_iff. intros [Ha Hb].
    destruct (nullable a); rewrite ?re_void_mk_alt, re_void_mk_seq, IHa, ?IHb by done; done.
  - rewrite re_void_mk_alt, !andb_true_iff. naive_solver.
  - intros H. by rewrite re_void_mk_seq, IHa.
Qed.

Lemma re_avoids_mk_seq d a b :
  re_avoids d a = true -> re_avoids d b = true -> re_avoids d (mk_seq a b) = true.
Proof. intros Ha Hb. destruct a, b; simpl in *; split_bool; rewrite ?Ha, ?Hb; try done; by split_bool. Qed.

Lemma re_avoids_mk_alt d a b :
  re_avoids d a = true -> re_avoids d b = true -> re_avoids d (mk_alt a b) = true.
Proof. intros Ha Hb. destruct a, b; simpl in *; split_bool; rewrite ?Ha, ?Hb; try done; by split_bool. Qed.

Lemma re_avoids_preserved c d r : re_avoids d r = true -> re_avoids d (deriv c r) = true.
Proof.
  induction r as [| |p|a IHa b IHb|a IHa b IHb|a IHa]; simpl; try done.
  - by destruct (p c).
  - rewrite andb_true_iff. intros [Ha Hb].
    destruct (nullable a); auto using re_avoids_mk_alt, re_avoids_mk_seq.
  - rewrite andb_true_iff. intros [Ha Hb]. auto using re_avoids_mk_alt.
  - intros Ha. apply re_avoids_mk_seq; auto.
Qed.

Lemma re_void_prefix r s : re_void r = true -> re_prefix r s = false.
Proof.
  revert r; induction s as [|c s IH]; intros r H; simpl;
    rewrite re_void_not_nullable by done; simpl; [done|].
  apply IH, re_void_deriv, H.
Qed.

Lemma re_void_full r s : re_void r = true -> re_full r s = false.
Proof.
  revert r; induction s as [|c s IH]; intros r H; simpl.
  - by apply re_void_not_nullable.
  - apply IH, re_void_deriv, H.
Qed.

(** A text cut at a character the pattern avoids: the pattern is found in the
    text exactly when it is found in one of the pieces. *)
Lemma re_prefix_cut r d s t :
  re_avoids d r = true -> re_prefix r (s +:+ String d t) = re_prefix r s.
Proof.
  revert r; induction s as [|c s IH]; intros r H.
  - change ("" +:+ String d t) with (String d t). simpl.
    rewrite re_void_prefix by (by apply re_avoids_deriv). done.
  - change (String c s +:+ String d t) with (String c (s +:+ String d t)). simpl.
    by rewrite IH by (by apply re_avoids_preserved).
Qed.

Lemma re_search_cut r d s t :
  re_avoids d r = true -> nullable r = false ->
  re_search r (s +:+ String d t) = re_search r s || re_search r t.
Proof.
  intros H Hn. induction s as [|c s IH].
  - change ("" +:+ String d t) with (String d t). simpl. rewrite Hn. simpl.
    by rewrite re_void_prefix by (by apply re_avoids_deriv).
  - change (String c s +:+ String d t) with (String c (s +:+ String d t)). simpl.
    rewrite IH, re_prefix_cut by (by apply re_avoids_preserved). by rewrite !orb_assoc.
Qed.

Lemma re_full_cut r d s t :
  re_avoids d r = true -> re_full r (s +:+ String d t) = false.
Proof.
  revert r; induction s as [|c s IH]; intros r H.
  - change ("" +:+ String d t) with (String d t). simpl.
    by apply re_void_full, re_avoids_deriv.
  - change (String c s +:+ String d t) with (String c (s +:+ String d t)). simpl.
    by apply IH, re_avoids_preserved.
Qed.

(** ** Decimal numerals *)

Lemma string_of_Z_inj a b : string_of_Z a = string_of_Z b -> a = b.
Proof.
  unfold string_of_Z. intros H. apply (f_equal NilEmpty.int_of_string) in H.
  rewrite !NilEmpty.isi in H. injection H as H. by apply DecimalZ.to_int_inj.
Qed.
