(* ===== verification/JsDate.v ===== *)
(** * JavaScript dates

    A [Date] holds a time value: milliseconds since the epoch, or NaN
    ([None]).  [Date.prototype.toISOString] is written out on the proleptic
    Gregorian calendar, and [date_parse_iso] reads such a string back.  Strings
    in other formats are left to the host (see [JsValue]). *)
From S2P Require Import Prelude Sorting JsString.
#[local] Open Scope Z_scope.

Definition ms_per_day : Z := 86400000.

(** TimeClip: the largest magnitude of a time value. *)
Definition max_time : Z := 8640000000000000.
Definition valid_time (t : Z) : bool := Z.abs t <=? max_time.
Definition time_clip (t : Z) : option Z := if valid_time t then Some t else None.

(** ** Calendar *)

(** Days are counted in eras of 400 years that start on the first of March. *)
Definition days_per_era : Z := 146097.

(** Month and day of a day of a year that starts in March. *)
Definition month_of_doy (doy : Z) : Z * Z :=
  let mp := (5 * doy + 2) / 153 in
  let d := doy - (153 * mp + 2) / 5 + 1 in
  (if mp <? 10 then mp + 3 else mp - 9, d).

(** Century, four-year cycle and year within the era. *)
Definition civil_of_doe (doe : Z) : Z * Z * Z :=
  let c := Z.min 3 (doe / 36524) in
  let doc := doe - 36524 * c in
  let q := doc / 1461 in
  let doq := doc - 1461 * q in
  let y := Z.min 3 (doq / 365) in
  let '(m, d) := month_of_doy (doq - 365 * y) in
  (100 * c + 4 * q + y, m, d).

Definition doe_of_civil (yoe m d : Z) : Z :=
  let doy := (153 * (if 2 <? m then m - 3 else m + 9) + 2) / 5 + d - 1 in
  yoe * 365 + yoe / 4 - yoe / 100 + doy.

Definition civil_of_days (days : Z) : Z * Z * Z :=
  let z := days + 719468 in
  let era := z / days_per_era in
  let '(yoe, m, d) := civil_of_doe (z mod days_per_era) in
  (yoe + era * 400 + (if m <=? 2 then 1 else 0), m, d).

Definition days_of_civil (y m d : Z) : Z :=
  let y' := y - (if m <=? 2 then 1 else 0) in
  (y' / 400) * days_per_era + doe_of_civil (y' mod 400) m d - 719468.

(** ** ISO strings *)

Definition dig (n : Z) : ascii := chr (48 + Z.to_N n).
Definition undig (c : ascii) : Z := Z.of_N (N_of_ascii c) - 48.

Definition pad2 (z : Z) : list ascii := [dig (z / 10); dig (z mod 10)].
Definition pad3 (z : Z) : list ascii := dig (z / 100) :: pad2 (z mod 100).
Definition pad4 (z : Z) : list ascii := pad2 (z / 100) ++ pad2 (z mod 100).
Definition pad6 (z : Z) : list ascii := pad2 (z / 10000) ++ pad4 (z mod 10000).

Definition year_chars (y : Z) : list ascii :=
  if (0 <=? y) && (y <=? 9999) then pad4 y
  else (if y <? 0 then "-"%char else "+"%char) :: pad6 (Z.abs y).

Definition iso_chars (t : Z) : list ascii :=
  let days := t / ms_per_day in
  let ms := t mod ms_per_day in
  let '(y, m, d) := civil_of_days days in
  year_chars y ++ "-"%char :: pad2 m ++ "-"%char :: pad2 d ++ "T"%char ::
  pad2 (ms / 3600000) ++ ":"%char :: pad2 (ms / 60000 mod 60) ++ ":"%char ::
  pad2 (ms / 1000 mod 60) ++ "."%char :: pad3 (ms mod 1000) ++ ["Z"%char].

(** [new Date(t).toISOString()] for a valid time value. *)
Definition toISOString (t : Z) : string := String.string_of_list_ascii (iso_chars t).

Definition time_of_fields (y m d h mi s ms : Z) : Z :=
  days_of_civil y m d * ms_per_day + h * 3600000 + mi * 60000 + s * 1000 + ms.

Definition undig2 (a b : ascii) : Z := 10 * undig a + undig b.
Definition undig4 (a b c d : ascii) : Z := 100 * undig2 a b + undig2 c d.

Definition iso_fields (l : list ascii) : option Z :=
  match l with
  | [y1; y2; y3; y4; _; m1; m2; _; d1; d2; _; h1; h2; _; i1; i2; _; s1; s2; _; a; b; c; _] =>
      Some (time_of_fields (undig4 y1 y2 y3 y4) (undig2 m1 m2) (undig2 d1 d2)
              (undig2 h1 h2) (undig2 i1 i2) (undig2 s1 s2) (100 * undig a + undig2 b c))
  | [sg; y1; y2; y3; y4; y5; y6; _; m1; m2; _; d1; d2; _; h1; h2; _; i1; i2; _; s1; s2; _; a; b; c; _] =>
      let y := 10000 * undig2 y1 y2 + undig4 y3 y4 y5 y6 in
      Some (time_of_fields (if Ascii.eqb sg "-" then - y else y) (undig2 m1 m2) (undig2 d1 d2)
              (undig2 h1 h2) (undig2 i1 i2) (undig2 s1 s2) (100 * undig a + undig2 b c))
  | _ => None
  end.

(** The time value of a string in the format of [toISOString]. *)
Definition date_parse_iso (s : string) : option Z :=
  match iso_fields (String.list_ascii_of_string s) with
  | Some t => if valid_time t && String.eqb (toISOString t) s then Some t else None
  | None => None
  end.

(** ** Calendar lemmas *)

Fixpoint all_from (f : Z -> bool) (n : nat) (z : Z) : bool :=
  match n with O => true | S n' => f z && all_from f n' (z + 1) end.

Lemma all_from_spec f n z : all_from f n z = true ->
  forall k, z <= k < z + Z.of_nat n -> f k = true.
Proof.
  revert z; induction n as [|n IH]; intros z; cbn [all_from]; [lia|].
  intros [Hz Hn]%andb_true_iff k Hk.
  destruct (Z.eq_dec k z) as [->|]; [done|]. apply (IH (z + 1)); [done|lia].
Qed.

Definition month_ok (doy : Z) : bool :=
  let '(m, d) := month_of_doy doy in
  (1 <=? m) && (m <=? 12) && (1 <=? d) && (d <=? 31) && (doe_of_civil 0 m d =? doy).

(** The months of one year, checked day by day. *)
Lemma month_ok_year : all_from month_ok 366 0 = true.
Proof. vm_compute. reflexivity. Qed.

Lemma month_of_doy_spec doy m d : 0 <= doy < 366 -> month_of_doy doy = (m, d) ->
  1 <= m <= 12 /\ 1 <= d <= 31 /\ doe_of_civil 0 m d = doy.
Proof.
  intros Hd Hc. pose proof (all_from_spec _ _ _ month_ok_year doy ltac:(lia)) as H.
  unfold month_ok in H. rewrite Hc in H. split_bool. lia.
Qed.

Lemma civil_of_doe_spec doe yoe m d :
  0 <= doe < days_per_era -> civil_of_doe doe = (yoe, m, d) ->
  0 <= yoe < 400 /\ 1 <= m <= 12 /\ 1 <= d <= 31 /\ doe_of_civil yoe m d = doe.
Proof.
  unfold civil_of_doe, days_per_era. intros Hd Hc.
  set (c := Z.min 3 (doe / 36524)) in *.
  assert (0 <= c <= 3 /\ 0 <= doe - 36524 * c <= 36524) as [Hc1 Hc2]
    by (unfold c; Z.div_mod_to_equations; lia).
  set (doc := doe - 36524 * c) in *. set (q := doc / 1461) in *.
  assert (0 <= q <= 24 /\ 0 <= doc - 1461 * q <= 1460) as [Hq1 Hq2]
    by (unfold q; Z.div_mod_to_equations; lia).
  set (doq := doc - 1461 * q) in *. set (y := Z.min 3 (doq / 365)) in *.
  assert (0 <= y <= 3 /\ 0 <= doq - 365 * y < 366) as [Hy1 Hy2]
    by (unfold y; Z.div_mod_to_equations; lia).
  destruct (month_of_doy (doq - 365 * y)) as [m' d'] eqn:Hm.
  injection Hc as <- <- <-.
  destruct (month_of_doy_spec _ _ _ Hy2 Hm) as (Hm1 & Hd1 & Hdoy).
  split; [lia|]. split; [done|]. split; [done|].
  assert ((100 * c + 4 * q + y) / 4 = 25 * c + q) as H4 by (Z.div_mod_to_equations; lia).
  assert ((100 * c + 4 * q + y) / 100 = c) as H100 by (Z.div_mod_to_equations; lia).
  unfold doe_of_civil in *. rewrite H4, H100. change (0 / 4) with 0 in Hdoy.
  change (0 / 100) with 0 in Hdoy. unfold doq, doc in *. lia.
Qed.

(** A day number and its civil date determine each other. *)
Lemma days_of_civil_of_days days y m d :
  civil_of_days days = (y, m, d) ->
  days_of_civil y m d = days /\ 1 <= m <= 12 /\ 1 <= d <= 31.
Proof.
  unfold civil_of_days, days_of_civil.
  set (z := days + 719468).
  destruct (civil_of_doe (z mod days_per_era)) as [[yoe m'] d'] eqn:Hc.
  intros [= <- <- <-].
  assert (0 <= z mod days_per_era < days_per_era) as Hz by (apply Z.mod_pos_bound; done).
  destruct (civil_of_doe_spec _ _ _ _ Hz Hc) as (Hy & Hm & Hd & Hdoe).
  split; [|done].
  replace (yoe + z / days_per_era * 400 + (if m' <=? 2 then 1 else 0) - (if m' <=? 2 then 1 else 0))
    with (yoe + z / days_per_era * 400) by lia.
  rewrite Z.div_add, Z.mod_add, Z.div_small, Z.mod_small by lia.
  rewrite Hdoe. pose proof (Z.div_mod z days_per_era ltac:(done)). lia.
Qed.

Lemma civil_year_bound days y m d :
  civil_of_days days = (y, m, d) -> Z.abs days <= 100000000 -> -999999 <= y <= 999999.
Proof.
  unfold civil_of_days.
  set (z := days + 719468). intros H Hb.
  destruct (civil_of_doe (z mod days_per_era)) as [[yoe m'] d'] eqn:Hc.
  assert (0 <= z mod days_per_era < days_per_era) as Hz by (apply Z.mod_pos_bound; done).
  destruct (civil_of_doe_spec _ _ _ _ Hz Hc) as (Hy & _).
  injection H as <- _ _.
  assert (-700 <= z / days_per_era <= 700) as He.
  { unfold z, days_per_era. split; [apply Z.div_le_lower_bound | apply Z.div_le_upper_bound]; lia. }
  destruct (m' <=? 2); lia.
Qed.

(** ** Digit lemmas *)

Lemma undig_dig n : 0 <= n <= 9 -> undig (dig n) = n.
Proof.
  intros H. unfold undig, dig, chr. rewrite N_ascii_embedding; lia.
Qed.

Lemma undig2_pad z : 0 <= z < 100 -> undig2 (dig (z / 10)) (dig (z mod 10)) = z.
Proof.
  intros H. unfold undig2.
  rewrite !undig_dig; Z.div_mod_to_equations; lia.
Qed.

Lemma undig3_pad z : 0 <= z < 1000 ->
  100 * undig (dig (z / 100)) + undig2 (dig (z mod 100 / 10)) (dig ((z mod 100) mod 10)) = z.
Proof.
  intros H. rewrite undig2_pad by (Z.div_mod_to_equations; lia).
  rewrite undig_dig; Z.div_mod_to_equations; lia.
Qed.

Lemma undig4_pad z : 0 <= z < 10000 ->
  undig4 (dig (z / 100 / 10)) (dig ((z / 100) mod 10))
         (dig (z mod 100 / 10)) (dig ((z mod 100) mod 10)) = z.
Proof.
  intros H. unfold undig4. rewrite !undig2_pad; Z.div_mod_to_equations; lia.
Qed.

Lemma undig6_pad z : 0 <= z < 1000000 ->
  10000 * undig2 (dig (z / 10000 / 10)) (dig ((z / 10000) mod 10)) +
  undig4 (dig (z mod 10000 / 100 / 10)) (dig ((z mod 10000 / 100) mod 10))
         (dig ((z mod 10000) mod 100 / 10)) (dig (((z mod 10000) mod 100) mod 10)) = z.
Proof.
  intros H. rewrite undig4_pad by (Z.div_mod_to_equations; lia).
  rewrite undig2_pad; Z.div_mod_to_equations; lia.
Qed.

Lemma time_of_fields_split t y m d :
  civil_of_days (t / ms_per_day) = (y, m, d) ->
  let ms := t mod ms_per_day in
  time_of_fields y m d (ms / 3600000) (ms / 60000 mod 60) (ms / 1000 mod 60) (ms mod 1000) = t.
Proof.
  intros H ms. destruct (days_of_civil_of_days _ _ _ _ H) as (Hd & _).
  unfold time_of_fields. rewrite Hd.
  pose proof (Z.div_mod t ms_per_day ltac:(done)) as Ht. fold ms in Ht.
  assert (0 <= ms < ms_per_day) by (apply Z.mod_pos_bound; done).
  clearbody ms. unfold ms_per_day in *. Z.div_mod_to_equations. lia.
Qed.

(** The fields of an ISO string give back the time value. *)
Lemma iso_fields_iso_chars t : valid_time t = true -> iso_fields (iso_chars t) = Some t.
Proof.
  intros Ht. apply Z.leb_le in Ht. unfold iso_chars.
  destruct (civil_of_days (t / ms_per_day)) as [[y m] d] eqn:Hc.
  destruct (days_of_civil_of_days _ _ _ _ Hc) as (_ & Hm & Hd).
  assert (-999999 <= y <= 999999) as Hy.
  { eapply civil_year_bound; [exact Hc|]. unfold ms_per_day, max_time in *.
    Z.div_mod_to_equations. lia. }
  pose proof (time_of_fields_split _ _ _ _ Hc) as Hsplit. cbv zeta in Hsplit.
  assert (0 <= t mod ms_per_day < ms_per_day) as Hms by (apply Z.mod_pos_bound; done).
  set (ms := t mod ms_per_day) in *. clearbody ms. unfold ms_per_day in Hms.
  assert (0 <= ms / 3600000 < 100) by (Z.div_mod_to_equations; lia).
  assert (0 <= ms / 60000 mod 60 < 100) by (Z.div_mod_to_equations; lia).
  assert (0 <= ms / 1000 mod 60 < 100) by (Z.div_mod_to_equations; lia).
  assert (0 <= ms mod 1000 < 1000) by (Z.div_mod_to_equations; lia).
  unfold year_chars. destruct ((0 <=? y) && (y <=? 9999)) eqn:Hyr.
  - cbn [iso_fields pad2 pad3 pad4 app].
    rewrite !undig2_pad, undig3_pad, undig4_pad by (split_bool; lia). by rewrite Hsplit.
  - cbn [iso_fields pad2 pad3 pad4 pad6 app].
    rewrite undig3_pad, undig6_pad by lia. rewrite !undig2_pad by lia.
    apply andb_false_iff in Hyr. destruct (y <? 0) eqn:Hneg; cbn [Ascii.eqb].
    + replace (- Z.abs y) with y by lia. simpl. by rewrite Hsplit.
    + replace (Z.abs y) with y by lia. simpl. by rewrite Hsplit.
Qed.

(** Parsing the ISO string of a time value gives the time value. *)
Lemma date_parse_iso_toISOString t : valid_time t = true ->
  date_parse_iso (toISOString t) = Some t.
Proof.
  intros Ht. unfold date_parse_iso, toISOString.
  rewrite String.list_ascii_of_string_of_list_ascii, iso_fields_iso_chars by done.
  rewrite Ht. unfold toISOString. by rewrite String.eqb_refl.
Qed.

Lemma date_parse_iso_inv s t : date_parse_iso s = Some t -> toISOString t = s /\ valid_time t = true.
Proof.
  unfold date_parse_iso. destruct (iso_fields _) as [u|]; [|done].
  destruct (valid_time u && String.eqb (toISOString u) s) eqn:H; [|done].
  intros [= <-]. split_bool. split; [by apply String.eqb_eq | done].
Qed.

Lemma toISOString_inj t u : valid_time t = true -> valid_time u = true ->
  toISOString t = toISOString u -> t = u.
Proof.
  intros Ht Hu H. apply (f_equal date_parse_iso) in H.
  rewrite !date_parse_iso_toISOString in H by done. by injection H.
Qed.
