(* ===== verification/JsValue.v ===== *)
(** * JavaScript values

    The untyped inputs of the program: snapshots, evidence records and request
    arguments are [jsval]s, so that the guards of the code ([typeof],
    [Array.isArray], [??], [||], [===]) are definitions and every branch of a
    validator is reached by some value.  Numbers are integral or NaN; objects
    are plain own-property lists.  What the host provides (collation, the
    parsing of dates and numbers, the clock, SHA-256) is the class [JsHost],
    with the laws the program relies on in [JsHostLaws]. *)
From S2P Require Import Prelude Sorting JsString JsDate.

(** ** Values *)

Inductive jsval : Type :=
| VUndef
| VNull
| VBool (b : bool)
| VNum (n : option Z)        (* [None] is NaN *)
| VStr (s : string)
| VDate (t : option Z)       (* [None] is an invalid date *)
| VArr (l : list jsval)
| VObj (o : list (string * jsval)).

Abbreviation jsobj := (list (string * jsval)).

(** Exceptions: a [TypeError], a [RangeError], or an [Error] with the [code], [status] and
    [details] the program attaches. *)
Inductive jserror : Type :=
| TypeErr (msg : string)
| RangeErr (msg : string)
| CodedErr (code : string) (status : Z) (msg : string) (details : jsobj).

Abbreviation js := (outcome jserror).

Abbreviation type_error msg := (Throw (TypeErr msg)).

(** ** The host *)

Class JsHost : Type := {
  (** [a.localeCompare(b)] *)
  locale_compare : string -> string -> comparison;
  (** [Date.parse] on a string outside the format of [toISOString] *)
  host_date_parse : string -> option Z;
  (** [String(date)] *)
  host_date_string : option Z -> string;
  (** [Number(s)], when it is integral *)
  host_number : string -> option Z;
  (** [new Date()] *)
  host_clock : Z;
  (** [crypto.createHash("sha256").update(s).digest("hex")] *)
  sha256_hex : string -> string;
}.

(** ECMA-402 asks of [localeCompare] that it be a consistent comparator, and a
    SHA-256 digest is 64 hexadecimal digits. *)
Class JsHostLaws `{JsHost} : Prop := {
  locale_order :: CmpOrder locale_compare;
  sha256_hex64 : forall s, is_hex64 (sha256_hex s) = true;
}.

(** ** Operators *)

(** [Boolean(v)] *)
Definition truthy (v : jsval) : bool :=
  match v with
  | VUndef | VNull => false
  | VBool b => b
  | VNum (Some z) => negb (Z.eqb z 0)
  | VNum None => false
  | VStr s => negb (is_empty s)
  | VDate _ | VArr _ | VObj _ => true
  end.

(** [a || b], [a ?? b] *)
Definition js_or (a b : jsval) : jsval := if truthy a then a else b.
Definition nullish (v : jsval) : bool :=
  match v with VUndef | VNull => true | _ => false end.
Definition js_coalesce (a b : jsval) : jsval := if nullish a then b else a.

(** [value === null || value === undefined || value === ""] *)
Definition is_blank (v : jsval) : bool :=
  match v with VUndef | VNull => true | VStr s => is_empty s | _ => false end.

(** [v === s] for a string, [v === b] for a boolean. *)
Definition is_str (v : jsval) (s : string) : bool :=
  match v with VStr t => String.eqb t s | _ => false end.
Definition is_true (v : jsval) : bool := match v with VBool true => true | _ => false end.
Definition is_false (v : jsval) : bool := match v with VBool false => true | _ => false end.

(** [v === x] for an [x] that is a string or [null]. *)
Definition is_ostr (v : jsval) (x : option string) : bool :=
  match v, x with
  | VStr t, Some s => String.eqb t s
  | VNull, None => true
  | _, _ => false
  end.

(** [a === b] between values that are not objects; two distinct objects are
    never equal. *)
Definition strict_equal (a b : jsval) : bool :=
  match a, b with
  | VUndef, VUndef | VNull, VNull => true
  | VBool x, VBool y => Bool.eqb x y
  | VNum (Some x), VNum (Some y) => Z.eqb x y
  | VStr x, VStr y => String.eqb x y
  | _, _ => false
  end.

(** The values that pass [value && typeof value === "object" && !Array.isArray(value)]. *)
Definition is_record (v : jsval) : bool :=
  match v with VObj _ | VDate _ => true | _ => false end.

(** The values that pass [value && typeof value === "object"]. *)
Definition is_object (v : jsval) : bool :=
  match v with VObj _ | VDate _ | VArr _ => true | _ => false end.

Definition as_array (v : jsval) : option (list jsval) :=
  match v with VArr l => Some l | _ => None end.

(** Property access: [undefined] when the property is absent. *)
Fixpoint oget (o : jsobj) (k : string) : jsval :=
  match o with
  | [] => VUndef
  | (k', v) :: o' => if String.eqb k k' then v else oget o' k
  end.

Definition vget (v : jsval) (k : string) : jsval :=
  match v with VObj o => oget o k | _ => VUndef end.

(** The own properties an object spread [{ ...v }] copies. *)
Definition spread (v : jsval) : jsobj :=
  match v with
  | VObj o => o
  | VArr l => imap (fun i x => (string_of_Z (Z.of_nat i), x)) l
  | VStr s => imap (fun i c => (string_of_Z (Z.of_nat i), VStr (String c EmptyString)))
                (String.list_ascii_of_string s)
  | _ => []
  end.

(** A destructured parameter with a default: [{ k = d }]. *)
Definition oget_default (o : jsobj) (k : string) (d : jsval) : jsval :=
  match oget o k with VUndef => d | v => v end.

Section Host.
Context `{JsHost}.

(** [String(v)] *)
Fixpoint js_String (v : jsval) : string :=
  match v with
  | VUndef => "undefined"
  | VNull => "null"
  | VBool true => "true"
  | VBool false => "false"
  | VNum None => "NaN"
  | VNum (Some z) => string_of_Z z
  | VStr s => s
  | VDate t => host_date_string t
  | VArr l => js_join "," (List.map (fun x => if nullish x then "" else js_String x) l)
  | VObj _ => "[object Object]"
  end.

(** [String(v ?? "")] and [String(v || "")] *)
Definition str_coalesce (v : jsval) : string := js_String (js_coalesce v (VStr "")).
Definition str_or_empty (v : jsval) : string := js_String (js_or v (VStr "")).

(** [Number(v)], when it is integral. *)
Definition js_Number (v : jsval) : option Z :=
  match v with
  | VUndef => None
  | VNull => Some 0%Z
  | VBool b => Some (if b then 1 else 0)%Z
  | VNum n => n
  | VStr s => host_number s
  | VDate t => t ≫= time_clip
  | VArr _ | VObj _ => host_number (js_String v)
  end.

(** [Date.parse(s)] *)
Definition date_parse (s : string) : option Z :=
  match date_parse_iso s with
  | Some t => Some t
  | None => host_date_parse s ≫= time_clip
  end.

(** The time value of [v instanceof Date ? v : new Date(v)]. *)
Definition js_Date (v : jsval) : option Z :=
  match v with
  | VUndef => None
  | VNull => Some 0%Z
  | VBool b => Some (if b then 1 else 0)%Z
  | VNum n => n ≫= time_clip
  | VStr s => date_parse s
  | VDate t => t ≫= time_clip
  | VArr _ | VObj _ => date_parse (js_String v)
  end.

(** The parameter [now = new Date()]. *)
Definition now_param (args : jsobj) : jsval :=
  oget_default args "now" (VDate (Some host_clock)).
End Host.

(** ** Lemmas *)

Lemma time_clip_valid t u : time_clip t = Some u -> u = t /\ valid_time t = true.
Proof. unfold time_clip. destruct (valid_time t) eqn:Ht; naive_solver. Qed.

Lemma date_parse_valid `{JsHost} s t : date_parse s = Some t -> valid_time t = true.
Proof.
  unfold date_parse. destruct (date_parse_iso s) eqn:Hs.
  - intros [= <-]. by apply date_parse_iso_inv in Hs as [_ ?].
  - destruct (host_date_parse s); simpl; [|done]. by intros [-> ?]%time_clip_valid.
Qed.

Lemma js_Date_valid `{JsHost} v t : js_Date v = Some t -> valid_time t = true.
Proof.
  destruct v as [| |[]|[]| |[]| |]; simpl; try done; try (by intros [= <-]);
    try (by intros [-> ?]%time_clip_valid); apply date_parse_valid.
Qed.

(** A date read back from its ISO string is the same date. *)
Lemma date_parse_toISOString `{JsHost} t :
  valid_time t = true -> date_parse (toISOString t) = Some t.
Proof. intros H1. unfold date_parse. by rewrite date_parse_iso_toISOString. Qed.

Lemma is_str_true v s : is_str v s = true <-> v = VStr s.
Proof. destruct v; simpl; rewrite ?String.eqb_eq; naive_solver. Qed.

Lemma is_ostr_true v x :
  is_ostr v x = true <-> v = match x with Some s => VStr s | None => VNull end.
Proof. destruct v, x; simpl; rewrite ?String.eqb_eq; naive_solver. Qed.

Lemma is_true_true v : is_true v = true <-> v = VBool true.
Proof. destruct v as [| |[]| | | | |]; naive_solver. Qed.

Lemma str_coalesce_str `{JsHost} s : str_coalesce (VStr s) = s.
Proof. done. Qed.

Lemma oget_app_l o1 o2 k : oget o1 k <> VUndef -> oget (o1 ++ o2) k = oget o1 k.
Proof.
  induction o1 as [|[k' v] o1 IH]; simpl; [done|].
  destruct (String.eqb k k'); [done | apply IH].
Qed.

(** Deep induction over values. *)
Section JsvalInd.
Variable P : jsval -> Prop.
Hypothesis HU : P VUndef.
Hypothesis HN : P VNull.
Hypothesis HB : forall b, P (VBool b).
Hypothesis HNum : forall n, P (VNum n).
Hypothesis HS : forall s, P (VStr s).
Hypothesis HD : forall t, P (VDate t).
Hypothesis HA : forall l, Forall P l -> P (VArr l).
Hypothesis HO : forall o, Forall (fun p => P p.2) o -> P (VObj o).

Fixpoint jsval_deep_ind (v : jsval) : P v :=
  match v with
  | VUndef => HU
  | VNull => HN
  | VBool b => HB b
  | VNum n => HNum n
  | VStr s => HS s
  | VDate t => HD t
  | VArr l => HA l ((fix go l := match l return Forall P l with
      | [] => Forall_nil_2 P
      | x :: l' => Forall_cons_2 P x l' (jsval_deep_ind x) (go l') end) l)
  | VObj o => HO o ((fix go o := match o return Forall (fun p => P p.2) o with
      | [] => Forall_nil_2 _
      | p :: o' => Forall_cons_2 _ p o' (jsval_deep_ind p.2) (go o') end) o)
  end.
End JsvalInd.

(** ** A concrete host

    Collation by code units and a fixed digest: what the witnesses evaluate. *)
Definition demo_host : JsHost := {|
  locale_compare := String.compare;
  host_date_parse := fun _ => None;
  host_date_string := fun t => match t with Some t => toISOString t | None => "Invalid Date" end;
  host_number := fun s =>
    if is_empty (js_trim s) then Some 0%Z
    else Z.of_int <$> DecimalString.NilEmpty.int_of_string (js_trim s);
  host_clock := 1700000000000%Z;
  sha256_hex := fun s =>
    "0123456789abcdef0123456789abcdef0123456789abcdef0123456789abcdef";
|}.

Lemma demo_host_laws : @JsHostLaws demo_host.
Proof. split; [apply _ | done]. Qed.
