(* ===== verification/JsJson.v ===== *)
(** * Canonical JSON text

    [canonicalize] of contextIntegrity.js and executionCapsule.js (and
    [stableApprovalJson] of platformScopedApprovalKernel.js, which is the same
    function): JSON text with object keys in code unit order.  The main lemma
    says the text determines the value up to the order of keys. *)
From S2P Require Import Prelude Sorting JsString JsDate JsValue.

(** ** String escapes of [JSON.stringify] *)

Definition hex_digit (n : N) : ascii := if (n <? 10)%N then chr (48 + n) else chr (87 + n).

Definition bslash : ascii := chr 92.
Definition dquote : ascii := chr 34.

Definition esc_char (c : ascii) : string :=
  let n := N_of_ascii c in
  if (n =? 34)%N then String bslash (String dquote "")
  else if (n =? 92)%N then String bslash (String bslash "")
  else if (n =? 8)%N then String bslash "b"
  else if (n =? 9)%N then String bslash "t"
  else if (n =? 10)%N then String bslash "n"
  else if (n =? 12)%N then String bslash "f"
  else if (n =? 13)%N then String bslash "r"
  else if (n <? 32)%N then
    String bslash (String "u" (String "0" (String "0"
      (String (hex_digit (n / 16)) (String (hex_digit (n mod 16)) "")))))
  else String c "".

Fixpoint esc_string (s : string) : string :=
  match s with
  | EmptyString => ""
  | String c s' => esc_char c +:+ esc_string s'
  end.

(** [JSON.stringify(s)] of a string. *)
Definition json_quote (s : string) : string :=
  String dquote (esc_string s +:+ String dquote "").

(** [JSON.stringify(v)] of a value that is not an object, spliced into a
    template. *)
Definition json_prim (v : jsval) : string :=
  match v with
  | VUndef => "undefined"
  | VNull => "null"
  | VBool true => "true"
  | VBool false => "false"
  | VNum (Some z) => string_of_Z z
  | VNum None => "null"
  | VStr s => json_quote s
  | VDate _ | VArr _ | VObj _ => "{}"
  end.

Definition key_compare {A} (p q : string * A) : comparison := String.compare p.1 q.1.

(** [Object.keys(o).sort()] with their values. *)
Definition sort_entries {A} (o : list (string * A)) : list (string * A) := js_sort key_compare o.

Definition print_entry (p : string * string) : string := json_quote p.1 +:+ ":" +:+ p.2.

(** An element of [array.map(canonicalize).join(",")]: [undefined] joins as
    the empty text. *)
Definition join_elem (x : jsval) (s : string) : string :=
  match x with VUndef => "" | _ => s end.

Fixpoint canonicalize (v : jsval) : string :=
  match v with
  | VArr l => "[" +:+ js_join "," (List.map (fun x => join_elem x (canonicalize x)) l) +:+ "]"
  | VObj o =>
      "{" +:+ js_join "," (List.map print_entry
        (sort_entries (List.map (fun p => (p.1, canonicalize p.2)) o))) +:+ "}"
  | _ => json_prim v
  end.

(** ** Values that JSON can carry *)

Fixpoint json_ok (v : jsval) : bool :=
  match v with
  | VNull | VBool _ | VNum (Some _) | VStr _ => true
  | VArr l => forallb json_ok l
  | VObj o => forallb (fun p => json_ok p.2) o
  | VUndef | VNum None | VDate _ => false
  end.

(** The value with the keys of every object in code unit order. *)
Fixpoint sort_keys (v : jsval) : jsval :=
  match v with
  | VArr l => VArr (List.map sort_keys l)
  | VObj o => VObj (sort_entries (List.map (fun p => (p.1, sort_keys p.2)) o))
  | _ => v
  end.

(** Plain printing, keys in the order they come. *)
Fixpoint json_print (v : jsval) : string :=
  match v with
  | VArr l => "[" +:+ js_join "," (List.map json_print l) +:+ "]"
  | VObj o =>
      "{" +:+ js_join "," (List.map (fun p => print_entry (p.1, json_print p.2)) o) +:+ "}"
  | _ => json_prim v
  end.

(** [JSON.parse(JSON.stringify(v))], for a value that has a text. *)
Fixpoint json_copy (v : jsval) : jsval :=
  match v with
  | VNum None => VNull
  | VDate (Some t) => VStr (toISOString t)
  | VDate None => VNull
  | VArr l => VArr (List.map (fun x => match x with VUndef => VNull | _ => json_copy x end) l)
  | VObj o => VObj (List.flat_map (fun p => match p.2 with VUndef => [] | _ => [(p.1, json_copy p.2)] end) o)
  | v => v
  end.

(** ** Printing after sorting *)

#[export] Instance key_compare_order {A} : CmpOrder (@key_compare A).
Proof. apply (cmp_by_key fst String.compare). Qed.

Lemma insert_by_map {A B} (f : A -> B) (la : A -> A -> bool) (lb : B -> B -> bool) x l :
  (forall a b, lb (f a) (f b) = la a b) ->
  insert_by lb (f x) (List.map f l) = List.map f (insert_by la x l).
Proof.
  intros H. induction l as [|y l IH]; simpl; [done|].
  rewrite H. destruct (la x y); simpl; [done | by rewrite IH].
Qed.

Lemma sort_by_map {A B} (f : A -> B) (la : A -> A -> bool) (lb : B -> B -> bool) l :
  (forall a b, lb (f a) (f b) = la a b) ->
  sort_by lb (List.map f l) = List.map f (sort_by la l).
Proof.
  intros H. induction l as [|y l IH]; simpl; [done|].
  rewrite IH. by apply insert_by_map.
Qed.

Lemma sort_entries_map {A B} (f : A -> B) (o : list (string * A)) :
  sort_entries (List.map (fun p => (p.1, f p.2)) o)
  = List.map (fun p => (p.1, f p.2)) (sort_entries o).
Proof. by apply sort_by_map. Qed.

Lemma elem_of_sort_entries {A} (o : list (string * A)) p : p ∈ sort_entries o <-> p ∈ o.
Proof. apply elem_of_js_sort. Qed.

Lemma json_ok_sort_keys v : json_ok v = true -> json_ok (sort_keys v) = true.
Proof.
  induction v as [| | | | | |l IH|o IH] using jsval_deep_ind; simpl; try done.
  - rewrite !forallb_elem_of. intros H x Hx.
    apply list_elem_of_In, in_map_iff in Hx as (y & <- & Hy). apply list_elem_of_In in Hy.
    rewrite Forall_forall in IH. auto.
  - rewrite !forallb_elem_of. intros H x Hx. rewrite elem_of_sort_entries in Hx.
    apply list_elem_of_In, in_map_iff in Hx as (y & <- & Hy). apply list_elem_of_In in Hy.
    rewrite Forall_forall in IH. simpl. auto.
Qed.

Lemma canonicalize_print v : json_ok v = true -> canonicalize v = json_print (sort_keys v).
Proof.
  induction v as [| | | | | |l IH|o IH] using jsval_deep_ind; simpl; try done; intros Hok.
  - rewrite forallb_elem_of in Hok. do 3 f_equal. rewrite List.map_map.
    apply List.map_ext_in. intros x Hx. apply list_elem_of_In in Hx.
    rewrite Forall_forall in IH. rewrite <- (IH x Hx) by auto.
    specialize (Hok x Hx). by destruct x.
  - rewrite forallb_elem_of in Hok. do 3 f_equal. rewrite !sort_entries_map, !List.map_map.
    apply List.map_ext_in. intros p Hp. apply list_elem_of_In in Hp.
    rewrite elem_of_sort_entries in Hp. rewrite Forall_forall in IH. simpl. do 2 f_equal.
    by apply IH, Hok.
Qed.

(** ** The printed text determines the value *)

Definition unesc (s : string) : option (ascii * string) :=
  match s with
  | EmptyString => None
  | String c r =>
      if Ascii.eqb c dquote then None
      else if Ascii.eqb c bslash then
        match r with
        | EmptyString => None
        | String "b" r => Some (chr 8, r)
        | String "t" r => Some (chr 9, r)
        | String "n" r => Some (chr 10, r)
        | String "f" r => Some (chr 12, r)
        | String "r" r => Some (chr 13, r)
        | String "u" (String _ (String _ (String a (String b r)))) =>
            let d x := (if (N_of_ascii x <? 58) then N_of_ascii x - 48 else N_of_ascii x - 87)%N in
            Some (chr (16 * d a + d b), r)
        | String e r => Some (e, r)
        end
      else Some (c, r)
  end.

Lemma unesc_esc c r : unesc (esc_char c +:+ r) = Some (c, r).
Proof. destruct c as [[] [] [] [] [] [] [] []]; vm_compute; reflexivity. Qed.

Lemma cons_append c s t : String c s +:+ t = String c (s +:+ t).
Proof. done. Qed.

Lemma append_assoc (s t u : string) : (s +:+ t) +:+ u = s +:+ (t +:+ u).
Proof. induction s as [|c s IH]; [done|]. rewrite !cons_append. by rewrite IH. Qed.

Lemma append_nil_l (s : string) : "" +:+ s = s.
Proof. done. Qed.

Lemma append_nil_r (s : string) : s +:+ "" = s.
Proof. induction s as [|c s IH]; [done|]. rewrite cons_append. by rewrite IH. Qed.

Lemma esc_string_split s1 s2 r1 r2 :
  esc_string s1 +:+ String dquote r1 = esc_string s2 +:+ String dquote r2 ->
  s1 = s2 /\ r1 = r2.
Proof.
  revert s2; induction s1 as [|c1 s1 IH]; intros [|c2 s2]; simpl; rewrite ?append_assoc;
    intros H.
  - by injection H as ->.
  - apply (f_equal unesc) in H. rewrite unesc_esc in H. done.
  - apply (f_equal unesc) in H. rewrite unesc_esc in H. done.
  - apply (f_equal unesc) in H. rewrite !unesc_esc in H. injection H as -> H.
    by apply IH in H as [-> ->].
Qed.

Lemma json_quote_split s1 s2 r1 r2 :
  json_quote s1 +:+ r1 = json_quote s2 +:+ r2 -> s1 = s2 /\ r1 = r2.
Proof.
  unfold json_quote. rewrite !cons_append, !append_assoc. intros [= H].
  by apply esc_string_split in H.
Qed.

(** What may follow a value in the text. *)
Definition follow (r : string) : bool :=
  match r with
  | EmptyString => true
  | String c _ => char_in ",]}" c
  end.

Definition num_char (c : ascii) : bool := is_digit c || Ascii.eqb c "-".

Lemma num_char_follow c r : follow (String c r) = true -> num_char c = false.
Proof. simpl. by destruct c as [[] [] [] [] [] [] [] []]; vm_compute. Qed.

Lemma span_split (p : ascii -> bool) s t r1 r2 :
  str_forallb p s = true -> str_forallb p t = true ->
  (forall c r, r1 = String c r -> p c = false) -> (forall c r, r2 = String c r -> p c = false) ->
  s +:+ r1 = t +:+ r2 -> s = t /\ r1 = r2.
Proof.
  revert t; induction s as [|c s IH]; intros [|d t] Hs Ht H1 H2; simpl in *; split_bool.
  - done.
  - rewrite append_nil_l, cons_append. intros ->. specialize (H1 _ _ eq_refl). congruence.
  - rewrite append_nil_l, cons_append. intros <-. specialize (H2 _ _ eq_refl). congruence.
  - rewrite !cons_append. intros Heq. injection Heq as -> Heq. by destruct (IH t ltac:(done) ltac:(done) H1 H2 Heq) as [-> ->].
Qed.

Lemma string_of_uint_digits d : str_forallb num_char (DecimalString.NilEmpty.string_of_uint d) = true.
Proof. by induction d. Qed.

Lemma string_of_Z_chars z : str_forallb num_char (string_of_Z z) = true.
Proof.
  unfold string_of_Z. destruct (Z.to_int z); simpl; apply string_of_uint_digits.
Qed.

Lemma string_of_Z_head z : exists c r, string_of_Z z = String c r /\ num_char c = true.
Proof.
  pose proof (string_of_Z_chars z) as H.
  destruct (string_of_Z z) as [|c r] eqn:Hz.
  - exfalso. unfold string_of_Z in Hz.
    destruct (Z.to_int z) as [u|u] eqn:Hu; [|done]. destruct u; try done.
    destruct z as [|p|p]; try done. simpl in Hu. injection Hu as Hu.
    by pose proof (DecimalPos.Unsigned.to_uint_nonnil p).
  - exists c, r. simpl in H. split_bool. done.
Qed.

Lemma string_of_Z_split a b r1 r2 :
  follow r1 = true -> follow r2 = true ->
  string_of_Z a +:+ r1 = string_of_Z b +:+ r2 -> a = b /\ r1 = r2.
Proof.
  intros H1 H2 H.
  apply (span_split num_char) in H as [H ->]; auto using string_of_Z_chars.
  - split; [by apply string_of_Z_inj | done].
  - intros c r ->. by eapply num_char_follow.
  - intros c r ->. by eapply num_char_follow.
Qed.

(** The first character of a value tells its constructor. *)
Definition head_class (v : jsval) (c : ascii) : bool :=
  match v with
  | VNull => Ascii.eqb c "n"
  | VBool true => Ascii.eqb c "t"
  | VBool false => Ascii.eqb c "f"
  | VNum _ => num_char c
  | VStr _ => Ascii.eqb c dquote
  | VArr _ => Ascii.eqb c "["
  | VObj _ => Ascii.eqb c "{"
  | _ => false
  end.

Lemma json_print_head v : json_ok v = true ->
  exists c r, json_print v = String c r /\ head_class v c = true.
Proof.
  destruct v as [| |[]|[z|]| | | |]; simpl; try done; intros _; try (by do 2 eexists).
  apply string_of_Z_head.
Qed.

Lemma head_class_not_close v c : head_class v c = true -> char_in ",]}" c = false.
Proof.
  destruct v as [| |[]| | | | |]; simpl; try done; try (by intros ->%Ascii.eqb_eq).
  by destruct c as [[] [] [] [] [] [] [] []]; vm_compute.
Qed.

(** The constructor a first character announces. *)
Definition head_kind (v : jsval) : nat :=
  match v with
  | VNull => 1 | VBool true => 2 | VBool false => 3 | VNum _ => 4
  | VStr _ => 5 | VArr _ => 6 | VObj _ => 7 | _ => 0
  end.

Definition char_kind (c : ascii) : nat :=
  if Ascii.eqb c "n" then 1 else if Ascii.eqb c "t" then 2 else if Ascii.eqb c "f" then 3
  else if num_char c then 4 else if Ascii.eqb c dquote then 5
  else if Ascii.eqb c "[" then 6 else if Ascii.eqb c "{" then 7 else 0.

Lemma num_char_kind c : num_char c = true -> char_kind c = 4.
Proof. by destruct c as [[] [] [] [] [] [] [] []]; vm_compute. Qed.

Lemma head_class_kind v c : head_class v c = true -> char_kind c = head_kind v.
Proof.
  destruct v as [| |[]| | | | |]; simpl; try done; try apply num_char_kind;
    by intros ->%Ascii.eqb_eq.
Qed.

Lemma js_join_cons {A} (pr : A -> string) x y l :
  js_join "," (List.map pr (x :: y :: l)) = pr x +:+ "," +:+ js_join "," (List.map pr (y :: l)).
Proof. done. Qed.

Section JoinSplit.
Context {A : Type} (pr : A -> string) (close : ascii).
Hypothesis close_ok : char_in ",]}" close = true.
Hypothesis close_sep : Ascii.eqb close "," = false.

(** A list printed with separators and a closing bracket determines its
    elements, when each element does. *)
Lemma join_split l1 l2 r1 r2 :
  (forall x, x ∈ l1 ++ l2 -> exists c r, pr x = String c r /\ char_in ",]}" c = false) ->
  (forall x y s1 s2, x ∈ l1 -> y ∈ l2 -> follow s1 = true -> follow s2 = true ->
     pr x +:+ s1 = pr y +:+ s2 -> x = y /\ s1 = s2) ->
  js_join "," (List.map pr l1) +:+ String close r1 = js_join "," (List.map pr l2) +:+ String close r2 ->
  l1 = l2 /\ r1 = r2.
Proof using close_ok close_sep.
  revert l2; induction l1 as [|x l1 IH]; intros l2 Hhd Hel.
  - destruct l2 as [|y l2]; [simpl; by intros [= ->]|].
    destruct (Hhd y) as (c & r & Hy & Hc); [set_solver|].
    destruct l2; [|rewrite js_join_cons]; simpl; rewrite Hy, ?append_assoc, cons_append;
      intros [= <- _]; congruence.
  - destruct l2 as [|y l2].
    { destruct (Hhd x) as (c & r & Hx & Hc); [set_solver|].
      destruct l1; [|rewrite js_join_cons]; simpl; rewrite Hx, ?append_assoc, cons_append;
        intros [= <- _]; congruence. }
    assert (forall s1 s2, follow s1 = true -> follow s2 = true ->
      pr x +:+ s1 = pr y +:+ s2 -> x = y /\ s1 = s2) as Hxy.
    { intros ????. apply Hel; set_solver. }
    assert (Ascii.eqb close "," = true -> False) as Hne by (rewrite close_sep; done).
    destruct l1 as [|x' l1], l2 as [|y' l2]; rewrite ?js_join_cons; simpl List.map;
      cbn [js_join]; rewrite ?append_assoc; intros H.
    + apply Hxy in H as [-> [= ->]]; done.
    + apply Hxy in H as [_ H]; [|done|done]. injection H as -> _. by destruct Hne.
    + apply Hxy in H as [_ H]; [|done|done]. injection H as <- _. by destruct Hne.
    + apply Hxy in H as [-> H]; [|done|done]. injection H as H.
      apply (IH (y' :: l2)) in H as [-> ->]; [done| |].
      * intros z Hz. apply Hhd. rewrite elem_of_app in *.
        destruct Hz; [left | right]; by apply list_elem_of_further.
      * intros ???? Ha Hb. apply Hel; set_solver.
Qed.
End JoinSplit.

Definition entry_text (p : string * jsval) : string := print_entry (p.1, json_print p.2).

Lemma json_print_split v1 v2 r1 r2 :
  json_ok v1 = true -> json_ok v2 = true -> follow r1 = true -> follow r2 = true ->
  json_print v1 +:+ r1 = json_print v2 +:+ r2 -> v1 = v2 /\ r1 = r2.
Proof.
  revert v2 r1 r2.
  induction v1 as [| |b|n|s|t|l IH|o IH] using jsval_deep_ind; intros v2 r1 r2 Hok1 Hok2 Hr1 Hr2 H;
    destruct (json_print_head _ Hok1) as (c1 & q1 & Hp1 & Hc1);
    destruct (json_print_head _ Hok2) as (c2 & q2 & Hp2 & Hc2);
    assert (c1 = c2) as Hc by (rewrite Hp1, Hp2, !cons_append in H; by injection H);
    subst c2; clear Hp1 Hp2 q1 q2;
    apply head_class_kind in Hc1, Hc2; rewrite Hc1 in Hc2; clear Hc1 c1;
    destruct v2 as [| |b2|n2|s2|t2|l2|o2]; simpl in Hok1, Hok2, Hc2; try done;
    try (by destruct b); try (by destruct b2).
  - simpl in H. rewrite !cons_append, !append_nil_l in H. by injection H as ->.
  - destruct b, b2; simpl in H; rewrite !cons_append, !append_nil_l in H; try done;
      by injection H as ->.
  - destruct n, n2; try done. simpl in H. apply string_of_Z_split in H as [-> ->]; done.
  - simpl in H. by apply json_quote_split in H as [-> ->].
  - cbn [json_print] in H. rewrite !append_assoc in H. injection H as H.
    apply (join_split json_print) in H as [-> ->]; [done|done|done| |].
    + intros x Hx. rewrite forallb_elem_of in Hok1, Hok2.
      destruct (json_print_head x) as (c & q & ? & ?%head_class_not_close);
        [apply elem_of_app in Hx as [?|?]; auto | eauto].
    + intros x y ?? Hx Hy. rewrite Forall_forall in IH. rewrite forallb_elem_of in Hok1, Hok2.
      apply IH; auto.
  - cbn [json_print] in H. rewrite !append_assoc in H. injection H as H.
    apply (join_split entry_text) in H as [-> ->]; [done|done|done| |].
    + intros x Hx. unfold entry_text, print_entry, json_quote. simpl. eauto.
    + intros x y s1 s2 Hx Hy Hs1 Hs2. rewrite Forall_forall in IH.
      rewrite forallb_elem_of in Hok1, Hok2. unfold entry_text, print_entry. simpl.
      rewrite !append_assoc. intros [Hk Hv]%json_quote_split. injection Hv as Hv.
      apply IH in Hv as [Hv ->]; auto. split; [|done].
      destruct x, y; simpl in *; congruence.
Qed.

(** The canonical text determines the value up to the order of its keys. *)
Lemma canonicalize_inj v1 v2 :
  json_ok v1 = true -> json_ok v2 = true ->
  canonicalize v1 = canonicalize v2 <-> sort_keys v1 = sort_keys v2.
Proof.
  intros H1 H2. rewrite !canonicalize_print by done. split; [|by intros ->].
  intros H. apply (f_equal (fun s => s +:+ "")) in H.
  apply json_print_split in H as [-> _]; auto using json_ok_sort_keys.
Qed.

(** Two objects with the same keys in the same order, equal up to the order
    of keys, are equal. *)
Lemma Permutation_same_keys {A} (o1 o2 : list (string * A)) :
  List.map fst o1 = List.map fst o2 -> NoDup (List.map fst o1) -> o1 ≡ₚ o2 -> o1 = o2.
Proof.
  revert o2. induction o1 as [|[k v] o1 IH]; intros [|[k' v'] o2]; simpl; try done.
  intros [= <- Hk] Hnd Hp. apply NoDup_cons in Hnd as [Hni Hnd].
  assert ((k, v) ∈ (k, v') :: o2) as Hin by (rewrite <- Hp; apply list_elem_of_here).
  apply elem_of_cons in Hin as [[= ->]|Hin].
  - f_equal. apply IH; [done | done |]. by apply Permutation_cons_inv in Hp.
  - exfalso. apply Hni. rewrite Hk. apply list_elem_of_In, in_map_iff.
    exists (k, v). by rewrite <- list_elem_of_In.
Qed.

Lemma sort_entries_same_keys {A} (o1 o2 : list (string * A)) :
  List.map fst o1 = List.map fst o2 -> NoDup (List.map fst o1) ->
  sort_entries o1 = sort_entries o2 -> o1 = o2.
Proof.
  intros Hk Hnd Hs. apply Permutation_same_keys; [done | done|].
  rewrite <- (js_sort_Permutation key_compare o1), <- (js_sort_Permutation key_compare o2).
  unfold sort_entries in Hs. by rewrite Hs.
Qed.

(** ** Text separated by colons *)

Definition no_colon (s : string) : bool := str_forallb (fun c => negb (Ascii.eqb c ":"%char)) s.

Lemma colon_split s1 s2 t1 t2 :
  str_forallb (fun c => negb (Ascii.eqb c ":"%char)) s1 = true ->
  str_forallb (fun c => negb (Ascii.eqb c ":"%char)) s2 = true ->
  s1 +:+ String ":"%char t1 = s2 +:+ String ":"%char t2 -> s1 = s2 /\ t1 = t2.
Proof.
  revert s2. induction s1 as [|a s1 IH]; intros [|b s2]; rewrite ?append_nil_l, ?cons_append; simpl.
  - by intros _ _ [= ->].
  - by intros _ Hb [= <- _].
  - by intros Ha _ [= -> _].
  - intros Ha Hb [= -> Heq]. split_bool. destruct (IH s2) as [-> ->]; done.
Qed.

Lemma no_colon_head s t : no_colon (s +:+ String ":"%char t) = false.
Proof.
  unfold no_colon. induction s as [|c s IH]; [done|]. rewrite cons_append. simpl.
  by rewrite IH, andb_false_r.
Qed.

Lemma js_join_colon x y l : js_join ":" (x :: y :: l) = x +:+ String ":"%char (js_join ":" (y :: l)).
Proof. done. Qed.

(** A join of parts without colons determines the parts. *)
Lemma join_colon_inj l1 l2 : forallb no_colon l1 = true -> forallb no_colon l2 = true ->
  l1 <> [] -> l2 <> [] -> js_join ":" l1 = js_join ":" l2 -> l1 = l2.
Proof.
  revert l2. induction l1 as [|x l1 IH]; [done|]. intros [|y l2]; [done|]. intros H1 H2 _ _.
  cbn [forallb] in H1, H2. split_bool. destruct l1 as [|x' l1], l2 as [|y' l2]; [by intros [= ->]| | |].
  - rewrite js_join_colon. intros [= ->]. by rewrite no_colon_head in *.
  - rewrite js_join_colon. intros [= <-]. by rewrite no_colon_head in *.
  - rewrite !js_join_colon. intros [-> Heq]%colon_split; [|done|done]. f_equal. by apply IH.
Qed.
