(* ===== verification/Redaction.v ===== *)
(** * Redaction

    contextKernel/domain/contextIntegrity.js and
    contextKernel/application/applicationSupport.js redact a value in the same
    way, each with its own notion of a sensitive key: properties with a
    sensitive key and properties that are [undefined] are dropped at every
    depth, and the others are listed by key.  This file is about that
    redaction for an arbitrary predicate on keys. *)
From S2P Require Import Prelude Sorting JsString JsDate JsValue JsJson.

Definition is_undef (v : jsval) : bool := match v with VUndef => true | _ => false end.

Section Redact.
Variable sensitive : string -> bool.

(** A [Date] has no own enumerable property: it becomes an empty object. *)
Fixpoint redact (value : jsval) : jsval :=
  match value with
  | VArr l => VArr (List.map redact l)
  | VDate _ => VObj []
  | VObj o =>
      VObj (sort_entries (List.flat_map (fun p =>
        if sensitive p.1 || is_undef p.2 then [] else [(p.1, redact p.2)]) o))
  | _ => value
  end.

Fixpoint mentions (v : jsval) : bool :=
  match v with
  | VArr l => existsb mentions l
  | VObj o => existsb (fun p => sensitive p.1 || mentions p.2) o
  | _ => false
  end.

(** Contexts that JSON can carry after redaction: no NaN, and no [undefined]
    inside an array. *)
Fixpoint redactable (v : jsval) : bool :=
  match v with
  | VArr l => forallb (fun x => negb (is_undef x) && redactable x) l
  | VObj o => forallb (fun p => sensitive p.1 || redactable p.2) o
  | VNum None => false
  | _ => true
  end.

Definition kept_entries (o : jsobj) : jsobj :=
  List.flat_map (fun p =>
    if sensitive p.1 || is_undef p.2 then [] else [(p.1, redact p.2)]) o.

Lemma redact_obj o : redact (VObj o) = VObj (sort_entries (kept_entries o)).
Proof. done. Qed.

Lemma elem_of_kept_entries o p : p ∈ kept_entries o <->
  exists v, (p.1, v) ∈ o /\ sensitive p.1 = false /\ is_undef v = false /\ p.2 = redact v.
Proof.
  unfold kept_entries. rewrite list_elem_of_In, in_flat_map. split.
  - intros ([k v] & Hin & Hp). simpl in Hp.
    destruct (sensitive k || is_undef v) eqn:E; [done|]. split_bool.
    destruct Hp as [<-|[]]. simpl. exists v. by rewrite list_elem_of_In.
  - intros (v & Hin & Hs & Hu & Hp). exists (p.1, v). split; [by apply list_elem_of_In|].
    simpl. rewrite Hs, Hu. simpl. left. destruct p; simpl in *; congruence.
Qed.

Lemma is_undef_redact v : is_undef (redact v) = is_undef v.
Proof. by destruct v. Qed.

Lemma deep_elem (P : jsval -> Prop) (o : jsobj) k v :
  Forall (fun p => P p.2) o -> (k, v) ∈ o -> P v.
Proof. rewrite Forall_forall. intros HP Hin. exact (HP _ Hin). Qed.

Lemma redact_mentions v : mentions (redact v) = false.
Proof.
  induction v as [| | | | | |l IH|o IH] using jsval_deep_ind; try done.
  - simpl. apply existsb_false. intros x Hx.
    apply list_elem_of_In, in_map_iff in Hx as (y & <- & Hy). apply list_elem_of_In in Hy.
    rewrite Forall_forall in IH. by apply IH.
  - rewrite redact_obj. cbn [mentions]. apply existsb_false. intros p Hp.
    rewrite elem_of_sort_entries in Hp.
    apply elem_of_kept_entries in Hp as (v & Hin & Hs & _ & Hv). rewrite Hs, Hv. simpl.
    by eapply (deep_elem (fun v => mentions (redact v) = false)).
Qed.

Lemma kept_entries_id o :
  (forall p, p ∈ o -> sensitive p.1 = false /\ is_undef p.2 = false /\ redact p.2 = p.2) ->
  kept_entries o = o.
Proof.
  induction o as [|[k v] o IH]; intros Ho; [done|]. simpl.
  destruct (Ho (k, v) (list_elem_of_here _ _)) as (Hs & Hu & Hv). simpl in *.
  rewrite Hs, Hu. simpl. rewrite Hv. f_equal. apply IH. intros p Hp.
  apply Ho. by apply list_elem_of_further.
Qed.

Lemma redact_idemp v : redact (redact v) = redact v.
Proof.
  induction v as [| | | | | |l IH|o IH] using jsval_deep_ind; try done.
  - simpl. f_equal. rewrite List.map_map. apply List.map_ext_in. intros x Hx.
    apply list_elem_of_In in Hx. rewrite Forall_forall in IH. by apply IH.
  - rewrite !redact_obj. f_equal. rewrite kept_entries_id.
    + apply js_sort_idemp, _.
    + intros p Hp. rewrite elem_of_sort_entries in Hp.
      apply elem_of_kept_entries in Hp as (v & Hin & Hs & Hu & Hv).
      rewrite Hv, is_undef_redact. repeat split; try done.
      by eapply (deep_elem (fun v => redact (redact v) = redact v)).
Qed.

Lemma redact_json_ok v : redactable v = true -> is_undef v = false -> json_ok (redact v) = true.
Proof.
  induction v as [| | |[]| | |l IH|o IH] using jsval_deep_ind; try done; intros Hv _.
  - simpl in *. rewrite forallb_elem_of in *. intros x Hx.
    apply list_elem_of_In, in_map_iff in Hx as (y & <- & Hy). apply list_elem_of_In in Hy.
    specialize (Hv y Hy). split_bool. rewrite Forall_forall in IH. by apply IH.
  - rewrite redact_obj. simpl in *. rewrite forallb_elem_of in *. intros p Hp.
    rewrite elem_of_sort_entries in Hp.
    apply elem_of_kept_entries in Hp as (v & Hin & Hs & Hu & ->).
    specialize (Hv (p.1, v) Hin). simpl in Hv. rewrite Hs in Hv. simpl in Hv.
    by eapply (deep_elem (fun v => redactable v = true -> is_undef v = false -> json_ok (redact v) = true)).
Qed.

Lemma sort_keys_redact v : sort_keys (redact v) = redact v.
Proof.
  induction v as [| | | | | |l IH|o IH] using jsval_deep_ind; try done.
  - simpl. f_equal. rewrite List.map_map. apply List.map_ext_in. intros x Hx.
    apply list_elem_of_In in Hx. rewrite Forall_forall in IH. by apply IH.
  - rewrite redact_obj. cbn [sort_keys]. f_equal.
    assert (List.map (fun p => (p.1, sort_keys p.2)) (sort_entries (kept_entries o))
            = sort_entries (kept_entries o)) as ->; [|apply js_sort_idemp, _].
    rewrite <- (List.map_id (sort_entries (kept_entries o))) at 2.
    apply List.map_ext_in. intros p Hp. apply list_elem_of_In in Hp.
    rewrite elem_of_sort_entries in Hp.
    apply elem_of_kept_entries in Hp as (v & Hin & _ & _ & Hv).
    destruct p as [k w]. simpl in *. subst w. f_equal.
    by eapply (deep_elem (fun v => sort_keys (redact v) = redact v)).
Qed.
End Redact.

(** A redaction after a weaker one is the stronger redaction alone. *)
Section Absorb.
Context (p q : string -> bool) (Hqp : forall k, q k = true -> p k = true).

Lemma kept_entries_filter (r : string -> bool) o : kept_entries r o =
  List.map (fun e => (e.1, redact r e.2))
    (bfilter (fun e => negb (r e.1 || is_undef e.2)) o).
Proof.
  unfold kept_entries. induction o as [|[k v] o IH]; simpl; [done|].
  destruct (r k || is_undef v); simpl; by rewrite IH.
Qed.

Lemma bfilter_map_entries {A B} (f : A -> B) (keep : string * B -> bool) (l : list (string * A)) :
  bfilter keep (List.map (fun e => (e.1, f e.2)) l) =
  List.map (fun e => (e.1, f e.2)) (bfilter (fun e => keep (e.1, f e.2)) l).
Proof. induction l as [|[k v] l IH]; simpl; [done|]. destruct (keep (k, f v)); simpl; by rewrite IH. Qed.

Lemma redact_absorb v : redact p (redact q v) = redact p v.
Proof.
  induction v as [| | | | | |l IH|o IH] using jsval_deep_ind; try done.
  - simpl. f_equal. rewrite List.map_map. apply List.map_ext_in. intros x Hx.
    apply list_elem_of_In in Hx. rewrite Forall_forall in IH. by apply IH.
  - rewrite !redact_obj, !kept_entries_filter. f_equal.
    unfold sort_entries at 2. rewrite bfilter_js_sort by apply _. fold (@sort_entries jsval).
    rewrite bfilter_map_entries, bfilter_bfilter, !sort_entries_map.
    unfold sort_entries at 1. rewrite js_sort_idemp by apply _. fold (@sort_entries jsval).
    match goal with |- context [js_sort key_compare ?l] => change (js_sort key_compare l) with (sort_entries l) end.
    rewrite sort_entries_map, List.map_map.
    rewrite (bfilter_ext _ (fun e => negb (p e.1 || is_undef e.2))).
    + apply List.map_ext_in. intros [k v] Hv. simpl. f_equal.
      apply list_elem_of_In in Hv. rewrite elem_of_sort_entries, elem_of_bfilter in Hv.
      destruct Hv as [_ Hv].
      by apply (deep_elem (fun v => redact p (redact q v) = redact p v) o k).
    + intros [k v] _. simpl. rewrite is_undef_redact. specialize (Hqp k).
      destruct (q k), (p k), (is_undef v); naive_solver.
Qed.
End Absorb.

(** ** Reading a property of a redacted object *)

Section ReadBack.
Variable sensitive : string -> bool.

Lemma oget_elem (o : jsobj) k v : NoDup o.*1 -> (k, v) ∈ o -> oget o k = v.
Proof.
  induction o as [|[k' w] o IH]; simpl; intros Hnd Hin; [by apply elem_of_nil in Hin|].
  apply NoDup_cons in Hnd as [Hk' Hnd]. apply elem_of_cons in Hin as [[= <- <-]|Hin].
  - by rewrite String.eqb_refl.
  - destruct (String.eqb_spec k k') as [->|_]; [|by apply IH].
    destruct Hk'. by apply (list_elem_of_fmap_2 fst _ (k', v)).
Qed.

Lemma oget_absent (o : jsobj) k : k ∉ o.*1 -> oget o k = VUndef.
Proof.
  induction o as [|[k' w] o IH]; simpl; [done|]. rewrite not_elem_of_cons. intros [Hk Ho].
  destruct (String.eqb_spec k k') as [->|_]; [done|by apply IH].
Qed.

Lemma oget_present (o : jsobj) k : k ∈ o.*1 -> (k, oget o k) ∈ o.
Proof.
  induction o as [|[k' w] o IH]; simpl; intros Hin; [by apply elem_of_nil in Hin|].
  destruct (String.eqb_spec k k') as [->|Hne]; [apply list_elem_of_here|].
  apply elem_of_cons in Hin as [->|Hin]; [done|]. by apply list_elem_of_further, IH.
Qed.

Lemma NoDup_kept_entries o : NoDup o.*1 -> NoDup (kept_entries sensitive o).*1.
Proof.
  induction o as [|[k v] o IH]; [done|]. cbn [fmap list_fmap fst]. intros [Hk Hnd]%NoDup_cons.
  unfold kept_entries. simpl. destruct (sensitive k || is_undef v); simpl; [by apply IH|].
  apply NoDup_cons. split; [|by apply IH]. intros ((k', w) & -> & Hp)%list_elem_of_fmap.
  apply elem_of_kept_entries in Hp as (v' & Hin & _). destruct Hk.
  by apply (list_elem_of_fmap_2 fst _ (k', v')).
Qed.

(** What a property of the redacted object holds. *)
Lemma vget_redact o k : NoDup o.*1 ->
  vget (redact sensitive (VObj o)) k = if sensitive k then VUndef else redact sensitive (oget o k).
Proof.
  intros Hnd. rewrite redact_obj. cbn [vget].
  assert (NoDup (sort_entries (kept_entries sensitive o)).*1) as Hnd'.
  { assert (sort_entries (kept_entries sensitive o) ≡ₚ kept_entries sensitive o) as ->
      by apply js_sort_Permutation. by apply NoDup_kept_entries. }
  assert ((exists v, (k, v) ∈ o /\ sensitive k = false /\ is_undef v = false) \/
          (sensitive k = false -> oget o k = VUndef)) as [(v & Hin & Hs & Hu)|Habs].
  { destruct (decide (k ∈ o.*1)) as [Hk|Hk]; [|right; by rewrite oget_absent].
    apply oget_present in Hk. destruct (sensitive k) eqn:Hs; [by right|].
    destruct (is_undef (oget o k)) eqn:Hu; [right; by destruct (oget o k)|]. left; eauto. }
  - rewrite Hs, (oget_elem o k v Hnd Hin). apply oget_elem; [done|].
    apply elem_of_sort_entries, elem_of_kept_entries. by exists v.
  - rewrite oget_absent.
    + destruct (sensitive k); [done|]. by rewrite Habs.
    + intros ((k', w) & -> & Hp)%list_elem_of_fmap.
      apply elem_of_sort_entries, elem_of_kept_entries in Hp as (v & Hin & Hs & Hu & _).
      simpl in *. rewrite (oget_elem o k' v Hnd Hin) in Habs. by rewrite Habs in Hu.
Qed.
End ReadBack.

(** Redaction keeps what a test of a scalar sees. *)
Lemma truthy_redact p v : truthy (redact p v) = truthy v.
Proof. by destruct v. Qed.

Lemma is_true_redact p v : is_true (redact p v) = is_true v.
Proof. by destruct v. Qed.

Lemma is_str_redact p v s : is_str (redact p v) s = is_str v s.
Proof. by destruct v. Qed.
