(* ===== verification/ContextModel.v ===== *)
(** * The context kernel's data model (contextKernel/domain/model.js)

    Validating constructors: each takes an untyped argument object and returns
    a record of trimmed, non-empty references, or throws a [TypeError].  The
    theorem of the file says a constructor's result is a fixed point of the
    constructor, so that records can be re-validated at every boundary. *)
From S2P Require Import Prelude Sorting JsString JsDate JsValue.

(** ** Field validators *)

Definition PRINCIPAL_TYPES : list string :=
  ["tenant_user"; "admin"; "service_principal"; "delegated_agent"; "registry_defined"].
Definition RISK_CLASSES : list string := ["read"; "low"; "medium"; "high"; "critical"].
Definition OPERATION_KINDS : list string := ["read"; "mutation"].

Definition requireNonEmptyString (value : jsval) (fieldName : string) : js string :=
  match value with
  | VStr s =>
      if is_empty (js_trim s) then type_error (fieldName +:+ " must be a non-empty string.")
      else Ok (js_trim s)
  | _ => type_error (fieldName +:+ " must be a non-empty string.")
  end.

Definition optionalString (value : jsval) (fieldName : string) : js (option string) :=
  if is_blank value then Ok None
  else s ← requireNonEmptyString value fieldName; Ok (Some s).

Definition uniqueSortedStrings (values : jsval) (fieldName : string) : js (list string) :=
  match values with
  | VArr l => ss ← mapM_js (fun v => requireNonEmptyString v fieldName) l; Ok (unique_sorted ss)
  | _ => type_error (fieldName +:+ " must be an array.")
  end.

#[global] Arguments requireNonEmptyString : simpl never.
#[global] Arguments optionalString : simpl never.
#[global] Arguments uniqueSortedStrings : simpl never.

(** ** Constructors *)

Record AuthenticatedPrincipal := {
  ap_principalType : string;
  ap_principalRef : string;
  ap_authorizedTenantRefs : list string;
  ap_attributes : jsobj;
}.

Definition createAuthenticatedPrincipal (args : jsobj) : js AuthenticatedPrincipal :=
  normalizedType ← requireNonEmptyString (oget args "principalType") "principalType";
  throw_if (negb (sin normalizedType PRINCIPAL_TYPES))
    (TypeErr ("Unsupported principalType: " +:+ normalizedType));;
  principalRef ← requireNonEmptyString (oget args "principalRef") "principalRef";
  refs ← uniqueSortedStrings (oget_default args "authorizedTenantRefs" (VArr []))
           "authorizedTenantRefs";
  Ok {| ap_principalType := normalizedType;
        ap_principalRef := principalRef;
        ap_authorizedTenantRefs := refs;
        ap_attributes := spread (oget_default args "attributes" (VObj [])) |}.

Record EffectiveSubject := {
  es_subjectType : string;
  es_subjectRef : string;
  es_tenantRef : string;
  es_workspaceRef : option string;
  es_delegatedByPrincipalRef : option string;
}.

Definition createEffectiveSubject (args : jsobj) : js EffectiveSubject :=
  subjectType ← requireNonEmptyString
    (oget_default args "subjectType" (VStr "tenant_user")) "subjectType";
  subjectRef ← requireNonEmptyString (oget args "subjectRef") "subjectRef";
  tenantRef ← requireNonEmptyString (oget args "tenantRef") "tenantRef";
  workspaceRef ← optionalString (oget_default args "workspaceRef" VNull) "workspaceRef";
  delegatedBy ← optionalString (oget_default args "delegatedByPrincipalRef" VNull)
    "delegatedByPrincipalRef";
  Ok {| es_subjectType := subjectType; es_subjectRef := subjectRef; es_tenantRef := tenantRef;
        es_workspaceRef := workspaceRef; es_delegatedByPrincipalRef := delegatedBy |}.

Record ContextCandidate := {
  cc_candidateType : string;
  cc_stableRef : string;
  cc_tenantRef : string;
  cc_workspaceRef : option string;
  cc_brandRef : option string;
  cc_resourceType : option string;
  cc_resourceRef : option string;
  cc_connectionRef : option string;
  cc_displayLabel : string;
  cc_authoritySummary : string;
  cc_readinessSummary : string;
  cc_metadata : jsobj;
}.

(** [typeof v === "string" ? v : ""] *)
Definition string_or_blank (v : jsval) : string := match v with VStr s => s | _ => "" end.

Definition createContextCandidate (args : jsobj) : js ContextCandidate :=
  candidateType ← requireNonEmptyString (oget args "candidateType") "candidateType";
  stableRef ← requireNonEmptyString (oget args "stableRef") "stableRef";
  tenantRef ← requireNonEmptyString (oget args "tenantRef") "tenantRef";
  workspaceRef ← optionalString (oget_default args "workspaceRef" VNull) "workspaceRef";
  brandRef ← optionalString (oget_default args "brandRef" VNull) "brandRef";
  resourceType ← optionalString (oget_default args "resourceType" VNull) "resourceType";
  resourceRef ← optionalString (oget_default args "resourceRef" VNull) "resourceRef";
  connectionRef ← optionalString (oget_default args "connectionRef" VNull) "connectionRef";
  Ok {| cc_candidateType := candidateType; cc_stableRef := stableRef; cc_tenantRef := tenantRef;
        cc_workspaceRef := workspaceRef; cc_brandRef := brandRef;
        cc_resourceType := resourceType; cc_resourceRef := resourceRef;
        cc_connectionRef := connectionRef;
        cc_displayLabel := string_or_blank (oget_default args "displayLabel" (VStr ""));
        cc_authoritySummary := string_or_blank (oget_default args "authoritySummary" (VStr ""));
        cc_readinessSummary := string_or_blank (oget_default args "readinessSummary" (VStr ""));
        cc_metadata := spread (oget_default args "metadata" (VObj [])) |}.

Record ContextPin := {
  pin_pinRef : string;
  pin_stableRef : string;
  pin_contextRevision : string;
  pin_expiresAt : option string;
  pin_verified : bool;
}.

Definition createContextPin `{JsHost} (args : jsobj) : js ContextPin :=
  expiry ← (let v := oget_default args "expiresAt" VNull in
    if nullish v then Ok None
    else match js_Date v with
         | Some t => Ok (Some (toISOString t))
         | None => Throw (RangeErr "Invalid time value")
         end);
  pinRef ← requireNonEmptyString (oget args "pinRef") "pinRef";
  stableRef ← requireNonEmptyString (oget args "stableRef") "stableRef";
  contextRevision ← requireNonEmptyString (oget args "contextRevision") "contextRevision";
  Ok {| pin_pinRef := pinRef; pin_stableRef := stableRef;
        pin_contextRevision := contextRevision; pin_expiresAt := expiry;
        pin_verified := is_true (oget_default args "verified" (VBool false)) |}.

Record DecisionInput := {
  di_riskClass : string;
  di_operationKind : string;
  di_operationIntent : string;
}.

Definition normalizeDecisionInput (args : jsobj) : js DecisionInput :=
  normalizedRisk ← requireNonEmptyString (oget_default args "riskClass" (VStr "read")) "riskClass";
  normalizedKind ← requireNonEmptyString
    (oget_default args "operationKind" (VStr "read")) "operationKind";
  throw_if (negb (sin normalizedRisk RISK_CLASSES))
    (TypeErr ("Unsupported riskClass: " +:+ normalizedRisk));;
  throw_if (negb (sin normalizedKind OPERATION_KINDS))
    (TypeErr ("Unsupported operationKind: " +:+ normalizedKind));;
  operationIntent ← requireNonEmptyString (oget args "operationIntent") "operationIntent";
  Ok {| di_riskClass := normalizedRisk; di_operationKind := normalizedKind;
        di_operationIntent := operationIntent |}.

(** ** Records as argument objects again *)

Definition js_of_ostr (o : option string) : jsval :=
  match o with Some s => VStr s | None => VNull end.

Definition js_of_strs (l : list string) : jsval := VArr (List.map VStr l).

Definition js_of_principal (p : AuthenticatedPrincipal) : jsobj :=
  [("principalType", VStr (ap_principalType p)); ("principalRef", VStr (ap_principalRef p));
   ("authorizedTenantRefs", js_of_strs (ap_authorizedTenantRefs p));
   ("attributes", VObj (ap_attributes p))].

Definition js_of_candidate (c : ContextCandidate) : jsobj :=
  [("candidateType", VStr (cc_candidateType c)); ("stableRef", VStr (cc_stableRef c));
   ("tenantRef", VStr (cc_tenantRef c)); ("workspaceRef", js_of_ostr (cc_workspaceRef c));
   ("brandRef", js_of_ostr (cc_brandRef c)); ("resourceType", js_of_ostr (cc_resourceType c));
   ("resourceRef", js_of_ostr (cc_resourceRef c));
   ("connectionRef", js_of_ostr (cc_connectionRef c));
   ("displayLabel", VStr (cc_displayLabel c));
   ("authoritySummary", VStr (cc_authoritySummary c));
   ("readinessSummary", VStr (cc_readinessSummary c)); ("metadata", VObj (cc_metadata c))].

Definition js_of_pin (p : ContextPin) : jsobj :=
  [("pinRef", VStr (pin_pinRef p)); ("stableRef", VStr (pin_stableRef p));
   ("contextRevision", VStr (pin_contextRevision p));
   ("expiresAt", js_of_ostr (pin_expiresAt p)); ("verified", VBool (pin_verified p))].

(** ** Validator lemmas *)

(** A text that validation leaves alone. *)
Definition clean (s : string) : Prop := js_trim s = s /\ s <> "".

Lemma clean_trim s : is_empty (js_trim s) = false -> clean (js_trim s).
Proof. intros H. split; [apply js_trim_idemp | by apply is_empty_false]. Qed.

Lemma requireNonEmptyString_Ok v f s :
  requireNonEmptyString v f = Ok s <-> exists t, v = VStr t /\ s = js_trim t /\ s <> "".
Proof.
  destruct v; unfold requireNonEmptyString; try (split; [done | naive_solver]).
  destruct (is_empty (js_trim s0)) eqn:E.
  - apply is_empty_true in E. split; [done|]. intros (t & [= ->] & -> & ?). done.
  - apply is_empty_false in E. split; [intros [= <-]; eauto|].
    intros (t & [= ->] & -> & ?). done.
Qed.

Lemma requireNonEmptyString_clean v f s : requireNonEmptyString v f = Ok s -> clean s.
Proof.
  rewrite requireNonEmptyString_Ok. intros (t & _ & -> & Ht).
  split; [apply js_trim_idemp | done].
Qed.

Lemma requireNonEmptyString_id s f : clean s -> requireNonEmptyString (VStr s) f = Ok s.
Proof. intros [Ht Hs]. apply requireNonEmptyString_Ok. exists s. by rewrite Ht. Qed.

Definition oclean (o : option string) : Prop := match o with Some s => clean s | None => True end.

Lemma optionalString_clean v f o : optionalString v f = Ok o -> oclean o.
Proof.
  unfold optionalString. destruct (is_blank v); intros H; inv_outcome; [done|].
  simpl. by eapply requireNonEmptyString_clean.
Qed.

Lemma optionalString_id o f : oclean o -> optionalString (js_of_ostr o) f = Ok o.
Proof.
  destruct o as [s|]; [|done]. intros Hs. unfold optionalString. simpl.
  destruct Hs as [? Hne]. rewrite (proj2 (is_empty_false s)) by done.
  by rewrite requireNonEmptyString_id.
Qed.

Lemma uniqueSortedStrings_clean v f l : uniqueSortedStrings v f = Ok l ->
  Forall clean l /\ unique_sorted l = l.
Proof.
  destruct v as [| | | | | |vs|]; try done. unfold uniqueSortedStrings. intros H. inv_outcome.
  split; [|apply unique_sorted_idemp].
  apply Forall_forall. intros s Hs. rewrite elem_of_unique_sorted in Hs.
  apply mapM_js_Ok in H0. apply list_elem_of_lookup in Hs as [i Hi].
  eapply Forall2_lookup_r in H0 as (v & Hv & Hv'); [|exact Hi].
  by eapply requireNonEmptyString_clean.
Qed.

Lemma mapM_js_clean l f : Forall clean l ->
  mapM_js (fun v => requireNonEmptyString v f) (List.map VStr l) = Ok l.
Proof.
  induction 1 as [|s l Hs Hl IH]; simpl List.map; [done|]. cbn [mapM_js].
  rewrite requireNonEmptyString_id by done. simpl. by rewrite IH.
Qed.

Lemma uniqueSortedStrings_id l f : Forall clean l -> unique_sorted l = l ->
  uniqueSortedStrings (VArr (List.map VStr l)) f = Ok l.
Proof. intros Hl Hu. unfold uniqueSortedStrings. rewrite mapM_js_clean by done. simpl. by rewrite Hu. Qed.

Create HintDb model_db.
#[export] Hint Resolve requireNonEmptyString_clean optionalString_clean : model_db.

(** Closes a re-validation goal whose fields are known to be clean. *)
Ltac revalidate :=
  repeat first
    [ rewrite requireNonEmptyString_id by eauto with model_db
    | rewrite optionalString_id by eauto with model_db
    | progress simpl ].

Lemma default_ostr o k d (x : option string) :
  oget o k = js_of_ostr x -> oget_default o k d = js_of_ostr x.
Proof. unfold oget_default. intros ->. by destruct x. Qed.

(** ** Re-validation *)

(** A principal built by [createAuthenticatedPrincipal] has a supported
    type, non-empty trimmed references and a strictly sorted tenant list, and
    building it again from its own fields returns the same principal. *)
Theorem createAuthenticatedPrincipal_fixpoint args p :
  createAuthenticatedPrincipal args = Ok p ->
  ap_principalType p ∈ PRINCIPAL_TYPES /\ clean (ap_principalRef p) /\
  Forall clean (ap_authorizedTenantRefs p) /\ NoDup (ap_authorizedTenantRefs p) /\
  createAuthenticatedPrincipal (js_of_principal p) = Ok p.
Proof.
  unfold createAuthenticatedPrincipal. intros H. inv_outcome. split_bool.
  pose proof (requireNonEmptyString_clean _ _ _ H0).
  pose proof (requireNonEmptyString_clean _ _ _ H2).
  destruct (uniqueSortedStrings_clean _ _ _ H3) as [Hc Hu]. simpl.
  split; [by apply sin_true|]. split; [done|]. split; [done|].
  split; [rewrite <- Hu; apply NoDup_unique_sorted|].
  simpl. rewrite !requireNonEmptyString_id by done. simpl.
  rewrite H1. simpl. unfold oget_default. simpl.
  by rewrite uniqueSortedStrings_id.
Qed.

Definition demo_principal_args : jsobj :=
  [("principalType", VStr " admin "); ("principalRef", VStr "u-1");
   ("authorizedTenantRefs", VArr [VStr "t2"; VStr "t1"; VStr "t2"])].

Lemma createAuthenticatedPrincipal_fixpoint_witness :
  exists p, createAuthenticatedPrincipal demo_principal_args = Ok p
  /\ ap_authorizedTenantRefs p = ["t1"; "t2"]
  /\ createAuthenticatedPrincipal (js_of_principal p) = Ok p.
Proof.
  eexists. split; [vm_compute; reflexivity|]. split; [reflexivity|].
  apply (createAuthenticatedPrincipal_fixpoint demo_principal_args). vm_compute. reflexivity.
Defined.
