(* ===== verification/ContextIntegrity.v ===== *)
(** * Context hashing and invalidation (contextKernel/domain/contextIntegrity.js)

    A context is redacted ([sanitize]), printed canonically and hashed; a
    change of one context dimension invalidates the dimensions derived from
    it.  Proved here: redaction removes every sensitive key and is idempotent,
    the hashed text determines the redacted context, and the invalidation
    worklist terminates with exactly the dimensions from the earliest changed
    one on. *)
From S2P Require Import Prelude Sorting JsString JsDate JsValue JsJson Redaction ContextModel.

(** ** Redaction and hashing *)

Definition SENSITIVE_EXACT_KEYS : list string :=
  ["authorization"; "authorizationheader"; "cookie"; "setcookie"; "credential"; "credentials";
   "credentialpayload"; "secret"; "secrets"; "token"; "tokens"; "accesstoken"; "refreshtoken";
   "password"; "privatekey"; "apikey"].

Fixpoint normalizeKey (key : string) : string :=
  match key with
  | EmptyString => ""
  | String c key' =>
      if is_alnum c then String (lower_char c) (normalizeKey key') else normalizeKey key'
  end.

Definition isSensitiveKey (key : string) : bool :=
  let normalized := normalizeKey key in
  if js_endsWith normalized "ref" || js_endsWith normalized "id" then false
  else
    sin normalized SENSITIVE_EXACT_KEYS
    || js_includes normalized "credential"
    || js_includes normalized "secret"
    || js_includes normalized "token"
    || js_includes normalized "password"
    || js_includes normalized "privatekey"
    || js_includes normalized "apikey".

Definition sanitize : jsval -> jsval := redact isSensitiveKey.

Definition context_text (context : jsval) : string :=
  "context-kernel-v1:" +:+ canonicalize (sanitize context).

Definition createContextHash `{JsHost} (context : jsval) : string :=
  sha256_hex (context_text context).

Definition createContextRevision `{JsHost} (context previousRevision : jsval) : string :=
  createContextHash
    (VObj [("context", context); ("previousRevision", VStr (str_or_empty previousRevision))]).

Record RevisionCheck := {
  rc_valid : bool;
  rc_reasonCodes : list string;
  rc_actualRevision : jsval;
}.

(** [Date.parse(v) <= now] for an argument that is not yet a string. *)
Definition parsed_before `{JsHost} (v : jsval) (now : Z) : bool :=
  match date_parse (js_String v) with Some t => Z.leb t now | None => false end.

Definition validateContextRevision `{JsHost} (expectedRevision actualRevision expiresAt : jsval)
    (now : Z) : RevisionCheck :=
  let reasonCodes :=
    (if negb (truthy expectedRevision) || negb (strict_equal expectedRevision actualRevision)
     then ["context_revision_mismatch"] else [])
    ++ (if truthy expiresAt && parsed_before expiresAt now then ["context_expired"] else []) in
  {| rc_valid := Nat.eqb (length reasonCodes) 0;
     rc_reasonCodes := reasonCodes;
     rc_actualRevision := actualRevision |}.

(** ** Invalidation *)

Definition ContextDimensions : list string :=
  ["principal"; "effectiveSubject"; "tenant"; "workspace"; "brand"; "resource"; "connection";
   "authority"; "capability"; "plan"; "approval"; "execution"].

Definition INVALIDATION_GRAPH (dimension : string) : list string :=
  match dimension with
  | "principal" => ["effectiveSubject"; "tenant"; "workspace"; "brand"; "resource"; "connection";
                    "authority"; "capability"; "plan"; "approval"; "execution"]
  | "effectiveSubject" => ["tenant"; "workspace"; "brand"; "resource"; "connection"; "authority";
                           "capability"; "plan"; "approval"; "execution"]
  | "tenant" => ["workspace"; "brand"; "resource"; "connection"; "authority"; "capability";
                 "plan"; "approval"; "execution"]
  | "workspace" => ["brand"; "resource"; "connection"; "authority"; "capability"; "plan";
                    "approval"; "execution"]
  | "brand" => ["resource"; "connection"; "authority"; "capability"; "plan"; "approval";
                "execution"]
  | "resource" => ["connection"; "authority"; "capability"; "plan"; "approval"; "execution"]
  | "connection" => ["authority"; "capability"; "plan"; "approval"; "execution"]
  | "authority" => ["capability"; "plan"; "approval"; "execution"]
  | "capability" => ["plan"; "approval"; "execution"]
  | "plan" => ["approval"; "execution"]
  | "approval" => ["execution"]
  | _ => []
  end.

Section Invalidation.
Context `{JsHost}.

(** The worklist loop; [None] is running out of fuel. *)
Fixpoint invalidation_loop (fuel : nat) (queue : list jsval) (invalidated : list string)
    : option (js (list string)) :=
  match fuel with
  | O => None
  | S fuel =>
      match queue with
      | [] => Some (Ok invalidated)
      | dimension :: queue =>
          match dimension with
          | VStr d =>
              if negb (sin d ContextDimensions)
              then Some (type_error ("Unknown context dimension: " +:+ d))
              else if sin d invalidated then invalidation_loop fuel queue invalidated
              else invalidation_loop fuel (queue ++ List.map VStr (INVALIDATION_GRAPH d))
                     (invalidated ++ [d])
          | v => Some (type_error ("Unknown context dimension: " +:+ js_String v))
          end
      end
  end.

(** Every dimension is expanded once: the sum of the successor lists bounds
    what is ever queued. *)
Definition invalidation_weight (invalidated : list string) : nat :=
  sum_list (List.map (fun d => if sin d invalidated then 0 else length (INVALIDATION_GRAPH d))
              ContextDimensions).

Definition computeInvalidatedDimensions (changedDimensions : jsval)
    : option (js (list string)) :=
  match changedDimensions with
  | VArr l =>
      match invalidation_loop (S (length l + invalidation_weight [])) l [] with
      | Some (Ok invalidated) =>
          Some (Ok (bfilter (fun d => sin d invalidated) ContextDimensions))
      | Some (Throw e) => Some (Throw e)
      | None => None
      end
  | _ => Some (type_error "changedDimensions must be an array.")
  end.
End Invalidation.

(** ** Redaction: what the hash sees *)

Definition has_sensitive_key : jsval -> bool := mentions isSensitiveKey.
Definition context_ok : jsval -> bool := redactable isSensitiveKey.

(** The text that [createContextHash] hashes contains no sensitive key, is
    the text of the redacted context itself, and determines the redacted
    context: two contexts hash the same text exactly when their redactions are
    equal. *)
Theorem context_text_determines_redaction v1 v2 :
  context_ok v1 = true -> is_undef v1 = false ->
  context_ok v2 = true -> is_undef v2 = false ->
  has_sensitive_key (sanitize v1) = false
  /\ context_text (sanitize v1) = context_text v1
  /\ (context_text v1 = context_text v2 <-> sanitize v1 = sanitize v2).
Proof.
  intros Hok1 Hu1 Hok2 Hu2. split; [apply redact_mentions|].
  unfold context_text. unfold sanitize. rewrite redact_idemp. split; [done|]. split; [|by intros ->].
  intros Heq. apply (inj (String.app "context-kernel-v1:")) in Heq.
  rewrite canonicalize_inj, !sort_keys_redact in Heq by (by apply redact_json_ok). done.
Qed.

Definition demo_context (token brand : string) : jsval :=
  VObj [("brand", VStr brand); ("access_token", VStr token); ("tenantRef", VStr "t-1")].

Lemma context_text_determines_redaction_witness :
  context_text (demo_context "s3cret" "b-1") = context_text (demo_context "other" "b-1")
  /\ context_text (demo_context "s3cret" "b-1") <> context_text (demo_context "s3cret" "b-2").
Proof.
  split.
  - apply (context_text_determines_redaction (demo_context "s3cret" "b-1")
             (demo_context "other" "b-1")); vm_compute; reflexivity.
  - intros Heq. apply (context_text_determines_redaction (demo_context "s3cret" "b-1")
             (demo_context "s3cret" "b-2")) in Heq; vm_compute; try reflexivity.
    vm_compute in Heq. discriminate Heq.
Defined.

(** ** Invalidation: the closure computed by the worklist *)

(** The reference definition: a dimension is invalidated when some changed
    dimension is at or before it in [ContextDimensions]. *)
Fixpoint dim_index_from (i : nat) (l : list string) (d : string) : nat :=
  match l with
  | [] => i
  | x :: l' => if String.eqb x d then i else dim_index_from (S i) l' d
  end.

Definition dim_index (d : string) : nat := dim_index_from 0 ContextDimensions d.

Definition downstream (changed : list string) (d : string) : bool :=
  existsb (fun c => dim_index c <=? dim_index d) changed.

Lemma graph_spec d e : d ∈ ContextDimensions ->
  (e ∈ INVALIDATION_GRAPH d <-> e ∈ ContextDimensions /\ dim_index d < dim_index e).
Proof.
  intros Hd.
  assert (forallb (fun d => forallb (fun e =>
    Bool.eqb (sin e (INVALIDATION_GRAPH d)) (dim_index d <? dim_index e)) ContextDimensions
    && forallb (fun e => sin e ContextDimensions) (INVALIDATION_GRAPH d))
    ContextDimensions = true) as Hall by (vm_compute; reflexivity).
  rewrite forallb_elem_of in Hall. specialize (Hall d Hd). split_bool.
  rewrite forallb_elem_of in H, H0. split.
  - intros He. specialize (H0 e He). apply sin_true in H0. split; [done|].
    specialize (H e H0). apply Bool.eqb_prop in H.
    apply Nat.ltb_lt. rewrite <- H. by apply sin_true.
  - intros [He Hlt]. specialize (H e He). apply Bool.eqb_prop in H.
    apply sin_true. rewrite H. by apply Nat.ltb_lt.
Qed.

Lemma weight_expand inv d : d ∈ ContextDimensions -> sin d inv = false ->
  invalidation_weight (inv ++ [d]) + length (INVALIDATION_GRAPH d) = invalidation_weight inv.
Proof.
  unfold invalidation_weight.
  assert (NoDup ContextDimensions) as HND by (by apply (bool_decide_unpack _); vm_compute).
  revert HND. generalize ContextDimensions as dims. induction dims as [|x dims IH];
    intros HND Hd Hs; [by apply not_elem_of_nil in Hd|].
  apply NoDup_cons in HND as [Hx HND]. simpl. rewrite sin_app.
  destruct (decide (x = d)) as [->|Hne].
  - rewrite Hs, sin_singleton, String.eqb_refl. simpl.
    assert (forall l, d ∉ l ->
      List.map (fun y => if sin y (inv ++ [d]) then 0 else length (INVALIDATION_GRAPH y)) l
      = List.map (fun y => if sin y inv then 0 else length (INVALIDATION_GRAPH y)) l) as Hext.
    { intros l Hl. apply List.map_ext_in. intros y Hy. apply list_elem_of_In in Hy.
      rewrite sin_app, sin_singleton.
      rewrite (proj2 (String.eqb_neq y d)), !orb_false_r by (by intros ->). done. }
    rewrite Hext by done. lia.
  - rewrite sin_singleton, (proj2 (String.eqb_neq x d)), !orb_false_r by done.
    assert (d ∈ dims) as Hd' by set_solver. specialize (IH HND Hd' Hs). lia.
Qed.

Definition loop_inv (changed inv : list string) (queue : list string) : Prop :=
  (forall c, c ∈ changed -> c ∈ inv \/ c ∈ queue) /\
  (forall d e, d ∈ inv -> e ∈ INVALIDATION_GRAPH d -> e ∈ inv \/ e ∈ queue) /\
  (forall d, d ∈ inv \/ d ∈ queue -> d ∈ ContextDimensions /\ downstream changed d = true).

Lemma downstream_graph changed d e : d ∈ ContextDimensions ->
  downstream changed d = true -> e ∈ INVALIDATION_GRAPH d ->
  e ∈ ContextDimensions /\ downstream changed e = true.
Proof.
  intros Hd Hds He. apply graph_spec in He as [He Hlt]; [|done]. split; [done|].
  unfold downstream in *. apply existsb_elem_of in Hds as (c & Hc & Hle).
  apply existsb_elem_of. exists c. split; [done|]. apply Nat.leb_le. apply Nat.leb_le in Hle. lia.
Qed.

Section InvalidationProofs.
Context `{JsHost}.

Lemma invalidation_loop_spec changed fuel queue inv :
  loop_inv changed inv queue ->
  length queue + invalidation_weight inv < fuel ->
  exists inv', invalidation_loop fuel (List.map VStr queue) inv = Some (Ok inv') /\
               loop_inv changed inv' [].
Proof.
  revert queue inv; induction fuel as [|fuel IH]; intros queue inv HI Hf; [lia|].
  destruct queue as [|d queue]; [by exists inv|].
  destruct HI as (Hch & Hcl & Hds). simpl.
  destruct (Hds d) as [Hd Hdd]; [set_solver|].
  rewrite (proj2 (sin_true d ContextDimensions) Hd). simpl.
  destruct (sin d inv) eqn:Hs.
  - apply IH; [|simpl in Hf; lia]. apply sin_true in Hs. split; [|split].
    + intros c Hc. destruct (Hch c Hc); set_solver.
    + intros a e Ha He. destruct (Hcl a e Ha He); set_solver.
    + intros a Ha. apply Hds. set_solver.
  - rewrite <- List.map_app. apply IH.
    + split; [|split].
      * intros c Hc. destruct (Hch c Hc); set_solver.
      * intros a e Ha He. apply elem_of_app in Ha as [Ha|Ha].
        -- destruct (Hcl a e Ha He); set_solver.
        -- apply list_elem_of_singleton in Ha as ->. set_solver.
      * intros a Ha. destruct (decide (a ∈ INVALIDATION_GRAPH d)) as [Hg|Hg].
        -- by eapply downstream_graph.
        -- apply Hds. set_solver.
    + rewrite length_app. pose proof (weight_expand inv d Hd Hs). simpl in Hf. lia.
Qed.

Lemma invalidation_loop_unknown fuel queue inv v :
  v ∈ queue -> (forall s, v = VStr s -> s ∉ ContextDimensions) ->
  length queue + invalidation_weight inv < fuel ->
  exists e, invalidation_loop fuel queue inv = Some (Throw e).
Proof.
  revert queue inv; induction fuel as [|fuel IH]; intros queue inv Hv Hbad Hf; [lia|].
  destruct queue as [|q queue]; [by apply not_elem_of_nil in Hv|].
  simpl. destruct q as [| | | |d| | |]; try (eexists; reflexivity).
  destruct (sin d ContextDimensions) eqn:Hd; simpl; [|eexists; reflexivity].
  apply sin_true in Hd. apply elem_of_cons in Hv as [->|Hv]; [by destruct (Hbad d)|].
  destruct (sin d inv) eqn:Hs.
  - apply IH; [done|done|simpl in Hf; lia].
  - apply IH; [set_solver|done|]. rewrite length_app, List.length_map.
    pose proof (weight_expand inv d Hd Hs). simpl in Hf. lia.
Qed.

(** On known dimensions: the dimensions at or after some changed one. *)
Lemma computeInvalidatedDimensions_known (changed : list string) :
  (forall c, c ∈ changed -> c ∈ ContextDimensions) ->
  computeInvalidatedDimensions (VArr (List.map VStr changed))
    = Some (Ok (bfilter (downstream changed) ContextDimensions)).
Proof.
  intros Hch. unfold computeInvalidatedDimensions.
  destruct (invalidation_loop_spec changed (S (length (List.map VStr changed) + invalidation_weight []))
              changed []) as (inv & -> & HI1 & HI2 & HI3).
  - split; [|split]; [set_solver|set_solver|]. intros d [Hd|Hd]; [set_solver|].
    split; [auto|]. apply existsb_elem_of. exists d. split; [done|]. by apply Nat.leb_le.
  - rewrite List.length_map. lia.
  - do 2 f_equal. apply bfilter_ext. intros d Hd.
    destruct (sin d inv) eqn:Hs; symmetry.
    + apply sin_true in Hs. apply HI3. by left.
    + apply sin_false in Hs. apply not_true_iff_false. intros Hds.
      apply existsb_elem_of in Hds as (c & Hc & Hle). apply Nat.leb_le in Hle.
      assert (c ∈ inv) as Hci by (destruct (HI1 c Hc); set_solver).
      assert (d <> c) as Hne by (by intros ->).
      assert (dim_index c <> dim_index d) as Hni.
      { intros Heq. apply Hne.
        assert (forallb (fun a => forallb (fun b =>
          negb (dim_index a =? dim_index b) || String.eqb b a) ContextDimensions)
          ContextDimensions = true) as Hall by (vm_compute; reflexivity).
        rewrite forallb_elem_of in Hall. specialize (Hall c (Hch c Hc)).
        rewrite forallb_elem_of in Hall. specialize (Hall d Hd).
        rewrite Heq, Nat.eqb_refl in Hall. by apply String.eqb_eq. }
      destruct (HI2 c d Hci); [apply graph_spec; [by apply Hch|]; split; [done|lia]|done|set_solver].
Qed.

(** [computeInvalidatedDimensions] always returns: on known dimensions it
    returns exactly the dimensions that are at or after some changed one, in
    [ContextDimensions] order, and on a list with an unknown entry it throws. *)
Theorem computeInvalidatedDimensions_correct (changed : list string) (v : jsval) (pre post : list jsval) :
  (forall c, c ∈ changed -> c ∈ ContextDimensions) ->
  (forall s, v = VStr s -> s ∉ ContextDimensions) ->
  computeInvalidatedDimensions (VArr (List.map VStr changed))
    = Some (Ok (bfilter (downstream changed) ContextDimensions))
  /\ exists e, computeInvalidatedDimensions (VArr (pre ++ v :: post)) = Some (Throw e).
Proof.
  intros Hch Hbad. split; [by apply computeInvalidatedDimensions_known|].
  unfold computeInvalidatedDimensions.
  destruct (invalidation_loop_unknown (S (length (pre ++ v :: post) + invalidation_weight []))
    (pre ++ v :: post) [] v) as [e ->]; [set_solver|done|lia|by exists e].
Qed.
End InvalidationProofs.

Lemma computeInvalidatedDimensions_correct_witness :
  @computeInvalidatedDimensions demo_host (VArr [VStr "plan"; VStr "capability"])
    = Some (Ok ["capability"; "plan"; "approval"; "execution"])
  /\ exists e, @computeInvalidatedDimensions demo_host (VArr [VStr "plan"; VNull]) = Some (Throw e).
Proof.
  apply (@computeInvalidatedDimensions_correct demo_host ["plan"; "capability"] VNull [VStr "plan"] []).
  - intros c Hc. apply sin_true.
    apply elem_of_cons in Hc as [->|Hc]; [reflexivity|].
    apply list_elem_of_singleton in Hc as ->. reflexivity.
  - intros s Hs. discriminate Hs.
Defined.
