(* ===== verification/DecisionPolicy.v ===== *)
(** * Context selection (contextKernel/domain/decisionPolicy.js)

    Which candidate context a request runs in: the candidates a principal may
    see, and the precedence explicit reference, verified pin, exact binding,
    low-risk fallback, single candidate.  Proved: a resolved decision selects
    an authorized candidate of the request and respects the guards of its
    precedence level; the decision does not depend on the order in which
    candidates are listed. *)
From S2P Require Import Prelude Sorting JsString JsDate JsValue ContextModel.

(** ** Decisions *)

Inductive DecisionStatus := RESOLVED | INTERPRETATION_REQUIRED | BLOCKED.

Inductive DecisionReason :=
| EXPLICIT_REFERENCE
| VERIFIED_PIN
| EXACT_BINDING
| LOW_RISK_FALLBACK
| SINGLE_AUTHORIZED_CANDIDATE
| MULTIPLE_AUTHORIZED_CANDIDATES
| NO_AUTHORIZED_CANDIDATES
| REFERENCE_NOT_AUTHORIZED
| EFFECTIVE_SUBJECT_REQUIRED
| FALLBACK_SELECTION_FORBIDDEN
| PIN_NOT_VERIFIED
| PIN_EXPIRED
| PIN_REVISION_CONFLICT.

Record ContextDecision := {
  cd_status : DecisionStatus;
  cd_reasonCodes : list DecisionReason;
  cd_selectedCandidate : option ContextCandidate;
  cd_candidates : list ContextCandidate;
}.

Definition FALLBACK_ALLOWED_RISKS : list string := ["read"; "low"].

(** The arguments of [resolveContextDecision] beside the intent. *)
Record DecisionRequest := {
  dr_principal : option AuthenticatedPrincipal;
  dr_effectiveSubject : option EffectiveSubject;
  dr_candidates : option (list ContextCandidate);   (* [None]: not an array *)
  dr_intent : jsobj;                                (* riskClass, operationKind, operationIntent *)
  dr_explicitRef : option string;
  dr_verifiedPin : option ContextPin;
  dr_currentContextRevision : option string;
  dr_exactBindingRef : option string;
  dr_fallbackRef : option string;
  dr_allowLowRiskFallback : bool;
  dr_now : Z;
}.

Section Policy.
Context `{JsHost}.

(** [String(left ?? "").localeCompare(String(right ?? ""))] *)
Definition compareNullable (left right : option string) : comparison :=
  locale_compare (default "" left) (default "" right).

Definition compareContextCandidates (l r : ContextCandidate) : comparison :=
  cmp_or (compareNullable (Some (cc_tenantRef l)) (Some (cc_tenantRef r)))
  (cmp_or (compareNullable (cc_workspaceRef l) (cc_workspaceRef r))
  (cmp_or (compareNullable (Some (cc_candidateType l)) (Some (cc_candidateType r)))
  (cmp_or (compareNullable (cc_resourceType l) (cc_resourceType r))
  (cmp_or (compareNullable (cc_resourceRef l) (cc_resourceRef r))
  (cmp_or (compareNullable (cc_connectionRef l) (cc_connectionRef r))
          (compareNullable (Some (cc_stableRef l)) (Some (cc_stableRef r)))))))).

Definition sortContextCandidates (candidates : list ContextCandidate) : list ContextCandidate :=
  js_sort compareContextCandidates candidates.

Definition principalCanSeeTenant (principal : AuthenticatedPrincipal) (tenantRef : string) : bool :=
  let refs := ap_authorizedTenantRefs principal in
  sin "*" refs || sin tenantRef refs.

(** The filter of [enumerateAuthorizedCandidates]. *)
Definition candidate_visible (principal : AuthenticatedPrincipal)
    (effectiveSubject : option EffectiveSubject) (candidate : ContextCandidate) : bool :=
  if negb (principalCanSeeTenant principal (cc_tenantRef candidate)) then false
  else match effectiveSubject with
       | None => true
       | Some subject =>
           if negb (String.eqb (cc_tenantRef candidate) (es_tenantRef subject)) then false
           else match es_workspaceRef subject with
                | Some w => if is_empty w then true else ostr_eqb (cc_workspaceRef candidate) (Some w)
                | None => true
                end
       end.

Definition enumerateAuthorizedCandidates (principal : option AuthenticatedPrincipal)
    (effectiveSubject : option EffectiveSubject) (candidates : option (list ContextCandidate))
    : js (list ContextCandidate) :=
  match principal, candidates with
  | Some p, Some l => Ok (sortContextCandidates (bfilter (candidate_visible p effectiveSubject) l))
  | _, _ => type_error "principal and candidates are required."
  end.

Definition blocked (reasonCode : DecisionReason) (candidates : list ContextCandidate)
    : ContextDecision :=
  {| cd_status := BLOCKED; cd_reasonCodes := [reasonCode]; cd_selectedCandidate := None;
     cd_candidates := sortContextCandidates candidates |}.

Definition resolved (reasonCode : DecisionReason) (candidate : ContextCandidate)
    (candidates : list ContextCandidate) : ContextDecision :=
  {| cd_status := RESOLVED; cd_reasonCodes := [reasonCode];
     cd_selectedCandidate := Some candidate;
     cd_candidates := sortContextCandidates candidates |}.

Definition selectExactReference (candidates : list ContextCandidate) (stableRef : string)
    : option ContextCandidate :=
  if is_empty stableRef then None
  else match bfilter (fun c => String.eqb (cc_stableRef c) stableRef) candidates with
       | [c] => Some c
       | _ => None
       end.

(** [None]: usable; [Some reason]: why it is not. *)
Definition pinState (pin : ContextPin) (now : Z) (currentContextRevision : option string)
    : option DecisionReason :=
  if negb (pin_verified pin) then Some PIN_NOT_VERIFIED
  else if match pin_expiresAt pin with
          | Some e => negb (is_empty e) &&
              match date_parse e with Some t => Z.leb t now | None => false end
          | None => false
          end
  then Some PIN_EXPIRED
  else match currentContextRevision with
       | Some r =>
           if is_empty (js_trim r) || negb (String.eqb (pin_contextRevision pin) r)
           then Some PIN_REVISION_CONFLICT else None
       | None => Some PIN_REVISION_CONFLICT
       end.

(** [if (ref)] *)
Definition ref_given (o : option string) : option string :=
  match o with Some s => if is_empty s then None else Some s | None => None end.

Definition select_or_block (reason : DecisionReason) (candidates : list ContextCandidate)
    (stableRef : string) : ContextDecision :=
  match selectExactReference candidates stableRef with
  | Some selected => resolved reason selected candidates
  | None => blocked REFERENCE_NOT_AUTHORIZED candidates
  end.

Definition decide_context (req : DecisionRequest) (input : DecisionInput)
    (authorizedCandidates : list ContextCandidate) : ContextDecision :=
  if String.eqb (di_operationKind input) "mutation"
     && match dr_effectiveSubject req with None => true | _ => false end
  then blocked EFFECTIVE_SUBJECT_REQUIRED authorizedCandidates
  else match ref_given (dr_explicitRef req) with
  | Some ref => select_or_block EXPLICIT_REFERENCE authorizedCandidates ref
  | None =>
  match dr_verifiedPin req with
  | Some pin =>
      match pinState pin (dr_now req) (dr_currentContextRevision req) with
      | Some reason => blocked reason authorizedCandidates
      | None => select_or_block VERIFIED_PIN authorizedCandidates (pin_stableRef pin)
      end
  | None =>
  match ref_given (dr_exactBindingRef req) with
  | Some ref => select_or_block EXACT_BINDING authorizedCandidates ref
  | None =>
  match ref_given (dr_fallbackRef req) with
  | Some ref =>
      if negb (dr_allowLowRiskFallback req)
         || negb (sin (di_riskClass input) FALLBACK_ALLOWED_RISKS)
      then blocked FALLBACK_SELECTION_FORBIDDEN authorizedCandidates
      else select_or_block LOW_RISK_FALLBACK authorizedCandidates ref
  | None =>
  match authorizedCandidates with
  | [] => blocked NO_AUTHORIZED_CANDIDATES []
  | [c] => resolved SINGLE_AUTHORIZED_CANDIDATE c authorizedCandidates
  | _ => {| cd_status := INTERPRETATION_REQUIRED;
            cd_reasonCodes := [MULTIPLE_AUTHORIZED_CANDIDATES];
            cd_selectedCandidate := None;
            cd_candidates := authorizedCandidates |}
  end end end end end.

Definition resolveContextDecision (req : DecisionRequest) : js ContextDecision :=
  input ← normalizeDecisionInput (dr_intent req);
  authorizedCandidates ← enumerateAuthorizedCandidates (dr_principal req)
    (dr_effectiveSubject req) (dr_candidates req);
  Ok (decide_context req input authorizedCandidates).

(** ** Soundness *)

Lemma selectExactReference_Some l r c : selectExactReference l r = Some c ->
  c ∈ l /\ cc_stableRef c = r /\
  forall c', c' ∈ l -> cc_stableRef c' = r -> c' = c.
Proof.
  unfold selectExactReference. destruct (is_empty r); [done|].
  destruct (bfilter _ l) as [|x [|]] eqn:Hf; try done. intros [= ->].
  assert (forall y, y ∈ bfilter (fun c => String.eqb (cc_stableRef c) r) l <-> y = c) as Hall.
  { intros y. rewrite Hf. by rewrite list_elem_of_singleton. }
  setoid_rewrite elem_of_bfilter in Hall. setoid_rewrite String.eqb_eq in Hall.
  destruct (proj2 (Hall c) eq_refl). repeat split; [done|done|]. intros y Hy Hr. by apply Hall.
Qed.

Lemma candidate_visible_spec p subj c : candidate_visible p subj c = true <->
  ("*" ∈ ap_authorizedTenantRefs p \/ cc_tenantRef c ∈ ap_authorizedTenantRefs p) /\
  (forall s, subj = Some s -> cc_tenantRef c = es_tenantRef s /\
     (forall w, es_workspaceRef s = Some w -> w <> "" -> cc_workspaceRef c = Some w)).
Proof.
  unfold candidate_visible, principalCanSeeTenant.
  rewrite <- !sin_true, <- orb_true_iff. destruct (sin "*" _ || sin _ _); simpl; [|naive_solver].
  destruct subj as [s|]; [|naive_solver].
  destruct (String.eqb (cc_tenantRef c) (es_tenantRef s)) eqn:Ht; simpl.
  - apply String.eqb_eq in Ht. destruct (es_workspaceRef s) as [w|] eqn:Hw.
    + destruct (is_empty w) eqn:Hwe.
      * apply is_empty_true in Hwe as ->. naive_solver.
      * apply is_empty_false in Hwe. rewrite ostr_eqb_true. naive_solver.
    + naive_solver.
  - apply String.eqb_neq in Ht. naive_solver.
Qed.

(** What a resolved decision owes to the level that resolved it. *)
Definition reason_justified (req : DecisionRequest) (input : DecisionInput)
    (reason : DecisionReason) (c : ContextCandidate) : Prop :=
  match reason with
  | EXPLICIT_REFERENCE => dr_explicitRef req = Some (cc_stableRef c)
  | VERIFIED_PIN => exists pin, dr_verifiedPin req = Some pin /\ pin_verified pin = true /\
      pin_stableRef pin = cc_stableRef c /\
      dr_currentContextRevision req = Some (pin_contextRevision pin)
  | EXACT_BINDING => dr_exactBindingRef req = Some (cc_stableRef c)
  | LOW_RISK_FALLBACK => dr_fallbackRef req = Some (cc_stableRef c) /\
      dr_allowLowRiskFallback req = true /\ di_riskClass input ∈ FALLBACK_ALLOWED_RISKS
  | SINGLE_AUTHORIZED_CANDIDATE => True
  | _ => False
  end.

Lemma ref_given_Some o r : ref_given o = Some r -> o = Some r.
Proof. destruct o as [s|]; simpl; [|done]. by destruct (is_empty s). Qed.

Lemma select_or_block_resolved reason l ref c d :
  select_or_block reason l ref = d -> cd_selectedCandidate d = Some c ->
  c ∈ l /\ cd_reasonCodes d = [reason] /\ cd_status d = RESOLVED /\ cc_stableRef c = ref.
Proof.
  unfold select_or_block. destruct (selectExactReference l ref) as [x|] eqn:Hs; intros <-; [|done].
  intros [= ->]. apply selectExactReference_Some in Hs as (? & ? & _). done.
Qed.

Lemma pinState_usable pin now rev : pinState pin now rev = None ->
  pin_verified pin = true /\ rev = Some (pin_contextRevision pin) /\
  (forall e t, pin_expiresAt pin = Some e -> e <> "" -> date_parse e = Some t -> (now < t)%Z).
Proof.
  unfold pinState. destruct (pin_verified pin); [|done]. simpl.
  destruct (match pin_expiresAt pin with Some e => _ | None => _ end) eqn:He; [done|].
  destruct rev as [r|]; [|done].
  destruct (is_empty (js_trim r)); simpl; [done|].
  destruct (String.eqb (pin_contextRevision pin) r) eqn:Hr; [|done].
  apply String.eqb_eq in Hr as <-. intros _. repeat split.
  intros e t Hpe Hne Ht. rewrite Hpe, Ht, (proj2 (is_empty_false e) Hne) in He. simpl in He. lia.
Qed.

Lemma decide_context_selected req input l c :
  cd_selectedCandidate (decide_context req input l) = Some c ->
  c ∈ l /\ cd_status (decide_context req input l) = RESOLVED /\
  (di_operationKind input = "mutation" -> dr_effectiveSubject req <> None) /\
  exists reason, cd_reasonCodes (decide_context req input l) = [reason] /\
                 reason_justified req input reason c.
Proof.
  unfold decide_context.
  destruct (String.eqb (di_operationKind input) "mutation" && _) eqn:Hm; [done|].
  assert (di_operationKind input = "mutation" -> dr_effectiveSubject req <> None) as Hmut.
  { intros Hk Hn. rewrite Hk, Hn in Hm. done. }
  destruct (ref_given (dr_explicitRef req)) as [r|] eqn:H1.
  { intros (? & -> & -> & ?)%(select_or_block_resolved _ _ _ _ _ eq_refl).
    apply ref_given_Some in H1. repeat split; try done. eexists. split; [done|]. simpl. congruence. }
  destruct (dr_verifiedPin req) as [pin|] eqn:H2.
  { destruct (pinState pin _ _) as [rs|] eqn:Hp; [done|].
    intros (? & -> & -> & ?)%(select_or_block_resolved _ _ _ _ _ eq_refl).
    apply pinState_usable in Hp as (? & ? & _). repeat split; try done.
    eexists. split; [done|]. exists pin. done. }
  destruct (ref_given (dr_exactBindingRef req)) as [r|] eqn:H3.
  { intros (? & -> & -> & ?)%(select_or_block_resolved _ _ _ _ _ eq_refl).
    apply ref_given_Some in H3. repeat split; try done. eexists. split; [done|]. simpl. congruence. }
  destruct (ref_given (dr_fallbackRef req)) as [r|] eqn:H4.
  { destruct (negb (dr_allowLowRiskFallback req) || _) eqn:Hf; [done|]. split_bool.
    intros (? & -> & -> & ?)%(select_or_block_resolved _ _ _ _ _ eq_refl).
    apply ref_given_Some in H4. repeat split; try done. eexists. split; [done|]. simpl.
    repeat split; [congruence|done|by apply sin_true]. }
  destruct l as [|x [|]]; [done| |done]. intros [= ->]. repeat split; try done; [set_solver|].
  eexists. done.
Qed.

(** A decision is taken on the visible candidates of the request. *)
Lemma resolveContextDecision_inv req d : resolveContextDecision req = Ok d ->
  exists p l input,
    dr_principal req = Some p /\ dr_candidates req = Some l /\
    normalizeDecisionInput (dr_intent req) = Ok input /\
    d = decide_context req input
          (sortContextCandidates (bfilter (candidate_visible p (dr_effectiveSubject req)) l)).
Proof.
  unfold resolveContextDecision. intros Hd. inv_outcome. unfold enumerateAuthorizedCandidates in H1.
  destruct (dr_principal req) as [p|]; [|done]. destruct (dr_candidates req) as [l|]; [|done].
  injection H1 as <-. by exists p, l, a.
Qed.

Lemma elem_of_authorized p subj l c :
  c ∈ sortContextCandidates (bfilter (candidate_visible p subj) l) <->
  candidate_visible p subj c = true /\ c ∈ l.
Proof. unfold sortContextCandidates. by rewrite elem_of_js_sort, elem_of_bfilter. Qed.


(** ** Order independence *)

Context `{!JsHostLaws}.

#[local] Instance compareNullable_order : CmpOrder compareNullable.
Proof using All. apply (cmp_by_key (default "")), _. Qed.

#[local] Instance compareContextCandidates_order : CmpOrder compareContextCandidates.
Proof using All.
  unfold compareContextCandidates.
  repeat (apply cmp_lex; [apply (cmp_by_key (fun c => Some _)), _ || apply (cmp_by_key _), _ |]).
  apply (cmp_by_key (fun c => Some (cc_stableRef c))), _.
Qed.

Lemma selectExactReference_Permutation l1 l2 r :
  l1 ≡ₚ l2 -> selectExactReference l1 r = selectExactReference l2 r.
Proof using Type.
  intros HP. unfold selectExactReference. destruct (is_empty r); [done|].
  pose proof (bfilter_Permutation (fun c => String.eqb (cc_stableRef c) r) _ _ HP) as HF.
  destruct (bfilter _ l1) as [|x [|y k]] eqn:H1.
  - apply Permutation_nil_l in HF. by rewrite <- HF.
  - apply Permutation_singleton_l in HF. by rewrite <- HF.
  - apply Permutation_length in HF. by destruct (bfilter _ l2) as [|? [|]].
Qed.

(** Two decisions that differ at most in how they list the candidates. *)
Definition same_decision (d1 d2 : ContextDecision) : Prop :=
  cd_status d1 = cd_status d2 /\ cd_reasonCodes d1 = cd_reasonCodes d2 /\
  cd_selectedCandidate d1 = cd_selectedCandidate d2 /\ cd_candidates d1 ≡ₚ cd_candidates d2.

Lemma blocked_same r l1 l2 : l1 ≡ₚ l2 -> same_decision (blocked r l1) (blocked r l2).
Proof using Type.
  intros HP. repeat split. simpl. unfold sortContextCandidates. by rewrite !js_sort_Permutation.
Qed.

Lemma resolved_same r c l1 l2 : l1 ≡ₚ l2 -> same_decision (resolved r c l1) (resolved r c l2).
Proof using Type.
  intros HP. repeat split. simpl. unfold sortContextCandidates. by rewrite !js_sort_Permutation.
Qed.

Lemma select_or_block_same r l1 l2 ref :
  l1 ≡ₚ l2 -> same_decision (select_or_block r l1 ref) (select_or_block r l2 ref).
Proof using Type.
  intros HP. unfold select_or_block. rewrite (selectExactReference_Permutation _ _ _ HP).
  destruct (selectExactReference l2 ref); auto using blocked_same, resolved_same.
Qed.

Lemma decide_context_same req input l1 l2 :
  l1 ≡ₚ l2 -> same_decision (decide_context req input l1) (decide_context req input l2).
Proof using Type.
  intros HP. unfold decide_context.
  repeat match goal with |- context [match ?x with _ => _ end] =>
    lazymatch x with
    | l1 => fail
    | l2 => fail
    | _ => destruct x; auto using blocked_same, select_or_block_same
    end end.
  destruct l1 as [|x [|y l1]].
  - apply Permutation_nil_l in HP as <-. done.
  - apply Permutation_singleton_l in HP as <-. by apply resolved_same.
  - apply Permutation_length in HP as Hlen. destruct l2 as [|x2 [|y2 l2]]; try done.
Qed.

Definition with_candidates (req : DecisionRequest) (l : list ContextCandidate) : DecisionRequest :=
  {| dr_principal := dr_principal req; dr_effectiveSubject := dr_effectiveSubject req;
     dr_candidates := Some l; dr_intent := dr_intent req; dr_explicitRef := dr_explicitRef req;
     dr_verifiedPin := dr_verifiedPin req;
     dr_currentContextRevision := dr_currentContextRevision req;
     dr_exactBindingRef := dr_exactBindingRef req; dr_fallbackRef := dr_fallbackRef req;
     dr_allowLowRiskFallback := dr_allowLowRiskFallback req; dr_now := dr_now req |}.

(** Listing the candidates in another order changes neither the status,
    nor the reason, nor the selected candidate, nor the set of candidates
    reported, nor whether the call throws; and the candidates reported are in
    comparator order. *)
Theorem resolveContextDecision_order_independent req l1 l2 :
  l1 ≡ₚ l2 ->
  match resolveContextDecision (with_candidates req l1),
        resolveContextDecision (with_candidates req l2) with
  | Ok d1, Ok d2 => same_decision d1 d2 /\
      StronglySorted (fun x y => leb_of compareContextCandidates x y = true) (cd_candidates d1)
  | Throw e1, Throw e2 => e1 = e2
  | _, _ => False
  end.
Proof using All.
  intros HP. unfold resolveContextDecision. simpl.
  destruct (normalizeDecisionInput (dr_intent req)) as [input|e]; [|done]. simpl.
  destruct (dr_principal req) as [p|]; [|done]. simpl. split.
  - apply (decide_context_same (with_candidates req l1)). unfold sortContextCandidates.
    rewrite !js_sort_Permutation. by apply bfilter_Permutation.
  - set (l := sortContextCandidates _).
    assert (StronglySorted (fun x y => leb_of compareContextCandidates x y = true) l) as Hl
      by apply js_sort_sorted, _.
    unfold decide_context, select_or_block.
    repeat match goal with |- context [match ?x with _ => _ end] =>
      lazymatch x with l => fail | _ => destruct x; try apply js_sort_sorted, _ end end.
    destruct l as [|? [|]]; try apply js_sort_sorted, _. done.
Qed.
End Policy.

(** ** Witnesses *)

Definition demo_candidate (stableRef tenantRef : string) : ContextCandidate :=
  {| cc_candidateType := "workspace"; cc_stableRef := stableRef; cc_tenantRef := tenantRef;
     cc_workspaceRef := Some "w-1"; cc_brandRef := None; cc_resourceType := None;
     cc_resourceRef := None; cc_connectionRef := None; cc_displayLabel := "";
     cc_authoritySummary := ""; cc_readinessSummary := ""; cc_metadata := [] |}.

Definition demo_request : DecisionRequest :=
  {| dr_principal := Some {| ap_principalType := "tenant_user"; ap_principalRef := "u-1";
       ap_authorizedTenantRefs := ["t-1"]; ap_attributes := [] |};
     dr_effectiveSubject := Some {| es_subjectType := "tenant_user"; es_subjectRef := "u-1";
       es_tenantRef := "t-1"; es_workspaceRef := Some "w-1";
       es_delegatedByPrincipalRef := None |};
     dr_candidates := Some [demo_candidate "ctx-b" "t-1"; demo_candidate "ctx-a" "t-1";
                            demo_candidate "ctx-a" "t-2"];
     dr_intent := [("operationIntent", VStr "publish"); ("operationKind", VStr "mutation");
                   ("riskClass", VStr "high")];
     dr_explicitRef := Some "ctx-a"; dr_verifiedPin := None;
     dr_currentContextRevision := None; dr_exactBindingRef := None; dr_fallbackRef := None;
     dr_allowLowRiskFallback := false; dr_now := 0%Z |}.


Lemma resolveContextDecision_order_independent_witness :
  match @resolveContextDecision demo_host
          (with_candidates demo_request [demo_candidate "ctx-a" "t-1"; demo_candidate "ctx-b" "t-1"]),
        @resolveContextDecision demo_host
          (with_candidates demo_request [demo_candidate "ctx-b" "t-1"; demo_candidate "ctx-a" "t-1"])
  with
  | Ok d1, Ok d2 => same_decision d1 d2 /\
      StronglySorted (fun x y => leb_of (@compareContextCandidates demo_host) x y = true)
        (cd_candidates d1)
  | Throw e1, Throw e2 => e1 = e2
  | _, _ => False
  end.
Proof.
  apply (@resolveContextDecision_order_independent demo_host demo_host_laws demo_request).
  apply Permutation_swap.
Defined.
