(* ===== verification/ActivationLifecycle.v ===== *)
(** * The activation lifecycle
    (activationLifecycleStateMachine.js, activationRetryReconciliationPolicy.js)

    The statuses of an activation operation and of its stage attempts, the
    declared transitions, the governed retry and the reconciliation outcomes.
    The functions of the source are definitions on untyped statuses; their
    composition (declared transitions, approved retries, reconciliations) is a
    labelled step relation, on which the safety and liveness theorems are
    proved. *)
From S2P Require Import Prelude Sorting JsString JsDate JsValue.

(** ** Statuses *)

Inductive op_status :=
| created | authenticating | authorized | resolving_session | bootstrapping | validating
| preparing_tools | ready | active | executing | readback_pending | delivery_pending
| acknowledgement_pending | retry_scheduled | unknown_outcome | reconciling | degraded
| authorization_gated | validation_rate_limited | contract_degraded | failed | cancelled
| rolled_back.

#[export] Instance op_status_eq_dec : EqDecision op_status.
Proof. solve_decision. Defined.

Definition status_str (s : op_status) : string :=
  match s with
  | created => "created" | authenticating => "authenticating" | authorized => "authorized"
  | resolving_session => "resolving_session" | bootstrapping => "bootstrapping"
  | validating => "validating" | preparing_tools => "preparing_tools" | ready => "ready"
  | active => "active" | executing => "executing" | readback_pending => "readback_pending"
  | delivery_pending => "delivery_pending" | acknowledgement_pending => "acknowledgement_pending"
  | retry_scheduled => "retry_scheduled" | unknown_outcome => "unknown_outcome"
  | reconciling => "reconciling" | degraded => "degraded"
  | authorization_gated => "authorization_gated"
  | validation_rate_limited => "validation_rate_limited"
  | contract_degraded => "contract_degraded" | failed => "failed" | cancelled => "cancelled"
  | rolled_back => "rolled_back"
  end.

Definition ACTIVATION_OPERATION_STATUSES : list op_status :=
  [created; authenticating; authorized; resolving_session; bootstrapping; validating;
   preparing_tools; ready; active; executing; readback_pending; delivery_pending;
   acknowledgement_pending; retry_scheduled; unknown_outcome; reconciling; degraded;
   authorization_gated; validation_rate_limited; contract_degraded; failed; cancelled;
   rolled_back].

Definition ACTIVATION_OPERATION_CORE_NONTERMINAL_STATES : list op_status :=
  [created; authenticating; authorized; resolving_session; bootstrapping; validating;
   preparing_tools; ready; executing; readback_pending; retry_scheduled; unknown_outcome;
   reconciling].

Definition ACTIVATION_OPERATION_AGGREGATE_OVERLAY_STATES : list op_status :=
  [delivery_pending; acknowledgement_pending].

Definition ACTIVATION_OPERATION_STABLE_REPORTED_STATES : list op_status :=
  [active; degraded; authorization_gated; validation_rate_limited; contract_degraded; failed;
   cancelled; rolled_back].

Definition ACTIVATION_OPERATION_TERMINAL_WITHOUT_RETRY : list op_status :=
  [active; cancelled; rolled_back].

Definition ACTIVATION_OPERATION_STABLE_RETRY_STATES : list op_status :=
  [degraded; authorization_gated; validation_rate_limited; contract_degraded; failed].

(** The transition table; [[]] for a status that is not a key of it. *)
Definition ACTIVATION_OPERATION_TRANSITIONS (s : op_status) : list op_status :=
  match s with
  | created => [authenticating; authorized; cancelled]
  | authenticating => [authorized; authorization_gated; failed; cancelled]
  | authorized => [resolving_session; cancelled]
  | resolving_session => [bootstrapping; authorization_gated; degraded; cancelled]
  | bootstrapping => [validating; preparing_tools; ready; degraded; cancelled]
  | validating => [preparing_tools; ready; degraded; validation_rate_limited; contract_degraded;
                   cancelled]
  | preparing_tools => [ready; degraded; contract_degraded; cancelled]
  | ready => [active; executing; cancelled]
  | executing => [readback_pending; unknown_outcome; failed; cancelled]
  | readback_pending => [active; degraded; failed; unknown_outcome]
  | unknown_outcome => [reconciling]
  | reconciling => [active; degraded; failed; unknown_outcome]
  | retry_scheduled => [authenticating; resolving_session; bootstrapping; validating;
                        preparing_tools; executing; reconciling]
  | _ => []
  end.

Inductive attempt_status :=
| at_pending | at_running | at_succeeded | at_degraded | at_failed | at_unknown_outcome
| at_cancelled.

#[export] Instance attempt_status_eq_dec : EqDecision attempt_status.
Proof. solve_decision. Defined.

Definition attempt_str (s : attempt_status) : string :=
  match s with
  | at_pending => "pending" | at_running => "running" | at_succeeded => "succeeded"
  | at_degraded => "degraded" | at_failed => "failed" | at_unknown_outcome => "unknown_outcome"
  | at_cancelled => "cancelled"
  end.

Definition ACTIVATION_STAGE_ATTEMPT_STATUSES : list attempt_status :=
  [at_pending; at_running; at_succeeded; at_degraded; at_failed; at_unknown_outcome; at_cancelled].

Definition ACTIVATION_STAGE_ATTEMPT_TRANSITIONS (s : attempt_status) : list attempt_status :=
  match s with
  | at_pending => [at_running; at_cancelled]
  | at_running => [at_succeeded; at_degraded; at_failed; at_unknown_outcome; at_cancelled]
  | _ => []
  end.

Definition ACTIVATION_STAGE_ATTEMPT_TERMINAL_STATES : list attempt_status :=
  [at_succeeded; at_degraded; at_failed; at_unknown_outcome; at_cancelled].

(** [set.has(s)] *)
Definition has {A} `{EqDecision A} (s : A) (l : list A) : bool := bool_decide (s ∈ l).

(** ** Operations of the state machine *)

Definition fail {A} (code message : string) (status : Z) (details : jsobj) : js A :=
  Throw (CodedErr code status message details).

Section Host.
Context `{JsHost}.

(** The status named by an untyped value, among the allowed ones. *)
Definition normalizeStatus {A} (name : A -> string) (value : jsval) (field : string)
    (allowed : list A) (code : string) : js A :=
  let status := js_trim (str_coalesce value) in
  match List.find (fun s => String.eqb (name s) status) allowed with
  | Some s => Ok s
  | None =>
      fail code (field +:+ " is not a declared Activation lifecycle status.") 400
        [("field", VStr field);
         ("value", if is_empty status then VNull else VStr status)]
  end.

Definition normalize_op (value : jsval) (field : string) : js op_status :=
  normalizeStatus status_str value field ACTIVATION_OPERATION_STATUSES
    "activation_operation_status_invalid".

Definition classifyActivationOperationState (status : jsval) : js string :=
  normalized ← normalize_op status "operation_status";
  if has normalized ACTIVATION_OPERATION_CORE_NONTERMINAL_STATES then Ok "core_nonterminal"
  else if has normalized ACTIVATION_OPERATION_AGGREGATE_OVERLAY_STATES then Ok "aggregate_overlay"
  else if has normalized ACTIVATION_OPERATION_STABLE_REPORTED_STATES then Ok "stable_reported"
  else fail "activation_operation_state_classification_missing"
         ("No lifecycle classification exists for " +:+ status_str normalized +:+ ".") 500 [].

Definition getAllowedActivationOperationTransitions (status : jsval) : js (list op_status) :=
  normalized ← normalize_op status "operation_status";
  Ok (ACTIVATION_OPERATION_TRANSITIONS normalized).

Definition isActivationOperationTerminalWithoutRetry (status : jsval) : js bool :=
  normalized ← normalize_op status "operation_status";
  Ok (has normalized ACTIVATION_OPERATION_TERMINAL_WITHOUT_RETRY).

Definition isActivationOperationStableRetryState (status : jsval) : js bool :=
  normalized ← normalize_op status "operation_status";
  Ok (has normalized ACTIVATION_OPERATION_STABLE_RETRY_STATES).

Definition from_to (from to : op_status) : jsobj :=
  [("from", VStr (status_str from)); ("to", VStr (status_str to))].

(** [{ allowed: true, from_status, to_status }] *)
Definition assertActivationOperationTransition (fromStatus toStatus : jsval)
    : js (op_status * op_status) :=
  from ← normalize_op fromStatus "from_status";
  to ← normalize_op toStatus "to_status";
  if has from ACTIVATION_OPERATION_AGGREGATE_OVERLAY_STATES
     || has to ACTIVATION_OPERATION_AGGREGATE_OVERLAY_STATES
  then fail "activation_operation_overlay_transition_invalid"
    "Aggregate delivery and acknowledgement overlays cannot rewrite the core operation state." 409
    (from_to from to)
  else if has from ACTIVATION_OPERATION_TERMINAL_WITHOUT_RETRY
  then fail "activation_operation_terminal"
    ("Activation operation is terminal without retry in state " +:+ status_str from +:+ ".") 409
    (from_to from to)
  else if has from ACTIVATION_OPERATION_STABLE_RETRY_STATES
  then fail "activation_operation_governed_retry_required"
    ("Activation operation state " +:+ status_str from +:+ " requires a governed retry request.") 409
    (from_to from to)
  else if negb (has to (ACTIVATION_OPERATION_TRANSITIONS from))
  then fail "activation_operation_transition_invalid"
    ("Invalid Activation operation transition from " +:+ status_str from +:+ " to "
       +:+ status_str to +:+ ".") 409 (from_to from to)
  else Ok (from, to).

(** [{ operation_status, overlay_status, execution_outcome_rewritten: false }] *)
Record OverlayResult := {
  ov_operation_status : op_status;
  ov_overlay_status : op_status;
  ov_execution_outcome_rewritten : bool;
}.

Definition applyActivationAggregateOverlay (operationStatus overlayStatus : jsval)
    : js OverlayResult :=
  operation ← normalize_op operationStatus "operation_status";
  overlay ← normalizeStatus status_str overlayStatus "overlay_status"
    ACTIVATION_OPERATION_AGGREGATE_OVERLAY_STATES "activation_operation_overlay_status_invalid";
  if has operation ACTIVATION_OPERATION_AGGREGATE_OVERLAY_STATES
  then fail "activation_operation_overlay_base_invalid"
    "An aggregate overlay cannot be used as the underlying operation state." 409
    [("operation_status", VStr (status_str operation));
     ("overlay_status", VStr (status_str overlay))]
  else Ok {| ov_operation_status := operation; ov_overlay_status := overlay;
             ov_execution_outcome_rewritten := false |}.

Definition normalize_attempt (value : jsval) (field : string) : js attempt_status :=
  normalizeStatus attempt_str value field ACTIVATION_STAGE_ATTEMPT_STATUSES
    "activation_stage_attempt_status_invalid".

Definition getAllowedActivationStageAttemptTransitions (status : jsval)
    : js (list attempt_status) :=
  normalized ← normalize_attempt status "stage_attempt_status";
  Ok (ACTIVATION_STAGE_ATTEMPT_TRANSITIONS normalized).

Definition isActivationStageAttemptTerminal (status : jsval) : js bool :=
  normalized ← normalize_attempt status "stage_attempt_status";
  Ok (has normalized ACTIVATION_STAGE_ATTEMPT_TERMINAL_STATES).

Definition assertActivationStageAttemptTransition (fromStatus toStatus : jsval)
    : js (attempt_status * attempt_status) :=
  from ← normalize_attempt fromStatus "from_status";
  to ← normalize_attempt toStatus "to_status";
  let details := [("from", VStr (attempt_str from)); ("to", VStr (attempt_str to))] in
  if has from ACTIVATION_STAGE_ATTEMPT_TERMINAL_STATES
  then fail "activation_stage_attempt_terminal"
    ("Activation stage attempt is terminal in state " +:+ attempt_str from +:+ ".") 409 details
  else if negb (has to (ACTIVATION_STAGE_ATTEMPT_TRANSITIONS from))
  then fail "activation_stage_attempt_transition_invalid"
    ("Invalid Activation stage attempt transition from " +:+ attempt_str from +:+ " to "
       +:+ attempt_str to +:+ ".") 409 details
  else Ok (from, to).

(** ** Retry and reconciliation *)

Definition RETRY_TARGETS : list op_status := ACTIVATION_OPERATION_TRANSITIONS retry_scheduled.

Definition SUCCESS_EVIDENCE_TYPES : list string :=
  ["activation_success_readback"; "execution_readback"; "provider_readback";
   "reconciliation_readback"].

Inductive reconciliation_outcome :=
| oc_executed | oc_not_executed | oc_conflicting | oc_still_unknown | oc_failed.

Definition outcome_str (o : reconciliation_outcome) : string :=
  match o with
  | oc_executed => "executed" | oc_not_executed => "not_executed"
  | oc_conflicting => "conflicting" | oc_still_unknown => "still_unknown" | oc_failed => "failed"
  end.

Definition RECONCILIATION_OUTCOMES : list reconciliation_outcome :=
  [oc_executed; oc_not_executed; oc_conflicting; oc_still_unknown; oc_failed].

(** [normalizeText(value, field, max)] with [required: true]. *)
Definition normalizeText (value : jsval) (field : string) (max : nat) : js string :=
  let normalized := js_trim (str_coalesce value) in
  if is_empty normalized
  then fail ("activation_" +:+ field +:+ "_required") (field +:+ " is required.") 400 []
  else if max <? String.length normalized
  then fail ("activation_" +:+ field +:+ "_too_long")
         (field +:+ " exceeds " +:+ string_of_Z (Z.of_nat max) +:+ " characters.") 400 []
  else Ok normalized.

Definition assertActivationSuccessEvidenceType (evidenceType : jsval) : js string :=
  normalized ← normalizeText evidenceType "success_evidence_type" 80;
  if negb (sin normalized SUCCESS_EVIDENCE_TYPES)
  then fail "activation_success_evidence_type_invalid"
    (normalized +:+ " cannot authorize an active Activation classification.") 409
    [("evidence_type", VStr normalized);
     ("allowed_types", VArr (List.map VStr SUCCESS_EVIDENCE_TYPES))]
  else Ok normalized.

(** [{ verified: true, operation_id, evidence_operation_id }] *)
Definition assertSameActivationOperationEvidence (operation_id evidence_operation_id
    evidence_verified : jsval) : js (string * string) :=
  operationId ← normalizeText operation_id "operation_id" 36;
  evidenceOperationId ← normalizeText evidence_operation_id "evidence_operation_id" 36;
  if negb (is_true evidence_verified) || negb (String.eqb evidenceOperationId operationId)
  then fail "activation_same_operation_evidence_required"
    "Active classification requires verified evidence from the same Activation operation." 409
    [("operation_id", VStr operationId); ("evidence_operation_id", VStr evidenceOperationId);
     ("evidence_verified", VBool (is_true evidence_verified))]
  else Ok (operationId, evidenceOperationId).

Record RetryAuthorization := {
  ra_source_status : op_status;
  ra_scheduled_status : op_status;
  ra_target_status : op_status;
  ra_approval_ref : string;
  ra_requires_new_stage_attempt : bool;
  ra_blind_replay_allowed : bool;
}.

(** The status a normalized text names; [classifyActivationOperationState] has
    thrown on a text that names none. *)
Definition status_of_text (s : string) : option op_status :=
  List.find (fun st => String.eqb (status_str st) s) ACTIVATION_OPERATION_STATUSES.

Definition authorizeActivationRetryRequest (args : jsobj) : js RetryAuthorization :=
  operationText ← normalizeText (oget args "operation_status") "operation_status" 64;
  _ ← classifyActivationOperationState (VStr operationText);
  operationStatus ← normalize_op (VStr operationText) "operation_status";
  let details := [("operation_status", VStr (status_str operationStatus))] in
  if has operationStatus ACTIVATION_OPERATION_TERMINAL_WITHOUT_RETRY
  then fail "activation_retry_terminal" ("Activation operation cannot retry from terminal state "
         +:+ status_str operationStatus +:+ ".") 409 details
  else if bool_decide (operationStatus = unknown_outcome)
  then fail "activation_reconciliation_required"
         "Unknown Activation outcome must be reconciled before any retry is scheduled." 409 details
  else if bool_decide (operationStatus = reconciling)
  then fail "activation_reconciliation_in_progress"
         "Activation reconciliation must finish before retry scheduling." 409 details
  else if negb (has operationStatus ACTIVATION_OPERATION_STABLE_RETRY_STATES)
  then fail "activation_retry_source_state_invalid"
         ("Activation retry cannot be scheduled from " +:+ status_str operationStatus +:+ ".")
         409 details
  else if negb (is_true (oget args "governed_retry_approved"))
  then fail "activation_governed_retry_approval_required"
         ("Activation retry from " +:+ status_str operationStatus
            +:+ " requires a governed approval.") 403 details
  else
    targetText ← normalizeText (oget args "target_status") "retry_target_status" 64;
    targetStatus ← match List.find (fun s => String.eqb (status_str s) targetText) RETRY_TARGETS with
      | Some t => Ok t
      | None => fail "activation_retry_target_invalid"
          (targetText +:+ " is not a declared retry target.") 400
          [("target_status", VStr targetText);
           ("allowed_targets", VArr (List.map (fun s => VStr (status_str s)) RETRY_TARGETS))]
      end;
    approvalRef ← normalizeText (oget args "approval_ref") "retry_approval_ref" 500;
    Ok {| ra_source_status := operationStatus; ra_scheduled_status := retry_scheduled;
          ra_target_status := targetStatus; ra_approval_ref := approvalRef;
          ra_requires_new_stage_attempt := true; ra_blind_replay_allowed := false |}.

Record ReconciliationDecision := {
  rd_outcome : reconciliation_outcome;
  rd_operation_status : op_status;
  rd_retry_allowed : bool;
  rd_governed_retry_required : bool;
  rd_reconciliation_required : bool;
}.

Definition resolveActivationReconciliationOutcome (args : jsobj) : js ReconciliationDecision :=
  outcomeText ← normalizeText (oget args "outcome") "reconciliation_outcome" 64;
  normalizedOutcome ←
    match List.find (fun o => String.eqb (outcome_str o) outcomeText) RECONCILIATION_OUTCOMES with
    | Some o => Ok o
    | None => fail "activation_reconciliation_outcome_invalid"
        (outcomeText +:+ " is not a declared reconciliation outcome.") 400
        [("outcome", VStr outcomeText)]
    end;
  match normalizedOutcome with
  | oc_executed =>
      _ ← assertSameActivationOperationEvidence (oget args "operation_id")
            (oget_default args "evidence_operation_id" VNull)
            (oget_default args "evidence_verified" (VBool false));
      _ ← assertActivationSuccessEvidenceType (oget_default args "evidence_type" VNull);
      Ok {| rd_outcome := oc_executed; rd_operation_status := active; rd_retry_allowed := false;
            rd_governed_retry_required := false; rd_reconciliation_required := false |}
  | oc_not_executed =>
      Ok {| rd_outcome := oc_not_executed; rd_operation_status := degraded;
            rd_retry_allowed := true; rd_governed_retry_required := true;
            rd_reconciliation_required := false |}
  | oc_conflicting =>
      Ok {| rd_outcome := oc_conflicting; rd_operation_status := failed;
            rd_retry_allowed := false; rd_governed_retry_required := true;
            rd_reconciliation_required := false |}
  | oc_still_unknown =>
      Ok {| rd_outcome := oc_still_unknown; rd_operation_status := unknown_outcome;
            rd_retry_allowed := false; rd_governed_retry_required := false;
            rd_reconciliation_required := true |}
  | oc_failed =>
      Ok {| rd_outcome := oc_failed; rd_operation_status := degraded;
            rd_retry_allowed := false; rd_governed_retry_required := true;
            rd_reconciliation_required := false |}
  end.

(** ** Runs

    One step of an operation: a declared transition, or the scheduling of an
    approved retry. *)
Inductive op_label := LTransition | LRetry (approval_ref : string).

#[export] Instance op_label_eq_dec : EqDecision op_label.
Proof using Type. solve_decision. Defined.

Inductive op_step : op_status -> op_label -> op_status -> Prop :=
| step_transition f t from to :
    assertActivationOperationTransition f t = Ok (from, to) -> op_step from LTransition to
| step_retry args ra :
    authorizeActivationRetryRequest args = Ok ra ->
    op_step (ra_source_status ra) (LRetry (ra_approval_ref ra)) (ra_scheduled_status ra).

Inductive op_run : op_status -> list op_label -> op_status -> Prop :=
| run_nil s : op_run s [] s
| run_cons s l s' ls s'' : op_step s l s' -> op_run s' ls s'' -> op_run s (l :: ls) s''.

(** ** Lemmas *)

Lemma has_true {A} `{EqDecision A} (s : A) l : has s l = true <-> s ∈ l.
Proof. unfold has. apply bool_decide_eq_true. Qed.

Lemma normalize_op_str s f : normalize_op (VStr (status_str s)) f = Ok s.
Proof. by destruct s; vm_compute. Qed.

Lemma find_name_Ok {A} (name : A -> string) x l s :
  List.find (fun s => String.eqb (name s) x) l = Some s -> s ∈ l /\ name s = x.
Proof.
  intros [Hin Hs]%List.find_some. split; [by apply list_elem_of_In | by apply String.eqb_eq].
Qed.

Lemma normalize_op_Ok v f s : normalize_op v f = Ok s -> js_trim (str_coalesce v) = status_str s.
Proof.
  unfold normalize_op, normalizeStatus. destruct (List.find _ _) eqn:Hf; intros Heq; inv_outcome; [|done].
  by apply find_name_Ok in Hf as [_ <-].
Qed.

Lemma assertTransition_str from to :
  assertActivationOperationTransition (VStr (status_str from)) (VStr (status_str to))
  = if has to (ACTIVATION_OPERATION_TRANSITIONS from) then Ok (from, to)
    else assertActivationOperationTransition (VStr (status_str from)) (VStr (status_str to)).
Proof. destruct from, to; vm_compute; reflexivity. Qed.

Lemma assertTransition_Ok f t from to :
  assertActivationOperationTransition f t = Ok (from, to) ->
  to ∈ ACTIVATION_OPERATION_TRANSITIONS from.
Proof.
  unfold assertActivationOperationTransition. intros Heq. inv_outcome.
  repeat match type of Heq with context [if ?b then _ else _] => destruct b eqn:?; [done|] end.
  injection Heq as -> ->. split_bool. by apply has_true.
Qed.

Lemma step_transition_iff from to :
  op_step from LTransition to <-> to ∈ ACTIVATION_OPERATION_TRANSITIONS from.
Proof.
  split.
  - inversion 1; subst. by eapply assertTransition_Ok.
  - intros Hin%has_true. eapply (step_transition (VStr (status_str from)) (VStr (status_str to))).
    rewrite assertTransition_str. by rewrite Hin.
Qed.

Lemma normalizeText_Ok v f m s : normalizeText v f m = Ok s ->
  s = js_trim (str_coalesce v) /\ s <> "" /\ String.length s <= m.
Proof.
  unfold normalizeText. destruct (is_empty _) eqn:He; [done|].
  destruct (m <? _) eqn:Hl; [done|]. intros [= <-].
  apply is_empty_false in He. apply Nat.ltb_ge in Hl. done.
Qed.

Lemma assertSameEvidence_Ok o e v r : assertSameActivationOperationEvidence o e v = Ok r ->
  v = VBool true /\ js_trim (str_coalesce e) = js_trim (str_coalesce o).
Proof.
  unfold assertSameActivationOperationEvidence. intros Heq. inv_outcome.
  destruct (negb (is_true v) || _) eqn:Hv; [done|]. split_bool.
  apply normalizeText_Ok in H0 as (-> & _), H1 as (-> & _).
  split; [by apply is_true_true | by apply String.eqb_eq].
Qed.

Lemma assertSuccessType_Ok v s : assertActivationSuccessEvidenceType v = Ok s ->
  js_trim (str_coalesce v) ∈ SUCCESS_EVIDENCE_TYPES.
Proof.
  unfold assertActivationSuccessEvidenceType. intros Heq. inv_outcome.
  destruct (negb (sin _ _)) eqn:Hv; [done|]. split_bool.
  apply normalizeText_Ok in H0 as (-> & _). by apply sin_true.
Qed.

Lemma str_coalesce_default args k : str_coalesce (oget_default args k VNull) = str_coalesce (oget args k).
Proof. unfold oget_default. by destruct (oget args k). Qed.

Lemma authorizeRetry_Ok args ra : authorizeActivationRetryRequest args = Ok ra ->
  ra_source_status ra ∈ ACTIVATION_OPERATION_STABLE_RETRY_STATES /\
  ra_scheduled_status ra = retry_scheduled /\ ra_target_status ra ∈ RETRY_TARGETS /\
  oget args "governed_retry_approved" = VBool true /\
  ra_approval_ref ra <> "" /\ String.length (ra_approval_ref ra) <= 500 /\
  js_trim (str_coalesce (oget args "operation_status")) = status_str (ra_source_status ra).
Proof.
  unfold authorizeActivationRetryRequest. intros Heq. inv_outcome.
  repeat match type of Heq with context [if ?b then _ else _] => destruct b eqn:?; [done|] end.
  inv_outcome. split_bool. simpl.
  destruct (List.find _ RETRY_TARGETS) as [t|] eqn:Ht in H4; [|done]. injection H4 as ->.
  apply find_name_Ok in Ht as [Ht _].
  apply normalizeText_Ok in H5 as (_ & He & Hl). apply normalizeText_Ok in H0 as (-> & _).
  apply normalize_op_Ok in H2. rewrite str_coalesce_str, js_trim_idemp in H2.
  split; [by apply has_true|]. split; [done|]. split; [done|].
  split; [by apply is_true_true|]. split; [done|]. split; [done|]. done.
Qed.

Lemma step_retry_inv s r t : op_step s (LRetry r) t ->
  s ∈ ACTIVATION_OPERATION_STABLE_RETRY_STATES /\ t = retry_scheduled /\ r <> "".
Proof.
  inversion 1 as [|args ra Hra]; subst.
  destruct (authorizeRetry_Ok _ _ Hra) as (? & -> & _ & _ & ? & _). done.
Qed.

Lemma run_app s1 l1 s2 l2 s3 : op_run s1 l1 s2 -> op_run s2 l2 s3 -> op_run s1 (l1 ++ l2) s3.
Proof. induction 1; simpl; eauto using op_run. Qed.

(** ** Classification *)

(** [classifyActivationOperationState] never reports a missing
    classification: on a declared status it returns the unique class that
    lists it, and the stable reported statuses are exactly the terminal ones
    and the ones a governed retry may leave, with nothing in common. *)
Theorem classification_total_exclusive s :
  (exists c, classifyActivationOperationState (VStr (status_str s)) = Ok c /\
    (c = "core_nonterminal" <-> s ∈ ACTIVATION_OPERATION_CORE_NONTERMINAL_STATES) /\
    (c = "aggregate_overlay" <-> s ∈ ACTIVATION_OPERATION_AGGREGATE_OVERLAY_STATES) /\
    (c = "stable_reported" <-> s ∈ ACTIVATION_OPERATION_STABLE_REPORTED_STATES)) /\
  (s ∈ ACTIVATION_OPERATION_STABLE_REPORTED_STATES <->
     s ∈ ACTIVATION_OPERATION_TERMINAL_WITHOUT_RETRY \/
     s ∈ ACTIVATION_OPERATION_STABLE_RETRY_STATES) /\
  ~ (s ∈ ACTIVATION_OPERATION_TERMINAL_WITHOUT_RETRY /\
     s ∈ ACTIVATION_OPERATION_STABLE_RETRY_STATES).
Proof using All.
  split.
  - unfold classifyActivationOperationState. rewrite normalize_op_str.
    destruct s; eexists; (split; [reflexivity|]); rewrite <- !has_true; vm_compute;
      repeat split; intros; congruence.
  - rewrite <- !has_true. destruct s; vm_compute; repeat split; intros; intuition congruence.
Qed.

(** [assertActivationOperationTransition] on two declared statuses returns
    exactly when the transition is in the table, and otherwise throws a
    conflict (status 409) whose code names the first guard that failed: an
    overlay, a terminal state, a state that needs a governed retry, or an
    undeclared transition. *)
Theorem assertActivationOperationTransition_spec from to :
  match assertActivationOperationTransition (VStr (status_str from)) (VStr (status_str to)) with
  | Ok r => r = (from, to) /\ to ∈ ACTIVATION_OPERATION_TRANSITIONS from
  | Throw (CodedErr code status _ details) =>
      (to ∉ ACTIVATION_OPERATION_TRANSITIONS from) /\ status = 409%Z /\ details = from_to from to /\
      code = (
        if has from ACTIVATION_OPERATION_AGGREGATE_OVERLAY_STATES
           || has to ACTIVATION_OPERATION_AGGREGATE_OVERLAY_STATES
        then "activation_operation_overlay_transition_invalid"
        else if has from ACTIVATION_OPERATION_TERMINAL_WITHOUT_RETRY
        then "activation_operation_terminal"
        else if has from ACTIVATION_OPERATION_STABLE_RETRY_STATES
        then "activation_operation_governed_retry_required"
        else "activation_operation_transition_invalid")
  | Throw _ => False
  end.
Proof using All.
  destruct from, to;
    (lazymatch goal with |- match ?x with _ => _ end =>
       let r := eval vm_compute in x in change x with r end);
    cbv beta iota; rewrite <- has_true; vm_compute; repeat split; done.
Qed.

(** ** Safety of runs *)

(** Statuses an operation may have had since it started executing, as long as
    no retry was approved. *)
Definition after_execution : list op_status :=
  [readback_pending; unknown_outcome; reconciling; active; degraded; failed; cancelled].

Lemma after_execution_closed s t :
  s ∈ executing :: after_execution -> op_step s LTransition t -> t ∈ after_execution.
Proof using All.
  rewrite step_transition_iff, <- !has_true. destruct s, t; vm_compute; done.
Qed.

Lemma run_after_execution s ls t :
  op_run s ls t -> s ∈ after_execution -> (forall r, LRetry r ∉ ls) -> t ∈ after_execution.
Proof using All.
  induction 1 as [|s l s' ls s'' Hs Hrun IH]; [done|]. intros Hin Hno.
  destruct l as [|r]; [|by destruct (Hno r); apply list_elem_of_here].
  apply IH; [eapply after_execution_closed; [by apply list_elem_of_further | done]|].
  intros r Hr. apply (Hno r). by apply list_elem_of_further.
Qed.

(** C3: no blind replay: an operation that has started executing executes
    again only if the run in between contains a retry with a non-empty
    approval reference. *)
Theorem no_blind_replay ls :
  op_run executing ls executing -> ls <> [] -> exists r, LRetry r ∈ ls /\ r <> "".
Proof using All.
  intros Hrun Hne. destruct (decide (Exists (fun l => l <> LTransition) ls)) as [Hex|Hno].
  - apply Exists_exists in Hex as (l & Hl & Hlt). destruct l as [|r]; [done|]. exists r. split; [done|].
    clear Hne. revert Hl. induction Hrun as [|s l s' ls s'' Hs Hrun IH]; [set_solver|].
    intros [<-|Hl]%elem_of_cons; [|by apply IH]. by apply step_retry_inv in Hs as (_ & _ & ?).
  - exfalso. inversion Hrun as [|? l s' ls' ? Hs Hrest]; subst; [done|].
    assert (forall r, LRetry r ∉ l :: ls') as Hnr.
    { intros r Hr. apply Hno. apply Exists_exists. exists (LRetry r). done. }
    destruct l as [|r]; [|by destruct (Hnr r); apply list_elem_of_here].
    apply run_after_execution in Hrest.
    + rewrite <- has_true in Hrest. vm_compute in Hrest. done.
    + eapply after_execution_closed; [|done]. apply list_elem_of_here.
    + intros r Hr. apply (Hnr r). by apply list_elem_of_further.
Qed.

(** The statuses an operation created by the program can have. *)
Definition live_status (s : op_status) : bool :=
  negb (has s ACTIVATION_OPERATION_AGGREGATE_OVERLAY_STATES) && negb (bool_decide (s = rolled_back)).

Lemma live_step s l t : op_step s l t -> live_status t = true.
Proof using All.
  destruct l as [|r].
  - rewrite step_transition_iff, <- has_true. destruct s, t; vm_compute; done.
  - intros (_ & -> & _)%step_retry_inv. done.
Qed.

(** Along every run of a new operation: the status is never an aggregate
    overlay and never [rolled_back], no step leaves a terminal status, and an
    unknown outcome can only go to reconciliation. *)
Theorem op_run_safety ls s :
  op_run created ls s ->
  (s ∉ ACTIVATION_OPERATION_AGGREGATE_OVERLAY_STATES) /\ s <> rolled_back /\
  (s ∈ ACTIVATION_OPERATION_TERMINAL_WITHOUT_RETRY -> forall l t, ~ op_step s l t) /\
  (s = unknown_outcome -> forall l t, op_step s l t -> l = LTransition /\ t = reconciling).
Proof using All.
  intros Hrun.
  assert (live_status s = true) as Hlive.
  { assert (live_status created = true) as H0 by done. revert H0.
    induction Hrun as [|s1 l s2 ls s3 Hs Hr IH]; [done|]. intros _. apply IH. by eapply live_step. }
  unfold live_status in Hlive. split_bool. apply bool_decide_eq_false in H1.
  split; [by intros Hin; apply has_true in Hin; congruence|]. split; [done|]. split.
  - intros Ht%has_true l t Hst. destruct l as [|r].
    + apply step_transition_iff, has_true in Hst. destruct s, t; vm_compute in Ht, Hst; done.
    + apply step_retry_inv in Hst as (Hsr%has_true & _). destruct s; vm_compute in Ht, Hsr; done.
  - intros -> l t Hst. destruct l as [|r].
    + apply step_transition_iff, has_true in Hst. destruct t; vm_compute in Hst; done.
    + apply step_retry_inv in Hst as (Hsr%has_true & _). done.
Qed.

(** ** Liveness *)

Fixpoint path_ok (s : op_status) (l : list op_status) : bool :=
  match l with
  | [] => bool_decide (s = active)
  | t :: l' => has t (ACTIVATION_OPERATION_TRANSITIONS s) && path_ok t l'
  end.

Lemma path_run s l : path_ok s l = true -> exists ls, op_run s ls active.
Proof using All.
  revert s; induction l as [|t l IH]; intros s; simpl.
  - intros ->%bool_decide_eq_true. exists []. constructor.
  - intros [Ht%has_true Hl]%andb_true_iff. destruct (IH t Hl) as [ls Hls].
    exists (LTransition :: ls). econstructor; [by apply step_transition_iff | done].
Qed.

Definition retry_args (s : op_status) : jsobj :=
  [("operation_status", VStr (status_str s)); ("target_status", VStr "validating");
   ("governed_retry_approved", VBool true); ("approval_ref", VStr "approval-1")].

Lemma retry_possible s : s ∈ ACTIVATION_OPERATION_STABLE_RETRY_STATES ->
  op_step s (LRetry "approval-1") retry_scheduled.
Proof using All.
  intros Hs%has_true.
  assert (exists ra, authorizeActivationRetryRequest (retry_args s) = Ok ra /\
    ra_source_status ra = s /\ ra_scheduled_status ra = retry_scheduled /\
    ra_approval_ref ra = "approval-1") as (ra & Hra & <- & <- & <-).
  { destruct s; vm_compute in Hs; try done; eexists; split; vm_compute; done. }
  by eapply step_retry.
Qed.

(** C39: no operation is stuck: from every status that is neither an overlay
    nor terminal there is a run to [active], with a governed retry where the
    state machine asks for one. *)
Theorem active_reachable s :
  s ∉ ACTIVATION_OPERATION_AGGREGATE_OVERLAY_STATES ->
  s ∉ ACTIVATION_OPERATION_TERMINAL_WITHOUT_RETRY ->
  exists ls, op_run s ls active.
Proof using All.
  intros Ho Ht.
  assert (exists ls, op_run retry_scheduled ls active) as [ls Hls]
    by (apply (path_run _ [validating; ready; active]); reflexivity).
  destruct (decide (s ∈ ACTIVATION_OPERATION_STABLE_RETRY_STATES)) as [Hs|Hs].
  - exists (LRetry "approval-1" :: ls). econstructor; [by apply retry_possible | done].
  - apply (path_run _ (match s with
      | created => [authorized; resolving_session; bootstrapping; ready; active]
      | authenticating => [authorized; resolving_session; bootstrapping; ready; active]
      | authorized => [resolving_session; bootstrapping; ready; active]
      | resolving_session => [bootstrapping; ready; active]
      | ready | readback_pending | reconciling => [active]
      | executing => [readback_pending; active]
      | unknown_outcome => [reconciling; active]
      | retry_scheduled => [validating; ready; active]
      | _ => [ready; active] end)).
    rewrite <- has_true in Ho, Ht, Hs. destruct s; vm_compute in Ho, Ht, Hs |- *; done.
Qed.

(** ** Reconciliation *)

(** C27: a reconciliation outcome accepted by
    [resolveActivationReconciliationOutcome] is a declared transition of the
    reconciling state, so the service's own transition check cannot reject it;
    it makes the operation active only with verified evidence of the same
    operation and of a success type; it allows a retry only under governance;
    and the outcome is still unknown exactly when reconciliation stays
    required. *)
Theorem reconciliation_outcome_sound args d :
  resolveActivationReconciliationOutcome args = Ok d ->
  op_step reconciling LTransition (rd_operation_status d) /\
  (rd_operation_status d = active ->
     oget args "evidence_verified" = VBool true /\
     js_trim (str_coalesce (oget args "evidence_operation_id"))
       = js_trim (str_coalesce (oget args "operation_id")) /\
     js_trim (str_coalesce (oget args "evidence_type")) ∈ SUCCESS_EVIDENCE_TYPES) /\
  (rd_retry_allowed d = true -> rd_governed_retry_required d = true) /\
  (rd_reconciliation_required d = true <-> rd_operation_status d = unknown_outcome).
Proof using All.
  unfold resolveActivationReconciliationOutcome. intros Heq.
  apply bind_Ok in Heq as (t & _ & Heq). apply bind_Ok in Heq as (o & _ & Heq).
  destruct o; inv_outcome; simpl; (split; [by apply step_transition_iff, has_true|]);
    (split; [|split; done]); try done.
  intros _. apply assertSameEvidence_Ok in H0 as [Hv Hop]. apply assertSuccessType_Ok in H1.
  rewrite !str_coalesce_default in *. split; [|done].
  unfold oget_default in Hv. by destruct (oget args "evidence_verified").
Qed.

(** [authorizeActivationRetryRequest] accepts only a stable retry status
    with an explicit approval and a reference of at most 500 characters, the
    accepted target is a declared transition of [retry_scheduled], and a
    request from an unknown outcome or a running reconciliation always
    throws. *)
Theorem authorizeActivationRetryRequest_sound args :
  (forall ra, authorizeActivationRetryRequest args = Ok ra ->
     ra_source_status ra ∈ ACTIVATION_OPERATION_STABLE_RETRY_STATES /\
     op_step (ra_scheduled_status ra) LTransition (ra_target_status ra) /\
     oget args "governed_retry_approved" = VBool true /\
     ra_approval_ref ra <> "" /\ String.length (ra_approval_ref ra) <= 500) /\
  (js_trim (str_coalesce (oget args "operation_status")) ∈ ["unknown_outcome"; "reconciling"] ->
     exists e, authorizeActivationRetryRequest args = Throw e).
Proof using All.
  split.
  - intros ra (? & Hsch & Ht & ? & ? & ? & _)%authorizeRetry_Ok. rewrite Hsch.
    rewrite step_transition_iff. done.
  - intros Hin. destruct (authorizeActivationRetryRequest args) as [ra|e] eqn:Heq; [|by exists e].
    exfalso. apply authorizeRetry_Ok in Heq as (Hs%has_true & _ & _ & _ & _ & _ & Hname).
    rewrite Hname in Hin. apply sin_true in Hin.
    destruct (ra_source_status ra); vm_compute in Hs, Hin; done.
Qed.
End Host.

(** ** Witnesses *)

Lemma no_blind_replay_witness :
  exists ls, @op_run demo_host executing ls executing /\ exists r, LRetry r ∈ ls /\ r <> "".
Proof.
  assert (@op_run demo_host executing [LTransition; LRetry "approval-1"; LTransition] executing) as Hrun.
  { eapply run_cons; [by apply (step_transition_iff executing failed), has_true|].
    eapply run_cons; [by apply retry_possible, has_true|].
    eapply run_cons; [by apply (step_transition_iff retry_scheduled executing), has_true|].
    constructor. }
  eexists. split; [exact Hrun|]. apply (@no_blind_replay demo_host _ Hrun). discriminate.
Defined.

Lemma op_run_safety_witness :
  @op_run demo_host created [LTransition; LTransition] cancelled /\
  forall l t, ~ @op_step demo_host cancelled l t.
Proof.
  assert (@op_run demo_host created [LTransition; LTransition] cancelled) as Hrun.
  { eapply run_cons; [by apply (step_transition_iff created authorized), has_true|].
    eapply run_cons; [by apply (step_transition_iff authorized cancelled), has_true|]. constructor. }
  split; [exact Hrun|].
  destruct (@op_run_safety demo_host _ _ Hrun) as (_ & _ & Hterm & _).
  apply Hterm. by apply has_true.
Defined.

Lemma active_reachable_witness : exists ls, @op_run demo_host contract_degraded ls active.
Proof.
  apply (@active_reachable demo_host contract_degraded); intros Hin%has_true; vm_compute in Hin; done.
Defined.

Definition demo_reconciliation : jsobj :=
  [("outcome", VStr "executed"); ("operation_id", VStr "op-1");
   ("evidence_operation_id", VStr " op-1 "); ("evidence_verified", VBool true);
   ("evidence_type", VStr "provider_readback")].

Lemma reconciliation_outcome_sound_witness :
  exists d, @resolveActivationReconciliationOutcome demo_host demo_reconciliation = Ok d /\
    rd_operation_status d = active /\
    @op_step demo_host reconciling LTransition (rd_operation_status d).
Proof.
  eexists. split; [vm_compute; reflexivity|]. split; [reflexivity|].
  apply (@reconciliation_outcome_sound demo_host demo_reconciliation). vm_compute. reflexivity.
Defined.

Lemma authorizeActivationRetryRequest_sound_witness :
  exists e, @authorizeActivationRetryRequest demo_host
    [("operation_status", VStr "unknown_outcome"); ("governed_retry_approved", VBool true)] = Throw e.
Proof.
  apply (@authorizeActivationRetryRequest_sound demo_host
    [("operation_status", VStr "unknown_outcome"); ("governed_retry_approved", VBool true)]).
  apply sin_true. vm_compute. reflexivity.
Defined.
