(* ===== verification/EvidenceSupport.v ===== *)
(** * Validators shared by the evidence policies of the context kernel

    policyGrantDecision.js, endpointCertificationDecision.js,
    resourceGraphPolicy.js and supportDelegationPolicy.js each open with the
    same helpers on untyped fields; they are defined once here. *)
From S2P Require Import Prelude Sorting JsString JsDate JsValue ContextModel.

(** The evidence normalisers return [{ value }] or [{ errorCode }]. *)
Abbreviation coded := (outcome string).

Section Support.
Context `{JsHost}.

(** [requireString(value, field, maximumLength = 191)] *)
Definition requireString (value : jsval) (field : string) (maximumLength : nat) : js string :=
  let normalized := js_trim (str_coalesce value) in
  if is_empty normalized then type_error (field +:+ " must be a non-empty string.")
  else if maximumLength <? String.length normalized
  then type_error (field +:+ " must not exceed " +:+ string_of_Z (Z.of_nat maximumLength)
                     +:+ " characters.")
  else Ok normalized.

Definition requireIdentifier (value : jsval) (field : string) : js string :=
  normalized ← requireString value field 191;
  if negb (is_identifier normalized) then type_error (field +:+ " must be a stable identifier.")
  else Ok normalized.

Definition optionalIdentifier (value : jsval) (field : string) : js (option string) :=
  if is_blank value then Ok None
  else s ← requireIdentifier value field; Ok (Some s).

(** [optionalString(value, field, maximumLength)] *)
Definition optionalText (value : jsval) (field : string) (maximumLength : nat)
    : js (option string) :=
  if is_blank value then Ok None
  else s ← requireString value field maximumLength; Ok (Some s).

(** [normalizeTimestamp(value, field, { required })] *)
Definition normalizeTimestamp (value : jsval) (field : string) (required : bool)
    : js (option Z) :=
  if is_blank value then
    if required then type_error (field +:+ " must be a valid timestamp.") else Ok None
  else match js_Date value with
       | Some t => Ok (Some t)
       | None => type_error (field +:+ " must be a valid timestamp.")
       end.

(** [normalizeTimestamp(value, field)] where no blank is accepted. *)
Definition requireTimestamp (value : jsval) (field : string) : js Z :=
  match js_Date value with
  | Some t => Ok t
  | None => type_error (field +:+ " must be a valid timestamp.")
  end.

(** The validity window of a record: [validFrom <= now < validUntil]. *)
Definition in_window (validFrom validUntil : option Z) (now : Z) : bool :=
  negb (match validFrom with Some f => Z.ltb now f | None => false end)
  && negb (match validUntil with Some u => Z.leb u now | None => false end).

(** The parameter of a function that destructures its argument. *)
Definition destructured (v : jsval) : js jsobj :=
  match v with
  | VUndef => Ok []
  | VNull => type_error "Cannot destructure 'undefined' as it is undefined."
  | VObj o => Ok o
  | _ => Ok []
  end.

(** The header of an evidence snapshot: [sourceEvidence]. *)
Record SourceEvidence := {
  se_sourceRef : option string;
  se_versionRef : option string;
  se_evaluatedAt : string;
  se_expiresAt : string;
}.

(** [capturedAt], [expiresAt] and [sourceEvidence] of a snapshot. *)
Definition readSourceEvidence (snapshot : jsval) : js (Z * Z * SourceEvidence) :=
  capturedAt ← normalizeTimestamp (vget snapshot "evaluatedAt") "snapshot.evaluatedAt" true;
  expiresAt ← normalizeTimestamp (vget snapshot "expiresAt") "snapshot.expiresAt" true;
  sourceRef ← optionalIdentifier (vget snapshot "sourceRef") "snapshot.sourceRef";
  versionRef ← optionalIdentifier (vget snapshot "versionRef") "snapshot.versionRef";
  match capturedAt, expiresAt with
  | Some c, Some e =>
      Ok (c, e, {| se_sourceRef := sourceRef; se_versionRef := versionRef;
                   se_evaluatedAt := toISOString c; se_expiresAt := toISOString e |})
  | _, _ => type_error "Cannot read properties of null (reading 'toISOString')"
  end.

(** [try { return m } catch { return { errorCode: code } }] *)
Definition catch_code {A} (m : js (coded A)) (code : string) : coded A :=
  match m with Ok r => r | Throw _ => Throw code end.

(** The loop over the records of an evidence list: the first error code wins,
    and a reference met twice is ambiguous. *)
Fixpoint collect_records {R} (normalizeRecord : jsval -> coded R) (ref : R -> string)
    (ambiguousCode : string) (references : list string) (records : list jsval) : coded (list R) :=
  match records with
  | [] => Ok []
  | record :: rest =>
      value ← normalizeRecord record;
      throw_if (sin (ref value) references) ambiguousCode;;
      normalized ← collect_records normalizeRecord ref ambiguousCode
                     (ref value :: references) rest;
      Ok (value :: normalized)
  end.

(** ** Lemmas *)

Lemma collect_records_Ok {R} (f : jsval -> coded R) ref amb refs l rs :
  collect_records f ref amb refs l = Ok rs <->
  Forall2 (fun x r => f x = Ok r) l rs /\ NoDup (List.map ref rs) /\
  (forall r, r ∈ rs -> ref r ∉ refs).
Proof.
  revert refs rs. induction l as [|x l IH]; intros refs rs; simpl.
  - split.
    + intros [= <-]. split; [constructor|]. split; [constructor|]. by intros r ?%elem_of_nil.
    + intros (Hf & _). by inversion Hf.
  - rewrite bind_Ok. setoid_rewrite bind_Ok. setoid_rewrite throw_if_Ok.
    setoid_rewrite bind_Ok. split.
    + intros (r & Hr & [] & Hs%sin_false & rs' & (Hf & Hnd & Hrefs)%IH & [= <-]).
      split; [by constructor|]. split.
      * simpl. constructor; [|done]. intros (r' & Heq & Hin)%list_elem_of_In%in_map_iff.
        apply (Hrefs r'); [by apply list_elem_of_In | rewrite Heq; apply list_elem_of_here].
      * intros r' [->|Hin]%elem_of_cons; [done|]. intros Hb. apply (Hrefs r' Hin).
        by apply list_elem_of_further.
    + intros (Hf & Hnd & Hrefs). inversion Hf as [|? r ? rs' Hr Hf']; subst.
      simpl in Hnd. apply NoDup_cons in Hnd as [Hni Hnd].
      exists r. split; [done|]. exists tt. split; [apply sin_false, Hrefs, list_elem_of_here|].
      exists rs'. split; [|done]. apply IH. split; [done|]. split; [done|].
      intros r' Hin [Heq|Hb]%elem_of_cons.
      * apply Hni. rewrite <- Heq. apply list_elem_of_In, in_map, list_elem_of_In, Hin.
      * by apply (Hrefs r' (list_elem_of_further _ _ _ Hin)).
Qed.

(** A permutation of the records normalises to a permutation. *)
Lemma collect_records_Permutation {R} (f : jsval -> coded R) ref amb l l' rs :
  l ≡ₚ l' -> collect_records f ref amb [] l = Ok rs ->
  exists rs', collect_records f ref amb [] l' = Ok rs' /\ rs ≡ₚ rs'.
Proof.
  intros Hp (Hf & Hnd & _)%collect_records_Ok.
  destruct (Forall2_Permutation_l (fun x r => f x = Ok r) l l' rs Hf Hp) as (rs' & Hrs & Hf').
  exists rs'. split; [|done]. apply collect_records_Ok. split; [done|]. split.
  - by rewrite <- (Permutation_map ref Hrs).
  - intros r _. apply not_elem_of_nil.
Qed.

Lemma readSourceEvidence_Ok v c e se : readSourceEvidence v = Ok (c, e, se) ->
  js_Date (vget v "evaluatedAt") = Some c /\ js_Date (vget v "expiresAt") = Some e /\
  se_evaluatedAt se = toISOString c /\ se_expiresAt se = toISOString e.
Proof.
  unfold readSourceEvidence, normalizeTimestamp. intros Heq. inv_outcome.
  destruct (is_blank (vget v "evaluatedAt")); [done|].
  destruct (is_blank (vget v "expiresAt")); [done|].
  destruct (js_Date (vget v "evaluatedAt")); [|done].
  destruct (js_Date (vget v "expiresAt")); [|done]. inv_outcome. done.
Qed.

Lemma requireString_Ok v f m s : requireString v f m = Ok s ->
  s = js_trim (str_coalesce v) /\ clean s /\ String.length s <= m.
Proof.
  unfold requireString. destruct (is_empty _) eqn:He; [done|].
  destruct (m <? _) eqn:Hl; [done|]. intros [= <-]. apply Nat.ltb_ge in Hl.
  split; [done|]. split; [by apply clean_trim | done].
Qed.

Lemma requireString_id s f m : clean s -> String.length s <= m ->
  requireString (VStr s) f m = Ok s.
Proof.
  intros [Ht Hne] Hl. unfold requireString. rewrite str_coalesce_str, Ht.
  rewrite (proj2 (is_empty_false s)) by done. by rewrite (proj2 (Nat.ltb_ge _ _) Hl).
Qed.

Lemma is_identifier_clean s : is_identifier s = true -> clean s /\ String.length s <= 191.
Proof.
  intros Hs. pose proof (is_identifier_trim s Hs). apply is_identifier_chars in Hs as (_ & ? & ?).
  done.
Qed.

Lemma requireIdentifier_Ok v f s : requireIdentifier v f = Ok s ->
  s = js_trim (str_coalesce v) /\ is_identifier s = true.
Proof.
  unfold requireIdentifier. intros Heq. inv_outcome.
  destruct (negb (is_identifier a)) eqn:Hi; [done|]. injection Heq as <-. split_bool.
  by apply requireString_Ok in H0 as (-> & _).
Qed.

Lemma requireIdentifier_id s f : is_identifier s = true -> requireIdentifier (VStr s) f = Ok s.
Proof.
  intros Hs. destruct (is_identifier_clean s Hs). unfold requireIdentifier.
  rewrite requireString_id by done. simpl. by rewrite Hs.
Qed.

Definition oident (o : option string) : Prop :=
  match o with Some s => is_identifier s = true | None => True end.

Lemma optionalIdentifier_Ok v f o : optionalIdentifier v f = Ok o -> oident o.
Proof.
  unfold optionalIdentifier. destruct (is_blank v); intros Heq; inv_outcome; [done|].
  simpl. by apply requireIdentifier_Ok in H0 as [_ ?].
Qed.

Lemma optionalIdentifier_id o f : oident o -> optionalIdentifier (js_of_ostr o) f = Ok o.
Proof.
  destruct o as [s|]; [|done]. simpl. intros Hs. unfold optionalIdentifier.
  destruct (is_identifier_clean s Hs) as [[_ Hne] _]. simpl.
  rewrite (proj2 (is_empty_false s)) by done. by rewrite requireIdentifier_id.
Qed.

Lemma normalizeTimestamp_valid v f r t : normalizeTimestamp v f r = Ok (Some t) ->
  valid_time t = true.
Proof.
  unfold normalizeTimestamp. destruct (is_blank v); [by destruct r|].
  destruct (js_Date v) eqn:Hd; [|done]. intros [= <-]. by eapply js_Date_valid.
Qed.

Lemma normalizeTimestamp_required v f o : normalizeTimestamp v f true = Ok o ->
  exists t, o = Some t.
Proof.
  unfold normalizeTimestamp. destruct (is_blank v); [done|].
  destruct (js_Date v); naive_solver.
Qed.

Lemma in_window_spec f u now : in_window f u now = true <->
  (forall x, f = Some x -> (x <= now)%Z) /\ (forall x, u = Some x -> (now < x)%Z).
Proof.
  unfold in_window. rewrite andb_true_iff, !negb_true_iff.
  split.
  - intros [Hf Hu]. split; intros x ->; lia.
  - intros [Hf Hu]. split; [destruct f as [x|] | destruct u as [x|]]; try done;
      [specialize (Hf x eq_refl) | specialize (Hu x eq_refl)]; lia.
Qed.
End Support.

#[global] Arguments requireString : simpl never.
#[global] Arguments requireIdentifier : simpl never.
#[global] Arguments optionalIdentifier : simpl never.
#[global] Arguments normalizeTimestamp : simpl never.
#[global] Arguments requireTimestamp : simpl never.
#[global] Arguments in_window : simpl never.
#[global] Arguments readSourceEvidence : simpl never.

#[export] Hint Resolve requireIdentifier_id optionalIdentifier_id : model_db.
