(* ===== verification/SupportDelegation.v ===== *)
(** * Support delegation (contextKernel/domain/supportDelegationPolicy.js)

    Evidence that a support actor may act for a tenant user, and its
    evaluation against a principal, a subject and an operation.  Proved:
    normalised evidence is a fixed point of normalisation, and the evaluation
    allows exactly when every one of the policy's conditions holds. *)
From S2P Require Import Prelude Sorting JsString JsDate JsValue ContextModel EvidenceSupport.

Definition SUPPORT_DELEGATION_MODES : list string :=
  ["support_impersonation"; "support_delegated_agent"].
Definition SUPPORT_DELEGATION_STATUSES : list string := ["active"; "revoked"].

Record SupportDelegationEvidence := {
  sd_delegationRef : string;
  sd_mode : string;
  sd_actorPrincipalRef : string;
  sd_subjectRef : string;
  sd_tenantRef : string;
  sd_workspaceRef : option string;
  sd_delegatedByPrincipalRef : option string;
  sd_reasonCode : string;
  sd_auditRef : string;
  sd_allowedOperations : list string;
  sd_validFrom : string;
  sd_expiresAt : string;
  sd_status : string;
  sd_revokedAt : option string;
}.

(** The result of the evaluation; [dd_actor] and [dd_effectiveSubject] are the
    fields copied from the principal and the subject. *)
Record SupportDelegationDecision := {
  dd_allowed : bool;
  dd_status : string;
  dd_reasonCodes : list string;
  dd_delegationRef : string;
  dd_mode : string;
  dd_actor : jsobj;
  dd_effectiveSubject : jsobj;
  dd_operationIntent : string;
  dd_tenantRef : string;
  dd_workspaceRef : option string;
  dd_reasonCode : string;
  dd_auditRef : string;
  dd_evaluatedAt : string;
  dd_auditRequired : bool;
  dd_runtimeAuthorityChanged : bool;
  dd_automaticWritePerformed : bool;
  dd_secretsIncluded : bool;
}.

(** The object literal [{ k1: v.k1, k2: v.k2, ... }]. *)
Definition pick (v : jsval) (keys : list string) : jsobj :=
  List.map (fun k => (k, vget v k)) keys.

Section Delegation.
Context `{JsHost}.

Definition normalizeOperations (values : jsval) : js (list string) :=
  match values with
  | VArr (v :: l) =>
      ss ← mapM_js (fun x => requireString x "allowedOperations" 191) (v :: l);
      Ok (unique_sorted ss)
  | _ => type_error "allowedOperations must contain at least one operation."
  end.

Definition createSupportDelegationEvidence (evidence : jsval) : js SupportDelegationEvidence :=
  args ← destructured evidence;
  mode ← requireString (oget args "mode") "mode" 64;
  let normalizedMode := js_toLowerCase mode in
  throw_if (negb (sin normalizedMode SUPPORT_DELEGATION_MODES))
    (TypeErr ("Unsupported support delegation mode: " +:+ normalizedMode));;
  status ← requireString (oget args "status") "status" 32;
  let normalizedStatus := js_toLowerCase status in
  throw_if (negb (sin normalizedStatus SUPPORT_DELEGATION_STATUSES))
    (TypeErr ("Unsupported support delegation status: " +:+ normalizedStatus));;
  reason ← requireString (oget args "reasonCode") "reasonCode" 191;
  let normalizedReasonCode := js_toUpperCase reason in
  throw_if (negb (is_reason_code normalizedReasonCode))
    (TypeErr "reasonCode must be a stable uppercase reason code.");;
  normalizedValidFrom ← requireTimestamp (oget args "validFrom") "validFrom";
  normalizedExpiresAt ← requireTimestamp (oget args "expiresAt") "expiresAt";
  throw_if (Z.leb normalizedExpiresAt normalizedValidFrom)
    (TypeErr "expiresAt must be later than validFrom.");;
  normalizedRevokedAt ← (if nullish (oget args "revokedAt") then Ok None
    else t ← requireTimestamp (oget args "revokedAt") "revokedAt"; Ok (Some t));
  throw_if (String.eqb normalizedStatus "revoked" && negb (bool_decide (is_Some normalizedRevokedAt)))
    (TypeErr "revokedAt is required when status is revoked.");;
  throw_if (String.eqb normalizedStatus "active" && bool_decide (is_Some normalizedRevokedAt))
    (TypeErr "Active delegation evidence cannot include revokedAt.");;
  normalizedDelegatedBy ← optionalText (oget_default args "delegatedByPrincipalRef" VNull)
    "delegatedByPrincipalRef" 191;
  throw_if (String.eqb normalizedMode "support_delegated_agent"
            && negb (bool_decide (is_Some normalizedDelegatedBy)))
    (TypeErr "delegatedByPrincipalRef is required for support_delegated_agent mode.");;
  delegationRef ← requireString (oget args "delegationRef") "delegationRef" 191;
  actorPrincipalRef ← requireString (oget args "actorPrincipalRef") "actorPrincipalRef" 191;
  subjectRef ← requireString (oget args "subjectRef") "subjectRef" 191;
  tenantRef ← requireString (oget args "tenantRef") "tenantRef" 191;
  workspaceRef ← optionalText (oget_default args "workspaceRef" VNull) "workspaceRef" 191;
  auditRef ← requireString (oget args "auditRef") "auditRef" 191;
  allowedOperations ← normalizeOperations (oget args "allowedOperations");
  Ok {| sd_delegationRef := delegationRef; sd_mode := normalizedMode;
        sd_actorPrincipalRef := actorPrincipalRef; sd_subjectRef := subjectRef;
        sd_tenantRef := tenantRef; sd_workspaceRef := workspaceRef;
        sd_delegatedByPrincipalRef := normalizedDelegatedBy;
        sd_reasonCode := normalizedReasonCode; sd_auditRef := auditRef;
        sd_allowedOperations := allowedOperations;
        sd_validFrom := toISOString normalizedValidFrom;
        sd_expiresAt := toISOString normalizedExpiresAt;
        sd_status := normalizedStatus; sd_revokedAt := toISOString <$> normalizedRevokedAt |}.

(** [Array.isArray(principal?.authorizedTenantRefs)] and the two [includes]. *)
Definition tenantIsAuthorized (principal : jsval) (tenantRef : string) : bool :=
  match vget principal "authorizedTenantRefs" with
  | VArr l => existsb (fun v => is_str v "*") l || existsb (fun v => is_str v tenantRef) l
  | _ => false
  end.

(** [t < Date.parse(iso)] and [t >= Date.parse(iso)] *)
Definition before_iso (t : Z) (iso : string) : bool :=
  match date_parse iso with Some u => Z.ltb t u | None => false end.
Definition from_iso (t : Z) (iso : string) : bool :=
  match date_parse iso with Some u => Z.leb u t | None => false end.

Definition when (b : bool) (code : string) : list string := if b then [code] else [].

(** The [reasonCodes] pushed by the checks, in order. *)
Definition delegation_reasons (principal effectiveSubject : jsval)
    (ev : SupportDelegationEvidence) (operation tenant : string) (workspace : option string)
    (evaluatedAt : Z) : list string :=
  (if String.eqb (sd_status ev) "revoked" || bool_decide (is_Some (sd_revokedAt ev))
   then ["SUPPORT_DELEGATION_REVOKED"]
   else when (negb (String.eqb (sd_status ev) "active")) "SUPPORT_DELEGATION_NOT_ACTIVE")
  ++ when (before_iso evaluatedAt (sd_validFrom ev)) "SUPPORT_DELEGATION_NOT_YET_ACTIVE"
  ++ when (from_iso evaluatedAt (sd_expiresAt ev)) "SUPPORT_DELEGATION_EXPIRED"
  ++ when (negb (sin operation (sd_allowedOperations ev)))
       "SUPPORT_DELEGATION_OPERATION_NOT_ALLOWED"
  ++ when (negb (is_str (vget principal "principalRef") (sd_actorPrincipalRef ev)))
       "SUPPORT_DELEGATION_ACTOR_MISMATCH"
  ++ when (negb (is_str (vget effectiveSubject "subjectRef") (sd_subjectRef ev)))
       "SUPPORT_DELEGATION_SUBJECT_MISMATCH"
  ++ when (negb (String.eqb tenant (sd_tenantRef ev))
           || negb (is_str (vget effectiveSubject "tenantRef") (sd_tenantRef ev)))
       "SUPPORT_DELEGATION_TENANT_MISMATCH"
  ++ when (match sd_workspaceRef ev with
           | Some w => negb (ostr_eqb workspace (Some w))
                       || negb (is_str (vget effectiveSubject "workspaceRef") w)
           | None => false
           end) "SUPPORT_DELEGATION_WORKSPACE_MISMATCH"
  ++ when (negb (tenantIsAuthorized principal (sd_tenantRef ev)))
       "SUPPORT_DELEGATION_TENANT_NOT_AUTHORIZED"
  ++ (if String.eqb (sd_mode ev) "support_impersonation" then
        when (negb (is_str (vget principal "principalType") "service_principal")
              || negb (is_str (vget (vget principal "attributes") "actorClass") "support"))
          "SUPPORT_IMPERSONATION_ACTOR_INVALID"
        ++ when (negb (strict_equal (vget effectiveSubject "delegatedByPrincipalRef")
                         (vget principal "principalRef")))
          "SUPPORT_IMPERSONATION_CHAIN_MISMATCH"
      else [])
  ++ (if String.eqb (sd_mode ev) "support_delegated_agent" then
        when (negb (is_str (vget principal "principalType") "delegated_agent")
              || negb (is_str (vget (vget principal "attributes") "actorClass") "agent"))
          "SUPPORT_DELEGATED_AGENT_ACTOR_INVALID"
        ++ when (negb (is_ostr (vget (vget principal "attributes") "delegatedByPrincipalRef")
                         (sd_delegatedByPrincipalRef ev))
                 || negb (is_ostr (vget effectiveSubject "delegatedByPrincipalRef")
                            (sd_delegatedByPrincipalRef ev)))
          "SUPPORT_DELEGATED_AGENT_CHAIN_MISMATCH"
      else []).

Definition evaluateSupportDelegation (args : jsobj) : js SupportDelegationDecision :=
  let principal := oget args "principal" in
  let effectiveSubject := oget args "effectiveSubject" in
  throw_if (negb (is_object principal)) (TypeErr "principal must be an object.");;
  throw_if (negb (is_object effectiveSubject)) (TypeErr "effectiveSubject must be an object.");;
  normalizedEvidence ← createSupportDelegationEvidence (oget args "evidence");
  normalizedOperation ← requireString (oget args "operationIntent") "operationIntent" 191;
  normalizedTenantRef ← requireString (oget args "tenantRef") "tenantRef" 191;
  normalizedWorkspaceRef ← optionalText (oget_default args "workspaceRef" VNull) "workspaceRef" 191;
  evaluatedAt ← requireTimestamp (now_param args) "now";
  let uniqueReasonCodes := dedup (delegation_reasons principal effectiveSubject normalizedEvidence
      normalizedOperation normalizedTenantRef normalizedWorkspaceRef evaluatedAt) in
  let allowed := Nat.eqb (length uniqueReasonCodes) 0 in
  Ok {| dd_allowed := allowed; dd_status := (if allowed then "allowed" else "blocked");
        dd_reasonCodes := uniqueReasonCodes;
        dd_delegationRef := sd_delegationRef normalizedEvidence;
        dd_mode := sd_mode normalizedEvidence;
        dd_actor := pick principal ["principalType"; "principalRef"];
        dd_effectiveSubject := pick effectiveSubject
          ["subjectType"; "subjectRef"; "tenantRef"; "workspaceRef"; "delegatedByPrincipalRef"];
        dd_operationIntent := normalizedOperation; dd_tenantRef := normalizedTenantRef;
        dd_workspaceRef := normalizedWorkspaceRef;
        dd_reasonCode := sd_reasonCode normalizedEvidence;
        dd_auditRef := sd_auditRef normalizedEvidence;
        dd_evaluatedAt := toISOString evaluatedAt;
        dd_auditRequired := true; dd_runtimeAuthorityChanged := false;
        dd_automaticWritePerformed := false; dd_secretsIncluded := false |}.

(** ** Well-formed evidence *)

Definition short (m : nat) (s : string) : Prop := clean s /\ String.length s <= m.
Definition oshort (m : nat) (o : option string) : Prop :=
  match o with Some s => short m s | None => True end.

Record evidence_wf (ev : SupportDelegationEvidence) : Prop := {
  wf_mode : sd_mode ev ∈ SUPPORT_DELEGATION_MODES;
  wf_status : sd_status ev ∈ SUPPORT_DELEGATION_STATUSES;
  wf_reason : is_reason_code (sd_reasonCode ev) = true;
  wf_window : exists f u, valid_time f = true /\ valid_time u = true /\ (f < u)%Z /\
    sd_validFrom ev = toISOString f /\ sd_expiresAt ev = toISOString u;
  wf_revoked : (sd_status ev = "revoked" <-> is_Some (sd_revokedAt ev)) /\
    forall r, sd_revokedAt ev = Some r -> exists t, valid_time t = true /\ r = toISOString t;
  wf_delegatedBy : oshort 191 (sd_delegatedByPrincipalRef ev);
  wf_agent : sd_mode ev = "support_delegated_agent" -> is_Some (sd_delegatedByPrincipalRef ev);
  wf_refs : Forall (short 191) [sd_delegationRef ev; sd_actorPrincipalRef ev; sd_subjectRef ev;
    sd_tenantRef ev; sd_auditRef ev];
  wf_workspace : oshort 191 (sd_workspaceRef ev);
  wf_operations : Forall (short 191) (sd_allowedOperations ev) /\
    unique_sorted (sd_allowedOperations ev) = sd_allowedOperations ev /\
    sd_allowedOperations ev <> [];
}.

Lemma requireString_short v f m s : requireString v f m = Ok s -> short m s.
Proof. intros (_ & ? & ?)%requireString_Ok. done. Qed.

Lemma optionalText_short v f m o : optionalText v f m = Ok o -> oshort m o.
Proof.
  unfold optionalText. destruct (is_blank v); intros Heq; inv_outcome; [done|].
  by eapply requireString_short.
Qed.

Lemma requireTimestamp_valid v f t : requireTimestamp v f = Ok t -> valid_time t = true.
Proof.
  unfold requireTimestamp. destruct (js_Date v) eqn:Hd; intros Heq; inv_outcome.
  by eapply js_Date_valid.
Qed.

Lemma normalizeOperations_Ok v l : normalizeOperations v = Ok l ->
  Forall (short 191) l /\ unique_sorted l = l /\ l <> [].
Proof.
  unfold normalizeOperations. destruct v as [| | | | | |[|x vs]|]; try done. intros Heq.
  apply bind_Ok in Heq as (ss & Hss & [= <-]). split; [|split].
  - apply Forall_forall. intros s Hs. rewrite elem_of_unique_sorted in Hs.
    apply mapM_js_Ok in Hss. apply list_elem_of_lookup in Hs as [i Hi].
    eapply Forall2_lookup_r in Hss as (v & _ & Hv); [|exact Hi]. by eapply requireString_short.
  - apply unique_sorted_idemp.
  - rewrite unique_sorted_nil. intros ->. by apply mapM_js_length in Hss.
Qed.

Lemma createSupportDelegationEvidence_wf v ev :
  createSupportDelegationEvidence v = Ok ev -> evidence_wf ev.
Proof.
  unfold createSupportDelegationEvidence. intros Heq. inv_outcome. split_bool.
  assert (sd_revoked : forall o, (if nullish (oget a "revokedAt") then Ok None
    else t ← requireTimestamp (oget a "revokedAt") "revokedAt"; Ok (Some t)) = Ok o ->
    forall t, o = Some t -> valid_time t = true).
  { intros o Ho t ->. destruct (nullish _); [done|]. inv_outcome. by eapply requireTimestamp_valid. }
  split; simpl.
  - by apply sin_true.
  - by apply sin_true.
  - done.
  - exists a6, a7. repeat split; eauto using requireTimestamp_valid. lia.
  - apply sin_true in H4.
    repeat match goal with Hb : (_ && _) = false |- _ => apply andb_false_iff in Hb end.
    split.
    + split.
      * intros Hst. destruct H11 as [Hr|Hr]; [rewrite Hst in Hr; done|].
        split_bool. apply bool_decide_eq_true in Hr. by apply fmap_is_Some.
      * intros Hr. apply fmap_is_Some in Hr.
        apply elem_of_cons in H4 as [Hst|Hst]; [|by apply list_elem_of_singleton in Hst].
        destruct H12 as [Hb|Hb]; [by rewrite Hst in Hb|]. by apply bool_decide_eq_false in Hb.
    + intros r Hr. apply fmap_Some in Hr as (t & -> & ->). exists t. split; [|done].
      by eapply sd_revoked.
  - by eapply optionalText_short.
  - intros Hm. apply andb_false_iff in H14 as [Hb|Hb]; [by rewrite Hm in Hb|].
    split_bool. by apply bool_decide_eq_true in Hb.
  - repeat (apply Forall_cons; split; [by eapply requireString_short|]). by apply Forall_nil.
  - by eapply optionalText_short.
  - by eapply normalizeOperations_Ok.
Qed.

(** ** Re-validation *)

Definition js_of_evidence (ev : SupportDelegationEvidence) : jsobj :=
  [("delegationRef", VStr (sd_delegationRef ev)); ("mode", VStr (sd_mode ev));
   ("actorPrincipalRef", VStr (sd_actorPrincipalRef ev)); ("subjectRef", VStr (sd_subjectRef ev));
   ("tenantRef", VStr (sd_tenantRef ev)); ("workspaceRef", js_of_ostr (sd_workspaceRef ev));
   ("delegatedByPrincipalRef", js_of_ostr (sd_delegatedByPrincipalRef ev));
   ("reasonCode", VStr (sd_reasonCode ev)); ("auditRef", VStr (sd_auditRef ev));
   ("allowedOperations", js_of_strs (sd_allowedOperations ev));
   ("validFrom", VStr (sd_validFrom ev)); ("expiresAt", VStr (sd_expiresAt ev));
   ("status", VStr (sd_status ev)); ("revokedAt", js_of_ostr (sd_revokedAt ev))].

Lemma optionalText_id o f m : oshort m o -> optionalText (js_of_ostr o) f m = Ok o.
Proof.
  destruct o as [s|]; [|done]. intros [[Ht Hne] Hl]. unfold optionalText. simpl.
  rewrite (proj2 (is_empty_false s)) by done. by rewrite requireString_id.
Qed.

Lemma optionalText_default args k f m (x : option string) : oshort m x ->
  oget args k = js_of_ostr x -> optionalText (oget_default args k VNull) f m = Ok x.
Proof. intros Hx Hk. erewrite default_ostr by exact Hk. by apply optionalText_id. Qed.

Lemma requireString_shortid s f m : short m s -> requireString (VStr s) f m = Ok s.
Proof. intros [? ?]. by apply requireString_id. Qed.

Lemma requireTimestamp_iso t f : valid_time t = true -> requireTimestamp (VStr (toISOString t)) f = Ok t.
Proof. intros Ht. unfold requireTimestamp. simpl. by rewrite date_parse_toISOString. Qed.

Lemma normalizeOperations_id l :
  Forall (short 191) l -> unique_sorted l = l -> l <> [] -> normalizeOperations (js_of_strs l) = Ok l.
Proof.
  intros Hl Hu Hne. destruct l as [|x l]; [done|]. unfold normalizeOperations, js_of_strs.
  change (List.map VStr (x :: l)) with (VStr x :: List.map VStr l). cbv iota.
  assert (forall k, Forall (short 191) k ->
    mapM_js (fun x => requireString x "allowedOperations" 191) (List.map VStr k) = Ok k) as Hmap.
  { induction 1 as [|s k Hs Hk IH]; [done|]. cbn [List.map mapM_js].
    rewrite requireString_shortid by done. simpl. by rewrite IH. }
  change (VStr x :: List.map VStr l) with (List.map VStr (x :: l)).
  rewrite Hmap by done. simpl. by rewrite Hu.
Qed.

Lemma mode_normal s m : s ∈ SUPPORT_DELEGATION_MODES -> 23 <= m ->
  js_toLowerCase s = s /\ short m s.
Proof.
  intros Hs Hm. apply elem_of_cons in Hs as [->|Hs]; [|apply list_elem_of_singleton in Hs as ->];
    (split; [reflexivity|]); (split; [by split|]); simpl; lia.
Qed.

Lemma status_normal s m : s ∈ SUPPORT_DELEGATION_STATUSES -> 7 <= m ->
  js_toLowerCase s = s /\ short m s.
Proof.
  intros Hs Hm. apply elem_of_cons in Hs as [->|Hs]; [|apply list_elem_of_singleton in Hs as ->];
    (split; [reflexivity|]); (split; [by split|]); simpl; lia.
Qed.

Lemma revokedAt_id ev : evidence_wf ev ->
  exists o : option Z, sd_revokedAt ev = toISOString <$> o /\
  (is_Some o <-> sd_status ev = "revoked") /\
  (if nullish (js_of_ostr (sd_revokedAt ev)) then Ok None
   else t ← requireTimestamp (js_of_ostr (sd_revokedAt ev)) "revokedAt"; Ok (Some t)) = Ok o.
Proof.
  intros [_ _ _ _ [Hiff Hr] _ _ _ _ _]. destruct (sd_revokedAt ev) as [r|] eqn:E.
  - destruct (Hr r eq_refl) as (t & Ht & ->). exists (Some t). split; [done|]. split.
    + rewrite Hiff. by split.
    + simpl. by rewrite requireTimestamp_iso.
  - exists None. split; [done|]. split; [|done]. rewrite Hiff. done.
Qed.

Lemma guard_false (s t : string) (b : bool) : (s = t -> b = false) -> String.eqb s t && b = false.
Proof. destruct (String.eqb_spec s t); [auto | done]. Qed.

Lemma evidence_revalidates ev : evidence_wf ev ->
  createSupportDelegationEvidence (VObj (js_of_evidence ev)) = Ok ev.
Proof.
  intros Hwf. destruct (revokedAt_id ev Hwf) as (o & Hro & Hos & Hrev).
  destruct Hwf as [Hm Hs Hr (f & u & Hf & Hu & Hlt & Hvf & Hve) _ Hdb Hag Hrefs Hws (Ho1 & Ho2 & Ho3)].
  destruct (mode_normal _ 64 Hm ltac:(lia)) as [Hml Hms].
  destruct (status_normal _ 32 Hs ltac:(lia)) as [Hsl Hss].
  destruct (is_reason_code_normal _ Hr) as [Hrt Hru].
  destruct (is_reason_code_chars _ Hr) as (_ & Hrn & Hrl).
  repeat apply Forall_cons in Hrefs as [? Hrefs].
  unfold createSupportDelegationEvidence.
  ok_step ltac:(reflexivity).
  ok_step ltac:(exact (requireString_shortid _ _ _ Hms)). rewrite Hml, (proj2 (sin_true _ _) Hm).
  ok_step ltac:(reflexivity).
  ok_step ltac:(exact (requireString_shortid _ _ _ Hss)). rewrite Hsl, (proj2 (sin_true _ _) Hs).
  ok_step ltac:(reflexivity).
  ok_step ltac:(exact (requireString_id _ _ _ (conj Hrt Hrn) Hrl)). rewrite Hru, Hr.
  ok_step ltac:(reflexivity).
  change (oget (js_of_evidence ev) "validFrom") with (VStr (sd_validFrom ev)).
  change (oget (js_of_evidence ev) "expiresAt") with (VStr (sd_expiresAt ev)).
  rewrite Hvf, Hve.
  ok_step ltac:(exact (requireTimestamp_iso f _ Hf)).
  ok_step ltac:(exact (requireTimestamp_iso u _ Hu)).
  ok_step ltac:(apply throw_if_false, Z.leb_gt, Hlt).
  ok_step ltac:(exact Hrev).
  ok_step ltac:(apply throw_if_false, guard_false; intros; apply negb_false_iff, bool_decide_eq_true; by apply Hos).
  ok_step ltac:(apply throw_if_false, guard_false; intros He; apply bool_decide_eq_false; by rewrite Hos, He).
  ok_step ltac:(exact (optionalText_default (js_of_evidence ev) "delegatedByPrincipalRef" _ _ _ Hdb eq_refl)).
  ok_step ltac:(apply throw_if_false, guard_false; intros; apply negb_false_iff, bool_decide_eq_true; by apply Hag).
  do 4 ok_step ltac:(apply requireString_shortid; done).
  ok_step ltac:(exact (optionalText_default (js_of_evidence ev) "workspaceRef" _ _ _ Hws eq_refl)).
  ok_step ltac:(apply requireString_shortid; done).
  ok_step ltac:(exact (normalizeOperations_id _ Ho1 Ho2 Ho3)).
  rewrite <- Hro, <- Hvf, <- Hve. by destruct ev.
Qed.

(** ** The policy *)

(** The conditions under which a delegation covers an operation. *)
Record delegation_permits (principal subject : jsval) (ev : SupportDelegationEvidence)
    (operation tenant : string) (workspace : option string) (t : Z) : Prop := {
  dp_active : sd_status ev = "active";
  dp_window : exists f u, sd_validFrom ev = toISOString f /\ sd_expiresAt ev = toISOString u /\
    valid_time f = true /\ valid_time u = true /\ (f <= t < u)%Z;
  dp_operation : operation ∈ sd_allowedOperations ev;
  dp_actor : vget principal "principalRef" = VStr (sd_actorPrincipalRef ev);
  dp_subject : vget subject "subjectRef" = VStr (sd_subjectRef ev);
  dp_tenant : tenant = sd_tenantRef ev /\ vget subject "tenantRef" = VStr (sd_tenantRef ev);
  dp_workspace : forall w, sd_workspaceRef ev = Some w ->
    workspace = Some w /\ vget subject "workspaceRef" = VStr w;
  dp_tenant_authorized : exists l, vget principal "authorizedTenantRefs" = VArr l /\
    (VStr "*" ∈ l \/ VStr (sd_tenantRef ev) ∈ l);
  dp_impersonation : sd_mode ev = "support_impersonation" ->
    vget principal "principalType" = VStr "service_principal" /\
    vget (vget principal "attributes") "actorClass" = VStr "support" /\
    vget subject "delegatedByPrincipalRef" = VStr (sd_actorPrincipalRef ev);
  dp_agent : sd_mode ev = "support_delegated_agent" ->
    vget principal "principalType" = VStr "delegated_agent" /\
    vget (vget principal "attributes") "actorClass" = VStr "agent" /\
    exists by_ref, sd_delegatedByPrincipalRef ev = Some by_ref /\
      vget (vget principal "attributes") "delegatedByPrincipalRef" = VStr by_ref /\
      vget subject "delegatedByPrincipalRef" = VStr by_ref;
}.

Lemma when_nil b c : when b c = [] <-> b = false.
Proof. by destruct b. Qed.

Lemma existsb_is_str l s : existsb (fun v => is_str v s) l = true <-> VStr s ∈ l.
Proof. rewrite existsb_elem_of. setoid_rewrite is_str_true. naive_solver. Qed.

Lemma tenantIsAuthorized_true principal tenant : tenantIsAuthorized principal tenant = true <->
  exists l, vget principal "authorizedTenantRefs" = VArr l /\ (VStr "*" ∈ l \/ VStr tenant ∈ l).
Proof.
  unfold tenantIsAuthorized. destruct (vget _ _) as [| | | | | |l|];
    try (split; [done | by intros (? & ? & _)]).
  rewrite orb_true_iff, !existsb_is_str. split; [eauto|]. by intros (l' & [= <-] & Hl).
Qed.

Lemma before_iso_toISOString t f : valid_time f = true ->
  before_iso t (toISOString f) = Z.ltb t f.
Proof. intros Hf. unfold before_iso. by rewrite date_parse_toISOString. Qed.

Lemma from_iso_toISOString t u : valid_time u = true -> from_iso t (toISOString u) = Z.leb u t.
Proof. intros Hu. unfold from_iso. by rewrite date_parse_toISOString. Qed.

Lemma status_check_nil ev : evidence_wf ev ->
  (if String.eqb (sd_status ev) "revoked" || bool_decide (is_Some (sd_revokedAt ev))
   then ["SUPPORT_DELEGATION_REVOKED"]
   else when (negb (String.eqb (sd_status ev) "active")) "SUPPORT_DELEGATION_NOT_ACTIVE") = []
  <-> sd_status ev = "active".
Proof.
  intros [_ Hs _ _ [Hiff _] _ _ _ _ _].
  apply elem_of_cons in Hs as [Hs|Hs]; [|apply list_elem_of_singleton in Hs]; rewrite Hs in *.
  - rewrite (bool_decide_eq_false_2 (is_Some (sd_revokedAt ev))) by (rewrite <- Hiff; done). done.
  - done.
Qed.

Lemma agent_chain_true ev v w : evidence_wf ev -> sd_mode ev = "support_delegated_agent" ->
  is_ostr v (sd_delegatedByPrincipalRef ev) = true /\
  is_ostr w (sd_delegatedByPrincipalRef ev) = true <->
  exists by_ref, sd_delegatedByPrincipalRef ev = Some by_ref /\ v = VStr by_ref /\ w = VStr by_ref.
Proof.
  intros Hwf Hm. destruct (wf_agent ev Hwf Hm) as [r Hr]. rewrite Hr, !is_ostr_true. naive_solver.
Qed.

Lemma delegation_reasons_nil principal subject ev op tenant workspace t :
  evidence_wf ev ->
  delegation_reasons principal subject ev op tenant workspace t = [] <->
  delegation_permits principal subject ev op tenant workspace t.
Proof.
  intros Hwf. destruct (wf_window ev Hwf) as (f & u & Hf & Hu & Hlt & Hvf & Hve).
  unfold delegation_reasons. rewrite !app_nil, !when_nil, (status_check_nil ev Hwf).
  rewrite Hvf, Hve, before_iso_toISOString, from_iso_toISOString by done.
  rewrite !orb_false_iff, !negb_false_iff, !is_str_true, sin_true, tenantIsAuthorized_true,
    String.eqb_eq.
  split.
  - intros (Hst & Hnf & Hnu & Hop & Hact & Hsub & [Htn Hstn] & Hw & Hta & Hi & Ha). split; try done.
    + exists f, u. repeat split; try done; lia.
    + intros w Hsw. rewrite Hsw in Hw. split_bool.
      by rewrite <- is_str_true, <- (ostr_eqb_true workspace).
    + intros Hm. rewrite Hm in Hi. simpl in Hi. rewrite app_nil, !when_nil in Hi.
      destruct Hi as [Hi1 Hi2]. split_bool. rewrite !is_str_true in *. split; [done|]. split; [done|].
      rewrite Hact in Hi2. destruct (vget subject "delegatedByPrincipalRef") as [| | |[]| | | |]; try done.
      simpl in Hi2. by apply String.eqb_eq in Hi2 as ->.
    + intros Hm. rewrite Hm in Ha. simpl in Ha. rewrite app_nil, !when_nil in Ha.
      destruct Ha as [Ha1 Ha2]. split_bool. rewrite !is_str_true in *. split; [done|]. split; [done|].
      by apply (agent_chain_true ev).
  - intros [Hst (f' & u' & Hf' & Hu' & Hvf' & Hvu' & Hfu) Hop Hact Hsub [Htn Hstn] Hw Hta Hi Ha].
    rewrite Hvf in Hf'. rewrite Hve in Hu'.
    apply toISOString_inj in Hf' as <-; [|done|done]. apply toISOString_inj in Hu' as <-; [|done|done].
    split; [done|]. split; [lia|]. split; [lia|]. do 4 (split; [done|]). split.
    { destruct (sd_workspaceRef ev) as [w|]; [|done]. destruct (Hw w eq_refl) as [-> Hsw].
      rewrite Hsw. simpl. by rewrite !String.eqb_refl. }
    split; [done|]. split.
    + destruct (String.eqb_spec (sd_mode ev) "support_impersonation") as [Hm|]; [|done].
      destruct (Hi Hm) as (-> & -> & ->). rewrite Hact. simpl. by rewrite String.eqb_refl.
    + destruct (String.eqb_spec (sd_mode ev) "support_delegated_agent") as [Hm|]; [|done].
      destruct (Ha Hm) as (-> & -> & r & -> & -> & ->). simpl. by rewrite String.eqb_refl.
Qed.

(** Normalised support-delegation evidence is a fixed point of its own
    validator: reading back the record that createSupportDelegationEvidence
    returned yields exactly that record, so evidence can be stored and checked
    again without changing (timestamps, case folding, trimming and the sorted
    duplicate-free operation list included). *)
Theorem createSupportDelegationEvidence_fixpoint v ev :
  createSupportDelegationEvidence v = Ok ev ->
  createSupportDelegationEvidence (VObj (js_of_evidence ev)) = Ok ev.
Proof. intros Hv. by apply evidence_revalidates, (createSupportDelegationEvidence_wf v). Qed.

(** C37: evaluateSupportDelegation allows a support action exactly when the
    evidence is active and unrevoked, the time lies in its window, the operation
    is listed, actor, subject, tenant and (when bound) workspace are those of
    the evidence, the principal is authorised for the tenant, and the
    mode-specific chain of delegation holds; an allowed decision carries no
    reason code and never claims runtime authority. *)
Theorem evaluateSupportDelegation_correct args d :
  evaluateSupportDelegation args = Ok d ->
  exists ev op tenant workspace t,
    createSupportDelegationEvidence (oget args "evidence") = Ok ev /\
    dd_operationIntent d = op /\ dd_tenantRef d = tenant /\ dd_workspaceRef d = workspace /\
    dd_evaluatedAt d = toISOString t /\ js_Date (now_param args) = Some t /\
    (dd_allowed d = true <->
     delegation_permits (oget args "principal") (oget args "effectiveSubject") ev op tenant workspace t) /\
    (dd_allowed d = true <-> dd_reasonCodes d = []) /\
    (dd_status d = "allowed" <-> dd_allowed d = true) /\
    dd_auditRequired d = true /\ dd_runtimeAuthorityChanged d = false /\
    dd_automaticWritePerformed d = false /\ dd_secretsIncluded d = false.
Proof.
  unfold evaluateSupportDelegation. intros Heq. inv_outcome. simpl.
  match goal with Hc : createSupportDelegationEvidence _ = Ok ?ev |- _ =>
    exists ev; pose proof (createSupportDelegationEvidence_wf _ _ Hc) as Hwf end.
  match goal with Ht : requireTimestamp _ _ = Ok ?t |- _ =>
    do 3 eexists; exists t; unfold requireTimestamp in Ht; destruct (js_Date _); [|done];
    injection Ht as <- end.
  repeat (split; [done|]).
  split; [by rewrite Nat.eqb_eq, length_zero_iff_nil, dedup_nil, delegation_reasons_nil|].
  split; [by rewrite Nat.eqb_eq, length_zero_iff_nil|].
  split; [|done]. by destruct (Nat.eqb _ 0).
Qed.
End Delegation.

Definition demo_delegation : jsobj :=
  [("delegationRef", VStr "deleg-1"); ("mode", VStr "Support_Impersonation");
   ("actorPrincipalRef", VStr "svc-9"); ("subjectRef", VStr "user-1"); ("tenantRef", VStr "t1");
   ("workspaceRef", VStr "w1"); ("reasonCode", VStr "customer_ticket"); ("auditRef", VStr "audit-7");
   ("allowedOperations", VArr [VStr "read"; VStr " read "; VStr "list"]);
   ("validFrom", VStr "2023-11-14T00:00:00.000Z"); ("expiresAt", VStr "2023-11-15T00:00:00.000Z");
   ("status", VStr "ACTIVE")].

Definition demo_delegation_args : jsobj :=
  [("principal", VObj [("principalRef", VStr "svc-9"); ("principalType", VStr "service_principal");
      ("attributes", VObj [("actorClass", VStr "support")]);
      ("authorizedTenantRefs", VArr [VStr "t1"])]);
   ("effectiveSubject", VObj [("subjectRef", VStr "user-1"); ("tenantRef", VStr "t1");
      ("workspaceRef", VStr "w1"); ("delegatedByPrincipalRef", VStr "svc-9")]);
   ("evidence", VObj demo_delegation); ("operationIntent", VStr "read"); ("tenantRef", VStr "t1");
   ("workspaceRef", VStr "w1")].

Definition demo_evidence : SupportDelegationEvidence :=
  match createSupportDelegationEvidence (VObj demo_delegation) (H := demo_host) with
  | Ok ev => ev
  | Throw _ => Build_SupportDelegationEvidence "" "" "" "" "" None None "" "" [] "" "" "" None
  end.

Lemma createSupportDelegationEvidence_fixpoint_witness :
  createSupportDelegationEvidence (H := demo_host) (VObj (js_of_evidence demo_evidence))
  = Ok demo_evidence /\ sd_allowedOperations demo_evidence = ["list"; "read"].
Proof.
  split; [|vm_compute; reflexivity].
  apply (@createSupportDelegationEvidence_fixpoint demo_host (VObj demo_delegation)).
  vm_compute. reflexivity.
Defined.

Definition demo_delegation_decision (ok : bool) : SupportDelegationDecision :=
  let args := if ok then demo_delegation_args
              else ("operationIntent", VStr "delete") :: demo_delegation_args in
  match evaluateSupportDelegation args (H := demo_host) with
  | Ok d => d
  | Throw _ => Build_SupportDelegationDecision false "" [] "" "" [] [] "" "" None "" "" "" false false false false
  end.

Lemma evaluateSupportDelegation_correct_witness :
  dd_allowed (demo_delegation_decision true) = true /\
  dd_reasonCodes (demo_delegation_decision false) = ["SUPPORT_DELEGATION_OPERATION_NOT_ALLOWED"] /\
  exists ev t, delegation_permits (oget demo_delegation_args "principal")
    (oget demo_delegation_args "effectiveSubject") ev "read" "t1" (Some "w1") t.
Proof.
  split; [vm_compute; reflexivity|]. split; [vm_compute; reflexivity|].
  destruct (@evaluateSupportDelegation_correct demo_host demo_delegation_args
    (demo_delegation_decision true)) as (ev & op & tn & ws & t & _ & Ho & Ht & Hw & _ & _ & Hp & _).
  - vm_compute. reflexivity.
  - exists ev, t. subst op tn ws. apply Hp. vm_compute. reflexivity.
Defined.
