(* ===== verification/PolicyGrant.v ===== *)
(** * Policy and grant decisions (contextKernel/domain/policyGrantDecision.js)

    A snapshot of policy and grant evidence is bound to one request; the
    decision allows only when an active policy and an active grant allow it
    and no active record denies it. *)
From S2P Require Import Prelude Sorting JsString JsDate JsValue ContextModel EvidenceSupport.

Module PolicyGrant.

Definition maxPolicies : nat := 100.
Definition maxGrants : nat := 100.
Definition EVIDENCE_EFFECTS : list string := ["allow"; "deny"].
Definition EVIDENCE_STATUSES : list string := ["active"; "inactive"; "revoked"; "expired"].

Record Binding := {
  principalType : string;
  principalRef : string;
  subjectType : string;
  subjectRef : string;
  tenantRef : string;
  workspaceRef : option string;
  capabilityKey : string;
  operation : string;
  resourceType : string;
  resourceRef : string;
}.

Inductive sourceType := policy | grant.

Definition sourceName (t : sourceType) : string :=
  match t with policy => "policy" | grant => "grant" end.
Definition sourcePrefix (t : sourceType) : string :=
  match t with policy => "POLICY" | grant => "GRANT" end.
Definition referenceField (t : sourceType) : string :=
  match t with policy => "policyRef" | grant => "grantRef" end.

Record EvidenceRecord := {
  er_sourceType : sourceType;
  er_reference : string;
  er_effect : string;
  er_status : string;
  er_reasonCode : string;
  er_revisionRef : option string;
  er_validFrom : option Z;
  er_validUntil : option Z;
  er_revokedAt : option Z;
}.

Record EvidenceSummary := {
  es_reference : string;
  es_effect : string;
  es_reasonCode : string;
  es_revisionRef : option string;
}.

(** The decision; [None] evidence is an absent property. *)
Record Decision := {
  pg_status : string;
  pg_decision : string;
  pg_reasonCodes : list string;
  pg_sourceEvidence : option SourceEvidence;
  pg_policyEvidence : option (list EvidenceSummary);
  pg_grantEvidence : option (list EvidenceSummary);
  pg_policySatisfied : bool;
  pg_grantSatisfied : bool;
  pg_authorityGranted : bool;
  pg_executionAuthorized : bool;
  pg_runtimeAuthorityChanged : bool;
  pg_automaticWritePerformed : bool;
  pg_providerCallMade : bool;
  pg_credentialPayloadRead : bool;
  pg_secretsIncluded : bool;
}.

Definition blocked (reasonCodes : list string) (source : option SourceEvidence)
    (policies grants : option (list EvidenceSummary)) : Decision :=
  {| pg_status := "blocked"; pg_decision := "deny";
     pg_reasonCodes := unique_sorted reasonCodes; pg_sourceEvidence := source;
     pg_policyEvidence := policies; pg_grantEvidence := grants;
     pg_policySatisfied := false; pg_grantSatisfied := false; pg_authorityGranted := false;
     pg_executionAuthorized := false; pg_runtimeAuthorityChanged := false;
     pg_automaticWritePerformed := false; pg_providerCallMade := false;
     pg_credentialPayloadRead := false; pg_secretsIncluded := false |}.

Section Decide.
Context `{JsHost}.

Definition normalizeReasonCode (value : jsval) (fallback : string) : js string :=
  if is_blank value then Ok fallback
  else normalized ← requireString value "reasonCode" 191;
       throw_if (negb (is_reason_code normalized))
         (TypeErr "reasonCode must be a stable uppercase reason code.");;
       Ok normalized.

Definition normalizeBinding (input : jsval) : js Binding :=
  principalType ← requireIdentifier (vget input "principalType") "principalType";
  principalRef ← requireIdentifier (vget input "principalRef") "principalRef";
  subjectType ← requireIdentifier (vget input "subjectType") "subjectType";
  subjectRef ← requireIdentifier (vget input "subjectRef") "subjectRef";
  tenantRef ← requireIdentifier (vget input "tenantRef") "tenantRef";
  workspaceRef ← optionalIdentifier (vget input "workspaceRef") "workspaceRef";
  capabilityKey ← requireIdentifier (vget input "capabilityKey") "capabilityKey";
  operation ← requireIdentifier (vget input "operation") "operation";
  resourceType ← requireIdentifier (vget input "resourceType") "resourceType";
  resourceRef ← requireIdentifier (vget input "resourceRef") "resourceRef";
  Ok {| principalType := principalType; principalRef := principalRef;
        subjectType := subjectType; subjectRef := subjectRef; tenantRef := tenantRef;
        workspaceRef := workspaceRef; capabilityKey := capabilityKey; operation := operation;
        resourceType := resourceType; resourceRef := resourceRef |}.

Definition bindingsMatch (left right : Binding) : bool :=
  String.eqb (principalType left) (principalType right)
  && String.eqb (principalRef left) (principalRef right)
  && String.eqb (subjectType left) (subjectType right)
  && String.eqb (subjectRef left) (subjectRef right)
  && String.eqb (tenantRef left) (tenantRef right)
  && ostr_eqb (workspaceRef left) (workspaceRef right)
  && String.eqb (capabilityKey left) (capabilityKey right)
  && String.eqb (operation left) (operation right)
  && String.eqb (resourceType left) (resourceType right)
  && String.eqb (resourceRef left) (resourceRef right).

Definition normalizeEvidenceRecord (t : sourceType) (binding : Binding) (record : jsval)
    : coded EvidenceRecord :=
  let prefix := sourcePrefix t in
  if negb (is_record record) then Throw (prefix +:+ "_EVIDENCE_MALFORMED")
  else catch_code (
    reference ← requireIdentifier (vget record (referenceField t))
                  (sourceName t +:+ "." +:+ referenceField t);
    let effect := js_toLowerCase (js_trim (str_or_empty (vget record "effect"))) in
    if negb (sin effect EVIDENCE_EFFECTS) then Ok (Throw (prefix +:+ "_EFFECT_UNSUPPORTED"))
    else
    let status := js_toLowerCase (js_trim (str_or_empty (vget record "status"))) in
    if negb (sin status EVIDENCE_STATUSES) then Ok (Throw (prefix +:+ "_STATUS_UNSUPPORTED"))
    else
    recordBinding ← normalizeBinding record;
    if negb (bindingsMatch binding recordBinding)
    then Ok (Throw (prefix +:+ "_EVIDENCE_BINDING_MISMATCH"))
    else
    let fallback := prefix +:+ "_" +:+
      (if String.eqb effect "deny" then "EXPLICIT_DENY" else "ALLOW_MATCHED") in
    reasonCode ← normalizeReasonCode (vget record "reasonCode") fallback;
    revisionRef ← optionalIdentifier (vget record "revisionRef") (sourceName t +:+ ".revisionRef");
    validFrom ← normalizeTimestamp (vget record "validFrom") (sourceName t +:+ ".validFrom") false;
    validUntil ← normalizeTimestamp (js_or (vget record "validUntil") (vget record "expiresAt"))
                   (sourceName t +:+ ".validUntil") false;
    revokedAt ← normalizeTimestamp (vget record "revokedAt") (sourceName t +:+ ".revokedAt") false;
    Ok (Ok {| er_sourceType := t; er_reference := reference; er_effect := effect;
              er_status := status; er_reasonCode := reasonCode; er_revisionRef := revisionRef;
              er_validFrom := validFrom; er_validUntil := validUntil; er_revokedAt := revokedAt |}))
    (prefix +:+ "_EVIDENCE_MALFORMED").

Definition recordIsActive (record : EvidenceRecord) (now : Z) : bool :=
  if negb (String.eqb (er_status record) "active") then false
  else if bool_decide (is_Some (er_revokedAt record)) then false
  else in_window (er_validFrom record) (er_validUntil record) now.

Definition summary_of (record : EvidenceRecord) : EvidenceSummary :=
  {| es_reference := er_reference record; es_effect := er_effect record;
     es_reasonCode := er_reasonCode record; es_revisionRef := er_revisionRef record |}.

Definition summarizeEvidence (records : list EvidenceRecord) : list EvidenceSummary :=
  js_sort (fun l r => locale_compare (es_reference l) (es_reference r))
    (List.map summary_of records).

Definition normalizeEvidenceList (records : jsval) (t : sourceType) (binding : Binding)
    (maximumCount : nat) : coded (list EvidenceRecord) :=
  let prefix := sourcePrefix t in
  match records with
  | VArr l =>
      throw_if (maximumCount <? length l) (prefix +:+ "_EVIDENCE_LIMIT_EXCEEDED");;
      collect_records (normalizeEvidenceRecord t binding) er_reference
        (prefix +:+ "_REFERENCE_AMBIGUOUS") [] l
  | _ => Throw (prefix +:+ "_EVIDENCE_MALFORMED")
  end.

Definition effect_is (effect : string) (record : EvidenceRecord) : bool :=
  String.eqb (er_effect record) effect.

(** The decision over normalised evidence (the end of
    evaluatePolicyGrantDecision). *)
Definition decideEvidence (source : SourceEvidence) (policies grants : list EvidenceRecord)
    (now : Z) : Decision :=
  let activePolicies := bfilter (fun r => recordIsActive r now) policies in
  let activeGrants := bfilter (fun r => recordIsActive r now) grants in
  let policyDenials := bfilter (effect_is "deny") activePolicies in
  let grantDenials := bfilter (effect_is "deny") activeGrants in
  let policyAllows := bfilter (effect_is "allow") activePolicies in
  let grantAllows := bfilter (effect_is "allow") activeGrants in
  if (0 <? length policyDenials) || (0 <? length grantDenials) then
    blocked ((if 0 <? length policyDenials then ["POLICY_EXPLICIT_DENY"] else [])
             ++ (if 0 <? length grantDenials then ["GRANT_EXPLICIT_DENY"] else [])
             ++ List.map er_reasonCode policyDenials ++ List.map er_reasonCode grantDenials)
      (Some source) (Some (summarizeEvidence policyDenials)) (Some (summarizeEvidence grantDenials))
  else if length policyAllows =? 0 then
    blocked ["POLICY_ALLOW_NOT_FOUND"] (Some source) (Some []) (Some (summarizeEvidence grantAllows))
  else if length grantAllows =? 0 then
    blocked ["GRANT_ALLOW_NOT_FOUND"] (Some source) (Some (summarizeEvidence policyAllows)) (Some [])
  else
    {| pg_status := "resolved"; pg_decision := "allow";
       pg_reasonCodes := ["POLICY_GRANT_ALLOW_RESOLVED"]; pg_sourceEvidence := Some source;
       pg_policyEvidence := Some (summarizeEvidence policyAllows);
       pg_grantEvidence := Some (summarizeEvidence grantAllows);
       pg_policySatisfied := true; pg_grantSatisfied := true; pg_authorityGranted := false;
       pg_executionAuthorized := false; pg_runtimeAuthorityChanged := false;
       pg_automaticWritePerformed := false; pg_providerCallMade := false;
       pg_credentialPayloadRead := false; pg_secretsIncluded := false |}.

(** The checks on a snapshot whose header could be read. *)
Definition decideSnapshot (snapshot : jsval) (binding snapshotBinding : Binding)
    (capturedAt expiresAt : Z) (source : SourceEvidence) (now : Z) : Decision :=
  let stop code := blocked [code] (Some source) None None in
  if negb (bindingsMatch binding snapshotBinding) then stop "POLICY_GRANT_SNAPSHOT_BINDING_MISMATCH"
  else if Z.ltb now capturedAt then stop "POLICY_GRANT_SNAPSHOT_FROM_FUTURE"
  else if Z.leb expiresAt now then stop "POLICY_GRANT_SNAPSHOT_STALE"
  else
    match normalizeEvidenceList (vget snapshot "policies") policy binding maxPolicies with
    | Throw code => stop code
    | Ok policies =>
        match normalizeEvidenceList (vget snapshot "grants") grant binding maxGrants with
        | Throw code => stop code
        | Ok grants => decideEvidence source policies grants now
        end
    end.

(** [evaluatePolicyGrantDecision({ snapshot, principalType, ..., now })] *)
Definition evaluatePolicyGrantDecision (args : jsobj) : js Decision :=
  binding ← normalizeBinding (VObj args);
  match js_Date (now_param args) with
  | None => type_error "now must be a valid Date."
  | Some evaluatedNow =>
      let snapshot := oget args "snapshot" in
      let malformed := blocked ["POLICY_GRANT_SNAPSHOT_MALFORMED"] None None None in
      if negb (is_record snapshot) then Ok malformed
      else Ok (catch (
        snapshotBinding ← normalizeBinding snapshot;
        '(capturedAt, expiresAt, source) ← readSourceEvidence snapshot;
        Ok (decideSnapshot snapshot binding snapshotBinding capturedAt expiresAt source evaluatedNow))
        malformed)
  end.
End Decide.

(** ** Lemmas *)

Lemma bindingsMatch_true l r : bindingsMatch l r = true <-> l = r.
Proof.
  unfold bindingsMatch. rewrite !andb_true_iff, !String.eqb_eq, ostr_eqb_true.
  destruct l, r; simpl. split; [intros; destruct_and!; by f_equal|].
  intros [=]; subst. by repeat split.
Qed.

Lemma recordIsActive_true r t : recordIsActive r t = true <->
  er_status r = "active" /\ er_revokedAt r = None /\
  (forall x, er_validFrom r = Some x -> (x <= t)%Z) /\
  (forall x, er_validUntil r = Some x -> (t < x)%Z).
Proof.
  unfold recordIsActive. destruct (String.eqb_spec (er_status r) "active") as [He|He]; simpl;
    [|naive_solver].
  destruct (er_revokedAt r); simpl; [naive_solver|]. rewrite in_window_spec. naive_solver.
Qed.

Section Facts.
Context `{JsHost}.

Lemma normalizeEvidenceRecord_bound t b x r :
  normalizeEvidenceRecord t b x = Ok r -> normalizeBinding x = Ok b /\ er_sourceType r = t /\
  er_effect r ∈ EVIDENCE_EFFECTS /\ er_status r ∈ EVIDENCE_STATUSES.
Proof.
  unfold normalizeEvidenceRecord. destruct (negb (is_record x)); [done|].
  unfold catch_code. intros Heq. case_match eqn:E; [|done]. subst a.
  apply bind_Ok in E as (ref & _ & E). destruct (negb (sin _ EVIDENCE_EFFECTS)) eqn:He; [done|].
  destruct (negb (sin _ EVIDENCE_STATUSES)) eqn:Hs; [done|].
  apply bind_Ok in E as (b' & Hb & E). destruct (negb (bindingsMatch b b')) eqn:Hm; [done|].
  split_bool. apply bindingsMatch_true in Hm as <-. apply sin_true in He, Hs.
  split; [done|]. inv_outcome. done.
Qed.

Lemma normalizeBinding_record v b : normalizeBinding v = Ok b -> is_record v = true.
Proof. intros Heq. destruct v; [exfalso..| |exfalso|]; try done; unfold normalizeBinding in Heq; inv_outcome; done. Qed.

(** What the list normaliser accepts. *)
Definition evidence_list (t : sourceType) (b : Binding) (maximum : nat) (v : jsval)
    (rs : list EvidenceRecord) : Prop :=
  exists l, v = VArr l /\ length l <= maximum /\
    Forall2 (fun x r => normalizeEvidenceRecord t b x = Ok r) l rs /\
    NoDup (List.map er_reference rs).

Lemma normalizeEvidenceList_Ok v t b m rs :
  normalizeEvidenceList v t b m = Ok rs <-> evidence_list t b m v rs.
Proof.
  unfold evidence_list. split.
  - destruct v; try done. simpl. intros Heq. apply bind_Ok in Heq as ([] & Hl & Heq).
    apply throw_if_Ok, Nat.ltb_ge in Hl. apply collect_records_Ok in Heq as (Hf & Hnd & _).
    eauto 10.
  - intros (l & -> & Hl & Hf & Hnd). simpl. rewrite throw_if_false by (by apply Nat.ltb_ge).
    simpl. apply collect_records_Ok. split; [done|]. split; [done|].
    intros r _. apply not_elem_of_nil.
Qed.

(** An active record with an effect. *)
Definition active_effect (effect : string) (t : Z) (r : EvidenceRecord) : Prop :=
  recordIsActive r t = true /\ er_effect r = effect.

Lemma filter_effect_nil effect t rs :
  length (bfilter (effect_is effect) (bfilter (fun r => recordIsActive r t) rs)) = 0 <->
  forall r, r ∈ rs -> ~ active_effect effect t r.
Proof.
  rewrite length_zero_iff_nil, bfilter_nil. unfold active_effect, effect_is. split.
  - intros Hn r Hr [Ha He]. assert (String.eqb (er_effect r) effect = false) as Hf
      by (apply Hn, elem_of_bfilter; done). rewrite He, String.eqb_refl in Hf. done.
  - intros Hn r [Ha Hr]%elem_of_bfilter. apply String.eqb_neq. intros He. by apply (Hn r Hr).
Qed.

Lemma filter_effect_cons effect t rs :
  length (bfilter (effect_is effect) (bfilter (fun r => recordIsActive r t) rs)) <> 0 <->
  exists r, r ∈ rs /\ active_effect effect t r.
Proof.
  split.
  - destruct (bfilter (effect_is effect) _) as [|r l] eqn:E; [done|]. intros _.
    assert (r ∈ bfilter (effect_is effect) (bfilter (fun r => recordIsActive r t) rs)) as Hr
      by (rewrite E; apply list_elem_of_here).
    apply elem_of_bfilter in Hr as [He [Ha Hr]%elem_of_bfilter]. exists r. split; [done|].
    split; [done|]. by apply String.eqb_eq.
  - intros (r & Hr & Ha). rewrite filter_effect_nil. intros Hn. by apply (Hn r).
Qed.

Lemma decideEvidence_allow source ps gs t :
  pg_decision (decideEvidence source ps gs t) = "allow" <->
  (forall r, r ∈ ps ++ gs -> ~ active_effect "deny" t r) /\
  (exists r, r ∈ ps /\ active_effect "allow" t r) /\
  (exists r, r ∈ gs /\ active_effect "allow" t r).
Proof.
  rewrite <- (filter_effect_cons "allow" t ps), <- (filter_effect_cons "allow" t gs).
  setoid_rewrite elem_of_app.
  transitivity ((forall r, r ∈ ps -> ~ active_effect "deny" t r) /\
    (forall r, r ∈ gs -> ~ active_effect "deny" t r) /\
    length (bfilter (effect_is "allow") (bfilter (fun r => recordIsActive r t) ps)) <> 0 /\
    length (bfilter (effect_is "allow") (bfilter (fun r => recordIsActive r t) gs)) <> 0).
  2: { split; [intros (H1 & H2 & H3); split; [intros r [?|?]; eauto | done]
              |intros (H1 & H2); split; [eauto | split; [eauto|done]]]. }
  rewrite <- !filter_effect_nil. unfold decideEvidence.
  destruct (length (bfilter (effect_is "deny") (bfilter _ ps))); simpl; [|naive_solver lia].
  destruct (length (bfilter (effect_is "deny") (bfilter _ gs))); simpl; [|naive_solver lia].
  destruct (length (bfilter (effect_is "allow") (bfilter _ ps))); simpl; [naive_solver|].
  destruct (length (bfilter (effect_is "allow") (bfilter _ gs))); simpl; naive_solver.
Qed.

(** The abstract policy: when a snapshot permits a request at a time. *)
Definition snapshot_permits (snapshot : jsval) (b : Binding) (t : Z) : Prop :=
  exists c e source ps gs,
    normalizeBinding snapshot = Ok b /\ readSourceEvidence snapshot = Ok (c, e, source) /\
    (c <= t < e)%Z /\
    evidence_list policy b maxPolicies (vget snapshot "policies") ps /\
    evidence_list grant b maxGrants (vget snapshot "grants") gs /\
    (forall r, r ∈ ps ++ gs -> ~ active_effect "deny" t r) /\
    (exists r, r ∈ ps /\ active_effect "allow" t r) /\
    (exists r, r ∈ gs /\ active_effect "allow" t r).

Lemma decideSnapshot_allow snapshot b sb c e source t :
  pg_decision (decideSnapshot snapshot b sb c e source t) = "allow" <->
  sb = b /\ (c <= t < e)%Z /\ exists ps gs,
    evidence_list policy b maxPolicies (vget snapshot "policies") ps /\
    evidence_list grant b maxGrants (vget snapshot "grants") gs /\
    pg_decision (decideEvidence source ps gs t) = "allow".
Proof.
  setoid_rewrite <- normalizeEvidenceList_Ok. unfold decideSnapshot.
  destruct (bindingsMatch b sb) eqn:Hm; simpl.
  2: { split; [done|]. intros (-> & _). by rewrite (proj2 (bindingsMatch_true b b)) in Hm. }
  apply bindingsMatch_true in Hm as ->.
  destruct (Z.ltb_spec t c); simpl; [split; [done|]; lia|].
  destruct (Z.leb_spec e t); simpl; [split; [done|]; lia|].
  destruct (normalizeEvidenceList (vget snapshot "policies") policy sb maxPolicies) as [ps|] eqn:Hp;
    simpl; [|split; [done|]; by intros (_ & _ & ? & ? & ? & _)].
  destruct (normalizeEvidenceList (vget snapshot "grants") grant sb maxGrants) as [gs|] eqn:Hg;
    simpl; [|split; [done|]; by intros (_ & _ & ? & ? & _ & ? & _)].
  split; [|by intros (_ & _ & ? & ? & [= <-] & [= <-] & ?)].
  intros Hd. split; [done|]. split; [lia|]. eauto.
Qed.

(** ** Order of the evidence *)

Lemma normalizeEvidenceList_Permutation l l' t b m :
  l ≡ₚ l' ->
  match normalizeEvidenceList (VArr l) t b m, normalizeEvidenceList (VArr l') t b m with
  | Ok rs, Ok rs' => rs ≡ₚ rs'
  | Throw _, Throw _ => True
  | _, _ => False
  end.
Proof.
  assert (forall l l' rs, l ≡ₚ l' -> normalizeEvidenceList (VArr l) t b m = Ok rs ->
    exists rs', normalizeEvidenceList (VArr l') t b m = Ok rs' /\ rs ≡ₚ rs') as Hok.
  { intros k k' rs Hp Heq. simpl in Heq. apply bind_Ok in Heq as ([] & Hl & Heq). simpl.
    rewrite <- (Permutation_length Hp). unfold throw_if in *. destruct (m <? length k); [done|].
    simpl. by eapply collect_records_Permutation. }
  intros Hp. destruct (normalizeEvidenceList (VArr l) t b m) as [rs|c] eqn:H1.
  - destruct (Hok l l' rs Hp H1) as (rs' & -> & ?). done.
  - destruct (normalizeEvidenceList (VArr l') t b m) as [rs'|] eqn:H2; [|done].
    destruct (Hok l' l rs' (Permutation_sym Hp) H2) as (rs & Hrs & _). by rewrite Hrs in H1.
Qed.

Lemma decideEvidence_Permutation source ps ps' gs gs' t : ps ≡ₚ ps' -> gs ≡ₚ gs' ->
  pg_decision (decideEvidence source ps' gs' t) = pg_decision (decideEvidence source ps gs t) /\
  pg_reasonCodes (decideEvidence source ps' gs' t) = pg_reasonCodes (decideEvidence source ps gs t).
Proof.
  intros Hp Hg. unfold decideEvidence.
  assert (forall eff k k', k ≡ₚ k' ->
    bfilter (effect_is eff) (bfilter (fun r => recordIsActive r t) k') ≡ₚ
    bfilter (effect_is eff) (bfilter (fun r => recordIsActive r t) k)) as Hf
    by (intros; by symmetry; repeat apply bfilter_Permutation).
  rewrite (Permutation_length (Hf "deny" _ _ Hp)), (Permutation_length (Hf "deny" _ _ Hg)),
    (Permutation_length (Hf "allow" _ _ Hp)), (Permutation_length (Hf "allow" _ _ Hg)).
  repeat case_match; try done; (split; [done|]); apply unique_sorted_ext; intros c;
    rewrite ?elem_of_cons, ?elem_of_app; by rewrite (Permutation_map er_reasonCode (Hf "deny" _ _ Hp)),
    (Permutation_map er_reasonCode (Hf "deny" _ _ Hg)).
Qed.

(** A request whose snapshot carries the given record lists. *)
Definition with_evidence (args snap : jsobj) (policies grants : list jsval) : jsobj :=
  ("snapshot", VObj (("policies", VArr policies) :: ("grants", VArr grants) :: snap)) :: args.

Lemma snapshot_permits_bound snapshot b t field l x :
  snapshot_permits snapshot b t -> field ∈ ["policies"; "grants"] ->
  vget snapshot field = VArr l -> x ∈ l -> normalizeBinding x = Ok b.
Proof.
  intros (c & e & source & ps & gs & _ & _ & _ & (lp & Hvp & _ & Hfp & _) &
    (lg & Hvg & _ & Hfg & _) & _) Hf Hl [i Hi]%list_elem_of_lookup.
  apply elem_of_cons in Hf as [->|Hf]; [|apply list_elem_of_singleton in Hf as ->].
  - rewrite Hvp in Hl. injection Hl as <-. eapply Forall2_lookup_l in Hfp as (r & _ & Hr); [|done].
    by apply normalizeEvidenceRecord_bound in Hr as [? _].
  - rewrite Hvg in Hl. injection Hl as <-. eapply Forall2_lookup_l in Hfg as (r & _ & Hr); [|done].
    by apply normalizeEvidenceRecord_bound in Hr as [? _].
Qed.

Definition inert (d : Decision) : Prop :=
  (pg_decision d = "allow" <-> pg_status d = "resolved") /\
  pg_authorityGranted d = false /\ pg_executionAuthorized d = false /\
  pg_runtimeAuthorityChanged d = false.

Lemma decideSnapshot_inert snapshot b sb c e source t :
  inert (decideSnapshot snapshot b sb c e source t).
Proof. unfold decideSnapshot, decideEvidence, inert. repeat case_match; done. Qed.

Lemma evaluate_total args b t :
  normalizeBinding (VObj args) = Ok b -> js_Date (now_param args) = Some t ->
  exists d, evaluatePolicyGrantDecision args = Ok d /\
    (pg_decision d = "allow" <-> snapshot_permits (oget args "snapshot") b t) /\ inert d.
Proof.
  intros Hb Ht. unfold evaluatePolicyGrantDecision. rewrite (bind_step _ _ b Hb), Ht.
  destruct (is_record (oget args "snapshot")) eqn:Hr; simpl.
  2: { eexists. split; [done|]. split; [|done]. split; [done|].
       intros (c & e & so & ps & gs & Hn & _). apply normalizeBinding_record in Hn. congruence. }
  eexists. split; [done|].
  destruct (normalizeBinding (oget args "snapshot")) as [sb|] eqn:Hsb; simpl.
  2: { split; [|done]. split; [done|]. intros (? & ? & ? & ? & ? & Hn & _). congruence. }
  destruct (readSourceEvidence (oget args "snapshot")) as [[[c e] source]|] eqn:Hrs; simpl.
  2: { split; [|done]. split; [done|]. intros (? & ? & ? & ? & ? & _ & Hn & _). congruence. }
  split; [|apply decideSnapshot_inert]. rewrite decideSnapshot_allow. split.
  - intros (-> & Hce & ps & gs & Hps & Hgs & (Hd & Hpa & Hga)%decideEvidence_allow).
    exists c, e, source, ps, gs. done.
  - intros (c' & e' & so & ps & gs & Hn & Hso & Hce & Hps & Hgs & Hrest).
    rewrite Hsb in Hn. rewrite Hrs in Hso. simplify_eq. split; [done|]. split; [done|].
    exists ps, gs. split; [done|]. split; [done|]. by apply decideEvidence_allow.
Qed.

Lemma decideSnapshot_Permutation snap ps ps' gs gs' b sb c e source t :
  ps ≡ₚ ps' -> gs ≡ₚ gs' ->
  let d := decideSnapshot (VObj (("policies", VArr ps) :: ("grants", VArr gs) :: snap))
             b sb c e source t in
  let d' := decideSnapshot (VObj (("policies", VArr ps') :: ("grants", VArr gs') :: snap))
             b sb c e source t in
  pg_decision d' = pg_decision d /\ (is_Some (pg_policyEvidence d) -> pg_reasonCodes d' = pg_reasonCodes d).
Proof.
  intros Hp Hg d d'. subst d d'. unfold decideSnapshot.
  destruct (negb _); [done|]. destruct (Z.ltb _ _); [done|]. destruct (Z.leb _ _); [done|].
  cbn [vget oget String.eqb Ascii.eqb Bool.eqb].
  pose proof (normalizeEvidenceList_Permutation ps ps' policy b maxPolicies Hp) as Hps.
  pose proof (normalizeEvidenceList_Permutation gs gs' grant b maxGrants Hg) as Hgs.
  destruct (normalizeEvidenceList (VArr ps) policy b maxPolicies),
    (normalizeEvidenceList (VArr ps') policy b maxPolicies); try done;
    [|split; [done | by intros [? ?]]].
  destruct (normalizeEvidenceList (VArr gs) grant b maxGrants),
    (normalizeEvidenceList (VArr gs') grant b maxGrants); try done;
    [|split; [done | by intros [? ?]]].
  destruct (decideEvidence_Permutation source _ _ _ _ t Hps Hgs). by split.
Qed.

(** C1: the decision allows exactly when the snapshot is bound to the request,
    read in its validity window, its (at most 100) policies and grants are all
    well formed, bound to the same request and referenced once, no active
    record denies, and at least one active policy and one active grant allow;
    every record of an allowing snapshot is bound to the request's own
    binding, and no decision grants authority or execution. *)
Theorem evaluatePolicyGrantDecision_correct args b t :
  normalizeBinding (VObj args) = Ok b -> js_Date (now_param args) = Some t ->
  exists d, evaluatePolicyGrantDecision args = Ok d /\
    (pg_decision d = "allow" <-> snapshot_permits (oget args "snapshot") b t) /\
    (pg_decision d = "allow" -> forall field l x, field ∈ ["policies"; "grants"] ->
       vget (oget args "snapshot") field = VArr l -> x ∈ l -> normalizeBinding x = Ok b) /\
    (pg_decision d = "allow" <-> pg_status d = "resolved") /\
    pg_authorityGranted d = false /\ pg_executionAuthorized d = false /\
    pg_runtimeAuthorityChanged d = false.
Proof.
  intros Hb Ht. destruct (evaluate_total args b t Hb Ht) as (d & Hd & Ha & Hst & Hflags).
  exists d. split; [done|]. split; [done|]. split; [|by destruct_and!].
  intros Hal field l x. apply snapshot_permits_bound with t. by apply Ha.
Qed.

(** Neither the order of the policies nor that of the grants matters: a
    permutation of either list gives the same decision, and the same reason
    codes whenever the records could be read (only the first of several
    malformed records names the error). *)
Theorem evaluatePolicyGrantDecision_order_independent args snap ps ps' gs gs' d :
  ps ≡ₚ ps' -> gs ≡ₚ gs' ->
  evaluatePolicyGrantDecision (with_evidence args snap ps gs) = Ok d ->
  exists d', evaluatePolicyGrantDecision (with_evidence args snap ps' gs') = Ok d' /\
    pg_decision d' = pg_decision d /\
    (is_Some (pg_policyEvidence d) -> pg_reasonCodes d' = pg_reasonCodes d).
Proof.
  intros Hp Hg. unfold evaluatePolicyGrantDecision. intros Heq.
  apply bind_Ok in Heq as (b & Hb & Heq).
  rewrite (bind_step _ _ b Hb).
  change (now_param (with_evidence args snap ps' gs')) with (now_param (with_evidence args snap ps gs)).
  set (v := fun ps gs => VObj (("policies", VArr ps) :: ("grants", VArr gs) :: snap)).
  assert (normalizeBinding (v ps' gs') = normalizeBinding (v ps gs)) as Hnb by reflexivity.
  assert (readSourceEvidence (v ps' gs') = readSourceEvidence (v ps gs)) as Hrs by reflexivity.
  destruct (js_Date _) as [t|]; [|done]. injection Heq as <-. eexists. split; [reflexivity|].
  cbn [with_evidence oget String.eqb Ascii.eqb Bool.eqb].
  fold (v ps gs) (v ps' gs'). rewrite Hnb, Hrs.
  destruct (normalizeBinding (v ps gs)) as [sb|]; [|done].
  destruct (readSourceEvidence (v ps gs)) as [[[c e] source]|]; [|done].
  apply decideSnapshot_Permutation; done.
Qed.
End Facts.

Definition demo_record (ref effect reason : string) : jsval :=
  VObj [(ref, VStr (ref +:+ "-" +:+ effect)); ("effect", VStr effect); ("status", VStr "active");
        ("reasonCode", VStr reason); ("principalType", VStr "user"); ("principalRef", VStr "u1");
        ("subjectType", VStr "user"); ("subjectRef", VStr "u1"); ("tenantRef", VStr "t1");
        ("capabilityKey", VStr "cap"); ("operation", VStr "read"); ("resourceType", VStr "doc");
        ("resourceRef", VStr "d1")].

Definition demo_binding : jsobj :=
  [("principalType", VStr "user"); ("principalRef", VStr "u1"); ("subjectType", VStr "user");
   ("subjectRef", VStr "u1"); ("tenantRef", VStr "t1"); ("capabilityKey", VStr "cap");
   ("operation", VStr "read"); ("resourceType", VStr "doc"); ("resourceRef", VStr "d1")].

Definition demo_snapshot : jsobj :=
  ("evaluatedAt", VStr "2023-11-14T00:00:00.000Z") ::
  ("expiresAt", VStr "2023-11-15T00:00:00.000Z") :: demo_binding.

Definition demo_policies : list jsval := [demo_record "policyRef" "allow" "P_ALLOW"].
Definition demo_grants : list jsval :=
  [demo_record "grantRef" "allow" "G_ALLOW"; demo_record "grantRef" "deny" "G_DENY"].

Lemma evaluatePolicyGrantDecision_correct_witness :
  exists d, evaluatePolicyGrantDecision (H := demo_host)
      (with_evidence demo_binding demo_snapshot demo_policies (take 1 demo_grants)) = Ok d /\
    pg_decision d = "allow" /\ pg_authorityGranted d = false.
Proof.
  destruct (@evaluatePolicyGrantDecision_correct demo_host
    (with_evidence demo_binding demo_snapshot demo_policies (take 1 demo_grants))
    (Build_Binding "user" "u1" "user" "u1" "t1" None "cap" "read" "doc" "d1") 1700000000000%Z)
    as (d & Hd & _ & _ & _ & Hau & _); [vm_compute; reflexivity | vm_compute; reflexivity|].
  exists d. split; [done|]. split; [|done]. revert Hd. vm_compute. by intros [= <-].
Defined.

Lemma evaluatePolicyGrantDecision_order_independent_witness :
  exists d', evaluatePolicyGrantDecision (H := demo_host)
      (with_evidence demo_binding demo_snapshot demo_policies (rev demo_grants)) = Ok d' /\
    pg_reasonCodes d' = ["GRANT_EXPLICIT_DENY"; "G_DENY"].
Proof.
  destruct (evaluatePolicyGrantDecision (H := demo_host)
    (with_evidence demo_binding demo_snapshot demo_policies demo_grants)) as [d|] eqn:Hd;
    [|vm_compute in Hd; discriminate].
  destruct (@evaluatePolicyGrantDecision_order_independent demo_host demo_binding demo_snapshot
    demo_policies demo_policies demo_grants (rev demo_grants) d) as (d' & Hd' & _ & Hr);
    [done | apply Permutation_rev | exact Hd|].
  exists d'. split; [done|].
  assert (is_Some (pg_policyEvidence d) /\ pg_reasonCodes d = ["GRANT_EXPLICIT_DENY"; "G_DENY"])
    as [Hs Hc] by (revert Hd; vm_compute; intros [= <-]; split; [eexists|]; reflexivity).
  by rewrite (Hr Hs).
Defined.
End PolicyGrant.
