(* ===== verification/EndpointCertification.v ===== *)
(** * Endpoint certification (contextKernel/domain/endpointCertificationDecision.js)

    Resolution of a configured endpoint key through its alias to one canonical
    endpoint and one runtime certification.  The early [return blocked(...)]s
    of the code are the exceptions of [outcome Decision], so the handler is a
    chain of three selections: alias, endpoint, certification. *)
From S2P Require Import Prelude Sorting JsString JsDate JsValue ContextModel EvidenceSupport.

Module EndpointCertification.

Definition maxAliases : nat := 50.
Definition maxEndpoints : nat := 50.
Definition maxCertifications : nat := 50.

Definition ENDPOINT_STATUSES : list string :=
  ["active"; "ready"; "enabled"; "inactive"; "disabled"; "revoked"].
Definition ENDPOINT_READINESS : list string :=
  ["ready"; "active"; "enabled"; "blocked"; "unavailable"; "unknown"].
Definition ALIAS_STATUSES : list string := ["active"; "inactive"; "disabled"; "revoked"; "expired"].
Definition CERTIFICATION_STATUSES : list string :=
  ["certified"; "active"; "revoked"; "suspended"; "expired"; "inactive"].

Record Binding := {
  principalType : string;
  principalRef : string;
  subjectType : string;
  subjectRef : string;
  tenantRef : string;
  workspaceRef : option string;
  capabilityKey : string;
  providerBindingRef : string;
  appKey : string;
  parentActionKey : string;
  configuredEndpointKey : string;
}.

Record Alias := {
  al_aliasRef : string;
  al_aliasEndpointKey : string;
  al_canonicalEndpointKey : string;
  al_status : string;
  al_revisionRef : option string;
  al_validFrom : option Z;
  al_validUntil : option Z;
}.

Record Endpoint := {
  ep_endpointRef : string;
  ep_endpointKey : string;
  ep_status : string;
  ep_executionReadiness : string;
  ep_schemaPresent : bool;
  ep_method : option string;
  ep_endpointPathOrFunction : option string;
  ep_moduleBinding : option string;
  ep_connectorFamily : option string;
  ep_revisionRef : option string;
  ep_validFrom : option Z;
  ep_validUntil : option Z;
}.

Record Certification := {
  ce_certificationRef : string;
  ce_endpointKey : string;
  ce_status : string;
  ce_dispatchAllowed : bool;
  ce_applyAllowed : bool;
  ce_revisionRef : option string;
  ce_certifiedAt : option Z;
  ce_validFrom : option Z;
  ce_validUntil : option Z;
  ce_revokedAt : option Z;
}.

Record AliasSummary := {
  as_aliasRef : string;
  as_aliasEndpointKey : string;
  as_canonicalEndpointKey : string;
  as_revisionRef : option string;
}.

Record EndpointSummary := {
  eps_endpointRef : string;
  eps_endpointKey : string;
  eps_method : option string;
  eps_endpointPathOrFunction : option string;
  eps_moduleBinding : option string;
  eps_connectorFamily : option string;
  eps_revisionRef : option string;
}.

Record CertificationSummary := {
  cs_certificationRef : string;
  cs_endpointKey : string;
  cs_status : string;
  cs_dispatchAllowed : bool;
  cs_applyAllowed : bool;
  cs_revisionRef : option string;
  cs_certifiedAt : option string;
  cs_validUntil : option string;
}.

(** An evidence property is absent, one summary (or [null]), or an array. *)
Inductive evidence (A : Type) : Type :=
| Absent
| One (x : option A)
| Many (l : list A).
Arguments Absent {A}.
Arguments One {A} x.
Arguments Many {A} l.

Record Decision := {
  ec_status : string;
  ec_decision : string;
  ec_reasonCodes : list string;
  ec_sourceEvidence : option SourceEvidence;
  ec_aliasEvidence : evidence AliasSummary;
  ec_endpointEvidence : evidence EndpointSummary;
  ec_certificationEvidence : evidence CertificationSummary;
  (** [configuredEndpointKey], [canonicalEndpointKey], [aliasApplied],
      [applyCertified]: properties of a resolved decision only *)
  ec_resolution : option (string * string * bool * bool);
  ec_endpointResolved : bool;
  ec_certificationSatisfied : bool;
  ec_dispatchCertified : bool;
  ec_authorityGranted : bool;
  ec_executionAuthorized : bool;
  ec_runtimeAuthorityChanged : bool;
  ec_automaticWritePerformed : bool;
  ec_providerCallMade : bool;
  ec_credentialPayloadRead : bool;
  ec_secretsIncluded : bool;
}.

Definition blocked (reasonCodes : list string) (source : option SourceEvidence)
    (alias : evidence AliasSummary) (endpoint : evidence EndpointSummary)
    (certification : evidence CertificationSummary) : Decision :=
  {| ec_status := "blocked"; ec_decision := "deny"; ec_reasonCodes := unique_sorted reasonCodes;
     ec_sourceEvidence := source; ec_aliasEvidence := alias; ec_endpointEvidence := endpoint;
     ec_certificationEvidence := certification; ec_resolution := None;
     ec_endpointResolved := false; ec_certificationSatisfied := false;
     ec_dispatchCertified := false; ec_authorityGranted := false;
     ec_executionAuthorized := false; ec_runtimeAuthorityChanged := false;
     ec_automaticWritePerformed := false; ec_providerCallMade := false;
     ec_credentialPayloadRead := false; ec_secretsIncluded := false |}.

Definition bindingsMatch (left right : Binding) : bool :=
  String.eqb (principalType left) (principalType right)
  && String.eqb (principalRef left) (principalRef right)
  && String.eqb (subjectType left) (subjectType right)
  && String.eqb (subjectRef left) (subjectRef right)
  && String.eqb (tenantRef left) (tenantRef right)
  && ostr_eqb (workspaceRef left) (workspaceRef right)
  && String.eqb (capabilityKey left) (capabilityKey right)
  && String.eqb (providerBindingRef left) (providerBindingRef right)
  && String.eqb (appKey left) (appKey right)
  && String.eqb (parentActionKey left) (parentActionKey right)
  && String.eqb (configuredEndpointKey left) (configuredEndpointKey right).

Definition summarizeAlias (a : Alias) : AliasSummary :=
  {| as_aliasRef := al_aliasRef a; as_aliasEndpointKey := al_aliasEndpointKey a;
     as_canonicalEndpointKey := al_canonicalEndpointKey a; as_revisionRef := al_revisionRef a |}.

Definition summarizeEndpoint (e : Endpoint) : EndpointSummary :=
  {| eps_endpointRef := ep_endpointRef e; eps_endpointKey := ep_endpointKey e;
     eps_method := ep_method e; eps_endpointPathOrFunction := ep_endpointPathOrFunction e;
     eps_moduleBinding := ep_moduleBinding e; eps_connectorFamily := ep_connectorFamily e;
     eps_revisionRef := ep_revisionRef e |}.

Definition summarizeCertification (c : Certification) : CertificationSummary :=
  {| cs_certificationRef := ce_certificationRef c; cs_endpointKey := ce_endpointKey c;
     cs_status := ce_status c; cs_dispatchAllowed := ce_dispatchAllowed c;
     cs_applyAllowed := ce_applyAllowed c; cs_revisionRef := ce_revisionRef c;
     cs_certifiedAt := toISOString <$> ce_certifiedAt c;
     cs_validUntil := toISOString <$> ce_validUntil c |}.

Section Normalise.
Context `{JsHost}.

Definition normalizeBinding (input : jsval) : js Binding :=
  principalType ← requireIdentifier (vget input "principalType") "principalType";
  principalRef ← requireIdentifier (vget input "principalRef") "principalRef";
  subjectType ← requireIdentifier (vget input "subjectType") "subjectType";
  subjectRef ← requireIdentifier (vget input "subjectRef") "subjectRef";
  tenantRef ← requireIdentifier (vget input "tenantRef") "tenantRef";
  workspaceRef ← optionalIdentifier (vget input "workspaceRef") "workspaceRef";
  capabilityKey ← requireIdentifier (vget input "capabilityKey") "capabilityKey";
  providerBindingRef ← requireIdentifier (vget input "providerBindingRef") "providerBindingRef";
  appKey ← requireIdentifier (vget input "appKey") "appKey";
  parentActionKey ← requireIdentifier (vget input "parentActionKey") "parentActionKey";
  configuredEndpointKey ← requireIdentifier (vget input "configuredEndpointKey")
                            "configuredEndpointKey";
  Ok {| principalType := principalType; principalRef := principalRef;
        subjectType := subjectType; subjectRef := subjectRef; tenantRef := tenantRef;
        workspaceRef := workspaceRef; capabilityKey := capabilityKey;
        providerBindingRef := providerBindingRef; appKey := appKey;
        parentActionKey := parentActionKey; configuredEndpointKey := configuredEndpointKey |}.

(** [String(v || "").trim().toLowerCase()] *)
Definition lowered (v : jsval) : string := js_toLowerCase (js_trim (str_or_empty v)).

Definition normalizeAlias (binding : Binding) (record : jsval) : coded Alias :=
  if negb (is_record record) then Throw "ENDPOINT_ALIAS_MALFORMED"
  else catch_code (
    let status := lowered (vget record "status") in
    if negb (sin status ALIAS_STATUSES) then Ok (Throw "ENDPOINT_ALIAS_STATUS_UNSUPPORTED")
    else
    recordBinding ← normalizeBinding record;
    if negb (bindingsMatch binding recordBinding) then Ok (Throw "ENDPOINT_ALIAS_BINDING_MISMATCH")
    else
    aliasRef ← requireIdentifier (vget record "aliasRef") "alias.aliasRef";
    aliasEndpointKey ← requireIdentifier (vget record "aliasEndpointKey") "alias.aliasEndpointKey";
    canonicalEndpointKey ← requireIdentifier (vget record "canonicalEndpointKey")
                             "alias.canonicalEndpointKey";
    revisionRef ← optionalIdentifier (vget record "revisionRef") "alias.revisionRef";
    validFrom ← normalizeTimestamp (vget record "validFrom") "alias.validFrom" false;
    validUntil ← normalizeTimestamp (js_or (vget record "validUntil") (vget record "expiresAt"))
                   "alias.validUntil" false;
    Ok (Ok {| al_aliasRef := aliasRef; al_aliasEndpointKey := aliasEndpointKey;
              al_canonicalEndpointKey := canonicalEndpointKey; al_status := status;
              al_revisionRef := revisionRef; al_validFrom := validFrom;
              al_validUntil := validUntil |}))
    "ENDPOINT_ALIAS_MALFORMED".

Definition normalizeEndpoint (binding : Binding) (record : jsval) : coded Endpoint :=
  if negb (is_record record) then Throw "ENDPOINT_EVIDENCE_MALFORMED"
  else catch_code (
    let status := lowered (vget record "status") in
    let executionReadiness := lowered (vget record "executionReadiness") in
    if negb (sin status ENDPOINT_STATUSES) then Ok (Throw "ENDPOINT_STATUS_UNSUPPORTED")
    else if negb (sin executionReadiness ENDPOINT_READINESS)
    then Ok (Throw "ENDPOINT_READINESS_UNSUPPORTED")
    else
    recordBinding ← normalizeBinding record;
    if negb (bindingsMatch binding recordBinding)
    then Ok (Throw "ENDPOINT_EVIDENCE_BINDING_MISMATCH")
    else
    endpointRef ← requireIdentifier (vget record "endpointRef") "endpoint.endpointRef";
    endpointKey ← requireIdentifier (vget record "endpointKey") "endpoint.endpointKey";
    method ← optionalIdentifier (vget record "method") "endpoint.method";
    endpointPathOrFunction ← optionalText (vget record "endpointPathOrFunction")
                               "endpoint.endpointPathOrFunction" 500;
    moduleBinding ← optionalIdentifier (vget record "moduleBinding") "endpoint.moduleBinding";
    connectorFamily ← optionalIdentifier (vget record "connectorFamily") "endpoint.connectorFamily";
    revisionRef ← optionalIdentifier (vget record "revisionRef") "endpoint.revisionRef";
    validFrom ← normalizeTimestamp (vget record "validFrom") "endpoint.validFrom" false;
    validUntil ← normalizeTimestamp (js_or (vget record "validUntil") (vget record "expiresAt"))
                   "endpoint.validUntil" false;
    Ok (Ok {| ep_endpointRef := endpointRef; ep_endpointKey := endpointKey; ep_status := status;
              ep_executionReadiness := executionReadiness;
              ep_schemaPresent := is_true (vget record "schemaPresent"); ep_method := method;
              ep_endpointPathOrFunction := endpointPathOrFunction;
              ep_moduleBinding := moduleBinding; ep_connectorFamily := connectorFamily;
              ep_revisionRef := revisionRef; ep_validFrom := validFrom;
              ep_validUntil := validUntil |}))
    "ENDPOINT_EVIDENCE_MALFORMED".

Definition normalizeCertification (binding : Binding) (record : jsval) : coded Certification :=
  if negb (is_record record) then Throw "CERTIFICATION_EVIDENCE_MALFORMED"
  else catch_code (
    let status := lowered (js_or (vget record "status") (vget record "certificationStatus")) in
    if negb (sin status CERTIFICATION_STATUSES) then Ok (Throw "CERTIFICATION_STATUS_UNSUPPORTED")
    else
    recordBinding ← normalizeBinding record;
    if negb (bindingsMatch binding recordBinding)
    then Ok (Throw "CERTIFICATION_EVIDENCE_BINDING_MISMATCH")
    else
    certificationRef ← requireIdentifier (vget record "certificationRef")
                         "certification.certificationRef";
    endpointKey ← requireIdentifier (vget record "endpointKey") "certification.endpointKey";
    revisionRef ← optionalIdentifier (vget record "revisionRef") "certification.revisionRef";
    certifiedAt ← normalizeTimestamp (vget record "certifiedAt") "certification.certifiedAt" false;
    validFrom ← normalizeTimestamp (vget record "validFrom") "certification.validFrom" false;
    validUntil ← normalizeTimestamp (js_or (vget record "validUntil") (vget record "expiresAt"))
                   "certification.validUntil" false;
    revokedAt ← normalizeTimestamp (vget record "revokedAt") "certification.revokedAt" false;
    Ok (Ok {| ce_certificationRef := certificationRef; ce_endpointKey := endpointKey;
              ce_status := status; ce_dispatchAllowed := is_true (vget record "dispatchAllowed");
              ce_applyAllowed := is_true (vget record "applyAllowed");
              ce_revisionRef := revisionRef; ce_certifiedAt := certifiedAt;
              ce_validFrom := validFrom; ce_validUntil := validUntil; ce_revokedAt := revokedAt |}))
    "CERTIFICATION_EVIDENCE_MALFORMED".

Definition normalizeList {R} (records : jsval) (normalizeRecord : Binding -> jsval -> coded R)
    (binding : Binding) (maximumCount : nat) (limitCode ambiguousCode : string)
    (refKey : R -> string) : coded (list R) :=
  match records with
  | VArr l =>
      throw_if (maximumCount <? length l) limitCode;;
      collect_records (normalizeRecord binding) refKey ambiguousCode [] l
  | _ => Throw (js_replace limitCode "_LIMIT_EXCEEDED" "" +:+ "_MALFORMED")
  end.
End Normalise.

Definition recordIsCurrent (validFrom validUntil : option Z) (now : Z) : bool :=
  in_window validFrom validUntil now.

(** ** Selection

    [Throw d] is the early [return d] of the handler. *)
Abbreviation step := (outcome Decision).

Definition return_if (c : bool) (d : Decision) : step unit := throw_if c d.

(** [if (result.errorCode) return blocked([result.errorCode], { sourceEvidence })] *)
Definition value_of {A} (source : SourceEvidence) (r : coded A) : step A :=
  match r with
  | Ok a => Ok a
  | Throw code => Throw (blocked [code] (Some source) Absent Absent Absent)
  end.

Definition relevantAlias (key : string) (now : Z) (a : Alias) : bool :=
  String.eqb (al_aliasEndpointKey a) key && recordIsCurrent (al_validFrom a) (al_validUntil a) now.
Definition blockingAlias (a : Alias) : bool :=
  sin (al_status a) ["revoked"; "disabled"; "inactive"; "expired"].
Definition activeAlias (a : Alias) : bool := String.eqb (al_status a) "active".

Definition selectAlias (source : SourceEvidence) (binding : Binding) (now : Z)
    (aliases : list Alias) : step (option Alias) :=
  let relevantAliases := bfilter (relevantAlias (configuredEndpointKey binding) now) aliases in
  let blockingAliases := bfilter blockingAlias relevantAliases in
  return_if (0 <? length blockingAliases)
    (blocked ["ENDPOINT_ALIAS_NOT_ACTIVE"] (Some source)
       (Many (List.map summarizeAlias blockingAliases)) Absent Absent);;
  let activeAliases := bfilter activeAlias relevantAliases in
  return_if (1 <? length activeAliases)
    (blocked ["ENDPOINT_ALIAS_AMBIGUOUS"] (Some source)
       (Many (List.map summarizeAlias activeAliases)) Absent Absent);;
  Ok (head activeAliases).

(** [selectedAlias?.canonicalEndpointKey || binding.configuredEndpointKey] *)
Definition canonicalKey (binding : Binding) (selectedAlias : option Alias) : string :=
  match selectedAlias with
  | Some a => if is_empty (al_canonicalEndpointKey a) then configuredEndpointKey binding
              else al_canonicalEndpointKey a
  | None => configuredEndpointKey binding
  end.

Definition matchingEndpoint (key : string) (now : Z) (e : Endpoint) : bool :=
  String.eqb (ep_endpointKey e) key && recordIsCurrent (ep_validFrom e) (ep_validUntil e) now.
Definition blockingEndpoint (e : Endpoint) : bool :=
  sin (ep_status e) ["inactive"; "disabled"; "revoked"]
  || sin (ep_executionReadiness e) ["blocked"; "unavailable"].
Definition activeEndpoint (e : Endpoint) : bool :=
  sin (ep_status e) ["active"; "ready"; "enabled"]
  && sin (ep_executionReadiness e) ["ready"; "active"; "enabled"].

Definition selectEndpoint (source : SourceEvidence) (alias : option Alias) (key : string) (now : Z)
    (endpoints : list Endpoint) : step Endpoint :=
  let aliasEvidence := One (summarizeAlias <$> alias) in
  let matchingEndpoints := bfilter (matchingEndpoint key now) endpoints in
  let blockingEndpoints := bfilter blockingEndpoint matchingEndpoints in
  return_if (0 <? length blockingEndpoints)
    (blocked ["CANONICAL_ENDPOINT_DENIED"] (Some source) aliasEvidence
       (Many (List.map summarizeEndpoint blockingEndpoints)) Absent);;
  let activeEndpoints := bfilter activeEndpoint matchingEndpoints in
  match activeEndpoints with
  | [] => Throw (blocked ["CANONICAL_ENDPOINT_UNAVAILABLE"] (Some source) aliasEvidence Absent Absent)
  | selectedEndpoint :: _ =>
      return_if (1 <? length activeEndpoints)
        (blocked ["CANONICAL_ENDPOINT_AMBIGUOUS"] (Some source) aliasEvidence
           (Many (List.map summarizeEndpoint activeEndpoints)) Absent);;
      return_if (negb (ep_schemaPresent selectedEndpoint))
        (blocked ["ENDPOINT_SCHEMA_MISSING"] (Some source) aliasEvidence
           (One (Some (summarizeEndpoint selectedEndpoint))) Absent);;
      Ok selectedEndpoint
  end.

Definition certified (c : Certification) : bool := sin (ce_status c) ["certified"; "active"].
Definition after (t : option Z) (now : Z) : bool :=
  match t with Some t => Z.ltb now t | None => false end.

Definition currentCertification (key : string) (now : Z) (c : Certification) : bool :=
  String.eqb (ce_endpointKey c) key && recordIsCurrent (ce_validFrom c) (ce_validUntil c) now.
Definition deniedCertification (c : Certification) : bool :=
  bool_decide (is_Some (ce_revokedAt c))
  || sin (ce_status c) ["revoked"; "suspended"; "inactive"]
  || (certified c && negb (ce_dispatchAllowed c)).
Definition futureCertification (now : Z) (c : Certification) : bool :=
  certified c && ce_dispatchAllowed c && after (ce_certifiedAt c) now.
Definition activeCertification (now : Z) (c : Certification) : bool :=
  certified c && ce_dispatchAllowed c && negb (bool_decide (is_Some (ce_revokedAt c)))
  && negb (after (ce_certifiedAt c) now).

Definition selectCertification (source : SourceEvidence) (alias : option Alias)
    (endpoint : Endpoint) (key : string) (now : Z) (certifications : list Certification)
    : step Certification :=
  let stop code evidence := blocked [code] (Some source) (One (summarizeAlias <$> alias))
    (One (Some (summarizeEndpoint endpoint))) evidence in
  let currentCertifications := bfilter (currentCertification key now) certifications in
  let explicitDenials := bfilter deniedCertification currentCertifications in
  return_if (0 <? length explicitDenials)
    (stop "RUNTIME_CERTIFICATION_DENIED" (Many (List.map summarizeCertification explicitDenials)));;
  let futureCertifications := bfilter (futureCertification now) currentCertifications in
  return_if (0 <? length futureCertifications)
    (stop "RUNTIME_CERTIFICATION_FROM_FUTURE"
       (Many (List.map summarizeCertification futureCertifications)));;
  let activeCertifications := bfilter (activeCertification now) currentCertifications in
  match activeCertifications with
  | [] => Throw (stop "RUNTIME_CERTIFICATION_MISSING" Absent)
  | selectedCertification :: _ =>
      return_if (1 <? length activeCertifications)
        (stop "RUNTIME_CERTIFICATION_AMBIGUOUS"
           (Many (List.map summarizeCertification activeCertifications)));;
      Ok selectedCertification
  end.

Definition resolved (source : SourceEvidence) (binding : Binding) (alias : option Alias)
    (endpoint : Endpoint) (certification : Certification) : Decision :=
  {| ec_status := "resolved"; ec_decision := "allow";
     ec_reasonCodes := ["ENDPOINT_CERTIFICATION_RESOLVED"]; ec_sourceEvidence := Some source;
     ec_aliasEvidence := One (summarizeAlias <$> alias);
     ec_endpointEvidence := One (Some (summarizeEndpoint endpoint));
     ec_certificationEvidence := One (Some (summarizeCertification certification));
     ec_resolution := Some (configuredEndpointKey binding, canonicalKey binding alias,
       bool_decide (is_Some alias), ce_applyAllowed certification);
     ec_endpointResolved := true; ec_certificationSatisfied := true;
     ec_dispatchCertified := true; ec_authorityGranted := false;
     ec_executionAuthorized := false; ec_runtimeAuthorityChanged := false;
     ec_automaticWritePerformed := false; ec_providerCallMade := false;
     ec_credentialPayloadRead := false; ec_secretsIncluded := false |}.

Section Decide.
Context `{JsHost}.

(** The handler after the snapshot header has been read. *)
Definition decideSnapshot (snapshot : jsval) (binding snapshotBinding : Binding)
    (capturedAt expiresAt : Z) (source : SourceEvidence) (now : Z) : step Decision :=
  let stop code := blocked [code] (Some source) Absent Absent Absent in
  return_if (negb (bindingsMatch binding snapshotBinding))
    (stop "ENDPOINT_CERTIFICATION_SNAPSHOT_BINDING_MISMATCH");;
  return_if (Z.ltb now capturedAt) (stop "ENDPOINT_CERTIFICATION_SNAPSHOT_FROM_FUTURE");;
  return_if (Z.leb expiresAt now) (stop "ENDPOINT_CERTIFICATION_SNAPSHOT_STALE");;
  aliases ← value_of source (normalizeList (vget snapshot "aliases") normalizeAlias binding
    maxAliases "ENDPOINT_ALIAS_LIMIT_EXCEEDED" "ENDPOINT_ALIAS_REFERENCE_AMBIGUOUS" al_aliasRef);
  selectedAlias ← selectAlias source binding now aliases;
  let canonicalEndpointKey := canonicalKey binding selectedAlias in
  endpoints ← value_of source (normalizeList (vget snapshot "endpoints") normalizeEndpoint binding
    maxEndpoints "ENDPOINT_EVIDENCE_LIMIT_EXCEEDED" "ENDPOINT_REFERENCE_AMBIGUOUS" ep_endpointRef);
  selectedEndpoint ← selectEndpoint source selectedAlias canonicalEndpointKey now endpoints;
  certifications ← value_of source (normalizeList (vget snapshot "certifications")
    normalizeCertification binding maxCertifications "CERTIFICATION_EVIDENCE_LIMIT_EXCEEDED"
    "CERTIFICATION_REFERENCE_AMBIGUOUS" ce_certificationRef);
  selectedCertification ← selectCertification source selectedAlias selectedEndpoint
    canonicalEndpointKey now certifications;
  Ok (resolved source binding selectedAlias selectedEndpoint selectedCertification).

(** The decision of a handler: its result or the value it returned early. *)
Definition returned (m : step Decision) : Decision := match m with Ok d | Throw d => d end.

(** [evaluateEndpointCertificationDecision({ snapshot, ..., now })] *)
Definition evaluateEndpointCertificationDecision (args : jsobj) : js Decision :=
  binding ← normalizeBinding (VObj args);
  match js_Date (now_param args) with
  | None => type_error "now must be a valid Date."
  | Some evaluatedNow =>
      let snapshot := oget args "snapshot" in
      let malformed := blocked ["ENDPOINT_CERTIFICATION_SNAPSHOT_MALFORMED"] None
                         Absent Absent Absent in
      if negb (is_record snapshot) then Ok malformed
      else Ok (catch (
        snapshotBinding ← normalizeBinding snapshot;
        '(capturedAt, expiresAt, source) ← readSourceEvidence snapshot;
        Ok (returned (decideSnapshot snapshot binding snapshotBinding capturedAt expiresAt
                        source evaluatedNow)))
        malformed)
  end.
End Decide.

(** ** What the selections accept *)

Lemma endpoint_bindingsMatch_true l r : bindingsMatch l r = true <-> l = r.
Proof.
  unfold bindingsMatch. rewrite !andb_true_iff, !String.eqb_eq, ostr_eqb_true.
  destruct l, r; simpl. split; [intros; destruct_and!; by f_equal|].
  intros [=]; subst. by repeat split.
Qed.

Lemma nonempty_filter {A} (p q : A -> bool) l : (0 <? length (bfilter p (bfilter q l))) = false <->
  forall x, x ∈ l -> q x = true -> p x = false.
Proof.
  rewrite Nat.ltb_ge, Nat.le_0_r, length_zero_iff_nil, bfilter_nil.
  setoid_rewrite elem_of_bfilter. naive_solver.
Qed.

(** The alias in force for the configured key: at most one record covers the
    key at the time, and it is active. *)
Definition alias_in_force (b : Binding) (t : Z) (aliases : list Alias) (alias : option Alias) : Prop :=
  match alias with
  | Some a => only (relevantAlias (configuredEndpointKey b) t) aliases a /\ al_status a = "active"
  | None => forall a, a ∈ aliases -> relevantAlias (configuredEndpointKey b) t a = false
  end.

(** The endpoint serving a key: every record of the key that is current is
    unblocked, exactly one is active, and that one has a schema. *)
Definition endpoint_serving (key : string) (t : Z) (endpoints : list Endpoint) (e : Endpoint) : Prop :=
  only (fun e => matchingEndpoint key t e && activeEndpoint e) endpoints e /\
  (forall e', e' ∈ endpoints -> matchingEndpoint key t e' = true -> blockingEndpoint e' = false) /\
  ep_schemaPresent e = true.

(** The certification covering a key: no current record of the key denies or
    lies in the future, and exactly one certifies. *)
Definition certification_covering (key : string) (t : Z) (cs : list Certification)
    (c : Certification) : Prop :=
  only (fun c => currentCertification key t c && activeCertification t c) cs c /\
  (forall c', c' ∈ cs -> currentCertification key t c' = true ->
     deniedCertification c' = false /\ futureCertification t c' = false).

Lemma alias_status_cases a : al_status a ∈ ALIAS_STATUSES -> blockingAlias a = negb (activeAlias a).
Proof.
  unfold blockingAlias, activeAlias, ALIAS_STATUSES. intros Hs.
  repeat (apply elem_of_cons in Hs as [->|Hs]; [reflexivity|]). by apply elem_of_nil in Hs.
Qed.

Lemma bfilter_and {A} (p q : A -> bool) l : bfilter p (bfilter q l) = bfilter (fun x => q x && p x) l.
Proof. apply bfilter_bfilter. Qed.

Lemma selectAlias_Ok source b t aliases alias : NoDup aliases ->
  (forall a, a ∈ aliases -> al_status a ∈ ALIAS_STATUSES) ->
  selectAlias source b t aliases = Ok alias <-> alias_in_force b t aliases alias.
Proof.
  intros Hnd Hst. set (rel := relevantAlias (configuredEndpointKey b) t).
  assert (forall a, a ∈ bfilter rel aliases -> blockingAlias a = negb (activeAlias a)) as Hcase.
  { intros a [_ Ha]%elem_of_bfilter. by apply alias_status_cases, Hst. }
  unfold selectAlias. fold rel. rewrite bind_Ok. setoid_rewrite bind_Ok. unfold return_if.
  setoid_rewrite throw_if_Ok. setoid_rewrite nonempty_filter. split.
  - intros ([] & Hb & [] & Hl & [= <-]). rewrite Nat.ltb_ge in Hl.
    assert (bfilter activeAlias (bfilter rel aliases) = bfilter rel aliases) as Hall.
    { apply bfilter_all. intros a Ha. specialize (Hcase a Ha).
      apply elem_of_bfilter in Ha as [Hr Ha]. rewrite (Hb a Ha Hr) in Hcase.
      by destruct (activeAlias a). }
    rewrite Hall in Hl |- *. destruct (bfilter rel aliases) as [|a [|]] eqn:Hf; [| |simpl in Hl; lia].
    + simpl. by apply bfilter_nil.
    + simpl. split; [by apply bfilter_singleton|].
      assert (a ∈ bfilter activeAlias [a]) as [Hact _]%elem_of_bfilter
        by (rewrite Hall; apply list_elem_of_here). by apply String.eqb_eq.
  - destruct alias as [a|]; simpl.
    + intros [Ho Ha]. pose proof (proj2 (bfilter_singleton rel aliases a Hnd) Ho) as Hf.
      assert (activeAlias a = true) as Hact by (by apply String.eqb_eq).
      rewrite Hf. simpl. rewrite Hact. exists tt. split; [|by exists tt].
      intros y Hy Hr. rewrite (proj2 (proj2 Ho) y Hy Hr). unfold blockingAlias. by rewrite Ha.
    + intros Hn. assert (bfilter rel aliases = []) as Hf by (by apply bfilter_nil).
      rewrite Hf. exists tt. split; [|by exists tt]. intros y Hy Hr. subst rel. by rewrite (Hn y Hy) in Hr.
Qed.

Lemma selectEndpoint_Ok source alias key t endpoints e : NoDup endpoints ->
  selectEndpoint source alias key t endpoints = Ok e <-> endpoint_serving key t endpoints e.
Proof.
  intros Hnd. unfold selectEndpoint, endpoint_serving, return_if.
  rewrite bind_Ok, (bfilter_and activeEndpoint). setoid_rewrite throw_if_Ok.
  setoid_rewrite (nonempty_filter blockingEndpoint (matchingEndpoint key t) endpoints).
  rewrite <- bfilter_singleton by done.
  generalize (bfilter (fun e => matchingEndpoint key t e && activeEndpoint e) endpoints).
  intros [|e0 rest]; [naive_solver|].
  setoid_rewrite bind_Ok. setoid_rewrite bind_Ok. setoid_rewrite throw_if_Ok. split.
  - intros ([] & Hb & [] & Hl & [] & Hs & [= <-]). rewrite Nat.ltb_ge in Hl. simpl in Hl.
    destruct rest; simpl in Hl; [|lia]. split_bool. done.
  - intros ([= -> ->] & Hb & Hs). exists tt. split; [done|]. exists tt. split; [done|].
    exists tt. by rewrite Hs.
Qed.

Lemma selectCertification_Ok source alias e key t cs c : NoDup cs ->
  selectCertification source alias e key t cs = Ok c <-> certification_covering key t cs c.
Proof.
  intros Hnd. unfold selectCertification, certification_covering, return_if.
  rewrite bind_Ok. setoid_rewrite bind_Ok. rewrite (bfilter_and (activeCertification t)).
  setoid_rewrite throw_if_Ok. setoid_rewrite nonempty_filter.
  rewrite <- bfilter_singleton by done.
  generalize (bfilter (fun c => currentCertification key t c && activeCertification t c) cs).
  intros [|c0 rest]; [naive_solver|].
  setoid_rewrite bind_Ok. setoid_rewrite throw_if_Ok. split.
  - intros ([] & Hd & [] & Hf & [] & Hl & [= <-]). rewrite Nat.ltb_ge in Hl. simpl in Hl.
    destruct rest; simpl in Hl; [|lia]. naive_solver.
  - intros ([= -> ->] & Hb). exists tt. split; [naive_solver|]. exists tt. split; [naive_solver|].
    by exists tt.
Qed.

Definition denied (d : Decision) : Prop :=
  ec_decision d = "deny" /\ ec_authorityGranted d = false /\ ec_executionAuthorized d = false.

Lemma selectAlias_deny source b t l d : selectAlias source b t l = Throw d -> denied d.
Proof. unfold denied, selectAlias, return_if, throw_if. simpl. repeat case_match; naive_solver. Qed.

Lemma selectEndpoint_deny source a key t l d :
  selectEndpoint source a key t l = Throw d -> denied d.
Proof. unfold denied, selectEndpoint, return_if, throw_if. simpl. repeat case_match; naive_solver. Qed.

Lemma selectCertification_deny source a e key t l d :
  selectCertification source a e key t l = Throw d -> denied d.
Proof. unfold denied, selectCertification, return_if, throw_if. simpl. repeat case_match; naive_solver. Qed.

Section Facts.
Context `{JsHost}.

(** The records a snapshot lists under a field. *)
Definition listed {R} (normalizeRecord : Binding -> jsval -> coded R) (ref : R -> string)
    (maximum : nat) (b : Binding) (v : jsval) (rs : list R) : Prop :=
  exists l, v = VArr l /\ length l <= maximum /\
    Forall2 (fun x r => normalizeRecord b x = Ok r) l rs /\ NoDup (List.map ref rs).

Lemma normalizeList_Ok {R} v (f : Binding -> jsval -> coded R) b m lim amb ref rs :
  normalizeList v f b m lim amb ref = Ok rs <-> listed f ref m b v rs.
Proof.
  unfold listed. split.
  - destruct v; try done. simpl. intros Heq. apply bind_Ok in Heq as ([] & Hl & Heq).
    apply throw_if_Ok, Nat.ltb_ge in Hl. apply collect_records_Ok in Heq as (Hf & Hnd & _).
    eauto 10.
  - intros (l & -> & Hl & Hf & Hnd). simpl. rewrite throw_if_false by (by apply Nat.ltb_ge).
    simpl. apply collect_records_Ok. split; [done|]. split; [done|].
    intros r _. apply not_elem_of_nil.
Qed.

Lemma listed_NoDup {R} (f : Binding -> jsval -> coded R) ref m b v rs :
  listed f ref m b v rs -> NoDup rs.
Proof. intros (_ & _ & _ & _ & Hnd). by eapply NoDup_of_map. Qed.

Lemma listed_elem {R} (f : Binding -> jsval -> coded R) ref m b v rs r :
  listed f ref m b v rs -> r ∈ rs -> exists x, f b x = Ok r.
Proof.
  intros (l & _ & _ & Hf & _) [i Hi]%list_elem_of_lookup.
  eapply Forall2_lookup_r in Hf as (x & _ & Hx); [|done]. by exists x.
Qed.

Lemma normalizeAlias_Ok b x a : normalizeAlias b x = Ok a ->
  al_status a ∈ ALIAS_STATUSES /\ al_canonicalEndpointKey a <> "".
Proof.
  unfold normalizeAlias, catch_code. destruct (negb (is_record x)); [done|].
  destruct (negb (sin _ ALIAS_STATUSES)) eqn:Hs; [done|]. intros Heq.
  case_match eqn:E; [|done]. subst a0. apply bind_Ok in E as (b' & _ & E).
  destruct (negb (bindingsMatch b b')); [done|]. inv_outcome. split_bool.
  apply sin_true in Hs. split; [done|]. simpl.
  match goal with Hk : requireIdentifier (vget x "canonicalEndpointKey") _ = Ok ?k |- ?k <> _ =>
    apply requireIdentifier_Ok in Hk as [_ Hk]; intros -> end. done.
Qed.

Lemma endpoint_normalizeBinding_record v b : normalizeBinding v = Ok b -> is_record v = true.
Proof. intros Heq. destruct v; [exfalso..| |exfalso|]; try done; unfold normalizeBinding in Heq; inv_outcome; done. Qed.

Lemma value_of_Ok {A} source (r : coded A) a : value_of source r = Ok a <-> r = Ok a.
Proof. destruct r; simpl; naive_solver. Qed.

Lemma value_of_deny {A} source (r : coded A) d : value_of source r = Throw d -> denied d.
Proof. unfold denied. destruct r; simpl; naive_solver. Qed.

(** The resolution of a request against a snapshot at time [t]. *)
Record resolves (snapshot : jsval) (b : Binding) (t : Z) (source : SourceEvidence)
    (alias : option Alias) (e : Endpoint) (c : Certification) : Prop := {
  rs_binding : normalizeBinding snapshot = Ok b;
  rs_window : exists captured expires, readSourceEvidence snapshot = Ok (captured, expires, source) /\
    (captured <= t < expires)%Z;
  rs_alias : exists l, listed normalizeAlias al_aliasRef maxAliases b (vget snapshot "aliases") l /\
    alias_in_force b t l alias;
  rs_endpoint : exists l, listed normalizeEndpoint ep_endpointRef maxEndpoints b
      (vget snapshot "endpoints") l /\ endpoint_serving (canonicalKey b alias) t l e;
  rs_certification : exists l, listed normalizeCertification ce_certificationRef maxCertifications b
      (vget snapshot "certifications") l /\ certification_covering (canonicalKey b alias) t l c;
}.

Lemma decideSnapshot_Ok snapshot b sb captured expires source t d :
  normalizeBinding snapshot = Ok sb ->
  readSourceEvidence snapshot = Ok (captured, expires, source) ->
  decideSnapshot snapshot b sb captured expires source t = Ok d <->
  exists alias e c, resolves snapshot b t source alias e c /\ d = resolved source b alias e c.
Proof.
  intros Hsb Hrs. unfold decideSnapshot. split.
  - intros Heq. inv_outcome. unfold return_if in *. inv_outcome. split_bool.
    apply endpoint_bindingsMatch_true in H0 as <-.
    repeat match goal with Hv : value_of _ _ = Ok _ |- _ => rewrite value_of_Ok, normalizeList_Ok in Hv end.
    apply selectAlias_Ok in H4; [|by eapply listed_NoDup
      |intros a0 Ha0; eapply listed_elem in Ha0 as [x Hx]; [|done]; by apply normalizeAlias_Ok in Hx as [? _]].
    apply selectEndpoint_Ok in H6; [|by eapply listed_NoDup].
    apply selectCertification_Ok in H8; [|by eapply listed_NoDup].
    do 3 eexists. split; [|reflexivity]. split; eauto.
    exists captured, expires. split; [done|]. lia.
  - intros (alias & e & c & [Hb (cap & exp & Hso & Hw) (la & Hla & Ha) (le & Hle & He) (lc & Hlc & Hc)] & ->).
    rewrite Hsb in Hb. rewrite Hrs in Hso. injection Hb as ->. injection Hso as -> ->.
    unfold return_if.
    rewrite (proj2 (endpoint_bindingsMatch_true b b)) by done. rewrite (bind_step _ _ tt) by done.
    rewrite (bind_step _ _ tt) by (apply throw_if_false, Z.ltb_ge; lia).
    rewrite (bind_step _ _ tt) by (apply throw_if_false, Z.leb_gt; lia).
    rewrite (bind_step _ _ la) by (by apply value_of_Ok, normalizeList_Ok).
    rewrite (bind_step _ _ alias).
    2: { apply selectAlias_Ok; [by eapply listed_NoDup| |done].
         intros a0 Ha0; eapply listed_elem in Ha0 as [x Hx]; [|done]. by apply normalizeAlias_Ok in Hx as [? _]. }
    cbv zeta. rewrite (bind_step _ _ le) by (by apply value_of_Ok, normalizeList_Ok).
    rewrite (bind_step _ _ e) by (apply selectEndpoint_Ok; [by eapply listed_NoDup|done]).
    rewrite (bind_step _ _ lc) by (by apply value_of_Ok, normalizeList_Ok).
    by rewrite (bind_step _ _ c) by (apply selectCertification_Ok; [by eapply listed_NoDup|done]).
Qed.

Lemma decideSnapshot_deny snapshot b sb captured expires source t d :
  decideSnapshot snapshot b sb captured expires source t = Throw d -> denied d.
Proof.
  unfold decideSnapshot, return_if. intros Heq.
  repeat match goal with
  | Hd : (_ ≫= _) = Throw _ |- _ => apply bind_Throw in Hd as [Hd|(? & _ & Hd)]
  | Hd : throw_if ?b _ = Throw _ |- _ => destruct b; simplify_eq/=; repeat split
  end; eauto using value_of_deny, selectAlias_deny, selectEndpoint_deny, selectCertification_deny.
  done.
Qed.

(** C4: a request is certified exactly when it resolves: the snapshot is bound
    to it and current, at most one alias record covers the configured key and
    it is active, exactly one active endpoint with a schema serves the
    canonical key and none of its current records is blocked, and exactly one
    unrevoked, dispatch-allowed certification covers it with none denied or
    dated in the future; the decision then reports precisely that alias,
    endpoint and certification, and in every case grants no authority. *)
Theorem evaluateEndpointCertificationDecision_correct args b t :
  normalizeBinding (VObj args) = Ok b -> js_Date (now_param args) = Some t ->
  exists d, evaluateEndpointCertificationDecision args = Ok d /\
    (ec_decision d = "allow" <-> exists source alias e c,
       resolves (oget args "snapshot") b t source alias e c /\ d = resolved source b alias e c) /\
    (ec_decision d = "allow" \/ ec_decision d = "deny") /\
    ec_authorityGranted d = false /\ ec_executionAuthorized d = false.
Proof.
  intros Hb Ht. unfold evaluateEndpointCertificationDecision. rewrite (bind_step _ _ b Hb), Ht.
  destruct (is_record (oget args "snapshot")) eqn:Hr; simpl.
  2: { eexists. split; [done|]. split; [|naive_solver]. split; [done|].
       intros (? & ? & ? & ? & [Hn _ _ _ _] & _). apply endpoint_normalizeBinding_record in Hn. congruence. }
  eexists. split; [done|].
  destruct (normalizeBinding (oget args "snapshot")) as [sb|] eqn:Hsb; simpl.
  2: { split; [|naive_solver]. split; [done|]. by intros (? & ? & ? & ? & _ & ?). }
  destruct (readSourceEvidence (oget args "snapshot")) as [[[c e] source]|] eqn:Hrs; simpl.
  2: { split; [|naive_solver]. split; [done|]. by intros (? & ? & ? & ? & _ & ?). }
  destruct (decideSnapshot (oget args "snapshot") b sb c e source t) as [d|d] eqn:Hd; simpl.
  - apply decideSnapshot_Ok in Hd as (alias & ep & ce & Hres & ->); [|done|done].
    split; [|naive_solver]. split; [|done]. naive_solver.
  - destruct (decideSnapshot_deny _ _ _ _ _ _ _ _ Hd) as (Hdn & Hau & Hex). split; [|naive_solver].
    rewrite Hdn. split; [done|]. intros (? & ? & ? & ? & _ & ->). done.
Qed.
End Facts.

Definition demo_request : jsobj :=
  [("principalType", VStr "user"); ("principalRef", VStr "u1"); ("subjectType", VStr "user");
   ("subjectRef", VStr "u1"); ("tenantRef", VStr "t1"); ("capabilityKey", VStr "cap");
   ("providerBindingRef", VStr "pb"); ("appKey", VStr "app"); ("parentActionKey", VStr "act");
   ("configuredEndpointKey", VStr "old.key")].

Definition demo_alias : jsval :=
  VObj (("aliasRef", VStr "a1") :: ("aliasEndpointKey", VStr "old.key") ::
        ("canonicalEndpointKey", VStr "new.key") :: ("status", VStr "Active") :: demo_request).
Definition demo_endpoint : jsval :=
  VObj (("endpointRef", VStr "e1") :: ("endpointKey", VStr "new.key") :: ("status", VStr "ready") ::
        ("executionReadiness", VStr "ready") :: ("schemaPresent", VBool true) :: demo_request).
Definition demo_certification : jsval :=
  VObj (("certificationRef", VStr "c1") :: ("endpointKey", VStr "new.key") ::
        ("certificationStatus", VStr "certified") :: ("dispatchAllowed", VBool true) :: demo_request).

Definition demo_args (aliases : list jsval) : jsobj :=
  ("snapshot", VObj (("evaluatedAt", VStr "2023-11-14T00:00:00.000Z") ::
     ("expiresAt", VStr "2023-11-15T00:00:00.000Z") :: ("aliases", VArr aliases) ::
     ("endpoints", VArr [demo_endpoint]) :: ("certifications", VArr [demo_certification]) ::
     demo_request)) :: demo_request.

Lemma evaluateEndpointCertificationDecision_correct_witness :
  (exists d source alias e c,
    evaluateEndpointCertificationDecision (H := demo_host) (demo_args [demo_alias]) = Ok d /\
    resolves (H := demo_host) (oget (demo_args [demo_alias]) "snapshot")
      (Build_Binding "user" "u1" "user" "u1" "t1" None "cap" "pb" "app" "act" "old.key")
      1700000000000%Z source alias e c /\ ec_resolution d = Some ("old.key", "new.key", true, false)) /\
  ec_reasonCodes <$> (match evaluateEndpointCertificationDecision (H := demo_host) (demo_args [])
    with Ok d => Some d | Throw _ => None end) = Some ["CANONICAL_ENDPOINT_UNAVAILABLE"].
Proof.
  split; [|vm_compute; reflexivity].
  destruct (@evaluateEndpointCertificationDecision_correct demo_host (demo_args [demo_alias])
    (Build_Binding "user" "u1" "user" "u1" "t1" None "cap" "pb" "app" "act" "old.key") 1700000000000%Z)
    as (d & Hd & Ha & _); [vm_compute; reflexivity | vm_compute; reflexivity|].
  assert (ec_decision d = "allow" /\ ec_resolution d = Some ("old.key", "new.key", true, false))
    as [Hal Hre] by (revert Hd; vm_compute; intros [= <-]; split; reflexivity).
  apply Ha in Hal as (source & alias & e & c & Hres & _). exists d, source, alias, e, c.
  split; [exact Hd|]. split; [exact Hres | exact Hre].
Defined.
End EndpointCertification.
