(* ===== verification/ResourceGraph.v ===== *)
(** * Bounded resource-graph traversal (contextKernel/domain/resourceGraphPolicy.js)

    A breadth-first walk from a root resource over the active, allowed and
    unrestricted edges of a tenant's resource graph, up to a depth bound.
    Proved: the walk ends within one iteration per edge plus one, its result is
    exactly the set of nodes within the depth bound, each at its shortest
    distance, and the node limit of the loop is never what stops it. *)
From stdpp Require Import gmap.
From S2P Require Import Prelude Sorting JsString JsDate JsValue ContextModel EvidenceSupport.

Module ResourceGraph.

Definition defaultMaxDepth : Z := 3.
Definition absoluteMaxDepth : Z := 8.
Definition defaultMaxNodes : Z := 100.
Definition absoluteMaxNodes : Z := 250.
Definition maxRelationTypes : nat := 16.
Definition maxInheritancePolicyKeys : nat := 32.
Definition RESTRICTION_STATUSES : list string := ["active"; "inactive"; "revoked"; "expired"].

(** The fields [recordIsActive] reads. *)
Record Validity := {
  va_status : string;
  va_revokedAt : jsval;
  va_validFrom : jsval;
  va_validUntil : jsval;
}.

Record Node := {
  no_nodeRef : string;
  no_resourceType : string;
  no_resourceRef : string;
  no_tenantRef : string;
  no_workspaceRef : option string;
  no_validity : Validity;
  no_sourceRef : option string;
  no_versionRef : option string;
  no_metadata : jsobj;
}.

Record Edge := {
  ed_edgeRef : string;
  ed_sourceNodeRef : string;
  ed_targetNodeRef : string;
  ed_relationType : string;
  ed_inheritancePolicyKey : string;
  ed_validity : Validity;
  ed_sourceRef : option string;
  ed_versionRef : option string;
}.

Record Restriction := {
  re_restrictionRef : string;
  re_nodeRef : string;
  re_effect : string;
  re_operations : list string;
  re_reasonCode : string;
  re_validity : Validity;
  re_sourceRef : option string;
  re_versionRef : option string;
}.

Record BlockedBranch := {
  bb_nodeRef : string;
  bb_viaEdgeRef : string;
  bb_reasonCodes : list string;
  bb_restrictionRefs : list string;
}.

Record Bounds := {
  bo_maxDepth : Z;
  bo_maxNodes : Z;
  bo_maxEdges : Z;
  bo_maxRestrictions : Z;
  bo_relationTypes : list string;
  bo_inheritancePolicyKeys : list string;
}.

(** What a resolved decision carries beyond its flags. *)
Record Resolution := {
  rn_rootNodeRef : string;
  rn_nodes : list (Node * nat);
  rn_edges : list Edge;
  rn_blockedBranches : list BlockedBranch;
  rn_bounds : Bounds;
  rn_sourceRef : option string;
  rn_versionRef : option string;
  rn_evaluatedAt : string;
}.

Record Decision := {
  gd_status : string;
  gd_reasonCodes : list string;
  gd_limits : option (Z * Z);  (* [bounds] of a blocked decision *)
  gd_resolution : option Resolution;
  gd_authorityGranted : bool;
  gd_runtimeAuthorityChanged : bool;
  gd_automaticWritePerformed : bool;
  gd_providerCallMade : bool;
  gd_credentialPayloadRead : bool;
  gd_secretsIncluded : bool;
}.

Definition decision (status : string) (codes : list string) (limits : option (Z * Z))
    (resolution : option Resolution) : Decision :=
  {| gd_status := status; gd_reasonCodes := unique_sorted codes; gd_limits := limits;
     gd_resolution := resolution; gd_authorityGranted := false;
     gd_runtimeAuthorityChanged := false; gd_automaticWritePerformed := false;
     gd_providerCallMade := false; gd_credentialPayloadRead := false;
     gd_secretsIncluded := false |}.

Definition blocked (reasonCodes : list string) : Decision :=
  decision "blocked" reasonCodes None None.

(** How the handler can stop: an exception, an early [return], or the fuel of
    the model's loop (never, see [traversal_terminates]). *)
Inductive stop :=
| Raise (e : jserror)
| Return (d : Decision)
| OutOfFuel.

Abbreviation step := (outcome stop).

Definition lift {A} (m : js A) : step A :=
  match m with Ok a => Ok a | Throw e => Throw (Raise e) end.

Definition return_if (c : bool) (codes : list string) : step unit :=
  throw_if c (Return (blocked codes)).

(** ** Normalisation of the snapshot's records *)

Section Normalise.
Context `{JsHost}.

Definition normalizeBound (value : jsval) (field : string) (fallback absoluteMaximum minimum : Z)
    : js Z :=
  match (if nullish value then Some fallback else js_Number value) with
  | Some z =>
      if Z.ltb z minimum || Z.ltb absoluteMaximum z then
        type_error (field +:+ " must be an integer between " +:+ string_of_Z minimum +:+ " and "
                    +:+ string_of_Z absoluteMaximum +:+ ".")
      else Ok z
  | None => type_error (field +:+ " must be an integer between " +:+ string_of_Z minimum +:+ " and "
                    +:+ string_of_Z absoluteMaximum +:+ ".")
  end.

Definition normalizeIdentifierSet (values : jsval) (field : string) (maximumCount : nat)
    : js (list string) :=
  match values with
  | VArr (x :: l) =>
      ids ← mapM_js (fun v => requireIdentifier v field) (x :: l);
      let normalized := unique_sorted ids in
      if maximumCount <? length normalized then
        type_error (field +:+ " must not contain more than "
                    +:+ string_of_Z (Z.of_nat maximumCount) +:+ " values.")
      else Ok normalized
  | _ => type_error (field +:+ " must contain at least one value.")
  end.

Definition recordIsActive (record : Validity) (now : Z) : js bool :=
  if negb (String.eqb (js_toLowerCase (va_status record)) "active") then Ok false
  else if truthy (va_revokedAt record) then Ok false
  else
    validFrom ← normalizeTimestamp (va_validFrom record) "record.validFrom" false;
    validUntil ← normalizeTimestamp (va_validUntil record) "record.validUntil" false;
    Ok (in_window validFrom validUntil now).

(** The validity fields of a record, given its normalised [status]. *)
Definition readValidity (record : jsval) (status : string) : Validity :=
  {| va_status := status; va_revokedAt := js_or (vget record "revokedAt") VNull;
     va_validFrom := js_or (vget record "validFrom") VNull;
     va_validUntil := js_or (js_or (vget record "validUntil") (vget record "expiresAt")) VNull |}.

Definition normalizeNode (record : jsval) : js Node :=
  if negb (is_record record) then type_error "resource graph nodes must be objects."
  else
  nodeRef ← requireIdentifier (vget record "nodeRef") "node.nodeRef";
  resourceType ← requireIdentifier (vget record "resourceType") "node.resourceType";
  resourceRef ← requireIdentifier (vget record "resourceRef") "node.resourceRef";
  tenantRef ← requireIdentifier (vget record "tenantRef") "node.tenantRef";
  workspaceRef ← optionalIdentifier (vget record "workspaceRef") "node.workspaceRef";
  status ← requireIdentifier (vget record "status") "node.status";
  sourceRef ← optionalIdentifier (vget record "sourceRef") "node.sourceRef";
  versionRef ← optionalIdentifier (vget record "versionRef") "node.versionRef";
  Ok {| no_nodeRef := nodeRef; no_resourceType := resourceType; no_resourceRef := resourceRef;
        no_tenantRef := tenantRef; no_workspaceRef := workspaceRef;
        no_validity := readValidity record (js_toLowerCase status);
        no_sourceRef := sourceRef; no_versionRef := versionRef;
        no_metadata := if is_record (vget record "metadata") then spread (vget record "metadata")
                       else [] |}.

Definition normalizeEdge (record : jsval) : js Edge :=
  if negb (is_record record) then type_error "resource graph edges must be objects."
  else
  edgeRef ← requireIdentifier (vget record "edgeRef") "edge.edgeRef";
  sourceNodeRef ← requireIdentifier (vget record "sourceNodeRef") "edge.sourceNodeRef";
  targetNodeRef ← requireIdentifier (vget record "targetNodeRef") "edge.targetNodeRef";
  relationType ← requireIdentifier (vget record "relationType") "edge.relationType";
  inheritancePolicyKey ← requireIdentifier (vget record "inheritancePolicyKey")
                           "edge.inheritancePolicyKey";
  status ← requireIdentifier (vget record "status") "edge.status";
  sourceRef ← optionalIdentifier (vget record "sourceRef") "edge.sourceRef";
  versionRef ← optionalIdentifier (vget record "versionRef") "edge.versionRef";
  Ok {| ed_edgeRef := edgeRef; ed_sourceNodeRef := sourceNodeRef;
        ed_targetNodeRef := targetNodeRef; ed_relationType := relationType;
        ed_inheritancePolicyKey := inheritancePolicyKey;
        ed_validity := readValidity record (js_toLowerCase status);
        ed_sourceRef := sourceRef; ed_versionRef := versionRef |}.

(** [record.operations] when it is a non-empty array, else [["*"]]. *)
Definition restrictionOperations (operations : jsval) : js (list string) :=
  match operations with
  | VArr (x :: l) =>
      ops ← mapM_js (fun v => if is_str v "*" then Ok "*"
                              else requireIdentifier v "restriction.operations") (x :: l);
      Ok (unique_sorted ops)
  | _ => Ok ["*"]
  end.

Definition normalizeRestriction (record : jsval) : js Restriction :=
  if negb (is_record record) then type_error "resource graph restrictions must be objects."
  else
  rawEffect ← requireIdentifier (vget record "effect") "restriction.effect";
  let effect := js_toLowerCase rawEffect in
  throw_if (negb (String.eqb effect "deny")) (TypeErr "restriction.effect must be deny.");;
  operations ← restrictionOperations (vget record "operations");
  rawReason ← requireString (vget record "reasonCode") "restriction.reasonCode" 191;
  let reasonCode := js_toUpperCase rawReason in
  throw_if (negb (is_reason_code reasonCode))
    (TypeErr "restriction.reasonCode must be a stable uppercase reason code.");;
  rawStatus ← requireIdentifier (vget record "status") "restriction.status";
  let status := js_toLowerCase rawStatus in
  throw_if (negb (sin status RESTRICTION_STATUSES))
    (TypeErr ("Unsupported resource graph restriction status: " +:+ status));;
  restrictionRef ← requireIdentifier (vget record "restrictionRef") "restriction.restrictionRef";
  nodeRef ← requireIdentifier (vget record "nodeRef") "restriction.nodeRef";
  sourceRef ← optionalIdentifier (vget record "sourceRef") "restriction.sourceRef";
  versionRef ← optionalIdentifier (vget record "versionRef") "restriction.versionRef";
  Ok {| re_restrictionRef := restrictionRef; re_nodeRef := nodeRef; re_effect := effect;
        re_operations := operations; re_reasonCode := reasonCode;
        re_validity := readValidity record status;
        re_sourceRef := sourceRef; re_versionRef := versionRef |}.

Definition restrictionApplies (restriction : Restriction) (operationIntent : string) (now : Z)
    : js bool :=
  active ← recordIsActive (re_validity restriction) now;
  Ok (active && (sin "*" (re_operations restriction)
                 || sin operationIntent (re_operations restriction))).

(** ** The request *)

Record Request := {
  rq_tenantRef : string;
  rq_workspaceRef : option string;
  rq_rootNodeRef : string;
  rq_rootResourceType : string;
  rq_rootResourceRef : string;
  rq_operation : string;
  rq_relationTypes : list string;
  rq_policyKeys : list string;
  rq_maxDepth : Z;
  rq_maxNodes : Z;
  rq_evaluatedAt : Z;
}.

Definition parseRequest (args : jsobj) : js Request :=
  tenantRef ← requireIdentifier (oget args "tenantRef") "tenantRef";
  workspaceRef ← optionalIdentifier (oget_default args "workspaceRef" VNull) "workspaceRef";
  rootNodeRef ← requireIdentifier (oget args "rootNodeRef") "rootNodeRef";
  rootResourceType ← requireIdentifier (oget args "rootResourceType") "rootResourceType";
  rootResourceRef ← requireIdentifier (oget args "rootResourceRef") "rootResourceRef";
  operation ← requireIdentifier (oget args "operationIntent") "operationIntent";
  relationTypes ← normalizeIdentifierSet (oget args "relationTypes") "relationTypes" maxRelationTypes;
  policyKeys ← normalizeIdentifierSet (oget args "inheritancePolicyKeys") "inheritancePolicyKeys"
                 maxInheritancePolicyKeys;
  maxDepth ← normalizeBound (oget_default args "maxDepth" (VNum (Some defaultMaxDepth))) "maxDepth"
               defaultMaxDepth absoluteMaxDepth 0;
  maxNodes ← normalizeBound (oget_default args "maxNodes" (VNum (Some defaultMaxNodes))) "maxNodes"
               defaultMaxNodes absoluteMaxNodes 1;
  match js_Date (now_param args) with
  | None => type_error "now must be a valid timestamp."
  | Some evaluatedAt =>
      Ok {| rq_tenantRef := tenantRef; rq_workspaceRef := workspaceRef;
            rq_rootNodeRef := rootNodeRef; rq_rootResourceType := rootResourceType;
            rq_rootResourceRef := rootResourceRef; rq_operation := operation;
            rq_relationTypes := relationTypes; rq_policyKeys := policyKeys;
            rq_maxDepth := maxDepth; rq_maxNodes := maxNodes; rq_evaluatedAt := evaluatedAt |}
  end.

(** ** The graph *)

Definition rawList (v : jsval) : list jsval := match v with VArr l => l | _ => [] end.

(** [a && b && a !== b] *)
Definition workspaceConflict (a b : option string) : bool :=
  match a, b with Some x, Some y => negb (String.eqb x y) | _, _ => false end.

Definition addNode (req : Request) (nodeMap : gmap string Node) (rawNode : jsval)
    : step (gmap string Node) :=
  node ← lift (normalizeNode rawNode);
  return_if (bool_decide (is_Some (nodeMap !! no_nodeRef node)))
    ["RESOURCE_GRAPH_NODE_REFERENCE_AMBIGUOUS"];;
  return_if (negb (String.eqb (no_tenantRef node) (rq_tenantRef req)))
    ["RESOURCE_GRAPH_CROSS_TENANT_NODE"];;
  return_if (workspaceConflict (rq_workspaceRef req) (no_workspaceRef node))
    ["RESOURCE_GRAPH_CROSS_WORKSPACE_NODE"];;
  Ok (<[no_nodeRef node := node]> nodeMap).

(** [map.get(k) || []] and [map.get(k).push(x)] on a map of arrays. *)
Definition get_list {A} (m : gmap string (list A)) (k : string) : list A := default [] (m !! k).
Definition push_list {A} (m : gmap string (list A)) (k : string) (x : A) : gmap string (list A) :=
  <[k := get_list m k ++ [x]]> m.

Definition has {A} (m : gmap string A) (k : string) : bool := bool_decide (is_Some (m !! k)).

Definition addEdge (req : Request) (nodeMap : gmap string Node)
    (state : list string * gmap string (list Edge)) (edge : Edge)
    : step (list string * gmap string (list Edge)) :=
  let '(edgeRefs, adjacency) := state in
  return_if (sin (ed_edgeRef edge) edgeRefs) ["RESOURCE_GRAPH_EDGE_REFERENCE_AMBIGUOUS"];;
  return_if (negb (has nodeMap (ed_sourceNodeRef edge)) || negb (has nodeMap (ed_targetNodeRef edge)))
    ["RESOURCE_GRAPH_EDGE_NODE_NOT_FOUND"];;
  Ok (ed_edgeRef edge :: edgeRefs,
      if negb (sin (ed_relationType edge) (rq_relationTypes req)) then adjacency
      else push_list adjacency (ed_sourceNodeRef edge) edge).

Definition byEdgeRef (l r : Edge) : comparison := locale_compare (ed_edgeRef l) (ed_edgeRef r).

Definition addRestriction (req : Request) (nodeMap : gmap string Node)
    (state : list string * gmap string (list Restriction)) (restriction : Restriction)
    : step (list string * gmap string (list Restriction)) :=
  let '(restrictionRefs, active) := state in
  return_if (sin (re_restrictionRef restriction) restrictionRefs)
    ["RESOURCE_GRAPH_RESTRICTION_REFERENCE_AMBIGUOUS"];;
  return_if (negb (has nodeMap (re_nodeRef restriction)))
    ["RESOURCE_GRAPH_RESTRICTION_NODE_NOT_FOUND"];;
  applies ← lift (restrictionApplies restriction (rq_operation req) (rq_evaluatedAt req));
  Ok (re_restrictionRef restriction :: restrictionRefs,
      if negb applies then active else push_list active (re_nodeRef restriction) restriction).

(** ** The walk *)

Record Walk := {
  wk_visited : list string;
  wk_queue : list (string * nat);
  wk_resolvedNodes : list (Node * nat);
  wk_traversedEdges : list Edge;
  wk_blockedBranches : list BlockedBranch;
  wk_reasonCodes : list string;
}.

Definition note (w : Walk) (code : string) : Walk :=
  {| wk_visited := wk_visited w; wk_queue := wk_queue w;
     wk_resolvedNodes := wk_resolvedNodes w; wk_traversedEdges := wk_traversedEdges w;
     wk_blockedBranches := wk_blockedBranches w; wk_reasonCodes := wk_reasonCodes w ++ [code] |}.

Definition branchOf (edge : Edge) (restrictions : list Restriction) : BlockedBranch :=
  {| bb_nodeRef := ed_targetNodeRef edge; bb_viaEdgeRef := ed_edgeRef edge;
     bb_reasonCodes := sort_strings (List.map re_reasonCode restrictions);
     bb_restrictionRefs := sort_strings (List.map re_restrictionRef restrictions) |}.

Definition addBranch (w : Walk) (b : BlockedBranch) : Walk :=
  {| wk_visited := wk_visited w; wk_queue := wk_queue w;
     wk_resolvedNodes := wk_resolvedNodes w; wk_traversedEdges := wk_traversedEdges w;
     wk_blockedBranches := wk_blockedBranches w ++ [b]; wk_reasonCodes := wk_reasonCodes w |}.

(** [traversedEdges.push(edge); if (!visited.has(target)) queue.push(...)] *)
Definition traverse (w : Walk) (edge : Edge) (depth : nat) : Walk :=
  {| wk_visited := wk_visited w;
     wk_queue := if sin (ed_targetNodeRef edge) (wk_visited w) then wk_queue w
                 else wk_queue w ++ [(ed_targetNodeRef edge, S depth)];
     wk_resolvedNodes := wk_resolvedNodes w; wk_traversedEdges := wk_traversedEdges w ++ [edge];
     wk_blockedBranches := wk_blockedBranches w; wk_reasonCodes := wk_reasonCodes w |}.

Definition nodeActive (req : Request) (nodeMap : gmap string Node) (nodeRef : string) : js bool :=
  match nodeMap !! nodeRef with
  | Some node => recordIsActive (no_validity node) (rq_evaluatedAt req)
  | None => Ok false
  end.

(** One edge of the inner loop. *)
Definition visitEdge (req : Request) (nodeMap : gmap string Node)
    (restrictionsByNode : gmap string (list Restriction)) (depth : nat) (w : Walk) (edge : Edge)
    : step Walk :=
  edgeActive ← lift (recordIsActive (ed_validity edge) (rq_evaluatedAt req));
  if negb edgeActive then Ok (note w "RESOURCE_GRAPH_EDGE_NOT_ACTIVE")
  else if negb (sin (ed_inheritancePolicyKey edge) (rq_policyKeys req))
  then Ok (note w "RESOURCE_GRAPH_INHERITANCE_POLICY_NOT_ALLOWED")
  else if Z.leb (rq_maxDepth req) (Z.of_nat depth)
  then Ok (note w "RESOURCE_GRAPH_DEPTH_BOUND_REACHED")
  else
  targetActive ← lift (nodeActive req nodeMap (ed_targetNodeRef edge));
  if negb targetActive then Ok (note w "RESOURCE_GRAPH_NODE_NOT_ACTIVE")
  else
  let branchRestrictions := get_list restrictionsByNode (ed_targetNodeRef edge) in
  if 0 <? length branchRestrictions
  then Ok (note (addBranch w (branchOf edge branchRestrictions)) "RESOURCE_GRAPH_BRANCH_RESTRICTED")
  else Ok (traverse w edge depth).

(** One iteration of [while (queue.length > 0)] on the shifted entry. *)
Definition visitNode (req : Request) (nodeMap : gmap string Node)
    (adjacency : gmap string (list Edge)) (restrictionsByNode : gmap string (list Restriction))
    (nodeRef : string) (depth : nat) (w : Walk) : step Walk :=
  if sin nodeRef (wk_visited w) then Ok w
  else
  let visited := nodeRef :: wk_visited w in
  return_if (Z.ltb (rq_maxNodes req) (Z.of_nat (length visited)))
    ["RESOURCE_GRAPH_TRAVERSAL_NODE_LIMIT_EXCEEDED"];;
  let w := {| wk_visited := visited; wk_queue := wk_queue w;
              wk_resolvedNodes := wk_resolvedNodes w; wk_traversedEdges := wk_traversedEdges w;
              wk_blockedBranches := wk_blockedBranches w; wk_reasonCodes := wk_reasonCodes w |} in
  active ← lift (nodeActive req nodeMap nodeRef);
  match nodeMap !! nodeRef with
  | Some node =>
      if negb active then Ok (note w "RESOURCE_GRAPH_NODE_NOT_ACTIVE")
      else
      let w := {| wk_visited := wk_visited w; wk_queue := wk_queue w;
                  wk_resolvedNodes := wk_resolvedNodes w ++ [(node, depth)];
                  wk_traversedEdges := wk_traversedEdges w;
                  wk_blockedBranches := wk_blockedBranches w;
                  wk_reasonCodes := wk_reasonCodes w |} in
      foldM_js (visitEdge req nodeMap restrictionsByNode depth) w (get_list adjacency nodeRef)
  | None => Ok (note w "RESOURCE_GRAPH_NODE_NOT_ACTIVE")
  end.

Definition shift (w : Walk) (rest : list (string * nat)) : Walk :=
  {| wk_visited := wk_visited w; wk_queue := rest;
     wk_resolvedNodes := wk_resolvedNodes w; wk_traversedEdges := wk_traversedEdges w;
     wk_blockedBranches := wk_blockedBranches w; wk_reasonCodes := wk_reasonCodes w |}.

Fixpoint walk (fuel : nat) (req : Request) (nodeMap : gmap string Node)
    (adjacency : gmap string (list Edge)) (restrictionsByNode : gmap string (list Restriction))
    (w : Walk) : step Walk :=
  match wk_queue w with
  | [] => Ok w
  | (nodeRef, depth) :: rest =>
      match fuel with
      | O => Throw OutOfFuel
      | S fuel =>
          w' ← visitNode req nodeMap adjacency restrictionsByNode nodeRef depth (shift w rest);
          walk fuel req nodeMap adjacency restrictionsByNode w'
      end
  end.

Definition startWalk (root : string) : Walk :=
  {| wk_visited := []; wk_queue := [(root, 0)]; wk_resolvedNodes := []; wk_traversedEdges := [];
     wk_blockedBranches := []; wk_reasonCodes := [] |}.

(** The checks on the root node. *)
Definition checkRoot (req : Request) (nodeMap : gmap string Node) : step unit :=
  match nodeMap !! rq_rootNodeRef req with
  | None => Throw (Return (blocked ["RESOURCE_GRAPH_ROOT_NOT_FOUND"]))
  | Some rootNode =>
      return_if (negb (String.eqb (no_resourceType rootNode) (rq_rootResourceType req))
                 || negb (String.eqb (no_resourceRef rootNode) (rq_rootResourceRef req)))
        ["RESOURCE_GRAPH_ROOT_IDENTITY_MISMATCH"];;
      active ← lift (recordIsActive (no_validity rootNode) (rq_evaluatedAt req));
      return_if (negb active) ["RESOURCE_GRAPH_ROOT_NOT_ACTIVE"]
  end.

(** The size checks on the raw lists. *)
Definition checkSizes (req : Request) (rawNodes rawEdges rawRestrictions : list jsval) : step unit :=
  throw_if (Z.ltb (rq_maxNodes req) (Z.of_nat (length rawNodes)))
    (Return (decision "blocked" ["RESOURCE_GRAPH_NODE_LIMIT_EXCEEDED"]
       (Some (rq_maxDepth req, rq_maxNodes req)) None));;
  return_if (Z.ltb (rq_maxNodes req * 8) (Z.of_nat (length rawEdges)))
    ["RESOURCE_GRAPH_EDGE_LIMIT_EXCEEDED"];;
  return_if (Z.ltb (rq_maxNodes req * 4) (Z.of_nat (length rawRestrictions)))
    ["RESOURCE_GRAPH_RESTRICTION_LIMIT_EXCEEDED"].

(** The resolved decision built from a finished walk. *)
Definition resolution (req : Request) (snapshot : jsval) (w : Walk) : js Decision :=
  sourceRef ← optionalIdentifier (vget snapshot "sourceRef") "snapshot.sourceRef";
  versionRef ← optionalIdentifier (vget snapshot "versionRef") "snapshot.versionRef";
  Ok (decision "resolved" (wk_reasonCodes w) None (Some
    {| rn_rootNodeRef := rq_rootNodeRef req;
       rn_nodes := js_sort (fun l r => locale_compare (no_nodeRef l.1) (no_nodeRef r.1))
                     (wk_resolvedNodes w);
       rn_edges := js_sort byEdgeRef (wk_traversedEdges w);
       rn_blockedBranches := js_sort (fun l r => locale_compare (bb_nodeRef l) (bb_nodeRef r))
                               (wk_blockedBranches w);
       rn_bounds := {| bo_maxDepth := rq_maxDepth req; bo_maxNodes := rq_maxNodes req;
                       bo_maxEdges := rq_maxNodes req * 8;
                       bo_maxRestrictions := rq_maxNodes req * 4;
                       bo_relationTypes := rq_relationTypes req;
                       bo_inheritancePolicyKeys := rq_policyKeys req |};
       rn_sourceRef := sourceRef; rn_versionRef := versionRef;
       rn_evaluatedAt := toISOString (rq_evaluatedAt req) |})).

(** The handler after its arguments were read. *)
Definition evaluateSnapshot (req : Request) (snapshot : jsval) : step Decision :=
  return_if (is_true (vget snapshot "stale")) ["RESOURCE_GRAPH_SNAPSHOT_STALE"];;
  let rawNodes := rawList (vget snapshot "nodes") in
  let rawEdges := rawList (vget snapshot "edges") in
  let rawRestrictions := rawList (vget snapshot "restrictions") in
  checkSizes req rawNodes rawEdges rawRestrictions;;
  nodeMap ← foldM_js (addNode req) ∅ rawNodes;
  checkRoot req nodeMap;;
  edges ← lift (mapM_js normalizeEdge rawEdges);
  '(_, unsorted) ← foldM_js (addEdge req nodeMap) ([], ∅) edges;
  let adjacency := js_sort byEdgeRef <$> unsorted in
  restrictions ← lift (mapM_js normalizeRestriction rawRestrictions);
  '(_, restrictionsByNode) ← foldM_js (addRestriction req nodeMap) ([], ∅) restrictions;
  let rootRestrictions := get_list restrictionsByNode (rq_rootNodeRef req) in
  return_if (0 <? length rootRestrictions)
    ("RESOURCE_GRAPH_ROOT_RESTRICTED" :: List.map re_reasonCode rootRestrictions);;
  w ← walk (S (length edges)) req nodeMap adjacency restrictionsByNode
        (startWalk (rq_rootNodeRef req));
  lift (resolution req snapshot w).

(** [evaluateBoundedResourceGraph({ snapshot, tenantRef, ..., now })]: [None]
    would be a run that exhausts the fuel. *)
Definition evaluateBoundedResourceGraph (args : jsobj) : option (js Decision) :=
  let snapshot := oget args "snapshot" in
  if negb (is_record snapshot) then Some (type_error "snapshot must be an object.")
  else match parseRequest args with
       | Throw e => Some (Throw e)
       | Ok req =>
           match evaluateSnapshot req snapshot with
           | Ok d | Throw (Return d) => Some (Ok d)
           | Throw (Raise e) => Some (Throw e)
           | Throw OutOfFuel => None
           end
       end.
End Normalise.

(** ** The inner loop *)

Section WalkFacts.
Context `{JsHost}.
Variables (req : Request) (nodeMap : gmap string Node) (adjacency : gmap string (list Edge))
  (restrictionsByNode : gmap string (list Restriction)).

Abbreviation now := (rq_evaluatedAt req).
Abbreviation visitEdge' := (visitEdge req nodeMap restrictionsByNode).
Abbreviation visitNode' := (visitNode req nodeMap adjacency restrictionsByNode).
Abbreviation walk' fuel := (walk fuel req nodeMap adjacency restrictionsByNode).

Lemma lift_Ok {A} (m : js A) a : lift m = Ok a <-> m = Ok a.
Proof. destruct m; simpl; naive_solver. Qed.

(** An edge the walk may follow from a node above the depth bound. *)
Definition usable_edge (e : Edge) : bool :=
  catch (recordIsActive (ed_validity e) now) false
  && sin (ed_inheritancePolicyKey e) (rq_policyKeys req)
  && catch (nodeActive req nodeMap (ed_targetNodeRef e)) false
  && (length (get_list restrictionsByNode (ed_targetNodeRef e)) =? 0).

Definition above (depth : nat) : bool := Z.ltb (Z.of_nat depth) (rq_maxDepth req).

Definition follows (depth : nat) (e : Edge) : bool := above depth && usable_edge e.
Definition enqueues (depth : nat) (visited : list string) (e : Edge) : bool :=
  follows depth e && negb (sin (ed_targetNodeRef e) visited).

Lemma visitEdge_Ok depth w e w' : visitEdge' depth w e = Ok w' ->
  wk_visited w' = wk_visited w /\ wk_resolvedNodes w' = wk_resolvedNodes w /\
  wk_traversedEdges w' = wk_traversedEdges w ++ (if follows depth e then [e] else []) /\
  wk_queue w' = wk_queue w ++
    (if enqueues depth (wk_visited w) e then [(ed_targetNodeRef e, S depth)] else []).
Proof.
  unfold visitEdge, enqueues, follows, above, usable_edge. intros Heq.
  apply bind_Ok in Heq as (ea & ->%lift_Ok & Heq). simpl.
  destruct ea; simpl in *; [|injection Heq as <-; rewrite andb_false_r, !app_nil_r; done].
  destruct (sin _ (rq_policyKeys req)); simpl in *;
    [|injection Heq as <-; rewrite andb_false_r, !app_nil_r; done].
  rewrite (Z.ltb_antisym (rq_maxDepth req)). destruct (Z.leb _ _); simpl in *;
    [injection Heq as <-; rewrite !app_nil_r; done|].
  apply bind_Ok in Heq as (ta & ->%lift_Ok & Heq). simpl.
  destruct ta; simpl in *; [|injection Heq as <-; rewrite !app_nil_r; done].
  destruct (length _); simpl in *; injection Heq as <-; simpl; [|rewrite !app_nil_r; done].
  repeat split. destruct (sin _ _); simpl; by rewrite ?app_nil_r.
Qed.

Lemma visitEdges_Ok depth w es w' : foldM_js (visitEdge' depth) w es = Ok w' ->
  wk_visited w' = wk_visited w /\ wk_resolvedNodes w' = wk_resolvedNodes w /\
  wk_traversedEdges w' = wk_traversedEdges w ++ bfilter (follows depth) es /\
  wk_queue w' = wk_queue w ++
    List.map (fun e => (ed_targetNodeRef e, S depth)) (bfilter (enqueues depth (wk_visited w)) es).
Proof.
  revert w. induction es as [|e es IH]; intros w; simpl.
  - intros [= <-]. by rewrite !app_nil_r.
  - intros (w1 & (Hv & Hr & Ht & Hq)%visitEdge_Ok & (Hv' & Hr' & Ht' & Hq')%IH)%bind_Ok.
    rewrite Hv', Hr', Ht', Hq', Hv, Hr, Ht, Hq, <- !app_assoc.
    by destruct (follows depth e), (enqueues depth (wk_visited w) e).
Qed.

(** ** Termination *)

Variable edges : list Edge.
Hypothesis adjacency_ok : forall k,
  get_list adjacency k ≡ₚ
  bfilter (fun e => String.eqb (ed_sourceNodeRef e) k && sin (ed_relationType e) (rq_relationTypes req)) edges.

Definition pending (visited : list string) : nat :=
  length (bfilter (fun e => negb (sin (ed_sourceNodeRef e) visited)) edges).

Lemma pending_visit v visited : v ∉ visited ->
  pending (v :: visited) + length (get_list adjacency v) <= pending visited.
Proof.
  intros Hv. rewrite (Permutation_length (adjacency_ok v)). unfold pending.
  clear adjacency_ok. induction edges as [|e es IH]; simpl; [lia|].
  assert (sin (ed_sourceNodeRef e) (v :: visited) =
    String.eqb (ed_sourceNodeRef e) v || sin (ed_sourceNodeRef e) visited) as -> by done.
  destruct (String.eqb_spec (ed_sourceNodeRef e) v) as [->|Hne]; simpl.
  - apply sin_false in Hv. rewrite Hv. simpl. destruct (sin (ed_relationType e) _); simpl; lia.
  - destruct (sin (ed_sourceNodeRef e) visited); simpl; lia.
Qed.

Lemma visitNode_measure v d w w' : visitNode' v d w = Ok w' ->
  length (wk_queue w') + pending (wk_visited w') <= length (wk_queue w) + pending (wk_visited w).
Proof.
  unfold visitNode. destruct (sin v (wk_visited w)) eqn:Hv; [by intros [= <-]|].
  apply sin_false in Hv. intros Heq. apply bind_Ok in Heq as ([] & _ & Heq).
  apply bind_Ok in Heq as (act & _ & Heq).
  pose proof (pending_visit v (wk_visited w) Hv) as Hp.
  destruct (nodeMap !! v); [destruct act|]; simpl in Heq; [|injection Heq as <-; simpl; lia..].
  apply visitEdges_Ok in Heq as (-> & _ & _ & ->). simpl. rewrite length_app, length_map.
  pose proof (bfilter_length (enqueues d (v :: wk_visited w)) (get_list adjacency v)). lia.
Qed.

Lemma visitEdge_fuel d w e : visitEdge' d w e <> Throw OutOfFuel.
Proof.
  unfold visitEdge. destruct (recordIsActive _ _); simpl; [|done].
  repeat case_match; simplify_eq/=; try done;
    destruct (nodeActive _ _ _); simplify_eq/=; repeat case_match; simplify_eq/=; done.
Qed.

Lemma visitEdges_fuel d w es : foldM_js (visitEdge' d) w es <> Throw OutOfFuel.
Proof.
  revert w. induction es as [|e es IH]; intros w; simpl; [done|].
  intros [Hf|(w1 & _ & Hf)]%bind_Throw; [by apply visitEdge_fuel in Hf | by apply IH in Hf].
Qed.

Lemma visitNode_fuel v d w : visitNode' v d w <> Throw OutOfFuel.
Proof.
  unfold visitNode. destruct (sin v (wk_visited w)); [done|]. unfold return_if, throw_if.
  destruct (Z.ltb _ _); [done|]. simpl. destruct (nodeActive _ _ _) as [act|]; simpl; [|done].
  destruct (nodeMap !! v); [|done]. destruct act; simpl; [|done]. apply visitEdges_fuel.
Qed.

(** One unit of fuel per entry of the queue and per edge not yet followed. *)
Lemma walk_terminates fuel w : length (wk_queue w) + pending (wk_visited w) <= fuel ->
  walk' fuel w <> Throw OutOfFuel.
Proof.
  revert w. induction fuel as [|fuel IH]; intros w Hm; simpl;
    destruct (wk_queue w) as [|[v d] rest] eqn:Hq; try done; simpl in Hm; [lia|].
  intros [Hf|(w1 & Hw & Hf)]%bind_Throw; [by apply visitNode_fuel in Hf|].
  apply visitNode_measure in Hw. simpl in Hw. revert Hf. apply IH. lia.
Qed.
End WalkFacts.

(** ** The walk computes the bounded ball around the root *)

Section Ball.
Context `{JsHost}.
Variables (req : Request) (nodeMap : gmap string Node) (adjacency : gmap string (list Edge))
  (restrictionsByNode : gmap string (list Restriction)).

Abbreviation root := (rq_rootNodeRef req).
Abbreviation usable := (usable_edge req nodeMap restrictionsByNode).
Abbreviation visitNode' := (visitNode req nodeMap adjacency restrictionsByNode).
Abbreviation walk' fuel := (walk fuel req nodeMap adjacency restrictionsByNode).

Hypothesis nodeMap_keys : forall k n, nodeMap !! k = Some n -> no_nodeRef n = k.

(** Paths along usable edges, by their length. *)
Inductive path : nat -> string -> Prop :=
| path_root : path 0 root
| path_step n u e : path n u -> e ∈ get_list adjacency u -> usable e = true ->
    path (S n) (ed_targetNodeRef e).

(** A queue in layers: first the entries of depth [k], then those of [k + 1]. *)
Definition layered (k : nat) (q : list (string * nat)) : Prop :=
  exists q1 q2, q = q1 ++ q2 /\ Forall (fun p => p.2 = k) q1 /\ Forall (fun p => p.2 = S k) q2.

Lemma layered_uncons k v d rest : layered k ((v, d) :: rest) ->
  k <= d /\ layered d rest.
Proof.
  intros ([|[v' d'] q1] & q2 & Heq & H1 & H2); simpl in Heq.
  - subst q2. apply Forall_cons in H2 as [Hd H2]. simpl in Hd. subst d. split; [lia|].
    exists rest, []. by rewrite app_nil_r.
  - injection Heq as <- <- ->. apply Forall_cons in H1 as [Hd H1]. simpl in Hd. subst d.
    split; [lia|]. by exists q1, q2.
Qed.

Lemma layered_push k q new : layered k q -> Forall (fun p => p.2 = S k) new -> layered k (q ++ new).
Proof.
  intros (q1 & q2 & -> & H1 & H2) Hn. exists q1, (q2 ++ new). rewrite app_assoc.
  split; [done|]. split; [done|]. by apply Forall_app.
Qed.

Definition resolved_at (w : Walk) (v : string) (d : nat) : Prop :=
  exists n, (n, d) ∈ wk_resolvedNodes w /\ no_nodeRef n = v.

(** The loop invariant; [cur] is the depth of the last processed entry. *)
Record walk_inv (cur : nat) (w : Walk) : Prop := {
  wi_resolved : forall n d, (n, d) ∈ wk_resolvedNodes w ->
    nodeMap !! no_nodeRef n = Some n /\ path d (no_nodeRef n) /\ (Z.of_nat d <= rq_maxDepth req)%Z /\
    d <= cur /\ nodeActive req nodeMap (no_nodeRef n) = Ok true;
  wi_queue : forall v d, (v, d) ∈ wk_queue w ->
    path d v /\ (Z.of_nat d <= rq_maxDepth req)%Z /\ nodeActive req nodeMap v = Ok true;
  wi_layers : layered cur (wk_queue w);
  wi_visited : forall v, v ∈ wk_visited w <-> exists d, resolved_at w v d;
  wi_frontier : forall u d e, resolved_at w u d -> above req d = true ->
    e ∈ get_list adjacency u -> usable e = true ->
    exists d', d' <= S d /\
      (resolved_at w (ed_targetNodeRef e) d' \/ (ed_targetNodeRef e, d') ∈ wk_queue w);
  wi_root : resolved_at w root 0 \/ (root, 0) ∈ wk_queue w;
  wi_edges : forall e, e ∈ wk_traversedEdges w <->
    usable e = true /\ exists u d, resolved_at w u d /\ above req d = true /\ e ∈ get_list adjacency u;
  wi_nodup : NoDup (wk_visited w);
  wi_order : wk_visited w = rev (List.map (fun p => no_nodeRef p.1) (wk_resolvedNodes w));
}.

Lemma resolved_at_app w n d v d' :
  (exists m, (m, d') ∈ wk_resolvedNodes w ++ [(n, d)] /\ no_nodeRef m = v) <->
  resolved_at w v d' \/ (v = no_nodeRef n /\ d' = d).
Proof.
  unfold resolved_at. setoid_rewrite elem_of_app. setoid_rewrite list_elem_of_singleton. split.
  - intros (m & [Hm|[= -> ->]] & <-); [left; by exists m | by right].
  - intros [(m & Hm & <-)|[-> ->]]; [exists m; auto | exists n; auto].
Qed.

(** Dropping a queue entry whose node has already been visited. *)
Lemma inv_skip cur w v d rest : walk_inv cur w -> wk_queue w = (v, d) :: rest ->
  v ∈ wk_visited w -> walk_inv d (shift w rest).
Proof.
  intros [Hres Hqu Hlay Hvis Hfr Hroot Hed Hnd Hord] Hq Hv. rewrite Hq in *.
  apply layered_uncons in Hlay as [Hcd Hlay]. apply Hvis in Hv as (dv & Hdv).
  assert (dv <= d) as Hle.
  { destruct Hdv as (n & Hn & _). apply Hres in Hn as (_ & _ & _ & ? & _). lia. }
  split; simpl; try done.
  - intros n d' Hn. destruct (Hres n d' Hn) as (? & ? & ? & ? & ?). repeat split; try done. lia.
  - intros v' d' Hin. apply Hqu. by apply list_elem_of_further.
  - intros u d' e Hu Ha He Hus. destruct (Hfr u d' e Hu Ha He Hus) as (d'' & Hd'' & [Hr|Hin]).
    + exists d''. by split; [|left].
    + apply elem_of_cons in Hin as [[= Ht ->]|Hin]; [|exists d''; by split; [|right]].
      exists dv. split; [lia|]. left. by rewrite Ht.
  - destruct Hroot as [Hr|Hin]; [by left|].
    apply elem_of_cons in Hin as [[= Ht <-]|Hin]; [|by right].
    left. rewrite Ht. replace 0 with dv by lia. done.
Qed.

Lemma visitNode_Ok w v d w' : v ∉ wk_visited w -> nodeActive req nodeMap v = Ok true ->
  visitNode' v d w = Ok w' -> exists node, nodeMap !! v = Some node /\
    wk_visited w' = v :: wk_visited w /\
    wk_resolvedNodes w' = wk_resolvedNodes w ++ [(node, d)] /\
    wk_traversedEdges w' = wk_traversedEdges w ++
      bfilter (follows req nodeMap restrictionsByNode d) (get_list adjacency v) /\
    wk_queue w' = wk_queue w ++ List.map (fun e => (ed_targetNodeRef e, S d))
      (bfilter (enqueues req nodeMap restrictionsByNode d (v :: wk_visited w)) (get_list adjacency v)).
Proof.
  intros Hv%sin_false Hact. unfold visitNode. rewrite Hv, Hact. intros Heq.
  apply bind_Ok in Heq as ([] & _ & Heq). simpl in Heq.
  unfold nodeActive in Hact. destruct (nodeMap !! v) as [node|]; [|done]. exists node.
  simpl in Heq. apply visitEdges_Ok in Heq as (-> & -> & -> & ->). done.
Qed.

Lemma usable_target e : usable e = true -> nodeActive req nodeMap (ed_targetNodeRef e) = Ok true.
Proof.
  unfold usable_edge. intros Hu. split_bool. destruct (nodeActive _ _ _) as [[]|]; done.
Qed.

Lemma above_bound d : above req d = true -> (Z.of_nat (S d) <= rq_maxDepth req)%Z.
Proof. unfold above. lia. Qed.

Lemma enqueues_true d visited e :
  enqueues req nodeMap restrictionsByNode d visited e = true <->
  above req d = true /\ usable e = true /\ (ed_targetNodeRef e ∉ visited).
Proof. unfold enqueues, follows. rewrite !andb_true_iff, negb_true_iff, sin_false. tauto. Qed.

Lemma new_entries v d visited v' d' :
  (v', d') ∈ List.map (fun e => (ed_targetNodeRef e, S d))
    (bfilter (enqueues req nodeMap restrictionsByNode d visited) (get_list adjacency v)) <->
  exists e, e ∈ get_list adjacency v /\ above req d = true /\ usable e = true /\
    (ed_targetNodeRef e ∉ visited) /\ v' = ed_targetNodeRef e /\ d' = S d.
Proof.
  rewrite list_elem_of_In, in_map_iff. setoid_rewrite <- list_elem_of_In.
  setoid_rewrite elem_of_bfilter. setoid_rewrite enqueues_true. split.
  - intros (e & [= <- <-] & (? & ? & ?) & ?). exists e. tauto.
  - intros (e & ? & ? & ? & ? & -> & ->). exists e. tauto.
Qed.

(** Visiting a new node. *)
Lemma inv_visit cur w v d rest w' : walk_inv cur w -> wk_queue w = (v, d) :: rest ->
  v ∉ wk_visited w -> visitNode' v d (shift w rest) = Ok w' -> walk_inv d w'.
Proof.
  intros [Hres Hqu Hlay Hvis Hfr Hroot Hed Hnd Hord] Hq Hv Hw. rewrite Hq in *.
  apply layered_uncons in Hlay as [Hcd Hlay].
  destruct (Hqu v d (list_elem_of_here _ _)) as (Hpath & Hbound & Hact).
  apply visitNode_Ok in Hw as (node & Hnode & Hvis' & Hres' & Htr' & Hq'); [|done|done].
  simpl in Hvis', Hres', Htr', Hq'. pose proof (nodeMap_keys v node Hnode) as Hkey.
  assert (forall u k, resolved_at w' u k <-> resolved_at w u k \/ (u = v /\ k = d)) as Hra.
  { intros u k. unfold resolved_at at 1. rewrite Hres', resolved_at_app. by rewrite Hkey. }
  split.
  - intros n k Hn. rewrite Hres' in Hn. apply elem_of_app in Hn as [Hn|Hn%list_elem_of_singleton].
    + destruct (Hres n k Hn) as (? & ? & ? & ? & ?). repeat split; try done. lia.
    + injection Hn as -> ->. rewrite Hkey. done.
  - intros v' d' Hin. rewrite Hq' in Hin. apply elem_of_app in Hin as [Hin|Hin].
    + apply Hqu. by apply list_elem_of_further.
    + apply new_entries in Hin as (e & He & Hab & Hus & _ & -> & ->).
      split; [by apply (path_step d v)|]. split; [by apply above_bound | by apply usable_target].
  - rewrite Hq'. apply layered_push; [done|]. apply Forall_forall. intros [v' d'] Hin.
    by apply new_entries in Hin as (? & _ & _ & _ & _ & _ & ->).
  - intros u. rewrite Hvis', elem_of_cons, Hvis. setoid_rewrite Hra. naive_solver.
  - intros u k e Hu Hab He Hus. setoid_rewrite Hra. rewrite Hq'. setoid_rewrite elem_of_app.
    apply Hra in Hu as [Hu|[-> ->]].
    + destruct (Hfr u k e Hu Hab He Hus) as (d' & Hd' & [Hr|Hin]); [exists d'; naive_solver|].
      apply elem_of_cons in Hin as [[= Ht ->]|Hin]; [|exists d'; naive_solver].
      exists d. split; [done|]. left. by right.
    + destruct (decide (ed_targetNodeRef e ∈ v :: wk_visited w)) as [Hin|Hnin].
      * apply elem_of_cons in Hin as [Ht|Hin]; [exists d; split; [lia|]; by left; right|].
        apply Hvis in Hin as (k & Hk). exists k. split; [|by left; left].
        destruct Hk as (n & Hn & _). apply Hres in Hn as (_ & _ & _ & ? & _). lia.
      * exists (S d). split; [done|]. right. right. apply new_entries. exists e. done.
  - rewrite Hra, Hq', elem_of_app. destruct Hroot as [Hr|Hin]; [by left; left|].
    apply elem_of_cons in Hin as [[= Ht Hd]|Hin]; [|by right; left]. left. right. by rewrite Hd.
  - intros e. rewrite Htr', elem_of_app, Hed, elem_of_bfilter. setoid_rewrite Hra.
    unfold follows. rewrite andb_true_iff. split.
    + intros [(Hus & u & k & Hu & Hab & He)|[[Hab Hus] He]]; (split; [done|]);
        [exists u, k | exists v, d]; naive_solver.
    + intros (Hus & u & k & [Hu|[-> ->]] & Hab & He); [|by right]. left. split; [done|]. by exists u, k.
  - rewrite Hvis'. by constructor.
  - rewrite Hvis', Hres', map_app, rev_app_distr, <- Hord. simpl. by rewrite Hkey.
Qed.

Lemma inv_step cur w v d rest w' : walk_inv cur w -> wk_queue w = (v, d) :: rest ->
  visitNode' v d (shift w rest) = Ok w' -> walk_inv d w'.
Proof.
  intros Hinv Hq Hw. destruct (decide (v ∈ wk_visited w)) as [Hv|Hv].
  - unfold visitNode in Hw. simpl in Hw. rewrite (proj2 (sin_true _ _) Hv) in Hw.
    injection Hw as <-. by eapply inv_skip.
  - by eapply inv_visit.
Qed.

Lemma walk_invariant fuel cur w w' : walk_inv cur w -> walk' fuel w = Ok w' ->
  exists cur', walk_inv cur' w' /\ wk_queue w' = [].
Proof.
  revert cur w. induction fuel as [|fuel IH]; intros cur w Hinv; simpl;
    destruct (wk_queue w) as [|[v d] rest] eqn:Hq; try done; try (by intros [= <-]; eauto).
  intros (w1 & Hw & Hrest)%bind_Ok. eapply IH; [|exact Hrest]. by eapply inv_step.
Qed.

Lemma inv_start : nodeActive req nodeMap root = Ok true -> (0 <= rq_maxDepth req)%Z ->
  walk_inv 0 (startWalk root).
Proof.
  intros Hact Hd. split; simpl.
  - by intros n d ?%elem_of_nil.
  - intros v d [= -> ->]%list_elem_of_singleton. repeat split; [apply path_root | lia | done].
  - exists [(root, 0)], []. split; [done|]. by repeat constructor.
  - intros v. split; [by intros ?%elem_of_nil|]. by intros (d & n & ?%elem_of_nil & _).
  - by intros u d e (n & ?%elem_of_nil & _).
  - right. apply list_elem_of_here.
  - intros e. split; [by intros ?%elem_of_nil|]. by intros (_ & u & d & (n & ?%elem_of_nil & _) & _).
  - constructor.
  - done.
Qed.

Lemma resolved_unique cur w m n k d : walk_inv cur w ->
  (m, k) ∈ wk_resolvedNodes w -> (n, d) ∈ wk_resolvedNodes w -> no_nodeRef m = no_nodeRef n ->
  m = n /\ k = d.
Proof.
  intros Hinv [i Hi]%list_elem_of_lookup [j Hj]%list_elem_of_lookup Heq.
  pose proof (wi_nodup _ _ Hinv) as Hnd. rewrite (wi_order _ _ Hinv) in Hnd.
  rewrite <- Permutation_rev in Hnd.
  assert (i = j) as ->; [|by rewrite Hi in Hj; injection Hj].
  eapply (NoDup_lookup _ _ _ (no_nodeRef n) Hnd); [rewrite <- Heq|];
    (etransitivity; [apply list_lookup_fmap|]); by rewrite ?Hi, ?Hj.
Qed.

(** At the end of the walk every bounded path has been covered. *)
Lemma final_covers cur w n v : walk_inv cur w -> wk_queue w = [] ->
  path n v -> (Z.of_nat n <= rq_maxDepth req)%Z -> exists d, d <= n /\ resolved_at w v d.
Proof.
  intros Hinv Hq Hp. induction Hp as [|n u e Hp IH He Hus]; intros Hb.
  - destruct (wi_root _ _ Hinv) as [Hr|Hin]; [by exists 0|]. rewrite Hq in Hin.
    by apply elem_of_nil in Hin.
  - destruct IH as (d & Hd & Hr); [lia|].
    destruct (wi_frontier _ _ Hinv u d e Hr) as (d' & Hd' & [Hr'|Hin]);
      [unfold above; lia | done | done | exists d'; split; [lia | done]|].
    rewrite Hq in Hin. by apply elem_of_nil in Hin.
Qed.

(** The walk resolves exactly the nodes within the bound, at their distance. *)
Lemma walk_ball fuel w n d : nodeActive req nodeMap root = Ok true -> (0 <= rq_maxDepth req)%Z ->
  walk' fuel (startWalk root) = Ok w ->
  (n, d) ∈ wk_resolvedNodes w <->
  nodeMap !! no_nodeRef n = Some n /\ path d (no_nodeRef n) /\ (Z.of_nat d <= rq_maxDepth req)%Z /\
  (forall k, path k (no_nodeRef n) -> d <= k).
Proof.
  intros Hact Hd Hw. destruct (walk_invariant _ _ _ _ (inv_start Hact Hd) Hw) as (cur & Hinv & Hq).
  assert (forall m k j, (m, k) ∈ wk_resolvedNodes w -> path j (no_nodeRef m) -> k <= j) as Hmin.
  { intros m k j Hm Hj. destruct (wi_resolved _ _ Hinv m k Hm) as (Hkm & Hpk & Hbk & _).
    destruct (decide (j <= k)) as [Hjk|]; [|lia].
    destruct (final_covers cur w j _ Hinv Hq Hj ltac:(lia)) as (k' & Hk' & m' & Hm' & Heq).
    destruct (resolved_unique cur w m' m k' k Hinv Hm' Hm Heq). lia. }
  split.
  - intros Hn. destruct (wi_resolved _ _ Hinv n d Hn) as (Hm & Hp & Hb & _).
    split; [done|]. split; [done|]. split; [done|]. intros k. by apply Hmin.
  - intros (Hm & Hp & Hb & Hmin'). destruct (final_covers cur w d _ Hinv Hq Hp Hb) as (k & Hk & m & Hm' & Heq).
    destruct (wi_resolved _ _ Hinv m k Hm') as (Hmm & Hpk & _). rewrite Heq in *.
    assert (d <= k) by (by apply Hmin'). assert (m = n) as -> by congruence.
    by replace d with k by lia.
Qed.

Lemma walk_edges fuel w e : nodeActive req nodeMap root = Ok true -> (0 <= rq_maxDepth req)%Z ->
  walk' fuel (startWalk root) = Ok w ->
  e ∈ wk_traversedEdges w <-> usable e = true /\ exists n d, (n, d) ∈ wk_resolvedNodes w /\
    (Z.of_nat d < rq_maxDepth req)%Z /\ e ∈ get_list adjacency (no_nodeRef n).
Proof.
  intros Hact Hd Hw. destruct (walk_invariant _ _ _ _ (inv_start Hact Hd) Hw) as (cur & Hinv & _).
  rewrite (wi_edges _ _ Hinv). unfold above, resolved_at. setoid_rewrite Z.ltb_lt. naive_solver.
Qed.

(** ** The node limit of the loop is never reached *)

Lemma visitEdges_return d w es dec :
  foldM_js (visitEdge req nodeMap restrictionsByNode d) w es <> Throw (Return dec).
Proof.
  revert w. induction es as [|e es IH]; intros w; simpl; [done|].
  intros [Hf|(w1 & _ & Hf)]%bind_Throw; [|by apply IH in Hf]. revert Hf. unfold visitEdge.
  destruct (recordIsActive _ _); simpl; [|done].
  repeat case_match; simplify_eq/=; try done;
    destruct (nodeActive _ _ _); simplify_eq/=; repeat case_match; simplify_eq/=; done.
Qed.

Lemma visited_bound cur w v : walk_inv cur w -> v ∉ wk_visited w -> is_Some (nodeMap !! v) ->
  length (v :: wk_visited w) <= size nodeMap.
Proof.
  intros Hinv Hv Hs. rewrite <- (size_dom (D := gset string)). unfold size, set_size.
  change (length (v :: wk_visited w) <= length (elements (dom nodeMap))). 
  apply submseteq_length, NoDup_submseteq; [constructor; [done | apply Hinv]|].
  intros u Hu. apply elem_of_elements, elem_of_dom. apply elem_of_cons in Hu as [->|Hu]; [done|].
  apply (wi_visited _ _ Hinv) in Hu as (d & n & Hn & <-).
  apply (wi_resolved _ _ Hinv) in Hn as (? & _). eauto.
Qed.

Lemma walk_no_return fuel cur w dec : walk_inv cur w -> (Z.of_nat (size nodeMap) <= rq_maxNodes req)%Z ->
  walk' fuel w <> Throw (Return dec).
Proof.
  intros Hinv Hsize. revert cur w Hinv. induction fuel as [|fuel IH]; intros cur w Hinv; simpl;
    destruct (wk_queue w) as [|[v d] rest] eqn:Hq; try done.
  intros [Hf|(w1 & Hw & Hf)]%bind_Throw.
  2: { revert Hf. eapply IH. by eapply inv_step. }
  revert Hf. unfold visitNode. simpl. destruct (sin v (wk_visited w)) eqn:Hv; [done|].
  apply sin_false in Hv. assert (nodeActive req nodeMap v = Ok true) as Hact.
  { apply (wi_queue _ _ Hinv v d). rewrite Hq. apply list_elem_of_here. }
  assert (is_Some (nodeMap !! v)) as Hsome.
  { unfold nodeActive in Hact. destruct (nodeMap !! v); [by eexists | done]. }
  pose proof (visited_bound cur w v Hinv Hv Hsome) as Hlen. simpl in Hlen. unfold return_if, throw_if.
  rewrite (proj2 (Z.ltb_ge _ _)) by (simpl; lia). rewrite Hact. simpl.
  destruct Hsome as [node ->]. apply visitEdges_return.
Qed.
End Ball.

(** ** Loading the graph *)

Section Load.
Context `{JsHost}.
Variable req : Request.

Definition tenant_ok (n : Node) : Prop :=
  no_tenantRef n = rq_tenantRef req /\
  forall w w', rq_workspaceRef req = Some w -> no_workspaceRef n = Some w' -> w' = w.

Lemma workspaceConflict_false a b : workspaceConflict a b = false ->
  forall x y, a = Some x -> b = Some y -> y = x.
Proof.
  intros Hc x y -> ->. simpl in Hc. split_bool. by apply String.eqb_eq in Hc.
Qed.

Lemma addNodes_Ok raw m0 m : foldM_js (addNode req) m0 raw = Ok m ->
  exists ns, Forall2 (fun x n => normalizeNode x = Ok n) raw ns /\ Forall tenant_ok ns /\
    size m = size m0 + length ns /\
    forall k n, m !! k = Some n <-> m0 !! k = Some n \/ (n ∈ ns /\ no_nodeRef n = k).
Proof.
  revert m0. induction raw as [|x raw IH]; intros m0; simpl.
  - intros [= <-]. exists []. split; [done|]. split; [done|]. split; [by rewrite Nat.add_0_r|].
    intros k n. split; [by left|]. by intros [?|[?%elem_of_nil _]].
  - intros (m1 & Hadd & (ns & Hns & Hten & Hsz & Hlk)%IH)%bind_Ok. unfold addNode in Hadd.
    apply bind_Ok in Hadd as (n & Hn%lift_Ok & Hadd). unfold return_if in Hadd. inv_outcome.
    rename H0 into Hfresh, H1 into Ht, H2 into Hw. apply bool_decide_eq_false, eq_None_not_Some in Hfresh.
    split_bool. apply String.eqb_eq in Ht. exists (n :: ns). split; [by constructor|].
    split; [constructor; [split; [done|by apply workspaceConflict_false]|done]|].
    split; [rewrite Hsz, map_size_insert_None by done; simpl; lia|].
    intros k n'. rewrite Hlk, lookup_insert_Some, elem_of_cons. split.
    + intros [[[<- <-]|[Hne Hm]]|[Hin Hk]]; [right; by split; [left|] | by left | right; by split; [right|]].
    + intros [Hm|[[->|Hin] Hk]]; [|by left; left|by right].
      left. right. split; [|done]. intros <-. by rewrite Hfresh in Hm.
Qed.

Lemma get_list_push {A} (m : gmap string (list A)) k x k' :
  get_list (push_list m k x) k' = get_list m k' ++ (if String.eqb k k' then [x] else []).
Proof.
  unfold push_list, get_list at 1. destruct (String.eqb_spec k k') as [<-|Hne].
  - by rewrite lookup_insert_eq.
  - rewrite lookup_insert_ne by done. by rewrite app_nil_r.
Qed.

Lemma map_has_true {A} (m : gmap string A) k : has m k = true <-> is_Some (m !! k).
Proof. apply bool_decide_eq_true. Qed.

Lemma addEdges_Ok nodeMap es st st' : foldM_js (addEdge req nodeMap) st es = Ok st' ->
  forall k, get_list st'.2 k = get_list st.2 k ++
    bfilter (fun e => String.eqb (ed_sourceNodeRef e) k && sin (ed_relationType e) (rq_relationTypes req)) es.
Proof.
  revert st. induction es as [|e es IH]; intros st; simpl.
  - intros [= <-] k. by rewrite app_nil_r.
  - intros (st1 & Hadd & Hrest)%bind_Ok k. rewrite (IH st1 Hrest k). unfold addEdge, return_if in Hadd.
    destruct st as [refs adj]. inv_outcome. simpl.
    destruct (sin (ed_relationType e) _); simpl.
    + rewrite get_list_push, <- app_assoc. by destruct (String.eqb _ _).
    + by rewrite andb_false_r.
Qed.

Lemma addEdges_nodes nodeMap es st st' : foldM_js (addEdge req nodeMap) st es = Ok st' ->
  Forall (fun e => is_Some (nodeMap !! ed_sourceNodeRef e) /\ is_Some (nodeMap !! ed_targetNodeRef e)) es.
Proof.
  revert st. induction es as [|e es IH]; intros st; simpl; [done|].
  intros (st1 & Hadd & Hrest)%bind_Ok. constructor; [|by eapply IH].
  unfold addEdge, return_if in Hadd. destruct st as [refs adj]. inv_outcome. split_bool.
  by rewrite <- !map_has_true.
Qed.

Lemma addRestrictions_Ok nodeMap rs st st' : foldM_js (addRestriction req nodeMap) st rs = Ok st' ->
  forall k, get_list st'.2 k = [] <-> get_list st.2 k = [] /\
    forall r, r ∈ rs -> re_nodeRef r = k ->
      restrictionApplies r (rq_operation req) (rq_evaluatedAt req) = Ok false.
Proof.
  revert st. induction rs as [|r rs IH]; intros st; simpl.
  - intros [= <-] k. split; [intros Hk; split; [done|by intros r ?%elem_of_nil] | by intros [? _]].
  - intros (st1 & Hadd & Hrest)%bind_Ok k. rewrite (IH st1 Hrest k). clear IH Hrest.
    unfold addRestriction, return_if in Hadd. destruct st as [refs act].
    apply bind_Ok in Hadd as ([] & _ & Hadd). apply bind_Ok in Hadd as ([] & _ & Hadd).
    apply bind_Ok in Hadd as (ap & Hap%lift_Ok & [= <-]). simpl.
    setoid_rewrite elem_of_cons. destruct ap; simpl.
    + rewrite get_list_push, app_nil. destruct (String.eqb_spec (re_nodeRef r) k) as [Hk|Hk].
      * split; [by intros [[_ ?] _]|]. intros [_ Hall]. rewrite (Hall r) in Hap; [done|by left|done].
      * split; [intros [[? _] Hall]; split; [done|]; intros r' [->|?]; [done|auto] | naive_solver].
    + split; [intros [? Hall]; split; [done|]; intros r' [->|?]; auto | naive_solver].
Qed.
End Load.

(** ** The specification *)

Section Spec.
Context `{JsHost}.
Variables (req : Request) (ns : list Node) (es : list Edge) (rs : list Restriction).

(** A node of the snapshot that is active at the time of the request. *)
Definition live (nodeRef : string) : Prop :=
  exists n, n ∈ ns /\ no_nodeRef n = nodeRef /\
    recordIsActive (no_validity n) (rq_evaluatedAt req) = Ok true.

Definition unrestricted (nodeRef : string) : Prop :=
  forall r, r ∈ rs -> re_nodeRef r = nodeRef ->
    restrictionApplies r (rq_operation req) (rq_evaluatedAt req) = Ok false.

(** An edge authority may be inherited along. *)
Record inherits (e : Edge) : Prop := {
  ih_listed : e ∈ es;
  ih_relation : ed_relationType e ∈ rq_relationTypes req;
  ih_policy : ed_inheritancePolicyKey e ∈ rq_policyKeys req;
  ih_active : recordIsActive (ed_validity e) (rq_evaluatedAt req) = Ok true;
  ih_target : live (ed_targetNodeRef e);
  ih_unrestricted : unrestricted (ed_targetNodeRef e);
}.

Inductive reach : nat -> string -> Prop :=
| reach_root : reach 0 (rq_rootNodeRef req)
| reach_step n e : reach n (ed_sourceNodeRef e) -> inherits e -> reach (S n) (ed_targetNodeRef e).

Lemma reach_good k v : live (rq_rootNodeRef req) -> unrestricted (rq_rootNodeRef req) ->
  reach k v -> live v /\ unrestricted v.
Proof. intros Hl Hu Hr. destruct Hr as [|n e _ [_ _ _ _ ? ?]]; done. Qed.

Variables (nodeMap : gmap string Node) (adjacency : gmap string (list Edge))
  (restrictionsByNode : gmap string (list Restriction)).
Hypothesis nodes_ok : forall k n, nodeMap !! k = Some n <-> n ∈ ns /\ no_nodeRef n = k.
Hypothesis edges_ok : forall k, get_list adjacency k ≡ₚ
  bfilter (fun e => String.eqb (ed_sourceNodeRef e) k && sin (ed_relationType e) (rq_relationTypes req)) es.
Hypothesis restrictions_ok : forall k, get_list restrictionsByNode k = [] <-> unrestricted k.

Lemma nodeActive_live v : nodeActive req nodeMap v = Ok true <-> live v.
Proof.
  unfold nodeActive, live. destruct (nodeMap !! v) as [n|] eqn:Hv.
  - apply nodes_ok in Hv as [Hin <-]. split; [by exists n|]. intros (m & Hm & Heq & Ha).
    assert (nodeMap !! no_nodeRef n = Some n) as Hn by (by apply nodes_ok).
    assert (nodeMap !! no_nodeRef n = Some m) as Hmm by (by apply nodes_ok). congruence.
  - split; [done|]. intros (m & Hm & <- & _).
    assert (nodeMap !! no_nodeRef m = Some m) by (by apply nodes_ok). congruence.
Qed.

Lemma catch_true {E} (m : outcome E bool) : catch m false = true <-> m = Ok true.
Proof. destruct m as [[]|]; naive_solver. Qed.

Lemma usable_inherits e : e ∈ get_list adjacency (ed_sourceNodeRef e) /\
  usable_edge req nodeMap restrictionsByNode e = true <-> inherits e.
Proof.
  unfold usable_edge. rewrite (edges_ok (ed_sourceNodeRef e)), elem_of_bfilter, !andb_true_iff,
    !catch_true, nodeActive_live, !sin_true, Nat.eqb_eq, length_zero_iff_nil, restrictions_ok,
    String.eqb_eq. split; [intros; destruct_and!; by split | by intros []].
Qed.

Lemma adjacency_source e u : e ∈ get_list adjacency u -> ed_sourceNodeRef e = u.
Proof.
  rewrite (edges_ok u), elem_of_bfilter, andb_true_iff, String.eqb_eq. tauto.
Qed.

Lemma path_reach n v : path req nodeMap adjacency restrictionsByNode n v <-> reach n v.
Proof.
  split.
  - induction 1 as [|n u e _ IH He Hus]; [constructor|].
    pose proof (adjacency_source e u He) as <-. apply reach_step; [done|].
    by apply usable_inherits.
  - induction 1 as [|n e _ IH Hi]; [constructor|]. apply usable_inherits in Hi as [? ?].
    by eapply path_step.
Qed.
End Spec.

Section Main.
Context `{JsHost}.

(** A snapshot loaded for a request. *)
Record loaded (req : Request) (snapshot : jsval) (ns : list Node) (es : list Edge)
    (rs : list Restriction) : Prop := {
  ld_nodes : Forall2 (fun x n => normalizeNode x = Ok n) (rawList (vget snapshot "nodes")) ns;
  ld_edges : Forall2 (fun x e => normalizeEdge x = Ok e) (rawList (vget snapshot "edges")) es;
  ld_restrictions : Forall2 (fun x r => normalizeRestriction x = Ok r)
    (rawList (vget snapshot "restrictions")) rs;
  ld_tenant : Forall (tenant_ok req) ns;
  ld_size : (Z.of_nat (length ns) <= rq_maxNodes req)%Z;
  ld_root : live req ns (rq_rootNodeRef req);
  ld_root_unrestricted : unrestricted req rs (rq_rootNodeRef req);
}.

Lemma checkRoot_Ok req nodeMap u : checkRoot req nodeMap = Ok u ->
  nodeActive req nodeMap (rq_rootNodeRef req) = Ok true.
Proof.
  unfold checkRoot, nodeActive, return_if. destruct (nodeMap !! _); [|done]. intros Heq.
  apply bind_Ok in Heq as ([] & _ & Heq). apply bind_Ok in Heq as (a & ->%lift_Ok & Heq).
  apply throw_if_Ok in Heq. by destruct a.
Qed.

Lemma checkSizes_Ok req a b c u : checkSizes req a b c = Ok u ->
  (Z.of_nat (length a) <= rq_maxNodes req)%Z.
Proof. unfold checkSizes. intros Heq. inv_outcome. lia. Qed.

Lemma parseRequest_bounds args req : parseRequest args = Ok req ->
  (0 <= rq_maxDepth req <= absoluteMaxDepth)%Z /\ (1 <= rq_maxNodes req <= absoluteMaxNodes)%Z.
Proof.
  unfold parseRequest. intros Heq. inv_outcome. destruct (js_Date _); [|done]. inv_outcome. cbn [rq_maxDepth rq_maxNodes].
  assert (forall v f fb hi lo z, normalizeBound v f fb hi lo = Ok z -> (lo <= z <= hi)%Z) as Hb.
  { intros v f fb hi lo zz. unfold normalizeBound. case_match; [|done].
    destruct (_ || _) eqn:Ho; [done|]. intros [= <-]. split_bool. lia. }
  split; eapply Hb; eassumption.
Qed.

(** What a finished evaluation has done. *)
Record finished (req : Request) (snapshot : jsval) (d : Decision) (ns : list Node)
    (es : list Edge) (rs : list Restriction) (nodeMap : gmap string Node)
    (adjacency : gmap string (list Edge)) (rbn : gmap string (list Restriction)) (w : Walk) : Prop := {
  fi_loaded : loaded req snapshot ns es rs;
  fi_nodeMap : forall k n, nodeMap !! k = Some n <-> n ∈ ns /\ no_nodeRef n = k;
  fi_adjacency : forall k, get_list adjacency k ≡ₚ
    bfilter (fun e => String.eqb (ed_sourceNodeRef e) k && sin (ed_relationType e) (rq_relationTypes req)) es;
  fi_restrictions : forall k, get_list rbn k = [] <-> unrestricted req rs k;
  fi_walk : walk (S (length es)) req nodeMap adjacency rbn (startWalk (rq_rootNodeRef req)) = Ok w;
  fi_resolution : resolution req snapshot w = Ok d;
}.

Lemma sorted_adjacency req nodeMap es st : foldM_js (addEdge req nodeMap) ([], ∅) es = Ok st ->
  forall k, get_list (js_sort byEdgeRef <$> st.2) k ≡ₚ
    bfilter (fun e => String.eqb (ed_sourceNodeRef e) k && sin (ed_relationType e) (rq_relationTypes req)) es.
Proof.
  intros Hf k. pose proof (addEdges_Ok _ _ _ _ _ Hf k) as Hk. simpl in Hk.
  change (get_list ∅ k) with (@nil Edge) in Hk. simpl in Hk. rewrite <- Hk.
  unfold get_list. rewrite lookup_fmap. destruct (st.2 !! k); simpl; [apply js_sort_Permutation | done].
Qed.

Lemma evaluateSnapshot_Ok req snapshot d : evaluateSnapshot req snapshot = Ok d ->
  exists ns es rs nodeMap adjacency rbn w, finished req snapshot d ns es rs nodeMap adjacency rbn w.
Proof.
  unfold evaluateSnapshot. intros Heq.
  apply bind_Ok in Heq as ([] & _ & Heq).
  apply bind_Ok in Heq as ([] & Hsz%checkSizes_Ok & Heq).
  apply bind_Ok in Heq as (nodeMap & (ns & Hns & Hten & _ & Hlk)%addNodes_Ok & Heq).
  apply bind_Ok in Heq as ([] & Hroot%checkRoot_Ok & Heq).
  apply bind_Ok in Heq as (es & Hes%lift_Ok%mapM_js_Ok & Heq).
  apply bind_Ok in Heq as ([erefs adj] & Hadj & Heq).
  pose proof (sorted_adjacency _ _ _ _ Hadj) as Hsorted.
  apply bind_Ok in Heq as (rs & Hrs%lift_Ok%mapM_js_Ok & Heq).
  apply bind_Ok in Heq as ([rrefs rbn] & Hrbn & Heq).
  apply bind_Ok in Heq as ([] & Hrr & Heq). apply bind_Ok in Heq as (w & Hw & Hres%lift_Ok).
  assert (forall k n, nodeMap !! k = Some n <-> n ∈ ns /\ no_nodeRef n = k) as Hnm.
  { intros k n. rewrite Hlk, lookup_empty. naive_solver. }
  assert (forall k, get_list rbn k = [] <-> unrestricted req rs k) as Hun.
  { intros k. pose proof (addRestrictions_Ok _ _ _ _ _ Hrbn k) as Hk. simpl in Hk. rewrite Hk.
    unfold unrestricted. naive_solver. }
  exists ns, es, rs, nodeMap, (js_sort byEdgeRef <$> adj), rbn, w. split; try done.
  split; try done.
  - by rewrite <- (Forall2_length _ _ _ Hns).
  - by apply (nodeActive_live req ns nodeMap).
  - apply Hun. unfold return_if in Hrr. apply throw_if_Ok in Hrr.
    destruct (get_list rbn (rq_rootNodeRef req)); [done | discriminate].
Qed.

Lemma foldM_not_Throw {A S} (f : S -> A -> step S) s l e :
  (forall s x, f s x <> Throw e) -> foldM_js f s l <> Throw e.
Proof. intros Hf (s' & x & Hx)%foldM_js_Throw. by apply (Hf s' x). Qed.

(** The two results that are not an exception, an early return with another
    code, or a finished walk. *)
Definition limit_decision : Decision := blocked ["RESOURCE_GRAPH_TRAVERSAL_NODE_LIMIT_EXCEEDED"].
Definition unwanted (e : stop) : Prop := e = OutOfFuel \/ e = Return limit_decision.

Lemma lift_wanted {A} (m : js A) e : unwanted e -> lift m <> Throw e.
Proof. intros [-> | ->]; destruct m; done. Qed.

Lemma return_if_wanted c codes e : unwanted e -> 
  unique_sorted codes <> ["RESOURCE_GRAPH_TRAVERSAL_NODE_LIMIT_EXCEEDED"] -> return_if c codes <> Throw e.
Proof.
  intros [-> | ->] Hc; destruct c; unfold return_if, throw_if; try done.
  intros [= Heq]. by apply Hc.
Qed.

Lemma addNode_wanted req m x e : unwanted e -> addNode req m x <> Throw e.
Proof.
  intros Hu Hf. unfold addNode in Hf.
  repeat (apply bind_Throw in Hf as [Hf|(? & _ & Hf)];
    [revert Hf; first [by apply lift_wanted | by apply return_if_wanted]|]). done.
Qed.

Lemma addEdge_wanted req m st x e : unwanted e -> addEdge req m st x <> Throw e.
Proof.
  intros Hu Hf. unfold addEdge in Hf. destruct st.
  repeat (apply bind_Throw in Hf as [Hf|(? & _ & Hf)];
    [revert Hf; first [by apply lift_wanted | by apply return_if_wanted]|]). done.
Qed.

Lemma addRestriction_wanted req m st x e : unwanted e -> addRestriction req m st x <> Throw e.
Proof.
  intros Hu Hf. unfold addRestriction in Hf. destruct st.
  repeat (apply bind_Throw in Hf as [Hf|(? & _ & Hf)];
    [revert Hf; first [by apply lift_wanted | by apply return_if_wanted]|]). done.
Qed.

Lemma checkRoot_wanted req m e : unwanted e -> checkRoot req m <> Throw e.
Proof.
  intros Hu Hf. unfold checkRoot in Hf. destruct (m !! _); [|destruct Hu as [-> | ->]; done].
  apply bind_Throw in Hf as [Hf|(? & _ & Hf)]; [by apply return_if_wanted in Hf|].
  apply bind_Throw in Hf as [Hf|(? & _ & Hf)]; [by apply lift_wanted in Hf|].
  by apply return_if_wanted in Hf.
Qed.

Lemma checkSizes_wanted req a b c e : unwanted e -> checkSizes req a b c <> Throw e.
Proof.
  intros Hu Hf. unfold checkSizes in Hf.
  apply bind_Throw in Hf as [Hf|(? & _ & Hf)];
    [unfold throw_if in Hf; destruct (Z.ltb _ _); [|done]; destruct Hu as [-> | ->]; done|].
  apply bind_Throw in Hf as [Hf|(? & _ & Hf)]; by apply return_if_wanted in Hf.
Qed.

Lemma root_restricted_codes l : 
  unique_sorted ("RESOURCE_GRAPH_ROOT_RESTRICTED" :: l) <> ["RESOURCE_GRAPH_TRAVERSAL_NODE_LIMIT_EXCEEDED"].
Proof.
  intros Heq. assert ("RESOURCE_GRAPH_ROOT_RESTRICTED" ∈
    unique_sorted ("RESOURCE_GRAPH_ROOT_RESTRICTED" :: l)) as Hin
    by (apply elem_of_unique_sorted, list_elem_of_here).
  rewrite Heq in Hin. by apply list_elem_of_singleton in Hin.
Qed.

Lemma evaluateSnapshot_wanted args req snapshot e : parseRequest args = Ok req -> unwanted e ->
  evaluateSnapshot req snapshot <> Throw e.
Proof.
  intros Hreq Hu Hf. unfold evaluateSnapshot in Hf.
  apply bind_Throw in Hf as [Hf|([] & _ & Hf)]; [by apply return_if_wanted in Hf|].
  apply bind_Throw in Hf as [Hf|([] & Hsz & Hf)]; [by apply checkSizes_wanted in Hf|].
  apply checkSizes_Ok in Hsz.
  apply bind_Throw in Hf as [Hf|(nm & Hnm & Hf)].
  { revert Hf. apply foldM_not_Throw. intros. by apply addNode_wanted. }
  destruct (addNodes_Ok _ _ _ _ Hnm) as (ns & Hns & _ & Hsize & Hlk).
  apply bind_Throw in Hf as [Hf|([] & Hroot & Hf)]; [by apply checkRoot_wanted in Hf|].
  apply checkRoot_Ok in Hroot.
  apply bind_Throw in Hf as [Hf|(es & _ & Hf)]; [by apply lift_wanted in Hf|].
  apply bind_Throw in Hf as [Hf|([erefs adj] & Hadj & Hf)].
  { revert Hf. apply foldM_not_Throw. intros. by apply addEdge_wanted. }
  pose proof (sorted_adjacency _ _ _ _ Hadj) as Hsorted. simpl in Hsorted.
  apply bind_Throw in Hf as [Hf|(rs & _ & Hf)]; [by apply lift_wanted in Hf|].
  apply bind_Throw in Hf as [Hf|([rrefs rbn] & _ & Hf)].
  { revert Hf. apply foldM_not_Throw. intros. by apply addRestriction_wanted. }
  apply bind_Throw in Hf as [Hf|([] & _ & Hf)];
    [apply return_if_wanted in Hf; [done | done | apply root_restricted_codes]|].
  apply bind_Throw in Hf as [Hf|(w & _ & Hf)]; [|by apply lift_wanted in Hf].
  destruct Hu as [-> | ->]; revert Hf.
  - apply (walk_terminates req nm _ rbn es Hsorted). simpl. unfold pending.
    apply le_n_S. apply bfilter_length.
  - apply (walk_no_return req nm _ rbn) with (cur := 0).
    + intros k n Hk. apply Hlk in Hk as [Hk|[_ Hk]]; [by rewrite lookup_empty in Hk | done].
    + apply inv_start; [done|]. by apply parseRequest_bounds in Hreq as [[? _] _].
    + rewrite Hsize, map_size_empty. by rewrite <- (Forall2_length _ _ _ Hns).
Qed.

(** A resolution comes from a finished walk only. *)
Definition unresolved (e : stop) : Prop :=
  match e with Return d => gd_resolution d = None | _ => True end.

Lemma lift_unresolved {A} (m : js A) e : lift m = Throw e -> unresolved e.
Proof. destruct m; simpl; [done|]. by intros [= <-]. Qed.

Lemma return_if_unresolved c codes e : return_if c codes = Throw e -> unresolved e.
Proof. unfold return_if, throw_if. destruct c; [|done]. by intros [= <-]. Qed.

Ltac unresolved_step :=
  match goal with
  | Hf : (_ ≫= _) = Throw _ |- _ => apply bind_Throw in Hf as [Hf|(? & _ & Hf)]
  | Hf : lift _ = Throw _ |- _ => by apply lift_unresolved in Hf
  | Hf : return_if _ _ = Throw _ |- _ => by apply return_if_unresolved in Hf
  | Hf : foldM_js _ _ _ = Throw _ |- _ => apply foldM_js_Throw in Hf as (? & ? & Hf)
  | Hf : (let '(_, _) := ?x in _) = Throw _ |- _ => destruct x
  end.

Lemma walk_unresolved fuel req nm adj rbn w e :
  walk fuel req nm adj rbn w = Throw e -> unresolved e.
Proof.
  revert w. induction fuel as [|fuel IH]; intros w; simpl;
    destruct (wk_queue w) as [|[v k] rest]; try done; intros Hf; [by injection Hf as <-|].
  apply bind_Throw in Hf as [Hf|(w1 & _ & Hf)]; [|by apply IH in Hf].
  unfold visitNode in Hf. destruct (sin _ _); [done|]. repeat unresolved_step.
  destruct (nm !! v); [|done]. destruct (negb _); [done|]. repeat unresolved_step.
  unfold visitEdge in Hf. repeat unresolved_step.
  repeat (destruct (negb _) || destruct (Z.leb _ _)); try done.
  repeat unresolved_step. destruct (negb _); [done|]. by destruct (0 <? _).
Qed.

Lemma evaluateSnapshot_return req snapshot d r :
  evaluateSnapshot req snapshot = Throw (Return d) -> gd_resolution d <> Some r.
Proof.
  intros Hf. assert (unresolved (Return d)) as Hu; [|simpl in Hu; by rewrite Hu].
  unfold evaluateSnapshot in Hf. repeat unresolved_step.
  - unfold checkSizes in Hf. repeat unresolved_step. unfold throw_if in Hf.
    destruct (Z.ltb _ _); [|done]. by injection Hf as <-.
  - unfold addNode in Hf. by repeat unresolved_step.
  - unfold checkRoot in Hf. destruct (_ !! _); [by repeat unresolved_step|]. by injection Hf as <-.
  - unfold addEdge in Hf. by repeat unresolved_step.
  - unfold addRestriction in Hf. by repeat unresolved_step.
  - by apply walk_unresolved in Hf.
Qed.

(** Every evaluation ends: the queue is exhausted within one iteration per
    edge plus one, so the handler always returns a decision or throws, and the
    node limit tested inside the loop never fires (the node list was already
    bounded). *)
Theorem evaluateBoundedResourceGraph_terminates args :
  exists r, evaluateBoundedResourceGraph args = Some r /\ r <> Ok limit_decision.
Proof.
  unfold evaluateBoundedResourceGraph. destruct (negb (is_record _)); [by eexists|].
  destruct (parseRequest args) as [req|e] eqn:Hreq; [|by eexists].
  destruct (evaluateSnapshot req (oget args "snapshot")) as [d|[e|d|]] eqn:Hev.
  - exists (Ok d). split; [done|]. intros [= ->].
    apply evaluateSnapshot_Ok in Hev as (? & ? & ? & ? & ? & ? & w & [_ _ _ _ _ Hres]).
    unfold resolution in Hres. inv_outcome. discriminate.
  - by eexists.
  - exists (Ok d). split; [done|]. intros [= ->]. revert Hev.
    apply (evaluateSnapshot_wanted args); [done | by right].
  - exfalso. revert Hev. apply (evaluateSnapshot_wanted args); [done | by left].
Qed.

(** C2: a resolved traversal is exactly the bounded inheritance closure of the
    root: a node is reported with depth [k] if and only if it is a node of the
    snapshot, reachable from the root in [k <= maxDepth] steps along active
    edges of an allowed relation and policy into active, unrestricted nodes,
    and in no fewer steps; an edge is reported if and only if it is such an
    edge and leaves a reported node above the depth bound; and no reported node
    belongs to another tenant or workspace or is under an applicable deny
    restriction. *)
Theorem evaluateBoundedResourceGraph_correct args d r :
  evaluateBoundedResourceGraph args = Some (Ok d) -> gd_resolution d = Some r ->
  exists req ns es rs, parseRequest args = Ok req /\ loaded req (oget args "snapshot") ns es rs /\
    (forall n k, (n, k) ∈ rn_nodes r <->
       n ∈ ns /\ reach req ns es rs k (no_nodeRef n) /\ (Z.of_nat k <= rq_maxDepth req)%Z /\
       forall j, reach req ns es rs j (no_nodeRef n) -> k <= j) /\
    (forall e, e ∈ rn_edges r <-> inherits req ns es rs e /\
       exists n k, (n, k) ∈ rn_nodes r /\ no_nodeRef n = ed_sourceNodeRef e /\
         (Z.of_nat k < rq_maxDepth req)%Z) /\
    (forall n k, (n, k) ∈ rn_nodes r -> tenant_ok req n /\ unrestricted req rs (no_nodeRef n)).
Proof.
  unfold evaluateBoundedResourceGraph. destruct (negb (is_record _)); [done|].
  destruct (parseRequest args) as [req|e] eqn:Hreq; [|done]. intros Hev Hr.
  destruct (evaluateSnapshot req (oget args "snapshot")) as [d'|[|d'|]] eqn:Hs; try done.
  2: { injection Hev as ->. exfalso. by eapply evaluateSnapshot_return. }
  injection Hev as ->.
  apply evaluateSnapshot_Ok in Hs as (ns & es & rs & nm & adj & rbn & w & [Hld Hnm Hadj Hrbn Hw Hres]).
  exists req, ns, es, rs. split; [done|]. split; [done|].
  assert (Hkeys : forall k n, nm !! k = Some n -> no_nodeRef n = k) by (intros k n; rewrite Hnm; tauto).
  assert (Hact : nodeActive req nm (rq_rootNodeRef req) = Ok true).
  { apply (nodeActive_live req ns nm Hnm), Hld. }
  destruct (parseRequest_bounds args req Hreq) as [[Hd0 _] _].
  assert (Hnodes : forall n k, (n, k) ∈ rn_nodes r <-> (n, k) ∈ wk_resolvedNodes w).
  { intros n k. unfold resolution in Hres. inv_outcome. injection Hr as <-. simpl.
    apply elem_of_js_sort. }
  assert (Hball : forall n k, (n, k) ∈ rn_nodes r <->
       n ∈ ns /\ reach req ns es rs k (no_nodeRef n) /\ (Z.of_nat k <= rq_maxDepth req)%Z /\
       forall j, reach req ns es rs j (no_nodeRef n) -> k <= j).
  { intros n k. rewrite Hnodes, (walk_ball req nm adj rbn Hkeys _ w n k Hact Hd0 Hw), Hnm.
    setoid_rewrite (path_reach req ns es rs nm adj rbn Hnm Hadj Hrbn). tauto. }
  split; [exact Hball|]. split; cycle 1.
  { intros n k (Hn & Hre & _)%Hball. split.
    - pose proof (ld_tenant _ _ _ _ _ Hld) as Ht. rewrite Forall_forall in Ht. by apply Ht.
    - by eapply reach_good; [apply Hld | apply Hld | exact Hre]. }
  intros e.
  assert (e ∈ rn_edges r <-> e ∈ wk_traversedEdges w) as ->.
  { unfold resolution in Hres. inv_outcome. injection Hr as <-. simpl. apply elem_of_js_sort. }
  rewrite (walk_edges req nm adj rbn Hkeys _ w e Hact Hd0 Hw).
  rewrite <- (usable_inherits req ns es rs nm adj rbn Hnm Hadj Hrbn). setoid_rewrite Hnodes. split.
  - intros (Hus & n & k & Hn & Hk & He). pose proof (adjacency_source req es adj Hadj e _ He) as Hsrc.
    rewrite Hsrc. split; [done|]. by exists n, k.
  - intros ([He Hus] & n & k & Hn & Hsrc & Hk). split; [done|]. exists n, k. by rewrite Hsrc.
Qed.
End Main.

(** r -> a -> b, a shortcut r -> b, and r -> c where c is denied. *)
Definition demo_node (ref : string) : jsval :=
  VObj [("nodeRef", VStr ref); ("resourceType", VStr "doc"); ("resourceRef", VStr ref);
        ("tenantRef", VStr "t1"); ("status", VStr "Active")].
Definition demo_edge (ref src tgt : string) : jsval :=
  VObj [("edgeRef", VStr ref); ("sourceNodeRef", VStr src); ("targetNodeRef", VStr tgt);
        ("relationType", VStr "contains"); ("inheritancePolicyKey", VStr "inherit");
        ("status", VStr "active")].
Definition demo_restriction : jsval :=
  VObj [("restrictionRef", VStr "deny-c"); ("nodeRef", VStr "c"); ("effect", VStr "deny");
        ("reasonCode", VStr "legal_hold"); ("status", VStr "active")].

Definition demo_graph_args : jsobj :=
  [("snapshot", VObj [
      ("nodes", VArr [demo_node "r"; demo_node "a"; demo_node "b"; demo_node "c"]);
      ("edges", VArr [demo_edge "e1" "r" "a"; demo_edge "e2" "a" "b"; demo_edge "e3" "r" "b";
                      demo_edge "e4" "r" "c"]);
      ("restrictions", VArr [demo_restriction])]);
   ("tenantRef", VStr "t1"); ("rootNodeRef", VStr "r"); ("rootResourceType", VStr "doc");
   ("rootResourceRef", VStr "r"); ("relationTypes", VArr [VStr "contains"]);
   ("inheritancePolicyKeys", VArr [VStr "inherit"]); ("operationIntent", VStr "read")].

Definition demo_graph : option Resolution :=
  match evaluateBoundedResourceGraph (H := demo_host) demo_graph_args with
  | Some (Ok d) => gd_resolution d
  | _ => None
  end.

Lemma evaluateBoundedResourceGraph_correct_witness :
  (List.map (fun p => (no_nodeRef p.1, p.2)) <$> (rn_nodes <$> demo_graph))
    = Some [("a", 1); ("b", 1); ("r", 0)] /\
  exists d r req ns es rs, gd_resolution d = Some r /\
    parseRequest (H := demo_host) demo_graph_args = Ok req /\
    loaded (H := demo_host) req (oget demo_graph_args "snapshot") ns es rs.
Proof.
  split; [vm_compute; reflexivity|].
  destruct (evaluateBoundedResourceGraph (H := demo_host) demo_graph_args) as [[d|]|] eqn:Hev;
    [| vm_compute in Hev; discriminate | vm_compute in Hev; discriminate].
  assert (exists r, gd_resolution d = Some r) as [r Hr]
    by (revert Hev; vm_compute; intros [= <-]; eexists; reflexivity).
  destruct (@evaluateBoundedResourceGraph_correct demo_host demo_graph_args d r Hev Hr)
    as (req & ns & es & rs & Hp & Hl & _).
  exists d, r, req, ns, es, rs. split; [exact Hr|]. split; [exact Hp | exact Hl].
Defined.
End ResourceGraph.
