(* ===== verification/ShadowParity.v ===== *)
(** * Shadow authority parity (contextKernel/domain/shadowAuthorityParityDecision.js)

    While a new resolver runs in shadow mode, its snapshot is compared with the
    legacy one.  Malformed fields do not throw: they are collected as issues.
    Proved: the verdict is a match exactly when both snapshots are readable,
    current, free of issues and side effects and say the same, and the
    over-grant classes are reported exactly in the direction of the excess. *)
From S2P Require Import Prelude Sorting JsString JsDate JsValue EvidenceSupport.

Module ShadowParity.

Definition maxIdentityRefsPerDimension : nat := 200.
Definition maxReasonCodes : nat := 200.
Definition maxReadinessDimensions : nat := 100.
Definition maxDataQualityIssues : nat := 100.
Definition maxUnsupportedSemantics : nat := 100.

Definition SHADOW_PARITY_IDENTITY_DIMENSIONS : list string :=
  ["resourceRefs"; "capabilityKeys"; "connectionRefs"; "actionKeys"].

Definition SIDE_EFFECT_FLAGS : list string :=
  ["executionPerformed"; "providerCallMade"; "automaticWritePerformed"; "credentialPayloadRead";
   "secretsIncluded"].

(** A normalised snapshot; a map is its entries. *)
Record Snapshot := {
  sn_source : string;
  sn_resolverKey : option string;
  sn_authorityAllowed : bool;
  sn_executionEligible : bool;
  sn_identitySets : list (string * list string);
  sn_reasonCodes : list string;
  sn_readinessDimensions : list (string * string);
  sn_dataQualityIssues : list string;
  sn_unsupportedSemantics : list string;
  sn_evaluatedAt : option string;
  sn_expiresAt : option string;
  sn_manifestRef : option string;
  sn_revisionRef : option string;
}.

Record Normalization := {
  nz_snapshot : option Snapshot;
  nz_issues : list string;
  nz_stale : bool;
  nz_unsupported : bool;
  nz_dataQualityDetected : bool;
  nz_sideEffectDetected : bool;
}.

Record TokenDifference := {
  td_legacyOnly : list string;
  td_effectiveOnly : list string;
  td_shared : list string;
}.

Record ReadinessDifference := {
  rd_dimension : string;
  rd_legacyState : option string;
  rd_effectiveState : option string;
}.

(** [baseSafety()] *)
Record Safety := {
  sf_shadowMode : bool;
  sf_parityOnly : bool;
  sf_rolloutApproved : bool;
  sf_authorityGranted : bool;
  sf_executionAuthorized : bool;
  sf_executionPerformed : bool;
  sf_runtimeAuthorityChanged : bool;
  sf_automaticWritePerformed : bool;
  sf_providerCallMade : bool;
  sf_credentialPayloadRead : bool;
  sf_secretsIncluded : bool;
}.

Definition baseSafety : Safety :=
  {| sf_shadowMode := true; sf_parityOnly := true; sf_rolloutApproved := false;
     sf_authorityGranted := false; sf_executionAuthorized := false;
     sf_executionPerformed := false; sf_runtimeAuthorityChanged := false;
     sf_automaticWritePerformed := false; sf_providerCallMade := false;
     sf_credentialPayloadRead := false; sf_secretsIncluded := false |}.

(** What a decision carries when both snapshots are objects. *)
Record Differences := {
  df_legacy : Snapshot;
  df_effective : Snapshot;
  df_identityDifferences : list (string * TokenDifference);
  df_authorityAllowed : bool * bool;
  df_executionEligible : bool * bool;
  df_reasonCodes : TokenDifference;
  df_readinessDimensions : list ReadinessDifference;
}.

Record Decision := {
  pa_status : string;
  pa_parityStatus : string;
  pa_matched : bool;
  pa_mismatchClasses : list string;
  pa_reasonCodes : list string;
  pa_legacyIssues : list string;
  pa_effectiveIssues : list string;
  pa_securityRelevant : bool;
  pa_rolloutBlocked : bool;
  pa_evaluatedAt : string;
  pa_differences : option Differences;
  pa_safety : Safety;
}.

(** [map[k]] and [map[k] = v] on the entries of an object. *)
Fixpoint entry_get {A} (m : list (string * A)) (k : string) : option A :=
  match m with
  | [] => None
  | (k', v) :: m' => if String.eqb k k' then Some v else entry_get m' k
  end.
Fixpoint entry_set {A} (m : list (string * A)) (k : string) (v : A) : list (string * A) :=
  match m with
  | [] => [(k, v)]
  | (k', v') :: m' => if String.eqb k k' then (k', v) :: m' else (k', v') :: entry_set m' k v
  end.

(** [if (c) issues.push(code)] *)
Definition issue_if (c : bool) (code : string) : list string := if c then [code] else [].

Section Normalise.
Context `{JsHost}.

Definition requireToken (value : jsval) (fieldName : string) : js string :=
  let normalized := js_trim (str_coalesce value) in
  if is_empty normalized || negb (is_identifier normalized)
  then type_error (fieldName +:+ " must be a stable token.")
  else Ok normalized.

(** The functions that push issues return them beside their value. *)
Definition normalizeOptionalToken (value : jsval) (fieldName issueCode : string)
    : option string * list string :=
  if is_blank value then (None, [])
  else match requireToken value fieldName with
       | Ok token => (Some token, [])
       | Throw _ => (None, [issueCode])
       end.

(** The loop of normalizeTokenList over the values from an index on. *)
Fixpoint tokenLoop (fieldName : string) (seen : list string) (index : nat) (values : list jsval)
    : list string * list string :=
  match values with
  | [] => ([], [])
  | value :: rest =>
      match requireToken value (fieldName +:+ "[" +:+ string_of_Z (Z.of_nat index) +:+ "]") with
      | Ok token =>
          if sin token seen then
            let '(tokens, issues) := tokenLoop fieldName seen (S index) rest in
            (tokens, (fieldName +:+ "_duplicate_ref") :: issues)
          else
            let '(tokens, issues) := tokenLoop fieldName (token :: seen) (S index) rest in
            (token :: tokens, issues)
      | Throw _ =>
          let '(tokens, issues) := tokenLoop fieldName seen (S index) rest in
          (tokens, (fieldName +:+ "_invalid_ref") :: issues)
      end
  end.

Definition normalizeTokenList (value : jsval) (fieldName : string) (limit : nat)
    : list string * list string :=
  match value with
  | VArr values =>
      if limit <? length values then ([], [fieldName +:+ "_limit_exceeded"])
      else
        let '(tokens, issues) := tokenLoop fieldName [] 0 values in
        (sort_strings tokens, issues)
  | _ => ([], [fieldName +:+ "_not_array"])
  end.

(** The loop over [Object.entries(value)]. *)
Fixpoint readinessLoop (result : list (string * string)) (entries : jsobj)
    : list (string * string) * list string :=
  match entries with
  | [] => (result, [])
  | (rawKey, rawValue) :: rest =>
      match key ← requireToken (VStr rawKey) "readinessDimensions.key";
            state ← requireToken rawValue ("readinessDimensions." +:+ key);
            Ok (key, state) with
      | Ok (key, state) => readinessLoop (entry_set result key state) rest
      | Throw _ =>
          let '(result, issues) := readinessLoop result rest in
          (result, "readiness_dimension_invalid" :: issues)
      end
  end.

Definition normalizeReadinessDimensions (value : jsval)
    : list (string * string) * list string :=
  if negb (is_record value) then ([], ["readiness_dimensions_not_object"])
  else
  let entries := spread value in
  if maxReadinessDimensions <? length entries
  then ([], ["readiness_dimensions_limit_exceeded"])
  else
  let '(result, issues) := readinessLoop [] entries in
  (js_sort (fun l r => locale_compare l.1 r.1) result, issues).

Definition emptyNormalization (expectedSource : string) : Normalization :=
  {| nz_snapshot := None; nz_issues := [expectedSource +:+ "_snapshot_not_object"];
     nz_stale := false; nz_unsupported := false; nz_dataQualityDetected := true;
     nz_sideEffectDetected := false |}.

(** The metadata read by the [try] block: the fields assigned before the first
    exception, and whether there was one. *)
Record Metadata := {
  md_source : option string;
  md_resolverKey : option string;
  md_evaluatedAt : option Z;
  md_expiresAt : option Z;
  md_failed : bool;
}.

Definition readMetadata (snapshot : jsval) (expectedSource : string) : Metadata :=
  match requireToken (vget snapshot "source") (expectedSource +:+ ".source") with
  | Throw _ => Build_Metadata None None None None true
  | Ok source =>
  let source := Some (js_toLowerCase source) in
  match requireToken (vget snapshot "resolverKey") (expectedSource +:+ ".resolverKey") with
  | Throw _ => Build_Metadata source None None None true
  | Ok resolverKey =>
  match normalizeTimestamp (vget snapshot "evaluatedAt") (expectedSource +:+ ".evaluatedAt") false with
  | Throw _ => Build_Metadata source (Some resolverKey) None None true
  | Ok evaluatedAt =>
  match normalizeTimestamp (vget snapshot "expiresAt") (expectedSource +:+ ".expiresAt") false with
  | Throw _ => Build_Metadata source (Some resolverKey) evaluatedAt None true
  | Ok expiresAt => Build_Metadata source (Some resolverKey) evaluatedAt expiresAt false
  end end end end.

Definition metadataIssues (expectedSource : string) (md : Metadata) : list string :=
  issue_if (md_failed md) (expectedSource +:+ "_snapshot_metadata_invalid")
  ++ issue_if (match md_source md with Some s => negb (String.eqb s expectedSource) | None => false end)
       (expectedSource +:+ "_source_mismatch")
  ++ issue_if (bool_decide (md_evaluatedAt md = None)) (expectedSource +:+ "_evaluated_at_required")
  ++ issue_if (bool_decide (md_expiresAt md = None)) (expectedSource +:+ "_expires_at_required").

Definition identityLists (expectedSource : string) (input : jsval)
    : list (string * (list string * list string)) :=
  List.map (fun d => (d, normalizeTokenList (vget input d) (expectedSource +:+ "_" +:+ d)
                          maxIdentityRefsPerDimension)) SHADOW_PARITY_IDENTITY_DIMENSIONS.

Definition staleAt (md : Metadata) (now : Z) : bool :=
  match md_evaluatedAt md with Some t => Z.ltb now t | None => false end
  || match md_expiresAt md with Some t => Z.leb t now | None => false end.

Definition normalizeSnapshot (snapshot : jsval) (expectedSource : string) (now : Z)
    : Normalization :=
  if negb (is_record snapshot) then emptyNormalization expectedSource
  else
  let md := readMetadata snapshot expectedSource in
  let input := vget snapshot "identitySets" in
  let identity := identityLists expectedSource input in
  let '(reasonCodes, i1) := normalizeTokenList (vget snapshot "reasonCodes")
    (expectedSource +:+ "_reason_codes") maxReasonCodes in
  let '(dataQualityIssues, i2) := normalizeTokenList
    (js_or (vget snapshot "dataQualityIssues") (VArr []))
    (expectedSource +:+ "_data_quality_issues") maxDataQualityIssues in
  let '(unsupportedSemantics, i3) := normalizeTokenList
    (js_or (vget snapshot "unsupportedSemantics") (VArr []))
    (expectedSource +:+ "_unsupported_semantics") maxUnsupportedSemantics in
  let '(readinessDimensions, i4) :=
    normalizeReadinessDimensions (vget snapshot "readinessDimensions") in
  let '(manifestRef, i5) := normalizeOptionalToken (vget snapshot "manifestRef")
    (expectedSource +:+ ".manifestRef") (expectedSource +:+ "_manifest_ref_invalid") in
  let '(revisionRef, i6) := normalizeOptionalToken (vget snapshot "revisionRef")
    (expectedSource +:+ ".revisionRef") (expectedSource +:+ "_revision_ref_invalid") in
  let issues := metadataIssues expectedSource md
    ++ issue_if (negb (is_record input)) (expectedSource +:+ "_identity_sets_not_object")
    ++ flat_map (fun p => p.2.2) identity ++ i1 ++ i2 ++ i3 ++ i4 ++ i5 ++ i6 in
  {| nz_snapshot := Some
       {| sn_source := default expectedSource (md_source md);
          sn_resolverKey := md_resolverKey md;
          sn_authorityAllowed := is_true (vget snapshot "authorityAllowed");
          sn_executionEligible := is_true (vget snapshot "executionEligible");
          sn_identitySets := List.map (fun p => (p.1, p.2.1)) identity;
          sn_reasonCodes := reasonCodes; sn_readinessDimensions := readinessDimensions;
          sn_dataQualityIssues := dataQualityIssues;
          sn_unsupportedSemantics := unsupportedSemantics;
          sn_evaluatedAt := toISOString <$> md_evaluatedAt md;
          sn_expiresAt := toISOString <$> md_expiresAt md;
          sn_manifestRef := manifestRef; sn_revisionRef := revisionRef |};
     nz_issues := issues; nz_stale := staleAt md now;
     nz_unsupported := 0 <? length unsupportedSemantics;
     nz_dataQualityDetected := (0 <? length dataQualityIssues) || (0 <? length issues);
     nz_sideEffectDetected := existsb (fun f => is_true (vget snapshot f)) SIDE_EFFECT_FLAGS |}.
End Normalise.

(** ** Comparison *)

Definition compareTokenSets (legacyValues effectiveValues : list string) : TokenDifference :=
  {| td_legacyOnly := bfilter (fun v => negb (sin v effectiveValues)) legacyValues;
     td_effectiveOnly := bfilter (fun v => negb (sin v legacyValues)) effectiveValues;
     td_shared := bfilter (fun v => sin v effectiveValues) legacyValues |}.

Definition compareReadiness (legacy effective : list (string * string))
    : list ReadinessDifference :=
  let dimensions := unique_sorted (List.map fst legacy ++ List.map fst effective) in
  List.map (fun d => {| rd_dimension := d; rd_legacyState := entry_get legacy d;
                        rd_effectiveState := entry_get effective d |})
    (bfilter (fun d => negb (ostr_eqb (entry_get legacy d) (entry_get effective d))) dimensions).

Definition addGrantDirectionClasses (legacyHasMore effectiveHasMore : bool) : list string :=
  (if legacyHasMore then ["legacy_over_grant"; "new_resolver_under_grant"] else [])
  ++ (if effectiveHasMore then ["legacy_under_grant"; "new_resolver_over_grant"] else []).

Definition nonempty {A} (l : list A) : bool := 0 <? length l.

(** [snapshot.identitySets[dimension]] *)
Definition identitySet (s : Snapshot) (dimension : string) : list string :=
  default [] (entry_get (sn_identitySets s) dimension).

Definition identityDifference (legacy effective : Snapshot) (d : string) : TokenDifference :=
  compareTokenSets (identitySet legacy d) (identitySet effective d).

(** [legacyHasMore] and [effectiveHasMore] are one function, applied both ways. *)
Definition hasMore (s other : Snapshot) : bool :=
  existsb (fun d => nonempty (bfilter (fun v => negb (sin v (identitySet other d))) (identitySet s d)))
    SHADOW_PARITY_IDENTITY_DIMENSIONS
  || (sn_authorityAllowed s && negb (sn_authorityAllowed other))
  || (sn_executionEligible s && negb (sn_executionEligible other)).

Definition evidenceDiffers (legacy effective : Snapshot) : bool :=
  let reasonDifference := compareTokenSets (sn_reasonCodes legacy) (sn_reasonCodes effective) in
  nonempty (td_legacyOnly reasonDifference) || nonempty (td_effectiveOnly reasonDifference)
  || nonempty (compareReadiness (sn_readinessDimensions legacy) (sn_readinessDimensions effective)).

Section Evaluate.
Context `{JsHost}.

(** The classes and reason codes added before the snapshots are compared. *)
Definition evidenceClasses (legacy effective : Normalization) : list string :=
  issue_if (nz_dataQualityDetected legacy || nz_dataQualityDetected effective) "data_quality_mismatch"
  ++ issue_if (nz_stale legacy || nz_stale effective) "stale_projection"
  ++ issue_if (nz_unsupported legacy) "unsupported_legacy_semantics".

Definition evidenceReasons (legacy effective : Normalization) : list string :=
  issue_if (nz_sideEffectDetected legacy || nz_sideEffectDetected effective)
    "SHADOW_SIDE_EFFECT_INVARIANT_VIOLATED"
  ++ issue_if (nz_dataQualityDetected legacy || nz_dataQualityDetected effective)
       "SHADOW_PARITY_DATA_QUALITY_MISMATCH"
  ++ issue_if (nz_stale legacy || nz_stale effective) "SHADOW_PARITY_STALE_PROJECTION"
  ++ issue_if (nz_unsupported legacy) "SHADOW_PARITY_UNSUPPORTED_LEGACY_SEMANTICS".

Definition compareSnapshots (legacy effective : Normalization) (l e : Snapshot) (now : Z)
    : Decision :=
  let sideEffect := nz_sideEffectDetected legacy || nz_sideEffectDetected effective in
  let mismatchClasses := evidenceClasses legacy effective
    ++ addGrantDirectionClasses (hasMore l e) (hasMore e l)
    ++ issue_if (evidenceDiffers l e) "data_quality_mismatch"
    ++ issue_if sideEffect "data_quality_mismatch" in
  let matched := length mismatchClasses =? 0 in
  let reasonCodes := evidenceReasons legacy effective
    ++ issue_if (evidenceDiffers l e) "SHADOW_PARITY_DECISION_EVIDENCE_MISMATCH"
    ++ issue_if matched "SHADOW_PARITY_MATCHED" in
  {| pa_status := if matched then "matched" else "mismatched";
     pa_parityStatus := if matched then "pass" else "blocked"; pa_matched := matched;
     pa_mismatchClasses := unique_sorted mismatchClasses;
     pa_reasonCodes := unique_sorted reasonCodes;
     pa_legacyIssues := sort_strings (nz_issues legacy);
     pa_effectiveIssues := sort_strings (nz_issues effective);
     pa_securityRelevant := sin "legacy_over_grant" mismatchClasses
       || sin "new_resolver_over_grant" mismatchClasses || sideEffect;
     pa_rolloutBlocked := negb matched; pa_evaluatedAt := toISOString now;
     pa_differences := Some
       {| df_legacy := l; df_effective := e;
          df_identityDifferences := List.map (fun d => (d, identityDifference l e d))
            SHADOW_PARITY_IDENTITY_DIMENSIONS;
          df_authorityAllowed := (sn_authorityAllowed l, sn_authorityAllowed e);
          df_executionEligible := (sn_executionEligible l, sn_executionEligible e);
          df_reasonCodes := compareTokenSets (sn_reasonCodes l) (sn_reasonCodes e);
          df_readinessDimensions := compareReadiness (sn_readinessDimensions l)
            (sn_readinessDimensions e) |};
     pa_safety := baseSafety |}.

(** The decision when a snapshot is not an object. *)
Definition unreadable (legacy effective : Normalization) (now : Z) : Decision :=
  {| pa_status := "blocked"; pa_parityStatus := "blocked"; pa_matched := false;
     pa_mismatchClasses := unique_sorted (evidenceClasses legacy effective);
     pa_reasonCodes := unique_sorted (evidenceReasons legacy effective);
     pa_legacyIssues := sort_strings (nz_issues legacy);
     pa_effectiveIssues := sort_strings (nz_issues effective);
     pa_securityRelevant := true; pa_rolloutBlocked := true; pa_evaluatedAt := toISOString now;
     pa_differences := None; pa_safety := baseSafety |}.

(** [evaluateShadowAuthorityParity({ legacySnapshot, effectiveSnapshot, now })] *)
Definition evaluateShadowAuthorityParity (args : jsobj) : js Decision :=
  match js_Date (now_param args) with
  | None => type_error "now must be a valid Date."
  | Some now =>
      let legacy := normalizeSnapshot (oget args "legacySnapshot") "legacy" now in
      let effective := normalizeSnapshot (oget args "effectiveSnapshot") "effective" now in
      match nz_snapshot legacy, nz_snapshot effective with
      | Some l, Some e => Ok (compareSnapshots legacy effective l e now)
      | _, _ => Ok (unreadable legacy effective now)
      end
  end.
End Evaluate.

(** ** What a snapshot says *)

(** The evidence of a snapshot, whatever its representation. *)
Record Evidence := {
  ev_authority : bool;
  ev_execution : bool;
  ev_identity : string -> list string;
  ev_reasons : list string;
  ev_readiness : string -> option string;
  ev_unsupported : list string;
}.

Definition evidence_of (s : Snapshot) : Evidence :=
  {| ev_authority := sn_authorityAllowed s; ev_execution := sn_executionEligible s;
     ev_identity := identitySet s; ev_reasons := sn_reasonCodes s;
     ev_readiness := entry_get (sn_readinessDimensions s);
     ev_unsupported := sn_unsupportedSemantics s |}.

(** Two snapshots say the same. *)
Record agree (a b : Evidence) : Prop := {
  ag_authority : ev_authority a = ev_authority b;
  ag_execution : ev_execution a = ev_execution b;
  ag_identity : forall d x, d ∈ SHADOW_PARITY_IDENTITY_DIMENSIONS ->
    x ∈ ev_identity a d <-> x ∈ ev_identity b d;
  ag_reasons : forall x, x ∈ ev_reasons a <-> x ∈ ev_reasons b;
  ag_readiness : forall k, ev_readiness a k = ev_readiness b k;
}.

(** [a] grants something that [b] does not. *)
Definition exceeds (a b : Evidence) : Prop :=
  (exists d x, d ∈ SHADOW_PARITY_IDENTITY_DIMENSIONS /\ x ∈ ev_identity a d /\ ~ x ∈ ev_identity b d)
  \/ (ev_authority a = true /\ ev_authority b = false)
  \/ (ev_execution a = true /\ ev_execution b = false).

Section Facts.
Context `{JsHost}.

Definition token (v : jsval) (s : string) : Prop :=
  js_trim (str_coalesce v) = s /\ is_identifier s = true.

(** An array of at most [limit] distinct tokens, listed in [l]. *)
Definition token_list (v : jsval) (limit : nat) (l : list string) : Prop :=
  exists vs ts, v = VArr vs /\ length vs <= limit /\ Forall2 token vs ts /\ NoDup ts /\ l ≡ₚ ts.

(** An object of at most 100 token-valued properties, read as a function. *)
Definition readiness_map (v : jsval) (f : string -> option string) : Prop :=
  is_record v = true /\ length (spread v) <= maxReadinessDimensions /\
  exists kvs, Forall2 (fun p q => token (VStr p.1) q.1 /\ token p.2 q.2) (spread v) kvs /\
    forall k, f k = entry_get (rev kvs) k.

Definition optional_token (v : jsval) : Prop := is_blank v = true \/ exists s, token v s.

(** A raw snapshot of a source that is complete, current at [t], free of
    reported problems and of side effects, and says [ev]. *)
Record current_snapshot (source : string) (t : Z) (v : jsval) (ev : Evidence) : Prop := {
  cs_record : is_record v = true;
  cs_source : exists s, token (vget v "source") s /\ js_toLowerCase s = source;
  cs_resolverKey : exists s, token (vget v "resolverKey") s;
  cs_evaluatedAt : is_blank (vget v "evaluatedAt") = false /\
    exists a, js_Date (vget v "evaluatedAt") = Some a /\ (a <= t)%Z;
  cs_expiresAt : is_blank (vget v "expiresAt") = false /\
    exists b, js_Date (vget v "expiresAt") = Some b /\ (t < b)%Z;
  cs_identitySets : is_record (vget v "identitySets") = true;
  cs_identity : forall d, d ∈ SHADOW_PARITY_IDENTITY_DIMENSIONS ->
    token_list (vget (vget v "identitySets") d) maxIdentityRefsPerDimension (ev_identity ev d);
  cs_reasons : token_list (vget v "reasonCodes") maxReasonCodes (ev_reasons ev);
  cs_dataQuality : token_list (js_or (vget v "dataQualityIssues") (VArr [])) maxDataQualityIssues [];
  cs_unsupported : token_list (js_or (vget v "unsupportedSemantics") (VArr []))
    maxUnsupportedSemantics (ev_unsupported ev);
  cs_readiness : readiness_map (vget v "readinessDimensions") (ev_readiness ev);
  cs_manifestRef : optional_token (vget v "manifestRef");
  cs_revisionRef : optional_token (vget v "revisionRef");
  cs_effects : forall f, f ∈ SIDE_EFFECT_FLAGS -> is_true (vget v f) = false;
  cs_authority : ev_authority ev = is_true (vget v "authorityAllowed");
  cs_execution : ev_execution ev = is_true (vget v "executionEligible");
}.

(** ** Tokens and token lists *)

Lemma requireToken_Ok v f s : requireToken v f = Ok s <-> token v s.
Proof.
  unfold requireToken, token. cbv zeta.
  destruct (is_empty (js_trim (str_coalesce v))) eqn:He; simpl.
  - apply is_empty_true in He. rewrite He. split; [done|]. intros [<- Hs]. done.
  - destruct (is_identifier (js_trim (str_coalesce v))) eqn:Hi; simpl.
    + split; [intros [= <-]|intros [<- _]]; done.
    + split; [done|]. intros [<- Hs]. congruence.
Qed.

Lemma token_unique v s s' : token v s -> token v s' -> s = s'.
Proof. intros [<- _] [<- _]. done. Qed.

Lemma optional_token_spec v f c : (normalizeOptionalToken v f c).2 = [] <-> optional_token v.
Proof.
  unfold normalizeOptionalToken, optional_token. destruct (is_blank v); [naive_solver|].
  destruct (requireToken v f) as [s|e] eqn:Hr; simpl.
  - apply requireToken_Ok in Hr. naive_solver.
  - split; [done|]. intros [?|[s Hs]]; [done|]. by apply (requireToken_Ok v f) in Hs; rewrite Hr in Hs.
Qed.

Lemma tokenLoop_clean f seen i vs ts : tokenLoop f seen i vs = (ts, []) <->
  Forall2 token vs ts /\ NoDup ts /\ forall s, s ∈ ts -> ~ s ∈ seen.
Proof.
  revert seen i ts. induction vs as [|v vs IH]; intros seen i ts; simpl.
  - split; [intros [= <-]|intros [->%Forall2_nil_inv_l _]; done].
    split; [constructor|]. split; [constructor|]. intros s Hs. by apply elem_of_nil in Hs.
  - destruct (requireToken v _) as [s|e] eqn:Hr.
    + pose proof Hr as Hs%requireToken_Ok. destruct (sin s seen) eqn:Hin.
      * destruct (tokenLoop f seen (S i) vs). split; [done|]. apply sin_true in Hin.
        intros (HF & _ & Hnin). apply Forall2_cons_inv_l in HF as (s' & ts' & Hs' & _ & ->).
        pose proof (token_unique _ _ _ Hs Hs') as <-. by destruct (Hnin s (list_elem_of_here _ _)).
      * apply sin_false in Hin. destruct (tokenLoop f (s :: seen) (S i) vs) as [ts' iss] eqn:Hloop.
        specialize (IH (s :: seen) (S i)). rewrite Hloop in IH. split.
        -- intros [= <- ->]. destruct (proj1 (IH ts') eq_refl) as (HF & Hnd & Hnin).
           split; [by constructor|]. split.
           ++ constructor; [|done]. intros Hs'. by apply (Hnin s Hs'); left.
           ++ intros s' [->|Hs']%elem_of_cons; [done|]. intros Hseen. by apply (Hnin s' Hs'); right.
        -- intros (HF & Hnd & Hnin). apply Forall2_cons_inv_l in HF as (s' & ts'' & Hs' & HF & ->).
           pose proof (token_unique _ _ _ Hs Hs') as <-. apply NoDup_cons in Hnd as [Hn Hnd].
           assert (ts' = ts'' /\ iss = []) as [-> ->]; [|done].
           enough ((ts', iss) = (ts'', [])) as [= -> ->] by done. apply IH. split; [done|].
           split; [done|]. intros s' Hs'' [->|Hseen]%elem_of_cons; [done|].
           apply (Hnin s'); [by right | done].
    + destruct (tokenLoop f seen (S i) vs). split; [done|]. intros (HF & _).
      apply Forall2_cons_inv_l in HF as (s & ts' & Hs & _ & _).
      apply (requireToken_Ok v (f +:+ "[" +:+ string_of_Z (Z.of_nat i) +:+ "]")) in Hs. congruence.
Qed.

(** A token list is clean exactly when the loop pushes no issue. *)
Lemma normalizeTokenList_clean v f limit l : (normalizeTokenList v f limit).2 = [] ->
  token_list v limit l <-> l ≡ₚ (normalizeTokenList v f limit).1.
Proof.
  unfold normalizeTokenList, token_list. destruct v as [| | | | | |vs|]; try done.
  destruct (limit <? length vs) eqn:Hlen; [done|]. apply Nat.ltb_ge in Hlen.
  destruct (tokenLoop f [] 0 vs) as [ts iss] eqn:Hloop. simpl. intros ->.
  apply tokenLoop_clean in Hloop as (HF & Hnd & _). split.
  - intros (vs' & ts' & [= <-] & _ & HF' & _ & ->).
    assert (ts = ts') as <-; [|symmetry; apply js_sort_Permutation].
    clear -HF HF'. revert ts' HF'. induction HF as [|v t vs ts Ht _ IH]; intros ts' HF'.
    + by apply Forall2_nil_inv_l in HF'.
    + apply Forall2_cons_inv_l in HF' as (t' & ts'' & Ht' & HF' & ->).
      rewrite (token_unique _ _ _ Ht Ht'). f_equal. by apply IH.
  - intros Hl. exists vs, ts. do 4 (split; [done|]). etrans; [exact Hl|]. apply js_sort_Permutation.
Qed.

Lemma normalizeTokenList_issues v f limit l : token_list v limit l ->
  (normalizeTokenList v f limit).2 = [].
Proof.
  intros (vs & ts & -> & Hlen & HF & Hnd & _). unfold normalizeTokenList.
  rewrite (proj2 (Nat.ltb_ge _ _) Hlen).
  assert (tokenLoop f [] 0 vs = (ts, [])) as ->; [|done].
  apply tokenLoop_clean. split; [done|]. split; [done|]. intros s _ Hs. by apply elem_of_nil in Hs.
Qed.

(** ** Readiness maps *)

Lemma entry_get_set {A} (m : list (string * A)) k v k' :
  entry_get (entry_set m k v) k' = if String.eqb k' k then Some v else entry_get m k'.
Proof.
  induction m as [|[k1 v1] m IH]; simpl; [done|].
  destruct (String.eqb_spec k k1) as [->|Hne]; simpl.
  - by destruct (String.eqb k' k1).
  - rewrite IH. destruct (String.eqb_spec k' k1) as [->|]; [|done].
    by rewrite (proj2 (String.eqb_neq k1 k)).
Qed.

Lemma entry_set_keys {A} (m : list (string * A)) k v :
  NoDup (List.map fst m) -> NoDup (List.map fst (entry_set m k v)).
Proof.
  assert (forall k', k' ∈ List.map fst (entry_set m k v) -> k' = k \/ k' ∈ List.map fst m) as Hin.
  { intros k'. induction m as [|[k1 v1] m IH]; simpl; [set_solver|].
    destruct (String.eqb_spec k k1) as [->|]; simpl; set_solver. }
  induction m as [|[k1 v1] m IH]; simpl; intros Hnd.
  - apply NoDup_singleton.
  - destruct (String.eqb_spec k k1) as [->|Hne]; simpl; [done|].
    apply NoDup_cons in Hnd as [Hn Hnd]. constructor; [|apply IH; [|done]].
    + intros Hk. clear IH Hin Hnd. revert Hk. induction m as [|[k2 v2] m IH]; simpl in *; [set_solver|].
      destruct (String.eqb_spec k k2) as [->|]; simpl; [done|]. set_solver.
    + intros k' Hk'. clear -Hk'. induction m as [|[k2 v2] m IH]; simpl in *; [set_solver|].
      destruct (String.eqb_spec k k2) as [->|]; simpl in *; set_solver.
Qed.

Lemma entry_get_elem {A} (m : list (string * A)) k v : NoDup (List.map fst m) ->
  entry_get m k = Some v <-> (k, v) ∈ m.
Proof.
  induction m as [|[k1 v1] m IH]; simpl; intros Hnd.
  - split; [done|]. intros Hin. by apply elem_of_nil in Hin.
  - apply NoDup_cons in Hnd as [Hn Hnd]. destruct (String.eqb_spec k k1) as [->|Hne].
    + split; [intros [= ->]; by left|]. intros [[= ->]|Hin]%elem_of_cons; [done|].
      destruct Hn. apply list_elem_of_fmap. by exists (k1, v).
    + rewrite IH, elem_of_cons by done. naive_solver.
Qed.

Lemma entry_get_Permutation {A} (m1 m2 : list (string * A)) k : m1 ≡ₚ m2 ->
  NoDup (List.map fst m1) -> entry_get m1 k = entry_get m2 k.
Proof.
  intros Hp Hnd. assert (NoDup (List.map fst m2)) as Hnd2 by (by rewrite <- (fmap_Permutation fst _ _ Hp)).
  apply option_eq. intros v. rewrite !entry_get_elem by done. by rewrite Hp.
Qed.

(** A loop without issues has read every entry; later entries win. *)
Lemma readinessLoop_clean entries m0 m :
  (exists iss, readinessLoop m0 entries = (m, iss) /\ iss = []) <->
  exists kvs, Forall2 (fun p q => token (VStr p.1) q.1 /\ token p.2 q.2) entries kvs /\
    m = fold_left (fun acc p => entry_set acc p.1 p.2) kvs m0.
Proof.
  revert m0. induction entries as [|[k v] entries IH]; intros m0; simpl.
  - split; [intros (iss & [= <- _] & _); by exists []|].
    intros (kvs & ->%Forall2_nil_inv_l & ->). by exists [].
  - destruct (requireToken (VStr k) _) as [k'|e] eqn:Hk; cbn [mbind outcome_bind].
    + pose proof Hk as Htk%requireToken_Ok.
      destruct (requireToken v _) as [s|e] eqn:Hv; cbn [mbind outcome_bind].
      * pose proof Hv as Htv%requireToken_Ok. rewrite IH. split.
        -- intros (kvs & HF & ->). exists ((k', s) :: kvs). split; [by constructor|done].
        -- intros (kvs & HF & ->). apply Forall2_cons_inv_l in HF as ([k2 s2] & kvs' & [Hk2 Hs2] & HF & ->).
           simpl in *. rewrite (token_unique _ _ _ Hk2 Htk), (token_unique _ _ _ Hs2 Htv). by exists kvs'.
      * destruct (readinessLoop m0 entries). split; [intros (iss & [= _ <-] & ?); done|].
        intros (kvs & HF & _). apply Forall2_cons_inv_l in HF as ([k2 s2] & kvs' & [_ Hs2] & _).
        by rewrite (proj2 (requireToken_Ok _ _ _) Hs2) in Hv.
    + destruct (readinessLoop m0 entries). split; [intros (iss & [= _ <-] & ?); done|].
      intros (kvs & HF & _). apply Forall2_cons_inv_l in HF as ([k2 s2] & kvs' & [Hk2 _] & _).
      by rewrite (proj2 (requireToken_Ok _ _ _) Hk2) in Hk.
Qed.

Lemma fold_entry_set (kvs m0 : list (string * string)) k : NoDup (List.map fst m0) ->
  let m := fold_left (fun acc p => entry_set acc p.1 p.2) kvs m0 in
  NoDup (List.map fst m) /\
  entry_get m k = match entry_get (rev kvs) k with Some v => Some v | None => entry_get m0 k end.
Proof.
  assert (forall (l1 l2 : list (string * string)), entry_get (l1 ++ l2) k =
    match entry_get l1 k with Some v => Some v | None => entry_get l2 k end) as Happ.
  { intros l1 l2. induction l1 as [|[k1 v1] l1 IH]; simpl; [done|]. by destruct (String.eqb k k1). }
  revert m0. induction kvs as [|[k1 v1] kvs IH]; intros m0 Hnd; simpl; [done|].
  destruct (IH (entry_set m0 k1 v1)) as [Hn ->]; [by apply entry_set_keys|]. split; [done|].
  rewrite Happ, entry_get_set. simpl. destruct (entry_get (rev kvs) k); [done|].
  by destruct (String.eqb k k1).
Qed.

Lemma readiness_clean v : (normalizeReadinessDimensions v).2 = [] ->
  forall f, readiness_map v f <-> forall k, f k = entry_get (normalizeReadinessDimensions v).1 k.
Proof.
  unfold normalizeReadinessDimensions, readiness_map. destruct (is_record v); simpl; [|done].
  destruct (maxReadinessDimensions <? _) eqn:Hlen; [done|]. apply Nat.ltb_ge in Hlen.
  destruct (readinessLoop [] (spread v)) as [m iss] eqn:Hloop. simpl. intros -> f.
  assert (exists iss, readinessLoop [] (spread v) = (m, iss) /\ iss = []) as Hex by eauto.
  apply readinessLoop_clean in Hex as (kvs & HF & Hm).
  assert (forall k, entry_get (js_sort (fun l r => locale_compare l.1 r.1) m) k =
    entry_get (rev kvs) k) as Hget.
  { intros k. destruct (fold_entry_set kvs [] k) as [Hnd Hg]; [constructor|]. rewrite <- Hm in Hnd, Hg.
    rewrite <- (entry_get_Permutation m), Hg; [by destruct (entry_get (rev kvs) k)| |done].
    symmetry. apply js_sort_Permutation. }
  split.
  - intros (_ & _ & kvs' & HF' & Hf) k. rewrite Hget, Hf.
    assert (kvs = kvs') as <-; [|done]. clear -HF HF'. revert kvs' HF'.
    induction HF as [|p q ps qs [Hq1 Hq2] _ IH]; intros kvs' HF'; [by apply Forall2_nil_inv_l in HF'|].
    apply Forall2_cons_inv_l in HF' as (q' & qs' & [Hq1' Hq2'] & HF' & ->).
    rewrite (IH qs') by done. f_equal. destruct q, q'. simpl in *. f_equal; by eapply token_unique.
  - intros Hf. do 2 (split; [done|]). exists kvs. split; [done|]. intros k. by rewrite Hf, Hget.
Qed.

Lemma readiness_issues v f : readiness_map v f -> (normalizeReadinessDimensions v).2 = [].
Proof.
  unfold normalizeReadinessDimensions. intros (-> & Hlen & kvs & HF & _). simpl.
  rewrite (proj2 (Nat.ltb_ge _ _) Hlen).
  assert (exists iss, readinessLoop [] (spread v) =
    (fold_left (fun acc p => entry_set acc p.1 p.2) kvs [], iss) /\ iss = []) as (iss & -> & ->); [|done].
  apply readinessLoop_clean. by exists kvs.
Qed.

(** ** Normalised snapshots *)

Lemma issue_if_nil c code : issue_if c code = [] <-> c = false.
Proof. by destruct c. Qed.

Lemma timestamp_Ok v f a : normalizeTimestamp v f false = Ok (Some a) <->
  is_blank v = false /\ js_Date v = Some a.
Proof. unfold normalizeTimestamp. destruct (is_blank v), (js_Date v); naive_solver. Qed.

Lemma timestamp_None v f : normalizeTimestamp v f false = Ok None -> is_blank v = true.
Proof. unfold normalizeTimestamp. destruct (is_blank v), (js_Date v); naive_solver. Qed.

Lemma metadata_clean v src t :
  (metadataIssues src (readMetadata v src) = [] /\ staleAt (readMetadata v src) t = false) <->
  (exists s, token (vget v "source") s /\ js_toLowerCase s = src) /\
  (exists s, token (vget v "resolverKey") s) /\
  (is_blank (vget v "evaluatedAt") = false /\
     exists a, js_Date (vget v "evaluatedAt") = Some a /\ (a <= t)%Z) /\
  (is_blank (vget v "expiresAt") = false /\
     exists b, js_Date (vget v "expiresAt") = Some b /\ (t < b)%Z).
Proof.
  unfold metadataIssues. rewrite !app_nil, !issue_if_nil, !bool_decide_eq_false. split.
  - unfold readMetadata. intros [Hiss Hst].
    destruct (requireToken (vget v "source") _) as [s|] eqn:Hs; [|naive_solver].
    destruct (requireToken (vget v "resolverKey") _) as [k|] eqn:Hk; [|naive_solver].
    destruct (normalizeTimestamp (vget v "evaluatedAt") _ _) as [[a|]|] eqn:Ha; [| |naive_solver].
    2: { destruct (normalizeTimestamp (vget v "expiresAt") _ _); naive_solver. }
    destruct (normalizeTimestamp (vget v "expiresAt") _ _) as [[b|]|] eqn:Hb; [|naive_solver..].
    apply requireToken_Ok in Hs, Hk. apply timestamp_Ok in Ha as [Ha1 Ha2], Hb as [Hb1 Hb2].
    simpl in Hiss, Hst. destruct Hiss as (_ & Hsrc & _). apply orb_false_iff in Hst as [Hst1 Hst2].
    apply negb_false_iff, String.eqb_eq in Hsrc. apply Z.ltb_ge in Hst1. apply Z.leb_gt in Hst2.
    split; [by exists s|]. split; [by exists k|]. split; (split; [done|]); eexists; split; done || lia.
  - intros ((s & Hs & Hsrc) & (k & Hk) & (Ha1 & a & Ha2 & Ha) & (Hb1 & b & Hb2 & Hb)).
    assert (readMetadata v src = Build_Metadata (Some src) (Some k) (Some a) (Some b) false) as ->.
    { unfold readMetadata. rewrite (proj2 (requireToken_Ok _ _ _) Hs), (proj2 (requireToken_Ok _ _ _) Hk).
      rewrite (proj2 (timestamp_Ok _ _ a) (conj Ha1 Ha2)), (proj2 (timestamp_Ok _ _ b) (conj Hb1 Hb2)).
      by rewrite Hsrc. }
    simpl. rewrite String.eqb_refl. split; [done|].
    apply orb_false_iff. split; [apply Z.ltb_ge | apply Z.leb_gt]; lia.
Qed.

(** The same evidence up to the order of its lists. *)
Record represents (a b : Evidence) : Prop := {
  re_authority : ev_authority a = ev_authority b;
  re_execution : ev_execution a = ev_execution b;
  re_identity : forall d, d ∈ SHADOW_PARITY_IDENTITY_DIMENSIONS -> ev_identity a d ≡ₚ ev_identity b d;
  re_reasons : ev_reasons a ≡ₚ ev_reasons b;
  re_readiness : forall k, ev_readiness a k = ev_readiness b k;
  re_unsupported : ev_unsupported a ≡ₚ ev_unsupported b;
}.

Lemma nonempty_false {A} (l : list A) : (0 <? length l) = false <-> l = [].
Proof. by destruct l. Qed.

Lemma identity_lists src input d : d ∈ SHADOW_PARITY_IDENTITY_DIMENSIONS ->
  entry_get (List.map (fun p => (p.1, p.2.1)) (identityLists src input)) d =
  Some (normalizeTokenList (vget input d) (src +:+ "_" +:+ d) maxIdentityRefsPerDimension).1.
Proof.
  unfold SHADOW_PARITY_IDENTITY_DIMENSIONS. intros Hd.
  repeat (apply elem_of_cons in Hd as [->|Hd]; [reflexivity|]). by apply elem_of_nil in Hd.
Qed.

Lemma flat_map_nil {A B} (f : A -> list B) l : flat_map f l = [] <-> forall x, x ∈ l -> f x = [].
Proof.
  induction l as [|x l IH]; simpl; [split; [intros _ x Hx; by apply elem_of_nil in Hx | done]|].
  rewrite app_nil, IH. split; [intros [Hx Hl] y [->|Hy]%elem_of_cons; auto|].
  intros Hall. split; [|intros y Hy]; apply Hall; [left | by right].
Qed.

Lemma identity_issues src input : flat_map (fun p => p.2.2) (identityLists src input) = [] <->
  forall d, d ∈ SHADOW_PARITY_IDENTITY_DIMENSIONS ->
    (normalizeTokenList (vget input d) (src +:+ "_" +:+ d) maxIdentityRefsPerDimension).2 = [].
Proof.
  rewrite flat_map_nil. unfold identityLists. split; intros Hall.
  - intros d Hd. apply (Hall (d, _)). apply list_elem_of_fmap. by exists d.
  - intros p Hp. apply list_elem_of_fmap in Hp as (d & -> & Hd). by apply Hall.
Qed.

Lemma issueless_token_list v f limit l :
  token_list v limit l <->
  (normalizeTokenList v f limit).2 = [] /\ l ≡ₚ (normalizeTokenList v f limit).1.
Proof.
  split.
  - intros Hl. pose proof (normalizeTokenList_issues v f limit l Hl) as Hi. split; [done|].
    by apply normalizeTokenList_clean.
  - intros [Hi Hl]. by apply (normalizeTokenList_clean v f).
Qed.

Lemma issueless_readiness v f :
  readiness_map v f <-> (normalizeReadinessDimensions v).2 = [] /\
    forall k, f k = entry_get (normalizeReadinessDimensions v).1 k.
Proof.
  split.
  - intros Hf. pose proof (readiness_issues v f Hf) as Hi. split; [done|]. by apply readiness_clean.
  - intros [Hi Hf]. by apply readiness_clean.
Qed.

(** The snapshot read from an object, and its issues, by projections. *)
Definition snapshotOf (v : jsval) (src : string) : Snapshot :=
  let md := readMetadata v src in
  {| sn_source := default src (md_source md); sn_resolverKey := md_resolverKey md;
     sn_authorityAllowed := is_true (vget v "authorityAllowed");
     sn_executionEligible := is_true (vget v "executionEligible");
     sn_identitySets := List.map (fun p => (p.1, p.2.1)) (identityLists src (vget v "identitySets"));
     sn_reasonCodes := (normalizeTokenList (vget v "reasonCodes") (src +:+ "_reason_codes")
       maxReasonCodes).1;
     sn_readinessDimensions := (normalizeReadinessDimensions (vget v "readinessDimensions")).1;
     sn_dataQualityIssues := (normalizeTokenList (js_or (vget v "dataQualityIssues") (VArr []))
       (src +:+ "_data_quality_issues") maxDataQualityIssues).1;
     sn_unsupportedSemantics := (normalizeTokenList (js_or (vget v "unsupportedSemantics") (VArr []))
       (src +:+ "_unsupported_semantics") maxUnsupportedSemantics).1;
     sn_evaluatedAt := toISOString <$> md_evaluatedAt md;
     sn_expiresAt := toISOString <$> md_expiresAt md;
     sn_manifestRef := (normalizeOptionalToken (vget v "manifestRef") (src +:+ ".manifestRef")
       (src +:+ "_manifest_ref_invalid")).1;
     sn_revisionRef := (normalizeOptionalToken (vget v "revisionRef") (src +:+ ".revisionRef")
       (src +:+ "_revision_ref_invalid")).1 |}.

Definition issuesOf (v : jsval) (src : string) : list string :=
  metadataIssues src (readMetadata v src)
  ++ issue_if (negb (is_record (vget v "identitySets"))) (src +:+ "_identity_sets_not_object")
  ++ flat_map (fun p => p.2.2) (identityLists src (vget v "identitySets"))
  ++ (normalizeTokenList (vget v "reasonCodes") (src +:+ "_reason_codes") maxReasonCodes).2
  ++ (normalizeTokenList (js_or (vget v "dataQualityIssues") (VArr []))
       (src +:+ "_data_quality_issues") maxDataQualityIssues).2
  ++ (normalizeTokenList (js_or (vget v "unsupportedSemantics") (VArr []))
       (src +:+ "_unsupported_semantics") maxUnsupportedSemantics).2
  ++ (normalizeReadinessDimensions (vget v "readinessDimensions")).2
  ++ (normalizeOptionalToken (vget v "manifestRef") (src +:+ ".manifestRef")
       (src +:+ "_manifest_ref_invalid")).2
  ++ (normalizeOptionalToken (vget v "revisionRef") (src +:+ ".revisionRef")
       (src +:+ "_revision_ref_invalid")).2.

Lemma normalizeSnapshot_record v src t : is_record v = true -> normalizeSnapshot v src t =
  {| nz_snapshot := Some (snapshotOf v src); nz_issues := issuesOf v src;
     nz_stale := staleAt (readMetadata v src) t;
     nz_unsupported := 0 <? length (sn_unsupportedSemantics (snapshotOf v src));
     nz_dataQualityDetected := (0 <? length (sn_dataQualityIssues (snapshotOf v src)))
       || (0 <? length (issuesOf v src));
     nz_sideEffectDetected := existsb (fun f => is_true (vget v f)) SIDE_EFFECT_FLAGS |}.
Proof.
  intros Hv. unfold normalizeSnapshot, issuesOf, snapshotOf. rewrite Hv. simpl negb. cbv zeta iota.
  destruct (normalizeTokenList (vget v "reasonCodes") _ _).
  destruct (normalizeTokenList (js_or (vget v "dataQualityIssues") _) _ _).
  destruct (normalizeTokenList (js_or (vget v "unsupportedSemantics") _) _ _).
  destruct (normalizeReadinessDimensions _).
  destruct (normalizeOptionalToken (vget v "manifestRef") _ _).
  destruct (normalizeOptionalToken (vget v "revisionRef") _ _). reflexivity.
Qed.

Lemma identity_represents v src (f : string -> list string) :
  (forall d, d ∈ SHADOW_PARITY_IDENTITY_DIMENSIONS ->
     token_list (vget (vget v "identitySets") d) maxIdentityRefsPerDimension (f d)) <->
  (forall d, d ∈ SHADOW_PARITY_IDENTITY_DIMENSIONS ->
     (normalizeTokenList (vget (vget v "identitySets") d) (src +:+ "_" +:+ d)
        maxIdentityRefsPerDimension).2 = []) /\
  (forall d, d ∈ SHADOW_PARITY_IDENTITY_DIMENSIONS -> f d ≡ₚ identitySet (snapshotOf v src) d).
Proof.
  assert (forall d, d ∈ SHADOW_PARITY_IDENTITY_DIMENSIONS -> identitySet (snapshotOf v src) d =
    (normalizeTokenList (vget (vget v "identitySets") d) (src +:+ "_" +:+ d)
       maxIdentityRefsPerDimension).1) as Hset.
  { intros d Hd. unfold identitySet, snapshotOf. cbn [sn_identitySets]. by rewrite identity_lists. }
  split.
  - intros Hall. split; intros d Hd; specialize (Hall d Hd);
      apply (issueless_token_list _ (src +:+ "_" +:+ d)) in Hall as [Hi Hl]; [done|].
    by rewrite Hset.
  - intros [Hi Hl] d Hd. apply (issueless_token_list _ (src +:+ "_" +:+ d)).
    rewrite <- Hset by done. auto.
Qed.

(** A snapshot without issues that represents some evidence, field by field. *)
Lemma clean_represents v src ev :
  issuesOf v src = [] /\ sn_dataQualityIssues (snapshotOf v src) = [] /\
    represents ev (evidence_of (snapshotOf v src)) <->
  metadataIssues src (readMetadata v src) = [] /\ is_record (vget v "identitySets") = true /\
  (forall d, d ∈ SHADOW_PARITY_IDENTITY_DIMENSIONS ->
     token_list (vget (vget v "identitySets") d) maxIdentityRefsPerDimension (ev_identity ev d)) /\
  token_list (vget v "reasonCodes") maxReasonCodes (ev_reasons ev) /\
  token_list (js_or (vget v "dataQualityIssues") (VArr [])) maxDataQualityIssues [] /\
  token_list (js_or (vget v "unsupportedSemantics") (VArr [])) maxUnsupportedSemantics
    (ev_unsupported ev) /\
  readiness_map (vget v "readinessDimensions") (ev_readiness ev) /\
  optional_token (vget v "manifestRef") /\ optional_token (vget v "revisionRef") /\
  ev_authority ev = is_true (vget v "authorityAllowed") /\
  ev_execution ev = is_true (vget v "executionEligible").
Proof.
  unfold issuesOf. rewrite !app_nil, issue_if_nil, negb_false_iff, identity_issues, !optional_token_spec.
  rewrite (identity_represents v src), issueless_readiness.
  rewrite (issueless_token_list _ (src +:+ "_reason_codes")).
  rewrite (issueless_token_list _ (src +:+ "_data_quality_issues")).
  rewrite (issueless_token_list _ (src +:+ "_unsupported_semantics")).
  split.
  - intros ((Hm & Hr & Hid & H1 & H2 & H3 & H4 & H5 & H6) & Hdq & [Ha He Hi Hrs Hrd Hu]).
    simpl in *. rewrite Hdq. done.
  - intros (Hm & Hr & (Hid & Hi) & (H1 & Hrs) & (H2 & Hdq) & (H3 & Hu) & (H4 & Hrd) & H5 & H6 & Ha & He).
    simpl. apply Permutation_nil in Hdq. split; [done|]. split; [done|]. done.
Qed.

Lemma normalize_current v src t ev : current_snapshot src t v ev <->
  exists s, nz_snapshot (normalizeSnapshot v src t) = Some s /\
    nz_dataQualityDetected (normalizeSnapshot v src t) = false /\
    nz_stale (normalizeSnapshot v src t) = false /\
    nz_sideEffectDetected (normalizeSnapshot v src t) = false /\ represents ev (evidence_of s).
Proof.
  destruct (is_record v) eqn:Hv.
  2: { unfold normalizeSnapshot. rewrite Hv. simpl. split; [intros []; congruence | by intros (s & ? & _)]. }
  rewrite normalizeSnapshot_record by done.
  cbn [nz_snapshot nz_dataQualityDetected nz_stale nz_sideEffectDetected].
  pose proof (metadata_clean v src t) as Hmd. pose proof (clean_represents v src ev) as Hcl.
  split.
  - intros [_ H1 H2 H3 H4 H5 H6 H7 H8 H9 H10 H11 H12 H13 H14 H15].
    destruct (proj2 Hmd (conj H1 (conj H2 (conj H3 H4)))) as [Hmi Hst].
    destruct (proj2 Hcl) as (Hi & Hdq & Hrep); [done|]. exists (snapshotOf v src).
    split; [done|]. rewrite Hi, Hdq. split; [done|]. split; [done|].
    split; [|done]. apply existsb_false. auto.
  - intros (s & [= <-] & Hdq & Hst & Hse & Hrep). apply orb_false_iff in Hdq as [Hdq Hi].
    apply nonempty_false in Hdq, Hi.
    destruct (proj1 Hcl (conj Hi (conj Hdq Hrep))) as
      (Hmi & H6 & H7 & H8 & H9 & H10 & H11 & H12 & H13 & H15 & H16).
    destruct (proj1 Hmd (conj Hmi Hst)) as (H2 & H3 & H4 & H5).
    split; try done. by apply existsb_false.
Qed.

(** ** The comparison *)

Lemma nonempty_elem {A} (l : list A) : nonempty l = true <-> exists x, x ∈ l.
Proof.
  destruct l as [|x l]; unfold nonempty; simpl.
  - split; [done|]. intros [x Hx]. by apply elem_of_nil in Hx.
  - split; [|done]. intros _. exists x. by left.
Qed.

Lemma missing_nonempty (l m : list string) :
  nonempty (bfilter (fun v => negb (sin v m)) l) = true <-> exists x, x ∈ l /\ ~ x ∈ m.
Proof.
  rewrite nonempty_elem. setoid_rewrite elem_of_bfilter. setoid_rewrite negb_true_iff.
  setoid_rewrite sin_false. naive_solver.
Qed.

Lemma hasMore_exceeds a b : hasMore a b = true <-> exceeds (evidence_of a) (evidence_of b).
Proof.
  unfold hasMore, exceeds. rewrite !orb_true_iff, !andb_true_iff, !negb_true_iff, existsb_elem_of.
  setoid_rewrite missing_nonempty. simpl. split.
  - intros [[(d & Hd & x & Hx)|Ha]|He]; [left; by exists d, x | by right; left | by right; right].
  - intros [(d & x & Hd & Hx)|[Ha|He]]; [left; left; exists d; eauto | by left; right | by right].
Qed.

Lemma entry_get_key {A} (m : list (string * A)) k v : entry_get m k = Some v -> k ∈ List.map fst m.
Proof.
  induction m as [|[k1 v1] m IH]; simpl; [done|].
  destruct (String.eqb_spec k k1) as [->|]; [by left | right; auto].
Qed.

Lemma compareReadiness_nil a b : nonempty (compareReadiness a b) = false <->
  forall k, entry_get a k = entry_get b k.
Proof.
  unfold compareReadiness, nonempty. rewrite nonempty_false. split.
  - intros Hn%map_eq_nil k. rewrite bfilter_nil in Hn.
    destruct (decide (k ∈ List.map fst a ++ List.map fst b)) as [Hk|Hk].
    + specialize (Hn k). rewrite elem_of_unique_sorted in Hn. specialize (Hn Hk).
      by apply negb_false_iff, ostr_eqb_true in Hn.
    + rewrite elem_of_app in Hk. destruct (entry_get a k) eqn:Ha, (entry_get b k) eqn:Hb; try done.
      all: repeat match goal with He : entry_get _ _ = Some _ |- _ => apply entry_get_key in He end.
      all: naive_solver.
  - intros Hk. rewrite (proj2 (bfilter_nil _ _)); [done|]. intros k _.
    by apply negb_false_iff, ostr_eqb_true.
Qed.

Lemma evidenceDiffers_false a b : evidenceDiffers a b = false <->
  (forall x, x ∈ sn_reasonCodes a <-> x ∈ sn_reasonCodes b) /\
  (forall k, entry_get (sn_readinessDimensions a) k = entry_get (sn_readinessDimensions b) k).
Proof.
  unfold evidenceDiffers. cbv zeta. cbn [compareTokenSets td_legacyOnly td_effectiveOnly].
  rewrite !orb_false_iff, compareReadiness_nil, <- !not_true_iff_false, !missing_nonempty.
  split; [|naive_solver]. intros [[Ha Hb] Hr]. split; [|done]. intros x.
  split; intros Hx; apply dec_stable; naive_solver.
Qed.

Lemma bool_both (b c : bool) :
  (b = true -> c = false -> False) -> (c = true -> b = false -> False) -> b = c.
Proof. destruct b, c; naive_solver. Qed.

Lemma agree_iff a b : agree (evidence_of a) (evidence_of b) <->
  hasMore a b = false /\ hasMore b a = false /\ evidenceDiffers a b = false.
Proof.
  rewrite evidenceDiffers_false, <- !not_true_iff_false, !hasMore_exceeds. split.
  - intros [Ha He Hi Hr Hd]. unfold exceeds. rewrite Ha, He.
    split; [|split; [|done]]; intros [(d & x & Hdim & Hx & Hn)|[[]|[]]]; try congruence;
      apply Hn; by apply Hi.
  - intros (Hab & Hba & Hr & Hd). unfold exceeds in *.
    split; [| | |done..].
    + apply bool_both; intros H1 H2; [apply Hab | apply Hba]; right; left; done.
    + apply bool_both; intros H1 H2; [apply Hab | apply Hba]; right; right; done.
    + intros d x Hdim. split; intros Hx; apply dec_stable; intros Hn; [apply Hab | apply Hba];
        left; by exists d, x.
Qed.

Lemma agree_represents a a' b b' : represents a a' -> represents b b' -> agree a b <-> agree a' b'.
Proof.
  intros [Ha1 Ha2 Ha3 Ha4 Ha5 _] [Hb1 Hb2 Hb3 Hb4 Hb5 _].
  split; intros [H1 H2 H3 H4 H5]; split; try congruence.
  - intros d x Hd. rewrite <- (Ha3 d Hd), <- (Hb3 d Hd). auto.
  - intros x. rewrite <- Ha4, <- Hb4. auto.
  - intros d x Hd. rewrite (Ha3 d Hd), (Hb3 d Hd). auto.
  - intros x. rewrite Ha4, Hb4. auto.
Qed.

Lemma length_zero {A} (l : list A) : (length l =? 0) = true <-> l = [].
Proof. by destruct l. Qed.

Lemma nz_unsupported_nil v src t s : nz_snapshot (normalizeSnapshot v src t) = Some s ->
  nz_unsupported (normalizeSnapshot v src t) = false <-> sn_unsupportedSemantics s = [].
Proof.
  destruct (is_record v) eqn:Hv.
  - rewrite normalizeSnapshot_record by done. cbn [nz_snapshot nz_unsupported].
    intros [= <-]. apply nonempty_false.
  - unfold normalizeSnapshot. by rewrite Hv.
Qed.

Lemma directions_nil b c : addGrantDirectionClasses b c = [] <-> b = false /\ c = false.
Proof. destruct b, c; simpl; naive_solver. Qed.

Lemma matched_iff legacy effective l e t :
  pa_matched (compareSnapshots legacy effective l e t) = true <->
  (nz_dataQualityDetected legacy = false /\ nz_stale legacy = false /\
   nz_sideEffectDetected legacy = false /\ nz_unsupported legacy = false) /\
  (nz_dataQualityDetected effective = false /\ nz_stale effective = false /\
   nz_sideEffectDetected effective = false) /\ agree (evidence_of l) (evidence_of e).
Proof.
  unfold compareSnapshots. cbn [pa_matched]. rewrite length_zero. unfold evidenceClasses.
  rewrite !app_nil, !issue_if_nil, directions_nil, !orb_false_iff, agree_iff. naive_solver.
Qed.

(** The shadow verdict is a match exactly when the legacy and the effective
    snapshot are both complete, current at the time, free of data-quality
    issues and of side effects, the legacy one has no unsupported semantics,
    and they say the same: the same authority and eligibility, the same
    identities in every dimension, the same reasons and readiness states, in
    whatever order they are listed.  The evaluation always decides, blocks the
    rollout unless it matched, and never grants anything. *)
Theorem evaluateShadowAuthorityParity_matched args t : js_Date (now_param args) = Some t ->
  exists d, evaluateShadowAuthorityParity args = Ok d /\
    (pa_matched d = true <-> exists l e,
       current_snapshot "legacy" t (oget args "legacySnapshot") l /\
       current_snapshot "effective" t (oget args "effectiveSnapshot") e /\
       ev_unsupported l = [] /\ agree l e) /\
    pa_rolloutBlocked d = negb (pa_matched d) /\ pa_safety d = baseSafety.
Proof.
  intros Ht. unfold evaluateShadowAuthorityParity. rewrite Ht. cbv zeta.
  set (vl := oget args "legacySnapshot"). set (ve := oget args "effectiveSnapshot").
  destruct (nz_snapshot (normalizeSnapshot vl "legacy" t)) as [l|] eqn:Hl.
  2: { eexists. split; [done|]. split; [|done]. split; [done|]. intros (ev & _ & Hc & _).
       apply normalize_current in Hc as (s & Hs & _). congruence. }
  destruct (nz_snapshot (normalizeSnapshot ve "effective" t)) as [e|] eqn:He.
  2: { eexists. split; [done|]. split; [|done]. split; [done|]. intros (_ & ev & _ & Hc & _).
       apply normalize_current in Hc as (s & Hs & _). congruence. }
  eexists. split; [done|]. split; [|done]. rewrite matched_iff, (nz_unsupported_nil vl _ _ l Hl).
  assert (forall s, represents (evidence_of s) (evidence_of s)) as Hrefl by done.
  split.
  - intros ((H1 & H2 & H3 & H4) & (H5 & H6 & H7) & Hag). exists (evidence_of l), (evidence_of e).
    split; [apply normalize_current; by exists l|]. split; [apply normalize_current; by exists e|]. done.
  - intros (a & b & (l' & Hl' & H1 & H2 & H3 & Hr)%normalize_current &
            (e' & He' & H5 & H6 & H7 & Hr')%normalize_current & Hu & Hag).
    assert (l' = l) as -> by congruence. assert (e' = e) as -> by congruence.
    split; [|split; [done|by apply (agree_represents a _ b)]].
    do 3 (split; [done|]). pose proof (re_unsupported _ _ Hr) as Hp. rewrite Hu in Hp.
    by apply Permutation_nil in Hp.
Qed.

(** The direction of a disagreement is reported exactly: over objects that
    can be read, "legacy_over_grant" and "new_resolver_under_grant" are reported
    exactly when the legacy snapshot grants something the effective one does
    not, "new_resolver_over_grant" and "legacy_under_grant" exactly in the
    other case, and an over-grant in either direction is security relevant and
    blocks the rollout. *)
Theorem evaluateShadowAuthorityParity_direction args d df :
  evaluateShadowAuthorityParity args = Ok d -> pa_differences d = Some df ->
  let legacy := evidence_of (df_legacy df) in
  let effective := evidence_of (df_effective df) in
  ("legacy_over_grant" ∈ pa_mismatchClasses d <-> exceeds legacy effective) /\
  ("new_resolver_under_grant" ∈ pa_mismatchClasses d <-> exceeds legacy effective) /\
  ("new_resolver_over_grant" ∈ pa_mismatchClasses d <-> exceeds effective legacy) /\
  ("legacy_under_grant" ∈ pa_mismatchClasses d <-> exceeds effective legacy) /\
  (exceeds legacy effective \/ exceeds effective legacy ->
   pa_securityRelevant d = true /\ pa_rolloutBlocked d = true /\ pa_matched d = false).
Proof.
  unfold evaluateShadowAuthorityParity. destruct (js_Date _) as [t|]; [|done]. cbv zeta.
  destruct (nz_snapshot _) as [l|]; [|intros [= <-]; done].
  destruct (nz_snapshot _) as [e|]; [|intros [= <-]; done].
  intros [= <-] [= <-]. unfold compareSnapshots.
  cbn [df_legacy df_effective pa_mismatchClasses pa_securityRelevant pa_rolloutBlocked pa_matched].
  rewrite <- !hasMore_exceeds, !elem_of_unique_sorted, <- !sin_true, !sin_app.
  unfold evidenceClasses, addGrantDirectionClasses, issue_if.
  destruct (hasMore l e), (hasMore e l), (evidenceDiffers l e).
  all: repeat match goal with |- context [if ?c then _ else _] => destruct c end;
    vm_compute; intuition discriminate.
Qed.
End Facts.

(** ** Examples *)

Definition demo_snapshot (source : string) (resources : list string) : jsval :=
  VObj [("source", VStr source); ("resolverKey", VStr "resolver.v1");
        ("evaluatedAt", VStr "2023-11-14T00:00:00.000Z"); ("expiresAt", VStr "2023-11-15T00:00:00.000Z");
        ("authorityAllowed", VBool true);
        ("identitySets", VObj [("resourceRefs", VArr (List.map VStr resources));
           ("capabilityKeys", VArr []); ("connectionRefs", VArr []); ("actionKeys", VArr [])]);
        ("reasonCodes", VArr [VStr "R1"; VStr " R2 "]);
        ("readinessDimensions", VObj [("schema", VStr "ready")])].

Definition demo_parity_args (legacy effective : list string) : jsobj :=
  [("legacySnapshot", demo_snapshot "Legacy" legacy);
   ("effectiveSnapshot", demo_snapshot "effective" effective);
   ("now", VStr "2023-11-14T12:00:00.000Z")].

(** The two resolvers list the same resources in another order. *)
Definition demo_matched : option Decision :=
  match evaluateShadowAuthorityParity (H := demo_host) (demo_parity_args ["a"; "b"] ["b"; "a"]) with
  | Ok d => Some d
  | Throw _ => None
  end.

(** The new resolver also lists [c]. *)
Definition demo_mismatched : option Decision :=
  match evaluateShadowAuthorityParity (H := demo_host) (demo_parity_args ["a"; "b"] ["b"; "a"; "c"]) with
  | Ok d => Some d
  | Throw _ => None
  end.

Lemma evaluateShadowAuthorityParity_matched_witness :
  pa_matched <$> demo_matched = Some true /\
  exists d, evaluateShadowAuthorityParity (H := demo_host) (demo_parity_args ["a"; "b"] ["b"; "a"]) = Ok d
    /\ pa_rolloutBlocked d = negb (pa_matched d).
Proof.
  split; [vm_compute; reflexivity|].
  destruct (@evaluateShadowAuthorityParity_matched demo_host (demo_parity_args ["a"; "b"] ["b"; "a"])
    1699963200000%Z) as (d & Hd & _ & Hb & _); [vm_compute; reflexivity|].
  exists d. split; [exact Hd | exact Hb].
Defined.

Lemma evaluateShadowAuthorityParity_direction_witness :
  exists d, demo_mismatched = Some d /\ "new_resolver_over_grant" ∈ pa_mismatchClasses d /\
    pa_rolloutBlocked d = true.
Proof.
  destruct demo_mismatched as [d|] eqn:Hd; [|vm_compute in Hd; discriminate].
  destruct (pa_differences d) as [df|] eqn:Hdf.
  2: { vm_compute in Hd. injection Hd as <-. discriminate Hdf. }
  unfold demo_mismatched in Hd.
  destruct (evaluateShadowAuthorityParity _) as [d'|] eqn:He; [|discriminate].
  assert (d' = d) as Heq by congruence. rewrite Heq in He.
  destruct (@evaluateShadowAuthorityParity_direction demo_host _ d df He Hdf) as (_ & _ & Hover & _ & Hsec).
  assert (exceeds (evidence_of (df_effective df)) (evidence_of (df_legacy df))) as Hex.
  { apply hasMore_exceeds. vm_compute in He. apply Ok_inj in He as <-. injection Hdf as <-. reflexivity. }
  exists d. split; [reflexivity|]. split; [apply Hover; exact Hex|]. apply Hsec. right. exact Hex.
Defined.
End ShadowParity.
