(* ===== verification/ExecutionCapsule.v ===== *)
(** * Execution capsules (contextKernel/domain/executionCapsule.js)

    A capsule binds a resolved context to the revisions it depends on, under a
    canonical hash.  A [Map] of dependencies is modelled by the list of its
    values in insertion order (a key is set once).  Proved: a created capsule
    passes its own integrity check unchanged (for resource references of at
    most 512 characters together, which the check silently assumes), the hashed
    text determines the capsule, comparison against the current dependencies
    reports exactly the stale ones, and the tenant projection hides the
    authority fields. *)
From S2P Require Import Prelude Sorting JsString JsDate JsValue JsJson ContextModel.

Module ExecutionCapsule.

Definition EXECUTION_CAPSULE_SCHEMA_VERSION : Z := 1.

Definition ExecutionCapsuleDependencyDomains : list string :=
  ["principal"; "effectiveSubject"; "tenant"; "workspace"; "brand"; "resource"; "connection";
   "authority"; "capability"; "registry"; "credentialReadiness"; "approval"; "capabilityEnvelope";
   "effectiveAuthority"; "resourceVersion"; "providerVersion"; "connectionStatus";
   "expectedVersion"].

Definition ExecutionCapsuleProjectionModes : list string := ["tenant"; "admin"].
Definition REFRESH_CLASSES : list string := ["static"; "dynamic"].

Definition MAX_FIELD_LENGTH : nat := 512.
Definition MAX_CAPSULE_DEPENDENCIES : nat := 128.
Definition MAX_CURRENT_DEPENDENCIES : nat := 256.
Definition MAX_CANONICAL_BYTES : Z := 262144.

(** ** Secret-like values *)

Definition token_char (c : ascii) : bool := is_alnum c || char_in "._~+/=-" c.
Definition base64_char (c : ascii) : bool := is_alnum c || char_in "_-" c.
Definition sep_opt : regex := re_opt (RChar (char_in "_-")).

Definition bearer_pattern : regex :=
  RSeq (re_lit_i "Bearer") (RSeq (re_plus (RChar is_ws)) (re_plus (RChar token_char))).
Definition pem_pattern : regex :=
  RSeq (re_lit "-----BEGIN ") (RSeq (RStar (RChar (fun c => is_upper c || char_in " " c)))
    (re_lit "PRIVATE KEY-----")).
Definition assignment_pattern : regex :=
  RSeq (re_alts
    [RSeq (re_lit_i "api") (RSeq sep_opt (re_lit_i "key"));
     RSeq (re_lit_i "access") (RSeq sep_opt (re_lit_i "token"));
     RSeq (re_lit_i "refresh") (RSeq sep_opt (re_lit_i "token"));
     re_lit_i "password"; re_lit_i "passwd"; re_lit_i "secret"; re_lit_i "credential";
     re_lit_i "authorization"; re_lit_i "cookie"; re_lit_i "session"]) (re_lit "=").
Definition jwt_pattern : regex :=
  RSeq (re_lit "eyJ") (RSeq (re_plus (RChar base64_char)) (RSeq (re_lit ".")
    (RSeq (re_plus (RChar base64_char)) (RSeq (re_lit ".") (re_plus (RChar base64_char)))))).

(** [SECRET_VALUE_PATTERNS.some((pattern) => pattern.test(s))]; the last
    pattern is anchored at both ends. *)
Definition secret_like (s : string) : bool :=
  re_search bearer_pattern s || re_search pem_pattern s || re_search assignment_pattern s
  || re_full jwt_pattern s.

(** ** Field validators *)

Definition requireString (value : jsval) (fieldName : string) : js string :=
  match value with
  | VStr s =>
      if is_empty (js_trim s) then type_error (fieldName +:+ " must be a non-empty string.")
      else if MAX_FIELD_LENGTH <? String.length (js_trim s)
      then type_error (fieldName +:+ " must contain at most 512 characters.")
      else if secret_like (js_trim s)
      then type_error (fieldName +:+ " must not contain a secret-like value.")
      else Ok (js_trim s)
  | _ => type_error (fieldName +:+ " must be a non-empty string.")
  end.

Definition optionalString (value : jsval) (fieldName : string) : js (option string) :=
  if is_blank value then Ok None
  else s ← requireString value fieldName; Ok (Some s).

Definition normalizeDate `{JsHost} (value : jsval) (fieldName : string) : js string :=
  match js_Date value with
  | None => type_error (fieldName +:+ " must be a valid date.")
  | Some t => Ok (toISOString t)
  end.

#[global] Arguments requireString : simpl never.
#[global] Arguments optionalString : simpl never.
#[global] Arguments normalizeDate : simpl never.

(** ** Dependencies *)

Record Dependency := {
  dp_domain : string;
  dp_ref : string;
  dp_revision : string;
  dp_refreshClass : string;
}.

#[export] Instance dependency_eq_dec : EqDecision Dependency.
Proof. solve_decision. Defined.

Definition normalizeDependency (dependency : jsval) (fieldName : string) : js Dependency :=
  throw_if (negb (is_record dependency)) (TypeErr (fieldName +:+ " must be an object."));;
  domain ← requireString (vget dependency "domain") (fieldName +:+ ".domain");
  throw_if (negb (sin domain ExecutionCapsuleDependencyDomains))
    (TypeErr ("Unsupported execution capsule dependency domain: " +:+ domain));;
  refreshClass ← match js_or (vget dependency "refreshClass") (VStr "static") with
    | VStr s => if sin s REFRESH_CLASSES then Ok s else type_error ("Unsupported refreshClass: " +:+ s)
    | _ => type_error "Unsupported refreshClass."
    end;
  ref ← requireString (vget dependency "ref") (fieldName +:+ ".ref");
  revision ← requireString (vget dependency "revision") (fieldName +:+ ".revision");
  Ok {| dp_domain := domain; dp_ref := ref; dp_revision := revision;
        dp_refreshClass := refreshClass |}.

Definition dependencyKey (d : Dependency) : string := dp_domain d +:+ ":" +:+ dp_ref d.

(** [target.get(key)] *)
Definition map_get (key : string) (m : list Dependency) : option Dependency :=
  List.find (fun d => String.eqb (dependencyKey d) key) m.

Definition addDependency (target : list Dependency) (dependency : Dependency)
    : js (list Dependency) :=
  match map_get (dependencyKey dependency) target with
  | Some existing =>
      throw_if (negb (String.eqb (dp_revision existing) (dp_revision dependency))
                || negb (String.eqb (dp_refreshClass existing) (dp_refreshClass dependency)))
        (TypeErr ("Conflicting execution capsule dependency: " +:+ dependencyKey dependency));;
      Ok target
  | None => Ok (target ++ [dependency])
  end.

(** The callback of [dependencies.forEach]. *)
Definition addNormalized (fieldName : string) (result : list Dependency) (dependency : jsval)
    : js (list Dependency) :=
  normalized ← normalizeDependency dependency fieldName;
  throw_if (bool_decide (is_Some (map_get (dependencyKey normalized) result)))
    (TypeErr ("Duplicate " +:+ fieldName +:+ " dependency: " +:+ dependencyKey normalized));;
  Ok (result ++ [normalized]).

Definition buildDependencyMap (dependencies : list jsval) (fieldName : string)
    (maxDependencies : nat) : js (list Dependency) :=
  throw_if (maxDependencies <? length dependencies)
    (TypeErr (fieldName +:+ " may contain at most "
              +:+ string_of_Z (Z.of_nat maxDependencies) +:+ " dependencies."));;
  foldM_js (addNormalized fieldName) [] dependencies.

(** ** The capsule *)

Record Descriptor := {
  de_contextHash : string;
  de_contextRevision : string;
  de_principalType : string;
  de_principalRef : string;
  de_effectiveSubjectRef : string;
  de_tenantRef : string;
  de_workspaceRef : string;
  de_brandRef : option string;
  de_resourceType : string;
  de_resourceRef : string;
  de_connectionRef : string;
  de_authorityPathRef : string;
  de_capabilityKey : string;
  de_authorityRevision : string;
  de_capabilityRevision : string;
  de_registryRevision : string;
  de_credentialReadinessRevision : string;
  de_issuedAt : string;
  de_expiresAt : string;
}.

(** [executionAllowed] and [secretsIncluded] are fields of the record since the
    check reads them back. *)
Record Capsule := {
  cp_descriptor : Descriptor;
  cp_capsuleRef : string;
  cp_capsuleHash : string;
  cp_invalidationDependencies : list Dependency;
  cp_executionAllowed : bool;
  cp_secretsIncluded : bool;
}.

Definition js_of_dependency (d : Dependency) : jsval :=
  VObj [("domain", VStr (dp_domain d)); ("ref", VStr (dp_ref d));
        ("revision", VStr (dp_revision d)); ("refreshClass", VStr (dp_refreshClass d))].

Definition js_of_descriptor (d : Descriptor) : jsobj :=
  [("schemaVersion", VNum (Some EXECUTION_CAPSULE_SCHEMA_VERSION));
   ("contextHash", VStr (de_contextHash d)); ("contextRevision", VStr (de_contextRevision d));
   ("principalType", VStr (de_principalType d)); ("principalRef", VStr (de_principalRef d));
   ("effectiveSubjectRef", VStr (de_effectiveSubjectRef d)); ("tenantRef", VStr (de_tenantRef d));
   ("workspaceRef", VStr (de_workspaceRef d)); ("brandRef", js_of_ostr (de_brandRef d));
   ("resourceType", VStr (de_resourceType d)); ("resourceRef", VStr (de_resourceRef d));
   ("connectionRef", VStr (de_connectionRef d)); ("authorityPathRef", VStr (de_authorityPathRef d));
   ("capabilityKey", VStr (de_capabilityKey d));
   ("authorityRevision", VStr (de_authorityRevision d));
   ("capabilityRevision", VStr (de_capabilityRevision d));
   ("registryRevision", VStr (de_registryRevision d));
   ("credentialReadinessRevision", VStr (de_credentialReadinessRevision d));
   ("issuedAt", VStr (de_issuedAt d)); ("expiresAt", VStr (de_expiresAt d))].

(** The hashed object [{ ...descriptor, invalidationDependencies }]. *)
Definition hashed_object (d : Descriptor) (deps : list Dependency) : jsval :=
  VObj (js_of_descriptor d
        ++ [("invalidationDependencies", VArr (List.map js_of_dependency deps))]).

Definition js_of_capsule (c : Capsule) : jsobj :=
  js_of_descriptor (cp_descriptor c)
  ++ [("capsuleRef", VStr (cp_capsuleRef c)); ("capsuleHash", VStr (cp_capsuleHash c));
      ("invalidationDependencies", VArr (List.map js_of_dependency (cp_invalidationDependencies c)));
      ("executionAllowed", VBool (cp_executionAllowed c));
      ("secretsIncluded", VBool (cp_secretsIncluded c))].

Section Create.
Context `{JsHost}.

Definition createExecutionCapsuleHash (value : jsval) : js string :=
  let canonical := canonicalize value in
  throw_if (Z.ltb MAX_CANONICAL_BYTES (Z.of_nat (String.length canonical)))
    (TypeErr "Execution capsule canonical form exceeds the maximum size.");;
  Ok (sha256_hex ("execution-capsule-v1:" +:+ canonical)).

(** [left.domain.localeCompare(right.domain) || ...ref... || ...revision...] *)
Definition dependency_compare (l r : Dependency) : comparison :=
  cmp_or (locale_compare (dp_domain l) (dp_domain r))
    (cmp_or (locale_compare (dp_ref l) (dp_ref r)) (locale_compare (dp_revision l) (dp_revision r))).

(** The dependencies a capsule has whatever its caller asks for. *)
Definition automaticDependencies (contextRevision principalRef subjectRef tenantRef workspaceRef : string)
    (brandRef : option string) (resourceType resourceRef connectionRef authorityPathRef
     capabilityKey authorityRevision capabilityRevision registryRevision
     credentialRevision : string) : list Dependency :=
  let identity domain ref := Build_Dependency domain ref contextRevision "static" in
  [identity "principal" principalRef; identity "effectiveSubject" subjectRef;
   identity "tenant" tenantRef; identity "workspace" workspaceRef]
  ++ (match brandRef with
      | Some b => if is_empty b then [] else [identity "brand" b]
      | None => []
      end)
  ++ [identity "resource" (resourceType +:+ ":" +:+ resourceRef);
      identity "connection" connectionRef;
      Build_Dependency "authority" authorityPathRef authorityRevision "static";
      Build_Dependency "capability" capabilityKey capabilityRevision "static";
      Build_Dependency "registry" "context-registry" registryRevision "static";
      Build_Dependency "credentialReadiness" connectionRef credentialRevision "dynamic"].

Definition createExecutionCapsuleDependencyVector (args : jsobj) : js (list Dependency) :=
  contextRevision ← requireString (oget args "contextRevision") "contextRevision";
  principalRef ← requireString (oget args "principalRef") "principalRef";
  subjectRef ← requireString (oget args "effectiveSubjectRef") "effectiveSubjectRef";
  tenantRef ← requireString (oget args "tenantRef") "tenantRef";
  workspaceRef ← requireString (oget args "workspaceRef") "workspaceRef";
  brandRef ← optionalString (oget_default args "brandRef" VNull) "brandRef";
  resourceType ← requireString (oget args "resourceType") "resourceType";
  resourceRef ← requireString (oget args "resourceRef") "resourceRef";
  connectionRef ← requireString (oget args "connectionRef") "connectionRef";
  authorityPathRef ← requireString (oget args "authorityPathRef") "authorityPathRef";
  capabilityKey ← requireString (oget args "capabilityKey") "capabilityKey";
  authorityRevision ← requireString (oget args "authorityRevision") "authorityRevision";
  capabilityRevision ← requireString (oget args "capabilityRevision") "capabilityRevision";
  registryRevision ← requireString (oget args "registryRevision") "registryRevision";
  credentialRevision ← requireString (oget args "credentialReadinessRevision")
                         "credentialReadinessRevision";
  match oget_default args "invalidationDependencies" (VArr []) with
  | VArr invalidationDependencies =>
      throw_if (MAX_CAPSULE_DEPENDENCIES <? length invalidationDependencies)
        (TypeErr "invalidationDependencies may contain at most 128 dependencies.");;
      automatic ← foldM_js addDependency [] (automaticDependencies contextRevision principalRef
        subjectRef tenantRef workspaceRef brandRef resourceType resourceRef connectionRef
        authorityPathRef capabilityKey authorityRevision capabilityRevision registryRevision
        credentialRevision);
      requested ← mapM_js (fun d => normalizeDependency d "invalidationDependencies")
                    invalidationDependencies;
      dependencies ← foldM_js addDependency automatic requested;
      Ok (js_sort dependency_compare dependencies)
  | _ => type_error "invalidationDependencies must be an array."
  end.

Definition createExecutionCapsule (input : jsobj) : js Capsule :=
  issuedAt ← normalizeDate (oget input "issuedAt") "issuedAt";
  expiresAt ← normalizeDate (oget input "expiresAt") "expiresAt";
  throw_if (match date_parse expiresAt, date_parse issuedAt with
            | Some e, Some i => Z.leb e i
            | _, _ => false
            end) (TypeErr "expiresAt must be later than issuedAt.");;
  contextHash ← requireString (oget input "contextHash") "contextHash";
  contextRevision ← requireString (oget input "contextRevision") "contextRevision";
  principalType ← requireString (oget input "principalType") "principalType";
  principalRef ← requireString (oget input "principalRef") "principalRef";
  effectiveSubjectRef ← requireString (oget input "effectiveSubjectRef") "effectiveSubjectRef";
  tenantRef ← requireString (oget input "tenantRef") "tenantRef";
  workspaceRef ← requireString (oget input "workspaceRef") "workspaceRef";
  brandRef ← optionalString (oget input "brandRef") "brandRef";
  resourceType ← requireString (oget input "resourceType") "resourceType";
  resourceRef ← requireString (oget input "resourceRef") "resourceRef";
  connectionRef ← requireString (oget input "connectionRef") "connectionRef";
  authorityPathRef ← requireString (oget input "authorityPathRef") "authorityPathRef";
  capabilityKey ← requireString (oget input "capabilityKey") "capabilityKey";
  authorityRevision ← requireString (oget input "authorityRevision") "authorityRevision";
  capabilityRevision ← requireString (oget input "capabilityRevision") "capabilityRevision";
  registryRevision ← requireString (oget input "registryRevision") "registryRevision";
  credentialReadinessRevision ← requireString (oget input "credentialReadinessRevision")
                                  "credentialReadinessRevision";
  let descriptor := {|
    de_contextHash := contextHash; de_contextRevision := contextRevision;
    de_principalType := principalType; de_principalRef := principalRef;
    de_effectiveSubjectRef := effectiveSubjectRef; de_tenantRef := tenantRef;
    de_workspaceRef := workspaceRef; de_brandRef := brandRef; de_resourceType := resourceType;
    de_resourceRef := resourceRef; de_connectionRef := connectionRef;
    de_authorityPathRef := authorityPathRef; de_capabilityKey := capabilityKey;
    de_authorityRevision := authorityRevision; de_capabilityRevision := capabilityRevision;
    de_registryRevision := registryRevision;
    de_credentialReadinessRevision := credentialReadinessRevision;
    de_issuedAt := issuedAt; de_expiresAt := expiresAt |} in
  invalidationDependencies ← createExecutionCapsuleDependencyVector
    (js_of_descriptor descriptor
     ++ [("invalidationDependencies", js_or (oget input "invalidationDependencies") (VArr []))]);
  capsuleHash ← createExecutionCapsuleHash (hashed_object descriptor invalidationDependencies);
  let capsuleRef := "ctxc-" +:+ js_slice0 capsuleHash 32 in
  throw_if (truthy (oget input "capsuleRef") && negb (is_str (oget input "capsuleRef") capsuleRef))
    (TypeErr "capsuleRef does not match the canonical capsule identity.");;
  Ok {| cp_descriptor := descriptor; cp_capsuleRef := capsuleRef; cp_capsuleHash := capsuleHash;
        cp_invalidationDependencies := invalidationDependencies;
        cp_executionAllowed := false; cp_secretsIncluded := false |}.

(** The fields a check copies from the capsule it is given. *)
Definition vector_fields : list string :=
  ["contextRevision"; "principalRef"; "effectiveSubjectRef"; "tenantRef"; "workspaceRef";
   "brandRef"; "resourceType"; "resourceRef"; "connectionRef"; "authorityPathRef";
   "capabilityKey"; "authorityRevision"; "capabilityRevision"; "registryRevision";
   "credentialReadinessRevision"].
Definition capsule_fields : list string :=
  "contextHash" :: "principalType" :: vector_fields ++ ["issuedAt"; "expiresAt"; "capsuleRef"].

Definition copy_fields (v : jsval) (keys : list string) : jsobj :=
  List.map (fun k => (k, vget v k)) keys.

Definition is_one (v : jsval) : bool :=
  match v with VNum (Some z) => Z.eqb z EXECUTION_CAPSULE_SCHEMA_VERSION | _ => false end.

Definition assertExecutionCapsuleIntegrity (capsule : jsval) : js Capsule :=
  throw_if (negb (is_record capsule)) (TypeErr "capsule must be an object.");;
  throw_if (negb (is_one (vget capsule "schemaVersion")))
    (TypeErr "Execution capsule schema version is invalid.");;
  throw_if (negb (is_false (vget capsule "executionAllowed"))
            || negb (is_false (vget capsule "secretsIncluded")))
    (TypeErr "Execution capsule security invariants are invalid.");;
  match vget capsule "invalidationDependencies" with
  | VArr dependencies =>
      match vget capsule "capsuleHash" with
      | VStr hash =>
          throw_if (negb (is_hex64 hash)) (TypeErr "Execution capsule hash is invalid.");;
          normalizedDependencies ← buildDependencyMap dependencies "capsuleDependencies"
            (MAX_CAPSULE_DEPENDENCIES + length ExecutionCapsuleDependencyDomains);
          automatic ← createExecutionCapsuleDependencyVector
            (copy_fields capsule vector_fields ++ [("invalidationDependencies", VArr [])]);
          let automaticKeys := List.map dependencyKey automatic in
          let additional := bfilter (fun d => negb (sin (dependencyKey d) automaticKeys))
                              normalizedDependencies in
          throw_if (MAX_CAPSULE_DEPENDENCIES <? length additional)
            (TypeErr "Execution capsule contains too many additional dependencies.");;
          canonical ← createExecutionCapsule
            (copy_fields capsule capsule_fields
             ++ [("invalidationDependencies", VArr (List.map js_of_dependency additional))]);
          throw_if (negb (String.eqb (cp_capsuleHash canonical) hash))
            (TypeErr "Execution capsule canonical hash does not match.");;
          Ok canonical
      | _ => type_error "Execution capsule hash is invalid."
      end
  | _ => type_error "Execution capsule dependencies are invalid."
  end.

(** ** Comparison with the current dependencies *)

Record Change := {
  ch_dependency : Dependency;
  ch_actualRevision : option string;
  ch_actualRefreshClass : option string;
  ch_reason : string;
}.

Record Comparison := {
  cm_valid : bool;
  cm_changed : list Change;
  cm_staticInvalidated : bool;
  cm_dynamicRefreshRequired : bool;
  cm_secretsIncluded : bool;
}.

Definition changeOf (current : list Dependency) (dependency : Dependency) : list Change :=
  match map_get (dependencyKey dependency) current with
  | None => [{| ch_dependency := dependency; ch_actualRevision := None;
                ch_actualRefreshClass := None; ch_reason := "dependency_missing" |}]
  | Some actual =>
      if negb (String.eqb (dp_revision actual) (dp_revision dependency))
         || negb (String.eqb (dp_refreshClass actual) (dp_refreshClass dependency))
      then [{| ch_dependency := dependency; ch_actualRevision := Some (dp_revision actual);
               ch_actualRefreshClass := Some (dp_refreshClass actual);
               ch_reason := if negb (String.eqb (dp_revision actual) (dp_revision dependency))
                            then "dependency_revision_mismatch"
                            else "dependency_refresh_class_mismatch" |}]
      else []
  end.

Definition change_compare (l r : Change) : comparison :=
  cmp_or (locale_compare (dp_domain (ch_dependency l)) (dp_domain (ch_dependency r)))
    (locale_compare (dp_ref (ch_dependency l)) (dp_ref (ch_dependency r))).

Definition compareExecutionCapsuleDependencies (capsuleDependencies currentDependencies : jsval)
    : js Comparison :=
  match capsuleDependencies, currentDependencies with
  | VArr expectedList, VArr currentList =>
      expected ← buildDependencyMap expectedList "capsuleDependencies"
        (MAX_CAPSULE_DEPENDENCIES + length ExecutionCapsuleDependencyDomains);
      current ← buildDependencyMap currentList "currentDependencies" MAX_CURRENT_DEPENDENCIES;
      let changed := List.flat_map (changeOf current) expected in
      let is_class c ch := String.eqb (dp_refreshClass (ch_dependency ch)) c in
      Ok {| cm_valid := Nat.eqb (length changed) 0;
            cm_changed := js_sort change_compare changed;
            cm_staticInvalidated := existsb (is_class "static") changed;
            cm_dynamicRefreshRequired := existsb (is_class "dynamic") changed;
            cm_secretsIncluded := false |}
  | _, _ => type_error "capsuleDependencies and currentDependencies must be arrays."
  end.

(** ** Projection *)

Definition tenant_keys : list string :=
  ["schemaVersion"; "capsuleRef"; "capsuleHash"; "contextHash"; "contextRevision";
   "effectiveSubjectRef"; "tenantRef"; "workspaceRef"; "brandRef"; "resourceType"; "resourceRef";
   "connectionRef"; "capabilityKey"; "issuedAt"; "expiresAt"].
Definition admin_keys : list string :=
  ["principalType"; "principalRef"; "authorityPathRef"; "authorityRevision"; "capabilityRevision";
   "registryRevision"; "credentialReadinessRevision"; "invalidationDependencies"].

Definition projectExecutionCapsule (capsule mode : jsval) : js jsobj :=
  canonical ← assertExecutionCapsuleIntegrity capsule;
  let source := VObj (js_of_capsule canonical) in
  let tenantProjection := copy_fields source tenant_keys
    ++ [("executionAllowed", VBool false); ("secretsIncluded", VBool false)] in
  match (match mode with VUndef => VStr "tenant" | m => m end) with
  | VStr "tenant" => Ok tenantProjection
  | VStr "admin" => Ok (tenantProjection ++ copy_fields source admin_keys)
  | m => type_error ("Unsupported execution capsule projection mode: " +:+ js_String m)
  end.
End Create.

(** ** Field lemmas *)

(** A string [requireString] returns as it is. *)
Record safe (s : string) : Prop := {
  sf_trim : js_trim s = s;
  sf_nonempty : s <> "";
  sf_length : String.length s <= MAX_FIELD_LENGTH;
  sf_secret : secret_like s = false;
}.

Lemma requireString_safe v f s : requireString v f = Ok s -> safe s.
Proof.
  unfold requireString. destruct v; try done. destruct (is_empty _) eqn:He; [done|].
  destruct (_ <? _) eqn:Hl; [done|]. destruct (secret_like _) eqn:Hs; [done|]. intros [= <-].
  split; [apply js_trim_idemp | by apply is_empty_false | by apply Nat.ltb_ge | done].
Qed.

Lemma capsule_requireString_id s f : safe s -> requireString (VStr s) f = Ok s.
Proof.
  intros [Ht Hn Hl Hs]. unfold requireString. rewrite Ht, Hs, (proj2 (is_empty_false s)) by done.
  by rewrite (proj2 (Nat.ltb_ge _ _)).
Qed.

Definition osafe (o : option string) : Prop := match o with Some s => safe s | None => True end.

Lemma optionalString_safe v f o : optionalString v f = Ok o -> osafe o.
Proof.
  unfold optionalString. destruct (is_blank v); intros Heq; inv_outcome; [done|].
  by eapply requireString_safe.
Qed.

Lemma capsule_optionalString_id o f : osafe o -> optionalString (js_of_ostr o) f = Ok o.
Proof.
  destruct o as [s|]; [|done]. intros Hs. unfold optionalString. simpl.
  rewrite (proj2 (is_empty_false s)) by apply Hs. by rewrite capsule_requireString_id.
Qed.

(** Two safe strings around a colon: every pattern avoids the colon. *)
Lemma secret_like_colon a b : secret_like a = false -> secret_like b = false ->
  secret_like (a +:+ ":" +:+ b) = false.
Proof.
  assert (forall r, re_avoids ":"%char r = true -> nullable r = false ->
    re_search r a = false -> re_search r b = false -> re_search r (a +:+ ":" +:+ b) = false) as Hcut.
  { intros r Hr Hn Ha Hb. pose proof (re_search_cut r ":"%char a b Hr Hn) as Hc.
    rewrite Ha, Hb in Hc. exact Hc. }
  unfold secret_like. intros Ha Hb. split_bool; try (apply Hcut; done || reflexivity).
  apply (re_full_cut jwt_pattern ":"%char a b). vm_compute. reflexivity.
Qed.

Lemma safe_colon a b : safe a -> safe b ->
  String.length (a +:+ ":" +:+ b) <= MAX_FIELD_LENGTH -> safe (a +:+ ":" +:+ b).
Proof.
  intros [Hat Han _ Has] [Hbt Hbn _ Hbs] Hl. split; [|by destruct a|done|by apply secret_like_colon].
  by apply js_trim_glue.
Qed.

(** ** Dependency lemmas *)

Record safe_dependency (d : Dependency) : Prop := {
  sd_domain : dp_domain d ∈ ExecutionCapsuleDependencyDomains;
  sd_ref : safe (dp_ref d);
  sd_revision : safe (dp_revision d);
  sd_class : dp_refreshClass d ∈ REFRESH_CLASSES;
}.

Lemma domains_safe s : s ∈ ExecutionCapsuleDependencyDomains -> safe s.
Proof.
  intros Hs. repeat (apply elem_of_cons in Hs as [->|Hs];
    [split; [reflexivity | done | apply Nat.leb_le; reflexivity | vm_compute; reflexivity]|]).
  by apply elem_of_nil in Hs.
Qed.

Lemma normalizeDependency_safe v f d : normalizeDependency v f = Ok d -> safe_dependency d.
Proof.
  unfold normalizeDependency. intros Heq. inv_outcome. split_bool. split; simpl.
  - by apply sin_true.
  - by eapply requireString_safe.
  - by eapply requireString_safe.
  - destruct (js_or _ _); try done. destruct (sin _ REFRESH_CLASSES) eqn:Hc; [|done].
    inv_outcome. by apply sin_true.
Qed.

Lemma normalizeDependency_id d f : safe_dependency d ->
  normalizeDependency (js_of_dependency d) f = Ok d.
Proof.
  intros [Hd Hr Hv Hc]. unfold normalizeDependency. ok_step ltac:(reflexivity).
  ok_step ltac:(apply capsule_requireString_id, domains_safe; exact Hd).
  ok_step ltac:(apply throw_if_false, negb_false_iff, sin_true; exact Hd).
  change (vget (js_of_dependency d) "refreshClass") with (VStr (dp_refreshClass d)).
  assert (js_or (VStr (dp_refreshClass d)) (VStr "static") = VStr (dp_refreshClass d)) as ->.
  { unfold js_or. simpl. assert (dp_refreshClass d <> "") as Hne%is_empty_false; [|by rewrite Hne].
    intros He. rewrite He in Hc. apply sin_true in Hc. discriminate. }
  rewrite (proj2 (sin_true _ _) Hc). ok_step ltac:(reflexivity).
  ok_step ltac:(exact (capsule_requireString_id _ _ Hr)). ok_step ltac:(exact (capsule_requireString_id _ _ Hv)).
  by destruct d.
Qed.

Abbreviation keys := (List.map dependencyKey).

Lemma map_get_None k m : map_get k m = None <-> k ∉ keys m.
Proof.
  induction m as [|d m IH]; simpl; [split; [intros _; apply not_elem_of_nil | done]|].
  destruct (String.eqb_spec (dependencyKey d) k) as [Heq|Hne].
  - split; [done|]. intros Hk. exfalso. apply Hk. rewrite Heq. apply list_elem_of_here.
  - rewrite IH, not_elem_of_cons. naive_solver.
Qed.

Lemma map_get_Some k m d : NoDup (keys m) ->
  map_get k m = Some d <-> d ∈ m /\ dependencyKey d = k.
Proof.
  induction m as [|x m IH]; simpl; intros Hnd.
  - split; [done|]. by intros [?%elem_of_nil _].
  - apply NoDup_cons in Hnd as [Hni Hnd]. destruct (String.eqb_spec (dependencyKey x) k) as [Heq|Hne].
    + rewrite elem_of_cons. split; [intros [= ->]; by split; [left|]|].
      intros [[->|Hin] Hk]; [done|]. exfalso. apply Hni. rewrite Heq, <- Hk.
      by apply list_elem_of_In, in_map, list_elem_of_In.
    + rewrite (IH Hnd), elem_of_cons. naive_solver.
Qed.

Lemma addDependency_Ok t d t' : addDependency t d = Ok t' ->
  (t' = t) \/ (t' = t ++ [d] /\ dependencyKey d ∉ keys t).
Proof.
  unfold addDependency. destruct (map_get _ t) eqn:Hg; intros Heq; inv_outcome; [by left|].
  right. split; [done|]. by apply map_get_None.
Qed.

(** What a fold of [addDependency] appends. *)
Lemma addDependencies_Ok ds t t' : foldM_js addDependency t ds = Ok t' -> NoDup (keys t) ->
  exists extra, t' = t ++ extra /\ NoDup (keys t') /\ length extra <= length ds /\
    forall d, d ∈ extra -> d ∈ ds.
Proof.
  revert t. induction ds as [|d ds IH]; intros t; simpl.
  - intros [= <-] Hnd. exists []. rewrite app_nil_r. by split.
  - intros (t1 & Hadd & Hrest)%bind_Ok Hnd. apply addDependency_Ok in Hadd as [->|[-> Hni]].
    + destruct (IH t Hrest Hnd) as (extra & -> & Hnd' & Hl & Hin). exists extra.
      split; [done|]. split; [done|]. split; [lia|]. intros x Hx. apply list_elem_of_further. auto.
    + destruct (IH (t ++ [d]) Hrest) as (extra & -> & Hnd' & Hl & Hin).
      { rewrite map_app. simpl. rewrite NoDup_app. split; [done|]. split; [|apply NoDup_singleton].
        intros k Hk Hk'. apply list_elem_of_singleton in Hk' as ->. done. }
      exists (d :: extra). rewrite <- app_assoc in *. split; [done|]. split; [done|].
      split; [simpl; lia|]. intros x [->|Hx]%elem_of_cons; [apply list_elem_of_here|].
      apply list_elem_of_further. auto.
Qed.

(** Adding fresh keys appends them. *)
Lemma addDependencies_fresh ds t : NoDup (keys (t ++ ds)) ->
  foldM_js addDependency t ds = Ok (t ++ ds).
Proof.
  revert t. induction ds as [|d ds IH]; intros t Hnd; simpl; [by rewrite app_nil_r|].
  assert (map_get (dependencyKey d) t = None) as Hget.
  { apply map_get_None. rewrite map_app in Hnd. simpl in Hnd. apply NoDup_app in Hnd as (_ & Hd & _).
    intros Hk. by apply (Hd _ Hk), list_elem_of_here. }
  ok_step ltac:(unfold addDependency; rewrite Hget; reflexivity).
  rewrite IH; [|rewrite <- app_assoc; done]. by rewrite <- app_assoc.
Qed.

(** ** Descriptors *)

Section Integrity.
Context `{JsHost}.

Definition string_fields (d : Descriptor) : list string :=
  [de_contextHash d; de_contextRevision d; de_principalType d; de_principalRef d;
   de_effectiveSubjectRef d; de_tenantRef d; de_workspaceRef d; de_resourceType d;
   de_resourceRef d; de_connectionRef d; de_authorityPathRef d; de_capabilityKey d;
   de_authorityRevision d; de_capabilityRevision d; de_registryRevision d;
   de_credentialReadinessRevision d].

Record descriptor_ok (d : Descriptor) : Prop := {
  do_fields : Forall safe (string_fields d);
  do_brand : osafe (de_brandRef d);
  do_dates : exists i e, valid_time i = true /\ valid_time e = true /\ (i < e)%Z /\
    de_issuedAt d = toISOString i /\ de_expiresAt d = toISOString e;
}.

Definition automatic_of (d : Descriptor) : list Dependency :=
  automaticDependencies (de_contextRevision d) (de_principalRef d) (de_effectiveSubjectRef d)
    (de_tenantRef d) (de_workspaceRef d) (de_brandRef d) (de_resourceType d) (de_resourceRef d)
    (de_connectionRef d) (de_authorityPathRef d) (de_capabilityKey d) (de_authorityRevision d)
    (de_capabilityRevision d) (de_registryRevision d) (de_credentialReadinessRevision d).

(** The vector of a valid descriptor, for the requested dependencies [v]. *)
Definition vector_of (d : Descriptor) (v : jsval) : js (list Dependency) :=
  match v with
  | VArr l =>
      throw_if (MAX_CAPSULE_DEPENDENCIES <? length l)
        (TypeErr "invalidationDependencies may contain at most 128 dependencies.");;
      automatic ← foldM_js addDependency [] (automatic_of d);
      requested ← mapM_js (fun d => normalizeDependency d "invalidationDependencies") l;
      dependencies ← foldM_js addDependency automatic requested;
      Ok (js_sort dependency_compare dependencies)
  | _ => type_error "invalidationDependencies must be an array."
  end.

(** The rest of [createExecutionCapsule] once its descriptor is known. *)
Definition finish (d : Descriptor) (v capsuleRefInput : jsval) : js Capsule :=
  deps ← vector_of d v;
  capsuleHash ← createExecutionCapsuleHash (hashed_object d deps);
  let capsuleRef := "ctxc-" +:+ js_slice0 capsuleHash 32 in
  throw_if (truthy capsuleRefInput && negb (is_str capsuleRefInput capsuleRef))
    (TypeErr "capsuleRef does not match the canonical capsule identity.");;
  Ok {| cp_descriptor := d; cp_capsuleRef := capsuleRef; cp_capsuleHash := capsuleHash;
        cp_invalidationDependencies := deps; cp_executionAllowed := false;
        cp_secretsIncluded := false |}.

(** [args] carries the fields [keys] of [d]. *)
Definition carries (args : jsobj) (fields : list string) (d : Descriptor) : Prop :=
  forall k, k ∈ fields -> oget args k = oget (js_of_descriptor d) k.

Ltac field_step :=
  ok_step ltac:(first [apply capsule_requireString_id; assumption | apply capsule_optionalString_id; assumption]).

Lemma createVector_of args d : descriptor_ok d -> carries args vector_fields d ->
  createExecutionCapsuleDependencyVector args =
  vector_of d (oget_default args "invalidationDependencies" (VArr [])).
Proof.
  intros [Hf Hb _] Hc. unfold string_fields in Hf. repeat apply Forall_cons in Hf as [? Hf].
  unfold createExecutionCapsuleDependencyVector.
  rewrite (Hc "contextRevision"), (Hc "principalRef"), (Hc "effectiveSubjectRef"), (Hc "tenantRef"),
    (Hc "workspaceRef"), (Hc "resourceType"), (Hc "resourceRef"), (Hc "connectionRef"),
    (Hc "authorityPathRef"), (Hc "capabilityKey"), (Hc "authorityRevision"),
    (Hc "capabilityRevision"), (Hc "registryRevision"), (Hc "credentialReadinessRevision")
    by (apply sin_true; reflexivity).
  rewrite (default_ostr args "brandRef" VNull (de_brandRef d))
    by (rewrite (Hc "brandRef") by (apply sin_true; reflexivity); reflexivity).
  do 15 field_step. reflexivity.
Qed.

Lemma createVector_self d v : descriptor_ok d ->
  createExecutionCapsuleDependencyVector
    (js_of_descriptor d ++ [("invalidationDependencies", js_or v (VArr []))]) =
  vector_of d (js_or v (VArr [])).
Proof.
  intros Hok. rewrite (createVector_of _ d Hok).
  - change (oget_default _ "invalidationDependencies" _) with
      (match js_or v (VArr []) with VUndef => VArr [] | w => w end).
    unfold js_or. by destruct v as [| |[]|[[]|]|[]| | |].
  - intros k Hk. apply oget_app_l.
    repeat (apply elem_of_cons in Hk as [->|Hk]; [by destruct (de_brandRef d) eqn:Hb; simpl; rewrite ?Hb|]).
    by apply elem_of_nil in Hk.
Qed.

Lemma normalizeDate_id t f : valid_time t = true ->
  normalizeDate (VStr (toISOString t)) f = Ok (toISOString t).
Proof. intros Ht. unfold normalizeDate. simpl. by rewrite date_parse_toISOString. Qed.

Lemma createCapsule_of args d : descriptor_ok d ->
  carries args ("contextHash" :: "principalType" :: vector_fields ++ ["issuedAt"; "expiresAt"]) d ->
  createExecutionCapsule args =
  finish d (js_or (oget args "invalidationDependencies") (VArr [])) (oget args "capsuleRef").
Proof.
  intros Hok Hc. pose proof Hok as [Hf Hb (i & e & Hi & He & Hlt & Hia & Hea)].
  unfold string_fields in Hf. repeat apply Forall_cons in Hf as [? Hf].
  unfold createExecutionCapsule.
  rewrite (Hc "issuedAt"), (Hc "expiresAt"), (Hc "contextHash"), (Hc "principalType"),
    (Hc "contextRevision"), (Hc "principalRef"), (Hc "effectiveSubjectRef"), (Hc "tenantRef"),
    (Hc "workspaceRef"), (Hc "resourceType"), (Hc "resourceRef"), (Hc "connectionRef"),
    (Hc "authorityPathRef"), (Hc "capabilityKey"), (Hc "authorityRevision"), (Hc "brandRef"),
    (Hc "capabilityRevision"), (Hc "registryRevision"), (Hc "credentialReadinessRevision")
    by (apply sin_true; reflexivity).
  change (oget (js_of_descriptor d) "issuedAt") with (VStr (de_issuedAt d)).
  change (oget (js_of_descriptor d) "expiresAt") with (VStr (de_expiresAt d)).
  change (oget (js_of_descriptor d) "brandRef") with (js_of_ostr (de_brandRef d)).
  rewrite Hia, Hea. ok_step ltac:(apply normalizeDate_id; exact Hi).
  ok_step ltac:(apply normalizeDate_id; exact He).
  ok_step ltac:(rewrite !date_parse_toISOString by done; apply throw_if_false, Z.leb_gt, Hlt).
  do 17 field_step. unfold finish. cbv zeta. rewrite <- Hia, <- Hea.
  destruct d; cbn [de_contextHash de_contextRevision de_principalType de_principalRef
    de_effectiveSubjectRef de_tenantRef de_workspaceRef de_brandRef de_resourceType de_resourceRef
    de_connectionRef de_authorityPathRef de_capabilityKey de_authorityRevision de_capabilityRevision
    de_registryRevision de_credentialReadinessRevision de_issuedAt de_expiresAt].
  by rewrite (createVector_self (Build_Descriptor de_contextHash0 de_contextRevision0
    de_principalType0 de_principalRef0 de_effectiveSubjectRef0 de_tenantRef0 de_workspaceRef0
    de_brandRef0 de_resourceType0 de_resourceRef0 de_connectionRef0 de_authorityPathRef0
    de_capabilityKey0 de_authorityRevision0 de_capabilityRevision0 de_registryRevision0
    de_credentialReadinessRevision0 de_issuedAt0 de_expiresAt0)).
Qed.

(** What [createExecutionCapsule] returns. *)
Lemma createCapsule_Ok args c : createExecutionCapsule args = Ok c ->
  exists d v, descriptor_ok d /\ finish d v VUndef = Ok c /\ cp_descriptor c = d.
Proof.
  unfold createExecutionCapsule. intros Heq. inv_outcome.
  match goal with Hv : createExecutionCapsuleDependencyVector (js_of_descriptor ?dd ++ _) = Ok _ |- _ =>
    set (d := dd) in *; exists d, (js_or (oget args "invalidationDependencies") (VArr [])) end.
  assert (descriptor_ok d) as Hok.
  { split; [|by eapply optionalString_safe|].
    - repeat (apply Forall_cons; split; [by eapply requireString_safe|]). by apply Forall_nil.
    - unfold normalizeDate in *. destruct (js_Date (oget args "issuedAt")) as [i|] eqn:Hi; [|done].
      destruct (js_Date (oget args "expiresAt")) as [e|] eqn:He; [|done]. inv_outcome.
      apply js_Date_valid in Hi, He. rewrite !date_parse_toISOString in * by done. exists i, e.
      repeat split; try done. lia. }
  split; [done|]. split; [|done]. unfold finish.
  match goal with Hv : createExecutionCapsuleDependencyVector _ = Ok _ |- _ =>
    rewrite (createVector_self d _ Hok) in Hv; rewrite Hv end.
  ok_step ltac:(reflexivity). ok_step ltac:(eassumption). done.
Qed.

(** ** The integrity check accepts what was created *)

Context `{!JsHostLaws}.

#[local] Instance dependency_order : CmpOrder dependency_compare.
Proof.
  apply (cmp_lex (fun l r => locale_compare (dp_domain l) (dp_domain r))
    (fun l r => cmp_or (locale_compare (dp_ref l) (dp_ref r))
                       (locale_compare (dp_revision l) (dp_revision r)))).
Qed.

Definition resource_fits (d : Descriptor) : Prop :=
  String.length (de_resourceType d +:+ ":" +:+ de_resourceRef d) <= MAX_FIELD_LENGTH.

Lemma context_registry_safe : safe "context-registry".
Proof. split; [reflexivity | done | apply Nat.leb_le; reflexivity | vm_compute; reflexivity]. Qed.

Lemma automatic_safe d : descriptor_ok d -> resource_fits d ->
  Forall safe_dependency (automatic_of d).
Proof.
  intros [Hf Hb _] Hfit. unfold string_fields in Hf. repeat apply Forall_cons in Hf as [? Hf].
  assert (safe (de_resourceType d +:+ ":" +:+ de_resourceRef d)) by (by apply safe_colon).
  pose proof context_registry_safe. unfold automatic_of, automaticDependencies.
  rewrite !Forall_app, !Forall_cons, !Forall_nil.
  repeat match goal with |- _ /\ _ => split | |- True => done end;
    try (split; simpl; try assumption; apply sin_true; reflexivity).
  destruct (de_brandRef d) as [br|]; [|done]. destruct (is_empty br); [done|].
  apply Forall_singleton. split; simpl; try assumption; apply sin_true; reflexivity.
Qed.

Lemma automatic_length d : length (automatic_of d) <= 11.
Proof.
  unfold automatic_of, automaticDependencies. rewrite !length_app. simpl.
  destruct (de_brandRef d) as [br|]; [destruct (is_empty br)|]; simpl; lia.
Qed.

(** The dependencies of a vector: the automatic ones, then the requested ones
    that are new, sorted. *)
Lemma vector_of_Ok d v deps : vector_of d v = Ok deps ->
  exists auto extra, foldM_js addDependency [] (automatic_of d) = Ok auto /\
    deps = js_sort dependency_compare (auto ++ extra) /\ NoDup (keys (auto ++ extra)) /\
    (forall x, x ∈ auto -> x ∈ automatic_of d) /\ length auto <= 11 /\
    Forall safe_dependency extra /\ length extra <= MAX_CAPSULE_DEPENDENCIES.
Proof.
  unfold vector_of. destruct v; try done. intros Heq.
  apply bind_Ok in Heq as ([] & Hl%throw_if_Ok%Nat.ltb_ge & Heq).
  apply bind_Ok in Heq as (auto & Hauto & Heq). apply bind_Ok in Heq as (rs & Hrs & Heq).
  apply bind_Ok in Heq as (al & Hall & [= <-]).
  destruct (addDependencies_Ok _ _ _ Hauto (NoDup_nil_2)) as (auto' & -> & Hnd & Hlen & Hin).
  destruct (addDependencies_Ok _ _ _ Hall Hnd) as (extra & -> & Hnd' & Hlen' & Hin').
  rewrite app_nil_l in *. exists auto', extra. split; [done|]. split; [done|]. split; [done|].
  split; [done|]. split; [pose proof (automatic_length d); lia|]. split.
  - apply Forall_forall. intros x Hx%Hin'. apply mapM_js_Ok in Hrs.
    apply list_elem_of_lookup in Hx as [i Hi].
    eapply Forall2_lookup_r in Hrs as (y & _ & Hy); [|exact Hi]. by eapply normalizeDependency_safe.
  - rewrite (mapM_js_length _ _ _ Hrs) in Hlen'. lia.
Qed.

Lemma normalizeDependencies_id ds f : Forall safe_dependency ds ->
  mapM_js (fun d => normalizeDependency d f) (List.map js_of_dependency ds) = Ok ds.
Proof.
  induction 1 as [|d ds Hd Hds IH]; [done|]. cbn [List.map mapM_js].
  ok_step ltac:(exact (normalizeDependency_id d f Hd)). ok_step ltac:(exact IH). done.
Qed.

Lemma buildDependencyMap_id ds f m : Forall safe_dependency ds -> NoDup (keys ds) ->
  length ds <= m -> buildDependencyMap (List.map js_of_dependency ds) f m = Ok ds.
Proof.
  intros Hs Hnd Hl. unfold buildDependencyMap.
  ok_step ltac:(apply throw_if_false, Nat.ltb_ge; rewrite length_map; exact Hl).
  clear Hl. change ds with ([] ++ ds) in Hnd. change (Ok ds) with (@Ok jserror _ ([] ++ ds)).
  revert Hnd. generalize (@nil Dependency). induction Hs as [|d ds Hd Hds IH]; intros acc Hnd; simpl.
  - by rewrite app_nil_r.
  - assert (map_get (dependencyKey d) acc = None) as Hget.
    { apply map_get_None. rewrite map_app in Hnd. simpl in Hnd. apply NoDup_app in Hnd as (_ & Hdis & _).
      intros Hk. by apply (Hdis _ Hk), list_elem_of_here. }
    ok_step ltac:(unfold addNormalized; rewrite (normalizeDependency_id d f Hd); simpl;
      rewrite Hget; reflexivity).
    rewrite IH; rewrite <- app_assoc; done.
Qed.

Lemma keys_Permutation l1 l2 : l1 ≡ₚ l2 -> NoDup (keys l1) -> NoDup (keys l2).
Proof. intros Hp. by rewrite (Permutation_map dependencyKey Hp). Qed.

(** What is left of a sorted vector without the automatic keys. *)
Lemma additional_of auto extra : NoDup (keys (auto ++ extra)) ->
  bfilter (fun d => negb (sin (dependencyKey d) (keys (js_sort dependency_compare auto))))
    (js_sort dependency_compare (auto ++ extra)) = js_sort dependency_compare extra.
Proof.
  intros Hnd. rewrite bfilter_js_sort by apply _. f_equal.
  assert (forall k, sin k (keys (js_sort dependency_compare auto)) = sin k (keys auto)) as Hk.
  { intros k. apply sin_Permutation, Permutation_map, js_sort_Permutation. }
  rewrite map_app in Hnd. apply NoDup_app in Hnd as (_ & Hd & _).
  rewrite bfilter_app. assert (forall x, x ∈ auto ->
    negb (sin (dependencyKey x) (keys (js_sort dependency_compare auto))) = false) as Ha.
  { intros x Hx. rewrite Hk. apply negb_false_iff, sin_true.
    by apply list_elem_of_In, in_map, list_elem_of_In. }
  rewrite (proj2 (bfilter_nil _ _) Ha). apply bfilter_all. intros x Hx. rewrite Hk.
  apply negb_true_iff, sin_false. intros Hin. apply (Hd _ Hin).
  by apply list_elem_of_In, in_map, list_elem_of_In.
Qed.

(** The vector rebuilt from the additional dependencies alone. *)
Lemma vector_of_additional d auto extra :
  foldM_js addDependency [] (automatic_of d) = Ok auto -> NoDup (keys (auto ++ extra)) ->
  Forall safe_dependency extra -> length extra <= MAX_CAPSULE_DEPENDENCIES ->
  vector_of d (VArr (List.map js_of_dependency (js_sort dependency_compare extra))) =
  Ok (js_sort dependency_compare (auto ++ extra)).
Proof.
  intros Hauto Hnd Hs Hl. unfold vector_of.
  ok_step ltac:(apply throw_if_false, Nat.ltb_ge; rewrite length_map, js_sort_length; exact Hl).
  ok_step ltac:(exact Hauto).
  ok_step ltac:(apply normalizeDependencies_id; rewrite js_sort_Permutation; exact Hs).
  ok_step ltac:(apply addDependencies_fresh; eapply keys_Permutation; [|exact Hnd];
    by rewrite (js_sort_Permutation dependency_compare extra)).
  f_equal. by apply js_sort_app_sort_r; apply _.
Qed.

Lemma copy_oget o fields extra k : k ∈ fields ->
  oget (copy_fields (VObj o) fields ++ extra) k = oget o k.
Proof.
  intros Hk. induction fields as [|f fs IH]; [by apply elem_of_nil in Hk|]. simpl.
  destruct (String.eqb_spec k f) as [->|Hne]; [done|].
  apply IH. by apply elem_of_cons in Hk as [->|].
Qed.

Lemma finish_hash d v r c : finish d v r = Ok c -> cp_descriptor c = d /\
  vector_of d v = Ok (cp_invalidationDependencies c) /\
  createExecutionCapsuleHash (hashed_object d (cp_invalidationDependencies c)) = Ok (cp_capsuleHash c) /\
  cp_capsuleRef c = "ctxc-" +:+ js_slice0 (cp_capsuleHash c) 32 /\
  cp_executionAllowed c = false /\ cp_secretsIncluded c = false.
Proof. unfold finish. intros Heq. inv_outcome. simpl. done. Qed.

Lemma createHash_Ok v h : createExecutionCapsuleHash v = Ok h ->
  h = sha256_hex ("execution-capsule-v1:" +:+ canonicalize v).
Proof. unfold createExecutionCapsuleHash. intros Heq. by inv_outcome. Qed.

Lemma descriptor_oget d rest k :
  k ∈ "contextHash" :: "principalType" :: vector_fields ++ ["issuedAt"; "expiresAt"] ->
  oget (js_of_descriptor d ++ rest) k = oget (js_of_descriptor d) k.
Proof.
  intros Hk. apply oget_app_l.
  repeat (apply elem_of_cons in Hk as [->|Hk];
    [first [done | by destruct (de_brandRef d) eqn:Hb; simpl; rewrite ?Hb]|]).
  by apply elem_of_nil in Hk.
Qed.

Lemma vector_carried d rest extra :
  carries (copy_fields (VObj (js_of_descriptor d ++ rest)) vector_fields ++ extra) vector_fields d.
Proof.
  intros k Hk. rewrite copy_oget by done. apply descriptor_oget.
  do 2 apply list_elem_of_further. by apply elem_of_app; left.
Qed.

Lemma capsule_carried d rest extra :
  carries (copy_fields (VObj (js_of_descriptor d ++ rest)) capsule_fields ++ extra)
    ("contextHash" :: "principalType" :: vector_fields ++ ["issuedAt"; "expiresAt"]) d.
Proof.
  intros k Hk. rewrite copy_oget; [by apply descriptor_oget|]. revert Hk. unfold capsule_fields.
  rewrite !elem_of_cons, !elem_of_app, !elem_of_cons. tauto.
Qed.

(** The dependencies of a created capsule are legal, and each has its own key. *)
Lemma created_dependencies input c : createExecutionCapsule input = Ok c -> resource_fits (cp_descriptor c) ->
  Forall safe_dependency (cp_invalidationDependencies c) /\ NoDup (keys (cp_invalidationDependencies c)) /\
  length (cp_invalidationDependencies c) <= MAX_CAPSULE_DEPENDENCIES + 11.
Proof.
  intros (d & v & Hok & Hfin & Hcd)%createCapsule_Ok Hfit. rewrite Hcd in Hfit.
  destruct (finish_hash _ _ _ _ Hfin) as (_ & Hvec & _).
  destruct (vector_of_Ok _ _ _ Hvec) as (auto & extra & _ & Hdeps & Hnd & Hsub & Hla & Hs & Hle).
  rewrite Hdeps. split; [|split].
  - rewrite js_sort_Permutation. apply Forall_app. split; [|done].
    pose proof (automatic_safe d Hok Hfit) as Ha. rewrite Forall_forall in Ha |- *. auto.
  - eapply keys_Permutation; [|exact Hnd]. symmetry. apply js_sort_Permutation.
  - rewrite js_sort_length, length_app. lia.
Qed.

Lemma created_capsule_ok input c :
  createExecutionCapsule input = Ok c -> resource_fits (cp_descriptor c) ->
  assertExecutionCapsuleIntegrity (VObj (js_of_capsule c)) = Ok c.
Proof.
  intros Hc Hfit. destruct (created_dependencies _ _ Hc Hfit) as (Hsafe & Hndd & Hlen).
  apply createCapsule_Ok in Hc as (d & v & Hok & Hfin & Hcd). rewrite Hcd in Hfit.
  destruct (finish_hash _ _ _ _ Hfin) as (_ & Hvec & Hhash & Hr & Hea & Hsi).
  destruct (vector_of_Ok _ _ _ Hvec) as (auto & extra & Hauto & Hdeps & Hnd & Hsub & Hla & Hs & Hle).
  destruct c as [d' ref h deps ea si].
  cbn [cp_descriptor cp_capsuleRef cp_capsuleHash cp_invalidationDependencies cp_executionAllowed
    cp_secretsIncluded] in *. subst d' ea si.
  set (v' := VArr (List.map js_of_dependency (js_sort dependency_compare extra))).
  assert (finish d v' (VStr ref) = Ok (Build_Capsule d ref h deps false false)) as Hagain.
  { unfold finish, v'. rewrite (vector_of_additional d auto extra) by done. rewrite <- Hdeps.
    ok_step ltac:(reflexivity). ok_step ltac:(exact Hhash). cbv zeta. rewrite <- Hr.
    ok_step ltac:(apply throw_if_false; simpl; rewrite String.eqb_refl; apply andb_false_r). done. }
  assert (vector_of d (VArr []) = Ok (js_sort dependency_compare auto)) as Hauto'.
  { rewrite <- (app_nil_r auto). apply (vector_of_additional d auto []); try done.
    - rewrite app_nil_r. rewrite map_app in Hnd. by apply NoDup_app in Hnd as [? _].
    - unfold MAX_CAPSULE_DEPENDENCIES. simpl. lia. }
  unfold assertExecutionCapsuleIntegrity. do 3 ok_step ltac:(reflexivity).
  change (vget _ "invalidationDependencies") with (VArr (List.map js_of_dependency deps)).
  change (vget _ "capsuleHash") with (VStr h). cbv iota.
  ok_step ltac:(apply throw_if_false, negb_false_iff; rewrite (createHash_Ok _ _ Hhash);
    apply sha256_hex64).
  ok_step ltac:(apply (buildDependencyMap_id deps); [exact Hsafe|exact Hndd|unfold MAX_CAPSULE_DEPENDENCIES in *; simpl; lia]).
  ok_step ltac:(rewrite (createVector_of _ d Hok); [exact Hauto' | apply vector_carried]).
  cbv zeta. rewrite Hdeps, (additional_of auto extra Hnd).
  ok_step ltac:(apply throw_if_false, Nat.ltb_ge; rewrite js_sort_length; exact Hle).
  rewrite <- Hdeps.
  ok_step ltac:(rewrite (createCapsule_of _ d Hok); [exact Hagain | apply capsule_carried]).
  ok_step ltac:(apply throw_if_false; simpl; rewrite String.eqb_refl; reflexivity). done.
Qed.

(** A capsule that was created passes its own integrity check unchanged:
    read back as an object, its dependencies rebuild to the same vector, its
    canonical hash and reference recompute to the same values, and the check
    returns the same capsule.  The hypothesis is the one the check makes
    implicitly: [resourceType:resourceRef] must itself be a legal field. *)
Theorem createExecutionCapsule_integrity input c :
  createExecutionCapsule input = Ok c -> resource_fits (cp_descriptor c) ->
  assertExecutionCapsuleIntegrity (VObj (js_of_capsule c)) = Ok c.
Proof. apply created_capsule_ok. Qed.

(** The text a capsule's hash is taken of. *)
Definition capsule_text (c : Capsule) : string :=
  "execution-capsule-v1:" +:+
  canonicalize (hashed_object (cp_descriptor c) (cp_invalidationDependencies c)).

Lemma integrity_hash v c : assertExecutionCapsuleIntegrity v = Ok c ->
  vget v "capsuleHash" = VStr (cp_capsuleHash c) /\ cp_capsuleHash c = sha256_hex (capsule_text c) /\
  cp_capsuleRef c = "ctxc-" +:+ js_slice0 (cp_capsuleHash c) 32 /\
  cp_executionAllowed c = false /\ cp_secretsIncluded c = false.
Proof.
  unfold assertExecutionCapsuleIntegrity. intros Heq.
  do 3 (apply bind_Ok in Heq as (? & _ & Heq)).
  destruct (vget v "invalidationDependencies"); try done.
  destruct (vget v "capsuleHash") as [| | | |hash| | |]; try done.
  do 4 (apply bind_Ok in Heq as (? & _ & Heq)). apply bind_Ok in Heq as (c' & Hc & Heq).
  apply bind_Ok in Heq as (u & Hh%throw_if_Ok & [= ->]). split_bool. apply String.eqb_eq in Hh as <-.
  apply createCapsule_Ok in Hc as (d & w & _ & Hf & Hd).
  destruct (finish_hash _ _ _ _ Hf) as (_ & _ & Hhash & Hr & He & Hs).
  split; [done|]. split; [|done]. unfold capsule_text. rewrite Hd. by apply createHash_Ok.
Qed.

Lemma hashed_object_ok d deps : json_ok (hashed_object d deps) = true.
Proof.
  unfold hashed_object. cbn [json_ok]. rewrite forallb_app. apply andb_true_iff. split.
  - unfold js_of_descriptor. simpl. by destruct (de_brandRef d).
  - simpl. rewrite andb_true_r. apply forallb_elem_of. intros x Hx.
    apply list_elem_of_In, in_map_iff in Hx as (y & <- & _). done.
Qed.

Lemma sort_keys_dependency a b : sort_keys (js_of_dependency a) = sort_keys (js_of_dependency b) -> a = b.
Proof. destruct a, b. intros Heq. vm_compute in Heq. by injection Heq as -> -> -> ->. Qed.

Lemma sort_keys_dependencies l1 l2 :
  List.map sort_keys (List.map js_of_dependency l1) = List.map sort_keys (List.map js_of_dependency l2) ->
  l1 = l2.
Proof.
  rewrite !List.map_map. apply map_injective. apply sort_keys_dependency.
Qed.

Lemma sort_keys_ostr o : sort_keys (js_of_ostr o) = js_of_ostr o.
Proof. by destruct o. Qed.

Lemma js_of_ostr_inj o1 o2 : js_of_ostr o1 = js_of_ostr o2 -> o1 = o2.
Proof. destruct o1, o2; simpl; congruence. Qed.

Lemma VObj_inj o1 o2 : VObj o1 = VObj o2 -> o1 = o2.
Proof. by intros [= ->]. Qed.

Lemma NoDup_descriptor_keys : NoDup
  ["schemaVersion"; "contextHash"; "contextRevision"; "principalType"; "principalRef";
   "effectiveSubjectRef"; "tenantRef"; "workspaceRef"; "brandRef"; "resourceType"; "resourceRef";
   "connectionRef"; "authorityPathRef"; "capabilityKey"; "authorityRevision"; "capabilityRevision";
   "registryRevision"; "credentialReadinessRevision"; "issuedAt"; "expiresAt";
   "invalidationDependencies"].
Proof. refine (bool_decide_unpack _ _). vm_compute. exact I. Qed.

(** The hashed text determines the descriptor and the dependencies. *)
Lemma hashed_object_inj d1 d2 l1 l2 :
  canonicalize (hashed_object d1 l1) = canonicalize (hashed_object d2 l2) -> d1 = d2 /\ l1 = l2.
Proof.
  intros Hc. apply canonicalize_inj in Hc; [|apply hashed_object_ok..].
  unfold hashed_object in Hc. cbn [sort_keys] in Hc. apply VObj_inj in Hc.
  apply sort_entries_same_keys in Hc.
  - rewrite !map_app in Hc. unfold js_of_descriptor in Hc. cbn [List.map fst snd app] in Hc.
    rewrite !sort_keys_ostr in Hc. cbn [sort_keys] in Hc.
    injection Hc. clear Hc. intros Hl. apply sort_keys_dependencies in Hl. intros.
    assert (de_brandRef d1 = de_brandRef d2) by (by apply js_of_ostr_inj).
    split; [|exact Hl]. clear Hl. destruct d1, d2. simpl in *. f_equal; assumption.
  - done.
  - rewrite List.map_map, map_app. apply NoDup_descriptor_keys.
Qed.

(** C6: the capsule hash identifies the capsule: two objects that pass the
    integrity check under the same hash denote the same capsule (descriptor,
    dependency vector, reference), unless SHA-256 collides on their two
    canonical texts; no field can be altered under an unchanged hash. *)
Theorem assertExecutionCapsuleIntegrity_binding v1 v2 c1 c2 :
  assertExecutionCapsuleIntegrity v1 = Ok c1 -> assertExecutionCapsuleIntegrity v2 = Ok c2 ->
  vget v1 "capsuleHash" = vget v2 "capsuleHash" ->
  (sha256_hex (capsule_text c1) = sha256_hex (capsule_text c2) -> capsule_text c1 = capsule_text c2) ->
  c1 = c2.
Proof.
  intros (Hv1 & Ht1 & Hr1 & He1 & Hs1)%integrity_hash (Hv2 & Ht2 & Hr2 & He2 & Hs2)%integrity_hash
    Heq Hcol.
  rewrite Hv1, Hv2 in Heq. injection Heq as Heq. rewrite <- Ht1, <- Ht2 in Hcol.
  specialize (Hcol Heq). unfold capsule_text in Hcol.
  apply (inj (String.append "execution-capsule-v1:")) in Hcol.
  apply hashed_object_inj in Hcol as [Hd Hl].
  destruct c1, c2; simpl in *; congruence.
Qed.

(** ** Comparison *)

Lemma domains_no_colon s : s ∈ ExecutionCapsuleDependencyDomains ->
  str_forallb (fun c => negb (Ascii.eqb c ":"%char)) s = true.
Proof.
  intros Hs. repeat (apply elem_of_cons in Hs as [->|Hs]; [reflexivity|]). by apply elem_of_nil in Hs.
Qed.

Lemma dependencyKey_inj d e : safe_dependency d -> safe_dependency e ->
  dependencyKey d = dependencyKey e -> dp_domain d = dp_domain e /\ dp_ref d = dp_ref e.
Proof.
  intros [Hd _ _ _] [He _ _ _]. unfold dependencyKey. apply colon_split; by apply domains_no_colon.
Qed.

Lemma buildDependencyMap_Ok l f m ds : buildDependencyMap l f m = Ok ds ->
  NoDup (keys ds) /\ Forall safe_dependency ds.
Proof.
  unfold buildDependencyMap. intros Heq. apply bind_Ok in Heq as ([] & _ & Heq).
  revert Heq. apply (foldM_js_inv (fun acc => NoDup (keys acc) /\ Forall safe_dependency acc)).
  - by split; constructor.
  - intros acc x acc' _ [Hnd Hs] Hadd. unfold addNormalized in Hadd.
    apply bind_Ok in Hadd as (d & Hd & Hadd). apply bind_Ok in Hadd as (? & Hb%throw_if_Ok & [= <-]).
    apply bool_decide_eq_false, eq_None_not_Some, map_get_None in Hb. split.
    + rewrite map_app, NoDup_app. split; [done|]. split; [|apply NoDup_singleton].
      intros k Hk Hk'. apply list_elem_of_singleton in Hk' as ->. done.
    + apply Forall_app. split; [done|]. apply Forall_singleton. by eapply normalizeDependency_safe.
Qed.

Lemma changeOf_nil cs d : NoDup (keys cs) -> Forall safe_dependency cs -> safe_dependency d ->
  changeOf cs d = [] <-> d ∈ cs.
Proof.
  intros Hnd Hcs Hd. unfold changeOf. destruct (map_get (dependencyKey d) cs) as [a|] eqn:Hg.
  - apply map_get_Some in Hg as [Ha Hk]; [|done]. rewrite Forall_forall in Hcs.
    destruct (dependencyKey_inj a d (Hcs a Ha) Hd Hk) as [Hdom Href].
    destruct (String.eqb_spec (dp_revision a) (dp_revision d)) as [Hr|Hr]; simpl;
      [destruct (String.eqb_spec (dp_refreshClass a) (dp_refreshClass d)) as [Hc|Hc]; simpl|].
    + split; [|done]. intros _. replace d with a; [done|]. destruct a, d; simpl in *; congruence.
    + split; [done|]. intros Hin. exfalso. apply Hc. f_equal.
      assert (map_get (dependencyKey d) cs = Some d) as H1 by (by apply map_get_Some).
      assert (map_get (dependencyKey d) cs = Some a) as H2 by (by apply map_get_Some). congruence.
    + split; [done|]. intros Hin. exfalso. apply Hr. f_equal.
      assert (map_get (dependencyKey d) cs = Some d) as H1 by (by apply map_get_Some).
      assert (map_get (dependencyKey d) cs = Some a) as H2 by (by apply map_get_Some). congruence.
  - split; [done|]. intros Hin. apply map_get_None in Hg. exfalso. apply Hg.
    by apply list_elem_of_In, in_map, list_elem_of_In.
Qed.

Lemma changeOf_dependency cs d ch : ch ∈ changeOf cs d -> ch_dependency ch = d.
Proof.
  unfold changeOf. destruct (map_get _ cs); [destruct (_ || _)|];
    by first [intros ->%list_elem_of_singleton | intros ?%elem_of_nil].
Qed.

Lemma elem_of_changes cs es ch : ch ∈ List.flat_map (changeOf cs) es <->
  ch ∈ changeOf cs (ch_dependency ch) /\ ch_dependency ch ∈ es.
Proof.
  rewrite list_elem_of_In, in_flat_map. setoid_rewrite <- list_elem_of_In. split.
  - intros (d & Hd & Hch). by rewrite (changeOf_dependency _ _ _ Hch).
  - intros [Hch Hd]. eauto.
Qed.

(** Comparing a capsule's dependencies with the current ones reports
    exactly the dependencies that are no longer current (missing, or with
    another revision or refresh class), in any order and ignoring current
    dependencies the capsule does not have; it is valid exactly when nothing
    is stale, and the static and dynamic flags say which kinds are. *)
Theorem compareExecutionCapsuleDependencies_correct v w cm :
  compareExecutionCapsuleDependencies v w = Ok cm ->
  exists vs ws es cs, v = VArr vs /\ w = VArr ws /\
    buildDependencyMap vs "capsuleDependencies" 146 = Ok es /\
    buildDependencyMap ws "currentDependencies" 256 = Ok cs /\
    (forall d, (exists ch, ch ∈ cm_changed cm /\ ch_dependency ch = d) <-> d ∈ es /\ (d ∉ cs)) /\
    (cm_valid cm = true <-> forall d, d ∈ es -> d ∈ cs) /\
    (cm_staticInvalidated cm = true <-> exists d, d ∈ es /\ (d ∉ cs) /\ dp_refreshClass d = "static") /\
    (cm_dynamicRefreshRequired cm = true <-> exists d, d ∈ es /\ (d ∉ cs) /\ dp_refreshClass d = "dynamic").
Proof.
  unfold compareExecutionCapsuleDependencies. destruct v as [| | | | | |vs|]; try done.
  destruct w as [| | | | | |ws|]; try done. intros Heq.
  apply bind_Ok in Heq as (es & Hes & Heq). apply bind_Ok in Heq as (cs & Hcs & [= <-]).
  exists vs, ws, es, cs. do 4 (split; [done|]).
  apply buildDependencyMap_Ok in Hes as [Hnde Hse], Hcs as [Hndc Hsc]. rewrite Forall_forall in Hse.
  assert (forall d, (exists ch, ch ∈ List.flat_map (changeOf cs) es /\ ch_dependency ch = d) <->
    d ∈ es /\ (d ∉ cs)) as Hch.
  { intros d. split.
    - intros (ch & [Hch Hd]%elem_of_changes & <-). split; [done|]. intros Hin.
      apply changeOf_nil in Hin; [|done|done|by apply Hse]. rewrite Hin in Hch. by apply elem_of_nil in Hch.
    - intros [Hd Hn]. rewrite <- (changeOf_nil cs d Hndc Hsc (Hse d Hd)) in Hn.
      destruct (changeOf cs d) as [|ch l] eqn:E; [done|]. exists ch.
      assert (ch ∈ changeOf cs d) as Hin by (rewrite E; apply list_elem_of_here).
      pose proof (changeOf_dependency _ _ _ Hin) as Heq. split; [|done].
      apply elem_of_changes. by rewrite Heq. }
  simpl. split; [|split; [|split]].
  - intros d. rewrite <- Hch. by setoid_rewrite elem_of_js_sort.
  - rewrite Nat.eqb_eq, length_zero_iff_nil. split.
    + intros Hnil d Hd. destruct (decide (d ∈ cs)) as [|Hn]; [done|].
      destruct (proj2 (Hch d) (conj Hd Hn)) as (ch & Hin & _). rewrite Hnil in Hin.
      by apply elem_of_nil in Hin.
    + intros Hall. destruct (List.flat_map (changeOf cs) es) as [|ch l] eqn:E; [done|].
      destruct (proj1 (Hch (ch_dependency ch))) as [Hd Hn]; [|by apply Hall in Hd].
      exists ch. split; [apply list_elem_of_here | done].
  - rewrite existsb_elem_of. setoid_rewrite String.eqb_eq. split.
    + intros (ch & Hin & Hc). exists (ch_dependency ch).
      destruct (proj1 (Hch (ch_dependency ch))) as [? ?]; eauto.
    + intros (d & Hd & Hn & Hc). destruct (proj2 (Hch d) (conj Hd Hn)) as (ch & Hin & <-). eauto.
  - rewrite existsb_elem_of. setoid_rewrite String.eqb_eq. split.
    + intros (ch & Hin & Hc). exists (ch_dependency ch).
      destruct (proj1 (Hch (ch_dependency ch))) as [? ?]; eauto.
    + intros (d & Hd & Hn & Hc). destruct (proj2 (Hch d) (conj Hd Hn)) as (ch & Hin & <-). eauto.
Qed.
End Integrity.

(** ** Examples *)

Definition demo_capsule_input (resourceType resourceRef : string) : jsobj :=
  [("issuedAt", VStr "2023-11-14T00:00:00.000Z"); ("expiresAt", VNum (Some 1700100000000%Z));
   ("contextHash", VStr "hash"); ("contextRevision", VStr "rev-1"); ("principalType", VStr "user");
   ("principalRef", VStr "p1"); ("effectiveSubjectRef", VStr " s1 "); ("tenantRef", VStr "t1");
   ("workspaceRef", VStr "w1"); ("resourceType", VStr resourceType);
   ("resourceRef", VStr resourceRef); ("connectionRef", VStr "c1");
   ("authorityPathRef", VStr "a1"); ("capabilityKey", VStr "cap"); ("authorityRevision", VStr "ar");
   ("capabilityRevision", VStr "cr"); ("registryRevision", VStr "rr");
   ("credentialReadinessRevision", VStr "cc");
   ("invalidationDependencies", VArr
      [VObj [("domain", VStr "approval"); ("ref", VStr "ap1"); ("revision", VStr "r9")];
       VObj [("domain", VStr "tenant"); ("ref", VStr "t1"); ("revision", VStr "rev-1")]])].

Definition demo_capsule : js Capsule :=
  createExecutionCapsule (H := demo_host) (demo_capsule_input "doc" "d1").

(** The value of a run that succeeds. *)
Definition value {A} (d : A) (m : js A) : A := match m with Ok a => a | Throw _ => d end.

Definition no_capsule : Capsule :=
  {| cp_descriptor := Build_Descriptor "" "" "" "" "" "" "" None "" "" "" "" "" "" "" "" "" "" "";
     cp_capsuleRef := ""; cp_capsuleHash := ""; cp_invalidationDependencies := [];
     cp_executionAllowed := true; cp_secretsIncluded := true |}.

Definition demo_capsule_value : Capsule := value no_capsule demo_capsule.

Lemma createExecutionCapsule_integrity_witness :
  List.map dp_domain (cp_invalidationDependencies demo_capsule_value) =
    ["approval"; "authority"; "capability"; "connection"; "credentialReadiness";
     "effectiveSubject"; "principal"; "registry"; "resource"; "tenant"; "workspace"] /\
  assertExecutionCapsuleIntegrity (H := demo_host) (VObj (js_of_capsule demo_capsule_value)) =
    Ok demo_capsule_value.
Proof.
  split; [vm_compute; reflexivity|].
  apply (@createExecutionCapsule_integrity demo_host demo_host_laws (demo_capsule_input "doc" "d1")).
  - vm_compute. reflexivity.
  - apply Nat.leb_le. vm_compute. reflexivity.
Defined.

Lemma assertExecutionCapsuleIntegrity_binding_witness :
  exists v, assertExecutionCapsuleIntegrity (H := demo_host) v = Ok demo_capsule_value /\
    forall c, assertExecutionCapsuleIntegrity (H := demo_host) v = Ok c -> c = demo_capsule_value.
Proof.
  assert (assertExecutionCapsuleIntegrity (H := demo_host) (VObj (js_of_capsule demo_capsule_value))
    = Ok demo_capsule_value) as Hi by (vm_compute; reflexivity).
  exists (VObj (js_of_capsule demo_capsule_value)). split; [exact Hi|]. intros c Hc.
  refine (@assertExecutionCapsuleIntegrity_binding demo_host _ _ c demo_capsule_value Hc Hi eq_refl _).
  rewrite Hi in Hc. apply Ok_inj in Hc. rewrite Hc. intros _. reflexivity.
Defined.

Definition demo_dependency (domain revision : string) : jsval :=
  VObj [("domain", VStr domain); ("ref", VStr "x"); ("revision", VStr revision)].

Definition demo_expected : list jsval := [demo_dependency "tenant" "1"; demo_dependency "resource" "1"].
Definition demo_current : list jsval :=
  [demo_dependency "resource" "2"; demo_dependency "approval" "7"; demo_dependency "tenant" "1"].
Definition demo_comparison : Comparison :=
  value (Build_Comparison true [] false false false)
    (compareExecutionCapsuleDependencies (H := demo_host) (VArr demo_expected) (VArr demo_current)).

Lemma compareExecutionCapsuleDependencies_correct_witness :
  List.map (fun ch => (dp_domain (ch_dependency ch), ch_reason ch)) (cm_changed demo_comparison)
    = [("resource", "dependency_revision_mismatch")] /\
  exists es cs d, buildDependencyMap demo_expected "capsuleDependencies" 146 = Ok es /\
    buildDependencyMap demo_current "currentDependencies" 256 = Ok cs /\
    d ∈ es /\ (d ∉ cs) /\ dp_refreshClass d = "static".
Proof.
  split; [vm_compute; reflexivity|].
  destruct (@compareExecutionCapsuleDependencies_correct demo_host (VArr demo_expected)
    (VArr demo_current) demo_comparison) as (vs & ws & es & cs & Hv & Hw & Hes & Hcs & _ & _ & Hst & _).
  - vm_compute. reflexivity.
  - injection Hv as <-. injection Hw as <-. destruct Hst as [Hst _].
    destruct Hst as (d & Hd & Hn & Hcl); [vm_compute; reflexivity|].
    exists es, cs, d. split; [exact Hes|]. split; [exact Hcs|]. split; [exact Hd|].
    split; [exact Hn | exact Hcl].
Defined.

(** ** A capsule that fails its own integrity check *)

Fixpoint repeat_char (n : nat) : string :=
  match n with O => "" | S n => String "r" (repeat_char n) end.

(** The constructor limits [resourceType] and [resourceRef] to 512 characters
    each, but the dependency it derives from them is [type:ref]; the integrity
    check limits that to 512 as well, so such a capsule is refused by the very
    check every projection starts with. *)
Definition long_capsule : js Capsule :=
  createExecutionCapsule (H := demo_host) (demo_capsule_input (repeat_char 300) (repeat_char 300)).

(** A capsule can be created that its own integrity check refuses: with a
    resource type and a resource reference of 300 characters each, both legal
    fields, [createExecutionCapsule] returns and
    [assertExecutionCapsuleIntegrity] throws on what it returned. *)
Lemma capsule_of_long_resource_rejected :
  long_capsule = Ok (value no_capsule long_capsule) /\
  exists e, assertExecutionCapsuleIntegrity (H := demo_host)
    (VObj (js_of_capsule (value no_capsule long_capsule))) = Throw e.
Proof. split; [vm_compute; reflexivity|]. eexists. vm_compute. reflexivity. Qed.
End ExecutionCapsule.
