(* ===== verification/UnifiedDiff.v ===== *)
(** * Applying unified diffs (unifiedDiff.js)

    Parsing of the hunks of a unified diff and their application to a text.
    Proved: a successful application is a patch (the original text is cut at
    the hunks' old sequences, which are replaced by their new sequences, and
    everything else is kept), and a hunk is only ever placed where it was
    declared or at the single place it matches. *)
From S2P Require Import Prelude Sorting JsString JsDate JsValue.

Definition LF : ascii := chr 10.
Definition CR : ascii := chr 13.

(** A character in front of the first line. *)
Definition cons_first (c : ascii) (ls : list string) : list string :=
  match ls with [] => [String c ""] | l :: ls => String c l :: ls end.

(** [s.split(/\r?\n/)] *)
Fixpoint split_lines (s : string) : list string :=
  match s with
  | EmptyString => [""]
  | String c s' =>
      if Ascii.eqb c LF then "" :: split_lines s'
      else match s' with
           | String d s'' =>
               if Ascii.eqb c CR && Ascii.eqb d LF then "" :: split_lines s''
               else cons_first c (split_lines s')
           | EmptyString => cons_first c (split_lines s')
           end
  end.

Inductive Prefix := Context | Removal | Addition.

Record Operation := { op_prefix : Prefix; op_body : string }.

Record Hunk := {
  hk_oldStart : Z;
  hk_oldCount : Z;
  hk_newStart : Z;
  hk_newCount : Z;
  hk_operations : list Operation;
}.

(** ** The header [/^@@\s+-(\d+)(?:,(\d+))?\s+\+(\d+)(?:,(\d+))?\s+@@/]

    No two adjacent parts of the pattern can match the same character, so the
    greedy reading is the only one. *)

Definition eat (p s : string) : option string :=
  if String.prefix p s
  then Some (String.substring (String.length p) (String.length s) s) else None.

Fixpoint span_chars (p : ascii -> bool) (s : string) : string * string :=
  match s with
  | EmptyString => ("", "")
  | String c s' => if p c then let '(a, b) := span_chars p s' in (String c a, b) else ("", s)
  end.

(** [\s+] *)
Definition eat_spaces (s : string) : option string :=
  let '(a, b) := span_chars is_ws s in if is_empty a then None else Some b.

(** [Number.parseInt(digits, 10)] *)
Fixpoint digits_value (acc : Z) (s : string) : Z :=
  match s with
  | EmptyString => acc
  | String c s' => digits_value (10 * acc + (Z.of_N (N_of_ascii c) - 48)) s'
  end.

(** [(\d+)] *)
Definition eat_number (s : string) : option (Z * string) :=
  let '(a, b) := span_chars is_digit s in
  if is_empty a then None else Some (digits_value 0 a, b).

(** [(?:,(\d+))?], read as ["1"] when it is absent. *)
Definition eat_count (s : string) : Z * string :=
  match eat "," s with
  | Some s' => match eat_number s' with Some (n, s'') => (n, s'') | None => (1%Z, s) end
  | None => (1%Z, s)
  end.

Definition parseHeader (line : string) : option Hunk :=
  s ← eat "@@" line; s ← eat_spaces s; s ← eat "-" s;
  '(oldStart, s) ← eat_number s;
  let '(oldCount, s) := eat_count s in
  s ← eat_spaces s; s ← eat "+" s;
  '(newStart, s) ← eat_number s;
  let '(newCount, s) := eat_count s in
  s ← eat_spaces s; _ ← eat "@@" s;
  Some {| hk_oldStart := oldStart; hk_oldCount := oldCount; hk_newStart := newStart;
          hk_newCount := newCount; hk_operations := [] |}.

(** ** Parsing *)

(** The operation of a line of a hunk, if it is one. *)
Definition operationOf (hunkLine : string) : option Operation :=
  if String.eqb hunkLine "\ No newline at end of file" || is_empty hunkLine then None
  else match hunkLine with
       | String c body =>
           if Ascii.eqb c " " then Some {| op_prefix := Context; op_body := body |}
           else if Ascii.eqb c "-" then Some {| op_prefix := Removal; op_body := body |}
           else if Ascii.eqb c "+" then Some {| op_prefix := Addition; op_body := body |}
           else None
       | EmptyString => None
       end.

(** The inner loop: the operations up to the next line that starts with [@@]. *)
Fixpoint hunkOperations (lines : list string) : list Operation * list string :=
  match lines with
  | [] => ([], [])
  | hunkLine :: rest =>
      if js_startsWith hunkLine "@@" then ([], lines)
      else let '(ops, after) := hunkOperations rest in
           (match operationOf hunkLine with Some op => op :: ops | None => ops end, after)
  end.

(** The outer loop; [None] is running out of fuel. *)
Fixpoint collectHunks (fuel : nat) (lines : list string) : option (list Hunk) :=
  match lines with
  | [] => Some []
  | header :: rest =>
      match fuel with
      | O => None
      | S fuel =>
          match parseHeader header with
          | None => collectHunks fuel rest
          | Some h =>
              let '(ops, after) := hunkOperations rest in
              hunks ← collectHunks fuel after;
              Some ({| hk_oldStart := hk_oldStart h; hk_oldCount := hk_oldCount h;
                       hk_newStart := hk_newStart h; hk_newCount := hk_newCount h;
                       hk_operations := ops |} :: hunks)
          end
      end
  end.

Definition unifiedDiffError (status : Z) (code message : string) (details : jsobj) : jserror :=
  CodedErr code status message details.

Section Apply.
Context `{JsHost}.

Definition parseUnifiedDiffHunks (diffBody : jsval) : option (js (list Hunk)) :=
  let lines := split_lines (str_or_empty diffBody) in
  hunks ← collectHunks (length lines) lines;
  Some (match hunks with
        | [] => Throw (unifiedDiffError 400 "repo_patch_no_hunks"
                  "unified diff has no hunks (lines starting with @@)." [])
        | _ => Ok hunks
        end).
End Apply.

(** ** Locating a hunk *)

Definition is_old (op : Operation) : bool :=
  match op_prefix op with Context | Removal => true | Addition => false end.
Definition is_new (op : Operation) : bool :=
  match op_prefix op with Context | Addition => true | Removal => false end.

Definition oldSequenceForHunk (hunk : Hunk) : list string :=
  List.map op_body (bfilter is_old (hk_operations hunk)).

Fixpoint starts_with (sequence lines : list string) : bool :=
  match sequence, lines with
  | [], _ => true
  | s :: sequence, l :: lines => String.eqb l s && starts_with sequence lines
  | _ :: _, [] => false
  end.

Definition sequenceMatchesAt (lines sequence : list string) (startIndex : nat) : bool :=
  if length lines <? startIndex + length sequence then false
  else starts_with sequence (drop startIndex lines).

Definition exactSequenceMatches (lines sequence : list string) (minimumStart : nat) : list nat :=
  match sequence with
  | [] => []
  | firstLine :: _ =>
      bfilter (fun startIndex =>
          match lines !! startIndex with Some l => String.eqb l firstLine | None => false end
          && sequenceMatchesAt lines sequence startIndex)
        (seq minimumStart (length lines + 1 - length sequence - minimumStart))
  end.

Record Mismatch := {
  mm_code : string;
  mm_expected : jsval;
  mm_found : jsval;
  mm_line : nat;
}.

Definition line_at (lines : list string) (i : nat) : jsval :=
  match lines !! i with Some l => VStr l | None => VUndef end.

Fixpoint mismatchFrom (lines : list string) (declaredIndex cursor : nat) (ops : list Operation)
    : Mismatch :=
  match ops with
  | [] => {| mm_code := "repo_patch_context_mismatch"; mm_expected := VNull; mm_found := VNull;
             mm_line := declaredIndex + 1 |}
  | operation :: ops =>
      if negb (is_old operation) then mismatchFrom lines declaredIndex cursor ops
      else if negb (is_str (line_at lines cursor) (op_body operation))
      then {| mm_code := match op_prefix operation with
                         | Removal => "repo_patch_removal_mismatch"
                         | _ => "repo_patch_context_mismatch"
                         end;
              mm_expected := VStr (op_body operation); mm_found := line_at lines cursor;
              mm_line := cursor + 1 |}
      else mismatchFrom lines declaredIndex (S cursor) ops
  end.

Definition mismatchAtDeclaredPosition (lines : list string) (hunk : Hunk) (declaredIndex : nat)
    : Mismatch :=
  mismatchFrom lines declaredIndex declaredIndex (hk_operations hunk).

Definition num (n : nat) : jsval := VNum (Some (Z.of_nat n)).

Definition locateHunk (lines : list string) (hunk : Hunk) (originalCursor : nat) : js nat :=
  let declaredIndex := Z.to_nat (Z.max 0 (hk_oldStart hunk - 1)) in
  let oldSequence := oldSequenceForHunk hunk in
  match oldSequence with
  | [] =>
      if declaredIndex <? originalCursor then
        Throw (unifiedDiffError 409 "repo_patch_hunk_overlap"
          "unified diff insertion overlaps a previously applied hunk."
          [("declared_line", VNum (Some (hk_oldStart hunk)));
           ("minimum_line", num (originalCursor + 1))])
      else Ok (Nat.min declaredIndex (length lines))
  | _ =>
      if (originalCursor <=? declaredIndex) && sequenceMatchesAt lines oldSequence declaredIndex
      then Ok declaredIndex
      else
        match exactSequenceMatches lines oldSequence originalCursor with
        | [m] => Ok m
        | [] =>
            let mismatch := mismatchAtDeclaredPosition lines hunk declaredIndex in
            Throw (unifiedDiffError 409 (mm_code mismatch)
              ("unified diff " +:+
               (if String.eqb (mm_code mismatch) "repo_patch_removal_mismatch" then "removal"
                else "context") +:+
               " mismatch at original line " +:+ string_of_Z (Z.of_nat (mm_line mismatch)) +:+ ".")
              [("expected", mm_expected mismatch); ("found", mm_found mismatch);
               ("declared_line", VNum (Some (hk_oldStart hunk)));
               ("exact_context_matches", num 0)])
        | matches =>
            Throw (unifiedDiffError 409 "repo_patch_hunk_ambiguous"
              "unified diff hunk context matches multiple locations; refusing positional guess."
              [("declared_line", VNum (Some (hk_oldStart hunk)));
               ("candidate_lines", VArr (List.map (fun m => num (m + 1)) matches));
               ("old_line_count", num (length oldSequence))])
        end
  end.

(** ** Application *)

(** The state of the loop: the lines produced and [originalCursor]. *)
Abbreviation patch_state := (list string * nat)%type.

(** [result.push(originalLines[originalCursor])]: a missing line is joined as
    the empty text. *)
Definition push_line (lines : list string) (st : patch_state) : patch_state :=
  (st.1 ++ [default "" (lines !! st.2)], S st.2).

(** [while (originalCursor < limit && originalCursor < originalLines.length)],
    by the number of its iterations. *)
Fixpoint copy_lines (lines : list string) (n : nat) (st : patch_state) : patch_state :=
  match n with O => st | S n => copy_lines lines n (push_line lines st) end.

Definition copy_until (lines : list string) (limit : nat) (st : patch_state) : patch_state :=
  copy_lines lines (Nat.min limit (length lines) - st.2) st.

Definition apply_operation (lines : list string) (st : patch_state) (op : Operation) : patch_state :=
  match op_prefix op with
  | Context => push_line lines st
  | Removal => (st.1, S st.2)
  | Addition => (st.1 ++ [op_body op], st.2)
  end.

Definition apply_hunk (lines : list string) (st : patch_state) (hunk : Hunk) : js patch_state :=
  hunkStart ← locateHunk lines hunk st.2;
  Ok (fold_left (apply_operation lines) (hk_operations hunk) (copy_until lines hunkStart st)).

Definition applyUnifiedDiffToText `{JsHost} (originalText diffBody : jsval) : option (js string) :=
  let originalLines := split_lines (str_coalesce originalText) in
  parsed ← parseUnifiedDiffHunks diffBody;
  Some (hunks ← parsed;
        st ← foldM_js (apply_hunk originalLines) ([], 0) hunks;
        Ok (js_join (String LF "") (copy_until originalLines (length originalLines) st).1)).

(** ** Lemmas *)

Lemma hunkOperations_length lines : length (hunkOperations lines).2 <= length lines.
Proof.
  induction lines as [|l ls IH]; simpl; [lia|]. destruct (js_startsWith l "@@"); [simpl; lia|].
  destruct (hunkOperations ls); simpl in *. lia.
Qed.

Lemma collectHunks_total fuel lines : length lines <= fuel -> exists hs, collectHunks fuel lines = Some hs.
Proof.
  revert lines. induction fuel as [|fuel IH]; intros [|l ls]; simpl; intros Hl;
    try (by eexists); [lia|].
  destruct (parseHeader l) as [h|]; [|apply IH; lia].
  pose proof (hunkOperations_length ls) as Ho. destruct (hunkOperations ls) as [ops after].
  simpl in Ho. destruct (IH after) as (hs & ->); [lia|]. simpl. by eexists.
Qed.

Lemma parse_total `{JsHost} v : exists r, parseUnifiedDiffHunks v = Some r.
Proof.
  unfold parseUnifiedDiffHunks. destruct (collectHunks_total _ _ (le_n (length (split_lines (str_or_empty v)))))
    as (hs & Hhs). rewrite Hhs. simpl. by eexists.
Qed.

(** [sequence] occurs in [lines] at index [i]. *)
Definition occurs (lines sequence : list string) (i : nat) : Prop :=
  exists pre post, lines = pre ++ sequence ++ post /\ length pre = i.

Lemma starts_with_true sequence lines : starts_with sequence lines = true <->
  exists post, lines = sequence ++ post.
Proof.
  revert lines. induction sequence as [|s sq IH]; intros lines; simpl; [naive_solver|].
  destruct lines as [|l lines]; [naive_solver|].
  rewrite andb_true_iff, String.eqb_eq, IH. naive_solver.
Qed.

Lemma sequenceMatchesAt_true lines sequence i :
  sequenceMatchesAt lines sequence i = true <-> occurs lines sequence i.
Proof.
  unfold sequenceMatchesAt, occurs. split.
  - destruct (Nat.ltb_spec (length lines) (i + length sequence)); [done|].
    intros (post & Hd)%starts_with_true. exists (take i lines), post.
    rewrite <- Hd, take_drop. split; [done|]. rewrite length_take. lia.
  - intros (pre & post & -> & <-). rewrite !length_app.
    rewrite (proj2 (Nat.ltb_ge _ _)) by lia. apply starts_with_true. exists post.
    by rewrite drop_app_length.
Qed.

Lemma exactSequenceMatches_spec lines sequence c i : sequence <> [] ->
  i ∈ exactSequenceMatches lines sequence c <-> c <= i /\ occurs lines sequence i.
Proof.
  intros Hne. unfold exactSequenceMatches. destruct sequence as [|s sq]; [done|].
  rewrite elem_of_bfilter, andb_true_iff, sequenceMatchesAt_true, elem_of_seq. split.
  - intros [[_ Hocc] Hi]. split; [lia | done].
  - intros [Hc (pre & post & Heq & Hlen)]. split; [split; [|by exists pre, post]|].
    + rewrite Heq, lookup_app_r by lia. rewrite Hlen, Nat.sub_diag. simpl. apply String.eqb_refl.
    + rewrite Heq, !length_app. simpl. lia.
Qed.

Lemma NoDup_exactSequenceMatches lines sequence c : NoDup (exactSequenceMatches lines sequence c).
Proof.
  unfold exactSequenceMatches. destruct sequence; [constructor|].
  apply NoDup_ListNoDup, List.NoDup_filter, NoDup_ListNoDup, NoDup_seq.
Qed.

Definition declared (hunk : Hunk) : nat := Z.to_nat (Z.max 0 (hk_oldStart hunk - 1)).

Lemma locateHunk_Ok lines hunk c i : locateHunk lines hunk c = Ok i -> c <= length lines ->
  c <= i <= length lines /\ occurs lines (oldSequenceForHunk hunk) i.
Proof.
  unfold locateHunk. fold (declared hunk). intros Heq Hc.
  destruct (oldSequenceForHunk hunk) as [|s sq] eqn:Hs.
  - destruct (Nat.ltb_spec (declared hunk) c); [done|]. injection Heq as <-. split; [lia|].
    exists (take (Nat.min (declared hunk) (length lines)) lines),
      (drop (Nat.min (declared hunk) (length lines)) lines). simpl. rewrite take_drop.
    split; [done|]. rewrite length_take. lia.
  - assert (c <= i /\ occurs lines (s :: sq) i) as [Hci Hocc].
    { destruct (_ && _) eqn:Hd.
      - injection Heq as <-. apply andb_true_iff in Hd as [Hd Ho].
        apply sequenceMatchesAt_true in Ho. split; [by apply Nat.leb_le | done].
      - destruct (exactSequenceMatches lines (s :: sq) c) as [|m [|]] eqn:Hm; try done.
        injection Heq as <-. apply exactSequenceMatches_spec; [done|]. rewrite Hm. apply list_elem_of_here. }
    split; [|done]. split; [done|]. destruct Hocc as (pre & post & -> & <-). rewrite !length_app. lia.
Qed.

(** ** Application lemmas *)

Definition newSequence (hunk : Hunk) : list string :=
  List.map op_body (bfilter is_new (hk_operations hunk)).

Lemma copy_lines_spec lines n r c : c + n <= length lines ->
  copy_lines lines n (r, c) = (r ++ take n (drop c lines), c + n).
Proof.
  revert r c. induction n as [|n IH]; intros r c Hl; simpl.
  - by rewrite app_nil_r, Nat.add_0_r.
  - destruct (lookup_lt_is_Some_2 lines c) as [l Hlk]; [lia|].
    unfold push_line. simpl. rewrite IH by lia. rewrite Hlk. simpl.
    rewrite (drop_S lines l c Hlk). simpl. rewrite <- app_assoc. f_equal. lia.
Qed.

Lemma copy_until_spec lines limit r c : c <= limit -> limit <= length lines ->
  copy_until lines limit (r, c) = (r ++ take (limit - c) (drop c lines), limit).
Proof.
  intros Hc Hl. unfold copy_until. simpl. rewrite Nat.min_l by done.
  rewrite copy_lines_spec by lia. f_equal. lia.
Qed.

Lemma apply_operations_spec lines ops r c post :
  drop c lines = List.map op_body (bfilter is_old ops) ++ post ->
  fold_left (apply_operation lines) ops (r, c) =
    (r ++ List.map op_body (bfilter is_new ops), c + length (bfilter is_old ops)).
Proof.
  revert r c. induction ops as [|[p b] ops IH]; intros r c Hd; simpl.
  - by rewrite app_nil_r, Nat.add_0_r.
  - destruct p; unfold apply_operation at 2; simpl in *.
    + assert (lines !! c = Some b) as Hlk.
      { pose proof (lookup_drop lines c 0) as Hl. rewrite Hd, Nat.add_0_r in Hl. by rewrite <- Hl. }
      unfold push_line. simpl. rewrite Hlk. simpl. rewrite IH.
      * rewrite <- app_assoc. f_equal. lia.
      * rewrite (drop_S lines b c Hlk) in Hd. by injection Hd.
    + assert (lines !! c = Some b) as Hlk.
      { pose proof (lookup_drop lines c 0) as Hl. rewrite Hd, Nat.add_0_r in Hl. by rewrite <- Hl. }
      rewrite IH; [f_equal; lia|]. rewrite (drop_S lines b c Hlk) in Hd. by injection Hd.
    + rewrite IH by done. by rewrite <- app_assoc.
Qed.

(** The patch relation: [old] is cut at the old sequences of the hunks, which
    are replaced by their new sequences; the gaps are kept. *)
Inductive patches : list Hunk -> list string -> list string -> Prop :=
| patches_nil ls : patches [] ls ls
| patches_cons h hs gap old new : patches hs old new ->
    patches (h :: hs) (gap ++ oldSequenceForHunk h ++ old) (gap ++ newSequence h ++ new).

Lemma patches_tail hs old new tail : patches hs old new -> patches hs (old ++ tail) (new ++ tail).
Proof.
  induction 1 as [ls|h hs gap old new _ IH]; [constructor|].
  rewrite <- !app_assoc. by constructor.
Qed.

Lemma patches_snoc hs old new h gap : patches hs old new ->
  patches (hs ++ [h]) (old ++ gap ++ oldSequenceForHunk h) (new ++ gap ++ newSequence h).
Proof.
  induction 1 as [ls|h' hs gap' old new _ IH]; simpl.
  - pose proof (patches_cons h [] (ls ++ gap) [] [] (patches_nil [])) as Hp.
    by rewrite !app_nil_r, <- !app_assoc in Hp.
  - rewrite <- !app_assoc. by constructor.
Qed.

Lemma apply_hunk_patches lines hs hunk st st' : apply_hunk lines st hunk = Ok st' ->
  st.2 <= length lines -> patches hs (take st.2 lines) st.1 ->
  st'.2 <= length lines /\ patches (hs ++ [hunk]) (take st'.2 lines) st'.1.
Proof.
  unfold apply_hunk. destruct st as [r c]. simpl. intros Heq Hc Hp.
  apply bind_Ok in Heq as (i & Hi & Heq). apply locateHunk_Ok in Hi as [[Hci Hil] Hocc]; [|done].
  rewrite copy_until_spec in Heq by done. destruct Hocc as (pre & post & Hlines & Hpre).
  assert (drop i lines = oldSequenceForHunk hunk ++ post) as Hdrop.
  { rewrite Hlines, <- Hpre. by rewrite drop_app_length. }
  unfold oldSequenceForHunk in Hdrop. rewrite (apply_operations_spec _ _ _ _ _ Hdrop) in Heq.
  injection Heq as <-. simpl.
  assert (length (bfilter is_old (hk_operations hunk)) = length (oldSequenceForHunk hunk)) as Hlen
    by (symmetry; apply length_map).
  rewrite Hlen. split.
  - rewrite Hlines, !length_app. lia.
  - replace (take (i + length (oldSequenceForHunk hunk)) lines) with
      (take c lines ++ take (i - c) (drop c lines) ++ oldSequenceForHunk hunk).
    + rewrite <- app_assoc. by apply patches_snoc.
    + rewrite app_assoc, take_take_drop. replace (c + (i - c)) with i by lia.
      rewrite Hlines, <- Hpre. rewrite take_app_length, app_assoc, take_app_length'; [done|].
      by rewrite length_app.
Qed.

Lemma apply_hunks_patches lines hs done st st' : foldM_js (apply_hunk lines) st hs = Ok st' ->
  st.2 <= length lines -> patches done (take st.2 lines) st.1 ->
  st'.2 <= length lines /\ patches (done ++ hs) (take st'.2 lines) st'.1.
Proof.
  revert done st. induction hs as [|h hs IH]; intros done st; cbn [foldM_js].
  - intros [= <-] Hl Hp. by rewrite app_nil_r.
  - intros (st1 & Hh & Hrest)%bind_Ok Hl Hp.
    destruct (apply_hunk_patches _ _ _ _ _ Hh Hl Hp) as [Hl1 Hp1].
    destruct (IH (done ++ [h]) st1 Hrest Hl1 Hp1) as [Hl2 Hp2]. by rewrite <- app_assoc in Hp2.
Qed.

(** C5: a diff that applies is a patch of the text: the lines of the original
    are some kept gaps around the old sequence of each hunk, in the order of
    the hunks, and the result is the same gaps around the new sequences; no
    other line is added, lost or moved. *)
Theorem applyUnifiedDiffToText_patches `{JsHost} text diff out :
  applyUnifiedDiffToText text diff = Some (Ok out) ->
  exists hunks lines, parseUnifiedDiffHunks diff = Some (Ok hunks) /\ hunks <> [] /\
    patches hunks (split_lines (str_coalesce text)) lines /\ out = js_join (String LF "") lines.
Proof.
  unfold applyUnifiedDiffToText. destruct (parse_total diff) as (parsed & Hp). rewrite Hp.
  set (orig := split_lines (str_coalesce text)). cbn [mbind option_bind]. intros Heq.
  assert (Heq' : (hunks ← parsed; st ← foldM_js (apply_hunk orig) ([], 0) hunks;
    Ok (js_join (String LF "") (copy_until orig (length orig) st).1)) = Ok out) by congruence.
  clear Heq. apply bind_Ok in Heq' as (hs & -> & Heq).
  apply bind_Ok in Heq as ([r c] & Hfold & Hout). apply Ok_inj in Hout as <-.
  exists hs, (copy_until orig (length orig) (r, c)).1. split; [done|]. split.
  { unfold parseUnifiedDiffHunks in Hp. destruct (collectHunks _ _) as [[|]|]; simpl in Hp; congruence. }
  destruct (apply_hunks_patches orig hs [] ([], 0) (r, c) Hfold) as [Hl Hpat]; simpl.
  { lia. }
  { constructor. }
  simpl in Hl, Hpat. split; [|done]. rewrite copy_until_spec by done. simpl.
  rewrite (firstn_all2 (drop c orig)) by (rewrite length_drop; lia).
  rewrite <- (take_drop c orig) at 1. by apply patches_tail.
Qed.

Lemma mismatchFrom_code lines d c ops : mm_code (mismatchFrom lines d c ops) = "repo_patch_context_mismatch"
  \/ mm_code (mismatchFrom lines d c ops) = "repo_patch_removal_mismatch".
Proof.
  revert c. induction ops as [|[p b] ops IH]; intros c; simpl; [by left|].
  destruct p; simpl; [destruct (negb _); [by left | apply IH]
    | destruct (negb _); [by right | apply IH] | apply IH].
Qed.

Lemma mismatch_code lines hunk d : mm_code (mismatchAtDeclaredPosition lines hunk d) = "repo_patch_context_mismatch"
  \/ mm_code (mismatchAtDeclaredPosition lines hunk d) = "repo_patch_removal_mismatch".
Proof. apply mismatchFrom_code. Qed.

Lemma locateHunk_nonempty lines hunk cursor : oldSequenceForHunk hunk <> [] ->
  locateHunk lines hunk cursor =
  if (cursor <=? declared hunk) && sequenceMatchesAt lines (oldSequenceForHunk hunk) (declared hunk)
  then Ok (declared hunk)
  else match exactSequenceMatches lines (oldSequenceForHunk hunk) cursor with
       | [m] => Ok m
       | [] =>
           let mismatch := mismatchAtDeclaredPosition lines hunk (declared hunk) in
           Throw (unifiedDiffError 409 (mm_code mismatch)
             ("unified diff " +:+
              (if String.eqb (mm_code mismatch) "repo_patch_removal_mismatch" then "removal"
               else "context") +:+
              " mismatch at original line " +:+ string_of_Z (Z.of_nat (mm_line mismatch)) +:+ ".")
             [("expected", mm_expected mismatch); ("found", mm_found mismatch);
              ("declared_line", VNum (Some (hk_oldStart hunk))); ("exact_context_matches", num 0)])
       | matches =>
           Throw (unifiedDiffError 409 "repo_patch_hunk_ambiguous"
             "unified diff hunk context matches multiple locations; refusing positional guess."
             [("declared_line", VNum (Some (hk_oldStart hunk)));
              ("candidate_lines", VArr (List.map (fun m => num (m + 1)) matches));
              ("old_line_count", num (length (oldSequenceForHunk hunk)))])
       end.
Proof. unfold locateHunk, declared. by destruct (oldSequenceForHunk hunk). Qed.

(** C38: a hunk with old lines is never placed by guess: it goes to its
    declared line if its old lines are there (and not before what is already
    patched), otherwise to the only place they occur, and it is refused when
    they occur at several places or nowhere. *)
Theorem locateHunk_correct lines hunk cursor :
  let old := oldSequenceForHunk hunk in
  let fits := cursor <= declared hunk /\ occurs lines old (declared hunk) in
  old <> [] ->
  (forall i, locateHunk lines hunk cursor = Ok i <->
     (fits /\ i = declared hunk) \/
     (~ fits /\ cursor <= i /\ occurs lines old i /\
      forall j, cursor <= j -> occurs lines old j -> j = i)) /\
  (forall e, locateHunk lines hunk cursor = Throw e ->
     (exists code status msg details, e = CodedErr code status msg details /\ status = 409%Z /\
       ((code = "repo_patch_hunk_ambiguous" /\ exists i j, i <> j /\ cursor <= i /\ cursor <= j /\
           occurs lines old i /\ occurs lines old j) \/
        ((code = "repo_patch_context_mismatch" \/ code = "repo_patch_removal_mismatch") /\
           forall i, cursor <= i -> ~ occurs lines old i)))).
Proof.
  intros old fits Hne. rewrite locateHunk_nonempty by done. fold old.
  assert ((cursor <=? declared hunk) && sequenceMatchesAt lines old (declared hunk) = true <-> fits)
    as Hfits by (rewrite andb_true_iff, Nat.leb_le, sequenceMatchesAt_true; done).
  pose proof (fun i => exactSequenceMatches_spec lines old cursor i Hne) as Hspec.
  pose proof (NoDup_exactSequenceMatches lines old cursor) as Hnd.
  destruct (_ && _).
  - assert fits as Hf by (by apply Hfits). split; [|done]. intros i. split.
    + intros [= <-]. by left.
    + by intros [[_ ->]|[Hn _]].
  - assert (~ fits) as Hf by (rewrite <- Hfits; done).
    destruct (exactSequenceMatches lines old cursor) as [|m [|m' ms]] eqn:Hm.
    + assert (forall i, cursor <= i -> ~ occurs lines old i) as Hnone.
      { intros i Hi Ho. assert (i ∈ []) as Hin by (by apply Hspec). by apply elem_of_nil in Hin. }
      split; [intros i; split; [done | naive_solver]|]. intros e [= <-].
      do 4 eexists. split; [reflexivity|]. split; [done|]. right. split; [|done]. apply mismatch_code.
    + split; [|done]. intros i. assert (m ∈ [m]) as [Hcm Hom]%Hspec by apply list_elem_of_here.
      split.
      * intros [= <-]. right. split; [done|]. split; [done|]. split; [done|]. intros j Hj Ho.
        assert (j ∈ [m]) as Hin by (by apply Hspec). by apply list_elem_of_singleton in Hin.
      * intros [[? _]|(_ & Hci & Ho & _)]; [done|].
        assert (i ∈ [m]) as Hin by (by apply Hspec). by apply list_elem_of_singleton in Hin as ->.
    + assert (m ∈ m :: m' :: ms /\ m' ∈ m :: m' :: ms) as [Hm1 Hm2]
        by (split; [apply list_elem_of_here | apply list_elem_of_further, list_elem_of_here]).
      apply Hspec in Hm1 as [Hc1 Ho1], Hm2 as [Hc2 Ho2].
      assert (m <> m') as Hdiff by (apply NoDup_cons in Hnd as [Hni _]; intros ->; apply Hni, list_elem_of_here).
      split.
      * intros i. split; [done|]. intros [[? _]|(_ & _ & _ & Hu)]; [done|].
        exfalso. apply Hdiff. by rewrite (Hu m), (Hu m').
      * intros e [= <-]. do 4 eexists. split; [reflexivity|]. split; [done|]. left. split; [done|].
        by exists m, m'.
Qed.

(** ** Examples *)

Definition unlines (ls : list string) : string := js_join (String LF "") ls.

Definition demo_text : jsval := VStr (unlines ["a"; "b"; "c"; "d"; "b"]).
Definition demo_diff : jsval :=
  VStr (unlines ["--- x"; "+++ y"; "@@ -1,2 +1,2 @@"; " a"; "-b"; "+B"; "@@ -9 +9 @@"; "-d"; "+D"; "+E"]).

Lemma applyUnifiedDiffToText_patches_witness :
  applyUnifiedDiffToText (H := demo_host) demo_text demo_diff
    = Some (Ok (unlines ["a"; "B"; "c"; "D"; "E"; "b"])) /\
  exists hunks lines, patches hunks ["a"; "b"; "c"; "d"; "b"] lines /\ length hunks = 2 /\
    unlines lines = unlines ["a"; "B"; "c"; "D"; "E"; "b"].
Proof.
  split; [vm_compute; reflexivity|].
  destruct (@applyUnifiedDiffToText_patches demo_host demo_text demo_diff
    (unlines ["a"; "B"; "c"; "D"; "E"; "b"])) as (hunks & lines & Hp & _ & Hpat & Ho);
    [vm_compute; reflexivity|].
  exists hunks, lines. split; [exact Hpat|]. split; [|symmetry; exact Ho].
  revert Hp. vm_compute. intros [= <-]. reflexivity.
Defined.

Definition demo_hunk : Hunk :=
  {| hk_oldStart := 9; hk_oldCount := 1; hk_newStart := 9; hk_newCount := 1;
     hk_operations := [{| op_prefix := Removal; op_body := "b" |}] |}.

Lemma locateHunk_correct_witness :
  locateHunk ["a"; "b"; "c"; "d"; "b"] demo_hunk 2 = Ok 4 /\
  exists i j, i <> j /\ occurs ["a"; "b"; "c"; "d"; "b"] ["b"] i /\
    occurs ["a"; "b"; "c"; "d"; "b"] ["b"] j.
Proof.
  split; [vm_compute; reflexivity|].
  destruct (locateHunk_correct ["a"; "b"; "c"; "d"; "b"] demo_hunk 0) as [_ Hthrow]; [done|].
  destruct (Hthrow _ eq_refl) as (code & status & msg & details & [= <- <- <- <-] & _ & [Hamb|Hnone]).
  - destruct Hamb as (_ & i & j & Hij & _ & _ & Hi & Hj). exists i, j. done.
  - destruct Hnone as [[Hc|Hc] _]; discriminate Hc.
Defined.
