(* ===== verification/KernelSupport.v ===== *)
(** * Helpers of the platform execution kernels

    platformExecutionEnvelopeKernel.js, platformScopedApprovalKernel.js and
    platformExecutionConcurrencyKernel.js exchange plain objects and open with
    the same helpers.  Objects are property lists here; a stored record is read
    back with [oget] and updated with [oset]. *)
From S2P Require Import Prelude Sorting JsString JsDate JsValue JsJson.

Definition DEFAULT_TTL_SECONDS : Z := 900.
Definition MAX_TTL_SECONDS : Z := 3600.

(** [{ ...o, k: v }] *)
Fixpoint oset (o : jsobj) (k : string) (v : jsval) : jsobj :=
  match o with
  | [] => [(k, v)]
  | (k', v') :: o' => if String.eqb k k' then (k', v) :: o' else (k', v') :: oset o' k v
  end.

(** [{ ok: false, status, ...details, secrets_included: false }] *)
Definition failure (status : string) (details : jsobj) : jsobj :=
  [("ok", VBool false); ("status", VStr status)] ++ details ++ [("secrets_included", VBool false)].

(** The flags every kernel result ends with. *)
Definition no_authority : jsobj :=
  [("provider_apply_allowed", VBool false); ("mutation_allowed", VBool false);
   ("enforcement_cutover", VBool false); ("secrets_included", VBool false)].

Definition is_ok (o : jsobj) : bool := is_true (oget o "ok").

Section Helpers.
Context `{JsHost}.

(** [String(value ?? "").trim().slice(0, max)] *)
Definition safeText (value : jsval) (max : nat) : string :=
  js_slice0 (js_trim (str_coalesce value)) max.

(** [value === true || Number(value || 0) === 1] *)
Definition bool_flag (value : jsval) : bool :=
  is_true value
  || match js_Number (js_or value (VNum (Some 0%Z))) with Some z => Z.eqb z 1 | None => false end.

(** [toDate(value, fallback)], as a time value. *)
Definition toDate (value : jsval) (fallback : Z) : Z :=
  match js_Date (js_or value (VDate (Some fallback))) with Some t => t | None => fallback end.

(** [date.toISOString()]: a [RangeError] outside the range of dates. *)
Definition to_iso (t : Z) : js string :=
  if valid_time t then Ok (toISOString t) else Throw (RangeErr "Invalid time value").

Definition addSeconds (t seconds : Z) : Z := (t + seconds * 1000)%Z.

(** [Math.floor] is the identity on the model's numbers. *)
Definition ttlSeconds (value : jsval) : Z :=
  match js_Number (js_or value (VNum (Some DEFAULT_TTL_SECONDS))) with
  | Some parsed => if Z.leb parsed 0 then DEFAULT_TTL_SECONDS else Z.min parsed MAX_TTL_SECONDS
  | None => DEFAULT_TTL_SECONDS
  end.

(** [stableJson] and [stableApprovalJson] are the canonical text of
    JsJson.v. *)
Definition stableHash (value : jsval) : string := sha256_hex (canonicalize value).

(** [new Set(list.map((item) => safeText(item, 128)).filter(Boolean)).has(s)] *)
Definition text_set_has (l : list jsval) (s : string) : bool :=
  negb (is_empty s) && sin s (List.map (fun item => safeText item 128) l).

(** [(v || [])] used as an array.  The key lists the kernels are given are
    arrays, [null] or absent; a truthy value that is no array, on which the code
    would throw, counts as empty. *)
Definition items (v : jsval) : list jsval := match v with VArr l => l | _ => [] end.
End Helpers.

#[global] Arguments safeText : simpl never.
#[global] Arguments bool_flag : simpl never.
#[global] Arguments toDate : simpl never.
#[global] Arguments ttlSeconds : simpl never.
#[global] Arguments stableHash : simpl never.

(** ** Lemmas *)

Lemma oget_oset o k v k' : oget (oset o k v) k' = if String.eqb k' k then v else oget o k'.
Proof.
  induction o as [|[k1 v1] o IH]; simpl; [done|].
  destruct (String.eqb_spec k k1) as [->|Hne]; simpl.
  - by destruct (String.eqb k' k1).
  - rewrite IH. destruct (String.eqb_spec k' k1) as [->|]; [|done].
    destruct (String.eqb_spec k1 k) as [->|]; [done | done].
Qed.

Lemma oget_oset_same o k v : oget (oset o k v) k = v.
Proof. by rewrite oget_oset, String.eqb_refl. Qed.

Lemma oget_oset_ne o k v k' : k' <> k -> oget (oset o k v) k' = oget o k'.
Proof. intros Hne. rewrite oget_oset. by apply String.eqb_neq in Hne as ->. Qed.

#[export] Hint Rewrite oget_oset_same : str_db.

(** Reads a field of a record updated by [oset]s. *)
Ltac read_fields := rewrite ?oget_oset; simpl.

Section HelperFacts.
Context `{JsHost}.

Lemma ttlSeconds_bounds v : (0 < ttlSeconds v <= MAX_TTL_SECONDS)%Z.
Proof.
  unfold ttlSeconds, DEFAULT_TTL_SECONDS, MAX_TTL_SECONDS.
  destruct (js_Number _) as [z|]; [|lia]. destruct (Z.leb_spec z 0); lia.
Qed.

Lemma bool_flag_false : bool_flag (VBool false) = false.
Proof. done. Qed.

Lemma is_empty_toISOString t : valid_time t = true -> is_empty (toISOString t) = false.
Proof.
  intros Ht. apply is_empty_false. intros He. pose proof (date_parse_iso_toISOString t Ht) as Hp.
  rewrite He in Hp. discriminate Hp.
Qed.

Lemma toDate_iso t fb : valid_time t = true -> toDate (VStr (toISOString t)) fb = t.
Proof.
  intros Ht. unfold toDate, js_or. simpl. rewrite is_empty_toISOString by done. simpl.
  by rewrite date_parse_toISOString.
Qed.

Lemma to_iso_Ok t s : to_iso t = Ok s <-> valid_time t = true /\ s = toISOString t.
Proof. unfold to_iso. destruct (valid_time t); naive_solver. Qed.

Lemma safeText_hex64 s : is_hex64 s = true -> safeText (VStr s) 128 = s.
Proof.
  intros Hs. unfold safeText. rewrite str_coalesce_str, is_hex64_trim by done.
  apply js_slice0_all. rewrite is_hex64_length by done. lia.
Qed.

Lemma is_empty_hex64 s : is_hex64 s = true -> is_empty s = false.
Proof. intros Hs%is_hex64_length. by destruct s. Qed.

(** Membership of a digest in a set of key texts. *)
Lemma text_set_has_hex64 l s : is_hex64 s = true ->
  text_set_has l s = sin s (List.map (fun item => safeText item 128) l).
Proof. intros Hs. unfold text_set_has. by rewrite is_empty_hex64. Qed.
End HelperFacts.
