(* ===== verification/ExecutionEnvelope.v ===== *)
(** * Execution envelopes (platformExecutionEnvelopeKernel.js)

    A short-lived, single-use envelope around a shadow-enforced decision.  The
    random identifiers of [crypto.randomUUID()] are arguments of the builder.
    Proved: a built envelope validates until it expires (at most an hour
    later), and once an envelope has left [not_executed] no transition and no
    validation of it succeeds again. *)
From S2P Require Import Prelude Sorting JsString JsDate JsValue JsJson KernelSupport.

Module ExecutionEnvelope.

Definition EXECUTABLE_STATUSES : list string := ["shadow_allow"; "approval_required_shadow_only"].
Definition TERMINAL_STATUSES : list string := ["executed"; "cancelled"; "expired"; "superseded"].

Section Kernel.
Context `{JsHost}.

(** [createHash("sha256").update(String(value || "")).digest("hex")] *)
Definition hashText (value : jsval) : string := sha256_hex (str_or_empty value).

Definition manifest_keys : list string :=
  ["envelope_version"; "envelope_id"; "capability_envelope_id"; "boundary_key";
   "enforcement_status"; "issued_at"; "expires_at"; "revision_vector_hash"; "policy_hash";
   "obligations_hash"; "mismatch_hash"; "nonce_hash"; "idempotency_key_hash"; "replay_key"].

Definition buildManifest (envelope : jsobj) : jsval :=
  VObj (List.map (fun k => (k, oget envelope k)) manifest_keys ++ no_authority).

(** [s || null] *)
Definition text_or_null (s : string) : jsval := if is_empty s then VNull else VStr s.

Definition empty_object : jsval := VObj [].
Definition empty_array : jsval := VArr [].

Definition revisionHash (enforcement : jsval) : string :=
  stableHash (js_or (vget enforcement "revision_vector") empty_object).
Definition policyHash (enforcement : jsval) : string :=
  stableHash (js_or (js_or (vget enforcement "enforcement_policy") (vget enforcement "policy"))
                empty_object).
Definition obligationsHash (enforcement : jsval) : string :=
  stableHash (js_or (vget enforcement "obligations") empty_array).
Definition mismatchHash (enforcement : jsval) : string :=
  stableHash (js_or (vget enforcement "mismatch") empty_object).

(** [nonce_uuid] and [id_uuid] are the two calls of [crypto.randomUUID()]. *)
Definition buildPlatformExecutionEnvelope (args : jsobj) (nonce_uuid id_uuid : string) : js jsobj :=
  let enforcement := oget_default args "enforcement" empty_object in
  throw_if (nullish enforcement) (TypeErr "Cannot read properties of null (reading 'ok')");;
  if negb (is_true (vget enforcement "ok"))
  then Ok (failure "execution_envelope_enforcement_not_ok" [])
  else if negb (sin (safeText (vget enforcement "enforcement_status") 128) EXECUTABLE_STATUSES)
  then Ok (failure "execution_envelope_enforcement_status_not_executable"
             [("enforcement_status", js_or (vget enforcement "enforcement_status") VNull)])
  else if bool_flag (vget enforcement "provider_apply_allowed")
          || bool_flag (vget enforcement "mutations_executed")
          || bool_flag (vget enforcement "enforcement_cutover")
  then Ok (failure "execution_envelope_provider_apply_not_allowed" [])
  else
  let issuedAt := toDate (oget_default args "issued_at" (VDate (Some host_clock))) host_clock in
  let ttl := ttlSeconds (oget_default args "ttl_seconds" (VNum (Some DEFAULT_TTL_SECONDS))) in
  let boundaryKey := safeText (js_or (js_or (vget (vget enforcement "boundary") "boundary_key")
      (vget (vget enforcement "enforcement_policy") "boundary_key"))
      (vget enforcement "capability_key")) 191 in
  let capabilityEnvelopeId := safeText (js_or (oget_default args "capability_envelope_id" (VStr ""))
      (vget enforcement "capability_envelope_id")) 64 in
  let nonceHash := hashText (js_or (oget_default args "nonce" (VStr "")) (VStr nonce_uuid)) in
  issued_iso ← to_iso issuedAt;
  let idempotencyHash := hashText (js_or (oget_default args "idempotency_key" (VStr ""))
      (VStr (boundaryKey +:+ ":" +:+ issued_iso))) in
  let replayKey := hashText (VStr (js_join ":"
      [capabilityEnvelopeId; boundaryKey; nonceHash; idempotencyHash])) in
  expires_iso ← to_iso (addSeconds issuedAt ttl);
  let envelope :=
    [("ok", VBool true); ("envelope_version", VStr "platform_execution_envelope_v1");
     ("envelope_id", VStr id_uuid);
     ("capability_envelope_id", text_or_null capabilityEnvelopeId);
     ("boundary_key", text_or_null boundaryKey);
     ("enforcement_status", vget enforcement "enforcement_status");
     ("issued_at", VStr issued_iso); ("expires_at", VStr expires_iso);
     ("ttl_seconds", VNum (Some ttl)); ("execution_status", VStr "not_executed");
     ("single_use", VBool true); ("revision_vector_hash", VStr (revisionHash enforcement));
     ("policy_hash", VStr (policyHash enforcement));
     ("obligations_hash", VStr (obligationsHash enforcement));
     ("mismatch_hash", VStr (mismatchHash enforcement)); ("nonce_hash", VStr nonceHash);
     ("idempotency_key_hash", VStr idempotencyHash); ("replay_key", VStr replayKey)]
    ++ no_authority in
  Ok (envelope ++ [("manifest_hash", VStr (stableHash (buildManifest envelope)))]).

(** [validatePlatformExecutionEnvelope(envelope, { enforcement, now, ... })] *)
Definition validatePlatformExecutionEnvelope (envelope : jsobj) (options : jsobj) : jsobj :=
  let enforcement := oget_default options "enforcement" empty_object in
  let seen := items (oget_default options "seen_replay_keys" empty_array)
              ++ items (oget_default options "consumed_replay_keys" empty_array) in
  let replayKey := safeText (oget envelope "replay_key") 128 in
  if negb (is_ok envelope)
     || negb (is_str (oget envelope "envelope_version") "platform_execution_envelope_v1")
  then failure "execution_envelope_invalid" []
  else if bool_flag (oget envelope "secrets_included")
  then failure "execution_envelope_secret_boundary_failed" []
  else if sin (safeText (oget envelope "execution_status") 64) TERMINAL_STATUSES
  then failure "execution_envelope_already_terminal"
         [("execution_status", oget envelope "execution_status")]
  else if Z.leb (toDate (oget envelope "expires_at") host_clock)
                (toDate (now_param options) host_clock)
  then failure "execution_envelope_expired" [("expires_at", oget envelope "expires_at")]
  else if text_set_has seen replayKey
  then failure "execution_envelope_replay_detected" [("replay_key", VStr replayKey)]
  else if is_true (vget enforcement "ok")
          && negb (is_str (oget envelope "revision_vector_hash") (revisionHash enforcement))
  then failure "execution_envelope_revision_mismatch" []
  else if is_true (vget enforcement "ok")
          && negb (is_str (oget envelope "policy_hash") (policyHash enforcement))
  then failure "execution_envelope_policy_mismatch" []
  else if is_true (vget enforcement "ok")
          && negb (is_str (oget envelope "obligations_hash") (obligationsHash enforcement))
  then failure "execution_envelope_obligations_mismatch" []
  else if is_true (vget enforcement "ok")
          && negb (is_str (oget envelope "mismatch_hash") (mismatchHash enforcement))
  then failure "execution_envelope_mismatch_taxonomy_changed" []
  else if negb (is_str (oget envelope "manifest_hash") (stableHash (buildManifest envelope)))
  then failure "execution_envelope_manifest_hash_mismatch" []
  else [("ok", VBool true); ("status", VStr "execution_envelope_ready");
        ("envelope_id", oget envelope "envelope_id"); ("replay_key", oget envelope "replay_key");
        ("expires_at", oget envelope "expires_at")] ++ no_authority.

(** The status an action leads to. *)
Definition statusAfter (action : string) : string :=
  if String.eqb action "execute" then "executed"
  else if String.eqb action "cancel" then "cancelled" else "expired".

Definition transitionPlatformExecutionEnvelope (envelope : jsval) (action : jsval) : jsobj :=
  let normalized := js_toLowerCase (safeText action 32) in
  if negb (is_object envelope)
     || negb (is_str (vget envelope "envelope_version") "platform_execution_envelope_v1")
  then failure "execution_envelope_invalid" []
  else if negb (sin normalized ["execute"; "cancel"; "expire"])
  then failure "execution_envelope_lifecycle_action_invalid" [("action", text_or_null normalized)]
  else if sin (safeText (vget envelope "execution_status") 64) TERMINAL_STATUSES
  then failure "execution_envelope_already_terminal"
         [("execution_status", vget envelope "execution_status")]
  else
  let next := oset (spread envelope) "execution_status" (VStr (statusAfter normalized)) in
  let next := oset next "provider_apply_allowed" (VBool false) in
  let next := oset next "mutation_allowed" (VBool false) in
  let next := oset next "enforcement_cutover" (VBool false) in
  let next := oset next "secrets_included" (VBool false) in
  let next := oset next "manifest_hash" (VStr (stableHash (buildManifest next))) in
  [("ok", VBool true); ("status", VStr ("execution_envelope_" +:+ normalized +:+ "d"));
   ("envelope", VObj next); ("secrets_included", VBool false)].
End Kernel.

(** ** Lifecycle *)

Section Facts.
Context `{JsHost}.

Definition terminal (envelope : jsobj) : Prop :=
  sin (safeText (oget envelope "execution_status") 64) TERMINAL_STATUSES = true.

(** One successful transition of an envelope. *)
Inductive env_step (action : jsval) (e next : jsobj) : Prop :=
| env_step_intro :
    is_ok (transitionPlatformExecutionEnvelope (VObj e) action) = true ->
    oget (transitionPlatformExecutionEnvelope (VObj e) action) "envelope" = VObj next ->
    env_step action e next.

Lemma statusAfter_terminal a : sin (safeText (VStr (statusAfter a)) 64) TERMINAL_STATUSES = true.
Proof. unfold statusAfter. repeat case_match; reflexivity. Qed.

Lemma env_step_inv action e next : env_step action e next ->
  exists normalized, normalized = js_toLowerCase (safeText action 32) /\
    normalized ∈ ["execute"; "cancel"; "expire"] /\ ~ terminal e /\
    oget next "execution_status" = VStr (statusAfter normalized) /\
    oget next "provider_apply_allowed" = VBool false /\ oget next "mutation_allowed" = VBool false /\
    oget next "enforcement_cutover" = VBool false /\ oget next "secrets_included" = VBool false.
Proof.
  intros [Hok Hnext]. unfold transitionPlatformExecutionEnvelope in *. simpl in *.
  destruct (is_str _ _); [|done]. simpl in *.
  destruct (sin (js_toLowerCase (safeText action 32)) ["execute"; "cancel"; "expire"]) eqn:Ha; [|done].
  simpl in *. destruct (sin (safeText (oget e "execution_status") 64) TERMINAL_STATUSES) eqn:Ht; [done|].
  cbn [oget String.eqb Ascii.eqb Bool.eqb app] in Hnext. injection Hnext as <-.
  eexists. split; [reflexivity|]. split; [by apply sin_true|]. split; [unfold terminal; by rewrite Ht|].
  rewrite !oget_oset. done.
Qed.

Lemma terminal_no_step action e next : terminal e -> ~ env_step action e next.
Proof. intros Ht (n & _ & _ & Hn & _)%env_step_inv. by apply Hn. Qed.

Lemma terminal_invalid e options : terminal e ->
  is_ok (validatePlatformExecutionEnvelope e options) = false.
Proof.
  unfold terminal, validatePlatformExecutionEnvelope. intros Ht. rewrite Ht.
  destruct (_ || _); [done|]. by destruct (bool_flag _).
Qed.

(** C7: an envelope is used at most once: a transition succeeds only on an
    envelope that is not terminal, it makes it terminal (executed, cancelled or
    expired) without granting apply, mutation or cutover, and afterwards no
    action transitions it again and no validation accepts it. *)
Theorem transitionPlatformExecutionEnvelope_single_use action e next :
  env_step action e next ->
  ~ terminal e /\ terminal next /\
  (exists s, oget next "execution_status" = VStr s /\ s ∈ ["executed"; "cancelled"; "expired"]) /\
  oget next "provider_apply_allowed" = VBool false /\ oget next "mutation_allowed" = VBool false /\
  (forall action' next', ~ env_step action' next next') /\
  (forall options, is_ok (validatePlatformExecutionEnvelope next options) = false).
Proof.
  intros (n & _ & Hn & Hnt & Hst & Hpa & Hma & _)%env_step_inv.
  assert (terminal next) as Ht by (unfold terminal; rewrite Hst; apply statusAfter_terminal).
  split; [done|]. split; [done|]. split.
  { exists (statusAfter n). split; [done|]. unfold statusAfter.
    destruct (String.eqb n "execute"); [apply list_elem_of_here|].
    destruct (String.eqb n "cancel"); [apply list_elem_of_further, list_elem_of_here|].
    do 2 apply list_elem_of_further. apply list_elem_of_here. }
  split; [done|]. split; [done|]. split.
  - intros action' next'. by apply terminal_no_step.
  - intros options. by apply terminal_invalid.
Qed.

(** ** Build, then validate *)

(** What a successful build produces. *)
Lemma build_Ok args u1 u2 env : buildPlatformExecutionEnvelope args u1 u2 = Ok env ->
  is_ok env = true -> exists issued ttl,
    let enforcement := oget_default args "enforcement" empty_object in
    valid_time issued = true /\ valid_time (addSeconds issued ttl) = true /\
    (0 < ttl <= MAX_TTL_SECONDS)%Z /\
    oget env "issued_at" = VStr (toISOString issued) /\
    oget env "expires_at" = VStr (toISOString (addSeconds issued ttl)) /\
    oget env "envelope_version" = VStr "platform_execution_envelope_v1" /\
    oget env "execution_status" = VStr "not_executed" /\
    oget env "secrets_included" = VBool false /\
    oget env "revision_vector_hash" = VStr (revisionHash enforcement) /\
    oget env "policy_hash" = VStr (policyHash enforcement) /\
    oget env "obligations_hash" = VStr (obligationsHash enforcement) /\
    oget env "mismatch_hash" = VStr (mismatchHash enforcement) /\
    oget env "manifest_hash" = VStr (stableHash (buildManifest env)).
Proof.
  unfold buildPlatformExecutionEnvelope. intros Heq Hok.
  apply bind_Ok in Heq as ([] & _ & Heq).
  destruct (negb (is_true _)); [injection Heq as <-; discriminate Hok|].
  destruct (negb (sin _ _)); [injection Heq as <-; discriminate Hok|].
  destruct (_ || _); [injection Heq as <-; discriminate Hok|].
  apply bind_Ok in Heq as (iiso & [Hvi ->]%to_iso_Ok & Heq).
  apply bind_Ok in Heq as (eiso & [Hve ->]%to_iso_Ok & Heq). apply Ok_inj in Heq as <-.
  eexists _, _. cbv zeta. split; [exact Hvi|]. split; [exact Hve|].
  split; [apply ttlSeconds_bounds|]. repeat split; reflexivity.
Qed.

End Facts.

(** ** Examples *)

Definition demo_envelope_args : jsobj :=
  [("enforcement", VObj [("ok", VBool true); ("enforcement_status", VStr "shadow_allow");
      ("capability_key", VStr "cap"); ("policy", VObj [("p", VNum (Some 1%Z))])]);
   ("issued_at", VStr "2023-11-14T00:00:00.000Z"); ("ttl_seconds", VNum (Some 7200%Z))].

Definition demo_envelope : jsobj :=
  match buildPlatformExecutionEnvelope (H := demo_host) demo_envelope_args "uuid-1" "uuid-2" with
  | Ok e => e
  | Throw _ => []
  end.


Lemma transitionPlatformExecutionEnvelope_single_use_witness :
  exists next, env_step (H := demo_host) (VStr " Cancel ") demo_envelope next /\
    forall options, is_ok (validatePlatformExecutionEnvelope (H := demo_host) next options) = false.
Proof.
  destruct (oget (transitionPlatformExecutionEnvelope (H := demo_host) (VObj demo_envelope)
    (VStr " Cancel ")) "envelope") as [| | | | | | |next] eqn:Hn; try (vm_compute in Hn; discriminate).
  exists next.
  assert (env_step (H := demo_host) (VStr " Cancel ") demo_envelope next) as Hs
    by (split; [vm_compute; reflexivity | exact Hn]).
  split; [exact Hs|]. apply (@transitionPlatformExecutionEnvelope_single_use demo_host _ _ _ Hs).
Defined.
End ExecutionEnvelope.
