(* ===== verification/ApprovalLog.v ===== *)
(** * Scoped approvals (platformScopedApprovalKernel.js)

    An approval request and its append-only, hash-chained decision log.
    Proved: a built request validates until it expires, appending a decision
    keeps the log valid and extends it by one linked record, and no decision
    follows a terminal one. *)
From S2P Require Import Prelude Sorting JsString JsDate JsValue JsJson KernelSupport.

Module ApprovalLog.

Definition DECISIONS : list string := ["approved"; "rejected"; "abstained"].
Definition TERMINAL_DECISIONS : list string := ["approved"; "rejected"].

(** [TERMINAL_DECISIONS.has(d)] *)
Definition terminal (d : jsval) : bool :=
  match d with VStr s => sin s TERMINAL_DECISIONS | _ => false end.

(** [s || null] *)
Definition text_or_null (s : string) : jsval := if is_empty s then VNull else VStr s.

Section Kernel.
Context `{JsHost}.

Definition approvalHash (value : jsval) : string := stableHash value.

(** [s.split(",")] *)
Fixpoint split_commas (s : string) : list string :=
  match s with
  | EmptyString => [""]
  | String c s' =>
      if Ascii.eqb c "," then "" :: split_commas s'
      else match split_commas s' with [] => [String c ""] | l :: ls => String c l :: ls end
  end.

Definition normalizePermissions (value : jsval) : list string :=
  let source := match value with
    | VArr l => l
    | _ => List.map VStr (split_commas (str_or_empty value))
    end in
  unique_sorted (bfilter (fun s => negb (is_empty s)) (List.map (fun item => safeText item 128) source)).

Definition normalizeScope (scope executionEnvelope : jsval) : jsval :=
  VObj [("tenant_id", text_or_null (safeText (js_or (vget scope "tenant_id")
           (vget executionEnvelope "tenant_id")) 64));
        ("workspace_id", text_or_null (safeText (js_or (vget scope "workspace_id")
           (vget executionEnvelope "workspace_id")) 64));
        ("boundary_key", text_or_null (safeText (js_or (vget scope "boundary_key")
           (vget executionEnvelope "boundary_key")) 191));
        ("capability_envelope_id", text_or_null (safeText (js_or (vget scope "capability_envelope_id")
           (vget executionEnvelope "capability_envelope_id")) 64));
        ("execution_envelope_id", text_or_null (safeText (js_or (vget scope "execution_envelope_id")
           (vget executionEnvelope "envelope_id")) 64));
        ("requested_permissions", VArr (List.map VStr (normalizePermissions
           (js_or (js_or (vget scope "requested_permissions") (vget scope "permissions")) (VArr [])))));
        ("max_uses", VNum (Some 1%Z))].

Definition request_keys : list string :=
  ["request_version"; "approval_request_id"; "execution_envelope_id";
   "execution_envelope_manifest_hash"; "request_scope_hash"; "requested_by"; "issued_at";
   "expires_at"].

Definition requestManifest (request : jsobj) : jsval :=
  VObj (List.map (fun k => (k, oget request k)) request_keys ++ no_authority).

Definition decisionMaterial (record : jsval) : jsval :=
  VObj ([("decision_version", vget record "decision_version");
         ("approval_request_id", vget record "approval_request_id");
         ("request_manifest_hash", vget record "request_manifest_hash");
         ("decision_sequence", vget record "decision_sequence");
         ("previous_decision_hash", js_or (vget record "previous_decision_hash") VNull);
         ("decision", vget record "decision"); ("decided_by", vget record "decided_by");
         ("decided_at", vget record "decided_at");
         ("decision_note_hash", vget record "decision_note_hash")] ++ no_authority).

(** [s || "system"] *)
Definition or_system (s : string) : string := if is_empty s then "system" else s.

(** [uuid] is the call of [crypto.randomUUID()]. *)
Definition buildScopedApprovalRequest (args : jsobj) (uuid : string) : js jsobj :=
  let execution_envelope := oget_default args "execution_envelope" (VObj []) in
  let requested_scope := oget_default args "requested_scope" (VObj []) in
  if negb (is_true (vget execution_envelope "ok"))
     || negb (is_str (vget execution_envelope "envelope_version") "platform_execution_envelope_v1")
  then Ok (failure "approval_request_execution_envelope_invalid" [])
  else if bool_flag (vget execution_envelope "provider_apply_allowed")
          || bool_flag (vget execution_envelope "mutation_allowed")
          || bool_flag (vget execution_envelope "enforcement_cutover")
  then Ok (failure "approval_request_execution_boundary_failed" [])
  else if negb (String.eqb (safeText (vget execution_envelope "execution_status") 64) "not_executed")
  then Ok (failure "approval_request_execution_envelope_not_pending"
             [("execution_status", js_or (vget execution_envelope "execution_status") VNull)])
  else
  let issuedAt := toDate (oget_default args "issued_at" (VDate (Some host_clock))) host_clock in
  let ttl := ttlSeconds (oget_default args "ttl_seconds" (VNum (Some DEFAULT_TTL_SECONDS))) in
  throw_if (nullish requested_scope) (TypeErr "Cannot read properties of null (reading 'tenant_id')");;
  let scope := normalizeScope requested_scope execution_envelope in
  issued_iso ← to_iso issuedAt;
  expires_iso ← to_iso (addSeconds issuedAt ttl);
  let request :=
    [("ok", VBool true); ("request_version", VStr "platform_scoped_approval_request_v1");
     ("approval_request_id", VStr uuid);
     ("execution_envelope_id", vget execution_envelope "envelope_id");
     ("execution_envelope_manifest_hash", vget execution_envelope "manifest_hash");
     ("request_scope", scope); ("request_scope_hash", VStr (approvalHash scope));
     ("requested_by", VStr (or_system (safeText (oget_default args "requested_by" (VStr "")) 191)));
     ("reason", VStr (safeText (oget_default args "reason" (VStr "")) 1000));
     ("status", VStr "pending_approval"); ("issued_at", VStr issued_iso);
     ("expires_at", VStr expires_iso); ("ttl_seconds", VNum (Some ttl));
     ("single_use", VBool true)] ++ no_authority in
  Ok (request ++ [("manifest_hash", VStr (approvalHash (requestManifest request)))]).

Definition validateScopedApprovalRequest (request : jsobj) (now : jsval) : jsobj :=
  if negb (is_ok request)
     || negb (is_str (oget request "request_version") "platform_scoped_approval_request_v1")
  then failure "approval_request_invalid" []
  else if bool_flag (oget request "secrets_included")
  then failure "approval_request_secret_boundary_failed" []
  else if bool_flag (oget request "provider_apply_allowed")
          || bool_flag (oget request "mutation_allowed")
          || bool_flag (oget request "enforcement_cutover")
  then failure "approval_request_execution_boundary_failed" []
  else if Z.leb (toDate (oget request "expires_at") host_clock) (toDate now host_clock)
  then failure "approval_request_expired" [("expires_at", oget request "expires_at")]
  else if negb (is_str (oget request "request_scope_hash")
                  (approvalHash (js_or (oget request "request_scope") (VObj []))))
  then failure "approval_request_scope_hash_mismatch" []
  else if negb (is_str (oget request "manifest_hash") (approvalHash (requestManifest request)))
  then failure "approval_request_manifest_hash_mismatch" []
  else [("ok", VBool true); ("status", VStr "approval_request_ready");
        ("approval_request_id", oget request "approval_request_id");
        ("request_scope_hash", oget request "request_scope_hash");
        ("expires_at", oget request "expires_at")] ++ no_authority.

(** [(v || null)] and [===] on hashes: both sides strings or [null]. *)
Definition same_hash (a b : jsval) : bool := strict_equal (js_or a VNull) (js_or b VNull).

(** The checks on the record at an index; [None] when it passes. *)
Definition checkRecord (approval_request : jsobj) (index : nat) (previous record : jsval)
    : option jsobj :=
  let fail status := Some (failure status [("index", VNum (Some (Z.of_nat index)))]) in
  if negb (is_str (vget record "decision_version") "platform_scoped_approval_decision_v1")
  then fail "approval_decision_record_invalid"
  else if negb (strict_equal (vget record "approval_request_id")
                  (oget approval_request "approval_request_id"))
  then fail "approval_decision_request_mismatch"
  else if negb (strict_equal (vget record "request_manifest_hash")
                  (oget approval_request "manifest_hash"))
  then fail "approval_decision_request_hash_mismatch"
  else if negb (match js_Number (js_or (vget record "decision_sequence") (VNum (Some 0%Z))) with
                | Some n => Z.eqb n (Z.of_nat index + 1)
                | None => false
                end)
  then fail "approval_decision_sequence_gap"
  else if negb (same_hash (vget record "previous_decision_hash") (vget previous "decision_hash"))
  then fail "approval_decision_hash_chain_broken"
  else if negb (is_str (vget record "decision_hash") (approvalHash (decisionMaterial record)))
  then fail "approval_decision_hash_mismatch"
  else if bool_flag (vget record "secrets_included")
  then fail "approval_decision_secret_boundary_failed"
  else None.

(** The loop: the first failure, or the last record. *)
Fixpoint checkRecords (approval_request : jsobj) (index : nat) (previous : jsval)
    (records : list jsval) : jsobj + jsval :=
  match records with
  | [] => inr previous
  | record :: rest =>
      match checkRecord approval_request index previous record with
      | Some f => inl f
      | None => checkRecords approval_request (S index) record rest
      end
  end.

Definition validateApprovalDecisionLog (approval_request : jsobj) (decision_log : jsval) : jsobj :=
  let requestCheck := validateScopedApprovalRequest approval_request
    (js_or (oget approval_request "issued_at") (VDate (Some host_clock))) in
  if negb (is_ok requestCheck) then requestCheck
  else match decision_log with
  | VArr records =>
      match checkRecords approval_request 0 VNull records with
      | inl f => f
      | inr previous =>
          [("ok", VBool true); ("status", VStr "approval_decision_log_valid");
           ("decision_count", VNum (Some (Z.of_nat (length records))));
           ("latest_decision", js_or (vget previous "decision") VNull);
           ("latest_decision_hash", js_or (vget previous "decision_hash") VNull)] ++ no_authority
      end
  | _ => failure "approval_decision_log_invalid" []
  end.

(** The record a decision appends, before its hash is set. *)
Definition decisionRecord (args approval_request : jsobj) (normalizedDecision decided_iso : string)
    (count : nat) (previous : jsval) : jsobj :=
  [("decision_version", VStr "platform_scoped_approval_decision_v1");
   ("approval_request_id", oget approval_request "approval_request_id");
   ("request_manifest_hash", oget approval_request "manifest_hash");
   ("decision_sequence", VNum (Some (Z.of_nat count + 1)%Z));
   ("previous_decision_hash", js_or (vget previous "decision_hash") VNull);
   ("decision", VStr normalizedDecision);
   ("decided_by", VStr (or_system (safeText (oget_default args "decided_by" (VStr "")) 191)));
   ("decided_at", VStr decided_iso);
   ("decision_note_hash", VStr (approvalHash
      (VStr (safeText (oget_default args "decision_note" (VStr "")) 1000))))] ++ no_authority.

Definition appendApprovalDecision (args : jsobj) : js jsobj :=
  let approval_request := spread (oget_default args "approval_request" (VObj [])) in
  let decision_log := oget_default args "decision_log" (VArr []) in
  let normalizedDecision := js_toLowerCase (safeText (oget_default args "decision" (VStr "")) 32) in
  if negb (sin normalizedDecision DECISIONS)
  then Ok (failure "approval_decision_invalid"
             [("decision", text_or_null normalizedDecision);
              ("allowed_decisions", VArr (List.map VStr DECISIONS))])
  else
  throw_if (nullish (oget_default args "approval_request" (VObj [])))
    (TypeErr "Cannot read properties of null (reading 'issued_at')");;
  let logCheck := validateApprovalDecisionLog approval_request decision_log in
  if negb (is_ok logCheck) then Ok logCheck
  else if terminal (oget logCheck "latest_decision")
  then Ok (failure "approval_decision_log_already_terminal"
             [("latest_decision", oget logCheck "latest_decision")])
  else
  let records := items decision_log in
  let previous := default VNull (last records) in
  decided_iso ← to_iso (toDate (oget_default args "decided_at" (VDate (Some host_clock))) host_clock);
  let record := decisionRecord args approval_request normalizedDecision decided_iso
                  (length records) previous in
  let record := record ++ [("decision_hash", VStr (approvalHash (decisionMaterial (VObj record))))] in
  Ok ([("ok", VBool true); ("status", VStr "approval_decision_appended");
       ("decision_record", VObj record); ("decision_log", VArr (records ++ [VObj record]));
       ("latest_decision", VStr normalizedDecision)] ++ no_authority).
End Kernel.

(** ** The chain *)

Section Facts.
Context `{JsHost}.

Lemma checkRecords_app req l r i prev : checkRecords req i prev (l ++ [r]) =
  match checkRecords req i prev l with
  | inl f => inl f
  | inr p => match checkRecord req (i + length l) p r with Some f => inl f | None => inr r end
  end.
Proof.
  revert i prev. induction l as [|x l IH]; intros i prev; simpl.
  - by rewrite Nat.add_0_r.
  - destruct (checkRecord req i prev x); [done|]. rewrite IH.
    by replace (S i + length l) with (i + S (length l)) by lia.
Qed.

Lemma checkRecords_last req l i prev p : checkRecords req i prev l = inr p -> p = default prev (last l).
Proof.
  revert i prev. induction l as [|x l IH]; intros i prev; simpl; [congruence|].
  destruct (checkRecord req i prev x); [done|]. intros Hc. rewrite (IH _ _ Hc), last_cons.
  by destruct (last l).
Qed.

(** A record that passes its checks. *)
Record linked (req : jsobj) (index : nat) (previous record : jsval) : Prop := {
  lk_request : strict_equal (vget record "approval_request_id") (oget req "approval_request_id") = true;
  lk_sequence : js_Number (js_or (vget record "decision_sequence") (VNum (Some 0%Z)))
    = Some (Z.of_nat index + 1)%Z;
  lk_previous : same_hash (vget record "previous_decision_hash") (vget previous "decision_hash") = true;
  lk_hash : vget record "decision_hash" = VStr (approvalHash (decisionMaterial record));
  lk_secrets : bool_flag (vget record "secrets_included") = false;
}.

Lemma checkRecord_linked req i prev r : checkRecord req i prev r = None -> linked req i prev r.
Proof.
  unfold checkRecord. destruct (is_str (vget r "decision_version") _); simpl; [|done].
  destruct (strict_equal (vget r "approval_request_id") _) eqn:Hid; simpl; [|done].
  destruct (strict_equal (vget r "request_manifest_hash") _); simpl; [|done].
  destruct (js_Number _) as [n|] eqn:Hn; simpl; [|done].
  destruct (Z.eqb_spec n (Z.of_nat i + 1)) as [->|]; simpl; [|done].
  destruct (same_hash _ _) eqn:Hp; simpl; [|done].
  destruct (is_str (vget r "decision_hash") _) eqn:Hh; simpl; [|done].
  destruct (bool_flag _) eqn:Hs; [done|]. intros _. split; try done. by apply is_str_true.
Qed.

(** A successful validation, read backwards. *)
Lemma validateLog_Ok req v : is_ok (validateApprovalDecisionLog req v) = true ->
  exists records, v = VArr records /\ checkRecords req 0 VNull records = inr (default VNull (last records)) /\
    oget (validateApprovalDecisionLog req v) "latest_decision" =
      js_or (vget (default VNull (last records)) "decision") VNull /\
    (exists mh, oget req "manifest_hash" = VStr mh).
Proof.
  unfold validateApprovalDecisionLog.
  destruct (is_ok (validateScopedApprovalRequest _ _)) eqn:Hreq; simpl; [|by rewrite Hreq].
  destruct v as [| | | | | |records|]; try done.
  destruct (checkRecords req 0 VNull records) as [f|p] eqn:Hc.
  - intros Hf. exfalso. revert Hf Hc. generalize 0, VNull. induction records as [|x l IH]; [done|].
    intros n v Hf. simpl. destruct (checkRecord req n v x) eqn:Hx; [|by apply IH].
    intros [= ->]. unfold checkRecord in Hx. revert Hx Hf. unfold is_ok.
    repeat case_match; try done; intros [= <-]; done.
  - intros _. pose proof (checkRecords_last _ _ _ _ _ Hc) as ->. exists records.
    split; [done|]. split; [done|]. split; [done|].
    revert Hreq. unfold validateScopedApprovalRequest, is_ok.
    repeat (destruct (_ || _); [done|]). destruct (bool_flag _); [done|].
    repeat (destruct (_ || _); [done|]). destruct (Z.leb _ _); [done|].
    destruct (negb _); [done|].
    destruct (is_str (oget req "manifest_hash") _) eqn:Hm; simpl; [|done]. intros _.
    apply is_str_true in Hm. by eexists.
Qed.

Lemma validateLog_intro req records : 
  is_ok (validateApprovalDecisionLog req (VArr [])) = true ->
  checkRecords req 0 VNull records = inr (default VNull (last records)) ->
  is_ok (validateApprovalDecisionLog req (VArr records)) = true /\
  oget (validateApprovalDecisionLog req (VArr records)) "latest_decision" =
    js_or (vget (default VNull (last records)) "decision") VNull /\
  oget (validateApprovalDecisionLog req (VArr records)) "decision_count" =
    VNum (Some (Z.of_nat (length records))).
Proof.
  unfold validateApprovalDecisionLog.
  destruct (is_ok (validateScopedApprovalRequest _ _)) eqn:Hreq; simpl; [|by rewrite Hreq].
  intros _ Hc. by rewrite Hc.
Qed.

Lemma js_or_null_idemp v : js_or (js_or v VNull) VNull = js_or v VNull.
Proof. unfold js_or. destruct (truthy v) eqn:Hv; [by rewrite Hv | done]. Qed.

(** The appended record passes the checks at the end of the log. *)
Lemma appended_checks req args d iso n prev :
  (exists id, oget req "approval_request_id" = VStr id) ->
  (exists mh, oget req "manifest_hash" = VStr mh) ->
  (prev = VNull \/ exists h, vget prev "decision_hash" = VStr h) ->
  let record := decisionRecord args req d iso n prev in
  checkRecord req n prev
    (VObj (record ++ [("decision_hash", VStr (approvalHash (decisionMaterial (VObj record))))])) = None.
Proof.
  intros [id Hid] [mh Hmh] Hprev record. subst record. unfold checkRecord.
  cbn [vget oget decisionRecord app String.eqb Ascii.eqb Bool.eqb no_authority is_str negb].
  rewrite Hid, Hmh. simpl strict_equal. rewrite !String.eqb_refl. cbn [negb].
  assert (js_Number (js_or (VNum (Some (Z.of_nat n + 1)%Z)) (VNum (Some 0%Z))) = Some (Z.of_nat n + 1)%Z) as ->.
  { unfold js_or. simpl. destruct (Z.eqb_spec (Z.of_nat n + 1) 0); [lia | done]. }
  rewrite Z.eqb_refl. cbn [negb].
  assert (same_hash (js_or (vget prev "decision_hash") VNull) (vget prev "decision_hash") = true) as ->.
  { unfold same_hash. rewrite js_or_null_idemp. destruct Hprev as [->|[h ->]]; [done|].
    unfold js_or. simpl. destruct (is_empty h); simpl; [done | apply String.eqb_refl]. }
  reflexivity.
Qed.

(** What a successful append does. *)
Lemma append_Ok args r : appendApprovalDecision args = Ok r -> is_ok r = true ->
  let req := spread (oget_default args "approval_request" (VObj [])) in
  exists records record d, oget_default args "decision_log" (VArr []) = VArr records /\
    oget r "decision_log" = VArr (records ++ [record]) /\ d ∈ DECISIONS /\
    vget record "decision" = VStr d /\ oget r "latest_decision" = VStr d /\
    is_ok (validateApprovalDecisionLog req (VArr records)) = true /\
    terminal (js_or (vget (default VNull (last records)) "decision") VNull) = false /\
    ((exists id, oget req "approval_request_id" = VStr id) ->
      checkRecord req (length records) (default VNull (last records)) record = None).
Proof.
  unfold appendApprovalDecision. intros Heq Hok.
  destruct (sin _ DECISIONS) eqn:Hd; simpl in Heq; [|injection Heq as <-; discriminate Hok].
  apply bind_Ok in Heq as ([] & _ & Heq).
  set (req := spread (oget_default args "approval_request" (VObj []))) in *.
  destruct (is_ok (validateApprovalDecisionLog req _)) eqn:Hv; simpl in Heq.
  2: { injection Heq as <-. congruence. }
  destruct (validateLog_Ok _ _ Hv) as (records & Hl & Hc & Hlat & Hmh). rewrite Hl, Hlat in *.
  destruct (terminal _) eqn:Ht;
    [injection Heq as <-; discriminate Hok|].
  apply bind_Ok in Heq as (iso & _ & Heq). apply Ok_inj in Heq as <-. cbv zeta.
  eexists records, _, _. split; [done|]. split; [reflexivity|]. split; [by apply sin_true|].
  split; [reflexivity|]. split; [reflexivity|]. split; [done|]. split; [exact Ht|].
  intros Hid. apply appended_checks; [done | done|].
  change (items (VArr records)) with records. clear - Hc.
  destruct records as [|x l] using rev_ind; [by left|]. right. rewrite last_snoc. simpl.
  rewrite last_snoc in Hc. rewrite checkRecords_app in Hc.
  destruct (checkRecords req 0 VNull l) as [|p]; [done|].
  destruct (checkRecord req _ p x) eqn:Hx; [done|]. apply checkRecord_linked in Hx as [_ _ _ Hh _].
  by eexists.
Qed.

(** Logs built by successive appends. *)
Inductive log_of (request : jsval) : list jsval -> Prop :=
| log_nil : log_of request []
| log_append args r records log : log_of request records ->
    oget_default args "approval_request" (VObj []) = request ->
    oget_default args "decision_log" (VArr []) = VArr records ->
    appendApprovalDecision args = Ok r -> is_ok r = true ->
    oget r "decision_log" = VArr log -> log_of request log.

Lemma terminal_decision record d : vget record "decision" = VStr d -> d ∈ DECISIONS ->
  terminal (js_or (vget record "decision") VNull) = terminal (vget record "decision").
Proof.
  intros -> Hd. unfold DECISIONS in Hd.
  repeat (apply elem_of_cons in Hd as [->|Hd]; [done|]). by apply elem_of_nil in Hd.
Qed.

Lemma log_of_inv request log : log_of request log ->
  Forall (fun record => exists d, vget record "decision" = VStr d /\ d ∈ DECISIONS) log /\
  forall i record, log !! i = Some record -> terminal (vget record "decision") = true ->
    i + 1 = length log.
Proof.
  induction 1 as [|args r records log Hlog [IHd IHt] Hreq Hin Happ Hok Hout].
  - split; [constructor | done].
  - destruct (append_Ok _ _ Happ Hok) as (records' & record & d & Hin' & Hout' & Hd & Hrd & _ & _ & Hnt & _).
    rewrite Hin in Hin'. injection Hin' as <-. rewrite Hout in Hout'. injection Hout' as ->. split.
    + apply Forall_app. split; [done|]. apply Forall_singleton. by exists d.
    + intros i rec Hi Ht. rewrite length_app. simpl.
      apply lookup_app_Some in Hi as [Hi|[Hl Hi]].
      * exfalso. pose proof (IHt i rec Hi Ht) as Hlast.
        assert (last records = Some rec) as Hrec.
        { rewrite last_lookup. replace (Nat.pred (length records)) with i by lia. done. }
        rewrite Hrec in Hnt. simpl in Hnt. rewrite Forall_forall in IHd.
        destruct (IHd rec) as (d' & Hd' & Hin'); [by apply list_elem_of_lookup_2 in Hi|].
        rewrite (terminal_decision rec d') in Hnt by done. congruence.
      * destruct (i - length records) as [|k] eqn:E; [lia | by destruct k].
Qed.

Lemma checkRecords_linked req l i prev p : checkRecords req i prev l = inr p ->
  forall j record, l !! j = Some record -> 
    linked req (i + j) (match j with O => prev | S j => default VNull (l !! j) end) record.
Proof.
  revert i prev. induction l as [|x l IH]; intros i prev; simpl; [done|].
  destruct (checkRecord req i prev x) eqn:Hx; [done|]. intros Hc [|j] record; simpl.
  - intros [= <-]. rewrite Nat.add_0_r. by apply checkRecord_linked.
  - intros Hj. pose proof (IH _ _ Hc j record Hj) as Hl.
    replace (i + S j) with (S i + j) by lia. destruct j; [done|]. exact Hl.
Qed.

(** Appending a decision to a log yields a valid log: the append is only
    accepted on a log that validates and has no terminal decision yet, it adds
    one record at the end, and the extended log validates with one more
    decision, its latest being the one given; the records of the result are
    numbered from 1 and each carries the hash of its predecessor. *)
Theorem appendApprovalDecision_valid args r id :
  appendApprovalDecision args = Ok r -> is_ok r = true ->
  let req := spread (oget_default args "approval_request" (VObj [])) in
  oget req "approval_request_id" = VStr id ->
  exists records record, oget_default args "decision_log" (VArr []) = VArr records /\
    oget r "decision_log" = VArr (records ++ [record]) /\
    is_ok (validateApprovalDecisionLog req (VArr records)) = true /\
    terminal (js_or (vget (default VNull (last records)) "decision") VNull) = false /\
    is_ok (validateApprovalDecisionLog req (VArr (records ++ [record]))) = true /\
    oget (validateApprovalDecisionLog req (VArr (records ++ [record]))) "latest_decision" =
      oget r "latest_decision" /\
    oget (validateApprovalDecisionLog req (VArr (records ++ [record]))) "decision_count" =
      VNum (Some (Z.of_nat (length records + 1))) /\
    forall j x, (records ++ [record]) !! j = Some x ->
      linked req j (match j with O => VNull | S j => default VNull ((records ++ [record]) !! j) end) x.
Proof.
  intros Happ Hok req Hid.
  destruct (append_Ok _ _ Happ Hok) as (records & record & d & Hin & Hout & Hd & Hrd & Hlat & Hv & Hnt & Hck).
  fold req in Hv, Hck. exists records, record. do 4 (split; [done|]).
  destruct (validateLog_Ok _ _ Hv) as (records' & [= <-] & Hc & _ & _).
  assert (checkRecords req 0 VNull (records ++ [record]) =
    inr (default VNull (last (records ++ [record])))) as Hc'.
  { rewrite checkRecords_app, Hc. simpl. rewrite Hck by eauto. by rewrite last_snoc. }
  assert (is_ok (validateApprovalDecisionLog req (VArr [])) = true) as Hnil.
  { revert Hv. unfold validateApprovalDecisionLog.
    destruct (is_ok (validateScopedApprovalRequest _ _)) eqn:Hr; simpl; [done | by rewrite Hr]. }
  destruct (validateLog_intro req _ Hnil Hc') as (H1 & H2 & H3).
  split; [done|]. split.
  { rewrite H2, last_snoc. simpl. rewrite Hrd, Hlat. unfold DECISIONS in Hd.
    repeat (apply elem_of_cons in Hd as [->|Hd]; [done|]). by apply elem_of_nil in Hd. }
  split; [by rewrite H3, length_app|]. intros j x Hj. by apply (checkRecords_linked _ _ _ _ _ Hc' j x).
Qed.

(** A terminal decision closes the log: in every log built by successive
    appends all decisions are among the three known ones and an approval or a
    rejection can only be the last record. *)
Theorem approval_log_terminal_last request log : log_of request log ->
  forall i record, log !! i = Some record ->
    (exists d, vget record "decision" = VStr d /\ d ∈ DECISIONS) /\
    (vget record "decision" = VStr "approved" \/ vget record "decision" = VStr "rejected" ->
     i + 1 = length log).
Proof.
  intros [Hd Ht]%log_of_inv i record Hi. rewrite Forall_forall in Hd. split.
  - apply Hd. by apply list_elem_of_lookup_2 in Hi.
  - intros Hdec. apply (Ht i record Hi). destruct Hdec as [-> | ->]; reflexivity.
Qed.
End Facts.

(** ** A concrete log *)

Definition demo_envelope_view : jsval :=
  VObj [("ok", VBool true); ("envelope_version", VStr "platform_execution_envelope_v1");
        ("envelope_id", VStr "env-1"); ("manifest_hash", VStr "0a");
        ("execution_status", VStr "not_executed"); ("tenant_id", VStr "t1")].

Definition demo_request_args : jsobj :=
  [("execution_envelope", demo_envelope_view); ("issued_at", VStr "2023-11-14T00:00:00.000Z");
   ("requested_by", VStr "owner"); ("ttl_seconds", VNum (Some 600%Z))].

Definition demo_request : jsobj :=
  Eval vm_compute in catch (buildScopedApprovalRequest (H := demo_host) demo_request_args "req-1") [].

Definition demo_append (log : jsval) (d : string) : jsobj :=
  [("approval_request", VObj demo_request); ("decision_log", log); ("decision", VStr d);
   ("decided_by", VStr "reviewer"); ("decided_at", VStr "2023-11-14T00:01:00.000Z")].

Definition demo_result1 : jsobj :=
  Eval vm_compute in catch (appendApprovalDecision (H := demo_host) (demo_append (VArr []) " Abstained")) [].
Definition demo_log1 : list jsval := Eval vm_compute in items (oget demo_result1 "decision_log").
Definition demo_result2 : jsobj :=
  Eval vm_compute in catch (appendApprovalDecision (H := demo_host) (demo_append (VArr demo_log1) "approved")) [].
Definition demo_log2 : list jsval := Eval vm_compute in items (oget demo_result2 "decision_log").

Lemma appendApprovalDecision_valid_witness :
  length demo_log1 = 1 /\
  exists records record, oget demo_result2 "decision_log" = VArr (records ++ [record]) /\
    oget (validateApprovalDecisionLog (H := demo_host) demo_request (VArr (records ++ [record])))
      "latest_decision" = oget demo_result2 "latest_decision".
Proof.
  split; [reflexivity|].
  destruct (@appendApprovalDecision_valid demo_host (demo_append (VArr demo_log1) "approved")
    demo_result2 "req-1") as (records & record & _ & Hout & _ & _ & _ & Hlat & _);
    [vm_compute; reflexivity | vm_compute; reflexivity | vm_compute; reflexivity|].
  exists records, record. split; [exact Hout | exact Hlat].
Defined.

Lemma approval_log_terminal_last_witness :
  vget (default VNull (demo_log2 !! 1)) "decision" = VStr "approved" /\
  (exists d, vget (default VNull (demo_log2 !! 0)) "decision" = VStr d /\ d ∈ DECISIONS).
Proof.
  split; [vm_compute; reflexivity|].
  assert (log_of (H := demo_host) (VObj demo_request) demo_log2) as Hlog.
  { apply (@log_append demo_host _ (demo_append (VArr demo_log1) "approved") demo_result2 demo_log1);
      [|vm_compute; reflexivity ..].
    apply (@log_append demo_host _ (demo_append (VArr []) " Abstained") demo_result1 []);
      [constructor|vm_compute; reflexivity ..]. }
  exact (proj1 (@approval_log_terminal_last demo_host _ _ Hlog 0 (default VNull (demo_log2 !! 0))
    eq_refl)).
Defined.
End ApprovalLog.
