(* ===== verification/ConcurrencyControl.v ===== *)
(** * Execution concurrency control (platformExecutionConcurrencyKernel.js)

    A control record binds an execution envelope, an approval request and its
    decision log; it is checked before an execution and its concurrency token
    is reserved.  Proved: a token reserved through the returned list of active
    tokens is never granted twice, and a built record is ready exactly when the
    envelope, the request and the log validate, the last decision approves and
    neither its idempotency key nor its token has been seen. *)
From S2P Require Import Prelude Sorting JsString JsDate JsValue JsJson KernelSupport.
From S2P Require Import ExecutionEnvelope ApprovalLog.

Module ConcurrencyControl.
Import ExecutionEnvelope ApprovalLog.

(** [failure] of this kernel, which also clears the authority flags. *)
Definition failure (status : string) (details : jsobj) : jsobj :=
  [("ok", VBool false); ("status", VStr status)] ++ details ++ no_authority.

Definition control_keys : list string :=
  ["control_version"; "execution_envelope_id"; "approval_request_id"; "execution_manifest_hash";
   "approval_request_manifest_hash"; "decision_log_hash"; "idempotency_key_hash";
   "stale_guard_hash"; "concurrency_token"; "lease_status"].

Definition buildControlMaterial (record : jsobj) : jsval :=
  VObj (List.map (fun k => (k, oget record k)) control_keys ++ no_authority).

(** [Array.isArray(log) && log.at(-1)?.decision === "approved"] *)
Definition latestApproved (decision_log : jsval) : bool :=
  match decision_log with
  | VArr l => is_str (vget (default VUndef (last l)) "decision") "approved"
  | _ => false
  end.

Section Kernel.
Context `{JsHost}.

(** [hash(value)]: the digest of [String(value ?? "")]. *)
Definition hash (value : jsval) : string := sha256_hex (str_coalesce value).

(** The callback [(record) => ({ sequence, hash })]. *)
Definition logEntry (record : jsval) : js jsval :=
  throw_if (nullish record)
    (TypeErr "Cannot read properties of null (reading 'decision_sequence')");;
  Ok (VObj [("sequence", vget record "decision_sequence"); ("hash", vget record "decision_hash")]).

Definition decisionLogHash (decision_log : jsval) : js string :=
  match decision_log with
  | VArr l => entries ← mapM_js logEntry l; Ok (approvalHash (VArr entries))
  | _ => Ok (approvalHash (VArr []))
  end.

Definition staleGuard (envelope request : jsval) (logHash : string) : jsval :=
  VObj [("execution_manifest_hash", vget envelope "manifest_hash");
        ("approval_request_manifest_hash", vget request "manifest_hash");
        ("decision_log_hash", VStr logHash);
        ("execution_status", vget envelope "execution_status");
        ("approval_status", vget request "status")].

(** [control_uuid] and [seed_uuid] are the calls of [crypto.randomUUID()]. *)
Definition buildExecutionConcurrencyRecord (args : jsobj) (control_uuid seed_uuid : string)
    : js jsobj :=
  let envelope := oget_default args "execution_envelope" (VObj []) in
  let request := oget_default args "approval_request" (VObj []) in
  if negb (is_true (vget envelope "ok"))
     || negb (is_str (vget envelope "envelope_version") "platform_execution_envelope_v1")
  then Ok (failure "execution_concurrency_envelope_invalid" [])
  else if negb (is_true (vget request "ok"))
     || negb (is_str (vget request "request_version") "platform_scoped_approval_request_v1")
  then Ok (failure "execution_concurrency_approval_request_invalid" [])
  else if bool_flag (vget envelope "provider_apply_allowed")
          || bool_flag (vget request "provider_apply_allowed")
  then Ok (failure "execution_concurrency_provider_apply_boundary_failed" [])
  else
  let idempotencyKey := safeText (js_or (oget_default args "idempotency_key" (VStr ""))
    (VStr (js_String (vget envelope "envelope_id") +:+ ":" +:+
           js_String (vget request "approval_request_id")))) 512 in
  logHash ← decisionLogHash (oget_default args "decision_log" (VArr []));
  let seed := js_String (js_or (oget_default args "concurrency_seed" (VStr "")) (VStr seed_uuid)) in
  let token := js_join ":" [seed; js_String (vget envelope "manifest_hash");
                            js_String (vget request "manifest_hash"); logHash] in
  let record :=
    [("ok", VBool true); ("control_version", VStr "platform_execution_concurrency_control_v1");
     ("control_id", VStr control_uuid);
     ("execution_envelope_id", vget envelope "envelope_id");
     ("approval_request_id", vget request "approval_request_id");
     ("execution_manifest_hash", vget envelope "manifest_hash");
     ("approval_request_manifest_hash", vget request "manifest_hash");
     ("decision_log_hash", VStr logHash);
     ("idempotency_key_hash", VStr (hash (VStr idempotencyKey)));
     ("stale_guard_hash", VStr (stableHash (staleGuard envelope request logHash)));
     ("concurrency_token", VStr (hash (VStr token)));
     ("lease_status", VStr (safeText (js_or (oget_default args "lease_status" (VStr "available"))
        (VStr "available")) 64))] ++ no_authority in
  Ok (record ++ [("control_hash", VStr (stableHash (buildControlMaterial record)))]).

(** [set.has(v)] on the set of the texts of a list of keys. *)
Definition key_in (keys v : jsval) : bool :=
  match v with VStr s => text_set_has (items keys) s | _ => false end.

(** The checks on the record before its documents are looked at. *)
Definition checkControl (record : jsobj) : option jsobj :=
  if negb (is_ok record)
     || negb (is_str (oget record "control_version") "platform_execution_concurrency_control_v1")
  then Some (failure "execution_concurrency_record_invalid" [])
  else if bool_flag (oget record "secrets_included")
  then Some (failure "execution_concurrency_secret_boundary_failed" [])
  else if bool_flag (oget record "provider_apply_allowed")
          || bool_flag (oget record "mutation_allowed") || bool_flag (oget record "enforcement_cutover")
  then Some (failure "execution_concurrency_apply_boundary_failed" [])
  else None.

(** The checks on the envelope, the request and the log. *)
Definition checkDocuments (options : jsobj) : option jsobj :=
  let envelope := oget_default options "execution_envelope" (VObj []) in
  let request := oget_default options "approval_request" (VObj []) in
  let log := oget_default options "decision_log" (VArr []) in
  let envelopeCheck := validatePlatformExecutionEnvelope (spread envelope)
    [("enforcement", oget_default options "current_enforcement" (VObj [])); ("now", now_param options)] in
  let requestCheck := validateScopedApprovalRequest (spread request) (now_param options) in
  let decisionCheck := validateApprovalDecisionLog (spread request) log in
  if negb (is_ok envelopeCheck)
  then Some (failure "execution_concurrency_envelope_stale"
               [("envelope_status", oget envelopeCheck "status")])
  else if negb (is_ok requestCheck)
  then Some (failure "execution_concurrency_approval_request_stale"
               [("approval_status", oget requestCheck "status")])
  else if negb (is_ok decisionCheck)
  then Some (failure "execution_concurrency_decision_log_invalid"
               [("decision_status", oget decisionCheck "status")])
  else if negb (latestApproved log)
  then Some (failure "execution_concurrency_approval_not_terminal_approved"
               [("latest_decision", oget decisionCheck "latest_decision")])
  else None.

(** The checks that the record describes those documents. *)
Definition checkBinding (record : jsobj) (envelope request : jsval) (logHash : string)
    : option jsobj :=
  if negb (strict_equal (oget record "execution_manifest_hash") (vget envelope "manifest_hash"))
  then Some (failure "execution_concurrency_execution_manifest_mismatch" [])
  else if negb (strict_equal (oget record "approval_request_manifest_hash")
                  (vget request "manifest_hash"))
  then Some (failure "execution_concurrency_approval_manifest_mismatch" [])
  else if negb (is_str (oget record "decision_log_hash") logHash)
  then Some (failure "execution_concurrency_decision_log_hash_mismatch" [])
  else if negb (is_str (oget record "stale_guard_hash")
                  (stableHash (staleGuard envelope request logHash)))
  then Some (failure "execution_concurrency_stale_guard_mismatch" [])
  else if negb (is_str (oget record "control_hash") (stableHash (buildControlMaterial record)))
  then Some (failure "execution_concurrency_control_hash_mismatch" [])
  else None.

(** The checks against what other executions have used. *)
Definition checkUse (record options : jsobj) : option jsobj :=
  let expected := oget_default options "expected_concurrency_token" (VStr "") in
  if key_in (oget_default options "seen_idempotency_keys" (VArr [])) (oget record "idempotency_key_hash")
  then Some (failure "execution_concurrency_idempotency_replay_detected"
               [("idempotency_key_hash", oget record "idempotency_key_hash")])
  else if key_in (oget_default options "active_concurrency_tokens" (VArr []))
            (oget record "concurrency_token")
  then Some (failure "execution_concurrency_lock_conflict"
               [("concurrency_token", oget record "concurrency_token")])
  else if truthy expected && negb (strict_equal expected (oget record "concurrency_token"))
  then Some (failure "execution_concurrency_token_mismatch" [])
  else None.

Definition validateExecutionConcurrencyControl (record options : jsobj) : js jsobj :=
  match checkControl record with
  | Some f => Ok f
  | None =>
  match checkDocuments options with
  | Some f => Ok f
  | None =>
  logHash ← decisionLogHash (oget_default options "decision_log" (VArr []));
  match checkBinding record (oget_default options "execution_envelope" (VObj []))
          (oget_default options "approval_request" (VObj [])) logHash with
  | Some f => Ok f
  | None =>
  match checkUse record options with
  | Some f => Ok f
  | None =>
      Ok ([("ok", VBool true); ("status", VStr "execution_concurrency_ready");
           ("control_id", oget record "control_id");
           ("idempotency_key_hash", oget record "idempotency_key_hash");
           ("concurrency_token", oget record "concurrency_token")] ++ no_authority)
  end
  end
  end
  end.

(** [[...activeTokens]] *)
Definition tokenSet (tokens : jsval) : list string :=
  dedup (bfilter (fun s => negb (is_empty s)) (List.map (fun item => safeText item 128) (items tokens))).

(** The record a reservation returns. *)
Definition reservedRecord (record : jsobj) : jsobj :=
  let reserved := oset record "lease_status" (VStr "reserved") in
  let reserved := oset reserved "provider_apply_allowed" (VBool false) in
  let reserved := oset reserved "mutation_allowed" (VBool false) in
  let reserved := oset reserved "enforcement_cutover" (VBool false) in
  let reserved := oset reserved "secrets_included" (VBool false) in
  oset reserved "control_hash" (VStr (stableHash (buildControlMaterial reserved))).

Definition reserveExecutionConcurrencyControl (record options : jsobj) : jsobj :=
  let active := oget_default options "active_concurrency_tokens" (VArr []) in
  if negb (is_ok record)
     || negb (is_str (oget record "control_version") "platform_execution_concurrency_control_v1")
  then failure "execution_concurrency_record_invalid" []
  else if key_in active (oget record "concurrency_token")
  then failure "execution_concurrency_lock_conflict"
         [("concurrency_token", oget record "concurrency_token")]
  else
  let reserved := reservedRecord record in
  [("ok", VBool true); ("status", VStr "execution_concurrency_reserved");
   ("record", VObj reserved);
   ("active_concurrency_tokens",
    VArr (List.map VStr (tokenSet active) ++ [oget reserved "concurrency_token"]))] ++ no_authority.
End Kernel.

Section Facts.
Context `{JsHost, !JsHostLaws}.

(** ** Reservations *)

Lemma hex64_texts held : Forall (fun t => is_hex64 t = true) held ->
  List.map (fun t => safeText (VStr t) 128) held = held.
Proof. induction 1 as [|t held Ht _ IH]; [done|]. simpl. by rewrite safeText_hex64, IH. Qed.

Lemma tokenSet_hex64 held : Forall (fun t => is_hex64 t = true) held -> NoDup held ->
  tokenSet (VArr (List.map VStr held)) = held.
Proof.
  intros Hhex Hnd. unfold tokenSet. simpl items. rewrite map_map, hex64_texts by done.
  rewrite bfilter_all; [by apply dedup_id|].
  intros t Ht. rewrite Forall_forall in Hhex. rewrite is_empty_hex64; [done|]. by apply Hhex.
Qed.

Lemma key_in_hex64 held t : Forall (fun t => is_hex64 t = true) held -> is_hex64 t = true ->
  key_in (VArr (List.map VStr held)) (VStr t) = sin t held.
Proof.
  intros Hhex Ht. simpl. by rewrite text_set_has_hex64, map_map, hex64_texts.
Qed.

Lemma reservedRecord_token record : oget (reservedRecord record) "concurrency_token" =
  oget record "concurrency_token".
Proof. unfold reservedRecord. by rewrite !oget_oset_ne. Qed.

(** Reservations that thread the returned list of active tokens: the list and
    the tokens granted so far.  The tokens of built records are digests. *)
Inductive lease_run : jsval -> list string -> Prop :=
| lease_start : lease_run (VArr []) []
| lease_reserve active held record token options r :
    lease_run active held ->
    oget_default options "active_concurrency_tokens" (VArr []) = active ->
    oget record "concurrency_token" = VStr token -> is_hex64 token = true ->
    reserveExecutionConcurrencyControl record options = r -> is_ok r = true ->
    lease_run (oget r "active_concurrency_tokens") (held ++ [token]).

Lemma lease_run_inv active held : lease_run active held ->
  active = VArr (List.map VStr held) /\ NoDup held /\ Forall (fun t => is_hex64 t = true) held.
Proof.
  induction 1 as [|active held record token options r _ (-> & Hnd & Hhex) Ha Htok Ht <- Hok].
  - split; [done|]. split; constructor.
  - revert Hok. unfold reserveExecutionConcurrencyControl. rewrite Ha, Htok, key_in_hex64 by done.
    destruct (negb _ || _); [done|]. destruct (sin token held) eqn:Hin; [done|]. intros _. simpl.
    rewrite reservedRecord_token, Htok, tokenSet_hex64, map_app by done. split; [done|].
    apply sin_false in Hin. split; [|by rewrite Forall_app, Forall_singleton].
    apply NoDup_app. split; [done|]. split; [|apply NoDup_singleton].
    intros t Hin' ->%list_elem_of_singleton. done.
Qed.

(** ** Built records *)

Lemma strict_equal_str s : strict_equal (VStr s) (VStr s) = true.
Proof. apply String.eqb_refl. Qed.

Lemma is_str_refl s : is_str (VStr s) s = true.
Proof. apply String.eqb_refl. Qed.

Lemma envelope_manifest envelope options :
  is_ok (validatePlatformExecutionEnvelope envelope options) = true ->
  exists mh, oget envelope "manifest_hash" = VStr mh.
Proof.
  unfold validatePlatformExecutionEnvelope. cbv zeta.
  repeat (match goal with |- is_ok (if ?c then _ else _) = true -> _ => destruct c eqn:?; [done|] end).
  intros _. eexists. apply is_str_true. by apply negb_false_iff.
Qed.

(** The record a successful build returns. *)
Lemma control_build_Ok args u1 u2 record :
  buildExecutionConcurrencyRecord args u1 u2 = Ok record -> is_ok record = true ->
  let envelope := oget_default args "execution_envelope" (VObj []) in
  let request := oget_default args "approval_request" (VObj []) in
  exists e q logHash key token, envelope = VObj e /\ request = VObj q /\
    decisionLogHash (oget_default args "decision_log" (VArr [])) = Ok logHash /\
    oget record "idempotency_key_hash" = VStr (sha256_hex key) /\
    oget record "concurrency_token" = VStr (sha256_hex token) /\
    checkControl record = None /\
    forall mh rh, oget e "manifest_hash" = VStr mh -> oget q "manifest_hash" = VStr rh ->
      checkBinding record envelope request logHash = None.
Proof.
  intros Hb Hok envelope request. unfold buildExecutionConcurrencyRecord in Hb.
  fold envelope request in Hb.
  destruct (is_true (vget envelope "ok")) eqn:He; simpl in Hb; [|by apply Ok_inj in Hb as <-].
  destruct envelope as [| | | | | | |e]; try done.
  destruct (is_str (vget (VObj e) "envelope_version") _); simpl in Hb; [|by apply Ok_inj in Hb as <-].
  destruct (is_true (vget request "ok")) eqn:Hq; simpl in Hb; [|by apply Ok_inj in Hb as <-].
  destruct request as [| | | | | | |q]; try done.
  destruct (is_str (vget (VObj q) "request_version") _); simpl in Hb; [|by apply Ok_inj in Hb as <-].
  destruct (bool_flag _ || bool_flag _); [by apply Ok_inj in Hb as <-|].
  apply bind_Ok in Hb as (logHash & Hlog & Hb). apply Ok_inj in Hb as <-. clear Hok.
  eexists e, q, logHash, _, _. do 3 (split; [done|]).
  split; [reflexivity|]. split; [reflexivity|]. split; [reflexivity|].
  intros mh rh Hmh Hrh. unfold checkBinding. cbn [oget vget app String.eqb Ascii.eqb Bool.eqb].
  rewrite Hmh, Hrh, !strict_equal_str, !is_str_refl. simpl negb. cbn iota.
  reflexivity.
Qed.

(** ** The properties *)

(** The use checks of a record whose key and token are digests. *)
Lemma checkUse_None record options k t : oget record "idempotency_key_hash" = VStr k ->
  oget record "concurrency_token" = VStr t -> is_hex64 k = true -> is_hex64 t = true ->
  let texts name := List.map (fun item => safeText item 128)
                      (items (oget_default options name (VArr []))) in
  let expected := oget_default options "expected_concurrency_token" (VStr "") in
  checkUse record options = None <->
  (k ∉ texts "seen_idempotency_keys") /\ (t ∉ texts "active_concurrency_tokens") /\
  (truthy expected = true -> expected = VStr t).
Proof.
  intros Hk Ht Hhk Hht texts expected. unfold checkUse, key_in.
  rewrite Hk, Ht, !text_set_has_hex64 by done. fold (texts "seen_idempotency_keys").
  fold (texts "active_concurrency_tokens"). fold expected.
  rewrite <- !sin_false. destruct (sin k _); [naive_solver|]. destruct (sin t _); [naive_solver|].
  destruct (truthy expected); simpl; [|naive_solver].
  assert (strict_equal expected (VStr t) = true <-> expected = VStr t) as Heq.
  { destruct expected as [| | |[]|s| | |]; simpl; try done. rewrite String.eqb_eq. naive_solver. }
  destruct (strict_equal _ _); naive_solver.
Qed.

Lemma is_ok_checks record options logHash :
  decisionLogHash (oget_default options "decision_log" (VArr [])) = Ok logHash ->
  checkControl record = None ->
  exists r, validateExecutionConcurrencyControl record options = Ok r /\
    (is_ok r = true <-> checkDocuments options = None /\
      checkBinding record (oget_default options "execution_envelope" (VObj []))
        (oget_default options "approval_request" (VObj [])) logHash = None /\
      checkUse record options = None).
Proof.
  intros Hlog Hctl. unfold validateExecutionConcurrencyControl. rewrite Hctl, Hlog. simpl.
  destruct (checkDocuments options) as [f|] eqn:Hd.
  { exists f. split; [done|]. split; [|naive_solver]. revert Hd. unfold checkDocuments. cbv zeta.
    repeat case_match; intros [= <-]; done. }
  destruct (checkBinding _ _ _ _) as [f|] eqn:Hb.
  { exists f. split; [done|]. split; [|naive_solver]. revert Hb. unfold checkBinding.
    repeat case_match; intros [= <-]; done. }
  destruct (checkUse _ _) as [f|] eqn:Hu.
  { exists f. split; [done|]. split; [|naive_solver]. revert Hu. unfold checkUse. cbv zeta.
    repeat case_match; intros [= <-]; done. }
  eexists. split; [done|]. done.
Qed.


(** A record built for an envelope, a request and a decision log is ready,
    against the same documents, exactly when the envelope and the request still
    validate, the log validates and ends in an approval, the record's
    idempotency key has not been seen, its token is not active and it is the
    expected token, if one is expected; the check never throws. *)
Theorem built_control_ready args u1 u2 record options :
  buildExecutionConcurrencyRecord args u1 u2 = Ok record -> is_ok record = true ->
  (forall name d, name ∈ ["execution_envelope"; "approval_request"; "decision_log"] ->
    oget_default options name d = oget_default args name d) ->
  let texts name := List.map (fun item => safeText item 128)
                      (items (oget_default options name (VArr []))) in
  exists r k t, validateExecutionConcurrencyControl record options = Ok r /\
    oget record "idempotency_key_hash" = VStr k /\ oget record "concurrency_token" = VStr t /\
    (is_ok r = true <-> checkDocuments options = None /\
      (k ∉ texts "seen_idempotency_keys") /\ (t ∉ texts "active_concurrency_tokens") /\
      (truthy (oget_default options "expected_concurrency_token" (VStr "")) = true ->
       oget_default options "expected_concurrency_token" (VStr "") = VStr t)).
Proof.
  intros Hb Hok Hsame texts.
  destruct (control_build_Ok args u1 u2 record Hb Hok) as
    (e & q & logHash & key & token & He & Hq & Hlog & Hk & Ht & Hctl & Hbind).
  rewrite <- Hsame in Hlog, He, Hq by set_solver.
  destruct (is_ok_checks record options logHash Hlog Hctl) as (r & Hr & Hiff).
  exists r, (sha256_hex key), (sha256_hex token). split; [done|]. split; [exact Hk|]. split; [exact Ht|].
  rewrite Hiff, (checkUse_None record options _ _ Hk Ht) by apply sha256_hex64. split; [naive_solver|].
  intros (Hd & Huse). split; [done|]. split; [|done].
  assert (exists mh rh, oget e "manifest_hash" = VStr mh /\ oget q "manifest_hash" = VStr rh)
    as (mh & rh & Hmh & Hrh).
  { revert Hd. unfold checkDocuments. rewrite He, Hq. simpl spread.
    destruct (is_ok (validatePlatformExecutionEnvelope _ _)) eqn:Hv; simpl; [|done].
    destruct (is_ok (validateScopedApprovalRequest _ _)); simpl; [|done].
    destruct (is_ok (validateApprovalDecisionLog _ _)) eqn:Hl; simpl; [|done]. intros _.
    apply envelope_manifest in Hv as [mh Hmh]. apply validateLog_Ok in Hl as (_ & _ & _ & _ & rh & Hrh).
    by exists mh, rh. }
  rewrite Hsame, (Hsame "approval_request") by set_solver. by apply (Hbind mh rh).
Qed.
End Facts.

(** ** Examples *)

Definition demo_control_request : jsobj :=
  Eval vm_compute in catch (buildScopedApprovalRequest (H := demo_host)
    [("execution_envelope", VObj demo_envelope); ("issued_at", VStr "2023-11-14T00:00:00.000Z")]
    "req-2") [].

Definition demo_control_log : jsval :=
  Eval vm_compute in oget (catch (appendApprovalDecision (H := demo_host)
    [("approval_request", VObj demo_control_request); ("decision", VStr "approved");
     ("decided_at", VStr "2023-11-14T00:01:00.000Z")]) []) "decision_log".

Definition demo_control_args : jsobj :=
  [("execution_envelope", VObj demo_envelope); ("approval_request", VObj demo_control_request);
   ("decision_log", demo_control_log); ("now", VStr "2023-11-14T00:02:00.000Z")].

Definition demo_control : jsobj :=
  Eval vm_compute in catch (buildExecutionConcurrencyRecord (H := demo_host) demo_control_args
    "control-1" "seed-1") [].

Definition demo_token : string :=
  Eval vm_compute in match oget demo_control "concurrency_token" with VStr s => s | _ => "" end.


Lemma built_control_ready_witness :
  exists r, validateExecutionConcurrencyControl (H := demo_host) demo_control demo_control_args = Ok r
    /\ is_ok r = true.
Proof.
  destruct (@built_control_ready demo_host demo_host_laws demo_control_args "control-1" "seed-1"
    demo_control demo_control_args) as (r & k & t & Hr & Hk & Ht & Hiff);
    [vm_compute; reflexivity | vm_compute; reflexivity | reflexivity|].
  exists r. split; [exact Hr|]. apply Hiff. split; [vm_compute; reflexivity|].
  split; [apply not_elem_of_nil|]. split; [apply not_elem_of_nil|]. vm_compute. discriminate.
Defined.
End ConcurrencyControl.
