(* ===== verification/ApplicationSupport.v ===== *)
(** * Application support (contextKernel/application/applicationSupport.js)

    What the application services share: argument checks, the redaction of
    everything they return, and their errors.  The services read and write
    through repository ports (repositoryPorts.js); a port is a function of the
    call and of the calls made before it, and a service is a computation that
    extends the trace of calls. *)
From S2P Require Import Prelude Sorting JsString JsDate JsValue JsJson Redaction ContextModel.
From S2P Require Import ContextIntegrity.

Module ApplicationSupport.

Definition SAFE_SECURITY_FLAG_KEYS : list string :=
  ["automaticretryperformed"; "automaticwriteperformed"; "credentialpayloadread";
   "credentialpayloadreads"; "providercallmade"; "readbackperformed"; "retryallowed";
   "secretsincluded"].

(** The same letters and digits as [normalizeKey] of contextIntegrity.js. *)
Definition normalizedKey (value : string) : string := normalizeKey value.

Definition isSensitiveKey (key : string) : bool :=
  let normalized := normalizedKey key in
  if sin normalized SAFE_SECURITY_FLAG_KEYS then false
  else if js_endsWith normalized "ref" || js_endsWith normalized "id" then false
  else
    sin normalized SENSITIVE_EXACT_KEYS
    || js_includes normalized "credential"
    || js_includes normalized "secret"
    || js_includes normalized "token"
    || js_includes normalized "password"
    || js_includes normalized "privatekey"
    || js_includes normalized "apikey".

Definition ContextApplicationError (code message : string) (status : Z) (details : jsobj) : jserror :=
  CodedErr code status message details.

Definition requireApplicationString (value : jsval) (fieldName : string) : js string :=
  match value with
  | VStr s =>
      if is_empty (js_trim s) then type_error (fieldName +:+ " must be a non-empty string.")
      else Ok (js_trim s)
  | _ => type_error (fieldName +:+ " must be a non-empty string.")
  end.

Definition optionalApplicationString (value : jsval) : js (option string) :=
  if is_blank value then Ok None
  else s ← requireApplicationString value "value"; Ok (Some s).

Definition requireApplicationObject (value : jsval) (fieldName : string) : js jsval :=
  if negb (is_record value) then type_error (fieldName +:+ " must be an object.") else Ok value.

Definition sanitizeApplicationValue : jsval -> jsval := redact isSensitiveKey.

(** [set.has(v)] *)
Definition in_set (v : jsval) (l : list string) : bool :=
  match v with VStr s => sin s l | _ => false end.

(** [v || null] *)
Definition or_null (v : jsval) : jsval := js_or v VNull.

(** [deepFreeze(sanitizeApplicationValue(value))]; values are immutable here. *)
Definition freezeApplicationValue (value : jsval) : jsval := sanitizeApplicationValue value.

(** [{ ...v, ...updates }]; the order of the keys is lost when it is frozen. *)
Definition override (v : jsval) (updates : jsobj) : jsobj :=
  bfilter (fun p => negb (sin p.1 updates.*1)) (spread v) ++ updates.

(** The loop over the candidates; [seen] maps a reference to its candidate. *)
Fixpoint uniqueLoop (seen : list (string * ContextCandidate)) (candidates : list ContextCandidate)
    : js unit :=
  match candidates with
  | [] => Ok tt
  | candidate :: rest =>
      stableRef ← requireApplicationString (VStr (cc_stableRef candidate)) "candidate.stableRef";
      match List.find (fun p => String.eqb p.1 stableRef) seen with
      | Some (_, existing) =>
          Throw (ContextApplicationError "context_candidate_reference_ambiguous"
            "More than one authorized candidate uses the same stable reference." 409
            [("stable_ref", VStr stableRef);
             ("candidate_types", VArr (List.map VStr (sort_strings
                [cc_candidateType existing; cc_candidateType candidate])))])
      | None => uniqueLoop ((stableRef, candidate) :: seen) rest
      end
  end.

Definition ensureUniqueCandidateReferences (candidates : list ContextCandidate)
    : js (list ContextCandidate) :=
  uniqueLoop [] candidates;; Ok candidates.

(** ** Repository ports *)

(** A call of a port's method, with its argument object; then the functions that
    a dispatch gate is given, the registry of authority scopes, and the audit
    writer of its services. *)
Inductive port_call :=
| findAuthorizedScope (args : jsobj)
| listAuthorizedResources (args : jsobj)
| findExactConnection (args : jsobj)
| findCapabilityReadiness (args : jsobj)
| findContextPin (args : jsobj)
| createPin (args : jsobj)
| invalidatePin (args : jsobj)
| findExecutionPlan (args : jsobj)
| listExecutionEvents (args : jsobj)
| readback (args : jsobj)
| dynamicEvidence (args : jsobj)
| dispatchMutation (envelope : jsval)
| telemetry (event : jsobj)
| findScopeByKey (key : string)
| findScopeByTenantId (tenantId : string)
| readTopologyEvidence
| writeAudit (event : jsobj).

(** The calls that change what a repository stores or a provider holds. *)
Definition is_write (c : port_call) : bool :=
  match c with createPin _ | invalidatePin _ | dispatchMutation _ => true | _ => false end.

(** What the ports answer: the value the promise of a call resolves to, or the
    reason it is rejected with, after the calls made before. *)
Class Ports : Type := { answer : list port_call -> port_call -> js jsval }.

(** An [async] function: the calls so far, its outcome and the calls after it. *)
Definition app (A : Type) : Type := list port_call -> js A * list port_call.

#[global] Instance app_ret : MRet app := fun A a h => (Ok a, h).
#[global] Instance app_bind : MBind app := fun A B k m h =>
  match m h with
  | (Ok a, h') => k a h'
  | (Throw e, h') => (Throw e, h')
  end.

(** A synchronous step, and [await port.method(args)]. *)
Definition sync {A} (m : js A) : app A := fun h => (m, h).
Definition await_port `{Ports} (c : port_call) : app jsval := fun h => (answer h c, h ++ [c]).

(** [try { await port.method(args) } catch { throw e }] *)
Definition try_port `{Ports} (c : port_call) (e : jserror) : app jsval := fun h =>
  (match answer h c with Ok v => Ok v | Throw _ => Throw e end, h ++ [c]).

(** What a computation has left behind when it ends. *)
Lemma app_bind_inv {A B} (m : app A) (k : A -> app B) h r h' : (m ≫= k) h = (r, h') ->
  (exists a h1, m h = (Ok a, h1) /\ k a h1 = (r, h')) \/
  (exists e, m h = (Throw e, h') /\ r = Throw e).
Proof.
  unfold mbind, app_bind. destruct (m h) as [[a|e] h1] eqn:Hm; [by left; eauto|].
  intros [= <- <-]. right. eauto.
Qed.

Lemma sync_inv {A} (m : js A) h r h' : sync m h = (r, h') -> m = r /\ h' = h.
Proof. by intros [= <- <-]. Qed.

Lemma mret_inv {A} (a : A) h r h' : (mret a : app A) h = (r, h') -> r = Ok a /\ h' = h.
Proof. by intros [= <- <-]. Qed.

Lemma await_inv `{Ports} c h r h' : await_port c h = (r, h') -> answer h c = r /\ h' = h ++ [c].
Proof. by intros [= <- <-]. Qed.

(** The runs that return a value. *)
Lemma app_bind_Ok {A B} (m : app A) (k : A -> app B) h b h' :
  (m ≫= k) h = (Ok b, h') <-> exists a h1, m h = (Ok a, h1) /\ k a h1 = (Ok b, h').
Proof.
  unfold mbind, app_bind. destruct (m h) as [[a|e] h1]; split; [by eauto| |done|].
  - by intros (? & ? & [= <- <-] & ?).
  - by intros (? & ? & [=] & ?).
Qed.

Lemma sync_Ok {A} (m : js A) h a h' : sync m h = (Ok a, h') <-> m = Ok a /\ h' = h.
Proof. unfold sync. split; [by intros [= <- <-]|by intros [-> ->]]. Qed.

Lemma await_Ok `{Ports} c h v h' : await_port c h = (Ok v, h') <-> answer h c = Ok v /\ h' = h ++ [c].
Proof. unfold await_port. split; [by intros [= <- <-]|by intros [-> ->]]. Qed.

(** Splits the first step of a run: it went on, or it threw. *)
Ltac app_step H :=
  let a := fresh "a" in let h1 := fresh "h" in let Hm := fresh "Hm" in let e := fresh "e" in
  let Hr := fresh "Hr" in
  apply app_bind_inv in H as [(a & h1 & Hm & H) | (e & Hm & Hr)];
  try first [apply sync_inv in Hm as [Hm ->] | apply await_inv in Hm as [Hm ->]].

(** The calls after [h] are reads. *)
Definition reads (h h' : list port_call) : Prop :=
  exists calls, h' = h ++ calls /\ Forall (fun c => is_write c = false) calls.

Lemma reads_refl h : reads h h.
Proof. exists []. by rewrite app_nil_r. Qed.

Lemma reads_trans h1 h2 h3 : reads h1 h2 -> reads h2 h3 -> reads h1 h3.
Proof.
  intros (l & -> & Hl) (k & -> & Hk). exists (l ++ k). by rewrite app_assoc, Forall_app.
Qed.

Lemma reads_call h c : is_write c = false -> reads h (h ++ [c]).
Proof. intros Hc. exists [c]. by rewrite Forall_singleton. Qed.

#[global] Instance reads_preorder : PreOrder reads.
Proof. split; [exact reads_refl|exact reads_trans]. Qed.

#[export] Hint Resolve reads_refl reads_call : core.

(** What a service that resolves contexts promises to its callers: it reads
    only, and returns an object with one of the three statuses. *)
Class ResolutionService `{Ports} (Input : Type) : Type := {
  rs_resolve : Input -> app jsval;
  rs_reads : forall input h r h', rs_resolve input h = (r, h') -> reads h h';
  rs_status : forall input h v h', rs_resolve input h = (Ok v, h') ->
    exists s, vget v "status" = VStr s /\ s ∈ ["resolved"; "interpretation_required"; "blocked"];
}.

(** ** Redaction and the context hash *)

Lemma isSensitiveKey_weaker k : isSensitiveKey k = true -> ContextIntegrity.isSensitiveKey k = true.
Proof.
  unfold isSensitiveKey, ContextIntegrity.isSensitiveKey, normalizedKey. cbv zeta.
  destruct (sin (normalizeKey k) SAFE_SECURITY_FLAG_KEYS); [done|]. done.
Qed.

(** Redacting a value for an answer leaves no key that the services hold
    sensitive, at any depth, is idempotent, and never changes the context hash
    or the revision computed from the value: a context can be hashed before or
    after it has been through a service boundary. *)
Theorem sanitizeApplicationValue_hash `{JsHost} v previous :
  mentions isSensitiveKey (sanitizeApplicationValue v) = false /\
  sanitizeApplicationValue (sanitizeApplicationValue v) = sanitizeApplicationValue v /\
  createContextHash (sanitizeApplicationValue v) = createContextHash v /\
  createContextRevision (sanitizeApplicationValue v) previous = createContextRevision v previous.
Proof.
  pose proof isSensitiveKey_weaker as Hw. split; [apply redact_mentions|].
  split; [apply redact_idemp|]. unfold createContextRevision, createContextHash, context_text, sanitize.
  unfold sanitizeApplicationValue. split; [by rewrite redact_absorb|].
  do 3 f_equal. rewrite !redact_obj. unfold kept_entries. simpl flat_map.
  rewrite is_undef_redact. by rewrite redact_absorb.
Qed.
(** ** Reading a returned value *)

Lemma requireApplicationObject_Ok v f r :
  requireApplicationObject v f = Ok r <-> is_record v = true /\ r = v.
Proof. unfold requireApplicationObject. destruct (is_record v); naive_solver. Qed.

Lemma vget_frozen o k : NoDup o.*1 -> isSensitiveKey k = false ->
  vget (freezeApplicationValue (VObj o)) k = redact isSensitiveKey (oget o k).
Proof.
  intros Hnd Hk. unfold freezeApplicationValue, sanitizeApplicationValue.
  by rewrite vget_redact, Hk.
Qed.

Lemma oget_snoc_ne (o : jsobj) k k' v : k <> k' -> oget (o ++ [(k', v)]) k = oget o k.
Proof.
  intros Hne. induction o as [|[k1 v1] o IH]; simpl; [|by rewrite IH].
  by apply String.eqb_neq in Hne as ->.
Qed.

(** The value [{ ...freeze(o), k': w }] that a service returns frozen holds the
    redacted properties of [o]. *)
Lemma vget_frozen_spread o k k' w : NoDup o.*1 -> k' ∉ o.*1 -> k <> k' -> isSensitiveKey k = false ->
  vget (freezeApplicationValue (VObj (spread (freezeApplicationValue (VObj o)) ++ [(k', w)]))) k
  = redact isSensitiveKey (oget o k).
Proof.
  intros Hnd Hk' Hne Hk. unfold freezeApplicationValue at 2, sanitizeApplicationValue.
  rewrite redact_obj. cbn [spread].
  assert (sort_entries (kept_entries isSensitiveKey o) ≡ₚ kept_entries isSensitiveKey o) as Hperm
    by apply js_sort_Permutation.
  rewrite vget_frozen; [rewrite oget_snoc_ne by done| |done].
  - pose proof (vget_frozen o k Hnd Hk) as Hv. unfold freezeApplicationValue, sanitizeApplicationValue in Hv.
    rewrite redact_obj in Hv. cbn [vget] in Hv. rewrite Hv. apply redact_idemp.
  - rewrite fmap_app, Hperm. cbn [fmap list_fmap fst]. apply NoDup_app. split; [by apply NoDup_kept_entries|].
    split; [|apply NoDup_singleton]. intros x ((k1, v1) & -> & Hp)%list_elem_of_fmap Hx.
    apply list_elem_of_singleton in Hx. simpl in Hx. subst k1.
    apply elem_of_kept_entries in Hp as (v & Hin & _). destruct Hk'.
    by apply (list_elem_of_fmap_2 fst _ (k', v)).
Qed.

Lemma oget_app_absent (l k : jsobj) x : x ∉ l.*1 -> oget (l ++ k) x = oget k x.
Proof.
  induction l as [|[y v] l IH]; simpl; [done|]. rewrite not_elem_of_cons. intros [Hx Hl].
  apply String.eqb_neq in Hx as ->. by apply IH.
Qed.

Lemma oget_override_rest (keep : string -> bool) (l k : jsobj) x : keep x = true -> x ∉ k.*1 ->
  oget (bfilter (fun p => keep p.1) l ++ k) x = oget l x.
Proof.
  intros Hx Hk. induction l as [|[y v] l IH]; simpl; [by apply oget_absent|].
  destruct (String.eqb_spec x y) as [->|Hne]; [by rewrite Hx; simpl; rewrite String.eqb_refl|].
  destruct (keep y); simpl; [|done]. by apply String.eqb_neq in Hne as ->.
Qed.

Lemma NoDup_bfilter_keys (keep : string -> bool) (l : jsobj) : NoDup l.*1 ->
  NoDup (bfilter (fun p => keep p.1) l).*1.
Proof.
  induction l as [|[y v] l IH]; simpl; [done|]. intros [Hy Hl]%NoDup_cons.
  destruct (keep y); simpl; [|by apply IH]. apply NoDup_cons. split; [|by apply IH].
  intros ([z w] & -> & Hp)%list_elem_of_fmap. apply elem_of_bfilter in Hp as [_ Hp].
  destruct Hy. by apply (list_elem_of_fmap_2 fst _ (z, w)).
Qed.

Lemma NoDup_spread_frozen o : NoDup o.*1 -> NoDup (spread (freezeApplicationValue (VObj o))).*1.
Proof.
  intros Hnd. unfold freezeApplicationValue, sanitizeApplicationValue. rewrite redact_obj. cbn [spread].
  assert (sort_entries (kept_entries isSensitiveKey o) ≡ₚ kept_entries isSensitiveKey o) as ->
    by apply js_sort_Permutation. by apply NoDup_kept_entries.
Qed.

Lemma vget_override o updates k : NoDup o.*1 -> NoDup updates.*1 -> isSensitiveKey k = false ->
  vget (freezeApplicationValue (VObj (override (freezeApplicationValue (VObj o)) updates))) k
  = redact isSensitiveKey (if sin k updates.*1 then oget updates k else oget o k).
Proof.
  intros Ho Hu Hk. unfold override. rewrite vget_frozen; [|  |done].
  - destruct (sin k updates.*1) eqn:Hin.
    + rewrite oget_app_absent; [done|]. intros ([x v] & -> & Hp)%list_elem_of_fmap.
      apply elem_of_bfilter in Hp as [Hp _]. simpl in *. by rewrite Hin in Hp.
    + rewrite (oget_override_rest (fun x => negb (sin x updates.*1))) by
        (by rewrite ?Hin || by apply sin_false).
      pose proof (vget_frozen o k Ho Hk) as Hv.
      unfold freezeApplicationValue, sanitizeApplicationValue in *. rewrite redact_obj in *.
      cbn [vget spread] in *. rewrite Hv. apply redact_idemp.
  - rewrite fmap_app. apply NoDup_app. split; [|split; [|done]].
    + apply (NoDup_bfilter_keys (fun x => negb (sin x updates.*1))). by apply NoDup_spread_frozen.
    + intros x ([y v] & -> & Hp)%list_elem_of_fmap Hx. apply elem_of_bfilter in Hp as [Hp _].
      apply sin_true in Hx. simpl in *. by rewrite Hx in Hp.
Qed.
End ApplicationSupport.
