(* ===== verification/ExecutionPlan.v ===== *)
(** * Execution plans (contextKernel/application/executionPlanService.js)

    A plan is compiled from a resolved context and checked again before it is
    executed.  Proved: a compiled plan validates against a context exactly when
    the context is the one it was compiled from, the plan has not expired, its
    capability is dispatchable (and applicable, for a mutation) and an approval
    is given when one is required. *)
From S2P Require Import Prelude Sorting JsString JsDate JsValue JsJson Redaction ContextModel.
From S2P Require Import ContextIntegrity KernelSupport ApplicationSupport.

Module ExecutionPlan.
Import ApplicationSupport.

Definition PLAN_RISK_CLASSES : list string := ["read"; "low"; "medium"; "high"; "critical"].
Definition PLAN_OPERATION_KINDS : list string := ["read"; "mutation"].

(** [defaultTtlMs = 15 * 60 * 1000] *)
Definition defaultTtlMs : Z := 900000.

Section Plan.
Context `{JsHost}.

Definition normalizePlanStep (step : jsval) (index : nat) : js jsval :=
  value ← requireApplicationObject step ("steps[" +:+ string_of_Z (Z.of_nat index) +:+ "]");
  let operationKind := js_or (vget value "operationKind") (VStr "read") in
  let riskClass := js_or (vget value "riskClass") (VStr "read") in
  throw_if (negb (in_set operationKind PLAN_OPERATION_KINDS))
    (TypeErr ("Unsupported step operationKind: " +:+ js_String operationKind));;
  throw_if (negb (in_set riskClass PLAN_RISK_CLASSES))
    (TypeErr ("Unsupported step riskClass: " +:+ js_String riskClass));;
  stepRef ← requireApplicationString
    (js_or (vget value "stepRef") (VStr ("step-" +:+ string_of_Z (Z.of_nat index + 1)))) "stepRef";
  actionKey ← requireApplicationString (vget value "actionKey") "actionKey";
  Ok (freezeApplicationValue (VObj
    [("stepRef", VStr stepRef); ("actionKey", VStr actionKey);
     ("resourceRef", or_null (vget value "resourceRef"));
     ("capabilityKey", or_null (vget value "capabilityKey"));
     ("operationKind", operationKind); ("riskClass", riskClass)])).

(** [steps.map(normalizePlanStep)] from an index on. *)
Fixpoint normalizeSteps (index : nat) (steps : list jsval) : js (list jsval) :=
  match steps with
  | [] => Ok []
  | step :: rest =>
      value ← normalizePlanStep step index;
      values ← normalizeSteps (S index) rest;
      Ok (value :: values)
  end.

(** The checks on the resolution; [readiness] is [resolved.capabilityReadiness || null]. *)
Definition checkResolution (resolved operationKind riskClass capabilityKey : jsval) : js unit :=
  throw_if (negb (is_str (vget resolved "status") "resolved")
            || negb (truthy (vget resolved "context"))
            || negb (truthy (vget resolved "selectedCandidate")))
    (ContextApplicationError "execution_plan_requires_resolved_context"
       "An execution plan can only be compiled from a resolved context." 409 []);;
  throw_if (negb (in_set operationKind PLAN_OPERATION_KINDS))
    (TypeErr ("Unsupported operationKind: " +:+ js_String operationKind));;
  throw_if (negb (in_set riskClass PLAN_RISK_CLASSES))
    (TypeErr ("Unsupported riskClass: " +:+ js_String riskClass));;
  let readiness := or_null (vget resolved "capabilityReadiness") in
  throw_if (truthy readiness && negb (is_true (vget readiness "dispatchAllowed")))
    (ContextApplicationError "capability_dispatch_not_allowed"
       "The selected capability is not dispatchable." 409
       [("capability_key", js_or (vget readiness "capabilityKey") capabilityKey)]);;
  throw_if (is_str operationKind "mutation" && negb (truthy readiness))
    (ContextApplicationError "capability_readiness_required"
       "Mutation plans require capability readiness evidence." 409 []).

(** [operationKind === "mutation" || riskClass === "high" || riskClass === "critical"] *)
Definition requiresApproval (operationKind riskClass : jsval) : bool :=
  is_str operationKind "mutation" || is_str riskClass "high" || is_str riskClass "critical".

(** The expiry: the given one, or [compiledAt + defaultTtlMs]. *)
Definition planExpiry (expiresAt : jsval) (compiledAt : Z) : option Z :=
  if nullish expiresAt then time_clip (compiledAt + defaultTtlMs) else js_Date expiresAt.

(** The descriptor before it is frozen. *)
Definition planDescriptor (args : jsobj) (resolved : jsval) (planRef operationIntent : string)
    (steps : list jsval) (compiled_iso expires_iso : string) : jsobj :=
  let operationKind := oget_default args "operationKind" (VStr "read") in
  let riskClass := oget_default args "riskClass" (VStr "read") in
  let readiness := or_null (vget resolved "capabilityReadiness") in
  let context := vget resolved "context" in
  [("planRef", VStr planRef); ("operationIntent", VStr operationIntent);
   ("operationKind", operationKind); ("riskClass", riskClass);
   ("capabilityKey", js_or (js_or (oget_default args "capabilityKey" VNull)
      (vget readiness "capabilityKey")) VNull);
   ("idempotencyKey", or_null (oget_default args "idempotencyKey" VNull));
   ("approvalRef", or_null (oget_default args "approvalRef" VNull));
   ("requiresApproval", VBool (requiresApproval operationKind riskClass));
   ("contextRevision", vget context "contextRevision"); ("contextHash", vget context "contextHash");
   ("selectedCandidateRef", vget (vget resolved "selectedCandidate") "stableRef");
   ("tenantRef", vget context "tenantRef"); ("workspaceRef", vget context "workspaceRef");
   ("connectionRef", vget context "connectionRef");
   ("capabilityDispatchAllowed", VBool (is_true (vget readiness "dispatchAllowed")));
   ("capabilityApplyAllowed", VBool (is_true (vget readiness "applyAllowed")));
   ("steps", VArr steps); ("compiledAt", VStr compiled_iso); ("expiresAt", VStr expires_iso);
   ("status", VStr "compiled"); ("executionAllowed", VBool false);
   ("automaticWritePerformed", VBool false); ("secretsIncluded", VBool false)].

(** [planRefInput] is the value of [idFactory()] and [compiledAt] the time of
    [clock()]. *)
Definition compile (args : jsobj) (planRefInput : jsval) (compiledAt : Z) : js jsval :=
  resolved ← requireApplicationObject (oget args "resolution") "resolution";
  let operationKind := oget_default args "operationKind" (VStr "read") in
  let riskClass := oget_default args "riskClass" (VStr "read") in
  checkResolution resolved operationKind riskClass (oget_default args "capabilityKey" VNull);;
  match planExpiry (oget_default args "expiresAt" VNull) compiledAt with
  | None => Throw (ContextApplicationError "execution_plan_expiry_invalid"
      "Execution plan expiry must be a valid future timestamp." 422 [])
  | Some expiry =>
      throw_if (Z.leb expiry compiledAt)
        (ContextApplicationError "execution_plan_expiry_invalid"
           "Execution plan expiry must be a valid future timestamp." 422 []);;
      steps ← match oget_default args "steps" (VArr []) with
              | VArr l => normalizeSteps 0 l
              | _ => type_error "steps.map is not a function"
              end;
      planRef ← requireApplicationString planRefInput "planRef";
      operationIntent ← requireApplicationString (oget args "operationIntent") "operationIntent";
      let descriptor := freezeApplicationValue (VObj
        (planDescriptor args resolved planRef operationIntent steps (toISOString compiledAt)
           (toISOString expiry))) in
      Ok (freezeApplicationValue (VObj (spread descriptor
            ++ [("planHash", VStr (createContextHash descriptor))])))
  end.

(** The reason codes pushed by [validate], in order. *)
Definition planReasons (plan context approvalRef : jsval) (now : Z) : list string :=
  rc_reasonCodes (validateContextRevision (vget plan "contextRevision")
    (vget context "contextRevision") (vget plan "expiresAt") now)
  ++ (if strict_equal (vget plan "contextHash") (vget context "contextHash") then []
      else ["context_hash_mismatch"])
  ++ (if strict_equal (vget plan "selectedCandidateRef")
           (vget (vget context "selectedCandidate") "stableRef") then []
      else ["context_candidate_mismatch"])
  ++ (if negb (is_true (vget plan "capabilityDispatchAllowed")) && truthy (vget plan "capabilityKey")
      then ["capability_dispatch_not_allowed"] else [])
  ++ (if is_str (vget plan "operationKind") "mutation"
         && negb (is_true (vget plan "capabilityApplyAllowed"))
      then ["capability_apply_not_allowed"] else [])
  ++ (if truthy (vget plan "requiresApproval")
         && negb (truthy (js_or approvalRef (vget plan "approvalRef")))
      then ["approval_required"] else []).

(** The object [validate] returns, before it is frozen; [now] is a valid [Date]. *)
Definition validationOf (compiledPlan context approvalRef : jsval) (now : Z) : jsobj :=
  let uniqueReasons := dedup (planReasons compiledPlan context approvalRef now) in
  let valid := length uniqueReasons =? 0 in
  [("valid", VBool valid); ("executionAllowed", VBool valid);
   ("reasonCodes", VArr (List.map VStr uniqueReasons)); ("planRef", vget compiledPlan "planRef");
   ("contextRevision", vget context "contextRevision"); ("validatedAt", VStr (toISOString now));
   ("automaticWritePerformed", VBool false); ("secretsIncluded", VBool false)].

Definition validate (args : jsobj) (now : Z) : js jsval :=
  compiledPlan ← requireApplicationObject (oget args "plan") "plan";
  context ← requireApplicationObject (oget args "currentContext") "currentContext";
  Ok (freezeApplicationValue (VObj
    (validationOf compiledPlan context (oget_default args "approvalRef" VNull) now))).
End Plan.

(** ** Compilation *)

Section Proofs.
Context `{JsHost}.

(** The readiness evidence a plan is compiled with. *)
Definition readiness_of (resolved : jsval) : jsval := or_null (vget resolved "capabilityReadiness").

Lemma compile_Ok args planRefInput compiledAt plan :
  compile args planRefInput compiledAt = Ok plan ->
  let resolved := oget args "resolution" in
  let operationKind := oget_default args "operationKind" (VStr "read") in
  exists planRef operationIntent steps expiry,
    planExpiry (oget_default args "expiresAt" VNull) compiledAt = Some expiry /\
    (compiledAt < expiry)%Z /\
    (truthy (readiness_of resolved) = true ->
       is_true (vget (readiness_of resolved) "dispatchAllowed") = true) /\
    (is_str operationKind "mutation" = true -> truthy (readiness_of resolved) = true) /\
    plan = freezeApplicationValue (VObj
      (spread (freezeApplicationValue (VObj (planDescriptor args resolved planRef operationIntent
         steps (toISOString compiledAt) (toISOString expiry))))
       ++ [("planHash", VStr (createContextHash (freezeApplicationValue (VObj
            (planDescriptor args resolved planRef operationIntent
              steps (toISOString compiledAt) (toISOString expiry))))))])).
Proof.
  unfold compile, checkResolution. cbv zeta. intros Hc.
  apply bind_Ok in Hc as (resolved & Hr & Hc). apply requireApplicationObject_Ok in Hr as [_ ->].
  apply bind_Ok in Hc as ([] & Hcheck & Hc).
  destruct (planExpiry _ _) as [expiry|]; [|done].
  apply bind_Ok in Hcheck as ([] & _ & Hcheck). apply bind_Ok in Hcheck as ([] & _ & Hcheck).
  apply bind_Ok in Hcheck as ([] & _ & Hcheck). apply bind_Ok in Hcheck as ([] & Hd & Hm).
  apply bind_Ok in Hc as ([] & He & Hc). apply bind_Ok in Hc as (steps & _ & Hc).
  apply bind_Ok in Hc as (planRef & _ & Hc). apply bind_Ok in Hc as (intent & _ & Hc).
  apply Ok_inj in Hc as <-. apply throw_if_Ok in Hd, Hm, He. apply Z.leb_gt in He.
  exists planRef, intent, steps, expiry. unfold readiness_of.
  split; [done|]. split; [done|]. split; [|split; [|done]].
  - intros Ht. rewrite Ht in Hd. simpl in Hd. by apply negb_false_iff.
  - intros Ht. rewrite Ht in Hm. simpl in Hm. by apply negb_false_iff.
Qed.

Lemma planExpiry_valid e c t : planExpiry e c = Some t -> valid_time t = true.
Proof. unfold planExpiry. destruct (nullish e); [intros [-> ?]%time_clip_valid; done|apply js_Date_valid]. Qed.

(** What a compiled plan says for each property of its descriptor. *)
Lemma vget_planned args resolved planRef intent steps c e h k :
  k ∈ (planDescriptor args resolved planRef intent steps c e).*1 -> isSensitiveKey k = false ->
  vget (freezeApplicationValue (VObj (spread (freezeApplicationValue
    (VObj (planDescriptor args resolved planRef intent steps c e))) ++ [("planHash", h)]))) k
  = redact isSensitiveKey (oget (planDescriptor args resolved planRef intent steps c e) k).
Proof.
  intros Hin Hk. apply vget_frozen_spread; [| | |done].
  - apply (bool_decide_unpack _). by vm_compute.
  - apply (bool_decide_unpack _). by vm_compute.
  - intros ->. revert Hin. apply (bool_decide_unpack _). by vm_compute.
Qed.

Lemma compile_read args planRefInput compiledAt plan :
  compile args planRefInput compiledAt = Ok plan ->
  let resolved := oget args "resolution" in
  exists planRef operationIntent steps expiry,
    planExpiry (oget_default args "expiresAt" VNull) compiledAt = Some expiry /\
    valid_time expiry = true /\ is_record plan = true /\
    (truthy (readiness_of resolved) = true ->
       is_true (vget (readiness_of resolved) "dispatchAllowed") = true) /\
    let descriptor := planDescriptor args resolved planRef operationIntent steps
      (toISOString compiledAt) (toISOString expiry) in
    forall k, k ∈ descriptor.*1 -> isSensitiveKey k = false ->
      vget plan k = redact isSensitiveKey (oget descriptor k).
Proof.
  cbv zeta. intros Hc.
  apply compile_Ok in Hc as (planRef & intent & steps & expiry & Hexp & _ & Hready & _ & ->).
  exists planRef, intent, steps, expiry. repeat split; try done.
  - by apply planExpiry_valid in Hexp.
  - intros k Hk Hs. by apply vget_planned.
Qed.

Lemma strict_equal_VStr s v : strict_equal (VStr s) v = true <-> v = VStr s.
Proof. destruct v; simpl; try naive_solver. rewrite String.eqb_eq. naive_solver. Qed.

Lemma not_pushed_nil (b : bool) (s : string) : (if b then [] else [s]) = [] <-> b = true.
Proof. by destruct b. Qed.

Lemma pushed_nil (b : bool) (s : string) : (if b then [s] else []) = [] <-> b = false.
Proof. by destruct b. Qed.

Lemma and_negb_not (a b : bool) : a && negb b = false <-> (a = true -> b = true).
Proof. destruct a, b; naive_solver. Qed.

Lemma not_and_negb (a b : bool) : negb a && b = false <-> (b = true -> a = true).
Proof. destruct a, b; naive_solver. Qed.

Lemma truthy_js_or a b : truthy (js_or a b) = truthy a || truthy b.
Proof. unfold js_or. destruct (truthy a) eqn:Ha; by rewrite ?Ha. Qed.

(** When [validate] finds no reason, for any plan. *)
Lemma planReasons_nil rev hash ref plan context approvalRef expiry now :
  vget plan "contextRevision" = VStr rev -> vget plan "contextHash" = VStr hash ->
  vget plan "selectedCandidateRef" = VStr ref ->
  vget plan "expiresAt" = VStr (toISOString expiry) -> valid_time expiry = true ->
  planReasons plan context approvalRef now = [] <->
    (rev <> "" /\ vget context "contextRevision" = VStr rev /\ vget context "contextHash" = VStr hash /\
     vget (vget context "selectedCandidate") "stableRef" = VStr ref /\ (now < expiry)%Z) /\
    (truthy (vget plan "capabilityKey") = true -> is_true (vget plan "capabilityDispatchAllowed") = true) /\
    (is_str (vget plan "operationKind") "mutation" = true ->
       is_true (vget plan "capabilityApplyAllowed") = true) /\
    (truthy (vget plan "requiresApproval") = true ->
       truthy approvalRef = true \/ truthy (vget plan "approvalRef") = true).
Proof.
  intros Hrev Hhash Href Hexp Hvalid. unfold planReasons, validateContextRevision. cbn [rc_reasonCodes].
  rewrite Hrev, Hhash, Href, Hexp. unfold parsed_before. cbn [js_String truthy].
  rewrite date_parse_toISOString, is_empty_toISOString by done.
  rewrite !app_nil, !not_pushed_nil, !pushed_nil, !strict_equal_VStr, orb_false_iff, !negb_false_iff,
    negb_true_iff, is_empty_false, strict_equal_VStr, (not_and_negb (is_true _)).
  change (negb false) with true. rewrite andb_true_l, Z.leb_gt, !and_negb_not, truthy_js_or, orb_true_iff.
  tauto.
Qed.

Lemma validate_Ok args now :
  is_record (oget args "plan") = true -> is_record (oget args "currentContext") = true ->
  validate args now = Ok (freezeApplicationValue (VObj (validationOf (oget args "plan")
    (oget args "currentContext") (oget_default args "approvalRef" VNull) now))).
Proof.
  intros Hp Hc. unfold validate.
  by do 2 (ok_step ltac:(apply requireApplicationObject_Ok; done)).
Qed.

Lemma truthy_or_null v : truthy (or_null v) = truthy v.
Proof. unfold or_null. by rewrite truthy_js_or, orb_false_r. Qed.

Lemma is_true_VBool b : is_true (VBool b) = b.
Proof. by destruct b. Qed.

Lemma truthy_default o k : truthy (oget_default o k VNull) = truthy (oget o k).
Proof. unfold oget_default. by destruct (oget o k). Qed.

Lemma valid_flag (l : list string) : VBool (length (dedup l) =? 0) = VBool true <-> l = [].
Proof.
  rewrite <- (dedup_nil l). destruct (dedup l); simpl; naive_solver.
Qed.

Lemma truthy_vget_record v k : truthy (vget v k) = true -> truthy v = true.
Proof. by destruct v. Qed.

(** The capability test of [validate], on the fields of a compiled plan. *)
Lemma capability_reads ck readiness :
  (truthy readiness = true -> is_true (vget readiness "dispatchAllowed") = true) ->
  (truthy (js_or (js_or ck (vget readiness "capabilityKey")) VNull) = true ->
     is_true (VBool (is_true (vget readiness "dispatchAllowed"))) = true) <->
  (truthy ck = true -> truthy readiness = true).
Proof.
  intros Hready. rewrite !truthy_js_or, is_true_VBool.
  pose proof (truthy_vget_record readiness "capabilityKey") as Hk.
  assert (is_true (vget readiness "dispatchAllowed") = true -> truthy readiness = true) as Hd.
  { intros Ht%is_true_true. apply (truthy_vget_record _ "dispatchAllowed"). by rewrite Ht. }
  destruct (truthy ck), (truthy (vget readiness "capabilityKey")), (truthy readiness),
    (is_true (vget readiness "dispatchAllowed")); naive_solver.
Qed.

(** A compiled plan validates against a context exactly when the context
    has the revision, the hash and the selected candidate of the resolution
    the plan was compiled from, the plan has not expired, a plan that names a
    capability has its readiness evidence, a mutation has evidence that the
    capability may be applied, and an approval is given, at compilation or at
    validation, when the operation is a mutation or its risk is high or
    critical.  The validity is also what allows the execution. *)
Theorem validate_compiled args planRefInput compiledAt plan rev hash ref vargs now :
  let resolved := oget args "resolution" in
  let operationKind := oget_default args "operationKind" (VStr "read") in
  let context := oget vargs "currentContext" in
  compile args planRefInput compiledAt = Ok plan -> oget vargs "plan" = plan ->
  vget (vget resolved "context") "contextRevision" = VStr rev ->
  vget (vget resolved "context") "contextHash" = VStr hash ->
  vget (vget resolved "selectedCandidate") "stableRef" = VStr ref ->
  is_record context = true ->
  exists v expiry, validate vargs now = Ok v /\
    planExpiry (oget_default args "expiresAt" VNull) compiledAt = Some expiry /\
    vget v "executionAllowed" = vget v "valid" /\
    (vget v "valid" = VBool true <->
      (rev <> "" /\ vget context "contextRevision" = VStr rev /\
       vget context "contextHash" = VStr hash /\
       vget (vget context "selectedCandidate") "stableRef" = VStr ref /\ (now < expiry)%Z) /\
      (truthy (oget args "capabilityKey") = true -> truthy (readiness_of resolved) = true) /\
      (is_str operationKind "mutation" = true ->
         is_true (vget (readiness_of resolved) "applyAllowed") = true) /\
      (requiresApproval operationKind (oget_default args "riskClass" (VStr "read")) = true ->
         truthy (oget vargs "approvalRef") = true \/ truthy (oget args "approvalRef") = true)).
Proof.
  cbv zeta. intros Hc <- Hrev Hhash Href Hctx.
  apply compile_read in Hc as (planRef & intent & steps & expiry & Hexp & Hvalid & Hrec & Hready & Hget).
  set (resolved := oget args "resolution") in *. rewrite validate_Ok by done.
  eexists _, expiry. split; [done|]. split; [done|].
  rewrite !vget_frozen by (apply (bool_decide_unpack _) || idtac; by vm_compute).
  cbn [oget validationOf String.eqb Ascii.eqb Bool.eqb redact]. split; [done|].
  rewrite valid_flag, (planReasons_nil rev hash ref _ _ _ expiry);
    rewrite ?Hget by (apply (bool_decide_unpack _) || idtac; by vm_compute);
    try (cbn [oget planDescriptor String.eqb Ascii.eqb Bool.eqb]; by rewrite ?Hrev, ?Hhash, ?Href).
  rewrite !truthy_redact, !is_true_redact, !is_str_redact, truthy_default.
  cbn [oget planDescriptor String.eqb Ascii.eqb Bool.eqb].
  unfold readiness_of in *. rewrite capability_reads, truthy_default, is_true_VBool by done.
  cbn [truthy]. by rewrite (truthy_or_null (oget_default _ _ _)), truthy_default.
Qed.
End Proofs.

Definition demo_resolution : jsval := VObj
  [("status", VStr "resolved");
   ("context", VObj [("contextRevision", VStr "rev:1"); ("contextHash", VStr "sha256:aa");
                     ("tenantRef", VStr "tenant:1")]);
   ("selectedCandidate", VObj [("stableRef", VStr "candidate:1")]);
   ("capabilityReadiness", VObj [("capabilityKey", VStr "cms.publish"); ("dispatchAllowed", VBool true);
                                 ("applyAllowed", VBool true)])].

Definition demo_plan_args : jsobj :=
  [("resolution", demo_resolution); ("operationIntent", VStr "publish");
   ("operationKind", VStr "mutation"); ("riskClass", VStr "high");
   ("steps", VArr [VObj [("actionKey", VStr "cms.post")]])].

Definition demo_plan : jsval :=
  catch (compile (H:=demo_host) demo_plan_args (VStr "plan:1") 1000) VUndef.

Definition demo_validation (approval : jsval) : jsobj :=
  [("plan", demo_plan);
   ("currentContext", VObj [("contextRevision", VStr "rev:1"); ("contextHash", VStr "sha256:aa");
      ("selectedCandidate", VObj [("stableRef", VStr "candidate:1")])]);
   ("approvalRef", approval)].

(** The same plan with and without an approval. *)
Lemma validate_compiled_witness : exists v w,
  validate (H:=demo_host) (demo_validation (VStr "approval:1")) 2000 = Ok v /\
  vget v "valid" = VBool true /\
  validate (H:=demo_host) (demo_validation VNull) 2000 = Ok w /\ vget w "valid" <> VBool true.
Proof.
  assert (compile (H:=demo_host) demo_plan_args (VStr "plan:1") 1000 = Ok demo_plan) as Hc
    by (vm_compute; reflexivity).
  destruct (validate_compiled (H:=demo_host) demo_plan_args (VStr "plan:1") 1000 demo_plan "rev:1"
    "sha256:aa" "candidate:1" (demo_validation (VStr "approval:1")) 2000 Hc eq_refl eq_refl eq_refl
    eq_refl eq_refl) as (v & e & Hv & He & _ & Hvalid).
  destruct (validate_compiled (H:=demo_host) demo_plan_args (VStr "plan:1") 1000 demo_plan "rev:1"
    "sha256:aa" "candidate:1" (demo_validation VNull) 2000 Hc eq_refl eq_refl eq_refl
    eq_refl eq_refl) as (w & e' & Hw & _ & _ & Hinvalid).
  exists v, w. split; [exact Hv|]. split.
  - apply Hvalid. clear -He. vm_compute in He. injection He as <-. vm_compute.
    repeat split; try discriminate; intros; try reflexivity; left; reflexivity.
  - split; [exact Hw|]. intros Hval. apply Hinvalid in Hval as (_ & _ & _ & Ha).
    destruct (Ha eq_refl) as [Hn|Hn]; vm_compute in Hn; discriminate Hn.
Defined.
End ExecutionPlan.
