(* ===== verification/OutcomeReconciliation.v ===== *)
(** * Reconciliation of unknown outcomes
    (contextKernel/application/unknownOutcomeReconciliationService.js)

    After an execution whose outcome is unknown, the ledger and, when it is
    silent, one readback of the provider say what happened.  Proved: a
    reconciliation never writes, never retries and never asks the provider
    when the ledger has a marker; its outcome is the one the evidence states. *)
From S2P Require Import Prelude JsString JsDate JsValue JsJson Redaction ApplicationSupport.

Module OutcomeReconciliation.
Import ApplicationSupport.

Definition ALLOWED_OUTCOMES : list string :=
  ["confirmed_applied"; "confirmed_not_applied"; "still_unknown"; "conflict"].
Definition APPLIED_MARKERS : list string :=
  ["applied"; "succeeded"; "completed"; "committed"; "confirmed_applied"].
Definition NOT_APPLIED_MARKERS : list string :=
  ["not_applied"; "failed_before_apply"; "cancelled_before_apply"; "confirmed_not_applied"].

Definition nextAction (outcome : string) : string :=
  match outcome with
  | "confirmed_applied" => "return_readback"
  | "confirmed_not_applied" => "prepare_new_plan"
  | "conflict" => "manual_conflict_review"
  | _ => "manual_outcome_review"
  end.

Section Reconcile.
Context `{JsHost}.

Definition normalizedMarker (value : jsval) : string :=
  js_toLowerCase (js_trim (str_or_empty value)).

(** [[event.eventType, event.toStatus]]; reading a property of [null] or
    [undefined] throws. *)
Definition eventFields (event : jsval) : js (list jsval) :=
  if nullish event then type_error "Cannot read properties of the event."
  else Ok [vget event "eventType"; vget event "toStatus"].

(** The non-empty markers of the plan and of its events. *)
Definition ledgerMarkers (plan events : jsval) : js (list string) :=
  l ← match events with VArr l => Ok l | _ => type_error "events.flatMap is not a function" end;
  fields ← mapM_js eventFields l;
  Ok (bfilter (fun m => negb (is_empty m))
       (List.map normalizedMarker
         (vget plan "planStatus" :: vget plan "runtimeStatus" :: concat fields))).

Definition markersOutcome (markers : list string) : option string :=
  let hasAppliedMarker := existsb (fun m => sin m APPLIED_MARKERS) markers in
  let hasNotAppliedMarker := existsb (fun m => sin m NOT_APPLIED_MARKERS) markers in
  if hasAppliedMarker && hasNotAppliedMarker then Some "conflict"
  else if hasAppliedMarker then Some "confirmed_applied"
  else if hasNotAppliedMarker then Some "confirmed_not_applied"
  else None.

Definition ledgerOutcome (plan events : jsval) : js (option string) :=
  markers ← ledgerMarkers plan events; Ok (markersOutcome markers).

Context `{Ports}.

(** [typeof readback === "string" ? readback : readback?.outcome] *)
Definition reported (readback : jsval) : jsval :=
  match readback with VStr s => VStr s | _ => vget readback "outcome" end.

(** The outcome and the evidence with their source: the ledger, or one call of
    the readback port. *)
Definition establishOutcome (tenant plan : string) (executionPlan events readbackInput : jsval)
    (ledger : option string) : app (jsval * jsval * bool) :=
  match ledger with
  | Some outcome => mret (VStr outcome, VObj [("source", VStr "execution_ledger")], false)
  | None =>
      readback ← try_port
        (readback [("plan", executionPlan); ("events", events);
                   ("input", sanitizeApplicationValue readbackInput)])
        (ContextApplicationError "unknown_outcome_readback_failed"
          "Outcome reconciliation readback failed; automatic retry remains forbidden." 503
          [("tenant_ref", VStr tenant); ("plan_ref", VStr plan);
           ("automatic_retry_performed", VBool false)]);
      let outcome := reported readback in
      let evidence := if is_object readback then js_or (vget readback "evidence") (VObj []) else VObj [] in
      mret (outcome, evidence, true)
  end.

(** The object [reconcile] returns, before it is frozen. *)
Definition reconciliation (tenant plan outcome : string) (evidence : jsval) (readbackPerformed : bool)
    (eventCount : nat) (now : Z) : jsobj :=
  [("status", VStr "reconciled"); ("outcome", VStr outcome); ("nextAction", VStr (nextAction outcome));
   ("retryAllowed", VBool false); ("automaticRetryPerformed", VBool false);
   ("readbackPerformed", VBool readbackPerformed); ("planRef", VStr plan); ("tenantRef", VStr tenant);
   ("ledgerEventCount", VNum (Some (Z.of_nat eventCount))); ("evidence", evidence);
   ("reconciledAt", VStr (toISOString now)); ("secretsIncluded", VBool false)].

(** [if (!ALLOWED_OUTCOMES.has(outcome)) throw ...] *)
Definition allowedOutcome (outcome : jsval) : js string :=
  let unsupported := ContextApplicationError "unknown_outcome_readback_invalid"
    "Outcome reconciliation returned an unsupported result." 502
    [("outcome", js_or outcome VNull); ("automatic_retry_performed", VBool false)] in
  match outcome with
  | VStr s => if sin s ALLOWED_OUTCOMES then Ok s else Throw unsupported
  | _ => Throw unsupported
  end.

(** [now] is the time of [clock()]. *)
Definition reconcile (args : jsobj) (now : Z) : app jsval :=
  tenant ← sync (requireApplicationString (oget args "tenantRef") "tenantRef");
  plan ← sync (requireApplicationString (oget args "planRef") "planRef");
  executionPlan ← await_port (findExecutionPlan [("tenantRef", VStr tenant); ("planRef", VStr plan)]);
  sync (throw_if (negb (truthy executionPlan))
    (ContextApplicationError "execution_plan_not_found"
      "The execution plan could not be found for reconciliation." 404
      [("tenant_ref", VStr tenant); ("plan_ref", VStr plan)]));;
  events ← await_port (listExecutionEvents
    [("tenantRef", VStr tenant); ("planRef", VStr plan); ("limit", VNum (Some 500%Z))]);
  ledger ← sync (ledgerOutcome executionPlan events);
  '(outcome, evidence, readbackPerformed) ← establishOutcome tenant plan executionPlan events
    (oget_default args "readbackInput" (VObj [])) ledger;
  outcome ← sync (allowedOutcome outcome);
  let eventCount := match events with VArr l => length l | _ => 0 end in
  mret (freezeApplicationValue (VObj
    (reconciliation tenant plan outcome evidence readbackPerformed eventCount now))).

(** ** Soundness *)

(** One of the markers is in a set of markers. *)
Definition says (markers set : list string) : Prop := exists m, m ∈ markers /\ m ∈ set.

Lemma says_spec markers set : says markers set <-> existsb (fun m => sin m set) markers = true.
Proof. rewrite existsb_elem_of. unfold says. by setoid_rewrite sin_true. Qed.

(** What an outcome of the ledger says of its markers. *)
Definition ledger_states (markers : list string) (outcome : string) : Prop :=
  (says markers APPLIED_MARKERS \/ says markers NOT_APPLIED_MARKERS) /\
  (outcome = "conflict" <-> says markers APPLIED_MARKERS /\ says markers NOT_APPLIED_MARKERS) /\
  (outcome = "confirmed_applied" <->
     says markers APPLIED_MARKERS /\ ~ says markers NOT_APPLIED_MARKERS) /\
  (outcome = "confirmed_not_applied" <->
     ~ says markers APPLIED_MARKERS /\ says markers NOT_APPLIED_MARKERS).

Lemma markersOutcome_spec markers :
  match markersOutcome markers with
  | Some outcome => ledger_states markers outcome
  | None => ~ says markers APPLIED_MARKERS /\ ~ says markers NOT_APPLIED_MARKERS
  end.
Proof.
  unfold markersOutcome, ledger_states. pose proof (says_spec markers APPLIED_MARKERS) as Ha.
  pose proof (says_spec markers NOT_APPLIED_MARKERS) as Hn.
  destruct (existsb _ markers), (existsb _ markers); cbn [andb]; intuition congruence.
Qed.

Lemma establishOutcome_calls tenant plan xp events input ledger h r h' :
  establishOutcome tenant plan xp events input ledger h = (r, h') ->
  match ledger with
  | Some outcome => h' = h /\ exists e, r = Ok (VStr outcome, e, false)
  | None => exists inp, h' = h ++ [readback inp] /\
      forall o e b, r = Ok (o, e, b) ->
        b = true /\ exists report, answer h (readback inp) = Ok report /\ o = reported report
  end.
Proof.
  destruct ledger as [outcome|]; simpl; [intros [= <- <-]; eauto|].
  unfold mbind, app_bind, try_port. destruct (answer h _) as [report|] eqn:Ha;
    intros Hr; injection Hr as <- <-; eexists; (split; [done|]); [|done].
  intros o e b [= <- <- <-]. eauto.
Qed.

Lemma allowedOutcome_Ok v o : allowedOutcome v = Ok o -> v = VStr o /\ o ∈ ALLOWED_OUTCOMES.
Proof.
  unfold allowedOutcome. destruct v as [| | | |s| | |]; try done.
  destruct (sin s ALLOWED_OUTCOMES) eqn:Hs; [|done]. intros [= ->]. by apply sin_true in Hs.
Qed.

(** Leaves a run that threw after some calls. *)
Ltac early := eexists; split;
  [rewrite <- ?app_assoc; first [reflexivity | symmetry; apply app_nil_r]|];
  split; [by repeat constructor|split; [simpl; lia|subst; discriminate]].

(** The fields of the frozen result. *)
Lemma vget_reconciliation tenant plan outcome evidence b n now k w :
  oget (reconciliation tenant plan outcome evidence b n now) k = w ->
  isSensitiveKey k = false -> redact isSensitiveKey w = w ->
  vget (freezeApplicationValue (VObj (reconciliation tenant plan outcome evidence b n now))) k = w.
Proof.
  intros Ho Hs Hw. rewrite vget_frozen; [by rewrite Ho|by apply (bool_decide_unpack _); vm_compute|done].
Qed.

(** C31: a reconciliation calls the ledger and at most once the readback port,
    and writes nothing.  When it returns, no retry is allowed or was made, the
    outcome is one of the four allowed ones, and it is the one of the evidence:
    conflicting, applied or not-applied markers of the ledger decide without a
    readback, and only a ledger without markers lets the provider's readback
    decide. *)
Theorem reconcile_sound args now h r h' : reconcile args now h = (r, h') ->
  exists calls, h' = h ++ calls /\ Forall (fun c => is_write c = false) calls /\ length calls <= 3 /\
  forall v, r = Ok v ->
    vget v "retryAllowed" = VBool false /\ vget v "automaticRetryPerformed" = VBool false /\
    exists find list plan events markers outcome,
      answer h (findExecutionPlan find) = Ok plan /\ truthy plan = true /\
      answer (h ++ [findExecutionPlan find]) (listExecutionEvents list) = Ok events /\
      ledgerMarkers plan events = Ok markers /\
      outcome ∈ ALLOWED_OUTCOMES /\ vget v "outcome" = VStr outcome /\
      vget v "nextAction" = VStr (nextAction outcome) /\
      (ledger_states markers outcome /\
         calls = [findExecutionPlan find; listExecutionEvents list] /\
         vget v "readbackPerformed" = VBool false
       \/
       ~ says markers APPLIED_MARKERS /\ ~ says markers NOT_APPLIED_MARKERS /\
         vget v "readbackPerformed" = VBool true /\
         exists input report,
           calls = [findExecutionPlan find; listExecutionEvents list; readback input] /\
           answer (h ++ [findExecutionPlan find; listExecutionEvents list]) (readback input) = Ok report /\
           reported report = VStr outcome).
Proof.
  unfold reconcile. intros Hr.
  app_step Hr; [|early]. app_step Hr; [|early]. app_step Hr; [|early]. app_step Hr; [|early].
  app_step Hr; [|early]. app_step Hr; [|early].
  apply bind_Ok in Hm4 as (markers & Hmarkers & Hledger). apply Ok_inj in Hledger as <-.
  pose proof (markersOutcome_spec markers) as Hspec. apply throw_if_Ok, negb_false_iff in Hm2.
  app_step Hr; apply establishOutcome_calls in Hm4; destruct (markersOutcome markers) as [outcome|].
  - destruct Hm4 as (-> & ev & [= ->]). app_step Hr; [|early].
    apply allowedOutcome_Ok in Hm4 as [[= <-] Hallowed]. apply mret_inv in Hr as [-> ->].
    eexists. split; [by rewrite <- app_assoc|]. split; [by repeat constructor|].
    split; [simpl; lia|]. intros v Hv. apply Ok_inj in Hv as <-.
    split; [by apply vget_reconciliation|].
    split; [by apply vget_reconciliation|]. do 6 eexists.
    repeat (split; [done || by apply vget_reconciliation|]). left.
    split; [done|]. split; [done|]. by apply vget_reconciliation.
  - destruct Hm4 as (inp & -> & Hrep). destruct a4 as [[o ev] b].
    destruct (Hrep o ev b eq_refl) as (-> & report & Hreport & ->).
    app_step Hr; [|early]. apply allowedOutcome_Ok in Hm4 as [Ho Hallowed]. apply mret_inv in Hr as [-> ->].
    eexists. split; [by rewrite <- !app_assoc|]. split; [by repeat constructor|].
    split; [simpl; lia|]. intros v Hv. apply Ok_inj in Hv as <-.
    split; [by apply vget_reconciliation|].
    split; [by apply vget_reconciliation|]. do 6 eexists.
    repeat (split; [done || by apply vget_reconciliation|]). right.
    destruct Hspec as [Ha Hn]. split; [done|]. split; [done|]. split; [by apply vget_reconciliation|].
    exists inp, report. split; [done|].
    by rewrite <- app_assoc in Hreport.
  - by destruct Hm4 as (_ & ? & ?).
  - destruct Hm4 as (inp & -> & _). early.
Qed.
End Reconcile.

(** A ledger with the given events, and a provider that reports. *)
Definition demo_ports (events : list jsval) (report : jsval) : Ports := {|
  answer := fun _ c => match c with
    | findExecutionPlan _ => Ok (VObj [("planStatus", VStr "dispatched")])
    | listExecutionEvents _ => Ok (VArr events)
    | readback _ => Ok report
    | _ => Ok VNull
    end |}.

Definition demo_args : jsobj := [("tenantRef", VStr "tenant:1"); ("planRef", VStr "plan:1")].

Definition demo_run (events : list jsval) : js jsval * list port_call :=
  reconcile (H:=demo_host) (H0:=demo_ports events (VStr "confirmed_applied")) demo_args 0 [].

(** The ledger of [demo_run [committed]] decides: the run asks the provider
    nothing and allows no retry. *)
Lemma reconcile_sound_witness :
  let r := demo_run [VObj [("toStatus", VStr " Committed")]] in
  length r.2 = 2 /\ length (demo_run []).2 = 3 /\
  Forall (fun c => is_write c = false) r.2 /\
  exists v, r.1 = Ok v /\ vget v "retryAllowed" = VBool false.
Proof.
  cbv zeta. split; [vm_compute; reflexivity|]. split; [vm_compute; reflexivity|].
  destruct (demo_run [VObj [("toStatus", VStr " Committed")]]) as [r calls] eqn:Hrun.
  destruct (reconcile_sound (H:=demo_host) (H0:=_) _ _ _ _ _ Hrun) as (calls' & Hcalls & Hw & _ & Hv).
  cbn [fst snd]. simpl in Hcalls. subst calls'. split; [exact Hw|].
  destruct r as [v|e]; [exists v; split; [reflexivity|apply (Hv v eq_refl)]|].
  vm_compute in Hrun. discriminate Hrun.
Defined.
End OutcomeReconciliation.
