(* ===== verification/ContextResolution.v ===== *)
(** * Context resolution (contextKernel/application/contextResolutionService.js)

    The service that turns a request into an execution context: it reads the
    principal's scope, resources, pin, capability and connection from the
    repositories, maps what they return to candidates and lets the decision
    policy select.  Proved: it only reads; a resolved context is one whose
    scope was found, whose capability may be dispatched and whose candidate is
    an authorized one that a repository listed; its hash and revision are those
    of the snapshot it states. *)
From S2P Require Import Prelude Sorting JsString JsDate JsValue JsJson Redaction ContextModel.
From S2P Require Import ContextIntegrity DecisionPolicy ApplicationSupport.

Module ContextResolution.
Import ApplicationSupport.

(** The input of [resolve]: the principal and the subject are the records of
    the domain model, absent references are [None]. *)
Record ResolutionInput := {
  ri_principal : option AuthenticatedPrincipal;
  ri_effectiveSubject : option EffectiveSubject;
  ri_tenantRef : option string;
  ri_userRef : option string;
  ri_resourceType : option string;
  ri_candidateLimit : jsval;
  ri_pinRef : option string;
  ri_capabilityKey : option string;
  ri_connectionRef : option string;
  ri_workspaceRef : option string;
  ri_appKey : option string;
  ri_actionKey : option string;
  ri_currentContextRevision : option string;
  ri_intent : jsobj;                       (* operationIntent, operationKind, riskClass *)
  ri_explicitRef : option string;
  ri_exactBindingRef : option string;
  ri_fallbackRef : option string;
  ri_allowLowRiskFallback : bool;
  ri_now : Z;
}.

Definition js_of_subject (s : EffectiveSubject) : jsobj :=
  [("subjectType", VStr (es_subjectType s)); ("subjectRef", VStr (es_subjectRef s));
   ("tenantRef", VStr (es_tenantRef s)); ("workspaceRef", js_of_ostr (es_workspaceRef s));
   ("delegatedByPrincipalRef", js_of_ostr (es_delegatedByPrincipalRef s))].

Definition js_of_status (s : DecisionStatus) : string :=
  match s with
  | RESOLVED => "resolved"
  | INTERPRETATION_REQUIRED => "interpretation_required"
  | BLOCKED => "blocked"
  end.

Definition js_of_reason (r : DecisionReason) : string :=
  match r with
  | EXPLICIT_REFERENCE => "explicit_reference"
  | VERIFIED_PIN => "verified_pin"
  | EXACT_BINDING => "exact_binding"
  | LOW_RISK_FALLBACK => "low_risk_fallback"
  | SINGLE_AUTHORIZED_CANDIDATE => "single_authorized_candidate"
  | MULTIPLE_AUTHORIZED_CANDIDATES => "multiple_authorized_candidates"
  | NO_AUTHORIZED_CANDIDATES => "no_authorized_candidates"
  | REFERENCE_NOT_AUTHORIZED => "reference_not_authorized"
  | EFFECTIVE_SUBJECT_REQUIRED => "effective_subject_required"
  | FALLBACK_SELECTION_FORBIDDEN => "fallback_selection_forbidden"
  | PIN_NOT_VERIFIED => "pin_not_verified"
  | PIN_EXPIRED => "context_pin_expired"
  | PIN_REVISION_CONFLICT => "context_revision_conflict"
  end.

Definition js_of_candidates (l : list ContextCandidate) : jsval :=
  VArr (List.map (fun c => VObj (js_of_candidate c)) l).

(** [values.sort()]: by their strings, [undefined] last. *)
Definition sort_values `{JsHost} (l : list jsval) : list jsval :=
  js_sort (fun a b => String.compare (js_String a) (js_String b)) (bfilter (fun v => negb (is_undef v)) l)
  ++ bfilter is_undef l.

(** [v.map] needs an array. *)
Definition array_of (v : jsval) (what : string) : js (list jsval) :=
  match v with VArr l => Ok l | _ => type_error (what +:+ ".map is not a function") end.

(** A property read that throws on [null] and [undefined]. *)
Definition js_get (v : jsval) (k : string) : js jsval :=
  if nullish v then type_error ("Cannot read properties of null (reading '" +:+ k +:+ "')")
  else Ok (vget v k).

Section Mapping.
Context `{JsHost}.

Definition mapResourceCandidate (resource : jsval) : js ContextCandidate :=
  resourceType ← js_get resource "resourceType";
  let resourceType := js_or resourceType (VStr "resource") in
  let resourceRef := js_or (vget resource "resourceRef") (vget resource "stableRef") in
  createContextCandidate
    [("candidateType", js_or (vget resource "sourceType") (VStr "resource_authority"));
     ("stableRef", vget resource "stableRef"); ("tenantRef", vget resource "tenantRef");
     ("workspaceRef", js_or (vget resource "workspaceRef")
        (if is_str resourceType "workspace" then resourceRef else VNull));
     ("brandRef", if is_str resourceType "brand" then resourceRef else VNull);
     ("resourceType", resourceType); ("resourceRef", resourceRef);
     ("displayLabel", VStr (js_String resourceType +:+ ":" +:+ js_String resourceRef));
     ("authoritySummary", VStr (js_join ":" (List.map js_String (bfilter truthy
        [vget resource "permission"; vget resource "authoritySource"]))));
     ("metadata", VObj
        [("permission", or_null (vget resource "permission"));
         ("authoritySource", or_null (vget resource "authoritySource"));
         ("recipeKey", or_null (vget resource "recipeKey"));
         ("allowedModes", match vget resource "allowedModes" with VArr l => VArr l | _ => VArr [] end)])].

Definition mapConnectionCandidate (connection : jsval) : js ContextCandidate :=
  let ref := vget connection "connectionRef" in
  createContextCandidate
    [("candidateType", VStr "connection"); ("stableRef", ref);
     ("tenantRef", vget connection "tenantRef"); ("workspaceRef", vget connection "workspaceRef");
     ("resourceType", VStr "app_connection");
     ("resourceRef", VStr (js_String (vget connection "appKey") +:+ ":" +:+ js_String ref));
     ("connectionRef", ref);
     ("displayLabel", js_or (js_or (vget connection "displayLabel") (vget connection "accountLabel")) ref);
     ("authoritySummary", js_or (vget connection "permissionMode") (VStr ""));
     ("readinessSummary", js_or (vget connection "validationStatus") (VStr ""));
     ("metadata", VObj
        [("appKey", vget connection "appKey"); ("authType", vget connection "authType");
         ("primary", VBool (is_true (vget connection "primary"))); ("status", vget connection "status");
         ("validationStatus", or_null (vget connection "validationStatus"));
         ("actionGrantRef", or_null (vget (vget connection "actionGrant") "grantRef"));
         ("actionGrantMode", or_null (vget (vget connection "actionGrant") "grantMode"))])].

Definition authoritySummary (scope : jsval) : js jsval :=
  if negb (truthy scope) then Ok VNull
  else
  workspaces ← array_of (js_or (vget scope "workspaces") (VArr [])) "workspaces";
  refs ← mapM_js (fun workspace => js_get workspace "workspaceRef") workspaces;
  Ok (freezeApplicationValue (VObj
    [("tenantRef", vget scope "tenantRef"); ("userRef", vget scope "userRef");
     ("role", or_null (vget (vget scope "membership") "role"));
     ("membershipStatus", or_null (vget (vget scope "membership") "status"));
     ("workspaceRefs", VArr (sort_values refs))])).

(** [Number(readiness.hardBlockCount || 0)] *)
Definition hardBlockCount (readiness : jsval) : option Z :=
  js_Number (js_or (vget readiness "hardBlockCount") (VNum (Some 0%Z))).

Definition capabilitySummary (readiness : jsval) : jsval :=
  if negb (truthy readiness) then VNull
  else freezeApplicationValue (VObj
    [("capabilityKey", vget readiness "capabilityKey"); ("runtimeStatus", vget readiness "runtimeStatus");
     ("operationClass", vget readiness "operationClass"); ("riskClass", vget readiness "riskClass");
     ("dispatchAllowed", VBool (is_true (vget readiness "dispatchAllowed")));
     ("applyAllowed", VBool (is_true (vget readiness "applyAllowed")));
     ("hardBlockCount", VNum (hardBlockCount readiness));
     ("manifestHash", or_null (vget (vget readiness "currentManifest") "manifestHash"));
     ("manifestVersion", or_null (vget (vget readiness "currentManifest") "manifestVersion"))]).

Definition subjectValue (effectiveSubject : option EffectiveSubject) : jsval :=
  match effectiveSubject with Some s => VObj (js_of_subject s) | None => VNull end.

Definition contextSnapshot (principal : AuthenticatedPrincipal)
    (effectiveSubject : option EffectiveSubject) (candidate : ContextCandidate)
    (authority capability : jsval) : jsval :=
  freezeApplicationValue (VObj
    [("principal", VObj
        [("principalType", VStr (ap_principalType principal));
         ("principalRef", VStr (ap_principalRef principal));
         ("authorizedTenantRefs", js_of_strs (sort_strings (ap_authorizedTenantRefs principal)))]);
     ("effectiveSubject", subjectValue effectiveSubject);
     ("selectedCandidate", VObj
        [("candidateType", VStr (cc_candidateType candidate)); ("stableRef", VStr (cc_stableRef candidate));
         ("tenantRef", VStr (cc_tenantRef candidate)); ("workspaceRef", js_of_ostr (cc_workspaceRef candidate));
         ("brandRef", js_of_ostr (cc_brandRef candidate));
         ("resourceType", js_of_ostr (cc_resourceType candidate));
         ("resourceRef", js_of_ostr (cc_resourceRef candidate));
         ("connectionRef", js_of_ostr (cc_connectionRef candidate))]);
     ("authority", authority); ("capability", capability)]).

Definition blockedResolution (reasonCode : string) (candidates : list ContextCandidate)
    (authority capability : jsval) : jsval :=
  freezeApplicationValue (VObj
    [("status", VStr (js_of_status BLOCKED)); ("reasonCodes", VArr [VStr reasonCode]);
     ("selectedCandidate", VNull); ("candidates", js_of_candidates candidates);
     ("authorityScope", authority); ("capabilityReadiness", capability); ("context", VNull);
     ("automaticWritePerformed", VBool false); ("secretsIncluded", VBool false)]).

(** What the decision policy reads of a pin: a revision or a reference that is
    not a string equals no string. *)
Definition pinView (pin : jsval) : option ContextPin :=
  if truthy pin then
    Some {| pin_pinRef := string_or_blank (vget pin "pinRef");
            pin_stableRef := string_or_blank (vget pin "stableRef");
            pin_contextRevision := string_or_blank (vget pin "contextRevision");
            pin_expiresAt := if truthy (vget pin "expiresAt")
                             then Some (js_String (vget pin "expiresAt")) else None;
            pin_verified := truthy (vget pin "verified") |}
  else None.
End Mapping.

(** ** The service *)

(** [a || b] on references. *)
Definition ref_or (a b : option string) : option string :=
  match ref_given a with Some s => Some s | None => b end.

Section Service.
Context `{JsHost} `{Ports}.

(** Who asks, and for whom: the checked references of the input. *)
Record Caller := {
  ca_principal : AuthenticatedPrincipal;
  ca_principalRef : string;
  ca_principalType : string;
  ca_tenantRef : string;
  ca_userRef : string;
}.

Definition callerOf (input : ResolutionInput) : js Caller :=
  principal ← match ri_principal input with
              | Some p => Ok p
              | None => type_error "principal must be an object."
              end;
  principalRef ← requireApplicationString (VStr (ap_principalRef principal)) "principal.principalRef";
  principalType ← requireApplicationString (VStr (ap_principalType principal)) "principal.principalType";
  tenantRef ← requireApplicationString
    (js_of_ostr (ref_or (ri_tenantRef input) (es_tenantRef <$> ri_effectiveSubject input))) "tenantRef";
  userRef ← requireApplicationString
    (js_of_ostr (ref_or (ri_userRef input)
      (ref_or (es_subjectRef <$> ri_effectiveSubject input) (Some principalRef)))) "userRef";
  Ok {| ca_principal := principal; ca_principalRef := principalRef; ca_principalType := principalType;
        ca_tenantRef := tenantRef; ca_userRef := userRef |}.

(** [if (ref) await port(...) else null] *)
Definition await_given (ref : option string) (call : string -> port_call) : app jsval :=
  match ref_given ref with
  | Some r => await_port (call r)
  | None => mret VNull
  end.

Definition given (ref : option string) : bool :=
  match ref_given ref with Some _ => true | None => false end.

(** [safeCapability?.hardBlockCount > 0] *)
Definition hard_blocked (safeCapability : jsval) : bool :=
  match vget safeCapability "hardBlockCount" with VNum (Some n) => Z.ltb 0 n | _ => false end.

(** Why the capability blocks the request, if it does. *)
Definition capabilityBlock (capabilityKey : option string) (capability : jsval) : option string :=
  let safeCapability := capabilitySummary capability in
  if given capabilityKey && negb (truthy capability) then Some "capability_readiness_not_found"
  else if hard_blocked safeCapability then Some "capability_hard_blocked"
  else if truthy safeCapability && negb (truthy (vget safeCapability "dispatchAllowed"))
  then Some "capability_dispatch_not_allowed"
  else None.

Definition requestedWorkspaceRef (input : ResolutionInput) : option string :=
  ref_or (ri_workspaceRef input)
    (match ri_effectiveSubject input with Some s => es_workspaceRef s | None => None end).

(** [explicitConnectionRef || (pin && requestedWorkspaceRef ? pin.stableRef : null)] *)
Definition connectionRefOf (input : ResolutionInput) (pin : jsval) : jsval :=
  match ref_given (ri_connectionRef input) with
  | Some r => VStr r
  | None => if truthy pin && given (requestedWorkspaceRef input) then vget pin "stableRef" else VNull
  end.

(** The candidates with the exact connection, when one is asked for and found. *)
Definition withConnection (input : ResolutionInput) (caller : Caller) (pin : jsval)
    (candidates : list ContextCandidate) : app (list ContextCandidate) :=
  let connectionRef := connectionRefOf input pin in
  if negb (truthy connectionRef) then mret candidates
  else
  workspaceRef ← sync (requireApplicationString (js_of_ostr (requestedWorkspaceRef input)) "workspaceRef");
  connection ← await_port (findExactConnection
    [("tenantRef", VStr (ca_tenantRef caller)); ("workspaceRef", VStr workspaceRef);
     ("connectionRef", connectionRef); ("appKey", js_of_ostr (ref_given (ri_appKey input)));
     ("actionKey", js_of_ostr (ref_given (ri_actionKey input))); ("userRef", VStr (ca_userRef caller))]);
  if truthy connection
  then candidate ← sync (mapConnectionCandidate connection); mret (candidates ++ [candidate])
  else mret candidates.

(** The revision a pin is checked against: the given one, or the revision of
    the only candidate the pin can name. *)
Definition revisionOf (input : ResolutionInput) (caller : Caller) (pin authority capability : jsval)
    (candidates : list ContextCandidate) : option string :=
  match ref_given (ri_currentContextRevision input) with
  | Some r => Some r
  | None =>
      if truthy pin then
        match bfilter (fun c => is_str (vget pin "stableRef") (cc_stableRef c)) candidates with
        | [c] => Some (createContextRevision (contextSnapshot (ca_principal caller)
                   (ri_effectiveSubject input) c authority capability) VUndef)
        | _ => None
        end
      else None
  end.

Definition decisionRequest (input : ResolutionInput) (caller : Caller)
    (pin authority capability : jsval) (candidates : list ContextCandidate) : DecisionRequest := {|
  dr_principal := Some (ca_principal caller); dr_effectiveSubject := ri_effectiveSubject input;
  dr_candidates := Some candidates;
  dr_intent := [("riskClass", js_or (oget (ri_intent input) "riskClass") (VStr "read"));
                ("operationKind", js_or (oget (ri_intent input) "operationKind") (VStr "read"));
                ("operationIntent", oget (ri_intent input) "operationIntent")];
  dr_explicitRef := ri_explicitRef input; dr_verifiedPin := pinView pin;
  dr_currentContextRevision := revisionOf input caller pin authority capability candidates;
  dr_exactBindingRef := ref_or (ri_exactBindingRef input) (ri_connectionRef input);
  dr_fallbackRef := ri_fallbackRef input;
  dr_allowLowRiskFallback := ri_allowLowRiskFallback input; dr_now := ri_now input |}.

Definition decisionFields (d : ContextDecision) : jsobj :=
  [("status", VStr (js_of_status (cd_status d)));
   ("reasonCodes", VArr (List.map (fun r => VStr (js_of_reason r)) (cd_reasonCodes d)));
   ("selectedCandidate", match cd_selectedCandidate d with
                         | Some c => VObj (js_of_candidate c) | None => VNull end);
   ("candidates", js_of_candidates (cd_candidates d))].

Definition contextOf (input : ResolutionInput) (caller : Caller) (pin authority capability : jsval)
    (selected : ContextCandidate) : jsval :=
  let snapshot := contextSnapshot (ca_principal caller) (ri_effectiveSubject input) selected
    authority capability in
  VObj
    [("contextHash", VStr (createContextHash snapshot));
     ("contextRevision", VStr (createContextRevision snapshot VUndef));
     ("principal", VObj (js_of_principal (ca_principal caller)));
     ("effectiveSubject", subjectValue (ri_effectiveSubject input));
     ("tenantRef", VStr (cc_tenantRef selected)); ("workspaceRef", js_of_ostr (cc_workspaceRef selected));
     ("brandRef", js_of_ostr (cc_brandRef selected));
     ("resourceType", js_of_ostr (cc_resourceType selected));
     ("resourceRef", js_of_ostr (cc_resourceRef selected));
     ("connectionRef", js_of_ostr (cc_connectionRef selected));
     ("selectedCandidate", VObj (js_of_candidate selected)); ("authority", authority);
     ("capability", capability); ("pinRef", or_null (vget pin "pinRef"))].

(** The object [resolve] returns after a decision, before it is frozen. *)
Definition resolutionFields (d : ContextDecision) (authority capability context : jsval) : jsobj :=
  decisionFields d
  ++ [("authorityScope", authority); ("capabilityReadiness", capability); ("context", context);
      ("automaticWritePerformed", VBool false); ("secretsIncluded", VBool false)].

(** The decision and what is returned for it. *)
Definition decide (input : ResolutionInput) (caller : Caller) (pin authority capability : jsval)
    (candidates : list ContextCandidate) : js jsval :=
  authorizedCandidates ← ensureUniqueCandidateReferences candidates;
  decision ← resolveContextDecision
    (decisionRequest input caller pin authority capability authorizedCandidates);
  Ok (freezeApplicationValue (VObj (resolutionFields decision authority capability
    (match cd_status decision, cd_selectedCandidate decision with
     | RESOLVED, Some selected => contextOf input caller pin authority capability selected
     | _, _ => VNull
     end)))).

(** From the listed candidates on. *)
Definition resolveCandidates (input : ResolutionInput) (caller : Caller) (authority : jsval)
    (candidates : list ContextCandidate) : app jsval :=
  pin ← await_given (ri_pinRef input) (fun ref => findContextPin
    [("tenantRef", VStr (ca_tenantRef caller)); ("pinRef", VStr ref);
     ("principalType", VStr (ca_principalType caller)); ("principalRef", VStr (ca_principalRef caller))]);
  if given (ri_pinRef input) && negb (truthy pin)
  then mret (blockedResolution "context_pin_not_found" candidates authority VNull)
  else
  capability ← await_given (ri_capabilityKey input) (fun key =>
    findCapabilityReadiness [("capabilityKey", VStr key)]);
  preProviderCandidates ← sync (ensureUniqueCandidateReferences candidates);
  match capabilityBlock (ri_capabilityKey input) capability with
  | Some reason => mret (blockedResolution reason preProviderCandidates authority
                           (capabilitySummary capability))
  | None =>
      allCandidates ← withConnection input caller pin candidates;
      sync (decide input caller pin authority (capabilitySummary capability) allCandidates)
  end.

Definition resolve (input : ResolutionInput) : app jsval :=
  caller ← sync (callerOf input);
  scope ← await_port (findAuthorizedScope
    [("tenantRef", VStr (ca_tenantRef caller)); ("userRef", VStr (ca_userRef caller))]);
  authority ← sync (authoritySummary scope);
  if negb (truthy scope) then mret (blockedResolution "authorized_scope_not_found" [] VNull VNull)
  else
  resources ← await_port (listAuthorizedResources
    [("tenantRef", VStr (ca_tenantRef caller)); ("userRef", VStr (ca_userRef caller));
     ("resourceType", js_of_ostr (ref_given (ri_resourceType input)));
     ("limit", js_or (ri_candidateLimit input) (VNum (Some 100%Z)))]);
  candidates ← sync (l ← array_of resources "resources"; mapM_js mapResourceCandidate l);
  resolveCandidates input caller authority candidates.

(** ** Only reads *)

Lemma await_given_reads ref call h r h' : (forall s, is_write (call s) = false) ->
  await_given ref call h = (r, h') -> reads h h'.
Proof.
  intros Hc. unfold await_given. destruct (ref_given ref); intros Hr.
  - apply await_inv in Hr as [_ ->]. auto.
  - by apply mret_inv in Hr as [_ ->].
Qed.

Lemma withConnection_reads input caller pin l h r h' :
  withConnection input caller pin l h = (r, h') -> reads h h'.
Proof.
  unfold withConnection. destruct (negb (truthy _)); intros Hr; [by apply mret_inv in Hr as [_ ->]|].
  app_step Hr; [|done]. app_step Hr; [|auto]. destruct (truthy a0).
  - app_step Hr; [|auto]. apply mret_inv in Hr as [_ ->]. auto.
  - apply mret_inv in Hr as [_ ->]. auto.
Qed.

Lemma resolveCandidates_reads input caller authority l h r h' :
  resolveCandidates input caller authority l h = (r, h') -> reads h h'.
Proof.
  unfold resolveCandidates. intros Hr. app_step Hr; apply await_given_reads in Hm; try done.
  destruct (given (ri_pinRef input) && _); [by apply mret_inv in Hr as [_ ->]|].
  app_step Hr; apply await_given_reads in Hm0; try done; [|by etrans].
  app_step Hr; [|by etrans]. destruct (capabilityBlock _ _).
  - apply mret_inv in Hr as [_ ->]. by etrans.
  - app_step Hr; [apply sync_inv in Hr as [_ ->]|]; apply withConnection_reads in Hm2; by do 2 etrans.
Qed.

Lemma resolve_reads input h r h' : resolve input h = (r, h') -> reads h h'.
Proof.
  unfold resolve. intros Hr. app_step Hr; [|done]. app_step Hr; [|auto]. app_step Hr; [|auto].
  destruct (negb _); [apply mret_inv in Hr as [_ ->]; auto|].
  app_step Hr; [|etrans; [|by apply reads_call]; by apply reads_call].
  app_step Hr; [|etrans; [|by apply reads_call]; by apply reads_call].
  apply resolveCandidates_reads in Hr. etrans; [|exact Hr].
  etrans; [|by apply reads_call]. by apply reads_call.
Qed.

(** ** Resolved contexts *)

Lemma uniqueLoop_Ok seen l : uniqueLoop seen l = Ok tt \/ exists e, uniqueLoop seen l = Throw e.
Proof. destruct (uniqueLoop seen l) as [[]|e]; eauto. Qed.

Lemma ensureUnique_Ok l l' : ensureUniqueCandidateReferences l = Ok l' -> l' = l.
Proof. unfold ensureUniqueCandidateReferences. intros Hl. inv_outcome. done. Qed.

Lemma decide_context_status req inp l : cd_status (decide_context req inp l) = RESOLVED ->
  exists c, cd_selectedCandidate (decide_context req inp l) = Some c.
Proof.
  unfold decide_context, select_or_block. intros Hs.
  repeat match goal with
  | Hs : cd_status (match ?x with _ => _ end) = RESOLVED |- _ => destruct x; try discriminate Hs
  end; simpl; eauto.
Qed.

Lemma vget_resolution d authority capability context k :
  k ∈ (resolutionFields d authority capability context).*1 -> isSensitiveKey k = false ->
  vget (freezeApplicationValue (VObj (resolutionFields d authority capability context))) k
  = redact isSensitiveKey (oget (resolutionFields d authority capability context) k).
Proof. intros _ Hk. apply vget_frozen; [|done]. by apply (bool_decide_unpack _); vm_compute. Qed.

Lemma array_of_Ok v w l : array_of v w = Ok l -> v = VArr l.
Proof. destruct v; simpl; naive_solver. Qed.

(** What the policy owes for the selected candidate. *)
Definition authorized_for (input : ResolutionInput) (principal : AuthenticatedPrincipal)
    (c : ContextCandidate) : Prop :=
  ("*" ∈ ap_authorizedTenantRefs principal \/ cc_tenantRef c ∈ ap_authorizedTenantRefs principal) /\
  (forall s, ri_effectiveSubject input = Some s -> cc_tenantRef c = es_tenantRef s /\
     (forall w, es_workspaceRef s = Some w -> w <> "" -> cc_workspaceRef c = Some w)).

Lemma decide_resolved input caller pin authority capability l v :
  decide input caller pin authority capability l = Ok v -> vget v "status" = VStr "resolved" ->
  exists d selected inp reason,
    selected ∈ l /\ authorized_for input (ca_principal caller) selected /\
    normalizeDecisionInput (dr_intent (decisionRequest input caller pin authority capability l)) = Ok inp /\
    (di_operationKind inp = "mutation" -> ri_effectiveSubject input <> None) /\
    reason_justified (decisionRequest input caller pin authority capability l) inp reason selected /\
    v = freezeApplicationValue (VObj (resolutionFields d authority capability
          (contextOf input caller pin authority capability selected))).
Proof.
  unfold decide. intros Hd Hs. apply bind_Ok in Hd as (l' & Hl & Hd). apply ensureUnique_Ok in Hl as ->.
  apply bind_Ok in Hd as (d & Hd & Hv). apply Ok_inj in Hv as <-.
  rewrite vget_resolution in Hs by (by apply (bool_decide_unpack _); vm_compute).
  change (VStr (js_of_status (cd_status d)) = VStr "resolved") in Hs.
  assert (cd_status d = RESOLVED) as Hst by (by destruct (cd_status d)).
  apply resolveContextDecision_inv in Hd as (p & l' & inp & Hp & Hl & Hinp & Hdec).
  simpl in Hp, Hl. injection Hp as <-. injection Hl as <-. rewrite Hdec in Hst.
  destruct (decide_context_status _ _ _ Hst) as [c Hc].
  destruct (decide_context_selected _ _ _ _ Hc) as (Hin & _ & Hmut & reason & _ & Hreason).
  apply elem_of_authorized in Hin as [Hvis Hin]. apply candidate_visible_spec in Hvis.
  exists d, c, inp, reason. rewrite Hdec, Hst, Hc. done.
Qed.

Lemma capabilityBlock_None key capability : capabilityBlock key capability = None ->
  given key = true ->
  truthy capability = true /\ is_true (vget capability "dispatchAllowed") = true /\
  (forall n, hardBlockCount capability = Some n -> (n <= 0)%Z).
Proof.
  unfold capabilityBlock. intros Hb Hk. rewrite Hk in Hb. simpl in Hb.
  destruct (truthy capability) eqn:Ht; [|done]. simpl in Hb.
  unfold capabilitySummary, hard_blocked in Hb. rewrite Ht in Hb. cbn [negb] in Hb.
  rewrite !vget_frozen in Hb by (by apply (bool_decide_unpack _); vm_compute).
  cbn [oget String.eqb Ascii.eqb Bool.eqb redact truthy] in Hb. split; [done|].
  unfold freezeApplicationValue, sanitizeApplicationValue in Hb. rewrite truthy_redact in Hb.
  cbn [truthy andb] in Hb. destruct (is_true (vget capability "dispatchAllowed"));
    destruct (hardBlockCount capability) as [n|]; try destruct (Z.ltb_spec 0 n); try discriminate Hb;
    (split; [done|]); intros m Hm; by simplify_eq.
Qed.

Lemma blockedResolution_status reason l authority capability :
  vget (blockedResolution reason l authority capability) "status" = VStr "blocked".
Proof.
  unfold blockedResolution. rewrite vget_frozen; [done| |done]. by apply (bool_decide_unpack _); vm_compute.
Qed.

(** A candidate that the exact connection gives. *)
Definition connected (c : ContextCandidate) : Prop :=
  exists h args connection, answer h (findExactConnection args) = Ok connection /\
    truthy connection = true /\ mapConnectionCandidate connection = Ok c.

Lemma withConnection_Ok input caller pin l h l' h' :
  withConnection input caller pin l h = (Ok l', h') ->
  forall c, c ∈ l' -> c ∈ l \/ connected c.
Proof.
  unfold withConnection. destruct (negb (truthy _)); intros Hr.
  { apply mret_inv in Hr as [Hr ->]. apply Ok_inj in Hr as ->. auto. }
  app_step Hr; [|done]. app_step Hr; [|done]. destruct (truthy a0) eqn:Ht.
  - app_step Hr; [|done]. apply mret_inv in Hr as [Hr ->]. apply Ok_inj in Hr as ->.
    intros c [?|Hc]%elem_of_app; [by left|]. apply list_elem_of_singleton in Hc as ->. right.
    by eexists _, _, _.
  - apply mret_inv in Hr as [Hr ->]. apply Ok_inj in Hr as ->. auto.
Qed.

Lemma await_given_Ok ref call h v h' : await_given ref call h = (Ok v, h') ->
  forall s, ref_given ref = Some s -> answer h (call s) = Ok v.
Proof. unfold await_given. intros Hr s Hs. rewrite Hs in Hr. by apply await_inv in Hr as [? _]. Qed.

Lemma given_true ref : given ref = true <-> exists s, ref_given ref = Some s.
Proof. unfold given. destruct (ref_given ref); naive_solver. Qed.

Lemma resolveCandidates_resolved input caller authority l h v h' :
  resolveCandidates input caller authority l h = (Ok v, h') -> vget v "status" = VStr "resolved" ->
  exists pin capability all,
    (given (ri_pinRef input) = true -> truthy pin = true /\
       exists hp key, answer hp (findContextPin key) = Ok pin) /\
    (given (ri_capabilityKey input) = true -> 
       exists hc key, answer hc (findCapabilityReadiness key) = Ok capability) /\
    capabilityBlock (ri_capabilityKey input) capability = None /\
    (forall c, c ∈ all -> c ∈ l \/ connected c) /\
    decide input caller pin authority (capabilitySummary capability) all = Ok v.
Proof.
  unfold resolveCandidates. intros Hr Hs. app_step Hr; [|done]. rename a into pin.
  pose proof (await_given_Ok _ _ _ _ _ Hm) as Hpin.
  destruct (given (ri_pinRef input) && negb (truthy pin)) eqn:Hp.
  { apply mret_inv in Hr as [Hr ->]. apply Ok_inj in Hr as ->. by rewrite blockedResolution_status in Hs. }
  app_step Hr; [|done]. rename a into capability. app_step Hr; [|done].
  pose proof (await_given_Ok _ _ _ _ _ Hm0) as Hcap.
  destruct (capabilityBlock _ _) as [reason|] eqn:Hb.
  { apply mret_inv in Hr as [Hr ->]. apply Ok_inj in Hr as ->. by rewrite blockedResolution_status in Hs. }
  app_step Hr; [|done]. apply sync_inv in Hr as [Hr _]. exists pin, capability, a0.
  split; [|split; [|split; [done|split; [by eapply withConnection_Ok|done]]]].
  - intros Hg. rewrite Hg in Hp. apply negb_false_iff in Hp. split; [done|].
    apply given_true in Hg as [s Hg]. eauto.
  - intros [s Hg]%given_true. eauto.
Qed.

(** ** The contract of a resolution service *)

Lemma decide_status input caller pin authority capability l v :
  decide input caller pin authority capability l = Ok v ->
  exists s, vget v "status" = VStr s /\ s ∈ ["resolved"; "interpretation_required"; "blocked"].
Proof.
  unfold decide. intros Hd. apply bind_Ok in Hd as (l' & _ & Hd).
  apply bind_Ok in Hd as (d & _ & Hv). apply Ok_inj in Hv as <-. exists (js_of_status (cd_status d)).
  rewrite vget_resolution by (by apply (bool_decide_unpack _); vm_compute). split; [done|].
  apply sin_true. by destruct (cd_status d).
Qed.

Lemma resolve_status input h v h' : resolve input h = (Ok v, h') ->
  exists s, vget v "status" = VStr s /\ s ∈ ["resolved"; "interpretation_required"; "blocked"].
Proof.
  assert (forall reason l authority capability,
    exists s, vget (blockedResolution reason l authority capability) "status" = VStr s /\
      s ∈ ["resolved"; "interpretation_required"; "blocked"]) as Hblocked.
  { intros. exists "blocked". rewrite blockedResolution_status. split; [done|]. by apply sin_true. }
  unfold resolve, resolveCandidates. intros Hr. do 3 (app_step Hr; [|done]). destruct (negb _).
  { apply mret_inv in Hr as [Hr ->]. apply Ok_inj in Hr as ->. auto. }
  do 3 (app_step Hr; [|done]). destruct (given (ri_pinRef input) && _).
  { apply mret_inv in Hr as [Hr ->]. apply Ok_inj in Hr as ->. auto. }
  do 2 (app_step Hr; [|done]). destruct (capabilityBlock _ _).
  { apply mret_inv in Hr as [Hr ->]. apply Ok_inj in Hr as ->. auto. }
  app_step Hr; [|done]. apply sync_inv in Hr as [Hr _]. by eapply decide_status.
Qed.

#[export] Instance context_resolution_service : ResolutionService ResolutionInput := {
  rs_resolve := resolve; rs_reads := resolve_reads; rs_status := resolve_status }.

End Service.

(** One tenant with one workspace and one capability. *)
Definition demo_principal : AuthenticatedPrincipal := {|
  ap_principalType := "tenant_user"; ap_principalRef := "user:1";
  ap_authorizedTenantRefs := ["tenant:1"]; ap_attributes := [] |}.

Definition demo_input (capabilityKey : string) : ResolutionInput := {|
  ri_principal := Some demo_principal; ri_effectiveSubject := None; ri_tenantRef := Some "tenant:1";
  ri_userRef := None; ri_resourceType := None; ri_candidateLimit := VUndef; ri_pinRef := None;
  ri_capabilityKey := Some capabilityKey; ri_connectionRef := None; ri_workspaceRef := None;
  ri_appKey := None; ri_actionKey := None; ri_currentContextRevision := None;
  ri_intent := [("operationIntent", VStr "read posts")]; ri_explicitRef := None;
  ri_exactBindingRef := None; ri_fallbackRef := None; ri_allowLowRiskFallback := false; ri_now := 0 |}.

Definition demo_ports : Ports := {|
  answer := fun _ c => match c with
    | findAuthorizedScope _ => Ok (VObj [("tenantRef", VStr "tenant:1"); ("userRef", VStr "user:1");
        ("workspaces", VArr [VObj [("workspaceRef", VStr "ws:1")]])])
    | listAuthorizedResources _ => Ok (VArr [VObj [("resourceType", VStr "workspace");
        ("resourceRef", VStr "ws:1"); ("stableRef", VStr "workspace:ws:1"); ("tenantRef", VStr "tenant:1")]])
    | findCapabilityReadiness key => Ok (VObj [("capabilityKey", oget key "capabilityKey");
        ("dispatchAllowed", VBool (is_str (oget key "capabilityKey") "cms.read"))])
    | _ => Ok VNull
    end |}.

End ContextResolution.
