(* ===== verification/ContextPins.v ===== *)
(** * Context pins (contextKernel/application/contextPinService.js)

    A pin fixes the candidate and the revision a context was resolved to.
    Proved: what a created pin says, read back by a resolution, and until when
    it is usable. *)
From S2P Require Import Prelude Sorting JsString JsDate JsValue JsJson Redaction ContextModel.
From S2P Require Import ContextIntegrity DecisionPolicy KernelSupport ApplicationSupport ContextResolution.

Module ContextPins.
Import ApplicationSupport ContextResolution.

Section Pins.
Context `{JsHost} `{Ports}.

(** The parsed expiry, checked against [now]. *)
Definition pinExpiry (expiresAt : jsval) (now : Z) : js (option Z) :=
  if nullish expiresAt then Ok None
  else
  let invalid := ContextApplicationError "context_pin_expiry_invalid"
    "Context pin expiry must be a valid future timestamp." 422 [] in
  match js_Date expiresAt with
  | None => Throw invalid
  | Some expiry => if Z.leb expiry now then Throw invalid else Ok (Some expiry)
  end.

Definition pinRequest (args : jsobj) (resolved : jsval) (pin : ContextPin) (createdAt : Z)
    : js jsval :=
  tenantRef ← requireApplicationString
    (js_or (oget_default args "tenantRef" VNull) (vget (vget resolved "context") "tenantRef")) "tenantRef";
  principalType ← requireApplicationString (oget args "principalType") "principalType";
  principalRef ← requireApplicationString (oget args "principalRef") "principalRef";
  Ok (freezeApplicationValue (VObj
    [("tenantRef", VStr tenantRef); ("principalType", VStr principalType);
     ("principalRef", VStr principalRef); ("pin", VObj (js_of_pin pin));
     ("contextHash", vget (vget resolved "context") "contextHash");
     ("createdAt", VStr (toISOString createdAt))])).

(** The request of [create]; [id] is the value of [idFactory()], [now] and
    [createdAt] those of the two calls of [clock()]. *)
Definition pinOf (args : jsobj) (id : jsval) (now createdAt : Z) : js jsval :=
  resolved ← requireApplicationObject (oget args "resolution") "resolution";
  throw_if (negb (is_str (vget resolved "status") "resolved")
            || negb (truthy (vget resolved "context"))
            || negb (truthy (vget resolved "selectedCandidate")))
    (ContextApplicationError "context_pin_requires_resolved_context"
       "A context pin can only be created from a resolved execution context." 409 []);;
  expiry ← pinExpiry (oget_default args "expiresAt" VNull) now;
  pinRef ← requireApplicationString id "pinRef";
  pin ← createContextPin
    [("pinRef", VStr pinRef); ("stableRef", vget (vget resolved "selectedCandidate") "stableRef");
     ("contextRevision", vget (vget resolved "context") "contextRevision");
     ("expiresAt", match expiry with Some t => VStr (toISOString t) | None => VNull end);
     ("verified", VBool true)];
  pinRequest args resolved pin createdAt.

Definition create (args : jsobj) (id : jsval) (now createdAt : Z) : app jsval :=
  request ← sync (pinOf args id now createdAt);
  stored ← await_port (createPin (spread request));
  mret (freezeApplicationValue (js_or stored request)).

(** The reference of a pin in the order the fields are checked. *)
Definition pinKey (args : jsobj) : js jsobj :=
  tenantRef ← requireApplicationString (oget args "tenantRef") "tenantRef";
  pinRef ← requireApplicationString (oget args "pinRef") "pinRef";
  principalType ← requireApplicationString (oget args "principalType") "principalType";
  principalRef ← requireApplicationString (oget args "principalRef") "principalRef";
  Ok [("tenantRef", VStr tenantRef); ("pinRef", VStr pinRef);
      ("principalType", VStr principalType); ("principalRef", VStr principalRef)].

Definition read (args : jsobj) : app jsval :=
  key ← sync (pinKey args);
  result ← await_port (findContextPin key);
  mret (freezeApplicationValue result).

Definition invalidate (args : jsobj) (now : Z) : app jsval :=
  key ← sync (pinKey args);
  reason ← sync (requireApplicationString
    (oget_default args "reason" (VStr "context_changed")) "reason");
  let request := freezeApplicationValue (VObj
    (key ++ [("reason", VStr reason); ("invalidatedAt", VStr (toISOString now))])) in
  result ← await_port (invalidatePin (spread request));
  mret (freezeApplicationValue (js_or result request)).

(** ** What a created pin is good for *)

Lemma pinExpiry_Ok v now e : pinExpiry v now = Ok e ->
  (nullish v = true /\ e = None) \/
  (nullish v = false /\ exists t, e = Some t /\ js_Date v = Some t /\ valid_time t = true /\ (now < t)%Z).
Proof.
  unfold pinExpiry. destruct (nullish v); [intros [= <-]; auto|].
  destruct (js_Date v) as [t|] eqn:Ht; [|done]. destruct (Z.leb_spec t now); [done|].
  intros [= <-]. right. split; [done|]. exists t. repeat split; try done. by apply js_Date_valid in Ht.
Qed.

(** The pin inside the request of [create]. *)
Lemma pinOf_Ok args id now createdAt request rev ref :
  pinOf args id now createdAt = Ok request ->
  vget (vget (oget args "resolution") "context") "contextRevision" = VStr rev -> clean rev ->
  vget (vget (oget args "resolution") "selectedCandidate") "stableRef" = VStr ref -> clean ref ->
  exists pinRef expiry, pinExpiry (oget_default args "expiresAt" VNull) now = Ok expiry /\
    vget request "pin" = redact isSensitiveKey (VObj (js_of_pin
      {| pin_pinRef := pinRef; pin_stableRef := ref; pin_contextRevision := rev;
         pin_expiresAt := toISOString <$> expiry; pin_verified := true |})).
Proof.
  unfold pinOf. intros Hr Hrev Hcr Href Hcf. apply bind_Ok in Hr as (res & Hres & Hr).
  apply requireApplicationObject_Ok in Hres as [_ ->]. apply bind_Ok in Hr as ([] & _ & Hr).
  apply bind_Ok in Hr as (expiry & He & Hr). apply bind_Ok in Hr as (pinRef & Hp & Hr).
  apply bind_Ok in Hr as (pin & Hpin & Hr). rewrite Hrev, Href in Hpin.
  unfold createContextPin in Hpin. apply bind_Ok in Hpin as (iso & Hiso & Hpin).
  apply bind_Ok in Hpin as (pinRef' & _ & Hpin). cbn [oget String.eqb Ascii.eqb Bool.eqb] in Hpin.
  rewrite !requireNonEmptyString_id in Hpin by done. apply Ok_inj in Hpin as <-.
  assert (iso = toISOString <$> expiry) as ->.
  { apply pinExpiry_Ok in He as [[_ ->]|(_ & t & -> & _ & Hv & _)];
      cbn [oget oget_default String.eqb Ascii.eqb Bool.eqb nullish js_Date] in Hiso.
    - by injection Hiso as <-.
    - by rewrite date_parse_toISOString in Hiso; [injection Hiso as <-|]. }
  unfold pinRequest in Hr. do 3 (apply bind_Ok in Hr as (? & _ & Hr)).
  apply Ok_inj in Hr as <-. exists pinRef', expiry. split; [done|].
  rewrite vget_frozen; [done| |done]. by apply (bool_decide_unpack _); vm_compute.
Qed.

(** A stored pin reads back as itself. *)
Lemma pinView_stored pin : pin_expiresAt pin <> Some "" ->
  pinView (redact isSensitiveKey (VObj (js_of_pin pin))) = Some pin.
Proof.
  intros He. unfold pinView. rewrite truthy_redact. cbn [truthy].
  rewrite !vget_redact by (by apply (bool_decide_unpack _); vm_compute).
  repeat match goal with |- context [isSensitiveKey ?k] =>
    let b := eval vm_compute in (isSensitiveKey k) in change (isSensitiveKey k) with b end.
  destruct pin as [pr st rv [e|] []]; try done; cbn in *; (destruct e as [|c e]; [done|]); done.
Qed.

Lemma pinState_None pin t current : clean (pin_contextRevision pin) -> pin_verified pin = true ->
  pinState pin t current = None <-> current = Some (pin_contextRevision pin) /\
    (forall e x, pin_expiresAt pin = Some e -> e <> "" -> date_parse e = Some x -> (t < x)%Z).
Proof.
  intros [Htrim Hne] Hv. split; [intros (_ & ? & ?)%pinState_usable; done|]. intros [-> He].
  unfold pinState. rewrite Hv, Htrim, String.eqb_refl, (proj2 (is_empty_false _) Hne). simpl.
  destruct (pin_expiresAt pin) as [e|]; [|done]. destruct (is_empty e) eqn:Hemp; [done|].
  apply is_empty_false in Hemp. simpl. destruct (date_parse e) as [x|] eqn:Hx; [|done].
  specialize (He e x eq_refl Hemp Hx). destruct (Z.leb_spec x t); [lia|done].
Qed.

(** The pin that [create] stores for a resolved context names the selected
    candidate and, read back by a resolution, is usable exactly against the
    revision it was created at and before its expiry, which lies after the
    creation; without an expiry it stays usable. *)
Theorem created_pin_usable args id now createdAt request rev ref :
  pinOf args id now createdAt = Ok request ->
  vget (vget (oget args "resolution") "context") "contextRevision" = VStr rev -> clean rev ->
  vget (vget (oget args "resolution") "selectedCandidate") "stableRef" = VStr ref -> clean ref ->
  exists pin expiry, pinView (vget request "pin") = Some pin /\ pin_stableRef pin = ref /\
    pinExpiry (oget_default args "expiresAt" VNull) now = Ok expiry /\
    (forall e, expiry = Some e -> (now < e)%Z) /\
    forall t current, pinState pin t current = None <->
      current = Some rev /\ (forall e, expiry = Some e -> (t < e)%Z).
Proof.
  intros Hr Hrev Hcr Href Hcf.
  destruct (pinOf_Ok _ _ _ _ _ _ _ Hr Hrev Hcr Href Hcf) as (pinRef & expiry & He & ->).
  apply pinExpiry_Ok in He as Hexp.
  assert (toISOString <$> expiry <> Some "") as Hne.
  { destruct Hexp as [[_ ->]|(_ & t & -> & _ & Hv & _)]; [done|]. simpl. intros [= Hemp].
    apply is_empty_toISOString in Hv. by rewrite Hemp in Hv. }
  eexists _, expiry. split; [by apply pinView_stored|]. split; [done|]. split; [done|].
  split; [destruct Hexp as [[_ ->]|(_ & t & -> & _ & _ & ?)]; naive_solver|].
  intros t current. rewrite pinState_None by done. cbn [pin_expiresAt pin_contextRevision].
  apply and_iff_compat_l.
  destruct Hexp as [[_ ->]|(_ & x & -> & _ & Hv & _)]; [split; intros; discriminate|]. split.
  - intros Ht e [= <-]. apply (Ht _ x eq_refl); [|by apply date_parse_toISOString].
    by apply is_empty_false, is_empty_toISOString.
  - intros Ht e y [= <-] _ Hy. rewrite date_parse_toISOString in Hy by done. simplify_eq. by apply Ht.
Qed.
End Pins.

Definition demo_pin_args : jsobj :=
  [("resolution", VObj
     [("status", VStr "resolved");
      ("context", VObj [("contextRevision", VStr "rev:1"); ("contextHash", VStr "h");
                        ("tenantRef", VStr "tenant:1")]);
      ("selectedCandidate", VObj [("stableRef", VStr "workspace:ws:1")])]);
   ("principalType", VStr "tenant_user"); ("principalRef", VStr "user:1");
   ("expiresAt", VDate (Some 5000%Z))].

Definition demo_pin_request : jsval :=
  catch (pinOf (H:=demo_host) demo_pin_args (VStr "pin:1") 1000 1000) VUndef.

(** A pin that expires at 5000 is usable at 4999 and not at 5000. *)
Lemma created_pin_usable_witness : exists pin,
  pinView (H:=demo_host) (vget demo_pin_request "pin") = Some pin /\
  pinState (H:=demo_host) pin 4999 (Some "rev:1") = None /\
  pinState (H:=demo_host) pin 5000 (Some "rev:1") <> None.
Proof.
  assert (pinOf (H:=demo_host) demo_pin_args (VStr "pin:1") 1000 1000 = Ok demo_pin_request) as Hr
    by (vm_compute; reflexivity).
  assert (clean "rev:1") as Hc1 by (split; [reflexivity|discriminate]).
  assert (clean "workspace:ws:1") as Hc2 by (split; [reflexivity|discriminate]).
  destruct (created_pin_usable (H:=demo_host) _ _ _ _ _ _ _ Hr eq_refl Hc1 eq_refl Hc2)
    as (pin & expiry & Hpin & _ & Hexp & _ & Huse).
  vm_compute in Hexp. injection Hexp as <-. exists pin. split; [exact Hpin|]. split.
  - apply Huse. split; [reflexivity|]. intros e He. injection He as <-. reflexivity.
  - intros Hn. apply Huse in Hn as [_ He]. specialize (He 5000%Z eq_refl). discriminate He.
Defined.
End ContextPins.
