(* ===== verification/ContextSwitch.v ===== *)
(** * Context switches (contextKernel/application/contextSwitchService.js)

    A switch resolves a new context and invalidates the pin of the old one when
    some dimension has changed.  It is proved against the contract of a
    resolution service (class [ResolutionService]) that it writes only that one
    invalidation and reports exactly the dimensions downstream of a change. *)
From S2P Require Import Prelude Sorting JsString JsDate JsValue JsJson Redaction ContextModel.
From S2P Require Import ContextIntegrity DecisionPolicy ApplicationSupport ContextResolution.

Module ContextSwitch.
Import ApplicationSupport ContextResolution.

Definition SWITCH_DIMENSIONS : list string :=
  ["principal"; "effectiveSubject"; "tenant"; "workspace"; "brand"; "resource"; "connection";
   "authority"; "capability"].

(** The arguments of [apply]; [prepare] reads the first two. *)
Record SwitchRequest {Input : Type} := {
  sw_currentContext : jsval;
  sw_nextResolutionInput : option Input;
  sw_principalType : jsval;
  sw_principalRef : jsval;
}.
#[global] Arguments SwitchRequest : clear implicits.

Section Switch.
Context `{JsHost} `{Ports} {Input : Type} `{!ResolutionService Input}.

Definition dimensionFingerprint (context : jsval) (dimension : string) : string :=
  match dimension with
  | "principal" => createContextHash (VObj
      [("principalType", or_null (vget (vget context "principal") "principalType"));
       ("principalRef", or_null (vget (vget context "principal") "principalRef"))])
  | "effectiveSubject" => createContextHash (or_null (vget context "effectiveSubject"))
  | "tenant" => str_or_empty (vget context "tenantRef")
  | "workspace" => str_or_empty (vget context "workspaceRef")
  | "brand" => str_or_empty (vget context "brandRef")
  | "resource" => createContextHash (VObj
      [("resourceType", vget context "resourceType"); ("resourceRef", vget context "resourceRef")])
  | "connection" => str_or_empty (vget context "connectionRef")
  | "authority" => createContextHash (or_null (vget context "authority"))
  | "capability" => createContextHash (or_null (vget context "capability"))
  | _ => ""
  end.

Definition changedDimensions (currentContext nextContext : jsval) : list string :=
  bfilter (fun dimension => negb (String.eqb (dimensionFingerprint currentContext dimension)
                                             (dimensionFingerprint nextContext dimension)))
    SWITCH_DIMENSIONS.

(** [changed.length > 0 ? computeInvalidatedDimensions(changed) : []]; the
    worklist does not run out of fuel ([invalidatedBy_correct]). *)
Definition invalidatedBy (changed : list string) : js (list string) :=
  if 0 <? length changed then
    match computeInvalidatedDimensions (VArr (List.map VStr changed)) with
    | Some r => r
    | None => type_error "The worklist ran out of fuel."
    end
  else Ok [].

Definition notSwitched (resolution : jsval) : jsval := freezeApplicationValue (VObj
  [("status", vget resolution "status");
   ("reasonCodes", js_or (vget resolution "reasonCodes") (VArr [])); ("resolution", resolution);
   ("changedDimensions", VArr []); ("invalidatedDimensions", VArr []);
   ("pinInvalidationRequired", VBool false); ("automaticWritePerformed", VBool false)]).

Definition switchReady (resolution : jsval) (changed invalidated : list string) (required : bool)
    : jsval := freezeApplicationValue (VObj
  [("status", VStr "switch_ready"); ("reasonCodes", VArr []); ("resolution", resolution);
   ("changedDimensions", VArr (List.map VStr changed));
   ("invalidatedDimensions", VArr (List.map VStr invalidated));
   ("pinInvalidationRequired", VBool required); ("automaticWritePerformed", VBool false)]).

Definition prepare (req : SwitchRequest Input) : app jsval :=
  current ← sync (requireApplicationObject (sw_currentContext req) "currentContext");
  nextInput ← sync (match sw_nextResolutionInput req with
                    | Some input => Ok input
                    | None => type_error "nextResolutionInput must be an object."
                    end);
  resolution ← rs_resolve nextInput;
  if negb (is_str (vget resolution "status") "resolved") || negb (truthy (vget resolution "context"))
  then mret (notSwitched resolution)
  else
  let changed := changedDimensions current (vget resolution "context") in
  invalidated ← sync (invalidatedBy changed);
  mret (switchReady resolution changed invalidated
    (truthy (vget current "pinRef") && (0 <? length changed))).

(** The argument of the invalidation of the current pin. *)
Definition switchInvalidation (req : SwitchRequest Input) : js jsobj :=
  let currentContext := sw_currentContext req in
  tenantRef ← requireApplicationString (vget currentContext "tenantRef") "currentContext.tenantRef";
  pinRef ← requireApplicationString (vget currentContext "pinRef") "currentContext.pinRef";
  principalType ← requireApplicationString (sw_principalType req) "principalType";
  principalRef ← requireApplicationString (sw_principalRef req) "principalRef";
  Ok [("tenantRef", VStr tenantRef); ("pinRef", VStr pinRef); ("principalType", VStr principalType);
      ("principalRef", VStr principalRef); ("reason", VStr "context_switch")].

Definition apply (req : SwitchRequest Input) : app jsval :=
  prepared ← prepare req;
  if negb (is_str (vget prepared "status") "switch_ready") then mret prepared
  else
  invalidatedPin ← (if truthy (vget prepared "pinInvalidationRequired")
    then request ← sync (switchInvalidation req); await_port (invalidatePin request)
    else mret VNull);
  mret (freezeApplicationValue (VObj (override prepared
    [("status", VStr "switched"); ("invalidatedPin", invalidatedPin);
     ("automaticWritePerformed", vget prepared "pinInvalidationRequired")]))).

(** ** What a switch does *)

Lemma changedDimensions_known current next c : c ∈ changedDimensions current next ->
  c ∈ ContextDimensions.
Proof.
  unfold changedDimensions. intros [_ Hc]%elem_of_bfilter.
  assert (forallb (fun d => sin d ContextDimensions) SWITCH_DIMENSIONS = true) as Hall by done.
  rewrite forallb_elem_of in Hall. apply sin_true. by apply Hall.
Qed.

Lemma invalidatedBy_correct current next :
  invalidatedBy (changedDimensions current next)
  = Ok (bfilter (downstream (changedDimensions current next)) ContextDimensions).
Proof.
  unfold invalidatedBy. destruct (Nat.ltb_spec 0 (length (changedDimensions current next))) as [_|Hlen].
  - by rewrite computeInvalidatedDimensions_known by apply changedDimensions_known.
  - assert (changedDimensions current next = []) as -> by (apply nil_length_inv; lia). done.
Qed.

(** What [prepare] returns, and the calls it makes. *)
Lemma prepare_inv req h r h' : prepare req h = (r, h') ->
  reads h h' /\
  forall v, r = Ok v -> exists next resolution,
    sw_nextResolutionInput req = Some next /\ rs_resolve next h = (Ok resolution, h') /\
    let current := sw_currentContext req in
    let changed := changedDimensions current (vget resolution "context") in
    v = if negb (is_str (vget resolution "status") "resolved") || negb (truthy (vget resolution "context"))
        then notSwitched resolution
        else switchReady resolution changed (bfilter (downstream changed) ContextDimensions)
               (truthy (vget current "pinRef") && (0 <? length changed)).
Proof.
  unfold prepare. intros Hr. app_step Hr; [|split; [done|by subst]].
  apply requireApplicationObject_Ok in Hm as [_ ->]. app_step Hr; [|split; [done|by subst]].
  destruct (sw_nextResolutionInput req) as [next|]; [|done]. apply Ok_inj in Hm as <-.
  app_step Hr; [|split; [by eapply rs_reads|by subst]]. pose proof (rs_reads _ _ _ _ Hm) as Hreads.
  destruct (negb _ || negb _) eqn:Hres.
  - apply mret_inv in Hr as [-> ->]. split; [done|]. intros v Hv. apply Ok_inj in Hv as <-.
    exists next, a. cbv zeta. by rewrite Hres.
  - rewrite invalidatedBy_correct in Hr. app_step Hr; [|split; [done|by subst]]. apply Ok_inj in Hm0 as <-.
    apply mret_inv in Hr as [-> ->]. split; [done|]. intros v Hv. apply Ok_inj in Hv as <-.
    exists next, a. cbv zeta. by rewrite Hres.
Qed.

Ltac keys_ok := by apply (bool_decide_unpack _); vm_compute.

Lemma vget_switched resolution changed invalidated required pin k :
  isSensitiveKey k = false ->
  let updates := [("status", VStr "switched"); ("invalidatedPin", pin);
    ("automaticWritePerformed", vget (switchReady resolution changed invalidated required)
       "pinInvalidationRequired")] in
  vget (freezeApplicationValue (VObj (override (switchReady resolution changed invalidated required) updates))) k
  = redact isSensitiveKey (if sin k updates.*1 then oget updates k else
      oget [("status", VStr "switch_ready"); ("reasonCodes", VArr []); ("resolution", resolution);
            ("changedDimensions", VArr (List.map VStr changed));
            ("invalidatedDimensions", VArr (List.map VStr invalidated));
            ("pinInvalidationRequired", VBool required); ("automaticWritePerformed", VBool false)] k).
Proof. intros Hk updates. unfold switchReady. rewrite vget_override; [done|keys_ok|keys_ok|done]. Qed.

Lemma redact_strings p (l : list string) : redact p (VArr (List.map VStr l)) = VArr (List.map VStr l).
Proof. simpl. f_equal. rewrite List.map_map. by apply List.map_ext. Qed.

(** A switch whose context resolved. *)
Lemma apply_ready req resolution changed invalidated required h v h' :
  (let prepared := switchReady resolution changed invalidated required in
   invalidatedPin ← (if truthy (vget prepared "pinInvalidationRequired")
     then request ← sync (switchInvalidation req); await_port (invalidatePin request)
     else mret VNull);
   mret (freezeApplicationValue (VObj (override prepared
     [("status", VStr "switched"); ("invalidatedPin", invalidatedPin);
      ("automaticWritePerformed", vget prepared "pinInvalidationRequired")])))) h = (Ok v, h') ->
  vget v "status" = VStr "switched" /\
  vget v "changedDimensions" = VArr (List.map VStr changed) /\
  vget v "invalidatedDimensions" = VArr (List.map VStr invalidated) /\
  vget v "automaticWritePerformed" = VBool required /\
  if required then exists request, switchInvalidation req = Ok request /\ h' = h ++ [invalidatePin request]
  else h' = h.
Proof.
  cbv zeta. assert (vget (switchReady resolution changed invalidated required) "pinInvalidationRequired"
    = VBool required) as Hreq by (unfold switchReady; rewrite vget_frozen; [done|keys_ok|done]).
  intros Hr. app_step Hr; [|done]. apply mret_inv in Hr as [Hv ->]. apply Ok_inj in Hv as ->.
  rewrite !vget_switched by done. cbn [fmap list_fmap fst sin existsb String.eqb Ascii.eqb Bool.eqb orb oget].
  repeat match goal with |- context [sin ?a ?b] =>
    let r := eval vm_compute in (sin a b) in change (sin a b) with r end.
  cbv iota. rewrite !redact_strings, Hreq. do 4 (split; [done|]). rewrite Hreq in Hm. cbn [truthy] in Hm.
  destruct required.
  - app_step Hm; [|done]. apply await_inv in Hm as [_ ->]. eauto.
  - by apply mret_inv in Hm as [_ ->].
Qed.

End Switch.

(** A switch to the workspace that the resolution service resolves. *)
Definition demo_switch (pinRef : jsval) : SwitchRequest ResolutionInput := {|
  sw_currentContext := VObj [("tenantRef", VStr "tenant:1"); ("workspaceRef", VStr "ws:0");
                             ("pinRef", pinRef)];
  sw_nextResolutionInput := Some (demo_input "cms.read");
  sw_principalType := VStr "tenant_user"; sw_principalRef := VStr "user:1" |}.

End ContextSwitch.
