(* ===== verification/CapsuleService.v ===== *)
(** * Execution capsule service (contextKernel/application/executionCapsuleService.js)

    A capsule is created from a resolved exact context, and validated again
    before it is used: its integrity, the context it is used in, its expiry and
    its dependencies.  Proved: when a validation is valid. *)
From S2P Require Import Prelude Sorting JsString JsDate JsValue JsJson ContextModel.
From S2P Require Import KernelSupport ApplicationSupport ExecutionCapsule.

Module CapsuleService.
Import ApplicationSupport ExecutionCapsule.

Inductive CapsuleStatus :=
| VALID
| EXPIRED
| REVISION_MISMATCH
| CONTEXT_MISMATCH
| DYNAMIC_REFRESH_REQUIRED
| INTERPRETATION_REQUIRED
| BLOCKED.

#[export] Instance capsule_status_eq_dec : EqDecision CapsuleStatus.
Proof. solve_decision. Defined.

Definition CAPSULE_OPERATION_KINDS : list string := ["read"; "mutation"].

Record ContextIdentity := {
  id_contextHash : string;
  id_contextRevision : string;
  id_principalType : string;
  id_principalRef : string;
  id_effectiveSubjectRef : string;
  id_tenantRef : string;
  id_workspaceRef : string;
  id_brandRef : option string;
  id_resourceType : string;
  id_resourceRef : string;
  id_connectionRef : string;
}.

Record ValidationResult := {
  vr_status : CapsuleStatus;
  vr_valid : bool;
  vr_capsuleRef : option string;
  vr_contextHash : option string;
  vr_contextRevision : option string;
  vr_reasonCodes : list string;
  vr_mismatchFields : list string;
  vr_dependencyComparison : option Comparison;
  vr_requiresContextReresolution : bool;
  vr_dynamicRefreshRequired : bool;
  vr_executionAllowed : bool;
  vr_automaticWritePerformed : bool;
  vr_validatedAt : string;
  vr_secretsIncluded : bool;
}.

Record ResolvedCapsule := {
  rv_capsule : Capsule;
  rv_tenantProjection : jsobj;
  rv_adminProjection : jsobj;
  rv_executionAllowed : bool;
  rv_automaticWritePerformed : bool;
  rv_secretsIncluded : bool;
}.

Definition reason_start (c : ascii) : bool := is_lower c || is_digit c.
Definition reason_rest (c : ascii) : bool := is_lower c || is_digit c || char_in "_.:-" c.

(** [REASON_CODE_PATTERN] *)
Definition is_bounded_reason (s : string) : bool :=
  match s with
  | EmptyString => false
  | String c r => reason_start c && str_forallb reason_rest r && (String.length r <=? 190)
  end.

Definition lower_hex (c : ascii) : bool := is_digit c || in_range 97 102 c.

(** [/^ctxc-[0-9a-f]{32}$/] *)
Definition is_capsule_ref (s : string) : bool :=
  js_startsWith s "ctxc-" && (String.length s =? 37)
  && str_forallb lower_hex (String.substring 5 32 s).

Section Service.
Context `{JsHost}.

(** [reasonCodes.map((reason, index) => ...)] from an index on. *)
Fixpoint boundedReasons (index : nat) (reasonCodes : list jsval) : js (list string) :=
  match reasonCodes with
  | [] => Ok []
  | reason :: rest =>
      let normalized := js_trim (str_or_empty reason) in
      throw_if (negb (is_bounded_reason normalized))
        (TypeErr ("blockedReasonCodes[" +:+ string_of_Z (Z.of_nat index)
                  +:+ "] must be a bounded reason code."));;
      codes ← boundedReasons (S index) rest;
      Ok (normalized :: codes)
  end.

Definition normalizeReasonCodes (reasonCodes : list jsval) : js (list string) :=
  codes ← boundedReasons 0 reasonCodes; Ok (dedup codes).

Definition normalizedDate (value : jsval) (fieldName : string) : js Z :=
  match js_Date value with
  | Some t => Ok t
  | None => type_error (fieldName +:+ " must be a valid date.")
  end.

(** ** Creation *)

Definition selectedCandidateFromResolution (resolution : jsval) : js jsval :=
  selected ← requireApplicationObject (vget resolution "selectedCandidate")
    "resolution.selectedCandidate";
  stableRef ← requireApplicationString (vget selected "stableRef") "selectedCandidate.stableRef";
  let candidates := match vget resolution "candidates" with VArr l => l | _ => [] end in
  let exactMatches := bfilter (fun c => is_str (vget c "stableRef") stableRef) candidates in
  match exactMatches with
  | [exact] => requireApplicationObject exact "resolution.candidates[selectedCandidate]"
  | _ =>
      let missing := length exactMatches =? 0 in
      Throw (ContextApplicationError
        (if missing then "execution_capsule_selected_candidate_missing"
         else "execution_capsule_selected_candidate_ambiguous")
        (if missing then "The selected execution candidate is not present in the resolved candidate set."
         else "The selected execution candidate is ambiguous in the resolved candidate set.")
        409
        [("selected_candidate_ref", VStr stableRef);
         ("exact_match_count", VNum (Some (Z.of_nat (length exactMatches))))])
  end.

(** [(left ?? null) !== (right ?? null)] *)
Definition differs (left right : jsval) : bool :=
  negb (strict_equal (js_coalesce left VNull) (js_coalesce right VNull)).

Definition assertExactContextConsistency (context selected : jsval) : js unit :=
  contextSelected ← requireApplicationObject (vget context "selectedCandidate")
    "resolution.context.selectedCandidate";
  let pairs :=
    List.map (fun k => ("selectedCandidate." +:+ k, vget contextSelected k, vget selected k))
      ["candidateType"; "stableRef"; "tenantRef"; "workspaceRef"; "brandRef"; "resourceType";
       "resourceRef"; "connectionRef"]
    ++ List.map (fun k => (k, vget context k, vget selected k))
         ["tenantRef"; "workspaceRef"; "brandRef"; "resourceType"; "resourceRef"; "connectionRef"] in
  let mismatches := List.map (fun p => p.1.1) (bfilter (fun p => differs p.1.2 p.2) pairs) in
  throw_if (0 <? length mismatches)
    (ContextApplicationError "execution_capsule_context_candidate_mismatch"
       "Resolved context and authorized selected candidate do not describe the same exact target." 409
       [("mismatch_fields", VArr (List.map VStr (unique_sorted mismatches)))]).

Definition contextIdentity (context : jsval) : js ContextIdentity :=
  principal ← requireApplicationObject (vget context "principal") "context.principal";
  subject ← requireApplicationObject (vget context "effectiveSubject") "context.effectiveSubject";
  contextHash ← requireApplicationString (vget context "contextHash") "context.contextHash";
  contextRevision ← requireApplicationString (vget context "contextRevision") "context.contextRevision";
  principalType ← requireApplicationString (vget principal "principalType")
    "context.principal.principalType";
  principalRef ← requireApplicationString (vget principal "principalRef") "context.principal.principalRef";
  subjectRef ← requireApplicationString (vget subject "subjectRef") "context.effectiveSubject.subjectRef";
  tenantRef ← requireApplicationString (vget context "tenantRef") "context.tenantRef";
  workspaceRef ← requireApplicationString (vget context "workspaceRef") "context.workspaceRef";
  brandRef ← optionalApplicationString (vget context "brandRef");
  resourceType ← requireApplicationString (vget context "resourceType") "context.resourceType";
  resourceRef ← requireApplicationString (vget context "resourceRef") "context.resourceRef";
  connectionRef ← requireApplicationString (vget context "connectionRef") "context.connectionRef";
  Ok {| id_contextHash := contextHash; id_contextRevision := contextRevision;
        id_principalType := principalType; id_principalRef := principalRef;
        id_effectiveSubjectRef := subjectRef; id_tenantRef := tenantRef;
        id_workspaceRef := workspaceRef; id_brandRef := brandRef; id_resourceType := resourceType;
        id_resourceRef := resourceRef; id_connectionRef := connectionRef |}.

Definition identityFields (i : ContextIdentity) : jsobj :=
  [("contextHash", VStr (id_contextHash i)); ("contextRevision", VStr (id_contextRevision i));
   ("principalType", VStr (id_principalType i)); ("principalRef", VStr (id_principalRef i));
   ("effectiveSubjectRef", VStr (id_effectiveSubjectRef i)); ("tenantRef", VStr (id_tenantRef i));
   ("workspaceRef", VStr (id_workspaceRef i)); ("brandRef", js_of_ostr (id_brandRef i));
   ("resourceType", VStr (id_resourceType i)); ("resourceRef", VStr (id_resourceRef i));
   ("connectionRef", VStr (id_connectionRef i))].

(** The capability of the resolution: dispatchable, and the context's own. *)
Definition dispatchableCapability (resolved context : jsval) : js string :=
  let readiness := js_or (js_or (vget resolved "capabilityReadiness") (vget context "capability")) VNull in
  throw_if (negb (truthy readiness) || negb (is_true (vget readiness "dispatchAllowed")))
    (ContextApplicationError "execution_capsule_capability_not_ready"
       "Execution capsule creation requires a dispatchable capability decision." 409 []);;
  capabilityKey ← requireApplicationString (vget readiness "capabilityKey") "capabilityKey";
  let own := vget context "capability" in
  throw_if (truthy own
      && (negb (is_str (vget own "capabilityKey") capabilityKey)
          || negb (Bool.eqb (truthy (vget own "dispatchAllowed")) (truthy (vget readiness "dispatchAllowed")))
          || negb (Bool.eqb (truthy (vget own "applyAllowed")) (truthy (vget readiness "applyAllowed")))))
    (ContextApplicationError "execution_capsule_capability_context_mismatch"
       "Resolved context and capability readiness do not reference the same capability." 409 []);;
  Ok capabilityKey.

Definition checkAuthorityScope (resolved context : jsval) (tenantRef : string) : js unit :=
  authorityScope ← requireApplicationObject
    (js_or (vget resolved "authorityScope") (vget context "authority")) "resolution.authorityScope";
  throw_if (truthy (vget authorityScope "tenantRef") && negb (is_str (vget authorityScope "tenantRef") tenantRef))
    (ContextApplicationError "execution_capsule_authority_context_mismatch"
       "Resolved authority scope and exact context do not reference the same Tenant." 409 []).

(** The issue time and the expiry, which an overflow leaves invalid; [clock] is
    the value of [clock()]. *)
Definition capsuleLifetime (expiresAt clock : jsval) (defaultTtlMs : Z) : js (Z * option Z) :=
  issued ← normalizedDate clock "clock result";
  expiry ← (if nullish expiresAt then Ok (time_clip (issued + defaultTtlMs))
            else e ← normalizedDate expiresAt "expiresAt"; Ok (Some e));
  throw_if (match expiry with Some e => Z.leb e issued | None => false end)
    (ContextApplicationError "execution_capsule_expiry_invalid"
       "Execution capsule expiry must be later than issuance." 422 []);;
  Ok (issued, expiry).

Definition resolve (args : jsobj) (clock : jsval) (defaultTtlMs : Z) : js ResolvedCapsule :=
  resolved ← requireApplicationObject (oget args "resolution") "resolution";
  throw_if (negb (is_str (vget resolved "status") "resolved")
            || negb (truthy (vget resolved "context"))
            || negb (truthy (vget resolved "selectedCandidate")))
    (ContextApplicationError "execution_capsule_requires_resolved_context"
       "An execution capsule can only be created from one resolved exact context." 409 []);;
  context ← requireApplicationObject (vget resolved "context") "resolution.context";
  selected ← selectedCandidateFromResolution resolved;
  assertExactContextConsistency context selected;;
  identity ← contextIdentity context;
  checkAuthorityScope resolved context (id_tenantRef identity);;
  capabilityKey ← dispatchableCapability resolved context;
  '(issued, expiry) ← capsuleLifetime (oget_default args "expiresAt" VNull) clock defaultTtlMs;
  authorityPathRef ← requireApplicationString (oget args "authorityPathRef") "authorityPathRef";
  authorityRevision ← requireApplicationString (oget args "authorityRevision") "authorityRevision";
  capabilityRevision ← requireApplicationString (oget args "capabilityRevision") "capabilityRevision";
  registryRevision ← requireApplicationString (oget args "registryRevision") "registryRevision";
  credentialReadinessRevision ← requireApplicationString (oget args "credentialReadinessRevision")
    "credentialReadinessRevision";
  capsule ← createExecutionCapsule (identityFields identity ++
    [("authorityPathRef", VStr authorityPathRef); ("capabilityKey", VStr capabilityKey);
     ("authorityRevision", VStr authorityRevision); ("capabilityRevision", VStr capabilityRevision);
     ("registryRevision", VStr registryRevision);
     ("credentialReadinessRevision", VStr credentialReadinessRevision);
     ("invalidationDependencies", oget_default args "invalidationDependencies" (VArr []));
     ("issuedAt", VDate (Some issued)); ("expiresAt", VDate expiry)]);
  tenantProjection ← projectExecutionCapsule (VObj (js_of_capsule capsule)) (VStr "tenant");
  adminProjection ← projectExecutionCapsule (VObj (js_of_capsule capsule)) (VStr "admin");
  Ok {| rv_capsule := capsule; rv_tenantProjection := tenantProjection;
        rv_adminProjection := adminProjection; rv_executionAllowed := false;
        rv_automaticWritePerformed := false; rv_secretsIncluded := false |}.

(** ** Validation *)

Definition capsuleContextMismatchFields (capsule : Descriptor) (current : ContextIdentity) : list string :=
  let pairs :=
    [("contextHash", String.eqb (de_contextHash capsule) (id_contextHash current));
     ("principalType", String.eqb (de_principalType capsule) (id_principalType current));
     ("principalRef", String.eqb (de_principalRef capsule) (id_principalRef current));
     ("effectiveSubjectRef", String.eqb (de_effectiveSubjectRef capsule) (id_effectiveSubjectRef current));
     ("tenantRef", String.eqb (de_tenantRef capsule) (id_tenantRef current));
     ("workspaceRef", String.eqb (de_workspaceRef capsule) (id_workspaceRef current));
     ("brandRef", ostr_eqb (de_brandRef capsule) (id_brandRef current));
     ("resourceType", String.eqb (de_resourceType capsule) (id_resourceType current));
     ("resourceRef", String.eqb (de_resourceRef capsule) (id_resourceRef current));
     ("connectionRef", String.eqb (de_connectionRef capsule) (id_connectionRef current))] in
  sort_strings (List.map fst (bfilter (fun p => negb p.2) pairs)).

Definition integrityFailureResult (rawCapsule : jsval) (validatedAt : string) : ValidationResult :=
  {| vr_status := BLOCKED; vr_valid := false;
     vr_capsuleRef := match vget rawCapsule "capsuleRef" with
                      | VStr s => if is_capsule_ref s then Some s else None
                      | _ => None
                      end;
     vr_contextHash := None; vr_contextRevision := None;
     vr_reasonCodes := ["execution_capsule_integrity_invalid"]; vr_mismatchFields := [];
     vr_dependencyComparison := None; vr_requiresContextReresolution := true;
     vr_dynamicRefreshRequired := false; vr_executionAllowed := false;
     vr_automaticWritePerformed := false; vr_validatedAt := validatedAt; vr_secretsIncluded := false |}.

Definition validationResult (status : CapsuleStatus) (capsule : Capsule)
    (reasonCodes mismatchFields : list string) (dependencyComparison : option Comparison)
    (validatedAt : string) : ValidationResult :=
  {| vr_status := status; vr_valid := bool_decide (status = VALID);
     vr_capsuleRef := Some (cp_capsuleRef capsule);
     vr_contextHash := Some (de_contextHash (cp_descriptor capsule));
     vr_contextRevision := Some (de_contextRevision (cp_descriptor capsule));
     vr_reasonCodes := dedup reasonCodes; vr_mismatchFields := unique_sorted mismatchFields;
     vr_dependencyComparison := dependencyComparison;
     vr_requiresContextReresolution := match status with
       | EXPIRED | REVISION_MISMATCH | CONTEXT_MISMATCH | INTERPRETATION_REQUIRED => true
       | _ => false
       end;
     vr_dynamicRefreshRequired := bool_decide (status = DYNAMIC_REFRESH_REQUIRED);
     vr_executionAllowed := false; vr_automaticWritePerformed := false;
     vr_validatedAt := validatedAt; vr_secretsIncluded := false |}.

(** [Date.parse(a) <= Date.parse(b)] *)
Definition date_le (a b : string) : bool :=
  match date_parse a, date_parse b with Some x, Some y => Z.leb x y | _, _ => false end.

(** The dependencies against the current ones. *)
Definition validateDependencies (value : Capsule) (currentDependencies operationKind : jsval)
    (dynamicRefreshComplete : jsval) (validatedAt : string) : js ValidationResult :=
  comparison ← compareExecutionCapsuleDependencies
    (VArr (List.map js_of_dependency (cp_invalidationDependencies value))) currentDependencies;
  Ok (if cm_staticInvalidated comparison then
        validationResult REVISION_MISMATCH value ["execution_capsule_static_revision_mismatch"] []
          (Some comparison) validatedAt
      else if cm_dynamicRefreshRequired comparison
              || (is_str operationKind "mutation" && negb (is_true dynamicRefreshComplete)) then
        validationResult DYNAMIC_REFRESH_REQUIRED value
          [if cm_dynamicRefreshRequired comparison then "execution_capsule_dynamic_dependency_changed"
           else "execution_capsule_mutation_refresh_required"] [] (Some comparison) validatedAt
      else validationResult VALID value [] [] (Some comparison) validatedAt).

(** The capsule against the current context, then its expiry. *)
Definition validateContext (value : Capsule) (context currentDependencies operationKind : jsval)
    (dynamicRefreshComplete : jsval) (validatedAt : string) : js ValidationResult :=
  current ← contextIdentity context;
  let mismatchFields := capsuleContextMismatchFields (cp_descriptor value) current in
  if 0 <? length mismatchFields then
    Ok (validationResult CONTEXT_MISMATCH value ["execution_capsule_context_mismatch"] mismatchFields
          None validatedAt)
  else if negb (String.eqb (de_contextRevision (cp_descriptor value)) (id_contextRevision current)) then
    Ok (validationResult REVISION_MISMATCH value ["execution_capsule_context_revision_mismatch"] []
          None validatedAt)
  else if date_le (de_expiresAt (cp_descriptor value)) validatedAt then
    Ok (validationResult EXPIRED value ["execution_capsule_expired"] [] None validatedAt)
  else validateDependencies value currentDependencies operationKind dynamicRefreshComplete validatedAt.

(** [clock] is the value of [clock()], used when no [now] is given. *)
Definition validate (args : jsobj) (clock : jsval) : js ValidationResult :=
  rawCapsule ← requireApplicationObject (oget args "capsule") "capsule";
  now ← normalizedDate (oget_default args "now" clock) "now";
  let validatedAt := toISOString now in
  match assertExecutionCapsuleIntegrity rawCapsule with
  | Throw _ => Ok (integrityFailureResult rawCapsule validatedAt)
  | Ok value =>
      context ← requireApplicationObject (oget args "currentContext") "currentContext";
      let operationKind := oget_default args "operationKind" (VStr "read") in
      throw_if (negb (in_set operationKind CAPSULE_OPERATION_KINDS))
        (TypeErr ("Unsupported operationKind: " +:+ js_String operationKind));;
      match oget args "currentDependencies", oget_default args "blockedReasonCodes" (VArr []) with
      | VArr currentDependencies, VArr blockedReasonCodes =>
          if 0 <? length blockedReasonCodes then
            codes ← normalizeReasonCodes blockedReasonCodes;
            Ok (validationResult BLOCKED value codes [] None validatedAt)
          else if is_true (oget_default args "interpretationRequired" (VBool false)) then
            Ok (validationResult INTERPRETATION_REQUIRED value
                  ["execution_capsule_interpretation_required"] [] None validatedAt)
          else
            validateContext value context (VArr currentDependencies) operationKind
              (oget_default args "dynamicRefreshComplete" (VBool false)) validatedAt
      | VArr _, _ => type_error "blockedReasonCodes must be an array."
      | _, _ => type_error "currentDependencies must be an array."
      end
  end.

(** ** When a validation is valid *)

(** The capsule was made for this context. *)
Definition made_for (d : Descriptor) (i : ContextIdentity) : Prop :=
  de_contextHash d = id_contextHash i /\ de_contextRevision d = id_contextRevision i /\
  de_principalType d = id_principalType i /\ de_principalRef d = id_principalRef i /\
  de_effectiveSubjectRef d = id_effectiveSubjectRef i /\ de_tenantRef d = id_tenantRef i /\
  de_workspaceRef d = id_workspaceRef i /\ de_brandRef d = id_brandRef i /\
  de_resourceType d = id_resourceType i /\ de_resourceRef d = id_resourceRef i /\
  de_connectionRef d = id_connectionRef i.

(** Its dependencies are among the current ones. *)
Definition dependencies_current (capsule : Capsule) (currentDependencies : list jsval) : Prop :=
  exists es cs,
    buildDependencyMap (List.map js_of_dependency (cp_invalidationDependencies capsule))
      "capsuleDependencies" 146 = Ok es /\
    buildDependencyMap currentDependencies "currentDependencies" 256 = Ok cs /\
    forall d, d ∈ es -> d ∈ cs.

Lemma mismatch_nil d i : capsuleContextMismatchFields d i = [] ->
  de_contextRevision d = id_contextRevision i -> made_for d i.
Proof.
  unfold capsuleContextMismatchFields. intros Hnil Hrev.
  assert (forall l, sort_strings l = [] -> l = []) as Hsort.
  { intros l Hl. apply (f_equal length) in Hl. unfold sort_strings in Hl. rewrite js_sort_length in Hl.
    by apply nil_length_inv. }
  apply Hsort, map_eq_nil in Hnil. unfold bfilter in Hnil.
  repeat match type of Hnil with
  | List.filter ?p ((?k, ?b) :: ?l) = [] =>
      change ((if negb b then (k, b) :: List.filter p l else List.filter p l) = []) in Hnil;
      let Hb := fresh "Hb" in destruct b eqn:Hb; [cbn [negb] in Hnil|discriminate Hnil]
  end.
  rewrite ostr_eqb_true in *. rewrite !String.eqb_eq in *. by repeat split.
Qed.

Lemma compare_current v w cm : compareExecutionCapsuleDependencies v w = Ok cm ->
  cm_staticInvalidated cm = false -> cm_dynamicRefreshRequired cm = false ->
  exists vs ws es cs, v = VArr vs /\ w = VArr ws /\
    buildDependencyMap vs "capsuleDependencies" 146 = Ok es /\
    buildDependencyMap ws "currentDependencies" 256 = Ok cs /\ forall d, d ∈ es -> d ∈ cs.
Proof.
  unfold compareExecutionCapsuleDependencies. destruct v as [| | | | | |vs|]; try done.
  destruct w as [| | | | | |ws|]; try done. intros Heq.
  apply bind_Ok in Heq as (es & Hes & Heq). apply bind_Ok in Heq as (cs & Hcs & [= <-]).
  cbn [cm_staticInvalidated cm_dynamicRefreshRequired]. intros Hst Hdy. exists vs, ws, es, cs.
  do 4 (split; [done|]). apply buildDependencyMap_Ok in Hes as [_ Hse], Hcs as [Hndc Hsc].
  rewrite Forall_forall in Hse. intros d Hd. apply (changeOf_nil cs d Hndc Hsc (Hse d Hd)).
  destruct (changeOf cs d) as [|ch l] eqn:E; [done|]. exfalso.
  assert (ch ∈ changeOf cs d) as Hch by (rewrite E; apply list_elem_of_here).
  pose proof (changeOf_dependency _ _ _ Hch) as Hdep.
  assert (ch ∈ List.flat_map (changeOf cs) es) as Hin by (apply elem_of_changes; by rewrite Hdep).
  rewrite existsb_false in Hst, Hdy. specialize (Hst ch Hin). specialize (Hdy ch Hin).
  rewrite Hdep in Hst, Hdy. apply string_eqb_false in Hst, Hdy.
  pose proof (sd_class _ (Hse d Hd)) as Hc. unfold REFRESH_CLASSES in Hc.
  apply elem_of_cons in Hc as [Hc|Hc%list_elem_of_singleton]; congruence.
Qed.

Lemma integrity_inv v c : assertExecutionCapsuleIntegrity v = Ok c ->
  vget v "capsuleHash" = VStr (cp_capsuleHash c) /\
  exists extra, createExecutionCapsule (copy_fields v capsule_fields ++ extra) = Ok c.
Proof.
  intros Heq. split; [by apply integrity_hash in Heq as [? _]|]. revert Heq.
  unfold assertExecutionCapsuleIntegrity. intros Heq. do 3 (apply bind_Ok in Heq as (? & _ & Heq)).
  destruct (vget v "invalidationDependencies"); try done.
  destruct (vget v "capsuleHash") as [| | | |hash| | |]; try done.
  do 4 (apply bind_Ok in Heq as (? & _ & Heq)). apply bind_Ok in Heq as (c' & Hc & Heq).
  apply bind_Ok in Heq as (u & _ & Heq). apply Ok_inj in Heq as <-. by eexists.
Qed.

Lemma integrity_descriptor_ok v c : assertExecutionCapsuleIntegrity v = Ok c ->
  descriptor_ok (cp_descriptor c).
Proof. intros (_ & extra & Hc)%integrity_inv. by apply createCapsule_Ok in Hc as (d & w & Hok & _ & ->). Qed.

(** A checked capsule that is checked again describes the same target, under
    the same hash. *)
Lemma integrity_again v c c' : assertExecutionCapsuleIntegrity v = Ok c ->
  assertExecutionCapsuleIntegrity (VObj (js_of_capsule c)) = Ok c' ->
  cp_descriptor c' = cp_descriptor c /\ cp_capsuleHash c' = cp_capsuleHash c.
Proof.
  intros Hok%integrity_descriptor_ok (Hh & extra & Hc)%integrity_inv. split.
  - unfold js_of_capsule in Hc. rewrite (createCapsule_of _ _ Hok (capsule_carried _ _ _)) in Hc.
    by apply finish_hash in Hc as [? _].
  - by injection Hh.
Qed.

Lemma integrity_expiry v c : assertExecutionCapsuleIntegrity v = Ok c ->
  exists e, valid_time e = true /\ de_expiresAt (cp_descriptor c) = toISOString e.
Proof. intros [_ _ (i & e & _ & He & _ & _ & Hexp)]%integrity_descriptor_ok. eauto. Qed.

(** What a valid validation has established. *)
Record valid_for (capsule : Capsule) (context : jsval) (currentDependencies : list jsval) (now : Z) : Prop := {
  vf_context : exists i, contextIdentity context = Ok i /\ made_for (cp_descriptor capsule) i;
  vf_unexpired : exists e, de_expiresAt (cp_descriptor capsule) = toISOString e /\ (now < e)%Z;
  vf_dependencies : dependencies_current capsule currentDependencies;
}.

Lemma validateContext_valid capsule context deps kind complete now r e :
  validateContext capsule context (VArr deps) kind complete (toISOString now) = Ok r ->
  vr_status r = VALID -> valid_time now = true -> valid_time e = true ->
  de_expiresAt (cp_descriptor capsule) = toISOString e ->
  (is_str kind "mutation" = true -> is_true complete = true) /\ valid_for capsule context deps now.
Proof.
  unfold validateContext. intros Hv Hst Hnow He Hexp. apply bind_Ok in Hv as (i & Hi & Hv).
  destruct (capsuleContextMismatchFields _ _) as [|m l] eqn:Hm; [|by apply Ok_inj in Hv as <-].
  cbn [length Nat.ltb Nat.leb] in Hv.
  destruct (String.eqb_spec (de_contextRevision (cp_descriptor capsule)) (id_contextRevision i)) as [Hrev|];
    [|by apply Ok_inj in Hv as <-]. cbn [negb] in Hv. unfold date_le in Hv.
  rewrite Hexp, !date_parse_toISOString in Hv by done.
  destruct (Z.leb_spec e now) as [|Hlt]; [by apply Ok_inj in Hv as <-|].
  unfold validateDependencies in Hv. apply bind_Ok in Hv as (cm & Hcm & Hv). apply Ok_inj in Hv as <-.
  destruct (cm_staticInvalidated cm) eqn:Hs; [done|].
  destruct (cm_dynamicRefreshRequired cm) eqn:Hd; [done|]. cbn [orb] in Hst.
  split; [by destruct (is_str kind "mutation"), (is_true complete)|]. split.
  - exists i. split; [done|]. by apply mismatch_nil.
  - by exists e.
  - destruct (compare_current _ _ _ Hcm Hs Hd) as (vs & ws & es & cs & [= <-] & [= <-] & Hes & Hcs & Hall).
    by exists es, cs.
Qed.

Lemma validate_valid args clock r : validate args clock = Ok r -> vr_status r = VALID ->
  exists capsule now currentDependencies,
    assertExecutionCapsuleIntegrity (oget args "capsule") = Ok capsule /\
    js_Date (oget_default args "now" clock) = Some now /\
    oget args "currentDependencies" = VArr currentDependencies /\
    oget_default args "blockedReasonCodes" (VArr []) = VArr [] /\
    is_true (oget_default args "interpretationRequired" (VBool false)) = false /\
    (is_str (oget_default args "operationKind" (VStr "read")) "mutation" = true ->
       is_true (oget_default args "dynamicRefreshComplete" (VBool false)) = true) /\
    valid_for capsule (oget args "currentContext") currentDependencies now.
Proof.
  unfold validate. intros Hv Hst. apply bind_Ok in Hv as (raw & Hraw & Hv).
  apply requireApplicationObject_Ok in Hraw as [_ ->]. apply bind_Ok in Hv as (now & Hnow & Hv).
  unfold normalizedDate in Hnow. destruct (js_Date _) as [t|] eqn:Ht; [|done]. apply Ok_inj in Hnow as ->.
  destruct (assertExecutionCapsuleIntegrity _) as [capsule|] eqn:Hint; [|by apply Ok_inj in Hv as <-].
  apply bind_Ok in Hv as (context & Hctx & Hv). apply requireApplicationObject_Ok in Hctx as [_ ->].
  apply bind_Ok in Hv as ([] & _ & Hv).
  destruct (oget args "currentDependencies") as [| | | | | |deps|]; try done.
  destruct (oget_default args "blockedReasonCodes" _) as [| | | | | |codes|]; try done.
  destruct codes as [|code codes]; cbn [length Nat.ltb Nat.leb] in Hv;
    [|apply bind_Ok in Hv as (? & _ & Hv); by apply Ok_inj in Hv as <-].
  destruct (is_true (oget_default args "interpretationRequired" _)); [by apply Ok_inj in Hv as <-|].
  exists capsule, now, deps. do 5 (split; [done|]).
  destruct (integrity_expiry _ _ Hint) as (e & He & Hexp). eapply validateContext_valid; try done.
  by apply js_Date_valid in Ht.
Qed.

(** ** A capsule that was resolved validates *)

Lemma compare_self ds : Forall safe_dependency ds -> NoDup (keys ds) -> length ds <= MAX_CAPSULE_DEPENDENCIES + 11 ->
  exists cm, compareExecutionCapsuleDependencies (VArr (List.map js_of_dependency ds))
      (VArr (List.map js_of_dependency ds)) = Ok cm /\
    cm_staticInvalidated cm = false /\ cm_dynamicRefreshRequired cm = false.
Proof.
  intros Hs Hnd Hl. unfold compareExecutionCapsuleDependencies.
  unfold MAX_CAPSULE_DEPENDENCIES, MAX_CURRENT_DEPENDENCIES in *.
  ok_step ltac:(apply buildDependencyMap_id; [done|done|simpl; lia]).
  ok_step ltac:(apply buildDependencyMap_id; [done|done|lia]).
  eexists. split; [done|]. cbn [cm_staticInvalidated cm_dynamicRefreshRequired].
  replace (List.flat_map (changeOf ds) ds) with (@nil Change); [done|].
  rewrite Forall_forall in Hs. symmetry. apply elem_of_nil_inv. intros ch [Hch Hd]%elem_of_changes.
  apply changeOf_nil in Hd; [|done|by apply Forall_forall|by apply Hs]. rewrite Hd in Hch. set_solver.
Qed.

(** The fields of an identity are trimmed, and its brand is not empty. *)
Record trimmed (i : ContextIdentity) : Prop := {
  tr_fields : Forall (fun s => js_trim s = s)
    [id_contextHash i; id_contextRevision i; id_principalType i; id_principalRef i;
     id_effectiveSubjectRef i; id_tenantRef i; id_workspaceRef i; id_resourceType i;
     id_resourceRef i; id_connectionRef i];
  tr_brand : forall b, id_brandRef i = Some b -> js_trim b = b /\ b <> "";
}.

Lemma applicationString_trimmed v f s : requireApplicationString v f = Ok s -> js_trim s = s /\ s <> "".
Proof.
  unfold requireApplicationString. destruct v as [| | | |x| | |]; try done.
  destruct (is_empty (js_trim x)) eqn:He; [done|]. intros [= <-].
  split; [apply js_trim_idemp|by apply is_empty_false].
Qed.

Lemma contextIdentity_trimmed v i : contextIdentity v = Ok i -> trimmed i.
Proof.
  unfold contextIdentity. intros Hi. do 2 (apply bind_Ok in Hi as (? & _ & Hi)).
  do 7 (apply bind_Ok in Hi as (? & []%applicationString_trimmed & Hi)).
  apply bind_Ok in Hi as (brand & Hb & Hi).
  do 3 (apply bind_Ok in Hi as (? & []%applicationString_trimmed & Hi)). apply Ok_inj in Hi as <-.
  split; [by repeat (apply Forall_cons; split; [done|])|]. cbn [id_brandRef]. intros b ->.
  revert Hb. unfold optionalApplicationString. destruct (is_blank _); [done|]. intros Hb.
  apply bind_Ok in Hb as (b' & Hb' & Hb). apply Ok_inj in Hb. injection Hb as <-.
  by eapply applicationString_trimmed.
Qed.

Lemma requireString_trim s f r : requireString (VStr s) f = Ok r -> js_trim s = s -> r = s.
Proof.
  unfold requireString. intros Hr Ht. rewrite Ht in Hr. destruct (is_empty s); [done|].
  destruct (_ <? _); [done|]. destruct (secret_like s); [done|]. by injection Hr.
Qed.

Lemma optionalString_trim o f r : optionalString (js_of_ostr o) f = Ok r ->
  (forall b, o = Some b -> js_trim b = b /\ b <> "") -> r = o.
Proof.
  unfold optionalString. destruct o as [b|]; simpl; intros Hr Hb; [|by apply Ok_inj in Hr].
  destruct (Hb b eq_refl) as [Ht Hne]. apply is_empty_false in Hne. rewrite Hne in Hr.
  apply bind_Ok in Hr as (b' & Hb' & Hr). apply Ok_inj in Hr as <-. f_equal. by eapply requireString_trim.
Qed.

Lemma created_for i rest c : createExecutionCapsule (identityFields i ++ rest) = Ok c -> trimmed i ->
  made_for (cp_descriptor c) i.
Proof.
  unfold createExecutionCapsule. intros Hc [Hf Hb]. repeat apply Forall_cons in Hf as [? Hf].
  cbn [identityFields app oget String.eqb Ascii.eqb Bool.eqb] in Hc.
  do 3 (apply bind_Ok in Hc as (? & _ & Hc)).
  do 7 (apply bind_Ok in Hc as (? & ->%requireString_trim & Hc); [|done]).
  apply bind_Ok in Hc as (? & ->%optionalString_trim & Hc); [|done].
  do 3 (apply bind_Ok in Hc as (? & ->%requireString_trim & Hc); [|done]).
  do 6 (apply bind_Ok in Hc as (? & _ & Hc)). cbv zeta in Hc.
  do 3 (apply bind_Ok in Hc as (? & _ & Hc)). apply Ok_inj in Hc as <-. by repeat split.
Qed.

Lemma no_mismatch d i : made_for d i -> capsuleContextMismatchFields d i = [].
Proof.
  intros (H1 & _ & H3 & H4 & H5 & H6 & H7 & H8 & H9 & H10 & H11). unfold capsuleContextMismatchFields.
  rewrite H1, H3, H4, H5, H6, H7, H8, H9, H10, H11, !String.eqb_refl.
  by rewrite (proj2 (ostr_eqb_true _ _)).
Qed.

(** What [resolve] has made the capsule from. *)
Lemma resolve_inv args clock ttl rv : resolve args clock ttl = Ok rv ->
  exists context i input, vget (oget args "resolution") "context" = context /\ is_record context = true /\
    contextIdentity context = Ok i /\ made_for (cp_descriptor (rv_capsule rv)) i /\
    createExecutionCapsule input = Ok (rv_capsule rv).
Proof.
  unfold resolve. intros Hr. apply bind_Ok in Hr as (resolved & [_ ->]%requireApplicationObject_Ok & Hr).
  apply bind_Ok in Hr as (? & _ & Hr).
  apply bind_Ok in Hr as (context & [Hrec ->]%requireApplicationObject_Ok & Hr).
  do 2 (apply bind_Ok in Hr as (? & _ & Hr)). apply bind_Ok in Hr as (i & Hi & Hr).
  do 2 (apply bind_Ok in Hr as (? & _ & Hr)). apply bind_Ok in Hr as ([issued expiry] & _ & Hr).
  do 5 (apply bind_Ok in Hr as (? & _ & Hr)). apply bind_Ok in Hr as (capsule & Hc & Hr).
  do 2 (apply bind_Ok in Hr as (? & _ & Hr)). apply Ok_inj in Hr as <-. cbn [rv_capsule].
  eexists _, i, _. split; [done|]. split; [done|]. split; [done|]. split; [|exact Hc].
  eapply created_for; [exact Hc|]. by eapply contextIdentity_trimmed.
Qed.

(** A later use of the capsule [c], in the context it was made from and with
    its own dependencies. *)
Definition reuse (c : Capsule) (context : jsval) (kind : string) (refreshed : bool) (now : Z) : jsobj :=
  [("capsule", VObj (js_of_capsule c)); ("currentContext", context);
   ("currentDependencies", VArr (List.map js_of_dependency (cp_invalidationDependencies c)));
   ("operationKind", VStr kind); ("dynamicRefreshComplete", VBool refreshed);
   ("now", VDate (Some now))].
Context `{!JsHostLaws}.

(** C30: a capsule and the context it was resolved from agree: brought back
    with that context and its own dependencies, the capsule validates until it
    expires and is refused as expired from then on; a mutation also asks for
    its dynamic evidence to be refreshed first.  No validation allows the
    execution by itself. *)
Theorem resolve_validates args clock ttl rv kind refreshed now clock' :
  resolve args clock ttl = Ok rv -> resource_fits (cp_descriptor (rv_capsule rv)) ->
  kind ∈ CAPSULE_OPERATION_KINDS -> valid_time now = true ->
  exists e r, valid_time e = true /\ de_expiresAt (cp_descriptor (rv_capsule rv)) = toISOString e /\
    validate (reuse (rv_capsule rv) (vget (oget args "resolution") "context") kind refreshed now) clock' = Ok r /\
    vr_status r = (if (e <=? now)%Z then EXPIRED
                   else if String.eqb kind "mutation" && negb refreshed then DYNAMIC_REFRESH_REQUIRED
                   else VALID) /\
    vr_executionAllowed r = false.
Proof.
  intros (context & i & input & -> & Hrec & Hi & Hfor & Hc)%resolve_inv Hfit Hkind%sin_true Hnow.
  set (c := rv_capsule rv) in *. pose proof (created_capsule_ok _ _ Hc Hfit) as Hok.
  destruct (integrity_expiry _ _ Hok) as (e & He & Hexp).
  destruct (created_dependencies _ _ Hc Hfit) as (Hs & Hnd & Hl).
  destruct (compare_self _ Hs Hnd Hl) as (cm & Hcm & Hst & Hdy).
  exists e. unfold validate, reuse. cbn [oget oget_default String.eqb Ascii.eqb Bool.eqb].
  ok_step ltac:(reflexivity). unfold normalizedDate.
  ok_step ltac:(cbn [js_Date mbind option_bind]; unfold time_clip; rewrite Hnow; reflexivity).
  cbv zeta. rewrite Hok. ok_step ltac:(apply requireApplicationObject_Ok; split; [exact Hrec|reflexivity]).
  ok_step ltac:(apply throw_if_false; unfold in_set; rewrite Hkind; reflexivity).
  cbn [length Nat.ltb Nat.leb is_true]. unfold validateContext. ok_step ltac:(exact Hi).
  rewrite (no_mismatch _ _ Hfor). destruct Hfor as (_ & -> & _). cbn [length Nat.ltb Nat.leb].
  rewrite String.eqb_refl. cbn [negb]. unfold date_le. rewrite Hexp, !date_parse_toISOString by done.
  destruct (Z.leb_spec e now); [by eexists; repeat split|]. unfold validateDependencies.
  ok_step ltac:(exact Hcm). rewrite Hst, Hdy. cbn [is_str is_true].
  eexists. do 3 (split; [done|]).
  by destruct (String.eqb kind "mutation"), refreshed.
Qed.
End Service.

(** ** A resolved capsule *)

Definition demo_candidate : jsval := VObj
  [("candidateType", VStr "resource"); ("stableRef", VStr "doc:d1"); ("tenantRef", VStr "t1");
   ("workspaceRef", VStr "w1"); ("resourceType", VStr "doc"); ("resourceRef", VStr "d1");
   ("connectionRef", VStr "c1")].

Definition demo_context : jsval := VObj
  [("principal", VObj [("principalType", VStr "user"); ("principalRef", VStr "p1")]);
   ("effectiveSubject", VObj [("subjectRef", VStr "s1")]);
   ("contextHash", VStr "hash"); ("contextRevision", VStr "rev-1"); ("tenantRef", VStr "t1");
   ("workspaceRef", VStr "w1"); ("resourceType", VStr "doc"); ("resourceRef", VStr "d1");
   ("connectionRef", VStr "c1"); ("selectedCandidate", demo_candidate);
   ("authority", VObj [("tenantRef", VStr "t1")]);
   ("capability", VObj [("capabilityKey", VStr "cap"); ("dispatchAllowed", VBool true)])].

Definition demo_resolve : js ResolvedCapsule :=
  resolve (H:=demo_host)
    [("resolution", VObj [("status", VStr "resolved"); ("context", demo_context);
        ("selectedCandidate", demo_candidate); ("candidates", VArr [demo_candidate])]);
     ("authorityPathRef", VStr "a1"); ("authorityRevision", VStr "ar"); ("capabilityRevision", VStr "cr");
     ("registryRevision", VStr "rr"); ("credentialReadinessRevision", VStr "cc")]
    (VNum (Some 1700000000000%Z)) 900000.

Definition demo_resolved : ResolvedCapsule :=
  value (Build_ResolvedCapsule no_capsule [] [] true true true) demo_resolve.

(** The capsule lives for fifteen minutes. *)
Lemma resolve_validates_witness :
  let uses kind now := exists r,
    validate (H:=demo_host) (reuse (rv_capsule demo_resolved) demo_context kind false now) VUndef = Ok r /\
    vr_status r = (if (1700000900000 <=? now)%Z then EXPIRED
                   else if String.eqb kind "mutation" then DYNAMIC_REFRESH_REQUIRED else VALID) in
  uses "read" 1700000899999%Z /\ uses "read" 1700000900000%Z /\ uses "mutation" 1700000000000%Z.
Proof.
  cbv zeta. assert (forall kind now, kind ∈ CAPSULE_OPERATION_KINDS -> valid_time now = true ->
    exists r, validate (H:=demo_host) (reuse (rv_capsule demo_resolved) demo_context kind false now) VUndef = Ok r /\
    vr_status r = (if (1700000900000 <=? now)%Z then EXPIRED
                   else if String.eqb kind "mutation" && negb false then DYNAMIC_REFRESH_REQUIRED else VALID)) as Huse.
  { intros kind now Hkind Hnow.
    assert (demo_resolve = Ok demo_resolved) as Hr by (vm_compute; reflexivity).
    destruct (@resolve_validates demo_host demo_host_laws _ _ _ demo_resolved kind false now VUndef Hr)
      as (e & r & Hval & He & Hv & Hst & _); [|exact Hkind|exact Hnow|].
    - apply Nat.leb_le. vm_compute. reflexivity.
    - exists r. split; [exact Hv|]. rewrite Hst. replace e with 1700000900000%Z; [reflexivity|].
      apply toISOString_inj; [reflexivity|exact Hval|]. rewrite <- He. vm_compute. reflexivity. }
  split; [|split].
  - apply Huse; [apply sin_true|]; reflexivity.
  - apply Huse; [apply sin_true|]; reflexivity.
  - apply (Huse "mutation"); [apply sin_true|]; reflexivity.
Defined.
End CapsuleService.

