(* ===== verification/DispatchGate.v ===== *)
(** * Mutation dispatch gate
    (contextKernel/integration/executionCapsuleMutationDispatchGate.js)

    The gate between an execution capsule and a reversible mutation: it checks
    the operation contract, the capsule, fresh evidence for every dynamic
    dependency, the input and the governance decision, dispatches once and
    reports what happened.  Proved: nothing is dispatched unless all of it
    holds, at most once, and the report never changes the outcome. *)
From S2P Require Import Prelude Sorting JsString JsDate JsValue JsJson ContextModel.
From S2P Require Import KernelSupport ApplicationSupport ExecutionCapsule CapsuleService.

Module DispatchGate.
Import ApplicationSupport ExecutionCapsule CapsuleService.

(** ** Tokens and patterns *)

Definition gate_token_rest (c : ascii) : bool := is_alnum c || char_in "_.:-" c.

(** [TOKEN_PATTERN] *)
Definition is_token (s : string) : bool :=
  match s with
  | EmptyString => false
  | String c r => is_alnum c && str_forallb gate_token_rest r && (String.length r <=? 190)
  end.

Definition hex_between (lo hi : nat) (s : string) : bool :=
  str_forallb lower_hex s && (lo <=? String.length s) && (String.length s <=? hi).

(** [SHA_PATTERN] *)
Definition is_sha (s : string) : bool :=
  hex_between 7 64 s
  || (js_startsWith s "sha256-" && hex_between 32 128 (String.substring 7 (String.length s) s)).

Definition REQUIRED_STATUSES : list (string * string) :=
  [("approval", "approved"); ("capability_envelope", "active"); ("effective_authority", "active");
   ("resource_version", "current"); ("provider_version", "current"); ("connection_status", "active");
   ("expected_sha", "matched")].

Definition REQUIRED_DYNAMIC_EVIDENCE_KEYS : list string := sort_strings (List.map fst REQUIRED_STATUSES).

(** [REQUIRED_STATUSES[key]] *)
Definition requiredStatus (key : string) : option string :=
  snd <$> List.find (fun p => String.eqb p.1 key) REQUIRED_STATUSES.

Definition FORBIDDEN_INPUT_FIELDS : list string :=
  ["authorization"; "proxyauthorization"; "cookie"; "setcookie"; "password"; "passwd"; "secret";
   "credential"; "credentials"; "accesstoken"; "refreshtoken"; "idtoken"; "apikey"; "clientsecret";
   "privatekey"; "session"; "sessionid"].

(** The gate's assignment pattern also matches [name: value]. *)
Definition gate_assignment_pattern : regex :=
  RSeq (re_alts
    [RSeq (re_lit_i "api") (RSeq sep_opt (re_lit_i "key"));
     RSeq (re_lit_i "access") (RSeq sep_opt (re_lit_i "token"));
     RSeq (re_lit_i "refresh") (RSeq sep_opt (re_lit_i "token"));
     re_lit_i "password"; re_lit_i "passwd"; re_lit_i "secret"; re_lit_i "credential";
     re_lit_i "authorization"; re_lit_i "cookie"; re_lit_i "session"])
    (RSeq (RStar (RChar is_ws)) (RChar (char_in ":="))).

(** [SECRET_VALUE_PATTERNS.some((pattern) => pattern.test(value))] *)
Definition secret_input (s : string) : bool :=
  re_search bearer_pattern s || re_search pem_pattern s || re_search gate_assignment_pattern s
  || re_full jwt_pattern s.

Definition cleanToken (value : jsval) (fieldName : string) : js string :=
  let token := match value with VStr s => js_trim s | _ => "" end in
  if is_token token then Ok token else type_error (fieldName +:+ " must be a bounded token.").

Definition safeReasonCodes (value : jsval) (fallback : string) : list string :=
  let source := match value with VArr l => l | _ => [] end in
  let bounded := take 16 (unique_sorted (bfilter is_token
    (List.map (fun entry => match entry with VStr s => js_trim s | _ => "" end) source))) in
  if 0 <? length bounded then bounded else [fallback].

(** [new ExecutionCapsuleMutationDispatchError(code, reasonCodes)]; its
    [reasonCodes] are kept among the details. *)
Definition failure (code : string) (reasonCodes : list string) : jserror :=
  CodedErr code 409 code
    [("reasonCodes", VArr (List.map VStr (safeReasonCodes (VArr (List.map VStr reasonCodes)) code)))].

(** ** The dispatch input *)

Definition input_unsafe (reason : string) : jserror :=
  failure "execution_capsule_mutation_dispatch_input_unsafe" [reason].

(** [String(value).replace(/[_-]/g, "").toLowerCase()] *)
Fixpoint normalizedFieldName (value : string) : string :=
  match value with
  | EmptyString => ""
  | String c r =>
      if char_in "_-" c then normalizedFieldName r else String (lower_char c) (normalizedFieldName r)
  end.

(** The check of one key of an object. *)
Definition checkKey (key : string) : js unit :=
  throw_if (sin key ["__proto__"; "prototype"; "constructor"]) (input_unsafe "input_prototype_key");;
  throw_if (sin (normalizedFieldName key) FORBIDDEN_INPUT_FIELDS) (input_unsafe "input_authority_field").

Section Project.
Context `{JsHost}.

(** [levels] is 9 minus the depth, so that a value deeper than 8 has none
    left; [nodes] is [state.nodes].  A value has no cycle here. *)
Fixpoint projectSafeValue (levels : nat) (value : jsval) (nodes : nat) {struct levels}
    : js (jsval * nat) :=
  let nodes := S nodes in
  throw_if (512 <? nodes) (input_unsafe "input_too_large");;
  match levels with
  | O => Throw (input_unsafe "input_too_deep")
  | S levels =>
      let project_entries := fix go (l : jsobj) (nodes : nat) : js (jsobj * nat) :=
        match l with
        | [] => Ok ([], nodes)
        | (key, child) :: rest =>
            checkKey key;;
            '(child, nodes) ← projectSafeValue levels child nodes;
            '(rest, nodes) ← go rest nodes;
            Ok ((key, child) :: rest, nodes)
        end in
      let project_list := fix go (l : list jsval) (nodes : nat) : js (list jsval * nat) :=
        match l with
        | [] => Ok ([], nodes)
        | child :: rest =>
            '(child, nodes) ← projectSafeValue levels child nodes;
            '(rest, nodes) ← go rest nodes;
            Ok (child :: rest, nodes)
        end in
      match value with
      | VNull | VBool _ => Ok (value, nodes)
      | VNum None => Throw (input_unsafe "input_non_finite")
      | VNum (Some _) => Ok (value, nodes)
      | VStr s =>
          throw_if (16 * 1024 <? Z.of_nat (String.length s))%Z (input_unsafe "input_string_too_large");;
          throw_if (secret_input s) (input_unsafe "input_secret_like");;
          Ok (value, nodes)
      | VUndef => Throw (input_unsafe "input_type_unsupported")
      | VDate _ => Throw (input_unsafe "input_object_type_unsupported")
      | VArr l =>
          throw_if (128 <? length l) (input_unsafe "input_array_too_large");;
          '(l, nodes) ← project_list l nodes;
          Ok (VArr l, nodes)
      | VObj o =>
          throw_if (128 <? length o) (input_unsafe "input_object_too_large");;
          '(o, nodes) ← project_entries (js_sort (fun l r => locale_compare l.1 r.1) o) nodes;
          Ok (VObj o, nodes)
      end
  end.

Definition projectSafeDispatchInput (value : jsval) : js jsval :=
  '(value, _) ← projectSafeValue 9 value 0; Ok value.
End Project.

(** ** The contract, the governance decision and the evidence *)

Record MutationContract := {
  mc_operationKey : string;
  mc_riskClass : string;
  mc_rollbackOperationKey : string;
  mc_requiredDynamicEvidence : list string;
}.

Record Governance := {
  gv_decisionRef : string;
  gv_decisionRevision : string;
  gv_operationKey : string;
  gv_contextHash : string;
}.

Record DynamicEvidence := {
  dy_evidenceKey : string;
  dy_status : string;
  dy_revision : string;
  dy_evidenceRef : option string;
  dy_expectedSha : option string;
}.

(** [Object.hasOwn(v, k)] *)
Definition has_own (v : jsval) (k : string) : bool := sin k (List.map fst (spread v)).

(** The map over [requiredDynamicEvidence] from an index on. *)
Fixpoint evidenceKeys (index : nat) (entries : list jsval) : js (list string) :=
  match entries with
  | [] => Ok []
  | entry :: rest =>
      key ← cleanToken entry ("operationContract.requiredDynamicEvidence["
                              +:+ string_of_Z (Z.of_nat index) +:+ "]");
      throw_if (negb (sin key (List.map fst REQUIRED_STATUSES)))
        (TypeErr ("Unsupported dynamic evidence key: " +:+ key));;
      keys ← evidenceKeys (S index) rest;
      Ok (key :: keys)
  end.

Definition requireMutationOperationContract (value : jsval) : js MutationContract :=
  throw_if (negb (is_record value)) (TypeErr "operationContract must be an object.");;
  throw_if (negb (is_str (vget value "operationKind") "mutation")
            || negb (is_true (vget value "mutationRequired")))
    (failure "execution_capsule_mutation_dispatch_requires_mutation_operation"
       ["execution_capsule_mutation_dispatch_requires_mutation_operation"]);;
  throw_if (negb (is_true (vget value "reversible")))
    (failure "execution_capsule_mutation_dispatch_requires_reversible_operation"
       ["execution_capsule_mutation_dispatch_requires_reversible_operation"]);;
  keys ← evidenceKeys 0
    (match vget value "requiredDynamicEvidence" with VArr l => l | _ => [] end);
  let requiredDynamicEvidence := unique_sorted keys in
  let missing := bfilter (fun k => negb (sin k requiredDynamicEvidence)) REQUIRED_DYNAMIC_EVIDENCE_KEYS in
  throw_if (0 <? length missing)
    (failure "execution_capsule_mutation_dispatch_dynamic_evidence_contract_incomplete"
       (List.map (fun k => "execution_capsule_mutation_dispatch_" +:+ k +:+ "_required") missing));;
  operationKey ← cleanToken (vget value "operationKey") "operationContract.operationKey";
  riskClass ← cleanToken (js_or (vget value "riskClass") (VStr "mutation")) "operationContract.riskClass";
  rollbackOperationKey ← cleanToken (vget value "rollbackOperationKey")
    "operationContract.rollbackOperationKey";
  Ok {| mc_operationKey := operationKey; mc_riskClass := riskClass;
        mc_rollbackOperationKey := rollbackOperationKey;
        mc_requiredDynamicEvidence := requiredDynamicEvidence |}.

Definition requireGovernanceDecision (value : jsval) (operationContract : MutationContract)
    (capsule : Capsule) : js Governance :=
  let blocked := "execution_capsule_mutation_dispatch_governance_blocked" in
  throw_if (negb (is_record value))
    (failure "execution_capsule_mutation_dispatch_governance_missing"
       ["execution_capsule_mutation_dispatch_governance_missing"]);;
  throw_if (negb (is_str (vget value "status") "allowed")
            || negb (is_true (vget value "dispatchAllowed"))
            || negb (is_true (vget value "mutationAllowed")))
    (failure blocked (safeReasonCodes (vget value "reasonCodes") blocked));;
  operationKey ← cleanToken (vget value "operationKey") "governanceDecision.operationKey";
  contextHash ← cleanToken (vget value "contextHash") "governanceDecision.contextHash";
  throw_if (negb (String.eqb operationKey (mc_operationKey operationContract)))
    (failure "execution_capsule_mutation_dispatch_operation_mismatch"
       ["execution_capsule_mutation_dispatch_operation_mismatch"]);;
  throw_if (negb (String.eqb contextHash (de_contextHash (cp_descriptor capsule))))
    (failure "execution_capsule_mutation_dispatch_governance_context_mismatch"
       ["execution_capsule_mutation_dispatch_governance_context_mismatch"]);;
  decisionRef ← cleanToken (vget value "decisionRef") "governanceDecision.decisionRef";
  decisionRevision ← cleanToken (vget value "decisionRevision") "governanceDecision.decisionRevision";
  Ok {| gv_decisionRef := decisionRef; gv_decisionRevision := decisionRevision;
        gv_operationKey := operationKey; gv_contextHash := contextHash |}.

Definition requireCurrentEvidence (value : jsval) : js jsval :=
  throw_if (negb (is_record value)) (TypeErr "dynamicEvidenceProvider must return an object.");;
  throw_if (negb (is_object (vget value "currentContext")))
    (TypeErr "dynamicEvidence.currentContext must be an object.");;
  throw_if (match vget value "currentDependencies" with VArr _ => false | _ => true end)
    (TypeErr "dynamicEvidence.currentDependencies must be an array.");;
  throw_if (negb (is_record (vget value "items")))
    (TypeErr "dynamicEvidence.items must be an object.");;
  Ok value.

(** [Object.hasOwn(v, f) && (v[f] ?? null) !== (capsule[f] ?? null)] *)
Definition substitutes (v : jsval) (field : string) (expected : jsval) : bool :=
  has_own v field && differs (vget v field) expected.

Definition capsuleField (capsule : Capsule) (field : string) : jsval :=
  oget (js_of_capsule capsule) field.

Definition re_resolution : string :=
  "execution_capsule_mutation_dispatch_context_re_resolution_required".

(** The first field of [fields] that substitutes the capsule's own throws. *)
Fixpoint assertFields (v : jsval) (capsule : Capsule) (reason : string -> string)
    (fields : list string) : js unit :=
  match fields with
  | [] => Ok tt
  | field :: rest =>
      throw_if (substitutes v field (capsuleField capsule field))
        (failure re_resolution [reason field]);;
      assertFields v capsule reason rest
  end.

Definition assertNoContextSubstitution (item : jsval) (capsule : Capsule) (key : string) : js unit :=
  assertFields item capsule
    (fun field => "execution_capsule_mutation_dispatch_" +:+ key +:+ "_" +:+ field +:+ "_mismatch")
    ["tenantRef"; "workspaceRef"; "brandRef"; "resourceRef"; "connectionRef"].

(** [String(v || "").trim().toLowerCase()] *)
Definition shaText `{JsHost} (v : jsval) : string := js_toLowerCase (js_trim (str_or_empty v)).

(** The projection of one evidence item. *)
Definition projectItem `{JsHost} (items : jsval) (operationContract : MutationContract)
    (capsule : Capsule) (key : string) : js DynamicEvidence :=
  let item := vget items key in
  let named suffix := "execution_capsule_mutation_dispatch_" +:+ key +:+ "_" +:+ suffix in
  throw_if (negb (is_record item))
    (failure "execution_capsule_mutation_dispatch_dynamic_evidence_missing" [named "missing"]);;
  status ← cleanToken (vget item "status") ("dynamicEvidence.items." +:+ key +:+ ".status");
  throw_if (negb (ostr_eqb (Some status) (requiredStatus key)))
    (failure "execution_capsule_mutation_dispatch_dynamic_evidence_blocked"
       (safeReasonCodes (vget item "reasonCodes") (named status)));;
  operationKey ← cleanToken (vget item "operationKey")
    ("dynamicEvidence.items." +:+ key +:+ ".operationKey");
  throw_if (negb (String.eqb operationKey (mc_operationKey operationContract)))
    (failure "execution_capsule_mutation_dispatch_dynamic_evidence_operation_mismatch"
       [named "operation_mismatch"]);;
  contextHash ← cleanToken (vget item "contextHash") ("dynamicEvidence.items." +:+ key +:+ ".contextHash");
  throw_if (negb (String.eqb contextHash (de_contextHash (cp_descriptor capsule))))
    (failure re_resolution [named "context_mismatch"]);;
  assertNoContextSubstitution item capsule key;;
  revision ← cleanToken (vget item "revision") ("dynamicEvidence.items." +:+ key +:+ ".revision");
  evidenceRef ← (if nullish (vget item "evidenceRef") then Ok None
                 else r ← cleanToken (vget item "evidenceRef")
                        ("dynamicEvidence.items." +:+ key +:+ ".evidenceRef"); Ok (Some r));
  expectedSha ← (if String.eqb key "expected_sha" then
                   let expectedSha := shaText (vget item "expectedSha") in
                   let actualSha := shaText (vget item "actualSha") in
                   throw_if (negb (is_sha expectedSha) || negb (is_sha actualSha)
                             || negb (String.eqb expectedSha actualSha))
                     (failure "execution_capsule_mutation_dispatch_expected_sha_mismatch"
                        ["execution_capsule_mutation_dispatch_expected_sha_mismatch"]);;
                   Ok (Some expectedSha)
                 else Ok None);
  Ok {| dy_evidenceKey := key; dy_status := status; dy_revision := revision;
        dy_evidenceRef := evidenceRef; dy_expectedSha := expectedSha |}.

Definition projectDynamicEvidence `{JsHost} (items : jsval) (operationContract : MutationContract)
    (capsule : Capsule) : js (list DynamicEvidence) :=
  mapM_js (projectItem items operationContract capsule) (mc_requiredDynamicEvidence operationContract).

(** ** The binding of the input to the capsule *)

Definition resource_type_rest (c : ascii) : bool := is_lower c || is_digit c || char_in "_" c.

(** [/^[a-z][a-z0-9_]{0,62}$/] *)
Definition is_resource_type (s : string) : bool :=
  match s with
  | EmptyString => false
  | String c r => is_lower c && str_forallb resource_type_rest r && (String.length r <=? 62)
  end.

(** [value.replace(/_([a-z0-9])/g, (_, c) => c.toUpperCase())] *)
Fixpoint camel (value : string) : string :=
  match value with
  | EmptyString => ""
  | String c rest =>
      match rest with
      | String d rest' =>
          if char_in "_" c && (is_lower d || is_digit d) then upper_char d +:+ camel rest'
          else String c (camel rest)
      | EmptyString => value
      end
  end.

Definition resourceReferenceField (resourceType : string) : option string :=
  if is_resource_type resourceType then Some (camel resourceType +:+ "Ref") else None.

Definition assertDispatchInputBinding `{JsHost} (dispatchInput : jsval) (capsule : Capsule)
    (dynamicEvidence : list DynamicEvidence) : js unit :=
  let named field := "execution_capsule_mutation_dispatch_input_" +:+ field +:+ "_mismatch" in
  throw_if (negb (is_record dispatchInput)) (input_unsafe "input_object_required");;
  assertFields dispatchInput capsule named
    ["tenantRef"; "workspaceRef"; "brandRef"; "resourceType"; "resourceRef"; "connectionRef"];;
  match resourceReferenceField (de_resourceType (cp_descriptor capsule)) with
  | Some alias =>
      throw_if (negb (String.eqb alias "resourceRef")
                && substitutes dispatchInput alias (capsuleField capsule "resourceRef"))
        (failure re_resolution [named alias])
  | None => Ok tt
  end;;
  let expectedShaEvidence := List.find (fun e => String.eqb (dy_evidenceKey e) "expected_sha") dynamicEvidence in
  let inputExpectedSha := shaText (vget dispatchInput "expectedSha") in
  throw_if (match expectedShaEvidence with None => true | Some e =>
              negb (has_own dispatchInput "expectedSha") || negb (is_sha inputExpectedSha)
              || negb (ostr_eqb (Some inputExpectedSha) (dy_expectedSha e)) end)
    (failure "execution_capsule_mutation_dispatch_expected_sha_mismatch"
       ["execution_capsule_mutation_dispatch_expected_sha_mismatch"]).

(** ** The gate *)

(** The variables that the report reads after a failure. *)
Record Progress := {
  pg_operationKey : option string;
  pg_validationStatus : option CapsuleStatus;
  pg_governed : bool;
  pg_dispatcherInvoked : bool;
}.

Definition no_progress : Progress :=
  {| pg_operationKey := None; pg_validationStatus := None; pg_governed := false;
     pg_dispatcherInvoked := false |}.

(** A computation of the [try] block: from the progress and the calls so far to
    its outcome, the progress and the calls after it. *)
Definition gate (A : Type) : Type :=
  Progress -> list port_call -> js A * Progress * list port_call.

#[global] Instance gate_ret : MRet gate := fun A a p h => (Ok a, p, h).
#[global] Instance gate_bind : MBind gate := fun A B k m p h =>
  match m p h with
  | (Ok a, p', h') => k a p' h'
  | (Throw e, p', h') => (Throw e, p', h')
  end.

Definition gate_js {A} (m : js A) : gate A := fun p h => (m, p, h).
Definition gate_call `{Ports} (c : port_call) : gate jsval := fun p h => (answer h c, p, h ++ [c]).
Definition note (f : Progress -> Progress) : gate unit := fun p h => (Ok tt, f p, h).

(** [emitSafely(...)]: what the telemetry answers is ignored. *)
Definition emitSafely (event : jsobj) : gate unit := fun p h => (Ok tt, p, h ++ [telemetry event]).

Definition js_of_contract (c : MutationContract) : jsval := VObj
  [("operationKey", VStr (mc_operationKey c)); ("operationKind", VStr "mutation");
   ("riskClass", VStr (mc_riskClass c)); ("mutationRequired", VBool true); ("reversible", VBool true);
   ("rollbackOperationKey", VStr (mc_rollbackOperationKey c));
   ("requiredDynamicEvidence", VArr (List.map VStr (mc_requiredDynamicEvidence c)))].

Definition js_of_governance (g : Governance) : jsval := VObj
  [("decisionRef", VStr (gv_decisionRef g)); ("decisionRevision", VStr (gv_decisionRevision g));
   ("operationKey", VStr (gv_operationKey g)); ("contextHash", VStr (gv_contextHash g));
   ("status", VStr "allowed"); ("dispatchAllowed", VBool true); ("mutationAllowed", VBool true)].

Definition js_of_evidence (e : DynamicEvidence) : jsval := VObj
  ([("evidenceKey", VStr (dy_evidenceKey e)); ("status", VStr (dy_status e));
    ("revision", VStr (dy_revision e)); ("evidenceRef", js_of_ostr (dy_evidenceRef e))]
   ++ match dy_expectedSha e with Some s => [("expectedSha", VStr s)] | None => [] end).

Definition safeExecutionContext (capsule : Capsule) : jsval := VObj
  (List.map (fun k => (k, capsuleField capsule k))
    ["capsuleRef"; "contextHash"; "contextRevision"; "tenantRef"; "workspaceRef"; "brandRef";
     "resourceType"; "resourceRef"; "connectionRef"]).

Definition js_of_capsule_status (s : CapsuleStatus) : string :=
  match s with
  | VALID => "valid"
  | EXPIRED => "expired"
  | REVISION_MISMATCH => "revision_mismatch"
  | CONTEXT_MISMATCH => "context_mismatch"
  | DYNAMIC_REFRESH_REQUIRED => "dynamic_refresh_required"
  | INTERPRETATION_REQUIRED => "interpretation_required"
  | BLOCKED => "blocked"
  end.

(** [if (validation.status !== VALID) throw ...] *)
Definition requireValid (validation : ValidationResult) : js unit :=
  throw_if (negb (bool_decide (vr_status validation = VALID)))
    (failure (if vr_requiresContextReresolution validation then re_resolution
              else "execution_capsule_mutation_dispatch_" +:+ js_of_capsule_status (vr_status validation))
       (vr_reasonCodes validation)).

Definition validationArgs (capsule : Capsule) (evidence clock : jsval) : jsobj :=
  [("capsule", VObj (js_of_capsule capsule)); ("currentContext", vget evidence "currentContext");
   ("currentDependencies", vget evidence "currentDependencies"); ("operationKind", VStr "mutation");
   ("dynamicRefreshComplete", VBool true);
   ("interpretationRequired", VBool (is_true (vget evidence "interpretationRequired")));
   ("blockedReasonCodes", match vget evidence "blockedReasonCodes" with VArr l => VArr l | _ => VArr [] end);
   ("now", js_coalesce (vget evidence "now") clock)].

Definition dispatchEnvelope (contract : MutationContract) (governance : Governance) (capsule : Capsule)
    (evidence : list DynamicEvidence) (dispatchInput : jsval) : jsval := VObj
  [("operationContract", js_of_contract contract); ("governanceDecision", js_of_governance governance);
   ("executionContext", safeExecutionContext capsule);
   ("dynamicEvidence", VArr (List.map js_of_evidence evidence));
   ("rollbackContract", VObj [("required", VBool true);
                              ("operationKey", VStr (mc_rollbackOperationKey contract))]);
   ("dispatchInput", dispatchInput)].

(** The event reported for a dispatch. *)
Definition dispatchEvent (p : Progress) (evidenceCount : nat) (succeeded : bool)
    (reasonCodes : list string) : jsobj :=
  [("eventType", VStr "execution_capsule_mutation_dispatch"); ("mode", VStr "reversible_mutation_pilot");
   ("operationKey", VStr (default "unknown" (pg_operationKey p)));
   ("validationStatus", js_of_ostr (js_of_capsule_status <$> pg_validationStatus p));
   ("governanceStatus", if pg_governed p then VStr "allowed" else VNull);
   ("dynamicEvidenceCount", VNum (Some (Z.of_nat evidenceCount)));
   ("dispatcherInvoked", VBool (pg_dispatcherInvoked p)); ("dispatchSucceeded", VBool succeeded);
   ("mutationAllowed", VBool succeeded); ("reversible", VBool true);
   ("capsuleGrantedAuthority", VBool false); ("reasonCodes", VArr (List.map VStr reasonCodes));
   ("secretsIncluded", VBool false)].

(** [error?.reasonCodes || [error?.code]] *)
Definition errorReasons (e : jserror) : jsval :=
  match e with
  | CodedErr code _ _ details => js_or (oget details "reasonCodes") (VArr [VStr code])
  | _ => VArr [VUndef]
  end.

Section Gate.
Context `{JsHost} `{Ports}.

(** The checks before the dispatch: the contract, the governance decision, the
    capsule, its evidence and the input. *)
Definition prepareDispatch (args : jsobj) (clock : jsval)
    : gate (MutationContract * Governance * Capsule * list DynamicEvidence * jsval) :=
  contract ← gate_js (requireMutationOperationContract (oget args "operationContract"));
  note (fun p => {| pg_operationKey := Some (mc_operationKey contract);
    pg_validationStatus := pg_validationStatus p; pg_governed := pg_governed p;
    pg_dispatcherInvoked := pg_dispatcherInvoked p |});;
  capsule ← gate_js (assertExecutionCapsuleIntegrity (oget args "capsule"));
  dispatchInput ← gate_js (projectSafeDispatchInput (oget args "dispatchInput"));
  provided ← gate_call (dynamicEvidence [("capsule", VObj (js_of_capsule capsule));
    ("operationContract", js_of_contract contract); ("dispatchInput", dispatchInput)]);
  evidence ← gate_js (requireCurrentEvidence provided);
  dynamic ← gate_js (projectDynamicEvidence (vget evidence "items") contract capsule);
  gate_js (assertDispatchInputBinding dispatchInput capsule dynamic);;
  validation ← gate_js (validate (validationArgs capsule evidence clock) clock);
  note (fun p => {| pg_operationKey := pg_operationKey p;
    pg_validationStatus := Some (vr_status validation); pg_governed := pg_governed p;
    pg_dispatcherInvoked := pg_dispatcherInvoked p |});;
  gate_js (requireValid validation);;
  governance ← gate_js (requireGovernanceDecision (oget args "governanceDecision") contract capsule);
  note (fun p => {| pg_operationKey := pg_operationKey p; pg_validationStatus := pg_validationStatus p;
    pg_governed := true; pg_dispatcherInvoked := true |});;
  mret (contract, governance, capsule, dynamic, dispatchInput).

Definition attempt (args : jsobj) (clock : jsval) : gate jsval :=
  '(contract, governance, capsule, dynamic, dispatchInput) ← prepareDispatch args clock;
  result ← gate_call (dispatchMutation (dispatchEnvelope contract governance capsule dynamic dispatchInput));
  emitSafely (dispatchEvent {| pg_operationKey := Some (mc_operationKey contract);
    pg_validationStatus := Some VALID; pg_governed := true; pg_dispatcherInvoked := true |}
    (length dynamic) true []);;
  mret result.

(** [dispatch] of an enabled gate; [clock] is the value of [clock()]. *)
Definition dispatch (args : jsobj) (clock : jsval) : app jsval := fun h =>
  match attempt args clock no_progress h with
  | (Ok result, _, h') => (Ok result, h')
  | (Throw e, p, h') =>
      (Throw e, h' ++ [telemetry (dispatchEvent p 0 false
        (safeReasonCodes (errorReasons e) "execution_capsule_mutation_dispatch_failed"))])
  end.

(** [dispatch] of the gate that was created with [enabled], or rolled back. *)
Definition gateDispatch (enabled : jsval) (args : jsobj) (clock : jsval) : app jsval :=
  if is_true enabled then dispatch args clock
  else await_port (dispatchMutation (oget args "dispatchInput")).

(** ** What the gate has checked before it dispatches *)

Lemma gate_bind_inv {A B} (m : gate A) (k : A -> gate B) p h r p' h' : (m ≫= k) p h = (r, p', h') ->
  (exists a p1 h1, m p h = (Ok a, p1, h1) /\ k a p1 h1 = (r, p', h')) \/
  (exists e, m p h = (Throw e, p', h') /\ r = Throw e).
Proof.
  unfold mbind, gate_bind. destruct (m p h) as [[[a|e] p1] h1] eqn:Hm; [by left; eauto 6|].
  intros [= <- <- <-]. right. eauto.
Qed.

Lemma gate_js_inv {A} (m : js A) p h r p' h' : gate_js m p h = (r, p', h') -> m = r /\ p' = p /\ h' = h.
Proof. by intros [= <- <- <-]. Qed.

Lemma gate_call_inv c p h r p' h' : gate_call c p h = (r, p', h') ->
  answer h c = r /\ p' = p /\ h' = h ++ [c].
Proof. by intros [= <- <- <-]. Qed.

Lemma note_inv f p h r p' h' : note f p h = (r, p', h') -> r = Ok tt /\ p' = f p /\ h' = h.
Proof. by intros [= <- <- <-]. Qed.

Lemma gate_ret_inv {A} (a : A) p h r p' h' : (mret a : gate A) p h = (r, p', h') ->
  r = Ok a /\ p' = p /\ h' = h.
Proof. by intros [= <- <- <-]. Qed.

(** Splits the first step of a run of the gate. *)
Ltac gate_step H :=
  let a := fresh "a" in let p1 := fresh "p" in let h1 := fresh "h" in let Hm := fresh "Hm" in
  let e := fresh "e" in let Hr := fresh "Hr" in
  apply gate_bind_inv in H as [(a & p1 & h1 & Hm & H) | (e & Hm & Hr)];
  try first [apply gate_js_inv in Hm as (Hm & -> & ->) | apply gate_call_inv in Hm as (Hm & -> & ->)
            | apply note_inv in Hm as (Hm & -> & ->)];
  try discriminate.

(** An item of evidence allows the operation of the contract on the capsule. *)
Definition item_allows (item : jsval) (status : string) (contract : MutationContract)
    (capsule : Capsule) : Prop :=
  (exists s, vget item "status" = VStr s /\ js_trim s = status) /\
  (exists s, vget item "operationKey" = VStr s /\ js_trim s = mc_operationKey contract) /\
  (exists s, vget item "contextHash" = VStr s /\ js_trim s = de_contextHash (cp_descriptor capsule)) /\
  (forall f, f ∈ ["tenantRef"; "workspaceRef"; "brandRef"; "resourceRef"; "connectionRef"] ->
     has_own item f = true -> differs (vget item f) (capsuleField capsule f) = false).

(** Everything a dispatch of [envelope] rests on. *)
Record cleared (args : jsobj) (clock provided : jsval) (contract : MutationContract) (governance : Governance)
    (capsule : Capsule) (dynamic : list DynamicEvidence) (input : jsval) : Prop := {
  cl_contract : requireMutationOperationContract (oget args "operationContract") = Ok contract;
  cl_capsule : assertExecutionCapsuleIntegrity (oget args "capsule") = Ok capsule;
  cl_input : projectSafeDispatchInput (oget args "dispatchInput") = Ok input;
  cl_evidence : forall key status, (key, status) ∈ REQUIRED_STATUSES ->
    item_allows (vget (vget provided "items") key) status contract capsule;
  cl_sha : exists sha, is_sha sha = true /\ shaText (vget input "expectedSha") = sha /\
    shaText (vget (vget (vget provided "items") "expected_sha") "expectedSha") = sha /\
    shaText (vget (vget (vget provided "items") "expected_sha") "actualSha") = sha;
  cl_uninterpreted : is_true (vget provided "interpretationRequired") = false;
  cl_valid : exists checked now deps,
    cp_descriptor checked = cp_descriptor capsule /\ cp_capsuleHash checked = cp_capsuleHash capsule /\
    js_Date (js_coalesce (vget provided "now") clock) = Some now /\
    vget provided "currentDependencies" = VArr deps /\
    valid_for checked (vget provided "currentContext") deps now;
  cl_governance : let decision := oget args "governanceDecision" in
    vget decision "status" = VStr "allowed" /\ vget decision "dispatchAllowed" = VBool true /\
    vget decision "mutationAllowed" = VBool true /\
    gv_operationKey governance = mc_operationKey contract /\
    gv_contextHash governance = de_contextHash (cp_descriptor capsule);
}.

Lemma cleanToken_Ok v f t : cleanToken v f = Ok t -> exists s, v = VStr s /\ js_trim s = t.
Proof. unfold cleanToken. destruct v as [| | | |s| | |]; try done. destruct (is_token _); [|done]. intros [= <-]. eauto. Qed.

Lemma assertFields_Ok v capsule reason fields u f : assertFields v capsule reason fields = Ok u ->
  f ∈ fields -> has_own v f = true -> differs (vget v f) (capsuleField capsule f) = false.
Proof.
  induction fields as [|g rest IH]; simpl; intros Hok; [by intros ?%not_elem_of_nil|].
  apply bind_Ok in Hok as (w & Hg%throw_if_Ok & Hok). intros [->|Hf]%elem_of_cons Hown; [|by apply IH].
  unfold substitutes in Hg. by rewrite Hown in Hg.
Qed.

(** The contract that is accepted asks for every dynamic evidence. *)
Lemma contract_complete v contract key : requireMutationOperationContract v = Ok contract ->
  key ∈ List.map fst REQUIRED_STATUSES -> key ∈ mc_requiredDynamicEvidence contract.
Proof.
  unfold requireMutationOperationContract. intros Hc Hkey.
  do 3 (apply bind_Ok in Hc as (? & _ & Hc)). apply bind_Ok in Hc as (keys & _ & Hc). cbv zeta in Hc.
  apply bind_Ok in Hc as (? & Hm%throw_if_Ok & Hc). do 3 (apply bind_Ok in Hc as (? & _ & Hc)).
  apply Ok_inj in Hc as <-. cbn [mc_requiredDynamicEvidence].
  assert (bfilter (fun k => negb (sin k (unique_sorted keys))) REQUIRED_DYNAMIC_EVIDENCE_KEYS = []) as Hnil
    by (destruct (bfilter _ _); [done|discriminate Hm]).
  rewrite bfilter_nil in Hnil. apply sin_true, negb_false_iff, Hnil.
  unfold REQUIRED_DYNAMIC_EVIDENCE_KEYS. by apply elem_of_js_sort.
Qed.

(** A projected item allows the operation, and the item that is the expected
    SHA agrees with the actual one. *)
Lemma projectItem_Ok items contract capsule key e : projectItem items contract capsule key = Ok e ->
  dy_evidenceKey e = key /\ requiredStatus key = Some (dy_status e) /\
  item_allows (vget items key) (dy_status e) contract capsule /\
  (key = "expected_sha" -> exists sha, dy_expectedSha e = Some sha /\ is_sha sha = true /\
     shaText (vget (vget items key) "expectedSha") = sha /\ shaText (vget (vget items key) "actualSha") = sha).
Proof.
  unfold projectItem. cbv zeta. intros He. apply bind_Ok in He as (? & _ & He).
  apply bind_Ok in He as (status & Hst%cleanToken_Ok & He).
  apply bind_Ok in He as (? & Hreq%throw_if_Ok & He). apply negb_false_iff, ostr_eqb_true in Hreq.
  apply bind_Ok in He as (op & Hop%cleanToken_Ok & He).
  apply bind_Ok in He as (? & Hopeq%throw_if_Ok & He). apply negb_false_iff, String.eqb_eq in Hopeq as ->.
  apply bind_Ok in He as (hash & Hhash%cleanToken_Ok & He).
  apply bind_Ok in He as (? & Hheq%throw_if_Ok & He). apply negb_false_iff, String.eqb_eq in Hheq as ->.
  apply bind_Ok in He as (u & Hfields & He). do 2 (apply bind_Ok in He as (? & _ & He)).
  apply bind_Ok in He as (sha & Hsha & He). apply Ok_inj in He as <-.
  cbn [dy_evidenceKey dy_status dy_expectedSha]. split; [done|]. split; [done|]. split.
  { split; [done|]. split; [done|]. split; [done|]. intros f Hf. exact (assertFields_Ok _ _ _ _ _ f Hfields Hf). }
  intros ->. simpl String.eqb in Hsha. cbv iota in Hsha.
  apply bind_Ok in Hsha as (? & Hs%throw_if_Ok & Hsha). split_bool. apply Ok_inj in Hsha as <-.
  exists (shaText (vget (vget items "expected_sha") "expectedSha")). split; [done|]. split; [done|]. split; [done|].
  symmetry. by apply String.eqb_eq.
Qed.

Lemma projectDynamicEvidence_Ok items contract capsule dynamic key :
  projectDynamicEvidence items contract capsule = Ok dynamic -> key ∈ mc_requiredDynamicEvidence contract ->
  exists status, requiredStatus key = Some status /\ item_allows (vget items key) status contract capsule.
Proof.
  unfold projectDynamicEvidence. rewrite mapM_js_Ok. intros Hall Hkey.
  apply list_elem_of_lookup in Hkey as [i Hi].
  destruct (Forall2_lookup_l _ _ _ _ _ Hall Hi) as (e & _ & He).
  apply projectItem_Ok in He as (_ & Hreq & Hit & _). eauto.
Qed.

(** The input names the SHA that the evidence has matched. *)
Lemma binding_sha input capsule items contract dynamic u :
  projectDynamicEvidence items contract capsule = Ok dynamic ->
  assertDispatchInputBinding input capsule dynamic = Ok u ->
  exists sha, is_sha sha = true /\ shaText (vget input "expectedSha") = sha /\
    shaText (vget (vget items "expected_sha") "expectedSha") = sha /\
    shaText (vget (vget items "expected_sha") "actualSha") = sha.
Proof.
  unfold projectDynamicEvidence, assertDispatchInputBinding. rewrite mapM_js_Ok. cbv zeta. intros Hall Hb.
  do 3 (apply bind_Ok in Hb as (? & _ & Hb)). apply throw_if_Ok in Hb.
  destruct (List.find _ dynamic) as [e|] eqn:Hfind; [|done]. split_bool.
  apply List.find_some in Hfind as [Hin%list_elem_of_In Hk%String.eqb_eq].
  apply list_elem_of_lookup in Hin as [i Hi].
  destruct (Forall2_lookup_r _ _ _ _ _ Hall Hi) as (key & _ & He).
  apply projectItem_Ok in He as (Hkey & _ & _ & Hsha). rewrite Hk in Hkey. subst key.
  destruct (Hsha eq_refl) as (sha & Hs & Hok & Hexp & Hact). rewrite Hs in *.
  match goal with Ho : ostr_eqb _ _ = true |- _ => apply ostr_eqb_true in Ho; injection Ho as Ho; exists sha end.
  by repeat split.
Qed.

Lemma governance_Ok v contract capsule governance : requireGovernanceDecision v contract capsule = Ok governance ->
  vget v "status" = VStr "allowed" /\ vget v "dispatchAllowed" = VBool true /\
  vget v "mutationAllowed" = VBool true /\ gv_operationKey governance = mc_operationKey contract /\
  gv_contextHash governance = de_contextHash (cp_descriptor capsule).
Proof.
  unfold requireGovernanceDecision. cbv zeta. intros Hg. apply bind_Ok in Hg as (? & _ & Hg).
  apply bind_Ok in Hg as (? & Hflags%throw_if_Ok & Hg). split_bool.
  do 2 (apply bind_Ok in Hg as (? & _ & Hg)).
  apply bind_Ok in Hg as (? & Hop%throw_if_Ok & Hg). apply bind_Ok in Hg as (? & Hh%throw_if_Ok & Hg).
  do 2 (apply bind_Ok in Hg as (? & _ & Hg)). apply Ok_inj in Hg as <-.
  apply negb_false_iff, String.eqb_eq in Hop, Hh. cbn [gv_operationKey gv_contextHash].
  split; [by apply is_str_true|]. split; [by apply is_true_true|]. split; [by apply is_true_true|]. done.
Qed.

Lemma requireValid_Ok validation u : requireValid validation = Ok u -> vr_status validation = VALID.
Proof.
  unfold requireValid. intros Hv%throw_if_Ok. apply negb_false_iff in Hv. by apply bool_decide_eq_true in Hv.
Qed.

Lemma validation_current args capsule evidence clock validation :
  assertExecutionCapsuleIntegrity (oget args "capsule") = Ok capsule ->
  validate (validationArgs capsule evidence clock) clock = Ok validation -> vr_status validation = VALID ->
  is_true (vget evidence "interpretationRequired") = false /\
  exists checked now deps,
    cp_descriptor checked = cp_descriptor capsule /\ cp_capsuleHash checked = cp_capsuleHash capsule /\
    js_Date (js_coalesce (vget evidence "now") clock) = Some now /\
    vget evidence "currentDependencies" = VArr deps /\
    valid_for checked (vget evidence "currentContext") deps now.
Proof.
  intros Hint Hv Hst.
  destruct (validate_valid _ _ _ Hv Hst) as (checked & now & deps & Hc & Hnow & Hdeps & _ & Hi & _ & Hok).
  destruct (integrity_again _ _ _ Hint Hc) as [Hd Hh]. split.
  - change (is_true (VBool (is_true (vget evidence "interpretationRequired"))) = false) in Hi.
    by destruct (is_true (vget evidence "interpretationRequired")).
  - exists checked, now, deps. do 2 (split; [done|]). split; [|done].
    change (js_Date (match js_coalesce (vget evidence "now") clock with VUndef => clock | v => v end)
            = Some now) in Hnow.
    revert Hnow. unfold js_coalesce. by destruct (vget evidence "now"), clock.
Qed.

Lemma currentEvidence_Ok v w : requireCurrentEvidence v = Ok w -> w = v.
Proof.
  unfold requireCurrentEvidence. intros Hv. do 4 (apply bind_Ok in Hv as (? & _ & Hv)). by apply Ok_inj in Hv.
Qed.

Lemma requiredStatus_of key status : (key, status) ∈ REQUIRED_STATUSES ->
  requiredStatus key = Some status /\ key ∈ List.map fst REQUIRED_STATUSES.
Proof.
  intros Hin. split; [|by apply (list_elem_of_fmap_2 fst _ (key, status))]. revert Hin.
  unfold REQUIRED_STATUSES. rewrite !elem_of_cons, elem_of_nil. intros Hin.
  repeat destruct Hin as [[= -> ->]|Hin]; done.
Qed.

(** The preparation calls the evidence provider at most, and clears what it
    returns. *)
Lemma prepareDispatch_inv args clock p h r p' h' : prepareDispatch args clock p h = (r, p', h') ->
  match r with
  | Ok (contract, governance, capsule, dynamic, input) =>
      exists ev provided, answer h (dynamicEvidence ev) = Ok provided /\ h' = h ++ [dynamicEvidence ev] /\
        cleared args clock provided contract governance capsule dynamic input
  | Throw _ => h' = h \/ exists ev, h' = h ++ [dynamicEvidence ev]
  end.
Proof.
  unfold prepareDispatch. intros Hp.
  repeat (gate_step Hp; [|solve [subst; eauto]..]).
  apply gate_ret_inv in Hp as (-> & -> & ->).
  match goal with Hx : requireCurrentEvidence _ = _ |- _ => apply currentEvidence_Ok in Hx as -> end.
  match goal with Hv : requireValid _ = _ |- _ => apply requireValid_Ok in Hv end.
  do 2 eexists. split; [done|]. split; [done|]. split; try done.
  - intros key status [Hreq Hkey]%requiredStatus_of.
    edestruct projectDynamicEvidence_Ok as (st & Hst & Hit); [done|by eapply contract_complete|].
    rewrite Hreq in Hst. by injection Hst as ->.
  - by eapply binding_sha.
  - by eapply validation_current.
  - by eapply validation_current.
  - by eapply governance_Ok.
Qed.

End Gate.

(** ** A dispatch *)

Definition demo_contract : jsval := VObj
  [("operationKind", VStr "mutation"); ("mutationRequired", VBool true); ("reversible", VBool true);
   ("operationKey", VStr " post.update "); ("rollbackOperationKey", VStr "post.restore");
   ("requiredDynamicEvidence", VArr (List.map VStr REQUIRED_DYNAMIC_EVIDENCE_KEYS))].

Definition demo_item (status : string) : jsval := VObj
  [("status", VStr status); ("operationKey", VStr "post.update"); ("contextHash", VStr "hash");
   ("revision", VStr "r1"); ("tenantRef", VStr "t1"); ("expectedSha", VStr "ABCDEF0");
   ("actualSha", VStr "abcdef0")].

(** The approval has the given status. *)
Definition demo_provided (approval : string) : jsval := VObj
  [("currentContext", demo_context);
   ("currentDependencies",
     VArr (List.map js_of_dependency (cp_invalidationDependencies demo_capsule_value)));
   ("items", VObj (List.map (fun p => (p.1, demo_item (if String.eqb p.1 "approval" then approval else p.2)))
                     REQUIRED_STATUSES))].

Definition demo_ports (approval : string) : Ports := {|
  answer := fun _ c => match c with
    | dynamicEvidence _ => Ok (demo_provided approval)
    | dispatchMutation _ => Ok (VStr "done")
    | _ => Ok VNull
    end |}.

Definition demo_dispatch (approval : string) : js jsval * list port_call :=
  dispatch (H:=demo_host) (H0:=demo_ports approval)
    [("capsule", VObj (js_of_capsule demo_capsule_value)); ("operationContract", demo_contract);
     ("governanceDecision", VObj
        [("status", VStr "allowed"); ("dispatchAllowed", VBool true); ("mutationAllowed", VBool true);
         ("operationKey", VStr "post.update"); ("contextHash", VStr "hash"); ("decisionRef", VStr "g1");
         ("decisionRevision", VStr "1")]);
     ("dispatchInput", VObj [("expectedSha", VStr "abcdef0"); ("docRef", VStr "d1")])]
    (VNum (Some 1700000000000%Z)) [].

End DispatchGate.
