(* ===== verification/CapabilityPolicy.v ===== *)
(** * Capabilities, their aliases and their policies (src/domain/capability)

    canonicalCapability.js, capabilityAlias.js and policyComposition.js: the
    registered capabilities, the selectors that name them, and the composition
    of a capability's policy with that of a surface.  Proved: active aliases
    map to one capability each, and a surface can only narrow a policy. *)
From stdpp Require Import gmap.
From S2P Require Import Prelude Sorting JsString JsDate JsValue.

Module CapabilityPolicy.

(** An [Error] with a code and details; it has no HTTP status. *)
Definition CapabilityDomainError (code message : string) (details : jsobj) : jserror :=
  CodedErr code 0 message details.

(** A parameter [input = {}] whose properties are read next. *)
Definition param (v : jsval) : js jsval :=
  match v with
  | VUndef => Ok (VObj [])
  | VNull => type_error "Cannot read properties of null"
  | _ => Ok v
  end.

Definition key_start (c : ascii) : bool := is_lower c || is_digit c.
Definition key_rest (c : ascii) : bool := is_lower c || is_digit c || char_in "._:-" c.

(** [KEY_PATTERN] *)
Definition is_capability_key (s : string) : bool :=
  match s with
  | EmptyString => false
  | String c r => key_start c && str_forallb key_rest r && (String.length r <=? 190)
  end.

Definition CAPABILITY_RISK_LEVELS : list string := ["low"; "medium"; "high"; "critical"].
Definition CAPABILITY_EFFECTS : list string :=
  ["read"; "preview"; "create"; "update"; "delete"; "execute"; "admin"].
Definition CAPABILITY_STATUSES : list string := ["active"; "disabled"; "deprecated"].
Definition CAPABILITY_SELECTOR_TYPES : list string := ["action_key"; "tool_key"; "intent_key"; "route_key"].
Definition CAPABILITY_SURFACES : list string := ["tenant"; "admin"; "device"; "system"].
Definition CAPABILITY_ALIAS_STATUSES : list string := ["active"; "disabled"; "deprecated"].

(** [set.has(v)] *)
Definition has (v : jsval) (l : list string) : bool :=
  match v with VStr s => sin s l | _ => false end.

Section Domain.
Context `{JsHost}.

(** [String(v || "").trim()], then [.toLowerCase()], and
    [v ? String(v).trim() : null] *)
Definition clean (v : jsval) : string := js_trim (str_or_empty v).
Definition lower (v : jsval) : string := js_toLowerCase (clean v).
Definition optional (v : jsval) : option string :=
  if truthy v then Some (js_trim (js_String v)) else None.

(** ** Canonical capabilities *)

Definition normalizeCapabilityKey (value : jsval) : js string :=
  let normalized := lower value in
  throw_if (negb (is_capability_key normalized))
    (CapabilityDomainError "INVALID_CAPABILITY_KEY"
       "Capability key must be a stable lowercase key containing only letters, numbers, dot, underscore, colon, or hyphen."
       []);;
  Ok normalized.

Definition capabilityClassificationComplete (input : jsval) : bool :=
  has (vget input "risk_level") CAPABILITY_RISK_LEVELS
  && has (vget input "effect") CAPABILITY_EFFECTS
  && has (vget input "status") CAPABILITY_STATUSES
  && negb (is_empty (clean (vget input "policy_version")))
  && negb (is_true (vget input "state_changing") && is_empty (clean (vget input "approval_policy_id"))).

Record Capability := {
  cc_id : string;
  cc_key : string;
  cc_display_name : string;
  cc_risk_level : string;
  cc_effect : string;
  cc_state_changing : bool;
  cc_credential_policy_id : option string;
  cc_device_policy_id : option string;
  cc_approval_policy_id : option string;
  cc_smoke_policy_id : option string;
  cc_status : string;
  cc_policy_version : string;
}.

Definition js_of_ostring (o : option string) : jsval :=
  match o with Some s => VStr s | None => VNull end.

Definition js_of_capability (c : Capability) : jsval := VObj
  [("id", VStr (cc_id c)); ("key", VStr (cc_key c)); ("display_name", VStr (cc_display_name c));
   ("risk_level", VStr (cc_risk_level c)); ("effect", VStr (cc_effect c));
   ("state_changing", VBool (cc_state_changing c));
   ("credential_policy_id", js_of_ostring (cc_credential_policy_id c));
   ("device_policy_id", js_of_ostring (cc_device_policy_id c));
   ("approval_policy_id", js_of_ostring (cc_approval_policy_id c));
   ("smoke_policy_id", js_of_ostring (cc_smoke_policy_id c)); ("status", VStr (cc_status c));
   ("policy_version", VStr (cc_policy_version c))].

Definition createCanonicalCapability (input : jsval) : js Capability :=
  input ← param input;
  key ← normalizeCapabilityKey (vget input "key");
  let capability := {|
    cc_id := clean (vget input "id"); cc_key := key;
    cc_display_name := clean (js_or (vget input "display_name") (vget input "key"));
    cc_risk_level := lower (vget input "risk_level"); cc_effect := lower (vget input "effect");
    cc_state_changing := is_true (vget input "state_changing");
    cc_credential_policy_id := optional (vget input "credential_policy_id");
    cc_device_policy_id := optional (vget input "device_policy_id");
    cc_approval_policy_id := optional (vget input "approval_policy_id");
    cc_smoke_policy_id := optional (vget input "smoke_policy_id");
    cc_status := lower (js_or (vget input "status") (VStr "active"));
    cc_policy_version := clean (vget input "policy_version") |} in
  throw_if (is_empty (cc_id capability))
    (CapabilityDomainError "MISSING_CAPABILITY_ID" "Canonical capability id is required." []);;
  throw_if (is_empty (cc_display_name capability))
    (CapabilityDomainError "MISSING_CAPABILITY_DISPLAY_NAME"
       "Canonical capability display name is required." []);;
  throw_if (negb (capabilityClassificationComplete (js_of_capability capability)))
    (CapabilityDomainError "INCOMPLETE_CAPABILITY_CLASSIFICATION"
       "Active executable capabilities must have complete risk, effect, status, policy-version, and approval classification."
       [("key", VStr key); ("state_changing", VBool (cc_state_changing capability))]);;
  Ok capability.

(** ** Aliases *)

Definition is_letter (c : ascii) : bool := is_upper c || is_lower c.
Definition line_end (c : ascii) : bool := Ascii.eqb c "010"%char || Ascii.eqb c "013"%char.

(** The longest prefix of letters and the rest. *)
Fixpoint span_letters (s : string) : string * string :=
  match s with
  | EmptyString => ("", "")
  | String c r =>
      if is_letter c then let '(a, b) := span_letters r in (String c a, b) else ("", s)
  end.

(** The match of [/^([A-Za-z]+)\s+(.+)$/] on a trimmed string: the method and
    the path. *)
Definition matchRoute (raw : string) : option (string * string) :=
  let '(method, rest) := span_letters raw in
  let path := trim_start rest in
  if negb (is_empty method) && negb (String.eqb rest path) && negb (is_empty path)
     && str_forallb (fun c => negb (line_end c)) path
  then Some (method, path) else None.

Definition normalizeSelectorValue (selectorType value : jsval) : js string :=
  let type := lower selectorType in
  throw_if (negb (sin type CAPABILITY_SELECTOR_TYPES))
    (CapabilityDomainError "INVALID_SELECTOR_TYPE" "Unsupported capability selector type."
       [("selector_type", VStr type)]);;
  let raw := clean value in
  throw_if (is_empty raw)
    (CapabilityDomainError "MISSING_SELECTOR_VALUE" "Capability selector value is required." []);;
  if String.eqb type "route_key" then
    match matchRoute raw with
    | None => Throw (CapabilityDomainError "INVALID_ROUTE_SELECTOR"
                       "Route selectors must use METHOD /path format." [])
    | Some (method, path) => Ok (js_toUpperCase method +:+ " " +:+ js_trim path)
    end
  else normalizeCapabilityKey (VStr raw).

(** [`${alias.selector_type}:${alias.selector_value}`] *)
Definition capabilityAliasIdentity (alias : jsval) : string :=
  js_String (vget alias "selector_type") +:+ ":" +:+ js_String (vget alias "selector_value").

Record Alias := {
  al_id : string;
  al_selector_type : string;
  al_selector_value : string;
  al_canonical_capability_id : string;
  al_surface : string;
  al_surface_restriction_policy_id : option string;
  al_status : string;
  al_registry_version : string;
}.

Definition js_of_alias (a : Alias) : jsval := VObj
  [("id", VStr (al_id a)); ("selector_type", VStr (al_selector_type a));
   ("selector_value", VStr (al_selector_value a));
   ("canonical_capability_id", VStr (al_canonical_capability_id a)); ("surface", VStr (al_surface a));
   ("surface_restriction_policy_id", js_of_ostring (al_surface_restriction_policy_id a));
   ("status", VStr (al_status a)); ("registry_version", VStr (al_registry_version a))].

Definition createCapabilityAlias (input : jsval) : js Alias :=
  input ← param input;
  let selectorType := lower (vget input "selector_type") in
  let surface := lower (vget input "surface") in
  let status := lower (js_or (vget input "status") (VStr "active")) in
  selector_value ← normalizeSelectorValue (VStr selectorType) (vget input "selector_value");
  let alias := {|
    al_id := clean (vget input "id"); al_selector_type := selectorType;
    al_selector_value := selector_value;
    al_canonical_capability_id := clean (vget input "canonical_capability_id");
    al_surface := surface;
    al_surface_restriction_policy_id := optional (vget input "surface_restriction_policy_id");
    al_status := status; al_registry_version := clean (vget input "registry_version") |} in
  throw_if (is_empty (al_id alias))
    (CapabilityDomainError "MISSING_ALIAS_ID" "Capability alias id is required." []);;
  throw_if (is_empty (al_canonical_capability_id alias))
    (CapabilityDomainError "MISSING_ALIAS_CAPABILITY"
       "Capability alias must map to a canonical capability." []);;
  throw_if (negb (sin surface CAPABILITY_SURFACES))
    (CapabilityDomainError "INVALID_ALIAS_SURFACE" "Unsupported capability alias surface." []);;
  throw_if (negb (sin status CAPABILITY_ALIAS_STATUSES))
    (CapabilityDomainError "INVALID_ALIAS_STATUS" "Unsupported capability alias status." []);;
  throw_if (is_empty (al_registry_version alias))
    (CapabilityDomainError "MISSING_ALIAS_REGISTRY_VERSION"
       "Capability alias registry version is required." []);;
  Ok alias.

Definition is_active (alias : jsval) : bool := is_str (vget alias "status") "active".

(** One iteration of the loop over the aliases. *)
Definition addAlias (mapping : gmap string jsval) (alias : jsval) : js (gmap string jsval) :=
  if negb (is_active alias) then Ok mapping
  else
    let identity := capabilityAliasIdentity alias in
    let id := vget alias "canonical_capability_id" in
    throw_if (match mapping !! identity with
              | Some existing => truthy existing && negb (strict_equal existing id)
              | None => false
              end)
      (CapabilityDomainError "CAPABILITY_ALIAS_CONFLICT"
         "One active alias cannot map to more than one canonical capability."
         [("selector", VStr identity);
          ("canonical_capability_ids", VArr [default VUndef (mapping !! identity); id])]);;
    Ok (<[identity := id]> mapping).

Definition assertOneActiveAliasToOneCapability (aliases : list jsval) : js (gmap string jsval) :=
  foldM_js addAlias ∅ aliases.
End Domain.

(** ** Composition of policies *)

Inductive MutationMode :=
| auto_bounded
| user_approval
| tenant_admin_approval
| platform_admin_approval
| preview_only
| denied.

#[export] Instance mutation_mode_eq_dec : EqDecision MutationMode.
Proof. solve_decision. Defined.

Definition mode_str (m : MutationMode) : string :=
  match m with
  | auto_bounded => "auto_bounded"
  | user_approval => "user_approval"
  | tenant_admin_approval => "tenant_admin_approval"
  | platform_admin_approval => "platform_admin_approval"
  | preview_only => "preview_only"
  | denied => "denied"
  end.

Definition MUTATION_MODES : list MutationMode :=
  [auto_bounded; user_approval; tenant_admin_approval; platform_admin_approval; preview_only; denied].

(** [MUTATION_RESTRICTIVENESS.get(mode)] *)
Definition restrictiveness (m : MutationMode) : nat :=
  match m with
  | auto_bounded => 0
  | user_approval => 1
  | tenant_admin_approval => 2
  | platform_admin_approval => 3
  | preview_only => 4
  | denied => 5
  end.

Definition find_mode (s : string) : option MutationMode :=
  List.find (fun m => String.eqb (mode_str m) s) MUTATION_MODES.

Record Policy := {
  po_allowed_principal_classes : list string;
  po_allowed_roles : list string;
  po_allowed_surfaces : list string;
  po_required_skills : list string;
  po_mutation_mode : MutationMode;
  po_fail_closed : bool;
  po_canonical_policy_version : string;
  po_surface_policy_version : option string;
}.

Section Compose.
Context `{JsHost}.

(** A set, in the order of insertion. *)
Definition normalizedSet (values : jsval) : list string :=
  dedup (bfilter (fun s => negb (is_empty s))
    (List.map (fun value => js_trim (js_String value))
       (match values with VArr l => l | _ => [] end))).

Fixpoint assertSubset (candidate baseline : list string) (field : string) : js unit :=
  match candidate with
  | [] => Ok tt
  | value :: rest =>
      throw_if (negb (sin value baseline))
        (CapabilityDomainError "SURFACE_POLICY_BROADENS_CANONICAL_POLICY"
           ("Surface policy cannot add " +:+ field +:+ " entries not allowed by the canonical policy.")
           [("field", VStr field); ("value", VStr value)]);;
      assertSubset rest baseline field
  end.

(** The loop over the skills of the canonical policy. *)
Fixpoint assertSkillsKept (canonicalSkills surfaceSkills : list string) : js unit :=
  match canonicalSkills with
  | [] => Ok tt
  | skill :: rest =>
      throw_if (negb (sin skill surfaceSkills))
        (CapabilityDomainError "SURFACE_POLICY_REMOVES_REQUIRED_SKILL"
           "Surface policy may add required skills but cannot remove canonical required skills."
           [("skill", VStr skill)]);;
      assertSkillsKept rest surfaceSkills
  end.

(** [surface.field ?? canonical.field] *)
Definition surface_or (canonical surface : jsval) (field : string) : jsval :=
  js_coalesce (vget surface field) (vget canonical field).

Definition canonicalMutation (canonical : jsval) : string :=
  js_String (js_or (vget canonical "mutation_mode") (VStr "denied")).
Definition surfaceMutation (canonical surface : jsval) : string :=
  js_String (js_or (vget surface "mutation_mode") (VStr (canonicalMutation canonical))).

(** Both modes, of which the surface's is not the weaker. *)
Definition composeMode (canonical surface : jsval) : js MutationMode :=
  let c := canonicalMutation canonical in
  let s := surfaceMutation canonical surface in
  match find_mode c, find_mode s with
  | Some cm, Some sm =>
      throw_if (restrictiveness sm <? restrictiveness cm)
        (CapabilityDomainError "SURFACE_POLICY_WEAKENS_MUTATION_MODE"
           "Surface policy may only preserve or increase mutation restrictions."
           [("canonical_mutation_mode", VStr c); ("surface_mutation_mode", VStr s)]);;
      Ok sm
  | _, _ => Throw (CapabilityDomainError "INVALID_MUTATION_MODE" "Unsupported mutation mode." [])
  end.

(** The policy that is returned. *)
Definition composedPolicy (canonical surface : jsval) (mode : MutationMode) : Policy :=
  let surfaceSet field := sort_strings (normalizedSet (surface_or canonical surface field)) in
  {| po_allowed_principal_classes := surfaceSet "allowed_principal_classes";
     po_allowed_roles := surfaceSet "allowed_roles";
     po_allowed_surfaces := surfaceSet "allowed_surfaces";
     po_required_skills := surfaceSet "required_skills";
     po_mutation_mode := mode;
     po_fail_closed := negb (is_false (vget canonical "fail_closed")) || is_true (vget surface "fail_closed");
     po_canonical_policy_version := str_or_empty (vget canonical "version");
     po_surface_policy_version :=
       if truthy (vget surface "version") then Some (js_String (vget surface "version")) else None |}.

(** The checks, on objects. *)
Definition composeObjects (canonical surface : jsval) : js Policy :=
  let canonicalSet field := normalizedSet (vget canonical field) in
  let surfaceSet field := normalizedSet (surface_or canonical surface field) in
  let subset field := assertSubset (surfaceSet field) (canonicalSet field) field in
  subset "allowed_principal_classes";;
  subset "allowed_roles";;
  subset "allowed_surfaces";;
  assertSkillsKept (canonicalSet "required_skills") (surfaceSet "required_skills");;
  mode ← composeMode canonical surface;
  throw_if (is_true (vget canonical "fail_closed") && is_false (vget surface "fail_closed"))
    (CapabilityDomainError "SURFACE_POLICY_DISABLES_FAIL_CLOSED"
       "Surface policy cannot disable canonical fail-closed behavior." []);;
  Ok (composedPolicy canonical surface mode).

Definition composeCapabilityPolicy (canonical surface : jsval) : js Policy :=
  canonical ← param canonical;
  surface ← param surface;
  composeObjects canonical surface.
End Compose.

(** ** What a policy permits *)

Record Use := {
  us_principal_class : string;
  us_role : string;
  us_surface : string;
  us_skills : list string;
}.

Definition permits (p : Policy) (u : Use) : Prop :=
  us_principal_class u ∈ po_allowed_principal_classes p /\ us_role u ∈ po_allowed_roles p /\
  us_surface u ∈ po_allowed_surfaces p /\ po_required_skills p ⊆ us_skills u.

(** [p] permits nothing that [q] does not, and is no weaker. *)
Record narrower (p q : Policy) : Prop := {
  nw_permits : forall u, permits p u -> permits q u;
  nw_mode : restrictiveness (po_mutation_mode q) <= restrictiveness (po_mutation_mode p);
  nw_fail_closed : po_fail_closed q = true -> po_fail_closed p = true;
}.

Section Laws.
Context `{JsHost}.

(** A loop that throws on the first element outside [k]. *)
Lemma throw_outside x l k (e : jserror) (m : js unit) : (m = Ok tt <-> l ⊆ k) ->
  (throw_if (negb (sin x k)) e;; m) = Ok tt <-> x :: l ⊆ k.
Proof.
  intros Hm. rewrite bind_Ok. split.
  - intros ([] & Hx%throw_if_Ok%negb_false_iff%sin_true & Hl%Hm). set_solver.
  - intros Hk. exists tt. rewrite throw_if_Ok, negb_false_iff, sin_true, Hm. set_solver.
Qed.

Lemma assertSubset_Ok l k f : assertSubset l k f = Ok tt <-> l ⊆ k.
Proof.
  induction l as [|x l IH]; simpl; [split; [intros _; apply list_subseteq_nil|done]|by apply throw_outside].
Qed.

Lemma assertSkillsKept_Ok l k : assertSkillsKept l k = Ok tt <-> l ⊆ k.
Proof.
  induction l as [|x l IH]; simpl; [split; [intros _; apply list_subseteq_nil|done]|by apply throw_outside].
Qed.

Lemma composeMode_Ok canonical surface mode : composeMode canonical surface = Ok mode <->
  find_mode (surfaceMutation canonical surface) = Some mode /\
  exists m, find_mode (canonicalMutation canonical) = Some m /\ restrictiveness m <= restrictiveness mode.
Proof.
  unfold composeMode. destruct (find_mode (canonicalMutation canonical)) as [m|]; [|naive_solver].
  destruct (find_mode (surfaceMutation canonical surface)) as [sm|]; [|naive_solver].
  rewrite bind_Ok. split.
  - intros ([] & Hle%throw_if_Ok%Nat.ltb_ge & [= <-]). eauto.
  - intros ([= <-] & m' & [= <-] & Hle). exists tt. by rewrite throw_if_Ok, Nat.ltb_ge.
Qed.

(** The surface only narrows what the canonical policy allows, keeps its
    skills, and is as restrictive. *)
Definition narrows (canonical surface : jsval) (mode : MutationMode) : Prop :=
  (forall f, f ∈ ["allowed_principal_classes"; "allowed_roles"; "allowed_surfaces"] ->
     normalizedSet (surface_or canonical surface f) ⊆ normalizedSet (vget canonical f)) /\
  normalizedSet (vget canonical "required_skills") ⊆ normalizedSet (surface_or canonical surface "required_skills") /\
  find_mode (surfaceMutation canonical surface) = Some mode /\
  (exists m, find_mode (canonicalMutation canonical) = Some m /\ restrictiveness m <= restrictiveness mode) /\
  ~ (vget canonical "fail_closed" = VBool true /\ vget surface "fail_closed" = VBool false).

Lemma is_false_true v : is_false v = true <-> v = VBool false.
Proof. destruct v as [| |[]| | | | |]; naive_solver. Qed.

Lemma compose_objects canonical surface : canonical <> VNull -> surface <> VNull ->
  composeCapabilityPolicy canonical surface = composeObjects canonical surface.
Proof. intros Hc Hs. destruct canonical; try done; destruct surface; done. Qed.

Lemma compose_Ok canonical surface p : canonical <> VNull -> surface <> VNull ->
  composeCapabilityPolicy canonical surface = Ok p <->
  exists mode, narrows canonical surface mode /\ p = composedPolicy canonical surface mode.
Proof.
  intros Hc Hs. rewrite compose_objects by done. unfold composeObjects, narrows. cbv zeta. split.
  - intros Hp. apply bind_Ok in Hp as ([] & H1%assertSubset_Ok & Hp).
    apply bind_Ok in Hp as ([] & H2%assertSubset_Ok & Hp).
    apply bind_Ok in Hp as ([] & H3%assertSubset_Ok & Hp).
    apply bind_Ok in Hp as ([] & H4%assertSkillsKept_Ok & Hp).
    apply bind_Ok in Hp as (mode & [Hm Hle]%composeMode_Ok & Hp).
    apply bind_Ok in Hp as (? & Hf%throw_if_Ok & [= <-]). exists mode. split; [|done].
    split; [|split; [done|split; [done|split; [done|]]]].
    + intros f Hin. rewrite !elem_of_cons in Hin. destruct Hin as [->|[->|[->|?%elem_of_nil]]]; done.
    + intros [Ht Hff]. by rewrite Ht, Hff in Hf.
  - intros (mode & (H1 & H4 & Hm & Hle & Hf) & ->).
    ok_step ltac:(apply assertSubset_Ok, H1; set_solver).
    ok_step ltac:(apply assertSubset_Ok, H1; set_solver).
    ok_step ltac:(apply assertSubset_Ok, H1; set_solver).
    ok_step ltac:(apply assertSkillsKept_Ok; exact H4).
    ok_step ltac:(apply composeMode_Ok; split; [exact Hm|exact Hle]).
    ok_step ltac:(apply throw_if_false, not_true_iff_false; rewrite andb_true_iff, is_true_true, is_false_true;
      exact Hf). done.
Qed.

Lemma narrows_nothing canonical surface mode m : narrows canonical surface mode ->
  find_mode (canonicalMutation canonical) = Some m -> narrows canonical (VObj []) m.
Proof.
  intros _ Hm. split; [by intros f _|]. split; [done|]. split; [done|]. split; [by eauto|]. by intros [_ ?].
Qed.

(** C20: a surface policy can only narrow the canonical one: the composition
    succeeds exactly when every set the surface gives is contained in the
    canonical set, the required skills are kept, the mutation mode is at least
    as restrictive and fail-closed is not switched off; and then it permits no
    use that the canonical policy alone does not, under a mode that is at
    least as restrictive. *)
Theorem composeCapabilityPolicy_narrower canonical surface : canonical <> VNull -> surface <> VNull ->
  ((exists p, composeCapabilityPolicy canonical surface = Ok p) <-> exists mode, narrows canonical surface mode) /\
  forall p, composeCapabilityPolicy canonical surface = Ok p ->
    exists q, composeCapabilityPolicy canonical (VObj []) = Ok q /\ narrower p q.
Proof.
  intros Hc Hs. split.
  { split; [intros [p (mode & Hn & _)%compose_Ok]; eauto|]. intros [mode Hn]. eexists. apply compose_Ok; eauto. }
  intros p (mode & Hn & ->)%compose_Ok; [|done|done]. pose proof Hn as (Hsub & Hskills & _ & (m & Hm & Hle) & _).
  exists (composedPolicy canonical (VObj []) m). split; [apply compose_Ok; by eauto using narrows_nothing|].
  unfold composedPolicy. split; cbn [po_mutation_mode po_fail_closed].
  - intros u. unfold permits.
    cbn [po_allowed_principal_classes po_allowed_roles po_allowed_surfaces po_required_skills].
    change (surface_or canonical (VObj []) ?f) with (vget canonical f).
    rewrite !elem_of_sort_strings. intros (H1 & H2 & H3 & H4).
    split; [|split; [|split]]; [eapply Hsub; [|done]; set_solver..|].
    intros x Hx%elem_of_sort_strings%Hskills. by apply H4, elem_of_sort_strings.
  - done.
  - cbn [vget oget is_true]. rewrite orb_false_r. by intros ->.
Qed.

(** ** Active aliases *)

(** An active alias names a capability, as [createCapabilityAlias] ensures. *)
Definition alias_wf (a : jsval) : Prop :=
  is_active a = true -> exists c, vget a "canonical_capability_id" = VStr c /\ c <> "".

(** The selector [k] names the capability [c]. *)
Definition names (aliases : list jsval) (k c : string) : Prop :=
  exists a, a ∈ aliases /\ is_active a = true /\ capabilityAliasIdentity a = k /\
    vget a "canonical_capability_id" = VStr c.

Definition represents (m : gmap string jsval) (aliases : list jsval) : Prop :=
  forall k v, m !! k = Some v <-> exists c, v = VStr c /\ names aliases k c.

Lemma names_app l1 l2 k c : names (l1 ++ l2) k c <-> names l1 k c \/ names l2 k c.
Proof. unfold names. setoid_rewrite elem_of_app. naive_solver. Qed.

Lemma names_singleton a k c : names [a] k c <->
  is_active a = true /\ capabilityAliasIdentity a = k /\ vget a "canonical_capability_id" = VStr c.
Proof. unfold names. setoid_rewrite list_elem_of_singleton. naive_solver. Qed.

Lemma names_nonempty l k c : Forall alias_wf l -> names l k c -> c <> "".
Proof.
  rewrite Forall_forall. intros Hl (a & Ha & Hact & _ & Hc). destruct (Hl a Ha Hact) as (d & Hd & Hne).
  congruence.
Qed.

Definition conflict (aliases : list jsval) : Prop :=
  exists k c c', c <> c' /\ names aliases k c /\ names aliases k c'.

Lemma addAlias_spec m before a : represents m before -> Forall alias_wf before -> alias_wf a ->
  match addAlias m a with
  | Ok m' => represents m' (before ++ [a])
  | Throw _ => conflict (before ++ [a])
  end.
Proof.
  intros Hm Hbefore Ha. unfold addAlias. destruct (is_active a) eqn:Hact; simpl.
  2: { intros k v. rewrite (Hm k v). setoid_rewrite names_app. setoid_rewrite names_singleton.
       rewrite Hact. naive_solver. }
  destruct (Ha Hact) as (c & Hc & Hne). rewrite Hc. set (i := capabilityAliasIdentity a) in *.
  assert (forall d, names [a] i d <-> d = c) as Hi.
  { intros d. rewrite names_singleton, Hc. naive_solver. }
  assert (forall k d, k <> i -> ~ names [a] k d) as Hk.
  { intros k d Hki. rewrite names_singleton. naive_solver. }
  assert (represents (<[i := VStr c]> m) (before ++ [a]) <-> forall d, names before i d -> d = c) as Hins.
  { split.
    - intros Hr d Hd. specialize (Hr i (VStr d)). rewrite lookup_insert_eq in Hr.
      destruct Hr as [_ Hr]. ospecialize (Hr _); [exists d; by rewrite names_app; auto|]. by injection Hr.
    - intros Hd k v. destruct (decide (k = i)) as [->|Hki].
      + rewrite lookup_insert_eq. setoid_rewrite names_app. setoid_rewrite Hi. naive_solver.
      + rewrite lookup_insert_ne, (Hm k v) by done. setoid_rewrite names_app. naive_solver. }
  destruct (m !! i) as [v|] eqn:Hv.
  - pose proof Hv as (d & -> & Hd)%Hm. cbn [strict_equal truthy].
    destruct (String.eqb_spec d c) as [->|Hdc].
    + rewrite andb_false_r. apply Hins. intros d' Hd'.
      assert (m !! i = Some (VStr d')) as Hv' by (apply Hm; eauto). congruence.
    + pose proof (names_nonempty _ _ _ Hbefore Hd) as Hemp%is_empty_false. rewrite Hemp. simpl.
      exists i, d, c. rewrite !names_app, !Hi. auto.
  - apply Hins. intros d Hd. assert (m !! i = Some (VStr d)) as Hv' by (apply Hm; eauto). congruence.
Qed.

Lemma addAliases_spec rest m before : represents m before -> Forall alias_wf (before ++ rest) ->
  match foldM_js addAlias m rest with
  | Ok m' => represents m' (before ++ rest)
  | Throw _ => conflict (before ++ rest)
  end.
Proof.
  revert m before. induction rest as [|a rest IH]; intros m before Hm Hall; simpl; [by rewrite app_nil_r|].
  pose proof Hall as [Hbefore [Ha Hrest]%Forall_cons]%Forall_app.
  pose proof (addAlias_spec m before a Hm Hbefore Ha) as Hstep.
  rewrite (cons_middle a before rest), app_assoc in Hall |- *.
  destruct (addAlias m a) as [m'|e]; [by apply (IH m')|].
  destruct Hstep as (k & c & c' & Hne & Hc & Hc'). exists k, c, c'. rewrite !(names_app _ rest). auto.
Qed.

(** The registry of active aliases is a function.  When each active alias
    names a capability, the check returns exactly the map from selectors to
    the capabilities they name, and otherwise throws because some selector
    names two capabilities; inactive aliases have no part in it. *)
Theorem assertOneActiveAlias_correct aliases : Forall alias_wf aliases ->
  match assertOneActiveAliasToOneCapability aliases with
  | Ok mapping => represents mapping aliases
  | Throw _ => conflict aliases
  end.
Proof.
  intros Hall. apply (addAliases_spec aliases ∅ []); [|done]. intros k v. rewrite lookup_empty.
  split; [done|]. intros (c & _ & a & Ha & _). by apply elem_of_nil in Ha.
Qed.
End Laws.

(** ** Examples *)

Definition demo_canonical : jsval := VObj
  [("allowed_principal_classes", VArr [VStr "tenant"; VStr " admin "]);
   ("allowed_roles", VArr [VStr "editor"; VStr "owner"]); ("allowed_surfaces", VArr [VStr "tenant"]);
   ("required_skills", VArr [VStr "publish"]); ("mutation_mode", VStr "user_approval")].

Definition demo_surface (mode : string) : jsval := VObj
  [("allowed_roles", VArr [VStr "owner"]); ("required_skills", VArr [VStr "publish"; VStr "review"]);
   ("mutation_mode", VStr mode)].

Definition demo_composed : js Policy :=
  composeCapabilityPolicy (H:=demo_host) demo_canonical (demo_surface "tenant_admin_approval").

Lemma composeCapabilityPolicy_narrower_witness :
  (exists p q, demo_composed = Ok p /\ composeCapabilityPolicy (H:=demo_host) demo_canonical (VObj []) = Ok q /\
     narrower p q /\ po_allowed_roles p = ["owner"] /\ po_allowed_roles q = ["editor"; "owner"]) /\
  exists e, composeCapabilityPolicy (H:=demo_host) demo_canonical (demo_surface "auto_bounded") = Throw e.
Proof.
  split; [|eexists; vm_compute; reflexivity].
  assert (exists p, demo_composed = Ok p /\ po_allowed_roles p = ["owner"]) as (p & Hp & Hroles)
    by (eexists; split; vm_compute; reflexivity).
  destruct (composeCapabilityPolicy_narrower (H:=demo_host) demo_canonical (demo_surface "tenant_admin_approval"))
    as [_ Hn]; [discriminate|discriminate|].
  destruct (Hn p Hp) as (q & Hq & Hnar). exists p, q. split; [exact Hp|]. split; [exact Hq|].
  split; [exact Hnar|]. split; [exact Hroles|].
  assert (exists q', composeCapabilityPolicy (H:=demo_host) demo_canonical (VObj []) = Ok q' /\
    po_allowed_roles q' = ["editor"; "owner"]) as (q' & Hq' & Hr) by (eexists; split; vm_compute; reflexivity).
  rewrite Hq in Hq'. apply Ok_inj in Hq' as <-. exact Hr.
Defined.

Definition demo_alias (value status capability : string) : jsval := VObj
  [("id", VStr "al"); ("selector_type", VStr "route_key"); ("selector_value", VStr value);
   ("status", VStr status); ("canonical_capability_id", VStr capability)].

Lemma assertOneActiveAlias_correct_witness :
  let ok := [demo_alias "GET /a" "active" "c1"; demo_alias "GET /a" "disabled" "c2"] in
  let clash := demo_alias "GET /a" "active" "c2" :: ok in
  (exists m, assertOneActiveAliasToOneCapability (H:=demo_host) ok = Ok m /\
     m !! "route_key:GET /a" = Some (VStr "c1")) /\
  conflict (H:=demo_host) clash.
Proof.
  cbv zeta.
  split.
  - pose proof (assertOneActiveAlias_correct (H:=demo_host)
      [demo_alias "GET /a" "active" "c1"; demo_alias "GET /a" "disabled" "c2"]) as Hc.
    assert (exists m, assertOneActiveAliasToOneCapability (H:=demo_host)
      [demo_alias "GET /a" "active" "c1"; demo_alias "GET /a" "disabled" "c2"] = Ok m) as [m Hm]
      by (eexists; vm_compute; reflexivity).
    rewrite Hm in Hc. exists m. split; [exact Hm|]. apply Hc.
    + repeat (constructor; [intros _; eexists; split; [reflexivity|discriminate]|]). constructor.
    + exists "c1". split; [reflexivity|]. eexists. split; [constructor|].
      split; [reflexivity|]. split; reflexivity.
  - pose proof (assertOneActiveAlias_correct (H:=demo_host)
      [demo_alias "GET /a" "active" "c2"; demo_alias "GET /a" "active" "c1"; demo_alias "GET /a" "disabled" "c2"])
      as Hc.
    assert (exists e, assertOneActiveAliasToOneCapability (H:=demo_host)
      [demo_alias "GET /a" "active" "c2"; demo_alias "GET /a" "active" "c1"; demo_alias "GET /a" "disabled" "c2"]
      = Throw e) as [e He] by (eexists; vm_compute; reflexivity).
    rewrite He in Hc. apply Hc.
    repeat (constructor; [intros _; eexists; split; [reflexivity|discriminate]|]). constructor.
Defined.
End CapabilityPolicy.
