(* ===== verification/SecurityDecision.v ===== *)
(** * Security decisions (src/domain/capability/securityDecision.js,
    securityEvaluators.js, and the plugin use case of src/application/capability)

    A security decision is the conjunction of named gates.  Proved: what each
    outcome says of the gates, exactly when a plugin action may be dispatched,
    and that the public trace carries no reason. *)
From S2P Require Import Prelude Sorting JsString JsDate JsValue Redaction CapabilityPolicy.

Module SecurityDecision.
Import CapabilityPolicy.

Inductive GateState := pass | deny | not_applicable | not_evaluated.

#[export] Instance gate_state_eq_dec : EqDecision GateState.
Proof. solve_decision. Defined.

Definition state_str (s : GateState) : string :=
  match s with
  | pass => "pass"
  | deny => "deny"
  | not_applicable => "not_applicable"
  | not_evaluated => "not_evaluated"
  end.

Definition GATE_STATES : list GateState := [pass; deny; not_applicable; not_evaluated].

Definition find_state (s : string) : option GateState :=
  List.find (fun g => String.eqb (state_str g) s) GATE_STATES.

Definition EXECUTION_MODES : list string := ["preview"; "dispatch"].

Record Gate := {
  gt_key : string;
  gt_required : bool;
  gt_state : GateState;
  gt_reason : string;
  gt_code : option string;
  gt_evaluated : bool;
  gt_details : option jsobj;
}.

Record Trace := {
  tr_trace_id : option string;
  tr_outcome : string;
  tr_allowed : bool;
  tr_dispatch_ready : bool;
  tr_will_execute : bool;
  tr_execution_mode : string;
  tr_approval_required : bool;
  tr_denied_gates : list string;
  tr_unevaluated_required_gates : list string;
  tr_gate_events : list jsobj;
  tr_invariant_results : jsobj;
}.

Record Metrics := {
  mt_decision_outcome : string;
  mt_allowed : bool;
  mt_dispatch_ready : bool;
  mt_will_execute : bool;
  mt_denied_gate_count : nat;
  mt_unevaluated_required_gate_count : nat;
  mt_invariant_violation_count : nat;
  mt_violated_invariants : list string;
  mt_alert_level : string;
}.

Record Decision := {
  sd_outcome : string;
  sd_allowed : bool;
  sd_dispatch_ready : bool;
  sd_will_execute : bool;
  sd_execution_mode : string;
  sd_approval_required : bool;
  sd_reason : string;
  sd_gates : list Gate;
  sd_denied_gates : list string;
  sd_unevaluated_required_gates : list string;
  sd_invariants : jsobj;
}.

(** The decision with [decision.trace] and [decision.metrics]. *)
Record TracedDecision := {
  td_decision : Decision;
  td_trace : Trace;
  td_metrics : Metrics;
}.

Section Decide.
Context `{JsHost}.

Definition createGateResult (input : jsval) : js Gate :=
  input ← param input;
  let key := clean (vget input "key") in
  let state := clean (js_or (vget input "state") (VStr "not_evaluated")) in
  throw_if (is_empty key) (CapabilityDomainError "MISSING_GATE_KEY" "Gate key is required." []);;
  match find_state state with
  | None => Throw (CapabilityDomainError "INVALID_GATE_STATE" "Unsupported gate state."
                     [("key", VStr key); ("state", VStr state)])
  | Some g =>
      Ok {| gt_key := key; gt_required := negb (is_false (vget input "required")); gt_state := g;
            gt_reason := clean (js_or (vget input "reason") (VStr state));
            gt_code := if truthy (vget input "code") then Some (clean (vget input "code")) else None;
            gt_evaluated := negb (bool_decide (g = not_evaluated));
            gt_details := if is_object (vget input "details") then Some (spread (vget input "details"))
                          else None |}
  end.

Definition js_of_gate (g : Gate) : jsval := VObj
  [("key", VStr (gt_key g)); ("required", VBool (gt_required g)); ("state", VStr (state_str (gt_state g)));
   ("reason", VStr (gt_reason g)); ("code", js_of_ostring (gt_code g)); ("evaluated", VBool (gt_evaluated g));
   ("details", match gt_details g with Some o => VObj o | None => VNull end)].

Definition gateFromBoolean (args : jsobj) : js Gate :=
  let required := oget_default args "required" (VBool true) in
  let ok := is_true (oget args "ok") in
  if truthy (oget args "notApplicable") then
    createGateResult (VObj [("key", oget args "key"); ("required", required);
      ("state", VStr "not_applicable"); ("reason", js_or (oget args "reason") (VStr "not_applicable"))])
  else
    createGateResult (VObj [("key", oget args "key"); ("required", required);
      ("state", VStr (if ok then "pass" else "deny"));
      ("reason", js_or (oget args "reason") (VStr (if ok then "passed" else "denied")));
      ("code", if ok then VNull else oget_default args "denyCode" VNull)]).

(** The event of one gate; the keys of its details are sorted. *)
Definition gateEvent (g : Gate) : jsobj :=
  [("type", VStr "gate_evaluated"); ("gate_key", VStr (gt_key g)); ("required", VBool (gt_required g));
   ("state", VStr (state_str (gt_state g))); ("evaluated", VBool (gt_evaluated g));
   ("reason", VStr (gt_reason g)); ("code", js_of_ostring (gt_code g));
   ("detail_keys", VArr (List.map VStr (sort_strings
      (match gt_details g with Some o => List.map fst o | None => [] end))))].

(** [Object.entries(o).sort()]: entries compare as the strings "key,value". *)
Definition entry_compare (a b : string * jsval) : comparison :=
  String.compare (a.1 +:+ "," +:+ js_String a.2) (b.1 +:+ "," +:+ js_String b.2).

Definition createSecurityDecisionTrace (d : Decision) (trace_id : jsval) : Trace :=
  {| tr_trace_id := if truthy trace_id then Some (clean trace_id) else None;
     tr_outcome := sd_outcome d; tr_allowed := sd_allowed d; tr_dispatch_ready := sd_dispatch_ready d;
     tr_will_execute := sd_will_execute d; tr_execution_mode := sd_execution_mode d;
     tr_approval_required := sd_approval_required d; tr_denied_gates := sd_denied_gates d;
     tr_unevaluated_required_gates := sd_unevaluated_required_gates d;
     tr_gate_events := List.map gateEvent (sd_gates d);
     tr_invariant_results := js_sort entry_compare (sd_invariants d) |}.

Definition deriveSecurityDecisionInvariantMetrics (d : Decision) : Metrics :=
  let violated := List.map fst (bfilter (fun p => negb (is_true p.2)) (sd_invariants d)) in
  let denied := length (sd_denied_gates d) in
  let unevaluated := length (sd_unevaluated_required_gates d) in
  {| mt_decision_outcome := sd_outcome d; mt_allowed := sd_allowed d;
     mt_dispatch_ready := sd_dispatch_ready d; mt_will_execute := sd_will_execute d;
     mt_denied_gate_count := denied; mt_unevaluated_required_gate_count := unevaluated;
     mt_invariant_violation_count := length violated; mt_violated_invariants := violated;
     mt_alert_level := if (0 <? length violated) || (0 <? unevaluated) then "critical"
                       else if 0 <? denied then "warning" else "none" |}.

(** The events shown to an audience. *)
Definition projectEvent (admin : bool) (e : jsobj) : jsval := VObj
  ([("type", oget e "type"); ("gate_key", oget e "gate_key"); ("required", oget e "required");
    ("state", oget e "state"); ("evaluated", oget e "evaluated")]
   ++ if admin then [("reason", oget e "reason"); ("code", oget e "code");
                     ("detail_keys", js_or (oget e "detail_keys") (VArr []))] else []).

(** [projectSecurityDecisionTrace(trace, { audience })] of a trace. *)
Definition projectSecurityDecisionTrace (t : Trace) (audience : jsval) : jsval :=
  let admin := is_str audience "admin" in
  let count {A} (l : list A) := VNum (Some (Z.of_nat (length l))) in
  VObj
    ([("schema_version", VStr "security_decision_trace.v1"); ("trace_id", js_of_ostring (tr_trace_id t));
      ("outcome", VStr (tr_outcome t)); ("allowed", VBool (tr_allowed t));
      ("dispatch_ready", VBool (tr_dispatch_ready t)); ("will_execute", VBool (tr_will_execute t));
      ("execution_mode", VStr (tr_execution_mode t)); ("approval_required", VBool (tr_approval_required t));
      ("denied_gate_count", count (tr_denied_gates t));
      ("unevaluated_required_gate_count", count (tr_unevaluated_required_gates t));
      ("gate_events", VArr (List.map (projectEvent admin) (tr_gate_events t)))]
     ++ (if admin then
           [("denied_gates", VArr (List.map VStr (tr_denied_gates t)));
            ("unevaluated_required_gates", VArr (List.map VStr (tr_unevaluated_required_gates t)));
            ("invariant_results", VObj (tr_invariant_results t))] else [])
     ++ [("secrets_included", VBool false)]).

Definition gate_denied (g : Gate) : bool := gt_required g && bool_decide (gt_state g = deny).
Definition gate_unevaluated (g : Gate) : bool := gt_required g && bool_decide (gt_state g = not_evaluated).

Definition assertAllowedDecisionHasNoUnevaluatedRequiredGate (gates : list Gate) : js unit :=
  let unevaluated := bfilter gate_unevaluated gates in
  throw_if (0 <? length unevaluated)
    (CapabilityDomainError "SECURITY_DECISION_REQUIRED_GATE_NOT_EVALUATED"
       "Allowed security decisions cannot contain unevaluated required gates."
       [("gates", VArr (List.map (fun g => VStr (gt_key g)) unevaluated))]).

(** The decision before its trace and metrics are attached. *)
Definition decisionOf (executionMode : string) (approvalRequired : bool) (gates : list Gate) : Decision :=
  let deniedGates := bfilter gate_denied gates in
  let unevaluatedRequiredGates := bfilter gate_unevaluated gates in
  let allowed := (length deniedGates =? 0) && (length unevaluatedRequiredGates =? 0) in
  let dispatchReady := allowed && negb approvalRequired && String.eqb executionMode "dispatch" in
  let denialReasons := List.map gt_reason deniedGates
    ++ List.map (fun g => gt_key g +:+ "_not_evaluated") unevaluatedRequiredGates in
  {| sd_outcome := if allowed then "allow" else "deny"; sd_allowed := allowed;
     sd_dispatch_ready := dispatchReady; sd_will_execute := dispatchReady;
     sd_execution_mode := executionMode; sd_approval_required := approvalRequired;
     sd_reason := if allowed then "resolved" else js_join "|" (dedup denialReasons);
     sd_gates := gates; sd_denied_gates := List.map gt_key deniedGates;
     sd_unevaluated_required_gates := List.map gt_key unevaluatedRequiredGates;
     sd_invariants :=
       [("fail_closed_on_unevaluated_required_gate", VBool (length unevaluatedRequiredGates =? 0));
        ("preview_mode_cannot_execute",
          VBool (negb (String.eqb executionMode "preview") || Bool.eqb dispatchReady false));
        ("dispatch_ready_requires_allowed_without_approval",
          VBool (Bool.eqb dispatchReady
            (allowed && negb approvalRequired && String.eqb executionMode "dispatch")))] |}.

Definition createSecurityDecision (input : jsval) : js TracedDecision :=
  input ← param input;
  let executionMode := clean (js_or (js_or (vget input "execution_mode") (vget input "executionMode"))
                                (VStr "preview")) in
  throw_if (negb (sin executionMode EXECUTION_MODES))
    (CapabilityDomainError "INVALID_EXECUTION_MODE" "Unsupported execution mode."
       [("execution_mode", VStr executionMode)]);;
  gates ← mapM_js createGateResult (match vget input "gates" with VArr l => l | _ => [] end);
  throw_if (length gates =? 0)
    (CapabilityDomainError "SECURITY_DECISION_REQUIRES_GATES"
       "Security decisions require at least one gate." []);;
  let approvalRequired := is_true (js_or (vget input "approval_required") (vget input "approvalRequired")) in
  let decision := decisionOf executionMode approvalRequired gates in
  (if sd_allowed decision then assertAllowedDecisionHasNoUnevaluatedRequiredGate gates else Ok tt);;
  Ok {| td_decision := decision;
        td_trace := createSecurityDecisionTrace decision
                      (js_or (js_or (vget input "trace_id") (vget input "traceId")) VNull);
        td_metrics := deriveSecurityDecisionInvariantMetrics decision |}.

(** ** The evaluators *)

(** [normalize(value)] of the evaluators is [lower]. *)

Definition evaluatePrincipalTenantAuthorization (args : jsobj) : js Gate :=
  let named := lower (oget_default args "principalClass" (VStr "admin")) in
  let principal := if is_empty named then "admin" else named in
  let tenant := String.eqb principal "tenant" in
  let ok := negb tenant || (truthy (oget args "tenantId") && truthy (oget args "userId")) in
  gateFromBoolean [("key", VStr "principal_scope"); ("ok", VBool ok);
    ("reason", VStr (if ok then (if tenant then "tenant_principal_scope_authorized" else "admin_principal_scope")
                     else "tenant_principal_scope_required"));
    ("denyCode", VStr "PRINCIPAL_SCOPE_REQUIRED")].

(** A tool of the administrators. *)
Definition adminOnly (toolSurface exposureScope : jsval) : bool :=
  js_includes (lower toolSurface) "admin"
  || sin (lower exposureScope) ["admin"; "platform_admin"; "platform"].

Definition evaluateSurfaceExposure (args : jsobj) : js Gate :=
  if negb (is_str (oget_default args "selectorType" (VStr "action_key")) "tool_key") then
    gateFromBoolean [("key", VStr "surface_exposure"); ("ok", VBool true); ("reason", VStr "action_surface")]
  else
    let only := adminOnly (oget_default args "toolSurface" (VStr "")) (oget_default args "exposureScope" (VStr "")) in
    let tenantBlocked :=
      String.eqb (lower (oget_default args "principalClass" (VStr "admin"))) "tenant" && only in
    gateFromBoolean [("key", VStr "surface_exposure"); ("ok", VBool (negb tenantBlocked));
      ("reason", VStr (if tenantBlocked then "admin_tool_forbidden"
                       else if only then "admin_surface_allowed_for_admin_preview" else "surface_exposed"));
      ("denyCode", VStr "SURFACE_EXPOSURE_DENIED")].

Definition evaluateTargetResourceOwnership (targetAuthority : jsval) : js Gate :=
  target ← param targetAuthority;
  let refused := is_false (vget target "ok") in
  gateFromBoolean [("key", VStr "target_authority"); ("ok", VBool (negb refused));
    ("reason", js_or (vget target "reason")
       (VStr (if refused then "target_authority_denied" else "target_authority_passed")));
    ("denyCode", js_or (vget target "denial_code") (VStr "TARGET_AUTHORITY_DENIED"));
    ("notApplicable", VBool (is_false (vget target "required") || is_str (vget target "state") "not_applicable"))].

Definition evaluateSkillGate (skill : jsval) : js Gate :=
  skill ← param skill;
  let refused := is_false (vget skill "granted") in
  gateFromBoolean [("key", VStr "skill"); ("ok", VBool (negb refused));
    ("reason", js_or (vget skill "reason") (VStr (if refused then "skill_not_granted" else "skill_granted")));
    ("denyCode", VStr "SKILL_NOT_GRANTED"); ("notApplicable", VBool (is_false (vget skill "required")))].

Definition evaluatePolicyCompleteness (args : jsobj) : js Gate :=
  let ready := is_true (oget_default args "ready" (VBool true)) in
  let reason := oget_default args "reason" (VStr "policy_complete") in
  let required := oget_default args "required" (VBool true) in
  gateFromBoolean [("key", VStr "policy_completeness"); ("ok", VBool ready); ("required", required);
    ("reason", if ready then reason else js_or reason (VStr "policy_incomplete"));
    ("denyCode", VStr "POLICY_INCOMPLETE"); ("notApplicable", VBool (is_false required))].

(** ** Plugin actions *)

(** [v || {}] *)
Definition or_object (v : jsval) : jsval := js_or v (VObj []).

(** The credential gate, which stays unevaluated when the decision is. *)
Definition credentialGate (input : jsval) : js jsval :=
  let credential := or_object (vget input "credential") in
  if truthy (vget input "credentialDecisionEvaluated") then
    g ← gateFromBoolean [("key", VStr "credential"); ("ok", vget credential "ok");
      ("reason", vget credential "reason"); ("denyCode", js_or (vget credential "denial_code") VNull)];
    Ok (js_of_gate g)
  else Ok (VObj [("key", VStr "credential"); ("required", VBool true); ("state", VStr "not_evaluated");
                 ("reason", vget credential "reason")]).

(** The gates of the decision before approval. *)
Definition preApprovalGates (input : jsval) : js (list jsval) :=
  let selector := or_object (vget input "selector") in
  let binding := or_object (vget input "binding") in
  let active := vget input "pluginStatusActive" in
  let policy := vget input "canonicalPolicy" in
  credential ← credentialGate input;
  g1 ← gateFromBoolean [("key", VStr "plugin_status"); ("ok", active);
    ("reason", VStr (if truthy active then "plugin_active" else "plugin_not_active"))];
  g2 ← evaluatePrincipalTenantAuthorization [("principalClass", vget input "principalClass");
    ("tenantId", vget input "tenantId"); ("userId", vget input "userId")];
  g3 ← gateFromBoolean [("key", VStr "binding_state"); ("ok", vget (vget input "bindingState") "ok");
    ("reason", vget (vget input "bindingState") "reason")];
  g4 ← evaluateSurfaceExposure [("selectorType", vget selector "type");
    ("toolSurface", js_or (vget binding "tool_surface") VNull);
    ("exposureScope", js_or (vget binding "exposure_scope") VNull);
    ("principalClass", vget input "principalClass")];
  g5 ← gateFromBoolean [("key", VStr "canonical_policy"); ("ok", vget policy "ready");
    ("reason", vget policy "reason")];
  g6 ← evaluatePolicyCompleteness [("ready", vget policy "ready"); ("reason", vget policy "reason")];
  g8 ← evaluateTargetResourceOwnership (vget input "targetAuthority");
  g9 ← evaluateSkillGate (vget input "skill");
  g10 ← gateFromBoolean [("key", VStr "smoke_certification");
    ("ok", vget (vget input "smokeCertification") "certified");
    ("reason", vget (vget input "smokeCertification") "reason")];
  Ok (List.map js_of_gate [g1; g2; g3; g4; g5; g6] ++ [credential] ++ List.map js_of_gate [g8; g9; g10]).

Definition buildPlatformPluginPreApprovalDecision (input : jsval) : js TracedDecision :=
  input ← param input;
  gates ← preApprovalGates input;
  createSecurityDecision (VObj [("execution_mode", VStr "dispatch"); ("gates", VArr gates)]).

(** [preApproval] is [input.preApprovalDecision], when it is given. *)
Definition buildPlatformPluginSecurityDecision (input : jsval) (preApproval : option TracedDecision)
    : js TracedDecision :=
  input ← param input;
  pre ← (match preApproval with
         | Some d => Ok d
         | None => buildPlatformPluginPreApprovalDecision input
         end);
  let approvalRequired := vget input "approvalRequired" in
  approval ← gateFromBoolean [("key", VStr "approval"); ("ok", VBool (negb (truthy approvalRequired)));
    ("required", vget input "baseApprovalRequired");
    ("reason", if truthy approvalRequired then vget (vget input "actionGrant") "reason"
               else VStr "action_grant_or_preview_policy_allows_dispatch")];
  createSecurityDecision (VObj [("execution_mode", VStr "dispatch"); ("approval_required", approvalRequired);
    ("gates", VArr (List.map js_of_gate (sd_gates (td_decision pre)) ++ [js_of_gate approval]))]).
(** ** What a decision says of its gates *)

(** The gate does not stand in the way. *)
Definition gate_passes (g : Gate) : bool :=
  negb (gt_required g) || bool_decide (gt_state g = pass \/ gt_state g = not_applicable).

Lemma gate_passes_spec g : gate_passes g = negb (gate_denied g) && negb (gate_unevaluated g).
Proof. unfold gate_passes, gate_denied, gate_unevaluated. by destruct (gt_required g), (gt_state g). Qed.

Lemma bfilter_empty {A} (p : A -> bool) l : (length (bfilter p l) =? 0) = forallb (fun x => negb (p x)) l.
Proof. induction l as [|x l IH]; simpl; [done|]. destruct (p x); [done|apply IH]. Qed.

Lemma decisionOf_allowed mode approval gates :
  sd_allowed (decisionOf mode approval gates) = forallb gate_passes gates.
Proof.
  simpl. rewrite !bfilter_empty. induction gates as [|g gates IH]; simpl; [done|].
  rewrite <- IH, gate_passes_spec. by destruct (gate_denied g), (gate_unevaluated g), (forallb _ gates).
Qed.

Lemma createSecurityDecision_Ok input d : createSecurityDecision input = Ok d ->
  exists mode gates, sin mode EXECUTION_MODES = true /\ gates <> [] /\
    mapM_js createGateResult (match vget input "gates" with VArr l => l | _ => [] end) = Ok gates /\
    mode = clean (js_or (js_or (vget input "execution_mode") (vget input "executionMode")) (VStr "preview")) /\
    td_decision d = decisionOf mode
      (is_true (js_or (vget input "approval_required") (vget input "approvalRequired"))) gates /\
    td_trace d = createSecurityDecisionTrace (td_decision d)
      (js_or (js_or (vget input "trace_id") (vget input "traceId")) VNull) /\
    td_metrics d = deriveSecurityDecisionInvariantMetrics (td_decision d).
Proof.
  unfold createSecurityDecision. intros Hd. apply bind_Ok in Hd as (i & Hi & Hd).
  assert (forall k, vget i k = vget input k) as Hg by (intros k; destruct input; by inversion Hi).
  rewrite !Hg in Hd. apply bind_Ok in Hd as (? & Hm%throw_if_Ok%negb_false_iff & Hd).
  apply bind_Ok in Hd as (gates & Hgates & Hd). apply bind_Ok in Hd as (? & Hne%throw_if_Ok & Hd). cbv zeta in Hd.
  apply bind_Ok in Hd as (? & _ & Hd). apply Ok_inj in Hd as <-. eexists _, gates.
  split; [exact Hm|]. split; [by intros ->|]. done.
Qed.

(** The keys that the public trace leaves out. *)
Definition hidden (k : string) : bool :=
  sin k ["reason"; "code"; "detail_keys"; "denied_gates"; "unevaluated_required_gates"; "invariant_results"].

Lemma public_trace t audience gates : is_str audience "admin" = false ->
  tr_gate_events t = List.map gateEvent gates ->
  mentions hidden (projectSecurityDecisionTrace t audience) = false.
Proof.
  intros Ha Hev. unfold projectSecurityDecisionTrace. rewrite Ha, Hev. simpl.
  assert (existsb (mentions hidden) (map (projectEvent false) (map gateEvent gates)) = false) as ->.
  { rewrite List.map_map. apply existsb_false. by intros v (g & <- & _)%list_elem_of_In%in_map_iff. }
  by destruct (tr_trace_id t).
Qed.

Lemma forallb_passes gates : forallb gate_passes gates = true <->
  forall g, g ∈ gates -> gt_required g = true -> gt_state g = pass \/ gt_state g = not_applicable.
Proof.
  rewrite forallb_elem_of. split; intros Hall g Hg.
  - intros Hr. specialize (Hall g Hg). unfold gate_passes in Hall. rewrite Hr in Hall.
    by apply bool_decide_eq_true in Hall.
  - unfold gate_passes. destruct (gt_required g) eqn:Hr; [|done]. simpl. apply bool_decide_eq_true. auto.
Qed.

Lemma decision_alert mode approval gates :
  let d := decisionOf mode approval gates in
  mt_alert_level (deriveSecurityDecisionInvariantMetrics d) =
    (if existsb gate_unevaluated gates then "critical" else if sd_allowed d then "none" else "warning").
Proof.
  assert (forall allowed, negb (String.eqb mode "preview") ||
    Bool.eqb (allowed && negb approval && String.eqb mode "dispatch") false = true) as Hpreview.
  { intros allowed. destruct (String.eqb_spec mode "preview") as [->|]; [|done]. by rewrite andb_false_r. }
  assert (existsb gate_unevaluated gates = negb (length (bfilter gate_unevaluated gates) =? 0)) as ->.
  { rewrite bfilter_empty. clear. induction gates as [|g gates IH]; simpl; [done|]. rewrite IH.
    by destruct (gate_unevaluated g). }
  cbv zeta. unfold deriveSecurityDecisionInvariantMetrics, decisionOf.
  cbn [sd_invariants sd_denied_gates sd_unevaluated_required_gates sd_allowed mt_alert_level].
  rewrite Hpreview, Bool.eqb_reflx, !length_map. unfold bfilter at 1. cbn [List.filter snd is_true negb].
  destruct (length (bfilter gate_unevaluated gates)); [|done].
  by destruct (length (bfilter gate_denied gates)).
Qed.

(** A decision allows exactly when no required gate is denied or left
    unevaluated; it is ready to dispatch, and will execute, exactly when it
    allows, needs no approval and is not a preview; the alert is critical
    exactly when a required gate was not evaluated; and the trace shown to
    anyone but an administrator has no reason, code or gate list in it. *)
Theorem createSecurityDecision_correct input d audience : createSecurityDecision input = Ok d ->
  is_str audience "admin" = false ->
  let c := td_decision d in
  sd_gates c <> [] /\
  (sd_allowed c = true <-> forall g, g ∈ sd_gates c -> gt_required g = true ->
     gt_state g = pass \/ gt_state g = not_applicable) /\
  (sd_dispatch_ready c = true <->
     sd_allowed c = true /\ sd_approval_required c = false /\ sd_execution_mode c = "dispatch") /\
  sd_will_execute c = sd_dispatch_ready c /\
  mt_alert_level (td_metrics d) =
    (if existsb gate_unevaluated (sd_gates c) then "critical" else if sd_allowed c then "none" else "warning") /\
  mentions hidden (projectSecurityDecisionTrace (td_trace d) audience) = false.
Proof.
  intros (mode & gates & _ & Hne & _ & _ & Hd & Ht & Hm)%createSecurityDecision_Ok Ha. cbv zeta.
  rewrite Hm, Ht, Hd, decision_alert. split; [done|].
  split; [rewrite decisionOf_allowed; apply forallb_passes|]. split.
  - cbn [sd_dispatch_ready sd_allowed sd_approval_required sd_execution_mode decisionOf].
    rewrite !andb_true_iff, negb_true_iff, String.eqb_eq. tauto.
  - split; [done|]. split; [done|]. by eapply public_trace.
Qed.
(** ** Plugin actions *)

Lemma gateResult_Ok input g : createGateResult input = Ok g ->
  gt_required g = negb (is_false (vget input "required")) /\
  find_state (clean (js_or (vget input "state") (VStr "not_evaluated"))) = Some (gt_state g).
Proof.
  unfold createGateResult. intros Hg. apply bind_Ok in Hg as (i & Hi & Hg).
  assert (forall k, vget i k = vget input k) as Hk by (intros k; destruct input; by inversion Hi).
  rewrite !Hk in Hg. apply bind_Ok in Hg as (? & _ & Hg). cbv zeta in Hg.
  destruct (find_state _) as [st|] eqn:Hst; [|done]. by apply Ok_inj in Hg as <-.
Qed.

Lemma state_found st : find_state (clean (js_or (VStr (state_str st)) (VStr "not_evaluated"))) = Some st.
Proof. by destruct st. Qed.

(** Reading a gate again keeps what it says. *)
Lemma gate_again g g' : createGateResult (js_of_gate g) = Ok g' -> gate_passes g' = gate_passes g.
Proof.
  intros [Hr Hst]%gateResult_Ok. cbn [vget js_of_gate oget String.eqb Ascii.eqb Bool.eqb] in *.
  rewrite state_found in Hst. injection Hst as Hst. unfold gate_passes. rewrite Hr, <- Hst. simpl.
  by destruct (gt_required g).
Qed.

Lemma gates_again gs gs' : mapM_js createGateResult (List.map js_of_gate gs) = Ok gs' ->
  forallb gate_passes gs' = forallb gate_passes gs.
Proof.
  rewrite mapM_js_Ok. intros Hall. revert gs' Hall.
  induction gs as [|g gs IH]; intros gs' Hall; simpl in Hall; [by inversion Hall|].
  inversion Hall as [|? g' ? gs'' Hg Hrest]; subst. simpl. by rewrite (gate_again _ _ Hg), (IH gs'').
Qed.

Lemma fromBoolean_passes args g : gateFromBoolean args = Ok g ->
  gate_passes g = is_false (oget args "required") || truthy (oget args "notApplicable") || is_true (oget args "ok").
Proof.
  unfold gateFromBoolean. cbv zeta. intros Hg.
  assert (is_false (oget_default args "required" (VBool true)) = is_false (oget args "required")) as Hr
    by (unfold oget_default; by destruct (oget args "required")).
  destruct (truthy (oget args "notApplicable")); apply gateResult_Ok in Hg as [Hreq Hst];
    cbn [vget oget String.eqb Ascii.eqb Bool.eqb] in *; rewrite Hr in Hreq; unfold gate_passes; rewrite Hreq.
  - change (find_state _) with (Some not_applicable) in Hst. injection Hst as <-.
    by destruct (is_false (oget args "required")).
  - destruct (is_true (oget args "ok")); [change (find_state _) with (Some pass) in Hst
      |change (find_state _) with (Some deny) in Hst]; injection Hst as <-;
      by destruct (is_false (oget args "required")).
Qed.

(** The caller is a tenant. *)
Definition is_tenant (input : jsval) : bool := String.eqb (lower (vget input "principalClass")) "tenant".

Definition credential_ok (input : jsval) : bool :=
  truthy (vget input "credentialDecisionEvaluated") && is_true (vget (vget input "credential") "ok").

(** The tool is open to the caller. *)
Definition surface_open (input : jsval) : bool :=
  let binding := vget input "binding" in
  negb (is_str (vget (vget input "selector") "type") "tool_key" && is_tenant input
        && adminOnly (vget binding "tool_surface") (vget binding "exposure_scope")).

(** All that stands before the approval. *)
Definition cleared_before_approval (input : jsval) : bool :=
  is_true (vget input "pluginStatusActive")
  && (negb (is_tenant input) || (truthy (vget input "tenantId") && truthy (vget input "userId")))
  && is_true (vget (vget input "bindingState") "ok")
  && surface_open input
  && is_true (vget (vget input "canonicalPolicy") "ready")
  && credential_ok input
  && (is_false (vget (vget input "targetAuthority") "required")
      || is_str (vget (vget input "targetAuthority") "state") "not_applicable"
      || negb (is_false (vget (vget input "targetAuthority") "ok")))
  && (is_false (vget (vget input "skill") "required") || negb (is_false (vget (vget input "skill") "granted")))
  && is_true (vget (vget input "smokeCertification") "certified").

Lemma vget_or_object v k : vget (or_object v) k = vget v k.
Proof. unfold or_object, js_or. destruct v as [| |b|n|s| | |]; simpl; try done; by destruct (_ : bool). Qed.

Lemma clean_js_or_null v : clean (js_or v VNull) = clean v.
Proof. unfold clean, str_or_empty, js_or. destruct (truthy v) eqn:Hv; [by rewrite Hv|done]. Qed.
Ltac passes H := rewrite (fromBoolean_passes _ _ H); cbn [oget String.eqb Ascii.eqb Bool.eqb is_false is_true orb truthy].

Lemma principal_passes input g :
  evaluatePrincipalTenantAuthorization [("principalClass", vget input "principalClass");
    ("tenantId", vget input "tenantId"); ("userId", vget input "userId")] = Ok g ->
  gate_passes g = negb (is_tenant input) || (truthy (vget input "tenantId") && truthy (vget input "userId")).
Proof.
  unfold evaluatePrincipalTenantAuthorization. cbv zeta. intros Hg. passes Hg.
  assert (forall s, String.eqb (if is_empty s then "admin" else s) "tenant" = String.eqb s "tenant") as Hnamed
    by (by intros []).
  rewrite Hnamed.
  assert (String.eqb (lower (oget_default [("x", vget input "principalClass")] "x" (VStr "admin"))) "tenant"
    = is_tenant input) as Ht by (unfold is_tenant, oget_default; simpl; by destruct (vget input "principalClass")).
  unfold oget_default in *. cbn [oget String.eqb Ascii.eqb Bool.eqb] in *. rewrite Ht.
  by destruct (is_tenant input), (truthy _), (truthy _).
Qed.

Lemma surface_passes input g :
  evaluateSurfaceExposure [("selectorType", vget (or_object (vget input "selector")) "type");
    ("toolSurface", js_or (vget (or_object (vget input "binding")) "tool_surface") VNull);
    ("exposureScope", js_or (vget (or_object (vget input "binding")) "exposure_scope") VNull);
    ("principalClass", vget input "principalClass")] = Ok g ->
  gate_passes g = surface_open input.
Proof.
  rewrite !vget_or_object. unfold evaluateSurfaceExposure, surface_open. cbv zeta.
  assert (is_str (oget_default [("selectorType", vget (vget input "selector") "type")] "selectorType" (VStr "action_key"))
    "tool_key" = is_str (vget (vget input "selector") "type") "tool_key") as Hsel
    by (unfold oget_default; simpl; by destruct (vget (vget input "selector") "type")).
  assert (forall v, oget_default [("x", js_or v VNull)] "x" (VStr "") = js_or v VNull) as Hor.
  { intros v. unfold oget_default, js_or. simpl. destruct (truthy v) eqn:Hv; [|done]. by destruct v. }
  unfold oget_default in *. cbn [oget String.eqb Ascii.eqb Bool.eqb] in *. rewrite Hsel, !Hor. clear Hsel Hor.
  destruct (is_str (vget (vget input "selector") "type") "tool_key"); cbn [negb andb]; intros Hg; passes Hg; [|done].
  assert (forall v, lower (js_or v VNull) = lower v) as Hlow by (intros v; unfold lower; by rewrite clean_js_or_null).
  unfold adminOnly, is_tenant. rewrite !Hlow. f_equal. f_equal. f_equal. f_equal.
  assert (forall b : bool, (if b then true else false) = b) as Hb by (by intros []). rewrite Hb.
  by destruct (vget input "principalClass").
Qed.

Lemma target_passes v g : evaluateTargetResourceOwnership v = Ok g ->
  gate_passes g = is_false (vget v "required") || is_str (vget v "state") "not_applicable" || negb (is_false (vget v "ok")).
Proof.
  unfold evaluateTargetResourceOwnership. intros Hg. apply bind_Ok in Hg as (i & Hi & Hg).
  assert (forall k, vget i k = vget v k) as Hk by (intros k; destruct v; by inversion Hi).
  rewrite !Hk in Hg. cbv zeta in Hg. passes Hg.
  by destruct (is_false (vget v "required")), (is_str _ _), (is_false (vget v "ok")).
Qed.

Lemma skill_passes v g : evaluateSkillGate v = Ok g ->
  gate_passes g = is_false (vget v "required") || negb (is_false (vget v "granted")).
Proof.
  unfold evaluateSkillGate. intros Hg. apply bind_Ok in Hg as (i & Hi & Hg).
  assert (forall k, vget i k = vget v k) as Hk by (intros k; destruct v; by inversion Hi).
  rewrite !Hk in Hg. cbv zeta in Hg. passes Hg.
  by destruct (is_false (vget v "required")), (is_false (vget v "granted")).
Qed.

Lemma completeness_passes policy g :
  evaluatePolicyCompleteness [("ready", vget policy "ready"); ("reason", vget policy "reason")] = Ok g ->
  is_true (vget policy "ready") = true -> gate_passes g = true.
Proof.
  unfold evaluatePolicyCompleteness. cbv zeta. intros Hg Hr. passes Hg. apply is_true_true in Hr.
  unfold oget_default. simpl. by rewrite Hr.
Qed.

(** A plugin action may be dispatched: all is cleared, and an approval that is
    asked for is not pending, unless the policy does not require one. *)
Definition plugin_ready (input : jsval) : bool :=
  let approval := vget input "approvalRequired" in
  cleared_before_approval input
  && (negb (truthy approval) || (is_false (vget input "baseApprovalRequired") && negb (is_true approval))).

Lemma credential_passes input v g : credentialGate input = Ok v -> createGateResult v = Ok g ->
  gate_passes g = credential_ok input.
Proof.
  unfold credentialGate, credential_ok. cbv zeta. rewrite !vget_or_object. intros Hv Hg.
  destruct (truthy (vget input "credentialDecisionEvaluated")).
  - apply bind_Ok in Hv as (g0 & Hg0 & Hv). apply Ok_inj in Hv as <-. rewrite (gate_again _ _ Hg). passes Hg0.
    done.
  - apply Ok_inj in Hv as <-. apply gateResult_Ok in Hg as [Hr Hst]. cbn [vget oget String.eqb Ascii.eqb Bool.eqb] in *.
    change (find_state _) with (Some not_evaluated) in Hst. injection Hst as Hst. unfold gate_passes.
    by rewrite Hr, <- Hst.
Qed.

(** The gates of the decision before approval pass exactly when all is cleared. *)
Lemma preApproval_passes input l gs : preApprovalGates input = Ok l -> mapM_js createGateResult l = Ok gs ->
  forallb gate_passes gs = cleared_before_approval input.
Proof.
  unfold preApprovalGates. cbv zeta. intros Hl Hgs. apply bind_Ok in Hl as (cr & Hcr & Hl).
  apply bind_Ok in Hl as (g1 & H1 & Hl). apply bind_Ok in Hl as (g2 & H2%principal_passes & Hl).
  apply bind_Ok in Hl as (g3 & H3 & Hl). apply bind_Ok in Hl as (g4 & H4%surface_passes & Hl).
  apply bind_Ok in Hl as (g5 & H5 & Hl). apply bind_Ok in Hl as (g6 & H6 & Hl).
  apply bind_Ok in Hl as (g8 & H8%target_passes & Hl). apply bind_Ok in Hl as (g9 & H9%skill_passes & Hl).
  apply bind_Ok in Hl as (g10 & H10 & Hl). apply Ok_inj in Hl as <-.
  apply mapM_js_Ok in Hgs. apply Forall2_app_inv_l in Hgs as (k1 & k2 & Hk1%mapM_js_Ok%gates_again & Hk2 & ->).
  apply Forall2_app_inv_l in Hk2 as (k3 & k4 & Hk3 & Hk4%mapM_js_Ok%gates_again & ->).
  inversion Hk3 as [|? gc ? ? Hgc Hnil]; subst. inversion Hnil; subst. clear Hk3 Hnil.
  rewrite !forallb_app, Hk1, Hk4. cbn [forallb]. rewrite (credential_passes _ _ _ Hcr Hgc), H2, H4, H8, H9.
  pose proof (completeness_passes _ _ H6) as H6'. rewrite (fromBoolean_passes _ _ H1), (fromBoolean_passes _ _ H3),
    (fromBoolean_passes _ _ H5), (fromBoolean_passes _ _ H10). cbn [oget String.eqb Ascii.eqb Bool.eqb is_false orb truthy].
  unfold cleared_before_approval. rewrite !andb_true_r.
  destruct (is_true (vget (vget input "canonicalPolicy") "ready")); [rewrite H6' by done|];
    rewrite ?andb_true_r, ?andb_false_r, ?andb_false_l, <- ?andb_assoc; done.
Qed.

End Decide.

(** ** Examples *)

Definition demo_decision : jsval := VObj
  [("execution_mode", VStr "dispatch"); ("gates", VArr
     [VObj [("key", VStr "a"); ("state", VStr "pass")];
      VObj [("key", VStr "b"); ("required", VBool false); ("state", VStr "deny"); ("reason", VStr "secret")];
      VObj [("key", VStr "c"); ("details", VObj [("k", VNum (Some 1%Z))])]])].

Definition no_decision : TracedDecision :=
  {| td_decision := decisionOf "" true []; td_trace := Build_Trace None "" true true true "" true [] [] [] [];
     td_metrics := Build_Metrics "" true true true 0 0 0 [] "" |}.

(** The third gate was not evaluated. *)
Lemma createSecurityDecision_correct_witness :
  let d := catch (createSecurityDecision (H:=demo_host) demo_decision) no_decision in
  sd_outcome (td_decision d) = "deny" /\ sd_reason (td_decision d) = "c_not_evaluated" /\
  mt_alert_level (td_metrics d) = "critical" /\
  mentions hidden (projectSecurityDecisionTrace (td_trace d) (VStr "public")) = false.
Proof.
  cbv zeta. split; [vm_compute; reflexivity|]. split; [vm_compute; reflexivity|].
  destruct (createSecurityDecision_correct (H:=demo_host) demo_decision
    (catch (createSecurityDecision (H:=demo_host) demo_decision) no_decision) (VStr "public"))
    as (_ & _ & _ & _ & Halert & Hpublic); [vm_compute; reflexivity|reflexivity|].
  split; [rewrite Halert; vm_compute; reflexivity|exact Hpublic].
Defined.

Definition demo_plugin (scope : string) : jsval := VObj
  [("pluginStatusActive", VBool true); ("principalClass", VStr "Tenant"); ("tenantId", VStr "t1");
   ("userId", VStr "u1"); ("bindingState", VObj [("ok", VBool true)]);
   ("selector", VObj [("type", VStr "tool_key")]); ("binding", VObj [("exposure_scope", VStr scope)]);
   ("canonicalPolicy", VObj [("ready", VBool true)]); ("credentialDecisionEvaluated", VBool true);
   ("credential", VObj [("ok", VBool true)]); ("smokeCertification", VObj [("certified", VBool true)])].

End SecurityDecision.
