(* ===== verification/GrowthControl.v ===== *)
(** * Growth control plane: keys, scopes, lifecycle and approvals
    (src/domain/growthControlPlane/growthControlPlane.js)

    The configuration scopes from the platform down to one execution, the
    lifecycle of a configuration version, and the approval that is bound to one
    operation on one version.  Proved: when a scope key identifies its scope,
    and what an approval hold that is accepted is bound to. *)
From S2P Require Import Prelude Sorting JsString JsDate JsValue JsJson.

Module GrowthControl.

(** [new GrowthControlPlaneError(code, message, status, details)] *)
Definition GrowthControlPlaneError (code message : string) (status : Z) (details : list jsobj) : jserror :=
  CodedErr code status message [("details", VArr (List.map VObj details))].

Definition issue (field name : string) : jsobj := [("field", VStr field); ("issue", VStr name)].

(** The parameter [input = {}] of a function that reads its properties next. *)
Definition object_param (v : jsval) : js jsval :=
  match v with
  | VUndef => Ok (VObj [])
  | VNull => type_error "Cannot read properties of null"
  | _ => Ok v
  end.

(** [v.a ?? v.b] *)
Definition either (v : jsval) (a b : string) : jsval := js_coalesce (vget v a) (vget v b).

(** ** Scope types *)

Inductive ScopeType :=
| platform
| activity
| tenant
| workspace
| brand
| profile
| workflow
| workflow_node
| plan
| execution.

#[export] Instance scope_type_eq_dec : EqDecision ScopeType.
Proof. solve_decision. Defined.

Definition GROWTH_CONTROL_SCOPE_TYPES : list ScopeType :=
  [platform; activity; tenant; workspace; brand; profile; workflow; workflow_node; plan; execution].

Definition scope_str (t : ScopeType) : string :=
  match t with
  | platform => "platform"
  | activity => "activity"
  | tenant => "tenant"
  | workspace => "workspace"
  | brand => "brand"
  | profile => "profile"
  | workflow => "workflow"
  | workflow_node => "workflow_node"
  | plan => "plan"
  | execution => "execution"
  end.

Definition find_scope (s : option string) : option ScopeType :=
  s ≫= fun s => List.find (fun t => String.eqb (scope_str t) s) GROWTH_CONTROL_SCOPE_TYPES.

(** [SCOPE_RANK[scopeType]], ten times its position *)
Definition SCOPE_RANK (t : ScopeType) : Z :=
  match t with
  | platform => 0 | activity => 10 | tenant => 20 | workspace => 30 | brand => 40
  | profile => 50 | workflow => 60 | workflow_node => 70 | plan => 80 | execution => 90
  end.

Record Scope := {
  sc_scopeType : ScopeType;
  sc_tenantId : option string;
  sc_workspaceId : option string;
  sc_brandKey : option string;
  sc_activityTypeKey : option string;
  sc_activityBindingId : option string;
  sc_profileKey : option string;
  sc_workflowKey : option string;
  sc_workflowVersion : jsval;
  sc_workflowNodeId : option string;
  sc_planId : option string;
  sc_executionId : option string;
  sc_scopeKey : string;
  sc_rank : Z;
}.

(** ** Serialization *)

(** An own key that is an array index, with its number: an object lists these
    first, in ascending order. *)
Definition index_of (key : string) : option Z :=
  match DecimalString.NilEmpty.uint_of_string key with
  | Some u =>
      let n := Z.of_N (N.of_uint u) in
      if String.eqb (string_of_Z n) key && Z.ltb n (2 ^ 32 - 1) then Some n else None
  | None => None
  end.

Definition index_compare {A} (p q : string * A) : comparison :=
  match index_of p.1, index_of q.1 with
  | Some m, Some n => Z.compare m n
  | _, _ => Eq
  end.

(** The properties of an object in the order in which it lists them. *)
Definition own_order {A} (o : list (string * A)) : list (string * A) :=
  js_sort index_compare (bfilter (fun p => bool_decide (is_Some (index_of p.1))) o)
  ++ bfilter (fun p => negb (bool_decide (is_Some (index_of p.1)))) o.

(** [JSON.stringify(canonicalize(v))]; [undefined], which has no text, is the
    empty text here.  A date has no own property. *)
Fixpoint stableSerialize (v : jsval) : string :=
  match v with
  | VUndef => ""
  | VNull | VNum None => "null"
  | VBool b => if b then "true" else "false"
  | VNum (Some z) => string_of_Z z
  | VStr s => json_quote s
  | VDate _ => "{}"
  | VArr l =>
      "[" +:+ js_join "," (List.map (fun x => match x with VUndef => "null" | _ => stableSerialize x end) l)
          +:+ "]"
  | VObj o =>
      "{" +:+ js_join "," (List.map print_entry (own_order (sort_entries
                 (List.flat_map (fun p => match p.2 with
                                          | VUndef => []
                                          | _ => [(p.1, stableSerialize p.2)]
                                          end) o)))) +:+ "}"
  end.

Section Growth.
Context `{JsHost}.

Definition stableSha256 (v : jsval) : string := sha256_hex (stableSerialize v).

(** [String(value ?? "").trim() || null] *)
Definition clean (value : jsval) : option string :=
  let normalized := js_trim (str_coalesce value) in
  if is_empty normalized then None else Some normalized.

Definition canonical_rest (c : ascii) : bool := is_lower c || is_digit c || char_in "_.-" c.

(** [CANONICAL_KEY] *)
Definition is_canonical_key (s : string) : bool :=
  match s with
  | EmptyString => false
  | String c r =>
      is_lower c && str_forallb canonical_rest r && (2 <=? String.length r) && (String.length r <=? 127)
  end.

Definition requireCanonicalKey (value : jsval) (field : string) : js string :=
  match clean value with
  | Some normalized =>
      if is_canonical_key normalized then Ok normalized
      else Throw (GrowthControlPlaneError "GROWTH_CONTROL_CANONICAL_KEY_INVALID"
             (field +:+ " must be a canonical lowercase key.") 422 [issue field "invalid_canonical_key"])
  | None => Throw (GrowthControlPlaneError "GROWTH_CONTROL_CANONICAL_KEY_INVALID"
             (field +:+ " must be a canonical lowercase key.") 422 [issue field "invalid_canonical_key"])
  end.

(** ** Secret fields *)

Definition secret_words : regex :=
  re_alts (List.map re_lit_i
    ["secret"; "password"; "token"; "private_key"; "client_secret"; "refresh_token"; "access_token";
     "api_key"; "credential_payload"]).

(** [SECRET_KEY.test(key)]: [(^|_)word(_|$)] occurs in the key exactly when
    [_word_] occurs in the key between two underscores. *)
Definition secret_key (key : string) : bool :=
  re_search (RSeq (re_lit "_") (RSeq secret_words (re_lit "_"))) ("_" +:+ key +:+ "_").

(** [`${path}[${index}]`] *)
Definition at_index (path : string) (index : nat) : string :=
  path +:+ "[" +:+ string_of_Z (Z.of_nat index) +:+ "]".

(** The violations that [visit] pushes; a value has no cycle and shares nothing. *)
Fixpoint secretViolations (current : jsval) (path : string) : list jsobj :=
  match current with
  | VArr l =>
      (fix visit_items (index : nat) (l : list jsval) : list jsobj :=
         match l with
         | [] => []
         | item :: rest => secretViolations item (at_index path index) ++ visit_items (S index) rest
         end) 0 l
  | VObj o =>
      List.flat_map (fun p =>
        (if secret_key p.1 then [issue (path +:+ "." +:+ p.1) "secret_field_forbidden"] else [])
        ++ secretViolations p.2 (path +:+ "." +:+ p.1)) o
  | _ => []
  end.

Definition assertNoSecretFields (value : jsval) : js unit :=
  let violations := secretViolations value "$" in
  throw_if (0 <? length violations)
    (GrowthControlPlaneError "GROWTH_CONTROL_SECRET_FIELD_FORBIDDEN"
       "Control-plane documents cannot contain credential or secret fields." 422 violations).
(** ** Scopes *)

Definition requireScopeField (value : option string) (field : string) (scopeType : ScopeType) : js string :=
  match value with
  | Some normalized => Ok normalized
  | None =>
      Throw (GrowthControlPlaneError "GROWTH_CONTROL_SCOPE_FIELD_REQUIRED"
        (field +:+ " is required for " +:+ scope_str scopeType +:+ " scope.") 422 [issue field "required"])
  end.

(** [if (types.includes(scopeType)) requireScopeField(value, field, scopeType)] *)
Definition requireFor (types : list ScopeType) (t : ScopeType) (value : option string) (field : string)
    : js unit :=
  if bool_decide (t ∈ types) then requireScopeField value field t;; Ok tt else Ok tt.

(** [parts.join(":")]; [null] joins as the empty text. *)
Definition join_parts (parts : list (option string)) : string :=
  js_join ":" (List.map (default "") parts).

(** The parts of the key of a scope. *)
Definition scopeKeyParts (t : ScopeType) (tenantId workspaceId brandKey activityTypeKey profileKey
    workflowKey : option string) (workflowVersion : jsval) (workflowNodeId planId executionId : option string)
    : list (option string) :=
  let in_workspace := [Some "tenant"; tenantId; Some "workspace"; workspaceId] in
  let in_brand := in_workspace ++ [Some "brand"; brandKey] in
  let in_workflow := in_brand ++ [Some "workflow"; workflowKey;
                                  Some (js_String (js_or workflowVersion (VStr "active")))] in
  match t with
  | platform => [Some "platform"]
  | activity => [Some "activity"; activityTypeKey]
  | tenant => [Some "tenant"; tenantId]
  | workspace => in_workspace
  | brand => in_brand
  | profile => in_brand ++ [Some "profile"; profileKey]
  | workflow => in_workflow
  | workflow_node => in_workflow ++ [Some "node"; workflowNodeId]
  | plan => in_brand ++ [Some "plan"; planId]
  | execution => in_brand ++ [Some "execution"; executionId]
  end.

Definition normalizeGrowthControlScope (input : jsval) : js Scope :=
  input ← object_param input;
  match find_scope (clean (either input "scopeType" "scope_type")) with
  | None => Throw (GrowthControlPlaneError "GROWTH_CONTROL_SCOPE_INVALID"
                     "Unsupported configuration scope." 422 [])
  | Some scopeType =>
      let tenantId := clean (either input "tenantId" "tenant_id") in
      let workspaceId := clean (either input "workspaceId" "workspace_id") in
      let brandKey := clean (either input "brandKey" "brand_key") in
      let activityTypeKey := clean (either input "activityTypeKey" "activity_type_key") in
      let activityBindingId := clean (either input "activityBindingId" "activity_binding_id") in
      let profileKey := clean (either input "profileKey" "profile_key") in
      let workflowKey := clean (either input "workflowKey" "workflow_key") in
      let workflowVersion := js_coalesce (either input "workflowVersion" "workflow_version") VNull in
      let workflowNodeId := clean (either input "workflowNodeId" "workflow_node_id") in
      let planId := clean (either input "planId" "plan_id") in
      let executionId := clean (either input "executionId" "execution_id") in
      let in_brand := [brand; profile; workflow; workflow_node; plan; execution] in
      requireFor [activity] scopeType activityTypeKey "activityTypeKey";;
      requireFor (tenant :: workspace :: in_brand) scopeType tenantId "tenantId";;
      requireFor (workspace :: in_brand) scopeType workspaceId "workspaceId";;
      requireFor in_brand scopeType brandKey "brandKey";;
      requireFor [profile] scopeType profileKey "profileKey";;
      requireFor [workflow; workflow_node] scopeType workflowKey "workflowKey";;
      requireFor [workflow_node] scopeType workflowNodeId "workflowNodeId";;
      requireFor [plan] scopeType planId "planId";;
      requireFor [execution] scopeType executionId "executionId";;
      Ok {| sc_scopeType := scopeType; sc_tenantId := tenantId; sc_workspaceId := workspaceId;
            sc_brandKey := brandKey; sc_activityTypeKey := activityTypeKey;
            sc_activityBindingId := activityBindingId; sc_profileKey := profileKey;
            sc_workflowKey := workflowKey; sc_workflowVersion := workflowVersion;
            sc_workflowNodeId := workflowNodeId; sc_planId := planId; sc_executionId := executionId;
            sc_scopeKey := join_parts (scopeKeyParts scopeType tenantId workspaceId brandKey activityTypeKey
              profileKey workflowKey workflowVersion workflowNodeId planId executionId);
            sc_rank := SCOPE_RANK scopeType |}
  end.

(** [{ scopeType: t, ...context }]: an own [scopeType] of the context wins. *)
Definition with_context (t : ScopeType) (context : jsval) : jsval :=
  VObj (if sin "scopeType" (List.map fst (spread context)) then spread context
        else ("scopeType", VStr (scope_str t)) :: spread context).

(** [if (c) scopes.push(normalizeGrowthControlScope(input))] *)
Definition scope_if (c : bool) (input : jsval) : js (list Scope) :=
  if c then s ← normalizeGrowthControlScope input; Ok [s] else Ok [].

Definition buildGrowthControlScopeHierarchy (context : jsval) : js (list Scope) :=
  context ← object_param context;
  let given k := truthy (vget context k) in
  let named t keys := VObj (("scopeType", VStr (scope_str t)) :: List.map (fun k => (k, vget context k)) keys) in
  p ← scope_if true (named platform []);
  a ← scope_if (given "activityTypeKey") (named activity ["activityTypeKey"]);
  t ← scope_if (given "tenantId") (named tenant ["tenantId"]);
  w ← scope_if (given "tenantId" && given "workspaceId") (named workspace ["tenantId"; "workspaceId"]);
  b ← scope_if (given "tenantId" && given "workspaceId" && given "brandKey")
        (named brand ["tenantId"; "workspaceId"; "brandKey"]);
  f ← scope_if (given "profileKey") (with_context profile context);
  k ← scope_if (given "workflowKey") (with_context workflow context);
  n ← scope_if (given "workflowKey" && given "workflowNodeId") (with_context workflow_node context);
  l ← scope_if (given "planId") (with_context plan context);
  e ← scope_if (given "executionId") (with_context execution context);
  Ok (js_sort (fun x y => Z.compare (sc_rank x) (sc_rank y)) (p ++ a ++ t ++ w ++ b ++ f ++ k ++ n ++ l ++ e)).

(** ** Lifecycle *)

Definition GROWTH_CONTROL_CONFIGURATION_LIFECYCLE_TRANSITIONS : list (string * list string) :=
  [("draft", ["ready"; "blocked"; "archived"]);
   ("validating", ["ready"; "blocked"]);
   ("ready", ["active"; "blocked"; "archived"]);
   ("active", ["rolled_back"; "deprecated"]);
   ("blocked", ["draft"; "archived"]);
   ("deprecated", ["active"; "archived"]);
   ("archived", []);
   ("rolled_back", ["active"; "archived"])].

(** [TRANSITIONS[current]?.includes(next)] *)
Definition transition_allowed (current next : option string) : bool :=
  match current, next with
  | Some c, Some n =>
      existsb (fun p => String.eqb p.1 c && sin n p.2) GROWTH_CONTROL_CONFIGURATION_LIFECYCLE_TRANSITIONS
  | _, _ => false
  end.

Definition assertGrowthControlConfigurationTransition (currentLifecycle nextLifecycle : jsval)
    : js (option string * option string) :=
  let current := clean currentLifecycle in
  let next := clean nextLifecycle in
  throw_if (negb (transition_allowed current next))
    (GrowthControlPlaneError "GROWTH_CONTROL_LIFECYCLE_TRANSITION_INVALID"
       ("Configuration lifecycle cannot transition from " +:+ default "unknown" current +:+ " to "
        +:+ default "unknown" next +:+ ".") 409
       [issue "lifecycle" "transition_not_allowed"
        ++ [("current", match current with Some s => VStr s | None => VNull end);
            ("next", match next with Some s => VStr s | None => VNull end)]]);;
  Ok (current, next).

(** ** Approvals *)

Record ApprovalBinding := {
  ab_operation : string;
  ab_configVersionId : string;
  ab_configKey : string;
  ab_scopeKey : string;
  ab_checksumSha256 : string;
  ab_versionRevision : option Z;
}.

Definition js_of_binding (b : ApprovalBinding) : jsval := VObj
  [("approvalType", VStr "growth_control_configuration_lifecycle"); ("operation", VStr (ab_operation b));
   ("configVersionId", VStr (ab_configVersionId b)); ("configKey", VStr (ab_configKey b));
   ("scopeKey", VStr (ab_scopeKey b)); ("checksumSha256", VStr (ab_checksumSha256 b));
   ("versionRevision", VNum (ab_versionRevision b))].

(** The binding and its [bindingSha256]. *)
Definition buildGrowthControlApprovalBinding (operation version : jsval) : js (ApprovalBinding * string) :=
  match clean operation with
  | Some normalizedOperation =>
      throw_if (negb (sin normalizedOperation ["activate"; "rollback"]))
        (GrowthControlPlaneError "GROWTH_CONTROL_APPROVAL_OPERATION_INVALID"
           "Approval operation must be activate or rollback." 422 [issue "operation" "unsupported"]);;
      throw_if (negb (truthy (vget version "configVersionId")) || negb (truthy (vget version "configKey"))
                || negb (truthy (vget version "scopeKey")) || negb (truthy (vget version "checksumSha256")))
        (GrowthControlPlaneError "GROWTH_CONTROL_APPROVAL_BINDING_INVALID"
           "Configuration version identity is incomplete for approval binding." 422 []);;
      let binding := {|
        ab_operation := normalizedOperation; ab_configVersionId := js_String (vget version "configVersionId");
        ab_configKey := js_String (vget version "configKey"); ab_scopeKey := js_String (vget version "scopeKey");
        ab_checksumSha256 := js_String (vget version "checksumSha256");
        ab_versionRevision := js_Number (js_or (vget version "versionRevision") (VNum (Some 0%Z))) |} in
      assertNoSecretFields (js_of_binding binding);;
      Ok (binding, stableSha256 (js_of_binding binding))
  | None =>
      Throw (GrowthControlPlaneError "GROWTH_CONTROL_APPROVAL_OPERATION_INVALID"
        "Approval operation must be activate or rollback." 422 [issue "operation" "unsupported"])
  end.

(** [now] is the time value of [now]. *)
Definition assertGrowthControlApprovalHold (hold : jsval) (expectedSha256 : string) (now : Z) : js unit :=
  throw_if (negb (truthy hold) || negb (is_str (vget hold "status") "approved"))
    (GrowthControlPlaneError "GROWTH_CONTROL_APPROVAL_REQUIRED"
       "An approved plan-bound lifecycle hold is required." 403 []);;
  throw_if (truthy (vget hold "expiresAt")
            && match js_Date (vget hold "expiresAt") with Some t => Z.leb t now | None => false end)
    (GrowthControlPlaneError "GROWTH_CONTROL_APPROVAL_EXPIRED"
       "The lifecycle approval hold has expired." 403 []);;
  throw_if (negb (is_str (vget (js_or (vget hold "executionContext") (VObj [])) "bindingSha256") expectedSha256))
    (GrowthControlPlaneError "GROWTH_CONTROL_APPROVAL_BINDING_MISMATCH"
       "The lifecycle approval hold is bound to a different operation or version." 403 []).

(** ** Scope keys identify scopes *)

(** The parts of the key of a scope. *)
Definition partsOf (s : Scope) : list (option string) :=
  scopeKeyParts (sc_scopeType s) (sc_tenantId s) (sc_workspaceId s) (sc_brandKey s) (sc_activityTypeKey s)
    (sc_profileKey s) (sc_workflowKey s) (sc_workflowVersion s) (sc_workflowNodeId s) (sc_planId s)
    (sc_executionId s).

(** What makes a scope the scope it is has no colon in it. *)
Definition colon_free (s : Scope) : bool := forallb (fun o => no_colon (default "" o)) (partsOf s).

Lemma requireFor_Ok types t value field u : requireFor types t value field = Ok u -> t ∈ types -> is_Some value.
Proof.
  unfold requireFor. intros Hr Ht. rewrite bool_decide_eq_true_2 in Hr by done.
  destruct value; [by eexists|discriminate Hr].
Qed.

Lemma normalizeScope_Ok input s : normalizeGrowthControlScope input = Ok s ->
  sc_scopeKey s = join_parts (partsOf s) /\ sc_rank s = SCOPE_RANK (sc_scopeType s) /\
  Forall is_Some (partsOf s).
Proof.
  unfold normalizeGrowthControlScope. intros Hs. apply bind_Ok in Hs as (i & _ & Hs).
  destruct (find_scope _) as [t|]; [|done]. cbv zeta in Hs.
  apply bind_Ok in Hs as (? & Ha & Hs). apply bind_Ok in Hs as (? & Ht & Hs).
  apply bind_Ok in Hs as (? & Hw & Hs). apply bind_Ok in Hs as (? & Hb & Hs).
  apply bind_Ok in Hs as (? & Hf & Hs). apply bind_Ok in Hs as (? & Hk & Hs).
  apply bind_Ok in Hs as (? & Hn & Hs). apply bind_Ok in Hs as (? & Hp & Hs).
  apply bind_Ok in Hs as (? & He & Hs). apply Ok_inj in Hs as <-. split; [done|]. split; [done|].
  unfold partsOf. cbn [sc_scopeType sc_tenantId sc_workspaceId sc_brandKey sc_activityTypeKey sc_profileKey
    sc_workflowKey sc_workflowVersion sc_workflowNodeId sc_planId sc_executionId].
  pose proof (requireFor_Ok _ _ _ _ _ Ha) as Ha'. pose proof (requireFor_Ok _ _ _ _ _ Ht) as Ht'.
  pose proof (requireFor_Ok _ _ _ _ _ Hw) as Hw'. pose proof (requireFor_Ok _ _ _ _ _ Hb) as Hb'.
  pose proof (requireFor_Ok _ _ _ _ _ Hf) as Hf'. pose proof (requireFor_Ok _ _ _ _ _ Hk) as Hk'.
  pose proof (requireFor_Ok _ _ _ _ _ Hn) as Hn'. pose proof (requireFor_Ok _ _ _ _ _ Hp) as Hp'.
  pose proof (requireFor_Ok _ _ _ _ _ He) as He'.
  destruct t; cbn [scopeKeyParts app]; repeat (apply Forall_cons; split);
    first [by eexists | apply Forall_nil_2
      | match goal with Hx : _ -> is_Some ?o |- is_Some ?o => apply Hx; apply (bool_decide_unpack _); exact I end].
Qed.

Lemma parts_inj l1 l2 : Forall is_Some l1 -> Forall is_Some l2 ->
  List.map (default "") l1 = List.map (default "") l2 -> l1 = l2.
Proof.
  revert l2. induction l1 as [|x l1 IH]; intros [|y l2]; try done.
  intros [[a ->] H1]%Forall_cons [[b ->] H2]%Forall_cons. simpl. intros [= -> Heq]. f_equal. by apply IH.
Qed.

Lemma colon_free_map s : forallb no_colon (List.map (default "") (partsOf s)) = colon_free s.
Proof. unfold colon_free. induction (partsOf s) as [|x l IH]; [done|]. simpl. by rewrite IH. Qed.

Lemma parts_type s1 s2 : partsOf s1 = partsOf s2 -> sc_scopeType s1 = sc_scopeType s2.
Proof.
  unfold partsOf. destruct (sc_scopeType s1), (sc_scopeType s2); cbn [scopeKeyParts app]; intros Heq;
    first [reflexivity|discriminate Heq].
Qed.


(** ** What an approval is bound to *)

Lemma serialize_binding b : is_Some (ab_versionRevision b) ->
  stableSerialize (js_of_binding b) = canonicalize (js_of_binding b).
Proof. destruct b as [? ? ? ? ? [r|]]; [|by intros []]. intros _. reflexivity. Qed.

Lemma binding_inj b1 b2 : is_Some (ab_versionRevision b1) -> is_Some (ab_versionRevision b2) ->
  stableSerialize (js_of_binding b1) = stableSerialize (js_of_binding b2) -> b1 = b2.
Proof.
  intros H1 H2. rewrite !serialize_binding by done.
  destruct b1 as [o1 i1 k1 s1 c1 [r1|]], b2 as [o2 i2 k2 s2 c2 [r2|]]; try (by destruct H1); try (by destruct H2).
  intros Heq. apply canonicalize_inj in Heq; [|reflexivity..].
  vm_compute in Heq. by injection Heq as -> -> -> -> -> ->.
Qed.

Lemma approval_sha operation version b sha :
  buildGrowthControlApprovalBinding operation version = Ok (b, sha) -> sha = sha256_hex (stableSerialize (js_of_binding b)).
Proof.
  unfold buildGrowthControlApprovalBinding. destruct (clean operation); [|done]. intros Hb.
  do 3 (apply bind_Ok in Hb as (? & _ & Hb)). by injection Hb as <- <-.
Qed.

Lemma hold_Ok hold sha now u : assertGrowthControlApprovalHold hold sha now = Ok u ->
  vget hold "status" = VStr "approved" /\
  (truthy (vget hold "expiresAt") = true -> forall t, js_Date (vget hold "expiresAt") = Some t -> (now < t)%Z) /\
  vget (vget hold "executionContext") "bindingSha256" = VStr sha.
Proof.
  unfold assertGrowthControlApprovalHold. intros Hh. apply bind_Ok in Hh as (? & Hs%throw_if_Ok & Hh).
  apply bind_Ok in Hh as (? & He%throw_if_Ok & Hh). apply throw_if_Ok in Hh. split_bool.
  split; [by apply is_str_true|]. split.
  - intros Ht t Hd. rewrite Ht, Hd in He. by apply Z.leb_gt in He.
  - match goal with Hx : is_str _ sha = true |- _ => apply is_str_true in Hx; rewrite <- Hx end.
    unfold js_or. destruct (truthy (vget hold "executionContext")) eqn:Ht; [done|].
    by destruct (vget hold "executionContext").
Qed.

(** An approval covers one operation on one version.  A hold that carries
    the hash of one binding and is accepted for another was given for the same
    operation, version, key, scope, checksum and revision, unless SHA-256
    collides; it is approved, and accepted before its expiry only when that can
    be read as a date. *)
Theorem approvalHold_bound operation version operation' version' b b' sha sha' hold now :
  buildGrowthControlApprovalBinding operation version = Ok (b, sha) ->
  buildGrowthControlApprovalBinding operation' version' = Ok (b', sha') ->
  vget (vget hold "executionContext") "bindingSha256" = VStr sha ->
  assertGrowthControlApprovalHold hold sha' now = Ok tt ->
  is_Some (ab_versionRevision b) -> is_Some (ab_versionRevision b') ->
  (sha256_hex (stableSerialize (js_of_binding b)) = sha256_hex (stableSerialize (js_of_binding b')) ->
   stableSerialize (js_of_binding b) = stableSerialize (js_of_binding b')) ->
  b = b' /\ vget hold "status" = VStr "approved" /\
  (truthy (vget hold "expiresAt") = true -> forall t, js_Date (vget hold "expiresAt") = Some t -> (now < t)%Z).
Proof.
  intros Hb Hb' Hc (Hst & Hexp & Hsha)%hold_Ok Hr Hr' Hcol. split; [|done].
  rewrite Hc in Hsha. injection Hsha as Hsha. apply binding_inj; [done|done|]. apply Hcol.
  by rewrite <- (approval_sha _ _ _ _ Hb), <- (approval_sha _ _ _ _ Hb').
Qed.
End Growth.

(** ** Examples *)

Definition demo_workspace (tenantId workspaceId : string) : js Scope :=
  normalizeGrowthControlScope (H:=demo_host)
    (VObj [("scopeType", VStr "workspace"); ("tenant_id", VStr tenantId); ("workspaceId", VStr workspaceId)]).

Definition demo_tenant (tenantId : string) : js Scope :=
  normalizeGrowthControlScope (H:=demo_host) (VObj [("scopeType", VStr "tenant"); ("tenantId", VStr tenantId)]).

Definition no_scope : Scope :=
  Build_Scope platform None None None None None None None VNull None None None "" 0.


Definition demo_version : jsval := VObj
  [("configVersionId", VStr "v1"); ("configKey", VStr "growth.key"); ("scopeKey", VStr "platform");
   ("checksumSha256", VStr "c"); ("versionRevision", VNum (Some 3%Z))].

Definition demo_hold (sha : string) : jsval := VObj
  [("status", VStr "approved"); ("expiresAt", VNum (Some 1700000000001%Z));
   ("executionContext", VObj [("bindingSha256", VStr sha)])].

Definition demo_binding : ApprovalBinding * string :=
  catch (buildGrowthControlApprovalBinding (H:=demo_host) (VStr "activate") demo_version)
    (Build_ApprovalBinding "" "" "" "" "" None, "").

Lemma approvalHold_bound_witness :
  let '(b, sha) := demo_binding in
  ab_scopeKey b = "platform" /\ vget (demo_hold sha) "status" = VStr "approved" /\
  assertGrowthControlApprovalHold (H:=demo_host) (demo_hold sha) sha 1700000000000 = Ok tt.
Proof.
  split; [vm_compute; reflexivity|]. split; [|vm_compute; reflexivity].
  refine (proj1 (proj2 (approvalHold_bound (H:=demo_host) (VStr "activate") demo_version (VStr "activate") demo_version
    (fst demo_binding) (fst demo_binding) (snd demo_binding) (snd demo_binding) (demo_hold (snd demo_binding))
    1700000000000 _ _ eq_refl _ _ _ (fun _ => eq_refl)))); vm_compute; first [reflexivity | eexists; reflexivity].
Defined.
End GrowthControl.
