(* ===== verification/GrowthConfig.v ===== *)
(** * Growth control plane: schemas, merging and the effective configuration
    (src/domain/growthControlPlane/growthControlPlane.js)

    The candidates that the defaults and the versions in scope give a field are
    merged by the operator of the field, and the result is checked against a
    schema.  Proved: what each operator merges to, whatever the order of the
    candidates, and that a version out of scope has no part in the result. *)
From S2P Require Import Prelude Sorting JsString JsDate JsValue JsJson GrowthControl.

Module GrowthConfig.
Import GrowthControl.

(** [new RegExp(pattern).test(s)] for the pattern of a schema, which may not
    compile. *)
Class RegExpEngine : Type := { regexp_test : jsval -> string -> js bool }.

Definition SCHEMA_KEYS : list string :=
  ["$schema"; "$id"; "title"; "description"; "type"; "properties"; "required"; "additionalProperties";
   "enum"; "const"; "items"; "minItems"; "maxItems"; "uniqueItems"; "minLength"; "maxLength"; "minimum";
   "maximum"; "pattern"; "format"; "examples"; "default"].

Definition GROWTH_CONTROL_MERGE_OPERATORS : list string :=
  ["priority_replace"; "deny_wins"; "strict_intersection"; "minimum"; "maximum"; "guarded_union";
   "append_unique"; "block_on_ambiguity"].

(** ** Schemas *)

Definition schema_invalid (message : string) : jserror :=
  GrowthControlPlaneError "GROWTH_CONTROL_SCHEMA_INVALID" message 422 [].

(** The loop over the keywords of a schema. *)
Fixpoint checkKeywords (o : jsobj) (path : string) : js unit :=
  match o with
  | [] => Ok tt
  | (key, _) :: rest =>
      throw_if (negb (sin key SCHEMA_KEYS))
        (GrowthControlPlaneError "GROWTH_CONTROL_SCHEMA_KEYWORD_UNSUPPORTED"
           ("Unsupported schema keyword: " +:+ key +:+ ".") 422
           [issue (path +:+ "." +:+ key) "unsupported_schema_keyword"]);;
      checkKeywords rest path
  end.

(** [validateSchemaDefinition(schema, path)] of a value, or of each value of a
    [properties] object when [as_properties]. *)
Fixpoint validateSchemaIn (as_properties : bool) (v : jsval) (path : string) {struct v} : js unit :=
  match v with
  | VObj o =>
      if as_properties then
        (fix children (o : jsobj) : js unit :=
           match o with
           | [] => Ok tt
           | (key, child) :: rest =>
               validateSchemaIn false child (path +:+ ".properties." +:+ key);; children rest
           end) o
      else
        checkKeywords o path;;
        (fix find_properties (o : jsobj) : js unit :=
           match o with
           | [] => Ok tt
           | (key, child) :: rest =>
               if String.eqb "properties" key
               then (if truthy child then validateSchemaIn true child path else Ok tt)
               else find_properties rest
           end) o;;
        (fix find_items (o : jsobj) : js unit :=
           match o with
           | [] => Ok tt
           | (key, child) :: rest =>
               if String.eqb "items" key
               then (if truthy child then validateSchemaIn false child (path +:+ ".items") else Ok tt)
               else find_items rest
           end) o
  | VDate _ => Ok tt
  | _ => Throw (schema_invalid (if as_properties then "properties must be an object."
                                else "Configuration schema must be an object."))
  end.

Definition validateSchemaDefinition (schema : jsval) : js unit := validateSchemaIn false schema "$".

(** [typeof value] *)
Definition js_typeof (v : jsval) : string :=
  match v with
  | VUndef => "undefined"
  | VBool _ => "boolean"
  | VNum _ => "number"
  | VStr _ => "string"
  | VNull | VDate _ | VArr _ | VObj _ => "object"
  end.

Definition typeMatches (value type : jsval) : bool :=
  match type with
  | VStr t =>
      if String.eqb t "null" then match value with VNull => true | _ => false end
      else if String.eqb t "array" then match value with VArr _ => true | _ => false end
      else if String.eqb t "object" then is_record value
      else if String.eqb t "integer" then match value with VNum (Some _) => true | _ => false end
      else if String.eqb t "number" then match value with VNum (Some _) => true | _ => false end
      else String.eqb (js_typeof value) t
  | _ => false
  end.

(** [stableSerialize(a) === stableSerialize(b)] *)
Definition same (a b : jsval) : bool := String.eqb (stableSerialize a) (stableSerialize b).

(** [Object.hasOwn(v, k)] *)
Definition has_own (v : jsval) (k : string) : bool := sin k (List.map fst (spread v)).

(** The elements that [for (const x of v)] visits. *)
Definition iterate (v : jsval) : js (list jsval) :=
  match v with
  | VArr l => Ok l
  | VStr s => Ok (List.map (fun c => VStr (String c "")) (String.list_ascii_of_string s))
  | _ => type_error "object is not iterable"
  end.

(** ** Candidates *)

Record Candidate := {
  cd_value : jsval;
  cd_rank : Z;
  cd_versionNumber : option Z;
  cd_sourceId : string;
  cd_scopeKey : string;
  cd_revision : option Z;
}.

Record Merged := {
  mg_blocked : bool;
  mg_code : option string;
  mg_value : jsval;
  mg_selected : list Candidate;
  mg_rejected : list Candidate;
}.

(** The candidates of each field. *)
Abbreviation Fields := (list (string * list Candidate)).

(** [map.set(k, v)]: a key that is set again keeps its place. *)
Fixpoint assoc_set {A} (k : string) (v : A) (l : list (string * A)) : list (string * A) :=
  match l with
  | [] => [(k, v)]
  | (k', v') :: rest => if String.eqb k k' then (k, v) :: rest else (k', v') :: assoc_set k v rest
  end.

Fixpoint assoc_get {A} (k : string) (l : list (string * A)) : option A :=
  match l with
  | [] => None
  | (k', v) :: rest => if String.eqb k k' then Some v else assoc_get k rest
  end.

Section Config.
Context `{JsHost} `{RegExpEngine}.

(** [n < v] and [n > v] for a number [n] *)
Definition less (n : Z) (v : jsval) : bool := match js_Number v with Some m => Z.ltb n m | None => false end.
Definition greater (n : Z) (v : jsval) : bool := match js_Number v with Some m => Z.ltb m n | None => false end.

(** [schema.limit != null && fails(schema.limit)] *)
Definition limit (schema : jsval) (key : string) (fails : jsval -> bool) (path name : string) : list jsobj :=
  if negb (nullish (vget schema key)) && fails (vget schema key) then [issue path name] else [].

Definition allowedTypes (schema : jsval) : list jsval :=
  match vget schema "type" with
  | VArr l => l
  | t => if truthy t then [t] else []
  end.

(** The checks that come before those of the kind of the value. *)
Definition enumIssues (value schema : jsval) (path : string) : js (list jsobj) :=
  listed ← ((match vget schema "enum" with
             | VArr l => Ok (existsb (fun entry => same entry value) l)
             | e => if truthy e then type_error "schema.enum.some is not a function" else Ok true
             end) : js bool);
  Ok ((if negb listed then [issue path "enum_mismatch"] else [])
      ++ (if has_own schema "const" && negb (same (vget schema "const") value)
          then [issue path "const_mismatch"] else [])).

(** The issues of a string, and of a number. *)
Definition stringIssues (s : string) (schema : jsval) (path : string) : js (list jsobj) :=
  let n := Z.of_nat (String.length s) in
  matched ← (if truthy (vget schema "pattern") then regexp_test (vget schema "pattern") s else Ok true : js bool);
  Ok (limit schema "minLength" (less n) path "min_length"
      ++ limit schema "maxLength" (greater n) path "max_length"
      ++ (if negb matched then [issue path "pattern_mismatch"] else [])).

Definition numberIssues (n : option Z) (schema : jsval) (path : string) : list jsobj :=
  match n with
  | None => []
  | Some n => limit schema "minimum" (less n) path "minimum" ++ limit schema "maximum" (greater n) path "maximum"
  end.

(** The issues of an array itself. *)
Definition arrayIssues (l : list jsval) (schema : jsval) (path : string) : list jsobj :=
  let n := Z.of_nat (length l) in
  limit schema "minItems" (less n) path "min_items"
  ++ limit schema "maxItems" (greater n) path "max_items"
  ++ (if truthy (vget schema "uniqueItems")
         && negb (length (dedup (List.map stableSerialize l)) =? length l)
      then [issue path "unique_items"] else []).

(** The properties an object must have. *)
Definition requiredIssues (value schema : jsval) (path : string) : js (list jsobj) :=
  required ← iterate (js_or (vget schema "required") (VArr []));
  Ok (List.flat_map (fun r => if has_own value (js_String r) then []
                              else [issue (path +:+ "." +:+ js_String r) "required"]) required).

(** Reading a property of [schema]. *)
Definition readable (schema : jsval) : js unit :=
  throw_if (nullish schema) (TypeErr "Cannot read properties of undefined").

Fixpoint validateValueAgainstSchema (value schema : jsval) (path : string) {struct value} : js (list jsobj) :=
  let types := allowedTypes schema in
  if (0 <? length types) && negb (existsb (typeMatches value) types) then
    Ok [issue path "type_mismatch" ++ [("expected", VArr types)]]
  else
    issues ← enumIssues value schema path;
    match value with
    | VStr s => readable schema;; more ← stringIssues s schema path; Ok (issues ++ more)
    | VNum n => readable schema;; Ok (issues ++ numberIssues n schema path)
    | VArr l =>
        readable schema;;
        items ← (if truthy (vget schema "items") then
                   (fix go (index : nat) (l : list jsval) : js (list jsobj) :=
                      match l with
                      | [] => Ok []
                      | item :: rest =>
                          here ← validateValueAgainstSchema item (vget schema "items") (at_index path index);
                          more ← go (S index) rest;
                          Ok (here ++ more)
                      end) 0 l
                 else Ok []);
        Ok (issues ++ arrayIssues l schema path ++ items)
    | VObj o =>
        readable schema;;
        let properties := js_or (vget schema "properties") (VObj []) in
        required ← requiredIssues value schema path;
        entries ← (fix go (o : jsobj) : js (list jsobj) :=
                     match o with
                     | [] => Ok []
                     | (key, child) :: rest =>
                         here ← (if has_own properties key
                                 then validateValueAgainstSchema child (vget properties key) (path +:+ "." +:+ key)
                                 else Ok (if is_false (vget schema "additionalProperties")
                                          then [issue (path +:+ "." +:+ key) "unsupported"] else []));
                         more ← go rest;
                         Ok (here ++ more)
                     end) o;
        Ok (issues ++ required ++ entries)
    | VDate _ =>
        readable schema;;
        required ← requiredIssues value schema path;
        Ok (issues ++ required)
    | VUndef | VNull | VBool _ => Ok issues
    end.

(** ** Merging *)

(** The later of two values with one serialization stays. *)
Definition uniqueValues (values : list jsval) : list (string * jsval) :=
  fold_left (fun m v => assoc_set (stableSerialize v) v m) values [].

Definition uniqueSorted (values : list jsval) : list jsval :=
  List.map snd (js_sort (fun a b => locale_compare a.1 b.1) (uniqueValues values)).

Definition denyValue (value : jsval) : bool :=
  is_false value || is_str value "deny" || is_str value "disabled" || is_str value "blocked".

(** [b.rank - a.rank || b.versionNumber - a.versionNumber || a.sourceId.localeCompare(b.sourceId)];
    a difference with NaN is falsy. *)
Definition candidate_compare (a b : Candidate) : comparison :=
  cmp_or (Z.compare (cd_rank b) (cd_rank a))
    (cmp_or (match cd_versionNumber a, cd_versionNumber b with
             | Some x, Some y => Z.compare y x
             | _, _ => Eq
             end)
       (locale_compare (cd_sourceId a) (cd_sourceId b))).

Definition numberOf (c : Candidate) : option Z := js_Number (cd_value c).
Definition is_numeric (c : Candidate) : bool := bool_decide (is_Some (numberOf c)).

(** [Math.min(...l)] and [Math.max(...l)] of a list that is not empty *)
Definition extremum (pick : Z -> Z -> Z) (l : list Z) : Z :=
  match l with [] => 0 | x :: rest => fold_left pick rest x end.

Definition elements_of (c : Candidate) : list jsval := match cd_value c with VArr l => l | _ => [] end.
Definition is_list (c : Candidate) : bool := match cd_value c with VArr _ => true | _ => false end.

Definition merge_blocked (code : string) (rejected : list Candidate) : Merged :=
  {| mg_blocked := true; mg_code := Some code; mg_value := VNull; mg_selected := []; mg_rejected := rejected |}.
Definition merge_to (value : jsval) (selected rejected : list Candidate) : Merged :=
  {| mg_blocked := false; mg_code := None; mg_value := value; mg_selected := selected;
     mg_rejected := rejected |}.

(** The merge of the candidates [top :: rest], in order. *)
Definition mergeDeny (top : Candidate) (rest : list Candidate) : Merged :=
  let ordered := top :: rest in
  match bfilter (fun c => denyValue (cd_value c)) ordered with
  | [] => merge_to (cd_value top) [top] rest
  | (c :: _) as denied => merge_to (cd_value c) denied (bfilter (fun c => negb (denyValue (cd_value c))) ordered)
  end.

Definition mergeExtremum (pick : Z -> Z -> Z) (ordered : list Candidate) : Merged :=
  let numeric := bfilter is_numeric ordered in
  if length numeric =? 0 then merge_blocked "GROWTH_CONTROL_MERGE_TYPE_CONFLICT" ordered
  else
    let target := extremum pick (omap numberOf numeric) in
    let hits c := bool_decide (numberOf c = Some target) in
    merge_to (VNum (Some target)) (bfilter hits numeric) (bfilter (fun c => negb (hits c)) ordered).

Definition mergeLists (intersection : bool) (top : Candidate) (rest : list Candidate) : Merged :=
  let ordered := top :: rest in
  if existsb (fun c => negb (is_list c)) ordered then
    merge_blocked "GROWTH_CONTROL_MERGE_TYPE_CONFLICT" ordered
  else
    let value :=
      if intersection then
        bfilter (fun item => forallb (fun c => existsb (fun x => same x item) (elements_of c)) rest)
          (uniqueSorted (elements_of top))
      else uniqueSorted (List.flat_map elements_of ordered) in
    merge_to (VArr value) ordered [].

Definition mergeTop (top : Candidate) (rest : list Candidate) : Merged :=
  let ordered := top :: rest in
  let at_top c := Z.eqb (cd_rank c) (cd_rank top) in
  let finalists := bfilter at_top ordered in
  if 1 <? length (dedup (List.map (fun c => stableSerialize (cd_value c)) finalists))
  then merge_blocked "GROWTH_CONTROL_CONFIG_CONFLICT" ordered
  else
    match finalists with
    | [] => merge_to VUndef [] ordered
    | first :: _ => merge_to (cd_value first) finalists (bfilter (fun c => negb (at_top c)) ordered)
    end.

Definition mergeConfigurationCandidates (candidates : list Candidate) (operator : jsval) : Merged :=
  match operator with
  | VStr op =>
      if negb (sin op GROWTH_CONTROL_MERGE_OPERATORS)
      then merge_blocked "GROWTH_CONTROL_MERGE_OPERATOR_UNSUPPORTED" candidates
      else
        match js_sort candidate_compare candidates with
        | [] => merge_to VUndef [] []
        | top :: rest =>
            if String.eqb op "deny_wins" then mergeDeny top rest
            else if String.eqb op "minimum" then mergeExtremum Z.min (top :: rest)
            else if String.eqb op "maximum" then mergeExtremum Z.max (top :: rest)
            else if sin op ["strict_intersection"; "guarded_union"; "append_unique"]
            then mergeLists (String.eqb op "strict_intersection") top rest
            else mergeTop top rest
        end
  | _ => merge_blocked "GROWTH_CONTROL_MERGE_OPERATOR_UNSUPPORTED" candidates
  end.

(** ** The effective configuration *)

(** [scopeRank.get(key)]: of two scopes with one key the later counts. *)
Definition rankOf (scopeHierarchy : list Scope) (key : jsval) : option Z :=
  match key with
  | VStr k => sc_rank <$> List.find (fun s => String.eqb (sc_scopeKey s) k) (rev scopeHierarchy)
  | _ => None
  end.

(** The scope key of a version, and its properties under either name. *)
Definition scopeKeyOf (version : jsval) : jsval := either version "scopeKey" "scope_key".

Definition valuesOf (version : jsval) : jsobj :=
  spread (js_or (js_or (vget version "values") (vget version "values_json")) (VObj [])).

Definition versionCandidate (version : jsval) (rank : Z) (value : jsval) : Candidate :=
  {| cd_value := value; cd_rank := rank;
     cd_versionNumber :=
       js_Number (js_coalesce (either version "versionNumber" "version_number") (VNum (Some 0%Z)));
     cd_sourceId := js_String (either version "configVersionId" "config_version_id");
     cd_scopeKey := js_String (scopeKeyOf version);
     cd_revision :=
       js_Number (js_coalesce (either version "versionRevision" "version_revision") (VNum (Some 0%Z))) |}.

Definition defaultCandidate (configKey : string) (revision : option Z) (value : jsval) : Candidate :=
  {| cd_value := value; cd_rank := -1; cd_versionNumber := Some 0%Z; cd_sourceId := configKey +:+ ":default";
     cd_scopeKey := "default"; cd_revision := revision |}.

(** [fields.get(key).push(candidate)], after an empty list was set for a key
    that is new. *)
Definition pushCandidate (fields : Fields) (key : string) (c : Candidate) : Fields :=
  assoc_set key (default [] (assoc_get key fields) ++ [c]) fields.

Definition defaultFields (configKey : string) (revision : option Z) (defaults : jsval) : Fields :=
  fold_left (fun fields p => assoc_set p.1 [defaultCandidate configKey revision p.2] fields)
    (spread (js_or defaults (VObj []))) [].

(** One iteration of the loop over the versions. *)
Definition addVersion (scopeHierarchy : list Scope) (fields : Fields) (version : jsval) : js Fields :=
  throw_if (nullish version) (TypeErr "Cannot read properties of undefined");;
  Ok (match rankOf scopeHierarchy (scopeKeyOf version) with
      | None => fields
      | Some rank =>
          fold_left (fun fields p => pushCandidate fields p.1 (versionCandidate version rank p.2))
            (valuesOf version) fields
      end).

Record Effective := {
  ef_configKey : string;
  ef_values : jsobj;
  ef_lineage : jsobj;
  ef_revision : option Z;
  ef_versions : jsobj;
  ef_conflicts : list jsobj;
  ef_blocked : bool;
  ef_sha256 : string;
}.

Definition lineageEntry (c : Candidate) : jsval := VObj
  [("sourceId", VStr (cd_sourceId c)); ("scopeKey", VStr (cd_scopeKey c)); ("revision", VNum (cd_revision c))].

(** The operator of a field. *)
Definition operatorOf (mergeProfile : jsval) (field : string) : jsval :=
  js_or (vget mergeProfile field) (VStr "priority_replace").

Definition fieldLineage (operator : jsval) (m : Merged) : jsval := VObj
  [("operator", operator); ("selected", VArr (List.map lineageEntry (mg_selected m)));
   ("rejected", VArr (List.map lineageEntry (mg_rejected m)))].

(** [revisionVector.versions] after the candidates of one field. *)
Definition recordRevisions (versions : jsobj) (candidates : list Candidate) : jsobj :=
  fold_left (fun versions c =>
    if js_endsWith (cd_sourceId c) ":default" then versions
    else assoc_set (cd_sourceId c) (VNum (cd_revision c)) versions) candidates versions.

Definition fieldConflict (field : string) (m : Merged) (candidates : list Candidate) : jsobj :=
  [("field", VStr field); ("code", match mg_code m with Some c => VStr c | None => VUndef end);
   ("sourceIds", VArr (List.map (fun c => VStr (cd_sourceId c)) candidates))].

Definition mergedField (mergeProfile : jsval) (p : string * list Candidate) : Merged :=
  mergeConfigurationCandidates p.2 (operatorOf mergeProfile p.1).

(** [resolved] *)
Definition resolvedObject (configKey : string) (values lineage : jsobj) (revision : option Z)
    (versions : jsobj) (conflicts : list jsobj) : jsval := VObj
  [("configKey", VStr configKey); ("values", VObj values); ("lineage", VObj lineage);
   ("revisionVector", VObj [("definition", VNum revision); ("versions", VObj versions)]);
   ("conflicts", VArr (List.map VObj conflicts))].

(** The result from the fields, in order. *)
Definition effectiveOf (configKey : string) (revision : option Z) (schema mergeProfile : jsval)
    (ordered : Fields) : js Effective :=
  let merged := List.map (fun p => (p, mergedField mergeProfile p)) ordered in
  let values := List.flat_map (fun '(p, m) =>
    if mg_blocked m || match mg_value m with VUndef => true | _ => false end then [] else [(p.1, mg_value m)])
    merged in
  let fieldConflicts := List.flat_map (fun '(p, m) =>
    if mg_blocked m then [fieldConflict p.1 m p.2] else []) merged in
  issues ← validateValueAgainstSchema (VObj values) schema "$";
  let conflicts := fieldConflicts ++
    (if 0 <? length issues then
       [[("field", VStr "$"); ("code", VStr "GROWTH_CONTROL_EFFECTIVE_SCHEMA_INVALID");
         ("issues", VArr (List.map VObj issues))]] else []) in
  let lineage := List.map (fun '(p, m) => (p.1, fieldLineage (operatorOf mergeProfile p.1) m)) merged in
  let versions := fold_left (fun v p => recordRevisions v p.2) ordered [] in
  Ok {| ef_configKey := configKey; ef_values := values; ef_lineage := lineage; ef_revision := revision;
        ef_versions := versions; ef_conflicts := conflicts; ef_blocked := 0 <? length conflicts;
        ef_sha256 := stableSha256 (resolvedObject configKey values lineage revision versions conflicts) |}.

Definition resolveEffectiveConfiguration (definition : jsval) (versions : list jsval)
    (scopeHierarchy : list Scope) : js Effective :=
  configKey ← requireCanonicalKey (either definition "configKey" "config_key") "configKey";
  let schema := either definition "schema" "schema_json" in
  let defaults := js_coalesce (either definition "defaultValues" "default_values") (VObj []) in
  let mergeProfile := js_coalesce (either definition "mergeProfile" "merge_profile") (VObj []) in
  let revision := js_Number (js_or (vget definition "revision") (VNum (Some 0%Z))) in
  assertNoSecretFields (VObj [("defaults", defaults); ("mergeProfile", mergeProfile)]);;
  validateSchemaDefinition schema;;
  fields ← foldM_js (addVersion scopeHierarchy) (defaultFields configKey revision defaults) versions;
  effectiveOf configKey revision schema mergeProfile
    (js_sort (fun a b => locale_compare a.1 b.1) fields).

(** ** What each operator promises *)

Definition denies (c : Candidate) : bool := denyValue (cd_value c).

(** [c] is one of the candidates of the closest scope. *)
Definition is_top (cs : list Candidate) (c : Candidate) : Prop :=
  c ∈ cs /\ forall c', c' ∈ cs -> (cd_rank c' <= cd_rank c)%Z.

Definition blocked_with (code : string) (cs : list Candidate) (m : Merged) : Prop :=
  mg_blocked m = true /\ mg_code m = Some code /\ mg_value m = VNull /\ mg_selected m = [] /\
  mg_rejected m ≡ₚ cs.

(** A denial anywhere wins over every scope. *)
Definition deny_spec (cs : list Candidate) (m : Merged) : Prop :=
  mg_blocked m = false /\ (exists c, c ∈ mg_selected m /\ mg_value m = cd_value c) /\
  denyValue (mg_value m) = existsb denies cs /\
  if existsb denies cs then mg_selected m ≡ₚ bfilter denies cs
  else exists c, mg_selected m = [c] /\ is_top cs c.

(** The least value in the order [le] of those that are numbers. *)
Definition extremum_spec (le : Z -> Z -> Prop) (cs : list Candidate) (m : Merged) : Prop :=
  if existsb is_numeric cs then
    mg_blocked m = false /\ exists t, mg_value m = VNum (Some t) /\ mg_selected m <> [] /\
      (forall c, c ∈ mg_selected m <-> c ∈ cs /\ numberOf c = Some t) /\
      (forall c n, c ∈ cs -> numberOf c = Some n -> le t n)
  else blocked_with "GROWTH_CONTROL_MERGE_TYPE_CONFLICT" cs m.

(** A list without repetition, in order, of the elements of every candidate, or
    of any. *)
Definition lists_spec (intersection : bool) (cs : list Candidate) (m : Merged) : Prop :=
  if forallb is_list cs then
    mg_blocked m = false /\ mg_selected m ≡ₚ cs /\ exists l, mg_value m = VArr l /\
      let keys := List.map stableSerialize in
      NoDup (keys l) /\ StronglySorted (fun a b => locale_compare a b <> Gt) (keys l) /\
      forall s, s ∈ keys l <->
        if intersection then forall c, c ∈ cs -> s ∈ keys (elements_of c)
        else exists c, c ∈ cs /\ s ∈ keys (elements_of c)
  else blocked_with "GROWTH_CONTROL_MERGE_TYPE_CONFLICT" cs m.

(** The value of the closest scope, when its candidates agree. *)
Definition top_spec (cs : list Candidate) (m : Merged) : Prop :=
  (mg_blocked m = false /\
   (forall c c', is_top cs c -> is_top cs c' -> same (cd_value c) (cd_value c') = true) /\
   (forall c, c ∈ mg_selected m <-> is_top cs c) /\ exists c, is_top cs c /\ mg_value m = cd_value c) \/
  (blocked_with "GROWTH_CONTROL_CONFIG_CONFLICT" cs m /\
   exists c c', is_top cs c /\ is_top cs c' /\ same (cd_value c) (cd_value c') = false).

Definition merge_spec (op : string) (cs : list Candidate) (m : Merged) : Prop :=
  if String.eqb op "deny_wins" then deny_spec cs m
  else if String.eqb op "minimum" then extremum_spec Z.le cs m
  else if String.eqb op "maximum" then extremum_spec Z.ge cs m
  else if sin op ["strict_intersection"; "guarded_union"; "append_unique"]
  then lists_spec (String.eqb op "strict_intersection") cs m
  else top_spec cs m.

End Config.

Section Merge.
Context `{JsHost} `{!JsHostLaws}.

(** ** The order of the candidates *)

Definition version_order (a b : Candidate) : comparison :=
  Z.compare (default 0%Z (cd_versionNumber b)) (default 0%Z (cd_versionNumber a)).
Definition total_compare (a b : Candidate) : comparison :=
  cmp_or (Z.compare (cd_rank b) (cd_rank a))
    (cmp_or (version_order a b) (locale_compare (cd_sourceId a) (cd_sourceId b))).

Lemma zcompare_desc : CmpOrder (fun x y => Z.compare y x).
Proof.
  split; intros; [by rewrite <- Z.compare_antisym|]. rewrite Z.compare_ngt_iff in *. lia.
Qed.

#[local] Instance total_CmpOrder : CmpOrder total_compare.
Proof.
  apply cmp_lex; [apply (cmp_by_key cd_rank (fun x y => Z.compare y x) (CmpOrder0:=zcompare_desc))|].
  apply cmp_lex; [apply (cmp_by_key (fun c => default 0%Z (cd_versionNumber c)) (fun x y => Z.compare y x) (CmpOrder0:=zcompare_desc))|].
  apply (cmp_by_key cd_sourceId locale_compare).
Qed.

Abbreviation versioned cs := (Forall (fun c => is_Some (cd_versionNumber c)) cs).

Lemma compare_total cs : versioned cs -> js_sort candidate_compare cs = js_sort total_compare cs.
Proof.
  rewrite Forall_forall. intros Hv. apply js_sort_ext_in. intros x y Hx Hy.
  destruct (Hv x Hx) as [vx Ex], (Hv y Hy) as [vy Ey].
  unfold candidate_compare, total_compare, version_order. by rewrite Ex, Ey.
Qed.

Lemma sorted_head cs top rest : versioned cs -> js_sort candidate_compare cs = top :: rest -> is_top cs top.
Proof.
  intros Hv Hs. split; [rewrite <- (js_sort_Permutation candidate_compare), Hs; apply list_elem_of_here|].
  intros c Hc. pose proof (js_sort_sorted total_compare cs) as Hsorted. rewrite <- compare_total, Hs in Hsorted by done.
  rewrite <- (js_sort_Permutation candidate_compare), Hs in Hc. apply elem_of_cons in Hc as [->|Hc]; [lia|].
  apply StronglySorted_cons in Hsorted as [Hall _]. rewrite Forall_forall in Hall. specialize (Hall c Hc).
  apply leb_of_true in Hall. unfold total_compare, cmp_or in Hall. destruct (cd_rank c ?= cd_rank top)%Z eqn:E; [| |done].
  - apply Z.compare_eq in E. lia.
  - by apply Z.lt_le_incl, Z.compare_lt_iff.
Qed.

(** ** Each operator *)

Lemma mergeDeny_spec cs top rest : top :: rest ≡ₚ cs -> is_top cs top ->
  deny_spec cs (mergeDeny top rest) /\
  mg_selected (mergeDeny top rest) ++ mg_rejected (mergeDeny top rest) ≡ₚ cs.
Proof.
  intros HP Htop. unfold mergeDeny, deny_spec. fold denies.
  pose proof (bfilter_Permutation denies _ _ HP) as HF. rewrite <- (existsb_Permutation denies _ _ HP).
  change (fun c => negb (denyValue (cd_value c))) with (fun c => negb (denies c)).
  change (fun c => denyValue (cd_value c)) with denies.
  destruct (bfilter denies (top :: rest)) as [|c denied] eqn:Hd.
  - assert (existsb denies (top :: rest) = false) as Hn.
    { apply existsb_false. intros x Hx. apply (proj1 (bfilter_nil _ _) Hd x Hx). }
    rewrite Hn. simpl in Hn. apply orb_false_iff in Hn as [Hn _]. simpl. split; [|done].
    split; [done|]. split; [exists top; split; [apply list_elem_of_here|done]|]. split; [done|]. by exists top.
  - assert (c ∈ bfilter denies (top :: rest)) as Hc by (rewrite Hd; apply list_elem_of_here).
    apply elem_of_bfilter in Hc as [Hc Hin].
    assert (existsb denies (top :: rest) = true) as -> by (apply existsb_elem_of; by exists c).
    cbn [merge_to mg_blocked mg_value mg_selected mg_rejected]. split.
    + split; [done|]. split; [exists c; split; [apply list_elem_of_here|done]|]. by split.
    + rewrite <- Hd. by rewrite (bfilter_partition denies).
Qed.

Lemma extremum_spec_list (pick : Z -> Z -> Z) (le : Z -> Z -> Prop) x l :
  (forall a b, pick a b = a \/ pick a b = b) -> (forall a b, le (pick a b) a /\ le (pick a b) b) ->
  Reflexive le -> Transitive le ->
  fold_left pick l x ∈ x :: l /\ forall y, y ∈ x :: l -> le (fold_left pick l x) y.
Proof.
  intros Hpick Hle Hr Ht. revert x. induction l as [|z l IH]; intros x; simpl.
  - split; [apply list_elem_of_here|]. intros y ->%list_elem_of_singleton. apply Hr.
  - destruct (IH (pick x z)) as [Hin Hall]. split.
    + apply elem_of_cons in Hin as [->|Hin]; [|by do 2 apply list_elem_of_further].
      destruct (Hpick x z) as [->| ->]; [apply list_elem_of_here|apply list_elem_of_further, list_elem_of_here].
    + pose proof (Hall _ (list_elem_of_here _ _)) as Hp. destruct (Hle x z) as [Hx Hz].
      intros y [->|[->|Hy]%elem_of_cons]%elem_of_cons; [by etrans|by etrans|].
      apply Hall. by apply list_elem_of_further.
Qed.

Lemma blocked_spec code cs ordered : ordered ≡ₚ cs -> blocked_with code cs (merge_blocked code ordered).
Proof. done. Qed.

Lemma elem_of_numbers (n : Z) (cs : list Candidate) :
  n ∈ omap numberOf (bfilter is_numeric cs) <-> exists c, c ∈ cs /\ numberOf c = Some n.
Proof.
  rewrite list_elem_of_omap. split; intros (c & Hc & Hn); exists c; split; try done.
  - by apply elem_of_bfilter in Hc as [_ Hc].
  - apply elem_of_bfilter. split; [|done]. apply bool_decide_eq_true. by exists n.
Qed.

Lemma mergeExtremum_spec pick le cs ordered : ordered ≡ₚ cs ->
  (forall a b, pick a b = a \/ pick a b = b) -> (forall a b, le (pick a b) a /\ le (pick a b) b) ->
  Reflexive le -> Transitive le ->
  extremum_spec le cs (mergeExtremum pick ordered) /\
  mg_selected (mergeExtremum pick ordered) ++ mg_rejected (mergeExtremum pick ordered) ≡ₚ cs.
Proof.
  intros HP Hpick Hle Hr Ht. unfold mergeExtremum, extremum_spec.
  rewrite <- (existsb_Permutation is_numeric _ _ HP).
  destruct (length (bfilter is_numeric ordered) =? 0) eqn:E.
  - apply Nat.eqb_eq, length_zero_iff_nil in E. rewrite (proj2 (existsb_false _ _)); [by split|].
    by apply bfilter_nil.
  - destruct (omap numberOf (bfilter is_numeric ordered)) as [|x l] eqn:Hl.
    { destruct (bfilter is_numeric ordered) as [|c numeric] eqn:Hf; [done|]. exfalso.
      assert (c ∈ bfilter is_numeric ordered) as Hc by (rewrite Hf; apply list_elem_of_here).
      apply elem_of_bfilter in Hc as [Hn _]. apply bool_decide_eq_true in Hn as [n Hn].
      simpl in Hl. by rewrite Hn in Hl. }
    destruct (extremum_spec_list pick le x l Hpick Hle Hr Ht) as [Hin Hall]. simpl extremum.
    set (t := fold_left pick l x) in *. rewrite <- Hl in Hin.
    apply elem_of_numbers in Hin as (c & Hc & Hct).
    assert (existsb is_numeric ordered = true) as ->.
    { apply existsb_elem_of. exists c. split; [done|]. apply bool_decide_eq_true. by exists t. }
    set (hits := fun c => bool_decide (numberOf c = Some t)). cbn [merge_to mg_blocked mg_value mg_selected mg_rejected].
    assert (bfilter hits (bfilter is_numeric ordered) = bfilter hits ordered) as ->.
    { rewrite bfilter_bfilter. apply bfilter_ext. intros d _. unfold hits, is_numeric.
      destruct (numberOf d); [by rewrite bool_decide_true by eauto|]. by rewrite andb_comm, bool_decide_false. }
    split; [|etrans; [apply (bfilter_partition hits)|done]]. split; [done|]. exists t. split; [done|]. split.
    { intros Hn. assert (c ∈ bfilter hits ordered) as Hx; [|by rewrite Hn in Hx; apply not_elem_of_nil in Hx].
      apply elem_of_bfilter. split; [by apply bool_decide_eq_true|done]. }
    split; [intros d; rewrite elem_of_bfilter; unfold hits; rewrite bool_decide_eq_true, HP; tauto|].
    intros d n Hd Hn. apply Hall. rewrite <- Hl. apply elem_of_numbers. exists d. by rewrite HP.
Qed.

(** ** Lists *)

Lemma elem_of_assoc_set {A} k (v : A) l p : p ∈ assoc_set k v l -> p = (k, v) \/ p ∈ l.
Proof.
  induction l as [|[k' v'] l IH]; simpl; [rewrite list_elem_of_singleton; by left|].
  destruct (String.eqb k k') eqn:E; intros [->|Hp]%elem_of_cons; [by left| | |].
  - right. by apply list_elem_of_further.
  - right. apply list_elem_of_here.
  - destruct (IH Hp) as [?|?]; [by left|]. right. by apply list_elem_of_further.
Qed.

Lemma assoc_set_keys {A} k (v : A) l :
  List.map fst (assoc_set k v l) = if sin k (List.map fst l) then List.map fst l else List.map fst l ++ [k].
Proof.
  induction l as [|[k' v'] l IH]; simpl; [done|]. unfold sin in *. simpl.
  destruct (String.eqb k k') eqn:E; simpl.
  - by apply String.eqb_eq in E as ->.
  - rewrite IH. by destruct (existsb (String.eqb k) (List.map fst l)).
Qed.

Lemma NoDup_assoc_set {A} k (v : A) l :
  NoDup (List.map fst l) -> NoDup (List.map fst (assoc_set k v l)).
Proof.
  intros Hnd. rewrite assoc_set_keys. destruct (sin k (List.map fst l)) eqn:E; [done|].
  apply sin_false in E. apply NoDup_app. split; [done|]. split; [|apply NoDup_singleton].
  intros x Hx ->%list_elem_of_singleton. done.
Qed.

Lemma elem_of_assoc_set_keys {A} k (v : A) l x :
  x ∈ List.map fst (assoc_set k v l) <-> x = k \/ x ∈ List.map fst l.
Proof.
  rewrite assoc_set_keys. destruct (sin k (List.map fst l)) eqn:E.
  - apply sin_true in E. split; [by right|]. by intros [->|].
  - rewrite elem_of_app, list_elem_of_singleton. tauto.
Qed.

Lemma uniqueValues_spec l :
  NoDup (List.map fst (uniqueValues l)) /\
  (forall p, p ∈ uniqueValues l -> p.1 = stableSerialize p.2) /\
  (forall s, s ∈ List.map fst (uniqueValues l) <-> s ∈ List.map stableSerialize l).
Proof.
  unfold uniqueValues. induction l as [|v l IH] using rev_ind; simpl.
  - split; [constructor|]. split; [|done]. intros p Hp. by apply not_elem_of_nil in Hp.
  - rewrite fold_left_app, map_app. simpl. destruct IH as (Hnd & Hk & He). split; [by apply NoDup_assoc_set|]. split.
    + intros p [->|Hp]%elem_of_assoc_set; [done|by apply Hk].
    + intros s. rewrite elem_of_assoc_set_keys, He, elem_of_app, list_elem_of_singleton. tauto.
Qed.

Lemma uniqueSorted_keys l :
  List.map stableSerialize (uniqueSorted l) = js_sort locale_compare (List.map fst (uniqueValues l)).
Proof.
  unfold uniqueSorted. rewrite map_map.
  transitivity (List.map fst (js_sort (fun a b : string * jsval => locale_compare a.1 b.1) (uniqueValues l))).
  - apply List.map_ext_in. intros p Hp%list_elem_of_In. rewrite elem_of_js_sort in Hp.
    symmetry. by apply (uniqueValues_spec l).
  - symmetry. apply sort_by_map. done.
Qed.

Abbreviation in_order := (StronglySorted (fun a b => locale_compare a b <> Gt)).

Lemma sorted_in_order l : in_order (js_sort locale_compare l).
Proof.
  induction (js_sort_sorted locale_compare l) as [|x k Hk IH Hx]; [constructor|].
  apply StronglySorted_cons. split; [|done]. eapply Forall_impl; [exact Hx|]. intros y. apply leb_of_true.
Qed.

Lemma uniqueSorted_spec l :
  NoDup (List.map stableSerialize (uniqueSorted l)) /\
  in_order (List.map stableSerialize (uniqueSorted l)) /\
  forall s, s ∈ List.map stableSerialize (uniqueSorted l) <-> s ∈ List.map stableSerialize l.
Proof.
  rewrite uniqueSorted_keys. destruct (uniqueValues_spec l) as (Hnd & _ & He). split; [by rewrite js_sort_Permutation|].
  split; [apply sorted_in_order|]. intros s. by rewrite elem_of_js_sort, He.
Qed.

Lemma bfilter_in_order p l : in_order l -> in_order (bfilter p l).
Proof.
  induction 1 as [|x l Hl IH Hx]; simpl; [constructor|]. destruct (p x); [|done].
  apply StronglySorted_cons. split; [|done]. rewrite Forall_forall in *. intros y [_ Hy]%elem_of_bfilter. by apply Hx.
Qed.

Lemma map_bfilter {A B} (f : A -> B) (p : B -> bool) l :
  List.map f (bfilter (fun x => p (f x)) l) = bfilter p (List.map f l).
Proof. induction l as [|x l IH]; simpl; [done|]. by destruct (p (f x)); simpl; rewrite IH. Qed.

Lemma NoDup_bfilter {A} (p : A -> bool) l : NoDup l -> NoDup (bfilter p l).
Proof. rewrite !NoDup_ListNoDup. apply List.NoDup_filter. Qed.

Lemma same_true a b : same a b = true <-> stableSerialize a = stableSerialize b.
Proof. apply String.eqb_eq. Qed.

(** [s] is the serialization of an element of [c]. *)
Definition mentions (s : string) (c : Candidate) : bool :=
  existsb (fun x => String.eqb (stableSerialize x) s) (elements_of c).

Lemma mentions_true s c : mentions s c = true <-> s ∈ List.map stableSerialize (elements_of c).
Proof.
  unfold mentions. rewrite existsb_elem_of, list_elem_of_fmap. split; intros (x & Hx & Hs).
  - exists x. apply String.eqb_eq in Hs. done.
  - exists x. by rewrite Hx, String.eqb_refl.
Qed.

Lemma intersection_keys top rest :
  List.map stableSerialize
    (bfilter (fun item => forallb (fun c => existsb (fun x => same x item) (elements_of c)) rest)
       (uniqueSorted (elements_of top))) =
  bfilter (fun s => forallb (mentions s) rest) (List.map stableSerialize (uniqueSorted (elements_of top))).
Proof. rewrite <- map_bfilter. done. Qed.

Lemma mergeLists_spec intersection cs top rest : top :: rest ≡ₚ cs ->
  lists_spec intersection cs (mergeLists intersection top rest) /\
  mg_selected (mergeLists intersection top rest) ++ mg_rejected (mergeLists intersection top rest) ≡ₚ cs.
Proof.
  intros HP. unfold mergeLists, lists_spec. rewrite <- (forallb_Permutation is_list _ _ HP).
  destruct (existsb (fun c => negb (is_list c)) (top :: rest)) eqn:E.
  - apply existsb_elem_of in E as (c & Hc & Hl). assert (forallb is_list (top :: rest) = false) as ->; [|done].
    apply not_true_iff_false. rewrite forallb_elem_of. intros Ha. by rewrite Ha in Hl.
  - assert (forallb is_list (top :: rest) = true) as ->.
    { apply forallb_elem_of. intros c Hc. apply negb_false_iff. by apply (proj1 (existsb_false _ _) E c Hc). }
    cbn [merge_to mg_blocked mg_value mg_selected mg_rejected]. rewrite app_nil_r. split; [|done].
    split; [done|]. split; [done|]. eexists; split; [reflexivity|]. cbv zeta. destruct intersection.
    + rewrite intersection_keys. destruct (uniqueSorted_spec (elements_of top)) as (Hnd & Ho & He).
      split; [by apply NoDup_bfilter|]. split; [by apply bfilter_in_order|]. intros s.
      rewrite elem_of_bfilter, He, forallb_elem_of. setoid_rewrite mentions_true. setoid_rewrite <- HP.
      setoid_rewrite elem_of_cons. naive_solver.
    + destruct (uniqueSorted_spec (List.flat_map elements_of (top :: rest))) as (Hnd & Ho & He).
      split; [done|]. split; [done|]. intros s. rewrite He. setoid_rewrite <- HP.
      rewrite list_elem_of_fmap. setoid_rewrite list_elem_of_fmap. setoid_rewrite list_elem_of_In.
      setoid_rewrite in_flat_map. naive_solver.
Qed.

(** More than one distinct string. *)
Lemma dedup_several l : (1 <? length (dedup l)) = true <-> exists s t, s ∈ l /\ t ∈ l /\ s <> t.
Proof.
  rewrite Nat.ltb_lt. pose proof (NoDup_dedup l) as Hnd. setoid_rewrite <- (elem_of_dedup l). split.
  - destruct (dedup l) as [|s [|t k]]; simpl; [lia..|]. intros _. exists s, t.
    apply NoDup_cons in Hnd as [Hs _]. repeat split; [apply list_elem_of_here|apply list_elem_of_further, list_elem_of_here|].
    intros ->. apply Hs, list_elem_of_here.
  - intros (s & t & Hs & Ht & Hst). destruct (dedup l) as [|x [|y k]]; simpl; [|  |lia].
    + by apply not_elem_of_nil in Hs.
    + apply list_elem_of_singleton in Hs, Ht. congruence.
Qed.

Lemma mergeTop_spec cs top rest : top :: rest ≡ₚ cs -> is_top cs top ->
  top_spec cs (mergeTop top rest) /\ mg_selected (mergeTop top rest) ++ mg_rejected (mergeTop top rest) ≡ₚ cs.
Proof.
  intros HP Htop. unfold mergeTop. set (at_top := fun c => Z.eqb (cd_rank c) (cd_rank top)).
  assert (forall c, c ∈ bfilter at_top (top :: rest) <-> is_top cs c) as Hfin.
  { intros c. rewrite elem_of_bfilter, HP. unfold at_top. rewrite Z.eqb_eq. destruct Htop as [Hin Hmax]. split.
    - intros [Hr Hc]. split; [done|]. rewrite Hr. exact Hmax.
    - intros [Hc Hall]. split; [|done]. apply Z.le_antisymm; [by apply Hmax|by apply Hall]. }
  cbv zeta. destruct (1 <? length (dedup (List.map (fun c => stableSerialize (cd_value c)) (bfilter at_top (top :: rest)))))
    eqn:E.
  - split; [right; split; [by apply blocked_spec|]|done].
    apply dedup_several in E as (s & t & (c & -> & Hc)%list_elem_of_fmap & (d & -> & Hd)%list_elem_of_fmap & Hne).
    exists c, d. rewrite <- !Hfin. split; [done|]. split; [done|]. by apply string_eqb_false.
  - pose proof (proj2 (Hfin top) Htop) as Ht.
    destruct (bfilter at_top (top :: rest)) as [|first finalists] eqn:Hf; [by apply not_elem_of_nil in Ht|].
    split; [left|rewrite <- Hf; etrans; [apply (bfilter_partition at_top)|done]].
    split; [done|]. split; [|split; [exact Hfin|exists first; split; [apply Hfin, list_elem_of_here|done]]].
    intros c d Hc%Hfin Hd%Hfin. destruct (same (cd_value c) (cd_value d)) eqn:Hs; [done|].
    apply string_eqb_false in Hs. apply not_true_iff_false in E. destruct E. apply dedup_several.
    exists (stableSerialize (cd_value c)), (stableSerialize (cd_value d)).
    pose proof (fun c => list_elem_of_fmap_2 (fun c => stableSerialize (cd_value c)) (first :: finalists) c) as Hmap.
    split; [by apply Hmap|]. split; [by apply Hmap|done].
Qed.

Lemma operators_cases op : sin op GROWTH_CONTROL_MERGE_OPERATORS = true ->
  forall cs, mergeConfigurationCandidates cs (VStr op) =
    match js_sort candidate_compare cs with
    | [] => merge_to VUndef [] []
    | top :: rest =>
        if String.eqb op "deny_wins" then mergeDeny top rest
        else if String.eqb op "minimum" then mergeExtremum Z.min (top :: rest)
        else if String.eqb op "maximum" then mergeExtremum Z.max (top :: rest)
        else if sin op ["strict_intersection"; "guarded_union"; "append_unique"]
        then mergeLists (String.eqb op "strict_intersection") top rest
        else mergeTop top rest
    end.
Proof. intros Hop cs. unfold mergeConfigurationCandidates. by rewrite Hop. Qed.

(** C10: what a merge of the candidates of a field yields, for each operator of
    the merge profile: a denial from any scope wins; the minimum and the maximum
    are bounds of the numeric candidates that one of them attains; the lists
    combine to the intersection or the union of their elements, in order and
    once each; and otherwise the closest scope decides, a disagreement within it
    being a conflict.  Nothing is lost, each candidate being selected or
    rejected, and the outcome does not depend on the order in which the
    candidates come, when two that tie are the same one. *)
Theorem mergeConfigurationCandidates_correct op candidates :
  candidates <> [] -> versioned candidates -> sin op GROWTH_CONTROL_MERGE_OPERATORS = true ->
  let m := mergeConfigurationCandidates candidates (VStr op) in
  merge_spec op candidates m /\ mg_selected m ++ mg_rejected m ≡ₚ candidates /\
  forall candidates', candidates' ≡ₚ candidates ->
    (forall c c', c ∈ candidates -> c' ∈ candidates -> candidate_compare c c' = Eq -> c = c') ->
    mergeConfigurationCandidates candidates' (VStr op) = m.
Proof.
  intros Hne Hv Hop m. apply and_assoc. split.
  - unfold m. rewrite operators_cases by done. unfold merge_spec.
    pose proof (js_sort_Permutation candidate_compare candidates) as HP. pose proof (sorted_head candidates) as Hhead.
    destruct (js_sort candidate_compare candidates) as [|top rest]; [by apply Permutation_nil in HP|].
    specialize (Hhead top rest Hv eq_refl).
    destruct (String.eqb op "deny_wins"); [by apply mergeDeny_spec|].
    destruct (String.eqb op "minimum"); [apply mergeExtremum_spec; [done|lia|lia|intros ?; lia|intros ???; lia]|].
    destruct (String.eqb op "maximum"); [apply mergeExtremum_spec; [done|lia|lia|intros ?; lia|intros ???; lia]|].
    destruct (sin op ["strict_intersection"; "guarded_union"; "append_unique"]); [by apply mergeLists_spec|by apply mergeTop_spec].
  - intros cs HP Heq. unfold m. rewrite !operators_cases by done.
    assert (js_sort candidate_compare cs = js_sort candidate_compare candidates) as ->; [|done].
    assert (versioned cs) as Hv' by (by rewrite HP).
    rewrite !compare_total by done. apply js_sort_ext_perm; [apply _| |done].
    intros c c' Hc Hc' He. apply Heq; [by rewrite <- HP..|]. rewrite Forall_forall in Hv'.
    destruct (Hv' c Hc) as [v Ev], (Hv' c' Hc') as [v' Ev'].
    unfold total_compare, version_order in He. unfold candidate_compare. by rewrite Ev, Ev' in *.
Qed.
End Merge.

Section Resolve.
Context `{JsHost} `{RegExpEngine}.

(** ** Scopes of versions *)

(** The version belongs to a scope of the hierarchy. *)
Definition in_scope (scopeHierarchy : list Scope) (version : jsval) : bool :=
  existsb (fun s => is_str (scopeKeyOf version) (sc_scopeKey s)) scopeHierarchy.

Definition sourceOf (version : jsval) : string := js_String (either version "configVersionId" "config_version_id").

Lemma find_none {A} (p : A -> bool) l : List.find p l = None <-> existsb p l = false.
Proof. induction l as [|x l IH]; simpl; [done|]. by destruct (p x). Qed.

Lemma find_ext {A} (p q : A -> bool) l : (forall x, p x = q x) -> List.find p l = List.find q l.
Proof. intros He. induction l as [|x l IH]; simpl; [done|]. by rewrite He, IH. Qed.

Lemma rankOf_in_scope scopeHierarchy version :
  in_scope scopeHierarchy version = false <-> rankOf scopeHierarchy (scopeKeyOf version) = None.
Proof.
  unfold in_scope, rankOf. destruct (scopeKeyOf version) as [| | | |k| | |];
    try (split; [done|]; intros _; apply existsb_false; done).
  rewrite (existsb_Permutation _ _ _ (Permutation_rev scopeHierarchy)), fmap_None, <- find_none.
  assert (List.find (fun s => is_str (VStr k) (sc_scopeKey s)) (rev scopeHierarchy) =
          List.find (fun s => String.eqb (sc_scopeKey s) k) (rev scopeHierarchy)) as ->; [|done].
  apply find_ext. intros s. apply String.eqb_sym.
Qed.

Lemma addVersion_out_of_scope scopeHierarchy fields version :
  nullish version = false -> in_scope scopeHierarchy version = false ->
  addVersion scopeHierarchy fields version = Ok fields.
Proof. intros Hn Hs. unfold addVersion. rewrite Hn. by rewrite (proj1 (rankOf_in_scope _ _) Hs). Qed.

Lemma versions_in_scope scopeHierarchy versions fields :
  Forall (fun v => nullish v = false) versions ->
  foldM_js (addVersion scopeHierarchy) fields versions =
  foldM_js (addVersion scopeHierarchy) fields (bfilter (in_scope scopeHierarchy) versions).
Proof.
  intros Hn. revert fields. induction Hn as [|v versions Hv Hn IH]; intros fields; simpl; [done|].
  destruct (in_scope scopeHierarchy v) eqn:Hs; simpl.
  - destruct (addVersion scopeHierarchy fields v); [apply IH|done].
  - rewrite addVersion_out_of_scope by done. apply IH.
Qed.

(** ** Where the candidates come from *)

(** The candidate is a default, or has the source of a version that [P] holds
    of. *)
Definition from (P : jsval -> Prop) (c : Candidate) : Prop :=
  js_endsWith (cd_sourceId c) ":default" = true \/ exists v, P v /\ cd_sourceId c = sourceOf v.

Definition all_from (P : jsval -> Prop) (fields : Fields) : Prop :=
  forall p c, p ∈ fields -> c ∈ p.2 -> from P c.

Lemma endsWith_app s t : js_endsWith (s +:+ t) t = true.
Proof.
  induction s as [|a s IH]; simpl.
  - destruct t; simpl; [done|]. by rewrite Ascii.eqb_refl, String.eqb_refl.
  - rewrite IH. by rewrite orb_true_r.
Qed.

Lemma assoc_get_elem {A} k (l : list (string * A)) v : assoc_get k l = Some v -> exists p, p ∈ l /\ p.2 = v.
Proof.
  induction l as [|[k' v'] l IH]; simpl; [done|]. destruct (String.eqb k k').
  - intros [= ->]. eexists. split; [apply list_elem_of_here|done].
  - intros (p & Hp & Hv)%IH. exists p. split; [by apply list_elem_of_further|done].
Qed.

Lemma all_from_push P fields key c : all_from P fields -> from P c -> all_from P (pushCandidate fields key c).
Proof.
  intros Hf Hc p d [->|Hp]%elem_of_assoc_set; [|by apply Hf]. cbn [snd].
  intros [Hd|Hd%list_elem_of_singleton]%elem_of_app; [|by subst].
  destruct (assoc_get key fields) as [cs|] eqn:E; [|by apply not_elem_of_nil in Hd].
  apply assoc_get_elem in E as (q & Hq & <-). by eapply Hf.
Qed.

Lemma fold_left_inv {A S} (I : S -> Prop) (f : S -> A -> S) l s :
  I s -> (forall s x, x ∈ l -> I s -> I (f s x)) -> I (fold_left f l s).
Proof.
  revert s. induction l as [|x l IH]; intros s Hs Hstep; simpl; [done|].
  apply IH; [apply Hstep; [apply list_elem_of_here|done]|]. intros s' y Hy. apply Hstep. by apply list_elem_of_further.
Qed.

Lemma all_from_defaults P configKey revision defaults : all_from P (defaultFields configKey revision defaults).
Proof.
  unfold defaultFields. apply fold_left_inv.
  - intros p c Hp. by apply not_elem_of_nil in Hp.
  - intros fields q _ Hf p c [->|Hp]%elem_of_assoc_set; [|by apply Hf]. cbn [snd].
    intros ->%list_elem_of_singleton. left. apply endsWith_app.
Qed.

Lemma all_from_versions scopeHierarchy versions fields fields' :
  let P v := v ∈ versions /\ in_scope scopeHierarchy v = true in
  all_from P fields -> foldM_js (addVersion scopeHierarchy) fields versions = Ok fields' -> all_from P fields'.
Proof.
  intros P Hf. apply (foldM_js_inv (all_from P)); [done|]. clear fields fields' Hf.
  intros fields v fields' Hv Hf Hadd. unfold addVersion in Hadd. apply bind_Ok in Hadd as (_ & _ & Hadd).
  apply Ok_inj in Hadd as <-. destruct (rankOf scopeHierarchy (scopeKeyOf v)) as [rank|] eqn:Hr; [|done].
  assert (in_scope scopeHierarchy v = true) as Hs.
  { apply not_false_iff_true. intros Hs. apply rankOf_in_scope in Hs. congruence. }
  apply fold_left_inv; [done|]. intros fs q _ Hfs. apply all_from_push; [done|]. right. by exists v.
Qed.

(** The sources of the revision vector. *)
Lemma recordRevisions_from (P : jsval -> Prop) versions cs :
  (forall s x, (s, x) ∈ versions -> exists v, P v /\ s = sourceOf v) -> (forall c, c ∈ cs -> from P c) ->
  forall s x, (s, x) ∈ recordRevisions versions cs -> exists v, P v /\ s = sourceOf v.
Proof.
  intros Hv Hc. unfold recordRevisions.
  apply (fold_left_inv (fun vs : jsobj => forall s x, (s, x) ∈ vs -> exists v, P v /\ s = sourceOf v)); [done|].
  intros vs c Hin Hvs s x. destruct (js_endsWith (cd_sourceId c) ":default") eqn:E; [by apply Hvs|].
  intros [Heq|Hp]%elem_of_assoc_set; [|by eapply Hvs]. injection Heq as -> ->.
  destruct (Hc c Hin) as [Hd|Hd]; [congruence|done].
Qed.

Lemma effectiveOf_Ok configKey revision schema mergeProfile ordered e :
  effectiveOf configKey revision schema mergeProfile ordered = Ok e ->
  ef_versions e = fold_left (fun v p => recordRevisions v p.2) ordered [] /\
  (ef_blocked e = false -> validateValueAgainstSchema (VObj (ef_values e)) schema "$" = Ok []).
Proof.
  unfold effectiveOf. intros He. apply bind_Ok in He as (issues & Hi & He). apply Ok_inj in He as <-.
  split; [done|]. cbn [ef_blocked ef_values]. intros Hb. rewrite Hi. f_equal.
  destruct issues as [|i issues]; [done|]. exfalso. revert Hb. rewrite length_app. simpl.
  rewrite Nat.add_1_r. done.
Qed.

Lemma bind_ext {A B} (m : js A) (k k' : A -> js B) : (forall a, k a = k' a) -> (a ← m; k a) = (a ← m; k' a).
Proof. intros He. destruct m; [apply He|done]. Qed.

(** C23: the effective configuration of a scope hierarchy is isolated from the
    rest: the versions of other scopes have no part in it, whatever they hold,
    so that the result is that of the versions in scope alone; every version
    that its revision vector records is one of those; and when it is not
    blocked its values meet the schema of the definition. *)
Theorem resolveEffectiveConfiguration_isolated definition versions scopeHierarchy :
  Forall (fun v => nullish v = false) versions ->
  resolveEffectiveConfiguration definition versions scopeHierarchy =
    resolveEffectiveConfiguration definition (bfilter (in_scope scopeHierarchy) versions) scopeHierarchy /\
  forall e, resolveEffectiveConfiguration definition versions scopeHierarchy = Ok e ->
    (forall source revision, (source, revision) ∈ ef_versions e ->
      exists v, (v ∈ versions /\ in_scope scopeHierarchy v = true) /\ source = sourceOf v) /\
    (ef_blocked e = false ->
      validateValueAgainstSchema (VObj (ef_values e)) (either definition "schema" "schema_json") "$" = Ok []).
Proof.
  intros Hn. split.
  { unfold resolveEffectiveConfiguration. apply bind_ext. intros configKey. cbv zeta. do 2 (apply bind_ext; intros _).
    by rewrite (versions_in_scope scopeHierarchy versions). }
  intros e He. unfold resolveEffectiveConfiguration in He. apply bind_Ok in He as (configKey & _ & He).
  cbv zeta in He. apply bind_Ok in He as (_ & _ & He). apply bind_Ok in He as (_ & _ & He).
  apply bind_Ok in He as (fields & Hf & He). apply effectiveOf_Ok in He as [Hvs Hb]. split; [|done].
  apply (all_from_versions scopeHierarchy versions) in Hf; [|apply all_from_defaults]. rewrite Hvs.
  apply (fold_left_inv (fun vs : jsobj => forall s x, (s, x) ∈ vs ->
    exists v, (v ∈ versions /\ in_scope scopeHierarchy v = true) /\ s = sourceOf v)).
  - intros s x Hx. by apply not_elem_of_nil in Hx.
  - intros vs p Hp Hvs'. apply recordRevisions_from; [done|]. intros c Hc. eapply Hf; [|exact Hc].
    by rewrite elem_of_js_sort in Hp.
Qed.
End Resolve.

(** ** Examples *)

Definition demo_candidate (rank : Z) (source : string) (value : jsval) : Candidate :=
  {| cd_value := value; cd_rank := rank; cd_versionNumber := Some 1%Z; cd_sourceId := source;
     cd_scopeKey := source; cd_revision := Some 1%Z |}.

Definition demo_lists : list Candidate :=
  [demo_candidate 0 "platform" (VArr [VStr "email"; VStr "sms"]);
   demo_candidate 3 "tenant:t1" (VArr [VStr "push"; VStr "sms"])].

Lemma mergeConfigurationCandidates_correct_witness :
  let m := mergeConfigurationCandidates (H:=demo_host) demo_lists (VStr "strict_intersection") in
  mg_value m = VArr [VStr "sms"] /\ mg_selected m ++ mg_rejected m ≡ₚ demo_lists.
Proof.
  split; [vm_compute; reflexivity|].
  refine (proj1 (proj2 (mergeConfigurationCandidates_correct (H:=demo_host) (H0:=demo_host_laws)
    "strict_intersection" demo_lists _ _ eq_refl))); [discriminate|].
  repeat constructor; by eexists.
Defined.

(** An engine for schemas without patterns that fail. *)
Definition demo_regexp : RegExpEngine := {| regexp_test := fun _ _ => Ok true |}.

Definition demo_definition : jsval := VObj
  [("configKey", VStr "growth.channels");
   ("schema", VObj [("type", VStr "object");
                    ("properties", VObj [("limit", VObj [("type", VStr "integer"); ("maximum", VNum (Some 10%Z))])])]);
   ("defaultValues", VObj [("limit", VNum (Some 9%Z))]); ("mergeProfile", VObj [("limit", VStr "minimum")])].

Definition demo_config (id scopeKey : string) (n : Z) : jsval := VObj
  [("configVersionId", VStr id); ("scopeKey", VStr scopeKey); ("values", VObj [("limit", VNum (Some n))])].

(** The platform and one tenant. *)
Definition demo_hierarchy : list Scope :=
  [Build_Scope platform None None None None None None None VNull None None None "platform" 0;
   Build_Scope tenant (Some "t1") None None None None None None VNull None None None "tenant:t1" 2].

Definition no_effective : Effective :=
  Build_Effective "" [] [] None [] [] true "".

Definition demo_resolve (versions : list jsval) : Effective :=
  catch (resolveEffectiveConfiguration (H:=demo_host) (H0:=demo_regexp) demo_definition versions demo_hierarchy)
    no_effective.

(** The version of another tenant would have set the least limit. *)
Lemma resolveEffectiveConfiguration_isolated_witness :
  let versions := [demo_config "v1" "platform" 7; demo_config "v2" "tenant:t2" 1; demo_config "v3" "tenant:t1" 5] in
  ef_values (demo_resolve versions) = [("limit", VNum (Some 5%Z))] /\
  ef_blocked (demo_resolve versions) = false /\
  demo_resolve versions = demo_resolve [demo_config "v1" "platform" 7; demo_config "v3" "tenant:t1" 5].
Proof.
  cbv zeta. split; [vm_compute; reflexivity|]. split; [vm_compute; reflexivity|]. unfold demo_resolve.
  apply (f_equal (fun m => catch m no_effective)).
  refine (proj1 (resolveEffectiveConfiguration_isolated (H:=demo_host) (H0:=demo_regexp) demo_definition _
    demo_hierarchy _)). repeat constructor.
Defined.
End GrowthConfig.
