(* ===== verification/ActivityPack.v ===== *)
(** * Growth control plane: activity packs
    (src/domain/growthControlPlane/growthControlPlane.js)

    The manifest of an activity pack declares entity schemas, KPIs,
    capabilities, workflows, policies and providers that refer to one another
    by key.  Proved: the depth-first search over the dependencies of a workflow
    ends, and finds a cycle exactly when there is one; and what holds of the
    workflows of a manifest that is accepted. *)
From stdpp Require Import gmap strings.
From S2P Require Import Prelude Sorting JsString JsDate JsValue JsJson GrowthControl GrowthConfig.

Module ActivityPack.
Import GrowthControl GrowthConfig.

(** ** Details *)

(** A computation that pushes to [details]. *)
Definition logged (A : Type) : Type := A * list jsobj.

#[export] Instance logged_ret : MRet logged := fun _ a => (a, []).
#[export] Instance logged_bind : MBind logged := fun _ _ k m => ((k m.1).1, m.2 ++ (k m.1).2).

Definition push (detail : jsobj) : logged unit := (tt, [detail]).
Definition push_all (details : list jsobj) : logged unit := (tt, details).
Definition push_if (c : bool) (detail : jsobj) : logged unit := if c then push detail else mret tt.

(** [{ field, issue, key }] *)
Definition key_issue (field name key : string) : jsobj := issue field name ++ [("key", VStr key)].

(** [l.forEach((entry, index) => f(index, entry))] *)
Fixpoint for_each {A} (f : nat -> A -> logged unit) (index : nat) (l : list A) : logged unit :=
  match l with
  | [] => mret tt
  | entry :: rest => f index entry;; for_each f (S index) rest
  end.

(** [isPlainObject(value)] *)
Definition isPlainObject (value : jsval) : bool := is_record value.

(** [set.add(key)] *)
Definition set_add (key : string) (keys : list string) : list string :=
  if sin key keys then keys else keys ++ [key].

(** ** The dependencies of a workflow *)

Abbreviation Graph := (list (string * list string)).

(** [state.get(nodeId)]: 1 and 2 *)
Inductive Mark := visiting | visited.

Abbreviation Marks := (gmap string Mark).

(** The calls of [visit] for the nodes in turn, until one returns [true]. *)
Fixpoint visit_some (visit : string -> Marks -> option (bool * Marks)) (nodes : list string) (state : Marks)
    : option (bool * Marks) :=
  match nodes with
  | [] => Some (false, state)
  | node :: rest =>
      match visit node state with
      | Some (false, state) => visit_some visit rest state
      | r => r
      end
  end.

(** [visit(nodeId)]; the fuel bounds the depth of the recursion. *)
Fixpoint visit (fuel : nat) (nodeDependencies : Graph) (nodeId : string) (state : Marks) : option (bool * Marks) :=
  match fuel with
  | O => None
  | S fuel =>
      match state !! nodeId with
      | Some visiting => Some (true, state)
      | Some visited => Some (false, state)
      | None =>
          match visit_some (fun dependency state =>
                  if sin dependency (List.map fst nodeDependencies)
                  then visit fuel nodeDependencies dependency state else Some (false, state))
                  (default [] (assoc_get nodeId nodeDependencies)) (<[nodeId := visiting]> state) with
          | Some (false, state) => Some (false, <[nodeId := visited]> state)
          | r => r
          end
      end
  end.

(** [nodeDependencies.keys().some(visit)], with fuel for every node *)
Definition search_cycle (nodeDependencies : Graph) : option (bool * Marks) :=
  visit_some (visit (S (length nodeDependencies)) nodeDependencies) (List.map fst nodeDependencies) ∅.

Definition activityPackWorkflowHasCycle (nodeDependencies : Graph) : bool :=
  match search_cycle nodeDependencies with Some (b, _) => b | None => false end.

(** ** Pointers *)

(** [key.replace(/([a-z0-9])([A-Z])/g, "$1_$2")], after a character that is
    [[a-z0-9]] or not. *)
Fixpoint split_words (after : bool) (key : string) : string :=
  match key with
  | EmptyString => ""
  | String c rest =>
      if after && is_upper c then "_" +:+ String c (split_words false rest)
      else String c (split_words (is_lower c || is_digit c) rest)
  end.

Definition forbidden_pointers : list string :=
  ["file_path"; "file_paths"; "drive_id"; "drive_ids"; "prompt_body"; "prompt_bodies"].

Definition forbidden_key (key : string) : bool := sin (js_toLowerCase (split_words false key)) forbidden_pointers.

(** A value shares nothing and has no cycle. *)
Fixpoint collectForbiddenActivityPackPointers (value : jsval) (path : string) : list jsobj :=
  match value with
  | VArr l =>
      (fix go (index : nat) (l : list jsval) : list jsobj :=
         match l with
         | [] => []
         | entry :: rest => collectForbiddenActivityPackPointers entry (at_index path index) ++ go (S index) rest
         end) 0 l
  | VObj o =>
      List.flat_map (fun p =>
        (if forbidden_key p.1 then [issue (path +:+ "." +:+ p.1) "inline_pointer_forbidden"] else [])
        ++ collectForbiddenActivityPackPointers p.2 (path +:+ "." +:+ p.1)) o
  | _ => []
  end.

(** [canonicalize(value)] *)
Fixpoint canonicalizeValue (value : jsval) : jsval :=
  match value with
  | VArr l => VArr (List.map canonicalizeValue l)
  | VObj o => VObj (own_order (sort_entries (List.map (fun p => (p.1, canonicalizeValue p.2)) o)))
  | VDate _ => VObj []
  | v => v
  end.

Record Item := { it_entry : jsval; it_index : nat; it_key : string }.
Record KeySet := { ks_keys : list string; ks_items : list Item }.
Record Workflow := { wf_nodeIds : list string; wf_dependencies : Graph }.

Section Pack.
Context `{JsHost}.

(** ** Keys and references *)

Definition activityPackCanonicalKey (value : jsval) (field : string) : logged (option string) :=
  match clean value with
  | Some normalized =>
      if is_canonical_key normalized then mret (Some normalized)
      else push (issue field "invalid_canonical_key");; mret None
  | None => push (issue field "invalid_canonical_key");; mret None
  end.

Definition activityPackEntryKey (entry : jsval) (aliases : list string) (field : string) : logged (option string) :=
  match entry with
  | VStr _ => activityPackCanonicalKey entry field
  | _ =>
      if negb (isPlainObject entry) then push (issue field "must_be_string_or_object");; mret None
      else
        activityPackCanonicalKey
          (default VUndef (List.find (fun candidate => negb (nullish candidate)) (List.map (vget entry) aliases)))
          field
  end.

Fixpoint keySetLoop (field : string) (aliases : list string) (set : KeySet) (index : nat) (entries : list jsval)
    : logged KeySet :=
  match entries with
  | [] => mret set
  | entry :: rest =>
      key ← activityPackEntryKey entry aliases (at_index field index);
      match key with
      | None => keySetLoop field aliases set (S index) rest
      | Some key =>
          push_if (sin key (ks_keys set)) (key_issue (at_index field index) "duplicate_key" key);;
          keySetLoop field aliases
            {| ks_keys := set_add key (ks_keys set);
               ks_items := ks_items set ++ [{| it_entry := entry; it_index := index; it_key := key |}] |}
            (S index) rest
      end
  end.

Definition activityPackKeySet (entries : jsval) (field : string) (aliases : list string) : logged KeySet :=
  let none := {| ks_keys := []; ks_items := [] |} in
  match entries with
  | VArr l => keySetLoop field aliases none 0 l
  | _ => mret none
  end.

Fixpoint referenceLoop (field : string) (known : option (list string)) (name : string) (seen : list string)
    (index : nat) (entries : list jsval) : logged (list string) :=
  match entries with
  | [] => mret []
  | entry :: rest =>
      key ← activityPackCanonicalKey entry (at_index field index);
      match key with
      | None => referenceLoop field known name seen (S index) rest
      | Some key =>
          push_if (sin key seen) (key_issue (at_index field index) "duplicate_reference" key);;
          push_if (match known with Some known => negb (sin key known) | None => false end)
            (key_issue (at_index field index) name key);;
          normalized ← referenceLoop field known name (set_add key seen) (S index) rest;
          mret (key :: normalized)
      end
  end.

Definition activityPackReferenceList (value : jsval) (field : string) (known : option (list string)) (name : string)
    : logged (list string) :=
  match value with
  | VUndef | VNull => mret []
  | VArr l => referenceLoop field known name [] 0 l
  | _ => push (issue field "must_be_array");; mret []
  end.

(** [version != null && (!Number.isInteger(Number(version)) || Number(version) < 1)] *)
Definition bad_version (version : jsval) : bool :=
  negb (nullish version) && match js_Number version with Some n => Z.ltb n 1 | None => true end.

(** [v.a ?? v.b ?? v.c] *)
Definition any_of (v : jsval) (a b c : string) : jsval := js_coalesce (either v a b) (vget v c).

(** ** Workflows *)

(** One iteration of the loop over the nodes. *)
Definition addNode (field : string) (capabilityKeys : list string) (nodeIndex : nat) (w : Workflow) (node : jsval)
    : logged Workflow :=
  let nodeField := at_index (field +:+ ".nodes") nodeIndex in
  if negb (isPlainObject node) then push (issue nodeField "must_be_object");; mret w
  else
    nodeId ← activityPackCanonicalKey (vget node "id") (nodeField +:+ ".id");
    match nodeId with
    | None => mret w
    | Some nodeId =>
        push_if (sin nodeId (wf_nodeIds w)) (key_issue (nodeField +:+ ".id") "duplicate_node_id" nodeId);;
        capabilityKey ← activityPackCanonicalKey (any_of node "capability" "capabilityKey" "capability_key")
                          (nodeField +:+ ".capability");
        push_all (match capabilityKey with
                  | Some key => if negb (sin key capabilityKeys)
                                then [key_issue (nodeField +:+ ".capability") "unknown_capability_reference" key] else []
                  | None => []
                  end);;
        dependencies ← activityPackReferenceList (js_coalesce (either node "dependsOn" "depends_on") (VArr []))
                         (nodeField +:+ ".dependsOn") None "unknown_node_reference";
        mret {| wf_nodeIds := set_add nodeId (wf_nodeIds w);
                wf_dependencies := assoc_set nodeId dependencies (wf_dependencies w) |}
    end.

Fixpoint nodeLoop (field : string) (capabilityKeys : list string) (nodeIndex : nat) (w : Workflow) (nodes : list jsval)
    : logged Workflow :=
  match nodes with
  | [] => mret w
  | node :: rest => w ← addNode field capabilityKeys nodeIndex w node; nodeLoop field capabilityKeys (S nodeIndex) w rest
  end.

(** The dependencies of one node that are not nodes, or are the node itself. *)
Definition dependencyIssues (field : string) (nodeIds : list string) (p : string * list string) : list jsobj :=
  List.flat_map (fun dependency =>
    (if negb (sin dependency nodeIds)
     then [key_issue (field +:+ ".nodes." +:+ p.1 +:+ ".dependsOn") "unknown_node_reference" dependency] else [])
    ++ (if String.eqb dependency p.1
        then [key_issue (field +:+ ".nodes." +:+ p.1 +:+ ".dependsOn") "self_dependency" dependency] else [])) p.2.

Definition validateActivityPackWorkflow (workflow : jsval) (index : nat) (capabilityKeys : list string) : logged unit :=
  let field := at_index "workflows" index in
  if negb (isPlainObject workflow) then mret tt
  else
    push_if (bad_version (vget workflow "version")) (issue (field +:+ ".version") "must_be_positive_integer");;
    match vget workflow "nodes" with
    | VArr nodes =>
        w ← nodeLoop field capabilityKeys 0 {| wf_nodeIds := []; wf_dependencies := [] |} nodes;
        push_all (List.flat_map (dependencyIssues field (wf_nodeIds w)) (wf_dependencies w));;
        push_if (activityPackWorkflowHasCycle (wf_dependencies w)) (issue (field +:+ ".nodes") "workflow_cycle")
    | _ => push (issue (field +:+ ".nodes") "must_be_array")
    end.

Definition validateActivityPackCompatibilityEntries (items : list Item) (field : string)
    (capabilityKeys workflowKeys : list string) : logged unit :=
  for_each (fun _ item =>
    if negb (isPlainObject (it_entry item)) then mret tt
    else
      let itemField := at_index field (it_index item) in
      activityPackReferenceList (any_of (it_entry item) "capabilities" "capabilityKeys" "capability_keys")
        (itemField +:+ ".capabilities") (Some capabilityKeys) "unknown_capability_reference";;
      activityPackReferenceList (any_of (it_entry item) "workflows" "workflowKeys" "workflow_keys")
        (itemField +:+ ".workflows") (Some workflowKeys) "unknown_workflow_reference";;
      mret tt) 0 items.

(** ** Manifests *)

(** The checks of one entity schema; what [validateSchemaDefinition] throws is
    caught, and reported by its details when it has some. *)
Definition entitySchemaIssues (p : string * jsval) : logged unit :=
  activityPackCanonicalKey (VStr p.1) ("entitySchemas." +:+ p.1);;
  push_all (match validateSchemaIn false p.2 ("$.entitySchemas." +:+ p.1) with
            | Ok _ => []
            | Throw (CodedErr _ _ _ [("details", VArr ((_ :: _) as details))]) => List.map spread details
            | Throw _ => [issue ("entitySchemas." +:+ p.1) "invalid_schema"]
            end).

(** A reference of a compatibility declaration. *)
Definition declaredReference (value : jsval) (field name : string) (known : list string) : logged unit :=
  if nullish value then mret tt
  else
    normalized ← activityPackCanonicalKey value field;
    push_all (match normalized with
              | Some key => if negb (sin key known) then [key_issue field name key] else []
              | None => []
              end).

Definition declarationIssues (capabilities workflows providers : list string) (index : nat) (declaration : jsval)
    : logged unit :=
  let field := at_index "tests.compatibilityDeclarations" index in
  if negb (isPlainObject declaration) then push (issue field "must_be_object")
  else
    declaredReference (either declaration "capabilityKey" "capability_key") (field +:+ ".capabilityKey")
      "unknown_capability_reference" capabilities;;
    declaredReference (either declaration "workflowKey" "workflow_key") (field +:+ ".workflowKey")
      "unknown_workflow_reference" workflows;;
    declaredReference (either declaration "providerKey" "provider_key") (field +:+ ".providerKey")
      "unknown_provider_reference" providers.

(** The checks of the parts that are not keyed lists. *)
Definition sectionIssues (manifest : jsval) : logged unit :=
  push_all (List.map (fun field => issue field "required")
    (bfilter (fun key => negb (has_own manifest key))
      ["entitySchemas"; "knowledgeProfile"; "kpiTaxonomy"; "capabilities"; "workflows"; "policies";
       "providerCompatibility"; "tests"]));;
  push_all (List.map (fun field => issue field "must_be_array")
    (bfilter (fun key => has_own manifest key && negb (bool_decide (is_Some (as_array (vget manifest key)))))
      ["kpiTaxonomy"; "capabilities"; "workflows"; "policies"; "providerCompatibility"]));;
  (if negb (isPlainObject (vget manifest "entitySchemas")) then push (issue "entitySchemas" "must_be_object")
   else for_each (fun _ => entitySchemaIssues) 0 (spread (vget manifest "entitySchemas")));;
  (if negb (isPlainObject (vget manifest "knowledgeProfile")) then push (issue "knowledgeProfile" "must_be_object")
   else activityPackCanonicalKey (either (vget manifest "knowledgeProfile") "pointerKey" "pointer_key")
          "knowledgeProfile.pointerKey";; mret tt);;
  (if negb (isPlainObject (vget manifest "tests")) then push (issue "tests" "must_be_object")
   else activityPackReferenceList (vget (vget manifest "tests") "fixtures") "tests.fixtures" None
          "unknown_fixture_reference";; mret tt);;
  let identity := vget manifest "identity" in
  push_if (negb (nullish identity) && negb (isPlainObject identity)) (issue "identity" "must_be_object");;
  if isPlainObject identity then
    activityPackCanonicalKey (either identity "activityPackKey" "activity_pack_key") "identity.activityPackKey";;
    push_if (bad_version (vget identity "version")) (issue "identity.version" "must_be_positive_integer")
  else mret tt.

(** The checks of the keyed lists, which refer to one another. *)
Definition keyedIssues (manifest : jsval) : logged unit :=
  kpis ← activityPackKeySet (vget manifest "kpiTaxonomy") "kpiTaxonomy" ["kpiKey"; "kpi_key"];
  capabilities ← activityPackKeySet (vget manifest "capabilities") "capabilities" ["capabilityKey"; "capability_key"];
  workflows ← activityPackKeySet (vget manifest "workflows") "workflows" ["workflowKey"; "workflow_key"];
  policies ← activityPackKeySet (vget manifest "policies") "policies" ["policyKey"; "policy_key"];
  providers ← activityPackKeySet (vget manifest "providerCompatibility") "providerCompatibility"
                ["providerKey"; "provider_key"];
  for_each (fun _ item =>
    if negb (isPlainObject (it_entry item)) then mret tt
    else push_if (bad_version (vget (it_entry item) "version"))
           (issue (at_index "capabilities" (it_index item) +:+ ".version") "must_be_positive_integer"))
    0 (ks_items capabilities);;
  for_each (fun _ item => validateActivityPackWorkflow (it_entry item) (it_index item) (ks_keys capabilities))
    0 (ks_items workflows);;
  validateActivityPackCompatibilityEntries (ks_items policies) "policies" (ks_keys capabilities) (ks_keys workflows);;
  validateActivityPackCompatibilityEntries (ks_items providers) "providerCompatibility" (ks_keys capabilities)
    (ks_keys workflows);;
  match vget (vget manifest "tests") "compatibilityDeclarations" with
  | VArr l => for_each (declarationIssues (ks_keys capabilities) (ks_keys workflows) (ks_keys providers)) 0 l
  | v => push_if (negb (nullish v)) (issue "tests.compatibilityDeclarations" "must_be_array")
  end.

Definition manifestIssues (manifest : jsval) : logged unit :=
  sectionIssues manifest;; keyedIssues manifest;;
  push_all (collectForbiddenActivityPackPointers manifest "$").

(** The canonical manifest and its checksum. *)
Definition validateActivityPackManifest (manifest : jsval) : js (jsval * string) :=
  manifest ← object_param manifest;
  assertNoSecretFields manifest;;
  let details := (manifestIssues manifest).2 in
  throw_if (0 <? length details)
    (GrowthControlPlaneError "GROWTH_CONTROL_ACTIVITY_PACK_INVALID"
       "Activity Pack manifest is incomplete or invalid." 422 details);;
  Ok (canonicalizeValue manifest, stableSha256 manifest).

(** ** Bindings *)

Record BrandActivityBinding := {
  bb_tenantId : option string;
  bb_workspaceId : option string;
  bb_brandKey : option string;
  bb_activityTypeKey : string;
  bb_activityPackKey : string;
  bb_activityPackVersion : option Z;
  bb_markets : list jsval;
  bb_locales : list jsval;
  bb_channels : list jsval;
  bb_objectives : list jsval;
  bb_allowedCapabilities : list jsval;
}.

Definition js_of_optional (x : option string) : jsval := match x with Some s => VStr s | None => VNull end.

Definition js_of_brand_binding (b : BrandActivityBinding) : jsval := VObj
  [("tenantId", js_of_optional (bb_tenantId b)); ("workspaceId", js_of_optional (bb_workspaceId b));
   ("brandKey", js_of_optional (bb_brandKey b)); ("activityTypeKey", VStr (bb_activityTypeKey b));
   ("activityPackKey", VStr (bb_activityPackKey b)); ("activityPackVersion", VNum (bb_activityPackVersion b));
   ("markets", VArr (bb_markets b)); ("locales", VArr (bb_locales b)); ("channels", VArr (bb_channels b));
   ("objectives", VArr (bb_objectives b)); ("allowedCapabilities", VArr (bb_allowedCapabilities b));
   ("status", VStr "draft")].

(** [Array.isArray(input[k]) ? uniqueSorted(input[k].map(String)) : []] *)
Definition sortedStrings (input : jsval) (k : string) : list jsval :=
  match vget input k with VArr l => uniqueSorted (List.map (fun v => VStr (js_String v)) l) | _ => [] end.

Definition binding_invalid (message : string) (details : list jsobj) : jserror :=
  GrowthControlPlaneError "GROWTH_CONTROL_BINDING_INVALID" message 422 details.

Definition normalizeBrandActivityBinding (input : jsval) : js BrandActivityBinding :=
  input ← object_param input;
  let missing field := nullish (vget input field) || is_empty (js_trim (js_String (vget input field))) in
  let details := List.map (fun field => issue field "required")
    (bfilter missing ["tenantId"; "workspaceId"; "brandKey"; "activityTypeKey"; "activityPackKey"; "activityPackVersion"]) in
  throw_if (0 <? length details) (binding_invalid "Brand activity binding is incomplete." details);;
  activityTypeKey ← requireCanonicalKey (vget input "activityTypeKey") "activityTypeKey";
  activityPackKey ← requireCanonicalKey (vget input "activityPackKey") "activityPackKey";
  allowed ← (match vget input "allowedCapabilities" with
             | VArr l => mapM_js (fun key => requireCanonicalKey key "allowedCapabilities") l
             | _ => Ok []
             end : js (list string));
  let binding :=
    {| bb_tenantId := clean (vget input "tenantId"); bb_workspaceId := clean (vget input "workspaceId");
       bb_brandKey := clean (vget input "brandKey"); bb_activityTypeKey := activityTypeKey;
       bb_activityPackKey := activityPackKey; bb_activityPackVersion := js_Number (vget input "activityPackVersion");
       bb_markets := sortedStrings input "markets"; bb_locales := sortedStrings input "locales";
       bb_channels := sortedStrings input "channels"; bb_objectives := sortedStrings input "objectives";
       bb_allowedCapabilities := uniqueSorted (List.map VStr allowed) |} in
  throw_if (match bb_activityPackVersion binding with Some n => Z.ltb n 1 | None => true end)
    (binding_invalid "activityPackVersion must be a positive integer." []);;
  assertNoSecretFields (js_of_brand_binding binding);;
  Ok binding.
End Pack.

(** ** The search for a cycle *)

Section Cycle.
Context (G : Graph).

(** [x] is a node that depends on the node [y]. *)
Definition depends (x y : string) : Prop :=
  exists ds, assoc_get x G = Some ds /\ y ∈ ds /\ y ∈ List.map fst G.

Definition cyclic : Prop := exists x, tc depends x x.

Abbreviation nodes := (List.map fst G).
Implicit Types m : Marks.

(** The search has left the visited nodes for good: they depend on visited nodes
    only, and none is on a cycle. *)
Definition search_inv m : Prop :=
  (forall x y, m !! x = Some visited -> depends x y -> m !! y = Some visited) /\
  (forall x, m !! x = Some visited -> ~ tc depends x x).

(** The nodes on the path from the root of the search lead to [x]. *)
Definition path_to m (x : string) : Prop := forall g, m !! g = Some visiting -> tc depends g x.

(** [m'] is [m] with more visited nodes. *)
Definition extends m m' : Prop :=
  (forall y, m !! y = Some visited -> m' !! y = Some visited) /\
  (forall y, m' !! y = Some visiting <-> m !! y = Some visiting).

Definition unmarked m : nat := length (bfilter (fun x => bool_decide (m !! x = None)) nodes).

Lemma extends_refl m : extends m m.
Proof. done. Qed.

Lemma extends_trans m1 m2 m3 : extends m1 m2 -> extends m2 m3 -> extends m1 m3.
Proof. intros [H1 H2] [H3 H4]. split; [by auto|]. intros y. by rewrite H4. Qed.

Lemma bfilter_length_mono {A} (p q : A -> bool) l :
  (forall x, p x = true -> q x = true) -> length (bfilter p l) <= length (bfilter q l).
Proof.
  intros Hpq. induction l as [|x l IH]; simpl; [done|].
  destruct (p x) eqn:Hp; [rewrite (Hpq _ Hp); simpl; lia|]. destruct (q x); simpl; lia.
Qed.

Lemma bfilter_length_lt {A} (p q : A -> bool) l x :
  (forall x, p x = true -> q x = true) -> x ∈ l -> q x = true -> p x = false ->
  length (bfilter p l) < length (bfilter q l).
Proof.
  intros Hpq Hx Hq Hp. induction Hx as [x l|x y l Hx IH]; simpl.
  - rewrite Hq, Hp. simpl. pose proof (bfilter_length_mono p q l Hpq). lia.
  - specialize (IH Hq Hp). destruct (p y) eqn:Hy; [rewrite (Hpq _ Hy); simpl; lia|]. destruct (q y); simpl; lia.
Qed.

Lemma unmarked_extends m m' : extends m m' -> unmarked m' <= unmarked m.
Proof.
  intros [Hv Hg]. apply bfilter_length_mono. intros x Hx%bool_decide_eq_true. apply bool_decide_eq_true.
  destruct (m !! x) as [[|]|] eqn:E; [|by rewrite Hv in Hx|done]. apply Hg in E. congruence.
Qed.

Lemma unmarked_visiting m x : x ∈ nodes -> m !! x = None -> unmarked (<[x := visiting]> m) < unmarked m.
Proof.
  intros Hx Hm. apply (bfilter_length_lt _ _ _ x); [|done|by apply bool_decide_eq_true|].
  - intros y Hy%bool_decide_eq_true. apply bool_decide_eq_true. by apply lookup_insert_None in Hy as [? _].
  - apply bool_decide_eq_false. by rewrite lookup_insert_eq.
Qed.

Lemma assoc_get_keys {A} k (l : list (string * A)) v : assoc_get k l = Some v -> k ∈ List.map fst l.
Proof.
  induction l as [|[k' v'] l IH]; simpl; [done|]. destruct (String.eqb k k') eqn:E; intros Hv.
  - apply String.eqb_eq in E as ->. apply list_elem_of_here.
  - apply list_elem_of_further. by apply IH.
Qed.

(** What a search of the nodes [ds] from the marks [m] ends in. *)
Definition searched m (ds : list string) (r : option (bool * Marks)) : Prop :=
  exists b m', r = Some (b, m') /\
    if b then cyclic
    else search_inv m' /\ extends m m' /\ forall d, d ∈ ds -> d ∈ nodes -> m' !! d = Some visited.

Lemma visit_some_searched f ds m : search_inv m ->
  (forall d m', d ∈ ds -> search_inv m' -> extends m m' -> searched m' [d] (f d m')) ->
  searched m ds (visit_some f ds m).
Proof.
  revert m. induction ds as [|d ds IH]; intros m Hm Hf; simpl.
  - exists false, m. split; [done|]. split; [done|]. split; [apply extends_refl|]. intros d Hd. by apply not_elem_of_nil in Hd.
  - destruct (Hf d m (list_elem_of_here _ _) Hm (extends_refl m)) as (b & m1 & -> & Hr). destruct b; [by exists true, m1|].
    destruct Hr as (Hm1 & He1 & Hd1). destruct (IH m1 Hm1) as (b & m2 & -> & Hr).
    { intros d' m' Hd' Hm' He'. apply Hf; [by apply list_elem_of_further|done|by eapply extends_trans]. }
    exists b, m2. split; [done|]. destruct b; [done|]. destruct Hr as (Hm2 & He2 & Hd2). split; [done|].
    split; [by eapply extends_trans|]. intros d' [->|Hd']%elem_of_cons Hn; [|by apply Hd2].
    apply He2. apply Hd1; [apply list_elem_of_here|done].
Qed.

Lemma search_inv_visiting m x : m !! x = None -> search_inv m -> search_inv (<[x := visiting]> m).
Proof.
  intros Hx [Ha Hb].
  assert (forall z, <[x := visiting]> m !! z = Some visited <-> m !! z = Some visited) as Hz.
  { intros z. destruct (decide (z = x)) as [->|Hne]; [rewrite lookup_insert_eq, Hx; naive_solver|].
    by rewrite lookup_insert_ne by done. }
  split; intros z; [intros y|]; rewrite Hz; [rewrite Hz; apply Ha|apply Hb].
Qed.

Lemma visited_tc m x y : search_inv m -> m !! x = Some visited -> tc depends x y -> m !! y = Some visited.
Proof. intros [Ha _] Hx Htc. revert Hx. induction Htc as [x y H|x y z H _ IH]; eauto. Qed.

(** A node whose dependencies were searched is done. *)
Lemma search_inv_visited m x : m !! x = Some visiting -> search_inv m ->
  (forall d, depends x d -> m !! d = Some visited) -> search_inv (<[x := visited]> m).
Proof.
  intros Hx Hm Hd. pose proof Hm as [Ha Hb].
  assert (forall z, z <> x -> <[x := visited]> m !! z = m !! z) as Hz by (intros; by rewrite lookup_insert_ne).
  split.
  - intros z y Hv Hzy. destruct (decide (y = x)) as [->|Hy]; [by rewrite lookup_insert_eq|]. rewrite Hz by done.
    destruct (decide (z = x)) as [->|Hne]; [by apply Hd|]. rewrite Hz in Hv by done. by eapply Ha.
  - intros z Hv Htc. destruct (decide (z = x)) as [->|Hne]; [|rewrite Hz in Hv by done; by eapply Hb].
    inversion Htc as [? ? Hxx|? d ? Hxd Hdx]; subst; [apply Hd in Hxx; congruence|].
    apply Hd in Hxd. pose proof (visited_tc m d x Hm Hxd Hdx). congruence.
Qed.

Lemma extends_finish m m' x : m !! x = None -> extends (<[x := visiting]> m) m' -> extends m (<[x := visited]> m').
Proof.
  intros Hx [Hv Hg]. split; intros y; (destruct (decide (y = x)) as [->|Hne];
    [rewrite lookup_insert_eq, Hx; naive_solver|rewrite lookup_insert_ne by done]).
  - intros Hy. apply Hv. by rewrite lookup_insert_ne.
  - by rewrite Hg, lookup_insert_ne.
Qed.

Lemma visit_searched fuel x m : search_inv m -> x ∈ nodes -> path_to m x -> unmarked m < fuel ->
  searched m [x] (visit fuel G x m).
Proof.
  revert x m. induction fuel as [|fuel IH]; intros x m Hm Hx Hp Hf; [lia|]. simpl.
  destruct (m !! x) as [[|]|] eqn:E.
  - exists true, m. split; [done|]. exists x. by apply Hp.
  - exists false, m. split; [done|]. split; [done|]. split; [apply extends_refl|]. by intros d ->%list_elem_of_singleton.
  - set (m1 := <[x := visiting]> m). set (ds := default [] (assoc_get x G)).
    pose proof (unmarked_visiting m x Hx E) as Hu. fold m1 in Hu.
    set (f := fun d m => if sin d nodes then visit fuel G d m else Some (false, m)).
    assert (searched m1 ds (visit_some f ds m1)) as (b & m2 & -> & Hr).
    { apply visit_some_searched; [by apply search_inv_visiting|]. intros d m' Hd Hm' He. unfold f.
      destruct (sin d nodes) eqn:Hn; [apply sin_true in Hn|apply sin_false in Hn].
      - apply IH; [done|done| |pose proof (unmarked_extends m1 m' He); lia]. intros g Hg. apply He in Hg.
        assert (depends x d) as Hxd.
        { unfold ds in Hd. destruct (assoc_get x G) as [k|] eqn:Hk; [|by apply not_elem_of_nil in Hd]. by exists k. }
        unfold m1 in Hg. apply lookup_insert_Some in Hg as [[<- _]|[_ Hg]]; [by apply tc_once|].
        eapply tc_r; [by apply Hp|done].
      - exists false, m'. split; [done|]. split; [done|]. split; [apply extends_refl|]. by intros ? ->%list_elem_of_singleton. }
    destruct b; [by exists true, m2|]. destruct Hr as (Hm2 & He & Hd). eexists false, _. split; [done|].
    split; [|split; [by apply extends_finish|intros d ->%list_elem_of_singleton _; by rewrite lookup_insert_eq]].
    apply search_inv_visited; [apply He; by apply lookup_insert_eq|done|].
    intros d (k & Hk & Hin & Hn). apply Hd; [|done]. unfold ds. by rewrite Hk.
Qed.

Lemma search_cycle_spec : exists b m, search_cycle G = Some (b, m) /\ (b = true <-> cyclic).
Proof.
  assert (search_inv ∅) as H0 by (split; intros x; [intros y|]; by rewrite lookup_empty).
  destruct (visit_some_searched (visit (S (length G)) G) nodes ∅ H0) as (b & m & Hr & Hb).
  - intros d m Hd Hm [_ Hg]. apply visit_searched; [done|done| |].
    + intros g Hv%Hg. by rewrite lookup_empty in Hv.
    + unfold unmarked. pose proof (bfilter_length (fun x => bool_decide (m !! x = None)) nodes) as Hl.
      rewrite length_map in Hl. lia.
  - exists b, m. split; [done|]. destruct b; [done|]. split; [done|]. intros [x Hx]. exfalso.
    destruct Hb as ([_ Hacyclic] & _ & Hall). apply (Hacyclic x); [|done]. apply Hall.
    + assert (exists y, depends x y) as (y & ds & Hds & _).
      { inversion Hx; eauto. }
      apply assoc_get_keys in Hds. done.
    + inversion Hx as [? ? (k & Hk & _)|? d ? (k & Hk & _)]; subst; by apply assoc_get_keys in Hk.
Qed.
End Cycle.

Lemma search_cycle_true G : cyclic G -> activityPackWorkflowHasCycle G = true.
Proof. unfold activityPackWorkflowHasCycle. destruct (search_cycle_spec G) as (b & m & -> & Hb). apply Hb. Qed.

(** C35: the search ends, its recursion bounded by the number of nodes, and
    answers [true] exactly when some node depends on itself, directly or through
    others. *)
Theorem activityPackWorkflowHasCycle_correct nodeDependencies :
  (exists m, search_cycle nodeDependencies = Some (activityPackWorkflowHasCycle nodeDependencies, m)) /\
  (activityPackWorkflowHasCycle nodeDependencies = true <-> cyclic nodeDependencies).
Proof.
  unfold activityPackWorkflowHasCycle. destruct (search_cycle_spec nodeDependencies) as (b & m & -> & Hb). eauto.
Qed.

Section Manifest.
Context `{JsHost}.

(** ** Checks that push nothing *)

Abbreviation silent m := (m.2 = @nil jsobj).

Lemma silent_bind {A B} (m : logged A) (k : A -> logged B) : silent (x ← m; k x) <-> silent m /\ silent (k m.1).
Proof. apply app_nil. Qed.

Lemma silent_push_if c d : silent (push_if c d) <-> c = false.
Proof. by destruct c. Qed.

Lemma silent_for_each {A} (f : nat -> A -> logged unit) index l j x :
  silent (for_each f index l) -> l !! j = Some x -> silent (f (index + j) x).
Proof.
  revert index j. induction l as [|y l IH]; intros index j Hs; [done|].
  apply (silent_bind (f index y) (fun _ => for_each f (S index) l)) in Hs as [Hy Hl].
  destruct j as [|j]; simpl.
  - rewrite Nat.add_0_r. by intros [= ->].
  - rewrite Nat.add_succ_r. intros Hx. by apply (IH (S index)).
Qed.

Lemma silent_key v field : silent (activityPackCanonicalKey v field) ->
  (activityPackCanonicalKey v field).1 = clean v /\ is_Some (clean v).
Proof.
  unfold activityPackCanonicalKey. destruct (clean v) as [k|]; [|done]. by destruct (is_canonical_key k).
Qed.

(** The key that an entry of a keyed list has. *)
Definition entry_key (aliases : list string) (entry : jsval) : option string :=
  clean (match entry with
         | VStr _ => entry
         | _ => default VUndef (List.find (fun c => negb (nullish c)) (List.map (vget entry) aliases))
         end).

Lemma silent_entry_key entry aliases field : silent (activityPackEntryKey entry aliases field) ->
  (activityPackEntryKey entry aliases field).1 = entry_key aliases entry /\ is_Some (entry_key aliases entry).
Proof.
  unfold activityPackEntryKey, entry_key.
  destruct entry; try (destruct (negb (isPlainObject _)); [done|]); apply silent_key.
Qed.

Lemma keySetLoop_step field aliases set index entry entries :
  silent (keySetLoop field aliases set index (entry :: entries)) -> exists k,
    let set1 := {| ks_keys := set_add k (ks_keys set);
                   ks_items := ks_items set ++ [{| it_entry := entry; it_index := index; it_key := k |}] |} in
    entry_key aliases entry = Some k /\ silent (keySetLoop field aliases set1 (S index) entries) /\
    (keySetLoop field aliases set index (entry :: entries)).1 = (keySetLoop field aliases set1 (S index) entries).1.
Proof.
  cbn [keySetLoop]. unfold mbind, logged_bind. cbn [fst snd].
  intros [[Ek [k Hk]]%silent_entry_key Hr]%app_nil. rewrite Hk in Ek. rewrite Ek in *.
  cbn [fst snd] in *. apply app_nil in Hr as [_ Hr]. by exists k.
Qed.

(** The entries of a list whose keys are all valid and distinct. *)
Lemma silent_keySetLoop field aliases entries set index :
  silent (keySetLoop field aliases set index entries) ->
  let set' := (keySetLoop field aliases set index entries).1 in
  (forall k, k ∈ ks_keys set' -> k ∈ ks_keys set \/ exists entry, entry ∈ entries /\ entry_key aliases entry = Some k) /\
  (forall item, item ∈ ks_items set -> item ∈ ks_items set') /\
  forall j entry, entries !! j = Some entry -> exists item, item ∈ ks_items set' /\
    it_entry item = entry /\ it_index item = index + j.
Proof.
  revert set index. induction entries as [|entry entries IH]; intros set index.
  { intros _. split; [by left|]. split; [done|]. intros j. by rewrite lookup_nil. }
  intros (k & Hk & Hr & ->)%keySetLoop_step.
  destruct (IH _ _ Hr) as (Hkeys & Hold & Hnew). cbn [ks_keys ks_items] in *. split; [|split].
  - intros k' Hk'. apply Hkeys in Hk' as [Hk'|(e & He & Hek)]; [|right; exists e; split; [by apply list_elem_of_further|done]].
    unfold set_add in Hk'. destruct (sin k (ks_keys set)); [by left|]. apply elem_of_app in Hk' as [?|Hk']; [by left|].
    apply list_elem_of_singleton in Hk' as ->. right. exists entry. split; [apply list_elem_of_here|done].
  - intros item Hi. apply Hold. apply elem_of_app. by left.
  - intros [|j] e; simpl.
    + intros [= ->]. eexists. split; [apply Hold, elem_of_app; right; by apply list_elem_of_singleton|].
      split; [done|]. simpl. lia.
    + intros Hj. destruct (Hnew j e Hj) as (item & Hi & He & Hidx). exists item. repeat split; [done|done|lia].
Qed.

Lemma silent_keySet entries field aliases : silent (activityPackKeySet (VArr entries) field aliases) ->
  let set := (activityPackKeySet (VArr entries) field aliases).1 in
  (forall k, k ∈ ks_keys set -> exists entry, entry ∈ entries /\ entry_key aliases entry = Some k) /\
  forall j entry, entries !! j = Some entry -> exists item, item ∈ ks_items set /\
    it_entry item = entry /\ it_index item = j.
Proof.
  intros Hs. destruct (silent_keySetLoop _ _ _ _ _ Hs) as (Hk & _ & Hi). split; [|exact Hi].
  intros k [Hn|Hn]%Hk; [by apply not_elem_of_nil in Hn|done].
Qed.

Lemma silent_references field known name seen index entries :
  silent (referenceLoop field known name seen index entries) ->
  Forall2 (fun entry key => clean entry = Some key) entries (referenceLoop field known name seen index entries).1.
Proof.
  revert seen index. induction entries as [|entry entries IH]; intros seen index; [constructor|].
  cbn [referenceLoop]. unfold mbind, logged_bind. cbn [fst snd].
  intros [[Ek [k Hk]]%silent_key Hr]%app_nil. rewrite Hk in Ek. rewrite Ek in *. cbn [fst snd] in *.
  apply app_nil in Hr as [_ [_ [Hr _]%app_nil]%app_nil]. constructor; [done|]. by apply IH.
Qed.

(** ** The graph that the nodes of a workflow declare *)

Definition node_id (node : jsval) : option string := clean (vget node "id").
Definition node_capability (node : jsval) : option string :=
  clean (any_of node "capability" "capabilityKey" "capability_key").
Definition node_references (node : jsval) : list jsval :=
  match js_coalesce (either node "dependsOn" "depends_on") (VArr []) with VArr l => l | _ => [] end.

(** The node [x] refers to the node [y]. *)
Definition node_depends (nodes : list jsval) (x y : string) : Prop :=
  exists node, node ∈ nodes /\ node_id node = Some x /\
    exists reference, reference ∈ node_references node /\ clean reference = Some y.

(** [p] is the node with its references, by key. *)
Definition describes (node : jsval) (p : string * list string) : Prop :=
  node_id node = Some p.1 /\ Forall2 (fun reference key => clean reference = Some key) (node_references node) p.2.

(** [w] holds the nodes. *)
Definition holds (nodes : list jsval) (w : Workflow) : Prop :=
  Forall2 describes nodes (wf_dependencies w) /\ wf_nodeIds w = List.map fst (wf_dependencies w) /\
  NoDup (wf_nodeIds w).

Definition capable (capabilityKeys : list string) (node : jsval) : Prop :=
  exists c, node_capability node = Some c /\ c ∈ capabilityKeys.

Lemma set_add_new x l : x ∉ l -> set_add x l = l ++ [x].
Proof. intros Hx. unfold set_add. by rewrite (proj2 (sin_false _ _) Hx). Qed.

Lemma assoc_set_new {A} x (v : A) l : x ∉ List.map fst l -> assoc_set x v l = l ++ [(x, v)].
Proof.
  induction l as [|[k u] l IH]; simpl; [done|]. rewrite not_elem_of_cons. intros [Hne Hx].
  rewrite (proj2 (string_eqb_false x k) Hne). by rewrite IH.
Qed.

Lemma silent_reference_list node field name : 
  let refs := activityPackReferenceList (js_coalesce (either node "dependsOn" "depends_on") (VArr [])) field None name in
  silent refs -> Forall2 (fun reference key => clean reference = Some key) (node_references node) refs.1.
Proof.
  unfold node_references, activityPackReferenceList.
  destruct (js_coalesce (either node "dependsOn" "depends_on") (VArr [])); cbv zeta; try done; try constructor.
  apply silent_references.
Qed.

Lemma silent_addNode field keys index w node done : silent (addNode field keys index w node) -> holds done w ->
  capable keys node /\ holds (done ++ [node]) (addNode field keys index w node).1.
Proof.
  unfold addNode. destruct (negb (isPlainObject node)); [done|]. unfold mbind, logged_bind. cbn [fst snd].
  intros [[Eid [x Hx]]%silent_key Hr]%app_nil (Hf & Hids & Hnd). rewrite Hx in Eid. rewrite Eid in *. cbn [fst snd] in *.
  apply app_nil in Hr as [Hdup%silent_push_if Hr]. apply sin_false in Hdup.
  apply app_nil in Hr as [[Ecap [c Hc]]%silent_key Hr]. rewrite Hc in Ecap. rewrite Ecap in *. cbn [fst snd] in *.
  apply app_nil in Hr as [Hcap Hr]. apply app_nil in Hr as [Hrefs%silent_reference_list _].
  split.
  { exists c. split; [done|]. apply sin_true. cbn [snd push_all] in Hcap. by destruct (sin c keys). }
  unfold holds, mret, logged_ret. cbn [wf_nodeIds wf_dependencies fst]. rewrite set_add_new by done. rewrite Hids in Hdup.
  rewrite assoc_set_new by done. rewrite map_app, Hids. split; [apply Forall2_app; [done|]|].
  - constructor; [|constructor]. by split.
  - split; [done|]. rewrite Hids in Hnd. apply NoDup_app. split; [done|].
    split; [|apply NoDup_singleton]. intros y Hy ->%list_elem_of_singleton. done.
Qed.

Lemma silent_nodeLoop field keys index w done nodes : silent (nodeLoop field keys index w nodes) -> holds done w ->
  Forall (capable keys) nodes /\ holds (done ++ nodes) (nodeLoop field keys index w nodes).1.
Proof.
  revert index w done. induction nodes as [|node nodes IH]; intros index w done; [by rewrite app_nil_r|].
  cbn [nodeLoop]. rewrite silent_bind. intros [Hn Hr] Hw. destruct (silent_addNode _ _ _ _ _ _ Hn Hw) as [Hc Hw'].
  destruct (IH _ _ _ Hr Hw') as [Hcs Hh]. rewrite <- app_assoc in Hh. by split; [constructor|].
Qed.

Lemma assoc_get_NoDup {A} k (v : A) l : NoDup (List.map fst l) -> (k, v) ∈ l -> assoc_get k l = Some v.
Proof.
  induction l as [|[k' v'] l IH]; simpl; [intros _ Hn; by apply not_elem_of_nil in Hn|].
  intros [Hk Hnd]%NoDup_cons [[= <- <-]|Hin]%elem_of_cons; [by rewrite String.eqb_refl|].
  rewrite (proj2 (string_eqb_false k k')); [by apply IH|]. intros ->. apply Hk.
  apply list_elem_of_fmap. by exists (k', v).
Qed.

(** What a workflow that is accepted declares: nodes with distinct keys, whose
    capabilities are among [keys], and whose references are nodes and do not
    run in a circle. *)
Definition well_formed (keys : list string) (nodes : list jsval) : Prop :=
  Forall (capable keys) nodes /\ NoDup (List.map node_id nodes) /\
  (forall node, node ∈ nodes -> is_Some (node_id node)) /\
  (forall x y, node_depends nodes x y -> exists node, node ∈ nodes /\ node_id node = Some y) /\
  forall x, ~ tc (node_depends nodes) x x.

Lemma map_fst_ids nodes ps : Forall2 describes nodes ps -> List.map node_id nodes = List.map Some (List.map fst ps).
Proof. induction 1 as [|n p nodes ps [Hn _] _ IH]; simpl; [done|]. by rewrite Hn, IH. Qed.

Lemma Forall2_elem_l {A B} (P : A -> B -> Prop) l k x : Forall2 P l k -> x ∈ l -> exists y, y ∈ k /\ P x y.
Proof.
  induction 1 as [|a b l k Hab _ IH]; [intros Hx; by apply not_elem_of_nil in Hx|].
  intros [->|Hx]%elem_of_cons; [exists b; split; [apply list_elem_of_here|done]|].
  destruct (IH Hx) as (y & Hy & HP). exists y. split; [by apply list_elem_of_further|done].
Qed.

Lemma Forall2_elem_r {A B} (P : A -> B -> Prop) l k y : Forall2 P l k -> y ∈ k -> exists x, x ∈ l /\ P x y.
Proof. intros HP%Forall2_flip Hy. by apply (Forall2_elem_l _ _ _ _ HP). Qed.

Lemma silent_dependencies field ids G x ds y :
  List.flat_map (dependencyIssues field ids) G = [] -> (x, ds) ∈ G -> y ∈ ds -> y ∈ ids.
Proof.
  intros Hs Hx Hy. apply sin_true. destruct (sin y ids) eqn:E; [done|]. exfalso.
  assert (key_issue (field +:+ ".nodes." +:+ x +:+ ".dependsOn") "unknown_node_reference" y
          ∈ List.flat_map (dependencyIssues field ids) G) as Hin.
  { rewrite list_elem_of_In, in_flat_map. exists (x, ds). rewrite <- list_elem_of_In. split; [done|].
    unfold dependencyIssues. rewrite in_flat_map. exists y. rewrite <- list_elem_of_In. split; [done|].
    rewrite E. by left. }
  rewrite Hs in Hin. by apply not_elem_of_nil in Hin.
Qed.

Lemma tc_mono {A} (R S : relation A) x y : (forall x y, R x y -> S x y) -> tc R x y -> tc S x y.
Proof. intros HR. induction 1 as [x y H'|x y z H' _ IH]; [by apply tc_once, HR|]. eapply tc_l; [by apply HR|done]. Qed.

Lemma holds_well_formed keys nodes w field :
  Forall (capable keys) nodes -> holds nodes w ->
  List.flat_map (dependencyIssues field (wf_nodeIds w)) (wf_dependencies w) = [] ->
  activityPackWorkflowHasCycle (wf_dependencies w) = false -> well_formed keys nodes.
Proof.
  intros Hcap (Hf & Hids & Hnd) Hdeps Hcyc. set (G := wf_dependencies w) in *.
  assert (forall x y, node_depends nodes x y -> depends G x y) as Hdep.
  { intros x y (n & Hn & Hx & r & Hr & Hy). destruct (Forall2_elem_l _ _ _ _ Hf Hn) as ([k ds] & Hk & Hid & Hrefs).
    cbn [fst snd] in *. rewrite Hid in Hx. injection Hx as ->.
    destruct (Forall2_elem_l _ _ _ _ Hrefs Hr) as (d & Hd & Hrd). rewrite Hrd in Hy. injection Hy as ->.
    exists ds. split; [apply assoc_get_NoDup; [by rewrite <- Hids|done]|]. split; [done|].
    rewrite <- Hids. by eapply silent_dependencies. }
  split; [done|]. split.
  { rewrite (map_fst_ids _ _ Hf), <- Hids. by apply NoDup_fmap_2; [intros ?? [= ->]|]. }
  split.
  { intros n Hn. destruct (Forall2_elem_l _ _ _ _ Hf Hn) as (p & _ & Hid & _). by eexists. }
  split.
  - intros x y (ds & _ & _ & Hy)%Hdep. apply list_elem_of_fmap in Hy as ([k ds'] & -> & Hp).
    destruct (Forall2_elem_r _ _ _ _ Hf Hp) as (n & Hn & Hid & _). by exists n.
  - intros x Hx. apply not_true_iff_false in Hcyc. apply Hcyc, (search_cycle_true G). exists x.
    by apply (tc_mono _ _ _ _ Hdep).
Qed.

Lemma silent_workflow workflow index keys : silent (validateActivityPackWorkflow workflow index keys) ->
  isPlainObject workflow = true -> exists nodes, vget workflow "nodes" = VArr nodes /\ well_formed keys nodes.
Proof.
  unfold validateActivityPackWorkflow. intros Hs Hobj. rewrite Hobj in Hs. cbn [negb] in Hs. apply silent_bind in Hs as [_ Hs].
  destruct (vget workflow "nodes") as [| | | | | |nodes|]; try done. exists nodes. split; [done|].
  apply silent_bind in Hs as [Hn Hs]. apply silent_bind in Hs as [Hd Hc%silent_push_if].
  destruct (silent_nodeLoop _ _ _ _ [] _ Hn) as [Hcap Hh];
    [split; [constructor|split; [done|constructor]]|].
  by eapply (holds_well_formed _ _ _ _ Hcap Hh Hd Hc).
Qed.

Lemma silent_push_all details : silent (push_all details) -> details = [].
Proof. done. Qed.

Lemma silent_arrays manifest key :
  silent (sectionIssues manifest) -> key ∈ ["kpiTaxonomy"; "capabilities"; "workflows"; "policies"; "providerCompatibility"] ->
  exists l, vget manifest key = VArr l.
Proof.
  unfold sectionIssues. intros Hs Hk. apply silent_bind in Hs as [Hr Hs]. apply silent_bind in Hs as [Ha _].
  apply silent_push_all, map_eq_nil in Hr, Ha. rewrite bfilter_nil in Hr, Ha. specialize (Ha key Hk).
  assert (has_own manifest key = true) as Hown.
  { apply negb_false_iff, Hr. revert Hk. rewrite !elem_of_cons. tauto. }
  rewrite Hown in Ha. apply negb_false_iff, bool_decide_eq_true in Ha as [l Hl].
  unfold as_array in Hl. destruct (vget manifest key); try done. by eexists.
Qed.

Lemma manifest_Ok manifest r : validateActivityPackManifest manifest = Ok r -> silent (manifestIssues manifest).
Proof.
  unfold validateActivityPackManifest. intros Hv. apply bind_Ok in Hv as (m & Hm & Hv).
  apply bind_Ok in Hv as (_ & _ & Hv). cbv zeta in Hv. apply bind_Ok in Hv as (u & Ht%throw_if_Ok & _).
  assert (silent (manifestIssues m)) as Hs by (by destruct (manifestIssues m).2).
  destruct manifest; cbn [object_param] in Hm; try discriminate Hm; apply Ok_inj in Hm as <-; try exact Hs.
Qed.

(** C19: the manifest of an activity pack that is accepted is sound: no key in
    it names an inline pointer, and every workflow that is an object has nodes
    with distinct keys, each with a capability that the manifest declares,
    whose references are nodes of the workflow and never lead from a node back
    to itself. *)
Theorem validateActivityPackManifest_sound manifest r :
  validateActivityPackManifest manifest = Ok r ->
  collectForbiddenActivityPackPointers manifest "$" = [] /\
  exists capabilities workflows keys,
    vget manifest "capabilities" = VArr capabilities /\ vget manifest "workflows" = VArr workflows /\
    (forall k, k ∈ keys -> exists entry, entry ∈ capabilities /\
      entry_key ["capabilityKey"; "capability_key"] entry = Some k) /\
    forall workflow, workflow ∈ workflows -> isPlainObject workflow = true ->
      exists nodes, vget workflow "nodes" = VArr nodes /\ well_formed keys nodes.
Proof.
  intros Hs%manifest_Ok. unfold manifestIssues in Hs. apply silent_bind in Hs as [Hsec Hs].
  apply silent_bind in Hs as [Hkeyed Hp%silent_push_all]. split; [done|].
  destruct (silent_arrays _ "capabilities" Hsec) as [capabilities Hc]; [set_solver|].
  destruct (silent_arrays _ "workflows" Hsec) as [workflows Hw]; [set_solver|].
  unfold keyedIssues in Hkeyed. rewrite Hc, Hw in Hkeyed. apply silent_bind in Hkeyed as [_ Hk].
  apply silent_bind in Hk as [Hcs Hk]. apply silent_bind in Hk as [Hws Hk].
  do 2 apply silent_bind in Hk as [_ Hk]. apply silent_bind in Hk as [_ Hk]. apply silent_bind in Hk as [Hwf _].
  apply silent_keySet in Hcs as [Hkeys _]. apply silent_keySet in Hws as [_ Hitems].
  exists capabilities, workflows. eexists. split; [done|]. split; [done|]. split; [exact Hkeys|].
  intros workflow Hin Hobj. apply list_elem_of_lookup_1 in Hin as [j Hj].
  destruct (Hitems j workflow Hj) as (item & Hi & <- & _). apply list_elem_of_lookup_1 in Hi as [i Hi].
  apply (silent_for_each _ _ _ _ _ Hwf) in Hi. by apply silent_workflow in Hi.
Qed.
End Manifest.

(** ** Examples *)

Definition demo_node (id : string) (dependsOn : list jsval) : jsval := VObj
  [("id", VStr id); ("capability", VStr "content.draft"); ("dependsOn", VArr dependsOn)].

Definition demo_workflow (nodes : list jsval) : jsval := VObj
  [("workflowKey", VStr "campaign.launch"); ("version", VNum (Some 1%Z)); ("nodes", VArr nodes)].

Definition demo_manifest (nodes : list jsval) : jsval := VObj
  [("entitySchemas", VObj [("campaign", VObj [("type", VStr "object")])]);
   ("knowledgeProfile", VObj [("pointerKey", VStr "profile.default")]);
   ("kpiTaxonomy", VArr [VStr "reach"]); ("capabilities", VArr [VObj [("capabilityKey", VStr "content.draft")]]);
   ("workflows", VArr [demo_workflow nodes]); ("policies", VArr []); ("providerCompatibility", VArr []);
   ("tests", VObj [("fixtures", VArr [])])].

Definition demo_nodes : list jsval := [demo_node "publish" [VStr "draft "]; demo_node "draft" []].

(** The pack with [draft] before [publish] is accepted; with a reference back
    from [draft] it is refused. *)
Lemma validateActivityPackManifest_sound_witness :
  (exists nodes, vget (demo_workflow demo_nodes) "nodes" = VArr nodes /\ ~ tc (node_depends (H:=demo_host) nodes) "draft" "draft") /\
  (exists e, validateActivityPackManifest (H:=demo_host)
     (demo_manifest [demo_node "publish" [VStr "draft"]; demo_node "draft" [VStr "publish"]]) = Throw e).
Proof.
  split; [|eexists; vm_compute; reflexivity].
  destruct (validateActivityPackManifest_sound (H:=demo_host) (demo_manifest demo_nodes)
    (catch (validateActivityPackManifest (H:=demo_host) (demo_manifest demo_nodes)) (VNull, "")))
    as (_ & capabilities & workflows & keys & _ & Hw & _ & Hall); [vm_compute; reflexivity|].
  destruct (Hall (demo_workflow demo_nodes)) as (nodes & Hn & _ & _ & _ & _ & Hacyclic);
    [|reflexivity|by exists nodes].
  change (VArr [demo_workflow demo_nodes] = VArr workflows) in Hw. injection Hw as <-. apply list_elem_of_here.
Defined.
End ActivityPack.
