(* ===== verification/WorkflowGraph.v ===== *)
(** * Workflow plans: the graph of the nodes
    (src/domain/growthControlPlane/workflowPlanCompiler.js, function graph)

    The nodes of a workflow are checked and put in an order in which each comes
    after its dependencies, by counting the dependencies that are left and
    taking a node as soon as it has none.  Proved: the loop ends, a graph is
    accepted exactly when it can be ordered at all, and the order is the one
    that always takes the least node that is ready, whatever the order in which
    the nodes are listed. *)
From stdpp Require Import gmap strings.
From S2P Require Import Prelude Sorting JsString JsDate JsValue JsJson GrowthControl GrowthConfig ActivityPack.

Module WorkflowGraph.
Import GrowthControl GrowthConfig ActivityPack.

(** ** Nodes *)

Record Join := { jn_strategy : string; jn_minimumCompleted : jsval }.

(** [ck_policyKey] is [None] when the checkpoint has no such property. *)
Record Checkpoint := {
  ck_required : bool;
  ck_checkpointKey : string;
  ck_policyKey : option (option string);
}.

Record Node := {
  nd_nodeId : string;
  nd_capabilityKey : string;
  nd_dependsOn : list string;
  nd_executionClass : string;
  nd_adapterClasses : list string;
  nd_inputSchema : jsval;
  nd_outputSchema : jsval;
  nd_join : option Join;
  nd_approvalCheckpoint : option Checkpoint;
  nd_verificationCheckpoint : option Checkpoint;
  nd_compensationNodeId : option string;
  nd_mode : string;
}.

Record Edge := { ed_fromNodeId : string; ed_toNodeId : string }.

Record Dag := {
  dag_nodes : list Node;
  dag_edges : list Edge;
  dag_topologicalOrder : list string;
  dag_entryNodeIds : list string;
  dag_terminalNodeIds : list string;
}.

(** [fail(code, message, field, issue, extra)] *)
Definition fail (code message field name : string) (extra : jsobj) : jserror :=
  GrowthControlPlaneError code message 422 [issue field name ++ extra].

(** ** Checks *)

(** [byId], in the first loop *)
Fixpoint uniqueNodes (field : string) (seen : list string) (nodes : list Node) : js unit :=
  match nodes with
  | [] => Ok tt
  | item :: rest =>
      throw_if (sin (nd_nodeId item) seen)
        (fail "GROWTH_CONTROL_WORKFLOW_DAG_INVALID" "Node identifiers must be unique." field "duplicate_node"
           [("value", VStr (nd_nodeId item))]);;
      uniqueNodes field (nd_nodeId item :: seen) rest
  end.

(** The loop over the dependencies of one node. *)
Fixpoint checkDependencies (field nodeId : string) (ids : list string) (dependsOn : list string) : js unit :=
  match dependsOn with
  | [] => Ok tt
  | dependency :: rest =>
      throw_if (String.eqb dependency nodeId)
        (fail "GROWTH_CONTROL_WORKFLOW_DAG_INVALID" "Self dependencies are forbidden."
           (field +:+ "." +:+ nodeId +:+ ".dependsOn") "self_dependency" []);;
      throw_if (negb (sin dependency ids))
        (fail "GROWTH_CONTROL_WORKFLOW_DAG_INVALID" "Unknown dependency."
           (field +:+ "." +:+ nodeId +:+ ".dependsOn") "unknown_dependency" [("value", VStr dependency)]);;
      checkDependencies field nodeId ids rest
  end.

(** [indegree] *)
Abbreviation Counts := (gmap string Z).

Section Graph.
Context `{JsHost}.

(** [minimumCompleted] is given and is no number of dependencies. *)
Definition minimumOutOfRange (j : Join) (dependencies : nat) : bool :=
  negb (nullish (jn_minimumCompleted j)) &&
  match js_Number (jn_minimumCompleted j) with
  | Some n => Z.ltb n 1 || Z.ltb (Z.of_nat dependencies) n
  | None => true
  end.

Definition checkJoin (field : string) (item : Node) : js unit :=
  match nd_join item with
  | None => Ok tt
  | Some j =>
      throw_if (negb (sin (jn_strategy j) ["all"; "any"]) || (length (nd_dependsOn item) <? 2))
        (fail "GROWTH_CONTROL_WORKFLOW_JOIN_INVALID"
           "Join nodes require strategy all/any and at least two dependencies."
           (field +:+ "." +:+ nd_nodeId item +:+ ".join") "invalid_join" []);;
      throw_if (minimumOutOfRange j (length (nd_dependsOn item)))
        (fail "GROWTH_CONTROL_WORKFLOW_JOIN_INVALID" "minimumCompleted is out of range."
           (field +:+ "." +:+ nd_nodeId item +:+ ".join.minimumCompleted") "out_of_range" [])
  end.

(** The second loop over the nodes. *)
Fixpoint checkNodes (field : string) (ids : list string) (nodes : list Node) : js unit :=
  match nodes with
  | [] => Ok tt
  | item :: rest =>
      checkDependencies field (nd_nodeId item) ids (nd_dependsOn item);;
      checkJoin field item;;
      checkNodes field ids rest
  end.

(** ** The order *)

Definition initialIndegree (nodes : list Node) : Counts :=
  fold_left (fun m item => <[nd_nodeId item := Z.of_nat (length (nd_dependsOn item))]> m) nodes ∅.

(** [dependents.get(id)], sorted: each node once for each of its dependencies
    on [id]. *)
Definition dependentsOf (nodes : list Node) (id : string) : list string :=
  sort_strings (List.flat_map (fun item =>
    List.flat_map (fun dependency => if String.eqb dependency id then [nd_nodeId item] else []) (nd_dependsOn item))
    nodes).

(** The loop over the dependents of a node that was taken; a count is always
    present. *)
Fixpoint release (dependents : list string) (indegree : Counts) (ready : list string) : Counts * list string :=
  match dependents with
  | [] => (indegree, ready)
  | dependent :: rest =>
      let count := (default 0%Z (indegree !! dependent) - 1)%Z in
      release rest (<[dependent := count]> indegree)
        (if Z.eqb count 0 then sort_strings (ready ++ [dependent]) else ready)
  end.

(** [while (ready.length)]; the fuel bounds the iterations. *)
Fixpoint takeReady (fuel : nat) (nodes : list Node) (indegree : Counts) (ready order : list string)
    : option (list string) :=
  match fuel, ready with
  | _, [] => Some order
  | O, _ => None
  | S fuel, current :: ready =>
      let '(indegree, ready) := release (dependentsOf nodes current) indegree ready in
      takeReady fuel nodes indegree ready (order ++ [current])
  end.

(** The nodes without dependencies, sorted. *)
Definition initialReady (nodes : list Node) : list string :=
  sort_strings (List.map nd_nodeId (bfilter (fun item => length (nd_dependsOn item) =? 0) nodes)).

(** The order, with fuel for every node. *)
Definition topologicalOrder (nodes : list Node) : option (list string) :=
  takeReady (length nodes) nodes (initialIndegree nodes) (initialReady nodes) [].

Definition edge_compare (a b : Edge) : comparison :=
  cmp_or (locale_compare (ed_fromNodeId a) (ed_fromNodeId b)) (locale_compare (ed_toNodeId a) (ed_toNodeId b)).

Definition edgesOf (nodes : list Node) : list Edge :=
  js_sort edge_compare (List.flat_map (fun item =>
    List.map (fun dependency => {| ed_fromNodeId := dependency; ed_toNodeId := nd_nodeId item |}) (nd_dependsOn item))
    nodes).

(** [byId.get(id).dependsOn.length === 0] *)
Definition isEntry (nodes : list Node) (id : string) : bool :=
  existsb (fun item => String.eqb (nd_nodeId item) id && (length (nd_dependsOn item) =? 0)) nodes.

Definition graph (nodes : list Node) (field : string) : js Dag :=
  uniqueNodes field [] nodes;;
  checkNodes field (List.map nd_nodeId nodes) nodes;;
  let order := default [] (topologicalOrder nodes) in
  throw_if (negb (length order =? length nodes))
    (fail "GROWTH_CONTROL_WORKFLOW_DAG_INVALID" "Workflow graph contains a cycle." field "cycle_detected" []);;
  let edges := edgesOf nodes in
  let outgoing := List.map ed_fromNodeId edges in
  Ok {| dag_nodes := js_sort (fun a b => locale_compare (nd_nodeId a) (nd_nodeId b)) nodes;
        dag_edges := edges;
        dag_topologicalOrder := order;
        dag_entryNodeIds := bfilter (isEntry nodes) order;
        dag_terminalNodeIds := bfilter (fun id => negb (sin id outgoing)) order |}.
End Graph.

(** ** Orders *)

Section Order.
Context (nodes : list Node).

Abbreviation ids := (List.map nd_nodeId nodes).

(** [x] depends on [d]. *)
Definition needs (x d : string) : Prop :=
  exists item, item ∈ nodes /\ nd_nodeId item = x /\ d ∈ nd_dependsOn item.

(** Each element comes after what it depends on. *)
Definition in_order (order : list string) : Prop :=
  forall before x after, order = before ++ x :: after -> forall d, needs x d -> d ∈ before.

Definition orderable : Prop := exists order, order ≡ₚ ids /\ in_order order.

Definition depsOf (x : string) : list string :=
  match List.find (fun item => String.eqb (nd_nodeId item) x) nodes with
  | Some item => nd_dependsOn item
  | None => []
  end.

(** The dependencies of [x] that are not taken yet, repetitions counted. *)
Definition left_of (order : list string) (x : string) : nat :=
  length (bfilter (fun d => negb (sin d order)) (depsOf x)).

(** The nodes that can come next. *)
Definition available (order : list string) : list string :=
  sort_strings (bfilter (fun x => negb (sin x order) && (left_of order x =? 0)) ids).

(** The order that takes the least available node each time. *)
Fixpoint leastFirst (fuel : nat) (order : list string) : list string :=
  match fuel, available order with
  | S fuel, x :: _ => leastFirst fuel (order ++ [x])
  | _, _ => order
  end.

Definition occ (x : string) (l : list string) : nat := length (bfilter (String.eqb x) l).

Lemma occ_app x l1 l2 : occ x (l1 ++ l2) = occ x l1 + occ x l2.
Proof. unfold occ. by rewrite bfilter_app, length_app. Qed.

Lemma occ_pos x l : 0 < occ x l <-> x ∈ l.
Proof.
  unfold occ. induction l as [|y l IH]; simpl.
  - split; [lia|]. intros Hx. by apply not_elem_of_nil in Hx.
  - rewrite elem_of_cons. destruct (String.eqb x y) eqn:E; simpl.
    + apply String.eqb_eq in E. split; [by left|lia].
    + apply string_eqb_false in E. rewrite IH. naive_solver.
Qed.

Lemma occ_0 x l : x ∉ l -> occ x l = 0.
Proof. intros Hx. pose proof (occ_pos x l). destruct (occ x l); [done|]. exfalso. apply Hx, H. lia. Qed.

Lemma occ_Permutation x l1 l2 : l1 ≡ₚ l2 -> occ x l1 = occ x l2.
Proof. intros HP. unfold occ. by rewrite (bfilter_Permutation _ _ _ HP). Qed.

(** ** The loop over the dependents *)

Lemma sort_strings_sorted l : StronglySorted (fun x y => leb_of String.compare x y = true) (sort_strings l).
Proof. apply (js_sort_sorted String.compare). Qed.

Lemma sort_strings_id l : StronglySorted (fun x y => leb_of String.compare x y = true) l -> sort_strings l = l.
Proof. apply (js_sort_id String.compare). Qed.

Lemma occ_cons x y ds : occ x (y :: ds) = (if String.eqb x y then S (occ x ds) else occ x ds).
Proof. unfold occ. simpl. by destruct (String.eqb x y). Qed.

(** The counters of the listed nodes are those of [c], enough for the list. *)
Definition countsTo (ds : list string) (indegree : Counts) (c : string -> nat) : Prop :=
  forall x, x ∈ ds -> indegree !! x = Some (Z.of_nat (c x)) /\ occ x ds <= c x.

Definition decrement (c : string -> nat) (y : string) (x : string) : nat := if String.eqb x y then c y - 1 else c x.

Lemma counted_head y ds indegree c : countsTo (y :: ds) indegree c ->
  indegree !! y = Some (Z.of_nat (c y)) /\ S (occ y ds) <= c y.
Proof. intros Hc. destruct (Hc y (list_elem_of_here _ _)) as [Hy Ho]. by rewrite occ_cons, String.eqb_refl in Ho. Qed.

Lemma counted_tail y ds indegree c : countsTo (y :: ds) indegree c ->
  countsTo ds (<[y := Z.of_nat (c y - 1)]> indegree) (decrement c y).
Proof.
  intros Hc x Hx. unfold decrement. destruct (String.eqb x y) eqn:E.
  - apply String.eqb_eq in E as ->. rewrite lookup_insert_eq. apply counted_head in Hc as [_ Ho]. split; [done|lia].
  - destruct (Hc x) as [Hx1 Hx2]; [by apply list_elem_of_further|]. rewrite occ_cons, E in Hx2.
    apply string_eqb_false in E. by rewrite lookup_insert_ne.
Qed.

(** One step of the loop, with the counter as a number. *)
Lemma release_cons y ds indegree ready c : countsTo (y :: ds) indegree c ->
  release (y :: ds) indegree ready
  = release ds (<[y := Z.of_nat (c y - 1)]> indegree) (if c y =? 1 then sort_strings (ready ++ [y]) else ready).
Proof.
  intros [Hy Ho]%counted_head. cbn [release]. rewrite Hy. cbn [default from_option id].
  assert (Z.of_nat (c y) - 1 = Z.of_nat (c y - 1))%Z as -> by lia.
  assert (Z.eqb (Z.of_nat (c y - 1)) 0 = (c y =? 1)) as -> by
    (destruct (Nat.eqb_spec (c y) 1); [apply Z.eqb_eq|apply Z.eqb_neq]; lia).
  done.
Qed.

Lemma release_counts ds : forall indegree ready c, countsTo ds indegree c ->
  forall x n, indegree !! x = Some (Z.of_nat n) -> (release ds indegree ready).1 !! x = Some (Z.of_nat (n - occ x ds)).
Proof.
  induction ds as [|y ds IH]; intros indegree ready c Hc x n Hx; [by rewrite Nat.sub_0_r|].
  rewrite (release_cons _ _ _ _ c Hc), occ_cons. pose proof (counted_head _ _ _ _ Hc) as [Hy _].
  destruct (String.eqb x y) eqn:E.
  - apply String.eqb_eq in E as ->. rewrite Hy in Hx. injection Hx as Hx.
    rewrite (IH _ _ _ (counted_tail _ _ _ _ Hc) y (c y - 1)); [f_equal; lia|apply lookup_insert_eq].
  - apply string_eqb_false in E. apply (IH _ _ _ (counted_tail _ _ _ _ Hc)). by rewrite lookup_insert_ne.
Qed.

(** What is released is what the list counts down to zero, and the queue stays
    sorted and without repetition. *)
Lemma release_ready ds : forall indegree ready c, countsTo ds indegree c ->
  (forall x, x ∈ ds -> x ∉ ready) -> NoDup ready -> sort_strings ready = ready ->
  let ready' := (release ds indegree ready).2 in
  NoDup ready' /\ sort_strings ready' = ready' /\
  (forall x, x ∈ ready' <-> x ∈ ready \/ (x ∈ ds /\ c x = occ x ds)).
Proof.
  induction ds as [|y ds IH]; intros indegree ready c Hc Hr Hnd Hs.
  { split; [done|]. split; [done|]. intros x. pose proof (not_elem_of_nil x). simpl. tauto. }
  rewrite (release_cons _ _ _ _ c Hc). pose proof (counted_head _ _ _ _ Hc) as [_ Ho].
  specialize (IH _ (if c y =? 1 then sort_strings (ready ++ [y]) else ready) _ (counted_tail _ _ _ _ Hc)).
  assert (c y = 1 -> y ∉ ds) as Hyd by (intros H1 Hin%occ_pos; lia).
  assert (forall x, x ∈ ds -> x ∉ ready) as Hr' by (intros x Hx; apply Hr; by apply list_elem_of_further).
  assert (y ∉ ready) as Hyr by apply Hr, list_elem_of_here.
  destruct IH as (Hnd' & Hs' & He); [| | |split; [done|]; split; [done|]].
  - intros x Hx. destruct (Nat.eqb_spec (c y) 1) as [H1|]; [|by apply Hr'].
    rewrite elem_of_sort_strings, elem_of_app, list_elem_of_singleton. intros [Hin| ->]; [by apply (Hr' x)|by apply Hyd].
  - destruct (c y =? 1); [|done]. unfold sort_strings. rewrite js_sort_Permutation. apply NoDup_app. split; [done|].
    split; [|apply NoDup_singleton]. by intros x Hx ->%list_elem_of_singleton.
  - destruct (c y =? 1); [apply sort_strings_id, sort_strings_sorted|done].
  - intros x. rewrite He, elem_of_cons, occ_cons. unfold decrement. clear He Hnd' Hs'.
    assert (x ∈ (if c y =? 1 then sort_strings (ready ++ [y]) else ready) <-> x ∈ ready \/ (x = y /\ c y = 1)) as ->.
    { destruct (Nat.eqb_spec (c y) 1); [|tauto]. rewrite elem_of_sort_strings, elem_of_app, list_elem_of_singleton. tauto. }
    destruct (String.eqb x y) eqn:E; [apply String.eqb_eq in E as ->|apply string_eqb_false in E; tauto].
    pose proof (occ_pos y ds) as Hp. pose proof (occ_0 y ds) as H0.
    assert (y ∈ ds \/ occ y ds = 0) as Hd by (destruct (decide (y ∈ ds)); [by left|right; by apply H0]).
    split; [intros [[Hx|[_ Hx]]|[Hx Hx2]]|intros [Hx|[_ Hx]]].
    + by left.
    + right. split; [by left|]. rewrite (H0 (Hyd Hx)). done.
    + right. split; [by left|]. lia.
    + by left; left.
    + destruct Hd as [Hd|Hd]; [right; split; [done|lia]|left; right; split; [done|lia]].
Qed.

Lemma release_spec ds indegree ready c : countsTo ds indegree c ->
  (forall x, x ∈ ds -> x ∉ ready) -> NoDup ready -> sort_strings ready = ready ->
  let '(indegree', ready') := release ds indegree ready in
  (forall x n, indegree !! x = Some (Z.of_nat n) -> indegree' !! x = Some (Z.of_nat (n - occ x ds))) /\
  NoDup ready' /\ sort_strings ready' = ready' /\
  (forall x, x ∈ ready' <-> x ∈ ready \/ (x ∈ ds /\ c x = occ x ds)).
Proof.
  intros Hc Hr Hnd Hs. pose proof (release_counts ds indegree ready c Hc) as H1.
  pose proof (release_ready ds indegree ready c Hc Hr Hnd Hs) as H2. by destruct (release ds indegree ready).
Qed.

(** ** The invariant of the loop *)

Context (Hnd : NoDup ids).

Lemma depsOf_item item : item ∈ nodes -> depsOf (nd_nodeId item) = nd_dependsOn item.
Proof.
  unfold depsOf. revert Hnd. induction nodes as [|y l IH]; intros Hl Hi; [by apply not_elem_of_nil in Hi|].
  simpl in *. apply NoDup_cons in Hl as [Hy Hl]. apply elem_of_cons in Hi as [->|Hi]; [by rewrite String.eqb_refl|].
  rewrite (proj2 (string_eqb_false _ _)); [by apply IH|]. intros Heq. apply Hy. rewrite Heq. by apply list_elem_of_fmap_2.
Qed.

Lemma needs_depsOf x d : x ∈ ids -> needs x d <-> d ∈ depsOf x.
Proof.
  intros (item & -> & Hi)%list_elem_of_fmap. rewrite depsOf_item by done. split; [|by exists item].
  intros (item' & Hi' & Heq & Hd). by rewrite <- (depsOf_item item Hi), <- Heq, depsOf_item.
Qed.

Lemma occ_dependents id x : x ∈ ids -> occ x (dependentsOf nodes id) = occ id (depsOf x).
Proof.
  intros (item & -> & Hi)%list_elem_of_fmap. rewrite depsOf_item by done.
  unfold dependentsOf. rewrite (occ_Permutation _ _ _ (js_sort_Permutation String.compare _)).
  revert Hnd. induction nodes as [|y l IH]; intros Hl; [by apply not_elem_of_nil in Hi|].
  simpl in *. apply NoDup_cons in Hl as [Hy Hl]. rewrite occ_app.
  assert (forall z ds, occ z (List.flat_map (fun d => if String.eqb d id then [nd_nodeId y] else []) ds) =
    if String.eqb z (nd_nodeId y) then occ id ds else 0) as Hocc.
  { intros z ds. induction ds as [|d ds IHd]; [by destruct (String.eqb z _)|]. simpl. rewrite occ_app, IHd. unfold occ.
    rewrite (String.eqb_sym d id). simpl. destruct (String.eqb id d), (String.eqb z (nd_nodeId y)) eqn:E; simpl; rewrite ?E; done. }
  rewrite Hocc. apply elem_of_cons in Hi as [->|Hi].
  - rewrite String.eqb_refl. rewrite (occ_0 (nd_nodeId y)); [lia|]. intros Hin. apply Hy.
    apply list_elem_of_In, in_flat_map in Hin as (z & Hz & Hin). apply in_flat_map in Hin as (d & _ & Hin).
    destruct (String.eqb d id); [|done]. destruct Hin as [Heq|[]]. rewrite <- Heq.
    apply list_elem_of_fmap_2. by apply list_elem_of_In.
  - rewrite (proj2 (string_eqb_false _ _)); [by apply IH|]. intros Heq. apply Hy. rewrite <- Heq.
    by apply list_elem_of_fmap_2.
Qed.

Lemma left_of_take order x current : current ∉ order ->
  left_of (order ++ [current]) x = left_of order x - occ current (depsOf x) /\ occ current (depsOf x) <= left_of order x.
Proof.
  intros Hc. unfold left_of, occ, bfilter. induction (depsOf x) as [|d ds [IH1 IH2]]; [done|]. cbn [List.filter].
  rewrite sin_app, sin_singleton, (String.eqb_sym d current). destruct (String.eqb current d) eqn:E.
  - apply String.eqb_eq in E as <-. rewrite (proj2 (sin_false _ _) Hc). simpl. split; lia.
  - rewrite orb_false_r. destruct (sin d order); simpl; [by split|]. split; lia.
Qed.

Lemma left_of_0 order x : left_of order x = 0 <-> forall d, d ∈ depsOf x -> d ∈ order.
Proof.
  unfold left_of. split.
  - intros Hl%length_zero_iff_nil d Hd. rewrite bfilter_nil in Hl. apply sin_true, negb_false_iff. by apply Hl.
  - intros Hd. rewrite (proj2 (bfilter_nil _ _)); [done|]. intros d Hin. apply negb_false_iff, sin_true. by apply Hd.
Qed.

Lemma elem_of_available order x : x ∈ available order <-> x ∈ ids /\ (x ∉ order) /\ left_of order x = 0.
Proof.
  unfold available. rewrite elem_of_sort_strings, elem_of_bfilter, andb_true_iff, negb_true_iff, sin_false, Nat.eqb_eq.
  tauto.
Qed.

Lemma NoDup_available order : NoDup (available order).
Proof. unfold available, sort_strings. rewrite js_sort_Permutation. by apply NoDup_bfilter. Qed.

(** What was taken: distinct nodes, each after its dependencies. *)
Definition taken (order : list string) : Prop :=
  NoDup order /\ (forall x, x ∈ order -> x ∈ ids) /\ in_order order.

Lemma taken_left order x : taken order -> x ∈ order -> left_of order x = 0.
Proof.
  intros (_ & Hin & Ho) Hx. apply left_of_0. intros d Hd. apply list_elem_of_split in Hx as Hs.
  destruct Hs as (l1 & l2 & ->). apply elem_of_app. left. eapply Ho; [done|]. apply needs_depsOf; [by apply Hin|done].
Qed.

Lemma taken_step order x : taken order -> x ∈ available order -> taken (order ++ [x]).
Proof.
  intros (Hno & Hin & Ho) (Hx & Hnx & Hl)%elem_of_available. split; [|split].
  - apply NoDup_app. split; [done|]. split; [|apply NoDup_singleton]. intros y Hy ->%list_elem_of_singleton. done.
  - intros y [Hy| ->%list_elem_of_singleton]%elem_of_app; [by apply Hin|done].
  - intros l1 y l2 Heq d Hd. destruct l2 as [|z l2] using rev_ind.
    + apply app_inj_tail in Heq as [<- <-]. apply (proj1 (left_of_0 _ _) Hl). by apply needs_depsOf.
    + clear IHl2. rewrite app_comm_cons, app_assoc in Heq. apply app_inj_tail in Heq as [-> _]. by eapply Ho.
Qed.

(** The counts and the queue after [order] was taken. *)
Definition counted (indegree : Counts) (order : list string) : Prop :=
  forall x, x ∈ ids -> indegree !! x = Some (Z.of_nat (left_of order x)).

Lemma sort_strings_available order : sort_strings (available order) = available order.
Proof. apply sort_strings_id, sort_strings_sorted. Qed.

Lemma dependentsOf_ids id x : x ∈ dependentsOf nodes id -> x ∈ ids.
Proof.
  unfold dependentsOf. rewrite elem_of_sort_strings. intros Hin. apply list_elem_of_In, in_flat_map in Hin as (z & Hz & Hin).
  apply in_flat_map in Hin as (d & _ & Hin). destruct (String.eqb d id); [|done]. destruct Hin as [<-|[]].
  apply list_elem_of_fmap_2. by apply list_elem_of_In.
Qed.

Lemma release_available indegree order current rest :
  taken order -> counted indegree order -> available order = current :: rest ->
  let '(indegree', ready') := release (dependentsOf nodes current) indegree rest in
  counted indegree' (order ++ [current]) /\ ready' = available (order ++ [current]).
Proof.
  intros Ht Hi Ha. assert (current ∈ available order) as Hc by (rewrite Ha; apply list_elem_of_here).
  pose proof (proj1 (elem_of_available _ _) Hc) as (Hcid & Hcn & Hc0).
  pose proof (NoDup_available order) as Hna. rewrite Ha in Hna. apply NoDup_cons in Hna as [Hcr Hnr].
  assert (forall x, x ∈ rest <-> x ∈ available order /\ x <> current) as Hrest.
  { intros x. rewrite Ha, elem_of_cons. split; [|naive_solver]. intros Hx. split; [by right|]. by intros ->. }
  assert (sort_strings rest = rest) as Hsr.
  { apply sort_strings_id. pose proof (sort_strings_sorted (available order)) as Hs.
    rewrite sort_strings_available, Ha in Hs. by apply StronglySorted_cons in Hs as [_ Hs]. }
  assert (forall x, x ∈ dependentsOf nodes current -> left_of order x <> 0 /\ x ∈ ids) as Hdep.
  { intros x Hx. pose proof (dependentsOf_ids _ _ Hx) as Hxid. split; [|done]. apply occ_pos in Hx.
    rewrite occ_dependents in Hx by done. pose proof (left_of_take order x current Hcn). lia. }
  pose proof (release_spec (dependentsOf nodes current) indegree rest (left_of order)) as Hr.
  destruct (release (dependentsOf nodes current) indegree rest) as [indegree' ready'].
  destruct Hr as (Hi' & Hnd' & Hs' & He).
  - intros x Hx. split; [by apply Hi, Hdep|]. rewrite occ_dependents by (by apply Hdep). by apply left_of_take.
  - intros x Hx [Hin _]%Hrest. apply Hdep in Hx as [Hx _]. by apply elem_of_available in Hin as (_ & _ & ?).
  - done.
  - done.
  - split.
    + intros x Hx. rewrite (Hi' x _ (Hi x Hx)), occ_dependents by done. f_equal. f_equal. symmetry. by apply left_of_take.
    + rewrite <- Hs', <- (sort_strings_available (order ++ [current])). apply sort_strings_Permutation.
      apply NoDup_Permutation; [done|apply NoDup_available|]. intros x. rewrite He, Hrest, !elem_of_available.
      rewrite elem_of_app, list_elem_of_singleton. destruct (left_of_take order x current Hcn) as [-> Hle].
      split.
      * intros [[(Hx & Hn & Hl) Hne]|[Hx Heq]]; [repeat split; [done|tauto|lia]|].
        destruct (Hdep x Hx) as [Hl Hxid]. rewrite occ_dependents in Heq by done. split; [done|]. split; [|lia].
        intros [Hin| ->]; [by apply Hl, taken_left|done].
      * intros (Hx & Hn & Hl). destruct (decide (left_of order x = 0)) as [H0|H0]; [left; tauto|]. right.
        rewrite <- occ_pos, occ_dependents by done. split; lia.
Qed.

Lemma taken_length order : taken order -> length order <= length nodes.
Proof.
  intros (Hno & Hin & _). rewrite <- (length_map nd_nodeId). apply submseteq_length, NoDup_submseteq; [done|].
  intros x. apply Hin.
Qed.

(** The loop ends, with the order that takes the least available node each
    time, and only when no node is available. *)
Lemma takeReady_spec fuel indegree order :
  taken order -> counted indegree order -> length nodes <= fuel + length order ->
  takeReady fuel nodes indegree (available order) order = Some (leastFirst fuel order) /\
  taken (leastFirst fuel order) /\ available (leastFirst fuel order) = [].
Proof.
  revert indegree order. induction fuel as [|fuel IH]; intros indegree order Ht Hi Hf; simpl.
  - destruct (available order) as [|x rest] eqn:Ha; [done|]. exfalso.
    assert (x ∈ available order) as Hx by (rewrite Ha; apply list_elem_of_here).
    pose proof (taken_length _ (taken_step _ _ Ht Hx)) as Hl. rewrite length_app in Hl. simpl in Hl. lia.
  - destruct (available order) as [|x rest] eqn:Ha; [done|].
    assert (x ∈ available order) as Hx by (rewrite Ha; apply list_elem_of_here).
    pose proof (release_available indegree order x rest Ht Hi Ha) as Hr.
    destruct (release (dependentsOf nodes x) indegree rest) as [indegree' ready']. destruct Hr as [Hi' ->].
    apply IH; [by apply taken_step|done|]. rewrite length_app. simpl. lia.
Qed.

Lemma find_app {A} (p : A -> bool) l1 l2 :
  List.find p (l1 ++ l2) = match List.find p l1 with Some x => Some x | None => List.find p l2 end.
Proof. induction l1 as [|x l1 IH]; simpl; [done|]. by destruct (p x). Qed.

Lemma initial_counted : counted (initialIndegree nodes) [].
Proof.
  intros x Hx. assert (left_of [] x = length (depsOf x)) as -> by (unfold left_of; by rewrite bfilter_all).
  revert x Hx. unfold initialIndegree, depsOf. revert Hnd.
  induction nodes as [|y l IH] using rev_ind; intros Hl x Hx; [by apply not_elem_of_nil in Hx|].
  rewrite fold_left_app. simpl. rewrite map_app in Hl, Hx. simpl in *. apply NoDup_app in Hl as (Hl & Hy & _).
  rewrite find_app. apply elem_of_app in Hx as [Hx|Hx].
  - rewrite lookup_insert_ne by (intros Heq; eapply (Hy x); [done|rewrite Heq; by apply list_elem_of_singleton]). rewrite (IH Hl x Hx).
    destruct (List.find _ l) eqn:E; [done|]. exfalso. apply list_elem_of_fmap in Hx as (item & -> & Hi).
    apply list_elem_of_In, (List.find_none _ _ E) in Hi. by rewrite String.eqb_refl in Hi.
  - apply list_elem_of_singleton in Hx as ->. rewrite lookup_insert_eq.
    destruct (List.find _ l) as [item|] eqn:E; [|simpl; by rewrite String.eqb_refl]. exfalso.
    apply List.find_some in E as [Hi Heq]. apply String.eqb_eq in Heq. rewrite <- Heq in Hy.
    eapply Hy; [apply list_elem_of_fmap_2; by apply list_elem_of_In|by apply list_elem_of_singleton].
Qed.

Lemma initial_ready : initialReady nodes = available [].
Proof.
  unfold initialReady, available. apply sort_strings_Permutation.
  rewrite <- map_bfilter. f_equiv. apply Permutation_refl', bfilter_ext. intros item Hi. simpl.
  unfold left_of. by rewrite depsOf_item, bfilter_all.
Qed.

Lemma topologicalOrder_spec : exists order, topologicalOrder nodes = Some order /\
  order = leastFirst (length nodes) [] /\ taken order /\ available order = [].
Proof.
  unfold topologicalOrder. rewrite initial_ready. eexists. split; [apply takeReady_spec|split; [done|]].
  - split; [constructor|]. split; [intros x Hx; by apply not_elem_of_nil in Hx|].
    intros [|? before] x after Heq; discriminate Heq.
  - apply initial_counted.
  - simpl. lia.
  - apply (takeReady_spec _ (initialIndegree nodes)); [|apply initial_counted|simpl; lia].
    split; [constructor|]. split; [intros x Hx; by apply not_elem_of_nil in Hx|].
    intros [|? before] x after Heq; discriminate Heq.
Qed.

(** The first node of [l] that was not taken. *)
Lemma first_missing (order l : list string) x : x ∈ l -> x ∉ order ->
  exists before y after, l = before ++ y :: after /\ (y ∉ order) /\ (forall z, z ∈ before -> z ∈ order).
Proof.
  induction l as [|a l IH]; intros Hx Hn; [by apply not_elem_of_nil in Hx|].
  destruct (decide (a ∈ order)) as [Ha|Ha].
  - apply elem_of_cons in Hx as [->|Hx]; [done|]. destruct (IH Hx Hn) as (before & y & after & -> & Hy & Hb).
    exists (a :: before), y, after. split; [done|]. split; [done|]. intros z [->|Hz]%elem_of_cons; [done|by apply Hb].
  - exists [], a, l. split; [done|]. split; [done|]. intros z Hz. by apply not_elem_of_nil in Hz.
Qed.

(** Everything was taken exactly when the nodes can be ordered at all. *)
Lemma taken_all order : taken order -> available order = [] -> length order = length nodes <-> orderable.
Proof.
  intros Ht Ha. pose proof Ht as (Hno & Hin & Ho). split.
  - intros Hl. exists order. split; [|done]. apply submseteq_length_Permutation; [by apply NoDup_submseteq|].
    rewrite length_map. lia.
  - intros (order' & HP & Ho'). rewrite <- (length_map nd_nodeId). apply Permutation_length.
    apply NoDup_Permutation; [done|done|]. intros x. split; [apply Hin|]. intros Hx.
    destruct (decide (x ∈ order)) as [|Hn]; [done|]. exfalso. rewrite <- HP in Hx.
    destruct (first_missing order order' x Hx Hn) as (before & y & after & -> & Hy & Hb).
    assert (y ∈ available order) as Hav; [|rewrite Ha in Hav; by apply not_elem_of_nil in Hav].
    assert (y ∈ ids) as Hyid by (rewrite <- HP; apply elem_of_app; right; apply list_elem_of_here).
    apply elem_of_available. split; [done|]. split; [done|]. apply left_of_0. intros d Hd. apply Hb.
    eapply Ho'; [done|]. by apply needs_depsOf.
Qed.
End Order.

(** ** Lists of the same nodes *)

Lemma left_of_Permutation nodes nodes' order x : nodes ≡ₚ nodes' -> NoDup (List.map nd_nodeId nodes) ->
  x ∈ List.map nd_nodeId nodes -> left_of nodes order x = left_of nodes' order x.
Proof.
  intros HP Hnd (item & -> & Hi)%list_elem_of_fmap. unfold left_of.
  rewrite !depsOf_item; [done|by rewrite <- HP|by rewrite <- HP|done|done].
Qed.

Lemma available_Permutation nodes nodes' order : nodes ≡ₚ nodes' -> NoDup (List.map nd_nodeId nodes) ->
  available nodes order = available nodes' order.
Proof.
  intros HP Hnd. unfold available. apply sort_strings_Permutation.
  rewrite (bfilter_ext _ (fun x => negb (sin x order) && (left_of nodes' order x =? 0)) (List.map nd_nodeId nodes)).
  - apply bfilter_Permutation. by apply Permutation_map.
  - intros x Hx. by rewrite (left_of_Permutation nodes nodes').
Qed.

Lemma leastFirst_Permutation nodes nodes' fuel order : nodes ≡ₚ nodes' -> NoDup (List.map nd_nodeId nodes) ->
  leastFirst nodes fuel order = leastFirst nodes' fuel order.
Proof.
  intros HP Hnd. revert order. induction fuel as [|fuel IH]; intros order; simpl; [done|].
  rewrite <- (available_Permutation nodes nodes') by done. by destruct (available nodes order).
Qed.

Lemma needs_Permutation nodes nodes' x d : nodes ≡ₚ nodes' -> needs nodes x d <-> needs nodes' x d.
Proof. intros HP. unfold needs. split; intros (item & Hi & H); exists item; [rewrite <- HP|rewrite HP]; done. Qed.

Lemma orderable_Permutation nodes nodes' : nodes ≡ₚ nodes' -> orderable nodes -> orderable nodes'.
Proof.
  intros HP (order & Ho & Hi). exists order. split; [by rewrite Ho, HP|].
  intros before x after -> d Hd. eapply Hi; [done|]. by apply (needs_Permutation nodes nodes').
Qed.

Section Checked.
Context `{JsHost}.

(** ** What is accepted *)

Lemma uniqueNodes_Ok field seen nodes : uniqueNodes field seen nodes = Ok tt <->
  NoDup (List.map nd_nodeId nodes) /\ forall x, x ∈ List.map nd_nodeId nodes -> x ∉ seen.
Proof.
  revert seen. induction nodes as [|item nodes IH]; intros seen; simpl.
  - split; [intros _; split; [constructor|intros x Hx; by apply not_elem_of_nil in Hx]|done].
  - rewrite bind_Ok, NoDup_cons. split.
    + intros ([] & Hs%throw_if_Ok%sin_false & (Hnd & Hn)%IH). split; [split; [|done]|].
      * intros Hin. apply (Hn _ Hin), list_elem_of_here.
      * intros x [->|Hx]%elem_of_cons; [done|]. intros Hin. by apply (Hn x Hx), list_elem_of_further.
    + intros ((Hi & Hnd) & Hn). exists tt. split; [by apply throw_if_false, sin_false, Hn, list_elem_of_here|].
      apply IH. split; [done|]. intros x Hx [->|Hin]%elem_of_cons; [done|].
      by apply (Hn x); [apply list_elem_of_further|].
Qed.

Lemma checkDependencies_Ok field nodeId ids ds : checkDependencies field nodeId ids ds = Ok tt <->
  forall d, d ∈ ds -> d <> nodeId /\ d ∈ ids.
Proof.
  induction ds as [|d ds IH]; simpl; [split; [intros _ d Hd; by apply not_elem_of_nil in Hd|done]|].
  rewrite bind_Ok. split.
  - intros ([] & Hs%throw_if_Ok%string_eqb_false & Hr). apply bind_Ok in Hr as ([] & Hi%throw_if_Ok & Hr).
    apply negb_false_iff, sin_true in Hi. intros x [->|Hx]%elem_of_cons; [done|]. by apply (proj1 IH).
  - intros Ha. destruct (Ha d (list_elem_of_here _ _)) as [Hne Hin]. exists tt.
    split; [by apply throw_if_false, string_eqb_false|]. apply bind_Ok. exists tt.
    split; [by apply throw_if_false, negb_false_iff, sin_true|]. apply IH. intros x Hx. by apply Ha, list_elem_of_further.
Qed.

(** Every dependency of a node is another node, and its join is sound. *)
Definition sound (ids : list string) (item : Node) : Prop :=
  (forall d, d ∈ nd_dependsOn item -> d <> nd_nodeId item /\ d ∈ ids) /\
  forall j, nd_join item = Some j -> jn_strategy j ∈ ["all"; "any"] /\ 2 <= length (nd_dependsOn item) /\
    minimumOutOfRange j (length (nd_dependsOn item)) = false.

Lemma checkJoin_Ok field item : checkJoin field item = Ok tt <->
  forall j, nd_join item = Some j -> jn_strategy j ∈ ["all"; "any"] /\ 2 <= length (nd_dependsOn item) /\
    minimumOutOfRange j (length (nd_dependsOn item)) = false.
Proof.
  unfold checkJoin. destruct (nd_join item) as [j|]; [|done]. rewrite bind_Ok. split.
  - intros ([] & Hs%throw_if_Ok & Hm%throw_if_Ok) j' [= <-]. apply orb_false_iff in Hs as [Hs Hl].
    apply negb_false_iff, sin_true in Hs. apply Nat.ltb_ge in Hl. done.
  - intros Ha. destruct (Ha j eq_refl) as (Hs & Hl & Hm). exists tt. split; [|by apply throw_if_false].
    apply throw_if_false, orb_false_iff. split; [by apply negb_false_iff, sin_true|by apply Nat.ltb_ge].
Qed.

Lemma checkNodes_Ok field ids nodes : checkNodes field ids nodes = Ok tt <-> Forall (sound ids) nodes.
Proof.
  induction nodes as [|item nodes IH]; simpl; [done|]. rewrite bind_Ok, Forall_cons. split.
  - intros ([] & Hd & Hr). apply bind_Ok in Hr as ([] & Hj & Hr). split; [|by apply IH].
    split; [exact (proj1 (checkDependencies_Ok _ _ _ _) Hd)|exact (proj1 (checkJoin_Ok _ _) Hj)].
  - intros ([Hd Hj] & Hr). exists tt. split; [by apply checkDependencies_Ok|]. apply bind_Ok. exists tt.
    split; [by apply checkJoin_Ok|by apply IH].
Qed.

(** What [graph] accepts. *)
Definition acceptable (nodes : list Node) : Prop :=
  NoDup (List.map nd_nodeId nodes) /\ Forall (sound (List.map nd_nodeId nodes)) nodes /\ orderable nodes.

Lemma graph_Ok nodes field dag : graph nodes field = Ok dag ->
  acceptable nodes /\ dag_topologicalOrder dag = leastFirst nodes (length nodes) [] /\
  dag_topologicalOrder dag ≡ₚ List.map nd_nodeId nodes /\ in_order nodes (dag_topologicalOrder dag).
Proof.
  unfold graph. intros Hg. apply bind_Ok in Hg as ([] & [Hnd _]%uniqueNodes_Ok & Hg).
  apply bind_Ok in Hg as ([] & Hs%checkNodes_Ok & Hg). cbv zeta in Hg.
  destruct (topologicalOrder_spec nodes Hnd) as (order & Ho & Hleast & Ht & Ha). rewrite Ho in Hg.
  apply bind_Ok in Hg as ([] & Hl%throw_if_Ok & Hg). apply negb_false_iff, Nat.eqb_eq in Hl. cbn [default from_option id] in Hl.
  apply Ok_inj in Hg as <-. cbn [dag_topologicalOrder default from_option id].
  pose proof Ht as (Hno & Hin & Hio). split; [split; [done|split; [done|]]|].
  - by apply (taken_all nodes Hnd order).
  - split; [done|]. split; [|done]. apply submseteq_length_Permutation; [by apply NoDup_submseteq|]. rewrite length_map. lia.
Qed.

Lemma acceptable_graph nodes field : acceptable nodes -> exists dag, graph nodes field = Ok dag.
Proof.
  intros (Hnd & Hs & Hord).
  destruct (topologicalOrder_spec nodes Hnd) as (order & Ho & _ & Ht & Ha).
  unfold graph. eexists. rewrite Ho. ok_step ltac:(apply uniqueNodes_Ok; split; [done|intros x _; apply not_elem_of_nil]).
  ok_step ltac:(by apply checkNodes_Ok). cbv zeta.
  ok_step ltac:(apply throw_if_false, negb_false_iff, Nat.eqb_eq; by apply (taken_all nodes Hnd order)). reflexivity.
Qed.

(** C18: a graph is accepted exactly when its nodes are distinct, each
    dependency is another node, the joins are sound, and the nodes can be
    ordered so that each comes after its dependencies.  The order that is
    returned is such an order, namely the one that takes the least node that is
    ready each time, and so it is the same however the nodes are listed. *)
Theorem graph_correct nodes field :
  ((exists dag, graph nodes field = Ok dag) <-> acceptable nodes) /\
  forall dag, graph nodes field = Ok dag ->
    dag_topologicalOrder dag ≡ₚ List.map nd_nodeId nodes /\ in_order nodes (dag_topologicalOrder dag) /\
    dag_topologicalOrder dag = leastFirst nodes (length nodes) [] /\
    forall nodes', nodes' ≡ₚ nodes ->
      exists dag', graph nodes' field = Ok dag' /\ dag_topologicalOrder dag' = dag_topologicalOrder dag.
Proof.
  split; [split; [intros [dag Hg]; apply (graph_Ok _ _ _ Hg)|apply acceptable_graph]|].
  intros dag ((Hnd & Hs & Hord) & Hleast & HP & Hio)%graph_Ok. split; [done|]. split; [done|]. split; [done|].
  intros nodes' HP'. destruct (acceptable_graph nodes' field) as [dag' Hg'].
  { split; [by rewrite HP'|]. split; [|by apply (orderable_Permutation nodes)].
    rewrite Forall_forall in *. intros item Hi. rewrite HP' in Hi. destruct (Hs item Hi) as [Hd Hj].
    split; [|done]. intros d Hin. destruct (Hd d Hin) as [Hne Hid]. split; [done|].
    by rewrite (Permutation_map nd_nodeId HP'). }
  exists dag'. split; [done|]. apply graph_Ok in Hg' as (_ & -> & _). rewrite Hleast.
  rewrite (Permutation_length HP'). apply leastFirst_Permutation; [done|by rewrite HP'].
Qed.
End Checked.

(** ** Examples *)

Definition demo_graph_node (id : string) (dependsOn : list string) : Node :=
  {| nd_nodeId := id; nd_capabilityKey := "content.draft"; nd_dependsOn := dependsOn;
     nd_executionClass := "internal"; nd_adapterClasses := ["internal"]; nd_inputSchema := VNull;
     nd_outputSchema := VNull; nd_join := None; nd_approvalCheckpoint := None; nd_verificationCheckpoint := None;
     nd_compensationNodeId := None; nd_mode := "internal_draft" |}.

Definition demo_graph : list Node :=
  [demo_graph_node "publish" ["draft"; "budget"]; demo_graph_node "draft" []; demo_graph_node "budget" []].

(** The order does not depend on the listing; a graph in a circle is refused. *)
Lemma graph_correct_witness :
  let run := graph (H:=demo_host) demo_graph "dag" in
  let dag := catch run (Build_Dag [] [] [] [] []) in
  run = Ok dag /\ dag_topologicalOrder dag = ["budget"; "draft"; "publish"] /\
  in_order demo_graph (dag_topologicalOrder dag) /\
  ~ acceptable (H:=demo_host) [demo_graph_node "draft" ["publish"]; demo_graph_node "publish" ["draft"]].
Proof.
  cbv zeta. split; [vm_compute; reflexivity|]. split; [vm_compute; reflexivity|]. split.
  - refine (proj1 (proj2 (proj2 (graph_correct (H:=demo_host) demo_graph "dag") _ _))). vm_compute. reflexivity.
  - intros [dag Hd]%(proj1 (graph_correct (H:=demo_host) _ "dag")). vm_compute in Hd. discriminate.
Defined.
End WorkflowGraph.
