(* ===== verification/WorkflowPlan.v ===== *)
(** * Workflow plans: the compiler
    (src/domain/growthControlPlane/workflowPlanCompiler.js)

    A workflow of an activity pack is composed with extensions at its extension
    points and compiled to a plan that is hashed.  Proved: extensions never
    lose a dependency of the workflow, and what holds of a plan that was
    compiled. *)
From stdpp Require Import gmap strings.
From S2P Require Import Prelude Sorting JsString JsDate JsValue JsJson GrowthControl GrowthConfig ActivityPack WorkflowGraph.

Module WorkflowPlan.
Import GrowthControl GrowthConfig ActivityPack WorkflowGraph.

Definition compile_invalid (message field name : string) : jserror :=
  fail "GROWTH_CONTROL_WORKFLOW_COMPILE_INVALID" message field name [].
Definition extension_invalid (message field name : string) : jserror :=
  fail "GROWTH_CONTROL_WORKFLOW_EXTENSION_INVALID" message field name [].

Definition POSITIONS : list string := ["pre"; "post"].

Record ExtensionPoint := {
  xp_extensionPointKey : string;
  xp_anchorNodeId : string;
  xp_allowedPositions : list string;
}.

Record Extension := {
  ex_extensionKey : string;
  ex_extensionPointKey : string;
  ex_position : string;
  ex_order : Z;
  ex_nodes : list Node;
}.

Record Generation := {
  gn_generated : bool;
  gn_validationStatus : string;
  gn_validationSha256 : option string;
  gn_generatedBy : option string;
}.

(** Reading a property of [v]. *)
Definition object_of (v : jsval) : js unit :=
  throw_if (nullish v) (TypeErr "Cannot read properties of undefined").

(** [copy]: [JSON.parse(JSON.stringify(value))] *)
Definition copy (value : jsval) : jsval := if nullish value then value else json_copy value.

(** ** Sensitive input *)

Definition sensitive_name (name : string) : bool :=
  let normalized := js_toLowerCase name in
  js_includes normalized "secret" || js_includes normalized "credential" || String.eqb normalized "token"
  || js_endsWith normalized "_token" || String.eqb normalized "password" || String.eqb normalized "prompt_body"
  || String.eqb normalized "drive_id" || String.eqb normalized "file_path".

Definition sensitive_error (field : string) : jserror :=
  fail "GROWTH_CONTROL_WORKFLOW_COMPILE_SENSITIVE_INPUT" "Compiler input contains a forbidden sensitive field."
    field "forbidden_sensitive_field" [].

Fixpoint sensitive (value : jsval) (field : string) : js unit :=
  match value with
  | VArr l =>
      (fix go (index : nat) (l : list jsval) : js unit :=
         match l with
         | [] => Ok tt
         | child :: rest => sensitive child (field +:+ "." +:+ string_of_Z (Z.of_nat index));; go (S index) rest
         end) 0 l
  | VObj o =>
      (fix go (o : jsobj) : js unit :=
         match o with
         | [] => Ok tt
         | (name, child) :: rest =>
             throw_if (sensitive_name name) (sensitive_error (field +:+ "." +:+ name));;
             sensitive child (field +:+ "." +:+ name);;
             go rest
         end) o
  | _ => Ok tt
  end.

(** ** Composition *)

(** [byId.get(id)]: the last of the nodes with this id. *)
Fixpoint lastIndex (id : string) (nodes : list Node) : option nat :=
  match nodes with
  | [] => None
  | item :: rest =>
      match lastIndex id rest with
      | Some i => Some (S i)
      | None => if String.eqb (nd_nodeId item) id then Some 0 else None
      end
  end.

Definition with_dependsOn (dependsOn : list string) (n : Node) : Node :=
  {| nd_nodeId := nd_nodeId n; nd_capabilityKey := nd_capabilityKey n; nd_dependsOn := dependsOn;
     nd_executionClass := nd_executionClass n; nd_adapterClasses := nd_adapterClasses n;
     nd_inputSchema := nd_inputSchema n; nd_outputSchema := nd_outputSchema n; nd_join := nd_join n;
     nd_approvalCheckpoint := nd_approvalCheckpoint n; nd_verificationCheckpoint := nd_verificationCheckpoint n;
     nd_compensationNodeId := nd_compensationNodeId n; nd_mode := nd_mode n |}.

(** The check of each node of the sequence against the nodes before it. *)
Fixpoint freshNodes (ids : list string) (sequence : list Node) : js unit :=
  match sequence with
  | [] => Ok tt
  | candidate :: rest =>
      throw_if (sin (nd_nodeId candidate) ids)
        (fail "GROWTH_CONTROL_WORKFLOW_DAG_INVALID" "Composed node identifiers must be unique." "extensions.nodes"
           "duplicate_node" [("value", VStr (nd_nodeId candidate))]);;
      freshNodes (nd_nodeId candidate :: ids) rest
  end.

(** The sequence with each node depending on the one before it, and the first
    on [dependsOn]. *)
Fixpoint chain (dependsOn : list string) (sequence : list Node) : list Node :=
  match sequence with
  | [] => []
  | candidate :: rest => with_dependsOn dependsOn candidate :: chain [nd_nodeId candidate] rest
  end.

(** [sequence.at(-1).nodeId] *)
Definition lastId (sequence : list Node) : string := List.last (List.map nd_nodeId sequence) "".

(** The nodes of the extensions at a point in a position. *)
Definition sequenceAt (extensions : list Extension) (pointKey position : string) : list Node :=
  List.flat_map ex_nodes
    (bfilter (fun item => String.eqb (ex_extensionPointKey item) pointKey && String.eqb (ex_position item) position)
       extensions).

(** The sequence goes between the anchor and what it depends on. *)
Definition insertBefore (nodes : list Node) (i : nat) (anchor : Node) (sequence : list Node) : list Node :=
  alter (with_dependsOn [lastId sequence]) i nodes ++ chain (nd_dependsOn anchor) sequence.

(** The sequence goes between the anchor and what depends on it. *)
Definition redirect (anchorId : string) (sequence : list Node) (candidate : Node) : Node :=
  if negb (String.eqb (nd_nodeId candidate) anchorId)
     && negb (sin (nd_nodeId candidate) (List.map nd_nodeId sequence))
     && sin anchorId (nd_dependsOn candidate)
  then with_dependsOn
         (List.map (fun d => if String.eqb d anchorId then lastId sequence else d) (nd_dependsOn candidate)) candidate
  else candidate.

Definition insertAfter (nodes : list Node) (anchor : Node) (sequence : list Node) : list Node :=
  List.map (redirect (nd_nodeId anchor) sequence) nodes ++ chain [nd_nodeId anchor] sequence.

(** One position of one point.  An extension has nodes, so that a sequence is
    empty exactly when no extension is selected. *)
Definition composeAt (extensions : list Extension) (point : ExtensionPoint) (i : nat) (position : string)
    (nodes : list Node) : js (list Node) :=
  let sequence := sequenceAt extensions (xp_extensionPointKey point) position in
  match sequence, nodes !! i with
  | [], _ | _, None => Ok nodes
  | _, Some anchor =>
      freshNodes (List.map nd_nodeId nodes) sequence;;
      Ok (if String.eqb position "pre" then insertBefore nodes i anchor sequence
          else insertAfter nodes anchor sequence)
  end.

Definition composePoint (extensions : list Extension) (nodes : list Node) (point : ExtensionPoint) : js (list Node) :=
  match lastIndex (xp_anchorNodeId point) nodes with
  | None => Throw (extension_invalid "Extension anchor does not exist."
                     ("extensionPoints." +:+ xp_extensionPointKey point) "anchor_not_found")
  | Some i =>
      nodes ← composeAt extensions point i "pre" nodes;
      composeAt extensions point i "post" nodes
  end.

Definition compose (base : list Node) (points : list ExtensionPoint) (extensions : list Extension) : js (list Node) :=
  foldM_js (composePoint extensions) base points.

(** [normalizedDag], [extensionComposition], [compensationGraph] with its
    [triggers], and the rest of a compiled plan but its hash. *)
Record Plan := {
  pl_compilerVersion : string;
  pl_workflowKey : string;
  pl_workflowVersion : Z;
  pl_activityPackKey : string;
  pl_activityPackVersion : Z;
  pl_manifestChecksumSha256 : string;
  pl_normalizedDag : Dag;
  pl_extensionPoints : list ExtensionPoint;
  pl_extensions : list Extension;
  pl_requiredCapabilities : list string;
  pl_candidateAdapterClasses : list string;
  pl_approvalCheckpoints : list (string * Checkpoint);
  pl_verificationCheckpoints : list (string * Checkpoint);
  pl_compensationGraph : Dag;
  pl_triggers : list (string * string);
  pl_generation : Generation;
  pl_settingsSnapshotHash : option string;
}.

(** ** Values of the plan *)

Definition js_strings (l : list string) : jsval := VArr (List.map VStr l).

Definition checkpoint_fields (c : Checkpoint) : jsobj :=
  [("required", VBool (ck_required c)); ("checkpointKey", VStr (ck_checkpointKey c))]
  ++ match ck_policyKey c with Some k => [("policyKey", js_of_optional k)] | None => [] end.

Definition js_of_checkpoint (c : option Checkpoint) : jsval :=
  match c with Some c => VObj (checkpoint_fields c) | None => VNull end.

Definition js_of_node (n : Node) : jsval := VObj
  [("nodeId", VStr (nd_nodeId n)); ("capabilityKey", VStr (nd_capabilityKey n));
   ("dependsOn", js_strings (nd_dependsOn n)); ("executionClass", VStr (nd_executionClass n));
   ("adapterClasses", js_strings (nd_adapterClasses n)); ("inputSchema", nd_inputSchema n);
   ("outputSchema", nd_outputSchema n);
   ("join", match nd_join n with
            | Some j => VObj [("strategy", VStr (jn_strategy j)); ("minimumCompleted", jn_minimumCompleted j)]
            | None => VNull
            end);
   ("approvalCheckpoint", js_of_checkpoint (nd_approvalCheckpoint n));
   ("verificationCheckpoint", js_of_checkpoint (nd_verificationCheckpoint n));
   ("compensationNodeId", js_of_optional (nd_compensationNodeId n)); ("mode", VStr (nd_mode n))].

Definition dag_fields (d : Dag) : jsobj :=
  [("nodes", VArr (List.map js_of_node (dag_nodes d)));
   ("edges", VArr (List.map (fun e => VObj [("fromNodeId", VStr (ed_fromNodeId e)); ("toNodeId", VStr (ed_toNodeId e))])
                     (dag_edges d)));
   ("topologicalOrder", js_strings (dag_topologicalOrder d)); ("entryNodeIds", js_strings (dag_entryNodeIds d));
   ("terminalNodeIds", js_strings (dag_terminalNodeIds d))].

Definition checkpoints_value (l : list (string * Checkpoint)) : jsval :=
  VArr (List.map (fun p => VObj (("nodeId", VStr p.1) :: checkpoint_fields p.2)) l).

(** [withoutHash] *)
Definition js_of_plan (p : Plan) : jsval := VObj
  [("contractVersion", VStr "spec-006-workflow-compiled-plan-v1"); ("compilerVersion", VStr (pl_compilerVersion p));
   ("workflowIdentity", VObj
     [("workflowKey", VStr (pl_workflowKey p)); ("workflowVersion", VNum (Some (pl_workflowVersion p)));
      ("activityPackKey", VStr (pl_activityPackKey p));
      ("activityPackVersion", VNum (Some (pl_activityPackVersion p)));
      ("manifestChecksumSha256", VStr (pl_manifestChecksumSha256 p))]);
   ("normalizedDag", VObj (dag_fields (pl_normalizedDag p)));
   ("extensionComposition", VObj
     [("extensionPoints", VArr (List.map (fun x => VObj
        [("extensionPointKey", VStr (xp_extensionPointKey x)); ("anchorNodeId", VStr (xp_anchorNodeId x));
         ("allowedPositions", js_strings (xp_allowedPositions x))]) (pl_extensionPoints p)));
      ("extensions", VArr (List.map (fun e => VObj
        [("extensionKey", VStr (ex_extensionKey e)); ("extensionPointKey", VStr (ex_extensionPointKey e));
         ("position", VStr (ex_position e)); ("order", VNum (Some (ex_order e)));
         ("nodeIds", js_strings (List.map nd_nodeId (ex_nodes e)))]) (pl_extensions p)))]);
   ("requiredCapabilities", js_strings (pl_requiredCapabilities p));
   ("candidateAdapterClasses", js_strings (pl_candidateAdapterClasses p));
   ("approvalCheckpoints", checkpoints_value (pl_approvalCheckpoints p));
   ("verificationCheckpoints", checkpoints_value (pl_verificationCheckpoints p));
   ("compensationGraph", VObj (dag_fields (pl_compensationGraph p) ++
     [("triggers", VArr (List.map (fun t => VObj [("sourceNodeId", VStr t.1); ("compensationNodeId", VStr t.2)])
                           (pl_triggers p)))]));
   ("generation", VObj
     [("generated", VBool (gn_generated (pl_generation p)));
      ("validationStatus", VStr (gn_validationStatus (pl_generation p)));
      ("validationSha256", js_of_optional (gn_validationSha256 (pl_generation p)));
      ("generatedBy", js_of_optional (gn_generatedBy (pl_generation p)))]);
   ("settingsSnapshotHash", js_of_optional (pl_settingsSnapshotHash p)); ("immutable", VBool true);
   ("providerCalls", VBool false); ("providerDispatchAllowed", VBool false); ("providerApplyAllowed", VBool false);
   ("externalWrites", VBool false); ("secretsIncluded", VBool false)].

Section Compile.
Context `{JsHost}.

(** ** Normalisation *)

Definition key (value : jsval) (field : string) : js string :=
  let normalized := js_trim (str_coalesce value) in
  if is_canonical_key normalized then Ok normalized
  else Throw (compile_invalid (field +:+ " must be a canonical key.") field "invalid_canonical_key").

(** [list(value, field)] *)
Definition keys (value : jsval) (field : string) : js (list string) :=
  match value with
  | VUndef | VNull => Ok []
  | VArr l =>
      result ← map_index (fun index item => key item (at_index field index)) 0 l;
      throw_if (negb (length (dedup result) =? length result))
        (compile_invalid (field +:+ " contains duplicates.") field "duplicate_key");;
      Ok result
  | _ => Throw (compile_invalid (field +:+ " must be an array.") field "invalid_type")
  end.

Definition schema (value : jsval) (field : string) : js jsval :=
  if nullish value then Ok VNull
  else
    let normalized := copy value in
    validateSchemaIn false normalized field;;
    Ok normalized.

(** [value.a || value.b ? key(value.a ?? value.b, field) : null] *)
Definition optionalKey (value : jsval) (a b field : string) : js (option string) :=
  if truthy (js_or (vget value a) (vget value b)) then k ← key (either value a b) field; Ok (Some k) else Ok None.

Definition checkpoint (value : jsval) (field defaultKey : string) : js (option Checkpoint) :=
  match value with
  | VUndef | VNull | VBool false => Ok None
  | VBool true => Ok (Some {| ck_required := true; ck_checkpointKey := defaultKey; ck_policyKey := None |})
  | _ =>
      if negb (is_record value) then
        Throw (fail "GROWTH_CONTROL_WORKFLOW_CHECKPOINT_INVALID" (field +:+ " must be a boolean or object.") field
                 "invalid_type" [])
      else
        checkpointKey ← key (js_coalesce (either value "checkpointKey" "checkpoint_key") (VStr defaultKey))
                          (field +:+ ".checkpointKey");
        policyKey ← optionalKey value "policyKey" "policy_key" (field +:+ ".policyKey");
        Ok (Some {| ck_required := negb (is_false (vget value "required")); ck_checkpointKey := checkpointKey;
                    ck_policyKey := Some policyKey |})
  end.

Definition joinOf (value : jsval) (field : string) : js (option Join) :=
  let join := vget value "join" in
  if nullish join then Ok None
  else
    strategy ← key (js_coalesce (vget join "strategy") (VStr "all")) (field +:+ ".join.strategy");
    Ok (Some {| jn_strategy := strategy;
                jn_minimumCompleted := js_coalesce (either join "minimumCompleted" "minimum_completed") VNull |}).

Definition node (value : jsval) (field prefix : string) : js Node :=
  if negb (is_record value) then
    Throw (fail "GROWTH_CONTROL_WORKFLOW_NODE_INVALID" (field +:+ " must be an object.") field "invalid_type" [])
  else
    localId ← key (any_of value "id" "nodeId" "node_id") (field +:+ ".id");
    let nodeId := if is_empty prefix then localId else prefix +:+ "." +:+ localId in
    let executionClassOf := js_coalesce (either value "executionClass" "execution_class") (VStr "internal") in
    capabilityKey ← key (any_of value "capability" "capabilityKey" "capability_key") (field +:+ ".capability");
    dependsOn ← keys (js_coalesce (either value "dependsOn" "depends_on") (VArr [])) (field +:+ ".dependsOn");
    executionClass ← key executionClassOf (field +:+ ".executionClass");
    adapterClasses ← keys (js_coalesce (either value "adapterClasses" "adapter_classes") (VArr [executionClassOf]))
                       (field +:+ ".adapterClasses");
    inputSchema ← schema (either value "inputSchema" "input_schema") (field +:+ ".inputSchema");
    outputSchema ← schema (either value "outputSchema" "output_schema") (field +:+ ".outputSchema");
    join ← joinOf value field;
    approvalCheckpoint ← checkpoint (any_of value "approvalCheckpoint" "approval_checkpoint" "requiresApproval")
                           (field +:+ ".approvalCheckpoint") (nodeId +:+ ".approval");
    verificationCheckpoint ← checkpoint
                               (any_of value "verificationCheckpoint" "verification_checkpoint" "requiresVerification")
                               (field +:+ ".verificationCheckpoint") (nodeId +:+ ".verification");
    compensationNodeId ← optionalKey value "compensationNodeId" "compensation_node_id"
                           (field +:+ ".compensationNodeId");
    Ok {| nd_nodeId := nodeId; nd_capabilityKey := capabilityKey; nd_dependsOn := dependsOn;
          nd_executionClass := executionClass; nd_adapterClasses := adapterClasses;
          nd_inputSchema := inputSchema; nd_outputSchema := outputSchema; nd_join := join;
          nd_approvalCheckpoint := approvalCheckpoint; nd_verificationCheckpoint := verificationCheckpoint;
          nd_compensationNodeId := compensationNodeId;
          nd_mode := js_String (js_coalesce (vget value "mode") (VStr "internal_draft")) |}.

Definition version (value : jsval) (field : string) : js Z :=
  match js_Number (js_coalesce value (VNum (Some 1%Z))) with
  | Some n =>
      if Z.ltb n 1
      then Throw (compile_invalid (field +:+ " must be a positive integer.") field "invalid_positive_integer")
      else Ok n
  | None => Throw (compile_invalid (field +:+ " must be a positive integer.") field "invalid_positive_integer")
  end.

(** One extension point; [seen] are the keys before it. *)
Definition extensionPoint (seen : list string) (index : nat) (item : jsval) : js ExtensionPoint :=
  let field := at_index "workflow.extensionPoints" index in
  object_of item;;
  extensionPointKey ← key (either item "extensionPointKey" "extension_point_key") (field +:+ ".extensionPointKey");
  throw_if (sin extensionPointKey seen) (extension_invalid "Duplicate extension point." field "duplicate_key");;
  allowedPositions ← keys (js_coalesce (either item "allowedPositions" "allowed_positions")
                             (VArr [VStr "pre"; VStr "post"])) (field +:+ ".allowedPositions");
  throw_if (existsb (fun position => negb (sin position POSITIONS)) allowedPositions)
    (extension_invalid "Extension positions must be pre or post." (field +:+ ".allowedPositions") "unsupported");;
  anchorNodeId ← key (either item "anchorNodeId" "anchor_node_id") (field +:+ ".anchorNodeId");
  Ok {| xp_extensionPointKey := extensionPointKey; xp_anchorNodeId := anchorNodeId;
        xp_allowedPositions := allowedPositions |}.

Fixpoint extensionPointLoop (seen : list string) (index : nat) (source : list jsval) : js (list ExtensionPoint) :=
  match source with
  | [] => Ok []
  | item :: rest =>
      point ← extensionPoint seen index item;
      points ← extensionPointLoop (xp_extensionPointKey point :: seen) (S index) rest;
      Ok (point :: points)
  end.

Definition extensionPoints (workflow : jsval) : js (list ExtensionPoint) :=
  match js_coalesce (either workflow "extensionPoints" "extension_points") (VArr []) with
  | VArr source => extensionPointLoop [] 0 source
  | _ => Throw (extension_invalid "extensionPoints must be an array." "workflow.extensionPoints" "invalid_type")
  end.

(** One extension; [seen] are the keys before it. *)
Definition extension (points : list ExtensionPoint) (seen : list string) (index : nat) (item : jsval) : js Extension :=
  let field := at_index "extensions" index in
  object_of item;;
  extensionKey ← key (vget item "extensionKey") (field +:+ ".extensionKey");
  throw_if (sin extensionKey seen)
    (extension_invalid "Duplicate extension key." (field +:+ ".extensionKey") "duplicate_key");;
  extensionPointKey ← key (vget item "extensionPointKey") (field +:+ ".extensionPointKey");
  match List.find (fun point => String.eqb (xp_extensionPointKey point) extensionPointKey) (rev points) with
  | None => Throw (extension_invalid "Undeclared extension point." (field +:+ ".extensionPointKey") "not_declared")
  | Some point =>
      let position := js_toLowerCase (js_trim (str_coalesce (vget item "position"))) in
      throw_if (negb (sin position (xp_allowedPositions point)))
        (extension_invalid "Extension position is not allowed." (field +:+ ".position") "not_allowed");;
      let order := if nullish (vget item "order") then Some 0%Z else js_Number (vget item "order") in
      throw_if (match order with Some n => Z.ltb n 0 | None => true end)
        (extension_invalid "Extension order must be a non-negative integer." (field +:+ ".order") "invalid_order");;
      match vget item "nodes" with
      | VArr ((_ :: _) as l) =>
          nodes ← map_index (fun nodeIndex candidate =>
                    node candidate (at_index (field +:+ ".nodes") nodeIndex) extensionKey) 0 l;
          throw_if (existsb (fun candidate => 0 <? length (nd_dependsOn candidate)) nodes)
            (extension_invalid "Extension dependencies are compiler-managed." (field +:+ ".nodes")
               "dependencies_forbidden");;
          Ok {| ex_extensionKey := extensionKey; ex_extensionPointKey := extensionPointKey;
                ex_position := position; ex_order := default 0%Z order; ex_nodes := nodes |}
      | _ => Throw (extension_invalid "Extension nodes are required." (field +:+ ".nodes") "required")
      end
  end.

Fixpoint extensionLoop (points : list ExtensionPoint) (seen : list string) (index : nat) (source : list jsval)
    : js (list Extension) :=
  match source with
  | [] => Ok []
  | item :: rest =>
      e ← extension points seen index item;
      es ← extensionLoop points (ex_extensionKey e :: seen) (S index) rest;
      Ok (e :: es)
  end.

Definition extension_compare (a b : Extension) : comparison :=
  cmp_or (locale_compare (ex_extensionPointKey a) (ex_extensionPointKey b))
    (cmp_or (locale_compare (ex_position a) (ex_position b))
       (cmp_or (Z.compare (ex_order a) (ex_order b)) (locale_compare (ex_extensionKey a) (ex_extensionKey b)))).

Definition normalizeExtensions (source : jsval) (points : list ExtensionPoint) : js (list Extension) :=
  match source with
  | VArr l => es ← extensionLoop points [] 0 l; Ok (js_sort extension_compare es)
  | _ => Throw (extension_invalid "extensions must be an array." "extensions" "invalid_type")
  end.

Definition generation (value : jsval) : js Generation :=
  if negb (is_true (vget value "generated")) then
    Ok {| gn_generated := false; gn_validationStatus := "not_applicable"; gn_validationSha256 := None;
          gn_generatedBy := None |}
  else
    let validationStatus := js_toLowerCase (js_String (js_coalesce (either value "validationStatus" "validation_status")
                                                                    (VStr ""))) in
    let validationSha256 := js_toLowerCase (js_String (js_coalesce (either value "validationSha256" "validation_sha256")
                                                                    (VStr ""))) in
    throw_if (negb (String.eqb validationStatus "validated") || negb (is_hex64 validationSha256))
      (fail "GROWTH_CONTROL_WORKFLOW_GENERATION_INVALID" "Generated workflows require validated SHA-256 evidence."
         "generation" "validation_evidence_required" []);;
    generatedBy ← key (either value "generatedBy" "generated_by") "generation.generatedBy";
    Ok {| gn_generated := true; gn_validationStatus := validationStatus; gn_validationSha256 := Some validationSha256;
          gn_generatedBy := Some generatedBy |}.

(** ** The compiler *)

(** The nodes of a property that may be missing. *)
Definition nodesOf (value : jsval) (field : string) : js (list Node) :=
  match js_coalesce value (VArr []) with
  | VArr l => map_index (fun index item => node item (at_index field index) "") 0 l
  | _ => type_error "map is not a function"
  end.

(** The capabilities that the pack declares. *)
Definition declaredCapabilities (source : jsval) : js (list jsval) :=
  match js_coalesce (vget source "capabilities") (VArr []) with
  | VArr l => Ok (List.map (fun item => js_coalesce (vget item "capabilityKey") item) l)
  | _ => type_error "map is not a function"
  end.

Fixpoint checkDeclared (declared : list jsval) (nodes : list Node) : js unit :=
  match nodes with
  | [] => Ok tt
  | item :: rest =>
      throw_if (negb (existsb (fun v => is_str v (nd_capabilityKey item)) declared))
        (fail "GROWTH_CONTROL_WORKFLOW_CAPABILITY_INVALID" "Node capability is not declared."
           ("nodes." +:+ nd_nodeId item +:+ ".capabilityKey") "not_declared" [("value", VStr (nd_capabilityKey item))]);;
      checkDeclared declared rest
  end.

Definition empty_dag : Dag :=
  {| dag_nodes := []; dag_edges := []; dag_topologicalOrder := []; dag_entryNodeIds := []; dag_terminalNodeIds := [] |}.

(** The nodes with a compensation, and the node that compensates each. *)
Definition triggers (composed compensationNodes : list Node) : js (list (string * string)) :=
  let ids := List.map nd_nodeId compensationNodes in
  ts ← mapM_js (fun p : string * string =>
         throw_if (negb (sin p.2 ids))
           (fail "GROWTH_CONTROL_WORKFLOW_COMPENSATION_INVALID" "Unknown compensation node."
              ("nodes." +:+ p.1 +:+ ".compensationNodeId") "not_found" []);;
         Ok p)
       (List.flat_map (fun item => match nd_compensationNodeId item with
                                   | Some c => [(nd_nodeId item, c)]
                                   | None => []
                                   end) composed);
  Ok (js_sort (fun a b => locale_compare a.1 b.1) ts).

Definition snapshotHash (value : jsval) : js (option string) :=
  if nullish value then Ok None
  else
    let hash := js_toLowerCase (js_String value) in
    throw_if (negb (is_hex64 hash))
      (compile_invalid "settingsSnapshotHash must be SHA-256." "settingsSnapshotHash" "invalid_sha256");;
    Ok (Some hash).

(** The checkpoints that are required. *)
Definition required (get : Node -> option Checkpoint) (nodes : list Node) : list (string * Checkpoint) :=
  List.flat_map (fun item => match get item with
                             | Some c => if ck_required c then [(nd_nodeId item, c)] else []
                             | None => []
                             end) nodes.

(** The workflow of the pack under a key. *)
Definition findWorkflow (source : jsval) (selectedKey : string) : js jsval :=
  match vget source "workflows" with
  | VArr l =>
      match List.find (fun item => is_str (vget item "workflowKey") selectedKey) l with
      | Some selected => Ok selected
      | None => Throw (fail "GROWTH_CONTROL_WORKFLOW_NOT_FOUND" "Workflow is not declared by the Activity Pack."
                         "workflowKey" "not_found" [])
      end
  | VUndef | VNull => Throw (fail "GROWTH_CONTROL_WORKFLOW_NOT_FOUND" "Workflow is not declared by the Activity Pack."
                               "workflowKey" "not_found" [])
  | _ => type_error "source.workflows?.find is not a function"
  end.

Definition compileImmutableWorkflowPlan (args : jsobj) : js (Plan * string) :=
  let manifest := oget args "manifest" in
  let extensions := oget_default args "extensions" (VArr []) in
  let generationInput := oget_default args "generation" VNull in
  sensitive (VObj [("extensions", extensions); ("generation", generationInput)]) "input";;
  validated ← validateActivityPackManifest manifest;
  let source := copy manifest in
  selectedKey ← key (oget args "workflowKey") "workflowKey";
  selected ← findWorkflow source selectedKey;
  declared ← declaredCapabilities source;
  baseNodes ← nodesOf (vget selected "nodes") "workflow.nodes";
  throw_if (length baseNodes =? 0)
    (fail "GROWTH_CONTROL_WORKFLOW_DAG_INVALID" "Workflow nodes are required." "workflow.nodes" "required" []);;
  points ← extensionPoints selected;
  normalizedExtensions ← normalizeExtensions extensions points;
  composed ← compose baseNodes points normalizedExtensions;
  compensationNodes ← nodesOf (either selected "compensationNodes" "compensation_nodes") "workflow.compensationNodes";
  let allNodes := composed ++ compensationNodes in
  checkDeclared declared allNodes;;
  normalizedDag ← graph composed "normalizedDag";
  compensationGraph ← (if 0 <? length compensationNodes then graph compensationNodes "compensationGraph"
                       else Ok empty_dag);
  ts ← triggers composed compensationNodes;
  hash ← snapshotHash (oget_default args "settingsSnapshotHash" VNull);
  compilerVersion ← key (oget_default args "compilerVersion" (VStr "spec-006-workflow-compiler-v1")) "compilerVersion";
  workflowVersion ← version (vget selected "version") "workflow.version";
  activityPackKey ← key (vget (vget source "identity") "activityPackKey") "manifest.identity.activityPackKey";
  activityPackVersion ← version (vget (vget source "identity") "version") "manifest.identity.version";
  gen ← generation generationInput;
  let plan :=
    {| pl_compilerVersion := compilerVersion; pl_workflowKey := selectedKey; pl_workflowVersion := workflowVersion;
       pl_activityPackKey := activityPackKey; pl_activityPackVersion := activityPackVersion;
       pl_manifestChecksumSha256 := validated.2; pl_normalizedDag := normalizedDag; pl_extensionPoints := points;
       pl_extensions := normalizedExtensions;
       pl_requiredCapabilities := unique_sorted (List.map nd_capabilityKey allNodes);
       pl_candidateAdapterClasses := unique_sorted (List.flat_map nd_adapterClasses allNodes);
       pl_approvalCheckpoints := required nd_approvalCheckpoint composed;
       pl_verificationCheckpoints := required nd_verificationCheckpoint composed;
       pl_compensationGraph := compensationGraph; pl_triggers := ts; pl_generation := gen;
       pl_settingsSnapshotHash := hash |} in
  Ok (plan, stableSha256 (js_of_plan plan)).
End Compile.

(** ** What composition keeps *)

(** [item'] is [item] with other dependencies. *)
Definition like (item item' : Node) : Prop := with_dependsOn (nd_dependsOn item') item = item'.

(** The nodes are still there, in their order, and what a node needed it still
    needs, perhaps through others. *)
Definition keeps (nodes nodes' : list Node) : Prop :=
  (exists more, List.map nd_nodeId nodes' = List.map nd_nodeId nodes ++ more) /\
  (forall item, item ∈ nodes -> exists item', item' ∈ nodes' /\ like item item') /\
  (forall x d, needs nodes x d -> tc (needs nodes') x d).

Lemma like_refl item : like item item.
Proof. by destruct item. Qed.

Lemma like_trans a b c : like a b -> like b c -> like a c.
Proof. unfold like. intros <- <-. done. Qed.

Lemma keeps_refl nodes : keeps nodes nodes.
Proof.
  split; [exists []; by rewrite app_nil_r|]. split; [intros item Hi; exists item; split; [done|apply like_refl]|].
  intros x d. apply tc_once.
Qed.

Lemma keeps_trans a b c : keeps a b -> keeps b c -> keeps a c.
Proof.
  intros ((more1 & H1) & Hl1 & Hn1) ((more2 & H2) & Hl2 & Hn2). split; [|split].
  - exists (more1 ++ more2). by rewrite H2, H1, app_assoc.
  - intros item Hi. destruct (Hl1 item Hi) as (item' & Hi' & Hl). destruct (Hl2 item' Hi') as (item'' & Hi'' & Hl').
    exists item''. split; [done|by eapply like_trans].
  - intros x d Hx%Hn1. induction Hx as [x d Hx|x y d Hx _ IH]; [by apply Hn2|].
    eapply tc_transitive; [by apply Hn2|done].
Qed.

Lemma chain_ids ds sequence : List.map nd_nodeId (chain ds sequence) = List.map nd_nodeId sequence.
Proof. revert ds. induction sequence as [|c rest IH]; intros ds; simpl; [done|]. by rewrite IH. Qed.

(** The last node of a sequence needs what the first depends on. *)
Lemma chain_path nodes ds sequence d : (forall item, item ∈ chain ds sequence -> item ∈ nodes) ->
  sequence <> [] -> d ∈ ds -> tc (needs nodes) (lastId sequence) d.
Proof.
  revert ds d. induction sequence as [|c rest IH]; intros ds d Hsub Hne Hd; [done|].
  assert (needs nodes (nd_nodeId c) d) as Hc by (exists (with_dependsOn ds c); split; [apply Hsub, list_elem_of_here|done]).
  destruct rest as [|c' rest]; [by apply tc_once|]. eapply tc_r; [|exact Hc].
  apply (IH [nd_nodeId c]); [|done|apply list_elem_of_here]. intros item Hi. by apply Hsub, list_elem_of_further.
Qed.

Lemma needs_mono nodes nodes' x d : (forall item, item ∈ nodes -> item ∈ nodes') -> needs nodes x d -> needs nodes' x d.
Proof. intros Hs (item & Hi & H). exists item. split; [by apply Hs|done]. Qed.

Lemma insertBefore_keeps nodes i anchor sequence : nodes !! i = Some anchor -> sequence <> [] ->
  keeps nodes (insertBefore nodes i anchor sequence).
Proof.
  intros Hi Hne. unfold insertBefore. set (nodes' := alter (with_dependsOn [lastId sequence]) i nodes).
  assert (with_dependsOn [lastId sequence] anchor ∈ nodes') as Ha.
  { apply list_elem_of_lookup. exists i. unfold nodes'. by rewrite list_lookup_alter_eq, Hi. }
  assert (forall item, item ∈ nodes -> item ∈ nodes' \/ item = anchor) as Hcases.
  { intros item [j Hj]%list_elem_of_lookup. destruct (decide (i = j)) as [<-|Hij].
    - right. rewrite Hi in Hj. by injection Hj as ->.
    - left. apply list_elem_of_lookup. exists j. unfold nodes'. by rewrite list_lookup_alter_ne. }
  split; [|split].
  - exists (List.map nd_nodeId sequence). rewrite map_app, chain_ids. f_equal. unfold nodes'.
    clear. revert i. induction nodes as [|n l IH]; intros [|i]; simpl; [done..|]. f_equal. apply IH.
  - intros item [Hin| ->]%Hcases; [exists item; split; [apply elem_of_app; by left|apply like_refl]|].
    exists (with_dependsOn [lastId sequence] anchor). split; [apply elem_of_app; by left|done].
  - intros x d (item & Hin & <- & Hd). apply Hcases in Hin as [Hin| ->].
    + apply tc_once. exists item. split; [apply elem_of_app; by left|done].
    + eapply tc_l; [|apply (chain_path _ (nd_dependsOn anchor) sequence); [|done|exact Hd]].
      * exists (with_dependsOn [lastId sequence] anchor). split; [apply elem_of_app; by left|].
        split; [done|apply list_elem_of_here].
      * intros item Hc. apply elem_of_app. by right.
Qed.

Lemma redirect_like anchorId sequence item : like item (redirect anchorId sequence item).
Proof. unfold redirect. destruct (_ && _ && _); [done|apply like_refl]. Qed.

Lemma insertAfter_keeps nodes anchor sequence : sequence <> [] -> keeps nodes (insertAfter nodes anchor sequence).
Proof.
  intros Hne. unfold insertAfter. set (f := redirect (nd_nodeId anchor) sequence).
  assert (forall item, like item (f item)) as Hlike by (intros item; apply redirect_like).
  assert (forall item, nd_nodeId (f item) = nd_nodeId item) as Hid.
  { intros item. rewrite <- (Hlike item). done. }
  split; [|split].
  - exists (List.map nd_nodeId sequence). rewrite map_app, chain_ids, map_map. f_equal. by apply List.map_ext.
  - intros item Hi. exists (f item). split; [apply elem_of_app; left; by apply list_elem_of_fmap_2|done].
  - intros x d (item & Hi & <- & Hd).
    assert (f item ∈ List.map f nodes ++ chain [nd_nodeId anchor] sequence) as Hf.
    { apply elem_of_app. left. by apply list_elem_of_fmap_2. }
    unfold f, redirect in Hf. destruct (_ && _ && _); [|apply tc_once; by exists item].
    destruct (decide (d = nd_nodeId anchor)) as [->|Hda].
    + eapply tc_l; [|apply (chain_path _ [nd_nodeId anchor] sequence); [|done|apply list_elem_of_here]].
      * eexists. split; [exact Hf|]. split; [done|]. simpl. apply list_elem_of_fmap.
        exists (nd_nodeId anchor). by rewrite String.eqb_refl.
      * intros c Hc. apply elem_of_app. by right.
    + apply tc_once. eexists. split; [exact Hf|]. split; [done|]. simpl. apply list_elem_of_fmap. exists d.
      by rewrite (proj2 (string_eqb_false _ _) Hda).
Qed.

Lemma composeAt_keeps extensions point i position nodes nodes' :
  composeAt extensions point i position nodes = Ok nodes' -> keeps nodes nodes'.
Proof.
  unfold composeAt. intros Hc. destruct (sequenceAt _ _ _) as [|c rest] eqn:Hs; [apply Ok_inj in Hc as <-; apply keeps_refl|].
  destruct (nodes !! i) as [anchor|] eqn:Hi; [|apply Ok_inj in Hc as <-; apply keeps_refl].
  apply bind_Ok in Hc as (_ & _ & Hc). apply Ok_inj in Hc as <-.
  destruct (String.eqb position "pre"); [by apply insertBefore_keeps|by apply insertAfter_keeps].
Qed.

Lemma compose_keeps base points extensions nodes : compose base points extensions = Ok nodes -> keeps base nodes.
Proof.
  apply (foldM_js_inv (keeps base)); [apply keeps_refl|]. intros l point l' _ Hl Hp. unfold composePoint in Hp.
  destruct (lastIndex _ l) as [i|]; [|done]. apply bind_Ok in Hp as (l1 & H1%composeAt_keeps & H2%composeAt_keeps).
  eapply keeps_trans; [exact Hl|]. by eapply keeps_trans.
Qed.

(** ** What a compiled plan keeps of its workflow *)

Lemma in_order_tc nodes order x d : in_order nodes order -> tc (needs nodes) x d ->
  forall before after, order = before ++ x :: after -> d ∈ before.
Proof.
  intros Ho Ht. induction Ht as [x d Hx|x y d Hx _ IH]; intros before after Heq; [by eapply Ho|].
  pose proof (Ho _ _ _ Heq _ Hx) as Hy. apply list_elem_of_split in Hy as (b1 & b2 & ->).
  apply elem_of_app. left. apply (IH b1 (b2 ++ x :: after)). rewrite Heq. by rewrite <- app_assoc.
Qed.

Section Plans.
Context `{JsHost}.

Lemma checkDeclared_Ok declared nodes : checkDeclared declared nodes = Ok tt ->
  forall item, item ∈ nodes -> exists v, v ∈ declared /\ v = VStr (nd_capabilityKey item).
Proof.
  induction nodes as [|n nodes IH]; simpl; intros Hc item Hi; [by apply not_elem_of_nil in Hi|].
  apply bind_Ok in Hc as ([] & Hn%throw_if_Ok & Hc). apply elem_of_cons in Hi as [->|Hi]; [|by apply IH].
  apply negb_false_iff, existsb_elem_of in Hn as (v & Hv & Hs). exists v. split; [done|by apply is_str_true].
Qed.

Lemma required_like (get : Node -> option Checkpoint) nodes nodes' item c :
  (forall a b, like a b -> get a = get b) -> keeps nodes nodes' -> item ∈ nodes -> get item = Some c -> ck_required c = true ->
  (nd_nodeId item, c) ∈ required get nodes'.
Proof.
  intros Hget (_ & Hl & _) Hi Hc Hr. destruct (Hl item Hi) as (item' & Hi' & Hlike).
  apply list_elem_of_In, in_flat_map. exists item'. split; [by apply list_elem_of_In|].
  rewrite <- (Hget _ _ Hlike), Hc, Hr. left. by rewrite <- Hlike.
Qed.

(** The graph of a compiled plan and its checkpoints are those of the composed
    nodes. *)
Lemma compile_dag args plan hash : compileImmutableWorkflowPlan args = Ok (plan, hash) ->
  exists composed, dag_nodes (pl_normalizedDag plan) ≡ₚ composed /\ NoDup (List.map nd_nodeId composed) /\
    dag_topologicalOrder (pl_normalizedDag plan) ≡ₚ List.map nd_nodeId composed /\
    in_order composed (dag_topologicalOrder (pl_normalizedDag plan)) /\
    pl_approvalCheckpoints plan = required nd_approvalCheckpoint composed /\ hash = stableSha256 (js_of_plan plan).
Proof.
  unfold compileImmutableWorkflowPlan. cbv zeta. intros Hc. do 9 (apply bind_Ok in Hc as (? & _ & Hc)).
  apply bind_Ok in Hc as (composed & _ & Hc). do 2 (apply bind_Ok in Hc as (? & _ & Hc)).
  apply bind_Ok in Hc as (dag & Hdag & Hc). do 8 (apply bind_Ok in Hc as (? & _ & Hc)).
  apply Ok_inj in Hc. injection Hc as <- <-. cbn [pl_normalizedDag pl_approvalCheckpoints]. exists composed.
  pose proof (graph_Ok _ _ _ Hdag) as ((Hnd & _ & _) & _ & HP & Hio).
  split; [|done]. unfold graph in Hdag. do 3 (apply bind_Ok in Hdag as (? & _ & Hdag)). apply Ok_inj in Hdag. subst dag.
  apply js_sort_Permutation.
Qed.

(** C13: a compiled plan keeps its workflow: whatever extensions are composed
    in, every node of the workflow is in the order of the plan, after each of
    its own dependencies; a checkpoint that a node requires is required by the
    plan; every capability that the plan needs is one the pack declares; and
    the plan never allows a provider call or an external write, which its hash
    covers. *)
Theorem compileImmutableWorkflowPlan_keeps args plan hash :
  compileImmutableWorkflowPlan args = Ok (plan, hash) ->
  exists selected base declared,
    findWorkflow (copy (oget args "manifest")) (pl_workflowKey plan) = Ok selected /\
    nodesOf (vget selected "nodes") "workflow.nodes" = Ok base /\
    declaredCapabilities (copy (oget args "manifest")) = Ok declared /\
    let order := dag_topologicalOrder (pl_normalizedDag plan) in
    NoDup order /\ (forall item, item ∈ base -> nd_nodeId item ∈ order) /\
    (forall before x after d, order = before ++ x :: after -> needs base x d -> d ∈ before) /\
    (forall item c, item ∈ base -> nd_approvalCheckpoint item = Some c -> ck_required c = true ->
       (nd_nodeId item, c) ∈ pl_approvalCheckpoints plan) /\
    (forall item c, item ∈ base -> nd_verificationCheckpoint item = Some c -> ck_required c = true ->
       (nd_nodeId item, c) ∈ pl_verificationCheckpoints plan) /\
    (forall k, k ∈ pl_requiredCapabilities plan -> VStr k ∈ declared) /\
    hash = stableSha256 (js_of_plan plan) /\
    forall k, k ∈ ["providerCalls"; "providerDispatchAllowed"; "providerApplyAllowed"; "externalWrites"] ->
      vget (js_of_plan plan) k = VBool false.
Proof.
  unfold compileImmutableWorkflowPlan. cbv zeta. intros Hc.
  apply bind_Ok in Hc as (_ & _ & Hc). apply bind_Ok in Hc as (validated & _ & Hc).
  apply bind_Ok in Hc as (selectedKey & _ & Hc). apply bind_Ok in Hc as (selected & Hsel & Hc).
  apply bind_Ok in Hc as (declared & Hdec & Hc). apply bind_Ok in Hc as (base & Hbase & Hc).
  apply bind_Ok in Hc as (_ & _ & Hc). apply bind_Ok in Hc as (points & _ & Hc).
  apply bind_Ok in Hc as (extensions & _ & Hc). apply bind_Ok in Hc as (composed & Hcomp%compose_keeps & Hc).
  apply bind_Ok in Hc as (compensations & _ & Hc). apply bind_Ok in Hc as ([] & Hcap & Hc).
  apply bind_Ok in Hc as (dag & Hdag & Hc). do 8 (apply bind_Ok in Hc as (? & _ & Hc)).
  apply Ok_inj in Hc. injection Hc as <- <-. cbn [pl_workflowKey pl_normalizedDag pl_approvalCheckpoints
    pl_verificationCheckpoints pl_requiredCapabilities].
  apply graph_Ok in Hdag as ((Hnd & _ & _) & _ & HP & Hio).
  exists selected, base, declared. split; [done|]. split; [done|]. split; [done|].
  split; [by rewrite HP|]. split; [|split; [|split; [|split; [|split; [|split; [done|]]]]]].
  - intros item Hi. rewrite HP. destruct Hcomp as (_ & Hl & _). destruct (Hl item Hi) as (item' & Hi' & Hlk).
    apply (list_elem_of_fmap_2 nd_nodeId) in Hi'. by rewrite <- Hlk in Hi'.
  - intros before y after d Heq Hx. destruct Hcomp as (_ & _ & Hn). by eapply in_order_tc; [|apply Hn|].
  - intros item c Hi Ha Hr. by eapply (required_like nd_approvalCheckpoint); [intros a b Hab; by rewrite <- Hab| | | |].
  - intros item c Hi Ha Hr. by eapply (required_like nd_verificationCheckpoint); [intros a b Hab; by rewrite <- Hab| | | |].
  - intros k Hk. rewrite elem_of_unique_sorted in Hk. apply list_elem_of_fmap in Hk as (item & -> & Hi).
    destruct (checkDeclared_Ok _ _ Hcap item Hi) as (v & Hv & ->). done.
  - intros k Hk. by repeat (apply elem_of_cons in Hk as [->|Hk]); [..|apply not_elem_of_nil in Hk].
Qed.
End Plans.

(** ** Examples *)

Definition demo_pack : jsval := VObj
  [("identity", VObj [("activityPackKey", VStr "pack.one"); ("version", VNum (Some 2%Z))]);
   ("entitySchemas", VObj []); ("knowledgeProfile", VObj [("pointerKey", VStr "profile.default")]);
   ("kpiTaxonomy", VArr []); ("capabilities", VArr [VObj [("capabilityKey", VStr "content.draft")]]);
   ("workflows", VArr [VObj
     [("workflowKey", VStr "campaign.launch"); ("nodes", VArr demo_nodes);
      ("extensionPoints", VArr [VObj [("extensionPointKey", VStr "around.draft"); ("anchorNodeId", VStr "draft")]])]]);
   ("policies", VArr []); ("providerCompatibility", VArr []); ("tests", VObj [("fixtures", VArr [])])].

Definition demo_extension (k position id : string) : jsval := VObj
  [("extensionKey", VStr k); ("extensionPointKey", VStr "around.draft"); ("position", VStr position);
   ("nodes", VArr [VObj [("id", VStr id); ("capability", VStr "content.draft")]])].

Definition demo_args : jsobj :=
  [("manifest", demo_pack); ("workflowKey", VStr "campaign.launch");
   ("extensions", VArr [demo_extension "legal" "post" "review"; demo_extension "brief" "pre" "collect"])].

Definition no_plan : Plan :=
  Build_Plan "" "" 0 "" 0 "" empty_dag [] [] [] [] [] [] empty_dag []
    (Build_Generation false "" None None) None.

Definition demo_plan : Plan * string := catch (compileImmutableWorkflowPlan (H:=demo_host) demo_args) (no_plan, "").

(** The review that the extension puts after [draft] comes before [publish],
    which still comes after [draft]. *)
Lemma compileImmutableWorkflowPlan_keeps_witness :
  dag_topologicalOrder (pl_normalizedDag demo_plan.1) = ["brief.collect"; "draft"; "legal.review"; "publish"] /\
  NoDup (dag_topologicalOrder (pl_normalizedDag demo_plan.1)).
Proof.
  split; [vm_compute; reflexivity|].
  destruct (compileImmutableWorkflowPlan_keeps (H:=demo_host) demo_args demo_plan.1 demo_plan.2)
    as (selected & base & declared & _ & _ & _ & Hnd & _); [vm_compute; reflexivity|exact Hnd].
Defined.
End WorkflowPlan.
