(* ===== verification/ActivityBinding.v ===== *)
(** * Growth control plane: activity bindings
    (src/domain/growthControlPlane/activityBindingSelection.js and
    activityBindingLifecycle.js)

    Which binding of a brand an activity runs under, and the life of a binding:
    its readiness and the transitions of its status.  Proved: a selection is
    the only binding of the scope that qualifies, and a binding is activated
    only on a readiness of its own revision that every check passed. *)
From stdpp Require Import relations.
From S2P Require Import Prelude Sorting JsString JsDate JsValue JsJson GrowthControl GrowthConfig ActivityPack.

Module ActivityBinding.
Import GrowthControl GrowthConfig ActivityPack.

(** ** Selection: data *)

Definition ACTIVITY_SELECTION_INTENT_FIELDS : list string :=
  ["activityBindingId"; "activityTypeKey"; "activityPackKey"].

Definition DEFAULT_ACTIVITY_SELECTION_STATUSES : list string := ["active"].

Record SelectionScope := { ss_tenantId : string; ss_workspaceId : string; ss_brandKey : string }.

Record Intent := { in_field : string; in_value : string }.

Record Binding := {
  bn_activityBindingId : string;
  bn_tenantId : string;
  bn_workspaceId : string;
  bn_brandKey : string;
  bn_activityTypeKey : string;
  bn_activityPackKey : string;
  bn_activityPackVersion : option Z;
  bn_status : string;
  bn_revision : option Z;
}.

Record Selection := {
  sl_binding : Binding;
  sl_scope : SelectionScope;
  sl_selectionReason : string;
  sl_candidateCount : nat;
  sl_evidenceSha256 : string;
}.

(** ** Life cycle: data *)

Inductive BindingState := draft | validating | ready | active | blocked | deprecated | archived.

#[export] Instance binding_state_eq_dec : EqDecision BindingState.
Proof. solve_decision. Defined.

Definition ACTIVITY_BINDING_STATES : list BindingState :=
  [draft; validating; ready; active; blocked; deprecated; archived].

Definition state_str (s : BindingState) : string :=
  match s with
  | draft => "draft"
  | validating => "validating"
  | ready => "ready"
  | active => "active"
  | blocked => "blocked"
  | deprecated => "deprecated"
  | archived => "archived"
  end.

Definition ACTIVITY_BINDING_TRANSITIONS (s : BindingState) : list BindingState :=
  match s with
  | draft => [validating; archived]
  | validating => [ready; blocked]
  | ready => [active; blocked; archived]
  | active => [deprecated; blocked]
  | blocked => [validating; archived]
  | deprecated => [archived]
  | archived => []
  end.

Definition READINESS_ELIGIBLE_STATES : list BindingState := [draft; validating; blocked; ready].
Definition READY_ACTIVITY_PACK_STATES : list string := ["ready"; "active"].
Definition BLOCKED_BRAND_CORE_STATES : list string := ["archived"; "disabled"; "inactive"; "deleted"; "placeholder"].
Definition BLOCKED_BRAND_CORE_VALIDATION_STATES : list string :=
  ["invalid"; "failed"; "blocked"; "validating"; "registered_pending_readback"; "archived_placeholder"].

Record Check := { ch_code : string; ch_pass : bool; ch_severity : string; ch_details : jsobj }.

Record Readiness := {
  rd_ready : bool;
  rd_targetStatus : string;
  rd_bindingRevision : option Z;
  rd_checks : list Check;
  rd_evidenceSha256 : string;
}.

Record Transition := {
  tr_activityBindingId : string;
  tr_fromStatus : BindingState;
  tr_targetStatus : BindingState;
  tr_expectedRevision : Z;
  tr_revision : Z;
  tr_approvedBy : option string;
  tr_effectiveFrom : option Z;
  tr_effectiveTo : option Z;
}.

(** [readinessCheck(code, pass, severity, details)] *)
Definition readinessCheck (code : string) (pass : bool) (severity : string) (details : jsobj) : Check :=
  {| ch_code := code; ch_pass := pass; ch_severity := if pass then "info" else severity; ch_details := details |}.

Section Bindings.
Context `{JsHost}.

Definition normalizedText (value : jsval) : string := js_trim (str_coalesce value).
Definition lowerText (value : jsval) : string := js_toLowerCase (normalizedText value).

(** ** Selection *)

Definition scope_invalid (details : list jsobj) : jserror :=
  GrowthControlPlaneError "GROWTH_CONTROL_ACTIVITY_SELECTION_SCOPE_INVALID"
    "tenantId, workspaceId, and brandKey are required for activity selection." 422 details.

Definition normalizedScope (scope : jsval) : js SelectionScope :=
  if negb (is_record scope) then Throw (scope_invalid [issue "scope" "required"])
  else
    let s := {| ss_tenantId := normalizedText (either scope "tenantId" "tenant_id");
                ss_workspaceId := normalizedText (either scope "workspaceId" "workspace_id");
                ss_brandKey := normalizedText (either scope "brandKey" "brand_key") |} in
    let missing := bfilter (fun p => is_empty p.2)
      [("tenantId", ss_tenantId s); ("workspaceId", ss_workspaceId s); ("brandKey", ss_brandKey s)] in
    throw_if (0 <? length missing) (scope_invalid (List.map (fun p => issue p.1 "required") missing));;
    Ok s.

Definition status_invalid (message : string) : jserror :=
  GrowthControlPlaneError "GROWTH_CONTROL_ACTIVITY_SELECTION_STATUS_INVALID" message 422
    [issue "selectableStatuses" "invalid"].

Definition normalizedStatuses (values : jsval) : js (list string) :=
  match values with
  | VArr ((_ :: _) as l) =>
      let statuses := dedup (bfilter (fun s => negb (is_empty s)) (List.map lowerText l)) in
      throw_if (length statuses =? 0) (status_invalid "selectableStatuses must contain at least one status.");;
      Ok statuses
  | _ => Throw (status_invalid "selectableStatuses must be a non-empty array.")
  end.

Definition intent_invalid (message : string) (details : list jsobj) : jserror :=
  GrowthControlPlaneError "GROWTH_CONTROL_ACTIVITY_INTENT_INVALID" message 422 details.

Definition normalizedIntent (activityIntent : jsval) : js (option Intent) :=
  if nullish activityIntent then Ok None
  else if negb (is_record activityIntent)
  then Throw (intent_invalid "activityIntent must be an object." [issue "activityIntent" "invalid_type"])
  else
    let unknownFields := bfilter (fun field => negb (sin field ACTIVITY_SELECTION_INTENT_FIELDS))
                           (List.map fst (spread activityIntent)) in
    throw_if (0 <? length unknownFields)
      (intent_invalid "activityIntent contains unsupported fields."
         (List.map (fun field => issue ("activityIntent." +:+ field) "unsupported") unknownFields));;
    match bfilter (fun i => negb (is_empty (in_value i)))
            (List.map (fun field => {| in_field := field; in_value := normalizedText (vget activityIntent field) |})
               ACTIVITY_SELECTION_INTENT_FIELDS) with
    | [] => Ok None
    | [i] => Ok (Some i)
    | _ => Throw (intent_invalid "activityIntent must contain exactly one selector."
                    [issue "activityIntent" "multiple_selectors"])
    end.

Definition normalizedBinding (binding : jsval) : option Binding :=
  if negb (is_record binding) then None
  else Some
    {| bn_activityBindingId := normalizedText (either binding "activityBindingId" "activity_binding_id");
       bn_tenantId := normalizedText (either binding "tenantId" "tenant_id");
       bn_workspaceId := normalizedText (either binding "workspaceId" "workspace_id");
       bn_brandKey := normalizedText (either binding "brandKey" "brand_key");
       bn_activityTypeKey := normalizedText (either binding "activityTypeKey" "activity_type_key");
       bn_activityPackKey := normalizedText (either binding "activityPackKey" "activity_pack_key");
       bn_activityPackVersion :=
         js_Number (js_coalesce (either binding "activityPackVersion" "activity_pack_version") (VNum (Some 0%Z)));
       bn_status := lowerText (vget binding "status");
       bn_revision := js_Number (js_coalesce (vget binding "revision") (VNum (Some 0%Z))) |}.

Definition scopedCandidates (bindings : list jsval) (scope : SelectionScope) (statuses : list string) : list Binding :=
  bfilter (fun b => sin (bn_status b) statuses)
    (bfilter (fun b => String.eqb (bn_brandKey b) (ss_brandKey scope))
       (bfilter (fun b => String.eqb (bn_workspaceId b) (ss_workspaceId scope))
          (bfilter (fun b => String.eqb (bn_tenantId b) (ss_tenantId scope))
             (omap normalizedBinding bindings)))).

Definition notFoundError (intent : option Intent) : jserror :=
  GrowthControlPlaneError "GROWTH_CONTROL_ACTIVITY_BINDING_NOT_FOUND"
    "No selectable activity binding exists for the requested scope and intent." 404
    (match intent with Some i => [issue ("activityIntent." +:+ in_field i) "not_found"] | None => [] end).

Definition ambiguousError (candidateCount : nat) (intent : option Intent) : jserror :=
  GrowthControlPlaneError "GROWTH_CONTROL_ACTIVITY_SELECTION_AMBIGUOUS"
    "Multiple activity bindings are selectable; explicit activity intent is required." 409
    [issue (match intent with Some i => "activityIntent." +:+ in_field i | None => "activityIntent" end) "ambiguous"
     ++ [("candidateCount", VNum (Some (Z.of_nat candidateCount)));
         ("allowedIntentFields", VArr (List.map VStr ACTIVITY_SELECTION_INTENT_FIELDS))]].

(** [binding[intent.field]] *)
Definition fieldOf (b : Binding) (field : string) : string :=
  if String.eqb field "activityBindingId" then bn_activityBindingId b
  else if String.eqb field "activityTypeKey" then bn_activityTypeKey b
  else bn_activityPackKey b.

Definition selectionEvidence (b : Binding) (scope : SelectionScope) (intent : option Intent) : jsval := VObj
  [("scope", VObj [("tenantId", VStr (ss_tenantId scope)); ("workspaceId", VStr (ss_workspaceId scope));
                   ("brandKey", VStr (ss_brandKey scope))]);
   ("activityBindingId", VStr (bn_activityBindingId b)); ("activityTypeKey", VStr (bn_activityTypeKey b));
   ("activityPackKey", VStr (bn_activityPackKey b)); ("activityPackVersion", VNum (bn_activityPackVersion b));
   ("status", VStr (bn_status b)); ("revision", VNum (bn_revision b));
   ("intent", match intent with
              | Some i => VObj [("field", VStr (in_field i)); ("value", VStr (in_value i))]
              | None => VNull
              end)].

Definition selectionResult (b : Binding) (scope : SelectionScope) (intent : option Intent) (candidateCount : nat)
    : Selection :=
  {| sl_binding := b; sl_scope := scope;
     sl_selectionReason := match intent with Some _ => "explicit_activity_intent" | None => "single_selectable_binding" end;
     sl_candidateCount := candidateCount;
     sl_evidenceSha256 := stableSha256 (selectionEvidence b scope intent) |}.

(** The choice among the candidates. *)
Definition selectCandidate (candidates : list Binding) (scope : SelectionScope) (intent : option Intent) : js Selection :=
  match candidates with
  | [] => Throw (notFoundError intent)
  | candidate :: others =>
      match intent with
      | None =>
          throw_if (0 <? length others) (ambiguousError (length candidates) None);;
          Ok (selectionResult candidate scope None (length candidates))
      | Some i =>
          match bfilter (fun b => String.eqb (fieldOf b (in_field i)) (in_value i)) candidates with
          | [] => Throw (notFoundError intent)
          | [b] => Ok (selectionResult b scope intent (length candidates))
          | matches => Throw (ambiguousError (length matches) intent)
          end
      end
  end.

Definition resolveActivityBindingSelection (args : jsobj) : js Selection :=
  match oget args "bindings" with
  | VArr bindings =>
      scope ← normalizedScope (oget args "scope");
      statuses ← normalizedStatuses
        (oget_default args "selectableStatuses" (VArr (List.map VStr DEFAULT_ACTIVITY_SELECTION_STATUSES)));
      intent ← normalizedIntent (oget args "activityIntent");
      selectCandidate (scopedCandidates bindings scope statuses) scope intent
  | _ => Throw (GrowthControlPlaneError "GROWTH_CONTROL_ACTIVITY_BINDINGS_INVALID" "bindings must be an array." 422
                  [issue "bindings" "invalid_type"])
  end.

(** ** Readiness *)

Definition find_state (status : string) : option BindingState :=
  List.find (fun t => String.eqb (state_str t) status) ACTIVITY_BINDING_STATES.

Definition normalizedStatus (value : jsval) (field : string) : js BindingState :=
  let status := lowerText value in
  match find_state status with
  | Some t => Ok t
  | None => Throw (GrowthControlPlaneError "GROWTH_CONTROL_ACTIVITY_BINDING_STATUS_INVALID"
                     (field +:+ " is not a supported activity binding status.") 422
                     [issue field "unsupported" ++ [("value", js_or (VStr status) VNull)]])
  end.

Definition expectedRevision (value : jsval) : js Z :=
  match js_Number value with
  | Some revision =>
      if Z.ltb revision 0
      then Throw (GrowthControlPlaneError "GROWTH_CONTROL_ACTIVITY_BINDING_REVISION_INVALID"
                    "expectedRevision must be a non-negative integer." 422 [issue "expectedRevision" "invalid"])
      else Ok revision
  | None => Throw (GrowthControlPlaneError "GROWTH_CONTROL_ACTIVITY_BINDING_REVISION_INVALID"
                     "expectedRevision must be a non-negative integer." 422 [issue "expectedRevision" "invalid"])
  end.

(** The time value of the date, or [null]. *)
Definition normalizedDate (value : jsval) (field : string) : js (option Z) :=
  if nullish value || is_str value "" then Ok None
  else
    match js_Date value with
    | Some t => Ok (Some t)
    | None => Throw (GrowthControlPlaneError "GROWTH_CONTROL_ACTIVITY_BINDING_DATE_INVALID"
                       (field +:+ " must be a valid date-time.") 422 [issue field "invalid_date_time"])
    end.

Definition capabilityKey (value : jsval) : string :=
  match value with
  | VStr _ => normalizedText value
  | _ => if is_object value then normalizedText (any_of value "capabilityKey" "capability_key" "key") else ""
  end.

(** The entries of the map, each key with the last status it is given; a [Map]
    is not a value here. *)
Definition capabilityStatusMap (value : jsval) : list (string * string) :=
  match value with
  | VArr l =>
      fold_left (fun m entry => assoc_set (capabilityKey entry) (lowerText (vget entry "status")) m) l []
  | VObj o => fold_left (fun m p => assoc_set p.1 (lowerText p.2) m) o []
  | _ => []
  end.

(** [{ pass, code }] *)
Definition brandCoreReadiness (brandCore : jsval) : bool * string :=
  if negb (is_object brandCore) then (false, "brand_core_missing")
  else
    let status := lowerText (vget brandCore "status") in
    let activeStatus := lowerText (either brandCore "activeStatus" "active_status") in
    let validationStatus := lowerText (either brandCore "validationStatus" "validation_status") in
    if negb (String.eqb status "active") || sin activeStatus BLOCKED_BRAND_CORE_STATES then (false, "brand_core_inactive")
    else if sin validationStatus BLOCKED_BRAND_CORE_VALIDATION_STATES then (false, "brand_core_not_validated")
    else (true, "brand_core_ready").

(** [(Array.isArray(v) ? v.map(capabilityKey) : []).filter(Boolean)] *)
Definition capabilityKeys (v : jsval) : list string :=
  match v with
  | VArr l => bfilter (fun k => negb (is_empty k)) (List.map capabilityKey l)
  | _ => []
  end.

Definition allowedCapabilities (binding : jsval) : list string :=
  capabilityKeys (either binding "allowedCapabilities" "allowed_capabilities").

(** The keys whose status is not active. *)
Definition inactiveCapabilities (allowed : list string) (statuses : list (string * string)) : list string :=
  bfilter (fun k => negb (ostr_eqb (assoc_get k statuses) (Some "active"))) allowed.

(** [a < b] for dates that may be missing: true when one is. *)
Definition window_valid (effectiveFrom effectiveTo : option Z) : bool :=
  match effectiveFrom, effectiveTo with Some a, Some b => Z.ltb a b | _, _ => true end.

(** [!effectiveTo || effectiveTo > now], where [null] counts as zero *)
Definition not_expired (effectiveTo now : option Z) : bool :=
  match effectiveTo with Some b => Z.ltb (default 0%Z now) b | None => true end.

Definition readinessChecks (status : BindingState) (binding brandCore activityPack capabilityStatuses : jsval)
    (effectiveFrom effectiveTo now : option Z) : list Check :=
  let allowed := allowedCapabilities binding in
  let declared := capabilityKeys (vget activityPack "capabilities") in
  let missing := bfilter (fun k => negb (sin k declared)) allowed in
  let inactive := inactiveCapabilities allowed (capabilityStatusMap capabilityStatuses) in
  let '(brandPass, brandCode) := brandCoreReadiness brandCore in
  let packStatus := lowerText (vget activityPack "status") in
  let packActivityTypeKey := normalizedText (either activityPack "activityTypeKey" "activity_type_key") in
  let bindingActivityTypeKey := normalizedText (either binding "activityTypeKey" "activity_type_key") in
  let count l := VNum (Some (Z.of_nat (length (l : list string)))) in
  [readinessCheck "binding_state_eligible" (bool_decide (status ∈ READINESS_ELIGIBLE_STATES)) "medium"
     [("status", VStr (state_str status))];
   readinessCheck brandCode brandPass "critical" [];
   readinessCheck "activity_pack_ready" (sin packStatus READY_ACTIVITY_PACK_STATES) "critical"
     [("status", js_or (VStr packStatus) VNull)];
   readinessCheck "activity_type_compatible"
     (negb (is_empty bindingActivityTypeKey) && String.eqb bindingActivityTypeKey packActivityTypeKey) "critical" [];
   readinessCheck "capabilities_selected" (0 <? length allowed) "high" [];
   readinessCheck "capabilities_declared_by_pack" (length missing =? 0) "critical" [("missingCount", count missing)];
   readinessCheck "capabilities_active" (length inactive =? 0) "critical" [("inactiveCount", count inactive)];
   readinessCheck "effective_window_valid" (window_valid effectiveFrom effectiveTo) "high" [];
   readinessCheck "binding_not_expired" (not_expired effectiveTo now) "high" []].

Definition readinessEvidence (status : BindingState) (binding : jsval) (isReady : bool) (checks : list Check) : jsval :=
  VObj
    [("activityBindingId", VStr (normalizedText (either binding "activityBindingId" "activity_binding_id")));
     ("tenantId", VStr (normalizedText (either binding "tenantId" "tenant_id")));
     ("workspaceId", VStr (normalizedText (either binding "workspaceId" "workspace_id")));
     ("brandKey", VStr (normalizedText (either binding "brandKey" "brand_key")));
     ("revision", VNum (js_Number (js_coalesce (vget binding "revision") (VNum (Some 0%Z)))));
     ("status", VStr (state_str status)); ("targetStatus", VStr (if isReady then "ready" else "blocked"));
     ("activityPackKey", VStr (normalizedText (either binding "activityPackKey" "activity_pack_key")));
     ("activityPackVersion",
       VNum (js_Number (js_coalesce (either binding "activityPackVersion" "activity_pack_version") (VNum (Some 0%Z)))));
     ("allowedCapabilityCount", VNum (Some (Z.of_nat (length (allowedCapabilities binding)))));
     ("checkResults", VArr (List.map (fun c => VObj
        [("code", VStr (ch_code c)); ("pass", VBool (ch_pass c)); ("severity", VStr (ch_severity c))]) checks))].

Definition binding_not_found : jserror :=
  GrowthControlPlaneError "GROWTH_CONTROL_ACTIVITY_BINDING_NOT_FOUND" "Activity binding was not found." 404 [].

Definition evaluateActivityBindingReadiness (args : jsobj) : js Readiness :=
  let binding := oget args "binding" in
  let brandCore := oget args "brandCore" in
  let activityPack := oget args "activityPack" in
  let capabilityStatuses := oget_default args "capabilityStatuses" (VObj []) in
  throw_if (negb (is_object binding)) binding_not_found;;
  assertNoSecretFields (VObj [("binding", binding); ("brandCore", brandCore); ("activityPack", activityPack);
                              ("capabilityStatuses", capabilityStatuses)]);;
  status ← normalizedStatus (vget binding "status") "binding.status";
  effectiveFrom ← normalizedDate (either binding "effectiveFrom" "effective_from") "effectiveFrom";
  effectiveTo ← normalizedDate (either binding "effectiveTo" "effective_to") "effectiveTo";
  currentTime ← normalizedDate (now_param args) "now";
  let checks := readinessChecks status binding brandCore activityPack capabilityStatuses
                  effectiveFrom effectiveTo currentTime in
  let isReady := forallb ch_pass checks in
  Ok {| rd_ready := isReady; rd_targetStatus := if isReady then "ready" else "blocked";
        rd_bindingRevision := js_Number (js_coalesce (vget binding "revision") (VNum (Some 0%Z)));
        rd_checks := checks; rd_evidenceSha256 := stableSha256 (readinessEvidence status binding isReady checks) |}.

(** ** Transitions *)

(** [!readiness?.ready || Number(readiness.bindingRevision) !== revision] *)
Definition readiness_stale (readiness : jsval) (revision : option Z) : bool :=
  negb (truthy (vget readiness "ready"))
  || match js_Number (vget readiness "bindingRevision"), revision with
     | Some a, Some b => negb (Z.eqb a b)
     | _, _ => true
     end.

(** [a || b] for dates *)
Definition or_date (a b : option Z) : option Z := match a with Some _ => a | None => b end.

Definition planActivityBindingTransition (args : jsobj) : js Transition :=
  let binding := oget args "binding" in
  let readiness := oget args "readiness" in
  throw_if (negb (is_object binding)) binding_not_found;;
  currentStatus ← normalizedStatus (vget binding "status") "binding.status";
  nextStatus ← normalizedStatus (oget args "targetStatus") "targetStatus";
  let revision := js_Number (js_coalesce (vget binding "revision") (VNum (Some 0%Z))) in
  requiredRevision ← expectedRevision (oget args "expectedRevision");
  throw_if (negb (bool_decide (revision = Some requiredRevision)))
    (GrowthControlPlaneError "GROWTH_CONTROL_ACTIVITY_BINDING_REVISION_CONFLICT"
       "Activity binding revision changed before the lifecycle transition." 409
       [issue "expectedRevision" "conflict" ++ [("expected", VNum (Some requiredRevision)); ("actual", VNum revision)]]);;
  throw_if (negb (bool_decide (nextStatus ∈ ACTIVITY_BINDING_TRANSITIONS currentStatus)))
    (GrowthControlPlaneError "GROWTH_CONTROL_ACTIVITY_BINDING_TRANSITION_INVALID"
       ("Transition from " +:+ state_str currentStatus +:+ " to " +:+ state_str nextStatus +:+ " is not allowed.") 422
       [issue "targetStatus" "illegal_transition" ++
          [("from", VStr (state_str currentStatus)); ("to", VStr (state_str nextStatus))]]);;
  throw_if (bool_decide (nextStatus = active) && readiness_stale readiness revision)
    (GrowthControlPlaneError "GROWTH_CONTROL_ACTIVITY_BINDING_READINESS_REQUIRED"
       "A current passing readiness assessment is required before activation." 409
       [issue "readiness" "missing_or_stale"]);;
  transitionTime ← normalizedDate (now_param args) "now";
  effectiveFrom ← normalizedDate (either binding "effectiveFrom" "effective_from") "effectiveFrom";
  effectiveTo ← normalizedDate (either binding "effectiveTo" "effective_to") "effectiveTo";
  let activated := bool_decide (nextStatus = active) in
  let actor := js_slice0 (normalizedText (oget_default args "actorId" (VStr "platform_admin"))) 128 in
  Ok {| tr_activityBindingId := normalizedText (either binding "activityBindingId" "activity_binding_id");
        tr_fromStatus := currentStatus; tr_targetStatus := nextStatus; tr_expectedRevision := requiredRevision;
        tr_revision := requiredRevision + 1;
        tr_approvedBy := if activated then Some (if is_empty actor then "platform_admin" else actor) else None;
        tr_effectiveFrom := if activated then or_date effectiveFrom transitionTime else effectiveFrom;
        tr_effectiveTo := if bool_decide (nextStatus ∈ [deprecated; archived])
                          then or_date effectiveTo transitionTime else effectiveTo |}.
End Bindings.

Section Laws.
Context `{JsHost}.

(** ** The one binding that qualifies *)

(** The binding is of the scope, has a selectable status and meets the
    intent. *)
Definition eligible (scope : SelectionScope) (statuses : list string) (intent : option Intent) (b : Binding) : bool :=
  String.eqb (bn_tenantId b) (ss_tenantId scope) && String.eqb (bn_workspaceId b) (ss_workspaceId scope)
  && String.eqb (bn_brandKey b) (ss_brandKey scope) && sin (bn_status b) statuses
  && match intent with Some i => String.eqb (fieldOf b (in_field i)) (in_value i) | None => true end.

Lemma scoped_eligible bindings scope statuses intent :
  bfilter (fun b => match intent with Some i => String.eqb (fieldOf b (in_field i)) (in_value i) | None => true end)
    (scopedCandidates bindings scope statuses) =
  bfilter (eligible scope statuses intent) (omap normalizedBinding bindings).
Proof.
  unfold scopedCandidates. rewrite !bfilter_bfilter. apply bfilter_ext. intros b _. unfold eligible.
  by rewrite !andb_assoc.
Qed.

Lemma selectCandidate_eligible candidates scope intent :
  match bfilter (fun b => match intent with Some i => String.eqb (fieldOf b (in_field i)) (in_value i) | None => true end)
          candidates with
  | [] => selectCandidate candidates scope intent = Throw (notFoundError intent)
  | [b] => selectCandidate candidates scope intent = Ok (selectionResult b scope intent (length candidates))
  | found => selectCandidate candidates scope intent = Throw (ambiguousError (length found) intent)
  end.
Proof.
  unfold selectCandidate. destruct intent as [i|].
  - destruct candidates as [|c others]; [done|].
    destruct (bfilter (fun b => String.eqb (fieldOf b (in_field i)) (in_value i)) (c :: others)) as [|b [|b' l]]; done.
  - rewrite bfilter_all by done. destruct candidates as [|c [|c' others]]; done.
Qed.

(** C25: a selection is the only binding that is of the tenant, workspace and
    brand, has a selectable status and meets the intent; when there is none the
    answer is 404, and when there are several it is 409. *)
Theorem resolveActivityBindingSelection_unique args bindings scope statuses intent :
  oget args "bindings" = VArr bindings -> normalizedScope (oget args "scope") = Ok scope ->
  normalizedStatuses (oget_default args "selectableStatuses"
    (VArr (List.map VStr DEFAULT_ACTIVITY_SELECTION_STATUSES))) = Ok statuses ->
  normalizedIntent (oget args "activityIntent") = Ok intent ->
  match bfilter (eligible scope statuses intent) (omap normalizedBinding bindings) with
  | [b] => exists r, resolveActivityBindingSelection args = Ok r /\ sl_binding r = b /\ sl_scope r = scope
  | [] => resolveActivityBindingSelection args = Throw (notFoundError intent)
  | found => resolveActivityBindingSelection args = Throw (ambiguousError (length found) intent)
  end.
Proof.
  intros Hb Hs Hst Hi. unfold resolveActivityBindingSelection. rewrite Hb, Hs, Hst, Hi.
  rewrite <- scoped_eligible. pose proof (selectCandidate_eligible (scopedCandidates bindings scope statuses) scope intent) as Hsel.
  destruct (bfilter _ (scopedCandidates bindings scope statuses)) as [|b [|b' l]]; [done| |done].
  eexists. split; [exact Hsel|done].
Qed.

(** ** Activation *)

(** What a readiness that passed vouches for. *)
Definition cleared (args : jsobj) : Prop :=
  let binding := oget args "binding" in
  let activityPack := oget args "activityPack" in
  let allowed := allowedCapabilities binding in
  (brandCoreReadiness (oget args "brandCore")).1 = true /\
  lowerText (vget activityPack "status") ∈ READY_ACTIVITY_PACK_STATES /\
  normalizedText (either binding "activityTypeKey" "activity_type_key") =
    normalizedText (either activityPack "activityTypeKey" "activity_type_key") /\
  allowed <> [] /\
  (forall k, k ∈ allowed -> k ∈ capabilityKeys (vget activityPack "capabilities") /\
     assoc_get k (capabilityStatusMap (oget_default args "capabilityStatuses" (VObj []))) = Some "active") /\
  forall t now, normalizedDate (either binding "effectiveTo" "effective_to") "effectiveTo" = Ok (Some t) ->
    normalizedDate (now_param args) "now" = Ok (Some now) -> (now < t)%Z.

(** A readiness as the caller passes it on. *)
Definition js_of_readiness (r : Readiness) : jsval := VObj
  [("ready", VBool (rd_ready r)); ("targetStatus", VStr (rd_targetStatus r));
   ("bindingRevision", VNum (rd_bindingRevision r)); ("evidenceSha256", VStr (rd_evidenceSha256 r))].

Lemma ready_cleared args r : evaluateActivityBindingReadiness args = Ok r -> rd_ready r = true -> cleared args.
Proof.
  unfold evaluateActivityBindingReadiness. cbv zeta. intros He. apply bind_Ok in He as (_ & _ & He).
  apply bind_Ok in He as (_ & _ & He). apply bind_Ok in He as (status & _ & He).
  apply bind_Ok in He as (from & _ & He). apply bind_Ok in He as (to & Hto & He).
  apply bind_Ok in He as (now & Hnow & He). apply Ok_inj in He as <-. cbn [rd_ready]. unfold readinessChecks.
  destruct (brandCoreReadiness (oget args "brandCore")) as [brandPass brandCode] eqn:Hbrand.
  cbn [forallb ch_pass readinessCheck]. rewrite !andb_true_iff. intros (_ & Hb & Hp & [Ht1 Ht2] & Hn & Hm & Hi & _ & Hx & _).
  unfold cleared. rewrite Hbrand. split; [done|]. split; [by apply sin_true|]. split; [by apply String.eqb_eq|].
  split; [intros Heq; by rewrite Heq in Hn|]. split.
  - intros k Hk. apply Nat.eqb_eq, length_zero_iff_nil in Hm, Hi. unfold inactiveCapabilities in Hi.
    rewrite bfilter_nil in Hm, Hi. split; [apply sin_true, negb_false_iff; by apply Hm|].
    apply ostr_eqb_true, negb_false_iff. by apply Hi.
  - intros t n Ht Hnn. rewrite Ht in Hto. apply Ok_inj in Hto as <-. rewrite Hnn in Hnow. apply Ok_inj in Hnow as <-.
    by apply Z.ltb_lt.
Qed.

Lemma into_active s : active ∈ ACTIVITY_BINDING_TRANSITIONS s -> s = ready.
Proof. destruct s; intros Hin; try reflexivity; exfalso; revert Hin; apply (bool_decide_unpack _); exact I. Qed.

Lemma into_ready s : ready ∈ ACTIVITY_BINDING_TRANSITIONS s -> s = validating.
Proof. destruct s; intros Hin; try reflexivity; exfalso; revert Hin; apply (bool_decide_unpack _); exact I. Qed.

Lemma transition_Ok args t : planActivityBindingTransition args = Ok t ->
  normalizedStatus (vget (oget args "binding") "status") "binding.status" = Ok (tr_fromStatus t) /\
  tr_targetStatus t ∈ ACTIVITY_BINDING_TRANSITIONS (tr_fromStatus t) /\
  js_Number (js_coalesce (vget (oget args "binding") "revision") (VNum (Some 0%Z))) = Some (tr_expectedRevision t) /\
  tr_revision t = (tr_expectedRevision t + 1)%Z /\
  (tr_targetStatus t = active -> readiness_stale (oget args "readiness") (Some (tr_expectedRevision t)) = false).
Proof.
  unfold planActivityBindingTransition. cbv zeta. intros Hp. apply bind_Ok in Hp as (_ & _ & Hp).
  apply bind_Ok in Hp as (from & Hfrom & Hp). apply bind_Ok in Hp as (target & _ & Hp).
  apply bind_Ok in Hp as (required & _ & Hp). apply bind_Ok in Hp as (_ & Hrev%throw_if_Ok & Hp).
  apply bind_Ok in Hp as (_ & Htr%throw_if_Ok & Hp). apply bind_Ok in Hp as (_ & Hready%throw_if_Ok & Hp).
  do 3 (apply bind_Ok in Hp as (? & _ & Hp)). apply Ok_inj in Hp as <-.
  cbn [tr_fromStatus tr_targetStatus tr_expectedRevision tr_revision].
  apply negb_false_iff, bool_decide_eq_true in Hrev, Htr. split; [done|]. split; [done|]. split; [done|]. split; [done|].
  intros ->. rewrite Hrev in Hready. by rewrite bool_decide_true in Hready.
Qed.


(** ** The life of a binding *)

(** A planned transition that is stored: the status with its revision. *)
Inductive binding_step : BindingState * Z -> BindingState * Z -> Prop :=
| transition_stored args t : planActivityBindingTransition args = Ok t ->
    binding_step (tr_fromStatus t, tr_expectedRevision t) (tr_targetStatus t, tr_revision t).

Lemma binding_step_inv s r s' r' : binding_step (s, r) (s', r') ->
  s' ∈ ACTIVITY_BINDING_TRANSITIONS s /\ r' = (r + 1)%Z.
Proof. inversion 1 as [args t (_ & Htr & _ & Hr & _)%transition_Ok]; subst. done. Qed.

Lemma binding_run_le x y : rtc binding_step x y -> (x.2 <= y.2)%Z.
Proof.
  induction 1 as [|[s r] [s1 r1] [s2 r2] Hs _ IH]; [lia|]. apply binding_step_inv in Hs as [_ ->]. simpl in *. lia.
Qed.

(** Into a status, the last transition came from a status before it. *)
Lemma run_last x s' r' (P : BindingState -> Prop) : rtc binding_step x (s', r') -> x.1 <> s' ->
  (forall s, s' ∈ ACTIVITY_BINDING_TRANSITIONS s -> P s) ->
  exists s k, P s /\ (k < r')%Z /\ rtc binding_step x (s, k) /\ rtc binding_step (s, k) (s', r').
Proof.
  intros Hrun Hne HP. destruct (rtc_inv_r _ _ Hrun) as [->|([s k] & Hx & Hs)]; [done|].
  pose proof (binding_step_inv _ _ _ _ Hs) as [Hin ->]. exists s, k. split; [by apply HP|]. split; [lia|].
  split; [done|]. by apply rtc_once.
Qed.

Lemma draft_to_active r r' : rtc binding_step (draft, r) (active, r') -> exists k l, (r <= k < l)%Z /\ (l < r')%Z /\
  rtc binding_step (draft, r) (validating, k) /\ rtc binding_step (validating, k) (ready, l) /\
  rtc binding_step (ready, l) (active, r').
Proof.
  intros Hrun. destruct (run_last _ _ _ (fun s => s = ready) Hrun) as (s & l & -> & Hl & H1 & H2); [done|apply into_active|].
  destruct (run_last _ _ _ (fun s => s = validating) H1) as (s & k & -> & Hk & H3 & H4); [done|apply into_ready|].
  exists k, l. pose proof (binding_run_le _ _ H3). simpl in *. repeat split; [lia|lia|lia|done..].
Qed.

End Laws.

(** ** Examples *)

Definition demo_binding_value (id tenant status : string) (revision : Z) : jsval := VObj
  [("activityBindingId", VStr id); ("tenantId", VStr tenant); ("workspaceId", VStr "w1"); ("brandKey", VStr "b1");
   ("activityTypeKey", VStr "retail"); ("activityPackKey", VStr "pack.retail"); ("status", VStr status);
   ("revision", VNum (Some revision)); ("allowedCapabilities", VArr [VStr "content.draft"])].

Definition demo_selection_args : jsobj :=
  [("bindings", VArr [demo_binding_value "x1" "t2" "active" 1; demo_binding_value "x2" "t1" " Active" 1;
                      demo_binding_value "x3" "t1" "draft" 1]);
   ("scope", VObj [("tenantId", VStr "t1"); ("workspaceId", VStr "w1"); ("brandKey", VStr "b1")])].

Lemma resolveActivityBindingSelection_unique_witness :
  exists r, resolveActivityBindingSelection (H:=demo_host) demo_selection_args = Ok r /\
    bn_activityBindingId (sl_binding r) = "x2".
Proof.
  destruct (resolveActivityBindingSelection_unique (H:=demo_host) demo_selection_args
    [demo_binding_value "x1" "t2" "active" 1; demo_binding_value "x2" "t1" " Active" 1; demo_binding_value "x3" "t1" "draft" 1]
    (Build_SelectionScope "t1" "w1" "b1") ["active"] None eq_refl eq_refl eq_refl eq_refl) as (r & Hr & Hb & _).
  exists r. split; [exact Hr|]. rewrite Hb. reflexivity.
Defined.

Definition demo_checked : jsobj :=
  [("binding", demo_binding_value "x2" "t1" "ready" 4); ("brandCore", VObj [("status", VStr "active")]);
   ("activityPack", VObj [("status", VStr "ready"); ("activityTypeKey", VStr "retail");
                          ("capabilities", VArr [VStr "content.draft"])]);
   ("capabilityStatuses", VObj [("content.draft", VStr "active")])].

Definition no_readiness : Readiness := Build_Readiness false "" None [] "".
Definition no_transition : Transition := Build_Transition "" draft draft 0 0 None None None.

Definition demo_readiness : Readiness :=
  catch (evaluateActivityBindingReadiness (H:=demo_host) demo_checked) no_readiness.

Definition demo_transition_args (id status target : string) (revision : Z) (readiness : jsval) : jsobj :=
  [("binding", demo_binding_value id "t1" status revision); ("targetStatus", VStr target);
   ("expectedRevision", VNum (Some revision)); ("readiness", readiness)].

Definition demo_transition (id status target : string) (revision : Z) (readiness : jsval) : Transition :=
  catch (planActivityBindingTransition (H:=demo_host) (demo_transition_args id status target revision readiness))
    no_transition.


Lemma demo_stored id status target revision readiness t :
  planActivityBindingTransition (H:=demo_host) (demo_transition_args id status target revision readiness) = Ok t ->
  binding_step (H:=demo_host) (tr_fromStatus t, tr_expectedRevision t) (tr_targetStatus t, tr_revision t).
Proof. apply transition_stored. Qed.

Lemma demo_run : rtc (binding_step (H:=demo_host)) (draft, 2%Z) (active, 5%Z).
Proof.
  apply (rtc_l _ _ (validating, 3%Z)).
  { apply (demo_stored "x2" "draft" "validating" 2 VNull (demo_transition "x2" "draft" "validating" 2 VNull)).
    vm_compute. reflexivity. }
  apply (rtc_l _ _ (ready, 4%Z)).
  { apply (demo_stored "x2" "validating" "ready" 3 VNull (demo_transition "x2" "validating" "ready" 3 VNull)).
    vm_compute. reflexivity. }
  apply rtc_once. apply (demo_stored "x2" "ready" "active" 4 (js_of_readiness demo_readiness)
    (demo_transition "x2" "ready" "active" 4 (js_of_readiness demo_readiness))).
  vm_compute. reflexivity.
Qed.

End ActivityBinding.
