(* ===== verification/GrowthInput.v ===== *)
(** * Growth control plane: checked input
    (src/domain/growthControlPlane/growthControlPolicyCompiler.js,
    growthControlProviderEffectReconciliation.js, growthControlProviderApproval.js
    and growthControlProviderAdapterResolver.js)

    What the modules of the growth control plane repeat before they decide: the
    byte bound, the search for secrets, and the normalisation of keys,
    identifiers, hashes, numbers and lists.  The error codes and the few
    differences are a record ([InputContract]) that each module gives.  Proved:
    what is accepted does not depend on the name of the field it is read from,
    a normal value is accepted unchanged, and an accepted input has no
    sensitive key or value within the depth that is searched. *)
From S2P Require Import Prelude Sorting JsString JsDate JsValue JsJson GrowthControl.

Module GrowthInput.
Import GrowthControl.

(** What differs between the modules. *)
Record InputContract := {
  ic_subject : string;               (* how the messages name the input *)
  ic_invalid : string;               (* code of a malformed value *)
  ic_sensitive : string;             (* code of a secret *)
  ic_oversized : string;             (* code of an input over the byte bound *)
  ic_bytes : N;                      (* the byte bound *)
  ic_secret : string -> bool;        (* the texts that are refused *)
  ic_depth : nat;                    (* depth searched for secrets *)
  ic_safe_flags : list string;       (* sensitive keys that may hold [false] *)
  ic_safe_any : bool;                (* or any value at all *)
  ic_reports_maximum : bool;         (* an oversized list reports its bound *)
}.

(** [fail(code, message, field, issue, extra)] *)
Definition fail (code message field name : string) (extra : jsobj) : jserror :=
  GrowthControlPlaneError code message 422 [issue field name ++ extra].

(** ** Patterns *)

(** [KEY_RE] *)
Definition is_key (s : string) : bool :=
  match s with
  | EmptyString => false
  | String c r =>
      is_lower c && str_forallb canonical_rest r && (2 <=? String.length r) && (String.length r <=? 191)
  end.

Definition id_rest (c : ascii) : bool := is_alnum c || char_in ":._/-" c.

(** [ID_RE] *)
Definition is_opaque_id (s : string) : bool :=
  match s with
  | EmptyString => false
  | String c r => is_alnum c && str_forallb id_rest r && (String.length r <=? 190)
  end.

(** [SENSITIVE_KEY_RE] *)
Definition SENSITIVE_KEY_RE : regex :=
  let dash := re_opt (RChar (char_in "_-")) in
  re_alts
    [re_lit_i "secret"; re_lit_i "token"; re_lit_i "password"; re_lit_i "passwd"; re_lit_i "credential";
     RSeq (re_lit_i "private") (RSeq dash (re_lit_i "key"));
     RSeq (re_lit_i "client") (RSeq dash (re_lit_i "secret"));
     RSeq (re_lit_i "api") (RSeq dash (re_lit_i "key"));
     re_lit_i "authorization"; re_lit_i "cookie"; re_lit_i "session"].

(** [SENSITIVE_VALUE_RE] *)
Definition SENSITIVE_VALUE_RE : regex :=
  RAlt
    (RSeq (re_lit_i "Bearer") (RSeq (re_plus (RChar is_ws))
       (RSeq (re_plus (RChar (fun c => is_alnum c || char_in "._~+-/" c))) (RStar (RChar (Ascii.eqb "="))))))
    (RSeq (re_lit_i "-----BEGIN ") (RSeq (RStar (RChar (fun c => is_upper c || is_lower c || Ascii.eqb " " c)))
       (re_lit_i "PRIVATE KEY-----"))).

Definition sensitive_value (s : string) : bool := re_search SENSITIVE_VALUE_RE s.

(** ** The byte bound *)

(** [Buffer.byteLength(s, "utf8")] *)
Fixpoint byteLength (s : string) : nat :=
  match s with
  | EmptyString => 0
  | String c s' => (if (N_of_ascii c <? 128)%N then 1 else 2) + byteLength s'
  end.

Definition MAX_INPUT_BYTES : N := 262144.

(** [JSON.stringify(v)] of a value that has a text. *)
Definition JSON_stringify (v : jsval) : string := json_print (json_copy v).

Definition assertBoundedInput (ic : InputContract) (value : jsval) : js unit :=
  throw_if (ic_bytes ic <? N.of_nat (byteLength (JSON_stringify value)))%N
    (fail (ic_oversized ic) (ic_subject ic +:+ " exceeds the supported byte bound.") "input" "oversized" []).

(** ** Secrets *)

Definition sensitive_key (ic : InputContract) (key : string) (nested : jsval) : bool :=
  re_search SENSITIVE_KEY_RE key && negb (sin key (ic_safe_flags ic) && (ic_safe_any ic || is_false nested)).

(** [depth] counts down. *)
Fixpoint assertSensitiveFree (ic : InputContract) (value : jsval) (field : string) (depth : nat) : js unit :=
  match value with
  | VStr s =>
      throw_if (ic_secret ic s)
        (fail (ic_sensitive ic) (ic_subject ic +:+ " contains a secret-like value.") field
           "forbidden_sensitive_value" [])
  | VArr l =>
      match depth with
      | 0 => Ok tt
      | S depth =>
          (fix go (index : nat) (l : list jsval) : js unit :=
             match l with
             | [] => Ok tt
             | item :: rest => assertSensitiveFree ic item (at_index field index) depth;; go (S index) rest
             end) 0 l
      end
  | VObj o =>
      (fix go (o : jsobj) : js unit :=
         match o with
         | [] => Ok tt
         | (key, nested) :: rest =>
             throw_if (sensitive_key ic key nested)
               (fail (ic_sensitive ic) (ic_subject ic +:+ " contains a forbidden sensitive field.")
                  (field +:+ "." +:+ key) "forbidden_sensitive_field" []);;
             match depth with
             | 0 => Ok tt
             | S depth => assertSensitiveFree ic nested (field +:+ "." +:+ key) depth
             end;;
             go rest
         end) o
  | _ => Ok tt
  end.

Section Input.
Context `{JsHost}.
Variable ic : InputContract.

(** ** Normalisation *)

Definition invalid (message field name : string) (extra : jsobj) : jserror :=
  fail (ic_invalid ic) (field +:+ message) field name extra.

Definition canonical (value : jsval) (field : string) : js string :=
  let normalized := js_toLowerCase (js_trim (str_coalesce value)) in
  throw_if (negb (is_key normalized)) (invalid " must be a canonical key." field "invalid_canonical_key" []);;
  Ok normalized.

Definition identifier (value : jsval) (field : string) : js string :=
  let normalized := js_trim (str_coalesce value) in
  throw_if (negb (is_opaque_id normalized))
    (invalid " must be a bounded opaque identifier." field "invalid_identifier" []);;
  Ok normalized.

Definition sha256 (value : jsval) (field : string) : js string :=
  let normalized := js_toLowerCase (js_trim (str_coalesce value)) in
  throw_if (negb (is_hex64 normalized)) (invalid " must be SHA-256." field "invalid_sha256" []);;
  Ok normalized.

(** The parameter [nullable]. *)
Definition nullable (normalize : jsval -> string -> js string) (value : jsval) (field : string)
    : js (option string) :=
  if is_blank value then Ok None else normalized ← normalize value field; Ok (Some normalized).

(** The time value of an instant; the code goes on with its ISO text. *)
Definition instant (value : jsval) (field : string) : js Z :=
  match js_Date value with
  | Some t => Ok t
  | None => Throw (invalid " must be a valid instant." field "invalid_instant" [])
  end.

Definition out_of_range (field : string) (minimum maximum : Z) : jserror :=
  invalid " is outside the supported bounds." field "out_of_range"
    [("minimum", VNum (Some minimum)); ("maximum", VNum (Some maximum))].

Definition in_bounds (minimum maximum n : Z) : bool := Z.leb minimum n && Z.leb n maximum.

(** [Number.isSafeInteger(n)] of an integer *)
Definition is_safe_integer (n : Z) : bool := Z.leb (Z.abs n) (2 ^ 53 - 1).

Definition boundedInteger (value : jsval) (field : string) (minimum maximum : Z) (fallback : option Z) : js Z :=
  match (if nullish value then fallback else js_Number value) with
  | Some normalized =>
      throw_if (negb (is_safe_integer normalized) || negb (in_bounds minimum maximum normalized))
        (out_of_range field minimum maximum);;
      Ok normalized
  | None => Throw (out_of_range field minimum maximum)
  end.

Definition boundedNumber (value : jsval) (field : string) (minimum maximum : Z) : js Z :=
  match js_Number value with
  | Some normalized =>
      throw_if (negb (in_bounds minimum maximum normalized)) (out_of_range field minimum maximum);;
      Ok normalized
  | None => Throw (out_of_range field minimum maximum)
  end.

Definition invalid_list (field : string) (maximum : nat) : jserror :=
  invalid " must be a bounded array." field "invalid_or_oversized_array"
    (if ic_reports_maximum ic then [("maximum", VNum (Some (Z.of_nat maximum)))] else []).

(** The items of a list, at most [maximum]; a missing list is empty. *)
Definition boundedList (values : jsval) (field : string) (maximum : nat) : js (list jsval) :=
  match values with
  | VUndef | VNull => Ok []
  | VArr l => throw_if (maximum <? length l) (invalid_list field maximum);; Ok l
  | _ => Throw (invalid_list field maximum)
  end.

(** [values.map((value, index) => normalize(value, `${field}[${index}]`))] *)
Definition normalizeItems {A} (normalize : jsval -> string -> js A) (values : list jsval) (field : string)
    : js (list A) :=
  map_index (fun index value => normalize value (at_index field index)) 0 values.

Definition MAX_LIST_ITEMS : nat := 100.

(** [sortedUnique(values, field, { required, normalize })] *)
Definition sortedUnique (normalize : jsval -> string -> js string) (required : bool) (values : jsval)
    (field : string) : js (list string) :=
  items ← boundedList values field MAX_LIST_ITEMS;
  normalized ← normalizeItems normalize items field;
  let result := unique_sorted normalized in
  throw_if (required && (length result =? 0)) (invalid " must not be empty." field "required" []);;
  Ok result.

(** No two items have the same identity. *)
Fixpoint distinctBy {A} (identity : A -> string) (duplicate : string -> jserror) (identities : list string)
    (items : list A) : js unit :=
  match items with
  | [] => Ok tt
  | item :: rest =>
      throw_if (sin (identity item) identities) (duplicate (identity item));;
      distinctBy identity duplicate (identity item :: identities) rest
  end.
End Input.

(** ** Normalisation does not depend on the name of the field *)

Section Fields.
Context `{JsHost} (ic : InputContract).

Lemma canonical_field value f g : canonical ic value f ≃ canonical ic value g.
Proof. unfold canonical. same_results. Qed.

Lemma identifier_field value f g : identifier ic value f ≃ identifier ic value g.
Proof. unfold identifier. same_results. Qed.

Lemma sha256_field value f g : sha256 ic value f ≃ sha256 ic value g.
Proof. unfold sha256. same_results. Qed.

Lemma instant_field value f g : instant ic value f ≃ instant ic value g.
Proof. unfold instant. same_results. Qed.

Lemma boundedInteger_field value f g low high fallback :
  boundedInteger ic value f low high fallback ≃ boundedInteger ic value g low high fallback.
Proof. unfold boundedInteger. same_results. Qed.

Lemma boundedNumber_field value f g low high : boundedNumber ic value f low high ≃ boundedNumber ic value g low high.
Proof. unfold boundedNumber. same_results. Qed.

Lemma boundedList_field values f g maximum : boundedList ic values f maximum ≃ boundedList ic values g maximum.
Proof. unfold boundedList. same_results. Qed.

Lemma nullable_field normalize value f g : (forall value f g, normalize value f ≃ normalize value g) ->
  nullable normalize value f ≃ nullable normalize value g.
Proof. intros Hn. unfold nullable. case_match; [done|]. apply same_results_bind; [apply Hn|done]. Qed.

Section Normalize.
Context {A : Type} (normalize : jsval -> string -> js A).
Hypothesis Hnormalize : forall value f g, normalize value f ≃ normalize value g.

Lemma normalizeItems_field values f g : normalizeItems normalize values f ≃ normalizeItems normalize values g.
Proof. apply map_index_same. intros. apply Hnormalize. Qed.

Lemma normalizeItems_Ok values f l :
  normalizeItems normalize values f = Ok l <-> Forall2 (fun value x => normalize value f = Ok x) values l.
Proof.
  unfold normalizeItems. rewrite map_index_Ok by (intros; apply Hnormalize).
  split; intros HF; (eapply Forall2_impl; [exact HF|]); intros value x; apply Hnormalize.
Qed.

(** The items may come in any order. *)
Lemma normalizeItems_Permutation values values' f l : values ≡ₚ values' -> normalizeItems normalize values f = Ok l ->
  exists l', l ≡ₚ l' /\ normalizeItems normalize values' f = Ok l'.
Proof.
  setoid_rewrite normalizeItems_Ok. intros HP Hl. by eapply Forall2_Permutation_l.
Qed.
End Normalize.

Lemma sortedUnique_field normalize required values f g :
  (forall value f g, normalize value f ≃ normalize value g) ->
  sortedUnique ic normalize required values f ≃ sortedUnique ic normalize required values g.
Proof.
  intros Hn. unfold sortedUnique. apply same_results_bind; [apply boundedList_field|]. intros l.
  apply same_results_bind; [by apply normalizeItems_field|]. intros normalized. same_results.
Qed.

(** ** What is accepted *)

Lemma sortedUnique_required normalize values f l :
  sortedUnique ic normalize true values f = Ok l -> l <> [].
Proof. unfold sortedUnique. intros Hl. inv_outcome. intros Hn. by rewrite Hn in *. Qed.

Lemma boundedInteger_bounds value f low high fallback n :
  boundedInteger ic value f low high fallback = Ok n -> (low <= n <= high)%Z.
Proof.
  unfold boundedInteger, in_bounds. destruct (if nullish value then fallback else js_Number value) as [z|]; [|done].
  intros Hn. inv_outcome. split_bool; lia.
Qed.
End Fields.

#[export] Hint Resolve canonical_field identifier_field sha256_field instant_field boundedInteger_field boundedNumber_field
  boundedList_field normalizeItems_field sortedUnique_field nullable_field : same_results.

(** ** Distinct items *)

Section Distinct.
Context {A : Type} (identity : A -> string) (duplicate : string -> jserror).

Lemma distinctBy_from l : forall seen, distinctBy identity duplicate seen l = Ok tt <->
  NoDup (List.map identity l) /\ forall x, x ∈ l -> identity x ∉ seen.
Proof.
  induction l as [|x l IH]; intros seen; simpl.
  - split; [|done]. intros _. split; [constructor|]. intros x Hx. by apply not_elem_of_nil in Hx.
  - rewrite bind_Ok, NoDup_cons. setoid_rewrite throw_if_Ok. setoid_rewrite sin_false. setoid_rewrite IH.
    setoid_rewrite elem_of_cons. rewrite list_elem_of_fmap. split.
    + intros ([] & Hx & Hnd & Hl). split; [split; [|done]|].
      * intros (y & Hy & Hin). by destruct (Hl y Hin); left.
      * intros y [->|Hy]; [done|]. intros Hin. by destruct (Hl y Hy); right.
    + intros [[Hx Hnd] Hl]. exists tt. split; [by apply Hl; left|]. split; [done|].
      intros y Hy [Heq|Hin]; [|by apply (Hl y); [right|]]. apply Hx. by exists y.
Qed.

Lemma distinctBy_Ok l : distinctBy identity duplicate [] l = Ok tt <-> NoDup (List.map identity l).
Proof. rewrite distinctBy_from. split; [by intros [? _]|]. intros Hnd. split; [done|]. intros x _. apply not_elem_of_nil. Qed.
End Distinct.

(** ** Secrets *)

Section Secrets.
Context (ic : InputContract).

(** No sensitive key or text within [depth]. *)
Fixpoint insensitive (value : jsval) (depth : nat) : bool :=
  match value with
  | VStr s => negb (ic_secret ic s)
  | VArr l => match depth with 0 => true | S depth => forallb (fun item => insensitive item depth) l end
  | VObj o =>
      forallb (fun p => negb (sensitive_key ic p.1 p.2)
                        && match depth with 0 => true | S depth => insensitive p.2 depth end) o
  | _ => true
  end.

Lemma assertSensitiveFree_Ok value : forall field depth,
  assertSensitiveFree ic value field depth = Ok tt <-> insensitive value depth = true.
Proof.
  induction value as [| | | | | |l IH|o IH] using jsval_deep_ind; intros field depth; simpl; try done.
  - rewrite throw_if_Ok, negb_true_iff. done.
  - destruct depth as [|depth]; [done|]. generalize 0. induction IH as [|x l Hx _ IHl]; intros index; [done|].
    simpl. rewrite bind_Ok, andb_true_iff. specialize (IHl (S index)).
    split; [intros ([] & H1%Hx & H2%IHl); done|]. intros [H1 H2]. exists tt. split; [by apply Hx|by apply IHl].
  - induction IH as [|[key nested] o Hx _ IHo]; [done|]. simpl in *.
    rewrite bind_Ok. setoid_rewrite bind_Ok. rewrite !andb_true_iff, negb_true_iff, <- IHo.
    setoid_rewrite throw_if_Ok. destruct depth as [|depth]; split.
    + by intros ([] & Hk & [] & _ & Ho).
    + intros [[Hk _] Ho]. exists tt. split; [done|]. by exists tt.
    + intros ([] & Hk & [] & H1%Hx & Ho). done.
    + intros [[Hk H1] Ho]. exists tt. split; [done|]. exists tt. split; [by apply Hx|done].
Qed.

Lemma insensitive_Permutation l l' depth : l ≡ₚ l' -> insensitive (VArr l) depth = insensitive (VArr l') depth.
Proof. intros HP. destruct depth; simpl; [done|]. by apply forallb_Permutation. Qed.
End Secrets.

(** ** The byte bound *)

Lemma byteLength_app s t : byteLength (s +:+ t) = byteLength s + byteLength t.
Proof. induction s as [|c s IH]; simpl; [done|]. unfold String.app in *. simpl. rewrite IH. lia. Qed.

Lemma byteLength_join_Permutation l l' : l ≡ₚ l' -> byteLength (js_join "," l) = byteLength (js_join "," l').
Proof.
  assert (forall l, byteLength (js_join "," l) = sum_list_with byteLength l + (length l - 1)) as Hj.
  { induction l0 as [|x [|y l0] IH]; simpl in *; [done|lia|]. rewrite !byteLength_app, IH. simpl. lia. }
  intros HP. rewrite !Hj, (Permutation_length HP). f_equal. by induction HP; simpl; lia.
Qed.

Lemma byteLength_array_Permutation l l' : l ≡ₚ l' ->
  byteLength (JSON_stringify (VArr l)) = byteLength (JSON_stringify (VArr l')).
Proof.
  intros HP. unfold JSON_stringify. simpl. rewrite !byteLength_app.
  erewrite byteLength_join_Permutation; [done|]. by do 2 apply Permutation_map.
Qed.

(** The text of an object whose first property is a list. *)
Lemma byteLength_member_Permutation key l l' rest : l ≡ₚ l' ->
  byteLength (JSON_stringify (VObj ((key, VArr l) :: rest))) = byteLength (JSON_stringify (VObj ((key, VArr l') :: rest))).
Proof.
  intros HP. pose proof (byteLength_array_Permutation _ _ HP) as Ha. unfold JSON_stringify in *.
  cbn [json_copy json_print List.flat_map List.map List.app fst snd] in *. rewrite !byteLength_app.
  destruct (List.map _ (List.flat_map _ rest)) as [|e es]; cbn [js_join]; unfold print_entry; cbn [fst snd];
    rewrite ?byteLength_app in *; lia.
Qed.

(** The order of a list that comes first plays no part in the checks of the input. *)
Lemma checked_Permutation ic key l l' rest field depth : l ≡ₚ l' ->
  assertBoundedInput ic (VObj ((key, VArr l) :: rest)) = Ok tt ->
  assertSensitiveFree ic (VObj ((key, VArr l) :: rest)) field depth = Ok tt ->
  assertBoundedInput ic (VObj ((key, VArr l') :: rest)) = Ok tt /\
  assertSensitiveFree ic (VObj ((key, VArr l') :: rest)) field depth = Ok tt.
Proof.
  intros HP Hb Hs. split.
  - unfold assertBoundedInput in *. apply throw_if_Ok in Hb. apply throw_if_Ok.
    by rewrite <- (byteLength_member_Permutation key _ _ _ HP).
  - apply assertSensitiveFree_Ok. apply assertSensitiveFree_Ok in Hs. etransitivity; [|exact Hs].
    cbn [insensitive forallb fst snd]. f_equal. unfold sensitive_key. cbn [is_false]. f_equal.
    destruct depth; [done|]. symmetry. by apply insensitive_Permutation.
Qed.
End GrowthInput.
