(* ===== verification/PolicyCompiler.v ===== *)
(** * Growth control plane: the policy compiler
    (src/domain/growthControlPlane/growthControlPolicyCompiler.js)

    Which of the active policies match the context of an operation, and what
    they demand together: the context and the policies as they are normalised,
    the matching, the loop that collects the effects, and the decision with its
    hash.  The theorems are in PolicyDemands. *)
From S2P Require Import Prelude Sorting JsString JsDate JsValue JsJson GrowthControl GrowthConfig ActivityPack GrowthInput.
From stdpp Require Import gmap.

Module PolicyCompiler.
Import GrowthControl ActivityPack GrowthInput.

(** ** Data *)

Definition MAX_POLICY_COUNT : nat := 100.
Definition MAX_CONDITION_COUNT : nat := 25.
Definition MAX_EFFECT_COUNT : nat := 25.

Definition contract : InputContract := {|
  ic_subject := "Policy compiler input";
  ic_invalid := "GROWTH_CONTROL_POLICY_INVALID";
  ic_sensitive := "GROWTH_CONTROL_POLICY_SENSITIVE_INPUT";
  ic_oversized := "GROWTH_CONTROL_POLICY_INPUT_OVERSIZED";
  ic_bytes := MAX_INPUT_BYTES;
  ic_secret := sensitive_value;
  ic_depth := 12;
  ic_safe_flags := [];
  ic_safe_any := false;
  ic_reports_maximum := true;
|}.

Definition CONTEXT_FIELDS : list string :=
  ["tenant_id"; "workspace_id"; "brand_id"; "activity_binding_id"; "operation_key"; "capability_key"; "action_ids";
   "resource_ids"; "resource_count"; "environment"; "effect_class"; "actor_roles"; "provider_write";
   "external_write"; "budget_amount"; "concurrency"; "certification_keys"; "delegation_requested";
   "plan_hash_sha256"; "request_hash_sha256"].

Definition ENVIRONMENTS : list string := ["development"; "test"; "staging"; "canary"; "production"].

Record Context := {
  cx_tenant_id : string;
  cx_workspace_id : option string;
  cx_brand_id : option string;
  cx_activity_binding_id : option string;
  cx_operation_key : string;
  cx_capability_key : string;
  cx_action_ids : list string;
  cx_resource_ids : list string;
  cx_resource_count : Z;
  cx_environment : string;
  cx_effect_class : string;
  cx_actor_roles : list string;
  cx_provider_write : bool;
  cx_external_write : bool;
  cx_budget_amount : Z;
  cx_concurrency : Z;
  cx_certification_keys : list string;
  cx_delegation_requested : bool;
  cx_plan_hash_sha256 : option string;
  cx_request_hash_sha256 : option string;
}.

(** The operator of a condition with its value. *)
Inductive Test :=
| equals (expected : jsval)
| not_equals (expected : jsval)
| is_in (expected : list jsval)
| not_in (expected : list jsval)
| exists_ (expected : bool)
| less_than (expected : Z)
| less_than_or_equal (expected : Z)
| greater_than (expected : Z)
| greater_than_or_equal (expected : Z)
| contains_all (expected : list jsval).

Record Condition := { cd_field : string; cd_test : Test }.

Record ApprovalProfile := {
  ap_required_roles : list string;
  ap_separation_of_duties : bool;
  ap_expires_in_seconds : Z;
  ap_delegation_allowed : bool;
  ap_max_resource_count : Z;
}.

Inductive EffectKind :=
| require_approval (profile : ApprovalProfile)
| require_typed_confirmation (confirmation_key : string)
| require_resource_authority (authority_keys : list string)
| require_certification (certification_keys : list string)
| require_readback (readback_keys : list string)
| require_rollback (rollback_keys : list string)
| limit_resources (maximum : Z)
| limit_concurrency (maximum : Z)
| limit_budget (maximum : Z)
| force_environment (environment : string)
| force_provider_write_false
| deny.

Record Effect := { ef_kind : EffectKind; ef_reason_code : option string }.

Record Policy := {
  pl_policy_key : string;
  pl_policy_version_id : string;
  pl_version : Z;
  pl_priority : Z;
  pl_conditions : list Condition;
  pl_effects : list Effect;
}.

(** The strictest profile of the matched policies; the scope it adds is that
    of the context. *)
Inductive Requirement :=
| rq_force_provider_write_false
| rq_force_environment (environment : string) (priority : Z)
| rq_limit_resources (maximum : Z)
| rq_limit_concurrency (maximum : Z)
| rq_limit_budget (maximum : Z)
| rq_resource_authority (keys : list string)
| rq_certification (keys : list string)
| rq_approval (profile : ApprovalProfile) (environment : string)
| rq_typed_confirmation (keys : list string)
| rq_readback (keys : list string)
| rq_rollback (keys : list string).

Record Denial := { dn_policy_key : string; dn_policy_version_id : string; dn_reason_code : option string }.

Record Decision := {
  dc_decision : string;
  dc_requirements : list Requirement;
  dc_denials : list Denial;
  dc_matched : list Policy;
  dc_reason_codes : list string;
  dc_context_sha256 : string;
}.

(** A row of [effectRows]. *)
Abbreviation Row := (Policy * Effect)%type.

Section Compiler.
Context `{JsHost}.

(** ** The context *)

Definition context_invalid (message field name : string) (extra : jsobj) : jserror :=
  fail "GROWTH_CONTROL_POLICY_CONTEXT_INVALID" message field name extra.

(** [context.resource_count], which may only repeat the number of resources. *)
Definition resourceCount (value : jsval) (resourceIds : list string) : js Z :=
  let expected := Z.of_nat (length resourceIds) in
  count ← (if nullish value then Ok expected
           else boundedInteger contract value "context.resource_count" 0 10000 None);
  throw_if (negb (Z.eqb count expected))
    (context_invalid "context.resource_count must equal the canonical resource_ids count." "context.resource_count"
       "count_mismatch" [("expected", VNum (Some expected)); ("observed", VNum (Some count))]);;
  Ok count.

Definition normalizeContext (source : jsval) : js Context :=
  throw_if (negb (is_record source))
    (context_invalid "context must be an object." "context" "invalid_type" []);;
  let unknown := bfilter (fun field => negb (sin field CONTEXT_FIELDS)) (List.map fst (spread source)) in
  throw_if (0 <? length unknown)
    (context_invalid "context contains unsupported fields." "context" "unknown_fields"
       [("fields", VArr (List.map VStr (sort_strings unknown)))]);;
  let get := vget source in
  let key := fun field => canonical contract (get field) ("context." +:+ field) in
  let id := fun field => nullable (identifier contract) (get field) ("context." +:+ field) in
  let hash := fun field => nullable (sha256 contract) (get field) ("context." +:+ field) in
  resourceIds ← sortedUnique contract (identifier contract) false (get "resource_ids") "context.resource_ids";
  actionIds ← sortedUnique contract (canonical contract) false (get "action_ids") "context.action_ids";
  count ← resourceCount (get "resource_count") resourceIds;
  environment ← canonical contract (js_coalesce (get "environment") (VStr "development")) "context.environment";
  throw_if (negb (sin environment ENVIRONMENTS))
    (context_invalid "context.environment is unsupported." "context.environment" "unsupported_environment" []);;
  tenantId ← identifier contract (get "tenant_id") "context.tenant_id";
  workspaceId ← id "workspace_id";
  brandId ← id "brand_id";
  activityBindingId ← id "activity_binding_id";
  operationKey ← key "operation_key";
  capabilityKey ← key "capability_key";
  effectClass ← canonical contract (js_coalesce (get "effect_class") (VStr "no_effect")) "context.effect_class";
  actorRoles ← sortedUnique contract (canonical contract) false (get "actor_roles") "context.actor_roles";
  budgetAmount ← (if nullish (get "budget_amount") then Ok 0%Z
                  else boundedNumber contract (get "budget_amount") "context.budget_amount" 0 1000000000);
  concurrency ← (if nullish (get "concurrency") then Ok 1%Z
                 else boundedInteger contract (get "concurrency") "context.concurrency" 1 1000 None);
  certificationKeys ← sortedUnique contract (canonical contract) false (get "certification_keys")
                        "context.certification_keys";
  planHash ← hash "plan_hash_sha256";
  requestHash ← hash "request_hash_sha256";
  Ok {| cx_tenant_id := tenantId; cx_workspace_id := workspaceId; cx_brand_id := brandId;
        cx_activity_binding_id := activityBindingId; cx_operation_key := operationKey;
        cx_capability_key := capabilityKey; cx_action_ids := actionIds; cx_resource_ids := resourceIds;
        cx_resource_count := count; cx_environment := environment; cx_effect_class := effectClass;
        cx_actor_roles := actorRoles; cx_provider_write := is_true (get "provider_write");
        cx_external_write := is_true (get "external_write"); cx_budget_amount := budgetAmount;
        cx_concurrency := concurrency; cx_certification_keys := certificationKeys;
        cx_delegation_requested := is_true (get "delegation_requested"); cx_plan_hash_sha256 := planHash;
        cx_request_hash_sha256 := requestHash |}.

Definition js_strings (l : list string) : jsval := VArr (List.map VStr l).
Definition js_int (z : Z) : jsval := VNum (Some z).

(** The context as the object the conditions read and the hash covers. *)
Definition context_fields (c : Context) : jsobj :=
  [("tenant_id", VStr (cx_tenant_id c)); ("workspace_id", js_of_optional (cx_workspace_id c));
   ("brand_id", js_of_optional (cx_brand_id c)); ("activity_binding_id", js_of_optional (cx_activity_binding_id c));
   ("operation_key", VStr (cx_operation_key c)); ("capability_key", VStr (cx_capability_key c));
   ("action_ids", js_strings (cx_action_ids c)); ("resource_ids", js_strings (cx_resource_ids c));
   ("resource_count", js_int (cx_resource_count c)); ("environment", VStr (cx_environment c));
   ("effect_class", VStr (cx_effect_class c)); ("actor_roles", js_strings (cx_actor_roles c));
   ("provider_write", VBool (cx_provider_write c)); ("external_write", VBool (cx_external_write c));
   ("budget_amount", js_int (cx_budget_amount c)); ("concurrency", js_int (cx_concurrency c));
   ("certification_keys", js_strings (cx_certification_keys c));
   ("delegation_requested", VBool (cx_delegation_requested c));
   ("plan_hash_sha256", js_of_optional (cx_plan_hash_sha256 c));
   ("request_hash_sha256", js_of_optional (cx_request_hash_sha256 c))].

(** ** Conditions *)

Definition condition_invalid (message field name : string) : jserror :=
  fail "GROWTH_CONTROL_POLICY_CONDITION_INVALID" (field +:+ message) field name [].

(** The values of [new Set(l)], which compares with [SameValueZero]. *)
Definition same_value (a b : jsval) : bool :=
  match a, b with VNum None, VNum None => true | _, _ => strict_equal a b end.

Fixpoint dedup_values (seen l : list jsval) : list jsval :=
  match l with
  | [] => []
  | x :: rest => if existsb (same_value x) seen then dedup_values seen rest else x :: dedup_values (x :: seen) rest
  end.

(** [l.sort()] *)
Definition text_compare (a b : jsval) : comparison := String.compare (js_String a) (js_String b).

(** A text of at most 191 characters. *)
Definition shortText (s field : string) : js string :=
  throw_if (is_empty s || (191 <? String.length s)) (condition_invalid " is invalid." field "invalid_value");;
  Ok s.

Definition candidateValue (candidate : jsval) (field : string) : js jsval :=
  match candidate with
  | VNum _ | VBool _ => Ok candidate
  | _ => s ← shortText (js_trim (str_coalesce candidate)) field; Ok (VStr s)
  end.

Definition candidateValues (value : jsval) (field : string) : js (list jsval) :=
  items ← boundedList contract value field MAX_LIST_ITEMS;
  normalized ← normalizeItems candidateValue items field;
  Ok (js_sort text_compare (dedup_values [] normalized)).

Definition scalarValue (value : jsval) (field : string) : js jsval :=
  match value with
  | VStr s => t ← shortText (js_trim s) field; Ok (VStr t)
  | VNum _ | VBool _ | VNull => Ok value
  | _ => Throw (condition_invalid " must be scalar." field "invalid_scalar")
  end.

Definition boundValue (value : jsval) (field : string) : js Z :=
  boundedNumber contract value field (-1000000000) 1000000000.

(** The value of each operator; an operator that is not listed is refused. *)
Definition normalizeTest (operator : string) (value : jsval) (field : string) : js Test :=
  let at_value := field +:+ ".value" in
  if String.eqb operator "equals" then v ← scalarValue value at_value; Ok (equals v)
  else if String.eqb operator "not_equals" then v ← scalarValue value at_value; Ok (not_equals v)
  else if String.eqb operator "in" then l ← candidateValues value at_value; Ok (is_in l)
  else if String.eqb operator "not_in" then l ← candidateValues value at_value; Ok (not_in l)
  else if String.eqb operator "exists" then Ok (exists_ (negb (is_false value)))
  else if String.eqb operator "less_than" then z ← boundValue value at_value; Ok (less_than z)
  else if String.eqb operator "less_than_or_equal" then z ← boundValue value at_value; Ok (less_than_or_equal z)
  else if String.eqb operator "greater_than" then z ← boundValue value at_value; Ok (greater_than z)
  else if String.eqb operator "greater_than_or_equal" then z ← boundValue value at_value; Ok (greater_than_or_equal z)
  else if String.eqb operator "contains_all" then l ← candidateValues value at_value; Ok (contains_all l)
  else Throw (fail "GROWTH_CONTROL_POLICY_CONDITION_INVALID" (field +:+ ".operator is unsupported.")
                (field +:+ ".operator") "unsupported_operator" []).

Definition normalizeCondition (source : jsval) (field : string) : js Condition :=
  throw_if (negb (is_record source)) (condition_invalid " must be an object." field "invalid_type");;
  let contextField := js_trim (str_coalesce (vget source "field")) in
  throw_if (negb (sin contextField CONTEXT_FIELDS))
    (condition_invalid " is unsupported." (field +:+ ".field") "unsupported_context_field");;
  let operator := js_toLowerCase (js_trim (str_coalesce (vget source "operator"))) in
  test ← normalizeTest operator (vget source "value") field;
  Ok {| cd_field := contextField; cd_test := test |}.

(** ** Effects *)

Definition effect_invalid (message field name : string) : jserror :=
  fail "GROWTH_CONTROL_POLICY_EFFECT_INVALID" (field +:+ message) field name [].

Definition keysOf (value : jsval) (field : string) : js (list string) :=
  sortedUnique contract (canonical contract) true value field.

Definition normalizeApprovalProfile (source : jsval) (field : string) : js ApprovalProfile :=
  let profile := if nullish source then VObj [] else source in
  throw_if (negb (is_record profile)) (effect_invalid " must be an object." field "invalid_type");;
  requiredRoles ← keysOf (js_coalesce (vget profile "required_roles") (VArr [VStr "supervisor"]))
                    (field +:+ ".required_roles");
  expiresInSeconds ← boundedInteger contract (vget profile "expires_in_seconds") (field +:+ ".expires_in_seconds")
                       300 604800 (Some 3600%Z);
  maxResourceCount ← boundedInteger contract (vget profile "max_resource_count") (field +:+ ".max_resource_count")
                       1 10000 (Some 10000%Z);
  Ok {| ap_required_roles := requiredRoles;
        ap_separation_of_duties := is_true (vget profile "separation_of_duties");
        ap_expires_in_seconds := expiresInSeconds;
        ap_delegation_allowed := is_true (vget profile "delegation_allowed");
        ap_max_resource_count := maxResourceCount |}.

(** [switch (type)] *)
Definition normalizeKind (type : string) (source : jsval) (field : string) : js EffectKind :=
  let get := vget source in
  let at_ := fun name => field +:+ "." +:+ name in
  let maximum := fun low high => boundedInteger contract (get "maximum") (at_ "maximum") low high None in
  if String.eqb type "require_approval" then
    p ← normalizeApprovalProfile (get "profile") (at_ "profile"); Ok (require_approval p)
  else if String.eqb type "require_typed_confirmation" then
    k ← canonical contract (js_coalesce (get "confirmation_key") (VStr "confirmation.required"))
          (at_ "confirmation_key");
    Ok (require_typed_confirmation k)
  else if String.eqb type "require_resource_authority" then
    l ← keysOf (js_coalesce (get "authority_keys") (VArr [VStr "resource.authority"])) (at_ "authority_keys");
    Ok (require_resource_authority l)
  else if String.eqb type "require_certification" then
    l ← keysOf (get "certification_keys") (at_ "certification_keys"); Ok (require_certification l)
  else if String.eqb type "require_readback" then
    l ← keysOf (js_coalesce (get "readback_keys") (VArr [VStr "mutation.readback"])) (at_ "readback_keys");
    Ok (require_readback l)
  else if String.eqb type "require_rollback" then
    l ← keysOf (js_coalesce (get "rollback_keys") (VArr [VStr "mutation.rollback"])) (at_ "rollback_keys");
    Ok (require_rollback l)
  else if String.eqb type "limit_resources" then m ← maximum 0%Z 10000%Z; Ok (limit_resources m)
  else if String.eqb type "limit_concurrency" then m ← maximum 1%Z 1000%Z; Ok (limit_concurrency m)
  else if String.eqb type "limit_budget" then
    m ← boundedNumber contract (get "maximum") (at_ "maximum") 0 1000000000; Ok (limit_budget m)
  else if String.eqb type "force_environment" then
    environment ← canonical contract (get "environment") (at_ "environment");
    throw_if (negb (sin environment ENVIRONMENTS))
      (effect_invalid " is unsupported." (at_ "environment") "unsupported_environment");;
    Ok (force_environment environment)
  else if String.eqb type "force_provider_write_false" then Ok force_provider_write_false
  else Ok deny.

Definition POLICY_EFFECTS : list string :=
  ["require_approval"; "require_typed_confirmation"; "require_resource_authority"; "require_certification";
   "require_readback"; "require_rollback"; "limit_resources"; "limit_concurrency"; "limit_budget";
   "force_environment"; "force_provider_write_false"; "deny"].

Definition normalizeEffect (source : jsval) (field : string) : js Effect :=
  throw_if (negb (is_record source)) (effect_invalid " must be an object." field "invalid_type");;
  let type := js_toLowerCase (js_trim (str_coalesce (either source "type" "effect"))) in
  throw_if (negb (sin type POLICY_EFFECTS))
    (effect_invalid " is unsupported." (field +:+ ".type") "unsupported_effect");;
  reasonCode ← (if nullish (vget source "reason_code") then Ok None
                else r ← canonical contract (vget source "reason_code") (field +:+ ".reason_code"); Ok (Some r));
  kind ← normalizeKind type source field;
  Ok {| ef_kind := kind;
        ef_reason_code := match kind, reasonCode with deny, None => Some "policy.denied" | _, r => r end |}.

(** ** Policies *)

Definition policy_list (value : jsval) (field : string) (nonempty : bool) (maximum : nat) (message : string)
    : js (list jsval) :=
  match value with
  | VArr l =>
      throw_if ((nonempty && (length l =? 0)) || (maximum <? length l))
        (fail "GROWTH_CONTROL_POLICY_INVALID" (field +:+ message) field "invalid_or_oversized_array" []);;
      Ok l
  | _ => Throw (fail "GROWTH_CONTROL_POLICY_INVALID" (field +:+ message) field "invalid_or_oversized_array" [])
  end.

Definition normalizePolicy (source : jsval) (field : string) : js Policy :=
  throw_if (negb (is_record source)) (invalid contract " must be an object." field "invalid_type" []);;
  throw_if (negb (is_true (vget source "immutable"))
            || negb (String.eqb (js_String (js_coalesce (vget source "status") (VStr "active"))) "active"))
    (fail "GROWTH_CONTROL_POLICY_VERSION_INVALID" "Only immutable active policy versions may be compiled." field
       "version_not_active_immutable" []);;
  conditions ← policy_list (js_coalesce (vget source "conditions") (VArr [])) (field +:+ ".conditions") false
                 MAX_CONDITION_COUNT " exceeds the supported bound.";
  effects ← policy_list (js_coalesce (vget source "effects") (VArr [])) (field +:+ ".effects") true
              MAX_EFFECT_COUNT " must be a non-empty bounded array.";
  policyKey ← canonical contract (vget source "policy_key") (field +:+ ".policy_key");
  policyVersionId ← identifier contract (vget source "policy_version_id") (field +:+ ".policy_version_id");
  version ← boundedInteger contract (vget source "version") (field +:+ ".version") 1 1000000 None;
  priority ← boundedInteger contract (vget source "priority") (field +:+ ".priority") 0 10000 (Some 0%Z);
  normalizedConditions ← normalizeItems normalizeCondition conditions (field +:+ ".conditions");
  normalizedEffects ← normalizeItems normalizeEffect effects (field +:+ ".effects");
  Ok {| pl_policy_key := policyKey; pl_policy_version_id := policyVersionId; pl_version := version;
        pl_priority := priority; pl_conditions := normalizedConditions; pl_effects := normalizedEffects |}.

(** ** Matching *)

Definition stableEqual (left right : jsval) : bool := String.eqb (stableSha256 left) (stableSha256 right).

(** [Number(actual) op expected] *)
Definition number_test (op : Z -> Z -> bool) (actual : jsval) (expected : Z) : bool :=
  match js_Number actual with Some n => op n expected | None => false end.

Definition conditionMatches (condition : Condition) (context : Context) : bool :=
  let actual := oget (context_fields context) (cd_field condition) in
  match cd_test condition with
  | equals expected => stableEqual actual expected
  | not_equals expected => negb (stableEqual actual expected)
  | is_in expected => existsb (fun candidate => stableEqual candidate actual) expected
  | not_in expected => forallb (fun candidate => negb (stableEqual candidate actual)) expected
  | exists_ expected => if expected then negb (nullish actual) else nullish actual
  | less_than expected => number_test Z.ltb actual expected
  | less_than_or_equal expected => number_test Z.leb actual expected
  | greater_than expected => number_test Z.gtb actual expected
  | greater_than_or_equal expected => number_test Z.geb actual expected
  | contains_all expected =>
      match actual with
      | VArr items => forallb (fun candidate => existsb (fun item => stableEqual item candidate) items) expected
      | _ => false
      end
  end.

Definition policyMatches (policy : Policy) (context : Context) : bool :=
  forallb (fun condition => conditionMatches condition context) (pl_conditions policy).

(** ** Requirements *)

(** The sets and the limits of the loop over the rows. *)
Inductive SetName :=
| reasonCodes | approvalRoles | confirmationKeys | authorityKeys | certificationKeys | readbackKeys | rollbackKeys.

Inductive LimitName := resourceLimit | concurrencyLimit | budgetLimit.

#[export] Instance set_name_eq_dec : EqDecision SetName.
Proof. solve_decision. Defined.
#[export] Instance limit_name_eq_dec : EqDecision LimitName.
Proof. solve_decision. Defined.

(** The variables of the loop; a set that is only read sorted is a [gset]. *)
Record Collected := {
  co_sets : SetName -> gset string;
  co_limits : LimitName -> option Z;
  co_denials : list Denial;
  co_approvalRequired : bool;
  co_separationOfDuties : bool;
  co_approvalExpiry : Z;
  co_delegationAllowed : bool;
  co_approvalMaxResourceCount : Z;
  co_forceProviderWriteFalse : bool;
}.

Definition nothing_collected : Collected := {|
  co_sets := fun _ => ∅; co_limits := fun _ => None; co_denials := []; co_approvalRequired := false;
  co_separationOfDuties := false; co_approvalExpiry := 604800; co_delegationAllowed := true;
  co_approvalMaxResourceCount := 10000; co_forceProviderWriteFalse := false |}.

(** [addAll(target, values)] *)
Definition addAll (target : SetName) (values : list string) (c : Collected) : Collected :=
  {| co_sets := fun name => if decide (name = target) then co_sets c name ∪ list_to_set values else co_sets c name;
     co_limits := co_limits c; co_denials := co_denials c; co_approvalRequired := co_approvalRequired c;
     co_separationOfDuties := co_separationOfDuties c; co_approvalExpiry := co_approvalExpiry c;
     co_delegationAllowed := co_delegationAllowed c;
     co_approvalMaxResourceCount := co_approvalMaxResourceCount c;
     co_forceProviderWriteFalse := co_forceProviderWriteFalse c |}.

(** [limit = limit == null ? maximum : Math.min(limit, maximum)] *)
Definition tighten (target : LimitName) (maximum : Z) (c : Collected) : Collected :=
  {| co_sets := co_sets c;
     co_limits := fun name =>
       if decide (name = target)
       then Some (match co_limits c name with None => maximum | Some limit => Z.min limit maximum end)
       else co_limits c name;
     co_denials := co_denials c; co_approvalRequired := co_approvalRequired c;
     co_separationOfDuties := co_separationOfDuties c; co_approvalExpiry := co_approvalExpiry c;
     co_delegationAllowed := co_delegationAllowed c;
     co_approvalMaxResourceCount := co_approvalMaxResourceCount c;
     co_forceProviderWriteFalse := co_forceProviderWriteFalse c |}.

(** The assignments of [case "require_approval"] but that of the roles. *)
Definition approve (profile : ApprovalProfile) (c : Collected) : Collected :=
  {| co_sets := co_sets c; co_limits := co_limits c; co_denials := co_denials c; co_approvalRequired := true;
     co_separationOfDuties := co_separationOfDuties c || ap_separation_of_duties profile;
     co_approvalExpiry := Z.min (co_approvalExpiry c) (ap_expires_in_seconds profile);
     co_delegationAllowed := co_delegationAllowed c && ap_delegation_allowed profile;
     co_approvalMaxResourceCount := Z.min (co_approvalMaxResourceCount c) (ap_max_resource_count profile);
     co_forceProviderWriteFalse := co_forceProviderWriteFalse c |}.

Definition with_denials (denials : list Denial) (c : Collected) : Collected :=
  {| co_sets := co_sets c; co_limits := co_limits c; co_denials := denials;
     co_approvalRequired := co_approvalRequired c; co_separationOfDuties := co_separationOfDuties c;
     co_approvalExpiry := co_approvalExpiry c; co_delegationAllowed := co_delegationAllowed c;
     co_approvalMaxResourceCount := co_approvalMaxResourceCount c;
     co_forceProviderWriteFalse := co_forceProviderWriteFalse c |}.

Definition with_force (force : bool) (c : Collected) : Collected :=
  {| co_sets := co_sets c; co_limits := co_limits c; co_denials := co_denials c;
     co_approvalRequired := co_approvalRequired c; co_separationOfDuties := co_separationOfDuties c;
     co_approvalExpiry := co_approvalExpiry c; co_delegationAllowed := co_delegationAllowed c;
     co_approvalMaxResourceCount := co_approvalMaxResourceCount c; co_forceProviderWriteFalse := force |}.

Definition denial (policy : Policy) (effect : Effect) : Denial :=
  {| dn_policy_key := pl_policy_key policy; dn_policy_version_id := pl_policy_version_id policy;
     dn_reason_code := ef_reason_code effect |}.

(** One iteration. *)
Definition collect (c : Collected) (row : Row) : Collected :=
  let '(policy, effect) := row in
  let c := match ef_reason_code effect with Some r => addAll reasonCodes [r] c | None => c end in
  match ef_kind effect with
  | deny => with_denials (co_denials c ++ [denial policy effect]) c
  | require_approval p => addAll approvalRoles (ap_required_roles p) (approve p c)
  | require_typed_confirmation k => addAll confirmationKeys [k] c
  | require_resource_authority l => addAll authorityKeys l c
  | require_certification l => addAll certificationKeys l c
  | require_readback l => addAll readbackKeys l c
  | require_rollback l => addAll rollbackKeys l c
  | limit_resources maximum => tighten resourceLimit maximum c
  | limit_concurrency maximum => tighten concurrencyLimit maximum c
  | limit_budget maximum => tighten budgetLimit maximum c
  | force_provider_write_false => with_force true c
  | force_environment _ => c
  end.

(** [[...set].sort()] *)
Definition sorted (s : gset string) : list string := sort_strings (elements s).

Definition forcedOf (row : Row) : option (Z * string) :=
  match ef_kind row.2 with force_environment e => Some (pl_priority row.1, e) | _ => None end.

(** [Math.max(...)] *)
Definition maximumOf (z : Z) (l : list Z) : Z := fold_left Z.max l z.

Definition resolveForcedEnvironment (rows : list Row) : js (option (string * Z)) :=
  match omap forcedOf rows with
  | [] => Ok None
  | ((priority, _) :: rest) as candidates =>
      let highestPriority := maximumOf priority (List.map fst rest) in
      match unique_sorted (List.map snd (bfilter (fun p => Z.eqb p.1 highestPriority) candidates)) with
      | [environment] => Ok (Some (environment, highestPriority))
      | values =>
          Throw (fail "POLICY_AMBIGUOUS" "Equal-priority policies force contradictory environments."
            "policies.effects.force_environment" "equal_priority_conflict"
            [("priority", js_int highestPriority); ("values", js_strings values)])
      end
  end.

(** [REQUIREMENT_ORDER] *)
Definition requirementOrder (r : Requirement) : Z :=
  match r with
  | rq_force_provider_write_false => 0
  | rq_force_environment _ _ => 1
  | rq_limit_resources _ => 2
  | rq_limit_concurrency _ => 3
  | rq_limit_budget _ => 4
  | rq_resource_authority _ => 5
  | rq_certification _ => 6
  | rq_approval _ _ => 7
  | rq_typed_confirmation _ => 8
  | rq_readback _ => 9
  | rq_rollback _ => 10
  end.

Definition requirement_compare (a b : Requirement) : comparison := Z.compare (requirementOrder a) (requirementOrder b).

Definition denial_compare (a b : Denial) : comparison :=
  cmp_or (locale_compare (dn_policy_key a) (dn_policy_key b))
    (locale_compare (dn_policy_version_id a) (dn_policy_version_id b)).

(** What each [if] of the pushes adds to [requirements]. *)
Definition demand_keys (s : gset string) (requirement : list string -> Requirement) : option Requirement :=
  if decide (s = ∅) then None else Some (requirement (sorted s)).

Definition requirementSlots (c : Collected) (forcedEnvironment : option (string * Z)) (context : Context)
    : list (option Requirement) :=
    [if co_forceProviderWriteFalse c then Some rq_force_provider_write_false else None;
     (fun f => rq_force_environment f.1 f.2) <$> forcedEnvironment;
     rq_limit_resources <$> co_limits c resourceLimit;
     rq_limit_concurrency <$> co_limits c concurrencyLimit;
     rq_limit_budget <$> co_limits c budgetLimit;
     demand_keys (co_sets c authorityKeys) rq_resource_authority;
     demand_keys (co_sets c certificationKeys) rq_certification;
     (if co_approvalRequired c
      then Some (rq_approval
        {| ap_required_roles := sorted (co_sets c approvalRoles);
           ap_separation_of_duties := co_separationOfDuties c;
           ap_expires_in_seconds := co_approvalExpiry c;
           ap_delegation_allowed := co_delegationAllowed c;
           ap_max_resource_count := co_approvalMaxResourceCount c |}
        (match forcedEnvironment with Some f => f.1 | None => cx_environment context end))
      else None);
     demand_keys (co_sets c confirmationKeys) rq_typed_confirmation;
     demand_keys (co_sets c readbackKeys) rq_readback;
     demand_keys (co_sets c rollbackKeys) rq_rollback].

Definition pushRequirements (c : Collected) (forcedEnvironment : option (string * Z)) (context : Context)
    : list Requirement :=
  omap id (requirementSlots c forcedEnvironment context).

(** [matched.flatMap(...)] *)
Definition effectRows (matched : list Policy) : list Row :=
  List.flat_map (fun policy => List.map (fun effect => (policy, effect)) (pl_effects policy)) matched.

Definition compileRequirements (matched : list Policy) (context : Context)
    : js (list Requirement * list Denial * list string) :=
  let rows := effectRows matched in
  let c := fold_left collect rows nothing_collected in
  forcedEnvironment ← resolveForcedEnvironment rows;
  Ok (js_sort requirement_compare (pushRequirements c forcedEnvironment context),
      js_sort denial_compare (co_denials c), sorted (co_sets c reasonCodes)).

(** ** The decision *)

Definition profile_value (p : ApprovalProfile) (environment : string) (c : Context) : jsval := VObj
  [("required_roles", js_strings (ap_required_roles p)); ("separation_of_duties", VBool (ap_separation_of_duties p));
   ("expires_in_seconds", js_int (ap_expires_in_seconds p));
   ("delegation_allowed", VBool (ap_delegation_allowed p));
   ("max_resource_count", js_int (ap_max_resource_count p));
   ("target_scope", VObj
     [("tenant_id", VStr (cx_tenant_id c)); ("workspace_id", js_of_optional (cx_workspace_id c));
      ("brand_id", js_of_optional (cx_brand_id c));
      ("activity_binding_id", js_of_optional (cx_activity_binding_id c))]);
   ("action_ids", js_strings (cx_action_ids c)); ("resource_ids", js_strings (cx_resource_ids c));
   ("resource_count", js_int (cx_resource_count c)); ("environment", VStr environment);
   ("effect_class", VStr (cx_effect_class c)); ("plan_hash_sha256", js_of_optional (cx_plan_hash_sha256 c));
   ("request_hash_sha256", js_of_optional (cx_request_hash_sha256 c)); ("provider_write_allowed", VBool false);
   ("grants_authority", VBool false)].

Definition requirement_value (c : Context) (r : Requirement) : jsval :=
  let typed := fun type rest => VObj (("type", VStr type) :: rest) in
  match r with
  | rq_force_provider_write_false => typed "force_provider_write_false" [("required", VBool true)]
  | rq_force_environment e priority =>
      typed "force_environment" [("environment", VStr e); ("priority", js_int priority)]
  | rq_limit_resources m => typed "limit_resources" [("maximum", js_int m)]
  | rq_limit_concurrency m => typed "limit_concurrency" [("maximum", js_int m)]
  | rq_limit_budget m => typed "limit_budget" [("maximum", js_int m)]
  | rq_resource_authority l => typed "require_resource_authority" [("authority_keys", js_strings l)]
  | rq_certification l => typed "require_certification" [("certification_keys", js_strings l)]
  | rq_approval p e => typed "require_approval" [("approval_profile", profile_value p e c)]
  | rq_typed_confirmation l => typed "require_typed_confirmation" [("confirmation_keys", js_strings l)]
  | rq_readback l => typed "require_readback" [("readback_keys", js_strings l)]
  | rq_rollback l => typed "require_rollback" [("rollback_keys", js_strings l)]
  end.

(** [withoutHash] *)
Definition js_of_decision (d : Decision) (context : Context) : jsval := VObj
  [("contract_version", VStr "growth-control-policy-decision-v1"); ("decision", VStr (dc_decision d));
   ("requirements", VArr (List.map (requirement_value context) (dc_requirements d)));
   ("denials", VArr (List.map (fun x => VObj
     [("policy_key", VStr (dn_policy_key x)); ("policy_version_id", VStr (dn_policy_version_id x));
      ("reason_code", js_of_optional (dn_reason_code x))]) (dc_denials d)));
   ("matched_policy_versions", VArr (List.map (fun p => VObj
     [("policy_key", VStr (pl_policy_key p)); ("policy_version_id", VStr (pl_policy_version_id p));
      ("version", js_int (pl_version p)); ("priority", js_int (pl_priority p))]) (dc_matched d)));
   ("reason_codes", js_strings (dc_reason_codes d)); ("context_sha256", VStr (dc_context_sha256 d));
   ("grants_authority", VBool false); ("provider_calls", VBool false); ("provider_dispatch_allowed", VBool false);
   ("provider_apply_allowed", VBool false); ("external_writes", VBool false); ("secrets_included", VBool false)].

(** [`${policy.policy_key}:${policy.policy_version_id}`] *)
Definition identity (p : Policy) : string := pl_policy_key p +:+ ":" +:+ pl_policy_version_id p.

Definition distinctIdentities (policies : list Policy) : js unit :=
  distinctBy identity (fun name =>
    fail "GROWTH_CONTROL_POLICY_VERSION_INVALID" "Duplicate policy-version identity is forbidden." "policies"
      "duplicate_policy_version" [("identity", VStr name)]) [] policies.

Definition policy_compare (a b : Policy) : comparison :=
  cmp_or (Z.compare (pl_priority b) (pl_priority a))
    (cmp_or (locale_compare (pl_policy_key a) (pl_policy_key b))
       (locale_compare (pl_policy_version_id a) (pl_policy_version_id b))).

Definition decide_policies (policies : list Policy) (context : Context) : js Decision :=
  let matched := js_sort policy_compare (bfilter (fun p => policyMatches p context) policies) in
  '(requirements, denials, codes) ← compileRequirements matched context;
  Ok {| dc_decision := if 0 <? length denials then "deny"
                       else if 0 <? length requirements then "allow_with_requirements" else "allow";
        dc_requirements := requirements; dc_denials := denials; dc_matched := matched; dc_reason_codes := codes;
        dc_context_sha256 := stableSha256 (VObj (context_fields context)) |}.

(** The decision with its hash. *)
Definition compileGrowthControlPolicyDecision (args : jsobj) : js (Decision * string) :=
  let policies := oget_default args "policies" (VArr []) in
  let contextInput := oget_default args "context" (VObj []) in
  let input := VObj [("policies", policies); ("context", contextInput)] in
  assertBoundedInput contract input;;
  assertSensitiveFree contract input "input" (ic_depth contract);;
  match policies with
  | VArr l =>
      throw_if (MAX_POLICY_COUNT <? length l)
        (fail "GROWTH_CONTROL_POLICY_INPUT_INVALID" "policies must be a bounded array." "policies"
           "invalid_or_oversized_array" [("maximum", js_int 100)]);;
      context ← normalizeContext contextInput;
      normalizedPolicies ← normalizeItems normalizePolicy l "policies";
      distinctIdentities normalizedPolicies;;
      d ← decide_policies normalizedPolicies context;
      Ok (d, stableSha256 (js_of_decision d context))
  | _ => Throw (fail "GROWTH_CONTROL_POLICY_INPUT_INVALID" "policies must be a bounded array." "policies"
             "invalid_or_oversized_array" [("maximum", js_int 100)])
  end.
End Compiler.
End PolicyCompiler.
