(* ===== verification/PolicyDemands.v ===== *)
(** * Growth control plane: what the policies demand

    The theorems on PolicyCompiler.  Proved: the decision is the strictest
    reading of the matched policies (any denial denies, every limit is the least
    one, every set of keys the union), and it does not depend on the order in
    which the policies are listed. *)
From S2P Require Import Prelude Sorting JsString JsDate JsValue JsJson GrowthControl GrowthConfig ActivityPack GrowthInput PolicyCompiler.
From stdpp Require Import gmap.

Module PolicyDemands.
Import GrowthControl ActivityPack GrowthInput PolicyCompiler.

(** ** What the loop collects *)

(** The texts that a row adds to a set. *)
Definition row_keys (name : SetName) (row : Row) : list string :=
  match name, ef_kind row.2 with
  | reasonCodes, _ => option_list (ef_reason_code row.2)
  | approvalRoles, require_approval p => ap_required_roles p
  | confirmationKeys, require_typed_confirmation k => [k]
  | authorityKeys, require_resource_authority l
  | certificationKeys, require_certification l
  | readbackKeys, require_readback l
  | rollbackKeys, require_rollback l => l
  | _, _ => []
  end.

Definition row_limit (name : LimitName) (row : Row) : option Z :=
  match name, ef_kind row.2 with
  | resourceLimit, limit_resources m
  | concurrencyLimit, limit_concurrency m
  | budgetLimit, limit_budget m => Some m
  | _, _ => None
  end.

Definition row_profile (row : Row) : option ApprovalProfile :=
  match ef_kind row.2 with require_approval p => Some p | _ => None end.

Definition row_denial (row : Row) : option Denial :=
  match ef_kind row.2 with deny => Some (denial row.1 row.2) | _ => None end.

Definition row_force (row : Row) : bool :=
  match ef_kind row.2 with force_provider_write_false => true | _ => false end.

(** [m] is the least of the numbers in [P]. *)
Definition least (P : Z -> Prop) (m : Z) : Prop := P m /\ forall x, P x -> (m <= x)%Z.

Lemma least_unique P m n : least P m -> least P n -> m = n.
Proof. intros [Hm Hm'] [Hn Hn']. specialize (Hm' n Hn). specialize (Hn' m Hm). lia. Qed.

Lemma least_ext P Q m : (forall x, P x <-> Q x) -> least P m <-> least Q m.
Proof. intros HPQ. unfold least. rewrite HPQ. by setoid_rewrite HPQ. Qed.

Lemma collect_sets name k : forall c row,
  k ∈ co_sets (collect c row) name <-> k ∈ co_sets c name \/ k ∈ row_keys name row.
Proof. intros c [policy [[] [|]]]; destruct name; simpl; set_solver. Qed.

Lemma collect_limits name : forall c row,
  co_limits (collect c row) name =
  match row_limit name row with
  | Some m => Some (match co_limits c name with None => m | Some limit => Z.min limit m end)
  | None => co_limits c name
  end.
Proof. by intros c [policy [[] [|]]]; destruct name. Qed.

Lemma collect_denials c row : co_denials (collect c row) = co_denials c ++ option_list (row_denial row).
Proof. destruct row as [policy [[] [|]]]; simpl; rewrite ?app_nil_r; done. Qed.

Lemma collect_force c row : co_forceProviderWriteFalse (collect c row) = co_forceProviderWriteFalse c || row_force row.
Proof. destruct row as [policy [[] [|]]]; simpl; rewrite ?orb_false_r, ?orb_true_r; done. Qed.

Lemma collect_approval c row :
  co_approvalRequired (collect c row) = co_approvalRequired c || bool_decide (is_Some (row_profile row)) /\
  co_separationOfDuties (collect c row)
    = co_separationOfDuties c || from_option ap_separation_of_duties false (row_profile row) /\
  co_delegationAllowed (collect c row)
    = co_delegationAllowed c && from_option ap_delegation_allowed true (row_profile row) /\
  co_approvalExpiry (collect c row)
    = from_option (fun p => Z.min (co_approvalExpiry c) (ap_expires_in_seconds p)) (co_approvalExpiry c) (row_profile row) /\
  co_approvalMaxResourceCount (collect c row)
    = from_option (fun p => Z.min (co_approvalMaxResourceCount c) (ap_max_resource_count p))
        (co_approvalMaxResourceCount c) (row_profile row).
Proof. destruct row as [policy [[] [|]]]; simpl; rewrite ?orb_false_r, ?andb_true_r, ?orb_true_r; done. Qed.

(** Some row satisfies [P]; some profile of the rows satisfies [P]. *)
Definition some_profile (rows : list Row) (P : ApprovalProfile -> Prop) : Prop :=
  Exists (fun row => exists p, row_profile row = Some p /\ P p) rows.

Lemma least_eq m : least (fun x => x = m) m.
Proof. split; [done|]. intros x ->. lia. Qed.

Lemma fold_sets rows name k : forall c,
  k ∈ co_sets (fold_left collect rows c) name <-> k ∈ co_sets c name \/ Exists (fun row => k ∈ row_keys name row) rows.
Proof.
  induction rows as [|row l IH]; intros c; simpl; [by rewrite Exists_nil; naive_solver|].
  rewrite IH, collect_sets, Exists_cons. tauto.
Qed.

Lemma fold_limits_some rows name : forall c m, co_limits c name = Some m ->
  exists n, co_limits (fold_left collect rows c) name = Some n /\
    least (fun x => x = m \/ Exists (fun row => row_limit name row = Some x) rows) n.
Proof.
  induction rows as [|row l IH]; intros c m Hc; simpl.
  - exists m. split; [done|]. apply (least_ext (fun x => x = m)); [|apply least_eq]. intros x. rewrite Exists_nil. tauto.
  - pose proof (collect_limits name c row) as Hl. rewrite Hc in Hl.
    destruct (row_limit name row) as [r|] eqn:Er; destruct (IH _ _ Hl) as (n & Hn & Hleast); exists n; split; try done.
    + destruct Hleast as [Hin Hmin]. pose proof (Hmin _ (or_introl eq_refl)) as H0. split.
      * rewrite Exists_cons, Er. destruct Hin as [->|Hin]; [|by right; right].
        destruct (Z.min_spec m r) as [[_ ->]|[_ ->]]; [by left|by right; left].
      * intros x. rewrite Exists_cons, Er. intros [->|[[= <-]|Hx]]; [lia|lia|]. apply Hmin. by right.
    + eapply least_ext; [|apply Hleast]. intros x. rewrite Exists_cons, Er. naive_solver.
Qed.

Lemma fold_limits rows name : forall c, co_limits c name = None -> forall m,
  co_limits (fold_left collect rows c) name = Some m <->
  least (fun x => Exists (fun row => row_limit name row = Some x) rows) m.
Proof.
  induction rows as [|row l IH]; intros c Hc m; simpl.
  - rewrite Hc. split; [done|]. intros [Hm _]. by apply Exists_nil in Hm.
  - pose proof (collect_limits name c row) as Hl. rewrite Hc in Hl. destruct (row_limit name row) as [r|] eqn:Er.
    + destruct (fold_limits_some l name _ _ Hl) as (n & -> & Hleast).
      assert (least (fun x => Exists (fun row => row_limit name row = Some x) (row :: l)) n) as Hn.
      { eapply least_ext; [|apply Hleast]. intros x. rewrite Exists_cons, Er. naive_solver. }
      split; [by intros [= <-]|]. intros Hm. f_equal. by eapply least_unique.
    + rewrite (IH _ Hl). apply least_ext. intros x. rewrite Exists_cons, Er. naive_solver.
Qed.

Lemma fold_least (get : Collected -> Z) (val : ApprovalProfile -> Z) rows :
  (forall c row, get (collect c row) = from_option (fun p => Z.min (get c) (val p)) (get c) (row_profile row)) ->
  forall c, least (fun x => x = get c \/ some_profile rows (fun p => x = val p)) (get (fold_left collect rows c)).
Proof.
  intros Hstep. unfold some_profile. induction rows as [|row l IH]; intros c; simpl.
  - eapply least_ext; [|apply least_eq]. intros x. rewrite Exists_nil. tauto.
  - destruct (IH (collect c row)) as [Hin Hmin]. specialize (Hstep c row). pose proof (Hmin _ (or_introl eq_refl)) as H0.
    destruct (row_profile row) as [p|] eqn:Ep; simpl in Hstep.
    + split.
      * rewrite Exists_cons, Ep. destruct Hin as [->|Hin]; [|by right; right]. rewrite Hstep.
        destruct (Z.min_spec (get c) (val p)) as [[_ ->]|[_ ->]]; [by left|right; left; eauto].
      * intros x. rewrite Exists_cons, Ep. intros [->|[(p' & [= <-] & Hx)|Hx]]; [lia|lia|]. apply Hmin. by right.
    + rewrite Hstep in Hin, Hmin. split; [|intros x]; rewrite Exists_cons, Ep; naive_solver.
Qed.

Lemma fold_required rows : forall c, co_approvalRequired (fold_left collect rows c) = true <->
  co_approvalRequired c = true \/ some_profile rows (fun _ => True).
Proof.
  unfold some_profile. induction rows as [|row l IH]; intros c; simpl; [by rewrite Exists_nil; naive_solver|].
  rewrite IH, Exists_cons. destruct (collect_approval c row) as (-> & _). rewrite orb_true_iff, bool_decide_eq_true.
  unfold is_Some. naive_solver.
Qed.

Lemma fold_separation rows : forall c, co_separationOfDuties (fold_left collect rows c) = true <->
  co_separationOfDuties c = true \/ some_profile rows (fun p => ap_separation_of_duties p = true).
Proof.
  unfold some_profile. induction rows as [|row l IH]; intros c; simpl; [by rewrite Exists_nil; naive_solver|].
  rewrite IH, Exists_cons. destruct (collect_approval c row) as (_ & -> & _). rewrite orb_true_iff.
  destruct (row_profile row) as [p|] eqn:Ep; naive_solver.
Qed.

Lemma fold_delegation rows : forall c, co_delegationAllowed (fold_left collect rows c) = false <->
  co_delegationAllowed c = false \/ some_profile rows (fun p => ap_delegation_allowed p = false).
Proof.
  unfold some_profile. induction rows as [|row l IH]; intros c; simpl; [by rewrite Exists_nil; naive_solver|].
  rewrite IH, Exists_cons. destruct (collect_approval c row) as (_ & _ & -> & _). rewrite andb_false_iff.
  destruct (row_profile row) as [p|] eqn:Ep; naive_solver.
Qed.

Lemma fold_force rows : forall c, co_forceProviderWriteFalse (fold_left collect rows c) = true <->
  co_forceProviderWriteFalse c = true \/ Exists (fun row => row_force row = true) rows.
Proof.
  induction rows as [|row l IH]; intros c; simpl; [by rewrite Exists_nil; naive_solver|].
  rewrite IH, collect_force, orb_true_iff, Exists_cons. tauto.
Qed.

Lemma fold_denials rows : forall c, co_denials (fold_left collect rows c) = co_denials c ++ omap row_denial rows.
Proof.
  induction rows as [|row l IH]; intros c; simpl; [by rewrite app_nil_r|].
  rewrite IH, collect_denials, <- app_assoc. f_equal. by destruct (row_denial row).
Qed.

(** ** The forced environment *)

Definition forced (rows : list Row) (z : Z) (e : string) : Prop := Exists (fun row => forcedOf row = Some (z, e)) rows.

(** [e] is forced at [z], nothing is forced above, and nothing else at [z]. *)
Definition strongest (rows : list Row) (e : string) (z : Z) : Prop :=
  forced rows z e /\ forall z' e', forced rows z' e' -> (z' <= z)%Z /\ (z' = z -> e' = e).

Lemma elem_of_forced rows z e : (z, e) ∈ omap forcedOf rows <-> forced rows z e.
Proof. unfold forced. rewrite list_elem_of_omap, Exists_exists. done. Qed.

Lemma maximumOf_spec l : forall z, (z <= maximumOf z l)%Z /\ (forall x, x ∈ l -> (x <= maximumOf z l)%Z) /\
  (maximumOf z l = z \/ maximumOf z l ∈ l).
Proof.
  induction l as [|y l IH]; intros z; unfold maximumOf in *; simpl.
  - split; [lia|]. split; [intros x Hx; by apply not_elem_of_nil in Hx|by left].
  - destruct (IH (Z.max z y)) as (H1 & H2 & H3). split; [lia|]. split.
    + intros x [->|Hx]%elem_of_cons; [lia|by apply H2].
    + destruct H3 as [H3|H3]; [|by right; right]. rewrite H3.
      destruct (Z.max_spec z y) as [[_ ->]|[_ ->]]; [right; left|by left].
Qed.

Lemma strongest_unique rows e z e' z' : strongest rows e z -> strongest rows e' z' -> e = e' /\ z = z'.
Proof.
  intros [H1 H2] [H3 H4]. destruct (H2 _ _ H3) as [Hle Heq]. destruct (H4 _ _ H1) as [Hle' _].
  assert (z = z') as Hz by lia. split; [symmetry; by apply Heq|done].
Qed.

(** The highest priority of the forced environments. *)
Lemma highest_priority rows priority e0 rest : omap forcedOf rows = (priority, e0) :: rest ->
  let top := maximumOf priority (List.map fst rest) in
  (forall z e, forced rows z e -> (z <= top)%Z) /\ exists e, forced rows top e.
Proof.
  intros Eo. destruct (maximumOf_spec (List.map fst rest) priority) as (Hm1 & Hm2 & Hm3).
  cbv zeta. setoid_rewrite <- elem_of_forced. rewrite Eo. split.
  - intros z e [[= -> ->]|Hin]%elem_of_cons; [done|]. apply Hm2. by apply (list_elem_of_fmap_2 fst _ (z, e)).
  - destruct Hm3 as [->|Ht]; [exists e0; by left|].
    apply list_elem_of_fmap in Ht as ([z e] & Hz & Hin). simpl in Hz. rewrite Hz. exists e. by right.
Qed.

Lemma elem_of_values rows top e :
  e ∈ unique_sorted (List.map snd (bfilter (fun p => Z.eqb p.1 top) (omap forcedOf rows))) <-> forced rows top e.
Proof.
  rewrite elem_of_unique_sorted, list_elem_of_fmap, <- elem_of_forced. split.
  - intros ([z e'] & -> & [Hz Hin]%elem_of_bfilter). simpl in Hz. by apply Z.eqb_eq in Hz as ->.
  - intros Hin. exists (top, e). split; [done|]. apply elem_of_bfilter. split; [apply Z.eqb_refl|done].
Qed.

(** The environment is forced when it is the only value at the top. *)
Lemma strongest_values rows top values :
  (forall z e, forced rows z e -> (z <= top)%Z) -> (exists e, forced rows top e) ->
  NoDup values -> (forall e, e ∈ values <-> forced rows top e) ->
  forall e z, strongest rows e z <-> z = top /\ values = [e].
Proof.
  intros Htop [et Het] Hnd Hv e z. split.
  - intros [Hf Hs]. assert (z = top) as -> by (destruct (Hs _ _ Het); specialize (Htop _ _ Hf); lia).
    split; [done|]. apply Permutation_singleton_eq, NoDup_Permutation; [done|apply NoDup_singleton|].
    intros x. rewrite Hv, list_elem_of_singleton. split; [intros Hx; by apply (Hs top x)|by intros ->].
  - intros [-> ->]. split; [apply Hv; by left|]. intros z' e' Hf. split; [by apply (Htop _ e')|].
    intros ->. apply Hv in Hf. by apply list_elem_of_singleton in Hf.
Qed.

Lemma resolveForcedEnvironment_spec rows r : resolveForcedEnvironment rows = Ok r <->
  match r with Some (e, z) => strongest rows e z | None => forall z e, ~ forced rows z e end.
Proof.
  unfold resolveForcedEnvironment. destruct (omap forcedOf rows) as [|[priority e0] rest] eqn:Eo.
  - assert (forall z e, ~ forced rows z e) as Hno.
    { intros z e Hf. apply elem_of_forced in Hf. rewrite Eo in Hf. by apply not_elem_of_nil in Hf. }
    destruct r as [[e z]|]; split; try done. intros [Hf _]. exfalso. by apply (Hno z e).
  - destruct (highest_priority _ _ _ _ Eo) as [Htop Hex].
    pose proof (elem_of_values rows (maximumOf priority (List.map fst rest))) as Hv. rewrite Eo in Hv.
    pose proof (strongest_values rows _ _ Htop Hex (NoDup_unique_sorted _) Hv) as Hone.
    destruct (unique_sorted _) as [|e' [|e'' l]]; (destruct r as [[e z]|]; [rewrite Hone|]);
      try (split; [done|]; intros Hno; destruct Hex as [et Het]; by apply Hno in Het); naive_solver.
Qed.

(** ** What the matched policies demand

    A reading of the policies that does not follow the loop: which requirements
    hold of a set of effects. *)

(** Some effect of the rows satisfies [P]. *)
Definition effect_of (rows : list Row) (P : EffectKind -> Prop) : Prop := Exists (fun row => P (ef_kind row.2)) rows.

(** [l] lists the texts in [P], of which there is at least one, in order. *)
Definition gathered (P : string -> Prop) (l : list string) : Prop :=
  l <> [] /\ NoDup l /\ sort_strings l = l /\ forall k, k ∈ l <-> P k.

(** [l] is what the effects [kind keys] name together. *)
Definition named (rows : list Row) (kind : list string -> EffectKind) (l : list string) : Prop :=
  gathered (fun k => effect_of rows (fun e => exists keys, e = kind keys /\ k ∈ keys)) l.

Definition least_limit (rows : list Row) (kind : Z -> EffectKind) (m : Z) : Prop :=
  least (fun x => effect_of rows (fun e => e = kind x)) m.

(** The strictest profile: all the roles, duties separated when one profile
    asks for it, delegation only when every profile allows it, the shortest
    expiry and the smallest number of resources. *)
Definition strictest (rows : list Row) (q : ApprovalProfile) : Prop :=
  gathered (fun k => some_profile rows (fun p => k ∈ ap_required_roles p)) (ap_required_roles q) /\
  (ap_separation_of_duties q = true <-> some_profile rows (fun p => ap_separation_of_duties p = true)) /\
  (ap_delegation_allowed q = false <-> some_profile rows (fun p => ap_delegation_allowed p = false)) /\
  least (fun x => some_profile rows (fun p => x = ap_expires_in_seconds p)) (ap_expires_in_seconds q) /\
  least (fun x => some_profile rows (fun p => x = ap_max_resource_count p)) (ap_max_resource_count q).

Inductive demands (rows : list Row) (context : Context) : Requirement -> Prop :=
| demands_no_write : effect_of rows (fun e => e = force_provider_write_false) ->
    demands rows context rq_force_provider_write_false
| demands_environment e z : strongest rows e z -> demands rows context (rq_force_environment e z)
| demands_resources m : least_limit rows limit_resources m -> demands rows context (rq_limit_resources m)
| demands_concurrency m : least_limit rows limit_concurrency m -> demands rows context (rq_limit_concurrency m)
| demands_budget m : least_limit rows limit_budget m -> demands rows context (rq_limit_budget m)
| demands_authority l : named rows require_resource_authority l -> demands rows context (rq_resource_authority l)
| demands_certification l : named rows require_certification l -> demands rows context (rq_certification l)
| demands_approval_forced q e z : strictest rows q -> strongest rows e z -> demands rows context (rq_approval q e)
| demands_approval q : strictest rows q -> (forall z e, ~ forced rows z e) ->
    demands rows context (rq_approval q (cx_environment context))
| demands_confirmation l :
    gathered (fun k => effect_of rows (fun e => e = require_typed_confirmation k)) l ->
    demands rows context (rq_typed_confirmation l)
| demands_readback l : named rows require_readback l -> demands rows context (rq_readback l)
| demands_rollback l : named rows require_rollback l -> demands rows context (rq_rollback l).

(** What normalisation leaves in an effect. *)
Definition sound_effect (e : EffectKind) : Prop :=
  match e with
  | require_approval p =>
      ap_required_roles p <> [] /\ (ap_expires_in_seconds p <= 604800)%Z /\ (ap_max_resource_count p <= 10000)%Z
  | require_resource_authority l | require_certification l | require_readback l | require_rollback l => l <> []
  | _ => True
  end.

(** ** The requirements are the demands *)

Lemma gathered_unique P l k : gathered P l -> gathered P k -> l = k.
Proof.
  intros (_ & Hnl & Hsl & Hl) (_ & Hnk & Hsk & Hk). rewrite <- Hsl, <- Hsk. apply sort_strings_Permutation, NoDup_Permutation;
    [done|done|]. intros x. by rewrite Hl, Hk.
Qed.

Lemma gathered_ext P Q l : (forall k, P k <-> Q k) -> gathered P l <-> gathered Q l.
Proof. intros HPQ. unfold gathered. by setoid_rewrite HPQ. Qed.

Lemma sorted_gathered (s : gset string) : s <> ∅ -> gathered (fun k => k ∈ s) (sorted s).
Proof.
  intros Hs. unfold sorted. split; [|split; [|split]].
  - intros Hn. apply Hs, leibniz_equiv, elements_empty_inv, Permutation_nil_r.
    rewrite <- Hn. symmetry. apply (js_sort_Permutation String.compare).
  - unfold sort_strings. rewrite (js_sort_Permutation String.compare). apply NoDup_elements.
  - apply (js_sort_idemp String.compare).
  - intros k. by rewrite elem_of_sort_strings, elem_of_elements.
Qed.

Lemma gathered_sorted (s : gset string) l : gathered (fun k => k ∈ s) l <-> s <> ∅ /\ l = sorted s.
Proof.
  split.
  - intros Hg. assert (s <> ∅) as Hs; [|split; [done|]; eapply gathered_unique; [done|by apply sorted_gathered]].
    destruct Hg as (Hl & _ & _ & Hk). intros ->. destruct l as [|x l]; [done|].
    assert (x ∈ (∅ : gset string)) as Hx by (apply Hk; by left). by apply not_elem_of_empty in Hx.
  - intros [Hs ->]. by apply sorted_gathered.
Qed.

Lemma demand_keys_Some (s : gset string) (R : list string -> Requirement) r :
  demand_keys s R = Some r <-> exists l, r = R l /\ gathered (fun k => k ∈ s) l.
Proof.
  unfold demand_keys. setoid_rewrite gathered_sorted. case_decide as Hs; [naive_solver|]. split.
  - intros [= <-]. eauto.
  - by intros (l & -> & _ & ->).
Qed.

(** Each slot holds only requirements of its own place in the order. *)
Fixpoint ranked (n : Z) (slots : list (option Requirement)) : Prop :=
  match slots with
  | [] => True
  | slot :: rest => (forall r, slot = Some r -> requirementOrder r = n) /\ ranked (n + 1) rest
  end.

Lemma ranked_above n slots r : ranked n slots -> r ∈ omap id slots -> (n <= requirementOrder r)%Z.
Proof.
  revert n. induction slots as [|slot rest IH]; intros n Hr Hin; [by apply not_elem_of_nil in Hin|].
  destruct Hr as [Hr Hrest].
  destruct slot as [x|]; simpl in Hin; [apply elem_of_cons in Hin as [->|Hin]|]; [rewrite (Hr x); [lia|done]| |];
    specialize (IH _ Hrest Hin); lia.
Qed.

Lemma ranked_sorted n slots : ranked n slots ->
  StronglySorted (fun a b => (requirementOrder a < requirementOrder b)%Z) (omap id slots).
Proof.
  revert n. induction slots as [|slot rest IH]; intros n Hr; [constructor|]. destruct Hr as [Hr Hrest].
  destruct slot as [x|]; simpl; [|by apply (IH _ Hrest)]. constructor; [by apply (IH _ Hrest)|].
  apply Forall_forall. intros r Hin. pose proof (ranked_above _ _ _ Hrest Hin). rewrite (Hr x); [lia|done].
Qed.

Lemma elem_of_ranked n slots r : ranked n slots ->
  r ∈ omap id slots <-> (n <= requirementOrder r)%Z /\ slots !! Z.to_nat (requirementOrder r - n) = Some (Some r).
Proof.
  revert n. induction slots as [|slot rest IH]; intros n Hr.
  { rewrite lookup_nil. split; [intros Hin; by apply not_elem_of_nil in Hin|by intros []]. }
  destruct Hr as [Hr Hrest]. specialize (IH _ Hrest).
  destruct (decide (requirementOrder r = n)) as [Hn|Hn].
  - rewrite Hn, Z.sub_diag. simpl. split.
    + destruct slot as [x|]; simpl; [intros [->|Hin]%elem_of_cons; [by split|]|intros Hin];
        pose proof (ranked_above _ _ _ Hrest Hin); lia.
    + intros [_ [= ->]]. simpl. by left.
  - transitivity (r ∈ omap id rest).
    { destruct slot as [x|]; simpl; [|done]. rewrite elem_of_cons. split; [|by right].
      intros [->|]; [|done]. exfalso. by apply Hn, Hr. }
    rewrite IH. split.
    + intros [Hle Hl]. split; [lia|].
      by replace (Z.to_nat (requirementOrder r - n)) with (S (Z.to_nat (requirementOrder r - (n + 1)))) by lia.
    + intros [Hle Hl]. split; [lia|].
      by replace (Z.to_nat (requirementOrder r - n)) with (S (Z.to_nat (requirementOrder r - (n + 1)))) in Hl by lia.
Qed.

Lemma Exists_ext {A} (P Q : A -> Prop) l : (forall x, P x <-> Q x) -> Exists P l <-> Exists Q l.
Proof. intros HPQ. split; intros HE; (eapply Exists_impl; [exact HE|]); intros x; apply HPQ. Qed.

Lemma slots_ranked c forcedEnvironment context : ranked 0 (requirementSlots c forcedEnvironment context).
Proof.
  repeat split; intros x; try (case_match; [by intros [= <-]|done]);
    rewrite ?demand_keys_Some, ?fmap_Some; naive_solver.
Qed.

Section Demands.
Variables (rows : list Row) (context : Context) (forcedEnvironment : option (string * Z)).
Hypothesis Hsound : Forall (fun row => sound_effect (ef_kind row.2)) rows.

Let c := fold_left collect rows nothing_collected.

Lemma set_gathered name l :
  gathered (fun k => k ∈ co_sets c name) l <-> gathered (fun k => Exists (fun row => k ∈ row_keys name row) rows) l.
Proof. apply gathered_ext. intros k. unfold c. rewrite fold_sets. simpl. set_solver. Qed.

Lemma limit_least name (kind : Z -> EffectKind) m :
  (forall row x, row_limit name row = Some x <-> ef_kind row.2 = kind x) ->
  co_limits c name = Some m <-> least_limit rows kind m.
Proof. intros Hk. unfold c. rewrite fold_limits by done. apply least_ext. intros x. by apply Exists_ext. Qed.

Lemma set_named name (kind : list string -> EffectKind) l :
  (forall row k, k ∈ row_keys name row <-> exists keys, ef_kind row.2 = kind keys /\ k ∈ keys) ->
  gathered (fun k => k ∈ co_sets c name) l <-> named rows kind l.
Proof. intros Hk. rewrite set_gathered. apply gathered_ext. intros k. by apply Exists_ext. Qed.

Lemma roles_profile row k : k ∈ row_keys approvalRoles row <->
  exists p, row_profile row = Some p /\ k ∈ ap_required_roles p.
Proof. destruct row as [policy [[] r]]; unfold row_profile; simpl; set_solver. Qed.

Lemma profile_bounds row p : row ∈ rows -> row_profile row = Some p ->
  ap_required_roles p <> [] /\ (ap_expires_in_seconds p <= 604800)%Z /\ (ap_max_resource_count p <= 10000)%Z.
Proof.
  intros Hrow Hp. rewrite Forall_forall in Hsound. specialize (Hsound row Hrow). unfold row_profile in Hp.
  destruct (ef_kind row.2); try done. by injection Hp as ->.
Qed.

(** A start value that no profile exceeds plays no part in the least value. *)
Lemma least_start (val : ApprovalProfile -> Z) start m :
  (forall row p, row ∈ rows -> row_profile row = Some p -> (val p <= start)%Z) ->
  some_profile rows (fun _ => True) ->
  least (fun x => x = start \/ some_profile rows (fun p => x = val p)) m ->
  least (fun x => some_profile rows (fun p => x = val p)) m.
Proof.
  intros Hb Hex [Hin Hmin]. split; [|intros x Hx; apply Hmin; by right].
  destruct Hin as [->|Hin]; [|done]. apply Exists_exists in Hex as (row & Hrow & p & Hp & _).
  apply Exists_exists. exists row. split; [done|]. exists p. split; [done|].
  specialize (Hb row p Hrow Hp). specialize (Hmin (val p)). enough (start <= val p)%Z by lia.
  apply Hmin. right. apply Exists_exists. eauto.
Qed.

Lemma gathered_roles_nonempty : some_profile rows (fun _ => True) -> co_sets c approvalRoles <> ∅.
Proof.
  intros (row & Hrow & p & Hp & _)%Exists_exists Hs. destruct (profile_bounds row p Hrow Hp) as (Hr & _).
  destruct (ap_required_roles p) as [|k l] eqn:El; [done|].
  assert (k ∈ co_sets c approvalRoles) as Hk.
  { unfold c. rewrite fold_sets. right. apply Exists_exists. exists row. split; [done|]. apply roles_profile.
    exists p. split; [done|]. rewrite El. by left. }
  rewrite Hs in Hk. by apply not_elem_of_empty in Hk.
Qed.

(** The profile that is pushed. *)
Definition pushed_profile : ApprovalProfile :=
  {| ap_required_roles := sorted (co_sets c approvalRoles); ap_separation_of_duties := co_separationOfDuties c;
     ap_expires_in_seconds := co_approvalExpiry c; ap_delegation_allowed := co_delegationAllowed c;
     ap_max_resource_count := co_approvalMaxResourceCount c |}.

Lemma pushed_strictest : co_approvalRequired c = true -> strictest rows pushed_profile.
Proof.
  intros Hr. assert (some_profile rows (fun _ => True)) as Hex.
  { apply fold_required in Hr as [Hr|Hr]; [done|done]. }
  split; [|split; [|split; [|split]]]; simpl.
  - apply (gathered_ext (fun k => Exists (fun row => k ∈ row_keys approvalRoles row) rows)).
    { intros k. apply Exists_ext. intros row. apply roles_profile. }
    apply set_gathered, sorted_gathered, gathered_roles_nonempty, Hex.
  - unfold c. rewrite fold_separation. simpl. naive_solver.
  - unfold c. rewrite fold_delegation. simpl. naive_solver.
  - apply (least_start _ 604800); [|done|].
    + intros row p Hrow Hp. by apply (profile_bounds row).
    + apply (fold_least co_approvalExpiry). intros c' row. apply collect_approval.
  - apply (least_start _ 10000); [|done|].
    + intros row p Hrow Hp. by apply (profile_bounds row).
    + apply (fold_least co_approvalMaxResourceCount). intros c' row. apply collect_approval.
Qed.

Lemma strictest_unique q q' : strictest rows q -> strictest rows q' -> q = q'.
Proof.
  intros (Hr & Hs & Hd & He & Hm) (Hr' & Hs' & Hd' & He' & Hm'). destruct q, q'; simpl in *. f_equal.
  - by eapply gathered_unique.
  - apply eq_true_iff_eq. by rewrite Hs, Hs'.
  - by eapply least_unique.
  - destruct ap_delegation_allowed0, ap_delegation_allowed1; try done; naive_solver.
  - by eapply least_unique.
Qed.

Lemma strictest_required q : strictest rows q -> co_approvalRequired c = true.
Proof.
  intros (_ & _ & _ & [Hin _] & _). apply fold_required. right.
  eapply Exists_impl; [apply Hin|]. intros row (p & Hp & _). eauto.
Qed.

Hypothesis Hforced : resolveForcedEnvironment rows = Ok forcedEnvironment.

Lemma approval_slot q e :
  (if co_approvalRequired c
   then Some (rq_approval pushed_profile
          (match forcedEnvironment with Some f => f.1 | None => cx_environment context end))
   else None) = Some (rq_approval q e) <-> demands rows context (rq_approval q e).
Proof.
  pose proof (proj1 (resolveForcedEnvironment_spec rows forcedEnvironment) Hforced) as Hf.
  pose proof pushed_strictest as Hps. clear Hforced. split.
  - destruct (co_approvalRequired c) eqn:Er; [|done]. intros [= <- <-].
    destruct forcedEnvironment as [[e' z]|]; [eapply demands_approval_forced|apply demands_approval];
      eauto.
  - intros Hd. assert (strictest rows q) as Hq by (by inversion Hd).
    rewrite (strictest_required q Hq). rewrite (strictest_unique _ _ Hq (Hps (strictest_required q Hq))).
    do 2 f_equal. destruct forcedEnvironment as [[e' z']|]; inversion Hd as [| | | | | | |? ? z ? Hs| ? ? Hno| | |]; subst; try done.
    + by destruct (strongest_unique _ _ _ _ _ Hf Hs).
    + exfalso. by apply (Hno z' e'), Hf.
    + exfalso. by apply (Hf z e), Hs.
Qed.


Lemma limit_slot name (kind : Z -> EffectKind) (R : Z -> Requirement) m :
  (forall row x, row_limit name row = Some x <-> ef_kind row.2 = kind x) -> (forall a b, R a = R b -> a = b) ->
  R <$> co_limits c name = Some (R m) <-> least_limit rows kind m.
Proof.
  intros Hk HR. rewrite fmap_Some, <- (limit_least name) by done. split; [|eauto].
  intros (x & Hx & Heq). by rewrite (HR _ _ Heq).
Qed.

Lemma keys_slot name (P : string -> Prop) (R : list string -> Requirement) l :
  (forall k, Exists (fun row => k ∈ row_keys name row) rows <-> P k) -> (forall a b, R a = R b -> a = b) ->
  demand_keys (co_sets c name) R = Some (R l) <-> gathered P l.
Proof.
  intros HP HR. rewrite demand_keys_Some, <- (gathered_ext _ _ l HP), <- set_gathered. split; [|eauto].
  intros (k & Heq & Hk). by rewrite (HR _ _ Heq).
Qed.

Lemma forced_slot e z :
  (fun f : string * Z => rq_force_environment f.1 f.2) <$> forcedEnvironment = Some (rq_force_environment e z)
  <-> strongest rows e z.
Proof.
  pose proof (proj1 (resolveForcedEnvironment_spec rows forcedEnvironment) Hforced) as Hf. clear Hforced.
  destruct forcedEnvironment as [[e' z']|]; simpl; split.
  - by intros [= <- <-].
  - intros Hs. by destruct (strongest_unique _ _ _ _ _ Hf Hs) as [-> ->].
  - done.
  - intros [Hs _]. by apply Hf in Hs.
Qed.

Lemma write_slot : co_forceProviderWriteFalse c = true <-> effect_of rows (fun e => e = force_provider_write_false).
Proof.
  unfold c. rewrite fold_force. simpl. transitivity (Exists (fun row => row_force row = true) rows); [naive_solver|].
  apply Exists_ext. intros [policy [[] r]]; unfold row_force; simpl; naive_solver.
Qed.

Lemma in_slot (slot : option Requirement) r (n : Z) (P : Prop) : (0 <= n)%Z -> (slot = Some r <-> P) ->
  (0 <= n)%Z /\ Some slot = Some (Some r) <-> P.
Proof. intros Hn <-. naive_solver. Qed.

Ltac demand := split; [intros; by constructor|by inversion 1].
Ltac by_kind := by intros [policy [[] rc]] x; unfold row_limit; simpl; split; intros [=]; subst.

(** Every requirement that is pushed is demanded, and the other way round. *)
Lemma pushRequirements_demands r : r ∈ pushRequirements c forcedEnvironment context <-> demands rows context r.
Proof.
  unfold pushRequirements. rewrite (elem_of_ranked 0) by apply slots_ranked.
  destruct r; (apply in_slot; [simpl; lia|]);
    [ | | | | | | |apply approval_slot| | | ].
  1: transitivity (effect_of rows (fun e => e = force_provider_write_false)); [|demand];
     rewrite <- write_slot; by destruct (co_forceProviderWriteFalse c).
  1: rewrite forced_slot; demand.
  1-3: rewrite limit_slot; [demand|by_kind|by intros ? ? [= ->]].
  all: rewrite keys_slot; [demand| |by intros ? ? [= ->]]; intros k; apply Exists_ext;
    intros [policy [[] rc]]; simpl; set_solver.
Qed.

End Demands.

(** ** Normalised policies *)

Section Normalised.
Context `{JsHost}.

Lemma candidateValues_field value f g : candidateValues value f ≃ candidateValues value g.
Proof.
  unfold candidateValues. apply same_results_bind; [same_results|]. intros items.
  apply same_results_bind; [|same_results]. apply normalizeItems_field. intros v f' g'.
  unfold candidateValue, shortText. same_results.
Qed.

Lemma scalarValue_field value f g : scalarValue value f ≃ scalarValue value g.
Proof. unfold scalarValue, shortText. same_results. Qed.

Lemma normalizeCondition_field source f g : normalizeCondition source f ≃ normalizeCondition source g.
Proof.
  unfold normalizeCondition. same_results. unfold normalizeTest, boundValue.
  pose proof candidateValues_field. pose proof scalarValue_field. same_results.
Qed.

Lemma keysOf_field value f g : keysOf value f ≃ keysOf value g.
Proof. apply sortedUnique_field, canonical_field. Qed.

Lemma normalizeApprovalProfile_field source f g : normalizeApprovalProfile source f ≃ normalizeApprovalProfile source g.
Proof. unfold normalizeApprovalProfile. pose proof keysOf_field. same_results. Qed.

Lemma normalizeKind_field type source f g : normalizeKind type source f ≃ normalizeKind type source g.
Proof. unfold normalizeKind. pose proof keysOf_field. pose proof normalizeApprovalProfile_field. same_results. Qed.

Lemma normalizeEffect_field source f g : normalizeEffect source f ≃ normalizeEffect source g.
Proof. unfold normalizeEffect. pose proof normalizeKind_field. same_results. Qed.

Lemma normalizePolicy_field source f g : normalizePolicy source f ≃ normalizePolicy source g.
Proof.
  unfold normalizePolicy, policy_list. pose proof normalizeCondition_field. pose proof normalizeEffect_field.
  same_results.
Qed.

Lemma normalizeApprovalProfile_sound source field p : normalizeApprovalProfile source field = Ok p ->
  sound_effect (require_approval p).
Proof.
  unfold normalizeApprovalProfile, keysOf. cbv zeta. intros Hp.
  do 4 (apply bind_Ok in Hp as (? & ?H & Hp)). injection Hp as <-. simpl.
  split; [by eapply sortedUnique_required|]. split; by eapply boundedInteger_bounds.
Qed.

Lemma normalizeKind_sound type source field k : normalizeKind type source field = Ok k -> sound_effect k.
Proof.
  unfold normalizeKind, keysOf. cbv zeta. intros Hk.
  repeat (case_match; [inv_outcome; simpl; first [done|by eapply sortedUnique_required|by eapply normalizeApprovalProfile_sound]|]).
  by injection Hk as <-.
Qed.

(** The effects of a policy as they are matched. *)
Definition sound_policy (p : Policy) : Prop := Forall (fun e => sound_effect (ef_kind e)) (pl_effects p) /\ pl_effects p <> [].

Lemma normalizePolicy_sound source field p : normalizePolicy source field = Ok p -> sound_policy p.
Proof.
  unfold normalizePolicy. intros Hp.
  do 2 (apply bind_Ok in Hp as (? & _ & Hp)). apply bind_Ok in Hp as (conditions & _ & Hp).
  apply bind_Ok in Hp as (effects & He & Hp). do 5 (apply bind_Ok in Hp as (? & _ & Hp)).
  apply bind_Ok in Hp as (normalized & Hn & Hp). injection Hp as <-. split; simpl.
  - apply (normalizeItems_Ok _ normalizeEffect_field) in Hn. eapply Forall2_Forall_r; [exact Hn|].
    apply Forall_forall. intros value _ e He'. unfold normalizeEffect in He'.
    do 3 (apply bind_Ok in He' as (? & _ & He')). apply bind_Ok in He' as (k & Hk & He').
    injection He' as <-. by eapply normalizeKind_sound.
  - apply (normalizeItems_Ok _ normalizeEffect_field), Forall2_length in Hn. intros ->. destruct effects; [|done].
    unfold policy_list in He. case_match; try done. apply bind_Ok in He as (? & Ht & He). by injection He as ->.
Qed.
End Normalised.

Lemma effectRows_sound ps : Forall sound_policy ps -> Forall (fun row => sound_effect (ef_kind row.2)) (effectRows ps).
Proof.
  intros Hps. unfold effectRows. induction Hps as [|p ps [Hp _] _ IH]; simpl; [constructor|].
  apply Forall_app. split; [|done]. by apply Forall_map.
Qed.

#[global] Instance effectRows_Permutation : Proper ((≡ₚ) ==> (≡ₚ)) effectRows.
Proof. intros l l' HP. unfold effectRows. by induction HP; simpl; [done|by apply Permutation_app_head|rewrite !app_assoc; apply Permutation_app_tail, Permutation_app_comm|etransitivity]. Qed.

Lemma effect_rows ps (P : EffectKind -> Prop) :
  effect_of (effectRows ps) P <-> exists p e, p ∈ ps /\ e ∈ pl_effects p /\ P (ef_kind e).
Proof.
  unfold effect_of, effectRows. rewrite Exists_exists. setoid_rewrite list_elem_of_In. setoid_rewrite in_flat_map. split.
  - intros (row & (p & Hp & (e & <- & He)%in_map_iff) & HP). eauto.
  - intros (p & e & Hp & He & HP). exists (p, e). split; [|done]. exists p. split; [done|]. apply in_map_iff. eauto.
Qed.

(** ** The demands do not depend on the order of the rows *)

Section Permuted.
Context (rows rows' : list Row) (HP : rows ≡ₚ rows').

Lemma Exists_perm (P : Row -> Prop) : Exists P rows <-> Exists P rows'.
Proof. rewrite !Exists_exists. by setoid_rewrite HP. Qed.

Lemma strongest_perm e z : strongest rows e z <-> strongest rows' e z.
Proof. unfold strongest, forced. by setoid_rewrite Exists_perm. Qed.

Lemma least_limit_perm kind m : least_limit rows kind m <-> least_limit rows' kind m.
Proof. apply least_ext. intros x. apply Exists_perm. Qed.

Lemma named_perm kind l : named rows kind l <-> named rows' kind l.
Proof. apply gathered_ext. intros k. apply Exists_perm. Qed.

Lemma strictest_perm q : strictest rows q <-> strictest rows' q.
Proof.
  assert (forall P, some_profile rows P <-> some_profile rows' P) as Hp by (intros P; apply Exists_perm).
  unfold strictest. rewrite !Hp, (gathered_ext _ _ _ (fun k => Hp _)).
  by rewrite (least_ext _ _ (ap_expires_in_seconds q) (fun x => Hp _)), (least_ext _ _ (ap_max_resource_count q) (fun x => Hp _)).
Qed.

Lemma demands_perm context r : demands rows context r -> demands rows' context r.
Proof.
  assert (forall P, effect_of rows P <-> effect_of rows' P) as He by (intros P; apply Exists_perm).
  destruct 1 as [H|e z H|m H|m H|m H|l H|l H|q e z Hq H|q Hq H|l H|l H|l H].
  - constructor. by apply He.
  - constructor. by apply strongest_perm.
  - constructor. by apply least_limit_perm.
  - constructor. by apply least_limit_perm.
  - constructor. by apply least_limit_perm.
  - constructor. by apply named_perm.
  - constructor. by apply named_perm.
  - eapply demands_approval_forced; [by apply strictest_perm|by apply strongest_perm].
  - apply demands_approval; [by apply strictest_perm|]. intros z e Hf. by apply (H z e), Exists_perm.
  - constructor. by rewrite <- (gathered_ext _ _ _ (fun k => He _)).
  - constructor. by apply named_perm.
  - constructor. by apply named_perm.
Qed.
End Permuted.

(** ** The decision *)

Section Decision.
Context `{JsHost}.

Lemma requirements_ranked c f context :
  StronglySorted (fun a b => (requirementOrder a < requirementOrder b)%Z) (pushRequirements c f context).
Proof.
  apply (ranked_sorted 0), slots_ranked.
Qed.

Lemma requirements_sorted c f context :
  js_sort requirement_compare (pushRequirements c f context) = pushRequirements c f context.
Proof.
  apply js_sort_id. induction (requirements_ranked c f context) as [|a l _ IH Ha]; constructor; [done|].
  eapply Forall_impl; [exact Ha|]. intros b Hab. unfold leb_of, requirement_compare. by rewrite (proj2 (Z.compare_lt_iff _ _) Hab).
Qed.

Lemma omap_id_nil {A} (l : list (option A)) : omap id l = [] -> Forall (fun x => x = None) l.
Proof. induction l as [|[x|] l IH]; simpl; intros Hl; [constructor|done|]. constructor; [done|by apply IH]. Qed.

Lemma fold_limits_None rows name : forall c,
  co_limits (fold_left collect rows c) name = None -> Forall (fun row => row_limit name row = None) rows.
Proof.
  induction rows as [|row l IH]; intros c Hc; simpl in *; [constructor|].
  pose proof (collect_limits name c row) as Hl. destruct (row_limit name row) as [r|] eqn:Er.
  - destruct (fold_limits_some l name _ _ Hl) as (n & Hn & _). by rewrite Hn in Hc.
  - constructor; [done|]. by eapply IH.
Qed.

Lemma empty_keys rows name (R : list string -> Requirement) row :
  demand_keys (co_sets (fold_left collect rows nothing_collected) name) R = None -> row ∈ rows -> row_keys name row = [].
Proof.
  unfold demand_keys. case_decide as Hs; [|done]. intros _ Hrow. destruct (row_keys name row) as [|k l] eqn:Ek; [done|].
  assert (k ∈ co_sets (fold_left collect rows nothing_collected) name) as Hk.
  { rewrite fold_sets. right. apply Exists_exists. exists row. split; [done|]. rewrite Ek. by left. }
  rewrite Hs in Hk. by apply not_elem_of_empty in Hk.
Qed.

(** When nothing is pushed and nothing is denied, there is no effect. *)
Lemma nothing_pushed rows f context : Forall (fun row => sound_effect (ef_kind row.2)) rows ->
  resolveForcedEnvironment rows = Ok f ->
  pushRequirements (fold_left collect rows nothing_collected) f context = [] -> omap row_denial rows = [] -> rows = [].
Proof.
  intros Hsound Hf Hpush Hdeny. destruct rows as [|row l] eqn:Erows; [done|]. exfalso. rewrite <- Erows in *.
  assert (row ∈ rows) as Hrow by (rewrite Erows; by left). clear Erows.
  apply omap_id_nil in Hpush. unfold requirementSlots in Hpush. rewrite !Forall_cons in Hpush.
  destruct Hpush as (H0 & H1 & H2 & H3 & H4 & H5 & H6 & H7 & H8 & H9 & H10 & _).
  apply fmap_None in H1, H2, H3, H4. apply fold_limits_None in H2, H3, H4. rewrite Forall_forall in Hsound, H2, H3, H4.
  specialize (Hsound row Hrow). specialize (H2 row Hrow). specialize (H3 row Hrow). specialize (H4 row Hrow).
  pose proof (empty_keys _ _ _ _ H5 Hrow) as K5. pose proof (empty_keys _ _ _ _ H6 Hrow) as K6.
  pose proof (empty_keys _ _ _ _ H8 Hrow) as K8. pose proof (empty_keys _ _ _ _ H9 Hrow) as K9.
  pose proof (empty_keys _ _ _ _ H10 Hrow) as K10. unfold row_limit, row_keys in *.
  destruct (ef_kind row.2) as [p|k|l0|l0|l0|l0|m|m|m|e| |] eqn:Ek; simpl in *; try done.
  - destruct (co_approvalRequired _) eqn:Er; [done|]. apply not_true_iff_false in Er. apply Er, fold_required. right.
    apply Exists_exists. exists row. split; [done|]. exists p. unfold row_profile. by rewrite Ek.
  - subst f. apply resolveForcedEnvironment_spec in Hf. apply (Hf (pl_priority row.1) e), Exists_exists.
    exists row. split; [done|]. unfold forcedOf. by rewrite Ek.
  - destruct (co_forceProviderWriteFalse _) eqn:Er; [done|]. apply not_true_iff_false in Er. apply Er, fold_force. right.
    apply Exists_exists. exists row. split; [done|]. unfold row_force. by rewrite Ek.
  - assert (denial row.1 row.2 ∈ omap row_denial rows) as Hd.
    { apply list_elem_of_omap. exists row. split; [done|]. unfold row_denial. by rewrite Ek. }
    rewrite Hdeny in Hd. by apply not_elem_of_nil in Hd.
Qed.

Lemma compileRequirements_Ok matched context requirements denials codes :
  compileRequirements matched context = Ok (requirements, denials, codes) <->
  exists f, resolveForcedEnvironment (effectRows matched) = Ok f /\
    let c := fold_left collect (effectRows matched) nothing_collected in
    requirements = pushRequirements c f context /\
    denials = js_sort denial_compare (omap row_denial (effectRows matched)) /\
    codes = sorted (co_sets c reasonCodes).
Proof.
  unfold compileRequirements. cbv zeta. rewrite bind_Ok. setoid_rewrite requirements_sorted.
  setoid_rewrite fold_denials. simpl. split.
  - by intros (f & Hf & [= <- <- <-]); exists f.
  - by intros (f & Hf & -> & -> & ->); exists f.
Qed.

Lemma denials_nonempty rows :
  (0 <? length (js_sort denial_compare (omap row_denial rows))) = true <-> effect_of rows (fun e => e = deny).
Proof.
  rewrite Nat.ltb_lt, js_sort_length. unfold effect_of. rewrite Exists_exists. split.
  - destruct (omap row_denial rows) as [|x l] eqn:El; simpl; [lia|]. intros _.
    assert (x ∈ omap row_denial rows) as (row & Hrow & Hd)%list_elem_of_omap by (rewrite El; by left).
    exists row. split; [done|]. unfold row_denial in Hd. by destruct (ef_kind row.2).
  - intros (row & Hrow & Hk). assert (denial row.1 row.2 ∈ omap row_denial rows) as Hd.
    { apply list_elem_of_omap. exists row. split; [done|]. unfold row_denial. by rewrite Hk. }
    destruct (omap row_denial rows); simpl; [by apply not_elem_of_nil in Hd|lia].
Qed.

Lemma effectRows_nil ps : Forall sound_policy ps -> effectRows ps = [] -> ps = [].
Proof.
  destruct 1 as [|p ps [_ Hp] _]; [done|]. unfold effectRows. simpl. intros [Hn _]%app_eq_nil.
  by apply map_eq_nil in Hn.
Qed.

(** [decision] as the code chooses it. *)
Definition decisionText (denials : list Denial) (requirements : list Requirement) : string :=
  if 0 <? length denials then "deny" else if 0 <? length requirements then "allow_with_requirements" else "allow".

Lemma decisionText_spec matched f context :
  Forall sound_policy matched -> resolveForcedEnvironment (effectRows matched) = Ok f ->
  let rows := effectRows matched in
  let text := decisionText (js_sort denial_compare (omap row_denial rows))
                (pushRequirements (fold_left collect rows nothing_collected) f context) in
  (text = "deny" <-> effect_of rows (fun e => e = deny)) /\ (text = "allow" <-> matched = []).
Proof.
  intros Hsound Hf. cbv zeta. rewrite <- denials_nonempty. unfold decisionText.
  destruct (0 <? length (js_sort _ _)) eqn:Ed.
  { split; [done|]. split; [done|]. intros ->. discriminate Ed. }
  split; [split; [intros Hx; destruct (0 <? length (pushRequirements _ _ _)); discriminate Hx|done]|]. split.
  - intros Ha. apply effectRows_nil; [done|]. apply (nothing_pushed _ f context); [by apply effectRows_sound|done| |].
    + destruct (pushRequirements _ _ _); [done|discriminate Ha].
    + apply Nat.ltb_ge in Ed. rewrite js_sort_length in Ed. by apply length_zero_iff_nil, Nat.le_0_r.
  - intros ->. apply Ok_inj in Hf. subst f. vm_compute. reflexivity.
Qed.

(** The decision on the policies that match: a denial denies, nothing matched
    allows, and the requirements are the demands, each once and in order. *)
Definition strictest_reading (policies : list Policy) (context : Context) (d : Decision) : Prop :=
  let matched := bfilter (fun p => policyMatches p context) policies in
  let rows := effectRows matched in
  dc_matched d ≡ₚ matched /\
  (dc_decision d = "deny" <-> effect_of rows (fun e => e = deny)) /\
  (dc_decision d = "allow" <-> matched = []) /\
  (forall r, r ∈ dc_requirements d <-> demands rows context r) /\
  StronglySorted (fun a b => (requirementOrder a < requirementOrder b)%Z) (dc_requirements d).

Lemma decide_policies_Ok policies context d :
  Forall sound_policy policies -> decide_policies policies context = Ok d -> strictest_reading policies context d.
Proof.
  intros Hps Hd. unfold strictest_reading. unfold decide_policies in Hd. set (matched := js_sort policy_compare _) in Hd. cbv zeta.
  set (matching := bfilter _ policies) in *.
  assert (matched ≡ₚ matching) as HP by apply js_sort_Permutation.
  assert (Forall sound_policy matched) as Hsound.
  { rewrite HP. apply Forall_forall. intros p [_ Hp]%elem_of_bfilter. rewrite Forall_forall in Hps. by apply Hps. }
  assert (effectRows matched ≡ₚ effectRows matching) as HR by (by rewrite HP).
  apply bind_Ok in Hd as ([[requirements denials] codes] & (f & Hf & -> & -> & ->)%compileRequirements_Ok & Hd).
  apply Ok_inj in Hd. subst d. simpl. destruct (decisionText_spec matched f context Hsound Hf) as [Hdeny Hallow].
  split; [done|]. split; [|split; [|split]].
  - rewrite <- (Exists_perm _ _ HR (fun row => ef_kind row.2 = deny)). exact Hdeny.
  - transitivity (matched = []); [exact Hallow|]. split; intros Hn; apply Permutation_nil_r.
    + by rewrite <- HP, Hn.
    + by rewrite HP, Hn.
  - intros r. rewrite pushRequirements_demands by (by try apply effectRows_sound). split; apply demands_perm; [done|by symmetry].
  - apply requirements_ranked.
Qed.

(** ** The order of the policies *)

Lemma distinctIdentities_Permutation ps ps' : ps ≡ₚ ps' -> distinctIdentities ps = Ok tt -> distinctIdentities ps' = Ok tt.
Proof. intros HP. unfold distinctIdentities. by rewrite !distinctBy_Ok, (Permutation_map identity HP). Qed.

Lemma ranked_unique l l' :
  StronglySorted (fun a b => (requirementOrder a < requirementOrder b)%Z) l ->
  StronglySorted (fun a b => (requirementOrder a < requirementOrder b)%Z) l' ->
  (forall r, r ∈ l <-> r ∈ l') -> l = l'.
Proof.
  assert (forall l, StronglySorted (fun a b => (requirementOrder a < requirementOrder b)%Z) l -> NoDup l) as Hnd.
  { induction 1 as [|a l0 _ IH Ha]; constructor; [|done]. rewrite Forall_forall in Ha. intros Hin%Ha. lia. }
  intros Hl Hl' Hin. apply (StronglySorted_unique_strong (fun a b => (requirementOrder a < requirementOrder b)%Z));
    [intros; lia|done|done|]. by apply NoDup_Permutation; [apply Hnd|apply Hnd|].
Qed.

Lemma resolve_Permutation rows rows' f : rows ≡ₚ rows' ->
  resolveForcedEnvironment rows = Ok f -> resolveForcedEnvironment rows' = Ok f.
Proof.
  intros HP. rewrite !resolveForcedEnvironment_spec. destruct f as [[e z]|]; [by apply strongest_perm|].
  intros Hno z e Hf. by apply (Hno z e), (Exists_perm _ _ HP).
Qed.

(** What a listing in another order cannot change. *)
Definition same_demands (d d' : Decision) : Prop :=
  dc_decision d' = dc_decision d /\ dc_requirements d' = dc_requirements d /\
  dc_reason_codes d' = dc_reason_codes d /\ dc_context_sha256 d' = dc_context_sha256 d /\
  dc_denials d' ≡ₚ dc_denials d /\ dc_matched d' ≡ₚ dc_matched d.

Lemma decide_policies_Permutation ps ps' context d : Forall sound_policy ps -> ps ≡ₚ ps' ->
  decide_policies ps context = Ok d -> exists d', decide_policies ps' context = Ok d' /\ same_demands d d'.
Proof.
  intros Hps HP Hd. unfold decide_policies in *.
  set (matched := js_sort policy_compare _) in Hd. set (matched' := js_sort policy_compare _).
  assert (matched ≡ₚ matched') as HM.
  { unfold matched, matched'. by rewrite !js_sort_Permutation, (bfilter_Permutation _ _ _ HP). }
  assert (effectRows matched ≡ₚ effectRows matched') as HR by (by rewrite HM).
  assert (Forall (fun row => sound_effect (ef_kind row.2)) (effectRows matched)) as Hsound.
  { apply effectRows_sound. unfold matched. rewrite js_sort_Permutation. apply Forall_forall.
    intros p [_ Hp]%elem_of_bfilter. rewrite Forall_forall in Hps. by apply Hps. }
  apply bind_Ok in Hd as ([[requirements denials] codes] & (f & Hf & -> & -> & ->)%compileRequirements_Ok & Hd).
  apply Ok_inj in Hd. subst d. pose proof (resolve_Permutation _ _ _ HR Hf) as Hf'.
  eexists. split; [erewrite bind_step by (apply compileRequirements_Ok; eexists; split; [exact Hf'|done]); reflexivity|].
  assert (omap row_denial (effectRows matched') ≡ₚ omap row_denial (effectRows matched)) as HD by (by rewrite HR).
  assert (pushRequirements (fold_left collect (effectRows matched') nothing_collected) f context
    = pushRequirements (fold_left collect (effectRows matched) nothing_collected) f context) as Hreq.
  { apply ranked_unique; [apply requirements_ranked..|]. intros r. rewrite !pushRequirements_demands by (try done; by rewrite <- HR).
    split; apply demands_perm; by rewrite HR. }
  unfold same_demands. simpl. rewrite Hreq. repeat split; [| |by rewrite !js_sort_Permutation|by symmetry].
  - by rewrite !js_sort_length, HD.
  - unfold sorted. apply sort_strings_Permutation. f_equiv. intros k.
    rewrite !fold_sets, (Exists_perm _ _ HR). done.
Qed.

(** A collation that tells keys apart leaves no choice. *)
Lemma decide_policies_same `{!JsHostLaws} ps ps' context :
  (forall a b, locale_compare a b = Eq -> a = b) -> NoDup (List.map identity ps) -> ps ≡ₚ ps' ->
  decide_policies ps' context = decide_policies ps context.
Proof.
  intros Hloc Hnd HP. unfold decide_policies.
  assert (CmpOrder policy_compare) as Hcmp.
  { apply cmp_lex; [apply (cmp_by_key pl_priority (fun x y => Z.compare y x) (CmpOrder0:=GrowthConfig.zcompare_desc))|apply cmp_lex].
    - apply (cmp_by_key pl_policy_key locale_compare).
    - apply (cmp_by_key pl_policy_version_id locale_compare). }
  assert (js_sort policy_compare (bfilter (fun p => policyMatches p context) ps)
    = js_sort policy_compare (bfilter (fun p => policyMatches p context) ps')) as ->; [|done].
  apply js_sort_ext_perm; [done| |by apply bfilter_Permutation].
  intros p q [_ Hp]%elem_of_bfilter [_ Hq]%elem_of_bfilter Heq. unfold policy_compare, cmp_or in Heq.
  destruct (Z.compare _ _); [|done|done]. destruct (locale_compare (pl_policy_key p) _) eqn:E; [|done|done].
  apply Hloc in E, Heq. apply (NoDup_map_inj identity ps); [done..|]. unfold identity. by rewrite E, Heq.
Qed.

Lemma compileDecision_Ok args d hash : compileGrowthControlPolicyDecision args = Ok (d, hash) <->
  exists l context policies,
    oget_default args "policies" (VArr []) = VArr l /\ length l <= MAX_POLICY_COUNT /\
    assertBoundedInput contract
      (VObj [("policies", VArr l); ("context", oget_default args "context" (VObj []))]) = Ok tt /\
    assertSensitiveFree contract
      (VObj [("policies", VArr l); ("context", oget_default args "context" (VObj []))]) "input" 12 = Ok tt /\
    normalizeContext (oget_default args "context" (VObj [])) = Ok context /\
    normalizeItems normalizePolicy l "policies" = Ok policies /\ distinctIdentities policies = Ok tt /\
    decide_policies policies context = Ok d /\ hash = stableSha256 (js_of_decision d context).
Proof.
  unfold compileGrowthControlPolicyDecision. cbv zeta. split.
  - intros ([] & Hb & Hc)%bind_Ok. apply bind_Ok in Hc as ([] & Hs & Hc). case_match; try done. rename l into l0.
    apply bind_Ok in Hc as ([] & Hl%throw_if_Ok & Hc). apply bind_Ok in Hc as (context & Hcx & Hc).
    apply bind_Ok in Hc as (policies & Hn & Hc). apply bind_Ok in Hc as ([] & Hi & Hc).
    apply bind_Ok in Hc as (d' & Hd & Hc). apply Ok_inj in Hc. injection Hc as <- <-.
    exists l0, context, policies. split; [done|]. split; [by apply Nat.ltb_ge|]. done.
  - intros (l & context & policies & -> & Hl & Hb & Hs & Hcx & Hn & Hi & Hd & ->).
    rewrite (bind_step _ _ _ Hb), (bind_step _ _ _ Hs), (bind_step _ _ tt) by (by apply throw_if_false, Nat.ltb_ge).
    by rewrite (bind_step _ _ _ Hcx), (bind_step _ _ _ Hn), (bind_step _ _ _ Hi), (bind_step _ _ _ Hd).
Qed.

Lemma normalizeItems_sound l field policies :
  normalizeItems normalizePolicy l field = Ok policies -> Forall sound_policy policies.
Proof.
  intros Hn. apply (normalizeItems_Ok _ normalizePolicy_field) in Hn. eapply Forall2_Forall_r; [exact Hn|].
  apply Forall_forall. intros value _ p. apply normalizePolicy_sound.
Qed.

(** C11: A decision is the strictest reading of the policies that match its
    context: it denies exactly when one of them denies and allows without
    requirements exactly when none matches; otherwise it asks for exactly what
    they demand together (the least of the limits, the union of the keys, the
    strictest approval, the environment forced at the highest priority). *)
Theorem compileGrowthControlPolicyDecision_strictest args d hash :
  compileGrowthControlPolicyDecision args = Ok (d, hash) ->
  exists context policies,
    normalizeContext (oget_default args "context" (VObj [])) = Ok context /\
    (exists l, oget_default args "policies" (VArr []) = VArr l /\ normalizeItems normalizePolicy l "policies" = Ok policies) /\
    strictest_reading policies context d.
Proof.
  intros (l & context & policies & Hl & _ & _ & _ & Hcx & Hn & _ & Hd & _)%compileDecision_Ok.
  exists context, policies. split; [done|]. split; [by exists l|].
  apply decide_policies_Ok; [by eapply normalizeItems_sound|done].
Qed.

(** C12: The order in which the policies are listed changes neither whether there
    is a decision nor what it decides and demands; when the collation tells
    different keys apart, the whole decision and its hash are the same. *)
Theorem compileGrowthControlPolicyDecision_order_independent `{!JsHostLaws} policies policies' context d hash :
  policies ≡ₚ policies' ->
  compileGrowthControlPolicyDecision [("policies", VArr policies); ("context", context)] = Ok (d, hash) ->
  exists d' hash',
    compileGrowthControlPolicyDecision [("policies", VArr policies'); ("context", context)] = Ok (d', hash') /\
    same_demands d d' /\ ((forall a b, locale_compare a b = Eq -> a = b) -> d' = d /\ hash' = hash).
Proof.
  intros HP (l & cx & ps & Hl & Hlen & Hb & Hs & Hcx & Hn & Hi & Hd & ->)%compileDecision_Ok.
  injection Hl as <-. pose proof (normalizeItems_sound _ _ _ Hn) as Hsound.
  destruct (normalizeItems_Permutation _ normalizePolicy_field _ _ _ _ HP Hn) as (ps' & HP' & Hn').
  destruct (decide_policies_Permutation _ _ cx d Hsound HP' Hd) as (d' & Hd' & Hsame).
  exists d', (stableSha256 (js_of_decision d' cx)). split; [|split; [done|]].
  - destruct (checked_Permutation _ _ _ _ _ _ _ HP Hb Hs) as [Hb' Hs']. apply compileDecision_Ok.
    exists policies', cx, ps'. split; [done|]. split; [by rewrite <- HP|]. split; [done|]. split; [done|].
    split; [done|]. split; [done|]. split; [by eapply distinctIdentities_Permutation|done].
  - intros Hloc. apply distinctBy_Ok in Hi.
    rewrite (decide_policies_same ps ps' cx Hloc Hi HP'), Hd in Hd'. by injection Hd' as ->.
Qed.
End Decision.

(** ** Concrete policies *)

Definition demo_policy (key : string) (priority : Z) (conditions effects : list jsval) : jsval := VObj
  [("immutable", VBool true); ("policy_key", VStr key); ("policy_version_id", VStr "v1"); ("version", VNum (Some 1%Z));
   ("priority", VNum (Some priority)); ("conditions", VArr conditions); ("effects", VArr effects)].

Definition demo_effect (type : string) (rest : jsobj) : jsval := VObj (("type", VStr type) :: rest).

(** A large budget needs an approval and readback; two limits, of which the
    smaller counts; a policy for production that does not match. *)
Definition demo_policies : list jsval :=
  [demo_policy "spend.review" 10
     [VObj [("field", VStr "budget_amount"); ("operator", VStr "greater_than"); ("value", VNum (Some 100%Z))]]
     [demo_effect "require_approval" [("profile", VObj [("expires_in_seconds", VNum (Some 900%Z))])];
      demo_effect "require_readback" []];
   demo_policy "resource.cap" 5 []
     [demo_effect "limit_resources" [("maximum", VNum (Some 5%Z))];
      demo_effect "limit_resources" [("maximum", VNum (Some 3%Z))]];
   demo_policy "many.resources" 5
     [VObj [("field", VStr "resource_count"); ("operator", VStr "greater_than"); ("value", VNum (Some 8%Z))]]
     [demo_effect "deny" []]].

Definition demo_context : jsval := VObj
  [("tenant_id", VStr "tenant-1"); ("operation_key", VStr "ads.launch"); ("capability_key", VStr "ads.write");
   ("resource_ids", VArr [VStr "campaign-1"]); ("budget_amount", VNum (Some 500%Z))].

Definition demo_args (policies : list jsval) : jsobj := [("policies", VArr policies); ("context", demo_context)].

Definition no_decision : Decision :=
  {| dc_decision := ""; dc_requirements := []; dc_denials := []; dc_matched := []; dc_reason_codes := [];
     dc_context_sha256 := "" |}.

Definition demo_decision (policies : list jsval) : Decision * string :=
  catch (compileGrowthControlPolicyDecision (H:=demo_host) (demo_args policies)) (no_decision, "").

Definition demo_requirements : list Requirement :=
  [rq_limit_resources 3;
   rq_approval {| ap_required_roles := ["supervisor"]; ap_separation_of_duties := false; ap_expires_in_seconds := 900;
                  ap_delegation_allowed := false; ap_max_resource_count := 10000 |} "development";
   rq_readback ["mutation.readback"]].

Lemma demo_compiles : compileGrowthControlPolicyDecision (H:=demo_host) (demo_args demo_policies)
  = Ok (demo_decision demo_policies).
Proof. vm_compute. reflexivity. Qed.

Lemma compileGrowthControlPolicyDecision_strictest_witness :
  dc_requirements (demo_decision demo_policies).1 = demo_requirements /\
  exists context policies,
    normalizeContext (H:=demo_host) demo_context = Ok context /\
    (exists l, VArr demo_policies = VArr l /\ normalizeItems (normalizePolicy (H:=demo_host)) l "policies" = Ok policies) /\
    strictest_reading (H:=demo_host) policies context (demo_decision demo_policies).1.
Proof.
  split; [vm_compute; reflexivity|].
  apply (compileGrowthControlPolicyDecision_strictest (H:=demo_host) (demo_args demo_policies) _ (demo_decision demo_policies).2).
  rewrite demo_compiles. by destruct (demo_decision demo_policies).
Defined.

Lemma compileGrowthControlPolicyDecision_order_independent_witness :
  exists d' hash',
    compileGrowthControlPolicyDecision (H:=demo_host) (demo_args (rev demo_policies)) = Ok (d', hash') /\
    same_demands (demo_decision demo_policies).1 d' /\
    ((forall a b, locale_compare (JsHost:=demo_host) a b = Eq -> a = b) ->
     d' = (demo_decision demo_policies).1 /\ hash' = (demo_decision demo_policies).2).
Proof.
  apply (compileGrowthControlPolicyDecision_order_independent (H:=demo_host) (H0:=demo_host_laws)
           demo_policies (rev demo_policies) demo_context).
  - symmetry. apply Permutation_rev.
  - etransitivity; [exact demo_compiles|]. by destruct (demo_decision demo_policies).
Defined.
End PolicyDemands.
