(* ===== verification/EffectReconciliation.v ===== *)
(** * Growth control plane: reconciliation of provider effects
    (src/domain/growthControlPlane/growthControlProviderEffectReconciliation.js)

    After a mutation whose outcome is not known, a readback of the provider is
    classified against the receipt of the mutation, and a rollback contract is
    compiled from a classification that found effects.  Proved: what a readback
    that is accepted says of every requested action, that no classification
    allows a retry of an action that took effect, and that a rollback covers
    exactly the effects of the classification it is compiled from. *)
From S2P Require Import Prelude Sorting JsString JsDate JsValue JsJson GrowthControl GrowthConfig ActivityPack GrowthInput.

Module EffectReconciliation.
Import GrowthControl ActivityPack GrowthInput.

(** ** Data *)

Definition contract : InputContract := {|
  ic_subject := "Reconciliation input";
  ic_invalid := "GROWTH_CONTROL_RECONCILIATION_INPUT_INVALID";
  ic_sensitive := "GROWTH_CONTROL_RECONCILIATION_SENSITIVE_INPUT";
  ic_oversized := "GROWTH_CONTROL_RECONCILIATION_INPUT_OVERSIZED";
  ic_bytes := MAX_INPUT_BYTES;
  ic_secret := sensitive_value;
  ic_depth := 14;
  ic_safe_flags := ["secretsIncluded"; "secrets_included"];
  ic_safe_any := false;
  ic_reports_maximum := false;
|}.

Inductive EffectState := effect_applied | effect_not_applied | effect_partial | effect_unknown.

#[export] Instance effect_state_eq_dec : EqDecision EffectState.
Proof. solve_decision. Defined.

Definition EFFECT_STATES : list EffectState := [effect_applied; effect_not_applied; effect_partial; effect_unknown].

Definition state_text (s : EffectState) : string :=
  match s with
  | effect_applied => "applied"
  | effect_not_applied => "not_applied"
  | effect_partial => "partial"
  | effect_unknown => "unknown"
  end.

Record ReceiptBinding := {
  rb_receiptId : string;
  rb_planId : string;
  rb_planStepId : string;
  rb_tenantId : string;
  rb_operationKey : string;
  rb_idempotencyKey : string;
  rb_requestSha256 : string;
  rb_planHashSha256 : string;
  rb_nodeId : string;
  rb_capabilityKey : string;
  rb_actionIds : list string;
  rb_resourceIds : list string;
  rb_environment : string;
  rb_effectClass : string;
}.

Record Readback := {
  bk_contractVersion : string;
  bk_effectState : EffectState;
  bk_requestSha256 : string;
  bk_planHashSha256 : string;
  bk_actionIds : list string;
  bk_resourceIds : list string;
  bk_appliedActionIds : list string;
  bk_unappliedActionIds : list string;
  bk_providerOperationRef : string;
  bk_evidenceRef : string;
  bk_observedAt : string;
  bk_providerStateSha256 : string;
  bk_resultSha256 : option string;
  bk_certificationSha256 : string;
  bk_readbackContractKey : string;
  bk_secretsExcluded : bool;         (* [secretsIncluded === false] *)
}.

Record Projection := {
  pj_outcome : string;
  pj_receiptTransition : string;
  pj_stepDisposition : string;
  pj_retryDisposition : string;
  pj_newRequestRequired : bool;
  pj_rollbackRequired : bool;
}.

(** A classification: the parts it is made of. *)
Record Reconciliation := {
  rc_binding : ReceiptBinding;
  rc_readback : Readback;
  rc_projection : Projection;
}.

Record Rollback := {
  rl_source_reconciliation_sha256 : jsval;
  rl_source_receipt_id : jsval;
  rl_source_request_sha256 : jsval;
  rl_plan_id : jsval;
  rl_plan_step_id : jsval;
  rl_tenant_id : jsval;
  rl_rollback_capability_key : string;
  rl_rollback_action_ids : list string;
  rl_resource_ids : list string;
  rl_environment : string;
  rl_endpoint_key : string;
  rl_certification_key : string;
  rl_approval_profile_key : string;
  rl_readback_key : string;
  rl_expires_in_seconds : Z;
  rl_max_attempts : Z;
}.

Definition js_strings (l : list string) : jsval := VArr (List.map VStr l).

(** [missingFrom(expected, observed)] *)
Definition missingFrom (expected observed : list string) : list string :=
  bfilter (fun value => negb (sin value observed)) expected.

Definition outcomeProjection (effectState : EffectState) : Projection :=
  match effectState with
  | effect_applied =>
      {| pj_outcome := "confirmed_applied"; pj_receiptTransition := "reconciled";
         pj_stepDisposition := "complete_from_readback"; pj_retryDisposition := "forbidden";
         pj_newRequestRequired := false; pj_rollbackRequired := false |}
  | effect_not_applied =>
      {| pj_outcome := "confirmed_not_applied"; pj_receiptTransition := "reconciled";
         pj_stepDisposition := "repair_new_request_required"; pj_retryDisposition := "new_request_only";
         pj_newRequestRequired := true; pj_rollbackRequired := false |}
  | effect_partial =>
      {| pj_outcome := "partial_effect"; pj_receiptTransition := "reconciled";
         pj_stepDisposition := "rollback_or_manual_repair_required"; pj_retryDisposition := "forbidden";
         pj_newRequestRequired := false; pj_rollbackRequired := true |}
  | effect_unknown =>
      {| pj_outcome := "inconclusive"; pj_receiptTransition := "unknown_outcome";
         pj_stepDisposition := "readback_required"; pj_retryDisposition := "forbidden";
         pj_newRequestRequired := false; pj_rollbackRequired := false |}
  end.

Section Reconcile.
Context `{JsHost}.

(** [sameList(left, right)]; the arguments need not be lists. *)
Definition sameList (left right : jsval) : bool := String.eqb (stableSha256 left) (stableSha256 right).

(** ** Normalisation *)

Definition boundedReference (value : jsval) (field : string) : js string :=
  let normalized := js_trim (str_coalesce value) in
  throw_if (is_empty normalized || (512 <? String.length normalized) || sensitive_value normalized)
    (invalid contract " must be a bounded no-secret evidence reference." field "invalid_evidence_reference" []);;
  Ok normalized.

Definition isoInstant (value : jsval) (field : string) : js string :=
  t ← instant contract value field; Ok (toISOString t).

Definition normalizeBinding (source : jsval) : js ReceiptBinding :=
  throw_if (negb (is_record source))
    (fail "GROWTH_CONTROL_RECONCILIATION_BINDING_INVALID" "receiptBinding must be an object." "receiptBinding"
       "invalid_type" []);;
  receiptId ← identifier contract (either source "receiptId" "receipt_id") "receiptBinding.receiptId";
  planId ← identifier contract (either source "planId" "plan_id") "receiptBinding.planId";
  planStepId ← identifier contract (either source "planStepId" "plan_step_id") "receiptBinding.planStepId";
  tenantId ← identifier contract (either source "tenantId" "tenant_id") "receiptBinding.tenantId";
  operationKey ← canonical contract (either source "operationKey" "operation_key") "receiptBinding.operationKey";
  idempotencyKey ← identifier contract (either source "idempotencyKey" "idempotency_key")
                     "receiptBinding.idempotencyKey";
  requestSha256 ← sha256 contract (either source "requestSha256" "request_sha256") "receiptBinding.requestSha256";
  planHashSha256 ← sha256 contract (either source "planHashSha256" "plan_hash_sha256")
                     "receiptBinding.planHashSha256";
  nodeId ← canonical contract (either source "nodeId" "node_id") "receiptBinding.nodeId";
  capabilityKey ← canonical contract (either source "capabilityKey" "capability_key")
                    "receiptBinding.capabilityKey";
  actionIds ← sortedUnique contract (canonical contract) true (either source "actionIds" "action_ids")
                "receiptBinding.actionIds";
  resourceIds ← sortedUnique contract (identifier contract) true (either source "resourceIds" "resource_ids")
                  "receiptBinding.resourceIds";
  environment ← canonical contract (vget source "environment") "receiptBinding.environment";
  effectClass ← canonical contract (either source "effectClass" "effect_class") "receiptBinding.effectClass";
  Ok {| rb_receiptId := receiptId; rb_planId := planId; rb_planStepId := planStepId; rb_tenantId := tenantId;
        rb_operationKey := operationKey; rb_idempotencyKey := idempotencyKey; rb_requestSha256 := requestSha256;
        rb_planHashSha256 := planHashSha256; rb_nodeId := nodeId; rb_capabilityKey := capabilityKey;
        rb_actionIds := actionIds; rb_resourceIds := resourceIds; rb_environment := environment;
        rb_effectClass := effectClass |}.

Definition readback_invalid (message field name : string) : jserror :=
  fail "GROWTH_CONTROL_RECONCILIATION_READBACK_INVALID" message field name [].

Definition effectStateOf (value : jsval) : js EffectState :=
  let text := js_toLowerCase (js_trim (str_coalesce value)) in
  match List.find (fun s => String.eqb (state_text s) text) EFFECT_STATES with
  | Some s => Ok s
  | None => Throw (readback_invalid "readback.effectState is unsupported." "readback.effectState"
                     "unsupported_effect_state")
  end.

Definition normalizeReadback (source : jsval) : js Readback :=
  throw_if (negb (is_record source)) (readback_invalid "readback must be an object." "readback" "invalid_type");;
  effectState ← effectStateOf (either source "effectState" "effect_state");
  contractVersion ← canonical contract (either source "contractVersion" "contract_version")
                      "readback.contractVersion";
  requestSha256 ← sha256 contract (either source "requestSha256" "request_sha256") "readback.requestSha256";
  planHashSha256 ← sha256 contract (either source "planHashSha256" "plan_hash_sha256") "readback.planHashSha256";
  actionIds ← sortedUnique contract (canonical contract) true (either source "actionIds" "action_ids")
                "readback.actionIds";
  resourceIds ← sortedUnique contract (identifier contract) true (either source "resourceIds" "resource_ids")
                  "readback.resourceIds";
  appliedActionIds ← sortedUnique contract (canonical contract) false
                       (either source "appliedActionIds" "applied_action_ids") "readback.appliedActionIds";
  unappliedActionIds ← sortedUnique contract (canonical contract) false
                         (either source "unappliedActionIds" "unapplied_action_ids") "readback.unappliedActionIds";
  providerOperationRef ← boundedReference (either source "providerOperationRef" "provider_operation_ref")
                           "readback.providerOperationRef";
  evidenceRef ← boundedReference (either source "evidenceRef" "evidence_ref") "readback.evidenceRef";
  observedAt ← isoInstant (either source "observedAt" "observed_at") "readback.observedAt";
  providerStateSha256 ← sha256 contract (either source "providerStateSha256" "provider_state_sha256")
                          "readback.providerStateSha256";
  resultSha256 ← nullable (sha256 contract) (either source "resultSha256" "result_sha256") "readback.resultSha256";
  certificationSha256 ← sha256 contract (either source "certificationSha256" "certification_sha256")
                          "readback.certificationSha256";
  readbackContractKey ← canonical contract (either source "readbackContractKey" "readback_contract_key")
                          "readback.readbackContractKey";
  Ok {| bk_contractVersion := contractVersion; bk_effectState := effectState; bk_requestSha256 := requestSha256;
        bk_planHashSha256 := planHashSha256; bk_actionIds := actionIds; bk_resourceIds := resourceIds;
        bk_appliedActionIds := appliedActionIds; bk_unappliedActionIds := unappliedActionIds;
        bk_providerOperationRef := providerOperationRef; bk_evidenceRef := evidenceRef; bk_observedAt := observedAt;
        bk_providerStateSha256 := providerStateSha256; bk_resultSha256 := resultSha256;
        bk_certificationSha256 := certificationSha256; bk_readbackContractKey := readbackContractKey;
        bk_secretsExcluded := is_false (vget source "secretsIncluded") || is_false (vget source "secrets_included") |}.

(** ** Validation *)

(** [mismatches] *)
Definition bindingMismatches (readback : Readback) (binding : ReceiptBinding) : list string :=
  (if String.eqb (bk_requestSha256 readback) (rb_requestSha256 binding) then [] else ["request_sha256"])
  ++ (if String.eqb (bk_planHashSha256 readback) (rb_planHashSha256 binding) then [] else ["plan_hash_sha256"])
  ++ (if sameList (js_strings (bk_actionIds readback)) (js_strings (rb_actionIds binding)) then [] else ["action_ids"])
  ++ (if sameList (js_strings (bk_resourceIds readback)) (js_strings (rb_resourceIds binding)) then []
      else ["resource_ids"])
  ++ (if bk_secretsExcluded readback then [] else ["secrets_included"]).

Definition validateBinding (readback : Readback) (binding : ReceiptBinding) : js unit :=
  let mismatches := bindingMismatches readback binding in
  throw_if (0 <? length mismatches)
    (fail "GROWTH_CONTROL_RECONCILIATION_BINDING_MISMATCH"
       "Readback does not match the immutable mutation receipt binding." "readback" "binding_mismatch"
       [("mismatch_fields", js_strings (sort_strings mismatches))]).

Definition partition_invalid (message name : string) (extra : jsobj) : jserror :=
  fail "GROWTH_CONTROL_RECONCILIATION_PARTITION_INVALID" message "readback" name extra.

Definition state_invalid (message name : string) : jserror :=
  fail "GROWTH_CONTROL_RECONCILIATION_STATE_INVALID" message "readback.effectState" name [].

(** [state !== "unknown"] and the like *)
Definition is_state (s t : EffectState) : bool := String.eqb (state_text s) (state_text t).

Definition is_nil {A} (l : list A) : bool := length l =? 0.

Definition validateEffectPartition (readback : Readback) (binding : ReceiptBinding) : js unit :=
  let expected := rb_actionIds binding in
  let applied := bk_appliedActionIds readback in
  let unapplied := bk_unappliedActionIds readback in
  let state := bk_effectState readback in
  let no_result := match bk_resultSha256 readback with Some _ => false | None => true end in
  let overlap := bfilter (fun value => sin value unapplied) applied in
  let unknownApplied := missingFrom applied expected in
  let unknownUnapplied := missingFrom unapplied expected in
  throw_if (negb (is_nil overlap) || negb (is_nil unknownApplied) || negb (is_nil unknownUnapplied))
    (partition_invalid "Readback action partitions overlap or reference actions outside the request."
       "invalid_action_partition"
       [("overlap", js_strings overlap); ("unknown_applied", js_strings unknownApplied);
        ("unknown_unapplied", js_strings unknownUnapplied)]);;
  let partition := unique_sorted (applied ++ unapplied) in
  throw_if (negb (is_state state effect_unknown) && negb (sameList (js_strings partition) (js_strings expected)))
    (partition_invalid "Conclusive readback must partition every requested action." "incomplete_action_partition"
       [("missing_actions", js_strings (missingFrom expected partition))]);;
  throw_if (is_state state effect_applied
            && (negb (sameList (js_strings applied) (js_strings expected)) || negb (is_nil unapplied) || no_result))
    (state_invalid "Applied readback must confirm all actions and provide a result hash." "applied_contract_mismatch");;
  throw_if (is_state state effect_not_applied
            && (negb (is_nil applied) || negb (sameList (js_strings unapplied) (js_strings expected))))
    (state_invalid "Not-applied readback must confirm that no requested action took effect."
       "not_applied_contract_mismatch");;
  throw_if (is_state state effect_partial && (is_nil applied || is_nil unapplied || no_result))
    (state_invalid
       "Partial readback must identify both applied and unapplied actions and provide a result hash."
       "partial_contract_mismatch").

(** ** The classification *)

Definition readbackEvidence (readback : Readback) : jsobj :=
  [("contract_version", VStr (bk_contractVersion readback));
   ("effect_state", VStr (state_text (bk_effectState readback)));
   ("request_sha256", VStr (bk_requestSha256 readback));
   ("plan_hash_sha256", VStr (bk_planHashSha256 readback));
   ("action_ids", js_strings (bk_actionIds readback));
   ("resource_ids", js_strings (bk_resourceIds readback));
   ("applied_action_ids", js_strings (bk_appliedActionIds readback));
   ("unapplied_action_ids", js_strings (bk_unappliedActionIds readback));
   ("provider_operation_ref", VStr (bk_providerOperationRef readback));
   ("evidence_ref", VStr (bk_evidenceRef readback));
   ("observed_at", VStr (bk_observedAt readback));
   ("provider_state_sha256", VStr (bk_providerStateSha256 readback));
   ("result_sha256", js_of_optional (bk_resultSha256 readback));
   ("certification_sha256", VStr (bk_certificationSha256 readback));
   ("readback_contract_key", VStr (bk_readbackContractKey readback));
   ("secrets_included", VBool false)].

(** [withoutHash] *)
Definition reconciliation_fields (r : Reconciliation) : jsobj :=
  let binding := rc_binding r in
  let readback := rc_readback r in
  let projection := rc_projection r in
  let evidence := readbackEvidence readback in
  [("contract_version", VStr "growth-control-provider-effect-reconciliation-v1");
   ("receipt_id", VStr (rb_receiptId binding)); ("plan_id", VStr (rb_planId binding));
   ("plan_step_id", VStr (rb_planStepId binding)); ("tenant_id", VStr (rb_tenantId binding));
   ("operation_key", VStr (rb_operationKey binding)); ("idempotency_key", VStr (rb_idempotencyKey binding));
   ("request_sha256", VStr (rb_requestSha256 binding)); ("plan_hash_sha256", VStr (rb_planHashSha256 binding));
   ("node_id", VStr (rb_nodeId binding)); ("capability_key", VStr (rb_capabilityKey binding));
   ("action_ids", js_strings (rb_actionIds binding)); ("resource_ids", js_strings (rb_resourceIds binding));
   ("environment", VStr (rb_environment binding)); ("effect_class", VStr (rb_effectClass binding));
   ("outcome", VStr (pj_outcome projection)); ("receipt_transition", VStr (pj_receiptTransition projection));
   ("step_disposition", VStr (pj_stepDisposition projection));
   ("retry_disposition", VStr (pj_retryDisposition projection));
   ("new_request_required", VBool (pj_newRequestRequired projection));
   ("rollback_required", VBool (pj_rollbackRequired projection));
   ("applied_action_ids", js_strings (bk_appliedActionIds readback));
   ("unapplied_action_ids", js_strings (bk_unappliedActionIds readback));
   ("readback", VObj (evidence ++ [("readback_sha256", VStr (stableSha256 (VObj evidence)))]));
   ("automatic_retry_allowed", VBool false); ("automatic_rollback_allowed", VBool false);
   ("execution_authorized", VBool false); ("authority_granted", VBool false); ("provider_call_made", VBool false);
   ("provider_dispatch_performed", VBool false); ("external_writes", VBool false); ("secrets_included", VBool false)].

(** The object that is returned, with its hash. *)
Definition js_of_reconciliation (r : Reconciliation) : jsval :=
  VObj (reconciliation_fields r
        ++ [("reconciliation_sha256", VStr (stableSha256 (VObj (reconciliation_fields r))))]).

Definition classifyGrowthControlProviderEffectReadback (args : jsobj) : js Reconciliation :=
  let receiptBinding := oget args "receiptBinding" in
  let readbackInput := oget args "readback" in
  let input := VObj [("receiptBinding", receiptBinding); ("readback", readbackInput)] in
  assertBoundedInput contract input;;
  assertSensitiveFree contract input "input" (ic_depth contract);;
  binding ← normalizeBinding (match receiptBinding with VUndef => VObj [] | v => v end);
  readback ← normalizeReadback (match readbackInput with VUndef => VObj [] | v => v end);
  validateBinding readback binding;;
  validateEffectPartition readback binding;;
  Ok {| rc_binding := binding; rc_readback := readback;
        rc_projection := outcomeProjection (bk_effectState readback) |}.

(** ** The rollback contract *)

Definition source_invalid (message field name : string) : jserror :=
  fail "GROWTH_CONTROL_ROLLBACK_SOURCE_INVALID" message field name [].

Definition scope_mismatch (message field name : string) (extra : jsobj) : jserror :=
  fail "GROWTH_CONTROL_ROLLBACK_SCOPE_MISMATCH" message field name extra.

(** The checks of the reconciliation a rollback starts from. *)
Definition requireReconciliation (reconciliation : jsval) : js unit :=
  throw_if (negb (truthy reconciliation)
            || negb (is_str (vget reconciliation "contract_version") "growth-control-provider-effect-reconciliation-v1"))
    (source_invalid "A canonical reconciliation decision is required." "reconciliation" "contract_mismatch");;
  throw_if (negb (truthy (vget reconciliation "reconciliation_sha256"))
            || negb (is_hex64 (js_String (vget reconciliation "reconciliation_sha256"))))
    (source_invalid "Reconciliation hash is missing or invalid." "reconciliation.reconciliation_sha256"
       "invalid_sha256");;
  throw_if (negb (is_str (vget reconciliation "outcome") "partial_effect"
                  || is_str (vget reconciliation "outcome") "confirmed_applied"))
    (fail "GROWTH_CONTROL_ROLLBACK_NOT_APPLICABLE" "Rollback is only applicable to confirmed applied effects."
       "reconciliation.outcome" "not_applicable" []).

Definition rollbackOf (reconciliation compensation : jsval) : js Rollback :=
  let key := fun a b => canonical contract (either compensation a b) ("compensation." +:+ a) in
  rollbackActionIds ← sortedUnique contract (canonical contract) true
    (either compensation "rollbackActionIds" "rollback_action_ids") "compensation.rollbackActionIds";
  throw_if (negb (sameList (js_strings rollbackActionIds) (vget reconciliation "applied_action_ids")))
    (scope_mismatch "Rollback actions must exactly cover the reconciled applied actions."
       "compensation.rollbackActionIds" "action_scope_mismatch"
       [("expected_action_ids", vget reconciliation "applied_action_ids");
        ("observed_action_ids", js_strings rollbackActionIds)]);;
  resourceIds ← sortedUnique contract (identifier contract) true (either compensation "resourceIds" "resource_ids")
                  "compensation.resourceIds";
  throw_if (negb (sameList (js_strings resourceIds) (vget reconciliation "resource_ids")))
    (scope_mismatch "Rollback resources must exactly match the reconciled resources." "compensation.resourceIds"
       "resource_scope_mismatch" []);;
  environment ← canonical contract (vget compensation "environment") "compensation.environment";
  throw_if (negb (is_str (vget reconciliation "environment") environment))
    (scope_mismatch "Rollback environment must match the reconciled effect environment." "compensation.environment"
       "environment_mismatch" []);;
  capabilityKey ← key "rollbackCapabilityKey" "rollback_capability_key";
  endpointKey ← key "endpointKey" "endpoint_key";
  certificationKey ← key "certificationKey" "certification_key";
  approvalProfileKey ← key "approvalProfileKey" "approval_profile_key";
  readbackKey ← key "readbackKey" "readback_key";
  expiresInSeconds ← boundedInteger contract (either compensation "expiresInSeconds" "expires_in_seconds")
                       "compensation.expiresInSeconds" 300 86400 (Some 3600%Z);
  maxAttempts ← boundedInteger contract (either compensation "maxAttempts" "max_attempts")
                  "compensation.maxAttempts" 1 1 (Some 1%Z);
  Ok {| rl_source_reconciliation_sha256 := vget reconciliation "reconciliation_sha256";
        rl_source_receipt_id := vget reconciliation "receipt_id";
        rl_source_request_sha256 := vget reconciliation "request_sha256";
        rl_plan_id := vget reconciliation "plan_id"; rl_plan_step_id := vget reconciliation "plan_step_id";
        rl_tenant_id := vget reconciliation "tenant_id"; rl_rollback_capability_key := capabilityKey;
        rl_rollback_action_ids := rollbackActionIds; rl_resource_ids := resourceIds;
        rl_environment := environment; rl_endpoint_key := endpointKey; rl_certification_key := certificationKey;
        rl_approval_profile_key := approvalProfileKey; rl_readback_key := readbackKey;
        rl_expires_in_seconds := expiresInSeconds; rl_max_attempts := maxAttempts |}.

(** [base] *)
Definition rollback_fields (r : Rollback) : jsobj :=
  [("contract_version", VStr "growth-control-provider-rollback-contract-v1");
   ("source_reconciliation_sha256", rl_source_reconciliation_sha256 r);
   ("source_receipt_id", rl_source_receipt_id r); ("source_request_sha256", rl_source_request_sha256 r);
   ("plan_id", rl_plan_id r); ("plan_step_id", rl_plan_step_id r); ("tenant_id", rl_tenant_id r);
   ("rollback_capability_key", VStr (rl_rollback_capability_key r));
   ("rollback_action_ids", js_strings (rl_rollback_action_ids r));
   ("resource_ids", js_strings (rl_resource_ids r)); ("environment", VStr (rl_environment r));
   ("endpoint_key", VStr (rl_endpoint_key r)); ("certification_key", VStr (rl_certification_key r));
   ("approval_profile_key", VStr (rl_approval_profile_key r)); ("readback_key", VStr (rl_readback_key r));
   ("expires_in_seconds", VNum (Some (rl_expires_in_seconds r))); ("max_attempts", VNum (Some (rl_max_attempts r)));
   ("approval_required", VBool true); ("final_boundary_required", VBool true);
   ("certification_required", VBool true); ("resource_authority_required", VBool true);
   ("readback_required", VBool true); ("new_mutation_receipt_required", VBool true);
   ("blind_retry_allowed", VBool false); ("automatic_retry_allowed", VBool false);
   ("automatic_rollback_allowed", VBool false); ("execution_authorized", VBool false);
   ("authority_granted", VBool false); ("provider_call_made", VBool false);
   ("provider_dispatch_performed", VBool false); ("external_writes", VBool false); ("secrets_included", VBool false)].

(** [rollback_request_sha256] and [idempotency_key] *)
Definition rollbackHashes (r : Rollback) : string * string :=
  let requestHash := stableSha256 (VObj (rollback_fields r)) in
  (requestHash,
   stableSha256 (VObj [("source_reconciliation_sha256", rl_source_reconciliation_sha256 r);
                       ("rollback_request_sha256", VStr requestHash)])).

(** The contract, its request hash and its idempotency key. *)
Definition compileGrowthControlRollbackContract (args : jsobj) : js (Rollback * (string * string)) :=
  let reconciliation := oget args "reconciliation" in
  let compensation := oget_default args "compensation" (VObj []) in
  let input := VObj [("reconciliation", reconciliation); ("compensation", compensation)] in
  assertBoundedInput contract input;;
  assertSensitiveFree contract input "input" (ic_depth contract);;
  requireReconciliation reconciliation;;
  c ← object_param compensation;
  r ← rollbackOf reconciliation c;
  Ok (r, rollbackHashes r).
End Reconcile.

(** ** What a readback reports *)

Section Reports.
Context `{JsHost}.

(** Different lists with one hash. *)
Definition collide (l k : list string) : Prop := l <> k /\ stableSha256 (js_strings l) = stableSha256 (js_strings k).

Lemma sameList_strings l k : sameList (js_strings l) (js_strings k) = true -> l = k \/ collide l k.
Proof. intros Hs%String.eqb_eq. destruct (decide (l = k)); [by left|by right]. Qed.

Lemma sameList_refl v : sameList v v = true.
Proof. apply String.eqb_refl. Qed.

(** What a readback in each state says of the requested actions. *)
Definition reports (readback : Readback) (actions : list string) : Prop :=
  let applied := bk_appliedActionIds readback in
  let unapplied := bk_unappliedActionIds readback in
  NoDup (applied ++ unapplied) /\ (forall a, a ∈ applied ++ unapplied -> a ∈ actions) /\
  match bk_effectState readback with
  | effect_applied => applied = actions /\ unapplied = [] /\ is_Some (bk_resultSha256 readback)
  | effect_not_applied => applied = [] /\ unapplied = actions
  | effect_partial =>
      applied ++ unapplied ≡ₚ actions /\ applied <> [] /\ unapplied <> [] /\ is_Some (bk_resultSha256 readback)
  | effect_unknown => True
  end.

(** A list of [sortedUnique]. *)
Definition sorted_set (l : list string) : Prop := unique_sorted l = l.

Lemma sorted_set_NoDup l : sorted_set l -> NoDup l.
Proof. intros <-. apply NoDup_unique_sorted. Qed.

Lemma sortedUnique_set ic normalize required values field l :
  sortedUnique ic normalize required values field = Ok l -> sorted_set l.
Proof. unfold sortedUnique. intros Hl. inv_outcome. apply unique_sorted_idemp. Qed.

Lemma unique_sorted_Permutation l k : NoDup l -> sorted_set k -> unique_sorted l = k <-> l ≡ₚ k.
Proof.
  intros Hl Hk. split.
  - intros <-. apply NoDup_Permutation; [done|apply NoDup_unique_sorted|]. intros x. by rewrite elem_of_unique_sorted.
  - intros HP. rewrite <- Hk. apply unique_sorted_ext. intros x. by rewrite HP.
Qed.

Lemma is_nil_true {A} (l : list A) : is_nil l = true <-> l = [].
Proof. unfold is_nil. by rewrite Nat.eqb_eq, length_zero_iff_nil. Qed.

Lemma is_nil_false {A} (l : list A) : is_nil l = false <-> l <> [].
Proof. by rewrite <- not_true_iff_false, is_nil_true. Qed.

Lemma missingFrom_nil l k : missingFrom l k = [] <-> forall a, a ∈ l -> a ∈ k.
Proof.
  unfold missingFrom. rewrite bfilter_nil. split.
  - intros Hn a Ha. specialize (Hn a Ha). rewrite negb_false_iff in Hn. by apply sin_true.
  - intros Hs a Ha. apply negb_false_iff, sin_true. by apply Hs.
Qed.

(** The first check: the parts are disjoint and within the request. *)
Lemma parts_ok A U actions : NoDup A -> NoDup U ->
  negb (is_nil (bfilter (fun value => sin value U) A)) || negb (is_nil (missingFrom A actions))
    || negb (is_nil (missingFrom U actions)) = false
  <-> NoDup (A ++ U) /\ forall a, a ∈ A ++ U -> a ∈ actions.
Proof.
  intros HA HU. rewrite !orb_false_iff, !negb_false_iff, !is_nil_true, !missingFrom_nil, bfilter_nil, NoDup_app.
  setoid_rewrite elem_of_app. setoid_rewrite sin_false. naive_solver.
Qed.

Section Partition.
Variables (readback : Readback) (binding : ReceiptBinding).
Let A := bk_appliedActionIds readback.
Let U := bk_unappliedActionIds readback.
Let actions := rb_actionIds binding.
Hypothesis (HA : sorted_set A) (HU : sorted_set U) (Hactions : sorted_set actions).

(** The lists that are compared by their hash. *)
Definition hashed_apart : Prop := Exists (fun l => collide l actions) [A; U; unique_sorted (A ++ U)].

Lemma hashed_same l : l ∈ [A; U; unique_sorted (A ++ U)] -> sameList (js_strings l) (js_strings actions) = true ->
  l = actions \/ hashed_apart.
Proof.
  intros Hl [Heq|Hc]%sameList_strings; [by left|right]. apply Exists_exists. eauto.
Qed.

(** What is accepted is a report of the requested actions, unless one of the
    compared lists has the hash of another one. *)
Lemma validateEffectPartition_Ok : validateEffectPartition readback binding = Ok tt ->
  (NoDup (A ++ U) /\ forall a, a ∈ A ++ U -> a ∈ actions) /\ (reports readback actions \/ hashed_apart) /\
  (bk_effectState readback = effect_not_applied -> A = []) /\ (bk_effectState readback = effect_partial -> A <> []).
Proof.
  intros Hv. unfold validateEffectPartition in Hv. cbv zeta in Hv. fold A U actions in Hv.
  apply bind_Ok in Hv as ([] & H1%throw_if_Ok & Hv). apply bind_Ok in Hv as ([] & H2%throw_if_Ok & Hv).
  apply bind_Ok in Hv as ([] & H3%throw_if_Ok & Hv). apply bind_Ok in Hv as ([] & H4%throw_if_Ok & H5%throw_if_Ok).
  apply parts_ok in H1 as [Hnd Hsub]; [|by apply sorted_set_NoDup..].
  assert (bk_effectState readback <> effect_unknown -> A ++ U ≡ₚ actions \/ hashed_apart) as Hpart.
  { intros Hs. assert (is_state (bk_effectState readback) effect_unknown = false) as Hu by (by destruct (bk_effectState readback)).
    rewrite Hu in H2. apply negb_false_iff, hashed_same in H2 as [H2|H2]; [left|by right|set_solver].
    by apply unique_sorted_Permutation. }
  split; [done|]. fold A U in Hpart. unfold reports. fold A U.
  assert (match bk_resultSha256 readback with Some _ => false | None => true end = false -> is_Some (bk_resultSha256 readback))
    as Hres by (by destruct (bk_resultSha256 readback)).
  destruct (bk_effectState readback) eqn:Es; simpl in H3, H4, H5; split_bool; rewrite ?is_nil_true in *;
    (split; [|split; intros ?; try done]).
  - destruct (hashed_same A) as [HAeq|]; [set_solver|done| |by right]. left. naive_solver.
  - destruct (hashed_same U) as [HUeq|]; [set_solver|done| |by right]. left. naive_solver.
  - destruct Hpart as [Hpart|]; [done| |by right]. left. split; [done|]. split; [done|]. split; [done|].
    split; [|split]; [| |by apply Hres]; intros Hn; rewrite Hn in *; done.
  - intros Hn. by rewrite Hn in *.
  - left. naive_solver.
Qed.

(** A report of the requested actions is accepted. *)
Lemma reports_accepted : reports readback actions -> validateEffectPartition readback binding = Ok tt.
Proof.
  intros (Hnd & Hsub & Hstate). unfold validateEffectPartition. cbv zeta. fold A U actions. fold A U in Hnd, Hsub, Hstate.
  rewrite (bind_step _ _ tt) by (apply throw_if_false, parts_ok; [by apply sorted_set_NoDup..|done]).
  assert (A ++ U ≡ₚ actions -> unique_sorted (A ++ U) = actions) as Hpart by (by apply unique_sorted_Permutation).
  destruct (bk_effectState readback); cbn.
  - destruct Hstate as (HAe & HUe & [result Hr]). rewrite HUe, app_nil_r in *. rewrite Hpart by (by rewrite HAe).
    by rewrite HAe, Hr, !sameList_refl.
  - destruct Hstate as (HAe & HUe). rewrite HAe, HUe in *. rewrite Hpart by done. by rewrite !sameList_refl.
  - destruct Hstate as (HP & HAn & HUn & [result Hr]). rewrite (Hpart HP), sameList_refl, Hr.
    apply is_nil_false in HAn, HUn. by rewrite HAn, HUn.
  - done.
Qed.
End Partition.

Lemma normalizeBinding_sets source b : normalizeBinding source = Ok b ->
  sorted_set (rb_actionIds b) /\ sorted_set (rb_resourceIds b).
Proof.
  unfold normalizeBinding. intros Hb. do 11 (apply bind_Ok in Hb as (? & _ & Hb)).
  apply bind_Ok in Hb as (actionIds & Ha & Hb). apply bind_Ok in Hb as (resourceIds & Hr & Hb).
  do 2 (apply bind_Ok in Hb as (? & _ & Hb)). apply Ok_inj in Hb. subst b. simpl.
  split; by eapply sortedUnique_set.
Qed.

Lemma normalizeReadback_sets source k : normalizeReadback source = Ok k ->
  sorted_set (bk_appliedActionIds k) /\ sorted_set (bk_unappliedActionIds k).
Proof.
  unfold normalizeReadback. intros Hk. do 7 (apply bind_Ok in Hk as (? & _ & Hk)).
  apply bind_Ok in Hk as (applied & Ha & Hk). apply bind_Ok in Hk as (unapplied & Hu & Hk).
  do 7 (apply bind_Ok in Hk as (? & _ & Hk)). apply Ok_inj in Hk. subst k. simpl.
  split; by eapply sortedUnique_set.
Qed.

Lemma validateBinding_Ok readback binding : validateBinding readback binding = Ok tt ->
  bk_requestSha256 readback = rb_requestSha256 binding /\ bk_planHashSha256 readback = rb_planHashSha256 binding /\
  (bk_resourceIds readback = rb_resourceIds binding \/ collide (bk_resourceIds readback) (rb_resourceIds binding)) /\
  bk_secretsExcluded readback = true.
Proof.
  unfold validateBinding, bindingMismatches. rewrite throw_if_Ok, Nat.ltb_ge, !length_app. intros Hl.
  destruct (String.eqb _ _) eqn:E1 in Hl; [|simpl in Hl; lia]. destruct (String.eqb _ _) eqn:E2 in Hl; [|simpl in Hl; lia].
  destruct (sameList _ _) eqn:E3 in Hl; [|simpl in Hl; lia]. destruct (sameList _ _) eqn:E4 in Hl; [|simpl in Hl; lia].
  apply String.eqb_eq in E1, E2. apply sameList_strings in E4. destruct (bk_secretsExcluded readback); [done|simpl in Hl; lia].
Qed.

(** The steps of a classification. *)
Lemma classify_Ok args r : classifyGrowthControlProviderEffectReadback args = Ok r ->
  sorted_set (rb_actionIds (rc_binding r)) /\ sorted_set (rb_resourceIds (rc_binding r)) /\
  sorted_set (bk_appliedActionIds (rc_readback r)) /\ sorted_set (bk_unappliedActionIds (rc_readback r)) /\
  validateBinding (rc_readback r) (rc_binding r) = Ok tt /\
  validateEffectPartition (rc_readback r) (rc_binding r) = Ok tt /\
  rc_projection r = outcomeProjection (bk_effectState (rc_readback r)).
Proof.
  unfold classifyGrowthControlProviderEffectReadback. cbv zeta. intros Hr.
  do 2 (apply bind_Ok in Hr as (? & _ & Hr)). apply bind_Ok in Hr as (b & Hb & Hr).
  apply bind_Ok in Hr as (k & Hk & Hr). apply bind_Ok in Hr as ([] & Hv & Hr). apply bind_Ok in Hr as ([] & Hp & Hr).
  apply Ok_inj in Hr. subst r. simpl. apply normalizeBinding_sets in Hb as [? ?]. by apply normalizeReadback_sets in Hk as [? ?].
Qed.

(** C17: A classification speaks of exactly the requested actions: the applied and
    the unapplied ones are disjoint and requested, and unless two compared lists
    share a hash they are all of them, divided as the state says.  A new request
    is offered only when nothing was applied, a rollback is required only when
    something was, and an inconclusive readback settles no receipt. *)
Theorem classifyGrowthControlProviderEffectReadback_sound args r :
  classifyGrowthControlProviderEffectReadback args = Ok r ->
  let binding := rc_binding r in
  let readback := rc_readback r in
  let projection := rc_projection r in
  NoDup (bk_appliedActionIds readback ++ bk_unappliedActionIds readback) /\
  (forall a, a ∈ bk_appliedActionIds readback ++ bk_unappliedActionIds readback -> a ∈ rb_actionIds binding) /\
  (reports readback (rb_actionIds binding) \/ hashed_apart readback binding) /\
  bk_requestSha256 readback = rb_requestSha256 binding /\ bk_secretsExcluded readback = true /\
  (pj_retryDisposition projection = "forbidden" \/
   (pj_retryDisposition projection = "new_request_only" /\ bk_appliedActionIds readback = [])) /\
  (pj_rollbackRequired projection = true -> bk_appliedActionIds readback <> []) /\
  (pj_receiptTransition projection = "unknown_outcome" <-> bk_effectState readback = effect_unknown).
Proof.
  intros (Hb & _ & HA & HU & Hv & Hp & ->)%classify_Ok. cbv zeta.
  apply validateEffectPartition_Ok in Hp as ([Hnd Hsub] & Hreports & Hnone & Hsome); [|done..].
  apply validateBinding_Ok in Hv as (Hreq & _ & _ & Hsecrets).
  split; [done|]. split; [done|]. split; [done|]. split; [done|]. split; [done|].
  destruct (bk_effectState (rc_readback r)); simpl; (split; [|split]); try done; try (by left); try naive_solver.
Qed.

(** A receipt and a readback that are well formed, bound to each other and
    report the requested actions are classified. *)
Theorem classifyGrowthControlProviderEffectReadback_complete receiptBinding readbackInput binding readback :
  let args := [("receiptBinding", receiptBinding); ("readback", readbackInput)] in
  assertBoundedInput contract (VObj args) = Ok tt ->
  assertSensitiveFree contract (VObj args) "input" 14 = Ok tt ->
  normalizeBinding receiptBinding = Ok binding -> normalizeReadback readbackInput = Ok readback ->
  bindingMismatches readback binding = [] -> reports readback (rb_actionIds binding) ->
  classifyGrowthControlProviderEffectReadback args =
    Ok {| rc_binding := binding; rc_readback := readback;
          rc_projection := outcomeProjection (bk_effectState readback) |}.
Proof.
  intros args Hbound Hs Hb Hk Hm Hr. unfold classifyGrowthControlProviderEffectReadback. cbv zeta.
  change (oget args "receiptBinding") with receiptBinding. change (oget args "readback") with readbackInput.
  rewrite (bind_step _ _ _ Hbound), (bind_step _ _ _ Hs).
  assert (match receiptBinding with VUndef => VObj [] | v => v end = receiptBinding) as -> by (by destruct receiptBinding).
  assert (match readbackInput with VUndef => VObj [] | v => v end = readbackInput) as -> by (by destruct readbackInput).
  rewrite (bind_step _ _ _ Hb), (bind_step _ _ _ Hk), (bind_step _ _ tt) by (unfold validateBinding; by rewrite Hm).
  destruct (normalizeBinding_sets _ _ Hb) as [? _]. destruct (normalizeReadback_sets _ _ Hk).
  by rewrite (bind_step _ _ tt) by (by apply reports_accepted).
Qed.

(** ** Rollback *)

Lemma requireReconciliation_Ok r : requireReconciliation (js_of_reconciliation r) = Ok tt ->
  pj_outcome (rc_projection r) = "partial_effect" \/ pj_outcome (rc_projection r) = "confirmed_applied".
Proof.
  unfold requireReconciliation. intros Hr. do 2 (apply bind_Ok in Hr as (? & _ & Hr)). apply throw_if_Ok in Hr.
  change (vget (js_of_reconciliation r) "outcome") with (VStr (pj_outcome (rc_projection r))) in Hr. simpl in Hr.
  apply negb_false_iff, orb_true_iff in Hr as [Hr%String.eqb_eq|Hr%String.eqb_eq]; [by left|by right].
Qed.

(** C16: A rollback that is compiled from a classification undoes exactly the
    actions it found applied, on its resources and in its environment (unless two
    compared lists share a hash); it is bound to the hash of the classification,
    runs at most once and expires within a day.  Nothing is rolled back that was
    not applied or could not be confirmed. *)
Theorem compileGrowthControlRollbackContract_covers args r compensation rollback hashes :
  classifyGrowthControlProviderEffectReadback args = Ok r ->
  compileGrowthControlRollbackContract
    [("reconciliation", js_of_reconciliation r); ("compensation", compensation)] = Ok (rollback, hashes) ->
  let applied := bk_appliedActionIds (rc_readback r) in
  let resources := rb_resourceIds (rc_binding r) in
  bk_effectState (rc_readback r) ∈ [effect_applied; effect_partial] /\
  (rl_rollback_action_ids rollback = applied \/ collide (rl_rollback_action_ids rollback) applied) /\
  (rl_resource_ids rollback = resources \/ collide (rl_resource_ids rollback) resources) /\
  rl_rollback_action_ids rollback <> [] /\
  rl_environment rollback = rb_environment (rc_binding r) /\
  rl_tenant_id rollback = VStr (rb_tenantId (rc_binding r)) /\
  rl_source_reconciliation_sha256 rollback = VStr (stableSha256 (VObj (reconciliation_fields r))) /\
  rl_max_attempts rollback = 1%Z /\ (300 <= rl_expires_in_seconds rollback <= 86400)%Z.
Proof.
  intros (_ & _ & _ & _ & _ & _ & Hproj)%classify_Ok Hc. unfold compileGrowthControlRollbackContract in Hc. cbv zeta in *.
  change (oget _ "reconciliation") with (js_of_reconciliation r) in Hc.
  do 2 (apply bind_Ok in Hc as (? & _ & Hc)). apply bind_Ok in Hc as ([] & Hout%requireReconciliation_Ok & Hc).
  apply bind_Ok in Hc as (c & _ & Hc). apply bind_Ok in Hc as (rb & Hrb & Hc). apply Ok_inj in Hc.
  injection Hc as <- <-. rewrite Hproj in Hout.
  split; [destruct (bk_effectState (rc_readback r)); simpl in Hout; set_solver|].
  unfold rollbackOf in Hrb. cbv zeta in Hrb.
  apply bind_Ok in Hrb as (actions & Ha & Hrb). apply bind_Ok in Hrb as ([] & Hsame%throw_if_Ok & Hrb).
  apply bind_Ok in Hrb as (resources & Hr & Hrb). apply bind_Ok in Hrb as ([] & Hres%throw_if_Ok & Hrb).
  apply bind_Ok in Hrb as (environment & _ & Hrb). apply bind_Ok in Hrb as ([] & Henv%throw_if_Ok & Hrb).
  do 5 (apply bind_Ok in Hrb as (? & _ & Hrb)). apply bind_Ok in Hrb as (expires & He & Hrb).
  apply bind_Ok in Hrb as (attempts & Hm & Hrb). apply Ok_inj in Hrb. subst rb. simpl rl_rollback_action_ids.
  apply negb_false_iff, sameList_strings in Hsame. apply negb_false_iff, sameList_strings in Hres.
  apply negb_false_iff, is_str_true in Henv. injection Henv as <-. apply boundedInteger_bounds in He, Hm.
  split; [done|]. split; [done|]. split; [by eapply sortedUnique_required|]. split; [done|]. split; [done|].
  split; [done|]. split; [simpl; lia|done].
Qed.
End Reports.

(** ** A partial effect and its rollback *)

Definition demo_sha : jsval := VStr "0123456789abcdef0123456789abcdef0123456789abcdef0123456789abcdef".
Definition demo_texts (l : list string) : jsval := js_strings l.

Definition demo_receipt : jsval := VObj
  [("receiptId", VStr "receipt-1"); ("planId", VStr "plan-1"); ("planStepId", VStr "step-1");
   ("tenantId", VStr "tenant-1"); ("operationKey", VStr "ads.launch"); ("idempotencyKey", VStr "key-1");
   ("requestSha256", demo_sha); ("planHashSha256", demo_sha); ("nodeId", VStr "launch.node");
   ("capabilityKey", VStr "ads.write"); ("actionIds", demo_texts ["create.ad"; "create.campaign"]);
   ("resourceIds", demo_texts ["campaign-1"]); ("environment", VStr "production"); ("effectClass", VStr "external.write")].

(** One of the two actions took effect. *)
Definition demo_readback : jsval := VObj
  [("contractVersion", VStr "readback.v1"); ("effectState", VStr "partial"); ("requestSha256", demo_sha);
   ("planHashSha256", demo_sha); ("actionIds", demo_texts ["create.campaign"; "create.ad"]);
   ("resourceIds", demo_texts ["campaign-1"]); ("appliedActionIds", demo_texts ["create.campaign"]);
   ("unappliedActionIds", demo_texts ["create.ad"]); ("providerOperationRef", VStr "op-1");
   ("evidenceRef", VStr "evidence-1"); ("observedAt", VStr "2026-01-01T00:00:00.000Z");
   ("providerStateSha256", demo_sha); ("resultSha256", demo_sha); ("certificationSha256", demo_sha);
   ("readbackContractKey", VStr "readback.contract"); ("secretsIncluded", VBool false)].

Definition demo_args : jsobj := [("receiptBinding", demo_receipt); ("readback", demo_readback)].

Definition no_binding : ReceiptBinding :=
  {| rb_receiptId := ""; rb_planId := ""; rb_planStepId := ""; rb_tenantId := ""; rb_operationKey := "";
     rb_idempotencyKey := ""; rb_requestSha256 := ""; rb_planHashSha256 := ""; rb_nodeId := ""; rb_capabilityKey := "";
     rb_actionIds := []; rb_resourceIds := []; rb_environment := ""; rb_effectClass := "" |}.
Definition no_readback : Readback :=
  {| bk_contractVersion := ""; bk_effectState := effect_unknown; bk_requestSha256 := ""; bk_planHashSha256 := "";
     bk_actionIds := []; bk_resourceIds := []; bk_appliedActionIds := []; bk_unappliedActionIds := [];
     bk_providerOperationRef := ""; bk_evidenceRef := ""; bk_observedAt := ""; bk_providerStateSha256 := "";
     bk_resultSha256 := None; bk_certificationSha256 := ""; bk_readbackContractKey := ""; bk_secretsExcluded := false |}.
Definition no_rollback : Rollback :=
  {| rl_source_reconciliation_sha256 := VNull; rl_source_receipt_id := VNull; rl_source_request_sha256 := VNull;
     rl_plan_id := VNull; rl_plan_step_id := VNull; rl_tenant_id := VNull; rl_rollback_capability_key := "";
     rl_rollback_action_ids := []; rl_resource_ids := []; rl_environment := ""; rl_endpoint_key := "";
     rl_certification_key := ""; rl_approval_profile_key := ""; rl_readback_key := ""; rl_expires_in_seconds := 0;
     rl_max_attempts := 0 |}.

Definition demo_bound : ReceiptBinding := catch (normalizeBinding (H:=demo_host) demo_receipt) no_binding.
Definition demo_read : Readback := catch (normalizeReadback (H:=demo_host) demo_readback) no_readback.
Definition demo_reconciliation : Reconciliation :=
  {| rc_binding := demo_bound; rc_readback := demo_read; rc_projection := outcomeProjection effect_partial |}.

Definition demo_compensation (actions : list string) : jsval := VObj
  [("rollbackActionIds", demo_texts actions); ("resourceIds", demo_texts ["campaign-1"]);
   ("environment", VStr "production"); ("rollbackCapabilityKey", VStr "ads.rollback"); ("endpointKey", VStr "ads.endpoint");
   ("certificationKey", VStr "ads.certification"); ("approvalProfileKey", VStr "ads.approval");
   ("readbackKey", VStr "ads.readback")].

Definition demo_rollback_args : jsobj :=
  [("reconciliation", js_of_reconciliation (H:=demo_host) demo_reconciliation);
   ("compensation", demo_compensation ["create.campaign"])].
Definition demo_rollback : Rollback * (string * string) :=
  catch (compileGrowthControlRollbackContract (H:=demo_host) demo_rollback_args) (no_rollback, ("", "")).

Lemma demo_classified :
  classifyGrowthControlProviderEffectReadback (H:=demo_host) demo_args = Ok demo_reconciliation.
Proof. vm_compute. reflexivity. Qed.

Lemma demo_rolled_back : compileGrowthControlRollbackContract (H:=demo_host) demo_rollback_args = Ok demo_rollback.
Proof. vm_compute. reflexivity. Qed.

Lemma classifyGrowthControlProviderEffectReadback_sound_witness :
  bk_appliedActionIds demo_read = ["create.campaign"] /\
  NoDup (bk_appliedActionIds demo_read ++ bk_unappliedActionIds demo_read).
Proof.
  split; [vm_compute; reflexivity|].
  apply (classifyGrowthControlProviderEffectReadback_sound (H:=demo_host) demo_args demo_reconciliation demo_classified).
Defined.

Lemma classifyGrowthControlProviderEffectReadback_complete_witness :
  classifyGrowthControlProviderEffectReadback (H:=demo_host)
    [("receiptBinding", demo_receipt); ("readback", demo_readback)] =
    Ok {| rc_binding := demo_bound; rc_readback := demo_read;
          rc_projection := outcomeProjection (bk_effectState demo_read) |}.
Proof.
  apply (classifyGrowthControlProviderEffectReadback_complete (H:=demo_host));
    [vm_compute; reflexivity|vm_compute; reflexivity|vm_compute; reflexivity|vm_compute; reflexivity
    |vm_compute; reflexivity|].
  split; [apply (bool_decide_unpack _); exact I|].
  split; [intros a Ha; apply (sin_true a); apply (sin_true a) in Ha; revert Ha; vm_compute;
          repeat case_match; done|].
  change (["create.campaign"] ++ ["create.ad"] ≡ₚ ["create.ad"; "create.campaign"] /\
          ["create.campaign"] <> [] /\ ["create.ad"] <> [] /\ is_Some (bk_resultSha256 demo_read)).
  split; [apply Permutation_swap|]. split; [done|]. split; [done|]. vm_compute. eauto.
Defined.

Lemma compileGrowthControlRollbackContract_covers_witness :
  rl_rollback_action_ids demo_rollback.1 = bk_appliedActionIds demo_read /\
  rl_environment demo_rollback.1 = rb_environment demo_bound /\ rl_max_attempts demo_rollback.1 = 1%Z.
Proof.
  split; [vm_compute; reflexivity|].
  destruct (compileGrowthControlRollbackContract_covers (H:=demo_host) demo_args demo_reconciliation
    (demo_compensation ["create.campaign"]) demo_rollback.1 demo_rollback.2 demo_classified)
    as (_ & _ & _ & _ & He & _ & _ & Hm & _); [|by split].
  etransitivity; [exact demo_rolled_back|]. by destruct demo_rollback.
Defined.
End EffectReconciliation.
