(* ===== verification/ProviderApproval.v ===== *)
(** * Growth control plane: approval of provider effects
    (src/domain/growthControlPlane/growthControlProviderApproval.js)

    A compiled workflow plan is turned into sequential steps; a node with an
    effect outside the platform becomes a step that waits for an approval bound
    to the hash of exactly one request.  The plan is read as the object the
    compiler returns.  Proved, for plans that WorkflowPlan compiles: every
    dependency of a step is an earlier step, and a node with a provider effect
    is never composed without an approval checkpoint that is required. *)
From S2P Require Import Prelude Sorting JsString JsDate JsValue JsJson GrowthControl GrowthConfig ActivityPack WorkflowGraph WorkflowPlan GrowthInput.

Module ProviderApproval.
Import GrowthControl ActivityPack GrowthInput.

(** ** Data *)

Definition contract : InputContract := {|
  ic_subject := "Approval composition";
  ic_invalid := "GROWTH_CONTROL_APPROVAL_PLAN_INVALID";
  ic_sensitive := "GROWTH_CONTROL_APPROVAL_SENSITIVE_INPUT";
  ic_oversized := "";
  ic_bytes := 0;
  ic_secret := fun _ => false;
  ic_depth := 12;
  ic_safe_flags := ["secretsIncluded"; "secrets_included"];
  ic_safe_any := false;
  ic_reports_maximum := false;
|}.

Definition INTERNAL_EFFECT_CLASSES : list string :=
  ["internal"; "internal_draft"; "analysis"; "checkpoint"; "readback"; "verification"; "projection"; "no_effect"].

(** What an approval is bound to; the values of the node are read as they are. *)
Record RequestBinding := {
  rq_plan_hash : string;
  rq_node_id : jsval;
  rq_capability_key : jsval;
  rq_action_ids : list string;
  rq_resource_ids : list string;
  rq_environment : string;
  rq_effect_class : jsval;
  rq_expires_in_seconds : Z;
}.

Record Approval := {
  al_binding : RequestBinding;
  al_required_role : string;
  al_checkpoint_key : string;
  al_policy_key : option string;
}.

(** A step; only one with a provider effect has an approval and a workflow. *)
Record Step := {
  st_step_key : jsval;
  st_step_type : string;
  st_workflow_key : option string;
  st_depends_on : list jsval;
  st_capability_key : jsval;
  st_effect_class : jsval;
  st_resource_ids : list string;
  st_action_ids : list string;
  st_approval : option Approval;
  st_max_attempts : Z;
  st_idempotency_key : string;
}.

Record ApprovalPlan := {
  pn_planId : string;
  pn_tenantId : string;
  pn_environment : string;
  pn_compiledPlanHash : string;
  pn_workflowIdentity : jsval;
  pn_sequentialSteps : list Step;
}.

Definition js_strings (l : list string) : jsval := VArr (List.map VStr l).

(** [map.get(key)] of the [Map] made of these entries: the last one counts. *)
Fixpoint map_get (entries : list (jsval * jsval)) (key : jsval) : jsval :=
  match entries with
  | [] => VUndef
  | (k, v) :: rest =>
      match map_get rest key with
      | VUndef => if strict_equal k key then v else VUndef
      | found => found
      end
  end.

Section Approve.
Context `{JsHost}.

(** ** Checked input *)

(** [canonical(value, field)], which does not fold the case. *)
Definition canonicalKey (value : jsval) (field : string) : js string :=
  let normalized := js_trim (str_coalesce value) in
  throw_if (negb (is_key normalized)) (invalid contract " must be a canonical key." field "invalid_canonical_key" []);;
  Ok normalized.

(** [sortedUnique(values, field, { required, normalize })] *)
Definition idList (normalize : jsval -> string -> js string) (required : bool) (values : jsval) (field : string)
    : js (list string) :=
  items ← match values with
          | VUndef | VNull => Ok []
          | VArr l => Ok l
          | _ => Throw (invalid contract " must be an array." field "invalid_type" [])
          end;
  normalized ← normalizeItems normalize items field;
  let result := unique_sorted normalized in
  throw_if (required && (length result =? 0))
    (fail "GROWTH_CONTROL_PROVIDER_RESOURCE_REQUIRED" (field +:+ " must contain at least one identifier.") field
       "required" []);;
  Ok result.

Definition plan_invalid (message field name : string) (extra : jsobj) : jserror :=
  fail "GROWTH_CONTROL_APPROVAL_PLAN_INVALID" message field name extra.

Definition validateCompiledPlan (compiledPlan : jsval) : js unit :=
  let dag := vget compiledPlan "normalizedDag" in
  throw_if (negb (is_record compiledPlan))
    (plan_invalid "compiledPlan is required." "compiledPlan" "required" []);;
  throw_if (negb (is_str (vget compiledPlan "contractVersion") "spec-006-workflow-compiled-plan-v1")
            || negb (is_true (vget compiledPlan "immutable")))
    (plan_invalid "Approval composition requires an immutable Spec 006 compiled plan." "compiledPlan"
       "contract_mismatch" []);;
  sha256 contract (vget compiledPlan "canonicalHashSha256") "compiledPlan.canonicalHashSha256";;
  throw_if (existsb (fun flag => negb (is_false (vget compiledPlan flag)))
              ["providerCalls"; "providerDispatchAllowed"; "providerApplyAllowed"; "externalWrites";
               "secretsIncluded"])
    (fail "GROWTH_CONTROL_APPROVAL_PLAN_EFFECTFUL_INPUT"
       "Compiled plan must remain no-effect and no-secret before approval composition." "compiledPlan"
       "effects_or_secrets_present" []);;
  match vget dag "nodes", vget dag "topologicalOrder" with
  | VArr _, VArr _ => Ok tt
  | _, _ => Throw (plan_invalid "compiledPlan.normalizedDag is incomplete." "compiledPlan.normalizedDag" "required" [])
  end;;
  assertSensitiveFree contract compiledPlan "compiledPlan" (ic_depth contract).

(** [list.map((item) => [item.nodeId, item])] *)
Definition entriesById (values : list jsval) : js (list (jsval * jsval)) :=
  mapM_js (fun item =>
    throw_if (nullish item) (TypeErr "Cannot read properties of undefined");;
    Ok (vget item "nodeId", item)) values.

Definition checkpointByNode (compiledPlan : jsval) : js (list (jsval * jsval)) :=
  match js_or (vget compiledPlan "approvalCheckpoints") (VArr []) with
  | VArr l => entriesById l
  | _ => type_error "map is not a function"
  end.

(** ** Steps *)

Definition effectClassOf (node : jsval) : string :=
  js_toLowerCase (js_trim (js_String (js_or (vget node "executionClass") (VStr "internal")))).

Definition isProviderEffect (node : jsval) : bool := negb (sin (effectClassOf node) INTERNAL_EFFECT_CLASSES).

Definition internalStepType (node : jsval) : string :=
  if sin (effectClassOf node) ["checkpoint"; "readback"; "verification"]
     || truthy (vget (vget node "verificationCheckpoint") "required")
  then "checkpoint" else "analysis".

Definition binding_fields (b : RequestBinding) : jsobj :=
  [("contract_version", VStr "growth-control-provider-approval-v1"); ("plan_hash_sha256", VStr (rq_plan_hash b));
   ("node_id", rq_node_id b); ("capability_key", rq_capability_key b);
   ("action_ids", js_strings (rq_action_ids b)); ("resource_ids", js_strings (rq_resource_ids b));
   ("environment", VStr (rq_environment b)); ("effect_class", rq_effect_class b);
   ("expires_in_seconds", VNum (Some (rq_expires_in_seconds b)))].

(** [request_hash_sha256] *)
Definition requestHash (b : RequestBinding) : string := stableSha256 (VObj (binding_fields b)).

(** [object[key]] *)
Definition member (object key : jsval) : js jsval :=
  throw_if (nullish object) (TypeErr "Cannot read properties of undefined");;
  Ok (oget (spread object) (js_String key)).

(** [[...(value || [])]] *)
Definition spreadList (value : jsval) : js (list jsval) :=
  match js_or value (VArr []) with
  | VArr l => Ok l
  | VStr s => Ok (List.map (fun c => VStr (String c EmptyString)) (String.list_ascii_of_string s))
  | _ => type_error "value is not iterable"
  end.

(** What is the same for every step. *)
Record Composition := {
  cm_planHash : string;
  cm_planId : string;
  cm_tenantId : string;
  cm_environment : string;
  cm_requiredRole : string;
  cm_expiresInSeconds : Z;
  cm_checkpoints : list (jsval * jsval);
  cm_nodes : list (jsval * jsval);
  cm_resourceIdsByNode : jsval;
  cm_actionIdsByNode : jsval;
}.

(** The approval of a step with a provider effect. *)
Definition approvalOf (cm : Composition) (node checkpoint : jsval) (resourceIds actionIds : list string)
    : js Approval :=
  let at_ := fun name => "nodes." +:+ js_String (vget node "nodeId") +:+ "." +:+ name in
  checkpointKey ← canonicalKey (either checkpoint "checkpointKey" "checkpoint_key") (at_ "checkpointKey");
  policyKey ← (if truthy (either checkpoint "policyKey" "policy_key")
               then k ← canonicalKey (either checkpoint "policyKey" "policy_key") (at_ "policyKey"); Ok (Some k)
               else Ok None);
  Ok {| al_binding :=
          {| rq_plan_hash := cm_planHash cm; rq_node_id := vget node "nodeId";
             rq_capability_key := vget node "capabilityKey"; rq_action_ids := actionIds;
             rq_resource_ids := resourceIds; rq_environment := cm_environment cm;
             rq_effect_class := vget node "executionClass"; rq_expires_in_seconds := cm_expiresInSeconds cm |};
        al_required_role := cm_requiredRole cm; al_checkpoint_key := checkpointKey; al_policy_key := policyKey |}.

(** One iteration over the topological order. *)
Definition stepOf (cm : Composition) (nodeId : jsval) : js Step :=
  let node := map_get (cm_nodes cm) nodeId in
  throw_if (negb (truthy node))
    (plan_invalid "Topological order references an unknown node." "compiledPlan.normalizedDag.topologicalOrder"
       "unknown_node" [("value", nodeId)]);;
  let key := vget node "nodeId" in
  let name := js_String key in
  let providerEffect := isProviderEffect node in
  let checkpoint := js_or (js_or (map_get (cm_checkpoints cm) key) (vget node "approvalCheckpoint")) VNull in
  throw_if (providerEffect && negb (is_true (vget checkpoint "required")))
    (fail "GROWTH_CONTROL_PROVIDER_APPROVAL_REQUIRED"
       "Every provider-effect node requires an explicit approval checkpoint."
       ("nodes." +:+ name +:+ ".approvalCheckpoint") "required" []);;
  resources ← member (cm_resourceIdsByNode cm) key;
  resourceIds ← idList (identifier contract) providerEffect resources ("resourceIdsByNode." +:+ name);
  actions ← member (cm_actionIdsByNode cm) key;
  actionIds ← idList canonicalKey providerEffect (js_coalesce actions (VArr [key])) ("actionIdsByNode." +:+ name);
  approval ← (if providerEffect then a ← approvalOf cm node checkpoint resourceIds actionIds; Ok (Some a)
              else Ok None);
  workflowKey ← (if providerEffect
                 then k ← canonicalKey (VStr ("growth_control." +:+ js_String (vget node "capabilityKey")))
                            ("nodes." +:+ name +:+ ".workflowKey"); Ok (Some k)
                 else Ok None);
  dependsOn ← spreadList (vget node "dependsOn");
  Ok {| st_step_key := key; st_step_type := if providerEffect then "workflow" else internalStepType node;
        st_workflow_key := workflowKey; st_depends_on := dependsOn;
        st_capability_key := vget node "capabilityKey"; st_effect_class := vget node "executionClass";
        st_resource_ids := resourceIds; st_action_ids := actionIds; st_approval := approval;
        st_max_attempts := if providerEffect then 1 else 2;
        st_idempotency_key := stableSha256 (VObj
          [("plan_id", VStr (cm_planId cm)); ("tenant_id", VStr (cm_tenantId cm)); ("node_id", key);
           ("request_hash_sha256", VStr (match approval with
                                         | Some a => requestHash (al_binding a)
                                         | None => cm_planHash cm
                                         end))]) |}.

(** ** The plan *)

Definition approval_fields (a : Approval) : jsobj :=
  binding_fields (al_binding a)
  ++ [("request_hash_sha256", VStr (requestHash (al_binding a))); ("required", VBool true); ("approved", VBool false);
      ("required_role", VStr (al_required_role a)); ("checkpoint_key", VStr (al_checkpoint_key a));
      ("policy_key", js_of_optional (al_policy_key a))].

Definition js_of_step (environment planHash : string) (s : Step) : jsval := VObj
  [("step_key", st_step_key s); ("step_type", VStr (st_step_type s));
   ("workflow_key", js_of_optional (st_workflow_key s)); ("depends_on", VArr (st_depends_on s));
   ("input", VObj
     [("source", VStr "growth_control_provider_approval"); ("plan_hash_sha256", VStr planHash);
      ("node_id", st_step_key s); ("capability_key", st_capability_key s); ("effect_class", st_effect_class s);
      ("environment", VStr environment); ("resource_ids", js_strings (st_resource_ids s));
      ("action_ids", js_strings (st_action_ids s));
      ("request_hash_sha256", js_of_optional ((fun a => requestHash (al_binding a)) <$> st_approval s));
      ("provider_dispatch_allowed", VBool false); ("external_writes", VBool false)]);
   ("approval_policy", VObj (match st_approval s with
                             | Some a => approval_fields a
                             | None => [("required", VBool false); ("approved", VBool true)]
                             end));
   ("success_criteria", VObj (("result_ok", VBool true) :: match st_approval s with
                              | Some _ => [("required_output_fields", VArr [VStr "readback.evidence_ref"])]
                              | None => []
                              end));
   ("max_attempts", VNum (Some (st_max_attempts s))); ("idempotency_key", VStr (st_idempotency_key s))].

(** [approvalBindings] *)
Definition approvalBindings (steps : list Step) : list (jsval * Approval) :=
  omap (fun s => pair (st_step_key s) <$> st_approval s) steps.

Definition js_of_binding_entry (entry : jsval * Approval) : jsval :=
  VObj (("node_id", entry.1) :: List.filter (fun p => negb (String.eqb p.1 "node_id")) (approval_fields entry.2)).

(** [withoutHash] *)
Definition js_of_approval_plan (p : ApprovalPlan) : jsval :=
  let bindings := approvalBindings (pn_sequentialSteps p) in
  VObj
  [("contractVersion", VStr "growth-control-provider-approval-plan-v1"); ("planId", VStr (pn_planId p));
   ("tenantId", VStr (pn_tenantId p)); ("environment", VStr (pn_environment p));
   ("compiledPlanHashSha256", VStr (pn_compiledPlanHash p)); ("workflowIdentity", pn_workflowIdentity p);
   ("sequentialSteps", VArr (List.map (js_of_step (pn_environment p) (pn_compiledPlanHash p)) (pn_sequentialSteps p)));
   ("approvalBindings", VArr (List.map js_of_binding_entry bindings));
   ("providerEffectNodeCount", VNum (Some (Z.of_nat (length bindings)))); ("immutable", VBool true);
   ("providerCalls", VBool false); ("providerDispatchAllowed", VBool false); ("providerApplyAllowed", VBool false);
   ("externalWrites", VBool false); ("secretsIncluded", VBool false)].

(** The property [v.k] of a value that may be [null]. *)
Definition read (v : jsval) (k : string) : js jsval :=
  throw_if (nullish v) (TypeErr "Cannot read properties of null");; Ok (vget v k).

Definition composeGrowthControlProviderApprovalPlan (args : jsobj) : js (ApprovalPlan * string) :=
  let compiledPlan := oget args "compiledPlan" in
  let resourceIdsByNode := oget_default args "resourceIdsByNode" (VObj []) in
  let actionIdsByNode := oget_default args "actionIdsByNode" (VObj []) in
  let approvalProfile := oget_default args "approvalProfile" (VObj []) in
  validateCompiledPlan compiledPlan;;
  planId ← identifier contract (oget args "planId") "planId";
  tenantId ← identifier contract (oget args "tenantId") "tenantId";
  environment ← canonicalKey (oget_default args "environment" (VStr "development")) "environment";
  assertSensitiveFree contract
    (VObj [("resourceIdsByNode", resourceIdsByNode); ("actionIdsByNode", actionIdsByNode);
           ("approvalProfile", approvalProfile)]) "approvalInput" (ic_depth contract);;
  read approvalProfile "requiredRole";;
  requiredRole ← canonicalKey (js_coalesce (either approvalProfile "requiredRole" "required_role") (VStr "supervisor"))
                   "approvalProfile.requiredRole";
  expiresInSeconds ← boundedInteger contract (either approvalProfile "expiresInSeconds" "expires_in_seconds")
                       "approvalProfile.expiresInSeconds" 300 604800 (Some 3600%Z);
  planHash ← sha256 contract (vget compiledPlan "canonicalHashSha256") "compiledPlan.canonicalHashSha256";
  checkpoints ← checkpointByNode compiledPlan;
  let dag := vget compiledPlan "normalizedDag" in
  nodes ← entriesById (default [] (as_array (vget dag "nodes")));
  steps ← mapM_js (stepOf {| cm_planHash := planHash; cm_planId := planId; cm_tenantId := tenantId;
                             cm_environment := environment; cm_requiredRole := requiredRole;
                             cm_expiresInSeconds := expiresInSeconds; cm_checkpoints := checkpoints;
                             cm_nodes := nodes; cm_resourceIdsByNode := resourceIdsByNode;
                             cm_actionIdsByNode := actionIdsByNode |})
            (default [] (as_array (vget dag "topologicalOrder")));
  let p := {| pn_planId := planId; pn_tenantId := tenantId; pn_environment := environment;
              pn_compiledPlanHash := planHash; pn_workflowIdentity := vget compiledPlan "workflowIdentity";
              pn_sequentialSteps := steps |} in
  Ok (p, stableSha256 (js_of_approval_plan p)).
End Approve.

(** ** Steps of a compiled plan *)

Import WorkflowGraph WorkflowPlan.

Section Compiled.
Context `{JsHost}.

(** The object that [compileImmutableWorkflowPlan] returns. *)
Definition compiledValue (plan : Plan) (hash : string) : jsval :=
  VObj (spread (js_of_plan plan) ++ [("canonicalHashSha256", VStr hash)]).

Lemma toLowerCase_hex64 s : is_hex64 s = true -> js_toLowerCase s = s.
Proof.
  unfold is_hex64. intros [Hs _]%andb_true_iff. induction s as [|c s IH]; [done|]. simpl in *.
  apply andb_true_iff in Hs as [Hc Hs]. rewrite IH by done. f_equal. revert Hc. by destruct c as [[] [] [] [] [] [] [] []].
Qed.

Lemma sha256_hash s field : is_hex64 s = true -> sha256 contract (VStr s) field = Ok s.
Proof.
  intros Hs. unfold sha256. change (str_coalesce (VStr s)) with s. by rewrite is_hex64_trim, toLowerCase_hex64, Hs.
Qed.

Lemma entriesById_inv l : forall entries, entriesById l = Ok entries -> entries = List.map (fun v => (vget v "nodeId", v)) l.
Proof.
  unfold entriesById. induction l as [|v l IH]; intros entries; simpl; [by intros [= <-]|].
  intros (x & Hx & He)%bind_Ok. apply bind_Ok in Hx as (? & _ & [= <-]).
  apply bind_Ok in He as (rest & Hrest%IH & [= <-]). by subst rest.
Qed.

(** What a map of values with text keys answers. *)
Lemma map_get_text {A} (f : A -> jsval) (key : A -> string) l id :
  (forall x, vget (f x) "nodeId" = VStr (key x)) ->
  map_get (List.map (fun v => (vget v "nodeId", v)) (List.map f l)) (VStr id) = VUndef \/
  exists x, x ∈ l /\ key x = id /\ map_get (List.map (fun v => (vget v "nodeId", v)) (List.map f l)) (VStr id) = f x.
Proof.
  intros Hf. induction l as [|x l IH]; simpl; [by left|]. destruct IH as [->|(y & Hy & Hk & Hg)].
  - rewrite Hf. simpl. destruct (String.eqb (key x) id) eqn:E; [|by left]. right. exists x.
    split; [by left|]. split; [by apply String.eqb_eq|done].
  - right. exists y. split; [by right|]. split; [done|]. rewrite Hg. destruct (f y) eqn:Ey; try done.
    specialize (Hf y). by rewrite Ey in Hf.
Qed.

Lemma map_get_node {A} (f : A -> jsval) (key : A -> string) l x :
  (forall x, vget (f x) "nodeId" = VStr (key x)) -> NoDup (List.map key l) -> x ∈ l ->
  map_get (List.map (fun v => (vget v "nodeId", v)) (List.map f l)) (VStr (key x)) = f x.
Proof.
  intros Hf Hnd Hx. induction l as [|y l IH]; [by apply not_elem_of_nil in Hx|]. simpl in *.
  apply NoDup_cons in Hnd as [Hy Hnd]. apply elem_of_cons in Hx as [->|Hx].
  - destruct (map_get_text f key l (key y) Hf) as [->|(z & Hz & Hk & _)].
    + rewrite Hf. simpl. by rewrite String.eqb_refl.
    + exfalso. apply Hy. rewrite <- Hk. by apply list_elem_of_fmap_2.
  - rewrite IH by done. specialize (Hf x). by destruct (f x).
Qed.

Lemma idList_required normalize values field l : idList normalize true values field = Ok l -> l <> [].
Proof.
  unfold idList. intros Hl. do 2 (apply bind_Ok in Hl as (? & _ & Hl)). apply bind_Ok in Hl as (? & Ht%throw_if_Ok & Hl).
  apply Ok_inj in Hl. subst l. intros Hn. by rewrite Hn in Ht.
Qed.

(** What a step with a provider effect waits for. *)
Definition awaits_approval (s : Step) (planHash : string) : Prop :=
  exists a, st_approval s = Some a /\ rq_plan_hash (al_binding a) = planHash /\
    rq_node_id (al_binding a) = st_step_key s /\ rq_resource_ids (al_binding a) = st_resource_ids s /\
    rq_action_ids (al_binding a) = st_action_ids s /\ st_resource_ids s <> [] /\ st_action_ids s <> [] /\
    st_max_attempts s = 1%Z.

(** One step, for the node it is made from. *)
Lemma stepOf_node cm n s : map_get (cm_nodes cm) (VStr (nd_nodeId n)) = js_of_node n ->
  stepOf cm (VStr (nd_nodeId n)) = Ok s ->
  st_step_key s = VStr (nd_nodeId n) /\ st_depends_on s = List.map VStr (nd_dependsOn n) /\
  if isProviderEffect (js_of_node n) then
    awaits_approval s (cm_planHash cm) /\
    is_true (vget (js_or (js_or (map_get (cm_checkpoints cm) (VStr (nd_nodeId n)))
                            (js_of_checkpoint (nd_approvalCheckpoint n))) VNull) "required") = true
  else st_approval s = None.
Proof.
  intros Hn Hs. unfold stepOf in Hs. cbv zeta in Hs. rewrite Hn in Hs.
  change (vget (js_of_node n) "nodeId") with (VStr (nd_nodeId n)) in Hs.
  change (vget (js_of_node n) "approvalCheckpoint") with (js_of_checkpoint (nd_approvalCheckpoint n)) in Hs.
  apply bind_Ok in Hs as (? & _ & Hs). apply bind_Ok in Hs as ([] & Hreq%throw_if_Ok & Hs).
  apply bind_Ok in Hs as (? & _ & Hs). apply bind_Ok in Hs as (resourceIds & Hr & Hs).
  apply bind_Ok in Hs as (? & _ & Hs). apply bind_Ok in Hs as (actionIds & Ha & Hs).
  apply bind_Ok in Hs as (approval & Hap & Hs). apply bind_Ok in Hs as (workflowKey & _ & Hs).
  apply bind_Ok in Hs as (dependsOn & Hd & Hs). apply Ok_inj in Hs. subst s. apply Ok_inj in Hd. subst dependsOn.
  split; [done|]. split; [done|]. destruct (isProviderEffect (js_of_node n)).
  - apply bind_Ok in Hap as (a & Hap & Hs). apply Ok_inj in Hs. subst approval. apply negb_false_iff in Hreq.
    split; [|done]. exists a. split; [done|]. unfold approvalOf in Hap. do 2 (apply bind_Ok in Hap as (? & _ & Hap)).
    apply Ok_inj in Hap. subst a. simpl. split; [done|]. split; [done|]. split; [done|]. split; [done|].
    split; [by eapply idList_required|]. split; [by eapply idList_required|done].
  - apply Ok_inj in Hap. by subst approval.
Qed.

Lemma required_node composed n c : NoDup (List.map nd_nodeId composed) -> n ∈ composed ->
  (nd_nodeId n, c) ∈ required nd_approvalCheckpoint composed -> nd_approvalCheckpoint n = Some c /\ ck_required c = true.
Proof.
  intros Hnd Hn Hin. unfold required in Hin. rewrite list_elem_of_In, in_flat_map in Hin.
  destruct Hin as (m & Hm & Hc). rewrite <- list_elem_of_In in Hm.
  destruct (nd_approvalCheckpoint m) as [c'|] eqn:Ec; [|by destruct Hc].
  destruct (ck_required c') eqn:Er; [|by destruct Hc]. destruct Hc as [[= Hid <-]|[]].
  by rewrite (NoDup_map_inj nd_nodeId composed n m).
Qed.

(** A checkpoint that is found for a node is the node's own, and required. *)
Lemma checkpoint_required composed n :
  NoDup (List.map nd_nodeId composed) -> n ∈ composed ->
  is_true (vget (js_or (js_or (map_get (List.map (fun v => (vget v "nodeId", v))
      (List.map (fun p : string * Checkpoint => VObj (("nodeId", VStr p.1) :: checkpoint_fields p.2))
         (required nd_approvalCheckpoint composed))) (VStr (nd_nodeId n)))
      (js_of_checkpoint (nd_approvalCheckpoint n))) VNull) "required") = true ->
  exists c, nd_approvalCheckpoint n = Some c /\ ck_required c = true.
Proof.
  intros Hnd Hn Hreq. destruct (nd_approvalCheckpoint n) as [c|] eqn:Ec.
  - destruct (ck_required c) eqn:Er; [by exists c|]. exfalso.
    destruct (map_get_text (fun p : string * Checkpoint => VObj (("nodeId", VStr p.1) :: checkpoint_fields p.2)) fst
      (required nd_approvalCheckpoint composed) (nd_nodeId n) (fun x => eq_refl)) as [Hg|([id c'] & Hin & Hk & _)].
    + rewrite Hg in Hreq. simpl in Hreq. by rewrite Er in Hreq.
    + simpl in Hk. subst id. apply (required_node composed n c' Hnd Hn) in Hin as [Hc Hr]. rewrite Ec in Hc.
      injection Hc as ->. by rewrite Er in Hr.
  - exfalso. destruct (map_get_text (fun p : string * Checkpoint => VObj (("nodeId", VStr p.1) :: checkpoint_fields p.2)) fst
      (required nd_approvalCheckpoint composed) (nd_nodeId n) (fun x => eq_refl)) as [Hg|([id c'] & Hin & Hk & _)].
    + by rewrite Hg in Hreq.
    + simpl in Hk. subst id. apply (required_node composed n c' Hnd Hn) in Hin as [Hc _]. by rewrite Ec in Hc.
Qed.

(** The steps of the composition of a plan that was compiled. *)
Lemma compose_compiled args plan hash p h : is_hex64 hash = true ->
  oget args "compiledPlan" = compiledValue plan hash ->
  composeGrowthControlProviderApprovalPlan args = Ok (p, h) ->
  exists cm, cm_planHash cm = hash /\ pn_compiledPlanHash p = hash /\
    cm_nodes cm = List.map (fun v => (vget v "nodeId", v)) (List.map js_of_node (dag_nodes (pl_normalizedDag plan))) /\
    cm_checkpoints cm = List.map (fun v => (vget v "nodeId", v))
      (List.map (fun p : string * Checkpoint => VObj (("nodeId", VStr p.1) :: checkpoint_fields p.2)) (pl_approvalCheckpoints plan)) /\
    Forall2 (fun id s => stepOf cm id = Ok s) (List.map VStr (dag_topologicalOrder (pl_normalizedDag plan))) (pn_sequentialSteps p).
Proof.
  intros Hhex Hargs Hc. unfold composeGrowthControlProviderApprovalPlan in Hc. cbv zeta in Hc. rewrite Hargs in Hc.
  change (vget (compiledValue plan hash) "canonicalHashSha256") with (VStr hash) in Hc.
  change (default [] (as_array (vget (vget (compiledValue plan hash) "normalizedDag") "nodes")))
    with (List.map js_of_node (dag_nodes (pl_normalizedDag plan))) in Hc.
  change (default [] (as_array (vget (vget (compiledValue plan hash) "normalizedDag") "topologicalOrder")))
    with (List.map VStr (dag_topologicalOrder (pl_normalizedDag plan))) in Hc.
  do 8 (apply bind_Ok in Hc as (? & _ & Hc)). apply bind_Ok in Hc as (planHash & Hh & Hc).
  rewrite sha256_hash in Hh by done. apply Ok_inj in Hh. subst planHash.
  apply bind_Ok in Hc as (checkpoints & Hcp & Hc). apply bind_Ok in Hc as (nodes & ->%entriesById_inv & Hc).
  apply bind_Ok in Hc as (steps & Hsteps%mapM_js_Ok & Hc). apply Ok_inj in Hc. injection Hc as <- _.
  apply entriesById_inv in Hcp. subst checkpoints. eexists. split; [|split; [|split; [|split; [|exact Hsteps]]]]; done.
Qed.

(** Steps made along an order of a graph come after the steps they depend on. *)
Lemma steps_in_order composed cm order steps :
  in_order composed order -> (forall id, id ∈ order -> exists n, n ∈ composed /\ nd_nodeId n = id) ->
  (forall n s, n ∈ composed -> stepOf cm (VStr (nd_nodeId n)) = Ok s ->
     st_step_key s = VStr (nd_nodeId n) /\ st_depends_on s = List.map VStr (nd_dependsOn n)) ->
  Forall2 (fun id s => stepOf cm id = Ok s) (List.map VStr order) steps ->
  List.map st_step_key steps = List.map VStr order /\
  forall before s after d, steps = before ++ s :: after -> d ∈ st_depends_on s ->
    exists s', s' ∈ before /\ st_step_key s' = d.
Proof.
  intros Hio Hof Hstep Hsteps.
  assert (List.map st_step_key steps = List.map VStr order) as Hkeys.
  { clear Hio. revert Hsteps Hof. generalize steps. induction order as [|id l IH];
      intros steps' Hs Ho; inversion Hs as [|? s ? rest Hx Hrest]; subst; [done|]. simpl. f_equal.
    - destruct (Ho id (list_elem_of_here _ _)) as (n & Hn & <-). by apply (Hstep n).
    - apply IH; [done|]. intros x Hx'. apply Ho. by apply list_elem_of_further. }
  split; [done|]. intros before s after d -> Hd. rewrite map_app in Hkeys. simpl in Hkeys. symmetry in Hkeys.
  apply map_eq_app in Hkeys as (ids & rest & -> & Hbefore & Hrest). apply map_eq_cons in Hrest as (id & ids' & -> & Hid & _).
  destruct (Hof id) as (n & Hn & <-); [set_solver|].
  rewrite map_app in Hsteps. apply Forall2_app_inv in Hsteps as [_ Hs];
    [|by rewrite Hbefore, length_map]. apply Forall2_cons_1 in Hs as [Hs _].
  destruct (Hstep n s Hn Hs) as [_ Hdeps]. rewrite Hdeps, list_elem_of_fmap in Hd. destruct Hd as (d' & -> & Hd').
  assert (d' ∈ ids) as Hin by (apply (Hio ids (nd_nodeId n) ids' eq_refl); by exists n).
  assert (VStr d' ∈ List.map st_step_key before) as Hb by (rewrite <- Hbefore; by apply list_elem_of_fmap_2).
  apply list_elem_of_fmap in Hb as (s' & Hk & Hs'). by exists s'.
Qed.

(** C15: The approval plan of a workflow that was compiled has one step per node in
    topological order, each after the steps it depends on.  A step with a
    provider effect has, in its node, a checkpoint that requires approval; it
    waits for an approval of its own request (its actions and resources, at least
    one of each, under the hash of the compiled plan) and is tried once. *)
Theorem composeGrowthControlProviderApprovalPlan_governed `{!JsHostLaws} compileArgs plan hash args p h :
  compileImmutableWorkflowPlan compileArgs = Ok (plan, hash) ->
  oget args "compiledPlan" = compiledValue plan hash ->
  composeGrowthControlProviderApprovalPlan args = Ok (p, h) ->
  List.map st_step_key (pn_sequentialSteps p) = List.map VStr (dag_topologicalOrder (pl_normalizedDag plan)) /\
  (forall before s after d, pn_sequentialSteps p = before ++ s :: after -> d ∈ st_depends_on s ->
     exists s', s' ∈ before /\ st_step_key s' = d) /\
  (forall n, n ∈ dag_nodes (pl_normalizedDag plan) -> exists s, s ∈ pn_sequentialSteps p /\
     st_step_key s = VStr (nd_nodeId n) /\
     if isProviderEffect (js_of_node n) then
       awaits_approval s hash /\ exists c, nd_approvalCheckpoint n = Some c /\ ck_required c = true
     else st_approval s = None).
Proof.
  intros (composed & HP & Hnd & Hids & Hio & Hcp & Hh)%compile_dag Hargs Hc.
  assert (is_hex64 hash = true) as Hhex by (subst hash; apply sha256_hex64).
  destruct (compose_compiled _ _ _ _ _ Hhex Hargs Hc) as (cm & Hph & _ & Hnodes & Hchecks & Hsteps).
  set (nodes := dag_nodes (pl_normalizedDag plan)) in *. set (order := dag_topologicalOrder (pl_normalizedDag plan)) in *.
  assert (NoDup (List.map nd_nodeId nodes)) as Hnd' by (by rewrite (Permutation_map nd_nodeId HP)).
  assert (forall n s, n ∈ nodes -> stepOf cm (VStr (nd_nodeId n)) = Ok s -> st_step_key s = VStr (nd_nodeId n) /\
    st_depends_on s = List.map VStr (nd_dependsOn n) /\
    if isProviderEffect (js_of_node n) then
      awaits_approval s hash /\ exists c, nd_approvalCheckpoint n = Some c /\ ck_required c = true
    else st_approval s = None) as Hstep.
  { intros n s Hn Hs. apply stepOf_node in Hs as (Hk & Hd & Hs); [|rewrite Hnodes; by apply (map_get_node js_of_node nd_nodeId)].
    split; [done|]. split; [done|]. destruct (isProviderEffect (js_of_node n)); [|done]. destruct Hs as [Ha Hr].
    rewrite Hph in Ha. split; [done|]. rewrite Hchecks, Hcp in Hr. apply checkpoint_required in Hr; [done|done|by rewrite <- HP]. }
  assert (forall id, id ∈ order -> exists n, n ∈ nodes /\ nd_nodeId n = id) as Hof.
  { intros id Hid. rewrite Hids, list_elem_of_fmap in Hid. destruct Hid as (n & -> & Hn). exists n. by rewrite HP. }
  destruct (steps_in_order composed cm order (pn_sequentialSteps p) Hio) as [Hkeys Hdeps]; [..|done|].
  { intros id (n & Hn & Hid)%Hof. exists n. by rewrite <- HP. }
  { intros n s Hn Hs. destruct (Hstep n s) as (? & ? & _); [by rewrite HP|done|done]. }
  split; [done|]. split; [done|].
  intros n Hn. assert (VStr (nd_nodeId n) ∈ List.map VStr order) as Hin.
  { apply list_elem_of_fmap_2. rewrite Hids, <- HP. by apply list_elem_of_fmap_2. }
  apply list_elem_of_lookup in Hin as [i Hi]. destruct (Forall2_lookup_l _ _ _ _ _ Hsteps Hi) as (s & Hs & Hx).
  exists s. split; [by eapply list_elem_of_lookup_2|]. destruct (Hstep n s Hn Hx) as (? & _ & ?). done.
Qed.
End Compiled.

(** ** A workflow that publishes *)

Definition launch_pack (publishNode : jsobj) : jsval := VObj
  [("identity", VObj [("activityPackKey", VStr "pack.one"); ("version", VNum (Some 2%Z))]);
   ("entitySchemas", VObj []); ("knowledgeProfile", VObj [("pointerKey", VStr "profile.default")]);
   ("kpiTaxonomy", VArr []);
   ("capabilities", VArr [VObj [("capabilityKey", VStr "content.draft")]; VObj [("capabilityKey", VStr "content.publish")]]);
   ("workflows", VArr [VObj
     [("workflowKey", VStr "campaign.launch"); ("nodes", VArr
        [VObj (("id", VStr "publish") :: ("capability", VStr "content.publish")
                 :: ("dependsOn", VArr [VStr "draft"]) :: publishNode);
         VObj [("id", VStr "draft"); ("capability", VStr "content.draft")]])]]);
   ("policies", VArr []); ("providerCompatibility", VArr []); ("tests", VObj [("fixtures", VArr [])])].

Definition launch_plan (publishNode : jsobj) : Plan * string :=
  catch (compileImmutableWorkflowPlan (H:=demo_host)
           [("manifest", launch_pack publishNode); ("workflowKey", VStr "campaign.launch")]) (no_plan, "").

Definition launch_approval (publishNode : jsobj) : jsobj :=
  [("compiledPlan", compiledValue (launch_plan publishNode).1 (launch_plan publishNode).2);
   ("planId", VStr "plan-1"); ("tenantId", VStr "tenant-1");
   ("resourceIdsByNode", VObj [("publish", VArr [VStr "page-2"; VStr "page-1"; VStr "page-2"])])].

Definition no_approval : ApprovalPlan :=
  {| pn_planId := ""; pn_tenantId := ""; pn_environment := ""; pn_compiledPlanHash := ""; pn_workflowIdentity := VNull;
     pn_sequentialSteps := [] |}.

Definition publishes : jsobj := [("executionClass", VStr "external.write"); ("approvalCheckpoint", VBool true)].

Definition demo_approval : ApprovalPlan * string :=
  catch (composeGrowthControlProviderApprovalPlan (H:=demo_host) (launch_approval publishes)) (no_approval, "").

Lemma launch_composed :
  composeGrowthControlProviderApprovalPlan (H:=demo_host) (launch_approval publishes) = Ok demo_approval.
Proof. vm_compute. reflexivity. Qed.

Lemma launch_compiled : compileImmutableWorkflowPlan (H:=demo_host)
  [("manifest", launch_pack publishes); ("workflowKey", VStr "campaign.launch")] = Ok (launch_plan publishes).
Proof. vm_compute. reflexivity. Qed.

(** The step that publishes waits for an approval of two pages; without a
    checkpoint the plan is refused. *)
Lemma composeGrowthControlProviderApprovalPlan_governed_witness :
  List.map st_resource_ids (pn_sequentialSteps demo_approval.1) = [[]; ["page-1"; "page-2"]] /\
  List.map st_step_key (pn_sequentialSteps demo_approval.1) = [VStr "draft"; VStr "publish"] /\
  exists e, composeGrowthControlProviderApprovalPlan (H:=demo_host)
    (launch_approval [("executionClass", VStr "external.write")]) = Throw e.
Proof.
  split; [vm_compute; reflexivity|]. split; [|eexists; vm_compute; reflexivity].
  destruct (composeGrowthControlProviderApprovalPlan_governed (H:=demo_host) (H0:=demo_host_laws)
    [("manifest", launch_pack publishes); ("workflowKey", VStr "campaign.launch")]
    (launch_plan publishes).1 (launch_plan publishes).2 (launch_approval publishes) demo_approval.1 demo_approval.2)
    as (Hkeys & _ & _).
  - etransitivity; [exact launch_compiled|]. by destruct (launch_plan publishes).
  - reflexivity.
  - etransitivity; [exact launch_composed|]. by destruct demo_approval.
  - etransitivity; [exact Hkeys|]. vm_compute. reflexivity.
Defined.
End ProviderApproval.
