(* ===== verification/AdapterResolver.v ===== *)
(** * Growth control plane: resolution of provider adapters
    (src/domain/growthControlPlane/growthControlProviderAdapterResolver.js)

    The candidates of a registry are checked, each is given the blockers that
    keep it from serving a request and a rank, and the best one without
    blockers is selected unless another has the same rank.  The instants of a
    candidate and of the context are time values here; the code keeps their ISO
    text and reads it back, which is the same (JsValue's
    [date_parse_toISOString]).  Proved: the candidate that is selected is the one
    that fits the request, stated without blockers, and outranks every other one
    that fits, and the listing order of the registry plays no part. *)
From S2P Require Import Prelude Sorting JsString JsDate JsValue JsJson GrowthControl GrowthConfig ActivityPack GrowthInput.

Module AdapterResolver.
Import GrowthControl ActivityPack GrowthInput.

(** ** Data *)

Definition contract : InputContract := {|
  ic_subject := "Adapter resolver input";
  ic_invalid := "GROWTH_CONTROL_ADAPTER_INPUT_INVALID";
  ic_sensitive := "GROWTH_CONTROL_ADAPTER_SENSITIVE_INPUT";
  ic_oversized := "GROWTH_CONTROL_ADAPTER_INPUT_OVERSIZED";
  ic_bytes := 524288;
  ic_secret := sensitive_value;
  ic_depth := 14;
  ic_safe_flags := ["credentialReferenceReady"; "credential_reference_ready"];
  ic_safe_any := true;
  ic_reports_maximum := false;
|}.

Definition REQUIRED_METHODS : list string :=
  ["checkReadiness"; "describeCapabilities"; "dispatch"; "inspect"; "normalizeError"; "normalizeResult";
   "prepareDispatch"; "readback"; "validateRequest"].

Definition READY_ROLLOUT_MODES : list string :=
  ["allowlist"; "canary"; "general_availability"; "percentage"; "shadow"].

Definition MAX_CANDIDATES : nat := 200.

Record Context := {
  cx_tenantId : string;
  cx_workspaceId : option string;
  cx_brandId : option string;
  cx_activityBindingId : option string;
  cx_resourceId : string;
  cx_capabilityKey : string;
  cx_activityTypeKey : string;
  cx_channel : string;
  cx_environment : string;
  cx_preferredAdapterKey : option string;
  cx_dispatchRequested : bool;
  cx_applyRequested : bool;
  cx_now : Z;
}.

Record Scope := {
  sc_tenantId : option string;
  sc_workspaceId : option string;
  sc_brandId : option string;
  sc_activityBindingId : option string;
  sc_resourceIds : list string;
}.

Record Certification := {
  ct_status : string;
  ct_environment : string;
  ct_dispatchCertified : bool;
  ct_applyCertified : bool;
  ct_expiresAt : Z;
  ct_evidenceSha256 : string;
}.

Record Health := {
  hl_status : string;
  hl_score : Z;
  hl_observedAt : Z;
  hl_maxAgeSeconds : Z;
  hl_evidenceSha256 : string;
}.

Record Rollout := { ro_mode : string; ro_eligible : bool; ro_evidenceSha256 : string }.

Record Readiness := {
  rd_providerEnabled : bool;
  rd_connectionReady : bool;
  rd_credentialReferenceReady : bool;
  rd_quotaReady : bool;
}.

Record Candidate := {
  ca_adapterKey : string;
  ca_adapterVersionId : string;
  ca_providerBindingRef : string;
  ca_connectedSystemId : string;
  ca_connectionId : string;
  ca_endpointKey : string;
  ca_version : Z;
  ca_definitionStatus : string;
  ca_versionStatus : string;
  ca_immutable : bool;
  ca_contractMethods : list string;
  ca_capabilityKeys : list string;
  ca_activityTypeKeys : list string;
  ca_channels : list string;
  ca_environments : list string;
  ca_scope : Scope;
  ca_preferenceWeight : Z;
  ca_bindingPriority : Z;
  ca_certification : Certification;
  ca_health : Health;
  ca_rollout : Rollout;
  ca_readiness : Readiness;
}.

Record Blocker := { bl_code : string; bl_detail : option string }.

(** [rankVector], by name. *)
Record Rank := {
  rk_preferred : Z;
  rk_resource : Z;
  rk_activityBinding : Z;
  rk_brand : Z;
  rk_workspace : Z;
  rk_tenant : Z;
  rk_preferenceWeight : Z;
  rk_bindingPriority : Z;
  rk_healthScore : Z;
  rk_version : Z;
}.

(** The components of a rank, the most important one first. *)
Definition rank_components : list (Rank -> Z) :=
  [rk_preferred; rk_resource; rk_activityBinding; rk_brand; rk_workspace; rk_tenant; rk_preferenceWeight;
   rk_bindingPriority; rk_healthScore; rk_version].

Record Evidence := {
  ev_candidate : Candidate;
  ev_blockers : list Blocker;
  ev_rank : Rank;
}.

#[export] Instance scope_eq_dec : EqDecision Scope.
Proof. solve_decision. Defined.
#[export] Instance certification_eq_dec : EqDecision Certification.
Proof. solve_decision. Defined.
#[export] Instance health_eq_dec : EqDecision Health.
Proof. solve_decision. Defined.
#[export] Instance rollout_eq_dec : EqDecision Rollout.
Proof. solve_decision. Defined.
#[export] Instance readiness_eq_dec : EqDecision Readiness.
Proof. solve_decision. Defined.
#[export] Instance candidate_eq_dec : EqDecision Candidate.
Proof. solve_decision. Defined.
#[export] Instance blocker_eq_dec : EqDecision Blocker.
Proof. solve_decision. Defined.
#[export] Instance rank_eq_dec : EqDecision Rank.
Proof. solve_decision. Defined.
#[export] Instance evidence_eq_dec : EqDecision Evidence.
Proof. solve_decision. Defined.

Definition ready (e : Evidence) : bool := length (ev_blockers e) =? 0.

Inductive Status := status_blocked | status_ambiguous | status_selected.

Record Resolution := {
  rs_status : Status;
  rs_selection : option Evidence;
  rs_tied : list Evidence;
  rs_candidates : list Evidence;
  rs_ready_count : nat;
  rs_context : Context;
}.

Definition js_strings (l : list string) : jsval := VArr (List.map VStr l).
Definition js_int (z : Z) : jsval := VNum (Some z).

(** [value === true || other === true] of two spellings of a property *)
Definition flag (v : jsval) (a b : string) : bool := is_true (vget v a) || is_true (vget v b).

(** [normalizeMethod]'s pattern *)
Definition is_method (s : string) : bool :=
  match s with
  | EmptyString => false
  | String c r =>
      (is_upper c || is_lower c) && str_forallb is_alnum r && (2 <=? String.length r) && (String.length r <=? 63)
  end.

Section Resolve.
Context `{JsHost}.

(** ** Normalisation *)

Definition normalizeMethod (value : jsval) (field : string) : js string :=
  let normalized := js_trim (str_coalesce value) in
  throw_if (negb (is_method normalized))
    (invalid contract " is not a supported method identifier." field "invalid_method" []);;
  Ok normalized.

Definition normalizeContext (source : jsval) : js Context :=
  let id := fun a b => identifier contract (either source a b) ("context." +:+ a) in
  let optional_id := fun a b => nullable (identifier contract) (either source a b) ("context." +:+ a) in
  let key := fun a b => canonical contract (either source a b) ("context." +:+ a) in
  throw_if (nullish source) (TypeErr "Cannot read properties of null");;
  tenantId ← id "tenantId" "tenant_id";
  workspaceId ← optional_id "workspaceId" "workspace_id";
  brandId ← optional_id "brandId" "brand_id";
  activityBindingId ← optional_id "activityBindingId" "activity_binding_id";
  resourceId ← id "resourceId" "resource_id";
  capabilityKey ← key "capabilityKey" "capability_key";
  activityTypeKey ← key "activityTypeKey" "activity_type_key";
  channel ← canonical contract (vget source "channel") "context.channel";
  environment ← canonical contract (vget source "environment") "context.environment";
  preferredAdapterKey ← nullable (canonical contract) (either source "preferredAdapterKey" "preferred_adapter_key")
                          "context.preferredAdapterKey";
  now ← instant contract (js_coalesce (vget source "now") (VDate (Some host_clock))) "context.now";
  Ok {| cx_tenantId := tenantId; cx_workspaceId := workspaceId; cx_brandId := brandId;
        cx_activityBindingId := activityBindingId; cx_resourceId := resourceId; cx_capabilityKey := capabilityKey;
        cx_activityTypeKey := activityTypeKey; cx_channel := channel; cx_environment := environment;
        cx_preferredAdapterKey := preferredAdapterKey;
        cx_dispatchRequested := flag source "dispatchRequested" "dispatch_requested";
        cx_applyRequested := flag source "applyRequested" "apply_requested"; cx_now := now |}.

Definition normalizeScope (source : jsval) (field : string) : js Scope :=
  let scope := if is_record source then source else VObj [] in
  let id := fun a b => nullable (identifier contract) (either scope a b) (field +:+ "." +:+ a) in
  tenantId ← id "tenantId" "tenant_id";
  workspaceId ← id "workspaceId" "workspace_id";
  brandId ← id "brandId" "brand_id";
  activityBindingId ← id "activityBindingId" "activity_binding_id";
  resourceIds ← sortedUnique contract (identifier contract) false (either scope "resourceIds" "resource_ids")
                  (field +:+ ".resourceIds");
  Ok {| sc_tenantId := tenantId; sc_workspaceId := workspaceId; sc_brandId := brandId;
        sc_activityBindingId := activityBindingId; sc_resourceIds := resourceIds |}.

Definition normalizeCertification (certification : jsval) (field : string) : js Certification :=
  status ← canonical contract (vget certification "status") (field +:+ ".status");
  environment ← canonical contract (vget certification "environment") (field +:+ ".environment");
  expiresAt ← instant contract (either certification "expiresAt" "expires_at") (field +:+ ".expiresAt");
  evidenceSha256 ← sha256 contract (either certification "evidenceSha256" "evidence_sha256")
                     (field +:+ ".evidenceSha256");
  Ok {| ct_status := status; ct_environment := environment;
        ct_dispatchCertified := flag certification "dispatchCertified" "dispatch_certified";
        ct_applyCertified := flag certification "applyCertified" "apply_certified";
        ct_expiresAt := expiresAt; ct_evidenceSha256 := evidenceSha256 |}.

Definition normalizeHealth (health : jsval) (field : string) : js Health :=
  status ← canonical contract (vget health "status") (field +:+ ".status");
  score ← (if nullish (vget health "score") then Ok 0%Z
           else boundedNumber contract (vget health "score") (field +:+ ".score") 0 100);
  observedAt ← instant contract (either health "observedAt" "observed_at") (field +:+ ".observedAt");
  maxAgeSeconds ← boundedInteger contract (either health "maxAgeSeconds" "max_age_seconds")
                    (field +:+ ".maxAgeSeconds") 30 86400 (Some 300%Z);
  evidenceSha256 ← sha256 contract (either health "evidenceSha256" "evidence_sha256") (field +:+ ".evidenceSha256");
  Ok {| hl_status := status; hl_score := score; hl_observedAt := observedAt; hl_maxAgeSeconds := maxAgeSeconds;
        hl_evidenceSha256 := evidenceSha256 |}.

Definition normalizeRollout (rollout : jsval) (field : string) : js Rollout :=
  mode ← canonical contract (vget rollout "mode") (field +:+ ".mode");
  evidenceSha256 ← sha256 contract (either rollout "evidenceSha256" "evidence_sha256") (field +:+ ".evidenceSha256");
  Ok {| ro_mode := mode; ro_eligible := is_true (vget rollout "eligible"); ro_evidenceSha256 := evidenceSha256 |}.

Definition normalizeReadiness (readiness : jsval) : Readiness :=
  {| rd_providerEnabled := flag readiness "providerEnabled" "provider_enabled";
     rd_connectionReady := flag readiness "connectionReady" "connection_ready";
     rd_credentialReferenceReady := flag readiness "credentialReferenceReady" "credential_reference_ready";
     rd_quotaReady := flag readiness "quotaReady" "quota_ready" |}.

Definition normalizeCandidate (source : jsval) (field : string) : js Candidate :=
  let at_ := fun name => field +:+ "." +:+ name in
  let key := fun a b => canonical contract (either source a b) (at_ a) in
  let id := fun a b => identifier contract (either source a b) (at_ a) in
  let integer := fun v a low high fallback => boundedInteger contract v (at_ a) low high (Some fallback) in
  let keys := fun v a => sortedUnique contract (canonical contract) true v (at_ a) in
  throw_if (negb (is_record source))
    (fail "GROWTH_CONTROL_ADAPTER_CANDIDATE_INVALID" (field +:+ " must be an object.") field "invalid_type" []);;
  adapterKey ← key "adapterKey" "adapter_key";
  adapterVersionId ← id "adapterVersionId" "adapter_version_id";
  providerBindingRef ← id "providerBindingRef" "provider_binding_ref";
  connectedSystemId ← id "connectedSystemId" "connected_system_id";
  connectionId ← id "connectionId" "connection_id";
  endpointKey ← key "endpointKey" "endpoint_key";
  version ← integer (vget source "version") "version" 1%Z 1000000%Z 1%Z;
  definitionStatus ← key "definitionStatus" "definition_status";
  versionStatus ← key "versionStatus" "version_status";
  contractMethods ← sortedUnique contract normalizeMethod true (either source "contractMethods" "contract_methods")
                      (at_ "contractMethods");
  capabilityKeys ← keys (either source "capabilityKeys" "capability_keys") "capabilityKeys";
  activityTypeKeys ← keys (either source "activityTypeKeys" "activity_type_keys") "activityTypeKeys";
  channels ← keys (vget source "channels") "channels";
  environments ← keys (vget source "environments") "environments";
  scope ← normalizeScope (vget source "scope") (at_ "scope");
  preferenceWeight ← integer (either source "preferenceWeight" "preference_weight") "preferenceWeight" 0%Z 1000%Z 0%Z;
  bindingPriority ← integer (either source "bindingPriority" "binding_priority") "bindingPriority" 0%Z 10000%Z 0%Z;
  certification ← normalizeCertification (js_or (vget source "certification") (VObj [])) (at_ "certification");
  health ← normalizeHealth (js_or (vget source "health") (VObj [])) (at_ "health");
  rollout ← normalizeRollout (js_or (vget source "rollout") (VObj [])) (at_ "rollout");
  Ok {| ca_adapterKey := adapterKey; ca_adapterVersionId := adapterVersionId;
        ca_providerBindingRef := providerBindingRef; ca_connectedSystemId := connectedSystemId;
        ca_connectionId := connectionId; ca_endpointKey := endpointKey; ca_version := version;
        ca_definitionStatus := definitionStatus; ca_versionStatus := versionStatus;
        ca_immutable := is_true (vget source "immutable"); ca_contractMethods := contractMethods;
        ca_capabilityKeys := capabilityKeys; ca_activityTypeKeys := activityTypeKeys; ca_channels := channels;
        ca_environments := environments; ca_scope := scope; ca_preferenceWeight := preferenceWeight;
        ca_bindingPriority := bindingPriority; ca_certification := certification; ca_health := health;
        ca_rollout := rollout;
        ca_readiness := normalizeReadiness (js_or (vget source "readiness") (VObj [])) |}.

(** ** Blockers *)

Definition js_of_blocker (b : Blocker) : jsval := VObj
  (("code", VStr (bl_code b)) :: match bl_detail b with Some d => [("detail", VStr d)] | None => [] end).

Definition blocker_hash (b : Blocker) : string := stableSha256 (js_of_blocker b).

Definition blocker_if (condition : bool) (code : string) : list Blocker :=
  if condition then [{| bl_code := code; bl_detail := None |}] else [].

(** [expected != null && expected !== observed] *)
Definition scope_differs (expected observed : option string) : bool :=
  match expected with Some _ => negb (ostr_eqb expected observed) | None => false end.

Definition methodBlockers (methods : list string) : list Blocker :=
  List.map (fun method => {| bl_code := "ADAPTER_METHOD_REQUIRED"; bl_detail := Some method |})
    (bfilter (fun method => negb (sin method methods)) REQUIRED_METHODS).

Definition scopes (scope : Scope) (context : Context) : list (string * option string * option string) :=
  [("tenant", sc_tenantId scope, Some (cx_tenantId context));
   ("workspace", sc_workspaceId scope, cx_workspaceId context);
   ("brand", sc_brandId scope, cx_brandId context);
   ("activity_binding", sc_activityBindingId scope, cx_activityBindingId context)].

Definition scopeBlockers (scope : Scope) (context : Context) : list Blocker :=
  List.map (fun s => {| bl_code := "ADAPTER_SCOPE_MISMATCH"; bl_detail := Some s.1.1 |})
    (bfilter (fun s => scope_differs s.1.2 s.2) (scopes scope context)).

(** [Math.floor((now - observedAt) / 1000)] *)
Definition ageSeconds (now observedAt : Z) : Z := Z.div (now - observedAt) 1000.

(** The blockers in the order they are pushed. *)
Definition pushedBlockers (candidate : Candidate) (context : Context) : list Blocker :=
  let scope := ca_scope candidate in
  let certification := ca_certification candidate in
  let health := ca_health candidate in
  let rollout := ca_rollout candidate in
  let readiness := ca_readiness candidate in
  let age := ageSeconds (cx_now context) (hl_observedAt health) in
  blocker_if (negb (String.eqb (ca_definitionStatus candidate) "active")) "ADAPTER_DEFINITION_NOT_ACTIVE"
  ++ blocker_if (negb (String.eqb (ca_versionStatus candidate) "active")) "ADAPTER_VERSION_NOT_ACTIVE"
  ++ blocker_if (negb (ca_immutable candidate)) "ADAPTER_VERSION_MUTABLE"
  ++ methodBlockers (ca_contractMethods candidate)
  ++ scopeBlockers scope context
  ++ blocker_if ((0 <? length (sc_resourceIds scope)) && negb (sin (cx_resourceId context) (sc_resourceIds scope)))
       "ADAPTER_RESOURCE_BINDING_MISMATCH"
  ++ blocker_if (negb (sin (cx_capabilityKey context) (ca_capabilityKeys candidate))) "ADAPTER_CAPABILITY_INCOMPATIBLE"
  ++ blocker_if (negb (sin (cx_activityTypeKey context) (ca_activityTypeKeys candidate))) "ADAPTER_ACTIVITY_INCOMPATIBLE"
  ++ blocker_if (negb (sin (cx_channel context) (ca_channels candidate))) "ADAPTER_CHANNEL_INCOMPATIBLE"
  ++ blocker_if (negb (sin (cx_environment context) (ca_environments candidate))) "ADAPTER_ENVIRONMENT_INCOMPATIBLE"
  ++ blocker_if (negb (String.eqb (ct_status certification) "certified")) "ADAPTER_CERTIFICATION_NOT_READY"
  ++ blocker_if (negb (String.eqb (ct_environment certification) (cx_environment context)))
       "ADAPTER_CERTIFICATION_ENVIRONMENT_MISMATCH"
  ++ blocker_if (Z.leb (ct_expiresAt certification) (cx_now context)) "ADAPTER_CERTIFICATION_EXPIRED"
  ++ blocker_if (cx_dispatchRequested context && negb (ct_dispatchCertified certification))
       "ADAPTER_DISPATCH_NOT_CERTIFIED"
  ++ blocker_if (cx_applyRequested context && negb (ct_applyCertified certification)) "ADAPTER_APPLY_NOT_CERTIFIED"
  ++ blocker_if (negb (String.eqb (hl_status health) "healthy")) "ADAPTER_HEALTH_NOT_READY"
  ++ blocker_if (Z.ltb age 0 || Z.ltb (hl_maxAgeSeconds health) age) "ADAPTER_HEALTH_EVIDENCE_STALE"
  ++ blocker_if (negb (sin (ro_mode rollout) READY_ROLLOUT_MODES)) "ADAPTER_ROLLOUT_BLOCKED"
  ++ blocker_if (negb (ro_eligible rollout)) "ADAPTER_ROLLOUT_NOT_ELIGIBLE"
  ++ blocker_if (String.eqb (ro_mode rollout) "shadow" && (cx_dispatchRequested context || cx_applyRequested context))
       "ADAPTER_SHADOW_EFFECT_FORBIDDEN"
  ++ blocker_if (negb (rd_providerEnabled readiness)) "ADAPTER_PROVIDER_DISABLED"
  ++ blocker_if (negb (rd_connectionReady readiness)) "ADAPTER_CONNECTION_NOT_READY"
  ++ blocker_if (negb (rd_credentialReferenceReady readiness)) "ADAPTER_CREDENTIAL_REFERENCE_NOT_READY"
  ++ blocker_if (negb (rd_quotaReady readiness)) "ADAPTER_QUOTA_NOT_READY".

(** [map.set(key, value)]: a key that is set again keeps its place. *)
Fixpoint map_set {A} (entries : list (string * A)) (key : string) (value : A) : list (string * A) :=
  match entries with
  | [] => [(key, value)]
  | (k, v) :: rest => if String.eqb k key then (k, value) :: rest else (k, v) :: map_set rest key value
  end.

Definition uniqueBlockers (blockers : list Blocker) : list Blocker :=
  List.map snd (fold_left (fun entries b => map_set entries (blocker_hash b) b) blockers []).

Definition candidateBlockers (candidate : Candidate) (context : Context) : list Blocker :=
  js_sort (fun left right => locale_compare (blocker_hash left) (blocker_hash right))
    (uniqueBlockers (pushedBlockers candidate context)).

(** ** Ranks *)

Definition exact (expected observed : option string) : Z :=
  match expected with Some _ => if ostr_eqb expected observed then 1 else 0 | None => 0 end.

Definition rankVector (candidate : Candidate) (context : Context) : Rank :=
  let scope := ca_scope candidate in
  {| rk_preferred := if ostr_eqb (cx_preferredAdapterKey context) (Some (ca_adapterKey candidate)) then 1 else 0;
     rk_resource := if sin (cx_resourceId context) (sc_resourceIds scope) then 1 else 0;
     rk_activityBinding := exact (sc_activityBindingId scope) (cx_activityBindingId context);
     rk_brand := exact (sc_brandId scope) (cx_brandId context);
     rk_workspace := exact (sc_workspaceId scope) (cx_workspaceId context);
     rk_tenant := exact (sc_tenantId scope) (Some (cx_tenantId context));
     rk_preferenceWeight := ca_preferenceWeight candidate;
     rk_bindingPriority := ca_bindingPriority candidate;
     rk_healthScore := hl_score (ca_health candidate);
     rk_version := ca_version candidate |}.

(** The sign of [right[index] - left[index]] at the first index that differs. *)
Definition compareRank (left right : Rank) : comparison :=
  fold_right (fun component rest => cmp_or (Z.compare (component right) (component left)) rest) Eq rank_components.

Definition compareCandidateEvidence (left right : Evidence) : comparison :=
  let by_text := fun f : Candidate -> string => locale_compare (f (ev_candidate left)) (f (ev_candidate right)) in
  cmp_or (compareRank (ev_rank left) (ev_rank right))
    (cmp_or (by_text ca_adapterKey) (cmp_or (by_text ca_adapterVersionId) (by_text ca_providerBindingRef))).

Definition evidence (context : Context) (candidate : Candidate) : Evidence :=
  {| ev_candidate := candidate; ev_blockers := candidateBlockers candidate context;
     ev_rank := rankVector candidate context |}.

Definition js_of_rank (r : Rank) : jsval := VArr (List.map (fun component => js_int (component r)) rank_components).

(** [base] of [evidence] *)
Definition evidence_fields (e : Evidence) : jsobj :=
  let c := ev_candidate e in
  [("adapter_key", VStr (ca_adapterKey c)); ("adapter_version_id", VStr (ca_adapterVersionId c));
   ("provider_binding_ref", VStr (ca_providerBindingRef c)); ("connected_system_id", VStr (ca_connectedSystemId c));
   ("connection_id", VStr (ca_connectionId c)); ("endpoint_key", VStr (ca_endpointKey c));
   ("version", js_int (ca_version c)); ("ready", VBool (ready e));
   ("blockers", VArr (List.map js_of_blocker (ev_blockers e))); ("rank_vector", js_of_rank (ev_rank e));
   ("certification_evidence_sha256", VStr (ct_evidenceSha256 (ca_certification c)));
   ("health_evidence_sha256", VStr (hl_evidenceSha256 (ca_health c)));
   ("rollout_evidence_sha256", VStr (ro_evidenceSha256 (ca_rollout c))); ("provider_calls", VBool false);
   ("provider_dispatch_allowed", VBool false); ("external_writes", VBool false); ("secrets_included", VBool false)].

Definition evidence_hash (e : Evidence) : string := stableSha256 (VObj (evidence_fields e)).

Definition js_of_evidence (e : Evidence) : jsval :=
  VObj (evidence_fields e ++ [("candidate_evidence_sha256", VStr (evidence_hash e))]).

(** ** The resolution *)

(** [`${candidate.adapterVersionId}:${candidate.providerBindingRef}`] *)
Definition identity (c : Candidate) : string := ca_adapterVersionId c +:+ ":" +:+ ca_providerBindingRef c.

Definition distinctCandidates (candidates : list Candidate) : js unit :=
  distinctBy identity (fun name =>
    fail "GROWTH_CONTROL_ADAPTER_REGISTRY_INVALID" "Duplicate adapter-version binding identity is forbidden."
      "registryCandidates" "duplicate_identity" [("identity", VStr name)]) [] candidates.

Definition same_rank (left right : Evidence) : bool :=
  match compareRank (ev_rank left) (ev_rank right) with Eq => true | _ => false end.

Definition status_text (s : Status) : string :=
  match s with status_blocked => "blocked" | status_ambiguous => "ambiguous" | status_selected => "selected" end.

Definition resolve_candidates (normalized : list Candidate) (context : Context) : Resolution :=
  let candidates := js_sort compareCandidateEvidence (List.map (evidence context) normalized) in
  let readyCandidates := bfilter ready candidates in
  let tied := match readyCandidates with
              | topCandidate :: _ => bfilter (fun candidate => same_rank candidate topCandidate) readyCandidates
              | [] => []
              end in
  let status := if length readyCandidates =? 0 then status_blocked
                else if 1 <? length tied then status_ambiguous else status_selected in
  {| rs_status := status; rs_selection := match status with status_selected => head readyCandidates | _ => None end;
     rs_tied := tied; rs_candidates := candidates; rs_ready_count := length readyCandidates; rs_context := context |}.

Definition js_of_selection (e : Evidence) : jsval :=
  let c := ev_candidate e in VObj
  [("adapter_key", VStr (ca_adapterKey c)); ("adapter_version_id", VStr (ca_adapterVersionId c));
   ("provider_binding_ref", VStr (ca_providerBindingRef c)); ("connected_system_id", VStr (ca_connectedSystemId c));
   ("connection_id", VStr (ca_connectionId c)); ("endpoint_key", VStr (ca_endpointKey c));
   ("version", js_int (ca_version c)); ("rank_vector", js_of_rank (ev_rank e));
   ("candidate_evidence_sha256", VStr (evidence_hash e));
   ("certification_evidence_sha256", VStr (ct_evidenceSha256 (ca_certification c)));
   ("health_evidence_sha256", VStr (hl_evidenceSha256 (ca_health c)));
   ("rollout_evidence_sha256", VStr (ro_evidenceSha256 (ca_rollout c)))].

Definition js_of_tied (e : Evidence) : jsval :=
  let c := ev_candidate e in VObj
  [("adapter_key", VStr (ca_adapterKey c)); ("adapter_version_id", VStr (ca_adapterVersionId c));
   ("provider_binding_ref", VStr (ca_providerBindingRef c)); ("rank_vector", js_of_rank (ev_rank e));
   ("candidate_evidence_sha256", VStr (evidence_hash e))].

(** The normalised context as it is hashed. *)
Definition context_fields (c : Context) : jsobj :=
  [("tenantId", VStr (cx_tenantId c)); ("workspaceId", js_of_optional (cx_workspaceId c));
   ("brandId", js_of_optional (cx_brandId c)); ("activityBindingId", js_of_optional (cx_activityBindingId c));
   ("resourceId", VStr (cx_resourceId c)); ("capabilityKey", VStr (cx_capabilityKey c));
   ("activityTypeKey", VStr (cx_activityTypeKey c)); ("channel", VStr (cx_channel c));
   ("environment", VStr (cx_environment c)); ("preferredAdapterKey", js_of_optional (cx_preferredAdapterKey c));
   ("dispatchRequested", VBool (cx_dispatchRequested c)); ("applyRequested", VBool (cx_applyRequested c));
   ("now", VStr (toISOString (cx_now c)))].

(** [base] *)
Definition js_of_resolution (r : Resolution) : jsval := VObj
  [("contract_version", VStr "growth-control-provider-adapter-resolution-v1");
   ("status", VStr (status_text (rs_status r)));
   ("ready", VBool (match rs_status r with status_selected => true | _ => false end));
   ("blocker", match rs_status r with
               | status_blocked => VStr "ADAPTER_NOT_READY"
               | status_ambiguous => VStr "ADAPTER_SELECTION_AMBIGUOUS"
               | status_selected => VNull
               end);
   ("selection", match rs_selection r with Some e => js_of_selection e | None => VNull end);
   ("tied_top_candidates", VArr (List.map js_of_tied (rs_tied r)));
   ("candidates", VArr (List.map js_of_evidence (rs_candidates r)));
   ("candidate_count", js_int (Z.of_nat (length (rs_candidates r))));
   ("ready_candidate_count", js_int (Z.of_nat (rs_ready_count r)));
   ("context_sha256", VStr (stableSha256 (VObj (context_fields (rs_context r)))));
   ("authority_granted", VBool false); ("runtime_authority_changed", VBool false); ("provider_calls", VBool false);
   ("provider_dispatch_allowed", VBool false); ("provider_apply_allowed", VBool false);
   ("external_writes", VBool false); ("secrets_included", VBool false)].

Definition registryList (registryCandidates : jsval) : js (list jsval) :=
  let bad := fail "GROWTH_CONTROL_ADAPTER_REGISTRY_INVALID" "registryCandidates must be a non-empty bounded array."
               "registryCandidates" "invalid_or_oversized_array" [] in
  match registryCandidates with
  | VArr l => throw_if ((length l <? 1) || (MAX_CANDIDATES <? length l)) bad;; Ok l
  | _ => Throw bad
  end.

(** The resolution with its hash. *)
Definition resolveGrowthControlProviderAdapter (args : jsobj) : js (Resolution * string) :=
  let registryCandidates := oget_default args "registryCandidates" (VArr []) in
  let contextInput := oget_default args "context" (VObj []) in
  let input := VObj [("registryCandidates", registryCandidates); ("context", contextInput)] in
  assertBoundedInput contract input;;
  assertSensitiveFree contract input "input" (ic_depth contract);;
  l ← registryList registryCandidates;
  context ← normalizeContext contextInput;
  normalized ← normalizeItems normalizeCandidate l "registryCandidates";
  distinctCandidates normalized;;
  let r := resolve_candidates normalized context in
  Ok (r, stableSha256 (js_of_resolution r)).
End Resolve.

(** ** What a candidate must meet *)

(** A scope without a value admits any. *)
Definition within (expected observed : option string) : Prop := expected = None \/ expected = observed.

Definition in_scope (s : Scope) (cx : Context) : Prop :=
  within (sc_tenantId s) (Some (cx_tenantId cx)) /\ within (sc_workspaceId s) (cx_workspaceId cx) /\
  within (sc_brandId s) (cx_brandId cx) /\ within (sc_activityBindingId s) (cx_activityBindingId cx).

(** The certification covers the environment and the effects, and still holds. *)
Definition certified (ct : Certification) (cx : Context) : Prop :=
  ct_status ct = "certified" /\ ct_environment ct = cx_environment cx /\ (cx_now cx < ct_expiresAt ct)%Z /\
  (cx_dispatchRequested cx = true -> ct_dispatchCertified ct = true) /\
  (cx_applyRequested cx = true -> ct_applyCertified ct = true).

(** Observed before now, and no more than the whole seconds it may be old. *)
Definition healthy (h : Health) (now : Z) : Prop :=
  hl_status h = "healthy" /\ (hl_observedAt h <= now)%Z /\ (now < hl_observedAt h + 1000 * (hl_maxAgeSeconds h + 1))%Z.

Definition rolled_out (r : Rollout) (cx : Context) : Prop :=
  ro_mode r ∈ READY_ROLLOUT_MODES /\ ro_eligible r = true /\
  (ro_mode r = "shadow" -> cx_dispatchRequested cx = false /\ cx_applyRequested cx = false).

(** The candidate can serve the request. *)
Definition serves (cx : Context) (c : Candidate) : Prop :=
  ca_definitionStatus c = "active" /\ ca_versionStatus c = "active" /\ ca_immutable c = true /\
  (forall m, m ∈ REQUIRED_METHODS -> m ∈ ca_contractMethods c) /\
  in_scope (ca_scope c) cx /\
  (sc_resourceIds (ca_scope c) = [] \/ cx_resourceId cx ∈ sc_resourceIds (ca_scope c)) /\
  cx_capabilityKey cx ∈ ca_capabilityKeys c /\ cx_activityTypeKey cx ∈ ca_activityTypeKeys c /\
  cx_channel cx ∈ ca_channels c /\ cx_environment cx ∈ ca_environments c /\
  certified (ca_certification c) cx /\ healthy (ca_health c) (cx_now cx) /\ rolled_out (ca_rollout c) cx /\
  rd_providerEnabled (ca_readiness c) = true /\ rd_connectionReady (ca_readiness c) = true /\
  rd_credentialReferenceReady (ca_readiness c) = true /\ rd_quotaReady (ca_readiness c) = true.

(** [a] is greater at the most important component in which the two differ. *)
Definition outranks (a b : Rank) : Prop := exists before component after,
  rank_components = before ++ component :: after /\ Forall (fun f => f a = f b) before /\
  (component b < component a)%Z.

(** The one that can serve the request and outranks every other that can. *)
Definition preferred (candidates : list Candidate) (cx : Context) (c : Candidate) : Prop :=
  c ∈ candidates /\ serves cx c /\
  forall c', c' ∈ candidates -> serves cx c' -> c' <> c -> outranks (rankVector c cx) (rankVector c' cx).

(** ** Blockers *)

Lemma blocker_if_nil b code : blocker_if b code = [] <-> b = false.
Proof. by destruct b. Qed.

Lemma methodBlockers_nil methods : methodBlockers methods = [] <-> forall m, m ∈ REQUIRED_METHODS -> m ∈ methods.
Proof.
  unfold methodBlockers. transitivity (bfilter (fun m => negb (sin m methods)) REQUIRED_METHODS = []).
  { split; [apply map_eq_nil|by intros ->]. }
  rewrite bfilter_nil. setoid_rewrite negb_false_iff. by setoid_rewrite sin_true.
Qed.

Lemma scope_differs_false expected observed : scope_differs expected observed = false <-> within expected observed.
Proof.
  unfold scope_differs, within. destruct expected; [|naive_solver]. rewrite negb_false_iff, ostr_eqb_true. naive_solver.
Qed.

Lemma scopeBlockers_nil scope cx : scopeBlockers scope cx = [] <-> in_scope scope cx.
Proof.
  unfold scopeBlockers. transitivity (bfilter (fun s => scope_differs s.1.2 s.2) (scopes scope cx) = []).
  { split; [apply map_eq_nil|by intros ->]. }
  rewrite bfilter_nil. setoid_rewrite scope_differs_false. unfold scopes, in_scope.
  rewrite <- Forall_forall, !Forall_cons. simpl. rewrite Forall_nil. tauto.
Qed.

Lemma fresh_iff h now : (Z.ltb (ageSeconds now (hl_observedAt h)) 0
    || Z.ltb (hl_maxAgeSeconds h) (ageSeconds now (hl_observedAt h))) = false <->
  (hl_observedAt h <= now)%Z /\ (now < hl_observedAt h + 1000 * (hl_maxAgeSeconds h + 1))%Z.
Proof.
  unfold ageSeconds. rewrite orb_false_iff, !Z.ltb_ge. pose proof (Z_div_mod_eq_full (now - hl_observedAt h) 1000).
  pose proof (Z.mod_pos_bound (now - hl_observedAt h) 1000). lia.
Qed.

Lemma andb_negb_false a b : a && negb b = false <-> (a = true -> b = true).
Proof. destruct a, b; naive_solver. Qed.

Lemma shadow_iff mode a b : String.eqb mode "shadow" && (a || b) = false <-> (mode = "shadow" -> a = false /\ b = false).
Proof.
  rewrite andb_false_iff, orb_false_iff, String.eqb_neq. destruct (decide (mode = "shadow")); tauto.
Qed.

Lemma resource_iff ids id : (0 <? length ids) && negb (sin id ids) = false <-> ids = [] \/ id ∈ ids.
Proof. rewrite andb_negb_false, sin_true. destruct ids; simpl; naive_solver. Qed.

(** No blocker is pushed exactly when the candidate can serve the request. *)
Lemma pushedBlockers_nil c cx : pushedBlockers c cx = [] <-> serves cx c.
Proof.
  unfold pushedBlockers. cbv zeta. rewrite !app_nil, !blocker_if_nil, methodBlockers_nil, scopeBlockers_nil, fresh_iff,
    shadow_iff, resource_iff, !andb_negb_false, !negb_false_iff, !String.eqb_eq, !sin_true, Z.leb_gt.
  unfold serves, certified, healthy, rolled_out. tauto.
Qed.

Lemma map_set_nonempty {A} (entries : list (string * A)) key value : map_set entries key value <> [].
Proof. destruct entries as [|[k v] rest]; simpl; [done|]. by destruct (String.eqb k key). Qed.

(** ** Ranks *)

#[export] Instance compareRank_order : CmpOrder compareRank.
Proof.
  unfold compareRank. induction rank_components as [|f l IH]; simpl; [by split|].
  apply cmp_lex; [|done]. apply (cmp_by_key f (fun x y => Z.compare y x) (CmpOrder0:=GrowthConfig.zcompare_desc)).
Qed.

Lemma compareRank_Lt a b : compareRank a b = Lt <-> outranks a b.
Proof.
  unfold compareRank, outranks. induction rank_components as [|f l IH]; simpl.
  - split; [done|]. intros (before & f & after & Heq & _). by destruct before.
  - unfold cmp_or at 1. destruct (Z.compare_spec (f b) (f a)) as [Heq|Hlt|Hgt].
    + rewrite IH. split.
      * intros (before & g & after & -> & HF & Hg). exists (f :: before), g, after. split; [done|]. split; [by constructor|done].
      * intros ([|f' before] & g & after & [= -> ->] & HF & Hg); [lia|]. inversion HF; subst. by exists before, g, after.
    + split; [|done]. intros _. by exists [], f, l.
    + split; [done|]. intros ([|f' before] & g & after & [= -> ->] & HF & Hg); [lia|]. inversion HF; subst. lia.
Qed.

Lemma compareRank_Eq a b : compareRank a b = Eq -> a = b.
Proof.
  assert (forall fs, fold_right (fun component rest => cmp_or (Z.compare (component b) (component a)) rest) Eq fs = Eq ->
    Forall (fun f : Rank -> Z => f a = f b) fs) as Hall.
  { induction fs as [|f fs IH]; simpl; [constructor|]. unfold cmp_or.
    destruct (Z.compare_spec (f b) (f a)); [|done|done]. constructor; [done|by apply IH]. }
  intros Hc%(Hall rank_components). unfold rank_components in Hc. rewrite !Forall_cons in Hc.
  destruct a, b; simpl in *. destruct Hc as (-> & -> & -> & -> & -> & -> & -> & -> & -> & -> & _). done.
Qed.

Section Selection.
Context `{JsHost}.

Lemma uniqueBlockers_nil l : uniqueBlockers l = [] <-> l = [].
Proof.
  split; [|by intros ->]. unfold uniqueBlockers. intros Hl%map_eq_nil. destruct l as [|b l]; [done|]. exfalso. revert Hl. simpl.
  assert (forall l entries, entries <> [] -> fold_left (fun e b => map_set e (blocker_hash b) b) l entries <> []) as Hne.
  { induction l0 as [|x l0 IH]; intros entries He; simpl; [done|]. apply IH, map_set_nonempty. }
  by apply Hne.
Qed.

Lemma ready_serves cx c : ready (evidence cx c) = true <-> serves cx c.
Proof.
  unfold ready, evidence, candidateBlockers. simpl. rewrite Nat.eqb_eq, js_sort_length, length_zero_iff_nil, uniqueBlockers_nil.
  apply pushedBlockers_nil.
Qed.

Context `{!JsHostLaws}.

#[local] Instance compareCandidateEvidence_order : CmpOrder compareCandidateEvidence.
Proof.
  apply cmp_lex; [apply (cmp_by_key ev_rank compareRank)|]. apply cmp_lex; [|apply cmp_lex].
  - apply (cmp_by_key (fun e => ca_adapterKey (ev_candidate e)) locale_compare).
  - apply (cmp_by_key (fun e => ca_adapterVersionId (ev_candidate e)) locale_compare).
  - apply (cmp_by_key (fun e => ca_providerBindingRef (ev_candidate e)) locale_compare).
Qed.

(** ** The selection among the candidates that are ready *)

Definition ready_list (normalized : list Candidate) (cx : Context) : list Evidence :=
  bfilter ready (js_sort compareCandidateEvidence (List.map (evidence cx) normalized)).

Lemma elem_of_ready_list normalized cx e :
  e ∈ ready_list normalized cx <-> exists c, e = evidence cx c /\ c ∈ normalized /\ serves cx c.
Proof.
  unfold ready_list. rewrite elem_of_bfilter, elem_of_js_sort, list_elem_of_fmap. split.
  - intros (Hr & c & -> & Hc). exists c. by rewrite <- ready_serves.
  - intros (c & -> & Hc & Hs). rewrite ready_serves. split; [done|]. by exists c.
Qed.

Lemma ready_list_NoDup normalized cx : NoDup normalized -> NoDup (ready_list normalized cx).
Proof.
  intros Hnd. unfold ready_list. apply NoDup_ListNoDup, List.NoDup_filter, NoDup_ListNoDup. rewrite js_sort_Permutation.
  change (NoDup (evidence cx <$> normalized)). apply NoDup_fmap_2; [|done]. by intros a b [= Heq _ _].
Qed.

(** The first of the list is not outranked. *)
Lemma ready_list_top normalized cx top rest e : ready_list normalized cx = top :: rest -> e ∈ top :: rest ->
  compareRank (ev_rank top) (ev_rank e) <> Gt.
Proof.
  intros Hl He. apply elem_of_cons in He as [->|He]; [by rewrite (cmp_refl compareRank)|].
  unfold ready_list in Hl. rewrite (bfilter_js_sort compareCandidateEvidence) in Hl. pose proof (js_sort_sorted compareCandidateEvidence
    (bfilter ready (List.map (evidence cx) normalized))) as Hs. rewrite Hl in Hs. inversion Hs as [|? ? _ Hall]; subst.
  rewrite Forall_forall in Hall. specialize (Hall e He). apply leb_of_true in Hall. unfold compareCandidateEvidence, cmp_or in Hall.
  by destruct (compareRank (ev_rank top) (ev_rank e)).
Qed.

(** Which one is strictly the best. *)
Definition best (l : list Evidence) (e : Evidence) : Prop :=
  e ∈ l /\ forall e', e' ∈ l -> e' <> e -> outranks (ev_rank e) (ev_rank e').

Lemma outranks_not_below a b : outranks a b -> compareRank b a <> Gt -> False.
Proof. rewrite <- compareRank_Lt. intros Hab Hba. apply Hba. rewrite (cmp_opp (cmp := compareRank)), Hab. done. Qed.

Lemma tied_single normalized cx top rest : NoDup normalized -> ready_list normalized cx = top :: rest ->
  (bfilter (fun e => same_rank e top) (top :: rest) = [top] <-> best (top :: rest) top).
Proof.
  intros Hnd Hl. rewrite bfilter_singleton by (rewrite <- Hl; by apply ready_list_NoDup). unfold only, best, same_rank. split.
  - intros (Hin & _ & Hu). split; [done|]. intros e He Hne. apply compareRank_Lt.
    pose proof (ready_list_top _ _ _ _ e Hl He) as Hng. destruct (compareRank (ev_rank top) (ev_rank e)) eqn:E; [|done|done].
    exfalso. apply Hne, Hu; [done|]. by rewrite (cmp_opp (cmp := compareRank)), E.
  - intros (Hin & Hb). split; [done|]. split; [by rewrite (cmp_refl compareRank)|]. intros e He Heq.
    destruct (compareRank (ev_rank e) (ev_rank top)) eqn:E; [|done|done].
    destruct (decide (e = top)) as [->|Hne]; [done|]. specialize (Hb e He Hne). apply compareRank_Lt in Hb.
    by rewrite (cmp_opp (cmp := compareRank)), E in Hb.
Qed.

Lemma best_top normalized cx top rest e : ready_list normalized cx = top :: rest -> best (top :: rest) e -> e = top.
Proof.
  intros Hl [He Hb]. destruct (decide (e = top)) as [|Hne]; [done|]. exfalso.
  apply (outranks_not_below (ev_rank e) (ev_rank top)); [by apply Hb; [left|]|]. by eapply ready_list_top.
Qed.

Lemma selection_best normalized cx e : NoDup normalized ->
  rs_selection (resolve_candidates normalized cx) = Some e <-> best (ready_list normalized cx) e.
Proof.
  intros Hnd. unfold resolve_candidates. cbv zeta. simpl rs_selection. fold (ready_list normalized cx).
  destruct (ready_list normalized cx) as [|top rest] eqn:Hl.
  { split; [done|]. intros [He _]. by apply not_elem_of_nil in He. }
  pose proof (tied_single _ _ _ _ Hnd Hl) as Ht. set (tied := bfilter _ (top :: rest)) in *. cbn [length Nat.eqb].
  assert (top ∈ tied) as Hin.
  { apply elem_of_bfilter. split; [|by left]. unfold same_rank. by rewrite (cmp_refl compareRank). }
  destruct (1 <? length tied) eqn:E; simpl head.
  - split; [done|]. intros Hb. pose proof (best_top _ _ _ _ _ Hl Hb) as ->. apply Ht in Hb. by rewrite Hb in E.
  - apply Nat.ltb_ge in E. destruct (length_one_inv tied) as [x Hx].
    { destruct tied; [by apply not_elem_of_nil in Hin|]. simpl in *. lia. }
    rewrite Hx in Hin. apply list_elem_of_singleton in Hin as ->. apply Ht in Hx. split; [by intros [= <-]|].
    intros Hb. change (Some x = Some e). f_equal. symmetry. by eapply best_top.
Qed.

Lemma best_preferred normalized cx e :
  best (ready_list normalized cx) e <-> exists c, e = evidence cx c /\ preferred normalized cx c.
Proof.
  unfold best, preferred. setoid_rewrite elem_of_ready_list. split.
  - intros ((c & -> & Hc & Hs) & Hb). exists c. split; [done|]. split; [done|]. split; [done|].
    intros c' Hc' Hs' Hne. apply (Hb (evidence cx c')); [by exists c'|]. by intros [= ? _ _].
  - intros (c & -> & Hc & Hs & Hb). split; [by exists c|]. intros e' (c' & -> & Hc' & Hs') Hne. apply Hb; [done|done|].
    by intros ->.
Qed.

Lemma selection_preferred normalized cx e : NoDup normalized ->
  rs_selection (resolve_candidates normalized cx) = Some e <-> exists c, e = evidence cx c /\ preferred normalized cx c.
Proof. intros Hnd. rewrite selection_best by done. apply best_preferred. Qed.

Lemma status_blocked_iff normalized cx :
  rs_status (resolve_candidates normalized cx) = status_blocked <-> forall c, c ∈ normalized -> ~ serves cx c.
Proof.
  unfold resolve_candidates. cbv zeta. simpl rs_status. fold (ready_list normalized cx).
  pose proof (elem_of_ready_list normalized cx) as He. destruct (ready_list normalized cx) as [|top rest]; simpl.
  - split; [|done]. intros _ c Hc Hs. apply (not_elem_of_nil (evidence cx c)), He. by exists c.
  - split; [by case_match|]. intros Hno. destruct (proj1 (He top)) as (c & _ & Hc & Hs); [by left|]. by apply Hno in Hs.
Qed.

Lemma status_selected_iff normalized cx :
  rs_status (resolve_candidates normalized cx) = status_selected <-> is_Some (rs_selection (resolve_candidates normalized cx)).
Proof.
  unfold resolve_candidates. cbv zeta. simpl. fold (ready_list normalized cx).
  destruct (ready_list normalized cx) as [|top rest]; simpl; [by split; [|intros []]|].
  case_match; split; try done; by intros [].
Qed.

(** ** Another listing of the candidates *)

(** What a listing in another order cannot change. *)
Definition same_resolution (r r' : Resolution) : Prop :=
  rs_status r' = rs_status r /\ rs_selection r' = rs_selection r /\ rs_tied r' ≡ₚ rs_tied r /\
  rs_candidates r' ≡ₚ rs_candidates r /\ rs_ready_count r' = rs_ready_count r /\ rs_context r' = rs_context r.

Section Listed.
Context (l l' : list Candidate) (cx : Context) (HP : l ≡ₚ l') (Hnd : NoDup l).

Lemma ready_list_Permutation : ready_list l' cx ≡ₚ ready_list l cx.
Proof. unfold ready_list. apply bfilter_Permutation. by rewrite !js_sort_Permutation, HP. Qed.

Lemma preferred_Permutation c : preferred l' cx c <-> preferred l cx c.
Proof. unfold preferred. by setoid_rewrite HP. Qed.

Lemma selection_Permutation : rs_selection (resolve_candidates l' cx) = rs_selection (resolve_candidates l cx).
Proof.
  apply option_eq. intros e. rewrite !selection_preferred by (by try rewrite <- HP). by setoid_rewrite preferred_Permutation.
Qed.

Lemma status_Permutation : rs_status (resolve_candidates l' cx) = rs_status (resolve_candidates l cx).
Proof.
  pose proof (status_blocked_iff l cx) as Hb. pose proof (status_blocked_iff l' cx) as Hb'.
  pose proof (status_selected_iff l cx) as Hs. pose proof (status_selected_iff l' cx) as Hs'.
  rewrite selection_Permutation in Hs'.
  assert ((forall c, c ∈ l' -> ~ serves cx c) <-> (forall c, c ∈ l -> ~ serves cx c)) as Hno by (by setoid_rewrite HP).
  rewrite Hno, <- Hb in Hb'. clear Hno Hb.
  destruct (rs_status (resolve_candidates l cx)), (rs_status (resolve_candidates l' cx)); try done; exfalso; naive_solver.
Qed.

(** The first candidates of both listings have the same rank. *)
Lemma tied_Permutation : rs_tied (resolve_candidates l' cx) ≡ₚ rs_tied (resolve_candidates l cx).
Proof.
  unfold resolve_candidates. cbv zeta. simpl. fold (ready_list l cx) (ready_list l' cx).
  pose proof ready_list_Permutation as HR.
  destruct (ready_list l cx) as [|top rest] eqn:El.
  { apply Permutation_nil_r in HR. by rewrite HR. }
  destruct (ready_list l' cx) as [|top' rest'] eqn:El'; [by apply Permutation_nil_l in HR|].
  assert (ev_rank top' = ev_rank top) as Hrank.
  { apply compareRank_Eq. pose proof (ready_list_top _ _ _ _ top' El) as H1. pose proof (ready_list_top _ _ _ _ top El') as H2.
    rewrite <- HR in H1. rewrite HR in H2. specialize (H1 (list_elem_of_here _ _)). specialize (H2 (list_elem_of_here _ _)).
    rewrite (cmp_opp (cmp := compareRank)) in H1. by destruct (compareRank (ev_rank top') (ev_rank top)). }
  unfold same_rank. rewrite Hrank. by apply bfilter_Permutation.
Qed.

Lemma resolve_candidates_Permutation : same_resolution (resolve_candidates l cx) (resolve_candidates l' cx).
Proof.
  split; [apply status_Permutation|]. split; [apply selection_Permutation|]. split; [apply tied_Permutation|].
  unfold resolve_candidates. cbv zeta. simpl. fold (ready_list l cx) (ready_list l' cx). split; [|split; [|done]].
  - by rewrite !js_sort_Permutation, HP.
  - by rewrite ready_list_Permutation.
Qed.

(** A collation that tells keys apart leaves no choice. *)
Lemma resolve_candidates_same : (forall a b, locale_compare a b = Eq -> a = b) -> NoDup (List.map identity l) ->
  resolve_candidates l' cx = resolve_candidates l cx.
Proof.
  intros Hloc Hid. unfold resolve_candidates.
  assert (js_sort compareCandidateEvidence (List.map (evidence cx) l)
    = js_sort compareCandidateEvidence (List.map (evidence cx) l')) as ->; [|done].
  apply js_sort_ext_perm; [apply _| |by rewrite HP].
  intros x y Hx Hy Heq. apply list_elem_of_fmap in Hx as (c & -> & Hc), Hy as (d & -> & Hd).
  unfold compareCandidateEvidence, cmp_or in Heq. simpl in Heq. destruct (compareRank _ _); [|done|done].
  destruct (locale_compare (ca_adapterKey c) _); [|done|done].
  destruct (locale_compare (ca_adapterVersionId c) _) eqn:E; [|done|done]. apply Hloc in E, Heq.
  f_equal. apply (NoDup_map_inj identity l); [done..|]. unfold identity. by rewrite E, Heq.
Qed.
End Listed.

(** ** The resolution *)

Lemma normalizeMethod_field value f g : normalizeMethod value f ≃ normalizeMethod value g.
Proof. unfold normalizeMethod. same_results. Qed.

Lemma normalizeCandidate_field source f g : normalizeCandidate source f ≃ normalizeCandidate source g.
Proof.
  unfold normalizeCandidate, normalizeScope, normalizeCertification, normalizeHealth, normalizeRollout.
  pose proof normalizeMethod_field. same_results.
Qed.

Lemma resolve_Ok args r hash : resolveGrowthControlProviderAdapter args = Ok (r, hash) <->
  exists l context candidates,
    oget_default args "registryCandidates" (VArr []) = VArr l /\ 1 <= length l <= MAX_CANDIDATES /\
    let input := VObj [("registryCandidates", VArr l); ("context", oget_default args "context" (VObj []))] in
    assertBoundedInput contract input = Ok tt /\ assertSensitiveFree contract input "input" 14 = Ok tt /\
    normalizeContext (oget_default args "context" (VObj [])) = Ok context /\
    normalizeItems normalizeCandidate l "registryCandidates" = Ok candidates /\
    NoDup (List.map identity candidates) /\ r = resolve_candidates candidates context /\
    hash = stableSha256 (js_of_resolution r).
Proof.
  unfold resolveGrowthControlProviderAdapter. cbv zeta. split.
  - intros ([] & Hb & Hr)%bind_Ok. apply bind_Ok in Hr as ([] & Hs & Hr). apply bind_Ok in Hr as (l & Hl & Hr).
    apply bind_Ok in Hr as (context & Hcx & Hr). apply bind_Ok in Hr as (candidates & Hn & Hr).
    apply bind_Ok in Hr as ([] & Hd%distinctBy_Ok & Hr). apply Ok_inj in Hr. injection Hr as <- <-.
    unfold registryList in Hl. case_match; try done. apply bind_Ok in Hl as ([] & Hlen%throw_if_Ok & Hl).
    apply Ok_inj in Hl. subst l. apply orb_false_iff in Hlen as [Hmin%Nat.ltb_ge Hmax%Nat.ltb_ge].
    eexists _, context, candidates. by repeat (split; [done|]).
  - intros (l & context & candidates & -> & [H1 H2] & Hb & Hs & Hcx & Hn & Hd & -> & ->).
    rewrite (bind_step _ _ _ Hb), (bind_step _ _ _ Hs). unfold registryList. rewrite bind_Ok. exists l. split.
    { rewrite (bind_step _ _ tt); [done|]. apply throw_if_false, orb_false_iff. by rewrite !Nat.ltb_ge. }
    rewrite (bind_step _ _ _ Hcx), (bind_step _ _ _ Hn), (bind_step _ _ tt); [done|]. by apply distinctBy_Ok.
Qed.

(** C14: An adapter is selected exactly when one candidate can serve the request and
    outranks every other one that can: it is active and immutable, has every
    method, is in scope, compatible, certified for the environment and the
    effects asked for, observed healthy recently, rolled out and available.  The
    resolution is blocked exactly when none can, and ambiguous otherwise. *)
Theorem resolveGrowthControlProviderAdapter_selects args r hash :
  resolveGrowthControlProviderAdapter args = Ok (r, hash) ->
  exists context candidates,
    normalizeContext (oget_default args "context" (VObj [])) = Ok context /\
    (exists l, oget_default args "registryCandidates" (VArr []) = VArr l /\
       normalizeItems normalizeCandidate l "registryCandidates" = Ok candidates) /\
    (forall e, rs_selection r = Some e <-> exists c, e = evidence context c /\ preferred candidates context c) /\
    (rs_status r = status_blocked <-> forall c, c ∈ candidates -> ~ serves context c) /\
    (rs_status r = status_selected <-> is_Some (rs_selection r)).
Proof.
  intros (l & context & candidates & Hl & _ & _ & _ & Hcx & Hn & Hid%NoDup_of_map & -> & _)%resolve_Ok.
  exists context, candidates. split; [done|]. split; [by exists l|]. split; [intros e; by apply selection_preferred|].
  split; [apply status_blocked_iff|apply status_selected_iff].
Qed.

(** The order in which the registry lists the candidates changes neither the
    status nor the selection, and no candidate's evidence; when the collation
    tells different keys apart, the whole resolution and its hash are the same. *)
Theorem resolveGrowthControlProviderAdapter_order_independent registry registry' context r hash :
  registry ≡ₚ registry' ->
  resolveGrowthControlProviderAdapter [("registryCandidates", VArr registry); ("context", context)] = Ok (r, hash) ->
  exists r' hash',
    resolveGrowthControlProviderAdapter [("registryCandidates", VArr registry'); ("context", context)] = Ok (r', hash') /\
    same_resolution r r' /\ ((forall a b, locale_compare a b = Eq -> a = b) -> r' = r /\ hash' = hash).
Proof.
  intros HP (l & cx & candidates & Hl & Hlen & Hb & Hs & Hcx & Hn & Hid & -> & ->)%resolve_Ok. injection Hl as <-.
  destruct (normalizeItems_Permutation _ normalizeCandidate_field _ _ _ _ HP Hn) as (candidates' & HP' & Hn').
  destruct (checked_Permutation _ _ _ _ _ _ _ HP Hb Hs) as [Hb' Hs'].
  eexists _, _. split; [|split].
  - apply resolve_Ok. exists registry', cx, candidates'. split; [done|]. split; [by rewrite <- HP|].
    split; [done|]. split; [done|]. split; [done|]. split; [done|]. split; [by rewrite <- (Permutation_map identity HP')|done].
  - apply resolve_candidates_Permutation; [done|by eapply NoDup_of_map].
  - intros Hloc. by rewrite (resolve_candidates_same _ _ cx HP' Hloc Hid).
Qed.
End Selection.

(** ** A registry *)

Definition demo_sha : jsval := VStr "0123456789abcdef0123456789abcdef0123456789abcdef0123456789abcdef".
Definition demo_texts (l : list string) : jsval := js_strings l.

Definition demo_adapter (key versionId binding : string) (priority : Z) (rolloutMode : string) : jsval := VObj
  [("adapterKey", VStr key); ("adapterVersionId", VStr versionId); ("providerBindingRef", VStr binding);
   ("connectedSystemId", VStr "system-1"); ("connectionId", VStr "connection-1"); ("endpointKey", VStr "ads.endpoint");
   ("definitionStatus", VStr "active"); ("versionStatus", VStr "active"); ("immutable", VBool true);
   ("contractMethods", demo_texts REQUIRED_METHODS); ("capabilityKeys", demo_texts ["ads.write"]);
   ("activityTypeKeys", demo_texts ["campaign"]); ("channels", demo_texts ["search"]);
   ("environments", demo_texts ["production"]); ("bindingPriority", js_int priority);
   ("certification", VObj
     [("status", VStr "certified"); ("environment", VStr "production"); ("dispatchCertified", VBool true);
      ("expiresAt", VStr "2026-06-01T00:00:00.000Z"); ("evidenceSha256", demo_sha)]);
   ("health", VObj
     [("status", VStr "healthy"); ("score", js_int 90); ("observedAt", VStr "2026-01-01T00:00:00.000Z");
      ("evidenceSha256", demo_sha)]);
   ("rollout", VObj [("mode", VStr rolloutMode); ("eligible", VBool true); ("evidenceSha256", demo_sha)]);
   ("readiness", VObj
     [("providerEnabled", VBool true); ("connectionReady", VBool true); ("credentialReferenceReady", VBool true);
      ("quotaReady", VBool true)])].

(** The adapter in shadow mode has the highest priority, and may not dispatch. *)
Definition demo_registry : list jsval :=
  [demo_adapter "ads.one" "one-v1" "binding-1" 5 "canary"; demo_adapter "ads.two" "two-v1" "binding-2" 7 "canary";
   demo_adapter "ads.three" "three-v1" "binding-3" 9 "shadow"].

Definition demo_context : jsval := VObj
  [("tenantId", VStr "tenant-1"); ("resourceId", VStr "campaign-1"); ("capabilityKey", VStr "ads.write");
   ("activityTypeKey", VStr "campaign"); ("channel", VStr "search"); ("environment", VStr "production");
   ("dispatchRequested", VBool true); ("now", VStr "2026-01-01T00:05:00.999Z")].

Definition demo_args (registry : list jsval) : jsobj := [("registryCandidates", VArr registry); ("context", demo_context)].

Definition no_resolution : Resolution :=
  {| rs_status := status_blocked; rs_selection := None; rs_tied := []; rs_candidates := []; rs_ready_count := 0;
     rs_context :=
       {| cx_tenantId := ""; cx_workspaceId := None; cx_brandId := None; cx_activityBindingId := None; cx_resourceId := "";
          cx_capabilityKey := ""; cx_activityTypeKey := ""; cx_channel := ""; cx_environment := "";
          cx_preferredAdapterKey := None; cx_dispatchRequested := false; cx_applyRequested := false; cx_now := 0 |} |}.

Definition demo_resolution (registry : list jsval) : Resolution * string :=
  catch (resolveGrowthControlProviderAdapter (H:=demo_host) (demo_args registry)) (no_resolution, "").

Lemma demo_resolves :
  resolveGrowthControlProviderAdapter (H:=demo_host) (demo_args demo_registry) = Ok (demo_resolution demo_registry).
Proof. vm_compute. reflexivity. Qed.

Definition selected_key (r : Resolution) : option string := (fun e => ca_adapterKey (ev_candidate e)) <$> rs_selection r.

Lemma resolveGrowthControlProviderAdapter_selects_witness :
  selected_key (demo_resolution demo_registry).1 = Some "ads.two" /\
  exists context candidates,
    normalizeContext (H:=demo_host) demo_context = Ok context /\
    (forall e, rs_selection (demo_resolution demo_registry).1 = Some e <->
       exists c, e = evidence (H:=demo_host) context c /\ preferred candidates context c).
Proof.
  split; [vm_compute; reflexivity|].
  destruct (resolveGrowthControlProviderAdapter_selects (H:=demo_host) (H0:=demo_host_laws) (demo_args demo_registry)
    (demo_resolution demo_registry).1 (demo_resolution demo_registry).2) as (context & candidates & Hcx & _ & Hsel & _).
  - etransitivity; [exact demo_resolves|]. by destruct (demo_resolution demo_registry).
  - exists context, candidates. by split.
Defined.

(** Two adapters of the same rank are not chosen between. *)
Lemma resolveGrowthControlProviderAdapter_order_independent_witness :
  rs_status (demo_resolution (demo_adapter "ads.four" "four-v1" "binding-4" 7 "canary" :: demo_registry)).1 = status_ambiguous /\
  exists r' hash',
    resolveGrowthControlProviderAdapter (H:=demo_host) (demo_args (rev demo_registry)) = Ok (r', hash') /\
    same_resolution (demo_resolution demo_registry).1 r' /\
    ((forall a b, locale_compare (JsHost:=demo_host) a b = Eq -> a = b) ->
     r' = (demo_resolution demo_registry).1 /\ hash' = (demo_resolution demo_registry).2).
Proof.
  split; [vm_compute; reflexivity|].
  apply (resolveGrowthControlProviderAdapter_order_independent (H:=demo_host) (H0:=demo_host_laws)
           demo_registry (rev demo_registry) demo_context).
  - symmetry. apply Permutation_rev.
  - etransitivity; [exact demo_resolves|]. by destruct (demo_resolution demo_registry).
Defined.

(** Version ids and binding references may have a colon, so two different
    candidates can have one identity, and the registry is refused. *)
Lemma identity_collides :
  exists e, resolveGrowthControlProviderAdapter (H:=demo_host)
    (demo_args [demo_adapter "ads.one" "a:b" "c" 5 "canary"; demo_adapter "ads.two" "a" "b:c" 5 "canary"]) = Throw e.
Proof. eexists. vm_compute. reflexivity. Qed.
End AdapterResolver.
