(* ===== verification/AuthorityScope.v ===== *)
(** * Authority scopes
    (src/domain/authorityScope/authorityScope.js and
    src/application/authorityScope/authorityScopeService.js)

    A record of the registry becomes a scope of the platform or of one tenant,
    and the service decides whether an authenticated principal may resolve it.
    The registry and the audit writer are ports.  Proved: the key of a scope
    names its owner, and a scope is resolved exactly for those it belongs to: a
    principal of a tenant gets the scope of that tenant only, and the platform
    gets the scope of a tenant only when it asks for that tenant, after the
    audit writer, if there is one, has accepted the record of it. *)
From S2P Require Import Prelude JsString JsDate JsValue JsJson UnifiedDiff ApplicationSupport.

Module AuthorityScope.
Import ApplicationSupport.

(** ** Data *)

(** [AUTHORITY_SCOPE_TYPES] *)
Inductive ScopeType := scope_platform | scope_tenant.

Definition AUTHORITY_SCOPE_TYPES : list (string * ScopeType) := [("platform", scope_platform); ("tenant", scope_tenant)].

(** [AUTHORITY_SCOPE_STATUSES] *)
Inductive ScopeStatus := scope_active | scope_suspended | scope_archived.

Definition AUTHORITY_SCOPE_STATUSES : list (string * ScopeStatus) :=
  [("active", scope_active); ("suspended", scope_suspended); ("archived", scope_archived)].

Definition type_text (t : ScopeType) : string := match t with scope_platform => "platform" | scope_tenant => "tenant" end.

Definition status_text (s : ScopeStatus) : string :=
  match s with scope_active => "active" | scope_suspended => "suspended" | scope_archived => "archived" end.

Definition PLATFORM_AUTHORITY_SCOPE_KEY : string := "platform:root".

Record Scope := {
  as_scopeId : string;
  as_scopeKey : string;
  as_scopeType : ScopeType;
  as_tenantId : option string;
  as_status : ScopeStatus;
  as_version : Z;
  as_metadata : jsval;
  as_createdAt : jsval;
  as_updatedAt : jsval;
}.

Record Principal := { pr_principalType : string; pr_principalId : string }.

(** What the service is created with. *)
Record Options := {
  op_auditWriter : bool;                   (* [typeof auditWriter === "function"] *)
  op_requirePlatformTenantAudit : bool;
}.

Record Resolved := {
  rv_selectionMode : string;
  rv_principal : Principal;
  rv_scope : Scope;
}.

Definition AuthorityScopeError (code message : string) (status : Z) (details : jsobj) : jserror :=
  CodedErr code status message details.

(** [set.has(text)], with the value that the text stands for. *)
Definition named {A} (names : list (string * A)) (text : string) : option A :=
  snd <$> List.find (fun p => String.eqb p.1 text) names.

(** [Number.parseInt(s, 10)]; [None] is [NaN]. *)
Definition parseInt (s : string) : option Z :=
  let digits := fun sign t =>
    let '(a, _) := UnifiedDiff.span_chars is_digit t in
    if is_empty a then None else Some (sign * UnifiedDiff.digits_value 0 a)%Z in
  match js_trim s with
  | String "-" rest => digits (-1)%Z rest
  | String "+" rest => digits 1%Z rest
  | t => digits 1%Z t
  end.

Section Scopes.
Context `{JsHost}.

(** ** The domain *)

Definition cleanString (value : jsval) : option string :=
  let normalized := js_trim (str_coalesce value) in
  if is_empty normalized then None else Some normalized.

Definition requireString (value : jsval) (code message : string) : js string :=
  match cleanString value with
  | Some normalized => Ok normalized
  | None => Throw (AuthorityScopeError code message 400 [])
  end.

Definition tenantAuthorityScopeKey (tenantId : jsval) : js string :=
  id ← requireString tenantId "TENANT_ID_REQUIRED" "tenantId is required to derive a tenant authority scope.";
  Ok ("tenant:" +:+ id).

Definition isPlatformPrincipal (auth : jsval) : bool :=
  is_true (vget auth "is_admin") || is_str (vget auth "mode") "backend_api_key"
  || is_str (vget auth "principal_type") "platform_admin".

(** [a ?? b] of two spellings of a property *)
Definition either (v : jsval) (a b : string) : jsval := js_coalesce (vget v a) (vget v b).

Definition normalizeAuthorityScope (record : jsval) : js Scope :=
  throw_if (nullish record) (TypeErr "Cannot read properties of null");;
  typeText ← requireString (either record "scopeType" "scope_type") "AUTHORITY_SCOPE_TYPE_REQUIRED"
               "Authority scope type is required.";
  scopeType ← match named AUTHORITY_SCOPE_TYPES typeText with
              | Some t => Ok t
              | None => Throw (AuthorityScopeError "AUTHORITY_SCOPE_TYPE_INVALID"
                          ("Unsupported authority scope type: " +:+ typeText +:+ ".") 422 [])
              end;
  let tenantId := cleanString (either record "tenantId" "tenant_id") in
  match scopeType, tenantId with
  | scope_platform, Some _ => Throw (AuthorityScopeError "PLATFORM_SCOPE_TENANT_FORBIDDEN"
                                "Platform authority scope cannot carry tenant ownership." 422 [])
  | scope_tenant, None => Throw (AuthorityScopeError "TENANT_SCOPE_TENANT_REQUIRED"
                            "Tenant authority scope requires tenant ownership." 422 [])
  | _, _ => Ok tt
  end;;
  scopeKey ← requireString (either record "scopeKey" "scope_key") "AUTHORITY_SCOPE_KEY_REQUIRED"
               "Authority scope key is required.";
  expectedScopeKey ← match scopeType with
                     | scope_platform => Ok PLATFORM_AUTHORITY_SCOPE_KEY
                     | scope_tenant => tenantAuthorityScopeKey (match tenantId with Some t => VStr t | None => VNull end)
                     end;
  throw_if (negb (String.eqb scopeKey expectedScopeKey))
    (AuthorityScopeError "AUTHORITY_SCOPE_KEY_MISMATCH" "Authority scope key does not match its scope type and owner."
       422 [("expectedScopeKey", VStr expectedScopeKey)]);;
  scopeId ← requireString (either record "scopeId" "scope_id") "AUTHORITY_SCOPE_ID_REQUIRED"
              "Authority scope id is required.";
  let statusText := default "active" (cleanString (vget record "status")) in
  status ← match named AUTHORITY_SCOPE_STATUSES statusText with
           | Some s => Ok s
           | None => Throw (AuthorityScopeError "AUTHORITY_SCOPE_STATUS_INVALID"
                       ("Unsupported authority scope status: " +:+ statusText +:+ ".") 422 [])
           end;
  let invalidVersion := AuthorityScopeError "AUTHORITY_SCOPE_VERSION_INVALID"
                          "Authority scope version must be a positive integer." 422 [] in
  version ← match parseInt (js_String (js_coalesce (vget record "version") (VNum (Some 1%Z)))) with
            | Some n => throw_if (Z.ltb n 1) invalidVersion;; Ok n
            | None => Throw invalidVersion
            end;
  Ok {| as_scopeId := scopeId; as_scopeKey := scopeKey; as_scopeType := scopeType; as_tenantId := tenantId;
        as_status := status; as_version := version;
        as_metadata := js_coalesce (either record "metadata" "metadata_json") VNull;
        as_createdAt := js_coalesce (either record "createdAt" "created_at") VNull;
        as_updatedAt := js_coalesce (either record "updatedAt" "updated_at") VNull |}.

Definition requireActiveAuthorityScope (scope : jsval) : js Scope :=
  normalized ← normalizeAuthorityScope scope;
  match as_status normalized with
  | scope_active => Ok normalized
  | status => Throw (AuthorityScopeError "AUTHORITY_SCOPE_INACTIVE" "Authority scope is not active." 409
                [("scopeKey", VStr (as_scopeKey normalized)); ("status", VStr (status_text status))])
  end.

Definition authorityPrincipalDescriptor (auth : jsval) : js Principal :=
  let text := fun key => cleanString (vget auth key) in
  if isPlatformPrincipal auth then
    Ok {| pr_principalType := "platform_admin"; pr_principalId := default "platform_admin" (text "user_id") |}
  else
    let or_else := fun a b : option string => match a with Some _ => a | None => b end in
    match or_else (text "user_id") (or_else (text "principal_id") (or_else (text "agent_id") (text "service_id"))) with
    | Some principalId =>
        Ok {| pr_principalType := default "tenant_member" (text "principal_type"); pr_principalId := principalId |}
    | None => Throw (AuthorityScopeError "AUTHENTICATED_PRINCIPAL_REQUIRED"
                "An authenticated principal identifier is required." 401 [])
    end.

(** ** The service *)

(** The lookup that a request selects, with its mode. *)
Definition lookupOf (platformPrincipal : bool) (explicitTenantId explicitScopeKey : option string)
    : option (port_call * string) :=
  match explicitScopeKey, explicitTenantId with
  | Some key, _ => Some (findScopeByKey key, "explicit_scope_key")
  | None, Some tenantId => Some (findScopeByTenantId tenantId, "explicit_tenant")
  | None, None =>
      if platformPrincipal then Some (findScopeByKey PLATFORM_AUTHORITY_SCOPE_KEY, "platform_default") else None
  end.

Definition denied (code message : string) (status : Z) : js unit := Throw (AuthorityScopeError code message status []).

(** The rules on who may resolve a scope. *)
Definition checkAccess (platformPrincipal : bool) (explicitTenantId principalTenantId : option string) (scope : Scope)
    : js unit :=
  match as_scopeType scope with
  | scope_platform =>
      if negb platformPrincipal then
        denied "PLATFORM_SCOPE_FORBIDDEN" "Only a platform principal may resolve the platform authority scope." 403
      else match explicitTenantId with
           | Some _ => denied "PLATFORM_SCOPE_TENANT_MISMATCH"
                         "Platform authority scope cannot be resolved with a tenant target." 409
           | None => Ok tt
           end
  | scope_tenant =>
      if platformPrincipal then
        match explicitTenantId with
        | None => denied "PLATFORM_TENANT_TARGET_REQUIRED"
                    "Platform access to a tenant authority scope requires an explicit tenantId." 400
        | Some _ =>
            if negb (ostr_eqb explicitTenantId (as_tenantId scope)) then
              denied "AUTHORITY_SCOPE_TENANT_MISMATCH" "Requested tenant does not match the resolved authority scope." 409
            else Ok tt
        end
      else
        match principalTenantId with
        | None => denied "CROSS_TENANT_AUTHORITY_SCOPE_DENIED"
                    "Principal cannot resolve an authority scope owned by another tenant." 403
        | Some _ =>
            if negb (ostr_eqb principalTenantId (as_tenantId scope)) then
              denied "CROSS_TENANT_AUTHORITY_SCOPE_DENIED"
                "Principal cannot resolve an authority scope owned by another tenant." 403
            else match explicitTenantId with
                 | Some _ =>
                     if negb (ostr_eqb explicitTenantId principalTenantId) then
                       denied "CROSS_TENANT_AUTHORITY_SCOPE_DENIED"
                         "Requested tenant does not match the authenticated tenant." 403
                     else Ok tt
                 | None => Ok tt
                 end
        end
  end.

Definition js_of_text (x : option string) : jsval := match x with Some s => VStr s | None => VNull end.

Definition js_of_principal (p : Principal) : jsval :=
  VObj [("principalType", VStr (pr_principalType p)); ("principalId", VStr (pr_principalId p))].

Definition auditEvent (scope : Scope) (principal : Principal) (requestId : option string) (selectionMode : string) : jsobj :=
  [("action", VStr "platform_admin_tenant_authority_scope_resolved"); ("tenantId", js_of_text (as_tenantId scope));
   ("scopeId", VStr (as_scopeId scope)); ("scopeKey", VStr (as_scopeKey scope)); ("principal", js_of_principal principal);
   ("requestId", js_of_text requestId); ("selectionMode", VStr selectionMode); ("authorityGranted", VBool false)].

Context `{!Ports} (options : Options).

(** The record of a platform principal that resolves the scope of a tenant. *)
Definition audit (platformPrincipal : bool) (scope : Scope) (event : jsobj) : app unit :=
  match platformPrincipal, as_scopeType scope with
  | true, scope_tenant =>
      sync (throw_if (op_requirePlatformTenantAudit options && negb (op_auditWriter options))
        (AuthorityScopeError "AUTHORITY_SCOPE_AUDIT_REQUIRED"
           "Platform access to a tenant authority scope requires an audit writer." 503 []));;
      (if op_auditWriter options then
         try_port (writeAudit event) (AuthorityScopeError "AUTHORITY_SCOPE_AUDIT_FAILED"
           "Platform tenant authority-scope access could not be audited." 503 []);;
         mret tt
       else mret tt)
  | _, _ => mret tt
  end.

Definition resolve (args : jsobj) : app Resolved :=
  let auth := oget_default args "auth" (VObj []) in
  let explicitTenantId := cleanString (oget_default args "tenantId" VNull) in
  let explicitScopeKey := cleanString (oget_default args "scopeKey" VNull) in
  let platformPrincipal := isPlatformPrincipal auth in
  principal ← sync (authorityPrincipalDescriptor auth);
  '(call, selectionMode) ← sync (match lookupOf platformPrincipal explicitTenantId explicitScopeKey with
    | Some lookup => Ok lookup
    | None => Throw (AuthorityScopeError "AUTHORITY_SCOPE_REQUIRED"
                "tenantId or scopeKey is required for a tenant principal." 400 [])
    end);
  row ← await_port call;
  sync (throw_if (negb (truthy row))
    (AuthorityScopeError "AUTHORITY_SCOPE_NOT_REGISTERED" "No registered authority scope matches the request." 404 []));;
  scope ← sync (requireActiveAuthorityScope row);
  sync (checkAccess platformPrincipal explicitTenantId (cleanString (vget auth "tenant_id")) scope);;
  audit platformPrincipal scope
    (auditEvent scope principal (cleanString (oget_default args "requestId" VNull)) selectionMode);;
  mret {| rv_selectionMode := selectionMode; rv_principal := principal; rv_scope := scope |}.

Definition js_of_scope (s : Scope) : jsval := VObj
  [("scopeId", VStr (as_scopeId s)); ("scopeKey", VStr (as_scopeKey s)); ("scopeType", VStr (type_text (as_scopeType s)));
   ("tenantId", js_of_text (as_tenantId s)); ("status", VStr (status_text (as_status s)));
   ("version", VNum (Some (as_version s))); ("metadata", as_metadata s); ("createdAt", as_createdAt s);
   ("updatedAt", as_updatedAt s)].

(** The object that [resolve] returns. *)
Definition js_of_resolved (r : Resolved) : jsval := VObj
  [("status", VStr "resolved"); ("enforcementMode", VStr "shadow_only"); ("source", VStr "authority_scope_registry");
   ("selectionMode", VStr (rv_selectionMode r)); ("principal", js_of_principal (rv_principal r));
   ("scope", js_of_scope (rv_scope r)); ("legacyTenantId", js_of_text (as_tenantId (rv_scope r)));
   ("authorityGranted", VBool false)].

(** ** Who owns a scope *)

Lemma cleanString_Some v s : cleanString v = Some s -> js_trim s = s /\ s <> "".
Proof.
  unfold cleanString. destruct (is_empty _) eqn:E; [done|]. intros [= <-]. apply is_empty_false in E.
  by rewrite js_trim_idemp.
Qed.

Lemma cleanString_text s : js_trim s = s -> s <> "" -> cleanString (VStr s) = Some s.
Proof. intros Ht Hs. unfold cleanString. change (str_coalesce (VStr s)) with s. rewrite Ht. by apply is_empty_false in Hs as ->. Qed.

(** The key of the owner. *)
Definition owner_key (tenantId : option string) : string :=
  match tenantId with None => PLATFORM_AUTHORITY_SCOPE_KEY | Some t => "tenant:" +:+ t end.

Lemma owner_key_inj a b : owner_key a = owner_key b -> a = b.
Proof. destruct a as [s|], b as [t|]; try done. intros Heq. injection Heq as Heq. f_equal. exact Heq. Qed.

Lemma requiredText_Ok v code message s : requireString v code message = Ok s <-> cleanString v = Some s.
Proof. unfold requireString. destruct (cleanString v); naive_solver. Qed.

Lemma normalizeAuthorityScope_Ok record s : normalizeAuthorityScope record = Ok s ->
  as_scopeType s = (match as_tenantId s with None => scope_platform | Some _ => scope_tenant end) /\
  as_scopeKey s = owner_key (as_tenantId s) /\ (1 <= as_version s)%Z.
Proof.
  unfold normalizeAuthorityScope. intros Hs. apply bind_Ok in Hs as (? & _ & Hs).
  apply bind_Ok in Hs as (typeText & _ & Hs). apply bind_Ok in Hs as (scopeType & _ & Hs).
  cbv zeta in Hs. set (tenantId := cleanString _) in Hs. apply bind_Ok in Hs as ([] & Howner & Hs).
  apply bind_Ok in Hs as (scopeKey & _ & Hs). apply bind_Ok in Hs as (expected & Hexp & Hs).
  apply bind_Ok in Hs as ([] & Hkey%throw_if_Ok & Hs). apply bind_Ok in Hs as (scopeId & _ & Hs).
  apply bind_Ok in Hs as (status & _ & Hs). apply bind_Ok in Hs as (version & Hv & Hs). apply Ok_inj in Hs. subst s. simpl.
  apply negb_false_iff, String.eqb_eq in Hkey. subst expected.
  assert (1 <= version)%Z as Hversion.
  { destruct (parseInt _) as [n|]; [|done]. apply bind_Ok in Hv as ([] & Hn%throw_if_Ok & [= <-]). by apply Z.ltb_ge in Hn. }
  destruct scopeType, tenantId as [t|] eqn:Et; try done; [by injection Hexp as <-|].
  apply cleanString_Some in Et as [Ht Hne]. unfold tenantAuthorityScopeKey in Hexp.
  apply bind_Ok in Hexp as (id & Hid%requiredText_Ok & [= <-]). rewrite cleanString_text in Hid by done. by injection Hid as <-.
Qed.

(** C40: The key of a scope names its owner: two scopes of the registry have the
    same key exactly when both are of the platform or both of the same tenant; a
    scope is of the platform exactly when no tenant owns it, and its version is
    positive. *)
Theorem normalizeAuthorityScope_owner record1 record2 s1 s2 :
  normalizeAuthorityScope record1 = Ok s1 -> normalizeAuthorityScope record2 = Ok s2 ->
  (as_scopeKey s1 = as_scopeKey s2 <-> as_scopeType s1 = as_scopeType s2 /\ as_tenantId s1 = as_tenantId s2) /\
  (as_scopeType s1 = scope_platform <-> as_tenantId s1 = None) /\ (1 <= as_version s1)%Z.
Proof.
  intros (Ht1 & Hk1 & Hv)%normalizeAuthorityScope_Ok (Ht2 & Hk2 & _)%normalizeAuthorityScope_Ok.
  split; [|split; [rewrite Ht1; by destruct (as_tenantId s1)|done]]. rewrite Hk1, Hk2, Ht1, Ht2. split.
  - by intros ->%owner_key_inj.
  - by intros [_ ->].
Qed.

(** ** Who may resolve a scope *)

Definition permitted (auth : jsval) (explicitTenantId : option string) (scope : Scope) : Prop :=
  match as_tenantId scope with
  | None => isPlatformPrincipal auth = true /\ explicitTenantId = None
  | Some tenantId =>
      if isPlatformPrincipal auth then explicitTenantId = Some tenantId
      else cleanString (vget auth "tenant_id") = Some tenantId /\
           (explicitTenantId = None \/ explicitTenantId = Some tenantId)
  end.

Lemma checkAccess_Ok auth explicitTenantId scope row : normalizeAuthorityScope row = Ok scope ->
  checkAccess (isPlatformPrincipal auth) explicitTenantId (cleanString (vget auth "tenant_id")) scope = Ok tt
  <-> permitted auth explicitTenantId scope.
Proof.
  intros (Ht & _ & _)%normalizeAuthorityScope_Ok. unfold checkAccess, permitted. rewrite Ht.
  destruct (as_tenantId scope) as [t|], (isPlatformPrincipal auth), explicitTenantId as [e|]; simpl; try naive_solver.
  - destruct (String.eqb_spec e t); naive_solver.
  - destruct (cleanString (vget auth "tenant_id")) as [p|]; [|naive_solver]. simpl.
    destruct (String.eqb_spec p t), (String.eqb_spec e p); naive_solver.
  - destruct (cleanString (vget auth "tenant_id")) as [p|]; [|naive_solver]. simpl.
    destruct (String.eqb_spec p t); naive_solver.
Qed.

Lemma requireActive_Ok row scope :
  requireActiveAuthorityScope row = Ok scope <-> normalizeAuthorityScope row = Ok scope /\ as_status scope = scope_active.
Proof.
  unfold requireActiveAuthorityScope. rewrite bind_Ok. split.
  - intros (s & Hs & Ha). destruct (as_status s) eqn:E; try done. apply Ok_inj in Ha. by subst s.
  - intros [Hs Ha]. exists scope. by rewrite Ha.
Qed.

(** The record that the audit writer is given for a result. *)
Definition recordOf (args : jsobj) (res : Resolved) : port_call :=
  writeAudit (auditEvent (rv_scope res) (rv_principal res) (cleanString (oget_default args "requestId" VNull))
                (rv_selectionMode res)).

(** A platform principal that resolves the scope of a tenant is audited. *)
Definition audited (auth : jsval) (scope : Scope) : bool :=
  isPlatformPrincipal auth && match as_tenantId scope with Some _ => op_auditWriter options | None => false end.

(** A lookup that answers with an active scope for a permitted principal. *)
Definition grants (args : jsobj) (h : list port_call) (call : port_call) (res : Resolved) : Prop :=
  let auth := oget_default args "auth" (VObj []) in
  let explicitTenantId := cleanString (oget_default args "tenantId" VNull) in
  lookupOf (isPlatformPrincipal auth) explicitTenantId (cleanString (oget_default args "scopeKey" VNull))
    = Some (call, rv_selectionMode res) /\
  authorityPrincipalDescriptor auth = Ok (rv_principal res) /\
  (exists row, answer h call = Ok row /\ truthy row = true /\ normalizeAuthorityScope row = Ok (rv_scope res)) /\
  as_status (rv_scope res) = scope_active /\ permitted auth explicitTenantId (rv_scope res).

Lemma audit_run platformPrincipal scope event h h' : 
  as_scopeType scope = (match as_tenantId scope with None => scope_platform | Some _ => scope_tenant end) ->
  audit platformPrincipal scope event h = (Ok tt, h') <->
  if platformPrincipal && match as_tenantId scope with Some _ => true | None => false end then
    if op_auditWriter options then (exists v, answer h (writeAudit event) = Ok v) /\ h' = h ++ [writeAudit event]
    else op_requirePlatformTenantAudit options = false /\ h' = h
  else h' = h.
Proof.
  intros Ht. unfold audit. rewrite Ht. destruct platformPrincipal, (as_tenantId scope) as [t|]; simpl;
    try (unfold mret, app_ret; split; [by intros [= <-]|by intros ->]).
  unfold mbind, app_bind, sync, try_port, mret, app_ret. destruct (op_auditWriter options); simpl.
  - rewrite andb_false_r. simpl. destruct (answer h (writeAudit event)) as [v|e]; split.
    + intros [= <-]. split; [by exists v|done].
    + by intros [_ ->].
    + done.
    + by intros [[v Hv] _].
  - rewrite andb_true_r. destruct (op_requirePlatformTenantAudit options); simpl; split; try done.
    + by intros [? _].
    + by intros [= <-].
    + by intros [_ ->].
Qed.

(** What the audit asks for, by whether there is a writer. *)
Lemma audit_split auth scope (P : Prop) (h h' : list port_call) (event : port_call) :
  (if isPlatformPrincipal auth && match as_tenantId scope with Some _ => true | None => false end then
     if op_auditWriter options then P /\ h' = h ++ [event] else op_requirePlatformTenantAudit options = false /\ h' = h
   else h' = h) <->
  (if audited auth scope then P /\ h' = h ++ [event]
   else (isPlatformPrincipal auth = true -> as_tenantId scope <> None -> op_requirePlatformTenantAudit options = false) /\ h' = h).
Proof.
  unfold audited. destruct (isPlatformPrincipal auth), (as_tenantId scope), (op_auditWriter options); simpl; naive_solver.
Qed.

(** C9: A scope is resolved exactly when the one lookup that the request selects
    answers with an active record and the principal is permitted: a principal of
    a tenant only the scope of that tenant, the platform its own scope, or that
    of a tenant it names.  The lookup is the only call, unless the platform
    resolves the scope of a tenant and there is an audit writer: then its record
    is written and accepted first; without a writer that is required, nothing is
    resolved. *)
Theorem resolve_isolated args h res h' :
  resolve args h = (Ok res, h') <->
  let auth := oget_default args "auth" (VObj []) in
  exists call, grants args h call res /\
    if audited auth (rv_scope res) then
      (exists v, answer (h ++ [call]) (recordOf args res) = Ok v) /\ h' = (h ++ [call]) ++ [recordOf args res]
    else
      (isPlatformPrincipal auth = true -> as_tenantId (rv_scope res) <> None ->
         op_requirePlatformTenantAudit options = false) /\ h' = h ++ [call].
Proof.
  cbv zeta. unfold grants. cbv zeta. set (auth := oget_default args "auth" (VObj [])). split.
  - unfold resolve. cbv zeta. fold auth. intros (principal & h0 & [Hp ->]%sync_Ok & Hr)%app_bind_Ok.
    apply app_bind_Ok in Hr as ([call mode] & h0 & [Hl ->]%sync_Ok & Hr).
    apply app_bind_Ok in Hr as (row & h0 & [Hrow ->]%await_Ok & Hr).
    apply app_bind_Ok in Hr as ([] & h0 & [Ht%throw_if_Ok ->]%sync_Ok & Hr).
    apply app_bind_Ok in Hr as (scope & h0 & [[Hs Ha]%requireActive_Ok ->]%sync_Ok & Hr).
    apply app_bind_Ok in Hr as ([] & h0 & [Hc ->]%sync_Ok & Hr). apply (checkAccess_Ok _ _ _ _ Hs) in Hc.
    apply app_bind_Ok in Hr as ([] & h0 & Haudit & Hr). apply mret_inv in Hr as [Heq ->]. apply Ok_inj in Heq. subst res.
    apply (audit_run _ _ _ _ _ (proj1 (normalizeAuthorityScope_Ok _ _ Hs))) in Haudit.
    destruct (lookupOf _ _ _) as [lookup|]; [|done]. apply Ok_inj in Hl. subst lookup. apply negb_false_iff in Ht.
    exists call. split; [by eauto 10|]. apply audit_split in Haudit. exact Haudit.
  - intros (call & (Hl & Hp & (row & Hrow & Ht & Hs) & Ha & Hc) & Haudit). unfold resolve. cbv zeta. fold auth.
    apply app_bind_Ok. exists (rv_principal res), h. split; [by apply sync_Ok|].
    apply app_bind_Ok. exists (call, rv_selectionMode res), h. split; [by rewrite Hl|].
    apply app_bind_Ok. exists row, (h ++ [call]). split; [by apply await_Ok|].
    apply app_bind_Ok. exists tt, (h ++ [call]). split; [by apply sync_Ok; rewrite Ht|].
    apply app_bind_Ok. exists (rv_scope res), (h ++ [call]). split; [apply sync_Ok; by rewrite requireActive_Ok|].
    apply app_bind_Ok. exists tt, (h ++ [call]). split; [apply sync_Ok; by rewrite (checkAccess_Ok _ _ _ _ Hs)|].
    apply app_bind_Ok. exists tt, h'. split; [|by destruct res].
    apply (audit_run _ _ _ _ _ (proj1 (normalizeAuthorityScope_Ok _ _ Hs))), audit_split. exact Haudit.
Qed.
End Scopes.

(** ** Two tenants and the platform *)

Definition demo_row (type key : string) (tenant : jsval) : jsval := VObj
  [("scope_id", VStr ("id-" +:+ key)); ("scope_key", VStr key); ("scope_type", VStr type); ("tenant_id", tenant);
   ("version", VStr "2")].

#[local] Instance demo_registry : Ports := {|
  answer := fun _ call =>
    match call with
    | findScopeByKey key =>
        if String.eqb key "platform:root" then Ok (demo_row "platform" key VNull)
        else if String.eqb key "tenant:one" then Ok (demo_row "tenant" key (VStr "one"))
        else Ok VNull
    | findScopeByTenantId tenantId => Ok (demo_row "tenant" ("tenant:" +:+ tenantId) (VStr tenantId))
    | _ => Ok VUndef
    end
|}.

Definition demo_options : Options := {| op_auditWriter := true; op_requirePlatformTenantAudit := true |}.

Definition demo_member : jsval := VObj [("user_id", VStr "user-1"); ("tenant_id", VStr "two")].
Definition demo_admin : jsval := VObj [("user_id", VStr "root"); ("is_admin", VBool true)].

Definition no_scope : Scope :=
  {| as_scopeId := ""; as_scopeKey := ""; as_scopeType := scope_platform; as_tenantId := None;
     as_status := scope_archived; as_version := 0; as_metadata := VNull; as_createdAt := VNull; as_updatedAt := VNull |}.
Definition no_resolved : Resolved :=
  {| rv_selectionMode := ""; rv_principal := {| pr_principalType := ""; pr_principalId := "" |}; rv_scope := no_scope |}.

Definition demo_run (args : jsobj) : js Resolved * list port_call := resolve (H:=demo_host) demo_options args [].
Definition demo_admin_args : jsobj := [("auth", demo_admin); ("tenantId", VStr " one ")].

Lemma normalizeAuthorityScope_owner_witness :
  let s1 := catch (normalizeAuthorityScope (H:=demo_host) (demo_row "tenant" "tenant:one" (VStr "one"))) no_scope in
  let s2 := catch (normalizeAuthorityScope (H:=demo_host) (demo_row "platform" "platform:root" VNull)) no_scope in
  as_version s1 = 2%Z /\ (as_scopeKey s1 = as_scopeKey s2 <->
    as_scopeType s1 = as_scopeType s2 /\ as_tenantId s1 = as_tenantId s2).
Proof.
  cbv zeta. split; [vm_compute; reflexivity|].
  apply (normalizeAuthorityScope_owner (H:=demo_host) (demo_row "tenant" "tenant:one" (VStr "one"))
    (demo_row "platform" "platform:root" VNull)); vm_compute; reflexivity.
Defined.

(** The platform resolves the scope of tenant one, and leaves a record; a member
    of tenant two is refused it, by key. *)
Lemma resolve_isolated_witness :
  (exists call, grants (H:=demo_host) demo_admin_args [] call (catch (demo_run demo_admin_args).1 no_resolved)) /\
  length (demo_run demo_admin_args).2 = 2 /\
  (exists e, (demo_run [("auth", demo_member); ("scopeKey", VStr "tenant:one")]).1 = Throw e).
Proof.
  split; [|split; [vm_compute; reflexivity|eexists; vm_compute; reflexivity]].
  destruct (proj1 (resolve_isolated (H:=demo_host) demo_options demo_admin_args []
    (catch (demo_run demo_admin_args).1 no_resolved) (demo_run demo_admin_args).2)) as (call & Hg & _).
  - vm_compute. reflexivity.
  - exists call. exact Hg.
Defined.
End AuthorityScope.
