(* ===== verification/PlatformTopology.v ===== *)
(** * Platform topology verification
    (src/domain/authorityScope/platformTopologyVerification.js and
    src/application/authorityScope/platformTopologyVerificationService.js)

    The evidence that a repository reads about the scope, the workspace, the brand
    and the containers of the platform is compared with what they must be; what
    is missing is reported as gaps.  Proved: there is no gap exactly when the
    evidence describes the topology, stated without the code's checks, and a
    report is only given after the audit writer has accepted a record of it. *)
From S2P Require Import Prelude JsString JsDate JsValue JsJson ApplicationSupport AuthorityScope.

Module PlatformTopology.
Import ApplicationSupport AuthorityScope.

(** ** Data *)

(** [PLATFORM_TOPOLOGY_CONTRACT], with the values of
    platformAdminWorkspaceAuthority.generated.js. *)
Definition authorityScopeKey : string := "platform:root".
Definition adminWorkspaceKey : string := "platform_admin_workspace".
Definition platformBrandTargetKey : string := "growth_intelligence_platform".

Record Gap := { gp_code : string; gp_message : string; gp_evidence : jsobj }.

(** What the repository reads, as the code takes it apart. *)
Record TopologyEvidence := {
  te_platformScope : jsval;
  te_platformOwnerTenants : list jsval;
  te_adminWorkspaces : list jsval;
  te_platformBrand : jsval;
  te_platformContainers : list jsval;
  te_workspaceContainers : list jsval;
  te_brandContainers : list jsval;
  te_relationships : list jsval;
  te_roleAssignments : list jsval;
}.

Record Assessment := { am_evidence : TopologyEvidence; am_gaps : list Gap }.

(** [rows.length === 1] *)
Definition exactlyOne (rows : list jsval) : bool := length rows =? 1.

Definition gap_if (condition : bool) (code message : string) : list Gap :=
  if condition then [{| gp_code := code; gp_message := message; gp_evidence := [] |}] else [].

(** A gap for rows that are not exactly one. *)
Definition count_gap (rows : list jsval) (subject message : string) (missing : string) : list Gap :=
  if exactlyOne rows then []
  else [{| gp_code := if 0 <? length rows then subject +:+ "_ambiguous" else missing; gp_message := message;
           gp_evidence := [("candidateCount", VNum (Some (Z.of_nat (length rows))))] |}].

Section Topology.
Context `{JsHost}.

(** [cleanString(row[key]) === text] *)
Definition field_is (row : jsval) (key text : string) : bool := ostr_eqb (cleanString (vget row key)) (Some text).

Definition rowsOf (evidence : jsval) (key : string) : list jsval := default [] (as_array (vget evidence key)).

(** Rows whose properties the code reads: none of them is [null]. *)
Definition readable (rows : list jsval) : js (list jsval) :=
  throw_if (existsb nullish rows) (TypeErr "Cannot read properties of null");; Ok rows.

Definition topologyEvidence (source : jsval) : js TopologyEvidence :=
  let evidence := match source with VUndef => VObj [] | v => v end in
  throw_if (nullish evidence) (TypeErr "Cannot read properties of null");;
  relationships ← readable (rowsOf evidence "relationships");
  roleAssignments ← readable (rowsOf evidence "roleAssignments");
  Ok {| te_platformScope := js_or (vget evidence "platformScope") VNull;
        te_platformOwnerTenants := rowsOf evidence "platformOwnerTenants";
        te_adminWorkspaces := rowsOf evidence "adminWorkspaces";
        te_platformBrand := js_or (vget evidence "platformBrand") VNull;
        te_platformContainers := rowsOf evidence "platformContainers";
        te_workspaceContainers := rowsOf evidence "workspaceContainers";
        te_brandContainers := rowsOf evidence "brandContainers"; te_relationships := relationships;
        te_roleAssignments := roleAssignments |}.

Definition scopeGaps (platformScope : jsval) : list Gap :=
  if negb (truthy platformScope) then
    gap_if true "platform_scope_missing" "Canonical platform authority scope is not registered."
  else
    gap_if (negb (field_is platformScope "scope_key" authorityScopeKey)) "platform_scope_key_mismatch"
      "Platform authority scope key does not match the canonical contract."
    ++ gap_if (negb (field_is platformScope "scope_type" "platform") || negb (field_is platformScope "status" "active"))
         "platform_scope_inactive_or_invalid" "Platform authority scope must be active and have platform scope type."
    ++ gap_if (match cleanString (vget platformScope "tenant_id") with Some _ => true | None => false end)
         "platform_scope_tenant_forbidden" "Global platform authority scope must not be tenant-owned.".

Definition brandGaps (platformBrand : jsval) : list Gap :=
  if negb (truthy platformBrand) || negb (field_is platformBrand "target_key" platformBrandTargetKey) then
    gap_if true "platform_brand_missing" "Canonical Growth Intelligence Platform brand target is not registered."
  else gap_if (negb (field_is platformBrand "status" "active")) "platform_brand_inactive"
         "Canonical Growth Intelligence Platform brand must be active.".

(** [cleanString(containers[0]?.container_id)] *)
Definition containerId (containers : list jsval) : option string :=
  match containers with row :: _ => cleanString (vget row "container_id") | [] => None end.

(** [activeEdges.some(...)] *)
Definition contains (relationships : list jsval) (from to : string) : bool :=
  existsb (fun row => field_is row "from_container_id" from && field_is row "to_container_id" to)
    (bfilter (fun row => field_is row "status" "active") relationships).

Definition relationshipGap (relationships : list jsval) (from to : option string) (code message : string) : list Gap :=
  match from, to with
  | Some f, Some t => gap_if (negb (contains relationships f t)) code message
  | _, _ => []
  end.

Definition owner_assignment (row : jsval) : bool :=
  field_is row "role_template_key" "platform_owner" && field_is row "status" "active".

Definition ownerGap (roleAssignments : list jsval) (platformContainerId : option string) : list Gap :=
  match platformContainerId with
  | Some id => gap_if (negb (existsb (fun row => field_is row "container_id" id && owner_assignment row) roleAssignments))
                 "platform_owner_assignment_missing"
                 "Global platform container requires at least one active platform_owner assignment."
  | None => []
  end.

(** [gaps], in the order they are pushed. *)
Definition gapsOf (e : TopologyEvidence) : list Gap :=
  let platformContainerId := containerId (te_platformContainers e) in
  let workspaceContainerId := containerId (te_workspaceContainers e) in
  let brandContainerId := containerId (te_brandContainers e) in
  scopeGaps (te_platformScope e)
  ++ count_gap (te_platformOwnerTenants e) "platform_owner_tenant"
       "Exactly one active platform-owner tenant is required for canonical topology verification."
       "platform_owner_tenant_missing"
  ++ count_gap (te_adminWorkspaces e) "platform_admin_workspace"
       "Exactly one workspace must carry an explicit platform-admin workspace marker; display names are not evidence."
       "platform_admin_workspace_marker_missing"
  ++ brandGaps (te_platformBrand e)
  ++ count_gap (te_platformContainers e) "global_platform_container"
       "Exactly one global platform container must represent platform:root without tenant ownership."
       "global_platform_container_missing"
  ++ count_gap (te_workspaceContainers e) "platform_admin_workspace_container"
       "Exactly one workspace container must represent the explicitly marked Platform Admin Workspace."
       "platform_admin_workspace_container_missing"
  ++ count_gap (te_brandContainers e) "platform_brand_container"
       "Exactly one brand container must represent growth_intelligence_platform." "platform_brand_container_missing"
  ++ relationshipGap (te_relationships e) platformContainerId workspaceContainerId
       "platform_admin_workspace_relationship_missing"
       "Global platform container must explicitly contain the Platform Admin Workspace container."
  ++ relationshipGap (te_relationships e) workspaceContainerId brandContainerId "platform_brand_relationship_missing"
       "Platform Admin Workspace container must explicitly contain the platform brand container."
  ++ ownerGap (te_roleAssignments e) platformContainerId.

Definition evaluatePlatformTopologyEvidence (evidence : jsval) : js Assessment :=
  e ← topologyEvidence evidence; Ok {| am_evidence := e; am_gaps := gapsOf e |}.

Definition status (a : Assessment) : string := if 0 <? length (am_gaps a) then "gaps_detected" else "verified".

Definition readinessCode (a : Assessment) : string :=
  if 0 <? length (am_gaps a) then "topology_remediation_required" else "ready_for_review".

(** ** The report *)

Definition compactRow (fields : list string) (row : jsval) : jsval :=
  if negb (truthy row) then VNull else VObj (List.map (fun field => (field, js_coalesce (vget row field) VNull)) fields).

Definition compactRows (fields : list string) (rows : list jsval) : jsval := VArr (List.map (compactRow fields) rows).

Definition js_of_gap (g : Gap) : jsval := VObj
  [("code", VStr (gp_code g)); ("message", VStr (gp_message g)); ("evidence", VObj (gp_evidence g))].

Definition count {A} (l : list A) : jsval := VNum (Some (Z.of_nat (length l))).

Definition assessment_fields (a : Assessment) : jsobj :=
  let e := am_evidence a in
  [("status", VStr (status a)); ("readinessCode", VStr (readinessCode a));
   ("contract", VObj [("authorityScopeKey", VStr authorityScopeKey); ("adminWorkspaceKey", VStr adminWorkspaceKey);
                      ("platformBrandTargetKey", VStr platformBrandTargetKey)]);
   ("summary", VObj
     [("gapCount", count (am_gaps a)); ("platformOwnerTenantCount", count (te_platformOwnerTenants e));
      ("adminWorkspaceCandidateCount", count (te_adminWorkspaces e));
      ("platformContainerCount", count (te_platformContainers e));
      ("workspaceContainerCount", count (te_workspaceContainers e));
      ("brandContainerCount", count (te_brandContainers e)); ("relationshipCount", count (te_relationships e));
      ("platformOwnerAssignmentCount", count (bfilter owner_assignment (te_roleAssignments e)))]);
   ("evidence", VObj
     [("platformScope", compactRow ["scope_id"; "scope_key"; "scope_type"; "tenant_id"; "status"; "version"]
                          (te_platformScope e));
      ("platformOwnerTenants", compactRows ["tenant_id"; "tenant_type"; "status"] (te_platformOwnerTenants e));
      ("adminWorkspaces", compactRows ["workspace_id"; "tenant_id"; "workspace_key"; "workspace_type"; "bootstrap_status"]
                            (te_adminWorkspaces e));
      ("platformBrand", compactRow ["id"; "target_key"; "status"] (te_platformBrand e));
      ("platformContainers", compactRows
         ["container_id"; "tenant_id"; "container_key"; "container_type_key"; "canonical_subject_type";
          "canonical_subject_ref"; "status"] (te_platformContainers e));
      ("workspaceContainers", compactRows ["container_id"; "tenant_id"; "container_key"; "canonical_subject_ref"; "status"]
                                (te_workspaceContainers e));
      ("brandContainers", compactRows ["container_id"; "tenant_id"; "container_key"; "canonical_subject_ref"; "status"]
                            (te_brandContainers e))]);
   ("gaps", VArr (List.map js_of_gap (am_gaps a))); ("authorityGranted", VBool false); ("providerCalls", VBool false);
   ("credentialPayloadReads", VBool false); ("externalWrites", VBool false); ("secretsIncluded", VBool false)].

Definition auditRecord (args : jsobj) (a : Assessment) : jsobj :=
  [("action", VStr "platform_topology_verification_read");
   ("actorId", oget_default args "actorId" (VStr "platform_admin"));
   ("requestId", oget_default args "requestId" VNull); ("readinessCode", VStr (readinessCode a));
   ("gapCodes", VArr (List.map (fun g => VStr (gp_code g)) (am_gaps a))); ("gapCount", count (am_gaps a))].

(** The object that is returned, at the time the clock then gives. *)
Definition report_fields (a : Assessment) (verifiedAt : Z) : jsobj :=
  [("ok", VBool true); ("verificationMode", VStr "read_only"); ("verifiedAt", VStr (toISOString verifiedAt))]
  ++ assessment_fields a.

Context `{!Ports}.

Definition verify (args : jsobj) : app Assessment :=
  evidence ← await_port readTopologyEvidence;
  assessment ← sync (evaluatePlatformTopologyEvidence evidence);
  try_port (writeAudit (auditRecord args assessment))
    (CodedErr "platform_topology_verification_audit_failed" 503
       "Platform topology verification audit event could not be persisted."
       [("stage", VStr "write_topology_verification_audit")]);;
  mret assessment.

(** ** The topology *)

(** The property has this text, up to space around it. *)
Definition says (row : jsval) (key text : string) : Prop := cleanString (vget row key) = Some text.

(** [from] is linked to [to], where both have an id. *)
Definition linked (relationships : list jsval) (from to : jsval) : Prop := forall f t,
  says from "container_id" f -> says to "container_id" t ->
  exists row, row ∈ relationships /\ says row "status" "active" /\ says row "from_container_id" f /\
    says row "to_container_id" t.

(** One platform, workspace and brand, each in one container inside the one
    before, the first with an owner. *)
Record topology (e : TopologyEvidence) : Prop := {
  tp_scope : truthy (te_platformScope e) = true /\ says (te_platformScope e) "scope_key" authorityScopeKey /\
    says (te_platformScope e) "scope_type" "platform" /\ says (te_platformScope e) "status" "active" /\
    cleanString (vget (te_platformScope e) "tenant_id") = None;
  tp_brand : truthy (te_platformBrand e) = true /\ says (te_platformBrand e) "target_key" platformBrandTargetKey /\
    says (te_platformBrand e) "status" "active";
  tp_owner : exists tenant, te_platformOwnerTenants e = [tenant];
  tp_workspace : exists workspace, te_adminWorkspaces e = [workspace];
  tp_containers : exists platform workspace brand,
    te_platformContainers e = [platform] /\ te_workspaceContainers e = [workspace] /\ te_brandContainers e = [brand] /\
    linked (te_relationships e) platform workspace /\ linked (te_relationships e) workspace brand /\
    forall id, says platform "container_id" id -> exists row, row ∈ te_roleAssignments e /\
      says row "container_id" id /\ says row "role_template_key" "platform_owner" /\ says row "status" "active";
}.

Lemma field_is_true row key text : field_is row key text = true <-> says row key text.
Proof. unfold field_is, says. apply ostr_eqb_true. Qed.

Lemma gap_if_nil b code message : gap_if b code message = [] <-> b = false.
Proof. by destruct b. Qed.

Lemma count_gap_nil rows subject message missing : count_gap rows subject message missing = [] <-> exists row, rows = [row].
Proof. unfold count_gap, exactlyOne. destruct rows as [|x [|y l]]; simpl; naive_solver. Qed.

Lemma scopeGaps_nil s : scopeGaps s = [] <->
  truthy s = true /\ says s "scope_key" authorityScopeKey /\ says s "scope_type" "platform" /\
  says s "status" "active" /\ cleanString (vget s "tenant_id") = None.
Proof.
  unfold scopeGaps. destruct (truthy s); simpl; [|naive_solver].
  rewrite !app_nil, !gap_if_nil, orb_false_iff, !negb_false_iff, !field_is_true.
  destruct (cleanString (vget s "tenant_id")); naive_solver.
Qed.

Lemma brandGaps_nil b : brandGaps b = [] <->
  truthy b = true /\ says b "target_key" platformBrandTargetKey /\ says b "status" "active".
Proof.
  unfold brandGaps. destruct (truthy b); simpl; [|naive_solver]. pose proof (field_is_true b "target_key" platformBrandTargetKey).
  destruct (field_is b "target_key" platformBrandTargetKey); simpl; [|naive_solver].
  rewrite gap_if_nil, negb_false_iff, field_is_true. naive_solver.
Qed.

Lemma contains_true relationships f t : contains relationships f t = true <->
  exists row, row ∈ relationships /\ says row "status" "active" /\ says row "from_container_id" f /\
    says row "to_container_id" t.
Proof.
  unfold contains. rewrite existsb_elem_of. setoid_rewrite elem_of_bfilter. setoid_rewrite andb_true_iff.
  setoid_rewrite field_is_true. naive_solver.
Qed.

Lemma relationshipGap_nil relationships from to code message :
  relationshipGap relationships (containerId [from]) (containerId [to]) code message = [] <-> linked relationships from to.
Proof.
  unfold relationshipGap, linked, says, containerId.
  destruct (cleanString (vget from "container_id")) as [f|], (cleanString (vget to "container_id")) as [t|]; try naive_solver.
  rewrite gap_if_nil, negb_false_iff, contains_true. unfold says. naive_solver.
Qed.

Lemma ownerGap_nil roleAssignments platform : ownerGap roleAssignments (containerId [platform]) = [] <->
  forall id, says platform "container_id" id -> exists row, row ∈ roleAssignments /\
    says row "container_id" id /\ says row "role_template_key" "platform_owner" /\ says row "status" "active".
Proof.
  unfold ownerGap, containerId, owner_assignment. destruct (cleanString (vget platform "container_id")) as [id|] eqn:E.
  - rewrite gap_if_nil, negb_false_iff, existsb_elem_of. setoid_rewrite andb_true_iff. setoid_rewrite andb_true_iff.
    setoid_rewrite field_is_true. unfold says at 4. rewrite E. naive_solver.
  - unfold says at 1. rewrite E. naive_solver.
Qed.

Lemma gapsOf_nil e : gapsOf e = [] <-> topology e.
Proof.
  unfold gapsOf. cbv zeta. rewrite !app_nil, scopeGaps_nil, brandGaps_nil, !count_gap_nil. split.
  - intros (Hs & Ho & Hw & Hb & (p & Hp) & (w & Hwc) & (b & Hbc) & Hr1 & Hr2 & Ha).
    rewrite Hp, Hwc in Hr1. rewrite Hwc, Hbc in Hr2. rewrite Hp in Ha.
    split; [done|done|done|done|]. exists p, w, b. rewrite relationshipGap_nil in Hr1, Hr2. rewrite ownerGap_nil in Ha. done.
  - intros [Hs Hb Ho Hw (p & w & b & Hp & Hwc & Hbc & Hr1 & Hr2 & Ha)].
    split; [done|]. split; [done|]. split; [done|]. split; [done|]. split; [by exists p|]. split; [by exists w|].
    split; [by exists b|]. rewrite Hp, Hwc, Hbc, !relationshipGap_nil, ownerGap_nil. done.
Qed.

(** C22: A verification reports what the repository answered, after one lookup and
    one audit record that the writer accepted, which names the gaps: there are
    none, and the topology is verified, exactly when the evidence has the one
    active platform scope, owner tenant, marked workspace and brand, and one
    container for each, linked in turn and owned. *)
Theorem verify_reports args h a h' :
  verify args h = (Ok a, h') ->
  exists evidence, answer h readTopologyEvidence = Ok evidence /\
    evaluatePlatformTopologyEvidence evidence = Ok a /\
    (status a = "verified" <-> topology (am_evidence a)) /\
    (readinessCode a = "ready_for_review" <-> topology (am_evidence a)) /\
    let record := writeAudit (auditRecord args a) in
    h' = h ++ [readTopologyEvidence; record] /\ (exists v, answer (h ++ [readTopologyEvidence]) record = Ok v) /\
    oget (auditRecord args a) "gapCodes" = VArr (List.map (fun g => VStr (gp_code g)) (am_gaps a)).
Proof.
  unfold verify. intros (evidence & h1 & [He ->]%await_Ok & Hr)%app_bind_Ok.
  apply app_bind_Ok in Hr as (a' & h1 & [Ha ->]%sync_Ok & Hr). apply app_bind_Ok in Hr as (v & h1 & Hw & Hr).
  apply mret_inv in Hr as [Heq ->]. apply Ok_inj in Heq. subst a'.
  exists evidence. split; [done|]. split; [done|].
  assert (am_gaps a = [] <-> topology (am_evidence a)) as Hgaps.
  { unfold evaluatePlatformTopologyEvidence in Ha. apply bind_Ok in Ha as (e & _ & Ha). apply Ok_inj in Ha. subst a. apply gapsOf_nil. }
  rewrite <- Hgaps. unfold status, readinessCode. split; [by destruct (am_gaps a)|]. split; [by destruct (am_gaps a)|].
  unfold try_port in Hw. destruct (answer _ (writeAudit _)) as [w|] eqn:E; [|done]. injection Hw as _ <-.
  rewrite <- app_assoc. split; [done|]. split; [by exists w|done].
Qed.
End Topology.

(** ** A verified platform *)

Definition demo_container (id : string) : jsval := VObj [("container_id", VStr id)].
Definition demo_edge (from to : string) : jsval := VObj
  [("from_container_id", VStr from); ("to_container_id", VStr to); ("status", VStr "active")].

Definition demo_evidence (edges : list jsval) : jsval := VObj
  [("platformScope", VObj [("scope_key", VStr "platform:root"); ("scope_type", VStr "platform"); ("status", VStr "active")]);
   ("platformOwnerTenants", VArr [VObj []]); ("adminWorkspaces", VArr [VObj []]);
   ("platformBrand", VObj [("target_key", VStr "growth_intelligence_platform"); ("status", VStr "active")]);
   ("platformContainers", VArr [demo_container "p"]); ("workspaceContainers", VArr [demo_container "w"]);
   ("brandContainers", VArr [demo_container "b"]); ("relationships", VArr edges);
   ("roleAssignments", VArr [VObj [("container_id", VStr "p"); ("role_template_key", VStr "platform_owner");
                                   ("status", VStr "active")]])].

Definition demo_ports (edges : list jsval) : Ports := {|
  answer := fun _ call => match call with readTopologyEvidence => Ok (demo_evidence edges) | _ => Ok VUndef end
|}.

Definition no_assessment : Assessment :=
  {| am_evidence := {| te_platformScope := VNull; te_platformOwnerTenants := []; te_adminWorkspaces := [];
       te_platformBrand := VNull; te_platformContainers := []; te_workspaceContainers := []; te_brandContainers := [];
       te_relationships := []; te_roleAssignments := [] |}; am_gaps := [] |}.

Definition demo_run (edges : list jsval) : js Assessment * list port_call :=
  verify (H:=demo_host) (H0:=demo_ports edges) [] [].
Definition demo_assessment (edges : list jsval) : Assessment := catch (demo_run edges).1 no_assessment.

(** Without the second link the topology has a gap. *)
Lemma verify_reports_witness :
  topology (H:=demo_host) (am_evidence (demo_assessment [demo_edge "p" "w"; demo_edge "w" "b"])) /\
  ~ topology (H:=demo_host) (am_evidence (demo_assessment [demo_edge "p" "w"])).
Proof.
  split.
  - destruct (verify_reports (H:=demo_host) (H0:=demo_ports [demo_edge "p" "w"; demo_edge "w" "b"]) [] []
      (demo_assessment [demo_edge "p" "w"; demo_edge "w" "b"]) (demo_run [demo_edge "p" "w"; demo_edge "w" "b"]).2)
      as (evidence & _ & _ & Hs & _); [vm_compute; reflexivity|]. apply Hs. vm_compute. reflexivity.
  - destruct (verify_reports (H:=demo_host) (H0:=demo_ports [demo_edge "p" "w"]) [] []
      (demo_assessment [demo_edge "p" "w"]) (demo_run [demo_edge "p" "w"]).2)
      as (evidence & _ & _ & Hs & _); [vm_compute; reflexivity|]. intros Ht%Hs. vm_compute in Ht. discriminate.
Defined.
End PlatformTopology.
